(* ===== verification/_CoqProject ===== *)
-Q . S2P
Prelude.v
CString.v
Shims.v
Ipc.v
BlockDev.v
Ata.v
Bcache.v
VernisFs.v
Fat32.v
Ext2.v
Kfs.v
LogRing.v
AuditLog.v
Klog.v
Sha256.v
UserDb.v
Sandbox.v
AiEngine.v
AiBridge.v
Policy.v
Module.v
Dylib.v
Inet.v
Tcp.v
Udp.v
Net.v
Frames.v
Paging.v
AddressSpace.v
UserPages.v
Console.v
Terminal.v
Mouse.v
Acpi.v
Pci.v
Nvme.v
Ahci.v
Drives.v
E1000.v
Rtc.v
Kernel.v
Tasks.v
Isolation.v
Scheduling.v
Fds.v
Elf.v
Syscalls.v
Processes.v
Cli.v
SelfTest.v
LineEdit.v
Shell.v
Printf.v
ShellIpc.v
ShellFiles.v
ShellNet.v
ShellDisk.v
ShellInfo.v
ShellLines.v
Userlib.v
UserPrograms.v
UserKernel.v
