(* ===== verification/Prelude.v ===== *)
(** * VernisOS: a verification library for the kernel

    VernisOS is a small operating system: a 64-bit kernel written in C (src/kernel,
    src/include), with a scheduler, a module registry and an AI engine in Rust
    behind C interfaces.  This library models the C parts of the 64-bit kernel, its
    device drivers and the user library as executable functions on explicit states and
    as interaction trees, and proves what each part promises to the others.

    ** How the kernel is put together

    Every entry into the kernel is an interrupt: kernel_x64.c's interrupt_dispatch
    serves the timer (which switches tasks round robin), the keyboard, page faults
    and int 0x80, the system calls.  A system call works on the caller's task slot
    (descriptors, memory areas, credentials), on its address space (page tables over
    a frame allocator with reference counts, copy-on-write after fork), and on the
    shared services: pipes, the terminal, sockets, IPC, modules, files.  Files go
    through vfs.c, which routes a path to pseudo files, to VernisFS, or to a
    read-only FAT32 or ext2 volume; all three read sectors through the block cache
    bcache.c, below which are the disk controllers.  Received network frames are
    dispatched to ARP, ICMP, UDP and TCP; TCP and UDP hand segments back to the IP
    layer through an output callback.  The shell cli.c runs in the kernel: it reads
    lines from the console, checks each command against a table of privileges and
    the policy of the AI engine, records refusals in the audit log, and calls the
    other parts.  Users come from /etc/shadow, hashed with SHA-256.

    ** Which file models what

    A definition has the name of the C function, type or variable that it
    translates, and its comment gives the source file in brackets.

    - Prelude: machine integers, arrays, byte buffers, flat memory, circular
      buffers, record update, the tactics and hints.  CString: the loops behind the
      private copies of strcmp, strncpy and strlen.  LogRing: rings of records.
      BlockDev: the class of sector devices, with the laws a working disk obeys and
      a disk in memory that satisfies them.  Inet: byte order and the Internet
      checksum.  Shims: the memory functions given to Rust (shims/rust_shims.c).
    - Drivers (arch/x86_64/kernel_x64.c unless named): Ata (ATA transfers of
      fs/vernisfs.c and security/policy_loader.c), Nvme and Ahci, Pci, E1000 (network
      card), Terminal (text display), Mouse, Acpi (drivers/acpi.c).  Drives puts
      the NVMe driver under the disk layer and the file system.
    - Storage: Bcache (fs/bcache.c), VernisFs (fs/vernisfs.c), Fat32 (fs/fat32.c),
      Ext2 (fs/ext2.c), Kfs (fs/vfs.c).  The cache is an instance of the class it
      is written against, so the file systems' theorems hold over the bare disk
      and over the cached one.
    - Logs and security: AuditLog, Klog, Sha256, UserDb, Sandbox, Policy (the files
      of the same names in security/ and log/); AiEngine (drivers/ai_engine.c) and
      AiBridge (drivers/ai_bridge.c).
    - Code at run time: Module (module/module.c) and Dylib (module/dylib.c).
    - IPC: Ipc (ipc/ipc.c).
    - Network: Tcp (net/tcp.c), Udp (net/udp.c, with the DHCP and DNS clients), and
      Net, the Ethernet, ARP and IPv4 layer of kernel_x64.c.
    - Memory of the 64-bit kernel (arch/x86_64/kernel_x64.c): Frames (allocator and
      reference counts), Paging (page tables, copy-on-write), AddressSpace (the
      spaces of all processes), UserPages (ranges mapped for programs).
    - Processes of the 64-bit kernel: Console (keyboard, serial port, terminal), Rtc,
      Kernel (the state), Tasks (switch, fork, exit, kill, sbrk, faults), Isolation
      and Scheduling (theorems about them), Fds (descriptors, pipes), Elf (program
      loader, execve), Syscalls (interrupt_dispatch), Processes (all entries).
    - The shell (shell/cli.c): Cli (sessions, tokenizer, splitter), LineEdit (line
      editor, history), Shell (access checks, commands, su, login), ShellLines
      (lists of commands, pipes); the handlers of its commands: Printf (their output),
      ShellIpc, ShellFiles, ShellNet, ShellDisk, ShellInfo.  SelfTest
      (selftest/selftest.c) runs the components against themselves.
    - User space (src/userlib): Userlib (system call wrappers, C library, a logic of
      programs), UserPrograms (init, getty, login, vsh), UserKernel (login on the
      kernel's system calls).

    ** How the code is modelled

    - State: the static variables of a file are a record; a pointer into a static
      table is its index; a function returns its value and the new state.  The
      components above compose as the code composes them: [Kernel.Kernel] holds the
      states of the components that system calls reach.
    - Integers are [Z] with the wrap-around written out ([u8] to [u64], [i32]); arrays
      are lists of fixed length, [geti] and [puti] their accesses; a C string is the
      bytes up to the first NUL.
    - Failure: error codes as in the code; [None] where the machine halts or a wait
      does not end; [Loops] or [Hangs] where a cyclic cluster chain would be followed
      for ever.
    - Devices are classes of registers or ports (PortIO, NvmeCtl, Hba, PciBus), and the
      laws of a class (AtaLaws, NvmeLaws, HbaLaws) say what the device's standard does;
      the network card works beside the driver by steps of its own (E1000).
    - User programs are interaction trees whose events are int 0x80; their memory holds
      the arguments of calls, and what they ask is proved for every answer.
    - Code outside the C sources - the devices, the Rust engine,
      the Rust scheduler, the interrupts during a wait - is a parameter or a class;
      where a theorem relies on it, the class's laws state what is documented of it,
      and an instance shows that they can hold.
    - The keyboard, the serial ports and the clock are inputs: lists of the bytes that
      arrive, the readings of counters.

    ** Fuel

    A loop that is not structural takes fuel.  Cluster chains (Fat32) have no bound
    in the code either: one unit per cluster, and [Loops] is the statement that the
    chain is longer.  The loops over ext2 directories and blocks compute their own
    fuel from the sizes on the disk, and Ext2.ext2_terminates proves that it is
    enough on any disk.  The shell's recursion through pipes and su needs 257 units,
    one more than the size of the largest command (Shell.process_line_terminates);
    the tokenizer's fuel is the length of the line (Cli.parse_loop_fuel).  Polling
    loops (Fds, Net, Udp, AiBridge) take the number of polls, as the code counts
    them, or the list of what happens between two polls; those of the drivers (Ata,
    Nvme, Ahci, Mouse) have the code's bounds, 100000 to 4000000 polls.  What runs on
    without an end, the user programs, needs no fuel: it is a tree.

    ** What the theorems show

    - Memory: each process's memory is its own: creation, fork, copy-on-write faults,
      sbrk and release refine independent memories (AddressSpace), frames are never
      handed out twice or freed while shared (Frames), and no entry into the kernel
      breaks this or raises a task's credentials (Processes).
    - Processes: fork, execve (Isolation, Elf) do what they should on every branch; a
      runnable task runs again within eight slices (Scheduling); pipes are bounded
      queues (Fds); the console refines a queue of keys and a line editor (Console).
    - Storage: the cache is invisible and sync makes it durable (Bcache); a file
      written is read back after a remount (VernisFs); FAT32 and ext2 read what the
      disk describes (Fat32, Ext2); paths reach the component that owns them (Kfs).
    - IPC and network: queues are FIFO per owner (Ipc); a TCP receiver delivers a
      prefix of the sender's stream, the sender sends what was given to it, the
      state machine follows its diagram, segments carry valid checksums (Tcp); a
      datagram sent by one host is received by the other, frame by frame (Net).
    - Security: hashing is FIPS 180-4 (Sha256); logging in follows the shadow file
      (UserDb); the sandbox allows what capabilities allow and pointers in its region
      (Sandbox); shell commands run only with clearance, refusals are recorded,
      privileges change only by login and logout, su gives root to one command
      (Shell).
    - Text: shell lines run as lists of commands, pipes carry text unchanged
      (ShellLines), the line editor is the abstract one (LineEdit); the AI protocol's
      answers and commands are parsed as they were written (AiBridge).

    - Drivers: ATA and NVMe transfers are reads and writes of a medium of sectors (Ata,
      Nvme), and files survive on it (Drives); the AHCI driver's command tables are all
      fetched from address 0, for it clears their address (Ahci); frames cross the
      card's rings in order (E1000); the screen shows the last rows printed
      (Terminal); power-off writes what the tables ask for (Acpi); the mouse's packets
      are those of the stream (Mouse).
    - User space: login runs the shell as the user whose password was checked
      (UserKernel); the user shell asks for programs by absolute paths only
      (UserPrograms).  The self tests pass exactly when the components are in the state
      they should be in (SelfTest).

    The remaining lemmas state the behaviour of the other operations (name lookup,
    directory operations, logs, module loading, policies); lemmas at the end of some
    files record behaviour of the code that is not what it means to do.

    ** What is not modelled

    The set-up of serial port, timer and interrupt controllers (fixed port writes); the
    boot code and assembly stubs; the Rust code; the graphical interface's bridge; of
    user space the test programs netcat, tcpsrv and forktest.  kernel_x86.c is a 32-bit
    twin of kernel_x64.c: most of its network, disk, PCI, clock and console code is the
    same text, for which this library names the 64-bit file; its own dispatcher,
    descriptors and two-level paging are not modelled.  Of the shell, the commands
    that are not in the files above are the parameter [other] of Shell, and what the
    editor draws is modelled only where Terminal says so.  Messages on the serial port
    are left out everywhere. *)

From stdpp Require Export base tactics numbers list gmap.
From Stdlib Require Export ZArith Lia ZifyBool.

#[export] Set Default Goal Selector "!".
Declare Scope vos_scope.
Delimit Scope vos_scope with vos.
#[export] Set Warnings "-notation-overridden".
Global Open Scope Z_scope.

(** ** Machine integers: values are [Z], wrap-around is written out. *)

Definition u8 (z : Z) : Z := z mod 2 ^ 8.
Definition u16 (z : Z) : Z := z mod 2 ^ 16.
Definition u32 (z : Z) : Z := z mod 2 ^ 32.
Definition u64 (z : Z) : Z := z mod 2 ^ 64.
(** Conversion of an unsigned 32-bit value to [int32_t] / [int]. *)
Definition i32 (z : Z) : Z := (z + 2 ^ 31) mod 2 ^ 32 - 2 ^ 31.

Definition is_u8 (z : Z) : Prop := 0 <= z < 2 ^ 8.
Definition is_u16 (z : Z) : Prop := 0 <= z < 2 ^ 16.
Definition is_u32 (z : Z) : Prop := 0 <= z < 2 ^ 32.
Definition is_u64 (z : Z) : Prop := 0 <= z < 2 ^ 64.

Lemma u8_is z : is_u8 (u8 z).
Proof. apply Z.mod_pos_bound. lia. Qed.
Lemma u16_is z : is_u16 (u16 z).
Proof. apply Z.mod_pos_bound. lia. Qed.
Lemma u32_is z : is_u32 (u32 z).
Proof. apply Z.mod_pos_bound. lia. Qed.
Lemma u64_is z : is_u64 (u64 z).
Proof. apply Z.mod_pos_bound. lia. Qed.
Lemma u8_id z : is_u8 z -> u8 z = z.
Proof. intros; apply Z.mod_small; assumption. Qed.
Lemma u16_id z : is_u16 z -> u16 z = z.
Proof. intros; apply Z.mod_small; assumption. Qed.
Lemma u32_id z : is_u32 z -> u32 z = z.
Proof. intros; apply Z.mod_small; assumption. Qed.
Lemma u64_id z : is_u64 z -> u64 z = z.
Proof. intros; apply Z.mod_small; assumption. Qed.
Lemma i32_id z : - 2 ^ 31 <= z < 2 ^ 31 -> i32 z = z.
Proof. intros. unfold i32. rewrite Z.mod_small; lia. Qed.

Create HintDb vos discriminated.
#[export] Hint Resolve u8_is u16_is u32_is u64_is : vos.

(** Unfolds the ranges and wrap-arounds, then linear arithmetic. *)
Ltac zify_u :=
  unfold is_u8, is_u16, is_u32, is_u64 in *;
  change (2 ^ 8) with 256 in *; change (2 ^ 16) with 65536 in *;
  change (2 ^ 24) with 16777216 in *; change (2 ^ 31) with 2147483648 in *;
  change (2 ^ 32) with 4294967296 in *;
  change (2 ^ 64) with 18446744073709551616 in *.
Ltac ulia := zify_u; lia.
(** The same, with division and remainder by constants. *)
Ltac dlia := zify_u; Z.to_euclidean_division_equations; lia.
(** The constants of the sources are unfolded by [clia]. *)
Create HintDb consts.
Ltac clia := autounfold with consts in *; zify_u; lia.
(** Closed conjunctions of comparisons. *)
Ltac closed_bounds := repeat split; vm_compute; first [reflexivity | congruence].
Ltac unwrap :=
  unfold u8, u16, u32, u64 in *; zify_u;
  repeat match goal with
  | |- context [?a mod ?n] => rewrite (Z.mod_small a n) by lia
  | H : context [?a mod ?n] |- _ => rewrite (Z.mod_small a n) in H by lia
  end.

(** ** Record update [r <| f := v |>]: the setter of a projection is found
    by abstracting the projection in the eta-expansion of the record. *)

Class Eta (R : Type) := eta_expand : R -> R.
Class Upd {R T : Type} (proj : R -> T) := upd_with : (T -> T) -> R -> R.

Ltac derive_upd :=
  lazymatch goal with
  | |- @Upd ?R ?T ?p =>
      let h := constr:(_ : Eta R) in
      let e := eval hnf in h in
      let g := fresh "g" in let r := fresh "r" in
      intros g r;
      let body := eval cbv beta in (e r) in
      lazymatch eval pattern (p r) in body with
      | ?F _ => let t := eval cbv beta in (F (g (p r))) in exact t
      end
  end.
#[export] Hint Extern 1 (Upd _) => derive_upd : typeclass_instances.

Notation "r <| f := v |>" := (upd_with (proj := f) (fun _ => v) r)
  (at level 12, left associativity, f at level 11, v at level 200,
   format "r  <| f  :=  v |>") : vos_scope.
Global Open Scope vos_scope.

(** ** Case analysis on boolean tests. *)

Ltac bdestruct b :=
  lazymatch b with
  | Z.eqb ?x ?y => destruct (Z.eqb_spec x y)
  | Z.ltb ?x ?y => destruct (Z.ltb_spec x y)
  | Z.leb ?x ?y => destruct (Z.leb_spec x y)
  | Z.geb ?x ?y => rewrite (Z.geb_leb x y); destruct (Z.leb_spec y x)
  | Z.gtb ?x ?y => rewrite (Z.gtb_ltb x y); destruct (Z.ltb_spec y x)
  | _ => let E := fresh "E" in destruct b eqn:E
  end.
(** Destruct the innermost scrutinee of the next [if]/[match] of the goal. *)
Ltac case_step :=
  match goal with
  | |- context [if ?b then _ else _] =>
      lazymatch b with
      | context [if _ then _ else _] => fail
      | context [match _ with _ => _ end] => fail
      | _ => bdestruct b
      end
  | |- context [match ?x with _ => _ end] =>
      lazymatch x with
      | context [match _ with _ => _ end] => fail
      | _ => let E := fresh "E" in destruct x eqn:E
      end
  end.

(** ** Arrays indexed by machine integers. *)

Section arrays.
Context {A : Type} `{Inhabited A}.

(** [geti l i] is [l[i]]; [puti l i v] is the store [l[i] = v]. *)
Definition geti (l : list A) (i : Z) : A := l !!! Z.to_nat i.
Definition puti (l : list A) (i : Z) (v : A) : list A := <[Z.to_nat i := v]> l.

Lemma length_puti l i v : length (puti l i v) = length l.
Proof. apply length_insert. Qed.

Lemma geti_puti_eq l i v :
  0 <= i < Z.of_nat (length l) -> geti (puti l i v) i = v.
Proof. intros. unfold geti, puti. apply list_lookup_total_insert_eq. lia. Qed.

Lemma geti_puti_ne l i j v :
  0 <= i -> 0 <= j -> i <> j -> geti (puti l i v) j = geti l j.
Proof. intros. unfold geti, puti. apply list_lookup_total_insert_ne. lia. Qed.

Lemma geti_lookup l i :
  0 <= i < Z.of_nat (length l) -> l !! Z.to_nat i = Some (geti l i).
Proof. intros. apply list_lookup_lookup_total_lt. lia. Qed.

Lemma lookup_geti l (n : nat) x : l !! n = Some x -> geti l (Z.of_nat n) = x.
Proof.
  intros. unfold geti. rewrite Nat2Z.id. by apply list_lookup_total_correct.
Qed.

Lemma geti_Forall (P : A -> Prop) l i :
  Forall P l -> 0 <= i < Z.of_nat (length l) -> P (geti l i).
Proof.
  intros HF Hi. eapply Forall_lookup_1; [exact HF|]. by apply geti_lookup.
Qed.

Lemma puti_Forall (P : A -> Prop) l i v :
  Forall P l -> P v -> Forall P (puti l i v).
Proof. intros. by apply Forall_insert. Qed.

Lemma puti_same l i v w : puti (puti l i v) i w = puti l i w.
Proof. unfold puti. by rewrite list_insert_insert_eq. Qed.
End arrays.

(** ** First index satisfying a test: the [for ... if (...) return i] loop. *)

Section find_idx.
Context {A : Type}.
Implicit Types (f : A -> bool) (l : list A).

Fixpoint find_idx f l : option nat :=
  match l with
  | [] => None
  | x :: l' => if f x then Some O else S <$> find_idx f l'
  end.

Lemma find_idx_Some f l i :
  find_idx f l = Some i ->
  (exists x, l !! i = Some x /\ f x = true) /\
  (forall j x, (j < i)%nat -> l !! j = Some x -> f x = false).
Proof.
  revert i; induction l as [|x l IH]; intros i; simpl; [done|].
  destruct (f x) eqn:E.
  - intros [= <-]. split; [by exists x|]. intros; lia.
  - destruct (find_idx f l) as [k|]; [|done]. intros [= <-].
    destruct (IH k eq_refl) as [H1 H2]. split; [done|].
    intros [|j] y Hj; simpl; [by intros [= <-]|]. apply H2. lia.
Qed.

Lemma find_idx_None f l :
  find_idx f l = None <-> forall x, x ∈ l -> f x = false.
Proof.
  induction l as [|x l IH]; simpl.
  - split; [|done]. intros _ x Hx. by apply elem_of_nil in Hx.
  - destruct (f x) eqn:E; split.
    + done.
    + intros Hf. rewrite Hf in E; [done|]. apply elem_of_cons; auto.
    + destruct (find_idx f l); [done|]. intros _ y [->|Hy]%elem_of_cons; [done|].
      by apply IH.
    + intros Hf. rewrite (proj2 IH); [done|]. intros y Hy. apply Hf.
      apply elem_of_cons; auto.
Qed.

Lemma find_idx_lt f l i : find_idx f l = Some i -> (i < length l)%nat.
Proof.
  intros [[x [Hx _]] _]%find_idx_Some. by eapply lookup_lt_Some.
Qed.

Lemma find_idx_intro f l i x :
  l !! i = Some x -> f x = true ->
  (forall j y, (j < i)%nat -> l !! j = Some y -> f y = false) ->
  find_idx f l = Some i.
Proof.
  revert i; induction l as [|z l IH]; intros i Hi Hf Hlt; [done|].
  destruct i as [|i]; simpl in *.
  - injection Hi as ->. by rewrite Hf.
  - rewrite (Hlt 0%nat z) by (done || lia). rewrite (IH i); [done|done|done|].
    intros j y Hj Hy. apply (Hlt (S j) y); [lia|done].
Qed.

Lemma find_idx_insert f l i x :
  (forall y, l !! i = Some y -> f y = f x) ->
  find_idx f (<[i := x]> l) = find_idx f l.
Proof.
  revert i; induction l as [|y l IH]; intros i Hf; [done|].
  destruct i as [|i]; simpl; [by rewrite (Hf y)|]. by rewrite IH.
Qed.

(** A unique match is the one found. *)
Lemma find_idx_unique f l i x :
  l !! i = Some x -> f x = true ->
  (forall j y, l !! j = Some y -> f y = true -> j = i) ->
  find_idx f l = Some i.
Proof.
  intros Hi Hf Hu. apply (find_idx_intro f l i x); [done..|].
  intros j y Hj Hy. destruct (f y) eqn:E; [|done]. apply Hu in Hy; [lia|done].
Qed.
End find_idx.

(** Finitely many cases. *)
Lemma forall_below (P : Z -> bool) (n : nat) v : forallb P (Z.of_nat <$> seq 0 n) = true -> 0 <= v < Z.of_nat n -> P v = true.
Proof.
  intros Hall Hv. rewrite forallb_forall in Hall. apply Hall. rewrite <- list_elem_of_In. apply list_elem_of_fmap.
  exists (Z.to_nat v). split; [lia|]. apply elem_of_seq. lia.
Qed.

(** ** Circular buffers.  [ring_view l cap h n] lists the [n] elements that
    start at index [h] of the array [l] of [cap] slots. *)

Section ring.
Context {A : Type} `{Inhabited A}.
Implicit Types (l : list A).

Definition ring_view l (cap h : Z) (n : nat) : list A :=
  (fun i : nat => geti l ((h + Z.of_nat i) mod cap)) <$> seq 0 n.

Lemma length_ring_view l cap h n : length (ring_view l cap h n) = n.
Proof. unfold ring_view. by rewrite length_fmap, length_seq. Qed.

Lemma ring_view_0 l cap h : ring_view l cap h 0 = [].
Proof. done. Qed.

Lemma ring_view_mod l cap h n :
  ring_view l cap (h mod cap) n = ring_view l cap h n.
Proof.
  unfold ring_view. apply list_fmap_ext. intros i x _.
  by rewrite Zplus_mod_idemp_l.
Qed.

Lemma ring_view_app l cap h n m :
  ring_view l cap h (n + m) =
  ring_view l cap h n ++ ring_view l cap (h + Z.of_nat n) m.
Proof.
  unfold ring_view. rewrite seq_app, fmap_app. f_equal. rewrite Nat.add_0_l.
  rewrite <- (Nat.add_0_r n) at 1. rewrite <- fmap_add_seq, <- list_fmap_compose.
  apply list_fmap_ext. intros i x _. simpl. do 2 f_equal. lia.
Qed.

Lemma ring_view_pop l cap h n :
  ring_view l cap h (S n) =
  geti l (h mod cap) :: ring_view l cap ((h + 1) mod cap) n.
Proof.
  rewrite ring_view_mod. change (S n) with (1 + n)%nat.
  rewrite ring_view_app. simpl. by rewrite Z.add_0_r.
Qed.

Lemma ring_view_insert_other l cap h n (k : Z) v :
  0 < cap -> Z.of_nat n <= k < cap ->
  ring_view (puti l ((h + k) mod cap) v) cap h n = ring_view l cap h n.
Proof.
  intros Hc Hk. unfold ring_view. apply list_fmap_ext.
  intros i x [-> Hi]%lookup_seq. simpl. apply geti_puti_ne.
  1, 2: by apply Z.mod_pos_bound.
  intros He. assert (Hd : ((h + k) - (h + Z.of_nat i)) mod cap = 0).
  { rewrite Zminus_mod, He, Z.sub_diag. by rewrite Z.mod_0_l by lia. }
  replace ((h + k) - (h + Z.of_nat i)) with (k - Z.of_nat i) in Hd by lia.
  rewrite Z.mod_small in Hd; lia.
Qed.

Lemma ring_view_push l cap h n v :
  0 < cap -> Z.of_nat (length l) = cap -> Z.of_nat n < cap ->
  ring_view (puti l ((h + Z.of_nat n) mod cap) v) cap h (S n) =
  ring_view l cap h n ++ [v].
Proof.
  intros Hc Hl Hn. replace (S n) with (n + 1)%nat by lia.
  rewrite ring_view_app. f_equal.
  - apply ring_view_insert_other; lia.
  - unfold ring_view. simpl. rewrite Z.add_0_r. f_equal.
    apply geti_puti_eq. rewrite Hl. by apply Z.mod_pos_bound.
Qed.

Lemma ring_view_Forall (P : A -> Prop) l cap h n :
  0 < cap -> Z.of_nat (length l) = cap -> Forall P l ->
  Forall P (ring_view l cap h n).
Proof.
  intros Hc Hl HF. unfold ring_view. apply Forall_fmap, Forall_forall.
  intros i _. simpl. apply geti_Forall; [done|]. rewrite Hl.
  by apply Z.mod_pos_bound.
Qed.
End ring.

(** ** Bytes, buffers and memory. *)

Abbreviation bytes := (list Z).
Definition bytes_ok (l : bytes) : Prop := Forall is_u8 l.
Definition zeros (n : nat) : bytes := replicate n 0.

#[global] Arguments zeros : simpl never.

Lemma zeros_ok n : bytes_ok (zeros n).
Proof. apply Forall_replicate. ulia. Qed.
#[export] Hint Resolve zeros_ok : vos.

(** The [n] bytes read through a pointer to [l]. *)
Definition read_n (l : bytes) (n : nat) : bytes :=
  (fun i : nat => geti l (Z.of_nat i)) <$> seq 0 n.

Lemma length_read_n l n : length (read_n l n) = n.
Proof. unfold read_n. by rewrite length_fmap, length_seq. Qed.

Lemma read_n_take l n : (n <= length l)%nat -> read_n l n = take n l.
Proof.
  intros Hn. apply list_eq_same_length with n.
  - by rewrite length_take_le.
  - by rewrite length_read_n.
  - intros i x y Hi. unfold read_n. rewrite list_lookup_fmap.
    rewrite lookup_seq_lt by done. rewrite lookup_take_lt by done. simpl.
    intros [= <-] Hy. by apply lookup_geti.
Qed.

Lemma read_n_all l n : length l = n -> read_n l n = l.
Proof. intros <-. rewrite read_n_take by lia. apply take_ge. lia. Qed.

Lemma read_n_ok l n : bytes_ok l -> bytes_ok (read_n l n).
Proof.
  intros Hl. unfold read_n. apply Forall_fmap, Forall_forall. intros i _. simpl.
  unfold geti. rewrite Nat2Z.id. rewrite list_lookup_total_alt.
  destruct (l !! i) as [b|] eqn:E; simpl; [|ulia].
  by eapply Forall_lookup_1 in Hl; [|exact E].
Qed.

(** [blit dst off src]: the bytes of [src] stored at [dst + off]. *)
Definition blit (dst : bytes) (off : nat) (src : bytes) : bytes :=
  take off dst ++ src ++ drop (off + length src) dst.

Lemma length_blit dst off src :
  (off + length src <= length dst)%nat -> length (blit dst off src) = length dst.
Proof. intros. unfold blit. rewrite !length_app, length_take, length_drop. lia. Qed.

Lemma blit_ok dst off src : bytes_ok dst -> bytes_ok src -> bytes_ok (blit dst off src).
Proof.
  intros. unfold blit, bytes_ok. rewrite !Forall_app.
  split; [by apply Forall_take|]. split; [done|]. by apply Forall_drop.
Qed.

Lemma take_drop_blit dst off src :
  (off <= length dst)%nat ->
  take (length src) (drop off (blit dst off src)) = src.
Proof.
  intros. unfold blit. rewrite drop_app_length' by (rewrite length_take; lia).
  by rewrite take_app_length.
Qed.

Lemma blit_0 dst src : blit dst 0 src = src ++ drop (length src) dst.
Proof. done. Qed.
Lemma blit_full dst src : length dst = length src -> blit dst 0 src = src.
Proof. intros Hl. rewrite blit_0, drop_ge by lia. apply app_nil_r. Qed.

(** Two adjacent stores are one store. *)
Lemma blit_blit_adj dst off s1 s2 :
  (off <= length dst)%nat ->
  blit (blit dst off s1) (off + length s1) s2 = blit dst off (s1 ++ s2).
Proof.
  intros Ho. unfold blit. rewrite length_app.
  assert (Hl : length (take off dst) = off) by (rewrite length_take; lia).
  rewrite take_app_add' by done. rewrite take_app_length.
  rewrite <- Nat.add_assoc, drop_app_add' by done.
  rewrite drop_app_add' by done.
  rewrite drop_drop, <- !app_assoc. do 4 f_equal. lia.
Qed.

Lemma puti_blit (d : bytes) (k : Z) c :
  0 <= k < Z.of_nat (length d) -> puti d k c = blit d (Z.to_nat k) [c].
Proof.
  intros Hk. unfold puti, blit. rewrite insert_take_drop by lia.
  do 2 f_equal. simpl. do 2 f_equal. lia.
Qed.

(** A flat memory, for the entry points that receive addresses. *)
Definition memory := Z -> Z.
Definition mem_read (m : memory) (a : Z) (n : nat) : bytes :=
  (fun i : nat => m (a + Z.of_nat i)) <$> seq 0 n.
Definition mem_write (m : memory) (a : Z) (bs : bytes) : memory :=
  fun x => if (a <=? x) && (x <? a + Z.of_nat (length bs))
           then geti bs (x - a) else m x.

Lemma length_mem_read m a n : length (mem_read m a n) = n.
Proof. unfold mem_read. by rewrite length_fmap, length_seq. Qed.

Lemma mem_read_write m a bs n :
  n = length bs -> mem_read (mem_write m a bs) a n = bs.
Proof.
  intros ->. apply list_eq_same_length with (length bs).
  - done.
  - by rewrite length_mem_read.
  - intros i x y Hi. unfold mem_read. rewrite list_lookup_fmap.
    rewrite lookup_seq_lt by done. simpl. intros [= <-] Hy.
    unfold mem_write.
    rewrite (proj2 (Z.leb_le _ _)) by lia. rewrite (proj2 (Z.ltb_lt _ _)) by lia.
    simpl. replace (a + Z.of_nat i - a) with (Z.of_nat i) by lia.
    by apply lookup_geti.
Qed.

Lemma mem_read_write_prefix m a bs n :
  (n <= length bs)%nat -> mem_read (mem_write m a bs) a n = take n bs.
Proof.
  intros Hn. rewrite <- (mem_read_write m a bs _ eq_refl) at 2. unfold mem_read.
  rewrite <- fmap_take. by rewrite take_seq, Nat.min_l.
Qed.
Lemma mem_read_write_other m a bs b n :
  b + Z.of_nat n <= a \/ a + Z.of_nat (length bs) <= b -> mem_read (mem_write m a bs) b n = mem_read m b n.
Proof.
  intros Hd. unfold mem_read. apply list_fmap_ext. intros i x [-> Hi]%lookup_seq. unfold mem_write.
  destruct (Z.leb_spec a (b + Z.of_nat (0 + i))), (Z.ltb_spec (b + Z.of_nat (0 + i)) (a + Z.of_nat (length bs)));
    cbn [andb]; [lia|done..].
Qed.

(** ** Bit operations as arithmetic. *)

Lemma lor_shiftl a b n : 0 <= n -> 0 <= a < 2 ^ n -> Z.lor a (Z.shiftl b n) = a + b * 2 ^ n.
Proof.
  intros Hn Ha. rewrite <- Z.shiftl_mul_pow2 by lia. pose proof (Z.add_lor_land a (Z.shiftl b n)) as Hal.
  assert (Hz : Z.land a (Z.shiftl b n) = 0); [|lia].
  apply Z.bits_inj'. intros m Hm. rewrite Z.land_spec, Z.bits_0.
  destruct (Z.ltb_spec m n).
  - rewrite Z.shiftl_spec_low by lia. apply andb_false_r.
  - rewrite <- (Z.mod_small a (2 ^ n) Ha), Z.mod_pow2_bits_high by lia. done.
Qed.

(** ** Little-endian integers. *)

Fixpoint le_dec (bs : bytes) : Z :=
  match bs with [] => 0 | b :: bs' => b + 256 * le_dec bs' end.
Fixpoint le_enc (n : nat) (v : Z) : bytes :=
  match n with O => [] | S n' => v mod 256 :: le_enc n' (v / 256) end.

Lemma length_le_enc n v : length (le_enc n v) = n.
Proof. revert v; induction n; simpl; auto. Qed.

Lemma le_enc_ok n v : bytes_ok (le_enc n v).
Proof.
  revert v; induction n as [|n IH]; intros; simpl; constructor; [|apply IH].
  pose proof (Z.mod_pos_bound v 256). ulia.
Qed.
#[export] Hint Resolve le_enc_ok : vos.

Lemma le_dec_enc n v : le_dec (le_enc n v) = v mod 256 ^ Z.of_nat n.
Proof.
  revert v; induction n as [|n IH]; intros v.
  - simpl. by rewrite Z.mod_1_r.
  - cbn [le_dec le_enc]. rewrite IH, Nat2Z.inj_succ, Z.pow_succ_r by lia.
    rewrite Z.rem_mul_r; lia.
Qed.

Lemma le_dec_bound bs : bytes_ok bs -> 0 <= le_dec bs < 256 ^ Z.of_nat (length bs).
Proof.
  induction 1 as [|b bs Hb _ IH]; [simpl; lia|].
  cbn [le_dec length]. rewrite Nat2Z.inj_succ, Z.pow_succ_r by lia. ulia.
Qed.

Lemma le_enc_dec bs : bytes_ok bs -> le_enc (length bs) (le_dec bs) = bs.
Proof.
  induction 1 as [|b bs Hb _ IH]; [done|]. cbn [le_enc le_dec length].
  assert (Hm : (b + 256 * le_dec bs) mod 256 = b).
  { rewrite Z.mul_comm, Z.mod_add by lia. apply Z.mod_small. ulia. }
  assert (Hd : (b + 256 * le_dec bs) / 256 = le_dec bs).
  { rewrite Z.mul_comm, Z.div_add by lia. rewrite Z.div_small; ulia. }
  by rewrite Hm, Hd, IH.
Qed.

#[global] Arguments le_enc : simpl never.

Create Rewrite HintDb len.
#[export] Hint Rewrite @length_app @length_take @length_drop @length_replicate
  @length_fmap @length_seq @length_insert @length_puti @length_ring_view
  length_read_n length_mem_read length_le_enc : len.
(** Lengths of lists, then linear arithmetic. *)
Ltac len := unfold zeros in *; autorewrite with len; try lia.

(** Fields of a packed structure: [get_le b off n] is the integer of [n] bytes
    at offset [off], [get_bytes b off n] the byte array. *)
Definition get_bytes (b : bytes) (off n : nat) : bytes := take n (drop off b).
Definition get_le (b : bytes) (off n : nat) : Z := le_dec (get_bytes b off n).

Lemma get_bytes_app_r l1 l2 off n :
  (length l1 <= off)%nat -> get_bytes (l1 ++ l2) off n = get_bytes l2 (off - length l1) n.
Proof.
  intros Hl. unfold get_bytes. by rewrite drop_app_ge.
Qed.
Lemma get_bytes_app_l l1 l2 off n :
  (off + n <= length l1)%nat -> get_bytes (l1 ++ l2) off n = get_bytes l1 off n.
Proof.
  intros Hl. unfold get_bytes. rewrite drop_app_le by lia.
  rewrite take_app_le; [done|]. rewrite length_drop. lia.
Qed.
Lemma get_bytes_all l n : length l = n -> get_bytes l 0 n = l.
Proof. intros <-. unfold get_bytes. rewrite drop_0. apply take_ge. lia. Qed.
Lemma get_bytes_prefix l1 l2 n : length l1 = n -> get_bytes (l1 ++ l2) 0 n = l1.
Proof. intros <-. rewrite get_bytes_app_l by lia. by apply get_bytes_all. Qed.
Lemma length_get_bytes b off n : (off + n <= length b)%nat -> length (get_bytes b off n) = n.
Proof. intros. unfold get_bytes. rewrite length_take, length_drop. lia. Qed.
Lemma get_bytes_ok b off n : bytes_ok b -> bytes_ok (get_bytes b off n).
Proof. intros. unfold get_bytes. by apply Forall_take, Forall_drop. Qed.

Lemma get_le_app_r l1 l2 off n :
  (length l1 <= off)%nat -> get_le (l1 ++ l2) off n = get_le l2 (off - length l1) n.
Proof. intros. unfold get_le. by rewrite get_bytes_app_r. Qed.
Lemma get_le_enc n v l : 0 <= v < 256 ^ Z.of_nat n -> get_le (le_enc n v ++ l) 0 n = v.
Proof.
  intros Hv. unfold get_le. rewrite get_bytes_prefix by apply length_le_enc.
  by rewrite le_dec_enc, Z.mod_small.
Qed.
Lemma get_le_bound b off n :
  bytes_ok b -> 0 <= get_le b off n < 256 ^ Z.of_nat n.
Proof.
  intros Hb. unfold get_le. pose proof (le_dec_bound _ (get_bytes_ok b off n Hb)) as Hd.
  assert (length (get_bytes b off n) <= n)%nat by (unfold get_bytes; rewrite length_take; lia).
  pose proof (Z.pow_le_mono_r 256 (Z.of_nat (length (get_bytes b off n))) (Z.of_nat n)). lia.
Qed.
(** The field at a known offset of a concatenation of encoded fields. *)
Ltac fields :=
  repeat first
    [ rewrite get_le_enc by (zify_u; simpl; lia)
    | rewrite get_bytes_prefix by (len; done)
    | rewrite get_le_app_r by len
    | rewrite get_bytes_app_r by len
    | progress (autorewrite with len; cbn [Nat.sub])
    | match goal with H : length ?l = _ |- context [length ?l] => rewrite H; cbn [Nat.sub] end ].

(** [s[i]], where the end of the list reads as NUL. *)
Definition char_at (s : bytes) (i : Z) : Z := default 0 (s !! Z.to_nat i).

Lemma list_filter_iff' {A} (P Q : A -> Prop) `{!forall x, Decision (P x), !forall x, Decision (Q x)} l :
  Forall (fun x => P x <-> Q x) l -> filter P l = filter Q l.
Proof.
  induction 1 as [|x l Hx _ IH]; [done|]. rewrite !filter_cons, IH.
  by destruct (decide (P x)), (decide (Q x)); try tauto.
Qed.

(** A boolean check of [bytes_ok] for concrete buffers. *)
Lemma bytes_ok_dec l : forallb (fun x => (0 <=? x) && (x <? 256)) l = true -> bytes_ok l.
Proof.
  intros Hl. apply Forall_forall. intros x Hx%list_elem_of_In.
  rewrite forallb_forall in Hl. specialize (Hl x Hx). ulia.
Qed.

Lemma get_bytes_add b off n m : get_bytes b off (n + m) = get_bytes b off n ++ get_bytes b (off + n) m.
Proof. unfold get_bytes. rewrite <- drop_drop. by rewrite take_take_drop. Qed.
Lemma take_get_bytes b off n m : (n <= m)%nat -> take n (get_bytes b off m) = get_bytes b off n.
Proof. intros. unfold get_bytes. rewrite take_take. f_equal. lia. Qed.
Lemma drop_get_bytes b off n m : drop n (get_bytes b off (n + m)) = get_bytes b (off + n) m.
Proof. unfold get_bytes. by rewrite <- take_drop_commute, drop_drop. Qed.

(** ** Single bits *)

(** Testing a flag: [x & (1 << k)]. *)
Lemma land_pow2 x k : 0 <= k -> Z.land x (2 ^ k) = if Z.testbit x k then 2 ^ k else 0.
Proof.
  intros Hk. apply Z.bits_inj'. intros n Hn. rewrite Z.land_spec, Z.pow2_bits_eqb by done.
  destruct (Z.eqb_spec k n) as [->|Hne].
  - destruct (Z.testbit x n); rewrite ?Z.pow2_bits_eqb, ?Z.eqb_refl, ?Z.bits_0 by done; done.
  - rewrite andb_false_r. destruct (Z.testbit x k); rewrite ?Z.pow2_bits_eqb, ?Z.bits_0 by done; [|done].
    symmetry. by apply Z.eqb_neq.
Qed.
Lemma land_pow2_eqb x k : 0 <= k -> (Z.land x (2 ^ k) =? 0) = negb (Z.testbit x k).
Proof.
  intros Hk. rewrite land_pow2 by done. pose proof (Z.pow_pos_nonneg 2 k).
  destruct (Z.testbit x k); [apply Z.eqb_neq; lia|done].
Qed.
