(* ===== verification/CString.v ===== *)
(** C strings.

    A [const char *] argument is the list of the bytes it points to; the
    string ends at the first NUL, or at the end of the list (an array that
    is not terminated is read as if a NUL followed it).  The kernel has no
    libc: every file carries private copies of strcmp / strncpy / strlen.
    The loops are modelled once here and each file's copy is an instance. *)

From S2P Require Import Prelude.
From Stdlib Require Strings.String.
Export Strings.String.StringSyntax.

(** The characters before the terminator. *)
Fixpoint cstr (s : bytes) : bytes :=
  match s with
  | [] => []
  | c :: s' => if c =? 0 then [] else c :: cstr s'
  end.

(** [while (a[0] && b[0] && a[0] == b[0]) { a++; b++; }], then the difference of
    the two bytes reached, as uint8_t. *)
Fixpoint strcmp_loop (a b : bytes) : Z :=
  match a, b with
  | x :: a', y :: b' =>
      if negb (x =? 0) && negb (y =? 0) && (x =? y) then strcmp_loop a' b'
      else u8 x - u8 y
  | x :: _, [] => u8 x
  | [], y :: _ => - u8 y
  | [], [] => 0
  end.

(** [while (src[i] && i < max - 1) { dst[i] = src[i]; i++; } dst[i] = 0;] *)
Fixpoint strncpy_loop (dst src : bytes) (i max : Z) : bytes :=
  match src with
  | c :: src' =>
      if negb (c =? 0) && (i <? max - 1)
      then strncpy_loop (puti dst i c) src' (i + 1) max
      else puti dst i 0
  | [] => puti dst i 0
  end.

(** The variant that clears the rest of the array: [for (; i < n; i++) dst[i] = 0]. *)
Fixpoint strncpy_pad_loop (dst src : bytes) (i n : Z) : bytes :=
  match src with
  | c :: src' =>
      if negb (c =? 0) && (i <? n - 1)
      then strncpy_pad_loop (puti dst i c) src' (i + 1) n
      else blit dst (Z.to_nat i) (zeros (Z.to_nat (n - i)))
  | [] => blit dst (Z.to_nat i) (zeros (Z.to_nat (n - i)))
  end.

(** [size_t n = 0; while (s[n]) n++;] *)
Fixpoint strlen_loop (s : bytes) (n : Z) : Z :=
  match s with
  | c :: s' => if c =? 0 then n else strlen_loop s' (n + 1)
  | [] => n
  end.

(** The source's copies (the functions of each file that run these loops). *)
(** [kernel/ipc/ipc.c] ipc_strcmp *)
Definition ipc_strcmp := strcmp_loop.
(** [kernel/fs/vernisfs.c] vfs_strcmp *)
Definition vfs_strcmp := strcmp_loop.
(** [kernel/fs/vfs.c] kfs_strcmp *)
Definition kfs_strcmp := strcmp_loop.
(** [kernel/security/userdb.c] udb_strcmp *)
Definition udb_strcmp := strcmp_loop.
(** [kernel/ipc/ipc.c] ipc_strncpy *)
Definition ipc_strncpy (dst src : bytes) (max : Z) : bytes :=
  if max =? 0 then dst else strncpy_loop dst src 0 max.
(** [kernel/module/dylib.c] d_strncpy *)
Definition d_strncpy (dst src : bytes) (max : Z) : bytes :=
  if max =? 0 then dst else strncpy_loop dst src 0 max.
(** [kernel/log/klog.c] klog_strncpy *)
Definition klog_strncpy (dst src : bytes) (n : Z) : bytes := strncpy_loop dst src 0 n.
(** [kernel/security/auditlog.c] str_copy_n *)
Definition str_copy_n (dst src : bytes) (max : Z) : bytes := strncpy_loop dst src 0 max.
(** [kernel/fs/vernisfs.c] vfs_strncpy *)
Definition vfs_strncpy (dst src : bytes) (n : Z) : bytes := strncpy_pad_loop dst src 0 n.
(** [kernel/security/userdb.c] udb_strlen *)
Definition udb_strlen (s : bytes) : Z := strlen_loop s 0.
(** [kernel/module/module.c] mod_strlen *)
Definition mod_strlen (s : bytes) : Z := strlen_loop s 0.
(** [kernel/fs/vfs.c] kfs_streq *)
Definition kfs_streq (a b : bytes) : bool := kfs_strcmp a b =? 0.

(** *** What the loops compute *)

Lemma cstr_ok s : bytes_ok s -> bytes_ok (cstr s).
Proof. induction 1; simpl; [constructor|]. case_step; by constructor. Qed.

Lemma cstr_nonzero s : Forall (fun c => c <> 0) (cstr s).
Proof. induction s; simpl; [constructor|]. case_step; by constructor. Qed.

Lemma cstr_id s : Forall (fun c => c <> 0) s -> cstr s = s.
Proof.
  induction 1; simpl; [done|]. case_step; [done|]. by f_equal.
Qed.

Lemma cstr_app_nul s t : Forall (fun c => c <> 0) s -> cstr (s ++ 0 :: t) = s.
Proof. induction 1; simpl; [done|]. case_step; [done|]. by f_equal. Qed.

Lemma cstr_idemp s : cstr (cstr s) = cstr s.
Proof. apply cstr_id, cstr_nonzero. Qed.

Lemma length_cstr s : (length (cstr s) <= length s)%nat.
Proof. induction s; simpl; [done|]. case_step; simpl; lia. Qed.

(** strcmp decides equality of the strings. *)
Lemma strcmp_loop_eq a b :
  bytes_ok a -> bytes_ok b -> strcmp_loop a b = 0 <-> cstr a = cstr b.
Proof.
  intros Ha; revert b; induction Ha as [|x a Hx Ha IH]; intros b Hb.
  - destruct Hb as [|y b Hy Hb]; simpl; [done|]. rewrite u8_id by done.
    case_step; split; intros; try done; lia.
  - destruct Hb as [|y b Hy Hb]; simpl.
    + rewrite u8_id by done. case_step; split; intros; try done; lia.
    + rewrite !u8_id by done.
      destruct (Z.eqb_spec x 0), (Z.eqb_spec y 0), (Z.eqb_spec x y); simpl;
        subst; try lia; try (split; intros; try done; lia).
      * rewrite IH by done. split; [by intros ->|]. by intros [= ->].
      * split; [lia|]. by intros [= -> _].
Qed.

Lemma strcmp_loop_refl a : strcmp_loop a a = 0.
Proof.
  induction a as [|x a IH]; simpl; [done|].
  rewrite Z.eqb_refl. destruct (x =? 0); simpl; [lia|done].
Qed.

Lemma kfs_streq_spec a b :
  bytes_ok a -> bytes_ok b -> kfs_streq a b = true <-> cstr a = cstr b.
Proof. intros. unfold kfs_streq. rewrite Z.eqb_eq. by apply strcmp_loop_eq. Qed.

Lemma strlen_loop_spec s n : strlen_loop s n = n + Z.of_nat (length (cstr s)).
Proof.
  revert n; induction s as [|c s IH]; intros n; simpl; [lia|].
  case_step; simpl; [lia|]. rewrite IH. lia.
Qed.

(** Both strncpy loops leave the first [max - 1] characters, terminated. *)
Lemma strncpy_loop_gen dst src i max :
  0 <= i <= max - 1 -> max <= Z.of_nat (length dst) ->
  strncpy_loop dst src i max =
  blit dst (Z.to_nat i) (take (Z.to_nat (max - 1 - i)) (cstr src) ++ [0]).
Proof.
  revert dst i; induction src as [|c src IH]; intros dst i Hi Hm; simpl.
  - rewrite take_nil. simpl. apply puti_blit. lia.
  - destruct (Z.eqb_spec c 0) as [->|Hc]; simpl.
    { rewrite take_nil. simpl. apply puti_blit. lia. }
    destruct (Z.ltb_spec i (max - 1)).
    + rewrite IH by (rewrite ?length_puti; lia). rewrite puti_blit by lia.
      replace (Z.to_nat (max - 1 - i)) with (S (Z.to_nat (max - 1 - (i + 1)))) by lia.
      replace (Z.to_nat (i + 1)) with (Z.to_nat i + length [c])%nat by (simpl; lia).
      rewrite blit_blit_adj by lia. done.
    + replace (Z.to_nat (max - 1 - i)) with 0%nat by lia. apply puti_blit. lia.
Qed.

Lemma cstr_strncpy_loop dst src max :
  1 <= max <= Z.of_nat (length dst) ->
  cstr (strncpy_loop dst src 0 max) = take (Z.to_nat (max - 1)) (cstr src).
Proof.
  intros Hm. rewrite strncpy_loop_gen by lia. rewrite Z.sub_0_r.
  unfold blit. simpl. rewrite <- app_assoc. simpl. apply cstr_app_nul.
  apply Forall_take, cstr_nonzero.
Qed.

Lemma length_strncpy_loop dst src i max :
  length (strncpy_loop dst src i max) = length dst.
Proof.
  revert dst i; induction src as [|c src IH]; intros; simpl; [by rewrite length_puti|].
  case_step; [by rewrite IH, length_puti|by rewrite length_puti].
Qed.

Lemma strncpy_loop_ok dst src i max :
  bytes_ok dst -> bytes_ok src -> bytes_ok (strncpy_loop dst src i max).
Proof.
  intros Hd Hs; revert dst i Hd; induction Hs as [|c src Hc Hs IH]; intros; simpl.
  - apply puti_Forall; [done|ulia].
  - case_step; [|apply puti_Forall; [done|ulia]]. apply IH. by apply puti_Forall.
Qed.

(** The padding variant fills the array. *)
Lemma strncpy_pad_loop_gen dst src i n :
  0 <= i <= n - 1 -> n <= Z.of_nat (length dst) ->
  strncpy_pad_loop dst src i n =
  let s := take (Z.to_nat (n - 1 - i)) (cstr src) in
  blit dst (Z.to_nat i) (s ++ zeros (Z.to_nat (n - i) - length s)).
Proof.
  revert dst i; induction src as [|c src IH]; intros dst i Hi Hm; cbn [strncpy_pad_loop cstr].
  - rewrite take_nil. simpl. by rewrite Nat.sub_0_r.
  - destruct (Z.eqb_spec c 0) as [->|Hc]; cbn [negb andb].
    { rewrite take_nil. simpl. by rewrite Nat.sub_0_r. }
    destruct (Z.ltb_spec i (n - 1)).
    + rewrite IH by (rewrite ?length_puti; lia). rewrite puti_blit by lia. cbv zeta.
      replace (Z.to_nat (n - 1 - i)) with (S (Z.to_nat (n - 1 - (i + 1)))) by lia.
      replace (Z.to_nat (i + 1)) with (Z.to_nat i + length [c])%nat by (simpl; lia).
      rewrite blit_blit_adj by lia. cbn [firstn app length].
      replace (Z.to_nat (n - i)) with (S (Z.to_nat (n - (i + 1)))) by lia. done.
    + replace (Z.to_nat (n - 1 - i)) with 0%nat by lia. simpl. by rewrite Nat.sub_0_r.
Qed.

Lemma vfs_strncpy_eq dst src n :
  1 <= n -> n = Z.of_nat (length dst) ->
  let s := take (Z.to_nat (n - 1)) (cstr src) in
  vfs_strncpy dst src n = s ++ zeros (Z.to_nat n - length s).
Proof.
  intros Hn Hl s. unfold vfs_strncpy. rewrite strncpy_pad_loop_gen by lia.
  rewrite !Z.sub_0_r. apply blit_full. fold s.
  assert (length s <= Z.to_nat (n - 1))%nat by (unfold s; rewrite length_take; lia). len.
Qed.

Lemma vfs_strncpy_spec dst src n :
  1 <= n -> n = Z.of_nat (length dst) -> bytes_ok src ->
  let r := vfs_strncpy dst src n in
  length r = length dst /\ bytes_ok r /\ cstr r = take (Z.to_nat (n - 1)) (cstr src).
Proof.
  intros Hn Hl Hs r. unfold r. rewrite vfs_strncpy_eq by done.
  set (s := take _ (cstr src)).
  assert (Hls : (length s <= Z.to_nat (n - 1))%nat) by (unfold s; rewrite length_take; lia).
  split; [len|]. split.
  - apply Forall_app. split; [apply Forall_take; by apply cstr_ok|]. apply zeros_ok.
  - replace (Z.to_nat n - length s)%nat with (S (Z.to_nat n - length s - 1)) by lia.
    unfold zeros. cbn [replicate]. apply cstr_app_nul. apply Forall_take, cstr_nonzero.
Qed.

(** Characterisation of a string by its characters. *)
Lemma char_at_0 c s : char_at (c :: s) 0 = c.
Proof. done. Qed.
Lemma char_at_S c s i : 0 <= i -> char_at (c :: s) (i + 1) = char_at s i.
Proof. intros. unfold char_at. by replace (Z.to_nat (i + 1)) with (S (Z.to_nat i)) by lia. Qed.

Lemma cstr_char_at s l :
  Forall (fun c => c <> 0) l ->
  cstr s = l <->
  (forall i, 0 <= i < Z.of_nat (length l) -> char_at s i = char_at l i) /\
  char_at s (Z.of_nat (length l)) = 0.
Proof.
  intros Hl; revert s; induction Hl as [|c l Hc Hl IH]; intros s.
  - split; [|intros [_ H0]].
    + intros E. split; [simpl; lia|]. destruct s as [|x s]; [done|]. simpl in *.
      destruct (Z.eqb_spec x 0); [subst; done|done].
    + destruct s as [|x s]; [done|]. simpl in *. unfold char_at in H0. simpl in H0. by subst.
  - destruct s as [|x s]; simpl cstr; simpl length; rewrite ?Nat2Z.inj_succ.
    { split; [done|]. intros [H1 _]. specialize (H1 0). unfold char_at in H1. simpl in H1. lia. }
    unfold Z.succ. rewrite char_at_S by lia. destruct (Z.eqb_spec x 0) as [->|Hx].
    { split; [done|]. intros [H1 _]. specialize (H1 0). rewrite !char_at_0 in H1. lia. }
    split.
    + intros [= -> E]. apply IH in E as [E1 E2]. split; [|done]. intros i Hi.
      destruct (Z.eq_dec i 0) as [->|]; [done|]. replace i with (i - 1 + 1) by lia.
      rewrite !char_at_S by lia. apply E1. lia.
    + intros [H1 H2]. f_equal.
      * specialize (H1 0). rewrite !char_at_0 in H1. apply H1. lia.
      * apply IH. split; [|done]. intros i Hi. specialize (H1 (i + 1)).
        rewrite !char_at_S in H1 by lia. apply H1. lia.
Qed.

(** String literals of the sources, as byte lists. *)
Definition lit (s : String.string) : bytes :=
  (fun c => Z.of_N (Ascii.N_of_ascii c)) <$> String.list_ascii_of_string s.
Arguments lit s%_string_scope.

(** Appending to a buffer of [max] bytes that already holds [pos] characters:
    [while (s[i] && pos < max - 1) dst[pos++] = s[i++];] - the characters that fit. *)
Fixpoint fit_str (s : bytes) (pos max : Z) : bytes :=
  match s with
  | c :: s' => if negb (c =? 0) && (pos <? max - 1) then c :: fit_str s' (pos + 1) max else []
  | [] => []
  end.

Lemma fit_str_spec s pos max : fit_str s pos max = take (Z.to_nat (max - 1 - pos)) (cstr s).
Proof.
  revert pos; induction s as [|c s IH]; intros pos; cbn [fit_str cstr]; [by rewrite take_nil|].
  destruct (Z.eqb_spec c 0) as [->|Hc]; cbn [negb andb]; [by rewrite take_nil|].
  destruct (Z.ltb_spec pos (max - 1)) as [Hp|Hp].
  - rewrite IH. replace (Z.to_nat (max - 1 - pos)) with (S (Z.to_nat (max - 1 - (pos + 1)))) by lia. done.
  - by replace (Z.to_nat (max - 1 - pos)) with 0%nat by lia.
Qed.

(** Decimal digits, least significant first: at most [n] of them. *)
Fixpoint digits_rev (n : nat) (v : Z) : bytes :=
  match n with
  | O => []
  | S n => if 0 <? v then (48 + v mod 10) :: digits_rev n (v / 10) else []
  end.
(** The decimal form a kernel print routine produces in a buffer of [n] digits. *)
Definition decimal (n : nat) (v : Z) : bytes := if v =? 0 then [48] else rev (digits_rev n v).
(** Reading decimal digits. *)
Definition dec_value (s : bytes) : Z := fold_left (fun acc c => acc * 10 + (c - 48)) s 0.

Lemma digits_rev_value n v : 0 <= v < 10 ^ Z.of_nat n ->
  fold_right (fun c acc => acc * 10 + (c - 48)) 0 (digits_rev n v) = v.
Proof.
  revert v; induction n as [|n IH]; intros v Hv; cbn [digits_rev]; [simpl in *; lia|].
  destruct (Z.ltb_spec 0 v); cbn [fold_right]; [|lia]. rewrite IH.
  - dlia.
  - rewrite Nat2Z.inj_succ, Z.pow_succ_r in Hv by lia. split; [dlia|].
    apply Z.div_lt_upper_bound; lia.
Qed.
Lemma decimal_value n v : 0 <= v < 10 ^ Z.of_nat n -> dec_value (decimal n v) = v.
Proof.
  intros Hv. unfold decimal, dec_value. case_step; [subst; done|].
  rewrite <- fold_left_rev_right, rev_involutive. by apply digits_rev_value.
Qed.
Lemma digits_rev_digits n v : 0 <= v -> Forall (fun c => 48 <= c < 58) (digits_rev n v).
Proof.
  revert v; induction n as [|n IH]; intros v Hv; cbn [digits_rev]; [constructor|].
  case_step; [|constructor]. constructor; [dlia|]. apply IH. dlia.
Qed.
Lemma decimal_digits n v : 0 <= v -> Forall (fun c => 48 <= c < 58) (decimal n v).
Proof.
  intros Hv. unfold decimal. case_step; [repeat constructor; lia|].
  apply List.Forall_rev. by apply digits_rev_digits.
Qed.
Lemma length_digits_rev n v : (length (digits_rev n v) <= n)%nat.
Proof. revert v; induction n as [|n IH]; intros v; simpl; [done|]. case_step; simpl; [|lia]. by apply le_n_S. Qed.
