(* ===== verification/Shims.v ===== *)
(** The memory routines that compiled code calls (kernel/shims/rust_shims.c, the
    64-bit variant): memcpy, memset, memmove, memcmp, strlen on the flat memory.
    A string instruction is the loop it runs: one load and one store of [w]
    bytes per iteration.  Ranges that wrap around the address space are left
    out: addresses are in [Z]. *)

From S2P Require Import Prelude CString.

(** [rep movs] with the direction flag clear, [n] iterations of [w] bytes.
    [kernel/shims/rust_shims.c:24-31] memcpy *)
Fixpoint rep_movs (w n : nat) (m : memory) (d s : Z) : memory :=
  match n with
  | O => m
  | S n => rep_movs w n (mem_write m d (mem_read m s w)) (d + Z.of_nat w) (s + Z.of_nat w)
  end.
(** [rep movsb] with the direction flag set: downwards, from the last bytes.
    [kernel/shims/rust_shims.c:64-69] memmove *)
Fixpoint rep_movs_down (n : nat) (m : memory) (d s : Z) : memory :=
  match n with
  | O => m
  | S n => rep_movs_down n (mem_write m d (mem_read m s 1)) (d - 1) (s - 1)
  end.
(** [rep stos] of the [w] low bytes of [v].
    [kernel/shims/rust_shims.c:45-52] memset *)
Fixpoint rep_stos (w n : nat) (m : memory) (d v : Z) : memory :=
  match n with O => m | S n => rep_stos w n (mem_write m d (le_enc w v)) (d + Z.of_nat w) v end.

(** [kernel/shims/rust_shims.c] memcpy *)
Definition memcpy (m : memory) (dest src n : Z) : memory :=
  let words := n / 8 in let tail := n mod 8 in
  let m := rep_movs 8 (Z.to_nat words) m dest src in
  rep_movs 1 (Z.to_nat tail) m (dest + 8 * words) (src + 8 * words).
(** [kernel/shims/rust_shims.c:37-42] memset *)
Definition byte_pattern (c : Z) : Z :=
  let p := u8 c in
  let p := Z.lor p (u64 (Z.shiftl p 8)) in
  let p := Z.lor p (u64 (Z.shiftl p 16)) in
  Z.lor p (u64 (Z.shiftl p 32)).
(** [kernel/shims/rust_shims.c] memset *)
Definition memset (m : memory) (s c n : Z) : memory :=
  let words := n / 8 in let tail := n mod 8 in
  let m := rep_stos 8 (Z.to_nat words) m s (byte_pattern c) in
  rep_stos 1 (Z.to_nat tail) m (s + 8 * words) (u8 c).
(** [kernel/shims/rust_shims.c] memmove *)
Definition memmove (m : memory) (dest src n : Z) : memory :=
  if (dest =? src) || (n =? 0) then m else
  if dest <? src then memcpy m dest src n
  else rep_movs_down (Z.to_nat n) m (dest + n - 1) (src + n - 1).
(** [kernel/shims/rust_shims.c] memcmp *)
Fixpoint memcmp_loop (m : memory) (a b : Z) (n : nat) : Z :=
  match n with
  | O => 0
  | S n => if negb (m a =? m b) then m a - m b else memcmp_loop m (a + 1) (b + 1) n
  end.
(** [kernel/shims/rust_shims.c] memcmp *)
Definition memcmp (m : memory) (s1 s2 n : Z) : Z := memcmp_loop m s1 s2 (Z.to_nat n).
(** [kernel/shims/rust_shims.c] strlen *)
Definition strlen (s : bytes) : Z := strlen_loop s 0.

(** ** What they do *)

(** The memory in which the [n] bytes at [d] are those that were at [s]. *)
Definition copied (m : memory) (d s n : Z) : memory := fun x => if (d <=? x) && (x <? d + n) then m (s + (x - d)) else m x.

Lemma mem_write_at m a bs x : mem_write m a bs x = if (a <=? x) && (x <? a + Z.of_nat (length bs)) then geti bs (x - a) else m x.
Proof. done. Qed.
Lemma geti_mem_read m a n i : 0 <= i < Z.of_nat n -> geti (mem_read m a n) i = m (a + i).
Proof.
  intros Hi. unfold geti. apply list_lookup_total_correct. unfold mem_read.
  rewrite list_lookup_fmap, lookup_seq_lt by lia. simpl. do 2 f_equal. lia.
Qed.
Lemma write_read_at m d s w x : mem_write m d (mem_read m s w) x = copied m d s (Z.of_nat w) x.
Proof.
  rewrite mem_write_at, length_mem_read. unfold copied.
  destruct (Z.leb_spec d x), (Z.ltb_spec x (d + Z.of_nat w)); cbn [andb]; try done. apply geti_mem_read. lia.
Qed.

(** Copying upwards is right when the destination is below or clear of the source: no word is
    stored over bytes that are still to be read. *)
Lemma rep_movs_spec w n : forall m d s x, d <= s \/ s + Z.of_nat (w * n) <= d ->
  rep_movs w n m d s x = copied m d s (Z.of_nat (w * n)) x.
Proof.
  induction n as [|n IH]; intros m d s x Hd; cbn [rep_movs].
  - unfold copied. destruct (Z.leb_spec d x), (Z.ltb_spec x (d + Z.of_nat (w * 0))); cbn [andb]; done || lia.
  - rewrite Nat.mul_succ_r in *. rewrite IH by lia. unfold copied at 1. rewrite !write_read_at. unfold copied.
    repeat match goal with
    | |- context [?a <=? ?b] => destruct (Z.leb_spec a b)
    | |- context [?a <? ?b] => destruct (Z.ltb_spec a b)
    end; cbn [andb]; try lia; try done; f_equal; lia.
Qed.
Lemma rep_movs_down_spec n : forall m d s x, s <= d ->
  rep_movs_down n m d s x = copied m (d - Z.of_nat n + 1) (s - Z.of_nat n + 1) (Z.of_nat n) x.
Proof.
  induction n as [|n IH]; intros m d s x Hd; cbn [rep_movs_down].
  - unfold copied. case_step; [|done]. f_equal. lia.
  - rewrite IH by lia. unfold copied at 1. rewrite !write_read_at. unfold copied.
    repeat match goal with
    | |- context [?a <=? ?b] => destruct (Z.leb_spec a b)
    | |- context [?a <? ?b] => destruct (Z.ltb_spec a b)
    end; cbn [andb]; try lia; try done; f_equal; lia.
Qed.

Lemma memcpy_spec m dest src n x : 0 <= n -> dest <= src \/ src + n <= dest ->
  memcpy m dest src n x = copied m dest src n x.
Proof.
  intros Hn Hd. unfold memcpy. cbv zeta. assert (Hsplit : n = 8 * (n / 8) + n mod 8 /\ 0 <= n mod 8 < 8 /\ 0 <= n / 8) by dlia.
  set (k := n / 8) in *. set (t := n mod 8) in *. rewrite rep_movs_spec by lia.
  rewrite !Nat2Z.inj_mul, !Z2Nat.id by lia. change (Z.of_nat 1) with 1. rewrite Z.mul_1_l. unfold copied at 1.
  rewrite !rep_movs_spec by (rewrite Nat2Z.inj_mul, Z2Nat.id by lia; lia).
  rewrite !Nat2Z.inj_mul, !Z2Nat.id by lia. change (Z.of_nat 8) with 8. unfold copied.
  repeat match goal with
  | |- context [?a <=? ?b] => destruct (Z.leb_spec a b)
  | |- context [?a <? ?b] => destruct (Z.ltb_spec a b)
  end; cbn [andb]; try lia; try done; f_equal; lia.
Qed.

(** memmove copies whatever the overlap: afterwards the destination holds what the source held
    before, and every other byte is as it was. *)
Lemma memmove_spec m dest src n x : 0 <= n -> memmove m dest src n x = copied m dest src n x.
Proof.
  intros Hn. unfold memmove. destruct (Z.eqb_spec dest src) as [->|Hne]; cbn [orb].
  { unfold copied. case_step; [|done]. f_equal. lia. }
  destruct (Z.eqb_spec n 0) as [->|Hn0].
  { unfold copied. destruct (Z.leb_spec dest x), (Z.ltb_spec x (dest + 0)); cbn [andb]; done || lia. }
  destruct (Z.ltb_spec dest src) as [Hlt|Hge]; [apply memcpy_spec; lia|].
  rewrite rep_movs_down_spec by lia. rewrite Z2Nat.id by done. f_equal; lia.
Qed.

Lemma byte_pattern_spec c : le_enc 8 (byte_pattern c) = replicate 8 (u8 c).
Proof.
  assert (Hp : byte_pattern c = byte_pattern (u8 c)) by (unfold byte_pattern; by rewrite (u8_id (u8 c)) by apply u8_is).
  rewrite Hp. assert (Hb : forallb (fun v => bool_decide (le_enc 8 (byte_pattern v) = replicate 8 v)) (Z.of_nat <$> seq 0 256) = true)
    by (vm_compute; reflexivity).
  pose proof (u8_is c) as Hc. pose proof (forall_below _ 256 (u8 c) Hb ltac:(ulia)) as Hd. by apply bool_decide_eq_true in Hd.
Qed.
Lemma rep_stos_spec w n v b : le_enc w v = replicate w b -> forall m d x,
  rep_stos w n m d v x = if (d <=? x) && (x <? d + Z.of_nat (w * n)) then b else m x.
Proof.
  intros Hv. induction n as [|n IH]; intros m d x; cbn [rep_stos].
  - destruct (Z.leb_spec d x), (Z.ltb_spec x (d + Z.of_nat (w * 0))); cbn [andb]; done || lia.
  - rewrite IH, mem_write_at, Hv, length_replicate, Nat.mul_succ_r.
    repeat match goal with
    | |- context [?a <=? ?b] => destruct (Z.leb_spec a b)
    | |- context [?a <? ?b] => destruct (Z.ltb_spec a b)
    end; cbn [andb]; try lia; try done.
    unfold geti. apply lookup_total_replicate_2. lia.
Qed.
Lemma memset_spec m s c n x : 0 <= n ->
  memset m s c n x = if (s <=? x) && (x <? s + n) then u8 c else m x.
Proof.
  intros Hn. unfold memset. cbv zeta. assert (Hsplit : n = 8 * (n / 8) + n mod 8 /\ 0 <= n mod 8 < 8 /\ 0 <= n / 8) by dlia.
  set (k := n / 8) in *. set (t := n mod 8) in *.
  rewrite (rep_stos_spec 1 _ _ (u8 c)) by (change ([u8 (u8 c)] = [u8 c]); by rewrite u8_id by apply u8_is).
  rewrite (rep_stos_spec 8 _ _ (u8 c)) by apply byte_pattern_spec.
  rewrite !Nat2Z.inj_mul, !Z2Nat.id by lia. change (Z.of_nat 8) with 8. change (Z.of_nat 1) with 1.
  repeat match goal with
  | |- context [?a <=? ?b] => destruct (Z.leb_spec a b)
  | |- context [?a <? ?b] => destruct (Z.ltb_spec a b)
  end; cbn [andb]; try lia; done.
Qed.

(** memcmp is 0 exactly for equal bytes, and otherwise the difference of the first two that differ. *)
Lemma memcmp_spec m s1 s2 n :
  memcmp m s1 s2 n =
  match find_idx (fun i => negb (m (s1 + i) =? m (s2 + i))) (Z.of_nat <$> seq 0 (Z.to_nat n)) with
  | Some i => m (s1 + Z.of_nat i) - m (s2 + Z.of_nat i)
  | None => 0
  end.
Proof.
  unfold memcmp. revert s1 s2. induction (Z.to_nat n) as [|k IH]; intros s1 s2; [done|].
  cbn [memcmp_loop seq fmap list_fmap find_idx]. change (Z.of_nat 0) with 0. rewrite !Z.add_0_r.
  destruct (negb (m s1 =? m s2)) eqn:E1; [by rewrite !Z.add_0_r|]. rewrite IH.
  rewrite <- fmap_S_seq, <- list_fmap_compose.
  assert (Hshift : forall l : list nat,
    find_idx (fun i => negb (m (s1 + i) =? m (s2 + i))) ((Z.of_nat ∘ S) <$> l) =
    find_idx (fun i => negb (m (s1 + 1 + i) =? m (s2 + 1 + i))) (Z.of_nat <$> l)).
  { induction l as [|i l IHl]; [done|]. cbn [fmap list_fmap find_idx]. unfold compose at 1 2.
    replace (s1 + Z.of_nat (S i)) with (s1 + 1 + Z.of_nat i) by lia.
    replace (s2 + Z.of_nat (S i)) with (s2 + 1 + Z.of_nat i) by lia. case_step; [done|]. f_equal. exact IHl. }
  rewrite Hshift. destruct (find_idx _ (Z.of_nat <$> seq 0 k)) as [i|]; [|done]. cbn. f_equal; f_equal; lia.
Qed.
