(* ===== verification/Ipc.v ===== *)
(** Kernel IPC: message queues, byte channels and path-named local sockets
    (kernel/ipc/ipc.c, include/ipc.h).

    The static tables of ipc.c are the record [IpcState]; every entry point
    is a function from the state to its return value and the new state.  The
    abstract queue of a process is [queue_view], the abstract byte stream of
    a channel is [chan_view]. *)

From S2P Require Import Prelude CString.

(** [include/ipc.h] constants *)
Definition IPC_MAX_QUEUES := 16.
Definition IPC_QUEUE_DEPTH := 16.
Definition IPC_MSG_PAYLOAD := 48.
Definition IPC_MAX_CHANNELS := 8.
Definition IPC_CHAN_BUF_SIZE := 512.
Definition IPC_MAX_USOCKETS := 8.
Definition IPC_USOCK_PATH_MAX := 32.
Definition IPC_OK := 0.
Definition IPC_ERR_FULL := -1.
Definition IPC_ERR_EMPTY := -2.
Definition IPC_ERR_INVAL := -3.
Definition IPC_ERR_NOSLOT := -4.
Definition SYS_IPC_SEND := 20.
Definition SYS_IPC_RECV := 21.
Definition SYS_IPC_QUEUE_CREATE := 22.
Definition SYS_IPC_QUEUE_CLOSE := 23.
Definition SYS_IPC_CHAN_CREATE := 24.
Definition SYS_IPC_CHAN_WRITE := 25.
Definition SYS_IPC_CHAN_READ := 26.
Definition SYS_IPC_CHAN_CLOSE := 27.
(** [kernel/ipc/ipc.c] constants *)
Definition IPC_PID_CACHE_SIZE := 256.

(** [include/ipc.h] IpcMessage *)
Record IpcMessage := mkIpcMessage {
  src_pid : Z; dst_pid : Z; type_ : Z; len_ : Z; data : bytes }.
(** [include/ipc.h] IpcQueue *)
Record IpcQueue := mkIpcQueue {
  owner_pid : Z; head : Z; tail : Z; count : Z; msgs : list IpcMessage }.
(** [include/ipc.h] IpcChannel *)
Record IpcChannel := mkIpcChannel {
  ch_owner_pid : Z; ch_peer_pid : Z; ch_buf : bytes;
  ch_head : Z; ch_tail : Z; ch_count : Z; ch_closed : Z }.
(** [include/ipc.h] IpcStats *)
Record IpcStats := mkIpcStats {
  queues_active : Z; channels_active : Z; messages_sent : Z; messages_dropped : Z }.
(** [kernel/ipc/ipc.c] IpcUnixSocket *)
Record IpcUnixSocket := mkIpcUnixSocket {
  us_used : Z; us_cid : Z; us_owner_pid : Z; us_path : bytes }.

(** The static variables of ipc.c. *)
(** [kernel/ipc/ipc.c:20-35] g_queues *)
Record IpcState := mkIpcState {
  g_queues : list IpcQueue; g_channels : list IpcChannel; g_stats : IpcStats;
  g_usocks : list IpcUnixSocket; g_pid_to_qid : list Z }.

#[export] Instance eta_IpcMessage : Eta IpcMessage :=
  fun r => mkIpcMessage (src_pid r) (dst_pid r) (type_ r) (len_ r) (data r).
#[export] Instance eta_IpcQueue : Eta IpcQueue :=
  fun r => mkIpcQueue (owner_pid r) (head r) (tail r) (count r) (msgs r).
#[export] Instance eta_IpcChannel : Eta IpcChannel :=
  fun r => mkIpcChannel (ch_owner_pid r) (ch_peer_pid r) (ch_buf r) (ch_head r)
             (ch_tail r) (ch_count r) (ch_closed r).
#[export] Instance eta_IpcStats : Eta IpcStats :=
  fun r => mkIpcStats (queues_active r) (channels_active r) (messages_sent r)
             (messages_dropped r).
#[export] Instance eta_IpcUnixSocket : Eta IpcUnixSocket :=
  fun r => mkIpcUnixSocket (us_used r) (us_cid r) (us_owner_pid r) (us_path r).
#[export] Instance eta_IpcState : Eta IpcState :=
  fun r => mkIpcState (g_queues r) (g_channels r) (g_stats r) (g_usocks r)
             (g_pid_to_qid r).

(** The all-zero objects that ipc_memset(.., 0, ..) leaves. *)
Definition zero_msg : IpcMessage := mkIpcMessage 0 0 0 0 (zeros (Z.to_nat IPC_MSG_PAYLOAD)).
Definition zero_queue : IpcQueue :=
  mkIpcQueue 0 0 0 0 (replicate (Z.to_nat IPC_QUEUE_DEPTH) zero_msg).
Definition zero_channel : IpcChannel :=
  mkIpcChannel 0 0 (zeros (Z.to_nat IPC_CHAN_BUF_SIZE)) 0 0 0 0.
Definition zero_usock : IpcUnixSocket :=
  mkIpcUnixSocket 0 0 0 (zeros (Z.to_nat IPC_USOCK_PATH_MAX)).

#[export] Instance inhabited_msg : Inhabited IpcMessage := populate zero_msg.
#[export] Instance inhabited_queue : Inhabited IpcQueue := populate zero_queue.
#[export] Instance inhabited_channel : Inhabited IpcChannel := populate zero_channel.
#[export] Instance inhabited_usock : Inhabited IpcUnixSocket := populate zero_usock.

(** [kernel/ipc/ipc.c] ipc_init *)
Definition ipc_init : IpcState :=
  mkIpcState (replicate (Z.to_nat IPC_MAX_QUEUES) zero_queue)
    (replicate (Z.to_nat IPC_MAX_CHANNELS) zero_channel)
    (mkIpcStats 0 0 0 0)
    (replicate (Z.to_nat IPC_MAX_USOCKETS) zero_usock)
    (replicate (Z.to_nat IPC_PID_CACHE_SIZE) (-1)).

(** [kernel/ipc/ipc.c] ipc_get_stats *)
Definition ipc_get_stats (s : IpcState) : IpcStats := g_stats s.

(** ** Message queues *)

Definition set_queue (s : IpcState) (i : Z) (q : IpcQueue) : IpcState :=
  s <| g_queues := puti (g_queues s) i q |>.
Definition set_cache (s : IpcState) (pid v : Z) : IpcState :=
  s <| g_pid_to_qid := puti (g_pid_to_qid s) pid v |>.
Definition bump_dropped (s : IpcState) : IpcState :=
  s <| g_stats := (g_stats s)
         <| messages_dropped := u32 (messages_dropped (g_stats s) + 1) |> |>.

(** The linear scan: the fallback of queue_find_by_pid.
    [kernel/ipc/ipc.c:105-111] queue_find_by_pid *)
Definition queue_scan (s : IpcState) (pid : Z) : option nat :=
  find_idx (fun q => owner_pid q =? pid) (g_queues s).

(** [kernel/ipc/ipc.c] queue_find_by_pid *)
Definition queue_find_by_pid (s : IpcState) (pid : Z) : Z * IpcState :=
  let fallback :=
    match queue_scan s pid with
    | Some i => (Z.of_nat i, if pid <? IPC_PID_CACHE_SIZE
                             then set_cache s pid (Z.of_nat i) else s)
    | None => (-1, s)
    end in
  if pid <? IPC_PID_CACHE_SIZE then
    let qid := geti (g_pid_to_qid s) pid in
    if (0 <=? qid) && (qid <? IPC_MAX_QUEUES) &&
       (owner_pid (geti (g_queues s) qid) =? pid)
    then (qid, s) else fallback
  else fallback.

(** [kernel/ipc/ipc.c] ipc_queue_create *)
Definition ipc_queue_create (s : IpcState) (pid : Z) : Z * IpcState :=
  if pid =? 0 then (IPC_ERR_INVAL, s) else
  let '(existing, s) := queue_find_by_pid s pid in
  if 0 <=? existing then (existing, s) else
  match find_idx (fun q => owner_pid q =? 0) (g_queues s) with
  | Some i =>
      let s := set_queue s (Z.of_nat i) (zero_queue <| owner_pid := pid |>) in
      let s := if pid <? IPC_PID_CACHE_SIZE then set_cache s pid (Z.of_nat i) else s in
      (Z.of_nat i,
       s <| g_stats := (g_stats s)
              <| queues_active := u32 (queues_active (g_stats s) + 1) |> |>)
  | None => (IPC_ERR_NOSLOT, s)
  end.

(** [kernel/ipc/ipc.c] ipc_queue_destroy *)
Definition ipc_queue_destroy (s : IpcState) (qid : Z) : IpcState :=
  if IPC_MAX_QUEUES <=? qid then s else
  let pid := owner_pid (geti (g_queues s) qid) in
  if pid =? 0 then s else
  let s := if pid <? IPC_PID_CACHE_SIZE then set_cache s pid (-1) else s in
  let s := set_queue s qid zero_queue in
  if queues_active (g_stats s) =? 0 then s else
  s <| g_stats := (g_stats s)
         <| queues_active := u32 (queues_active (g_stats s) - 1) |> |>.

(** The message record that ipc_send stores.
    [kernel/ipc/ipc.c:162-169] ipc_send *)
Definition make_msg (src dst type : Z) (payload : bytes) (len : Z) : IpcMessage :=
  mkIpcMessage src dst type len
    (blit (zeros (Z.to_nat IPC_MSG_PAYLOAD)) 0 (read_n payload (Z.to_nat len))).

(** [kernel/ipc/ipc.c] ipc_send *)
Definition ipc_send (s : IpcState) (src dst type : Z) (payload : option bytes)
    (len : Z) : Z * IpcState :=
  match payload with
  | None => (IPC_ERR_INVAL, s)
  | Some payload =>
    if dst =? 0 then (IPC_ERR_INVAL, s) else
    let len := if IPC_MSG_PAYLOAD <? len then IPC_MSG_PAYLOAD else len in
    let '(qid, s) := queue_find_by_pid s dst in
    let '(qid, s) := if qid <? 0 then ipc_queue_create s dst else (qid, s) in
    if qid <? 0 then (IPC_ERR_NOSLOT, bump_dropped s) else
    let q := geti (g_queues s) qid in
    if IPC_QUEUE_DEPTH <=? count q then (IPC_ERR_FULL, bump_dropped s) else
    let q := q <| msgs := puti (msgs q) (tail q) (make_msg src dst type payload len) |> in
    let q := q <| tail := (tail q + 1) mod IPC_QUEUE_DEPTH |> in
    let q := q <| count := u32 (count q + 1) |> in
    let s := set_queue s qid q in
    (IPC_OK, s <| g_stats := (g_stats s)
                    <| messages_sent := u32 (messages_sent (g_stats s) + 1) |> |>)
  end.

(** [out] tells whether the caller's pointer is not NULL; the message is
    what is stored there.
    [kernel/ipc/ipc.c] ipc_recv *)
Definition ipc_recv (s : IpcState) (qid : Z) (out : bool)
    : Z * option IpcMessage * IpcState :=
  if (IPC_MAX_QUEUES <=? qid) || negb out then (IPC_ERR_INVAL, None, s) else
  let q := geti (g_queues s) qid in
  if owner_pid q =? 0 then (IPC_ERR_INVAL, None, s) else
  if count q =? 0 then (IPC_ERR_EMPTY, None, s) else
  let m := geti (msgs q) (head q) in
  let q := q <| head := (head q + 1) mod IPC_QUEUE_DEPTH |> in
  let q := q <| count := u32 (count q - 1) |> in
  (IPC_OK, Some m, set_queue s qid q).

(** [kernel/ipc/ipc.c] ipc_queue_count *)
Definition ipc_queue_count (s : IpcState) (qid : Z) : Z :=
  if IPC_MAX_QUEUES <=? qid then IPC_ERR_INVAL else
  if owner_pid (geti (g_queues s) qid) =? 0 then IPC_ERR_INVAL else
  i32 (count (geti (g_queues s) qid)).

(** ** Channels *)

Definition set_channel (s : IpcState) (i : Z) (ch : IpcChannel) : IpcState :=
  s <| g_channels := puti (g_channels s) i ch |>.

(** [kernel/ipc/ipc.c] ipc_channel_create *)
Definition ipc_channel_create (s : IpcState) (owner peer : Z) : Z * IpcState :=
  if owner =? 0 then (IPC_ERR_INVAL, s) else
  match find_idx (fun c => ch_owner_pid c =? 0) (g_channels s) with
  | Some i =>
      let ch := zero_channel <| ch_owner_pid := owner |> <| ch_peer_pid := peer |> in
      let s := set_channel s (Z.of_nat i) ch in
      (Z.of_nat i,
       s <| g_stats := (g_stats s)
              <| channels_active := u32 (channels_active (g_stats s) + 1) |> |>)
  | None => (IPC_ERR_NOSLOT, s)
  end.

(** The loop of ipc_channel_write over the bytes still to be written.
    [kernel/ipc/ipc.c:219-225] ipc_channel_write *)
Fixpoint channel_write_loop (ch : IpcChannel) (todo : bytes) (written : Z)
    : IpcChannel * Z :=
  match todo with
  | [] => (ch, written)
  | b :: todo' =>
      if IPC_CHAN_BUF_SIZE <=? ch_count ch then (ch, written) else
      let ch := ch <| ch_buf := puti (ch_buf ch) (ch_tail ch) b |> in
      let ch := ch <| ch_tail := u16 ((ch_tail ch + 1) mod IPC_CHAN_BUF_SIZE) |> in
      let ch := ch <| ch_count := u16 (ch_count ch + 1) |> in
      channel_write_loop ch todo' (written + 1)
  end.

(** [kernel/ipc/ipc.c] ipc_channel_write *)
Definition ipc_channel_write (s : IpcState) (cid : Z) (buf : option bytes) (len : Z)
    : Z * IpcState :=
  match buf with
  | None => (IPC_ERR_INVAL, s)
  | Some buf =>
    if (IPC_MAX_CHANNELS <=? cid) || (len =? 0) then (IPC_ERR_INVAL, s) else
    let ch := geti (g_channels s) cid in
    if (ch_owner_pid ch =? 0) || negb (ch_closed ch =? 0) then (IPC_ERR_INVAL, s) else
    let '(ch, written) := channel_write_loop ch (read_n buf (Z.to_nat len)) 0 in
    (if written =? 0 then IPC_ERR_FULL else i32 written, set_channel s cid ch)
  end.

(** [kernel/ipc/ipc.c:235-240] ipc_channel_read *)
Fixpoint channel_read_loop (ch : IpcChannel) (fuel : nat) (out : bytes)
    : IpcChannel * bytes :=
  match fuel with
  | O => (ch, out)
  | S fuel' =>
      if ch_count ch <=? 0 then (ch, out) else
      let b := geti (ch_buf ch) (ch_head ch) in
      let ch := ch <| ch_head := u16 ((ch_head ch + 1) mod IPC_CHAN_BUF_SIZE) |> in
      let ch := ch <| ch_count := u16 (ch_count ch - 1) |> in
      channel_read_loop ch fuel' (out ++ [b])
  end.

(** Returns the code, and the bytes stored in the caller's buffer; [buf]
    tells whether that pointer is not NULL.
    [kernel/ipc/ipc.c] ipc_channel_read *)
Definition ipc_channel_read (s : IpcState) (cid : Z) (buf : bool) (max_len : Z)
    : Z * bytes * IpcState :=
  if (IPC_MAX_CHANNELS <=? cid) || negb buf || (max_len =? 0) then (IPC_ERR_INVAL, [], s) else
  let ch := geti (g_channels s) cid in
  if ch_owner_pid ch =? 0 then (IPC_ERR_INVAL, [], s) else
  if ch_count ch =? 0 then (IPC_ERR_EMPTY, [], s) else
  let '(ch, out) := channel_read_loop ch (Z.to_nat max_len) [] in
  (i32 (Z.of_nat (length out)), out, set_channel s cid ch).

(** [kernel/ipc/ipc.c] ipc_channel_close *)
Definition ipc_channel_close (s : IpcState) (cid : Z) : IpcState :=
  if IPC_MAX_CHANNELS <=? cid then s else
  let ch := geti (g_channels s) cid in
  if ch_owner_pid ch =? 0 then s else
  let s := set_channel s cid (ch <| ch_closed := 1 |>) in
  if channels_active (g_stats s) =? 0 then s else
  s <| g_stats := (g_stats s)
         <| channels_active := u32 (channels_active (g_stats s) - 1) |> |>.

(** ** Local sockets *)

(** [kernel/ipc/ipc.c] usock_find_by_path *)
Definition usock_find_by_path (s : IpcState) (path : option bytes) : Z :=
  match path with
  | None => -1
  | Some p =>
      if geti p 0 =? 0 then -1 else
      match find_idx (fun u => negb (us_used u =? 0) && (ipc_strcmp (us_path u) p =? 0))
              (g_usocks s) with
      | Some i => Z.of_nat i
      | None => -1
      end
  end.

Definition set_usock (s : IpcState) (i : Z) (u : IpcUnixSocket) : IpcState :=
  s <| g_usocks := puti (g_usocks s) i u |>.

(** [kernel/ipc/ipc.c] ipc_usock_bind *)
Definition ipc_usock_bind (s : IpcState) (path : option bytes) (owner : Z) : Z * IpcState :=
  match path with
  | None => (IPC_ERR_INVAL, s)
  | Some p =>
    if (geti p 0 =? 0) || (owner =? 0) then (IPC_ERR_INVAL, s) else
    if 0 <=? usock_find_by_path s path then (IPC_ERR_INVAL, s) else
    let '(cid, s) := ipc_channel_create s owner 0 in
    if cid <? 0 then (cid, s) else
    match find_idx (fun u => us_used u =? 0) (g_usocks s) with
    | Some i =>
        let old := geti (g_usocks s) (Z.of_nat i) in
        (IPC_OK, set_usock s (Z.of_nat i)
           (mkIpcUnixSocket 1 cid owner (ipc_strncpy (us_path old) p IPC_USOCK_PATH_MAX)))
    | None => (IPC_ERR_NOSLOT, ipc_channel_close s cid)
    end
  end.

(** [kernel/ipc/ipc.c] ipc_usock_connect *)
Definition ipc_usock_connect (s : IpcState) (path : option bytes) (peer : Z) : Z * IpcState :=
  let sid := usock_find_by_path s path in
  if sid <? 0 then (IPC_ERR_INVAL, s) else
  let cid := us_cid (geti (g_usocks s) sid) in
  if (IPC_MAX_CHANNELS <=? cid) || (ch_owner_pid (geti (g_channels s) cid) =? 0)
  then (IPC_ERR_INVAL, s) else
  (i32 cid, set_channel s cid ((geti (g_channels s) cid) <| ch_peer_pid := peer |>)).

(** [kernel/ipc/ipc.c] ipc_usock_send *)
Definition ipc_usock_send (s : IpcState) (path : option bytes) (buf : option bytes)
    (len : Z) : Z * IpcState :=
  let sid := usock_find_by_path s path in
  if sid <? 0 then (IPC_ERR_INVAL, s) else
  ipc_channel_write s (us_cid (geti (g_usocks s) sid)) buf len.

(** [kernel/ipc/ipc.c] ipc_usock_recv *)
Definition ipc_usock_recv (s : IpcState) (path : option bytes) (buf : bool) (max_len : Z)
    : Z * bytes * IpcState :=
  let sid := usock_find_by_path s path in
  if sid <? 0 then (IPC_ERR_INVAL, [], s) else
  ipc_channel_read s (us_cid (geti (g_usocks s) sid)) buf max_len.

(** [kernel/ipc/ipc.c] ipc_usock_close *)
Definition ipc_usock_close (s : IpcState) (path : option bytes) : Z * IpcState :=
  let sid := usock_find_by_path s path in
  if sid <? 0 then (IPC_ERR_INVAL, s) else
  let s := ipc_channel_close s (us_cid (geti (g_usocks s) sid)) in
  (IPC_OK, set_usock s sid zero_usock).

(** ** System calls 20-27: arguments are addresses in the caller's memory. *)

(** The 64-byte packed layout of IpcMessage.
    [include/ipc.h:48-54] IpcMessage *)
Definition encode_msg (m : IpcMessage) : bytes :=
  le_enc 4 (src_pid m) ++ le_enc 4 (dst_pid m) ++ le_enc 4 (type_ m) ++
  le_enc 4 (len_ m) ++ data m.
Definition decode_msg (bs : bytes) : IpcMessage :=
  mkIpcMessage (le_dec (take 4 bs)) (le_dec (take 4 (drop 4 bs)))
    (le_dec (take 4 (drop 8 bs))) (le_dec (take 4 (drop 12 bs))) (drop 16 bs).

(** [kernel/ipc/ipc.c] ipc_syscall *)
Definition ipc_syscall (s : IpcState) (mem : memory) (num a1 a2 a3 : Z)
    : Z * memory * IpcState :=
  if num =? SYS_IPC_SEND then
    if a2 =? 0 then (IPC_ERR_INVAL, mem, s) else
    let m := decode_msg (mem_read mem a2 64) in
    let '(rc, s) := ipc_send s (src_pid m) a1 (type_ m) (Some (data m)) (len_ m) in
    (rc, mem, s)
  else if num =? SYS_IPC_RECV then
    if a2 =? 0 then (IPC_ERR_INVAL, mem, s) else
    let '(rc, m, s) := ipc_recv s a1 true in
    (rc, match m with Some m => mem_write mem a2 (encode_msg m) | None => mem end, s)
  else if num =? SYS_IPC_QUEUE_CREATE then
    let '(rc, s) := ipc_queue_create s a1 in (rc, mem, s)
  else if num =? SYS_IPC_QUEUE_CLOSE then (IPC_OK, mem, ipc_queue_destroy s a1)
  else if num =? SYS_IPC_CHAN_CREATE then
    let '(rc, s) := ipc_channel_create s a1 a2 in (rc, mem, s)
  else if num =? SYS_IPC_CHAN_WRITE then
    if (a2 =? 0) || (a3 =? 0) then (IPC_ERR_INVAL, mem, s) else
    let '(rc, s) := ipc_channel_write s a1 (Some (mem_read mem a2 (Z.to_nat a3))) a3 in
    (rc, mem, s)
  else if num =? SYS_IPC_CHAN_READ then
    if (a2 =? 0) || (a3 =? 0) then (IPC_ERR_INVAL, mem, s) else
    let '(rc, out, s) := ipc_channel_read s a1 true a3 in
    (rc, mem_write mem a2 out, s)
  else if num =? SYS_IPC_CHAN_CLOSE then (IPC_OK, mem, ipc_channel_close s a1)
  else (IPC_ERR_INVAL, mem, s).

#[export] Hint Unfold IPC_MAX_QUEUES IPC_QUEUE_DEPTH IPC_MSG_PAYLOAD IPC_MAX_CHANNELS
  IPC_CHAN_BUF_SIZE IPC_MAX_USOCKETS IPC_USOCK_PATH_MAX IPC_PID_CACHE_SIZE
  IPC_OK IPC_ERR_FULL IPC_ERR_EMPTY IPC_ERR_INVAL IPC_ERR_NOSLOT : consts.

(** ** Invariant *)

Definition queue_wf (q : IpcQueue) : Prop :=
  is_u32 (owner_pid q) /\ Z.of_nat (length (msgs q)) = IPC_QUEUE_DEPTH /\
  0 <= count q <= IPC_QUEUE_DEPTH /\ 0 <= head q < IPC_QUEUE_DEPTH /\
  tail q = (head q + count q) mod IPC_QUEUE_DEPTH.

Definition chan_wf (c : IpcChannel) : Prop :=
  Z.of_nat (length (ch_buf c)) = IPC_CHAN_BUF_SIZE /\
  0 <= ch_count c <= IPC_CHAN_BUF_SIZE /\ 0 <= ch_head c < IPC_CHAN_BUF_SIZE /\
  ch_tail c = (ch_head c + ch_count c) mod IPC_CHAN_BUF_SIZE.

Definition usock_wf (u : IpcUnixSocket) : Prop :=
  Z.of_nat (length (us_path u)) = IPC_USOCK_PATH_MAX /\ 0 <= us_cid u < IPC_MAX_CHANNELS.

(** No two queues belong to the same process. *)
Definition owners_unique (qs : list IpcQueue) : Prop :=
  forall i j q r, qs !! i = Some q -> qs !! j = Some r ->
    owner_pid q = owner_pid r -> owner_pid q <> 0 -> i = j.

Record ipc_wf (s : IpcState) : Prop := mk_ipc_wf {
  wf_nqueues : Z.of_nat (length (g_queues s)) = IPC_MAX_QUEUES;
  wf_queues : Forall queue_wf (g_queues s);
  wf_owners : owners_unique (g_queues s);
  wf_cache : Z.of_nat (length (g_pid_to_qid s)) = IPC_PID_CACHE_SIZE;
  wf_nchannels : Z.of_nat (length (g_channels s)) = IPC_MAX_CHANNELS;
  wf_channels : Forall chan_wf (g_channels s);
  wf_nusocks : Z.of_nat (length (g_usocks s)) = IPC_MAX_USOCKETS;
  wf_usocks : Forall usock_wf (g_usocks s) }.

Lemma ipc_init_wf : ipc_wf ipc_init.
Proof.
  split; try reflexivity.
  - apply Forall_replicate. closed_bounds.
  - intros i j q r [-> _]%lookup_replicate_1 _ _ H. by destruct H.
  - apply Forall_replicate. closed_bounds.
  - apply Forall_replicate. closed_bounds.
Qed.

(** ** The per-process inbox and its refinement *)

Definition queue_view (q : IpcQueue) : list IpcMessage :=
  ring_view (msgs q) IPC_QUEUE_DEPTH (head q) (Z.to_nat (count q)).

Definition inbox (s : IpcState) (pid : Z) : option (list IpcMessage) :=
  (fun i => queue_view (geti (g_queues s) (Z.of_nat i))) <$> queue_scan s pid.

Lemma queue_scan_Some s pid i :
  queue_scan s pid = Some i ->
  (i < length (g_queues s))%nat /\ owner_pid (geti (g_queues s) (Z.of_nat i)) = pid.
Proof.
  intros H. split; [by eapply find_idx_lt|].
  apply find_idx_Some in H as [[q [Hq Ho]] _].
  rewrite (lookup_geti _ _ _ Hq). by apply Z.eqb_eq.
Qed.

Lemma queue_scan_unique s pid i q :
  ipc_wf s -> pid <> 0 -> g_queues s !! i = Some q -> owner_pid q = pid ->
  queue_scan s pid = Some i.
Proof.
  intros Hwf Hp Hi Ho. apply find_idx_unique with q; [done|by apply Z.eqb_eq|].
  intros j r Hj Hr%Z.eqb_eq. eapply (wf_owners s Hwf); [done..| |]; congruence.
Qed.

(** The cached lookup agrees with the linear scan, whatever the cache holds;
    only the cache may change. *)
Lemma queue_find_by_pid_scan s pid :
  ipc_wf s -> is_u32 pid -> pid <> 0 ->
  exists c, queue_find_by_pid s pid =
    (match queue_scan s pid with Some i => Z.of_nat i | None => -1 end,
     s <| g_pid_to_qid := c |>) /\ Z.of_nat (length c) = IPC_PID_CACHE_SIZE.
Proof.
  intros Hwf Hu Hp. unfold queue_find_by_pid.
  assert (Hid : s = s <| g_pid_to_qid := g_pid_to_qid s |>) by by destruct s.
  assert (Hfb : exists c,
    match queue_scan s pid with
    | Some i => (Z.of_nat i, if pid <? IPC_PID_CACHE_SIZE
                             then set_cache s pid (Z.of_nat i) else s)
    | None => (-1, s)
    end = (match queue_scan s pid with Some i => Z.of_nat i | None => -1 end,
           s <| g_pid_to_qid := c |>) /\ Z.of_nat (length c) = IPC_PID_CACHE_SIZE).
  { destruct (queue_scan s pid); [case_step|];
      eexists; (split; [by rewrite Hid at 1|]); rewrite ?length_puti; apply Hwf. }
  destruct (pid <? IPC_PID_CACHE_SIZE); [|done].
  set (qid := geti (g_pid_to_qid s) pid).
  destruct ((0 <=? qid) && (qid <? IPC_MAX_QUEUES) && _) eqn:E; [|done].
  apply andb_true_iff in E as [[H1 H2]%andb_true_iff H3%Z.eqb_eq].
  assert (Hr : 0 <= qid < Z.of_nat (length (g_queues s))).
  { rewrite (wf_nqueues s Hwf). clia. }
  rewrite (queue_scan_unique s pid (Z.to_nat qid) (geti (g_queues s) qid));
    [|done|done|by apply geti_lookup|done].
  exists (g_pid_to_qid s). rewrite Z2Nat.id by lia. split; [by rewrite Hid at 1|apply Hwf].
Qed.

(** What storing one queue does to the invariant and to the inboxes. *)
Lemma set_queue_wf s (i : nat) q :
  ipc_wf s -> (i < length (g_queues s))%nat -> queue_wf q ->
  (forall j r, j <> i -> g_queues s !! j = Some r -> owner_pid r = owner_pid q ->
    owner_pid q = 0) ->
  ipc_wf (set_queue s (Z.of_nat i) q).
Proof.
  intros Hwf Hi Hq Hu. destruct Hwf. split; simpl; try done.
  - by rewrite length_puti.
  - by apply puti_Forall.
  - unfold puti. rewrite Nat2Z.id.
    intros a b r1 r2 [(-> & -> & _)|(Ha & H1)]%list_lookup_insert_Some
      [(Hb & -> & _)|(Hb & H2)]%list_lookup_insert_Some He H0; try done.
    + exfalso. apply H0, (Hu b r2); congruence.
    + subst b. exfalso. apply H0. rewrite He. apply (Hu a r1); congruence.
    + by apply (wf_owners0 a b r1 r2).
Qed.

Lemma inbox_set_queue s (i : nat) q pid :
  (i < length (g_queues s))%nat ->
  (owner_pid (geti (g_queues s) (Z.of_nat i)) =? pid) = (owner_pid q =? pid) ->
  inbox (set_queue s (Z.of_nat i) q) pid =
  if bool_decide (queue_scan s pid = Some i) then Some (queue_view q) else inbox s pid.
Proof.
  intros Hi Ho.
  assert (Hs : queue_scan (set_queue s (Z.of_nat i) q) pid = queue_scan s pid).
  { unfold queue_scan, set_queue, puti. simpl. rewrite Nat2Z.id.
    apply find_idx_insert. intros y Hy. rewrite <- Ho. by rewrite (lookup_geti _ _ _ Hy). }
  unfold inbox. rewrite Hs. case_bool_decide as E.
  - rewrite E. simpl. rewrite geti_puti_eq by lia. done.
  - destruct (queue_scan s pid) as [j|] eqn:Ej; [|done]. simpl.
    rewrite geti_puti_ne; [done|lia..|]. intros ->%Nat2Z.inj. done.
Qed.

Lemma inbox_cache s c pid : inbox (s <| g_pid_to_qid := c |>) pid = inbox s pid.
Proof. done. Qed.

Lemma inbox_stats s st pid : inbox (s <| g_stats := st |>) pid = inbox s pid.
Proof. done. Qed.

Lemma wf_cache_upd s c :
  ipc_wf s -> Z.of_nat (length c) = IPC_PID_CACHE_SIZE ->
  ipc_wf (s <| g_pid_to_qid := c |>).
Proof. intros [] ?. by split. Qed.

Lemma wf_stats_upd s st : ipc_wf s -> ipc_wf (s <| g_stats := st |>).
Proof. intros []. by split. Qed.
#[export] Hint Resolve wf_stats_upd wf_cache_upd : vos.

Lemma zero_queue_wf pid : is_u32 pid -> queue_wf (zero_queue <| owner_pid := pid |>).
Proof. intros. split; [done|]. closed_bounds. Qed.

Lemma queue_scan_None s pid :
  queue_scan s pid = None -> forall j r, g_queues s !! j = Some r -> owner_pid r <> pid.
Proof.
  intros Hn j r Hj He. unfold queue_scan in Hn. rewrite find_idx_None in Hn.
  apply list_elem_of_lookup_2, Hn in Hj. by apply Z.eqb_neq in Hj.
Qed.

(** ipc_queue_create: the process has a queue afterwards, an existing inbox
    is kept, the others are untouched; it fails only when every slot is owned. *)
Lemma ipc_queue_create_spec s pid :
  ipc_wf s -> is_u32 pid -> pid <> 0 ->
  let '(rc, s') := ipc_queue_create s pid in
  ipc_wf s' /\
  (forall p, p <> 0 -> p <> pid -> inbox s' p = inbox s p) /\
  ((0 <= rc /\ queue_scan s' pid = Some (Z.to_nat rc) /\
    inbox s' pid = Some (default [] (inbox s pid))) \/
   (rc = IPC_ERR_NOSLOT /\ inbox s' pid = None /\ inbox s pid = None /\
    Forall (fun q => owner_pid q <> 0) (g_queues s))).
Proof.
  intros Hwf Hu Hp. unfold ipc_queue_create.
  rewrite (proj2 (Z.eqb_neq _ _) Hp).
  destruct (queue_find_by_pid_scan s pid Hwf Hu Hp) as (c & -> & Hc).
  destruct (queue_scan s pid) as [k|] eqn:Ek.
  { rewrite (proj2 (Z.leb_le _ _)) by lia. split; [auto with vos|].
    split; [done|]. left. rewrite Nat2Z.id. split; [lia|]. split; [done|].
    rewrite inbox_cache. unfold inbox. by rewrite Ek. }
  change (0 <=? -1) with false. cbv iota.
  assert (Hin : inbox s pid = None) by (unfold inbox; by rewrite Ek).
  simpl. destruct (find_idx _ (g_queues s)) as [i|] eqn:Ef.
  2:{ split; [auto with vos|]. split; [done|]. right. rewrite inbox_cache.
      split; [done|]. split; [done|]. split; [done|].
      apply Forall_forall. intros q Hq. rewrite find_idx_None in Ef.
      by apply Z.eqb_neq, Ef. }
  pose proof (find_idx_lt _ _ _ Ef) as Hi.
  apply find_idx_Some in Ef as [[q0 [Hq0 H0%Z.eqb_eq]] _].
  set (s1 := set_queue (s <| g_pid_to_qid := c |>) (Z.of_nat i)
               (zero_queue <| owner_pid := pid |>)).
  assert (Hw1 : ipc_wf s1).
  { apply set_queue_wf; [auto with vos|done|by apply zero_queue_wf|].
    intros j r _ Hj Hr. by destruct (queue_scan_None s pid Ek j r Hj). }
  assert (Hs1 : queue_scan s1 pid = Some i).
  { eapply queue_scan_unique; [done|done| |].
    - simpl. unfold puti. rewrite Nat2Z.id. by apply list_lookup_insert_eq.
    - done. }
  assert (Ho1 : forall p, p <> 0 -> p <> pid -> inbox s1 p = inbox s p).
  { intros p Hp0 Hpp. unfold s1. rewrite inbox_set_queue; [|done|].
    - rewrite bool_decide_eq_false_2; [done|].
      intros [_ Hs]%queue_scan_Some. simpl in Hs.
      rewrite (lookup_geti _ _ _ Hq0) in Hs. lia.
    - simpl. rewrite (lookup_geti _ _ _ Hq0), H0.
      rewrite !(proj2 (Z.eqb_neq _ _)); auto. }
  assert (Hn1 : inbox s1 pid = Some []).
  { unfold inbox. rewrite Hs1. simpl. rewrite geti_puti_eq by lia. done. }
  assert (Hcl : forall v, Z.of_nat (length (puti (g_pid_to_qid s1) pid v)) =
                          IPC_PID_CACHE_SIZE)
    by (intros; rewrite length_puti; apply Hw1).
  fold s1. unfold set_cache.
  case_step; (split; [auto with vos|]); (split; [exact Ho1|]); left;
    rewrite Nat2Z.id, Hin; (split; [lia|]); split; assumption.
Qed.

(** *** Sending *)

Lemma inbox_scan s pid i :
  queue_scan s pid = Some i ->
  inbox s pid = Some (queue_view (geti (g_queues s) (Z.of_nat i))).
Proof. intros H. unfold inbox. by rewrite H. Qed.

(** Enqueuing at the tail appends to the view and keeps the queue well formed. *)
Lemma enqueue_view q m :
  queue_wf q -> count q < IPC_QUEUE_DEPTH ->
  let q' := q <| msgs := puti (msgs q) (tail q) m |>
              <| tail := (tail q + 1) mod IPC_QUEUE_DEPTH |>
              <| count := u32 (count q + 1) |> in
  queue_wf q' /\ queue_view q' = queue_view q ++ [m].
Proof.
  intros (Hu & Hl & Hc & Hh & Ht) Hlt. simpl.
  assert (Hc1 : u32 (count q + 1) = count q + 1) by (apply u32_id; clia).
  split.
  - split; [done|]. simpl. rewrite Hc1, length_puti.
    split; [done|]. split; [lia|]. split; [done|].
    rewrite Ht, Zplus_mod_idemp_l. f_equal. lia.
  - unfold queue_view. simpl. rewrite Hc1, Ht.
    replace (Z.to_nat (count q + 1)) with (S (Z.to_nat (count q))) by lia.
    replace (head q + count q) with (head q + Z.of_nat (Z.to_nat (count q))) by lia.
    apply ring_view_push; clia.
Qed.

Lemma dequeue_view q :
  queue_wf q -> 0 < count q ->
  let q' := q <| head := (head q + 1) mod IPC_QUEUE_DEPTH |>
              <| count := u32 (count q - 1) |> in
  queue_wf q' /\ queue_view q = geti (msgs q) (head q) :: queue_view q'.
Proof.
  intros (Hu & Hl & Hc & Hh & Ht) Hlt. simpl.
  assert (Hc1 : u32 (count q - 1) = count q - 1) by (apply u32_id; clia).
  split.
  - split; [done|]. simpl. rewrite Hc1.
    split; [done|]. split; [lia|].
    split; [apply Z.mod_pos_bound; clia|].
    rewrite Ht, Zplus_mod_idemp_l. f_equal. lia.
  - unfold queue_view. simpl. rewrite Hc1.
    replace (Z.to_nat (count q)) with (S (Z.to_nat (count q - 1))) by lia.
    rewrite ring_view_pop. f_equal. by rewrite Z.mod_small.
Qed.

(** Storing back the queue of a process changes its inbox only. *)
Lemma store_own_queue s pid i q :
  ipc_wf s -> pid <> 0 -> queue_scan s pid = Some i -> queue_wf q -> owner_pid q = pid ->
  ipc_wf (set_queue s (Z.of_nat i) q) /\
  inbox (set_queue s (Z.of_nat i) q) pid = Some (queue_view q) /\
  (forall p, p <> 0 -> p <> pid -> inbox (set_queue s (Z.of_nat i) q) p = inbox s p).
Proof.
  intros Hwf Hp Hsc Hq Ho. destruct (queue_scan_Some _ _ _ Hsc) as [Hi Hio].
  assert (Hgi : g_queues s !! i = Some (geti (g_queues s) (Z.of_nat i))).
  { rewrite <- (Nat2Z.id i) at 1. apply geti_lookup. lia. }
  split; [|split].
  - apply set_queue_wf; [done..|]. intros j r Hj Hr He. exfalso. apply Hj.
    eapply (wf_owners s Hwf); [exact Hr|exact Hgi|congruence..].
  - rewrite inbox_set_queue by congruence. by rewrite bool_decide_eq_true_2.
  - intros p Hp0 Hpp. rewrite inbox_set_queue by congruence.
    rewrite bool_decide_eq_false_2; [done|]. intros [_ Hs]%queue_scan_Some. congruence.
Qed.

(** The lookup-or-create prefix of ipc_send. *)
Lemma send_queue_spec s dst :
  ipc_wf s -> is_u32 dst -> dst <> 0 ->
  let '(qid, s1) := (let '(qid, s0) := queue_find_by_pid s dst in
                     if qid <? 0 then ipc_queue_create s0 dst else (qid, s0)) in
  ipc_wf s1 /\
  (forall p, p <> 0 -> p <> dst -> inbox s1 p = inbox s p) /\
  ((exists i, qid = Z.of_nat i /\ queue_scan s1 dst = Some i /\
     inbox s1 dst = Some (default [] (inbox s dst))) \/
   (qid = IPC_ERR_NOSLOT /\ inbox s1 dst = None /\ inbox s dst = None /\
    Forall (fun q => owner_pid q <> 0) (g_queues s))).
Proof.
  intros Hwf Hu Hp.
  destruct (queue_find_by_pid_scan s dst Hwf Hu Hp) as (c & -> & Hc).
  destruct (queue_scan s dst) as [k|] eqn:Ek.
  - rewrite (proj2 (Z.ltb_ge _ _)) by lia. split; [auto with vos|]. split; [done|].
    left. exists k. split; [done|]. split; [done|]. rewrite inbox_cache.
    by rewrite (inbox_scan s dst k).
  - change (-1 <? 0) with true. cbv iota.
    pose proof (ipc_queue_create_spec (s <| g_pid_to_qid := c |>) dst
                  (wf_cache_upd _ _ Hwf Hc) Hu Hp) as Hspec.
    destruct (ipc_queue_create _ dst) as [rc s1].
    destruct Hspec as (H1 & H2 & [(H3 & H4 & H5)|H3]); split; [done| |done|];
      (split; [done|]); [left|by right].
    exists (Z.to_nat rc). split; [lia|]. by split.
Qed.

Lemma ipc_send_ok s src dst type payload len :
  ipc_wf s -> is_u32 dst -> 0 <= len ->
  let '(rc, s') := ipc_send s src dst type payload len in
  ipc_wf s' /\
  (forall p, p <> 0 -> p <> dst -> inbox s' p = inbox s p) /\
  match payload with
  | None => rc = IPC_ERR_INVAL /\ s' = s
  | Some d =>
      (dst = 0 /\ rc = IPC_ERR_INVAL /\ s' = s) \/
      (dst <> 0 /\
       ((rc = IPC_OK /\
         inbox s' dst = Some (default [] (inbox s dst) ++
           [make_msg src dst type d (Z.min len IPC_MSG_PAYLOAD)])) \/
        (rc = IPC_ERR_FULL /\ inbox s' dst = inbox s dst /\
         exists l, inbox s dst = Some l /\ Z.of_nat (length l) = IPC_QUEUE_DEPTH) \/
        (rc = IPC_ERR_NOSLOT /\ inbox s' dst = None /\ inbox s dst = None /\
         Forall (fun q => owner_pid q <> 0) (g_queues s))))
  end.
Proof.
  intros Hwf Hu Hl. unfold ipc_send. destruct payload as [d|]; [|done].
  destruct (Z.eqb_spec dst 0) as [->|Hd].
  { split; [done|]. split; [done|]. by left. }
  replace (if IPC_MSG_PAYLOAD <? len then IPC_MSG_PAYLOAD else len)
    with (Z.min len IPC_MSG_PAYLOAD) by (case_step; lia).
  pose proof (send_queue_spec s dst Hwf Hu Hd) as Hq.
  destruct (queue_find_by_pid s dst) as [q0 s0].
  destruct (if q0 <? 0 then _ else _) as [qid s1].
  destruct Hq as (Hw1 & Ho1 & [(i & -> & Hsc & Hib)|(-> & Hn1 & Hn & Hfull)]).
  2:{ change (IPC_ERR_NOSLOT <? 0) with true. cbv iota. split; [by apply wf_stats_upd|].
      split; [done|]. right. split; [done|]. auto 6. }
  rewrite (proj2 (Z.ltb_ge _ _)) by lia.
  destruct (queue_scan_Some _ _ _ Hsc) as [Hi Ho].
  rewrite (inbox_scan _ _ _ Hsc) in Hib. injection Hib as Hib.
  set (q := geti (g_queues s1) (Z.of_nat i)) in *.
  assert (Hqw : queue_wf q) by (apply geti_Forall; [apply Hw1|lia]).
  destruct (Z.leb_spec IPC_QUEUE_DEPTH (count q)) as [Hf|Hf].
  - split; [by apply wf_stats_upd|]. split; [done|]. right. split; [done|].
    right; left. split; [done|].
    assert (Hlen : Z.of_nat (length (queue_view q)) = IPC_QUEUE_DEPTH).
    { unfold queue_view. rewrite length_ring_view. destruct Hqw as (_ & _ & ? & _). lia. }
    unfold bump_dropped. rewrite inbox_stats, (inbox_scan _ _ _ Hsc). fold q.
    rewrite Hib in Hlen |- *. clear Hib.
    destruct (inbox s dst) as [l|]; [by eauto|].
    simpl in Hlen. clia.
  - destruct (enqueue_view q (make_msg src dst type d (Z.min len IPC_MSG_PAYLOAD)) Hqw Hf)
      as [Hqw' Hv].
    destruct (store_own_queue s1 dst i _ Hw1 Hd Hsc Hqw' Ho) as (Ha & Hb & Hc). cbv zeta.
    split; [by apply wf_stats_upd|].
    split; [intros p Hp0 Hp; rewrite <- Ho1 by done; exact (Hc p Hp0 Hp)|].
    right. split; [done|]. left.
    split; [done|]. rewrite <- Hib, <- Hv. exact Hb.
Qed.


Lemma ipc_recv_ok s qid :
  ipc_wf s -> 0 <= qid ->
  let '(rc, m, s') := ipc_recv s qid true in
  ipc_wf s' /\
  if (IPC_MAX_QUEUES <=? qid) || (owner_pid (geti (g_queues s) qid) =? 0)
  then rc = IPC_ERR_INVAL /\ m = None /\ s' = s
  else
    let pid := owner_pid (geti (g_queues s) qid) in
    (forall p, p <> 0 -> p <> pid -> inbox s' p = inbox s p) /\
    match inbox s pid with
    | None => False
    | Some [] => rc = IPC_ERR_EMPTY /\ m = None /\ s' = s
    | Some (x :: l) => rc = IPC_OK /\ m = Some x /\ inbox s' pid = Some l
    end.
Proof.
  intros Hwf Hq. unfold ipc_recv. rewrite orb_false_r.
  destruct (Z.leb_spec IPC_MAX_QUEUES qid) as [Hge|Hlt]; simpl; [done|].
  assert (Hr : 0 <= qid < Z.of_nat (length (g_queues s))) by (rewrite (wf_nqueues s Hwf); lia).
  set (q := geti (g_queues s) qid).
  destruct (Z.eqb_spec (owner_pid q) 0) as [H0|H0]; [done|].
  assert (Hsc : queue_scan s (owner_pid q) = Some (Z.to_nat qid))
    by (apply queue_scan_unique with q; [done|done|by apply geti_lookup|done]).
  pose proof (inbox_scan _ _ _ Hsc) as Hib. rewrite Z2Nat.id in Hib by lia. fold q in Hib.
  assert (Hqw : queue_wf q) by (apply geti_Forall; [apply Hwf|lia]).
  assert (Hqw' := Hqw). destruct Hqw' as (Hu & Hl & Hc & Hh & Ht).
  destruct (Z.eqb_spec (count q) 0) as [Hz|Hz].
  - split; [done|]. split; [done|]. rewrite Hib. unfold queue_view. by rewrite Hz.
  - destruct (dequeue_view q Hqw ltac:(lia)) as [Hw' Hv].
    replace qid with (Z.of_nat (Z.to_nat qid)) by lia.
    destruct (store_own_queue s (owner_pid q) _ _ Hwf H0 Hsc Hw' eq_refl) as (Ha & Hb & Hcc).
    split; [exact Ha|]. split; [exact Hcc|]. rewrite Hib, Hv.
    split; [done|]. split; [done|]. exact Hb.
Qed.

(** ipc_recv is a dequeue: on a queue owned by a process it returns and
    removes the oldest message of that process's inbox, or EMPTY when there is
    none, and INVAL (state unchanged) for a bad or unowned queue id; other
    inboxes are untouched. *)
Lemma ipc_recv_refines s qid :
  ipc_wf s -> 0 <= qid ->
  let '(rc, m, s') := ipc_recv s qid true in
  ipc_wf s' /\
  if (IPC_MAX_QUEUES <=? qid) || (owner_pid (geti (g_queues s) qid) =? 0)
  then rc = IPC_ERR_INVAL /\ m = None /\ s' = s
  else
    let pid := owner_pid (geti (g_queues s) qid) in
    (forall p, p <> 0 -> p <> pid -> inbox s' p = inbox s p) /\
    match inbox s pid with
    | None => False
    | Some [] => rc = IPC_ERR_EMPTY /\ m = None /\ s' = s
    | Some (x :: l) => rc = IPC_OK /\ m = Some x /\ inbox s' pid = Some l
    end.
Proof. apply ipc_recv_ok. Qed.

(** *** Channels *)

Definition chan_view (c : IpcChannel) : bytes :=
  ring_view (ch_buf c) IPC_CHAN_BUF_SIZE (ch_head c) (Z.to_nat (ch_count c)).

Lemma length_chan_view c : chan_wf c -> Z.of_nat (length (chan_view c)) = ch_count c.
Proof. intros (_ & Hc & _). unfold chan_view. rewrite length_ring_view. lia. Qed.

Lemma channel_write_loop_spec ch todo w :
  chan_wf ch ->
  let '(ch', w') := channel_write_loop ch todo w in
  let n := Z.min (Z.of_nat (length todo)) (IPC_CHAN_BUF_SIZE - ch_count ch) in
  chan_wf ch' /\ w' = w + n /\
  chan_view ch' = chan_view ch ++ take (Z.to_nat n) todo /\
  ch_owner_pid ch' = ch_owner_pid ch /\ ch_peer_pid ch' = ch_peer_pid ch /\
  ch_closed ch' = ch_closed ch.
Proof.
  revert ch w; induction todo as [|b todo IH]; intros ch w Hwf;
    assert (Hw := Hwf); destruct Hw as (Hl & Hc & Hh & Ht);
    cbn [channel_write_loop length].
  { rewrite take_nil, app_nil_r. split; [done|]. split; [lia|]. done. }
  destruct (Z.leb_spec IPC_CHAN_BUF_SIZE (ch_count ch)) as [Hf|Hf].
  { replace (Z.to_nat _) with 0%nat by lia. rewrite take_0, app_nil_r.
    split; [done|]. split; [lia|]. done. }
  cbv zeta.
  match goal with |- context [channel_write_loop ?c todo _] => set (ch1 := c) end.
  assert (Hb := Z.mod_pos_bound (ch_tail ch + 1) IPC_CHAN_BUF_SIZE ltac:(clia)).
  assert (Htl : ch_tail ch1 = (ch_tail ch + 1) mod IPC_CHAN_BUF_SIZE)
    by (apply u16_id; clia).
  assert (Hct : ch_count ch1 = ch_count ch + 1) by (apply u16_id; clia).
  assert (Hw1 : chan_wf ch1).
  { split; [simpl; by rewrite length_puti|]. split; [rewrite Hct; lia|].
    split; [done|]. rewrite Htl, Hct, Ht, Zplus_mod_idemp_l. f_equal. simpl. lia. }
  assert (Hv1 : chan_view ch1 = chan_view ch ++ [b]).
  { unfold chan_view. rewrite Hct. change (ch_head ch1) with (ch_head ch).
    replace (Z.to_nat (ch_count ch + 1)) with (S (Z.to_nat (ch_count ch))) by lia.
    rewrite <- ring_view_push by clia. simpl. do 3 f_equal. rewrite Ht. f_equal. lia. }
  specialize (IH ch1 (w + 1) Hw1).
  destruct (channel_write_loop ch1 todo (w + 1)) as [ch' w'].
  destruct IH as (H1 & H2 & H3 & H4). rewrite Hct in H2, H3.
  split; [done|]. split; [lia|]. split; [|done].
  rewrite H3, Hv1, <- app_assoc. f_equal. simpl.
  replace (Z.to_nat (Z.min (Z.of_nat (S (length todo))) (IPC_CHAN_BUF_SIZE - ch_count ch)))
    with (S (Z.to_nat (Z.min (Z.of_nat (length todo)) (IPC_CHAN_BUF_SIZE - (ch_count ch + 1)))))
    by lia. done.
Qed.

Lemma channel_read_loop_spec ch fuel out :
  chan_wf ch ->
  let '(ch', out') := channel_read_loop ch fuel out in
  chan_wf ch' /\ out' = out ++ take fuel (chan_view ch) /\
  chan_view ch' = drop fuel (chan_view ch) /\
  ch_owner_pid ch' = ch_owner_pid ch /\ ch_peer_pid ch' = ch_peer_pid ch /\
  ch_closed ch' = ch_closed ch.
Proof.
  revert ch out; induction fuel as [|fuel IH]; intros ch out Hwf;
    assert (Hw := Hwf); destruct Hw as (Hl & Hc & Hh & Ht); cbn [channel_read_loop].
  { by rewrite take_0, app_nil_r, drop_0. }
  destruct (Z.leb_spec (ch_count ch) 0) as [Hz|Hz].
  { assert (Hv : chan_view ch = [])
      by (unfold chan_view; by replace (ch_count ch) with 0 by lia).
    rewrite Hv, take_nil, app_nil_r. done. }
  cbv zeta.
  match goal with |- context [channel_read_loop ?c fuel _] => set (ch1 := c) end.
  assert (Hb := Z.mod_pos_bound (ch_head ch + 1) IPC_CHAN_BUF_SIZE ltac:(clia)).
  assert (Hhd : ch_head ch1 = (ch_head ch + 1) mod IPC_CHAN_BUF_SIZE)
    by (apply u16_id; clia).
  assert (Hct : ch_count ch1 = ch_count ch - 1) by (apply u16_id; clia).
  assert (Hw1 : chan_wf ch1).
  { split; [done|]. split; [rewrite Hct; lia|]. split; [rewrite Hhd; lia|].
    rewrite Hhd, Hct, Zplus_mod_idemp_l. change (ch_tail ch1) with (ch_tail ch).
    rewrite Ht. f_equal. lia. }
  assert (Hv1 : chan_view ch = geti (ch_buf ch) (ch_head ch) :: chan_view ch1).
  { unfold chan_view. rewrite Hct, Hhd. change (ch_buf ch1) with (ch_buf ch).
    replace (Z.to_nat (ch_count ch)) with (S (Z.to_nat (ch_count ch - 1))) by lia.
    rewrite ring_view_pop. f_equal. by rewrite Z.mod_small. }
  specialize (IH ch1 (out ++ [geti (ch_buf ch) (ch_head ch)]) Hw1).
  destruct (channel_read_loop ch1 fuel _) as [ch' out'].
  destruct IH as (H1 & H2 & H3 & H4).
  split; [done|]. rewrite Hv1. split; [by rewrite H2, <- app_assoc|]. done.
Qed.

Lemma set_channel_wf s cid ch : ipc_wf s -> chan_wf ch -> ipc_wf (set_channel s cid ch).
Proof. intros [] H. split; simpl; try done; [by rewrite length_puti|by apply puti_Forall]. Qed.

Lemma set_usock_wf s i u : ipc_wf s -> usock_wf u -> ipc_wf (set_usock s i u).
Proof. intros [] H. split; simpl; try done; [by rewrite length_puti|by apply puti_Forall]. Qed.

Lemma geti_chan_wf s cid :
  ipc_wf s -> 0 <= cid < IPC_MAX_CHANNELS -> chan_wf (geti (g_channels s) cid).
Proof. intros Hwf Hc. apply geti_Forall; [apply Hwf|]. rewrite (wf_nchannels s Hwf). lia. Qed.
#[export] Hint Resolve set_channel_wf set_usock_wf geti_chan_wf : vos.

(** ipc_channel_write appends to the channel's byte stream the longest
    prefix of the buffer that fits, returns its length (FULL when it is empty,
    INVAL on a closed or unowned channel) and changes no other channel. *)
Lemma ipc_channel_write_refines s cid buf len :
  ipc_wf s -> 0 <= cid < IPC_MAX_CHANNELS -> 0 < len < 2 ^ 31 ->
  Z.of_nat (length buf) = len ->
  let ch := geti (g_channels s) cid in
  let '(rc, s') := ipc_channel_write s cid (Some buf) len in
  let ch' := geti (g_channels s') cid in
  let n := Z.min len (IPC_CHAN_BUF_SIZE - ch_count ch) in
  ipc_wf s' /\
  if (ch_owner_pid ch =? 0) || negb (ch_closed ch =? 0)
  then rc = IPC_ERR_INVAL /\ s' = s
  else rc = (if n =? 0 then IPC_ERR_FULL else n) /\
       chan_view ch' = chan_view ch ++ take (Z.to_nat n) buf /\
       (forall c, 0 <= c -> c <> cid -> geti (g_channels s') c = geti (g_channels s) c).
Proof.
  intros Hwf Hcid Hlen Hbuf. cbv zeta. unfold ipc_channel_write.
  rewrite (proj2 (Z.leb_gt _ _)), (proj2 (Z.eqb_neq len 0)) by lia. simpl orb.
  destruct (orb _ _); [done|].
  pose proof (geti_chan_wf s cid Hwf Hcid) as Hcw.
  pose proof (channel_write_loop_spec (geti (g_channels s) cid)
                (read_n buf (Z.to_nat len)) 0 Hcw) as Hloop.
  destruct (channel_write_loop _ _ _) as [ch' w].
  destruct Hloop as (H1 & -> & H3 & _).
  rewrite read_n_all in H3 by lia. rewrite read_n_all, Hbuf in * by lia.
  split; [auto with vos|]. split.
  - rewrite Z.add_0_l. destruct Hcw as (_ & Hc & _). case_step; [done|].
    apply i32_id. lia.
  - simpl. rewrite geti_puti_eq by (rewrite (wf_nchannels s Hwf); lia).
    split; [done|]. intros c Hc Hne. rewrite geti_puti_ne; done || lia.
Qed.

(** ipc_channel_read removes from the front of the channel's byte stream, and
    returns in order, the first max_len bytes (all of them when there are
    fewer), whether or not the channel was closed; EMPTY on an empty stream. *)
Lemma ipc_channel_read_refines s cid max_len :
  ipc_wf s -> 0 <= cid < IPC_MAX_CHANNELS -> 0 < max_len ->
  let ch := geti (g_channels s) cid in
  let '(rc, out, s') := ipc_channel_read s cid true max_len in
  let ch' := geti (g_channels s') cid in
  ipc_wf s' /\
  if ch_owner_pid ch =? 0 then rc = IPC_ERR_INVAL /\ s' = s
  else out = take (Z.to_nat max_len) (chan_view ch) /\
       chan_view ch' = drop (Z.to_nat max_len) (chan_view ch) /\
       rc = (if ch_count ch =? 0 then IPC_ERR_EMPTY else Z.of_nat (length out)) /\
       (forall c, 0 <= c -> c <> cid -> geti (g_channels s') c = geti (g_channels s) c).
Proof.
  intros Hwf Hcid Hlen. cbv zeta. unfold ipc_channel_read.
  rewrite (proj2 (Z.leb_gt _ _)), (proj2 (Z.eqb_neq max_len 0)) by lia. simpl orb.
  pose proof (geti_chan_wf s cid Hwf Hcid) as Hcw.
  pose proof (length_chan_view _ Hcw) as Hlv.
  destruct (ch_owner_pid _ =? 0); [done|].
  destruct (Z.eqb_spec (ch_count (geti (g_channels s) cid)) 0) as [Hz|Hz].
  { assert (Hv : chan_view (geti (g_channels s) cid) = [])
      by (apply nil_length_inv; lia).
    rewrite Hv, take_nil, drop_nil. split; [done|]. done. }
  pose proof (channel_read_loop_spec (geti (g_channels s) cid) (Z.to_nat max_len) [] Hcw)
    as Hloop.
  destruct (channel_read_loop _ _ _) as [ch' out].
  destruct Hloop as (H1 & -> & H3 & _). simpl app.
  split; [auto with vos|]. simpl. split; [done|].
  rewrite geti_puti_eq by (rewrite (wf_nchannels s Hwf); lia). split; [done|]. split.
  - destruct Hcw as (_ & Hc & _). apply i32_id. rewrite length_take. clia.
  - intros c Hc Hne. rewrite geti_puti_ne; done || lia.
Qed.

(** ** Every sequence of calls *)

Lemma ipc_queue_destroy_wf s qid : ipc_wf s -> 0 <= qid -> ipc_wf (ipc_queue_destroy s qid).
Proof.
  intros Hwf Hq. unfold ipc_queue_destroy.
  destruct (Z.leb_spec IPC_MAX_QUEUES qid); [done|].
  destruct (_ =? 0); [done|].
  set (pid := owner_pid _).
  assert (Hs : forall s0, ipc_wf s0 -> ipc_wf (set_queue s0 qid zero_queue)).
  { intros s0 Hw0. replace qid with (Z.of_nat (Z.to_nat qid)) by lia.
    apply set_queue_wf; [done| |by apply (zero_queue_wf 0); ulia|done].
    pose proof (wf_nqueues s0 Hw0). lia. }
  assert (Hc : ipc_wf (if pid <? IPC_PID_CACHE_SIZE then set_cache s pid (-1) else s)).
  { case_step; [|done]. apply wf_cache_upd; [done|]. rewrite length_puti. apply Hwf. }
  cbv zeta. destruct (queues_active _ =? 0); auto with vos.
Qed.

Lemma ipc_channel_create_spec s owner peer :
  ipc_wf s ->
  let '(rc, s') := ipc_channel_create s owner peer in
  ipc_wf s' /\ rc < IPC_MAX_CHANNELS /\ g_usocks s' = g_usocks s /\
  (0 <= rc -> owner <> 0 /\ geti (g_channels s') rc =
     zero_channel <| ch_owner_pid := owner |> <| ch_peer_pid := peer |>) /\
  (forall c, 0 <= c -> c <> rc -> geti (g_channels s') c = geti (g_channels s) c).
Proof.
  intros Hwf. unfold ipc_channel_create.
  assert (Hfail : forall rc, rc < 0 -> ipc_wf s /\ rc < IPC_MAX_CHANNELS /\
    g_usocks s = g_usocks s /\ (0 <= rc -> owner <> 0 /\ geti (g_channels s) rc =
     zero_channel <| ch_owner_pid := owner |> <| ch_peer_pid := peer |>) /\
    (forall c, 0 <= c -> c <> rc -> geti (g_channels s) c = geti (g_channels s) c)).
  { intros rc Hrc. split_and!; try done; [clia|intros; lia]. }
  destruct (Z.eqb_spec owner 0); [by apply Hfail|].
  destruct (find_idx _ _) as [i|] eqn:E; [|by apply Hfail].
  apply find_idx_lt in E. pose proof (wf_nchannels s Hwf).
  split; [apply wf_stats_upd, set_channel_wf; [done|closed_bounds]|].
  split; [lia|]. split; [done|]. split.
  - intros _. split; [done|]. simpl. rewrite geti_puti_eq; [done|lia].
  - intros c Hc Hne. simpl. rewrite geti_puti_ne; done || lia.
Qed.

Lemma ipc_channel_close_wf s cid :
  ipc_wf s -> 0 <= cid -> ipc_wf (ipc_channel_close s cid).
Proof.
  intros Hwf Hc. unfold ipc_channel_close.
  destruct (Z.leb_spec IPC_MAX_CHANNELS cid) as [Hge|Hlt]; [done|].
  destruct (_ =? 0); [done|].
  assert (Hs : ipc_wf (set_channel s cid ((geti (g_channels s) cid) <| ch_closed := 1 |>))).
  { apply set_channel_wf; [done|]. exact (geti_chan_wf s cid Hwf (conj Hc Hlt)). }
  cbv zeta. destruct (channels_active _ =? 0); auto with vos.
Qed.

Lemma usock_find_range s path :
  ipc_wf s -> 0 <= usock_find_by_path s path ->
  usock_find_by_path s path < IPC_MAX_USOCKETS /\
  0 <= us_cid (geti (g_usocks s) (usock_find_by_path s path)) < IPC_MAX_CHANNELS.
Proof.
  intros Hwf. unfold usock_find_by_path. destruct path as [p|]; [|lia].
  destruct (geti p 0 =? 0); [lia|]. destruct (find_idx _ _) as [i|] eqn:E; [|lia].
  intros _. apply find_idx_lt in E. pose proof (wf_nusocks s Hwf). split; [lia|].
  apply (geti_Forall usock_wf); [apply Hwf|lia].
Qed.

Lemma ipc_strncpy_length dst src max : length (ipc_strncpy dst src max) = length dst.
Proof. unfold ipc_strncpy. case_step; [done|apply length_strncpy_loop]. Qed.

Inductive ipc_call :=
| Call_queue_create (pid : Z) | Call_queue_destroy (qid : Z)
| Call_send (src dst type : Z) (payload : option bytes) (len : Z)
| Call_recv (qid : Z) (out : bool)
| Call_channel_create (owner peer : Z)
| Call_channel_write (cid : Z) (buf : option bytes) (len : Z)
| Call_channel_read (cid : Z) (buf : bool) (max_len : Z)
| Call_channel_close (cid : Z)
| Call_usock_bind (path : option bytes) (owner : Z)
| Call_usock_connect (path : option bytes) (peer : Z)
| Call_usock_send (path buf : option bytes) (len : Z)
| Call_usock_recv (path : option bytes) (buf : bool) (max_len : Z)
| Call_usock_close (path : option bytes).

Definition ipc_exec (s : IpcState) (c : ipc_call) : IpcState :=
  match c with
  | Call_queue_create pid => (ipc_queue_create s pid).2
  | Call_queue_destroy qid => ipc_queue_destroy s qid
  | Call_send src dst type p len => (ipc_send s src dst type p len).2
  | Call_recv qid out => (ipc_recv s qid out).2
  | Call_channel_create o p => (ipc_channel_create s o p).2
  | Call_channel_write cid b len => (ipc_channel_write s cid b len).2
  | Call_channel_read cid b m => (ipc_channel_read s cid b m).2
  | Call_channel_close cid => ipc_channel_close s cid
  | Call_usock_bind p o => (ipc_usock_bind s p o).2
  | Call_usock_connect p o => (ipc_usock_connect s p o).2
  | Call_usock_send p b len => (ipc_usock_send s p b len).2
  | Call_usock_recv p b m => (ipc_usock_recv s p b m).2
  | Call_usock_close p => (ipc_usock_close s p).2
  end.

(** The arguments are the unsigned 32-bit values of the C prototypes. *)
Definition call_ok (c : ipc_call) : Prop :=
  match c with
  | Call_queue_create a | Call_queue_destroy a | Call_recv a _
  | Call_channel_close a | Call_usock_bind _ a | Call_usock_connect _ a => is_u32 a
  | Call_send a b c _ d => is_u32 a /\ is_u32 b /\ is_u32 c /\ is_u32 d
  | Call_channel_create a b => is_u32 a /\ is_u32 b
  | Call_channel_write a _ b => is_u32 a /\ is_u32 b
  | Call_channel_read a _ b => is_u32 a /\ is_u32 b
  | Call_usock_send _ _ a | Call_usock_recv _ _ a => is_u32 a
  | Call_usock_close _ => True
  end.

Lemma ipc_channel_write_wf s cid b len :
  ipc_wf s -> 0 <= cid -> ipc_wf (ipc_channel_write s cid b len).2.
Proof.
  intros Hwf Hc. unfold ipc_channel_write. destruct b as [b|]; [|done].
  destruct (Z.leb_spec IPC_MAX_CHANNELS cid) as [Hge|Hlt]; simpl; [done|].
  destruct (len =? 0); [done|]. destruct (orb _ _); [done|].
  pose proof (channel_write_loop_spec (geti (g_channels s) cid) (read_n b (Z.to_nat len)) 0
                (geti_chan_wf s cid Hwf (conj Hc Hlt))) as Hl.
  destruct (channel_write_loop _ _ _). apply set_channel_wf; [done|apply Hl].
Qed.

Lemma ipc_channel_read_wf s cid b m :
  ipc_wf s -> 0 <= cid -> ipc_wf (ipc_channel_read s cid b m).2.
Proof.
  intros Hwf Hc. unfold ipc_channel_read.
  destruct (Z.leb_spec IPC_MAX_CHANNELS cid) as [Hge|Hlt]; simpl; [done|].
  destruct (orb _ _); [done|]. destruct (_ =? 0); [done|]. destruct (_ =? 0); [done|].
  pose proof (channel_read_loop_spec (geti (g_channels s) cid) (Z.to_nat m) []
                (geti_chan_wf s cid Hwf (conj Hc Hlt))) as Hl.
  destruct (channel_read_loop _ _ _). apply set_channel_wf; [done|apply Hl].
Qed.

Lemma ipc_usock_bind_wf s path owner : ipc_wf s -> ipc_wf (ipc_usock_bind s path owner).2.
Proof.
  intros Hwf. unfold ipc_usock_bind. destruct path as [p|]; [|done].
  destruct (orb _ _); [done|]. destruct (0 <=? _); [done|].
  pose proof (ipc_channel_create_spec s owner 0 Hwf) as Hc.
  destruct (ipc_channel_create s owner 0) as [cid s1]. destruct Hc as (Hw1 & Hr & _).
  destruct (Z.ltb_spec cid 0); [done|].
  destruct (find_idx _ _) as [i|] eqn:E; [|by apply ipc_channel_close_wf].
  apply find_idx_lt in E. apply set_usock_wf; [done|]. split; simpl; [|lia].
  rewrite ipc_strncpy_length. pose proof (wf_nusocks s1 Hw1).
  apply (geti_Forall usock_wf); [apply Hw1|lia].
Qed.

Lemma ipc_usock_connect_wf s path peer : ipc_wf s -> ipc_wf (ipc_usock_connect s path peer).2.
Proof.
  intros Hwf. unfold ipc_usock_connect.
  destruct (Z.ltb_spec (usock_find_by_path s path) 0); [done|].
  destruct (usock_find_range s path Hwf ltac:(lia)) as [_ Hc].
  destruct (orb _ _); [done|]. apply set_channel_wf; [done|].
  exact (geti_chan_wf s _ Hwf Hc).
Qed.

Lemma ipc_usock_close_wf s path : ipc_wf s -> ipc_wf (ipc_usock_close s path).2.
Proof.
  intros Hwf. unfold ipc_usock_close.
  destruct (Z.ltb_spec (usock_find_by_path s path) 0); [done|].
  destruct (usock_find_range s path Hwf ltac:(lia)) as [_ Hc].
  apply set_usock_wf; [apply ipc_channel_close_wf; [done|lia]|closed_bounds].
Qed.

Lemma ipc_exec_wf s c : ipc_wf s -> call_ok c -> ipc_wf (ipc_exec s c).
Proof.
  intros Hwf. destruct c; simpl; intros Hok.
  - destruct (Z.eqb_spec pid 0) as [->|Hp]; [done|].
    pose proof (ipc_queue_create_spec s pid Hwf Hok Hp) as H.
    destruct (ipc_queue_create s pid). apply H.
  - apply ipc_queue_destroy_wf; [done|ulia].
  - pose proof (ipc_send_ok s src dst type payload len Hwf) as H.
    destruct (ipc_send s src dst type payload len). apply H; [apply Hok|ulia].
  - destruct out.
    + pose proof (ipc_recv_ok s qid Hwf) as H.
      destruct (ipc_recv s qid true) as [[? ?] ?]. apply H. ulia.
    + unfold ipc_recv. by rewrite orb_true_r.
  - pose proof (ipc_channel_create_spec s owner peer Hwf) as H.
    destruct (ipc_channel_create s owner peer). apply H.
  - apply ipc_channel_write_wf; [done|ulia].
  - apply ipc_channel_read_wf; [done|ulia].
  - apply ipc_channel_close_wf; [done|ulia].
  - by apply ipc_usock_bind_wf.
  - by apply ipc_usock_connect_wf.
  - unfold ipc_usock_send. destruct (Z.ltb_spec (usock_find_by_path s path) 0); [done|].
    destruct (usock_find_range s path Hwf ltac:(lia)).
    apply ipc_channel_write_wf; [done|lia].
  - unfold ipc_usock_recv. destruct (Z.ltb_spec (usock_find_by_path s path) 0); [done|].
    destruct (usock_find_range s path Hwf ltac:(lia)).
    apply ipc_channel_read_wf; [done|lia].
  - by apply ipc_usock_close_wf.
Qed.

Lemma ipc_run_calls calls :
  Forall call_ok calls -> ipc_wf (foldl ipc_exec ipc_init calls).
Proof.
  intros Hok. assert (H : forall s, ipc_wf s -> ipc_wf (foldl ipc_exec s calls)).
  { induction Hok as [|c cs Hc _ IH]; intros s Hs; simpl; [done|].
    by apply IH, ipc_exec_wf. }
  apply H, ipc_init_wf.
Qed.

(** C14. The IPC tables stay well formed - ring indices in range and consistent
    with the counts, at most one queue per process, socket channels in range -
    after every sequence of IPC calls from ipc_init. *)
Theorem ipc_run_wf calls :
  Forall call_ok calls -> ipc_wf (foldl ipc_exec ipc_init calls).
Proof. apply ipc_run_calls. Qed.

(** ** Local sockets by path *)

Lemma usock_find_None s p :
  usock_find_by_path s (Some p) < 0 -> geti p 0 <> 0 ->
  forall u, u ∈ g_usocks s -> us_used u <> 0 -> ipc_strcmp (us_path u) p <> 0.
Proof.
  unfold usock_find_by_path. intros Hf Hp u Hu H0 He.
  rewrite (proj2 (Z.eqb_neq _ _) Hp) in Hf.
  destruct (find_idx _ _) as [i|] eqn:E; [lia|].
  rewrite find_idx_None in E. apply E in Hu.
  rewrite He, Z.eqb_refl, andb_true_r in Hu. apply negb_false_iff, Z.eqb_eq in Hu. done.
Qed.

(** A bound path of at most 31 characters is found again, and leads to a fresh
    channel of its owner; this is the contract of usock bind + lookup. *)
Lemma ipc_usock_bind_find s p owner :
  ipc_wf s -> bytes_ok p -> Forall (fun u => bytes_ok (us_path u)) (g_usocks s) ->
  (length (cstr p) < Z.to_nat IPC_USOCK_PATH_MAX)%nat ->
  (ipc_usock_bind s (Some p) owner).1 = IPC_OK ->
  let s' := (ipc_usock_bind s (Some p) owner).2 in
  let sid := usock_find_by_path s' (Some p) in
  let cid := us_cid (geti (g_usocks s') sid) in
  0 <= sid < IPC_MAX_USOCKETS /\ us_owner_pid (geti (g_usocks s') sid) = owner /\
  geti (g_channels s') cid = zero_channel <| ch_owner_pid := owner |>.
Proof.
  intros Hwf Hp Hok Hlen. unfold ipc_usock_bind.
  pose proof (usock_find_None s p) as HNone.
  generalize dependent (usock_find_by_path s (Some p)). intros f0 HNone.
  destruct (Z.eqb_spec (geti p 0) 0) as [|Hp0]; cbn [orb]; [by simpl|].
  destruct (Z.eqb_spec owner 0) as [|Ho]; cbn [orb]; [by simpl|].
  destruct (Z.leb_spec 0 f0) as [|Hnf]; [by simpl|].
  pose proof (ipc_channel_create_spec s owner 0 Hwf) as Hc.
  destruct (ipc_channel_create s owner 0) as [cid s1].
  destruct Hc as (Hw1 & Hr & Hus & Hch & _).
  destruct (Z.ltb_spec cid 0) as [Hneg|Hcid]; [simpl; intros ->; clia|].
  destruct (find_idx _ (g_usocks s1)) as [i|] eqn:E; [|by simpl]. intros _.
  apply find_idx_Some in E as [[u [Hu Hu0%Z.eqb_eq]] _].
  assert (Hlu : length (us_path u) = Z.to_nat IPC_USOCK_PATH_MAX).
  { rewrite Hus in Hu. pose proof (wf_usocks s Hwf) as HF.
    eapply Forall_lookup_1 in HF; [|exact Hu]. destruct HF. lia. }
  pose proof (lookup_lt_Some _ _ _ Hu) as Hi.
  pose proof (wf_nusocks s1 Hw1) as Hn1.
  rewrite (lookup_geti _ _ _ Hu).
  set (u' := mkIpcUnixSocket 1 cid owner (ipc_strncpy (us_path u) p IPC_USOCK_PATH_MAX)).
  assert (Hfind : usock_find_by_path (set_usock s1 (Z.of_nat i) u') (Some p) = Z.of_nat i).
  { unfold usock_find_by_path. rewrite (proj2 (Z.eqb_neq _ _) Hp0).
    rewrite (find_idx_unique _ _ i u'); [done| | |].
    - simpl. unfold puti. rewrite Nat2Z.id. by apply list_lookup_insert_eq.
    - simpl. apply Z.eqb_eq, strcmp_loop_eq; [|done|].
      + apply strncpy_loop_ok; [|done]. rewrite Hus in Hu.
        by eapply Forall_lookup_1 in Hok; [|exact Hu].
      + unfold ipc_strncpy. simpl. rewrite cstr_strncpy_loop by clia.
        apply take_ge. clia.
    - intros j v Hj [Hv1%negb_true_iff Hv2%Z.eqb_eq]%andb_true_iff.
      destruct (decide (j = i)) as [|Hne]; [done|exfalso].
      simpl in Hj. unfold puti in Hj. rewrite Nat2Z.id, list_lookup_insert_ne in Hj by done.
      rewrite Hus in Hj. apply Z.eqb_neq in Hv1.
      by apply (HNone Hnf Hp0 v (list_elem_of_lookup_2 _ _ _ Hj)). }
  cbv zeta. cbn [snd]. rewrite Hfind. cbn [g_usocks g_channels set_usock upd_with]. rewrite geti_puti_eq by lia. simpl.
  split; [lia|]. split; [done|]. by apply Hch.
Qed.

(** ** Channel slots are never released *)

(** Slot [c] of the channel table is taken. *)
Definition slot_owned (c : Z) (s : IpcState) : Prop :=
  ch_owner_pid (geti (g_channels s) c) <> 0.

Lemma set_channel_owned s cid ch c :
  ipc_wf s -> 0 <= cid < IPC_MAX_CHANNELS -> 0 <= c ->
  (ch_owner_pid (geti (g_channels s) cid) <> 0 -> ch_owner_pid ch <> 0) ->
  slot_owned c s -> slot_owned c (set_channel s cid ch).
Proof.
  intros Hwf Hcid Hc Ho Hs. unfold slot_owned. simpl.
  destruct (decide (c = cid)) as [->|Hne].
  - rewrite geti_puti_eq; [by apply Ho|]. rewrite (wf_nchannels s Hwf). lia.
  - by rewrite geti_puti_ne by lia.
Qed.

Lemma ipc_channel_close_owned s cid c :
  ipc_wf s -> 0 <= cid -> 0 <= c -> slot_owned c s -> slot_owned c (ipc_channel_close s cid).
Proof.
  intros Hwf Hcid Hc Hs. unfold ipc_channel_close.
  destruct (Z.leb_spec IPC_MAX_CHANNELS cid); [done|].
  destruct (_ =? 0); [done|].
  assert (H1 : slot_owned c (set_channel s cid ((geti (g_channels s) cid) <| ch_closed := 1 |>)))
    by (by apply set_channel_owned).
  cbv zeta. by destruct (channels_active _ =? 0).
Qed.

Lemma ipc_channel_create_owned s owner peer c :
  ipc_wf s -> 0 <= c -> slot_owned c s -> slot_owned c (ipc_channel_create s owner peer).2.
Proof.
  intros Hwf Hc Hs. pose proof (ipc_channel_create_spec s owner peer Hwf) as H.
  destruct (ipc_channel_create s owner peer) as [rc s']. simpl.
  destruct H as (_ & _ & _ & Hrc & Hoth). unfold slot_owned.
  destruct (decide (c = rc)) as [->|Hne]; [|by rewrite Hoth].
  destruct (Hrc Hc) as [Ho ->]. done.
Qed.

Lemma ipc_channel_write_owned s cid b len c :
  ipc_wf s -> 0 <= cid -> 0 <= c -> slot_owned c s ->
  slot_owned c (ipc_channel_write s cid b len).2.
Proof.
  intros Hwf Hcid Hc Hs. unfold ipc_channel_write. destruct b as [b|]; [|done].
  destruct (Z.leb_spec IPC_MAX_CHANNELS cid) as [|Hlt]; cbn [orb]; [done|].
  destruct (len =? 0); [done|]. destruct (orb _ _); [done|].
  pose proof (channel_write_loop_spec (geti (g_channels s) cid) (read_n b (Z.to_nat len)) 0
                (geti_chan_wf s cid Hwf (conj Hcid Hlt))) as Hl.
  destruct (channel_write_loop _ _ _). destruct Hl as (_ & _ & _ & Ho & _).
  apply set_channel_owned; try done. by rewrite Ho.
Qed.

Lemma ipc_channel_read_owned s cid b m c :
  ipc_wf s -> 0 <= cid -> 0 <= c -> slot_owned c s ->
  slot_owned c (ipc_channel_read s cid b m).2.
Proof.
  intros Hwf Hcid Hc Hs. unfold ipc_channel_read.
  destruct (Z.leb_spec IPC_MAX_CHANNELS cid) as [|Hlt]; cbn [orb]; [done|].
  destruct (orb _ _); [done|]. destruct (_ =? 0); [done|]. destruct (_ =? 0); [done|].
  pose proof (channel_read_loop_spec (geti (g_channels s) cid) (Z.to_nat m) []
                (geti_chan_wf s cid Hwf (conj Hcid Hlt))) as Hl.
  destruct (channel_read_loop _ _ _). destruct Hl as (_ & _ & _ & Ho & _).
  apply set_channel_owned; try done. by rewrite Ho.
Qed.

Lemma ipc_send_channels s src dst type p len :
  g_channels (ipc_send s src dst type p len).2 = g_channels s.
Proof.
  unfold ipc_send, ipc_queue_create, queue_find_by_pid, bump_dropped, set_cache, set_queue.
  repeat (case_step; try done).
Qed.

Lemma ipc_exec_owned s k c :
  ipc_wf s -> call_ok k -> 0 <= c -> slot_owned c s -> slot_owned c (ipc_exec s k).
Proof.
  intros Hwf Hok Hc Hs. destruct k; simpl in *.
  - unfold ipc_queue_create, queue_find_by_pid, set_cache. repeat (case_step; try done).
  - unfold ipc_queue_destroy, set_cache. repeat (case_step; try done).
  - unfold slot_owned. by rewrite ipc_send_channels.
  - unfold ipc_recv. repeat (case_step; try done).
  - by apply ipc_channel_create_owned.
  - apply ipc_channel_write_owned; done || ulia.
  - apply ipc_channel_read_owned; done || ulia.
  - apply ipc_channel_close_owned; done || ulia.
  - unfold ipc_usock_bind. destruct path as [p|]; [|done].
    destruct (orb _ _); [done|]. destruct (0 <=? _); [done|].
    pose proof (ipc_channel_create_owned s owner 0 c Hwf Hc Hs) as H1.
    pose proof (ipc_channel_create_spec s owner 0 Hwf) as H2.
    destruct (ipc_channel_create s owner 0) as [cid s1].
    destruct (Z.ltb_spec cid 0); [done|]. destruct (find_idx _ _); [done|].
    by apply ipc_channel_close_owned; [apply H2|..].
  - unfold ipc_usock_connect. destruct (Z.ltb_spec (usock_find_by_path s path) 0); [done|].
    destruct (usock_find_range s path Hwf ltac:(lia)) as [_ Hr].
    destruct (orb _ _); [done|]. by apply set_channel_owned.
  - unfold ipc_usock_send. destruct (Z.ltb_spec (usock_find_by_path s path) 0); [done|].
    destruct (usock_find_range s path Hwf ltac:(lia)) as [_ Hr].
    apply ipc_channel_write_owned; done || lia.
  - unfold ipc_usock_recv. destruct (Z.ltb_spec (usock_find_by_path s path) 0); [done|].
    destruct (usock_find_range s path Hwf ltac:(lia)) as [_ Hr].
    apply ipc_channel_read_owned; done || lia.
  - unfold ipc_usock_close. destruct (Z.ltb_spec (usock_find_by_path s path) 0); [done|].
    destruct (usock_find_range s path Hwf ltac:(lia)) as [_ Hr].
    assert (slot_owned c (ipc_channel_close s (us_cid (geti (g_usocks s)
              (usock_find_by_path s path))))) by (apply ipc_channel_close_owned; done || lia).
    done.
Qed.

(** The eight binds and closes of one path: no socket is left, and yet no
    further channel can be created. *)
Definition path_a : bytes := [47; 97].
Definition bind_close_cycles (n : nat) : IpcState :=
  foldl ipc_exec ipc_init
    (concat (replicate n [Call_usock_bind (Some path_a) 7; Call_usock_close (Some path_a)])).

(** No call ever gives a channel slot back: a slot owned once stays owned,
    so ipc_channel_close (and closing a local socket) leaks the slot. *)
Lemma ipc_channel_slots_never_freed s calls c :
  ipc_wf s -> Forall call_ok calls -> 0 <= c -> slot_owned c s ->
  slot_owned c (foldl ipc_exec s calls).
Proof.
  intros Hwf Hok Hc. revert s Hwf; induction Hok as [|k ks Hk _ IH]; intros s Hwf Hs; [done|].
  simpl. apply IH; [by apply ipc_exec_wf|by apply ipc_exec_owned].
Qed.

Lemma bind_close_cycles_wf n : ipc_wf (bind_close_cycles n).
Proof.
  apply ipc_run_calls. induction n as [|n IH]; simpl; [done|].
  constructor; [simpl; ulia|]. by constructor.
Qed.

Lemma ipc_channel_slots_never_freed_witness :
  slot_owned 0 (bind_close_cycles 1) /\
  slot_owned 0 (foldl ipc_exec (bind_close_cycles 1)
    [Call_channel_close 0; Call_channel_create 5 6]) /\
  Forall (fun u => us_used u = 0) (g_usocks (bind_close_cycles 8)) /\
  (ipc_usock_bind (bind_close_cycles 8) (Some path_a) 7).1 = IPC_ERR_NOSLOT.
Proof.
  assert (H0 : slot_owned 0 (bind_close_cycles 1)) by (vm_compute; congruence).
  split; [exact H0|]. split.
  - apply (ipc_channel_slots_never_freed (bind_close_cycles 1)
             [Call_channel_close 0; Call_channel_create 5 6] 0); [|repeat constructor; ulia|lia|exact H0].
    apply bind_close_cycles_wf.
  - split; vm_compute; [by repeat constructor|reflexivity].
Defined.

(** A state with one queue of process 9 holding two messages, and a channel. *)
Definition demo_state : IpcState :=
  foldl ipc_exec ipc_init
    [Call_send 3 9 1 (Some [1; 2; 3]) 3; Call_send 4 9 1 (Some [5; 6]) 2;
     Call_channel_create 3 9; Call_channel_write 0 (Some [10; 11; 12]) 3].

Lemma demo_state_wf : ipc_wf demo_state.
Proof. apply ipc_run_calls. repeat constructor; ulia. Qed.


Lemma ipc_recv_refines_witness :
  ipc_wf (ipc_recv demo_state 0 true).2 /\
  inbox (ipc_recv demo_state 0 true).2 9 = Some [make_msg 4 9 1 [5; 6] 2].
Proof.
  split; [|vm_compute; reflexivity].
  pose proof (ipc_recv_refines demo_state 0 demo_state_wf) as H.
  destruct (ipc_recv demo_state 0 true) as [[rc m] s']. by destruct H as [H1 _].
Defined.

Lemma ipc_channel_write_refines_witness :
  ipc_wf (ipc_channel_write demo_state 0 (Some [7; 8]) 2).2 /\
  chan_view (geti (g_channels (ipc_channel_write demo_state 0 (Some [7; 8]) 2).2) 0) =
    [10; 11; 12; 7; 8].
Proof.
  split; [|vm_compute; reflexivity].
  pose proof (ipc_channel_write_refines demo_state 0 [7; 8] 2 demo_state_wf) as H.
  destruct (ipc_channel_write demo_state 0 (Some [7; 8]) 2) as [rc s'].
  destruct H as [H1 _]; [clia|lia|done|]. exact H1.
Defined.

Lemma ipc_channel_read_refines_witness :
  ipc_wf (ipc_channel_read demo_state 0 true 2).2 /\
  (ipc_channel_read demo_state 0 true 2).1 = (2, [10; 11]).
Proof.
  split; [|vm_compute; reflexivity].
  pose proof (ipc_channel_read_refines demo_state 0 2 demo_state_wf) as H.
  destruct (ipc_channel_read demo_state 0 true 2) as [[rc out] s'].
  destruct H as [H1 _]; [clia|lia|]. exact H1.
Defined.

Lemma ipc_run_wf_witness : ipc_wf (foldl ipc_exec ipc_init
  [Call_queue_create 5; Call_usock_bind (Some path_a) 5]).
Proof. apply (ipc_run_wf [Call_queue_create 5; Call_usock_bind (Some path_a) 5]).
  repeat constructor; ulia. Defined.
