(* ===== verification/BlockDev.v ===== *)
(** Sector devices: the contract of the pluggable disk operations
    (vfs_disk_read_fn / vfs_disk_write_fn of include/vernisfs.h) that
    VernisFS, the block cache and the read-only file systems are written
    against.  The drivers behind them are a
    parameter, an instance of [BlockDev] (the ATA, NVMe and AHCI drivers are in files
    of their own).  [BlockDevLaws] states
    the documented behaviour of a device that does not fail; [RamDisk] is an
    instance, used by the concrete examples. *)

From S2P Require Import Prelude.

Definition SECTOR : nat := 512.

(** [bd_read d lba count] is the code, the bytes stored at the start of the
    caller's buffer, and the device afterwards. *)
Class BlockDev (D : Type) := {
  bd_read : D -> Z -> Z -> Z * bytes * D;
  bd_write : D -> Z -> Z -> bytes -> Z * D }.

(** The [n] consecutive sectors from [lba], given the content of each. *)
Definition sectors (v : Z -> bytes) (lba : Z) (n : nat) : bytes :=
  concat ((fun i : nat => v (lba + Z.of_nat i)) <$> seq 0 n).

(** Sector [s] of a buffer written at [lba]. *)
Definition chunk (buf : bytes) (i : Z) : bytes := take SECTOR (drop (Z.to_nat i * SECTOR) buf).

(** The content after [n] sectors of [buf] are written at [lba]. *)
Definition write_view (v : Z -> bytes) (lba : Z) (n : nat) (buf : bytes) : Z -> bytes :=
  fun s => if (lba <=? s) && (s <? lba + Z.of_nat n) then chunk buf (s - lba) else v s.

Definition in_range (lba count : Z) : Prop :=
  0 <= lba /\ 0 <= count < 256 /\ lba + count <= 2 ^ 32.

Class BlockDevLaws (D : Type) `{BlockDev D} := {
  bd_ok : D -> Prop;
  bd_view : D -> Z -> bytes;
  bd_view_length : forall d s, bd_ok d -> length (bd_view d s) = SECTOR;
  bd_read_ok : forall d lba count,
    bd_ok d -> in_range lba count ->
    exists rc d', bd_read d lba count = (rc, sectors (bd_view d) lba (Z.to_nat count), d') /\
      0 <= rc /\ bd_ok d' /\ (forall s, bd_view d' s = bd_view d s);
  bd_write_ok : forall d lba count buf,
    bd_ok d -> in_range lba count -> length buf = (Z.to_nat count * SECTOR)%nat ->
    exists rc d', bd_write d lba count buf = (rc, d') /\
      0 <= rc /\ bd_ok d' /\
      (forall s, bd_view d' s = write_view (bd_view d) lba (Z.to_nat count) buf s) }.

(** *** Sectors and chunks *)

Lemma sectors_0 v lba : sectors v lba 0 = [].
Proof. done. Qed.

Lemma sectors_app v lba n m :
  sectors v lba (n + m) = sectors v lba n ++ sectors v (lba + Z.of_nat n) m.
Proof.
  unfold sectors. rewrite seq_app, fmap_app, concat_app, Nat.add_0_l. f_equal. f_equal.
  rewrite <- (Nat.add_0_r n) at 1. rewrite <- fmap_add_seq, <- list_fmap_compose.
  apply list_fmap_ext. intros i x _. simpl. f_equal. lia.
Qed.

Lemma sectors_1 v lba : sectors v lba 1 = v lba.
Proof. unfold sectors. simpl. rewrite app_nil_r. f_equal. lia. Qed.

Lemma sectors_S v lba n : sectors v lba (S n) = v lba ++ sectors v (lba + 1) n.
Proof. change (S n) with (1 + n)%nat. rewrite sectors_app, sectors_1. done. Qed.

Lemma sectors_ext v w lba n :
  (forall s, lba <= s < lba + Z.of_nat n -> v s = w s) -> sectors v lba n = sectors w lba n.
Proof.
  intros Hvw. unfold sectors. f_equal. apply list_fmap_ext.
  intros i x [-> Hi]%lookup_seq. apply Hvw. lia.
Qed.

Lemma length_sectors v lba n :
  (forall s, lba <= s < lba + Z.of_nat n -> length (v s) = SECTOR) ->
  length (sectors v lba n) = (n * SECTOR)%nat.
Proof.
  revert lba; induction n as [|n IH]; intros lba Hv; [done|].
  rewrite sectors_S, length_app, IH, Hv by (intros; apply Hv || idtac; lia). done.
Qed.

Lemma length_chunk buf i n :
  length buf = (n * SECTOR)%nat -> 0 <= i < Z.of_nat n -> length (chunk buf i) = SECTOR.
Proof. intros Hl Hi. unfold chunk. rewrite length_take, length_drop, Hl. unfold SECTOR. lia. Qed.

Lemma chunk_0 buf : chunk buf 0 = take SECTOR buf.
Proof. unfold chunk. simpl. by rewrite drop_0. Qed.

Lemma chunk_succ buf i : 0 <= i -> chunk buf (i + 1) = chunk (drop SECTOR buf) i.
Proof.
  intros Hi. unfold chunk. rewrite drop_drop.
  replace (Z.to_nat (i + 1) * SECTOR)%nat with (SECTOR + Z.to_nat i * SECTOR)%nat by lia.
  done.
Qed.

(** Reading back what was written. *)
Lemma sectors_write_view v lba n buf :
  length buf = (n * SECTOR)%nat -> sectors (write_view v lba n buf) lba n = buf.
Proof.
  intros Hl. transitivity (sectors (fun s => chunk buf (s - lba)) lba n).
  { apply sectors_ext. intros s Hs. unfold write_view.
    rewrite (proj2 (Z.leb_le _ _)), (proj2 (Z.ltb_lt _ _)) by lia. done. }
  revert lba buf Hl; induction n as [|n IH]; intros lba buf Hl.
  - symmetry. by apply nil_length_inv.
  - rewrite sectors_S, Z.sub_diag, chunk_0.
    rewrite (sectors_ext _ (fun s => chunk (drop SECTOR buf) (s - (lba + 1)))).
    + rewrite IH by (rewrite length_drop, Hl; lia). apply take_drop.
    + intros s Hs. rewrite <- chunk_succ by lia. f_equal. lia.
Qed.

Lemma sectors_write_view_other v lba n buf lba' n' :
  (lba' + Z.of_nat n' <= lba \/ lba + Z.of_nat n <= lba') ->
  sectors (write_view v lba n buf) lba' n' = sectors v lba' n'.
Proof.
  intros Hd. apply sectors_ext. intros s Hs. unfold write_view.
  case_step; [|done]. lia.
Qed.

(** ** A disk in memory *)

Record RamDisk := mkRamDisk { ram : gmap Z bytes }.
Definition ram_sector (d : RamDisk) (s : Z) : bytes := default (zeros SECTOR) (ram d !! s).
Fixpoint ram_write (m : gmap Z bytes) (lba : Z) (n : nat) (buf : bytes) : gmap Z bytes :=
  match n with
  | O => m
  | S n' => ram_write (<[lba := take SECTOR buf]> m) (lba + 1) n' (drop SECTOR buf)
  end.

#[export] Instance ram_dev : BlockDev RamDisk := {
  bd_read d lba count := (count, sectors (ram_sector d) lba (Z.to_nat count), d);
  bd_write d lba count buf := (count, mkRamDisk (ram_write (ram d) lba (Z.to_nat count) buf)) }.

Definition ram_ok (d : RamDisk) : Prop := map_Forall (fun _ b => length b = SECTOR) (ram d).

Lemma ram_write_spec m lba n buf :
  map_Forall (fun _ b => length b = SECTOR) m -> length buf = (n * SECTOR)%nat ->
  map_Forall (fun _ b => length b = SECTOR) (ram_write m lba n buf) /\
  forall s, ram_sector (mkRamDisk (ram_write m lba n buf)) s =
            write_view (ram_sector (mkRamDisk m)) lba n buf s.
Proof.
  revert m lba buf; induction n as [|n IH]; intros m lba buf Hm Hl; simpl.
  { split; [done|]. intros s. unfold write_view. case_step; [lia|done]. }
  destruct (IH (<[lba := take SECTOR buf]> m) (lba + 1) (drop SECTOR buf)) as [H1 H2].
  { apply map_Forall_insert_2; [|done]. rewrite length_take. unfold SECTOR in *. lia. }
  { rewrite length_drop. unfold SECTOR in *. lia. }
  split; [done|]. intros s. rewrite H2. unfold write_view.
  destruct (decide (s = lba)) as [->|Hne].
  - replace ((lba + 1 <=? lba) && _) with false by lia.
    replace ((lba <=? lba) && _) with true by lia.
    unfold ram_sector. simpl. rewrite lookup_insert_eq. simpl.
    by rewrite Z.sub_diag, chunk_0.
  - replace ((lba + 1 <=? s) && (s <? lba + 1 + Z.of_nat n))
      with ((lba <=? s) && (s <? lba + Z.of_nat (S n))).
    2:{ replace (lba + Z.of_nat (S n)) with (lba + 1 + Z.of_nat n) by lia.
        by destruct (Z.leb_spec (lba + 1) s), (Z.leb_spec lba s); try lia. }
    case_step.
    + replace (s - lba) with (s - (lba + 1) + 1) by lia. rewrite chunk_succ; [done|lia].
    + unfold ram_sector. simpl. by rewrite lookup_insert_ne.
Qed.

#[export] Program Instance ram_laws : BlockDevLaws RamDisk := {
  bd_ok := ram_ok; bd_view := ram_sector }.
Next Obligation.
  intros d s Hd. unfold ram_sector. destruct (ram d !! s) as [b|] eqn:E.
  - by apply (Hd s).
  - exact (length_replicate SECTOR 0).
Qed.
Next Obligation.
  intros d lba count Hd (H1 & H2 & H3). exists count, d. simpl.
  split; [done|]. split; [lia|]. done.
Qed.
Next Obligation.
  intros d lba count buf Hd (H1 & H2 & H3) Hl.
  destruct (ram_write_spec (ram d) lba (Z.to_nat count) buf Hd Hl) as [Ha Hb].
  eexists count, _. split; [done|]. split; [lia|]. split; [done|].
  intros s. rewrite Hb. by destruct d.
Qed.

(** ** Code that only reads a device

    A computation on a device state, its result, and the sequencing of two of
    them.  [res] tells a result from a failure, and from a loop that was cut
    off because its fuel ran out. *)

Definition Rd (D A : Type) : Type := D -> A * D.
Definition rd_ret {D A} (a : A) : Rd D A := fun d => (a, d).
Definition rd_bind {D A B} (m : Rd D A) (k : A -> Rd D B) : Rd D B :=
  fun d => let '(a, d) := m d in k a d.
Notation "x <-- m ; k" := (rd_bind m (fun x => k))
  (at level 100, m at level 90, k at level 200, right associativity) : vos_scope.

Inductive res (A : Type) := Ok (a : A) | Fail | Loops.
Arguments Ok {A}. Arguments Fail {A}. Arguments Loops {A}.

(** [d ? k]: continue with the result, or pass the failure on. *)
Definition rd_try {D A B} (m : Rd D (res A)) (k : A -> Rd D (res B)) : Rd D (res B) :=
  rd_bind m (fun r => match r with Ok a => k a | Fail => rd_ret Fail | Loops => rd_ret Loops end).
Notation "x <-? m ; k" := (rd_try m (fun x => k))
  (at level 100, m at level 90, k at level 200, right associativity) : vos_scope.

(** [n] sectors, [None] when the device reports an error. *)
Definition rd_sectors {D} `{BlockDev D} (lba n : Z) : Rd D (option bytes) :=
  fun d => let '(rc, out, d) := bd_read d lba n in (if rc <? 0 then None else Some out, d).

Section reads.
Context {D : Type} `{BlockDevLaws D}.

(** On a device with content [v] the computation gives [a] and changes nothing. *)
Definition reads {A} (v : Z -> bytes) (m : Rd D A) (a : A) : Prop :=
  forall d, bd_ok d -> (forall s, bd_view d s = v s) ->
  exists d', m d = (a, d') /\ bd_ok d' /\ forall s, bd_view d' s = v s.

Lemma reads_ret {A} v (a : A) : reads v (rd_ret a) a.
Proof. intros d Hd Hv. by exists d. Qed.

Lemma reads_bind {A B} v (m : Rd D A) (k : A -> Rd D B) a b :
  reads v m a -> reads v (k a) b -> reads v (rd_bind m k) b.
Proof.
  intros Hm Hk d Hd Hv. destruct (Hm d Hd Hv) as (d1 & E & Hd1 & Hv1). unfold rd_bind. rewrite E.
  by apply Hk.
Qed.

Lemma reads_try {A B} v (m : Rd D (res A)) (k : A -> Rd D (res B)) a b :
  reads v m (Ok a) -> reads v (k a) b -> reads v (rd_try m k) b.
Proof. intros Hm Hk. by eapply reads_bind. Qed.

Lemma reads_sectors v lba n : in_range lba n ->
  reads v (rd_sectors lba n) (Some (sectors v lba (Z.to_nat n))).
Proof.
  intros Hr d Hd Hv. destruct (bd_read_ok d lba n Hd Hr) as (rc & d' & E & Hrc & Hd' & Hv').
  unfold rd_sectors. rewrite E, (proj2 (Z.ltb_ge rc 0)) by lia. exists d'. split; [|split; [done|]].
  - do 2 f_equal. by apply sectors_ext.
  - intros s. by rewrite Hv', Hv.
Qed.

(** The result does not depend on the device state. *)
Lemma reads_run {A} v (m : Rd D A) a d :
  reads v m a -> bd_ok d -> (forall s, bd_view d s = v s) -> (m d).1 = a.
Proof. intros Hm Hd Hv. by destruct (Hm d Hd Hv) as (d' & -> & _). Qed.
End reads.
