(* ===== verification/Ata.v ===== *)
(** The ATA driver: programmed transfers of whole sectors with 28-bit sector numbers (kernel/fs/vernisfs.c, and once more
    in kernel/security/policy_loader.c).  The ports and the drive behind them are a parameter, an instance of [PortIO];
    [AtaLaws] states what the standard asks of a drive. *)

From S2P Require Import Prelude BlockDev.

(** Reading and writing a port; what a read gives and does is the drive's business. *)
Class PortIO (P : Type) := {
  in8 : P -> Z -> Z * P;
  in16 : P -> Z -> Z * P;
  out8 : P -> Z -> Z -> P;
  out16 : P -> Z -> Z -> P }.

(** [kernel/fs/vernisfs.c:18-30] constants *)
Definition ATA_DATA := 0x1F0.
Definition ATA_SECCOUNT := 0x1F2.
Definition ATA_LBA_LO := 0x1F3.
Definition ATA_LBA_MID := 0x1F4.
Definition ATA_LBA_HI := 0x1F5.
Definition ATA_DRIVE := 0x1F6.
Definition ATA_CMD := 0x1F7.
Definition ATA_STATUS := 0x1F7.
Definition ATA_CMD_READ := 0x20.
Definition ATA_CMD_WRITE := 0x30.
(** The bits of the status: busy, data request, error. *)
Definition bsy (s : Z) : bool := Z.testbit s 7.
Definition drq (s : Z) : bool := Z.testbit s 3.
Definition err (s : Z) : bool := Z.testbit s 0.

Section ata.
Context {P : Type} `{PortIO P}.
Implicit Types (p : P) (lba count : Z).

(** 1: data may be moved, -1: an error, 0: a time-out.
    [kernel/fs/vernisfs.c] ata_wait_ready_vfs *)
Fixpoint ata_wait_ready_vfs (timeout : nat) p : Z * P :=
  match timeout with
  | O => (0, p)
  | S timeout =>
      let '(status, p) := in8 p ATA_STATUS in
      if negb (bsy status) then
        if drq status then (1, p) else
        if err status then (-1, p) else ata_wait_ready_vfs timeout p
      else ata_wait_ready_vfs timeout p
  end.
(** [kernel/fs/vernisfs.c] ata_wait_bsy_clear *)
Fixpoint ata_wait_bsy_clear (timeout : nat) p : Z * P :=
  match timeout with
  | O => (0, p)
  | S timeout =>
      let '(status, p) := in8 p ATA_STATUS in
      if negb (bsy status) then (1, p) else ata_wait_bsy_clear timeout p
  end.
(** [kernel/fs/vernisfs.c:54-54] ata_wait_ready_vfs *)
Definition TIMEOUT : nat := Z.to_nat 1000000.

(** The registers of a command, the command last.
    [kernel/fs/vernisfs.c:75-80] vfs_ata_read_sectors *)
Definition ata_command p lba count cmd : P :=
  let p := out8 p ATA_DRIVE (Z.lor 0xE0 (Z.land (Z.shiftr lba 24) 0x0F)) in
  let p := out8 p ATA_SECCOUNT count in
  let p := out8 p ATA_LBA_LO (Z.land lba 0xFF) in
  let p := out8 p ATA_LBA_MID (Z.land (Z.shiftr lba 8) 0xFF) in
  let p := out8 p ATA_LBA_HI (Z.land (Z.shiftr lba 16) 0xFF) in
  out8 p ATA_CMD cmd.
(** The words of a sector, low byte first.
    [kernel/fs/vernisfs.c:87-89] vfs_ata_read_sectors *)
Fixpoint read_words (n : nat) p : bytes * P :=
  match n with
  | O => ([], p)
  | S n => let '(w, p) := in16 p ATA_DATA in let '(ws, p) := read_words n p in (le_enc 2 w ++ ws, p)
  end.
(** [kernel/fs/vernisfs.c:108-110] vfs_ata_write_sectors *)
Fixpoint write_words (n : nat) p (src : bytes) : P :=
  match n with
  | O => p
  | S n => write_words n (out16 p ATA_DATA (le_dec (read_n src 2))) (drop 2 src)
  end.
(** Whether all sectors came, and the bytes read.
    [kernel/fs/vernisfs.c:82-90] vfs_ata_read_sectors *)
Fixpoint read_loop (n : nat) p : bool * bytes * P :=
  match n with
  | O => (true, [], p)
  | S n =>
      let '(ready, p) := ata_wait_ready_vfs TIMEOUT p in
      if ready <=? 0 then (false, [], p) else
      let '(sector, p) := read_words 256 p in
      let '(ok, out, p) := read_loop n p in (ok, sector ++ out, p)
  end.
(** [kernel/fs/vernisfs.c] vfs_ata_read_sectors *)
Definition vfs_ata_read_sectors p lba count : Z * bytes * P :=
  let '(ok, out, p) := read_loop (Z.to_nat count) (ata_command p lba count ATA_CMD_READ) in
  (if ok then count else -1, out, p).
(** [kernel/fs/vernisfs.c:102-115] vfs_ata_write_sectors *)
Fixpoint write_loop (n : nat) p (buf : bytes) : bool * P :=
  match n with
  | O => (true, p)
  | S n =>
      let '(clear, p) := ata_wait_bsy_clear TIMEOUT p in
      if clear =? 0 then (false, p) else
      let '(ready, p) := ata_wait_ready_vfs TIMEOUT p in
      if ready <=? 0 then (false, p) else
      let p := write_words 256 p (take SECTOR buf) in
      let p := out8 p ATA_CMD 0xE7 in
      let '(_, p) := ata_wait_bsy_clear TIMEOUT p in
      write_loop n p (drop SECTOR buf)
  end.
(** [kernel/fs/vernisfs.c] vfs_ata_write_sectors *)
Definition vfs_ata_write_sectors p lba count (buf : bytes) : Z * P :=
  let '(ok, p) := write_loop (Z.to_nat count) (ata_command p lba count ATA_CMD_WRITE) buf in
  (if ok then count else -1, p).
End ata.

(** The policy loader's copy of the reading routine.
    [kernel/security/policy_loader.c] ata_wait_ready *)
Definition ata_wait_ready {P} `{PortIO P} : nat -> P -> Z * P := ata_wait_ready_vfs.
(** [kernel/security/policy_loader.c] ata_read_sectors *)
Definition ata_read_sectors {P} `{PortIO P} : P -> Z -> Z -> Z * bytes * P := vfs_ata_read_sectors.

(** ** What the standard asks of a drive *)

(** Where a drive is in a transfer: idle; fetching the sector [lba] of the [left] still to go; its data ready, [k] words
    of them taken; waiting for a sector's data; taking them, those in [ws] so far; storing the last one. *)
Inductive Phase :=
| Idle | Fetching (lba left : Z) | DataIn (lba left k : Z) | Wanting (lba left : Z) | DataOut (lba left : Z) (ws : bytes) | Storing.
(** The registers of a command, the phase, and the sectors. *)
Record AtaSt := mkAta { a_drive : Z; a_count : Z; a_lo : Z; a_mid : Z; a_hi : Z; a_phase : Phase; a_view : Z -> bytes }.
#[export] Instance eta_AtaSt : Eta AtaSt := fun a => mkAta (a_drive a) (a_count a) (a_lo a) (a_mid a) (a_hi a) (a_phase a) (a_view a).
Definition set_register (a : AtaSt) (port v : Z) : AtaSt :=
  if port =? ATA_DRIVE then a <| a_drive := v |> else if port =? ATA_SECCOUNT then a <| a_count := v |> else
  if port =? ATA_LBA_LO then a <| a_lo := v |> else if port =? ATA_LBA_MID then a <| a_mid := v |> else a <| a_hi := v |>.
(** The sector number in the registers: 28 bits, the upper four in the drive register. *)
Definition a_lba (a : AtaSt) : Z := a_lo a + 2 ^ 8 * a_mid a + 2 ^ 16 * a_hi a + 2 ^ 24 * Z.land (a_drive a) 0x0F.
(** A word more of a sector. *)
Definition word_of (sector : bytes) (k : Z) : Z := le_dec (read_n (drop (2 * Z.to_nat k) sector) 2).
Definition after_word_in (lba left k : Z) : Phase :=
  if k + 1 <? 256 then DataIn lba left (k + 1) else if left =? 1 then Idle else Fetching (lba + 1) (left - 1).
Definition take_word (a : AtaSt) (lba left : Z) (ws : bytes) : AtaSt :=
  if (length ws <? SECTOR)%nat then a <| a_phase := DataOut lba left ws |> else
  a <| a_phase := if left =? 1 then Storing else Wanting (lba + 1) (left - 1) |> <| a_view := write_view (a_view a) lba 1 ws |>.

(** The status is busy [n] times, then it is [s]. *)
Inductive settles {P} `{PortIO P} : nat -> P -> Z -> P -> Prop :=
| settles_now p s p' : in8 p ATA_STATUS = (s, p') -> bsy s = false -> settles 0 p s p'
| settles_later n p s p1 s' p' : in8 p ATA_STATUS = (s, p1) -> bsy s = true -> settles n p1 s' p' -> settles (S n) p s' p'.

(** [at_is p a]: the drive is in the state [a].  It gets ready within the time the driver polls; a command given while
    a transfer is not over is passed over. *)
Class AtaLaws (capacity : Z) (P : Type) `{PortIO P} := {
  at_is : P -> AtaSt -> Prop;
  at_length : forall p a x, at_is p a -> length (a_view a x) = SECTOR;
  at_bytes : forall p a x, at_is p a -> bytes_ok (a_view a x);
  at_register : forall p a port v, at_is p a -> a_phase a = Idle -> ATA_SECCOUNT <= port <= ATA_DRIVE -> at_is (out8 p port v) (set_register a port v);
  at_command : forall p a cmd, at_is p a -> a_phase a = Idle -> 1 <= a_count a -> a_lba a + a_count a <= capacity ->
    cmd = ATA_CMD_READ \/ cmd = ATA_CMD_WRITE ->
    at_is (out8 p ATA_CMD cmd) (a <| a_phase := if cmd =? ATA_CMD_READ then Fetching (a_lba a) (a_count a) else Wanting (a_lba a) (a_count a) |>);
  at_fetched : forall p a lba left, at_is p a -> a_phase a = Fetching lba left ->
    exists n s p', (n < TIMEOUT)%nat /\ settles n p s p' /\ drq s = true /\ at_is p' (a <| a_phase := DataIn lba left 0 |>);
  at_word_in : forall p a lba left k, at_is p a -> a_phase a = DataIn lba left k -> 0 <= k < 256 ->
    exists p', in16 p ATA_DATA = (word_of (a_view a lba) k, p') /\ at_is p' (a <| a_phase := after_word_in lba left k |>);
  at_wants : forall p a lba left, at_is p a -> a_phase a = Wanting lba left ->
    exists n s p', (n < TIMEOUT)%nat /\ settles n p s p' /\ drq s = true /\ at_is p' (a <| a_phase := DataOut lba left [] |>);
  at_ready : forall p a lba left, at_is p a -> a_phase a = DataOut lba left [] ->
    exists s p', in8 p ATA_STATUS = (s, p') /\ bsy s = false /\ drq s = true /\ at_is p' a;
  at_word_out : forall p a lba left ws w, at_is p a -> a_phase a = DataOut lba left ws -> (length ws < SECTOR)%nat -> is_u16 w ->
    at_is (out16 p ATA_DATA w) (take_word a lba left (ws ++ le_enc 2 w));
  at_busy_command : forall p a, at_is p a -> (exists lba left, a_phase a = Wanting lba left) \/ a_phase a = Storing -> at_is (out8 p ATA_CMD 0xE7) a;
  at_stored : forall p a, at_is p a -> a_phase a = Storing ->
    exists n s p', (n < TIMEOUT)%nat /\ settles n p s p' /\ at_is p' (a <| a_phase := Idle |>) }.
Arguments AtaLaws _ _ {_}.

(** ** Polling *)

Section transfers.
Context (capacity : Z) (Hcap : capacity <= 2 ^ 28) {P : Type} `{L : AtaLaws capacity P}.
Implicit Types (p : P) (a : AtaSt) (lba left : Z).

Lemma wait_ready_settles n p s p' : settles n p s p' -> drq s = true -> forall t, (n < t)%nat -> ata_wait_ready_vfs t p = (1, p').
Proof.
  intros Hs Hd. induction Hs as [p s p' E1 Hb|n p s p1 s' p' E1 Hb _ IH]; intros t Ht; (destruct t as [|t]; [lia|]); cbn [ata_wait_ready_vfs]; rewrite E1, Hb; cbn [negb].
  - by rewrite Hd.
  - apply IH; [done|lia].
Qed.
Lemma wait_clear_settles n p s p' : settles n p s p' -> forall t, (n < t)%nat -> ata_wait_bsy_clear t p = (1, p').
Proof.
  intros Hs. induction Hs as [p s p' E1 Hb|n p s p1 s' p' E1 Hb _ IH]; intros t Ht; (destruct t as [|t]; [lia|]); cbn [ata_wait_bsy_clear]; rewrite E1, Hb; cbn [negb]; [done|].
  apply IH. lia.
Qed.
Lemma timeout_pos : (0 < TIMEOUT)%nat.
Proof. unfold TIMEOUT. lia. Qed.

(** The registers make up the sector number. *)
Lemma lba_parts lba : 0 <= lba < 2 ^ 28 ->
  Z.land lba 0xFF + 2 ^ 8 * Z.land (Z.shiftr lba 8) 0xFF + 2 ^ 16 * Z.land (Z.shiftr lba 16) 0xFF +
  2 ^ 24 * Z.land (Z.lor 0xE0 (Z.land (Z.shiftr lba 24) 0x0F)) 0x0F = lba.
Proof.
  intros Hl. rewrite Z.land_lor_distr_l. change (Z.land 0xE0 0x0F) with 0. rewrite Z.lor_0_l, <- Z.land_assoc. change (Z.land 15 15) with (Z.ones 4).
  change 0xFF with (Z.ones 8). rewrite !Z.land_ones, !Z.shiftr_div_pow2 by lia. dlia.
Qed.
Lemma command_spec p a lba count cmd : at_is p a -> a_phase a = Idle -> 0 <= lba -> 1 <= count -> lba + count <= capacity ->
  cmd = ATA_CMD_READ \/ cmd = ATA_CMD_WRITE ->
  exists a', at_is (ata_command p lba count cmd) a' /\ a_view a' = a_view a /\
    a_phase a' = if cmd =? ATA_CMD_READ then Fetching lba count else Wanting lba count.
Proof.
  intros Ha Hi Hl Hc Hr Hcmd. unfold ata_command.
  assert (Hreg : forall p a port v, at_is p a -> a_phase a = Idle -> ATA_SECCOUNT <= port <= ATA_DRIVE ->
    at_is (out8 p port v) (set_register a port v) /\ a_phase (set_register a port v) = Idle).
  { intros p0 a0 port v H1 H2 H3. split; [by apply at_register|]. unfold set_register. by repeat case_match. }
  destruct (Hreg p a ATA_DRIVE (Z.lor 0xE0 (Z.land (Z.shiftr lba 24) 0x0F)) Ha Hi) as [H1 I1]; [unfold ATA_SECCOUNT, ATA_DRIVE; lia|].
  edestruct (Hreg _ _ ATA_SECCOUNT count H1 I1) as [H2 I2]; [unfold ATA_SECCOUNT, ATA_DRIVE; lia|].
  edestruct (Hreg _ _ ATA_LBA_LO (Z.land lba 0xFF) H2 I2) as [H3 I3]; [unfold ATA_SECCOUNT, ATA_DRIVE, ATA_LBA_LO; lia|].
  edestruct (Hreg _ _ ATA_LBA_MID (Z.land (Z.shiftr lba 8) 0xFF) H3 I3) as [H4 I4]; [unfold ATA_SECCOUNT, ATA_DRIVE, ATA_LBA_MID; lia|].
  edestruct (Hreg _ _ ATA_LBA_HI (Z.land (Z.shiftr lba 16) 0xFF) H4 I4) as [H5 I5]; [unfold ATA_SECCOUNT, ATA_DRIVE, ATA_LBA_HI; lia|].
  set (p5 := out8 _ ATA_LBA_HI _) in *. set (a5 := set_register _ ATA_LBA_HI _) in *.
  assert (El : a_lba a5 = lba) by (apply (lba_parts lba); lia). assert (Ec : a_count a5 = count) by done. assert (Ev : a_view a5 = a_view a) by done.
  clearbody p5 a5. pose proof (at_command p5 a5 cmd H5 I5 ltac:(lia) ltac:(lia) Hcmd) as H6. rewrite El, Ec in H6.
  eexists. split; [exact H6|]. split; [exact Ev|]. done.
Qed.

(** ** Reading *)

Lemma word_bytes sector k : bytes_ok sector -> length sector = SECTOR -> 0 <= k < 256 ->
  le_enc 2 (word_of sector k) ++ drop (2 * Z.to_nat (k + 1)) sector = drop (2 * Z.to_nat k) sector.
Proof.
  intros Hb Hl Hk. unfold word_of. rewrite read_n_take by (rewrite length_drop, Hl; unfold SECTOR; lia).
  assert (E2 : length (take 2 (drop (2 * Z.to_nat k) sector)) = 2%nat) by (rewrite length_take, length_drop, Hl; unfold SECTOR; lia).
  rewrite <- E2 at 1. rewrite le_enc_dec by (by apply Forall_take, Forall_drop).
  replace (2 * Z.to_nat (k + 1))%nat with (2 * Z.to_nat k + 2)%nat by lia. rewrite <- drop_drop. apply take_drop.
Qed.
Lemma read_words_spec n : forall p a lba left k, at_is p a -> a_phase a = DataIn lba left k -> 0 <= k < 256 -> k + Z.of_nat n = 256 ->
  exists p' a', read_words n p = (drop (2 * Z.to_nat k) (a_view a lba), p') /\ at_is p' a' /\ a_view a' = a_view a /\
    a_phase a' = if left =? 1 then Idle else Fetching (lba + 1) (left - 1).
Proof.
  induction n as [|n IH]; intros p a lba left k Ha Hp Hk Hn; [lia|]. cbn [read_words].
  destruct (at_word_in p a lba left k Ha Hp Hk) as (p1 & E1 & H1). rewrite E1.
  rewrite <- (word_bytes (a_view a lba) k) by (eapply at_bytes || eapply at_length || done; exact Ha). unfold after_word_in in H1.
  destruct (Z.ltb_spec (k + 1) 256) as [Hlt|Hge].
  - destruct (IH p1 _ lba left (k + 1) H1 eq_refl ltac:(lia) ltac:(lia)) as (p' & a' & E2 & H2 & Hv & Hph). rewrite E2.
    exists p', a'. split; [done|]. split; [exact H2|]. split; [exact Hv|exact Hph].
  - destruct n as [|n]; [|lia]. cbn [read_words]. exists p1. eexists. split; [|split; [exact H1|split; [done|done]]].
    rewrite drop_ge; [done|]. rewrite (at_length p a lba Ha). unfold SECTOR. lia.
Qed.
(** A sector whose data is ready. *)
Lemma read_loop_step n p p1 sector p2 : ata_wait_ready_vfs TIMEOUT p = (1, p1) -> read_words 256 p1 = (sector, p2) ->
  read_loop (S n) p = (let '(ok, out, p) := read_loop n p2 in (ok, sector ++ out, p)).
Proof. intros E1 E2. cbn [read_loop]. rewrite E1. cbn [Z.leb Z.compare]. by rewrite E2. Qed.
Lemma ata_read_loop_spec n : forall p a lba, at_is p a -> a_phase a = Fetching lba (Z.of_nat (S n)) ->
  exists p' a', read_loop (S n) p = (true, sectors (a_view a) lba (S n), p') /\ at_is p' a' /\ a_view a' = a_view a /\ a_phase a' = Idle.
Proof.
  induction n as [|n IH]; intros p a lba Ha Hp;
    destruct (at_fetched p a lba _ Ha Hp) as (k & s & p1 & Hk & Hs & Hd & H1);
    destruct (read_words_spec 256 p1 _ lba _ 0 H1 eq_refl ltac:(lia) ltac:(lia)) as (p2 & a2 & E2 & H2 & V2 & P2);
    pose proof (wait_ready_settles k p s p1 Hs Hd TIMEOUT Hk) as E1.
  - rewrite (read_loop_step _ _ _ _ _ E1 E2). cbn [read_loop]. exists p2, a2.
    rewrite sectors_1, app_nil_r. split; [done|]. split; [done|]. split; [exact V2|exact P2].
  - rewrite (read_loop_step _ _ _ _ _ E1 E2).
    rewrite (proj2 (Z.eqb_neq (Z.of_nat (S (S n))) 1)) in P2 by lia.
    replace (Z.of_nat (S (S n)) - 1) with (Z.of_nat (S n)) in P2 by lia.
    destruct (IH p2 a2 (lba + 1) H2 P2) as (p' & a' & E3 & H3 & V3 & P3). rewrite E3. exists p', a'. rewrite (sectors_S (a_view a) lba (S n)).
    split; [by rewrite V2|]. split; [done|]. split; [by rewrite V3, V2|done].
Qed.
Lemma ata_read_spec p a lba count : at_is p a -> a_phase a = Idle -> 0 <= lba -> 1 <= count -> lba + count <= capacity ->
  exists p' a', vfs_ata_read_sectors p lba count = (count, sectors (a_view a) lba (Z.to_nat count), p') /\
    at_is p' a' /\ a_view a' = a_view a /\ a_phase a' = Idle.
Proof.
  intros Ha Hi Hl Hc Hr. unfold vfs_ata_read_sectors. destruct (command_spec p a lba count ATA_CMD_READ Ha Hi Hl Hc Hr) as (a1 & H1 & V1 & P1); [by left|].
  change (ATA_CMD_READ =? ATA_CMD_READ) with true in P1. destruct (Z.to_nat count) as [|n] eqn:En; [lia|].
  replace count with (Z.of_nat (S n)) in P1 by lia. destruct (ata_read_loop_spec n _ a1 lba H1 P1) as (p' & a' & E & H2 & V2 & P2).
  rewrite E. exists p', a'. split; [by rewrite V1|]. split; [done|]. split; [by rewrite V2|done].
Qed.

(** ** Writing *)

Lemma take_word_phase a lba left ws : (length ws < SECTOR)%nat -> a_phase (take_word a lba left ws) = DataOut lba left ws /\ a_view (take_word a lba left ws) = a_view a.
Proof. intros Hw. unfold take_word. by rewrite (proj2 (Nat.ltb_lt _ _)). Qed.
Lemma write_words_spec n : forall p a lba left ws src, at_is p a -> a_phase a = DataOut lba left ws -> length src = (2 * S n)%nat ->
  (length ws + length src = SECTOR)%nat -> bytes_ok src ->
  exists a', at_is (write_words (S n) p src) a' /\ a_view a' = write_view (a_view a) lba 1 (ws ++ src) /\
    a_phase a' = if left =? 1 then Storing else Wanting (lba + 1) (left - 1).
Proof.
  induction n as [|n IH]; intros p a lba left ws src Ha Hp Hl Hw Hb.
  all: assert (Eh : read_n src 2 = take 2 src) by (apply read_n_take; lia).
  all: assert (Ht : length (take 2 src) = 2%nat) by (rewrite length_take; lia).
  all: assert (Hu : is_u16 (le_dec (take 2 src)))
    by (pose proof (le_dec_bound (take 2 src) ltac:(by apply Forall_take)) as Hbd; rewrite Ht in Hbd; unfold is_u16; lia).
  all: pose proof (at_word_out p a lba left ws _ Ha Hp ltac:(lia) Hu) as H1; rewrite <- Ht in H1 at 2; rewrite le_enc_dec in H1 by (by apply Forall_take).
  - cbn [write_words]. rewrite Eh. unfold take_word in H1. rewrite (proj2 (Nat.ltb_ge _ _)) in H1 by (rewrite length_app, Ht; lia).
    rewrite (take_ge src 2) in * by lia. eexists. split; [exact H1|]. done.
  - remember (S n) as m. cbn [write_words]. rewrite Eh. subst m.
    destruct (take_word_phase a lba left (ws ++ take 2 src)) as [Pw Vw]; [rewrite length_app, Ht; lia|].
    destruct (IH _ _ lba left (ws ++ take 2 src) (drop 2 src) H1 Pw) as (a' & H2 & V2 & P2).
    + rewrite length_drop. lia.
    + rewrite length_app, Ht, length_drop. lia.
    + by apply Forall_drop.
    + exists a'. split; [exact H2|]. rewrite V2, Vw, <- app_assoc, take_drop. done.
Qed.
(** One sector: the waiting before it, its words, the flush behind it. *)
Lemma write_sector p a lba left sector : at_is p a -> (a_phase a = Wanting lba left \/ a_phase a = DataOut lba left []) -> 1 <= left ->
  length sector = SECTOR -> bytes_ok sector ->
  exists p1 p2 p3 a', ata_wait_bsy_clear TIMEOUT p = (1, p1) /\ ata_wait_ready_vfs TIMEOUT p1 = (1, p2) /\
    ata_wait_bsy_clear TIMEOUT (out8 (write_words 256 p2 sector) ATA_CMD 0xE7) = (1, p3) /\ at_is p3 a' /\
    a_view a' = write_view (a_view a) lba 1 sector /\
    a_phase a' = if left =? 1 then Idle else DataOut (lba + 1) (left - 1) [].
Proof.
  intros Ha Hp Hl Hs Hb. pose proof timeout_pos as Ht.
  assert (H1 : exists p1 a1, ata_wait_bsy_clear TIMEOUT p = (1, p1) /\ at_is p1 a1 /\ a_phase a1 = DataOut lba left [] /\ a_view a1 = a_view a).
  { destruct Hp as [Hp|Hp].
    - destruct (at_wants p a lba left Ha Hp) as (k & s & p1 & Hk & Hst & _ & H1). exists p1. eexists.
      split; [by apply (wait_clear_settles k p s p1 Hst)|]. by split; [exact H1|].
    - destruct (at_ready p a lba left Ha Hp) as (s & p1 & E1 & Hbs & _ & H1). exists p1, a. split; [|done].
      by apply (wait_clear_settles 0 p s p1); [apply settles_now|]. }
  destruct H1 as (p1 & a1 & E1 & H1 & P1 & V1). destruct (at_ready p1 a1 lba left H1 P1) as (s & p2 & E2 & Hbs & Hd & H2).
  destruct (write_words_spec 255 p2 a1 lba left [] sector H2 P1) as (a3 & H3 & V3 & P3); [done..|]. set (p2' := write_words 256 p2 sector) in *.
  assert (E2' : ata_wait_ready_vfs TIMEOUT p1 = (1, p2)) by (by apply (wait_ready_settles 0 p1 s p2); [apply settles_now|..]).
  cbn [app] in V3. rewrite V1 in V3. destruct (Z.eqb_spec left 1) as [->|Hne].
  - assert (Hbc : at_is (out8 p2' ATA_CMD 0xE7) a3) by (apply at_busy_command; [exact H3|by right]).
    destruct (at_stored _ a3 Hbc P3) as (k & s' & p3 & Hk & Hst & H4). exists p1, p2, p3. eexists.
    split; [exact E1|]. split; [exact E2'|]. split; [by apply (wait_clear_settles k _ s' p3 Hst)|]. split; [exact H4|]. done.
  - assert (Hbc : at_is (out8 p2' ATA_CMD 0xE7) a3) by (apply at_busy_command; [exact H3|left; by eexists _, _]).
    destruct (at_wants _ a3 (lba + 1) (left - 1) Hbc P3) as (k & s' & p3 & Hk & Hst & _ & H4). exists p1, p2, p3. eexists.
    split; [exact E1|]. split; [exact E2'|]. split; [by apply (wait_clear_settles k _ s' p3 Hst)|]. split; [exact H4|]. done.
Qed.
(** The first sector of a buffer and the rest of it. *)
Lemma write_view_cons v lba n buf x : length buf = (S n * SECTOR)%nat ->
  write_view (write_view v lba 1 (take SECTOR buf)) (lba + 1) n (drop SECTOR buf) x = write_view v lba (S n) buf x.
Proof.
  intros Hl. unfold write_view. destruct ((lba + 1 <=? x) && (x <? lba + 1 + Z.of_nat n)) eqn:E1.
  - rewrite (proj2 (Z.leb_le lba x)), (proj2 (Z.ltb_lt x (lba + Z.of_nat (S n)))) by lia. cbn [andb].
    rewrite <- chunk_succ by lia. f_equal. lia.
  - destruct ((lba <=? x) && (x <? lba + Z.of_nat 1)) eqn:E2.
    + assert (x = lba) by lia. subst x. rewrite (proj2 (Z.leb_le lba lba)), (proj2 (Z.ltb_lt lba (lba + Z.of_nat (S n)))) by lia. cbn [andb].
      rewrite Z.sub_diag, !chunk_0. by rewrite take_take, Nat.min_id.
    + destruct ((lba <=? x) && (x <? lba + Z.of_nat (S n))) eqn:E3; [lia|done].
Qed.
Lemma write_loop_step n p buf p1 p2 p3 : ata_wait_bsy_clear TIMEOUT p = (1, p1) -> ata_wait_ready_vfs TIMEOUT p1 = (1, p2) ->
  ata_wait_bsy_clear TIMEOUT (out8 (write_words 256 p2 (take SECTOR buf)) ATA_CMD 0xE7) = (1, p3) ->
  write_loop (S n) p buf = write_loop n p3 (drop SECTOR buf).
Proof. intros E1 E2 E3. cbn [write_loop]. rewrite E1. cbn [Z.eqb]. rewrite E2. cbn [Z.leb Z.compare]. by rewrite E3. Qed.
Lemma write_loop_spec n : forall p a lba buf, at_is p a -> (a_phase a = Wanting lba (Z.of_nat (S n)) \/ a_phase a = DataOut lba (Z.of_nat (S n)) []) ->
  length buf = (S n * SECTOR)%nat -> bytes_ok buf ->
  exists p' a', write_loop (S n) p buf = (true, p') /\ at_is p' a' /\ (forall x, a_view a' x = write_view (a_view a) lba (S n) buf x) /\ a_phase a' = Idle.
Proof.
  induction n as [|n IH]; intros p a lba buf Ha Hp Hl Hb;
    (destruct (write_sector p a lba _ (take SECTOR buf) Ha Hp) as (p1 & p2 & p3 & a1 & E1 & E2 & E3 & H1 & V1 & P1);
     [lia|rewrite length_take, Hl; lia|by apply Forall_take|]).
  - rewrite (write_loop_step _ _ _ _ _ _ E1 E2 E3). cbn [write_loop].
    exists p3, a1. split; [done|]. split; [exact H1|]. split; [|exact P1]. intros x. rewrite V1. by rewrite (take_ge buf) by (rewrite Hl; lia).
  - rewrite (write_loop_step _ _ _ _ _ _ E1 E2 E3).
    rewrite (proj2 (Z.eqb_neq (Z.of_nat (S (S n))) 1)) in P1 by lia. replace (Z.of_nat (S (S n)) - 1) with (Z.of_nat (S n)) in P1 by lia.
    destruct (IH p3 a1 (lba + 1) (drop SECTOR buf) H1 (or_intror P1)) as (p' & a' & E4 & H4 & V4 & P4); [rewrite length_drop, Hl; lia|by apply Forall_drop|].
    rewrite E4. exists p', a'. split; [done|]. split; [exact H4|]. split; [|exact P4]. intros x. rewrite V4. unfold write_view at 1. rewrite V1.
    exact (write_view_cons (a_view a) lba (S n) buf x Hl).
Qed.

End transfers.

(** Sector numbers have 28 bits: those from 2^28 (128 GiB) on reach the sectors at the start of the drive. *)
Lemma ata_wraps_at_2_28 {P} `{PortIO P} (p : P) lba count buf : 0 <= lba < 2 ^ 28 ->
  vfs_ata_read_sectors p (lba + 2 ^ 28) count = vfs_ata_read_sectors p lba count /\
  vfs_ata_write_sectors p (lba + 2 ^ 28) count buf = vfs_ata_write_sectors p lba count buf.
Proof.
  intros Hl. assert (E : forall cmd, ata_command p (lba + 2 ^ 28) count cmd = ata_command p lba count cmd).
  { intros cmd. unfold ata_command. change 0x0F with (Z.ones 4). change 0xFF with (Z.ones 8). rewrite !Z.land_ones, !Z.shiftr_div_pow2 by lia.
    assert (E1 : ((lba + 2 ^ 28) / 2 ^ 24) mod 2 ^ 4 = (lba / 2 ^ 24) mod 2 ^ 4) by dlia.
    assert (E2 : (lba + 2 ^ 28) mod 2 ^ 8 = lba mod 2 ^ 8) by dlia.
    assert (E3 : ((lba + 2 ^ 28) / 2 ^ 8) mod 2 ^ 8 = (lba / 2 ^ 8) mod 2 ^ 8) by dlia.
    assert (E4 : ((lba + 2 ^ 28) / 2 ^ 16) mod 2 ^ 8 = (lba / 2 ^ 16) mod 2 ^ 8) by dlia.
    by rewrite E1, E2, E3, E4. }
  unfold vfs_ata_read_sectors, vfs_ata_write_sectors. by rewrite !E.
Qed.

(** ** A drive

    One that is always ready.  It shows that what is asked of a drive can be met. *)
Module AtaDemo.
Definition demo_in8 (a : AtaSt) (port : Z) : Z * AtaSt :=
  match a_phase a with
  | Fetching lba rest => (0x58, a <| a_phase := DataIn lba rest 0 |>)
  | Wanting lba rest => (0x58, a <| a_phase := DataOut lba rest [] |>)
  | DataOut _ _ _ => (0x58, a)
  | Storing => (0x50, a <| a_phase := Idle |>)
  | _ => (0x50, a)
  end.
Definition demo_in16 (a : AtaSt) (port : Z) : Z * AtaSt :=
  match a_phase a with
  | DataIn lba rest k => (word_of (a_view a lba) k, a <| a_phase := after_word_in lba rest k |>)
  | _ => (0, a)
  end.
Definition demo_out8 (a : AtaSt) (port v : Z) : AtaSt :=
  match a_phase a with
  | Idle =>
      if port =? ATA_CMD then
        if v =? ATA_CMD_READ then a <| a_phase := Fetching (a_lba a) (a_count a) |>
        else if v =? ATA_CMD_WRITE then a <| a_phase := Wanting (a_lba a) (a_count a) |> else a
      else set_register a port v
  | _ => a
  end.
Definition demo_out16 (a : AtaSt) (port w : Z) : AtaSt :=
  match a_phase a with DataOut lba rest ws => take_word a lba rest (ws ++ le_enc 2 w) | _ => a end.
#[global] Instance demo_bus : PortIO AtaSt := { in8 := demo_in8; in16 := demo_in16; out8 := demo_out8; out16 := demo_out16 }.
Definition good (a : AtaSt) : Prop :=
  (forall x, length (a_view a x) = SECTOR /\ bytes_ok (a_view a x)) /\
  match a_phase a with DataOut _ _ ws => bytes_ok ws /\ exists k, length ws = (2 * k)%nat | _ => True end.

Lemma le_enc_bytes n v : bytes_ok (le_enc n v).
Proof. revert v. induction n as [|n IH]; intros v; cbn [le_enc]; constructor; [apply u8_is|apply IH]. Qed.
Lemma good_word a lba rest ws w : good a -> a_phase a = DataOut lba rest ws -> (length ws < SECTOR)%nat -> good (take_word a lba rest (ws ++ le_enc 2 w)).
Proof.
  intros [Hv Hp] Hph Hw. rewrite Hph in Hp. destruct Hp as [Hb [k Hk]]. assert (Hb' : bytes_ok (ws ++ le_enc 2 w)) by (apply Forall_app; split; [done|apply le_enc_bytes]).
  assert (Hl : length (ws ++ le_enc 2 w) = (2 * (k + 1))%nat) by (rewrite length_app, length_le_enc; lia). unfold take_word.
  destruct (Nat.ltb_spec (length (ws ++ le_enc 2 w)) SECTOR) as [Hlt|Hge]; split; try done; [split; [done|by eexists]| |by cbn; destruct (rest =? 1)].
  intros x. cbn [upd_with a_view]. unfold write_view. destruct ((lba <=? x) && (x <? lba + Z.of_nat 1)) eqn:Ex; [|apply Hv]. assert (x = lba) as -> by lia. rewrite Z.sub_diag, chunk_0. split.
  - rewrite length_take, Hl. unfold SECTOR in *. lia.
  - by apply Forall_take.
Qed.
#[global] Program Instance demo_laws : AtaLaws (2 ^ 28) AtaSt := { at_is p a := p = a /\ good a }.
Next Obligation. by intros p a x [_ [Hv _]]; apply Hv. Qed.
Next Obligation. by intros p a x [_ [Hv _]]; apply Hv. Qed.
Next Obligation.
  intros p a port v [-> [Hv _]] Hi Hport. cbn [out8 demo_bus]. unfold demo_out8. rewrite Hi.
  rewrite (proj2 (Z.eqb_neq _ _)) by (unfold ATA_CMD, ATA_DRIVE in *; lia). split; [done|]. split.
  - intros x. unfold set_register. repeat case_match; apply Hv.
  - unfold set_register. repeat case_match; cbn in *; congruence || done.
Qed.
Next Obligation.
  intros p a cmd [-> [Hv _]] Hi Hc Hr [-> | ->]; cbn [out8 demo_bus]; unfold demo_out8; rewrite Hi; by split.
Qed.
Next Obligation.
  intros p a lba n [-> [Hv _]] Hph. exists 0%nat. eexists _, _. split; [apply timeout_pos|]. split; [apply settles_now; [cbn [in8 demo_bus]; unfold demo_in8; by rewrite Hph|done]|]. by split.
Qed.
Next Obligation.
  intros p a lba n k [-> [Hv _]] Hph Hk. eexists. split; [cbn [in16 demo_bus]; unfold demo_in16; by rewrite Hph|]. split; [done|]. split; [done|].
  unfold after_word_in. cbn. by repeat case_match.
Qed.
Next Obligation.
  intros p a lba n [-> [Hv _]] Hph. exists 0%nat. eexists _, _. split; [apply timeout_pos|]. split; [apply settles_now; [cbn [in8 demo_bus]; unfold demo_in8; by rewrite Hph|done]|].
  split; [done|]. split; [done|]. split; [done|]. split; [constructor|by exists 0%nat].
Qed.
Next Obligation.
  intros p a lba n [-> Hg] Hph. eexists _, _. split; [cbn [in8 demo_bus]; unfold demo_in8; by rewrite Hph|]. by split.
Qed.
Next Obligation.
  intros p a lba n ws w [-> Hg] Hph Hw Hu. cbn [out16 demo_bus]. unfold demo_out16. rewrite Hph. split; [done|]. by apply good_word.
Qed.
Next Obligation. intros p a [-> Hg] [(lba & rest & Hph) | Hph]; cbn [out8 demo_bus]; unfold demo_out8; by rewrite Hph. Qed.
Next Obligation.
  intros p a [-> [Hv _]] Hph. exists 0%nat. eexists _, _. split; [apply timeout_pos|]. split; [apply settles_now; [cbn [in8 demo_bus]; unfold demo_in8; by rewrite Hph|done]|]. by split.
Qed.
Definition drive0 : AtaSt := mkAta 0 0 0 0 0 Idle (fun x => replicate SECTOR (u8 x)).
Lemma drive0_good : good drive0.
Proof. split; [|done]. intros x. split; [apply length_replicate|]. apply Forall_replicate, u8_is. Qed.
End AtaDemo.

