(* ===== verification/Bcache.v ===== *)
(** The LRU write-back block cache (kernel/fs/bcache.c, include/bcache.h),
    over any sector device.

    [Bcache D] is the static state of bcache.c together with the device [D]
    behind the saved operations g_real_read / g_real_write.  The cache is
    itself a device: [bcache_dev] is its [BlockDev] instance and
    [bcache_laws] shows that it keeps the contract of the device it sits on,
    with [bcache_view] (cached block if any, else the disk) as its content. *)

From S2P Require Import Prelude BlockDev.

(** [include/bcache.h] constants *)
Definition BCACHE_NUM_BLOCKS := 64.
Definition BCACHE_BLOCK_SIZE := 512.
(** [kernel/fs/bcache.c] constants *)
Definition BCACHE_FLAG_VALID := 1.
Definition BCACHE_FLAG_DIRTY := 2.
#[export] Hint Unfold BCACHE_NUM_BLOCKS BCACHE_BLOCK_SIZE BCACHE_FLAG_VALID
  BCACHE_FLAG_DIRTY SECTOR : consts.

(** [include/bcache.h] BcacheStats *)
Record BcacheStats := mkBcacheStats { hits : Z; misses : Z; writebacks : Z; evictions : Z }.
(** [kernel/fs/bcache.c] BcacheBlock *)
Record BcacheBlock := mkBcacheBlock { lba : Z; flags : Z; access_tick : Z; data : bytes }.
#[export] Instance eta_BcacheStats : Eta BcacheStats :=
  fun r => mkBcacheStats (hits r) (misses r) (writebacks r) (evictions r).
#[export] Instance eta_BcacheBlock : Eta BcacheBlock :=
  fun r => mkBcacheBlock (lba r) (flags r) (access_tick r) (data r).

Definition zero_block : BcacheBlock := mkBcacheBlock 0 0 0 (zeros (Z.to_nat BCACHE_BLOCK_SIZE)).
#[export] Instance inhabited_block : Inhabited BcacheBlock := populate zero_block.

(** The static variables of bcache.c and the device behind them; [real_set]
    tells that g_real_read / g_real_write are not NULL.
    [kernel/fs/bcache.c:32-42] g_cache *)
Record Bcache (D : Type) := mkBcache {
  g_cache : list BcacheBlock; g_stats : BcacheStats; g_tick : Z;
  g_flush_interval : Z; g_flush_counter : Z; real_set : bool;
  g_bcache_ready : bool; real : D }.
Arguments mkBcache {D}. Arguments g_cache {D}. Arguments g_stats {D}.
Arguments g_tick {D}. Arguments g_flush_interval {D}. Arguments g_flush_counter {D}.
Arguments real_set {D}. Arguments g_bcache_ready {D}. Arguments real {D}.
#[export] Instance eta_Bcache D : Eta (Bcache D) :=
  fun r => mkBcache (g_cache r) (g_stats r) (g_tick r) (g_flush_interval r)
             (g_flush_counter r) (real_set r) (g_bcache_ready r) (real r).

(** [b->flags & BCACHE_FLAG_VALID] and [& BCACHE_FLAG_DIRTY]. *)
Definition valid (b : BcacheBlock) : bool := negb (Z.land (flags b) BCACHE_FLAG_VALID =? 0).
Definition dirty (b : BcacheBlock) : bool := negb (Z.land (flags b) BCACHE_FLAG_DIRTY =? 0).

Section bcache.
Context {D : Type} `{BlockDev D}.
Implicit Types (st : Bcache D) (b : BcacheBlock).

(** [kernel/fs/bcache.c] bcache_find *)
Definition bcache_find st (sector : Z) : option nat :=
  find_idx (fun b => valid b && (lba b =? sector)) (g_cache st).

(** [kernel/fs/bcache.c:69-77] bcache_lru *)
Fixpoint lru_loop (l : list BcacheBlock) (i best : nat) (best_tick : Z) : nat :=
  match l with
  | [] => best
  | b :: l' =>
      if negb (valid b) then i
      else if access_tick b <? best_tick then lru_loop l' (S i) i (access_tick b)
      else lru_loop l' (S i) best best_tick
  end.
(** [kernel/fs/bcache.c] bcache_lru *)
Definition bcache_lru st : nat := lru_loop (g_cache st) 0 0 0xFFFFFFFF.

Definition block st (i : nat) : BcacheBlock := geti (g_cache st) (Z.of_nat i).
Definition set_block st (i : nat) (b : BcacheBlock) : Bcache D :=
  st <| g_cache := puti (g_cache st) (Z.of_nat i) b |>.

(** [kernel/fs/bcache.c] bcache_writeback *)
Definition bcache_writeback st (idx : nat) : Z * Bcache D :=
  if BCACHE_NUM_BLOCKS <=? Z.of_nat idx then (-1, st) else
  let b := block st idx in
  if negb (dirty b) then (0, st) else
  let '(rc, d) := bd_write (real st) (lba b) 1 (data b) in
  let st := st <| real := d |> in
  if rc <? 0 then (-1, st) else
  let st := set_block st idx (b <| flags := Z.land (flags b) (u8 (Z.lnot BCACHE_FLAG_DIRTY)) |>) in
  (0, st <| g_stats := (g_stats st) <| writebacks := u32 (writebacks (g_stats st) + 1) |> |>).

Definition count_eviction st : Bcache D :=
  st <| g_stats := (g_stats st) <| evictions := u32 (evictions (g_stats st) + 1) |> |>.

(** The eviction of a slot: write it back when dirty, the result ignored.
    [kernel/fs/bcache.c:116-122] bcache_read *)
Definition evict st (slot : nat) : Bcache D :=
  if dirty (block st slot) then count_eviction (bcache_writeback st slot).2
  else if valid (block st slot) then count_eviction st
  else st.

(** One iteration of bcache_read: code and the 512 bytes of the sector.
    [kernel/fs/bcache.c:103-134] bcache_read *)
Definition bcache_read_sector st (sector : Z) : Z * bytes * Bcache D :=
  match bcache_find st sector with
  | Some idx =>
      let st := st <| g_stats := (g_stats st) <| hits := u32 (hits (g_stats st) + 1) |> |> in
      let st := st <| g_tick := u32 (g_tick st + 1) |> in
      let st := set_block st idx ((block st idx) <| access_tick := g_tick st |>) in
      (0, data (block st idx), st)
  | None =>
      let st := st <| g_stats := (g_stats st) <| misses := u32 (misses (g_stats st) + 1) |> |> in
      let slot := bcache_lru st in
      let st := evict st slot in
      let '(rc, out, d) := bd_read (real st) sector 1 in
      let st := st <| real := d |> in
      let st := set_block st slot ((block st slot) <| data := blit (data (block st slot)) 0 out |>) in
      if rc <? 0 then (-1, [], st) else
      let st := st <| g_tick := u32 (g_tick st + 1) |> in
      let st := set_block st slot (mkBcacheBlock sector BCACHE_FLAG_VALID (g_tick st)
                                     (data (block st slot))) in
      (0, data (block st slot), st)
  end.

(** [kernel/fs/bcache.c:102-136] bcache_read *)
Fixpoint bcache_read_loop (n : nat) (s : Z) st (first : Z) (out : bytes) : Z * bytes * Bcache D :=
  match n with
  | O => (s, out, st)
  | S n' =>
      let '(rc, sec, st) := bcache_read_sector st (u32 (first + s)) in
      if rc <? 0 then (-1, out, st)
      else bcache_read_loop n' (s + 1) st first (out ++ sec)
  end.

(** [kernel/fs/bcache.c] bcache_read *)
Definition bcache_read st (first count : Z) : Z * bytes * Bcache D :=
  if negb (g_bcache_ready st) || negb (real_set st) then (-1, [], st)
  else bcache_read_loop (Z.to_nat count) 0 st first [].

(** [kernel/fs/bcache.c:143-165] bcache_write *)
Definition bcache_write_sector st (sector : Z) (buf : bytes) : Bcache D :=
  let '(idx, st) :=
    match bcache_find st sector with
    | Some idx => (idx, st)
    | None =>
        let idx := bcache_lru st in
        let st := evict st idx in
        (idx, set_block st idx ((block st idx) <| lba := sector |>))
    end in
  let st := st <| g_tick := u32 (g_tick st + 1) |> in
  set_block st idx (mkBcacheBlock (lba (block st idx))
    (Z.lor BCACHE_FLAG_VALID BCACHE_FLAG_DIRTY) (g_tick st) (blit (data (block st idx)) 0 buf)).

(** [kernel/fs/bcache.c:142-167] bcache_write *)
Fixpoint bcache_write_loop (n : nat) (s : Z) st (first : Z) (buf : bytes) : Bcache D :=
  match n with
  | O => st
  | S n' =>
      let st := bcache_write_sector st (u32 (first + s)) (chunk buf s) in
      bcache_write_loop n' (s + 1) st first buf
  end.

(** [kernel/fs/bcache.c] bcache_write *)
Definition bcache_write st (first count : Z) (buf : bytes) : Z * Bcache D :=
  if negb (g_bcache_ready st) || negb (real_set st) then (-1, st)
  else (count, bcache_write_loop (Z.to_nat count) 0 st first buf).

(** [kernel/fs/bcache.c:172-178] bcache_sync *)
Fixpoint bcache_sync_loop (n i : nat) st (err : Z) : Z * Bcache D :=
  match n with
  | O => (err, st)
  | S n' =>
      if dirty (block st i) then
        let '(rc, st) := bcache_writeback st i in
        bcache_sync_loop n' (S i) st (if rc <? 0 then -1 else err)
      else bcache_sync_loop n' (S i) st err
  end.

(** [kernel/fs/bcache.c] bcache_sync *)
Definition bcache_sync st : Z * Bcache D :=
  if negb (g_bcache_ready st) then (-1, st)
  else bcache_sync_loop (Z.to_nat BCACHE_NUM_BLOCKS) 0 st 0.

(** [kernel/fs/bcache.c] bcache_tick *)
Definition bcache_tick st : Bcache D :=
  if negb (g_bcache_ready st) then st else
  let st := st <| g_flush_counter := u32 (g_flush_counter st + 1) |> in
  if g_flush_interval st <=? g_flush_counter st then
    let st := st <| g_flush_counter := 0 |> in
    if existsb dirty (g_cache st) then (bcache_sync st).2 else st
  else st.

(** [kernel/fs/bcache.c] bcache_get_stats *)
Definition bcache_get_stats st : BcacheStats := g_stats st.

(** [kernel/fs/bcache.c] bcache_invalidate *)
Definition bcache_invalidate st : Bcache D :=
  st <| g_cache := (fun b => mkBcacheBlock 0 0 0 (data b)) <$> g_cache st |> <| g_tick := 0 |>.

(** [kernel/fs/bcache.c] bcache_init *)
Definition bcache_init (d : D) : Bcache D :=
  mkBcache (replicate (Z.to_nat BCACHE_NUM_BLOCKS) zero_block) (mkBcacheStats 0 0 0 0)
    0 240 0 true true d.

End bcache.

#[export] Instance bcache_dev {D} `{BlockDev D} : BlockDev (Bcache D) := {
  bd_read := bcache_read; bd_write := bcache_write }.

(** ** Invariant and abstract content *)

Section proofs.
Context {D : Type} `{BlockDevLaws D}.
Implicit Types (st : Bcache D) (b : BcacheBlock).

Definition NB : nat := Z.to_nat BCACHE_NUM_BLOCKS.

Definition block_wf b : Prop :=
  length (data b) = SECTOR /\ (dirty b = true -> valid b = true) /\ is_u32 (lba b).

Record bcache_wf st : Prop := mk_bcache_wf {
  wf_ready : g_bcache_ready st = true;
  wf_set : real_set st = true;
  wf_size : length (g_cache st) = NB;
  wf_blocks : forall i, (i < NB)%nat -> block_wf (block st i);
  wf_unique : forall i j, (i < NB)%nat -> (j < NB)%nat ->
    valid (block st i) = true -> valid (block st j) = true ->
    lba (block st i) = lba (block st j) -> i = j;
  wf_clean : forall i, (i < NB)%nat ->
    valid (block st i) = true -> dirty (block st i) = false ->
    data (block st i) = bd_view (real st) (lba (block st i));
  wf_dev : bd_ok (real st) }.

(** What a reader of the cache sees: the cached block, else the disk. *)
Definition bcache_view st (s : Z) : bytes :=
  match bcache_find st s with
  | Some i => data (block st i)
  | None => bd_view (real st) s
  end.

Lemma block_set_block st i j b :
  length (g_cache st) = NB -> (i < NB)%nat ->
  block (set_block st i b) j = if decide (j = i) then b else block st j.
Proof.
  intros Hl Hi. unfold block, set_block. simpl. case_decide as E.
  - subst. apply geti_puti_eq. lia.
  - apply geti_puti_ne; lia.
Qed.

Lemma bcache_find_Some st s i :
  bcache_wf st ->
  bcache_find st s = Some i <->
  (i < NB)%nat /\ valid (block st i) = true /\ lba (block st i) = s.
Proof.
  intros Hwf. unfold bcache_find. split.
  - intros Hf. pose proof (find_idx_lt _ _ _ Hf) as Hi. rewrite (wf_size st Hwf) in Hi.
    apply find_idx_Some in Hf as [[b [Hb [Hv Hs%Z.eqb_eq]%andb_true_iff]] _].
    unfold block. rewrite (lookup_geti _ _ _ Hb). done.
  - intros (Hi & Hv & Hs).
    assert (Hb : forall j, (j < NB)%nat -> g_cache st !! j = Some (block st j)).
    { intros j Hj. unfold block. rewrite <- (Nat2Z.id j) at 1. apply geti_lookup.
      rewrite (wf_size st Hwf). lia. }
    apply find_idx_unique with (block st i); [by apply Hb|by rewrite Hv, Hs, Z.eqb_refl|].
    intros j c Hj [Hvj Hsj%Z.eqb_eq]%andb_true_iff.
    pose proof (lookup_lt_Some _ _ _ Hj) as Hjl. rewrite (wf_size st Hwf) in Hjl.
    rewrite Hb in Hj by done. injection Hj as <-.
    apply (wf_unique st Hwf); congruence.
Qed.

Lemma bcache_find_None st s :
  bcache_wf st ->
  bcache_find st s = None <->
  (forall i, (i < NB)%nat -> valid (block st i) = true -> lba (block st i) <> s).
Proof.
  intros Hwf. destruct (bcache_find st s) as [i|] eqn:E.
  - apply bcache_find_Some in E as (Hi & Hv & Hl); [|done]. split; [done|].
    intros Hn. by destruct (Hn i Hi Hv).
  - split; [|done]. intros _ i Hi Hv Hl.
    assert (bcache_find st s = Some i) by (by apply bcache_find_Some). congruence.
Qed.

Lemma bcache_view_found st i :
  bcache_wf st -> (i < NB)%nat -> valid (block st i) = true ->
  bcache_view st (lba (block st i)) = data (block st i).
Proof.
  intros Hwf Hi Hv. unfold bcache_view.
  by rewrite (proj2 (bcache_find_Some st _ i Hwf)).
Qed.

(** The least recently used slot exists. *)
Lemma lru_loop_range l i best t :
  lru_loop l i best t = best \/ (i <= lru_loop l i best t < i + length l)%nat.
Proof.
  revert i best t; induction l as [|b l IH]; intros i best t; simpl; [by left|].
  destruct (negb (valid b)); [lia|].
  destruct (access_tick b <? t); [destruct (IH (S i) i (access_tick b))|destruct (IH (S i) best t)];
    lia.
Qed.

Lemma bcache_lru_lt st : length (g_cache st) = NB -> (bcache_lru st < NB)%nat.
Proof.
  intros Hl. unfold bcache_lru. pose proof (lru_loop_range (g_cache st) 0 0 0xFFFFFFFF).
  rewrite Hl in *. unfold NB in *. clia.
Qed.

(** Storing a block in a slot that holds no unwritten data of another sector. *)
Lemma set_block_spec st i b :
  bcache_wf st -> (i < NB)%nat -> block_wf b -> valid b = true ->
  (bcache_find st (lba b) = None /\ dirty (block st i) = false \/
   bcache_find st (lba b) = Some i) ->
  (dirty b = false -> data b = bd_view (real st) (lba b)) ->
  bcache_wf (set_block st i b) /\
  forall s, bcache_view (set_block st i b) s =
            if decide (s = lba b) then data b else bcache_view st s.
Proof.
  intros Hwf Hi Hb Hv Hslot Hcl.
  assert (Hbl : forall j, block (set_block st i b) j = if decide (j = i) then b else block st j)
    by (intros; apply block_set_block; [apply Hwf|done]).
  assert (Hother : forall j, (j < NB)%nat -> j <> i -> valid (block st j) = true ->
                             lba (block st j) <> lba b).
  { intros j Hj Hne Hvj He. destruct Hslot as [[Hn _]|Hf].
    - by apply (proj1 (bcache_find_None st _ Hwf) Hn j).
    - apply bcache_find_Some in Hf as (_ & Hvi & Hli); [|done].
      apply Hne, (wf_unique st Hwf); congruence. }
  assert (Hw' : bcache_wf (set_block st i b)).
  { destruct Hwf. split; simpl; try done.
    - by rewrite length_puti.
    - intros j Hj. rewrite Hbl. case_decide; auto.
    - intros j k Hj Hk. rewrite !Hbl. do 2 case_decide; subst; auto.
      + intros _ Hvk He. by destruct (Hother k).
      + intros Hvj _ He. by destruct (Hother j).
    - intros j Hj. rewrite Hbl. case_decide; auto. }
  split; [done|]. intros s. case_decide as Hs.
  - subst s. pose proof (bcache_view_found (set_block st i b) i Hw' Hi) as Hf.
    rewrite Hbl, decide_True in Hf by done. by apply Hf.
  - unfold bcache_view. destruct (bcache_find st s) as [j|] eqn:E.
    + apply bcache_find_Some in E as (Hj & Hvj & Hlj); [|done].
      destruct (decide (j = i)) as [->|Hne].
      * destruct Hslot as [[Hn Hd]|Hf];
          [|apply bcache_find_Some in Hf as (_ & _ & ?); [congruence|done]].
        rewrite (proj2 (bcache_find_None _ s Hw')).
        { simpl. rewrite (wf_clean st Hwf i Hi Hvj Hd). by rewrite Hlj. }
        intros k Hk. rewrite Hbl. case_decide; [congruence|].
        intros Hvk Hlk. apply (wf_unique st Hwf k i) in Hvk; congruence.
      * rewrite (proj2 (bcache_find_Some _ s j Hw')); rewrite Hbl, decide_False; done.
    + rewrite (proj2 (bcache_find_None _ s Hw')); [done|].
      intros k Hk. rewrite Hbl. case_decide; [congruence|].
      intros Hvk Hlk. by apply (proj1 (bcache_find_None st s Hwf) E k).
Qed.

Lemma set_block_twice st i b1 b2 : set_block (set_block st i b1) i b2 = set_block st i b2.
Proof. unfold set_block. simpl. unfold upd_with. simpl. by rewrite puti_same. Qed.

(** A change of the state that keeps what is cached where. *)
Lemma bcache_same st st' :
  bcache_wf st -> g_bcache_ready st' = true -> real_set st' = true ->
  length (g_cache st') = NB -> bd_ok (real st') ->
  (forall i, (i < NB)%nat ->
     valid (block st' i) = valid (block st i) /\ lba (block st' i) = lba (block st i) /\
     data (block st' i) = data (block st i) /\
     (dirty (block st' i) = true -> dirty (block st i) = true) /\
     (valid (block st' i) = true -> dirty (block st' i) = false ->
      data (block st' i) = bd_view (real st') (lba (block st' i)))) ->
  (forall s, bcache_find st s = None -> bd_view (real st') s = bd_view (real st) s) ->
  bcache_wf st' /\ (forall s, bcache_find st' s = bcache_find st s) /\
  (forall s, bcache_view st' s = bcache_view st s).
Proof.
  intros Hwf Hr Hs Hl Hd Hb Hv.
  assert (Hwf' : bcache_wf st').
  { split; [done..| | | |done].
    - intros i Hi. destruct (Hb i Hi) as (H1 & H2 & H3 & H4 & _).
      destruct (wf_blocks st Hwf i Hi) as (G1 & G2 & G3).
      split; [congruence|]. split; [|congruence]. intros ?%H4. rewrite H1. auto.
    - intros i j Hi Hj. destruct (Hb i Hi) as (-> & -> & _), (Hb j Hj) as (-> & -> & _).
      by apply (wf_unique st Hwf).
    - intros i Hi. apply (Hb i Hi). }
  assert (Hf : forall s, bcache_find st' s = bcache_find st s).
  { intros s. destruct (bcache_find st s) as [i|] eqn:E.
    - apply bcache_find_Some in E as (Hi & ? & ?); [|done]. apply bcache_find_Some; [done|].
      destruct (Hb i Hi) as (-> & -> & _). done.
    - apply bcache_find_None; [done|]. intros i Hi. destruct (Hb i Hi) as (-> & -> & _).
      by apply (proj1 (bcache_find_None st s Hwf) E). }
  split; [done|]. split; [done|]. intros s. unfold bcache_view. rewrite Hf.
  destruct (bcache_find st s) as [i|] eqn:E; [|by apply Hv].
  apply bcache_find_Some in E as (Hi & _); [|done]. by apply (Hb i Hi).
Qed.

Lemma find_dirty_valid st i :
  bcache_wf st -> (i < NB)%nat -> dirty (block st i) = true ->
  valid (block st i) = true.
Proof. intros Hwf Hi. by apply (wf_blocks st Hwf i Hi). Qed.

Lemma valid_clear_dirty b :
  valid (b <| flags := Z.land (flags b) (u8 (Z.lnot BCACHE_FLAG_DIRTY)) |>) = valid b /\
  dirty (b <| flags := Z.land (flags b) (u8 (Z.lnot BCACHE_FLAG_DIRTY)) |>) = false.
Proof.
  unfold valid, dirty. simpl. rewrite <- !Z.land_assoc.
  change (Z.land (u8 _) BCACHE_FLAG_VALID) with BCACHE_FLAG_VALID.
  change (Z.land (u8 _) BCACHE_FLAG_DIRTY) with 0. by rewrite Z.land_0_r.
Qed.

Lemma in_range_1 s : is_u32 s -> in_range s 1.
Proof. unfold in_range. ulia. Qed.

(** Writing a block back changes nothing that a reader sees. *)
Lemma bcache_writeback_spec st i :
  bcache_wf st -> (i < NB)%nat ->
  exists st', bcache_writeback st i = (0, st') /\
    bcache_wf st' /\ (forall s, bcache_find st' s = bcache_find st s) /\
    (forall s, bcache_view st' s = bcache_view st s) /\
    dirty (block st' i) = false /\
    (forall j, (j < NB)%nat -> j <> i -> block st' j = block st j).
Proof.
  intros Hwf Hi. unfold bcache_writeback.
  destruct (Z.leb_spec BCACHE_NUM_BLOCKS (Z.of_nat i)) as [?|_]; [unfold NB in *; lia|].
  destruct (dirty (block st i)) eqn:Hd; cbn [negb].
  2:{ exists st. done. }
  pose proof (find_dirty_valid st i Hwf Hi Hd) as Hv.
  destruct (wf_blocks st Hwf i Hi) as (Hlen & _ & Hu).
  destruct (bd_write_ok (real st) (lba (block st i)) 1 (data (block st i)))
    as (rc & d & -> & Hrc & Hok & Hview); [apply Hwf|by apply in_range_1|by rewrite Hlen|].
  destruct (Z.ltb_spec rc 0); [lia|]. eexists. split; [done|].
  set (b' := _ <| flags := _ |>).
  match goal with |- bcache_wf ?s /\ _ => set (st' := s) end.
  assert (Hb : forall j, block st' j = if decide (j = i) then b' else block st j).
  { intros j. exact (block_set_block _ i j b' (wf_size st Hwf) Hi). }
  assert (Hown : bd_view d (lba (block st i)) = data (block st i)).
  { rewrite Hview. unfold write_view. rewrite Z.leb_refl.
    rewrite (proj2 (Z.ltb_lt _ _)) by lia. rewrite Z.sub_diag. cbn [andb]. rewrite chunk_0.
    apply take_ge. by rewrite Hlen. }
  assert (Hother : forall s, s <> lba (block st i) -> bd_view d s = bd_view (real st) s).
  { intros s Hs. rewrite Hview. unfold write_view. case_step; [lia|done]. }
  destruct (valid_clear_dirty (block st i)) as [Hcv Hcd]. fold b' in Hcv, Hcd.
  destruct (bcache_same st st') as (G1 & G2 & G3); try done.
  - by apply Hwf.
  - by apply Hwf.
  - unfold st'. simpl. rewrite length_puti. apply Hwf.
  - intros j Hj. rewrite Hb. case_decide as Hji; [subst j|].
    + rewrite Hcv, Hcd. simpl. rewrite Hown. done.
    + do 4 (split; [done|]). intros Hvj Hdj. change (real st') with d.
      rewrite Hother; [by apply (wf_clean st Hwf)|].
      intros Hl. by apply Hji, (wf_unique st Hwf).
  - intros s Hs. change (real st') with d. apply Hother. intros ->.
    by apply (proj1 (bcache_find_None st _ Hwf) Hs i).
  - do 3 (split; [done|]). split; [by rewrite Hb, decide_True|].
    intros j _ Hne. by rewrite Hb, decide_False.
Qed.

(** Updates of the counters. *)
Lemma bcache_counters st st' :
  bcache_wf st -> g_cache st' = g_cache st -> real st' = real st ->
  g_bcache_ready st' = g_bcache_ready st -> real_set st' = real_set st ->
  bcache_wf st' /\ (forall s, bcache_find st' s = bcache_find st s) /\
  (forall s, bcache_view st' s = bcache_view st s).
Proof.
  intros Hwf Hc Hd Hr Hs.
  assert (Hb : forall i, block st' i = block st i) by (intros; unfold block; by rewrite Hc).
  apply bcache_same; try done.
  - by rewrite Hr, (wf_ready st Hwf).
  - by rewrite Hs, (wf_set st Hwf).
  - by rewrite Hc, (wf_size st Hwf).
  - rewrite Hd. apply Hwf.
  - intros i Hi. rewrite !Hb, Hd. repeat split; try done. by apply Hwf.
  - intros s _. by rewrite Hd.
Qed.

Lemma evict_spec st i :
  bcache_wf st -> (i < NB)%nat ->
  bcache_wf (evict st i) /\ (forall s, bcache_find (evict st i) s = bcache_find st s) /\
  (forall s, bcache_view (evict st i) s = bcache_view st s) /\
  dirty (block (evict st i) i) = false.
Proof.
  intros Hwf Hi. unfold evict. destruct (dirty (block st i)) eqn:Hd.
  - destruct (bcache_writeback_spec st i Hwf Hi) as (st' & -> & Hw & Hf & Hv & Hc & _).
    cbn [snd]. destruct (bcache_counters st' (count_eviction st')) as (G1 & G2 & G3); [done..|].
    split; [done|]. split; [intros; by rewrite G2|]. split; [|done]. intros; by rewrite G3.
  - destruct (valid (block st i)); [|done].
    destruct (bcache_counters st (count_eviction st)) as (G1 & G2 & G3); done.
Qed.

(** ** The cache is a device: reads and writes *)

(** The LRU stamp of a block is refreshed. *)
Lemma bcache_touch st i t :
  bcache_wf st -> (i < NB)%nat ->
  let st' := set_block st i ((block st i) <| access_tick := t |>) in
  bcache_wf st' /\ (forall s, bcache_view st' s = bcache_view st s).
Proof.
  intros Hwf Hi st'.
  assert (Hb : forall j, block st' j =
    if decide (j = i) then (block st i) <| access_tick := t |> else block st j).
  { intros j. exact (block_set_block _ i j _ (wf_size st Hwf) Hi). }
  destruct (bcache_same st st') as (G1 & G2 & G3); try done; try by apply Hwf.
  - unfold st'. simpl. rewrite length_puti. apply Hwf.
  - intros j Hj. rewrite Hb. case_decide; [subst|];
      do 4 (split; [done|]); intros ? ?; by apply (wf_clean st Hwf).
Qed.

Lemma bcache_view_length st s : bcache_wf st -> length (bcache_view st s) = SECTOR.
Proof.
  intros Hwf. unfold bcache_view. destruct (bcache_find st s) as [i|] eqn:E.
  - apply bcache_find_Some in E as (Hi & _); [|done]. by apply (wf_blocks st Hwf i Hi).
  - apply bd_view_length, Hwf.
Qed.

Lemma bcache_read_sector_ok st s :
  bcache_wf st -> is_u32 s ->
  exists st', bcache_read_sector st s = (0, bcache_view st s, st') /\
    bcache_wf st' /\ (forall s', bcache_view st' s' = bcache_view st s').
Proof.
  intros Hwf Hs. unfold bcache_read_sector. destruct (bcache_find st s) as [i|] eqn:E.
  - pose proof E as (Hi & Hv & Hl)%bcache_find_Some; [|done].
    set (st1 := _ <| g_tick := _ |>).
    destruct (bcache_counters st st1) as (W1 & F1 & V1); [done..|].
    destruct (bcache_touch st1 i (g_tick st1) W1 Hi) as (W2 & V2).
    eexists. split; [|split; [exact W2|intros s'; by rewrite V2]].
    rewrite block_set_block, decide_True by (done || exact (wf_size _ W1)).
    cbn. do 2 f_equal. unfold bcache_view. by rewrite E.
  - set (st1 := _ <| g_stats := _ |>).
    destruct (bcache_counters st st1) as (W1 & F1 & V1); [done..|].
    pose proof (bcache_lru_lt st1 (wf_size _ W1)) as Hi. set (slot := bcache_lru st1) in *.
    destruct (evict_spec st1 slot W1 Hi) as (W2 & F2 & V2 & C2). set (st2 := evict st1 slot) in *.
    destruct (bd_read_ok (real st2) s 1) as (rc & d & -> & Hrc & Hok & Hd);
      [apply W2|by apply in_range_1|].
    change (Z.to_nat 1) with 1%nat. rewrite sectors_1. cbn beta iota zeta.
    set (st3 := st2 <| real := d |>).
    destruct (bcache_same st2 st3) as (W3 & F3 & V3); try done; try by apply W2.
    { intros j Hj. do 4 (split; [done|]). intros Hv Hdj.
      change (real st3) with d. rewrite Hd. by apply (wf_clean st2 W2 j). }
    destruct (Z.ltb_spec rc 0) as [?|_]; [lia|].
    set (st5 := set_block st3 slot _). set (st6 := st5 <| g_tick := _ |>).
    assert (Hdata : data (block st6 slot) = bd_view (real st2) s).
    { change (block st6 slot) with (block st5 slot). unfold st5.
      rewrite block_set_block, decide_True by (done || exact (wf_size _ W3)). simpl.
      apply blit_full. rewrite bd_view_length by apply W2. by apply (wf_blocks st3 W3). }
    rewrite Hdata. set (b := mkBcacheBlock s BCACHE_FLAG_VALID (g_tick st6) (bd_view (real st2) s)).
    set (st3' := st3 <| g_tick := g_tick st6 |>).
    assert (Hst : set_block st6 slot b = set_block st3' slot b).
    { change st6 with (set_block st3' slot (block st3 slot <| data :=
        blit (data (block st3 slot)) 0 (bd_view (real st2) s) |>)). apply set_block_twice. }
    rewrite Hst. destruct (bcache_counters st3 st3') as (W3' & F3' & V3'); [done..|].
    assert (HF : bcache_find st3' s = None) by (by rewrite F3', F3, F2, F1).
    assert (Hvs : bcache_view st3' s = bd_view (real st2) s).
    { unfold bcache_view. rewrite HF. by apply Hd. }
    destruct (set_block_spec st3' slot b) as (W4 & V4); try done.
    { split; [by apply bd_view_length, W2|]. done. }
    { left. done. }
    eexists. split; [|split; [exact W4|]].
    + do 2 f_equal. rewrite block_set_block, decide_True by (done || exact (wf_size _ W3')). simpl.
      rewrite <- Hvs. by rewrite V3', V3, V2, V1.
    + intros s'. rewrite V4. change (lba b) with s. case_decide as Hs'; [subst s'; simpl; rewrite <- Hvs|];
        by rewrite V3', V3, V2, V1.
Qed.

Lemma bcache_write_sector_ok st s buf :
  bcache_wf st -> is_u32 s -> length buf = SECTOR ->
  bcache_wf (bcache_write_sector st s buf) /\
  forall s', bcache_view (bcache_write_sector st s buf) s' =
             if decide (s' = s) then buf else bcache_view st s'.
Proof.
  intros Hwf Hs Hlen. unfold bcache_write_sector.
  destruct (bcache_find st s) as [i|] eqn:E; cbn beta iota zeta.
  - pose proof E as (Hi & Hv & Hl)%bcache_find_Some; [|done].
    set (st1 := _ <| g_tick := _ |>).
    destruct (bcache_counters st st1) as (W1 & F1 & V1); [done..|].
    change (block st1 i) with (block st i). rewrite Hl.
    rewrite blit_full by (rewrite Hlen; by apply (wf_blocks st Hwf)).
    set (b := mkBcacheBlock _ _ _ _).
    destruct (set_block_spec st1 i b) as (W2 & V2); try done.
    { right. change (lba b) with s. by rewrite F1. }
  - pose proof (bcache_lru_lt st (wf_size _ Hwf)) as Hi. set (slot := bcache_lru st) in *.
    destruct (evict_spec st slot Hwf Hi) as (W2 & F2 & V2 & C2). set (st2 := evict st slot) in *.
    set (st1 := _ <| g_tick := _ |>). set (st2' := st2 <| g_tick := g_tick st1 |>).
    assert (Hbl : block st1 slot = (block st2 slot) <| lba := s |>).
    { change (block st1 slot) with (block (set_block st2 slot ((block st2 slot) <| lba := s |>)) slot).
      by rewrite block_set_block, decide_True by (done || exact (wf_size _ W2)). }
    rewrite Hbl. cbn [lba data upd_with].
    rewrite blit_full by (rewrite Hlen; by apply (wf_blocks st2 W2)).
    set (b := mkBcacheBlock _ _ _ _).
    assert (Hst : set_block st1 slot b = set_block st2' slot b).
    { change st1 with (set_block st2' slot ((block st2 slot) <| lba := s |>)).
      apply set_block_twice. }
    rewrite Hst. destruct (bcache_counters st2 st2') as (W3 & F3 & V3); [done..|].
    destruct (set_block_spec st2' slot b) as (W4 & V4); try done.
    { left. change (lba b) with s. by rewrite F3, F2. }
    split; [done|]. intros s'. rewrite V4, V3, V2. done.
Qed.

(** Two states with the same content. *)
Definition same_view st st' : Prop := forall s, bcache_view st' s = bcache_view st s.
#[export] Instance same_view_equiv : Equivalence same_view.
Proof. split; unfold same_view; [done|by intros ???|intros ??? E1 E2 s; by rewrite E2, E1]. Qed.

Lemma bcache_read_loop_ok n : forall st s first out,
  bcache_wf st -> 0 <= first -> 0 <= s -> first + s + Z.of_nat n <= 2 ^ 32 ->
  exists st', bcache_read_loop n s st first out =
    (s + Z.of_nat n, out ++ sectors (bcache_view st) (first + s) n, st') /\
    bcache_wf st' /\ same_view st st'.
Proof.
  induction n as [|n IH]; intros st s first out Hwf H1 H2 H3.
  { exists st. cbn [bcache_read_loop]. rewrite sectors_0, app_nil_r, Z.add_0_r. done. }
  cbn [bcache_read_loop]. rewrite u32_id by ulia.
  destruct (bcache_read_sector_ok st (first + s) Hwf) as (st1 & -> & W1 & V1); [ulia|].
  destruct (IH st1 (s + 1) first (out ++ bcache_view st (first + s)) W1) as (st2 & Hr & W2 & V2);
    [lia..|].
  cbn [Z.ltb Z.compare]. rewrite Hr. exists st2.
  split; [|split; [done|by transitivity st1]].
  rewrite sectors_S, <- app_assoc. rewrite (sectors_ext (bcache_view st1) (bcache_view st)) by done.
  by replace (first + s + 1) with (first + (s + 1)) by lia;
    replace (s + Z.of_nat (S n)) with (s + 1 + Z.of_nat n) by lia.
Qed.

Lemma bcache_write_loop_ok n : forall st s first buf,
  bcache_wf st -> 0 <= first -> 0 <= s -> first + s + Z.of_nat n <= 2 ^ 32 ->
  ((Z.to_nat s + n) * SECTOR <= length buf)%nat ->
  let st' := bcache_write_loop n s st first buf in
  bcache_wf st' /\
  forall x, bcache_view st' x =
    if (first + s <=? x) && (x <? first + s + Z.of_nat n) then chunk buf (x - first)
    else bcache_view st x.
Proof.
  induction n as [|n IH]; intros st s first buf Hwf H1 H2 H3 Hlen.
  { simpl. split; [done|]. intros x. case_step; [lia|done]. }
  cbn [bcache_write_loop]. rewrite u32_id by ulia.
  assert (Hc : length (chunk buf s) = SECTOR).
  { unfold chunk. rewrite length_take, length_drop. unfold SECTOR in *. lia. }
  destruct (bcache_write_sector_ok st (first + s) (chunk buf s) Hwf) as [W1 V1]; [ulia|done|].
  destruct (IH (bcache_write_sector st (first + s) (chunk buf s)) (s + 1) first buf W1)
    as [W2 V2]; [unfold SECTOR in *; lia..|].
  split; [exact W2|]. intros x. rewrite V2, V1.
  destruct (decide (x = first + s)) as [->|Hne].
  - replace ((first + (s + 1) <=? first + s) && _) with false by lia.
    replace ((first + s <=? first + s) && _) with true by lia.
    by replace (first + s - first) with s by lia.
  - replace ((first + (s + 1) <=? x) && (x <? first + (s + 1) + Z.of_nat n))
      with ((first + s <=? x) && (x <? first + s + Z.of_nat (S n))) by lia.
    done.
Qed.

(** The cache keeps the contract of the device it is installed in front of. *)
#[export] Program Instance bcache_laws : BlockDevLaws (Bcache D) := {
  bd_ok := bcache_wf; bd_view := bcache_view }.
Next Obligation. intros d s Hd. by apply bcache_view_length. Qed.
Next Obligation.
  intros d first count Hd (H1 & H2 & H3). simpl. unfold bcache_read.
  rewrite (wf_ready d Hd), (wf_set d Hd). cbn [negb orb].
  destruct (bcache_read_loop_ok (Z.to_nat count) d 0 first [] Hd) as (st' & -> & W & V); [lia..|].
  exists (0 + Z.of_nat (Z.to_nat count)), st'. rewrite Z.add_0_r.
  split; [done|]. split; [lia|]. done.
Qed.
Next Obligation.
  intros d first count buf Hd (H1 & H2 & H3) Hl. simpl. unfold bcache_write.
  rewrite (wf_ready d Hd), (wf_set d Hd). cbn [negb orb].
  destruct (bcache_write_loop_ok (Z.to_nat count) d 0 first buf Hd) as [W V]; [lia..|].
  eexists count, _. split; [done|]. split; [lia|]. split; [done|].
  intros s. rewrite V. unfold write_view. by rewrite Z.add_0_r.
Qed.

Lemma bcache_init_wf (d : D) : bd_ok d ->
  bcache_wf (bcache_init d) /\ forall s, bcache_view (bcache_init d) s = bd_view d s.
Proof.
  intros Hd.
  assert (Hb : forall i, (i < NB)%nat -> block (bcache_init d) i = zero_block).
  { intros i Hi. unfold block, geti. rewrite Nat2Z.id.
    by apply (lookup_total_replicate_2 NB zero_block i). }
  assert (Hwf : bcache_wf (bcache_init d)).
  { split; try done.
    - intros i Hi. rewrite (Hb i Hi). done.
    - intros i j Hi Hj. by rewrite (Hb i Hi).
    - intros i Hi. by rewrite (Hb i Hi). }
  split; [done|]. intros s. unfold bcache_view. rewrite (proj2 (bcache_find_None _ s Hwf)); [done|].
  intros i Hi. by rewrite (Hb i Hi).
Qed.

Lemma bcache_sync_loop_ok n : forall i st err,
  bcache_wf st -> (i + n = NB)%nat -> (forall j, (j < i)%nat -> dirty (block st j) = false) ->
  exists st', bcache_sync_loop n i st err = (err, st') /\ bcache_wf st' /\ same_view st st' /\
    forall j, (j < NB)%nat -> dirty (block st' j) = false.
Proof.
  induction n as [|n IH]; intros i st err Hwf Hn Hc.
  { exists st. split; [done|]. split; [done|]. split; [done|]. intros; apply Hc; lia. }
  cbn [bcache_sync_loop]. destruct (dirty (block st i)) eqn:Hd.
  - destruct (bcache_writeback_spec st i Hwf) as (st1 & -> & W1 & _ & V1 & C1 & O1); [lia|].
    destruct (IH (S i) st1 err W1) as (st' & Hl & W & V & C); [lia| |].
    { intros j Hj. destruct (decide (j = i)) as [->|]; [done|]. rewrite O1 by lia. apply Hc. lia. }
    cbn [Z.ltb Z.compare]. exists st'. split; [done|]. split; [done|]. split; [|done].
    by transitivity st1.
  - apply (IH (S i) st err Hwf); [lia|]. intros j Hj.
    destruct (decide (j = i)) as [->|]; [done|]. apply Hc. lia.
Qed.

(** After bcache_sync on a device that works, the call reports success, no block is
    dirty and the device itself holds, sector by sector, what the cache showed. *)
Lemma bcache_sync_durable st :
  bcache_wf st ->
  exists st', bcache_sync st = (0, st') /\ bcache_wf st' /\
    (forall i, (i < NB)%nat -> dirty (block st' i) = false) /\
    forall s, bd_view (real st') s = bcache_view st s.
Proof.
  intros Hwf. unfold bcache_sync. rewrite (wf_ready st Hwf). cbn [negb].
  destruct (bcache_sync_loop_ok NB 0 st 0 Hwf) as (st' & Hl & W & V & C); [done|lia|].
  exists st'. split; [done|]. split; [done|]. split; [done|]. intros s. rewrite <- V.
  unfold bcache_view. destruct (bcache_find st' s) as [i|] eqn:E; [|done].
  apply bcache_find_Some in E as (Hi & Hv & <-); [|done]. symmetry. by apply (wf_clean st' W), C.
Qed.

(** bcache_tick never changes what a reader sees. *)
Lemma bcache_tick_ok st :
  bcache_wf st -> bcache_wf (bcache_tick st) /\ same_view st (bcache_tick st).
Proof.
  intros Hwf. unfold bcache_tick. rewrite (wf_ready st Hwf). cbn [negb].
  set (st1 := st <| g_flush_counter := _ |>).
  destruct (bcache_counters st st1) as (W1 & _ & V1); [done..|].
  case_step; [|done].
  set (st2 := st1 <| g_flush_counter := 0 |>).
  destruct (bcache_counters st1 st2) as (W2 & _ & V2); [done..|].
  case_step; [|split; [done|by transitivity st1]].
  unfold bcache_sync. rewrite (wf_ready st2 W2). cbn [negb].
  destruct (bcache_sync_loop_ok NB 0 st2 0 W2) as (st' & Hl & W & V & C); [done|lia|].
  change (Z.to_nat BCACHE_NUM_BLOCKS) with NB. rewrite Hl.
  split; [done|]. transitivity st1; [done|]. by transitivity st2.
Qed.

(** *** Sequences of operations *)

Inductive bcache_op :=
  | OpRead (first count : Z) | OpWrite (first count : Z) (buf : bytes) | OpSync | OpTick.
Definition bcache_op_ok (o : bcache_op) : Prop :=
  match o with
  | OpRead first count => in_range first count
  | OpWrite first count buf => in_range first count /\ length buf = (Z.to_nat count * SECTOR)%nat
  | OpSync | OpTick => True
  end.
Definition bcache_step st (o : bcache_op) : bytes * Bcache D :=
  match o with
  | OpRead first count => let '(_, out, st) := bcache_read st first count in (out, st)
  | OpWrite first count buf => ([], (bcache_write st first count buf).2)
  | OpSync => ([], (bcache_sync st).2)
  | OpTick => ([], bcache_tick st)
  end.
Fixpoint bcache_run st (os : list bcache_op) : list bytes * Bcache D :=
  match os with
  | [] => ([], st)
  | o :: os => let '(out, st) := bcache_step st o in
               let '(outs, st) := bcache_run st os in (out :: outs, st)
  end.
(** The same operations on a plain array of sectors. *)
Fixpoint flat_run (v : Z -> bytes) (os : list bcache_op) : list bytes * (Z -> bytes) :=
  match os with
  | [] => ([], v)
  | o :: os =>
      let out := match o with OpRead f c => sectors v f (Z.to_nat c) | _ => [] end in
      let v := match o with OpWrite f c buf => write_view v f (Z.to_nat c) buf | _ => v end in
      let '(outs, v) := flat_run v os in (out :: outs, v)
  end.

Lemma flat_run_ext os : forall v w, (forall s, v s = w s) ->
  (flat_run v os).1 = (flat_run w os).1 /\ forall s, (flat_run v os).2 s = (flat_run w os).2 s.
Proof.
  induction os as [|o os IH]; intros v w E; simpl; [done|].
  assert (Ho : forall f n, sectors v f n = sectors w f n) by (intros; by apply sectors_ext).
  set (v' := match o with OpWrite f c buf => write_view v f (Z.to_nat c) buf | _ => v end).
  set (w' := match o with OpWrite f c buf => write_view w f (Z.to_nat c) buf | _ => w end).
  destruct (IH v' w') as [I1 I2].
  { intros s. subst v' w'. destruct o; try apply E. unfold write_view. by rewrite E. }
  destruct (flat_run v' os), (flat_run w' os). simpl in *. split; [|done]. f_equal; [|done].
  by destruct o.
Qed.

(** C16. The write-back cache is transparent: over any device that works, every sequence of
    reads, writes, syncs and timer ticks returns exactly the data the same sequence
    returns on a plain array of sectors, and leaves the same visible content. *)
Theorem bcache_refines os : forall st,
  bcache_wf st -> Forall bcache_op_ok os ->
  bcache_wf (bcache_run st os).2 /\
  (bcache_run st os).1 = (flat_run (bcache_view st) os).1 /\
  forall s, bcache_view (bcache_run st os).2 s = (flat_run (bcache_view st) os).2 s.
Proof.
  induction os as [|o os IH]; intros st Hwf Hos; [done|].
  inversion_clear Hos as [|? ? Ho Hos']. cbn [bcache_run flat_run].
  set (v' := match o with OpWrite f c buf => write_view (bcache_view st) f (Z.to_nat c) buf
             | _ => bcache_view st end).
  set (r := match o with OpRead f c => sectors (bcache_view st) f (Z.to_nat c) | _ => [] end).
  assert (Hstep : exists st', bcache_step st o = (r, st') /\ bcache_wf st' /\
                              forall s, bcache_view st' s = v' s).
  { subst v' r. destruct o as [f c|f c buf| |]; cbn [bcache_step].
    - pose proof (bd_read_ok (D:=Bcache D) st f c Hwf Ho) as (rc & st' & Hr & _ & W & V).
      change (bcache_read st f c) with (bd_read st f c). rewrite Hr. by exists st'.
    - destruct Ho as [Ho1 Ho2].
      pose proof (bd_write_ok (D:=Bcache D) st f c buf Hwf Ho1 Ho2) as (rc & st' & Hr & _ & W & V).
      change (bcache_write st f c buf) with (bd_write st f c buf). rewrite Hr. by exists st'.
    - unfold bcache_sync. rewrite (wf_ready st Hwf). cbn [negb].
      destruct (bcache_sync_loop_ok NB 0 st 0 Hwf) as (st' & Hl & W & V & _); [done|lia|].
      change (Z.to_nat BCACHE_NUM_BLOCKS) with NB. rewrite Hl. by exists st'.
    - destruct (bcache_tick_ok st Hwf). by exists (bcache_tick st). }
  destruct Hstep as (st' & -> & W & V). destruct (IH st' W Hos') as (I1 & I2 & I3).
  destruct (flat_run_ext os (bcache_view st') v' V) as [E1 E2].
  destruct (bcache_run st' os), (flat_run v' os). simpl in *.
  split; [done|]. split; [by rewrite I2, E1|]. intros s. by rewrite I3, E2.
Qed.
End proofs.

(** ** Concrete runs *)

Definition ram0 : RamDisk := mkRamDisk ∅.
Definition pat (b : Z) : bytes := replicate SECTOR b.

Lemma ram0_ok : bd_ok ram0.
Proof. apply map_Forall_empty. Qed.

Lemma bcache_refines_witness :
  let os := [OpWrite 7 2 (pat 65 ++ pat 66); OpRead 8 1; OpTick; OpWrite 8 1 (pat 67); OpRead 7 2] in
  (bcache_run (bcache_init ram0) os).1 = (flat_run (bcache_view (bcache_init ram0)) os).1 /\
  (bcache_run (bcache_init ram0) os).1 = [[]; pat 66; []; []; pat 65 ++ pat 67].
Proof.
  intros os. destruct (bcache_init_wf ram0 ram0_ok) as [W _].
  assert (Hos : Forall bcache_op_ok os).
  { repeat constructor; vm_compute; congruence. }
  destruct (bcache_refines os (bcache_init ram0) W Hos) as (_ & E & _).
  split; [exact E|vm_compute; reflexivity].
Defined.

Definition dirty_cache : Bcache RamDisk := (bcache_write (bcache_init ram0) 7 1 (pat 65)).2.

Lemma bcache_sync_durable_witness :
  bcache_wf dirty_cache /\ bcache_view dirty_cache 7 = pat 65 /\
  exists st', bcache_sync dirty_cache = (0, st') /\ bd_view (real st') 7 = bcache_view dirty_cache 7.
Proof.
  assert (W : bcache_wf dirty_cache).
  { destruct (bcache_init_wf ram0 ram0_ok) as [W _].
    destruct (bcache_write_loop_ok 1 (bcache_init ram0) 0 7 (pat 65) W) as [W' _];
      [lia|lia|lia|vm_compute; lia|exact W']. }
  split; [exact W|]. split; [vm_compute; reflexivity|].
  destruct (bcache_sync_durable dirty_cache W) as (st' & E & _ & _ & V).
  exists st'. split; [exact E|apply V].
Defined.

(** ** A device whose writes fail *)

Record RoDisk := mkRoDisk { rom : RamDisk }.
#[export] Instance ro_dev : BlockDev RoDisk := {
  bd_read d lba count := let '(rc, out, _) := bd_read (rom d) lba count in (rc, out, d);
  bd_write d _ _ _ := (-1, d) }.

(** Write sectors [s], [s + 1], ..., one at a time; the codes returned. *)
Fixpoint write_each (st : Bcache RoDisk) (n : nat) (s : Z) : list Z * Bcache RoDisk :=
  match n with
  | O => ([], st)
  | S n' => let '(rc, st) := bcache_write st s 1 (pat 65) in
            let '(rcs, st) := write_each st n' (s + 1) in (rc :: rcs, st)
  end.

(** Eviction ignores a failed write-back: when the device rejects writes, 65 one-sector
    writes are all reported as successful, the sector written first is evicted without
    having reached the disk, and reading it back reports success with the old content. *)
Lemma bcache_eviction_drops_dirty_data :
  let '(rcs, st) := write_each (bcache_init (mkRoDisk ram0)) 65 0 in
  let '(rc, out, _) := bcache_read st 0 1 in
  Forall (fun rc => rc = 1) rcs /\ rc = 1 /\ out = zeros SECTOR /\ out <> pat 65.
Proof. vm_compute. repeat (split; [repeat constructor|]). done. Qed.
