(* ===== verification/VernisFs.v ===== *)
(** VernisFS (kernel/fs/vernisfs.c, include/vernisfs.h): a flat table of 32
    files with contiguous extents behind a superblock, over any sector
    device.  The state is the record [Vfs]; a pointer to a table entry is its
    index.  Every operation of the public interface is modelled with its
    early returns; the messages on the serial port are left out.

    [vfs_wf] is the allocation invariant, [content] what a file holds. *)

From S2P Require Import Prelude CString BlockDev Bcache.

(** [include/vernisfs.h] constants *)
Definition VFS_START_SECTOR := 5120.
Definition VFS_SUPERBLOCK_SECTOR := 0.
Definition VFS_FILETABLE_SECTOR := 1.
Definition VFS_FILETABLE_SECTORS := 4.
Definition VFS_DATA_SECTOR := 5.
Definition VFS_MAX_FILES := 32.
Definition VFS_MAX_FILENAME := 32.
Definition VFS_MAGIC := 0x53465600.
Definition VFS_TYPE_EMPTY := 0.
Definition VFS_TYPE_REGULAR := 1.
Definition VFS_TYPE_DIRECTORY := 2.
Definition VFS_MODE_DEFAULT_FILE := 420.
Definition VFS_MODE_DEFAULT_DIR := 493.
#[export] Hint Unfold VFS_START_SECTOR VFS_SUPERBLOCK_SECTOR VFS_FILETABLE_SECTOR
  VFS_FILETABLE_SECTORS VFS_DATA_SECTOR VFS_MAX_FILES VFS_MAX_FILENAME VFS_MAGIC
  VFS_TYPE_EMPTY VFS_TYPE_REGULAR VFS_TYPE_DIRECTORY VFS_MODE_DEFAULT_FILE
  VFS_MODE_DEFAULT_DIR SECTOR : consts.

(** [include/vernisfs.h] VfsSuperblock *)
Record VfsSuperblock := mkVfsSuperblock {
  magic : Z; version : Z; file_count : Z; total_data_sectors : Z;
  first_free_sector : Z; sb_reserved : bytes }.
(** [include/vernisfs.h] VfsFileEntry *)
Record VfsFileEntry := mkVfsFileEntry {
  filename : bytes; start_sector : Z; size : Z; type : Z; eflags : Z;
  mode : Z; uid : Z; gid : Z; e_reserved : bytes }.
#[export] Instance eta_sb : Eta VfsSuperblock := fun r =>
  mkVfsSuperblock (magic r) (version r) (file_count r) (total_data_sectors r)
    (first_free_sector r) (sb_reserved r).
#[export] Instance eta_entry : Eta VfsFileEntry := fun r =>
  mkVfsFileEntry (filename r) (start_sector r) (size r) (type r) (eflags r) (mode r)
    (uid r) (gid r) (e_reserved r).

(** *** The packed structures on disk *)

Definition sb_encode (s : VfsSuperblock) : bytes :=
  le_enc 4 (magic s) ++ le_enc 2 (version s) ++ le_enc 2 (file_count s) ++
  le_enc 4 (total_data_sectors s) ++ le_enc 4 (first_free_sector s) ++ sb_reserved s.
Definition sb_decode (b : bytes) : VfsSuperblock :=
  mkVfsSuperblock (get_le b 0 4) (get_le b 4 2) (get_le b 6 2) (get_le b 8 4) (get_le b 12 4)
    (get_bytes b 16 16).
Definition entry_encode (e : VfsFileEntry) : bytes :=
  filename e ++ le_enc 4 (start_sector e) ++ le_enc 4 (size e) ++ le_enc 1 (type e) ++
  le_enc 1 (eflags e) ++ le_enc 2 (mode e) ++ le_enc 2 (uid e) ++ le_enc 2 (gid e) ++
  e_reserved e.
Definition entry_decode (b : bytes) : VfsFileEntry :=
  mkVfsFileEntry (get_bytes b 0 32) (get_le b 32 4) (get_le b 36 4) (get_le b 40 1)
    (get_le b 41 1) (get_le b 42 2) (get_le b 44 2) (get_le b 46 2) (get_bytes b 48 16).

Definition zero_entry : VfsFileEntry := mkVfsFileEntry (zeros 32) 0 0 0 0 0 0 0 (zeros 16).
Definition zero_sb : VfsSuperblock := mkVfsSuperblock 0 0 0 0 0 (zeros 16).
#[export] Instance inhabited_entry : Inhabited VfsFileEntry := populate zero_entry.

(** The static variables of vernisfs.c, the buffer [tmp] of vfs_append_file
    and the device behind g_disk_read / g_disk_write.
    [kernel/fs/vernisfs.c:138-140] g_superblock *)
Record Vfs (D : Type) := mkVfs {
  g_superblock : VfsSuperblock; g_filetable : list VfsFileEntry; g_vfs_ready : bool;
  append_tmp : bytes; disk : D }.
Arguments mkVfs {D}. Arguments g_superblock {D}. Arguments g_filetable {D}.
Arguments g_vfs_ready {D}. Arguments append_tmp {D}. Arguments disk {D}.
#[export] Instance eta_Vfs D : Eta (Vfs D) := fun r =>
  mkVfs (g_superblock r) (g_filetable r) (g_vfs_ready r) (append_tmp r) (disk r).

(** The test of every table scan. *)
Definition named (path : bytes) (e : VfsFileEntry) : bool :=
  negb (type e =? VFS_TYPE_EMPTY) && (vfs_strcmp (filename e) path =? 0).
Definition is_empty (e : VfsFileEntry) : bool := type e =? VFS_TYPE_EMPTY.

Section vernisfs.
Context {D : Type} `{BlockDev D}.
Implicit Types (st : Vfs D) (path data : bytes).

Definition entry st (i : nat) : VfsFileEntry := geti (g_filetable st) (Z.of_nat i).
Definition set_entry st (i : nat) (e : VfsFileEntry) : Vfs D :=
  st <| g_filetable := puti (g_filetable st) (Z.of_nat i) e |>.

(** [kernel/fs/vernisfs.c:194-198] vfs_init *)
Definition ft_decode (buf : bytes) : list VfsFileEntry :=
  (fun i : nat => entry_decode (get_bytes buf (i * 64) 64)) <$> seq 0 (Z.to_nat VFS_MAX_FILES).

(** [kernel/fs/vernisfs.c] vfs_init *)
Definition vfs_init st : bool * Vfs D :=
  let '(rc, sb_buf, d) := bd_read (disk st) (VFS_START_SECTOR + VFS_SUPERBLOCK_SECTOR) 1 in
  let st := st <| disk := d |> in
  if rc <? 0 then (false, st) else
  let sb := sb_decode (blit (zeros 512) 0 sb_buf) in
  if negb (magic sb =? VFS_MAGIC) then (false, st) else
  let st := st <| g_superblock := sb |> in
  let '(rc, ft_buf, d) := bd_read (disk st) (VFS_START_SECTOR + VFS_FILETABLE_SECTOR)
                            VFS_FILETABLE_SECTORS in
  let st := st <| disk := d |> in
  if rc <? 0 then (false, st) else
  (true, st <| g_filetable := ft_decode ft_buf |> <| g_vfs_ready := true |>).

(** [kernel/fs/vernisfs.c] vfs_find_file *)
Definition vfs_find_file st path : option nat :=
  if negb (g_vfs_ready st) then None else find_idx (named path) (g_filetable st).
(** [kernel/fs/vernisfs.c] vfs_find_file_mut *)
Definition vfs_find_file_mut st path : option nat :=
  if negb (g_vfs_ready st) then None else find_idx (named path) (g_filetable st).

(** [kernel/fs/vernisfs.c:242-249] vfs_read_file *)
Fixpoint read_loop (fuel : nat) (d : D) (abs_sector sectors read : Z) (out : bytes)
    : bool * bytes * D :=
  match fuel with
  | O => (true, out, d)
  | S fuel =>
      if negb (read <? sectors) then (true, out, d) else
      let chunk := if 128 <? sectors - read then 128 else u8 (sectors - read) in
      let '(rc, part, d) := bd_read d (u32 (abs_sector + read)) chunk in
      if rc <? 0 then (false, out ++ part, d)
      else read_loop fuel d abs_sector sectors (read + chunk) (out ++ part)
  end.

(** Code, the bytes stored from the start of [buf] on, state.  The number of
    bytes stored is a whole number of sectors, and may exceed [max_len].
    [kernel/fs/vernisfs.c] vfs_read_file *)
Definition vfs_read_file st path (max_len : Z) : Z * bytes * Vfs D :=
  match vfs_find_file st path with
  | None => (-1, [], st)
  | Some i =>
      let size := size (entry st i) in
      let size := if max_len <? size then u32 max_len else size in
      let sectors := u32 (size + 511) / 512 in
      let sectors := if 255 <? sectors then 255 else sectors in
      let abs_sector := u32 (VFS_START_SECTOR + VFS_DATA_SECTOR + start_sector (entry st i)) in
      let '(ok, out, d) := read_loop (Z.to_nat sectors) (disk st) abs_sector sectors 0 [] in
      let st := st <| disk := d |> in
      (if ok then i32 size else -1, out, st)
  end.

(** [kernel/fs/vernisfs.c:265-271] vfs_flush_metadata *)
Fixpoint ft_store (buf : bytes) (i : nat) (es : list VfsFileEntry) : bytes :=
  match es with
  | [] => buf
  | e :: es => ft_store (blit buf (i * 64) (entry_encode e)) (S i) es
  end.

(** [kernel/fs/vernisfs.c] vfs_flush_metadata *)
Definition vfs_flush_metadata st : Z * Vfs D :=
  let sb_buf := blit (zeros 512) 0 (sb_encode (g_superblock st)) in
  let '(rc, d) := bd_write (disk st) (VFS_START_SECTOR + VFS_SUPERBLOCK_SECTOR) 1 sb_buf in
  let st := st <| disk := d |> in
  if rc <? 0 then (-1, st) else
  let ft_buf := ft_store (zeros (Z.to_nat VFS_FILETABLE_SECTORS * 512)) 0 (g_filetable st) in
  let '(rc, d) := bd_write (disk st) (VFS_START_SECTOR + VFS_FILETABLE_SECTOR)
                    VFS_FILETABLE_SECTORS ft_buf in
  let st := st <| disk := d |> in
  if rc <? 0 then (-1, st) else (0, st).

(** [kernel/fs/vernisfs.c:325-329] vfs_write_file *)
Fixpoint write_full (n : nat) (s : Z) (d : D) (abs_sector : Z) data : bool * D :=
  match n with
  | O => (true, d)
  | S n =>
      let '(rc, d) := bd_write d (u32 (abs_sector + s)) 1 (chunk data s) in
      if rc <? 0 then (false, d) else write_full n (s + 1) d abs_sector data
  end.

(** The full sectors, then the last one padded with zeros.
    [kernel/fs/vernisfs.c:317-338] vfs_write_file *)
Definition write_data (d : D) (abs_sector : Z) data (len : Z) : bool * D :=
  let full_sectors := len / 512 in
  let remainder := len mod 512 in
  let '(ok, d) := write_full (Z.to_nat full_sectors) 0 d abs_sector data in
  if negb ok then (false, d) else
  if 0 <? remainder then
    let pad_buf := blit (zeros 512) 0
      (get_bytes data (Z.to_nat full_sectors * 512) (Z.to_nat remainder)) in
    let '(rc, d) := bd_write d (u32 (abs_sector + full_sectors)) 1 pad_buf in
    (negb (rc <? 0), d)
  else (true, d).

(** The slot of the file, a new entry if there is none.
    [kernel/fs/vernisfs.c:283-311] vfs_write_file *)
Definition write_slot st path : option nat * Vfs D :=
  match find_idx (named path) (g_filetable st) with
  | Some i => (Some i, st)
  | None =>
      match find_idx is_empty (g_filetable st) with
      | None => (None, st)
      | Some i =>
          let e := entry st i in
          (Some i, set_entry st i (mkVfsFileEntry
             (vfs_strncpy (filename e) path VFS_MAX_FILENAME)
             (first_free_sector (g_superblock st)) (size e) VFS_TYPE_REGULAR 0
             VFS_MODE_DEFAULT_FILE 0 0 (e_reserved e)))
      end
  end.

Definition count_files (ft : list VfsFileEntry) : Z :=
  Z.of_nat (length (filter (fun e => is_empty e = false) ft)).

(** The data, the entry and the metadata, once the slot is known.
    [kernel/fs/vernisfs.c:313-358] vfs_write_file *)
Definition write_at st (i : nat) data (len : Z) : Z * Vfs D :=
  let sectors := u32 (u32 len + 511) / 512 in
  if 255 <? sectors then (-1, st) else
  let abs_sector := u32 (VFS_START_SECTOR + VFS_DATA_SECTOR + start_sector (entry st i)) in
  let '(ok, d) := write_data (disk st) abs_sector data (u32 len) in
  let st := st <| disk := d |> in
  if negb ok then (-1, st) else
  let st := set_entry st i (entry st i <| size := u32 len |>) in
  let end_sector := u32 (start_sector (entry st i) + sectors) in
  let st :=
    if first_free_sector (g_superblock st) <? end_sector
    then st <| g_superblock := g_superblock st <| first_free_sector := end_sector |> |>
    else st in
  let count := u16 (count_files (g_filetable st)) in
  let st := st <| g_superblock := g_superblock st <| file_count := count |> |> in
  let '(rc, st) := vfs_flush_metadata st in
  (if rc =? 0 then i32 len else -1, st).

(** [kernel/fs/vernisfs.c] vfs_write_file *)
Definition vfs_write_file st path data (len : Z) : Z * Vfs D :=
  if negb (g_vfs_ready st) then (-1, st) else
  let '(slot, st) := write_slot st path in
  match slot with
  | None => (-1, st)
  | Some i => write_at st i data len
  end.

(** [kernel/fs/vernisfs.c] vfs_file_count *)
Definition vfs_file_count st : Z :=
  if g_vfs_ready st then file_count (g_superblock st) else 0.

(** [kernel/fs/vernisfs.c:370-372] vfs_is_child_of *)
Fixpoint last_slash_loop (child : bytes) (i last : Z) : Z :=
  match child with
  | [] => last
  | c :: child =>
      if c =? 0 then last else last_slash_loop child (i + 1) (if c =? 47 then i else last)
  end.
(** [kernel/fs/vernisfs.c:380-382] vfs_is_child_of *)
Fixpoint prefix_loop (n : nat) (i : Z) (child parent : bytes) : bool :=
  match n with
  | O => true
  | S n => if negb (char_at child i =? char_at parent i) || (char_at parent i =? 0) then false
           else prefix_loop n (i + 1) child parent
  end.
(** [kernel/fs/vernisfs.c] vfs_is_child_of *)
Definition vfs_is_child_of (child parent : bytes) : bool :=
  let last_slash := last_slash_loop child 0 0 in
  if last_slash =? 0 then (char_at parent 0 =? 47) && (char_at parent 1 =? 0)
  else if negb (prefix_loop (Z.to_nat last_slash) 0 child parent) then false
  else char_at parent last_slash =? 0.

(** [kernel/fs/vernisfs.c:389-398] vfs_list_dir *)
Fixpoint list_dir_loop (ft : list VfsFileEntry) (dir_path : bytes) (count max : Z)
    : Z * list bytes :=
  match ft with
  | [] => (count, [])
  | e :: ft =>
      if negb (count <? max) then (count, [])
      else if is_empty e || (vfs_strcmp (filename e) dir_path =? 0)
      then list_dir_loop ft dir_path count max
      else if vfs_is_child_of (filename e) dir_path then
        let '(n, out) := list_dir_loop ft dir_path (count + 1) max in
        (n, vfs_strncpy (zeros 32) (filename e) VFS_MAX_FILENAME :: out)
      else list_dir_loop ft dir_path count max
  end.
(** [kernel/fs/vernisfs.c] vfs_list_dir *)
Definition vfs_list_dir st (dir_path : bytes) (max : Z) : Z * list bytes :=
  if negb (g_vfs_ready st) then (-1, []) else list_dir_loop (g_filetable st) dir_path 0 max.

(** [kernel/fs/vernisfs.c] vfs_delete_file *)
Definition vfs_delete_file st path : Z * Vfs D :=
  if negb (g_vfs_ready st) then (-1, st) else
  match find_idx (named path) (g_filetable st) with
  | None => (-1, st)
  | Some i =>
      let st := set_entry st i zero_entry in
      let sb := g_superblock st in
      let st := st <| g_superblock :=
        if 0 <? file_count sb then sb <| file_count := file_count sb - 1 |> else sb |> in
      let '(rc, st) := vfs_flush_metadata st in (if rc =? 0 then 0 else -1, st)
  end.

(** [kernel/fs/vernisfs.c] vfs_mkdir *)
Definition vfs_mkdir st path : Z * Vfs D :=
  if negb (g_vfs_ready st) then (-1, st) else
  match vfs_find_file st path, find_idx is_empty (g_filetable st) with
  | Some _, _ | None, None => (-1, st)
  | None, Some i =>
      let e := entry st i in
      let st := set_entry st i (mkVfsFileEntry (vfs_strncpy (filename e) path VFS_MAX_FILENAME)
        (start_sector e) 0 VFS_TYPE_DIRECTORY 0 VFS_MODE_DEFAULT_DIR 0 0 (e_reserved e)) in
      let sb := g_superblock st in
      let st := st <| g_superblock := sb <| file_count := u16 (file_count sb + 1) |> |> in
      let '(rc, st) := vfs_flush_metadata st in (if rc =? 0 then 0 else -1, st)
  end.

(** The number of bytes vfs_append_file copies behind the old content.
    [kernel/fs/vernisfs.c:439-451] vfs_append_file *)
Definition append_total (existing len : Z) : Z :=
  let total := u32 (existing + u32 len) in if 4096 <? total then 4096 else total.
Definition append_copy (existing len : Z) : Z := u32 (append_total existing len - existing).

(** [kernel/fs/vernisfs.c] vfs_append_file *)
Definition vfs_append_file st path data (len : Z) : Z * Vfs D :=
  match vfs_find_file st path with
  | None => vfs_write_file st path data len
  | Some i =>
      let existing := size (entry st i) in
      let total := append_total existing len in
      let '(r, out, st) := vfs_read_file st path existing in
      let st := st <| append_tmp := blit (append_tmp st) 0 out |> in
      if r <? 0 then (-1, st) else
      let copy := append_copy existing len in
      let st := st <| append_tmp :=
        blit (append_tmp st) (Z.to_nat existing) (read_n data (Z.to_nat copy)) |> in
      vfs_write_file st path (append_tmp st) total
  end.

(** [kernel/fs/vernisfs.c] vfs_chmod *)
Definition vfs_chmod st path (mode' : Z) : Z * Vfs D :=
  match vfs_find_file_mut st path with
  | None => (-1, st)
  | Some i =>
      let st := set_entry st i (entry st i <| mode := Z.land mode' 511 |>) in
      vfs_flush_metadata st
  end.

(** [kernel/fs/vernisfs.c] vfs_chown *)
Definition vfs_chown st path (uid' gid' : Z) : Z * Vfs D :=
  match vfs_find_file_mut st path with
  | None => (-1, st)
  | Some i =>
      let st := set_entry st i (entry st i <| uid := uid' |> <| gid := gid' |>) in
      vfs_flush_metadata st
  end.
End vernisfs.

(** ** Round trips of the packed structures *)

Definition sb_wf (s : VfsSuperblock) : Prop :=
  is_u32 (magic s) /\ is_u16 (version s) /\ is_u16 (file_count s) /\
  is_u32 (total_data_sectors s) /\ is_u32 (first_free_sector s) /\ length (sb_reserved s) = 16%nat.
Definition entry_wf (e : VfsFileEntry) : Prop :=
  length (filename e) = 32%nat /\ bytes_ok (filename e) /\ is_u32 (start_sector e) /\
  is_u32 (size e) /\ is_u8 (type e) /\ is_u8 (eflags e) /\ is_u16 (mode e) /\ is_u16 (uid e) /\
  is_u16 (gid e) /\ length (e_reserved e) = 16%nat.

Lemma sb_decode_encode s rest : sb_wf s -> sb_decode (sb_encode s ++ rest) = s.
Proof.
  intros (H1 & H2 & H3 & H4 & H5 & H6). unfold sb_decode, sb_encode. rewrite <- !app_assoc.
  destruct s; cbn [magic version file_count total_data_sectors first_free_sector sb_reserved] in *.
  f_equal; fields; done.
Qed.

Lemma entry_decode_encode e : entry_wf e -> entry_decode (entry_encode e) = e.
Proof.
  intros (H1 & H2 & H3 & H4 & H5 & H6 & H7 & H8 & H9 & H10).
  unfold entry_decode, entry_encode.
  rewrite <- (app_nil_r (e_reserved e)).
  destruct e; cbn [filename start_sector size type eflags mode uid gid e_reserved] in *.
  f_equal; fields; done.
Qed.

Lemma length_entry_encode e : entry_wf e -> length (entry_encode e) = 64%nat.
Proof. intros (H1 & _ & _ & _ & _ & _ & _ & _ & _ & H2). unfold entry_encode. len. Qed.
Lemma length_sb_encode s : sb_wf s -> length (sb_encode s) = 32%nat.
Proof. intros (_ & _ & _ & _ & _ & H1). unfold sb_encode. len. Qed.

Lemma ft_store_eq es : forall buf i,
  Forall entry_wf es -> ((i + length es) * 64 <= length buf)%nat ->
  ft_store buf i es = blit buf (i * 64) (concat (entry_encode <$> es)).
Proof.
  induction es as [|e es IH]; intros buf i Hw Hl; simpl.
  - unfold blit. simpl. by rewrite Nat.add_0_r, take_drop.
  - inversion_clear Hw as [|? ? He Hes]. pose proof (length_entry_encode e He) as Hle.
    simpl in Hl. rewrite IH by (rewrite ?length_blit; try done; lia).
    replace (S i * 64)%nat with (i * 64 + length (entry_encode e))%nat by lia.
    apply blit_blit_adj. lia.
Qed.

Lemma get_bytes_concat (l : list bytes) i x k :
  Forall (fun b => length b = k) l -> l !! i = Some x -> get_bytes (concat l) (i * k) k = x.
Proof.
  intros Hl; revert i; induction Hl as [|b l Hb Hl IH]; intros i Hi; [done|].
  destruct i as [|i]; simpl in *.
  - injection Hi as ->. by apply get_bytes_prefix.
  - rewrite get_bytes_app_r by lia. replace (k + i * k - length b)%nat with (i * k)%nat by lia.
    by apply IH.
Qed.

Lemma length_concat_k (l : list bytes) k :
  Forall (fun b => length b = k) l -> length (concat l) = (length l * k)%nat.
Proof. induction 1 as [|b l Hb _ IH]; simpl; [done|]. rewrite length_app. lia. Qed.

Lemma entries_encode_64 es :
  Forall entry_wf es -> Forall (fun b => length b = 64%nat) (entry_encode <$> es).
Proof. intros Hw. apply Forall_fmap. by eapply Forall_impl, length_entry_encode. Qed.

Lemma ft_decode_encode es :
  Forall entry_wf es -> length es = 32%nat -> ft_decode (concat (entry_encode <$> es)) = es.
Proof.
  intros Hw Hl. unfold ft_decode. change (Z.to_nat VFS_MAX_FILES) with 32%nat.
  apply list_eq_same_length with 32%nat; [done|by len|]. intros i x y Hi.
  rewrite list_lookup_fmap, lookup_seq_lt by done. simpl. intros [= <-] Hy.
  rewrite (get_bytes_concat _ i (entry_encode y)).
  - apply entry_decode_encode. by eapply Forall_lookup_1 in Hw.
  - by apply entries_encode_64.
  - by rewrite list_lookup_fmap, Hy.
Qed.

(** ** The invariant *)

Definition DATA_START : Z := 5125.
(** The number of data sectors of [n] bytes. *)
Definition nsec (n : Z) : Z := (n + 511) / 512.
Definition end_of (e : VfsFileEntry) : Z := start_sector e + nsec (size e).

Section proofs.
Context {D : Type} `{BlockDevLaws D}.
Implicit Types (st : Vfs D) (path data : bytes).

Record vfs_wf st : Prop := mk_vfs_wf {
  wf_ready : g_vfs_ready st = true;
  wf_dev : bd_ok (disk st);
  wf_sb : sb_wf (g_superblock st);
  wf_magic : magic (g_superblock st) = VFS_MAGIC;
  wf_len : length (g_filetable st) = 32%nat;
  wf_entries : Forall entry_wf (g_filetable st);
  wf_names : forall i j, (i < 32)%nat -> (j < 32)%nat ->
    is_empty (entry st i) = false -> is_empty (entry st j) = false ->
    cstr (filename (entry st i)) = cstr (filename (entry st j)) -> i = j;
  wf_alloc : forall i, (i < 32)%nat ->
    end_of (entry st i) <= first_free_sector (g_superblock st) /\
    (is_empty (entry st i) = true -> size (entry st i) = 0);
  wf_fits : DATA_START + first_free_sector (g_superblock st) <= 2 ^ 32 }.

(** The metadata on disk is the metadata in memory. *)
Definition persisted st : Prop :=
  bd_view (disk st) 5120 = blit (zeros 512) 0 (sb_encode (g_superblock st)) /\
  sectors (bd_view (disk st)) 5121 4 = concat (entry_encode <$> g_filetable st).

(** What file [i] holds. *)
Definition content st (i : nat) : bytes :=
  take (Z.to_nat (size (entry st i)))
    (sectors (bd_view (disk st)) (DATA_START + start_sector (entry st i))
       (Z.to_nat (nsec (size (entry st i))))).

Lemma nsec_bounds n : 0 <= n -> 0 <= nsec n /\ n <= nsec n * 512 < n + 512.
Proof.
  intros Hn. unfold nsec. pose proof (Z.div_mod (n + 511) 512). pose proof (Z.mod_pos_bound (n + 511) 512).
  pose proof (Z.div_pos (n + 511) 512). lia.
Qed.

Lemma entry_lookup st i : length (g_filetable st) = 32%nat -> (i < 32)%nat ->
  g_filetable st !! i = Some (entry st i).
Proof.
  intros Hl Hi. unfold entry. rewrite <- (Nat2Z.id i) at 1. apply geti_lookup. lia.
Qed.

Lemma wf_entry st i : vfs_wf st -> (i < 32)%nat -> entry_wf (entry st i).
Proof.
  intros Hwf Hi. eapply Forall_lookup_1; [apply (wf_entries st Hwf)|].
  apply entry_lookup; [apply Hwf|done].
Qed.

Lemma entry_set_entry st i j e : length (g_filetable st) = 32%nat -> (i < 32)%nat ->
  entry (set_entry st i e) j = if decide (j = i) then e else entry st j.
Proof.
  intros Hl Hi. unfold entry, set_entry. simpl. case_decide as E.
  - subst. apply geti_puti_eq. lia.
  - apply geti_puti_ne; lia.
Qed.

(** *** The scans *)

Lemma named_spec path e :
  bytes_ok path -> entry_wf e ->
  named path e = true <-> is_empty e = false /\ cstr (filename e) = cstr path.
Proof.
  intros Hp He. unfold named. rewrite andb_true_iff, negb_true_iff, Z.eqb_eq.
  unfold vfs_strcmp. rewrite strcmp_loop_eq; [done|apply He|done].
Qed.

Lemma find_named_Some st path i :
  vfs_wf st -> bytes_ok path ->
  find_idx (named path) (g_filetable st) = Some i <->
  (i < 32)%nat /\ is_empty (entry st i) = false /\ cstr (filename (entry st i)) = cstr path.
Proof.
  intros Hwf Hp. split.
  - intros Hf. pose proof (find_idx_lt _ _ _ Hf) as Hi. rewrite (wf_len st Hwf) in Hi.
    apply find_idx_Some in Hf as [[e [He Hn]] _].
    rewrite entry_lookup in He by (apply Hwf || done). injection He as <-.
    apply named_spec in Hn; [done|done|by apply wf_entry].
  - intros (Hi & He & Hc).
    apply find_idx_unique with (entry st i); [by apply entry_lookup, Hi; apply Hwf| |].
    + apply named_spec; [done|by apply wf_entry|done].
    + intros j e Hj Hn. pose proof (lookup_lt_Some _ _ _ Hj) as Hjl. rewrite (wf_len st Hwf) in Hjl.
      rewrite entry_lookup in Hj by (apply Hwf || done). injection Hj as <-.
      apply named_spec in Hn as [Hj1 Hj2]; [|done|by apply wf_entry].
      apply (wf_names st Hwf); congruence.
Qed.

Lemma find_named_None st path :
  vfs_wf st -> bytes_ok path ->
  find_idx (named path) (g_filetable st) = None ->
  forall i, (i < 32)%nat -> is_empty (entry st i) = false ->
    cstr (filename (entry st i)) <> cstr path.
Proof.
  intros Hwf Hp Hn i Hi He Hc.
  assert (find_idx (named path) (g_filetable st) = Some i) by (by apply find_named_Some).
  congruence.
Qed.

Lemma find_empty_Some st i :
  length (g_filetable st) = 32%nat -> find_idx is_empty (g_filetable st) = Some i ->
  (i < 32)%nat /\ is_empty (entry st i) = true.
Proof.
  intros Hl Hf. pose proof (find_idx_lt _ _ _ Hf) as Hi. rewrite Hl in Hi. split; [done|].
  apply find_idx_Some in Hf as [[e [He Hn]] _]. rewrite entry_lookup in He by done.
  by injection He as <-.
Qed.

(** *** Metadata *)

Lemma length_ft es : Forall entry_wf es -> length es = 32%nat ->
  length (concat (entry_encode <$> es)) = 2048%nat.
Proof.
  intros Hw Hl. rewrite (length_concat_k _ 64) by (by apply entries_encode_64).
  by rewrite length_fmap, Hl.
Qed.

Lemma ft_store_all es : Forall entry_wf es -> length es = 32%nat ->
  ft_store (zeros 2048) 0 es = concat (entry_encode <$> es).
Proof.
  intros Hw Hl. rewrite ft_store_eq by (try done; len).
  pose proof (length_ft es Hw Hl) as Hc. unfold blit. simpl.
  rewrite drop_ge by (len). by rewrite app_nil_r.
Qed.

Lemma flush_spec st :
  bd_ok (disk st) -> sb_wf (g_superblock st) -> Forall entry_wf (g_filetable st) ->
  length (g_filetable st) = 32%nat ->
  exists d, vfs_flush_metadata st = (0, st <| disk := d |>) /\ bd_ok d /\
    persisted (st <| disk := d |>) /\
    forall s, DATA_START <= s -> bd_view d s = bd_view (disk st) s.
Proof.
  intros Hd Hsb Hft Hl. unfold vfs_flush_metadata.
  change (VFS_START_SECTOR + VFS_SUPERBLOCK_SECTOR) with 5120.
  change (VFS_START_SECTOR + VFS_FILETABLE_SECTOR) with 5121.
  change VFS_FILETABLE_SECTORS with 4. change (Z.to_nat 4 * 512)%nat with 2048%nat.
  set (sb := blit _ _ _).
  assert (Hlsb : length sb = 512%nat).
  { unfold sb. rewrite length_blit; [by len|]. rewrite length_sb_encode by done. len. }
  destruct (bd_write_ok (disk st) 5120 1 sb Hd) as (rc & d1 & -> & Hrc & Hd1 & V1);
    [unfold in_range; lia|by rewrite Hlsb|].
  cbn beta iota zeta. destruct (Z.ltb_spec rc 0) as [?|_]; [lia|].
  change (g_filetable (st <| disk := d1 |>)) with (g_filetable st).
  rewrite ft_store_all by done. change (disk (st <| disk := d1 |>)) with d1.
  destruct (bd_write_ok d1 5121 4 (concat (entry_encode <$> g_filetable st)) Hd1)
    as (rc2 & d2 & -> & Hrc2 & Hd2 & V2); [unfold in_range; lia|by rewrite length_ft|].
  destruct (Z.ltb_spec rc2 0) as [?|_]; [lia|]. exists d2.
  split; [done|]. split; [done|]. split; [split|].
  - simpl. rewrite V2. unfold write_view at 1. simpl. rewrite V1. unfold write_view. simpl.
    unfold chunk. rewrite drop_0. rewrite take_ge; [done|by rewrite Hlsb].
  - simpl. rewrite (sectors_ext _ _ _ _ (fun s _ => V2 s)).
    apply (sectors_write_view _ 5121 4). by rewrite length_ft.
  - intros s Hs. unfold DATA_START in Hs. rewrite V2. unfold write_view. case_step; [lia|].
    rewrite V1. unfold write_view. case_step; [lia|done].
Qed.

(** vfs_init on a disk that holds the metadata of [st] restores them. *)
Lemma init_spec st st0 :
  vfs_wf st -> persisted st -> disk st0 = disk st ->
  exists d, vfs_init st0 = (true, st <| disk := d |> <| append_tmp := append_tmp st0 |>) /\
    bd_ok d /\ forall s, bd_view d s = bd_view (disk st) s.
Proof.
  intros Hwf [Psb Pft] Hd0. unfold vfs_init.
  change (VFS_START_SECTOR + VFS_SUPERBLOCK_SECTOR) with 5120.
  change (VFS_START_SECTOR + VFS_FILETABLE_SECTOR) with 5121.
  change VFS_FILETABLE_SECTORS with 4. rewrite Hd0.
  destruct (bd_read_ok (disk st) 5120 1) as (rc & d1 & -> & Hrc & Hd1 & V1);
    [apply Hwf|unfold in_range; lia|].
  cbn beta iota zeta. destruct (Z.ltb_spec rc 0) as [?|_]; [lia|].
  change (Z.to_nat 1) with 1%nat. rewrite sectors_1, Psb.
  assert (Hl : length (blit (zeros 512) 0 (sb_encode (g_superblock st))) = 512%nat).
  { rewrite length_blit; [by len|]. rewrite length_sb_encode by apply Hwf. len. }
  assert (Hb : blit (zeros 512) 0 (blit (zeros 512) 0 (sb_encode (g_superblock st))) =
               sb_encode (g_superblock st) ++ drop 32 (zeros 512)).
  { rewrite blit_full by (rewrite Hl; by len). by rewrite blit_0, length_sb_encode by apply Hwf. }
  rewrite Hb, sb_decode_encode by apply Hwf. rewrite (wf_magic st Hwf), Z.eqb_refl. cbn [negb].
  cbn [disk upd_with].
  destruct (bd_read_ok d1 5121 4) as (rc2 & d2 & -> & Hrc2 & Hd2 & V2);
    [done|unfold in_range; lia|].
  destruct (Z.ltb_spec rc2 0) as [?|_]; [lia|]. change (Z.to_nat 4) with 4%nat.
  rewrite (sectors_ext _ _ _ _ (fun s _ => V1 s)), Pft, ft_decode_encode by apply Hwf.
  exists d2. split; [|split; [done|intros s; by rewrite V2, V1]].
  unfold upd_with. simpl. by rewrite (wf_ready st Hwf).
Qed.

(** *** Reading *)

Lemma read_loop_spec fuel : forall d base n r out,
  bd_ok d -> 0 <= base -> base + n <= 2 ^ 32 -> 0 <= r <= n -> (Z.to_nat (n - r) <= fuel)%nat ->
  exists d', read_loop fuel d base n r out =
    (true, out ++ sectors (bd_view d) (base + r) (Z.to_nat (n - r)), d') /\
    bd_ok d' /\ forall s, bd_view d' s = bd_view d s.
Proof.
  induction fuel as [|fuel IH]; intros d base n r out Hd Hb Hn Hr Hf.
  { exists d. replace (n - r) with 0 by lia. cbn [read_loop]. rewrite sectors_0, app_nil_r. done. }
  cbn [read_loop]. destruct (Z.ltb_spec r n) as [Hlt|Hge]; cbn [negb].
  2:{ exists d. replace (n - r) with 0 by lia. rewrite sectors_0, app_nil_r. done. }
  set (c := if 128 <? n - r then 128 else u8 (n - r)).
  assert (Hc : 0 < c <= n - r /\ c < 256).
  { unfold c. destruct (Z.ltb_spec 128 (n - r)); [lia|]. rewrite u8_id by ulia. lia. }
  rewrite u32_id by ulia.
  destruct (bd_read_ok d (base + r) c Hd) as (rc & d1 & -> & Hrc & Hd1 & V1);
    [unfold in_range; lia|].
  destruct (Z.ltb_spec rc 0) as [?|_]; [lia|].
  destruct (IH d1 base n (r + c) (out ++ sectors (bd_view d) (base + r) (Z.to_nat c)) Hd1)
    as (d2 & -> & Hd2 & V2); [lia..|].
  exists d2. split; [|split; [done|intros; by rewrite V2]].
  rewrite <- app_assoc, (sectors_ext (bd_view d1) (bd_view d)) by done.
  replace (Z.to_nat (n - r)) with (Z.to_nat c + Z.to_nat (n - (r + c)))%nat by lia.
  rewrite sectors_app. by replace (base + (r + c)) with (base + r + Z.of_nat (Z.to_nat c)) by lia.
Qed.

(** Reading a file that fits the caller's buffer returns its size and content;
    the buffer receives whole sectors. *)
Lemma read_spec st path i max_len :
  vfs_wf st -> bytes_ok path -> vfs_find_file st path = Some i ->
  nsec (size (entry st i)) <= 255 -> size (entry st i) <= max_len ->
  exists out d, vfs_read_file st path max_len = (size (entry st i), out, st <| disk := d |>) /\
    take (Z.to_nat (size (entry st i))) out = content st i /\
    length out = (Z.to_nat (nsec (size (entry st i))) * SECTOR)%nat /\
    bd_ok d /\ forall s, bd_view d s = bd_view (disk st) s.
Proof.
  intros Hwf Hp Hf Hs Hmax. unfold vfs_read_file. rewrite Hf.
  unfold vfs_find_file in Hf. rewrite (wf_ready st Hwf) in Hf. cbn [negb] in Hf.
  apply find_named_Some in Hf as (Hi & He & Hc); [|done|done].
  pose proof (wf_entry st i Hwf Hi) as (_ & _ & Hstart & Hsize & _).
  destruct (wf_alloc st Hwf i Hi) as [Hend _]. pose proof (wf_fits st Hwf) as Hfit.
  unfold end_of in Hend. set (n := size (entry st i)) in *.
  destruct (nsec_bounds n) as [Hn0 Hn1]; [ulia|].
  rewrite (proj2 (Z.ltb_ge max_len n)) by lia.
  rewrite (u32_id (n + 511)) by ulia. change ((n + 511) / 512) with (nsec n).
  rewrite (proj2 (Z.ltb_ge 255 (nsec n))) by lia.
  change (VFS_START_SECTOR + VFS_DATA_SECTOR) with DATA_START.
  unfold DATA_START in *.
  assert (Hu : u32 (5125 + start_sector (entry st i)) = 5125 + start_sector (entry st i)
    \/ nsec n = 0).
  { destruct (Z.eq_dec (nsec n) 0); [by right|left]. apply u32_id. ulia. }
  destruct Hu as [Hu|Hz].
  - rewrite Hu.
    destruct (read_loop_spec (Z.to_nat (nsec n)) (disk st) (5125 + start_sector (entry st i))
      (nsec n) 0 []) as (d & -> & Hd & V); [apply Hwf|ulia..|].
    rewrite Z.add_0_r, Z.sub_0_r. simpl app. rewrite i32_id by lia.
    eexists _, d. split; [done|]. split; [done|]. split; [|done].
    apply length_sectors. intros. by apply bd_view_length, Hwf.
  - assert (Hn : n = 0) by ulia. rewrite Hz, Hn. simpl. exists [], (disk st).
    split; [done|]. unfold content. fold n. rewrite Hn.
    split; [done|]. split; [done|]. split; [apply Hwf|done].
Qed.

(** *** Writing *)

Lemma write_full_spec n : forall s d base data,
  bd_ok d -> 0 <= base -> 0 <= s -> base + s + Z.of_nat n <= 2 ^ 32 ->
  ((Z.to_nat s + n) * SECTOR <= length data)%nat ->
  exists d', write_full n s d base data = (true, d') /\ bd_ok d' /\
    forall x, bd_view d' x =
      if (base + s <=? x) && (x <? base + s + Z.of_nat n) then chunk data (x - base)
      else bd_view d x.
Proof.
  induction n as [|n IH]; intros s d base data Hd Hb Hs Hn Hl.
  { exists d. split; [done|]. split; [done|]. intros x. case_step; [lia|done]. }
  cbn [write_full]. rewrite u32_id by ulia.
  assert (Hc : length (chunk data s) = SECTOR).
  { unfold chunk. rewrite length_take, length_drop. unfold SECTOR in *. lia. }
  destruct (bd_write_ok d (base + s) 1 (chunk data s) Hd) as (rc & d1 & -> & Hrc & Hd1 & V1);
    [unfold in_range; lia|by rewrite Hc|].
  destruct (Z.ltb_spec rc 0) as [?|_]; [lia|].
  destruct (IH (s + 1) d1 base data Hd1) as (d2 & -> & Hd2 & V2); [unfold SECTOR in *; lia..|].
  exists d2. split; [done|]. split; [done|]. intros x. rewrite V2, V1. unfold write_view.
  destruct (Z.eq_dec x (base + s)) as [->|Hne].
  - replace ((base + (s + 1) <=? base + s) && _) with false by lia.
    replace ((base + s <=? base + s) && (base + s <? base + s + Z.of_nat (S n))) with true by lia.
    replace ((base + s <=? base + s) && _) with true by lia.
    rewrite Z.sub_diag, chunk_0, take_ge by (by rewrite Hc).
    by replace (base + s - base) with s by lia.
  - replace ((base + (s + 1) <=? x) && (x <? base + (s + 1) + Z.of_nat n))
      with ((base + s <=? x) && (x <? base + s + Z.of_nat (S n))) by lia.
    by replace ((base + s <=? x) && (x <? base + s + Z.of_nat (Z.to_nat 1))) with false by lia.
Qed.

(** The data as it lies on the disk: padded to whole sectors. *)
Definition padded data : bytes :=
  data ++ zeros (Z.to_nat (nsec (Z.of_nat (length data)) * 512 - Z.of_nat (length data))).

Lemma length_padded data :
  length (padded data) = (Z.to_nat (nsec (Z.of_nat (length data))) * SECTOR)%nat.
Proof.
  pose proof (nsec_bounds (Z.of_nat (length data))). unfold padded. len. unfold SECTOR. lia.
Qed.

Lemma chunk_padded data i : 0 <= i < Z.of_nat (length data) / 512 ->
  chunk (padded data) i = chunk data i.
Proof.
  intros Hi. unfold chunk, padded. pose proof (Z.mul_div_le (Z.of_nat (length data)) 512).
  rewrite drop_app_le by (unfold SECTOR; lia).
  apply take_app_le. rewrite length_drop. unfold SECTOR. lia.
Qed.

Lemma write_data_spec d base data :
  bd_ok d -> 0 <= base -> base + nsec (Z.of_nat (length data)) <= 2 ^ 32 ->
  exists d', write_data d base data (Z.of_nat (length data)) = (true, d') /\ bd_ok d' /\
    forall x, bd_view d' x =
      write_view (bd_view d) base (Z.to_nat (nsec (Z.of_nat (length data)))) (padded data) x.
Proof.
  intros Hd Hb Hn. unfold write_data. set (n := Z.of_nat (length data)) in *.
  pose proof (Z.div_mod n 512) as Hdm. pose proof (Z.mod_pos_bound n 512) as Hm.
  assert (Hns1 : 0 < n mod 512 -> nsec n = n / 512 + 1).
  { intros. symmetry. apply (Z.div_unique_pos _ _ _ (n mod 512 - 1)); lia. }
  assert (Hns0 : n mod 512 <= 0 -> nsec n = n / 512).
  { intros. symmetry. apply (Z.div_unique_pos _ _ _ 511); lia. }
  assert (Hq : 0 <= n / 512) by (apply Z.div_pos; lia).
  destruct (write_full_spec (Z.to_nat (n / 512)) 0 d base data Hd) as (d1 & -> & Hd1 & V1);
    [lia|lia| |unfold SECTOR; lia|].
  { destruct (Z.ltb_spec 0 (n mod 512)); lia. }
  cbn [negb]. destruct (Z.ltb_spec 0 (n mod 512)) as [Hrem|Hrem].
  - rewrite u32_id by ulia.
    set (pad := blit _ _ _).
    assert (Hpad : pad = chunk (padded data) (n / 512)).
    { unfold pad, chunk, padded, get_bytes. fold n. rewrite blit_0.
      assert (Hl : length (drop (Z.to_nat (n / 512) * 512) data) = Z.to_nat (n mod 512)) by len.
      rewrite (take_ge (drop _ data)) by lia. rewrite drop_app_le by (unfold SECTOR; lia).
      change SECTOR with 512%nat. rewrite take_app_ge by lia. rewrite Hl. f_equal.
      unfold zeros. rewrite drop_replicate, take_replicate. f_equal. lia. }
    assert (Hlp : length pad = SECTOR).
    { rewrite Hpad. apply (length_chunk _ _ (Z.to_nat (nsec n))); [apply length_padded|]. lia. }
    destruct (bd_write_ok d1 (base + n / 512) 1 pad Hd1) as (rc & d2 & -> & Hrc & Hd2 & V2);
      [unfold in_range; lia|by rewrite Hlp|].
    exists d2. rewrite (proj2 (Z.ltb_ge rc 0)) by lia. split; [done|]. split; [done|].
    intros x. rewrite V2. unfold write_view. rewrite V1.
    destruct (Z.eq_dec x (base + n / 512)) as [->|Hne].
    + rewrite Z.leb_refl. replace (_ && (base + n / 512 <? base + n / 512 + Z.of_nat 1))
        with true by lia. replace (_ && _) with true by lia.
      rewrite Z.sub_diag, chunk_0, take_ge by (by rewrite Hlp).
      by replace (base + n / 512 - base) with (n / 512) by lia.
    + replace ((base + n / 512 <=? x) && _) with false by lia.
      replace ((base <=? x) && (x <? base + Z.of_nat (Z.to_nat (nsec n)))) with
        ((base + 0 <=? x) && (x <? base + 0 + Z.of_nat (Z.to_nat (n / 512)))) by lia.
      case_step; [|done]. symmetry. apply chunk_padded. fold n. lia.
  - exists d1. split; [done|]. split; [done|]. intros x. rewrite V1. unfold write_view.
    rewrite Hns0, !Z.add_0_r by done. case_step; [|done]. symmetry. apply chunk_padded. fold n. lia.
Qed.

(** A path that a table entry can hold. *)
Definition path_ok path : Prop := bytes_ok path /\ (length (cstr path) < 32)%nat.
(** There is a slot for the file: its own, or an empty one. *)
Definition has_slot st path : Prop :=
  is_Some (find_idx (named path) (g_filetable st)) \/ is_Some (find_idx is_empty (g_filetable st)).

(** Replacing one entry of a good table. *)
Lemma set_entry_wf st i e :
  vfs_wf st -> (i < 32)%nat -> entry_wf e ->
  end_of e <= first_free_sector (g_superblock st) -> (is_empty e = true -> size e = 0) ->
  (is_empty e = false -> forall j, (j < 32)%nat -> j <> i -> is_empty (entry st j) = false ->
     cstr (filename (entry st j)) <> cstr (filename e)) ->
  vfs_wf (set_entry st i e).
Proof.
  intros Hwf Hi He Hend Hz Hn. pose proof (wf_len st Hwf) as Hl.
  assert (Hb : forall j, entry (set_entry st i e) j = if decide (j = i) then e else entry st j)
    by (intros; by apply entry_set_entry).
  destruct Hwf. split; try done.
  - simpl. by rewrite length_puti.
  - simpl. by apply puti_Forall.
  - intros j k Hj Hk. rewrite !Hb. do 2 case_decide; subst; try done.
    + intros ? ? Hc. by destruct (Hn ltac:(done) k).
    + intros ? ? Hc. by destruct (Hn ltac:(done) j).
    + by apply wf_names0.
  - intros j Hj. rewrite Hb. simpl. case_decide; [done|]. by apply wf_alloc0.
Qed.

Lemma set_entry_id st i :
  length (g_filetable st) = 32%nat -> (i < 32)%nat -> set_entry st i (entry st i) = st.
Proof.
  intros Hl Hi. pose proof (entry_lookup st i Hl Hi) as He. unfold set_entry, puti.
  rewrite Nat2Z.id, list_insert_id by done. by destruct st.
Qed.

Lemma write_slot_spec st path :
  vfs_wf st -> path_ok path -> has_slot st path ->
  exists i e, write_slot st path = (Some i, set_entry st i e) /\ (i < 32)%nat /\
    vfs_wf (set_entry st i e) /\
    is_empty e = false /\ cstr (filename e) = cstr path /\ (size e = size (entry st i)) /\
    ((find_idx (named path) (g_filetable st) = Some i /\ e = entry st i) \/
     (find_idx (named path) (g_filetable st) = None /\ is_empty (entry st i) = true /\
      start_sector e = first_free_sector (g_superblock st))).
Proof.
  intros Hwf [Hp Hlen] Hslot. unfold write_slot.
  destruct (find_idx (named path) (g_filetable st)) as [i|] eqn:E.
  - pose proof E as (Hi & He & Hc)%find_named_Some; [|done|done].
    assert (Hself : set_entry st i (entry st i) = st) by (apply set_entry_id; [apply Hwf|done]).
    exists i, (entry st i). rewrite Hself. do 6 (split; [done|]). by left.
  - destruct Hslot as [[? ?]|[i Hi0]]; [congruence|]. rewrite Hi0.
    apply find_empty_Some in Hi0 as [Hi He]; [|apply Hwf].
    pose proof (wf_entry st i Hwf Hi) as We. destruct We as (W1 & W2 & W3 & W4 & W5 & W6 & W7 & W8 & W9 & W10).
    destruct (vfs_strncpy_spec (filename (entry st i)) path VFS_MAX_FILENAME) as (N1 & N2 & N3);
      [clia|by rewrite W1|done|].
    rewrite take_ge in N3 by clia.
    eexists i, _. split; [done|]. split; [done|]. split.
    + pose proof (wf_alloc st Hwf i Hi) as [_ Hz]. pose proof (wf_sb st Hwf) as (_ & _ & _ & _ & S1 & _).
      apply set_entry_wf; try done.
      * repeat split; simpl; try done; try clia.
      * unfold end_of. simpl. rewrite Hz by done. change (nsec 0) with 0. lia.
      * intros _ j Hj Hne Hje. simpl. rewrite N3. by apply (find_named_None st path Hwf Hp E j).
    + simpl. do 3 (split; [done|]). by right.
Qed.

Lemma count_files_bound ft : 0 <= count_files ft <= Z.of_nat (length ft).
Proof. unfold count_files. pose proof (length_filter (fun e => is_empty e = false) ft). lia. Qed.

Lemma count_files_u16 ft : length ft = 32%nat -> u16 (count_files ft) = count_files ft.
Proof. intros Hl. pose proof (count_files_bound ft). apply u16_id. ulia. Qed.

(** A larger allocation and another device. *)
Lemma set_sb_disk_wf st d sb :
  vfs_wf st -> bd_ok d -> sb_wf sb -> magic sb = VFS_MAGIC ->
  first_free_sector (g_superblock st) <= first_free_sector sb ->
  DATA_START + first_free_sector sb <= 2 ^ 32 ->
  vfs_wf (st <| disk := d |> <| g_superblock := sb |>).
Proof.
  intros [] Hd Hsb Hm Hff Hfit. split; try done.
  intros i Hi. destruct (wf_alloc0 i Hi). simpl.
  change (entry (_ <| g_superblock := sb |>) i) with (entry st i). split; [lia|done].
Qed.

(** Writing into slot [i]. *)
Lemma write_at_spec st i data :
  vfs_wf st -> (i < 32)%nat -> is_empty (entry st i) = false ->
  Z.of_nat (length data) <= 255 * 512 ->
  DATA_START + first_free_sector (g_superblock st) + 255 <= 2 ^ 32 ->
  exists st', write_at st i data (Z.of_nat (length data)) = (Z.of_nat (length data), st') /\
    vfs_wf st' /\ persisted st' /\
    (forall j, entry st' j =
       if decide (j = i) then entry st i <| size := Z.of_nat (length data) |> else entry st j) /\
    (forall s, DATA_START <= s -> bd_view (disk st') s =
       write_view (bd_view (disk st)) (DATA_START + start_sector (entry st i))
         (Z.to_nat (nsec (Z.of_nat (length data)))) (padded data) s).
Proof.
  intros Hwf Hi He Hlen Hfit. unfold write_at. set (n := Z.of_nat (length data)) in *.
  destruct (nsec_bounds n) as [Hn0 Hn1]; [lia|].
  rewrite (u32_id n) by ulia. rewrite (u32_id (n + 511)) by ulia.
  change ((n + 511) / 512) with (nsec n). rewrite (proj2 (Z.ltb_ge 255 (nsec n))) by lia.
  change (VFS_START_SECTOR + VFS_DATA_SECTOR) with DATA_START.
  pose proof (wf_entry st i Hwf Hi) as We. pose proof (wf_alloc st Hwf i Hi) as [Hend _].
  assert (Hs0 : is_u32 (start_sector (entry st i))) by apply We.
  assert (Hst : start_sector (entry st i) <= first_free_sector (g_superblock st)).
  { unfold end_of in Hend. destruct (nsec_bounds (size (entry st i))); [apply We|]. lia. }
  rewrite (u32_id (DATA_START + _)) by (unfold DATA_START in *; ulia).
  destruct (write_data_spec (disk st) (DATA_START + start_sector (entry st i)) data)
    as (d & Hwd & Hd & V); [apply Hwf|unfold DATA_START; ulia|fold n; ulia|].
  fold n in Hwd, V. rewrite Hwd. cbn [negb]. cbv zeta.
  set (st2 := set_entry (st <| disk := d |>) i _).
  assert (Hb : forall j, entry st2 j =
    if decide (j = i) then entry st i <| size := n |> else entry st j).
  { intros j. unfold st2. by rewrite entry_set_entry by (exact (wf_len st Hwf) || done). }
  rewrite Hb, decide_True by done. cbn [start_sector upd_with].
  rewrite (u32_id (start_sector (entry st i) + nsec n)) by (unfold DATA_START in *; ulia).
  set (ff := first_free_sector (g_superblock st2)).
  set (endi := start_sector (entry st i) + nsec n).
  set (st3 := if ff <? endi then _ else st2).
  set (st4 := st3 <| g_superblock := _ |>).
  assert (Hst3 : st3 = st2 <| g_superblock := g_superblock st2 <| first_free_sector := Z.max ff endi |> |>).
  { unfold st3. destruct (Z.ltb_spec ff endi); [by rewrite Z.max_r by lia|].
    rewrite Z.max_l by lia. unfold ff. by destruct st as [[]]. }
  set (sb4 := g_superblock st4).
  assert (Hff4 : first_free_sector sb4 = Z.max ff endi) by (unfold sb4, st4; by rewrite Hst3).
  assert (Hst4 : st4 = set_entry (st <| disk := d |> <| g_superblock := sb4 |>) i
                         (entry st i <| size := n |>)).
  { unfold sb4, st4. by rewrite Hst3. }
  assert (W4 : vfs_wf st4).
  { rewrite Hst4. apply set_entry_wf; try done.
    - apply set_sb_disk_wf; try done.
      + pose proof (wf_sb st Hwf) as (S1 & S2 & S3 & S4 & S5 & S6).
        assert (H5 : is_u32 (Z.max ff endi)) by (unfold endi, ff, DATA_START in *; simpl; ulia).
        unfold sb4, st4. rewrite Hst3. do 2 (split; [done|]). split; [apply u16_is|]. done.
      + unfold sb4, st4. rewrite Hst3. apply Hwf.
      + rewrite Hff4. unfold ff. simpl. lia.
      + rewrite Hff4. unfold ff, endi. simpl. lia.
    - destruct We as (? & ? & ? & ? & ?). repeat split; try done; simpl; ulia.
    - change (end_of (entry st i <| size := n |>) <= first_free_sector sb4).
      rewrite Hff4. unfold end_of, endi. simpl. lia.
    - simpl. unfold is_empty in *. simpl. congruence.
    - intros _ j Hj Hne Hje Hc. apply Hne. by apply (wf_names st Hwf). }
  destruct (flush_spec st4) as (d5 & -> & Hd5 & P5 & V5); [apply W4..|].
  rewrite Z.eqb_refl, i32_id by lia. eexists. split; [done|].
  split; [|split; [exact P5|split]].
  - apply (set_sb_disk_wf st4 d5 sb4); try done; apply W4.
  - intros j. change (entry (st4 <| disk := d5 |>) j) with (entry st4 j). rewrite Hst4.
    by rewrite entry_set_entry by (exact (wf_len st Hwf) || done).
  - intros s Hs. simpl. rewrite V5 by done. rewrite Hst4. apply V.
Qed.

(** The content of an extent apart from the one written. *)
Lemma content_other st st' j base n buf :
  vfs_wf st -> (j < 32)%nat -> entry st' j = entry st j -> 0 <= base -> 0 <= n ->
  (forall s, DATA_START <= s -> bd_view (disk st') s =
     write_view (bd_view (disk st)) (DATA_START + base) (Z.to_nat n) buf s) ->
  base + n <= start_sector (entry st j) \/ end_of (entry st j) <= base ->
  content st' j = content st j.
Proof.
  intros Hwf Hj He Hb Hn V Hdis. unfold content. rewrite He. f_equal.
  pose proof (wf_entry st j Hwf Hj) as (_ & _ & Hs & Hz & _).
  destruct (nsec_bounds (size (entry st j))) as [N0 _]; [apply Hz|]. unfold end_of in Hdis.
  erewrite sectors_ext; [|intros s Hs'; apply V; ulia].
  apply sectors_write_view_other. lia.
Qed.

Lemma vfs_write_file_ok st path data :
  vfs_wf st -> path_ok path -> has_slot st path ->
  Z.of_nat (length data) <= 255 * 512 ->
  DATA_START + first_free_sector (g_superblock st) + 255 <= 2 ^ 32 ->
  exists i st', vfs_write_file st path data (Z.of_nat (length data)) =
      (Z.of_nat (length data), st') /\
    vfs_wf st' /\ persisted st' /\
    vfs_find_file st' path = Some i /\ content st' i = data /\
    size (entry st' i) = Z.of_nat (length data) /\
    (forall j, (j < 32)%nat -> j <> i -> entry st' j = entry st j) /\
    (forall j, (j < 32)%nat -> j <> i ->
       end_of (entry st' i) <= start_sector (entry st j) \/
       end_of (entry st j) <= start_sector (entry st' i) -> content st' j = content st j) /\
    (vfs_find_file st path = None -> forall j, (j < 32)%nat -> j <> i ->
       content st' j = content st j).
Proof.
  intros Hwf Hp Hslot Hlen Hfit. unfold vfs_write_file. rewrite (wf_ready st Hwf). cbn [negb].
  destruct (write_slot_spec st path Hwf Hp Hslot) as (i & e & -> & Hi & W1 & He & Hc & _ & Hkind).
  set (st1 := set_entry st i e) in *.
  assert (Hb1 : forall j, entry st1 j = if decide (j = i) then e else entry st j).
  { intros j. by apply entry_set_entry; [apply Hwf|]. }
  assert (He1 : entry st1 i = e) by (by rewrite Hb1, decide_True).
  destruct (write_at_spec st1 i data) as (st' & -> & W' & P' & Hb & V); [done..|by rewrite He1|done|done|].
  rewrite He1 in Hb, V. set (n := Z.of_nat (length data)) in *.
  destruct (nsec_bounds n) as [Hn0 Hn1]; [lia|].
  assert (Hei : entry st' i = e <| size := n |>) by (by rewrite Hb, decide_True).
  assert (Hej : forall j, j <> i -> entry st' j = entry st j).
  { intros j Hne. by rewrite Hb, decide_False, Hb1, decide_False. }
  assert (Hs0 : 0 <= start_sector e).
  { rewrite <- He1. pose proof (wf_entry st1 i W1 Hi) as (_ & _ & ? & _). ulia. }
  assert (Hoth : forall j, (j < 32)%nat -> j <> i ->
    end_of (entry st' i) <= start_sector (entry st j) \/
    end_of (entry st j) <= start_sector (entry st' i) -> content st' j = content st j).
  { intros j Hj Hne. rewrite Hei. apply content_other with (buf := padded data); auto. }
  exists i, st'. split; [done|]. split; [done|]. split; [done|]. split.
  { unfold vfs_find_file. rewrite (wf_ready st' W'). apply find_named_Some; [done|apply Hp|].
    by rewrite Hei. }
  split; [|split; [by rewrite Hei|split; [auto|split; [done|]]]].
  - unfold content. rewrite Hei. cbn [size start_sector upd_with].
    erewrite sectors_ext; [|intros s Hs'; apply V; lia].
    rewrite sectors_write_view by apply length_padded.
    unfold padded, n. rewrite Nat2Z.id, take_app_length. done.
  - intros Hnew j Hj Hne. apply Hoth; [done..|right]. rewrite Hei. simpl.
    unfold vfs_find_file in Hnew. rewrite (wf_ready st Hwf) in Hnew. cbn [negb] in Hnew.
    destruct Hkind as [[Hk _]|(_ & _ & ->)]; [congruence|]. by apply (wf_alloc st Hwf j Hj).
Qed.

(** Writing a file stores it: on a consistent file system over a working device, a write of
    up to 255 sectors under a path that fits, with a slot available, returns the length; the
    file system stays consistent, its metadata are on the disk, the path resolves to an entry
    that holds exactly the data, no other entry changes, and every other file whose extent
    is disjoint from the one written (all of them when the file is new) keeps its content. *)
Lemma vfs_write_file_spec st path data :
  vfs_wf st -> path_ok path -> has_slot st path ->
  Z.of_nat (length data) <= 255 * 512 ->
  DATA_START + first_free_sector (g_superblock st) + 255 <= 2 ^ 32 ->
  exists i st', vfs_write_file st path data (Z.of_nat (length data)) =
      (Z.of_nat (length data), st') /\
    vfs_wf st' /\ persisted st' /\
    vfs_find_file st' path = Some i /\ content st' i = data /\
    size (entry st' i) = Z.of_nat (length data) /\
    (forall j, (j < 32)%nat -> j <> i -> entry st' j = entry st j) /\
    (forall j, (j < 32)%nat -> j <> i ->
       end_of (entry st' i) <= start_sector (entry st j) \/
       end_of (entry st j) <= start_sector (entry st' i) -> content st' j = content st j) /\
    (vfs_find_file st path = None -> forall j, (j < 32)%nat -> j <> i ->
       content st' j = content st j).
Proof. apply vfs_write_file_ok. Qed.

(** What is written survives a remount. *)
Lemma write_remount_read st path data max_len st0 :
  vfs_wf st -> path_ok path -> has_slot st path ->
  Z.of_nat (length data) <= 255 * 512 -> Z.of_nat (length data) <= max_len ->
  DATA_START + first_free_sector (g_superblock st) + 255 <= 2 ^ 32 ->
  let '(rc, st') := vfs_write_file st path data (Z.of_nat (length data)) in
  let '(ok, st1) := vfs_init (st0 <| disk := disk st' |>) in
  let '(n, out, _) := vfs_read_file st1 path max_len in
  rc = Z.of_nat (length data) /\ ok = true /\ n = Z.of_nat (length data) /\
  take (length data) out = data.
Proof.
  intros Hwf Hp Hslot Hlen Hmax Hfit.
  destruct (vfs_write_file_ok st path data) as (i & st' & -> & W' & P' & F' & C' & S' & _); [done..|].
  match goal with |- context [vfs_init ?s] =>
    destruct (init_spec st' s W' P' eq_refl) as (d & -> & Hd & V) end.
  set (st1 := _ <| append_tmp := _ |>).
  assert (W1 : vfs_wf st1).
  { destruct W'. by split. }
  destruct (read_spec st1 path i max_len W1) as (out & d1 & -> & Hout & _).
  - apply Hp.
  - exact F'.
  - change (entry st1 i) with (entry st' i). rewrite S'.
    destruct (nsec_bounds (Z.of_nat (length data))); lia.
  - change (entry st1 i) with (entry st' i). by rewrite S'.
  - change (entry st1 i) with (entry st' i) in *. rewrite S', Nat2Z.id in Hout. rewrite S'.
    split; [done|]. split; [done|]. split; [done|]. rewrite Hout, <- C'.
    unfold content. f_equal. by apply sectors_ext.
Qed.


(** *** The operations on the table alone *)

Inductive meta_op :=
  | MkDir (path : bytes) | Delete (path : bytes)
  | Chmod (path : bytes) (m : Z) | Chown (path : bytes) (u g : Z).
Definition meta_exec st (o : meta_op) : Z * Vfs D :=
  match o with
  | MkDir path => vfs_mkdir st path
  | Delete path => vfs_delete_file st path
  | Chmod path m => vfs_chmod st path m
  | Chown path u g => vfs_chown st path u g
  end.
Definition meta_path (o : meta_op) : bytes :=
  match o with MkDir p | Delete p | Chmod p _ | Chown p _ _ => p end.
Definition meta_args_ok (o : meta_op) : Prop :=
  match o with Chown _ u g => is_u16 u /\ is_u16 g | Chmod _ m => is_u16 m | _ => True end.
(** The entry the operation leaves in the slot of the path. *)
Definition meta_result (o : meta_op) (e : VfsFileEntry) : VfsFileEntry :=
  match o with
  | MkDir path => mkVfsFileEntry (vfs_strncpy (filename e) path VFS_MAX_FILENAME)
      (start_sector e) 0 VFS_TYPE_DIRECTORY 0 VFS_MODE_DEFAULT_DIR 0 0 (e_reserved e)
  | Delete _ => zero_entry
  | Chmod _ m => e <| mode := Z.land m 511 |>
  | Chown _ u g => e <| uid := u |> <| gid := g |>
  end.

Definition is_mkdir (o : meta_op) : bool := match o with MkDir _ => true | _ => false end.
(** The slot an operation works on. *)
Definition meta_slot st (o : meta_op) : option nat :=
  match find_idx (named (meta_path o)) (g_filetable st) with
  | Some i => if is_mkdir o then None else Some i
  | None => if is_mkdir o then find_idx is_empty (g_filetable st) else None
  end.

(** A new entry, a new file count, and the metadata written out. *)
Lemma update_flush st i e sb :
  vfs_wf (set_entry st i e) -> sb_wf sb -> magic sb = VFS_MAGIC ->
  first_free_sector sb = first_free_sector (g_superblock st) ->
  exists d, vfs_flush_metadata (set_entry st i e <| g_superblock := sb |>) =
      (0, set_entry st i e <| g_superblock := sb |> <| disk := d |>) /\
    vfs_wf (set_entry st i e <| g_superblock := sb |> <| disk := d |>) /\
    persisted (set_entry st i e <| g_superblock := sb |> <| disk := d |>) /\
    forall s, DATA_START <= s -> bd_view d s = bd_view (disk st) s.
Proof.
  intros Hwf Hsb Hm Hff. set (st2 := set_entry st i e <| g_superblock := sb |>).
  assert (W2 : vfs_wf st2).
  { apply (set_sb_disk_wf (set_entry st i e) (disk st) sb); try done; [apply Hwf|simpl; lia|].
    rewrite Hff. apply Hwf. }
  destruct (flush_spec st2) as (d & Hf & Hd & P & V); [apply W2..|].
  exists d. split; [exact Hf|]. split; [|by split].
  apply (set_sb_disk_wf st2 d sb); try done. apply W2.
Qed.

Lemma land_511 m : 0 <= m -> is_u16 (Z.land m 511).
Proof.
  intros Hm. change 511 with (Z.ones 9). rewrite Z.land_ones by lia.
  pose proof (Z.mod_pos_bound m (2 ^ 9)). ulia.
Qed.

(** The result entry keeps the invariant. *)
Lemma meta_result_wf st o i :
  vfs_wf st -> path_ok (meta_path o) -> meta_args_ok o -> meta_slot st o = Some i ->
  (i < 32)%nat /\ vfs_wf (set_entry st i (meta_result o (entry st i))).
Proof.
  intros Hwf [Hp Hlen] Ha Hs. unfold meta_slot in Hs.
  destruct (find_idx (named (meta_path o)) (g_filetable st)) as [k|] eqn:E; last first.
  - destruct o as [path| | |]; try done. simpl in Hs.
    apply find_empty_Some in Hs as [Hi He]; [|apply Hwf]. split; [done|].
    pose proof (wf_entry st i Hwf Hi) as (W1 & W2 & W3 & W4 & W5 & W6 & W7 & W8 & W9 & W10).
    destruct (vfs_strncpy_spec (filename (entry st i)) path VFS_MAX_FILENAME) as (N1 & N2 & N3);
      [clia|by rewrite W1|done|].
    simpl in Hlen. rewrite take_ge in N3 by clia. destruct (wf_alloc st Hwf i Hi) as [A1 A2].
    apply set_entry_wf; try done.
    + unfold entry_wf. simpl. rewrite N1.
      repeat (split; [first [done | clia]|]). done.
    + unfold end_of in *. rewrite A2 in A1 by done. done.
    + intros _ j Hj Hne Hje. simpl. rewrite N3. by apply (find_named_None st path Hwf Hp E j).
  - apply find_named_Some in E as (Hi & He & Hc); [|done|done].
    assert (i = k) by (destruct o; simpl in Hs; congruence). subst k. split; [done|].
    pose proof (wf_entry st i Hwf Hi) as We. destruct (wf_alloc st Hwf i Hi) as [A1 A2].
    assert (Hn : forall j, (j < 32)%nat -> j <> i -> is_empty (entry st j) = false ->
      cstr (filename (entry st j)) <> cstr (filename (entry st i))).
    { intros j Hj Hne Hje Hjc. by apply Hne, (wf_names st Hwf). }
    destruct We as (W1 & W2 & W3 & W4 & W5 & W6 & W7 & W8 & W9 & W10).
    destruct o as [path|path|path m|path u g]; try done; apply set_entry_wf; try done.
    + unfold entry_wf. simpl. split; [done|]. split; [apply zeros_ok|].
      repeat (split; [first [done | ulia]|]). done.
    + pose proof (wf_alloc st Hwf i Hi) as [A _]. unfold end_of in *. simpl.
      change (nsec 0) with 0. pose proof (nsec_bounds (size (entry st i))). ulia.
    + unfold entry_wf. simpl. do 6 (split; [done|]). split; [|done]. apply land_511, Ha.
    + unfold entry_wf. simpl. do 7 (split; [done|]). split; [apply Ha|]. split; [apply Ha|done].
Qed.

(** Each operation is its entry, a file count, and a flush. *)
Lemma meta_exec_flush st o i :
  vfs_wf st -> meta_slot st o = Some i ->
  exists c, is_u16 c /\ forall st',
    vfs_flush_metadata (set_entry st i (meta_result o (entry st i)) <| g_superblock :=
      g_superblock st <| file_count := c |> |>) = (0, st') ->
    meta_exec st o = (0, st').
Proof.
  intros Hwf Hs. unfold meta_slot in Hs.
  assert (Hc0 : is_u16 (file_count (g_superblock st))) by apply (wf_sb st Hwf).
  assert (Hid : g_superblock st <| file_count := file_count (g_superblock st) |> = g_superblock st)
    by (by destruct (g_superblock st)).
  destruct o as [path|path|path m|path u g]; cbn [meta_path is_mkdir meta_exec meta_result] in *;
    unfold vfs_mkdir, vfs_delete_file, vfs_chmod, vfs_chown, vfs_find_file, vfs_find_file_mut;
    rewrite (wf_ready st Hwf); cbn [negb];
    destruct (find_idx (named path) _) as [k|]; try done.
  - rewrite Hs. exists (u16 (file_count (g_superblock st) + 1)). split; [apply u16_is|].
    intros st' Hf. cbv zeta. cbn [g_superblock upd_with set_entry] in *. by rewrite Hf.
  - injection Hs as ->.
    exists (if 0 <? file_count (g_superblock st) then file_count (g_superblock st) - 1
            else file_count (g_superblock st)).
    split; [case_step; ulia|]. intros st' Hf. cbv zeta.
    assert (Hsb : (if 0 <? file_count (g_superblock st)
      then g_superblock st <| file_count := file_count (g_superblock st) - 1 |>
      else g_superblock st) = g_superblock st <| file_count :=
        if 0 <? file_count (g_superblock st) then file_count (g_superblock st) - 1
        else file_count (g_superblock st) |>) by (case_step; by rewrite ?Hid).
    change (g_superblock (set_entry st i zero_entry)) with (g_superblock st).
    rewrite Hsb. by rewrite Hf.
  - injection Hs as ->. exists (file_count (g_superblock st)). split; [done|].
    intros st'. rewrite Hid. by destruct st.
  - injection Hs as ->. exists (file_count (g_superblock st)). split; [done|].
    intros st'. rewrite Hid. by destruct st.
Qed.

Lemma meta_exec_ok st o :
  vfs_wf st -> path_ok (meta_path o) -> meta_args_ok o ->
  match meta_slot st o with
  | None => meta_exec st o = (-1, st)
  | Some i =>
      exists st', meta_exec st o = (0, st') /\ vfs_wf st' /\ persisted st' /\
        (forall j, entry st' j =
           if decide (j = i) then meta_result o (entry st i) else entry st j) /\
        (forall s, DATA_START <= s -> bd_view (disk st') s = bd_view (disk st) s)
  end.
Proof.
  intros Hwf Hp Ha. destruct (meta_slot st o) as [i|] eqn:Hs.
  - destruct (meta_result_wf st o i Hwf Hp Ha Hs) as [Hi W1].
    destruct (meta_exec_flush st o i Hwf Hs) as (c & Hc & He).
    destruct (update_flush st i (meta_result o (entry st i))
      (g_superblock st <| file_count := c |>) W1) as (d & Hf & W & P & V); try done.
    { pose proof (wf_sb st Hwf) as (S1 & S2 & S3 & S4).
      split; [done|]. split; [done|]. by split. }
    { apply Hwf. }
    rewrite (He _ Hf). eexists. split; [done|]. split; [done|]. split; [done|]. split; [|done].
    intros j. change (entry (_ <| g_superblock := _ |> <| disk := _ |>) j)
      with (entry (set_entry st i (meta_result o (entry st i))) j).
    by apply entry_set_entry; [apply Hwf|].
  - unfold meta_slot in Hs. destruct o as [path|path|path m|path u g]; simpl in *;
      unfold vfs_mkdir, vfs_delete_file, vfs_chmod, vfs_chown, vfs_find_file, vfs_find_file_mut;
      rewrite (wf_ready st Hwf); cbn [negb]; destruct (find_idx (named path) _); try done.
    by rewrite Hs.
Qed.

(** mkdir, delete, chmod and chown: each succeeds exactly when its slot exists (an empty one
    and no file of that name for mkdir, the named file for the others) and then replaces
    that one entry as specified, keeps every other entry and every extent on disk, keeps
    the file system consistent and its metadata on the disk; otherwise it returns -1 and
    changes nothing. *)
Lemma vfs_meta_ops_spec st o :
  vfs_wf st -> path_ok (meta_path o) -> meta_args_ok o ->
  match meta_slot st o with
  | None => meta_exec st o = (-1, st)
  | Some i =>
      exists st', meta_exec st o = (0, st') /\ vfs_wf st' /\ persisted st' /\
        (forall j, entry st' j =
           if decide (j = i) then meta_result o (entry st i) else entry st j) /\
        (forall s, DATA_START <= s -> bd_view (disk st') s = bd_view (disk st) s)
  end.
Proof. apply meta_exec_ok. Qed.
End proofs.

(** ** Directories *)

(** The directory of a path: what precedes the last slash, "/" for the top. *)
Definition dirname (c : bytes) : bytes :=
  let k := last_slash_loop c 0 0 in if k =? 0 then [47] else take (Z.to_nat k) c.

Lemma last_slash_bounds c i l :
  0 <= l <= i ->
  0 <= last_slash_loop c i l <= i + Z.of_nat (length (cstr c)) /\
  (last_slash_loop c i l = l \/ i <= last_slash_loop c i l < i + Z.of_nat (length (cstr c))).
Proof.
  revert i l; induction c as [|x c IH]; intros i l Hl; simpl; [lia|].
  destruct (Z.eqb_spec x 0); simpl; [lia|].
  destruct (x =? 47).
  - destruct (IH (i + 1) i) as [H1 H2]; [lia|]. lia.
  - destruct (IH (i + 1) l) as [H1 H2]; [lia|]. lia.
Qed.

Lemma last_slash_cstr c i l : last_slash_loop (cstr c) i l = last_slash_loop c i l.
Proof.
  revert i l; induction c as [|x c IH]; intros i l; simpl; [done|].
  destruct (Z.eqb_spec x 0) as [->|Hx]; simpl; [done|].
  by rewrite (proj2 (Z.eqb_neq x 0) Hx).
Qed.

Lemma prefix_loop_spec n i c p :
  0 <= i ->
  prefix_loop n i c p = true <->
  forall j, i <= j < i + Z.of_nat n -> char_at p j = char_at c j /\ char_at p j <> 0.
Proof.
  revert i; induction n as [|n IH]; intros i Hi; cbn [prefix_loop].
  { split; [|done]. intros _ j Hj. lia. }
  destruct (Z.eqb_spec (char_at c i) (char_at p i)) as [E|E]; cbn [negb orb].
  - destruct (Z.eqb_spec (char_at p i) 0) as [E0|E0].
    + split; [done|]. intros Ha. destruct (Ha i); [lia|done].
    + rewrite IH by lia. split.
      * intros Ha j Hj. destruct (Z.eq_dec j i) as [->|]; [done|]. apply Ha. lia.
      * intros Ha j Hj. apply Ha. lia.
  - split; [done|]. intros Ha. destruct (Ha i); [lia|congruence].
Qed.

Lemma char_at_cstr c j : 0 <= j < Z.of_nat (length (cstr c)) -> char_at (cstr c) j = char_at c j.
Proof.
  intros Hj. symmetry. by apply (proj1 (cstr_char_at c (cstr c) (cstr_nonzero c)) eq_refl).
Qed.

Lemma vfs_is_child_of_spec child parent :
  vfs_is_child_of child parent = true <-> cstr parent = dirname (cstr child).
Proof.
  unfold vfs_is_child_of, dirname. rewrite last_slash_cstr. set (k := last_slash_loop child 0 0).
  destruct (last_slash_bounds child 0 0) as [_ Hk]; [lia|]. fold k in Hk.
  destruct (Z.eqb_spec k 0) as [Hk0|Hk0].
  - rewrite andb_true_iff, !Z.eqb_eq, cstr_char_at by (by repeat constructor). simpl. split.
    + intros [H1 H2]. split; [|done]. intros i Hi. by replace i with 0 by lia.
    + intros [H1 H2]. split; [|done]. rewrite H1 by lia. done.
  - assert (Hlen : Z.of_nat (length (take (Z.to_nat k) (cstr child))) = k) by len.
    rewrite cstr_char_at by (apply Forall_take, cstr_nonzero). rewrite Hlen.
    assert (Htk : forall j, 0 <= j < k ->
      char_at (take (Z.to_nat k) (cstr child)) j = char_at child j /\ char_at child j <> 0).
    { intros j Hj. rewrite <- (char_at_cstr child) by lia. split.
      - unfold char_at. by rewrite lookup_take_lt by lia.
      - pose proof (cstr_nonzero child) as Hnz. unfold char_at.
        destruct (cstr child !! Z.to_nat j) as [x|] eqn:Ex.
        + by eapply Forall_lookup_1 in Hnz.
        + apply lookup_ge_None in Ex. lia. }
    destruct (prefix_loop (Z.to_nat k) 0 child parent) eqn:Ep; cbn [negb].
    + rewrite prefix_loop_spec in Ep by lia. rewrite Z.eqb_eq. split; [|by intros []].
      intros H0. split; [|done]. intros i Hi. destruct (Ep i); [lia|]. by rewrite (proj1 (Htk i Hi)).
    + split; [done|]. intros [H1 _]. exfalso.
      assert (prefix_loop (Z.to_nat k) 0 child parent = true); [|congruence].
      apply prefix_loop_spec; [lia|]. intros j Hj. destruct (Htk j) as [T1 T2]; [lia|].
      rewrite H1 by lia. by rewrite T1.
Qed.

(** The entries a listing shows. *)
Definition listed (dir_path : bytes) (e : VfsFileEntry) : Prop :=
  is_empty e = false /\ vfs_strcmp (filename e) dir_path <> 0 /\
  vfs_is_child_of (filename e) dir_path = true.
#[export] Instance listed_dec d e : Decision (listed d e).
Proof. unfold listed. apply _. Defined.
Definition list_name (e : VfsFileEntry) : bytes :=
  vfs_strncpy (zeros 32) (filename e) VFS_MAX_FILENAME.

Lemma list_dir_loop_spec ft d : forall count max, 0 <= count ->
  list_dir_loop ft d count max =
  let out := take (Z.to_nat (max - count)) (list_name <$> filter (listed d) ft) in
  (count + Z.of_nat (length out), out).
Proof.
  induction ft as [|e ft IH]; intros count max Hc; cbn [list_dir_loop].
  { rewrite filter_nil. simpl. rewrite take_nil. simpl. f_equal. lia. }
  destruct (Z.ltb_spec count max) as [Hlt|Hge]; cbn [negb].
  2:{ replace (Z.to_nat (max - count)) with 0%nat by lia. simpl. f_equal. lia. }
  rewrite filter_cons.
  destruct (is_empty e) eqn:Ee; cbn [orb].
  { rewrite decide_False by (intros [? _]; congruence). by apply IH. }
  destruct (Z.eqb_spec (vfs_strcmp (filename e) d) 0) as [Es|Es].
  { rewrite decide_False by (intros (_ & ? & _); congruence). by apply IH. }
  destruct (vfs_is_child_of (filename e) d) eqn:Ech.
  2:{ rewrite decide_False by (intros (_ & _ & ?); congruence). by apply IH. }
  rewrite decide_True by done. rewrite IH by lia. cbv zeta.
  replace (Z.to_nat (max - count)) with (S (Z.to_nat (max - (count + 1)))) by lia.
  rewrite fmap_cons. cbn [firstn]. f_equal. cbn [length]. lia.
Qed.

(** vfs_list_dir returns, in table order, the names of the first [max] entries that lie
    directly in the directory: the entries in use, other than the directory itself, whose
    path without its last component is the directory; the result counts them. *)
Lemma vfs_list_dir_spec {D} (st : Vfs D) dir_path max :
  g_vfs_ready st = true -> bytes_ok dir_path -> Forall entry_wf (g_filetable st) ->
  let out := (vfs_list_dir st dir_path max).2 in
  vfs_list_dir st dir_path max = (Z.of_nat (length out), out) /\
  out = take (Z.to_nat max) (list_name <$> filter (fun e => is_empty e = false /\
    cstr (filename e) <> cstr dir_path /\ cstr dir_path = dirname (cstr (filename e)))
    (g_filetable st)).
Proof.
  intros Hr Hd Hw out. unfold out, vfs_list_dir. rewrite Hr. cbn [negb].
  rewrite list_dir_loop_spec by lia. cbv zeta. rewrite Z.sub_0_r. split; [done|].
  cbn [snd]. do 2 f_equal. apply list_filter_iff'. eapply Forall_impl; [exact Hw|].
  intros e He. simpl. unfold listed. rewrite vfs_is_child_of_spec. unfold vfs_strcmp.
  rewrite strcmp_loop_eq; [done|apply He|done].
Qed.

(** ** Appending *)

Section append.
Context {D : Type} `{BlockDevLaws D}.
Implicit Types (st : Vfs D) (path data : bytes).

Lemma write_full_take n : forall s (d : D) base data len,
  0 <= s -> ((Z.to_nat s + n) * SECTOR <= len)%nat ->
  write_full n s d base data = write_full n s d base (take len data).
Proof.
  induction n as [|n IH]; intros s d base data len Hs Hl; [done|]. cbn [write_full].
  assert (Hc : chunk data s = chunk (take len data) s).
  { unfold chunk. rewrite !take_drop_commute, take_take. do 2 f_equal. unfold SECTOR in *. lia. }
  rewrite <- Hc. destruct (bd_write d (u32 (base + s)) 1 (chunk data s)) as [rc d'].
  destruct (rc <? 0); [done|]. apply IH; lia.
Qed.

(** Only the first [len] bytes of the buffer are written. *)
Lemma write_file_take st path data len :
  is_u32 len -> vfs_write_file st path data len = vfs_write_file st path (take (Z.to_nat len) data) len.
Proof.
  intros Hl. unfold vfs_write_file. destruct (g_vfs_ready st); cbn [negb]; [|done].
  destruct (write_slot st path) as [[i|] st1]; [|done].
  unfold write_at. rewrite (u32_id len) by done. destruct (255 <? u32 (len + 511) / 512); [done|].
  set (base := u32 _).
  assert (Hw : write_data (disk st1) base data len =
               write_data (disk st1) base (take (Z.to_nat len) data) len); [|by rewrite Hw].
  unfold write_data. pose proof (Z.div_mod len 512) as Hdm. pose proof (Z.mod_pos_bound len 512).
  assert (Hq : 0 <= len / 512) by (apply Z.div_pos; ulia).
  rewrite <- write_full_take by (unfold SECTOR; lia).
  destruct (write_full _ _ _ _ _) as [[] d]; cbn [negb]; [|done].
  case_step; [|done].
  assert (Hg : get_bytes data (Z.to_nat (len / 512) * 512) (Z.to_nat (len mod 512)) =
    get_bytes (take (Z.to_nat len) data) (Z.to_nat (len / 512) * 512) (Z.to_nat (len mod 512))).
  { unfold get_bytes. rewrite !take_drop_commute, take_take. do 2 f_equal. lia. }
  by rewrite Hg.
Qed.

(** Appending to a file of at most 4096 bytes stores the old content followed by the new
    bytes, cut at 4096 bytes, and returns the new size; all other entries are unchanged. *)
Lemma vfs_append_file_spec st path data i :
  vfs_wf st -> path_ok path -> vfs_find_file st path = Some i ->
  size (entry st i) <= 4096 -> length (append_tmp st) = 4096%nat ->
  Z.of_nat (length data) < 2 ^ 31 ->
  DATA_START + first_free_sector (g_superblock st) + 255 <= 2 ^ 32 ->
  exists st', vfs_append_file st path data (Z.of_nat (length data)) =
      (Z.min 4096 (size (entry st i) + Z.of_nat (length data)), st') /\
    vfs_wf st' /\ persisted st' /\ vfs_find_file st' path = Some i /\
    content st' i = take 4096 (content st i ++ data) /\
    forall j, (j < 32)%nat -> j <> i -> entry st' j = entry st j.
Proof.
  intros Hwf Hp Hf Hs Ht Hlen Hfit. unfold vfs_append_file. rewrite Hf.
  assert (Hfi : find_idx (named path) (g_filetable st) = Some i).
  { unfold vfs_find_file in Hf. by rewrite (wf_ready st Hwf) in Hf. }
  pose proof Hfi as (Hi & _)%find_named_Some; [|done|apply Hp].
  pose proof (wf_entry st i Hwf Hi) as (_ & _ & _ & Hu & _).
  set (n := size (entry st i)) in *. set (k := Z.of_nat (length data)) in *.
  assert (Hk : k = Z.of_nat (length data)) by done.
  assert (Htot : append_total n k = Z.min 4096 (n + k)).
  { unfold append_total. rewrite (u32_id k) by ulia. rewrite u32_id by ulia. case_step; lia. }
  assert (Hcopy : append_copy n k = Z.min 4096 (n + k) - n).
  { unfold append_copy. rewrite Htot. apply u32_id. ulia. }
  destruct (nsec_bounds n) as [N0 N1]; [ulia|].
  destruct (read_spec st path i n Hwf) as (out & d & -> & Hout & Hol & Hd & V);
    [apply Hp|done|fold n; lia|done|]. fold n in Hout, Hol. fold n.
  rewrite (proj2 (Z.ltb_ge n 0)) by ulia. rewrite Htot, Hcopy.
  assert (Hcl : length (content st i) = Z.to_nat n).
  { rewrite <- Hout, length_take, Hol. unfold SECTOR. lia. }
  set (st1 := _ <| append_tmp := _ |>). cbv zeta.
  assert (Htmp : take (Z.to_nat (Z.min 4096 (n + k))) (append_tmp st1) =
                 take 4096 (content st i ++ data)).
  { unfold st1. cbn [append_tmp upd_with].
    assert (Hol2 : (length out <= 4096)%nat) by (rewrite Hol; unfold SECTOR; lia).
    rewrite read_n_take by lia. unfold blit at 1.
    assert (Ht1 : take (Z.to_nat n) (blit (append_tmp st) 0 out) = content st i).
    { rewrite blit_0, take_app_le by (rewrite Hol; unfold SECTOR; lia). done. }
    rewrite Ht1. rewrite app_assoc, take_app_le by (len; rewrite Hcl; len).
    rewrite !take_app, Hcl. rewrite take_take, !(take_ge (content st i)) by lia.
    f_equal. destruct (Z.le_ge_cases (n + k) 4096).
    - rewrite !take_ge; [done|ulia|ulia].
    - f_equal. ulia. }
  assert (W1 : vfs_wf st1) by (destruct Hwf; by split).
  rewrite write_file_take by ulia. rewrite Htmp.
  set (buf := take 4096 (content st i ++ data)).
  assert (Hbl : Z.min 4096 (n + k) = Z.of_nat (length buf)).
  { unfold buf. rewrite length_take, length_app, Hcl. ulia. }
  rewrite Hbl.
  destruct (vfs_write_file_ok st1 path buf W1 Hp) as
    (i' & st' & -> & W' & P' & F' & C' & _ & O' & _); [left; by exists i|lia|done|].
  exists st'. split; [done|]. split; [done|]. split; [done|].
  assert (i' = i); [|subst i'; done].
  unfold vfs_find_file in F'. rewrite (wf_ready st' W') in F'. cbn [negb] in F'.
  apply find_named_Some in F' as (Hi' & He' & Hc'); [|done|apply Hp].
  apply find_named_Some in Hfi as (_ & He & Hc); [|done|apply Hp].
  destruct (decide (i = i')) as [|Hne]; [done|]. pose proof (O' i Hi Hne) as Ei.
  change (entry st1 i) with (entry st i) in Ei.
  apply (wf_names st' W'); rewrite ?Ei; congruence.
Qed.
End append.

(** ** A file system on a cached disk *)

Definition s_a : bytes := [47; 97].
Definition s_b : bytes := [47; 98].
Definition s_root : bytes := [47].
Definition empty_fs : Vfs (Bcache RamDisk) :=
  mkVfs (mkVfsSuperblock VFS_MAGIC 1 0 1000 0 (zeros 16)) (replicate 32 zero_entry) true
    (zeros 4096) (bcache_init ram0).
(** "/a" with one byte and "/b" with two. *)
Definition fs_a : Vfs (Bcache RamDisk) := (vfs_write_file empty_fs s_a [65] 1).2.
Definition fs_ab : Vfs (Bcache RamDisk) := (vfs_write_file fs_a s_b [66; 67] 2).2.

Lemma empty_fs_wf : vfs_wf empty_fs.
Proof.
  assert (He : forall i, (i < 32)%nat -> entry empty_fs i = zero_entry).
  { intros i Hi. unfold entry, geti. rewrite Nat2Z.id.
    by apply (lookup_total_replicate_2 32 zero_entry i). }
  split.
  - done.
  - apply (bcache_init_wf ram0 ram0_ok).
  - vm_compute. repeat split; congruence.
  - done.
  - done.
  - apply Forall_replicate. vm_compute. repeat split; try congruence. by repeat constructor.
  - intros i j Hi Hj. by rewrite (He i Hi).
  - intros i Hi. rewrite (He i Hi). vm_compute. split; congruence.
  - vm_compute. congruence.
Qed.

Lemma path_a_ok : path_ok s_a.
Proof. split; [by apply bytes_ok_dec|vm_compute; lia]. Qed.
Lemma path_b_ok : path_ok s_b.
Proof. split; [by apply bytes_ok_dec|vm_compute; lia]. Qed.
Lemma empty_fs_slot path : has_slot empty_fs path.
Proof. right. by exists 0%nat. Qed.

Lemma fs_a_wf : vfs_wf fs_a.
Proof.
  destruct (vfs_write_file_ok empty_fs s_a [65] empty_fs_wf path_a_ok (empty_fs_slot _))
    as (i & st' & E & W & _); [simpl; lia|vm_compute; congruence|].
  unfold fs_a. rewrite (E : vfs_write_file empty_fs s_a [65] 1 = _). exact W.
Qed.

Lemma vfs_write_file_spec_witness :
  has_slot fs_a s_b /\
  exists i st', vfs_write_file fs_a s_b [66; 67] 2 = (2, st') /\ content st' i = [66; 67].
Proof.
  assert (Hs : has_slot fs_a s_b).
  { right. exists 1%nat. vm_compute. reflexivity. }
  split; [exact Hs|].
  assert (Hl : Z.of_nat (length [66; 67]) <= 255 * 512) by (vm_compute; congruence).
  assert (Hf : DATA_START + first_free_sector (g_superblock fs_a) + 255 <= 2 ^ 32)
    by (vm_compute; congruence).
  destruct (vfs_write_file_spec fs_a s_b [66; 67] fs_a_wf path_b_ok Hs Hl Hf)
    as (i & st' & E & _ & _ & _ & C & _).
  exists i, st'. split; [exact E|exact C].
Defined.


Lemma vfs_meta_ops_spec_witness :
  match meta_slot fs_a (Chmod s_a 292) with
  | Some i => exists st', meta_exec fs_a (Chmod s_a 292) = (0, st') /\ persisted st'
  | None => False
  end.
Proof.
  assert (Ha : meta_args_ok (Chmod s_a 292)) by (vm_compute; split; congruence).
  pose proof (vfs_meta_ops_spec fs_a (Chmod s_a 292) fs_a_wf path_a_ok Ha) as Hm.
  assert (Hs : meta_slot fs_a (Chmod s_a 292) = Some 0%nat) by (vm_compute; reflexivity).
  rewrite Hs in *. destruct Hm as (st' & E & _ & P & _). exists st'. split; [exact E|exact P].
Defined.

Lemma vfs_list_dir_spec_witness :
  g_vfs_ready fs_a = true /\ (vfs_list_dir fs_a s_root 8).1 = 1 /\
  vfs_list_dir fs_a s_root 8 =
    (Z.of_nat (length (vfs_list_dir fs_a s_root 8).2), (vfs_list_dir fs_a s_root 8).2).
Proof.
  split; [vm_compute; reflexivity|]. split; [vm_compute; reflexivity|].
  apply (vfs_list_dir_spec fs_a s_root 8 (wf_ready fs_a fs_a_wf)); [|apply (wf_entries fs_a fs_a_wf)].
  apply bytes_ok_dec. reflexivity.
Defined.

Lemma vfs_append_file_spec_witness :
  exists st', vfs_append_file fs_a s_a [66] 1 = (2, st') /\ content st' 0 = take 4096 ([65] ++ [66]).
Proof.
  assert (Hf : vfs_find_file fs_a s_a = Some 0%nat) by (vm_compute; reflexivity).
  assert (Hc : content fs_a 0 = [65]) by (vm_compute; reflexivity).
  assert (Hz : size (entry fs_a 0) <= 4096) by (vm_compute; congruence).
  assert (Ht : length (append_tmp fs_a) = 4096%nat) by (vm_compute; reflexivity).
  assert (Hl : Z.of_nat (length [66]) < 2 ^ 31) by (vm_compute; congruence).
  assert (Hi : DATA_START + first_free_sector (g_superblock fs_a) + 255 <= 2 ^ 32)
    by (vm_compute; congruence).
  destruct (vfs_append_file_spec fs_a s_a [66] 0 fs_a_wf path_a_ok Hf Hz Ht Hl Hi)
    as (st' & E & _ & _ & _ & C & _).
  exists st'. rewrite <- Hc. split; [|exact C].
  assert (Hn : Z.min 4096 (size (entry fs_a 0) + Z.of_nat (length [66])) = 2)
    by (vm_compute; reflexivity).
  rewrite Hn in E. exact E.
Defined.

(** Growing a file overwrites its neighbour: with "/a" and "/b" of one sector each, a
    successful rewrite of "/a" with 513 bytes changes what "/b" holds, although the call
    returns success and the table entry of "/b" is untouched. *)
Lemma vfs_growth_overwrites_neighbour :
  let '(rc, st') := vfs_write_file fs_ab s_a (replicate 513 90) 513 in
  rc = 513 /\ entry st' 1 = entry fs_ab 1 /\
  content fs_ab 1 = [66; 67] /\ content st' 1 = [90; 0].
Proof. vm_compute. done. Qed.
