(* ===== verification/Fat32.v ===== *)
(** The read-only FAT32 driver (kernel/fs/fat32.c): mounting, 8.3 names, path
    resolution, directory listing and file reading, over any sector device
    (in the kernel, the block cache).

    The loops that follow cluster chains take fuel, one unit per cluster:
    [Loops] is the result of a chain that is longer than the fuel, and the
    theorems say how much is enough - or, for a cyclic chain, that no amount
    is.  The volume parameters g_vol are the record [Vol]. *)

From S2P Require Import Prelude CString BlockDev.

(** [kernel/fs/fat32.c] constants *)
Definition FAT32_EOC := 0x0FFFFFF8.
Definition DIRENT_SIZE := 32.
Definition ATTR_DIRECTORY := 0x10.
Definition ATTR_VOLUME_ID := 0x08.
Definition ATTR_LFN := 0x0F.
#[export] Hint Unfold FAT32_EOC DIRENT_SIZE SECTOR : consts.

(** [kernel/fs/fat32.c:20-28] g_vol *)
Record Vol := mkVol {
  mounted : bool; base_lba : Z; fat_start : Z; data_start : Z; root_cluster : Z;
  sectors_per_cluster : Z; total_clusters : Z }.

(** [kernel/fs/fat32.c] rd16 *)
Definition rd16 (p : bytes) (i : Z) : Z := u16 (Z.lor (geti p i) (Z.shiftl (geti p (i + 1)) 8)).
(** [kernel/fs/fat32.c] rd32 *)
Definition rd32 (p : bytes) (i : Z) : Z :=
  Z.lor (Z.lor (Z.lor (geti p i) (Z.shiftl (geti p (i + 1)) 8)) (Z.shiftl (geti p (i + 2)) 16))
    (u32 (Z.shiftl (geti p (i + 3)) 24)).

(** ** 8.3 names *)

(** ASCII upper case. *)
Definition upper (c : Z) : Z := if (97 <=? c) && (c <=? 122) then c - 32 else c.

(** [kernel/fs/fat32.c:87-91] name_to_83 *)
Fixpoint base_83 (name : bytes) (o : Z) (out : bytes) : option (bytes * bytes) :=
  match name with
  | [] => Some (out, [])
  | c :: name' =>
      if (c =? 0) || (c =? 46) then Some (out, name)
      else if 8 <=? o then None else base_83 name' (o + 1) (puti out o (upper c))
  end.
(** [kernel/fs/fat32.c:94-98] name_to_83 *)
Fixpoint ext_83 (name : bytes) (e : Z) (out : bytes) : option bytes :=
  match name with
  | [] => Some out
  | c :: name' =>
      if c =? 0 then Some out
      else if 3 <=? e then None else ext_83 name' (e + 1) (puti out (8 + e) (upper c))
  end.
(** [None] is -1.
    [kernel/fs/fat32.c] name_to_83 *)
Definition name_to_83 (name : bytes) : option bytes :=
  match base_83 name 0 (replicate 11 32) with
  | None => None
  | Some (out, rest) => if char_at rest 0 =? 46 then ext_83 (tail rest) 0 out else Some out
  end.

(** The characters before the first blank. *)
Fixpoint until_blank (l : bytes) : bytes :=
  match l with [] => [] | c :: l => if c =? 32 then [] else c :: until_blank l end.
(** [kernel/fs/fat32.c] name_from_83 *)
Definition name_from_83 (raw : bytes) : bytes :=
  until_blank (take 8 raw) ++
  (if negb (geti raw 8 =? 32) then 46 :: until_blank (get_bytes raw 8 3) else []).

(** ** The volume *)

Section fat32.
Context {D : Type} `{BlockDev D}.
Implicit Types (vol : Vol).

(** [kernel/fs/fat32.c] read_rel *)
Definition read_rel vol (rel_sector : Z) : Rd D (option bytes) :=
  rd_sectors (u32 (base_lba vol + rel_sector)) 1.

(** [kernel/fs/fat32.c] cluster_first_sector *)
Definition cluster_first_sector vol (cluster : Z) : Z :=
  u32 (data_start vol + u32 ((cluster - 2) * sectors_per_cluster vol)).

(** [kernel/fs/fat32.c] fat_next *)
Definition fat_next vol (cluster : Z) : Rd D Z :=
  let byte_off := u32 (cluster * 4) in
  sec <-- read_rel vol (u32 (fat_start vol + byte_off / 512));
  match sec with
  | None => rd_ret FAT32_EOC
  | Some sec => rd_ret (Z.land (rd32 sec (byte_off mod 512)) 0x0FFFFFFF)
  end.

(** Code and the new volume state.
    [kernel/fs/fat32.c] fat32_mount *)
Definition fat32_mount (old : Vol) (base : Z) : Rd D (Z * Vol) :=
  let off := mkVol false base (fat_start old) (data_start old) (root_cluster old)
    (sectors_per_cluster old) (total_clusters old) in
  bpb <-- read_rel off 0;
  match bpb with
  | None => rd_ret (-1, off)
  | Some bpb =>
      if negb (geti bpb 510 =? 0x55) || negb (geti bpb 511 =? 0xAA) then rd_ret (-1, off) else
      let bytes_per_sec := rd16 bpb 11 in
      let spc := geti bpb 13 in
      let rsvd := rd16 bpb 14 in
      let nfats := geti bpb 16 in
      let root_ent16 := rd16 bpb 17 in
      let fatsz16 := rd16 bpb 22 in
      let fatsz32 := rd32 bpb 36 in
      let root := rd32 bpb 44 in
      let total_sec := if rd16 bpb 19 =? 0 then rd32 bpb 32 else rd16 bpb 19 in
      if negb (bytes_per_sec =? 512) || (spc =? 0) || (rsvd =? 0) || (nfats =? 0)
      then rd_ret (-1, off) else
      if negb (root_ent16 =? 0) || negb (fatsz16 =? 0) || (fatsz32 =? 0) then rd_ret (-1, off) else
      if root <? 2 then rd_ret (-1, off) else
      let data := u32 (rsvd + u32 (nfats * fatsz32)) in
      rd_ret (0, mkVol true base rsvd data root spc (u32 (total_sec - data) / spc))
  end.

(** [kernel/fs/fat32.c] fat32_mounted *)
Definition fat32_mounted vol : bool := mounted vol.

(** What one directory entry tells the scan. *)
Inductive entry_kind := EndOfDir | Skip | Live.
(** [kernel/fs/fat32.c:124-129] dir_find *)
Definition classify (sec : bytes) (e : Z) : entry_kind :=
  let d := e * DIRENT_SIZE in
  if geti sec d =? 0 then EndOfDir
  else if geti sec d =? 0xE5 then Skip
  else if Z.land (geti sec (d + 11)) ATTR_LFN =? ATTR_LFN then Skip
  else if negb (Z.land (geti sec (d + 11)) ATTR_VOLUME_ID =? 0) then Skip
  else Live.
Definition entry_is_dir (sec : bytes) (e : Z) : bool :=
  negb (Z.land (geti sec (e * DIRENT_SIZE + 11)) ATTR_DIRECTORY =? 0).
(** Start cluster, size, directory. *)
Definition DirHit : Type := Z * Z * bool.
(** [kernel/fs/fat32.c:134-136] dir_find *)
Definition entry_hit (sec : bytes) (e : Z) : DirHit :=
  let d := e * DIRENT_SIZE in
  (Z.lor (u32 (Z.shiftl (rd16 sec (d + 20)) 16)) (rd16 sec (d + 26)), rd32 sec (d + 28),
   entry_is_dir sec e).

(** [Some (Some h)]: found; [Some None]: end of the directory; [None]: go on.
    [kernel/fs/fat32.c:123-138] dir_find *)
Fixpoint find_in_sector (n : nat) (e : Z) (sec target : bytes) : option (option DirHit) :=
  match n with
  | O => None
  | S n =>
      match classify sec e with
      | EndOfDir => Some None
      | Skip => find_in_sector n (e + 1) sec target
      | Live =>
          if bool_decide (get_bytes sec (Z.to_nat (e * DIRENT_SIZE)) 11 = take 11 target)
          then Some (Some (entry_hit sec e)) else find_in_sector n (e + 1) sec target
      end
  end.

(** [kernel/fs/fat32.c:121-139] dir_find *)
Fixpoint find_in_cluster (n : nat) (s : Z) vol (cl : Z) (target : bytes)
    : Rd D (option (option DirHit)) :=
  match n with
  | O => rd_ret None
  | S n =>
      sec <-- read_rel vol (u32 (cluster_first_sector vol cl + s));
      match sec with
      | None => rd_ret (Some None)
      | Some sec =>
          match find_in_sector 16 0 sec target with
          | Some r => rd_ret (Some r)
          | None => find_in_cluster n (s + 1) vol cl target
          end
      end
  end.

(** [kernel/fs/fat32.c] dir_find *)
Fixpoint dir_find (fuel : nat) vol (cl : Z) (target : bytes) : Rd D (res DirHit) :=
  if negb ((cl <? FAT32_EOC) && (2 <=? cl)) then rd_ret Fail else
  match fuel with
  | O => rd_ret Loops
  | S fuel =>
      r <-- find_in_cluster (Z.to_nat (sectors_per_cluster vol)) 0 vol cl target;
      match r with
      | Some (Some h) => rd_ret (Ok h)
      | Some None => rd_ret Fail
      | None => next <-- fat_next vol cl; dir_find fuel vol next target
      end
  end.

(** The next path component, at most 12 characters, and what follows.
    [kernel/fs/fat32.c:157-157] resolve *)
Fixpoint component (n : nat) (p : bytes) : bytes * bytes :=
  match n, p with
  | S n, c :: p' => if (c =? 0) || (c =? 47) then ([], p)
                    else let '(comp, rest) := component n p' in (c :: comp, rest)
  | _, _ => ([], p)
  end.
(** [kernel/fs/fat32.c:160-160] resolve *)
Fixpoint skip_slashes (p : bytes) : bytes :=
  match p with c :: p' => if c =? 47 then skip_slashes p' else p | [] => [] end.

(** One unit of [steps] per component; a path has fewer than its length.
    [kernel/fs/fat32.c:154-166] resolve *)
Fixpoint resolve_loop (steps fuel : nat) vol (p : bytes) (cl size : Z) (is_dir : bool)
    : Rd D (res DirHit) :=
  if char_at p 0 =? 0 then rd_ret (Ok (cl, size, is_dir)) else
  match steps with
  | O => rd_ret Loops
  | S steps =>
      let '(comp, rest) := component 12 p in
      if negb (char_at rest 0 =? 0) && negb (char_at rest 0 =? 47) then rd_ret Fail else
      let rest := skip_slashes rest in
      match comp with
      | [] => resolve_loop steps fuel vol rest cl size is_dir
      | _ =>
          if negb is_dir then rd_ret Fail else
          match name_to_83 comp with
          | None => rd_ret Fail
          | Some t83 => h <-? dir_find fuel vol cl t83;
                        let '(cl, size, is_dir) := h in
                        resolve_loop steps fuel vol rest cl size is_dir
          end
      end
  end.
(** [kernel/fs/fat32.c] resolve *)
Definition resolve (fuel : nat) vol (path : bytes) : Rd D (res DirHit) :=
  if negb (mounted vol) || negb (char_at path 0 =? 47) then rd_ret Fail
  else resolve_loop (S (length path)) fuel vol (tail path) (root_cluster vol) 0 true.

(** What the callback of fat32_list receives: name, size, directory. *)
Definition ListItem : Type := bytes * Z * bool.
(** [true]: the end of the directory was met.
    [kernel/fs/fat32.c:183-194] fat32_list *)
Fixpoint list_sector (n : nat) (e : Z) (sec : bytes) : list ListItem * bool :=
  match n with
  | O => ([], false)
  | S n =>
      match classify sec e with
      | EndOfDir => ([], true)
      | Skip => list_sector n (e + 1) sec
      | Live =>
          let '(l, stop) := list_sector n (e + 1) sec in
          ((name_from_83 (get_bytes sec (Z.to_nat (e * DIRENT_SIZE)) 11),
            rd32 sec (e * DIRENT_SIZE + 28), entry_is_dir sec e) :: l, stop)
      end
  end.
(** [kernel/fs/fat32.c:181-195] fat32_list *)
Fixpoint list_cluster (n : nat) (s : Z) vol (cl : Z) : Rd D (list ListItem * bool) :=
  match n with
  | O => rd_ret ([], false)
  | S n =>
      sec <-- read_rel vol (u32 (cluster_first_sector vol cl + s));
      match sec with
      | None => rd_ret ([], true)
      | Some sec =>
          let '(l, stop) := list_sector 16 0 sec in
          if stop then rd_ret (l, true) else
          r <-- list_cluster n (s + 1) vol cl;
          rd_ret (l ++ r.1, r.2)
      end
  end.
(** [kernel/fs/fat32.c:180-197] fat32_list *)
Fixpoint list_chain (fuel : nat) vol (cl : Z) : Rd D (res (list ListItem)) :=
  if negb ((cl <? FAT32_EOC) && (2 <=? cl)) then rd_ret (Ok []) else
  match fuel with
  | O => rd_ret Loops
  | S fuel =>
      r <-- list_cluster (Z.to_nat (sectors_per_cluster vol)) 0 vol cl;
      if r.2 then rd_ret (Ok r.1) else
      next <-- fat_next vol cl;
      l <-? list_chain fuel vol next;
      rd_ret (Ok (r.1 ++ l))
  end.
(** The calls of the callback; the C result is their number, or -1 for [Fail].
    [kernel/fs/fat32.c] fat32_list *)
Definition fat32_list (fuel : nat) vol (path : bytes) : Rd D (res (list ListItem)) :=
  h <-? resolve fuel vol path;
  let '(cl, _, is_dir) := h in
  if negb is_dir then rd_ret Fail
  else list_chain fuel vol (if cl <? 2 then root_cluster vol else cl).

(** [kernel/fs/fat32.c] fat32_stat *)
Definition fat32_stat (fuel : nat) vol (path : bytes) : Rd D (res (Z * bool)) :=
  h <-? resolve fuel vol path; let '(_, size, is_dir) := h in rd_ret (Ok (size, is_dir)).

(** [kernel/fs/fat32.c:218-223] fat32_read *)
Fixpoint read_cluster (n : nat) (s : Z) vol (cl want : Z) (out : bytes) : Rd D (res bytes) :=
  match n with
  | O => rd_ret (Ok out)
  | S n =>
      let done := Z.of_nat (length out) in
      if negb (done <? want) then rd_ret (Ok out) else
      sec <-- read_rel vol (u32 (cluster_first_sector vol cl + s));
      match sec with
      | None => rd_ret Fail
      | Some sec =>
          let k := if want - done <? 512 then want - done else 512 in
          read_cluster n (s + 1) vol cl want (out ++ take (Z.to_nat k) sec)
      end
  end.
(** [kernel/fs/fat32.c:217-225] fat32_read *)
Fixpoint read_chain (fuel : nat) vol (cl want : Z) (out : bytes) : Rd D (res bytes) :=
  if negb ((Z.of_nat (length out) <? want) && (2 <=? cl) && (cl <? FAT32_EOC)) then rd_ret (Ok out) else
  match fuel with
  | O => rd_ret Loops
  | S fuel =>
      out <-? read_cluster (Z.to_nat (sectors_per_cluster vol)) 0 vol cl want out;
      next <-- fat_next vol cl;
      read_chain fuel vol next want out
  end.
(** The bytes stored in the buffer; the C result is their number.
    [kernel/fs/fat32.c] fat32_read *)
Definition fat32_read (fuel : nat) vol (path : bytes) (max_len : Z) : Rd D (res bytes) :=
  h <-? resolve fuel vol path;
  let '(cl, size, is_dir) := h in
  if is_dir then rd_ret Fail
  else read_chain fuel vol cl (if size <? max_len then size else max_len) [].
End fat32.

(** ** Names *)

(** A character of an 8.3 name. *)
Definition char_83 (c : Z) : Prop :=
  c <> 0 /\ c <> 46 /\ c <> 32 /\ ~ (97 <= c <= 122).

Lemma upper_id c : char_83 c -> upper c = c.
Proof. intros (_ & _ & _ & Hc). unfold upper. case_step; [lia|done]. Qed.

Lemma base_83_spec b : forall rest o out,
  Forall char_83 b -> 0 <= o -> o + Z.of_nat (length b) <= 8 -> length out = 11%nat ->
  (char_at rest 0 = 0 \/ char_at rest 0 = 46) ->
  exists rest', base_83 (b ++ rest) o out = Some (blit out (Z.to_nat o) b, rest') /\
    (char_at rest 0 = 46 -> rest' = rest) /\ (char_at rest 0 = 0 -> char_at rest' 0 = 0).
Proof.
  induction b as [|c b IH]; intros rest o out Hb Ho Hl Hout Hrest.
  - assert (Hz : blit out (Z.to_nat o) [] = out).
    { unfold blit. simpl. by rewrite Nat.add_0_r, take_drop. }
    rewrite Hz. simpl app. destruct rest as [|x rest]; [by exists []|].
    exists (x :: rest). rewrite char_at_0 in *. cbn [base_83].
    destruct Hrest as [->| ->]; done.
  - inversion_clear Hb as [|? ? Hc Hb']. cbn [length] in Hl.
    destruct (IH rest (o + 1) (puti out o c)) as (rest' & E & R1 & R2);
      [done|lia|lia|by rewrite length_puti|done|].
    exists rest'. split; [|done]. simpl app. cbn [base_83].
    destruct Hc as (C0 & C1 & C2 & C3) eqn:Ec. clear Ec.
    rewrite (proj2 (Z.eqb_neq c 0)), (proj2 (Z.eqb_neq c 46)), (proj2 (Z.leb_gt 8 o)) by lia.
    cbn [orb]. rewrite upper_id by done. rewrite E. do 2 f_equal.
    rewrite puti_blit by lia. replace (Z.to_nat (o + 1)) with (Z.to_nat o + length [c])%nat by (simpl; lia).
    apply (blit_blit_adj _ _ [c] b). lia.
Qed.

Lemma ext_83_spec x : forall e out,
  Forall char_83 x -> 0 <= e -> e + Z.of_nat (length x) <= 3 -> length out = 11%nat ->
  ext_83 x e out = Some (blit out (Z.to_nat (8 + e)) x).
Proof.
  induction x as [|c x IH]; intros e out Hx He Hl Hout.
  - unfold blit. simpl. by rewrite Nat.add_0_r, take_drop.
  - inversion_clear Hx as [|? ? Hc Hx']. cbn [length] in Hl. cbn [ext_83].
    rewrite (proj2 (Z.eqb_neq c 0)), (proj2 (Z.leb_gt 3 e)) by (lia || apply Hc).
    rewrite upper_id by done. rewrite IH by (done || lia || by rewrite length_puti).
    f_equal. rewrite puti_blit by lia.
    replace (Z.to_nat (8 + (e + 1))) with (Z.to_nat (8 + e) + length [c])%nat by (simpl; lia).
    apply (blit_blit_adj _ _ [c] x). lia.
Qed.

Lemma until_blank_spec l rest : Forall char_83 l -> (char_at rest 0 = 32 \/ rest = []) ->
  until_blank (l ++ rest) = l.
Proof.
  intros Hl Hr. induction Hl as [|c l Hc Hl IH]; simpl.
  - destruct Hr as [Hr| ->]; [|done]. destruct rest as [|x rest]; [done|].
    rewrite char_at_0 in Hr. by rewrite Hr.
  - destruct Hc as (_ & _ & C & _). by rewrite (proj2 (Z.eqb_neq c 32)), IH by done.
Qed.

Lemma char_at_blanks n : char_at (replicate n 32) 0 = 32 \/ replicate n 32 = [].
Proof. destruct n; [by right|by left]. Qed.

(** 8.3 names round trip: a name of 1 to 8 characters, alone or with an extension of 1 to 3,
    in upper case and without blanks or dots, is converted to its 11-byte directory form
    and back to itself. *)
Lemma name_83_roundtrip b x :
  Forall char_83 b -> Forall char_83 x -> (length b <= 8)%nat -> (length x <= 3)%nat ->
  let name := b ++ (if bool_decide (x = []) then [] else 46 :: x) in
  exists raw, name_to_83 name = Some raw /\ length raw = 11%nat /\ name_from_83 raw = name.
Proof.
  intros Hb Hx Hlb Hlx name. set (blank := replicate 11 32).
  set (raw := blit (blit blank 0 b) 8 x).
  assert (Hraw : raw = b ++ replicate (8 - length b) 32 ++ x ++ replicate (3 - length x) 32).
  { unfold raw. rewrite blit_0. unfold blit, blank. rewrite drop_replicate.
    rewrite take_app_ge by lia. rewrite take_replicate, drop_app_ge by lia.
    rewrite drop_replicate, <- app_assoc. do 3 f_equal; [lia|]. f_equal. lia. }
  assert (Hl8 : length (b ++ replicate (8 - length b) 32) = 8%nat) by (len).
  assert (Hfrom : name_from_83 raw = name).
  { unfold name_from_83. rewrite Hraw, app_assoc, take_app_length' by done. f_equal.
    { apply until_blank_spec; [done|apply char_at_blanks]. }
    unfold get_bytes. rewrite drop_app_length' by done.
    assert (Hg : geti ((b ++ replicate (8 - length b) 32) ++ x ++ replicate (3 - length x) 32) 8 =
      char_at (x ++ replicate (3 - length x) 32) 0).
    { unfold geti, char_at. rewrite list_lookup_total_alt, lookup_app_r by (rewrite Hl8; done).
      rewrite Hl8. change (Z.to_nat 8 - 8)%nat with 0%nat. change (Z.to_nat 0) with 0%nat.
      destruct x; simpl; [|done]. done. }
    rewrite Hg. destruct x as [|c x]; [done|]. rewrite bool_decide_eq_false_2 by done.
    cbn [app]. rewrite char_at_0. inversion_clear Hx as [|? ? Hc Hx'].
    assert (c <> 32) by apply Hc. rewrite (proj2 (Z.eqb_neq c 32)) by done. cbn [negb].
    f_equal. rewrite app_comm_cons, take_ge by (len).
    apply until_blank_spec; [by constructor|apply char_at_blanks]. }
  exists raw. split; [|split; [rewrite Hraw; len|exact Hfrom]].
  unfold name_to_83, name. fold blank. case_bool_decide as Ex.
  - subst x. rewrite app_nil_r.
    destruct (base_83_spec b [] 0 blank Hb) as (rest & E & _ & R); [lia|lia|done|by left|].
    rewrite app_nil_r in E. rewrite E, R by done. cbn [Z.eqb]. f_equal.
    unfold raw. symmetry. unfold blit at 1. simpl. by rewrite take_drop.
  - destruct (base_83_spec b (46 :: x) 0 blank Hb) as (rest & E & R & _); [lia|lia|done|by right|].
    rewrite E, R by done. rewrite char_at_0, Z.eqb_refl. cbn [tail].
    rewrite ext_83_spec; [done|done|lia|lia|]. rewrite length_blit; [done|]. simpl. lia.
Qed.

Lemma name_83_roundtrip_witness :
  exists raw, name_to_83 [72; 73; 46; 84; 88; 84] = Some raw /\ name_from_83 raw = [72; 73; 46; 84; 88; 84].
Proof.
  assert (Hc : forall c, In c [72; 73; 84; 88] -> char_83 c).
  { intros c Hc. simpl in Hc. unfold char_83. lia. }
  assert (Hb : Forall char_83 [72; 73]) by (repeat constructor; apply Hc; simpl; tauto).
  assert (Hx : Forall char_83 [84; 88; 84]) by (repeat constructor; apply Hc; simpl; tauto).
  destruct (name_83_roundtrip [72; 73] [84; 88; 84] Hb Hx) as (raw & E & _ & F); [simpl; lia..|].
  exists raw. split; [exact E|exact F].
Defined.

(** ** Following chains on a disk that does not fail

    [v] is the content of the device.  [fat_entry] is the abstract FAT, a
    [chain] the clusters of a file in order, [cluster_secs] and [chain_secs]
    the sectors of its data. *)

Section chains.
Context {D : Type} `{BlockDevLaws D}.
Variables (v : Z -> bytes) (vol : Vol).

Definition rel_sec (s : Z) : bytes := v (u32 (base_lba vol + s)).
Definition fat_entry (cl : Z) : Z :=
  let byte_off := u32 (cl * 4) in
  Z.land (rd32 (rel_sec (u32 (fat_start vol + byte_off / 512))) (byte_off mod 512)) 0x0FFFFFFF.
Definition in_chain (cl : Z) : bool := (2 <=? cl) && (cl <? FAT32_EOC).

Inductive chain : Z -> list Z -> Prop :=
| chain_end cl : in_chain cl = false -> chain cl []
| chain_link cl l : in_chain cl = true -> chain (fat_entry cl) l -> chain cl (cl :: l).

Definition cluster_secs (cl : Z) : list bytes :=
  (fun i : nat => rel_sec (u32 (cluster_first_sector vol cl + Z.of_nat i)))
    <$> seq 0 (Z.to_nat (sectors_per_cluster vol)).
Definition chain_secs (l : list Z) : list bytes := concat (cluster_secs <$> l).

Hypothesis v_length : forall s, length (v s) = SECTOR.

Lemma reads_read_rel s : reads v (read_rel vol s) (Some (rel_sec s)).
Proof.
  unfold read_rel, rel_sec. pose proof (u32_is (base_lba vol + s)) as Hu.
  pose proof (reads_sectors v (u32 (base_lba vol + s)) 1) as Hr.
  rewrite sectors_1 in Hr. apply Hr. unfold in_range. ulia.
Qed.

Lemma reads_fat_next cl : reads v (fat_next vol cl) (fat_entry cl).
Proof. unfold fat_next. eapply reads_bind; [apply reads_read_rel|]. apply reads_ret. Qed.

Lemma in_chain_swap cl : (cl <? FAT32_EOC) && (2 <=? cl) = in_chain cl.
Proof. apply andb_comm. Qed.

(** The bytes copied out of the sectors [l] when [out] is already there. *)
Definition fill (want : Z) (out : bytes) (l : list bytes) : bytes :=
  out ++ take (Z.to_nat want - length out) (concat l).

Lemma fill_done want out l : want <= Z.of_nat (length out) -> fill want out l = out.
Proof.
  intros Hw. unfold fill. replace (Z.to_nat want - length out)%nat with 0%nat by lia. apply app_nil_r.
Qed.

Lemma fill_app want out l1 l2 : fill want (fill want out l1) l2 = fill want out (l1 ++ l2).
Proof.
  unfold fill. rewrite concat_app, take_app, <- app_assoc, length_app, length_take. do 3 f_equal. lia.
Qed.

Lemma reads_read_cluster n : forall s cl want out, 0 <= s ->
  reads v (read_cluster n s vol cl want out)
    (Ok (fill want out ((fun i : nat => rel_sec (u32 (cluster_first_sector vol cl + Z.of_nat i)))
                          <$> seq (Z.to_nat s) n))).
Proof.
  induction n as [|n IH]; intros s cl want out Hs; cbn [read_cluster seq fmap list_fmap].
  { unfold fill. simpl. rewrite take_nil, app_nil_r. apply reads_ret. }
  destruct (Z.ltb_spec (Z.of_nat (length out)) want) as [Hw|Hw]; cbn [negb].
  2: { rewrite fill_done by done. apply reads_ret. }
  eapply reads_bind; [apply reads_read_rel|]. cbn beta iota.
  set (sec := rel_sec (u32 (cluster_first_sector vol cl + s))).
  assert (Hsec : length sec = SECTOR) by apply v_length.
  specialize (IH (s + 1) cl want (fill want out [sec]) ltac:(lia)). rewrite fill_app in IH.
  rewrite Z2Nat.id by done. replace (S (Z.to_nat s)) with (Z.to_nat (s + 1)) by lia. fold sec.
  assert (Ht : take (Z.to_nat (if want - Z.of_nat (length out) <? 512 then want - Z.of_nat (length out)
                                else 512)) sec = take (Z.to_nat want - length out) (concat [sec])).
  { simpl. rewrite app_nil_r. unfold SECTOR in Hsec. case_step.
    - f_equal. lia.
    - rewrite !take_ge by lia. done. }
  rewrite Ht. exact IH.
Qed.

(** Enough fuel: one unit per cluster of the chain. *)
Lemma reads_read_chain cl l : chain cl l ->
  forall fuel want out, (length l <= fuel)%nat ->
  reads v (read_chain fuel vol cl want out) (Ok (fill want out (chain_secs l))).
Proof.
  induction 1 as [cl Hc|cl l Hc Hch IH]; intros fuel want out Hf.
  - assert (E : fill want out (chain_secs []) = out)
      by (unfold fill; simpl; by rewrite take_nil, app_nil_r).
    rewrite E. destruct fuel; cbn [read_chain];
      rewrite <- andb_assoc; fold (in_chain cl); rewrite Hc, andb_false_r; apply reads_ret.
  - cbn [length] in Hf. destruct fuel as [|fuel]; [lia|]. cbn [read_chain].
    rewrite <- andb_assoc. fold (in_chain cl). rewrite Hc, andb_true_r.
    destruct (Z.ltb_spec (Z.of_nat (length out)) want) as [Hw|Hw]; cbn [negb].
    2: { rewrite fill_done by done. apply reads_ret. }
    eapply reads_try; [by apply (reads_read_cluster _ 0)|]. fold (cluster_secs cl).
    eapply reads_bind; [apply reads_fat_next|].
    specialize (IH fuel want (fill want out (cluster_secs cl)) ltac:(lia)).
    rewrite fill_app in IH. exact IH.
Qed.

(** *** Directories: the search is a search in the list of entry slots. *)

(** Slot [e] of sector [sec]. *)
Definition slots (l : list bytes) : list (bytes * Z) :=
  concat ((fun sec => (fun e : nat => (sec, Z.of_nat e)) <$> seq 0 16) <$> l).

Fixpoint find_slots (target : bytes) (l : list (bytes * Z)) : option (option DirHit) :=
  match l with
  | [] => None
  | (sec, e) :: l =>
      match classify sec e with
      | EndOfDir => Some None
      | Skip => find_slots target l
      | Live => if bool_decide (get_bytes sec (Z.to_nat (e * DIRENT_SIZE)) 11 = take 11 target)
                then Some (Some (entry_hit sec e)) else find_slots target l
      end
  end.

Lemma find_slots_app target l1 l2 :
  find_slots target (l1 ++ l2) =
  match find_slots target l1 with Some r => Some r | None => find_slots target l2 end.
Proof.
  induction l1 as [|[sec e] l1 IH]; simpl; [done|].
  destruct (classify sec e); [done|done|]. by case_bool_decide.
Qed.

Lemma find_in_sector_slots sec target n k :
  find_in_sector n (Z.of_nat k) sec target =
  find_slots target ((fun e : nat => (sec, Z.of_nat e)) <$> seq k n).
Proof.
  revert k; induction n as [|n IH]; intros k; cbn [find_in_sector seq fmap list_fmap find_slots]; [done|].
  replace (Z.of_nat k + 1) with (Z.of_nat (S k)) by lia. by rewrite IH.
Qed.

Lemma reads_find_in_cluster target n : forall s cl, 0 <= s ->
  reads v (find_in_cluster n s vol cl target)
    (find_slots target (slots ((fun i : nat => rel_sec (u32 (cluster_first_sector vol cl + Z.of_nat i)))
                                 <$> seq (Z.to_nat s) n))).
Proof.
  induction n as [|n IH]; intros s cl Hs; cbn [find_in_cluster seq fmap list_fmap]; [apply reads_ret|].
  eapply reads_bind; [apply reads_read_rel|]. cbn beta iota.
  rewrite Z2Nat.id by done. replace (S (Z.to_nat s)) with (Z.to_nat (s + 1)) by lia.
  unfold slots. cbn [fmap list_fmap concat]. rewrite find_slots_app.
  rewrite (find_in_sector_slots _ _ 16 0). cbn match.
  destruct (find_slots target _); [apply reads_ret|]. apply IH. lia.
Qed.

Lemma reads_find_cluster target cl :
  reads v (find_in_cluster (Z.to_nat (sectors_per_cluster vol)) 0 vol cl target)
    (find_slots target (slots (cluster_secs cl))).
Proof. by apply (reads_find_in_cluster target (Z.to_nat (sectors_per_cluster vol)) 0). Qed.

Lemma slots_app l1 l2 : slots (l1 ++ l2) = slots l1 ++ slots l2.
Proof. unfold slots. by rewrite fmap_app, concat_app. Qed.

Definition hit_res (r : option (option DirHit)) : res DirHit :=
  match r with Some (Some h) => Ok h | _ => Fail end.

Lemma reads_dir_find cl l : chain cl l -> forall fuel target, (length l <= fuel)%nat ->
  reads v (dir_find fuel vol cl target) (hit_res (find_slots target (slots (chain_secs l)))).
Proof.
  induction 1 as [cl Hc|cl l Hc Hch IH]; intros fuel target Hf.
  - destruct fuel; cbn [dir_find]; rewrite in_chain_swap, Hc; apply reads_ret.
  - cbn [length] in Hf. destruct fuel as [|fuel]; [lia|]. cbn [dir_find].
    rewrite in_chain_swap, Hc. cbn [negb].
    eapply reads_bind; [apply reads_find_cluster|].
    change (chain_secs (cl :: l)) with (cluster_secs cl ++ chain_secs l).
    rewrite slots_app, find_slots_app.
    destruct (find_slots target (slots (cluster_secs cl))) as [[h|]|]; [apply reads_ret..|].
    eapply reads_bind; [apply reads_fat_next|]. apply IH. lia.
Qed.

(** *** Files in the root directory *)

Lemma component_spec name rest : forall n, Forall (fun c => c <> 0 /\ c <> 47) name ->
  (length name <= n)%nat -> (char_at rest 0 = 0 \/ char_at rest 0 = 47) ->
  component n (name ++ rest) = (name, rest).
Proof.
  intros n Hn; revert n; induction Hn as [|c name [C0 C47] Hn IH]; intros n Hl Hr.
  - destruct n, rest as [|x rest]; [done..|]. simpl. rewrite char_at_0 in Hr.
    destruct Hr as [->| ->]; done.
  - cbn [length] in Hl. destruct n as [|n]; [lia|]. simpl.
    rewrite (proj2 (Z.eqb_neq c 0)), (proj2 (Z.eqb_neq c 47)) by done. cbn [orb].
    by rewrite IH by (done || lia).
Qed.

Lemma reads_resolve_root fuel name t83 cls r :
  mounted vol = true -> Forall (fun c => c <> 0 /\ c <> 47) name -> name <> [] ->
  (length name <= 12)%nat -> name_to_83 name = Some t83 ->
  chain (root_cluster vol) cls -> (length cls <= fuel)%nat ->
  find_slots t83 (slots (chain_secs cls)) = r ->
  reads v (resolve fuel vol (47 :: name)) (hit_res r).
Proof.
  intros Hm Hn Hne Hl Ht Hch Hf Hr. unfold resolve. rewrite Hm. cbn [negb orb].
  rewrite char_at_0. cbn [Z.eqb Pos.eqb negb orb tail length resolve_loop].
  pose proof (component_spec name [] 12 Hn Hl (or_introl eq_refl)) as Hc. rewrite app_nil_r in Hc.
  assert (Hc0 : (char_at name 0 =? 0) = false).
  { destruct name as [|c name]; [done|]. rewrite char_at_0. apply Z.eqb_neq.
    by inversion_clear Hn as [|? ? [C _]]. }
  rewrite Hc0, Hc. change (char_at [] 0 =? 0) with true. cbn [negb andb skip_slashes].
  destruct name as [|c name]; [done|]. rewrite Ht.
  pose proof (reads_dir_find _ _ Hch fuel t83 Hf) as Hd. rewrite Hr in Hd. unfold rd_try.
  eapply reads_bind; [exact Hd|]. destruct r as [[[[cl size] d]|]|]; cbn [hit_res]; [|apply reads_ret..].
  cbn [length resolve_loop]. apply reads_ret.
Qed.

(** C29. Reading a file of the root directory returns its bytes: when the root directory's chain
    holds (before its end marker) a file entry for the name, and the file's clusters form a chain
    with at most [fuel] clusters, fat32_read stores exactly the first min(size, max_len) bytes of the
    concatenated clusters, from a device whose content it leaves unchanged. *)
Theorem fat32_read_spec fuel name t83 dir_cls cls cl size max_len :
  mounted vol = true -> Forall (fun c => c <> 0 /\ c <> 47) name -> name <> [] ->
  (length name <= 12)%nat -> name_to_83 name = Some t83 ->
  chain (root_cluster vol) dir_cls -> (length dir_cls <= fuel)%nat ->
  find_slots t83 (slots (chain_secs dir_cls)) = Some (Some (cl, size, false)) ->
  chain cl cls -> (length cls <= fuel)%nat ->
  reads v (fat32_read fuel vol (47 :: name) max_len)
    (Ok (take (Z.to_nat (Z.min size max_len)) (concat (chain_secs cls)))).
Proof.
  intros Hm Hn Hne Hl Ht Hd Hdf Hfind Hc Hf. unfold fat32_read.
  pose proof (reads_resolve_root fuel name t83 dir_cls _ Hm Hn Hne Hl Ht Hd Hdf Hfind) as Hres.
  eapply reads_try; [exact Hres|]. cbn beta iota.
  pose proof (reads_read_chain _ _ Hc fuel (if size <? max_len then size else max_len) [] Hf) as Hr.
  unfold fill in Hr. cbn [app length] in Hr. rewrite Nat.sub_0_r in Hr.
  replace (Z.min size max_len) with (if size <? max_len then size else max_len); [exact Hr|].
  case_step; lia.
Qed.

(** A cyclic cluster chain is followed forever: when the FAT entry of a directory's cluster
    names that cluster and no slot of it ends the search, dir_find runs out of any fuel. *)
Lemma dir_find_cyclic_never_returns cl target :
  in_chain cl = true -> fat_entry cl = cl -> find_slots target (slots (cluster_secs cl)) = None ->
  forall fuel, reads v (dir_find fuel vol cl target) Loops.
Proof.
  intros Hc Hfix Hno. induction fuel as [|fuel IH]; cbn [dir_find]; rewrite in_chain_swap, Hc; cbn [negb].
  - apply reads_ret.
  - eapply reads_bind; [apply reads_find_cluster|]. rewrite Hno.
    eapply reads_bind; [apply reads_fat_next|]. by rewrite Hfix.
Qed.
End chains.

(** A volume of one-sector clusters: the root directory in cluster 2 holds
    HI.TXT, 520 bytes in clusters 3 and 4.  In [cyclic_disk] the root
    directory is full of deleted entries and its FAT entry is itself. *)
Definition demo_vol : Vol := mkVol true 0 1 2 2 1 10.
Definition demo_fat (root_next : Z) : bytes :=
  blit (zeros 512) 8 (le_enc 4 root_next ++ le_enc 4 4 ++ le_enc 4 0x0FFFFFFF).
Definition demo_dir : bytes :=
  blit (zeros 512) 0 ([72; 73; 32; 32; 32; 32; 32; 32; 84; 88; 84; 32] ++ zeros 14 ++ le_enc 2 3 ++ le_enc 4 520).
Definition demo_disk : RamDisk := mkRamDisk
  (<[1 := demo_fat 0x0FFFFFFF]> (<[2 := demo_dir]> (<[3 := replicate 512 65]> (<[4 := replicate 512 66]> ∅)))).
Definition cyclic_disk : RamDisk := mkRamDisk (<[1 := demo_fat 2]> (<[2 := replicate 512 0xE5]> ∅)).

Lemma demo_fat_ok : ram_ok demo_disk.
Proof. unfold ram_ok, demo_disk. cbn [ram]. repeat apply map_Forall_insert_2; done. Qed.
Lemma cyclic_ok : ram_ok cyclic_disk.
Proof. unfold ram_ok, cyclic_disk. cbn [ram]. repeat apply map_Forall_insert_2; done. Qed.
Lemma ram_sector_length d s : ram_ok d -> length (ram_sector d s) = SECTOR.
Proof. intros Hd. exact (bd_view_length (D := RamDisk) d s Hd). Qed.

Lemma fat32_read_spec_witness :
  (fat32_read 3 demo_vol [47; 72; 73; 46; 84; 88; 84] 514 demo_disk).1 =
    Ok (take 514 (replicate 512 65 ++ replicate 512 66)).
Proof.
  assert (Hv : forall s, length (ram_sector demo_disk s) = SECTOR)
    by (intros s; apply ram_sector_length, demo_fat_ok).
  assert (Hn : Forall (fun c => c <> 0 /\ c <> 47) [72; 73; 46; 84; 88; 84])
    by (repeat constructor; lia).
  assert (Hd : chain (ram_sector demo_disk) demo_vol 2 [2])
    by (constructor; [done|]; constructor; vm_compute; done).
  assert (Hc : chain (ram_sector demo_disk) demo_vol 3 [3; 4]).
  { constructor; [done|]. replace (fat_entry _ _ 3) with 4 by (vm_compute; done).
    constructor; [done|]. constructor. vm_compute. done. }
  assert (Ht : name_to_83 [72; 73; 46; 84; 88; 84] = Some [72; 73; 32; 32; 32; 32; 32; 32; 84; 88; 84])
    by (vm_compute; done).
  assert (Hfind : find_slots [72; 73; 32; 32; 32; 32; 32; 32; 84; 88; 84]
    (slots (chain_secs (ram_sector demo_disk) demo_vol [2])) = Some (Some (3, 520, false)))
    by (vm_compute; done).
  pose proof (fat32_read_spec (D := RamDisk) (ram_sector demo_disk) demo_vol Hv 3 _ _ [2] [3; 4] 3 520 514
    eq_refl Hn ltac:(done) ltac:(simpl; lia) Ht Hd ltac:(simpl; lia) Hfind Hc ltac:(simpl; lia)) as Hr.
  rewrite (reads_run _ _ _ demo_disk Hr demo_fat_ok) by done. f_equal; vm_compute; done.
Defined.

Lemma dir_find_cyclic_never_returns_witness :
  (dir_find 1000 demo_vol 2 (replicate 11 65) cyclic_disk).1 = Loops.
Proof.
  eapply reads_run; [|exact cyclic_ok|done].
  apply dir_find_cyclic_never_returns; [done|vm_compute; done|vm_compute; done].
Defined.
