(* ===== verification/Ext2.v ===== *)
(** The read-only ext2 driver (kernel/fs/ext2.c): mounting, inodes, direct and
    single-indirect blocks, directory search, path resolution, listing and
    file reading, over any sector device.

    The loops over directory records and over the blocks of a file take fuel
    that the definitions compute themselves: a record is at least 8 bytes
    long, and a block number beyond the indirect block ends every loop.
    [ext2_terminates] shows that it never runs out, on any device.

    A record or inode that straddles the end of its block makes the code read
    the rest of a static buffer; the model reads zeros there, and the
    functional theorem is about volumes where it does not happen. *)

From S2P Require Import Prelude CString BlockDev.

(** [kernel/fs/ext2.c] constants *)
Definition EXT2_MAGIC := 0xEF53.
Definition EXT2_ROOT_INO := 2.
Definition S_IFMT := 0xF000.
Definition S_IFDIR := 0x4000.
Definition S_IFREG := 0x8000.
Definition EXT2_NDIR := 12.

(** [kernel/fs/ext2.c:21-30] g_e2 *)
Record E2 := mkE2 {
  mounted : bool; base_lba : Z; block_size : Z; sectors_per_block : Z;
  inodes_per_group : Z; inode_size : Z; first_data_block : Z; gd_block : Z }.
#[export] Instance eta_E2 : Eta E2 := fun r => mkE2 (mounted r) (base_lba r) (block_size r)
  (sectors_per_block r) (inodes_per_group r) (inode_size r) (first_data_block r) (gd_block r).

(** The static variables that survive a call: the last indirect block.
    [kernel/fs/ext2.c:90-91] inode_nth_block *)
Record IndCache := mkIndCache { ind : bytes; cached_ind : Z }.

(** [kernel/fs/ext2.c] erd16 *)
Definition erd16 (p : bytes) (i : Z) : Z := u16 (Z.lor (geti p i) (Z.shiftl (geti p (i + 1)) 8)).
(** [kernel/fs/ext2.c] erd32 *)
Definition erd32 (p : bytes) (i : Z) : Z :=
  Z.lor (Z.lor (Z.lor (geti p i) (Z.shiftl (geti p (i + 1)) 8)) (Z.shiftl (geti p (i + 2)) 16))
    (u32 (Z.shiftl (geti p (i + 3)) 24)).

(** What inode_load stores through its pointers.
    [kernel/fs/ext2.c:68-69] inode_load *)
Record Inode := mkInode { i_mode : Z; i_size : Z; i_blocks : list Z }.
Definition is_dir (i : Inode) : bool := Z.land (i_mode i) S_IFMT =? S_IFDIR.
Definition is_reg (i : Inode) : bool := Z.land (i_mode i) S_IFMT =? S_IFREG.

Section ext2.
Context {D : Type} `{BlockDev D}.
Implicit Types (g : E2).

(** Device and static state. *)
Definition St : Type := D * IndCache.

Definition on_dev {A} (m : Rd D A) : Rd St A := fun '(d, c) => let '(a, d) := m d in (a, (d, c)).

(** [kernel/fs/ext2.c] read_block *)
Definition read_block g (block : Z) : Rd St (option bytes) :=
  on_dev (rd_sectors (u32 (base_lba g + u32 (block * sectors_per_block g))) (u8 (sectors_per_block g))).

(** [kernel/fs/ext2.c] ext2_mount *)
Definition ext2_mount g (base : Z) : Rd St (Z * E2) :=
  let g := g <| mounted := false |> <| base_lba := base |> in
  sb <-- on_dev (rd_sectors (u32 (base + 2)) 2);
  match sb with
  | None => rd_ret (-1, g)
  | Some sb =>
      if negb (erd16 sb 56 =? EXT2_MAGIC) then rd_ret (-1, g) else
      let log_bs := erd32 sb 24 in
      if 2 <? log_bs then rd_ret (-1, g) else
      let bs := Z.shiftl 1024 log_bs in
      let rev := erd32 sb 76 in
      let g := g <| block_size := bs |> <| sectors_per_block := bs / 512 |>
                 <| inodes_per_group := erd32 sb 40 |> <| first_data_block := erd32 sb 20 |>
                 <| inode_size := if 1 <=? rev then erd16 sb 88 else 128 |> in
      if (inode_size g <? 128) || (inodes_per_group g =? 0) then rd_ret (-1, g) else
      rd_ret (0, g <| gd_block := u32 (first_data_block g + 1) |> <| mounted := true |>)
  end.

(** [kernel/fs/ext2.c] ext2_mounted *)
Definition ext2_mounted g : bool := mounted g.

(** [kernel/fs/ext2.c:82-84] inode_load *)
Definition decode_inode (blk : bytes) (off : Z) : Inode :=
  mkInode (erd16 blk off) (erd32 blk (off + 4))
    ((fun i : nat => erd32 blk (off + 40 + Z.of_nat i * 4)) <$> seq 0 13).
(** [None] is -1.
    [kernel/fs/ext2.c] inode_load *)
Definition inode_load g (ino : Z) : Rd St (option Inode) :=
  if ino =? 0 then rd_ret None else
  let group := (ino - 1) / inodes_per_group g in
  let index := (ino - 1) mod inodes_per_group g in
  let gd_per_block := block_size g / 32 in
  gd <-- read_block g (u32 (gd_block g + group / gd_per_block));
  match gd with
  | None => rd_ret None
  | Some gd =>
      let itable := erd32 gd ((group mod gd_per_block) * 32 + 8) in
      let byte_off := u32 (index * inode_size g) in
      tb <-- read_block g (u32 (itable + byte_off / block_size g));
      match tb with
      | None => rd_ret None
      | Some tb => rd_ret (Some (decode_inode tb (byte_off mod block_size g)))
      end
  end.

(** A failed read may have overwritten part of [ind].
    [kernel/fs/ext2.c] inode_nth_block *)
Definition inode_nth_block g (blocks : list Z) (n : Z) : Rd St Z := fun '(d, c) =>
  if n <? EXT2_NDIR then (geti blocks n, (d, c)) else
  let n := n - EXT2_NDIR in
  let ib := geti blocks EXT2_NDIR in
  if (block_size g / 4 <=? n) || (ib =? 0) then (0, (d, c)) else
  if negb (cached_ind c =? ib) then
    let '(rc, out, d) :=
      bd_read d (u32 (base_lba g + u32 (ib * sectors_per_block g))) (u8 (sectors_per_block g)) in
    let buf := blit (ind c) 0 out in
    if rc <? 0 then (0, (d, mkIndCache buf (cached_ind c)))
    else (erd32 buf (n * 4), (d, mkIndCache buf ib))
  else (erd32 (ind c) (n * 4), (d, c)).

(** [kernel/fs/ext2.c:120-121] dir_find *)
Definition name_matches (blk : bytes) (off : Z) (name : bytes) : bool :=
  bool_decide (read_n (drop (Z.to_nat (off + 8)) blk) (length name) = name).
(** [Ok (Some ino)]: return it ([Some 0] when the block is corrupt);
    [Ok None]: go on with the next block.
    [kernel/fs/ext2.c:112-125] dir_find *)
Fixpoint scan_block (fuel : nat) g (blk : bytes) (off : Z) (name : bytes) : res (option Z) :=
  if negb (off + 8 <=? block_size g) then Ok None else
  match fuel with
  | O => Loops
  | S fuel =>
      let ino := erd32 blk off in
      let rec_len := erd16 blk (off + 4) in
      let nlen := geti blk (off + 6) in
      if rec_len <? 8 then Ok (Some 0) else
      if negb (ino =? 0) && (nlen =? Z.of_nat (length name)) && name_matches blk off name
      then Ok (Some ino) else scan_block fuel g blk (off + rec_len) name
  end.
Definition block_fuel g : nat := Z.to_nat (block_size g).
Definition file_fuel g : nat := Z.to_nat (EXT2_NDIR + block_size g / 4 + 1).

(** [Fail] is 0, not found.
    [kernel/fs/ext2.c:109-127] dir_find *)
Fixpoint find_blocks (fuel : nat) g (i : Inode) (n : Z) (name : bytes) : Rd St (res Z) :=
  if negb (u32 (n * block_size g) <? i_size i) then rd_ret Fail else
  match fuel with
  | O => rd_ret Loops
  | S fuel =>
      b <-- inode_nth_block g (i_blocks i) n;
      if b =? 0 then rd_ret Fail else
      blk <-- read_block g b;
      match blk with
      | None => rd_ret Fail
      | Some blk =>
          match scan_block (block_fuel g) g blk 0 name with
          | Ok (Some ino) => rd_ret (if ino =? 0 then Fail else Ok ino)
          | Ok None => find_blocks fuel g i (n + 1) name
          | Fail => rd_ret Fail
          | Loops => rd_ret Loops
          end
      end
  end.
(** [kernel/fs/ext2.c] dir_find *)
Definition dir_find g (dir_ino : Z) (name : bytes) : Rd St (res Z) :=
  i <-- inode_load g dir_ino;
  match i with
  | None => rd_ret Fail
  | Some i => if negb (is_dir i) then rd_ret Fail else find_blocks (file_fuel g) g i 0 name
  end.

(** [kernel/fs/ext2.c:137-137] resolve *)
Fixpoint component (p : bytes) : bytes * bytes :=
  match p with
  | c :: p' => if (c =? 0) || (c =? 47) then ([], p)
               else let '(comp, rest) := component p' in (c :: comp, rest)
  | [] => ([], [])
  end.
(** [kernel/fs/ext2.c:139-139] resolve *)
Fixpoint skip_slashes (p : bytes) : bytes :=
  match p with c :: p' => if c =? 47 then skip_slashes p' else p | [] => [] end.
(** [kernel/fs/ext2.c:135-144] resolve *)
Fixpoint resolve_loop (steps : nat) g (p : bytes) (ino : Z) : Rd St (res Z) :=
  if char_at p 0 =? 0 then rd_ret (Ok ino) else
  match steps with
  | O => rd_ret Loops
  | S steps =>
      let '(comp, rest) := component p in
      let rest := skip_slashes rest in
      match comp with
      | [] => resolve_loop steps g rest ino
      | _ => if 255 <? Z.of_nat (length comp) then rd_ret Fail
             else ino <-? dir_find g ino comp; resolve_loop steps g rest ino
      end
  end.
(** [kernel/fs/ext2.c] resolve *)
Definition resolve g (path : bytes) : Rd St (res Z) :=
  if negb (mounted g) || negb (char_at path 0 =? 47) then rd_ret Fail
  else resolve_loop (length path) g (tail path) EXT2_ROOT_INO.

(** The inode a path names; [Fail] where the callers return -1.
    [kernel/fs/ext2.c:150-154] ext2_list *)
Definition resolve_inode g (path : bytes) : Rd St (res Inode) :=
  ino <-? resolve g path;
  i <-- inode_load g ino;
  rd_ret (match i with Some i => Ok i | None => Fail end).

(** What the callback of ext2_list receives: name, size, directory; an entry
    whose inode cannot be loaded is only counted.
    [kernel/fs/ext2.c:160-177] ext2_list *)
Fixpoint list_block (fuel : nat) g (blk : bytes) (off : Z)
    : Rd St (res (list (option (bytes * Z * bool)))) :=
  if negb (off + 8 <=? block_size g) then rd_ret (Ok []) else
  match fuel with
  | O => rd_ret Loops
  | S fuel =>
      let e_ino := erd32 blk off in
      let rec_len := erd16 blk (off + 4) in
      let nlen := geti blk (off + 6) in
      if rec_len <? 8 then rd_ret (Ok []) else
      if negb (e_ino =? 0) && (0 <? nlen) then
        let name := read_n (drop (Z.to_nat (off + 8)) blk) (Z.to_nat nlen) in
        i <-- inode_load g e_ino;
        l <-? list_block fuel g blk (off + rec_len);
        rd_ret (Ok ((match i with Some i => Some (name, i_size i, is_dir i) | None => None end) :: l))
      else list_block fuel g blk (off + rec_len)
  end.
(** [kernel/fs/ext2.c:157-178] ext2_list *)
Fixpoint list_blocks (fuel : nat) g (i : Inode) (n : Z)
    : Rd St (res (list (option (bytes * Z * bool)))) :=
  if negb (u32 (n * block_size g) <? i_size i) then rd_ret (Ok []) else
  match fuel with
  | O => rd_ret Loops
  | S fuel =>
      b <-- inode_nth_block g (i_blocks i) n;
      if b =? 0 then rd_ret (Ok []) else
      blk <-- read_block g b;
      match blk with
      | None => rd_ret (Ok [])
      | Some blk => l1 <-? list_block (block_fuel g) g blk 0;
                    l2 <-? list_blocks fuel g i (n + 1);
                    rd_ret (Ok (l1 ++ l2))
      end
  end.
(** The count returned is the length of the list.
    [kernel/fs/ext2.c] ext2_list *)
Definition ext2_list g (path : bytes) : Rd St (res (list (option (bytes * Z * bool)))) :=
  i <-? resolve_inode g path;
  if negb (is_dir i) then rd_ret Fail else list_blocks (file_fuel g) g i 0.

(** [kernel/fs/ext2.c] ext2_stat *)
Definition ext2_stat g (path : bytes) : Rd St (res (Z * bool)) :=
  i <-? resolve_inode g path; rd_ret (Ok (i_size i, is_dir i)).

(** [kernel/fs/ext2.c:203-209] ext2_read *)
Fixpoint read_blocks (fuel : nat) g (i : Inode) (n want : Z) (out : bytes) : Rd St (res bytes) :=
  let done := Z.of_nat (length out) in
  if negb (done <? want) then rd_ret (Ok out) else
  match fuel with
  | O => rd_ret Loops
  | S fuel =>
      b <-- inode_nth_block g (i_blocks i) n;
      if b =? 0 then rd_ret Fail else
      blk <-- read_block g b;
      match blk with
      | None => rd_ret Fail
      | Some blk =>
          let m := if want - done <? block_size g then want - done else block_size g in
          read_blocks fuel g i (n + 1) want (out ++ take (Z.to_nat m) blk)
      end
  end.
(** The bytes stored in the buffer; the C result is their number.
    [kernel/fs/ext2.c] ext2_read *)
Definition ext2_read g (path : bytes) (max_len : Z) : Rd St (res bytes) :=
  i <-? resolve_inode g path;
  if negb (is_reg i) then rd_ret Fail
  else read_blocks (file_fuel g) g i 0 (if i_size i <? max_len then i_size i else max_len) [].
End ext2.
Arguments St D : clear implicits.

(** ** Termination *)

(** The geometry a successful mount establishes. *)
Definition geom (g : E2) : Prop :=
  In (sectors_per_block g) [2; 4; 8] /\ block_size g = 512 * sectors_per_block g.

Section terminates.
Context {D : Type} `{BlockDev D}.
Implicit Types (g : E2) (s : St D).

(** [m] never runs out of fuel. *)
Definition halts {A} (m : Rd (St D) (res A)) : Prop := forall s, (m s).1 <> Loops.

Lemma halts_ret {A} (r : res A) : r <> Loops -> halts (rd_ret r).
Proof. by intros Hr s. Qed.

Lemma halts_bind {A B} (m : Rd (St D) A) (k : A -> Rd (St D) (res B)) :
  (forall a, halts (k a)) -> halts (rd_bind m k).
Proof. intros Hk s. unfold rd_bind. destruct (m s) as [a s']. apply Hk. Qed.

Lemma halts_try {A B} (m : Rd (St D) (res A)) (k : A -> Rd (St D) (res B)) :
  halts m -> (forall a, halts (k a)) -> halts (rd_try m k).
Proof.
  intros Hm Hk s. unfold rd_try, rd_bind. specialize (Hm s). destruct (m s) as [[a| |] s']; [apply Hk|done|done].
Qed.
Hint Resolve halts_bind halts_try : core.
Hint Extern 1 (halts (rd_ret _)) => (apply halts_ret; congruence) : core.

Lemma inode_nth_block_end g blocks n s :
  EXT2_NDIR + block_size g / 4 <= n -> 0 <= block_size g -> (inode_nth_block g blocks n s).1 = 0.
Proof.
  intros Hn Hb. unfold inode_nth_block, EXT2_NDIR in *. destruct s as [d c].
  rewrite (proj2 (Z.ltb_ge n 12)) by dlia. rewrite (proj2 (Z.leb_le _ (n - 12))) by lia. done.
Qed.

(** The loop body [b = inode_nth_block(n); if (b == 0) ...; rest]: by the end
    of the indirect block it stops. *)
Lemma halts_nth_block {A} g blocks n fuel r (k : Z -> Rd (St D) (res A)) :
  0 <= block_size g -> EXT2_NDIR + block_size g / 4 + 1 <= n + Z.of_nat (S fuel) -> r <> Loops ->
  (forall b, EXT2_NDIR + block_size g / 4 + 1 <= n + 1 + Z.of_nat fuel -> fuel <> O -> halts (k b)) ->
  halts (b <-- inode_nth_block g blocks n; if b =? 0 then rd_ret r else k b).
Proof.
  intros Hb Hn Hr Hk s. unfold rd_bind. pose proof (inode_nth_block_end g blocks n s) as He.
  destruct (inode_nth_block g blocks n s) as [b s']. simpl in He.
  destruct (Z.eqb_spec b 0) as [->|Hb0]; [done|].
  destruct fuel as [|fuel]; [lia|]. apply Hk; lia.
Qed.

Lemma scan_block_halts g blk name : forall fuel off,
  block_size g <= off + Z.of_nat fuel -> scan_block fuel g blk off name <> Loops.
Proof.
  induction fuel as [|fuel IH]; intros off Hf; cbn [scan_block]; cbv zeta;
    (destruct (Z.leb_spec (off + 8) (block_size g)); cbn [negb]; [|done]); [lia|].
  destruct (Z.ltb_spec (erd16 blk (off + 4)) 8); [done|]. case_match; [done|]. apply IH. lia.
Qed.

Lemma find_blocks_halts g i name : 0 <= block_size g -> forall fuel n,
  EXT2_NDIR + block_size g / 4 + 1 <= n + Z.of_nat fuel -> fuel <> O ->
  halts (find_blocks fuel g i n name).
Proof.
  intros Hb. induction fuel as [|fuel IH]; intros n Hn Hf; [done|]. cbn [find_blocks].
  case_match; [auto|]. apply (halts_nth_block g _ _ fuel); [done..|]. intros b Hn' Hf'.
  apply halts_bind. intros [blk|]; [|auto].
  pose proof (scan_block_halts g blk name (block_fuel g) 0) as Hs. unfold block_fuel in *.
  destruct (scan_block _ g blk 0 name) as [[ino|]| |]; [|auto..|exfalso; apply Hs; [lia|done]].
  apply halts_ret. by case_match.
Qed.

Lemma dir_find_halts g ino name : 0 <= block_size g -> halts (dir_find g ino name).
Proof.
  intros Hb. apply halts_bind. intros [i|]; [|auto]. case_match; [auto|].
  apply find_blocks_halts; [done|..]; unfold file_fuel, EXT2_NDIR; dlia.
Qed.

Lemma skip_slashes_length p : (length (skip_slashes p) <= length p)%nat.
Proof. induction p; simpl; [done|]. case_match; simpl; lia. Qed.
Lemma component_length p : (length (component p).1 + length (component p).2 = length p)%nat.
Proof.
  induction p as [|c p IH]; simpl; [done|]. case_match; [done|]. destruct (component p). simpl in *. lia.
Qed.

Lemma component_progress p : char_at p 0 <> 0 ->
  (length (skip_slashes (component p).2) < length p)%nat.
Proof.
  intros Hp. destruct p as [|c p]; [done|]. rewrite char_at_0 in Hp. cbn [component].
  destruct (Z.eqb_spec c 0) as [|_]; [done|]. cbn [orb].
  destruct (Z.eqb_spec c 47) as [->|Hc].
  - simpl. pose proof (skip_slashes_length p). lia.
  - pose proof (component_length p) as Hl. destruct (component p) as [comp rest]. simpl in *.
    pose proof (skip_slashes_length rest). lia.
Qed.

Lemma resolve_loop_halts g : 0 <= block_size g -> forall steps p ino, (length p <= steps)%nat ->
  halts (resolve_loop steps g p ino).
Proof.
  intros Hb. induction steps as [|steps IH]; intros p ino Hs; cbn [resolve_loop];
    (destruct (Z.eqb_spec (char_at p 0) 0) as [|Hp]; [auto|]).
  - destruct p; simpl in *; [done|lia].
  - pose proof (component_progress p Hp) as Hl. destruct (component p) as [comp rest]. simpl in Hl.
    destruct comp; [apply IH; lia|]. case_match; [auto|].
    apply halts_try; [by apply dir_find_halts|]. intros a. apply IH. lia.
Qed.

Lemma resolve_inode_halts g path : 0 <= block_size g -> halts (resolve_inode g path).
Proof.
  intros Hb. apply halts_try.
  - unfold resolve. case_match; [auto|]. apply resolve_loop_halts; [done|].
    destruct path; simpl; lia.
  - intros ino. apply halts_bind. intros [i|]; auto.
Qed.

Lemma list_block_halts g blk : forall fuel off,
  block_size g <= off + Z.of_nat fuel -> halts (list_block fuel g blk off).
Proof.
  induction fuel as [|fuel IH]; intros off Hf; cbn [list_block]; cbv zeta;
    (destruct (Z.leb_spec (off + 8) (block_size g)); cbn [negb]; [|auto]); [lia|].
  destruct (Z.ltb_spec (erd16 blk (off + 4)) 8); [auto|]. case_match; [|apply IH; lia].
  apply halts_bind. intros oi. apply halts_try; [apply IH; lia|]. auto.
Qed.

Lemma list_blocks_halts g i : 0 <= block_size g -> forall fuel n,
  EXT2_NDIR + block_size g / 4 + 1 <= n + Z.of_nat fuel -> fuel <> O ->
  halts (list_blocks fuel g i n).
Proof.
  intros Hb. induction fuel as [|fuel IH]; intros n Hn Hf; [done|]. cbn [list_blocks].
  case_match; [auto|]. apply (halts_nth_block g _ _ fuel); [done..|]. intros b Hn' Hf'.
  apply halts_bind. intros [blk|]; [|auto].
  apply halts_try; [apply list_block_halts; unfold block_fuel; lia|]. intros l1.
  apply halts_try; [by apply IH|]. auto.
Qed.

Lemma read_blocks_halts g i want : 0 <= block_size g -> forall fuel n out,
  EXT2_NDIR + block_size g / 4 + 1 <= n + Z.of_nat fuel -> fuel <> O ->
  halts (read_blocks fuel g i n want out).
Proof.
  intros Hb. induction fuel as [|fuel IH]; intros n out Hn Hf; [done|]. cbn [read_blocks].
  case_match; [auto|]. apply (halts_nth_block g _ _ fuel); [done..|]. intros b Hn' Hf'.
  apply halts_bind. intros [blk|]; auto.
Qed.

(** What mounting leaves behind. *)
Lemma ext2_mount_cases g0 base s :
  let '(rc, g) := (ext2_mount g0 base s).1 in
  (rc = 0 /\ mounted g = true /\ 0 <= block_size g) \/ (rc = -1 /\ mounted g = false).
Proof.
  unfold ext2_mount, rd_bind. destruct (on_dev _ s) as [[sb|] s1]; [|by right].
  destruct (negb _); [by right|]. cbv zeta. destruct (2 <? _); [by right|].
  destruct (_ || _); [by right|]. left. split; [done|]. split; [done|]. by apply Z.shiftl_nonneg.
Qed.

Lemma unmounted_fails g path s : mounted g = false -> (resolve_inode g path s).1 = Fail.
Proof. intros Hm. unfold resolve_inode, resolve. by rewrite Hm. Qed.

(** C31. No directory or file can make the driver loop: whatever a mount attempt found on the
    device, and whatever the device returns later, ext2_list, ext2_stat and ext2_read return.
    The fuel of their loops (512 bytes or more of records per block, 12 direct blocks and one
    indirect block) is never used up. *)
Theorem ext2_terminates g0 base s path max_len s' :
  let g := (ext2_mount g0 base s).1.2 in
  (ext2_list g path s').1 <> Loops /\ (ext2_stat g path s').1 <> Loops /\
  (ext2_read g path max_len s').1 <> Loops.
Proof.
  intros g. pose proof (ext2_mount_cases g0 base s) as Hc.
  subst g. destruct (ext2_mount g0 base s) as [[rc g] s1]. cbn [fst snd] in *.
  destruct Hc as [(_ & _ & Hb)|[_ Hm]].
  - assert (Hf : file_fuel g <> O) by (unfold file_fuel, EXT2_NDIR; dlia).
    assert (Hn : EXT2_NDIR + block_size g / 4 + 1 <= 0 + Z.of_nat (file_fuel g))
      by (unfold file_fuel, EXT2_NDIR; dlia).
    split; [|split].
    + apply halts_try; [by apply resolve_inode_halts|]. intros i. case_match; [auto|].
      by apply list_blocks_halts.
    + apply halts_try; [by apply resolve_inode_halts|]. auto.
    + apply halts_try; [by apply resolve_inode_halts|]. intros i. case_match; [auto|].
      by apply read_blocks_halts.
  - pose proof (unmounted_fails g path s' Hm) as Hr.
    unfold ext2_list, ext2_stat, ext2_read, rd_try, rd_bind.
    destruct (resolve_inode g path s') as [r s2]. simpl in Hr. subst r. done.
Qed.
End terminates.

(** ** Files and directories of a well-formed volume *)

Section volume.
Context {D : Type} `{BlockDevLaws D}.
Variables (v : Z -> bytes) (g : E2).

Definition blk_at (b : Z) : bytes :=
  sectors v (u32 (base_lba g + u32 (b * sectors_per_block g))) (Z.to_nat (sectors_per_block g)).
(** The block lies on the device. *)
Definition on_disk (b : Z) : Prop :=
  u32 (base_lba g + u32 (b * sectors_per_block g)) + sectors_per_block g <= 2 ^ 32.

(** The indirect block the driver remembers is the one on the device. *)
Definition cache_ok (c : IndCache) : Prop :=
  Z.of_nat (length (ind c)) = 4096 /\
  (cached_ind c = 0 \/ take (Z.to_nat (block_size g)) (ind c) = blk_at (cached_ind c)).

(** From any state of the device with content [v], [m] gives [a]. *)
Definition run {A} (m : Rd (St D) A) (a : A) : Prop :=
  forall d c, bd_ok d -> (forall s, bd_view d s = v s) -> cache_ok c ->
  exists d' c', m (d, c) = (a, (d', c')) /\ bd_ok d' /\ (forall s, bd_view d' s = v s) /\ cache_ok c'.

Lemma run_ret {A} (a : A) : run (rd_ret a) a.
Proof. intros d c Hd Hv Hc. by exists d, c. Qed.

Lemma run_bind {A B} (m : Rd (St D) A) (k : A -> Rd (St D) B) a b :
  run m a -> run (k a) b -> run (rd_bind m k) b.
Proof.
  intros Hm Hk d c Hd Hv Hc. destruct (Hm d c Hd Hv Hc) as (d1 & c1 & E & Hd1 & Hv1 & Hc1).
  unfold rd_bind. rewrite E. by apply Hk.
Qed.

Lemma run_try {A B} (m : Rd (St D) (res A)) (k : A -> Rd (St D) (res B)) a b :
  run m (Ok a) -> run (k a) b -> run (rd_try m k) b.
Proof. intros Hm Hk. by eapply run_bind. Qed.

Lemma run_on_dev {A} (m : Rd D A) a : reads v m a -> run (on_dev m) a.
Proof.
  intros Hm d c Hd Hv Hc. destruct (Hm d Hd Hv) as (d' & E & Hd' & Hv'). exists d', c.
  unfold on_dev. rewrite E. done.
Qed.

Hypothesis Hgeom : geom g.

Lemma spb_u8 : u8 (sectors_per_block g) = sectors_per_block g.
Proof. destruct Hgeom as [Hs _]. simpl in Hs. destruct Hs as [<-|[<-|[<-|[]]]]; done. Qed.

Lemma on_disk_range b : on_disk b ->
  in_range (u32 (base_lba g + u32 (b * sectors_per_block g))) (u8 (sectors_per_block g)).
Proof.
  intros Hb. rewrite spb_u8. destruct Hgeom as [Hs _]. simpl in Hs.
  pose proof (u32_is (base_lba g + u32 (b * sectors_per_block g))). unfold on_disk, in_range in *. ulia.
Qed.

Lemma run_read_block b : on_disk b -> run (read_block g b) (Some (blk_at b)).
Proof.
  intros Hb. apply run_on_dev. pose proof (reads_sectors v _ _ (on_disk_range b Hb)) as Hr.
  rewrite spb_u8 in *. exact Hr.
Qed.

Hypothesis v_length : forall s, length (v s) = SECTOR.

Lemma blk_at_length b : Z.of_nat (length (blk_at b)) = block_size g.
Proof.
  destruct Hgeom as [Hs ->]. unfold blk_at. rewrite length_sectors by auto. unfold SECTOR.
  simpl in Hs. lia.
Qed.

(** *** Inodes and their blocks *)

Definition gd_blk (ino : Z) : Z :=
  u32 (gd_block g + (ino - 1) / inodes_per_group g / (block_size g / 32)).
Definition it_blk (ino : Z) : Z :=
  let group := (ino - 1) / inodes_per_group g in
  let itable := erd32 (blk_at (gd_blk ino)) ((group mod (block_size g / 32)) * 32 + 8) in
  u32 (itable + u32 ((ino - 1) mod inodes_per_group g * inode_size g) / block_size g).
Definition inode_at (ino : Z) : Inode :=
  decode_inode (blk_at (it_blk ino)) (u32 ((ino - 1) mod inodes_per_group g * inode_size g) mod block_size g).
Definition inode_ok (ino : Z) : Prop := ino <> 0 /\ on_disk (gd_blk ino) /\ on_disk (it_blk ino).

Lemma run_inode_load ino : inode_ok ino -> run (inode_load g ino) (Some (inode_at ino)).
Proof.
  intros (Hi & Hg & Ht). unfold inode_load. rewrite (proj2 (Z.eqb_neq ino 0)) by done.
  eapply run_bind; [by apply run_read_block|]. cbn beta iota zeta.
  eapply run_bind; [by apply run_read_block|]. apply run_ret.
Qed.

Definition nth_block (blocks : list Z) (n : Z) : Z :=
  if n <? EXT2_NDIR then geti blocks n else
  let ib := geti blocks EXT2_NDIR in
  if (block_size g / 4 <=? n - EXT2_NDIR) || (ib =? 0) then 0
  else erd32 (blk_at ib) ((n - EXT2_NDIR) * 4).

Lemma bs_bound : 1024 <= block_size g <= 4096.
Proof. destruct Hgeom as [Hs ->]. simpl in Hs. lia. Qed.

Lemma erd32_take l n i : 0 <= i -> i + 4 <= Z.of_nat n -> erd32 (take n l) i = erd32 l i.
Proof.
  intros Hi Hn. unfold erd32, geti. by rewrite !list_lookup_total_alt, !lookup_take_lt by lia.
Qed.

Lemma run_nth_block blocks n : 0 <= n -> (EXT2_NDIR <= n -> on_disk (geti blocks EXT2_NDIR)) ->
  run (inode_nth_block g blocks n) (nth_block blocks n).
Proof.
  intros Hn Hd d c Hok Hv Hc. pose proof bs_bound as Hbs. unfold inode_nth_block, nth_block.
  destruct (Z.ltb_spec n EXT2_NDIR) as [|Hn']; [by exists d, c|]. specialize (Hd Hn').
  set (ib := geti blocks EXT2_NDIR) in *. cbv zeta.
  destruct (Z.leb_spec (block_size g / 4) (n - EXT2_NDIR)) as [|Hlt]; [by exists d, c|].
  destruct (Z.eqb_spec ib 0) as [|Hib]; [by exists d, c|]. cbn [orb].
  assert (Hidx : 0 <= (n - EXT2_NDIR) * 4 /\ (n - EXT2_NDIR) * 4 + 4 <= Z.of_nat (Z.to_nat (block_size g)))
    by (rewrite Z2Nat.id by lia; unfold EXT2_NDIR in *; dlia).
  pose proof Hc as [Hlen Hco]. destruct (Z.eqb_spec (cached_ind c) ib) as [Heq|Hne]; cbn [negb].
  - destruct Hco as [|Hco]; [congruence|]. exists d, c. split; [|done]. f_equal.
    rewrite <- Heq, <- Hco. symmetry. apply erd32_take; lia.
  - destruct (bd_read_ok d _ _ Hok (on_disk_range _ Hd)) as (rc & d' & E & Hrc & Hok' & Hv').
    rewrite E, (proj2 (Z.ltb_ge rc 0)) by lia. rewrite (sectors_ext _ v) by auto. rewrite spb_u8.
    fold (blk_at ib). pose proof (blk_at_length ib) as Hbl.
    assert (Hbuf : take (Z.to_nat (block_size g)) (blit (ind c) 0 (blk_at ib)) = blk_at ib).
    { rewrite blit_0. apply take_app_length'. lia. }
    exists d', (mkIndCache (blit (ind c) 0 (blk_at ib)) ib). split; [|split; [done|split]].
    + f_equal. rewrite <- Hbuf at 2. symmetry. apply erd32_take; lia.
    + intros s. by rewrite Hv'.
    + split; [|by right]. cbn [ind]. rewrite length_blit; lia.
Qed.

(** The blocks [bl] of a file, from its [n]-th on. *)
Definition blocks_from (i : Inode) (n : Z) (bl : list Z) : Prop :=
  forall k b, bl !! k = Some b ->
    nth_block (i_blocks i) (n + Z.of_nat k) = b /\ b <> 0 /\ on_disk b /\
    (EXT2_NDIR <= n + Z.of_nat k -> on_disk (geti (i_blocks i) EXT2_NDIR)).
(** All of them. *)
Definition file_blocks (i : Inode) (bl : list Z) : Prop :=
  blocks_from i 0 bl /\ (Z.of_nat (length bl) - 1) * block_size g < i_size i <= Z.of_nat (length bl) * block_size g.
Definition blocks_data (bl : list Z) : bytes := concat (blk_at <$> bl).

Lemma blocks_from_cons i n b bl : blocks_from i n (b :: bl) ->
  nth_block (i_blocks i) n = b /\ b <> 0 /\ on_disk b /\
  (EXT2_NDIR <= n -> on_disk (geti (i_blocks i) EXT2_NDIR)) /\ blocks_from i (n + 1) bl.
Proof.
  intros Hb. destruct (Hb 0%nat b eq_refl) as (H1 & H2 & H3 & H4). rewrite Z.add_0_r in *.
  split; [done|]. split; [done|]. split; [done|]. split; [done|].
  intros k b' Hk. specialize (Hb (S k) b' Hk).
  replace (n + 1 + Z.of_nat k) with (n + Z.of_nat (S k)) by lia. done.
Qed.

Lemma blocks_from_length i n bl : 0 <= n -> bl <> [] -> blocks_from i n bl ->
  n + Z.of_nat (length bl) <= EXT2_NDIR + block_size g / 4.
Proof.
  intros Hn Hne Hb. destruct (lookup_lt_is_Some_2 bl (length bl - 1)) as [b Hl].
  { destruct bl; simpl; [done|lia]. }
  destruct (Hb _ _ Hl) as (E & Hb0 & _). unfold nth_block in E. apply lookup_lt_Some in Hl.
  pose proof bs_bound. unfold EXT2_NDIR in *.
  destruct (Z.ltb_spec (n + Z.of_nat (length bl - 1)) 12); [dlia|].
  destruct (Z.leb_spec (block_size g / 4) (n + Z.of_nat (length bl - 1) - 12)); [done|lia].
Qed.

(** The step of the loops over a file's blocks. *)
Lemma run_block_step {A} i n b bl r (k : Z -> Rd (St D) A) a : 0 <= n ->
  blocks_from i n (b :: bl) -> run (k b) a ->
  run (b <-- inode_nth_block g (i_blocks i) n; if b =? 0 then r else k b) a.
Proof.
  intros Hn Hb Hk. destruct (blocks_from_cons _ _ _ _ Hb) as (E & Hb0 & _ & Hi & _).
  eapply run_bind; [by apply run_nth_block|]. rewrite E.
  by rewrite (proj2 (Z.eqb_neq b 0)) by done.
Qed.

Lemma run_read_blocks i want : forall bl fuel n out, 0 <= n -> blocks_from i n bl ->
  want <= Z.of_nat (length out) + Z.of_nat (length bl) * block_size g -> (length bl < fuel)%nat ->
  run (read_blocks fuel g i n want out) (Ok (out ++ take (Z.to_nat want - length out) (blocks_data bl))).
Proof.
  pose proof bs_bound as Hbs.
  induction bl as [|b bl IH]; intros fuel n out Hn Hb Hw Hf; (destruct fuel as [|fuel]; [lia|]);
    cbn [read_blocks]; cbv zeta; destruct (Z.ltb_spec (Z.of_nat (length out)) want) as [Hlt|Hge];
    cbn [negb].
  - simpl in Hw. lia.
  - unfold blocks_data. simpl. rewrite take_nil, app_nil_r. apply run_ret.
  - eapply run_block_step; [done|exact Hb|].
    destruct (blocks_from_cons _ _ _ _ Hb) as (_ & _ & Hd & _ & Hb').
    eapply run_bind; [by apply run_read_block|]. cbn beta iota.
    pose proof (blk_at_length b) as Hlb. cbn [length] in Hw, Hf.
    set (m := if want - Z.of_nat (length out) <? block_size g then want - Z.of_nat (length out)
              else block_size g).
    assert (Hm : m = Z.min (want - Z.of_nat (length out)) (block_size g)) by (unfold m; case_step; lia).
    assert (Hto : length (out ++ take (Z.to_nat m) (blk_at b)) = (length out + Z.to_nat m)%nat)
      by (rewrite length_app, length_take; lia).
    specialize (IH fuel (n + 1) (out ++ take (Z.to_nat m) (blk_at b)) ltac:(lia) Hb').
    assert (Hres : (out ++ take (Z.to_nat m) (blk_at b)) ++
        take (Z.to_nat want - length (out ++ take (Z.to_nat m) (blk_at b))) (blocks_data bl) =
      out ++ take (Z.to_nat want - length out) (blocks_data (b :: bl))).
    { unfold blocks_data. cbn [fmap list_fmap concat]. rewrite <- app_assoc, take_app, Hto. do 2 f_equal.
      - destruct (Z.le_ge_cases (want - Z.of_nat (length out)) (block_size g)).
        + f_equal. lia.
        + rewrite !take_ge by lia. done.
      - f_equal. lia. }
    rewrite <- Hres. destruct (Z.le_gt_cases (block_size g) (want - Z.of_nat (length out))).
    + apply IH; [rewrite Hto; lia|lia].
    + (* the last block: the loop stops at once *)
      clear IH. destruct fuel as [|fuel]; cbn [read_blocks]; cbv zeta;
        rewrite (proj2 (Z.ltb_ge _ _)) by (rewrite Hto; lia); cbn [negb];
        replace (Z.to_nat want - length (out ++ take (Z.to_nat m) (blk_at b)))%nat with 0%nat
          by (rewrite Hto; lia); rewrite app_nil_r; apply run_ret.
  - replace (Z.to_nat want - length out)%nat with 0%nat by lia. rewrite app_nil_r. apply run_ret.
Qed.

(** *** Directories *)

(** The records of a directory block from offset [off] on: inode number and name. *)
Inductive dirents (blk : bytes) : Z -> list (Z * bytes) -> Prop :=
| dirents_end off : block_size g < off + 8 -> dirents blk off []
| dirents_rec off l :
    off + 8 + geti blk (off + 6) <= block_size g -> 0 <= geti blk (off + 6) ->
    8 <= erd16 blk (off + 4) ->
    dirents blk (off + erd16 blk (off + 4)) l ->
    dirents blk off
      ((erd32 blk off, get_bytes blk (Z.to_nat (off + 8)) (Z.to_nat (geti blk (off + 6)))) :: l).

(** The first used record with this name. *)
Fixpoint find_entry (name : bytes) (l : list (Z * bytes)) : option Z :=
  match l with
  | [] => None
  | (ino, n) :: l => if negb (ino =? 0) && bool_decide (n = name) then Some ino else find_entry name l
  end.

Lemma scan_block_spec blk name : forall off l, Z.of_nat (length blk) = block_size g ->
  dirents blk off l -> 0 <= off ->
  forall fuel, block_size g <= off + Z.of_nat fuel -> scan_block fuel g blk off name = Ok (find_entry name l).
Proof.
  intros off l Hlen Hl. induction Hl as [off Hend|off l Hin Hnl Hrec Hl IH]; intros Hoff fuel Hf.
  - destruct fuel; cbn [scan_block]; by rewrite (proj2 (Z.leb_gt _ _)) by done.
  - destruct fuel as [|fuel]; [lia|]. cbn [scan_block find_entry]. cbv zeta.
    rewrite (proj2 (Z.leb_le (off + 8) _)) by lia. rewrite (proj2 (Z.ltb_ge _ 8)) by done. cbn [negb].
    rewrite IH by lia. set (nlen := geti blk (off + 6)) in *.
    assert (Hm : (nlen =? Z.of_nat (length name)) && name_matches blk off name =
      bool_decide (get_bytes blk (Z.to_nat (off + 8)) (Z.to_nat nlen) = name)).
    { destruct (Z.eqb_spec nlen (Z.of_nat (length name))) as [->|Hne]; cbn [andb].
      - unfold name_matches. rewrite Nat2Z.id, read_n_take by (rewrite length_drop; lia). done.
      - symmetry. apply bool_decide_eq_false. intros <-. rewrite length_get_bytes in Hne by lia. lia. }
    rewrite <- andb_assoc, Hm. by destruct (negb _ && _).
Qed.

(** [i] is a directory whose blocks hold the entries [l]. *)
Definition directory (i : Inode) (l : list (Z * bytes)) : Prop :=
  is_dir i = true /\ exists bl ls, file_blocks i bl /\ l = concat ls /\
    Forall2 (fun b l => dirents (blk_at b) 0 l) bl ls.

Lemma find_entry_app name l1 l2 :
  find_entry name (l1 ++ l2) = match find_entry name l1 with Some i => Some i | None => find_entry name l2 end.
Proof. induction l1 as [|[i n] l1 IH]; simpl; [done|]. by destruct (negb _ && _). Qed.

Lemma find_entry_nonzero name l ino : find_entry name l = Some ino -> ino <> 0.
Proof.
  induction l as [|[i n] l IH]; simpl; [done|].
  destruct (Z.eqb_spec i 0); simpl; [done|]. case_bool_decide; [|done]. by intros [= <-].
Qed.

Definition found (r : option Z) : res Z := match r with Some i => Ok i | None => Fail end.

Lemma run_find_blocks i name : forall bl ls,
  Forall2 (fun b l => dirents (blk_at b) 0 l) bl ls -> forall fuel n, 0 <= n -> blocks_from i n bl ->
  (n + Z.of_nat (length bl) - 1) * block_size g < i_size i <= (n + Z.of_nat (length bl)) * block_size g ->
  n + Z.of_nat (length bl) <= EXT2_NDIR + block_size g / 4 -> (length bl < fuel)%nat ->
  run (find_blocks fuel g i n name) (found (find_entry name (concat ls))).
Proof.
  pose proof bs_bound as Hbs. intros bl ls HF.
  induction HF as [|b l bl ls Hl HF IH]; intros fuel n Hn Hb Hs Hlen Hf;
    (destruct fuel as [|fuel]; [lia|]); cbn [find_blocks]; cbv zeta.
  - assert (Hend : u32 (n * block_size g) = n * block_size g).
    { apply u32_id. unfold EXT2_NDIR in Hlen. split; [lia|]. simpl in Hlen. 
      assert (n * block_size g <= 1036 * 4096) by (apply Z.mul_le_mono_nonneg; dlia). lia. }
    rewrite Hend, (proj2 (Z.ltb_ge _ _)) by (simpl in Hs; lia). apply run_ret.
  - cbn [length] in *.
    assert (Hin : u32 (n * block_size g) = n * block_size g).
    { apply u32_id. unfold EXT2_NDIR in Hlen. split; [lia|].
      assert (n * block_size g <= 1036 * 4096) by (apply Z.mul_le_mono_nonneg; dlia). lia. }
    rewrite Hin, (proj2 (Z.ltb_lt _ _)) by nia. cbn [negb].
    eapply run_block_step; [done|exact Hb|].
    destruct (blocks_from_cons _ _ _ _ Hb) as (_ & _ & Hd & _ & Hb').
    eapply run_bind; [by apply run_read_block|]. cbn beta iota.
    rewrite (scan_block_spec _ name 0 l) by (done || apply blk_at_length || unfold block_fuel; lia).
    cbn [concat]. rewrite find_entry_app.
    destruct (find_entry name l) as [ino|] eqn:E.
    + rewrite (proj2 (Z.eqb_neq ino 0)) by (by eapply find_entry_nonzero). apply run_ret.
    + apply IH; [lia|done|..]; lia.
Qed.

Lemma run_dir_find ino name l : inode_ok ino -> directory (inode_at ino) l ->
  run (dir_find g ino name) (found (find_entry name l)).
Proof.
  intros Hi (Hdir & bl & ls & [Hb Hs] & -> & HF). pose proof bs_bound. unfold dir_find.
  eapply run_bind; [by apply run_inode_load|]. cbn beta iota. rewrite Hdir. cbn [negb].
  assert (Hlen : Z.of_nat (length bl) <= EXT2_NDIR + block_size g / 4).
  { destruct bl as [|b bl]; [unfold EXT2_NDIR; simpl; dlia|].
    pose proof (blocks_from_length _ 0 (b :: bl) ltac:(lia) ltac:(done) Hb). lia. }
  eapply run_find_blocks; [done|lia|done|lia|lia|]. unfold file_fuel. unfold EXT2_NDIR in *. dlia.
Qed.

(** *** Paths *)

(** [names] leads from the directory [ino] to [ino']. *)
Inductive path_to : Z -> list bytes -> Z -> Prop :=
| path_here ino : path_to ino [] ino
| path_down ino name names l ino' ino'' :
    name <> [] -> Forall (fun c => c <> 0 /\ c <> 47) name -> (length name <= 255)%nat ->
    inode_ok ino -> directory (inode_at ino) l -> find_entry name l = Some ino' ->
    path_to ino' names ino'' -> path_to ino (name :: names) ino''.

(** The path as a string, "/a/b". *)
Definition path_of (names : list bytes) : bytes := concat ((fun n => 47 :: n) <$> names).

Lemma component_name name rest : Forall (fun c => c <> 0 /\ c <> 47) name ->
  (char_at rest 0 = 0 \/ char_at rest 0 = 47) -> component (name ++ rest) = (name, rest).
Proof.
  intros Hn Hr. induction Hn as [|c name [C0 C47] Hn IH]; simpl.
  - destruct rest as [|x rest]; [done|]. rewrite char_at_0 in Hr. cbn [component].
    by destruct Hr as [->| ->].
  - rewrite (proj2 (Z.eqb_neq c 0)), (proj2 (Z.eqb_neq c 47)) by done. cbn [orb]. by rewrite IH.
Qed.

Lemma run_resolve_loop ino names ino' : path_to ino names ino' ->
  forall steps, (length (path_of names) <= S steps)%nat ->
  run (resolve_loop steps g (tail (path_of names)) ino) (Ok ino').
Proof.
  induction 1 as [ino|ino name names l ino' ino'' Hne Hch Hlen Hi Hdir Hfind Hp IH]; intros steps Hs.
  - destruct steps; apply run_ret.
  - unfold path_of in *. cbn [fmap list_fmap concat tail app] in *. fold (path_of names) in *.
    rewrite length_cons, length_app in Hs.
    assert (Hn0 : (char_at (name ++ path_of names) 0 =? 0) = false).
    { destruct name as [|c name]; [done|]. cbn [app]. rewrite char_at_0. apply Z.eqb_neq.
      by inversion_clear Hch as [|? ? [C _]]. }
    destruct name as [|c name]; [done|]. cbn [length] in Hs. destruct steps as [|steps]; [lia|].
    cbn [resolve_loop]. rewrite Hn0. rewrite component_name; [|done|].
    2: { destruct names as [|n names]; [by left|by right]. }
    cbv zeta. rewrite (proj2 (Z.ltb_ge 255 _)) by lia.
    assert (Htl : skip_slashes (path_of names) = tail (path_of names)).
    { destruct names as [|n names]; [done|]. unfold path_of. cbn [fmap list_fmap concat app tail].
      cbn [skip_slashes]. rewrite Z.eqb_refl. inversion_clear Hp as [|? ? ? ? ? ? Hn Hnc].
      destruct n as [|x n]; [done|]. cbn [app skip_slashes].
      inversion_clear Hnc as [|? ? [_ C]]. by rewrite (proj2 (Z.eqb_neq x 47)). }
    rewrite Htl. eapply run_try; [|apply IH; lia].
    pose proof (run_dir_find ino (c :: name) l Hi Hdir) as Hr. by rewrite Hfind in Hr.
Qed.

Lemma run_resolve_inode names ino : mounted g = true -> path_to EXT2_ROOT_INO names ino -> names <> [] ->
  inode_ok ino -> run (resolve_inode g (path_of names)) (Ok (inode_at ino)).
Proof.
  intros Hm Hp Hne Hi. unfold resolve_inode, resolve. rewrite Hm.
  replace (char_at (path_of names) 0) with 47 by (by destruct names).
  cbn [negb Z.eqb Pos.eqb orb]. eapply run_try; [apply run_resolve_loop; [done|lia]|].
  eapply run_bind; [by apply run_inode_load|]. apply run_ret.
Qed.

(** C30. Reading a file by its path returns its bytes: on a mounted volume where a chain of
    directories (each with well-formed records) leads from the root inode to a regular file whose
    direct and single-indirect pointers name the blocks [bl], ext2_read of that path stores exactly
    the first min(size, max_len) bytes of those blocks, whichever indirect block the driver
    remembered from this volume. *)
Theorem ext2_read_spec names ino bl max_len :
  mounted g = true -> names <> [] -> path_to EXT2_ROOT_INO names ino -> inode_ok ino ->
  is_reg (inode_at ino) = true -> file_blocks (inode_at ino) bl ->
  run (ext2_read g (path_of names) max_len)
    (Ok (take (Z.to_nat (Z.min (i_size (inode_at ino)) max_len)) (blocks_data bl))).
Proof.
  intros Hm Hne Hp Hi Hreg [Hb Hs]. pose proof bs_bound. unfold ext2_read.
  eapply run_try; [by apply run_resolve_inode|]. rewrite Hreg. cbn [negb].
  replace (if i_size (inode_at ino) <? max_len then i_size (inode_at ino) else max_len)
    with (Z.min (i_size (inode_at ino)) max_len) by (case_step; lia).
  assert (Hlen : Z.of_nat (length bl) <= EXT2_NDIR + block_size g / 4).
  { destruct bl as [|b bl]; [unfold EXT2_NDIR; simpl; dlia|].
    pose proof (blocks_from_length _ 0 (b :: bl) ltac:(lia) ltac:(done) Hb). lia. }
  pose proof (run_read_blocks (inode_at ino) (Z.min (i_size (inode_at ino)) max_len) bl (file_fuel g) 0 []
    ltac:(lia) Hb) as Hr. cbn [app length] in Hr. rewrite Nat.sub_0_r in Hr. apply Hr.
  - lia.
  - unfold file_fuel. unfold EXT2_NDIR in *. dlia.
Qed.
End volume.

(** A volume with 1 KB blocks: inode 2 is the root directory (block 4), which
    names "f", inode 3: 12,290 bytes, twelve times block 5 and then block 7
    through the indirect block 6. *)
Definition demo_vol : E2 := mkE2 true 0 1024 2 8 128 1 2.
Definition put_block (b : Z) (l : bytes) (m : gmap Z bytes) : gmap Z bytes :=
  <[b * 2 := take 512 l]> (<[b * 2 + 1 := take 512 (drop 512 l)]> m).
Definition demo_inode (mode size : Z) (ptrs : list Z) : bytes :=
  le_enc 2 mode ++ zeros 2 ++ le_enc 4 size ++ zeros 32 ++ concat (le_enc 4 <$> ptrs).
Definition demo_disk : RamDisk := mkRamDisk
  (put_block 2 (blit (zeros 1024) 8 (le_enc 4 3))
  (put_block 3 (blit (blit (zeros 1024) 128 (demo_inode 0x41ED 1024 [4]))
                  256 (demo_inode 0x81A4 12290 (replicate 12 5 ++ [6])))
  (put_block 4 (blit (zeros 1024) 0 (le_enc 4 2 ++ le_enc 2 12 ++ [1; 2] ++ [46; 0; 0; 0] ++
                                     le_enc 4 3 ++ le_enc 2 1012 ++ [1; 1; 102]))
  (put_block 5 (replicate 1024 65) (put_block 6 (blit (zeros 1024) 0 (le_enc 4 7))
  (put_block 7 (replicate 1024 66) ∅)))))).

Lemma demo_ram_ok : ram_ok demo_disk.
Proof. unfold ram_ok, demo_disk, put_block. cbn [ram]. repeat apply map_Forall_insert_2; done. Qed.

Lemma ext2_read_spec_witness :
  (ext2_read demo_vol [47; 102] 20000 (demo_disk, mkIndCache (zeros 4096) 0)).1 =
    Ok (replicate (Z.to_nat 12288) 65 ++ [66; 66]).
Proof.
  assert (Hv : forall s, length (ram_sector demo_disk s) = SECTOR)
    by (intros s; exact (bd_view_length (D := RamDisk) demo_disk s demo_ram_ok)).
  assert (Hg : geom demo_vol) by (split; [by left|done]).
  assert (Hi2 : inode_ok (ram_sector demo_disk) demo_vol 2)
    by (split; [done|split; vm_compute; congruence]).
  assert (Hi3 : inode_ok (ram_sector demo_disk) demo_vol 3)
    by (split; [done|split; vm_compute; congruence]).
  assert (Hd : directory (ram_sector demo_disk) demo_vol (inode_at (ram_sector demo_disk) demo_vol 2)
    [(2, [46]); (3, [102])]).
  { split; [vm_compute; done|]. exists [4], [[(2, [46]); (3, [102])]]. split; [|split; [done|]].
    - split; [|vm_compute; done]. intros [|[|k]] b Hk; [|done..]. injection Hk as <-.
      split; [vm_compute; done|]. split; [done|]. split; vm_compute; congruence.
    - constructor; [|constructor].
      set (blk := blk_at _ _ 4). assert (Hr1 : erd16 blk (0 + 4) = 12) by (vm_compute; done).
      assert (Hr2 : erd16 blk (12 + 4) = 1012) by (vm_compute; done).
      replace ([(2, [46]); (3, [102])] : list (Z * bytes)) with
        [(erd32 blk 0, get_bytes blk (Z.to_nat (0 + 8)) (Z.to_nat (geti blk (0 + 6))));
         (erd32 blk 12, get_bytes blk (Z.to_nat (12 + 8)) (Z.to_nat (geti blk (12 + 6))))]
        by (vm_compute; done).
      constructor; [vm_compute; congruence..|]. rewrite Hr1. change (0 + 12) with 12.
      constructor; [vm_compute; congruence..|]. rewrite Hr2. constructor. vm_compute. done. }
  assert (Hp : path_to (ram_sector demo_disk) demo_vol EXT2_ROOT_INO [[102]] 3).
  { eapply path_down; [done|repeat constructor; lia|simpl; lia|exact Hi2|exact Hd|done|constructor]. }
  assert (Hb : file_blocks (ram_sector demo_disk) demo_vol (inode_at (ram_sector demo_disk) demo_vol 3)
    (replicate 12 5 ++ [7])).
  { split; [|vm_compute; done]. intros k b Hk.
    do 13 (destruct k as [|k]; [injection Hk as <-; split; [vm_compute; done|]; split; [done|];
      split; vm_compute; congruence|]). done. }
  pose proof (ext2_read_spec (D := RamDisk) (ram_sector demo_disk) demo_vol Hg Hv [[102]] 3
    (replicate 12 5 ++ [7]) 20000 eq_refl ltac:(done) Hp Hi3 ltac:(vm_compute; done) Hb) as Hr.
  destruct (Hr demo_disk (mkIndCache (zeros 4096) 0) demo_ram_ok (fun _ => eq_refl) (conj eq_refl (or_introl eq_refl))) as (d' & c' & E & _).
  change (path_of [[102]]) with [47; 102] in E. rewrite E. vm_compute. reflexivity.
Defined.
