(* ===== verification/Kfs.v ===== *)
(** The kernel's file system layer (kernel/fs/vfs.c): disk controller
    selection, mounting, the pseudo files of /proc and /dev, the read-only
    volumes under /mnt, and permissions, over VernisFS, FAT32 and ext2.

    [Kfs] is the state of vfs.c with that of the three file systems, which
    share one sector device.  [fuel] bounds the FAT32 cluster chains.  The
    rows of /proc/ps come from the scheduler (Rust) and are an argument, as
    are the timer and the disk controllers. *)

From S2P Require Import Prelude CString BlockDev Bcache VernisFs.
From S2P Require Fat32 Ext2.

(** ** Disk controllers *)

(** [kernel/fs/vfs.c:328-328] g_ahci_port *)
Inductive DiskSel := AtaPio | Ahci (port : Z) | Nvme.

(** The drivers: reading and writing some sectors of the ATA disk, of an AHCI
    port, of the NVMe namespace, and what the probes report. *)
Class Controllers (C : Type) := {
  ctl_read : C -> DiskSel -> Z -> Z -> Z * bytes * C;
  ctl_write : C -> DiskSel -> Z -> Z -> bytes -> Z * C;
  nvme_available : C -> bool;
  nvme_identified : C -> bool;
  ahci_available : C -> bool;
  ahci_pi : C -> Z;
  ahci_identified : C -> Z -> bool }.

(** The selected disk operations, and the controllers. *)
Record PhysDisk (C : Type) := mkPhys { sel : DiskSel; ctl : C }.
Arguments mkPhys {C}. Arguments sel {C}. Arguments ctl {C}.

Section adapters.
Context {C : Type} `{Controllers C}.
Implicit Types (c : C).

(** At most 8 sectors per command; -1 when a command fails.
    [kernel/fs/vfs.c:333-340] ahci_sector_read *)
Fixpoint sector_read_loop (fuel : nat) c (s : DiskSel) (lba count done : Z) : bool * bytes * C :=
  match fuel with
  | O => (true, [], c)
  | S fuel =>
      if negb (done <? count) then (true, [], c) else
      let chunk := if 8 <? count - done then 8 else count - done in
      let '(rc, part, c) := ctl_read c s (lba + done) chunk in
      if rc <? 0 then (false, part, c) else
      let '(ok, rest, c) := sector_read_loop fuel c s lba count (done + chunk) in
      (ok, part ++ rest, c)
  end.
(** [kernel/fs/vfs.c:347-354] ahci_sector_write *)
Fixpoint sector_write_loop (fuel : nat) c (s : DiskSel) (lba count done : Z) (buf : bytes) : bool * C :=
  match fuel with
  | O => (true, c)
  | S fuel =>
      if negb (done <? count) then (true, c) else
      let chunk := if 8 <? count - done then 8 else count - done in
      let part := get_bytes buf (Z.to_nat done * SECTOR) (Z.to_nat chunk * SECTOR) in
      let '(rc, c) := ctl_write c s (lba + done) chunk part in
      if rc <? 0 then (false, c) else sector_write_loop fuel c s lba count (done + chunk) buf
  end.

(** [kernel/fs/vfs.c] ahci_sector_read *)
Definition ahci_sector_read c (port lba count : Z) : Z * bytes * C :=
  if port <? 0 then (-1, [], c) else
  let '(ok, out, c) := sector_read_loop (Z.to_nat count) c (Ahci port) lba count 0 in
  (if ok then count else -1, out, c).
(** [kernel/fs/vfs.c] ahci_sector_write *)
Definition ahci_sector_write c (port lba count : Z) (buf : bytes) : Z * C :=
  if port <? 0 then (-1, c) else
  let '(ok, c) := sector_write_loop (Z.to_nat count) c (Ahci port) lba count 0 buf in
  (if ok then count else -1, c).
(** [kernel/fs/vfs.c] nvme_sector_read *)
Definition nvme_sector_read c (lba count : Z) : Z * bytes * C :=
  let '(ok, out, c) := sector_read_loop (Z.to_nat count) c Nvme lba count 0 in
  (if ok then count else -1, out, c).
(** [kernel/fs/vfs.c] nvme_sector_write *)
Definition nvme_sector_write c (lba count : Z) (buf : bytes) : Z * C :=
  let '(ok, c) := sector_write_loop (Z.to_nat count) c Nvme lba count 0 buf in
  (if ok then count else -1, c).

(** The first implemented and identified port.
    [kernel/fs/vfs.c] kfs_try_ahci *)
Definition kfs_try_ahci c : option Z :=
  if negb (ahci_available c) then None else
  Z.of_nat <$> find_idx (fun p => Z.testbit (ahci_pi c) p && ahci_identified c p)
                 (Z.of_nat <$> seq 0 32).
(** [kernel/fs/vfs.c] kfs_try_nvme *)
Definition kfs_try_nvme c : bool := nvme_available c && nvme_identified c.

(** g_disk_read and g_disk_write, as selected. *)
#[export] Instance phys_dev : BlockDev (PhysDisk C) := {
  bd_read d lba count :=
    let '(r, c) := match sel d with
                   | AtaPio => ctl_read (ctl d) AtaPio lba count
                   | Ahci p => ahci_sector_read (ctl d) p lba count
                   | Nvme => nvme_sector_read (ctl d) lba count
                   end in (r, mkPhys (sel d) c);
  bd_write d lba count buf :=
    let '(r, c) := match sel d with
                   | AtaPio => ctl_write (ctl d) AtaPio lba count buf
                   | Ahci p => ahci_sector_write (ctl d) p lba count buf
                   | Nvme => nvme_sector_write (ctl d) lba count buf
                   end in (r, mkPhys (sel d) c) }.
End adapters.

(** ** The state *)

(** [include/vfs.h] KfsBackend *)
Inductive KfsBackend := KFS_BACKEND_NONE | KFS_BACKEND_VERNISFS | KFS_BACKEND_AHCI | KFS_BACKEND_NVME.

(** [g_ops] tells that the operations of VernisFS are mounted.
    [kernel/fs/vfs.c:43-44] g_backend *)
Record Kfs (D : Type) := mkKfs {
  g_backend : KfsBackend; g_ops : bool; g_vfs : Vfs D;
  g_fat : Fat32.Vol; g_ext2 : Ext2.E2; g_ind : Ext2.IndCache }.
Arguments mkKfs {D}. Arguments g_backend {D}. Arguments g_ops {D}. Arguments g_vfs {D}.
Arguments g_fat {D}. Arguments g_ext2 {D}. Arguments g_ind {D}.
#[export] Instance eta_Kfs D : Eta (Kfs D) := fun r =>
  mkKfs (g_backend r) (g_ops r) (g_vfs r) (g_fat r) (g_ext2 r) (g_ind r).

(** [kernel/fs/vfs.c] kfs_init *)
Definition kfs_init {C} `{Controllers C} (st : Kfs (PhysDisk C)) : bool * Kfs (PhysDisk C) :=
  let c := ctl (disk (g_vfs st)) in
  let nvme := kfs_try_nvme c in
  let ahci := if nvme then None else kfs_try_ahci c in
  let sel := if nvme then Nvme else match ahci with Some p => Ahci p | None => sel (disk (g_vfs st)) end in
  let '(ok, v) := vfs_init (g_vfs st <| disk := mkPhys sel c |>) in
  let st := st <| g_vfs := v |> in
  if ok then
    (true, st <| g_backend := if nvme then KFS_BACKEND_NVME else
                              match ahci with Some _ => KFS_BACKEND_AHCI | None => KFS_BACKEND_VERNISFS end |>
              <| g_ops := true |>)
  else (false, st <| g_backend := KFS_BACKEND_NONE |> <| g_ops := false |>).

(** ** Paths *)

(** What follows the mount point: "/" for the mount point itself.
    [kernel/fs/vfs.c] kfs_mount_subpath *)
Fixpoint kfs_mount_subpath (path prefix : bytes) {struct prefix} : option bytes :=
  match prefix with
  | c :: prefix' =>
      match path with
      | x :: path' => if x =? c then kfs_mount_subpath path' prefix' else None
      | [] => None
      end
  | [] => if char_at path 0 =? 0 then Some (lit "/")
          else if char_at path 0 =? 47 then Some path else None
  end.

(** [kernel/fs/vfs.c:85-86] KFS_MNT_FAT32 *)
Definition KFS_MNT_FAT32 : bytes := lit "/mnt/fat32".
(** [kernel/fs/vfs.c:86-86] KFS_MNT_EXT2 *)
Definition KFS_MNT_EXT2 : bytes := lit "/mnt/ext2".

(** [kernel/fs/vfs.c] kfs_path_is_pseudo *)
Definition kfs_path_is_pseudo (path : bytes) : bool :=
  kfs_streq path (lit "/proc") || kfs_streq path (lit "/dev") || kfs_streq path (lit "/proc/uptime") ||
  kfs_streq path (lit "/proc/ps") || kfs_streq path (lit "/proc/fs") || kfs_streq path (lit "/dev/null") ||
  kfs_streq path (lit "/dev/zero") || kfs_streq path (lit "/mnt").

(** [kernel/fs/vfs.c:46-77] KFS_NODE_PROC *)
Definition pseudo_node (name : bytes) (t : Z) : VfsFileEntry :=
  mkVfsFileEntry (name ++ zeros (32 - length name)) 0 0 t 0 0 0 0 (zeros 16).
(** [kernel/fs/vfs.c] kfs_find_pseudo *)
Definition kfs_find_pseudo (path : bytes) : option VfsFileEntry :=
  if kfs_streq path (lit "/proc") then Some (pseudo_node (lit "/proc") VFS_TYPE_DIRECTORY) else
  if kfs_streq path (lit "/dev") then Some (pseudo_node (lit "/dev") VFS_TYPE_DIRECTORY) else
  if kfs_streq path (lit "/proc/uptime") then Some (pseudo_node (lit "/proc/uptime") VFS_TYPE_REGULAR) else
  if kfs_streq path (lit "/proc/ps") then Some (pseudo_node (lit "/proc/ps") VFS_TYPE_REGULAR) else
  if kfs_streq path (lit "/proc/fs") then Some (pseudo_node (lit "/proc/fs") VFS_TYPE_REGULAR) else
  if kfs_streq path (lit "/dev/null") then Some (pseudo_node (lit "/dev/null") VFS_TYPE_REGULAR) else
  if kfs_streq path (lit "/dev/zero") then Some (pseudo_node (lit "/dev/zero") VFS_TYPE_REGULAR) else
  if kfs_streq path (lit "/mnt") then Some (pseudo_node (lit "/mnt") VFS_TYPE_DIRECTORY) else None.

(** The string left in a buffer of [max] bytes.
    [kernel/fs/vfs.c] kfs_copy_str *)
Definition kfs_copy_str (max : Z) (src : bytes) : bytes := if max <=? 0 then [] else fit_str src 0 max.
(** [out] is the text so far, [pos] its length.
    [kernel/fs/vfs.c] kfs_append_str *)
Definition kfs_append_str (max : Z) (out src : bytes) : bytes :=
  out ++ fit_str src (Z.of_nat (length out)) max.
(** [kernel/fs/vfs.c] kfs_append_u64 *)
Definition kfs_append_u64 (max : Z) (out : bytes) (v : Z) : bytes :=
  out ++ fit_str (decimal 24 v) (Z.of_nat (length out)) max.

(** ** Operations *)

(** [include/scheduler_base.h] PsRow *)
Record PsRow := mkPsRow { ps_pid : Z; ps_state : Z; ps_priority : Z; ps_ring : Z; ps_command : bytes }.
(** What the pseudo files show: timer ticks and frequency, and the scheduler's
    rows ([None]: no scheduler yet; a [None] row is a process that is gone). *)
Record Env := mkEnv { ticks : Z; timer_hz : Z; ps_rows : option (list (option PsRow)) }.

Section kfs.
Context {D : Type} `{BlockDev D}.
Variable fuel : nat.
Implicit Types (st : Kfs D) (path data : bytes).

Definition on_fat {A} (m : Rd D A) : Rd (Kfs D) A := fun st =>
  let '(a, d) := m (disk (g_vfs st)) in (a, st <| g_vfs := g_vfs st <| disk := d |> |>).
Definition on_ext2 {A} (m : Rd (Ext2.St D) A) : Rd (Kfs D) A := fun st =>
  let '(a, (d, c)) := m (disk (g_vfs st), g_ind st) in
  (a, st <| g_vfs := g_vfs st <| disk := d |> |> <| g_ind := c |>).
Definition on_vfs {A} (m : Vfs D -> A * Vfs D) : Rd (Kfs D) A := fun st =>
  let '(a, v) := m (g_vfs st) in (a, st <| g_vfs := v |>).

(** [kernel/fs/vfs.c] kfs_mount_extra_volumes *)
Definition kfs_mount_extra_volumes (fat_lba ext2_lba : Z) st : Kfs D :=
  let '((_, vol), st) := on_fat (Fat32.fat32_mount (g_fat st) fat_lba) st in
  let st := st <| g_fat := vol |> in
  let '((_, g), st) := on_ext2 (Ext2.ext2_mount (g_ext2 st) ext2_lba) st in
  st <| g_ext2 := g |>.

(** [kernel/fs/vfs.c] kfs_ready *)
Definition kfs_ready st : bool := g_ops st.
(** [kernel/fs/vfs.c] kfs_backend *)
Definition kfs_backend st : KfsBackend := g_backend st.
(** [kernel/fs/vfs.c] kfs_backend_name *)
Definition kfs_backend_name st : bytes :=
  match g_backend st with
  | KFS_BACKEND_NVME => lit "vernisfs-nvme"
  | KFS_BACKEND_AHCI => lit "vernisfs-ahci"
  | KFS_BACKEND_VERNISFS => lit "vernisfs"
  | KFS_BACKEND_NONE => lit "none"
  end.
(** [kernel/fs/vfs.c] kfs_file_count *)
Definition kfs_file_count st : Z := if g_ops st then vfs_file_count (g_vfs st) else 0.

(** The scratch entry, as a value.
    [kernel/fs/vfs.c:184-192] kfs_find_mounted *)
Definition mounted_entry path (size : Z) (is_dir : bool) : VfsFileEntry :=
  mkVfsFileEntry (kfs_copy_str VFS_MAX_FILENAME path) 0 size
    (if is_dir then VFS_TYPE_DIRECTORY else VFS_TYPE_REGULAR) 0 0 0 0 [].
(** [kernel/fs/vfs.c:175-182] kfs_find_mounted *)
Definition mounted_stat path : Rd (Kfs D) (res (Z * bool)) := fun st =>
  match kfs_mount_subpath path KFS_MNT_FAT32 with
  | Some sp => on_fat (Fat32.fat32_stat fuel (g_fat st) sp) st
  | None =>
      match kfs_mount_subpath path KFS_MNT_EXT2 with
      | Some sp => on_ext2 (Ext2.ext2_stat (g_ext2 st) sp) st
      | None => (Fail, st)
      end
  end.
(** [Fail] is NULL.
    [kernel/fs/vfs.c] kfs_find_mounted *)
Definition kfs_find_mounted path : Rd (Kfs D) (res VfsFileEntry) :=
  s <-? mounted_stat path; rd_ret (Ok (mounted_entry path s.1 s.2)).

(** [kernel/fs/vfs.c] kfs_find_file *)
Definition kfs_find_file path : Rd (Kfs D) (res VfsFileEntry) := fun st =>
  let '(m, st) := kfs_find_mounted path st in
  match m with
  | Ok e => (Ok e, st)
  | Loops => (Loops, st)
  | Fail =>
      match kfs_find_pseudo path with
      | Some e => (Ok e, st)
      | None =>
          if g_ops st then
            match vfs_find_file (g_vfs st) path with
            | Some i => (Ok (entry (g_vfs st) i), st)
            | None => (Fail, st)
            end
          else (Fail, st)
      end
  end.

(** *** Pseudo files *)

Definition newline : bytes := [10].
(** The text of /proc/uptime: seconds and hundredths.
    [kernel/fs/vfs.c:233-245] kfs_read_proc_uptime *)
Definition proc_uptime_text (ticks hz : Z) : bytes :=
  let hz := if hz =? 0 then 1 else hz in
  let secs := ticks / hz in
  let rem := ticks mod hz in
  let frac := (rem * 100) / hz in
  let out := kfs_append_u64 96 [] secs in
  let out := kfs_append_str 96 out (lit ".") in
  let out := if frac <? 10 then kfs_append_str 96 out (lit "0") else out in
  let out := kfs_append_u64 96 out frac in
  kfs_append_str 96 out newline.
(** The bytes of the text that fit; [None] is -1.
    [kernel/fs/vfs.c:247-250] kfs_read_proc_uptime *)
Definition copy_text (text : bytes) (max_len : Z) : option bytes :=
  if max_len =? 0 then None else Some (take (Z.to_nat max_len) text).
(** [kernel/fs/vfs.c] kfs_read_proc_uptime *)
Definition kfs_read_proc_uptime (env : Env) (max_len : Z) : option bytes :=
  copy_text (proc_uptime_text (ticks env) (timer_hz env)) max_len.
(** [kernel/fs/vfs.c] kfs_read_proc_fs *)
Definition kfs_read_proc_fs st (max_len : Z) : option bytes :=
  let app := kfs_append_str 192 in
  let out := app (app [] (lit "backend=")) (kfs_backend_name st) in
  let out := app (app out newline) (lit "ready=") in
  let out := kfs_append_u64 192 out (if kfs_ready st then 1 else 0) in
  let out := app (app out newline) (lit "files=") in
  let out := kfs_append_u64 192 out (kfs_file_count st) in
  copy_text (app out newline) max_len.
(** [kernel/fs/vfs.c:284-298] kfs_read_proc_ps *)
Fixpoint ps_text (rows : list (option PsRow)) (out : bytes) : bytes :=
  match rows with
  | [] => out
  | None :: rows => ps_text rows out
  | Some r :: rows =>
      let app := kfs_append_str 4096 in
      let num := kfs_append_u64 4096 in
      let sp := lit " " in
      let out := app (num out (ps_pid r)) sp in
      let out := app (num out (ps_state r)) sp in
      let out := app (num out (ps_priority r)) sp in
      let out := app (num out (ps_ring r)) sp in
      let out := app (app out (ps_command r)) newline in
      if 4096 - 64 <=? Z.of_nat (length out) then out else ps_text rows out
  end.
(** [kernel/fs/vfs.c] kfs_read_proc_ps *)
Definition kfs_read_proc_ps (env : Env) (max_len : Z) : option bytes :=
  let app := kfs_append_str 4096 in
  let out := app (app [] (lit "PID STATE PRIO RING CMD")) newline in
  copy_text (match ps_rows env with
             | None => app (app out (lit "(scheduler not ready)")) newline
             | Some rows => ps_text (take 64 rows) out
             end) max_len.

(** *** Reading and writing *)

Definition of_option {A} (o : option A) : res A := match o with Some a => Ok a | None => Fail end.
(** Bytes stored, and their number as the result. *)
Definition counted (r : res bytes) : res (Z * bytes) :=
  match r with Ok l => Ok (Z.of_nat (length l), l) | Fail => Fail | Loops => Loops end.
Definition counted_rd {S} (m : Rd S (res bytes)) : Rd S (res (Z * bytes)) :=
  r <-- m; rd_ret (counted r).
(** The result and the bytes stored in the buffer; [Fail] is a negative
    result.  VernisFS stores whole sectors: see [VernisFs.vfs_read_file].
    [kernel/fs/vfs.c] kfs_read_file *)
Definition kfs_read_file (env : Env) path (max_len : Z) : Rd (Kfs D) (res (Z * bytes)) := fun st =>
  if kfs_streq path (lit "/dev/null") then (Ok (0, []), st) else
  if kfs_streq path (lit "/dev/zero") then (Ok (i32 max_len, zeros (Z.to_nat max_len)), st) else
  if kfs_streq path (lit "/proc/uptime") then (counted (of_option (kfs_read_proc_uptime env max_len)), st) else
  if kfs_streq path (lit "/proc/ps") then (counted (of_option (kfs_read_proc_ps env max_len)), st) else
  if kfs_streq path (lit "/proc/fs") then (counted (of_option (kfs_read_proc_fs st max_len)), st) else
  if kfs_streq path (lit "/proc") || kfs_streq path (lit "/dev") then (Fail, st) else
  match kfs_mount_subpath path KFS_MNT_FAT32 with
  | Some sp => on_fat (counted_rd (Fat32.fat32_read fuel (g_fat st) sp (u32 max_len))) st
  | None =>
      match kfs_mount_subpath path KFS_MNT_EXT2 with
      | Some sp => on_ext2 (counted_rd (Ext2.ext2_read (g_ext2 st) sp (u32 max_len))) st
      | None =>
          if g_ops st then
            on_vfs (fun v => let '(rc, out, v) := vfs_read_file v path max_len in
                             (if rc <? 0 then Fail else Ok (rc, out), v)) st
          else (Fail, st)
      end
  end.

(** The paths every modification refuses.
    [kernel/fs/vfs.c:493-495] kfs_write_file *)
Definition read_only_path path : bool :=
  kfs_path_is_pseudo path ||
  match kfs_mount_subpath path KFS_MNT_FAT32, kfs_mount_subpath path KFS_MNT_EXT2 with
  | None, None => false | _, _ => true end.
(** [kernel/fs/vfs.c] kfs_write_file *)
Definition kfs_write_file path data (len : Z) : Rd (Kfs D) Z := fun st =>
  if kfs_streq path (lit "/dev/null") || kfs_streq path (lit "/dev/zero") then (i32 len, st) else
  if read_only_path path then (-1, st) else
  if g_ops st then on_vfs (fun v => vfs_write_file v path data len) st else (-1, st).
(** [kernel/fs/vfs.c] kfs_append_file *)
Definition kfs_append_file path data (len : Z) : Rd (Kfs D) Z := fun st =>
  if kfs_streq path (lit "/dev/null") || kfs_streq path (lit "/dev/zero") then (i32 len, st) else
  if read_only_path path then (-1, st) else
  if g_ops st then on_vfs (fun v => vfs_append_file v path data len) st else (-1, st).
(** [kernel/fs/vfs.c] kfs_mkdir *)
Definition kfs_mkdir path : Rd (Kfs D) Z := fun st =>
  if read_only_path path then (-1, st) else
  if g_ops st then on_vfs (fun v => vfs_mkdir v path) st else (-1, st).
(** [kernel/fs/vfs.c] kfs_delete_file *)
Definition kfs_delete_file path : Rd (Kfs D) Z := fun st =>
  if read_only_path path then (-1, st) else
  if g_ops st then on_vfs (fun v => vfs_delete_file v path) st else (-1, st).

(** *** Listing: the strings stored in [out]; their number is the result. *)

(** [kernel/fs/vfs.c] kfs_mount_list_cb *)
Definition kfs_mount_list_cb (dir_path name : bytes) : bytes :=
  let full := kfs_copy_str VFS_MAX_FILENAME dir_path in
  let full := kfs_append_str VFS_MAX_FILENAME full (lit "/") in
  kfs_copy_str VFS_MAX_FILENAME (kfs_append_str VFS_MAX_FILENAME full name).
(** [None]: not under a mount (-2).
    [kernel/fs/vfs.c] kfs_list_mounted *)
Definition kfs_list_mounted (dir_path : bytes) (max : Z) : Rd (Kfs D) (option (res (list bytes))) := fun st =>
  match kfs_mount_subpath dir_path KFS_MNT_FAT32 with
  | Some sp =>
      let '(r, st) := on_fat (l <-? Fat32.fat32_list fuel (g_fat st) sp;
        rd_ret (Ok (take (Z.to_nat max) ((fun i => kfs_mount_list_cb dir_path i.1.1) <$> l)))) st in
      (Some r, st)
  | None =>
      match kfs_mount_subpath dir_path KFS_MNT_EXT2 with
      | Some sp =>
          let '(r, st) := on_ext2 (l <-? Ext2.ext2_list (g_ext2 st) sp;
            rd_ret (Ok (take (Z.to_nat max) ((fun i => kfs_mount_list_cb dir_path i.1.1) <$> omap id l)))) st in
          (Some r, st)
      | None => (None, st)
      end
  end.
(** [kernel/fs/vfs.c] kfs_list_dir_add *)
Definition kfs_list_dir_add (max : Z) (out : list bytes) path : list bytes :=
  if max <=? Z.of_nat (length out) then out else out ++ [kfs_copy_str VFS_MAX_FILENAME path].
(** [kernel/fs/vfs.c:535-556] kfs_list_dir *)
Definition pseudo_children (dir_path : bytes) : list bytes :=
  if kfs_streq dir_path (lit "/") then [lit "/proc"; lit "/dev"; lit "/mnt"] else
  if kfs_streq dir_path (lit "/proc") then [lit "/proc/uptime"; lit "/proc/ps"; lit "/proc/fs"] else
  if kfs_streq dir_path (lit "/dev") then [lit "/dev/null"; lit "/dev/zero"] else
  if kfs_streq dir_path (lit "/mnt") then [lit "/mnt/fat32"; lit "/mnt/ext2"] else [].
(** [kernel/fs/vfs.c] kfs_list_dir *)
Definition kfs_list_dir (dir_path : bytes) (max : Z) : Rd (Kfs D) (res (list bytes)) := fun st =>
  if max <=? 0 then (Fail, st) else
  let '(m, st) := kfs_list_mounted dir_path max st in
  match m with
  | Some r => (r, st)
  | None =>
      let base := if g_ops st then cstr <$> (vfs_list_dir (g_vfs st) dir_path max).2 else [] in
      (Ok (fold_left (kfs_list_dir_add max) (pseudo_children dir_path) base), st)
  end.

(** *** Permissions *)

(** Note that g_ops is not consulted.
    [kernel/fs/vfs.c] kfs_chmod *)
Definition kfs_chmod path (mode : Z) : Rd (Kfs D) Z := fun st =>
  if kfs_path_is_pseudo path then (-1, st) else on_vfs (fun v => vfs_chmod v path mode) st.
(** [kernel/fs/vfs.c] kfs_chown *)
Definition kfs_chown path (uid gid : Z) : Rd (Kfs D) Z := fun st =>
  if kfs_path_is_pseudo path then (-1, st) else on_vfs (fun v => vfs_chown v path uid gid) st.

(** [kernel/fs/vfs.c:588-609] kfs_check_perm *)
Definition entry_perm (e : VfsFileEntry) (user op : Z) : Z :=
  if mode e =? 0 then 0 else
  let bits := if user =? uid e then Z.land (Z.shiftr (mode e) 6) 7
              else if user =? gid e then Z.land (Z.shiftr (mode e) 3) 7
              else Z.land (mode e) 7 in
  let has b := if negb (Z.land bits b =? 0) then 0 else -1 in
  if op =? 114 then has 4 else if op =? 119 then has 2 else if op =? 120 then has 1 else -1.
(** [kernel/fs/vfs.c] kfs_check_perm *)
Definition kfs_check_perm path (user op : Z) : Rd (Kfs D) (res Z) := fun st =>
  if user =? 0 then (Ok 0, st) else
  let '(e, st) := kfs_find_file path st in
  match e with
  | Ok e => (Ok (entry_perm e user op), st)
  | Fail => (Ok (-1), st)
  | Loops => (Loops, st)
  end.
End kfs.

(** ** Which component a path belongs to *)

Definition pseudo_paths : list bytes :=
  [lit "/proc"; lit "/dev"; lit "/proc/uptime"; lit "/proc/ps"; lit "/proc/fs"; lit "/dev/null";
   lit "/dev/zero"; lit "/mnt"].
Inductive owner := OPseudo | OFat (sub : bytes) | OExt2 (sub : bytes) | OBackend.
(** [below mnt p sub]: [p] is the mount point, or below it with sub-path [sub]. *)
Inductive below (mnt : bytes) : bytes -> bytes -> Prop :=
| below_root p : cstr p = mnt -> below mnt p [47]
| below_sub t : below mnt (mnt ++ 47 :: t) (47 :: t).
Inductive owned (p : bytes) : owner -> Prop :=
| own_pseudo : In (cstr p) pseudo_paths -> owned p OPseudo
| own_fat sub : below KFS_MNT_FAT32 p sub -> owned p (OFat sub)
| own_ext2 sub : below KFS_MNT_EXT2 p sub -> owned p (OExt2 sub)
| own_backend : ~ In (cstr p) pseudo_paths -> (forall sub, ~ below KFS_MNT_FAT32 p sub) ->
    (forall sub, ~ below KFS_MNT_EXT2 p sub) -> owned p OBackend.

Lemma mount_subpath_spec mnt : forall p sub, Forall (fun c => c <> 0) mnt ->
  kfs_mount_subpath p mnt = Some sub <-> below mnt p sub.
Proof.
  assert (Hb : forall c mnt x p sub, x = c -> c <> 0 -> below mnt p sub <-> below (c :: mnt) (x :: p) sub).
  { intros c mn x p sub -> Hc. split.
    - intros [q Hq|t]; [|apply (below_sub (c :: mn))]. apply below_root. cbn [cstr].
      by rewrite (proj2 (Z.eqb_neq c 0)), Hq.
    - intros Hbe. inversion Hbe as [q Hq|t Hq]; subst.
      + apply below_root. cbn [cstr] in Hq. rewrite (proj2 (Z.eqb_neq c 0)) in Hq by done. congruence.
      + apply (below_sub mn). }
  induction mnt as [|c mnt IH]; intros p sub Hm.
  - cbn [kfs_mount_subpath]. split.
    + destruct (Z.eqb_spec (char_at p 0) 0) as [E|E].
      * intros [= <-]. apply below_root. destruct p as [|x p]; [done|]. rewrite char_at_0 in E. by subst.
      * destruct (Z.eqb_spec (char_at p 0) 47) as [E'|]; [|done]. intros [= <-].
        destruct p as [|x p]; [done|]. rewrite char_at_0 in E'. subst. apply (below_sub []).
    + intros [q Hq|t]; [|done]. destruct q as [|x q]; [done|]. cbn [cstr] in Hq. rewrite char_at_0.
      destruct (Z.eqb_spec x 0); [subst; done|done].
  - inversion_clear Hm as [|? ? Hc Hm']. cbn [kfs_mount_subpath]. destruct p as [|x p].
    + split; [done|]. intros Hbe. inversion Hbe; done.
    + destruct (Z.eqb_spec x c) as [->|Hne].
      * rewrite IH by done. by apply Hb.
      * split; [done|]. intros Hbe. inversion Hbe as [q Hq|t Hq]; subst; [|done].
        cbn [cstr] in Hq. destruct (x =? 0); congruence.
Qed.

Lemma below_fat_spec p sub : kfs_mount_subpath p KFS_MNT_FAT32 = Some sub <-> below KFS_MNT_FAT32 p sub.
Proof. apply mount_subpath_spec. by repeat constructor. Qed.
Lemma below_ext2_spec p sub : kfs_mount_subpath p KFS_MNT_EXT2 = Some sub <-> below KFS_MNT_EXT2 p sub.
Proof. apply mount_subpath_spec. by repeat constructor. Qed.

Lemma streq_lit p s : bytes_ok p -> bytes_ok s -> cstr s = s -> kfs_streq p s = bool_decide (cstr p = s).
Proof.
  intros Hp Hs Hc. pose proof (kfs_streq_spec p s Hp Hs) as Hk. rewrite Hc in Hk.
  destruct (kfs_streq p s); symmetry; [apply bool_decide_eq_true|apply bool_decide_eq_false]; [by apply Hk|].
  intros E. by apply Hk in E.
Qed.

(** A comparison with a literal is a comparison of strings. *)
Ltac streqs Hp := rewrite !(streq_lit _ _ Hp) by (by apply bytes_ok_dec) || done.

Lemma pseudo_spec p : bytes_ok p -> kfs_path_is_pseudo p = true <-> In (cstr p) pseudo_paths.
Proof.
  intros Hp. unfold kfs_path_is_pseudo. streqs Hp.
  rewrite !orb_true_iff, !bool_decide_eq_true. unfold pseudo_paths. simpl. firstorder congruence.
Qed.

Lemma owned_total p : exists o, owned p o.
Proof.
  destruct (in_dec (decide_rel (=)) (cstr p) pseudo_paths) as [Hi|Hn]; [exists OPseudo; by constructor|].
  destruct (kfs_mount_subpath p KFS_MNT_FAT32) as [sub|] eqn:Ef.
  { exists (OFat sub). constructor. by apply below_fat_spec. }
  destruct (kfs_mount_subpath p KFS_MNT_EXT2) as [sub|] eqn:Ee.
  { exists (OExt2 sub). constructor. by apply below_ext2_spec. }
  exists OBackend. constructor; [done|..]; intros sub Hs;
    [apply below_fat_spec in Hs|apply below_ext2_spec in Hs]; congruence.
Qed.

Lemma cstr_prefix mnt t : Forall (fun c => c <> 0) mnt -> cstr (mnt ++ 47 :: t) = mnt ++ 47 :: cstr t.
Proof.
  induction 1 as [|c mnt Hc Hm IH]; simpl; [done|]. by rewrite (proj2 (Z.eqb_neq c 0)), IH.
Qed.
(** A mount point's paths are longer than, or different from, all pseudo paths. *)
Lemma below_not_pseudo mnt p sub : mnt = KFS_MNT_FAT32 \/ mnt = KFS_MNT_EXT2 -> below mnt p sub ->
  ~ In (cstr p) pseudo_paths.
Proof.
  intros Hm Hb. assert (Hpre : exists rest, cstr p = mnt ++ rest).
  { destruct Hb as [q Hq|t]; [exists []; by rewrite app_nil_r|]. exists (47 :: cstr t).
    apply cstr_prefix. by destruct Hm as [->| ->]; repeat constructor. }
  destruct Hpre as [rest ->]. destruct Hm as [->| ->]; intros [E|[E|[E|[E|[E|[E|[E|[E|[]]]]]]]]]; discriminate E.
Qed.
Lemma below_exclusive p s1 s2 : below KFS_MNT_FAT32 p s1 -> ~ below KFS_MNT_EXT2 p s2.
Proof.
  intros H1 H2. assert (Hpre : forall mnt sub, Forall (fun c => c <> 0) mnt -> below mnt p sub ->
    exists rest, cstr p = mnt ++ rest).
  { intros mnt sub Hm [q Hq|t]; [exists []; by rewrite app_nil_r|]. exists (47 :: cstr t). by apply cstr_prefix. }
  destruct (Hpre KFS_MNT_FAT32 s1 ltac:(by repeat constructor) H1) as [r1 E1].
  destruct (Hpre KFS_MNT_EXT2 s2 ltac:(by repeat constructor) H2) as [r2 E2]. rewrite E1 in E2. discriminate E2.
Qed.

Lemma owned_unique p o o' : owned p o -> owned p o' -> o = o'.
Proof.
  assert (Hf : forall s1 s2, below KFS_MNT_FAT32 p s1 -> below KFS_MNT_FAT32 p s2 -> s1 = s2)
    by (intros s1 s2 H1%below_fat_spec H2%below_fat_spec; congruence).
  assert (He : forall s1 s2, below KFS_MNT_EXT2 p s1 -> below KFS_MNT_EXT2 p s2 -> s1 = s2)
    by (intros s1 s2 H1%below_ext2_spec H2%below_ext2_spec; congruence).
  assert (Nf : forall sub, below KFS_MNT_FAT32 p sub -> ~ In (cstr p) pseudo_paths)
    by (intros sub; apply below_not_pseudo; by left).
  assert (Ne : forall sub, below KFS_MNT_EXT2 p sub -> ~ In (cstr p) pseudo_paths)
    by (intros sub; apply below_not_pseudo; by right).
  pose proof (below_exclusive p) as Nx.
  destruct 1 as [H1|s1 H1|s1 H1|H1 H1f H1e]; destruct 1 as [H2|s2 H2|s2 H2|H2 H2f H2e];
    first [done | f_equal; by auto | exfalso; solve
      [by apply (Nf _ H1) | by apply (Nf _ H2) | by apply (Ne _ H1) | by apply (Ne _ H2)
      | by apply (Nx _ _ H1 H2) | by apply (Nx _ _ H2 H1) | by apply (H1f _ H2) | by apply (H1e _ H2)
      | by apply (H2f _ H1) | by apply (H2e _ H1)]].
Qed.

Section routing.
Context {D : Type} `{BlockDev D}.
Variable fuel : nat.
Implicit Types (st : Kfs D) (path data : bytes).

(** All modifications are refused, or swallowed, and change nothing. *)
Definition refuses st path : Prop :=
  (forall data len, (kfs_write_file path data len st).2 = st /\ (kfs_append_file path data len st).2 = st) /\
  kfs_mkdir path st = (-1, st) /\ kfs_delete_file path st = (-1, st).

Lemma read_only_refuses st path : read_only_path path = true -> refuses st path.
Proof.
  intros Hr. unfold refuses, kfs_write_file, kfs_append_file, kfs_mkdir, kfs_delete_file. rewrite Hr.
  split; [|done]. intros data len. by destruct (_ || _).
Qed.

Lemma not_pseudo_streq path s : bytes_ok path -> ~ In (cstr path) pseudo_paths -> In s pseudo_paths ->
  kfs_streq path s = false.
Proof.
  intros Hp Hn Hs. destruct (kfs_streq path s) eqn:E; [|done]. exfalso.
  assert (Hok : bytes_ok s /\ cstr s = s).
  { destruct Hs as [<-|[<-|[<-|[<-|[<-|[<-|[<-|[<-|[]]]]]]]]]; split; [by apply bytes_ok_dec|done|..];
      (by apply bytes_ok_dec) || done. }
  destruct Hok as [Hok Hc]. rewrite (streq_lit _ _ Hp Hok Hc), bool_decide_eq_true in E. congruence.
Qed.

Lemma kfs_routing_ok st path env n : bytes_ok path ->
  (exists o, owned path o /\ forall o', owned path o' -> o' = o) /\
  forall o, owned path o ->
  match o with
  | OPseudo => refuses st path
  | OFat sub =>
      refuses st path /\
      kfs_read_file fuel env path n st = on_fat (counted_rd (Fat32.fat32_read fuel (g_fat st) sub (u32 n))) st /\
      mounted_stat fuel path st = on_fat (Fat32.fat32_stat fuel (g_fat st) sub) st
  | OExt2 sub =>
      refuses st path /\
      kfs_read_file fuel env path n st = on_ext2 (counted_rd (Ext2.ext2_read (g_ext2 st) sub (u32 n))) st /\
      mounted_stat fuel path st = on_ext2 (Ext2.ext2_stat (g_ext2 st) sub) st
  | OBackend =>
      if g_ops st then
        (forall data len, kfs_write_file path data len st = on_vfs (fun v => vfs_write_file v path data len) st /\
                          kfs_append_file path data len st = on_vfs (fun v => vfs_append_file v path data len) st) /\
        kfs_mkdir path st = on_vfs (fun v => vfs_mkdir v path) st /\
        kfs_delete_file path st = on_vfs (fun v => vfs_delete_file v path) st /\
        kfs_read_file fuel env path n st =
          on_vfs (fun v => let '(rc, out, v) := vfs_read_file v path n in
                           (if rc <? 0 then Fail else Ok (rc, out), v)) st /\
        kfs_find_file fuel path st =
          (match vfs_find_file (g_vfs st) path with Some i => Ok (entry (g_vfs st) i) | None => Fail end, st)
      else refuses st path /\ kfs_read_file fuel env path n st = (Fail, st)
  end.
Proof.
  intros Hp. split.
  { destruct (owned_total path) as [o Ho]. exists o. split; [done|]. intros o' Ho'. by eapply owned_unique. }
  intros o Ho.
  assert (Hstreq := not_pseudo_streq path).
  destruct Ho as [Hps|sub Hb|sub Hb|Hn Hf He].
  - apply read_only_refuses. unfold read_only_path. by rewrite (proj2 (pseudo_spec path Hp) Hps).
  - pose proof (below_not_pseudo _ _ _ (or_introl eq_refl) Hb) as Hn. apply below_fat_spec in Hb.
    split; [|split].
    + apply read_only_refuses. unfold read_only_path. rewrite Hb. apply orb_true_r.
    + unfold kfs_read_file. rewrite !Hstreq by (done || (unfold pseudo_paths; simpl; tauto)).
      by rewrite Hb.
    + unfold mounted_stat. by rewrite Hb.
  - assert (Hnf : kfs_mount_subpath path KFS_MNT_FAT32 = None).
    { destruct (kfs_mount_subpath path KFS_MNT_FAT32) eqn:E; [|done]. apply below_fat_spec in E.
      by apply (below_exclusive _ _ sub) in E. }
    pose proof (below_not_pseudo _ _ _ (or_intror eq_refl) Hb) as Hn. apply below_ext2_spec in Hb.
    split; [|split].
    + apply read_only_refuses. unfold read_only_path. rewrite Hb, Hnf. apply orb_true_r.
    + unfold kfs_read_file. rewrite !Hstreq by (done || (unfold pseudo_paths; simpl; tauto)).
      by rewrite Hb, Hnf.
    + unfold mounted_stat. by rewrite Hb, Hnf.
  - assert (Hnf : kfs_mount_subpath path KFS_MNT_FAT32 = None).
    { destruct (kfs_mount_subpath path KFS_MNT_FAT32) eqn:E; [|done]. apply below_fat_spec in E. by apply Hf in E. }
    assert (Hne : kfs_mount_subpath path KFS_MNT_EXT2 = None).
    { destruct (kfs_mount_subpath path KFS_MNT_EXT2) eqn:E; [|done]. apply below_ext2_spec in E. by apply He in E. }
    assert (Hro : read_only_path path = false).
    { unfold read_only_path. rewrite Hnf, Hne, orb_false_r. apply not_true_iff_false. by rewrite pseudo_spec. }
    assert (Hfind : kfs_find_pseudo path = None).
    { unfold kfs_find_pseudo. by rewrite !Hstreq by (done || (unfold pseudo_paths; simpl; tauto)). }
    unfold refuses, kfs_write_file, kfs_append_file, kfs_mkdir, kfs_delete_file, kfs_read_file,
      kfs_find_file, kfs_find_mounted, mounted_stat, rd_try, rd_bind.
    rewrite Hro, Hnf, Hne, Hfind, !Hstreq by (done || (unfold pseudo_paths; simpl; tauto)).
    destruct (g_ops st) eqn:Eo; cbn [orb]; rewrite ?Eo; [|done].
    split; [done|]. split; [done|]. split; [done|]. split; [done|]. cbn. rewrite Eo.
    by destruct (vfs_find_file (g_vfs st) path).
Qed.

(** Every path belongs to exactly one component. Under /mnt/fat32 and /mnt/ext2, reading and
    lookup go to the FAT32 and ext2 drivers with the sub-path and every modification leaves the
    whole state alone; the eight pseudo paths cannot be modified; every other path is served by
    VernisFS, once it is mounted, for reading and for all modifications. *)
Lemma kfs_routing st path env n : bytes_ok path ->
  (exists o, owned path o /\ forall o', owned path o' -> o' = o) /\
  forall o, owned path o ->
  match o with
  | OPseudo => refuses st path
  | OFat sub =>
      refuses st path /\
      kfs_read_file fuel env path n st = on_fat (counted_rd (Fat32.fat32_read fuel (g_fat st) sub (u32 n))) st /\
      mounted_stat fuel path st = on_fat (Fat32.fat32_stat fuel (g_fat st) sub) st
  | OExt2 sub =>
      refuses st path /\
      kfs_read_file fuel env path n st = on_ext2 (counted_rd (Ext2.ext2_read (g_ext2 st) sub (u32 n))) st /\
      mounted_stat fuel path st = on_ext2 (Ext2.ext2_stat (g_ext2 st) sub) st
  | OBackend =>
      if g_ops st then
        (forall data len, kfs_write_file path data len st = on_vfs (fun v => vfs_write_file v path data len) st /\
                          kfs_append_file path data len st = on_vfs (fun v => vfs_append_file v path data len) st) /\
        kfs_mkdir path st = on_vfs (fun v => vfs_mkdir v path) st /\
        kfs_delete_file path st = on_vfs (fun v => vfs_delete_file v path) st /\
        kfs_read_file fuel env path n st =
          on_vfs (fun v => let '(rc, out, v) := vfs_read_file v path n in
                           (if rc <? 0 then Fail else Ok (rc, out), v)) st /\
        kfs_find_file fuel path st =
          (match vfs_find_file (g_vfs st) path with Some i => Ok (entry (g_vfs st) i) | None => Fail end, st)
      else refuses st path /\ kfs_read_file fuel env path n st = (Fail, st)
  end.
Proof. apply kfs_routing_ok. Qed.
End routing.

(** ** Permissions *)

(** The bit of the mode that decides: the class of the user, then the operation. *)
Definition perm_bit (e : VfsFileEntry) (user op : Z) : Z :=
  (if user =? uid e then 6 else if user =? gid e then 3 else 0) +
  (if op =? 114 then 2 else if op =? 119 then 1 else 0).
Definition is_op (op : Z) : Prop := op = 114 \/ op = 119 \/ op = 120.

Lemma land7_bit m s k : 0 <= s -> 0 <= k < 3 ->
  negb (Z.land (Z.land (Z.shiftr m s) 7) (2 ^ k) =? 0) = Z.testbit m (s + k).
Proof.
  intros Hs Hk. rewrite land_pow2_eqb, negb_involutive by lia.
  change 7 with (Z.ones 3). rewrite Z.land_spec, Z.ones_spec_low, andb_true_r by lia.
  rewrite Z.shiftr_spec by lia. f_equal. lia.
Qed.

Lemma entry_perm_spec e user op : is_op op ->
  entry_perm e user op = 0 <-> mode e = 0 \/ Z.testbit (mode e) (perm_bit e user op) = true.
Proof.
  intros Hop. unfold entry_perm, perm_bit.
  destruct (Z.eqb_spec (mode e) 0) as [|Hm]; [tauto|].
  assert (Hb : forall s k, 0 <= s -> 0 <= k < 3 ->
    (if negb (Z.land (Z.land (Z.shiftr (mode e) s) 7) (2 ^ k) =? 0) then 0 else -1) = 0 <->
    mode e = 0 \/ Z.testbit (mode e) (s + k) = true).
  { intros s k Hs Hk. rewrite land7_bit by done. destruct (Z.testbit (mode e) (s + k)); split; auto; [done|].
    by intros [|]. }
  assert (H0 : Z.land (mode e) 7 = Z.land (Z.shiftr (mode e) 0) 7) by (by rewrite Z.shiftr_0_r).
  destruct Hop as [->|[->| ->]]; cbn [Z.eqb Pos.eqb];
    [change 4 with (2 ^ 2)|change 2 with (2 ^ 1) at 1|change 1 with (2 ^ 0) at 1];
    destruct (user =? uid e); [by apply Hb| |by apply Hb| |by apply Hb|];
    (destruct (user =? gid e); [by apply Hb|rewrite H0; by apply Hb]).
Qed.

Section permissions.
Context {D : Type} `{BlockDevLaws D}.
Variable fuel : nat.
Implicit Types (st : Kfs D) (path : bytes).

Lemma backend_find st path i : bytes_ok path -> owned path OBackend -> g_ops st = true ->
  vfs_find_file (g_vfs st) path = Some i -> kfs_find_file fuel path st = (Ok (entry (g_vfs st) i), st).
Proof.
  intros Hp Ho Hops Hf. pose proof (kfs_routing_ok fuel st path (mkEnv 0 0 None) 0 Hp) as [_ Hr].
  specialize (Hr _ Ho). cbn in Hr. rewrite Hops in Hr. destruct Hr as (_ & _ & _ & _ & ->). by rewrite Hf.
Qed.

(** chmod decides who may do what: after kfs_chmod of a VernisFS file, for every user but the
    superuser and each of r, w and x, kfs_check_perm grants the operation exactly when the bit of
    the new mode for the user's class (owner, group, others) is set - or when the nine
    permission bits are all clear, which opens the file to everybody. *)
Lemma kfs_chmod_check_perm st path m i :
  vfs_wf (g_vfs st) -> g_ops st = true -> path_ok path -> owned path OBackend -> is_u16 m ->
  vfs_find_file (g_vfs st) path = Some i ->
  exists st', kfs_chmod path m st = (0, st') /\
    forall user op, user <> 0 -> is_op op ->
    exists r, kfs_check_perm fuel path user op st' = (Ok r, st') /\
      (r = 0 <-> Z.land m 511 = 0 \/
                 Z.testbit m (perm_bit (entry (g_vfs st) i) user op) = true).
Proof.
  intros Hwf Hops Hp Ho Hm Hf. pose proof Ho as Hn. inversion_clear Hn as [| | |Hn' _ _].
  assert (Hslot : meta_slot (g_vfs st) (Chmod path m) = Some i).
  { unfold meta_slot. cbn [meta_path is_mkdir]. unfold vfs_find_file in Hf.
    rewrite (wf_ready _ Hwf) in Hf. cbn [negb] in Hf. by rewrite Hf. }
  pose proof (meta_exec_ok (g_vfs st) (Chmod path m) Hwf Hp Hm) as Hx. rewrite Hslot in Hx.
  destruct Hx as (v & Ev & Wv & _ & Hent & _). cbn [meta_exec meta_result] in *.
  assert (Hps : kfs_path_is_pseudo path = false).
  { apply not_true_iff_false. by rewrite pseudo_spec by apply Hp. }
  exists (st <| g_vfs := v |>). split; [unfold kfs_chmod, on_vfs; by rewrite Hps, Ev|].
  intros user op Hu Hop. unfold kfs_check_perm. rewrite (proj2 (Z.eqb_neq user 0)) by done.
  assert (Hf' : vfs_find_file v path = Some i).
  { unfold vfs_find_file in *. rewrite (wf_ready _ Hwf) in Hf. rewrite (wf_ready _ Wv).
    cbn [negb] in *. apply find_named_Some in Hf as (Hi & He & Hc); [|done|apply Hp].
    apply find_named_Some; [done|apply Hp|]. specialize (Hent i). rewrite decide_True in Hent by done.
    rewrite Hent. done. }
  rewrite (backend_find _ _ i) by (done || apply Hp).
  change (g_vfs (st <| g_vfs := v |>)) with v. eexists. split; [done|].
  rewrite entry_perm_spec by done. specialize (Hent i). rewrite decide_True in Hent by done. rewrite Hent.
  change (mode (?e <| mode := ?x |>)) with x.
  change (perm_bit (entry (g_vfs st) i <| mode := Z.land m 511 |>) user op) with (perm_bit (entry (g_vfs st) i) user op).
  assert (Hbit : 0 <= perm_bit (entry (g_vfs st) i) user op < 9).
  { unfold perm_bit. repeat case_match; lia. }
  change 511 with (Z.ones 9). rewrite (Z.land_spec m), Z.ones_spec_low, andb_true_r by lia. done.
Qed.
End permissions.

(** ** Chunked transfers *)

(** What the drivers promise: commands of 1 to [ctl_max] sectors, 8 for AHCI
    and NVMe, read and write the medium [ctl_view]. *)
Class ControllersLaws (C : Type) `{Controllers C} := {
  ctl_ok : C -> DiskSel -> Prop;
  ctl_view : C -> DiskSel -> Z -> bytes;
  ctl_view_length : forall c s x, ctl_ok c s -> length (ctl_view c s x) = SECTOR;
  ctl_read_ok : forall c s lba n,
    ctl_ok c s -> in_range lba n -> 1 <= n <= 8 \/ s = AtaPio ->
    exists rc c', ctl_read c s lba n = (rc, sectors (ctl_view c s) lba (Z.to_nat n), c') /\
      0 <= rc /\ ctl_ok c' s /\ (forall x, ctl_view c' s x = ctl_view c s x);
  ctl_write_ok : forall c s lba n buf,
    ctl_ok c s -> in_range lba n -> 1 <= n <= 8 \/ s = AtaPio -> length buf = (Z.to_nat n * SECTOR)%nat ->
    exists rc c', ctl_write c s lba n buf = (rc, c') /\ 0 <= rc /\ ctl_ok c' s /\
      (forall x, ctl_view c' s x = write_view (ctl_view c s) lba (Z.to_nat n) buf x) }.

Lemma write_view_ext v w lba n buf s : v s = w s -> write_view v lba n buf s = write_view w lba n buf s.
Proof. intros Hvw. unfold write_view. by destruct (_ && _). Qed.

(** Writing a prefix and then the rest is writing the whole. *)
Lemma write_view_split v lba k m buf s :
  length buf = ((k + m) * SECTOR)%nat ->
  write_view (write_view v lba k (take (k * SECTOR) buf)) (lba + Z.of_nat k) m (drop (k * SECTOR) buf) s =
  write_view v lba (k + m) buf s.
Proof.
  intros Hl. unfold write_view, chunk. rewrite Nat2Z.inj_add.
  destruct (Z.leb_spec (lba + Z.of_nat k) s); destruct (Z.ltb_spec s (lba + Z.of_nat k + Z.of_nat m));
    destruct (Z.leb_spec lba s); destruct (Z.ltb_spec s (lba + Z.of_nat k));
    destruct (Z.ltb_spec s (lba + (Z.of_nat k + Z.of_nat m))); cbn [andb]; try lia; try done.
  - rewrite drop_drop. f_equal. f_equal. rewrite <- Nat.mul_add_distr_r. f_equal. lia.
  - assert (Hk : (Z.to_nat (s - lba) * SECTOR + SECTOR <= k * SECTOR)%nat)
      by (assert (S (Z.to_nat (s - lba)) <= k)%nat by lia; nia).
    rewrite !take_drop_commute, take_take. do 2 f_equal. lia.
Qed.

Section adapter_laws.
Context {C : Type} `{ControllersLaws C}.
Implicit Types (c : C).

Lemma read_loop_sectors fuel : forall c s lba count done,
  ctl_ok c s -> s <> AtaPio \/ True -> 0 <= lba -> 0 <= done <= count -> count < 256 -> lba + count <= 2 ^ 32 ->
  (Z.to_nat (count - done) <= fuel)%nat ->
  exists c', sector_read_loop fuel c s lba count done =
      (true, sectors (ctl_view c s) (lba + done) (Z.to_nat (count - done)), c') /\
    ctl_ok c' s /\ (forall x, ctl_view c' s x = ctl_view c s x).
Proof.
  induction fuel as [|fuel IH]; intros c s lba count dn Hc Hs Hlba Hd Hcount Hr Hf; cbn [sector_read_loop].
  { exists c. replace (Z.to_nat (count - dn)) with 0%nat by lia. done. }
  destruct (Z.ltb_spec dn count) as [Hlt|]; cbn [negb].
  2: { exists c. replace (Z.to_nat (count - dn)) with 0%nat by lia. done. }
  set (n := if 8 <? count - dn then 8 else count - dn).
  assert (Hn : 1 <= n <= 8 /\ n <= count - dn) by (unfold n; case_step; lia). clearbody n.
  destruct (ctl_read_ok c s (lba + dn) n) as (rc & c1 & E & Hrc & Hc1 & Hv1);
    [done|unfold in_range; lia|left; lia|]. rewrite E, (proj2 (Z.ltb_ge rc 0)) by lia.
  destruct (IH c1 s lba count (dn + n)) as (c2 & E2 & Hc2 & Hv2); [done|done|lia..|].
  rewrite E2. exists c2. split; [|split; [done|intros x; by rewrite Hv2, Hv1]].
  do 2 f_equal. replace (Z.to_nat (count - dn)) with (Z.to_nat n + Z.to_nat (count - (dn + n)))%nat by lia.
  rewrite sectors_app. f_equal. rewrite Z2Nat.id, Z.add_assoc by lia. apply sectors_ext. auto.
Qed.

Lemma write_loop_view fuel : forall c s lba count done buf,
  ctl_ok c s -> 0 <= lba -> 0 <= done <= count -> count < 256 -> lba + count <= 2 ^ 32 ->
  length buf = (Z.to_nat count * SECTOR)%nat -> (Z.to_nat (count - done) <= fuel)%nat ->
  exists c', sector_write_loop fuel c s lba count done buf = (true, c') /\ ctl_ok c' s /\
    (forall x, ctl_view c' s x = write_view (ctl_view c s) (lba + done) (Z.to_nat (count - done))
                                   (drop (Z.to_nat done * SECTOR) buf) x).
Proof.
  induction fuel as [|fuel IH]; intros c s lba count dn buf Hc Hlba Hd Hcount Hr Hl Hf; cbn [sector_write_loop].
  { exists c. replace (Z.to_nat (count - dn)) with 0%nat by lia. split; [done|]. split; [done|].
    intros x. unfold write_view. case_step; [lia|done]. }
  destruct (Z.ltb_spec dn count) as [Hlt|]; cbn [negb].
  2: { exists c. replace (Z.to_nat (count - dn)) with 0%nat by lia. split; [done|]. split; [done|].
       intros x. unfold write_view. case_step; [lia|done]. }
  set (n := if 8 <? count - dn then 8 else count - dn).
  assert (Hn : 1 <= n <= 8 /\ n <= count - dn) by (unfold n; case_step; lia). clearbody n.
  assert (Hln : length (get_bytes buf (Z.to_nat dn * SECTOR) (Z.to_nat n * SECTOR)) = (Z.to_nat n * SECTOR)%nat).
  { apply length_get_bytes. rewrite Hl. unfold SECTOR. lia. }
  destruct (ctl_write_ok c s (lba + dn) n (get_bytes buf (Z.to_nat dn * SECTOR) (Z.to_nat n * SECTOR)))
    as (rc & c1 & E & Hrc & Hc1 & Hv1); [done|unfold in_range; lia|left; lia|done|].
  cbv zeta. rewrite E, (proj2 (Z.ltb_ge rc 0)) by lia.
  destruct (IH c1 s lba count (dn + n) buf) as (c2 & E2 & Hc2 & Hv2); [done|lia..|done|lia|].
  exists c2. split; [done|]. split; [done|]. intros x. rewrite Hv2.
  replace (Z.to_nat (count - dn)) with (Z.to_nat n + Z.to_nat (count - (dn + n)))%nat by lia.
  rewrite <- write_view_split by (rewrite length_drop, Hl; unfold SECTOR; lia).
  rewrite drop_drop. rewrite Z2Nat.id by lia.
  rewrite <- Nat.mul_add_distr_r, <- Z2Nat.inj_add by lia.
  rewrite Z.add_assoc. by apply write_view_ext.
Qed.

Definition phys_ok (d : PhysDisk C) : Prop :=
  ctl_ok (ctl d) (sel d) /\ match sel d with Ahci p => 0 <= p | _ => True end.
Definition phys_view (d : PhysDisk C) : Z -> bytes := ctl_view (ctl d) (sel d).

(** The AHCI and NVMe adapters implement the sector device that VernisFS and the block cache are
    written against: whatever controller is selected, cutting a transfer of up to 255 sectors
    into commands of at most 8 reads exactly the requested sectors, and leaves the medium as one
    write of the whole buffer would. *)
Lemma disk_adapters_refine d lba count buf :
  phys_ok d -> in_range lba count -> length buf = (Z.to_nat count * SECTOR)%nat ->
  (exists rc d', bd_read d lba count = (rc, sectors (phys_view d) lba (Z.to_nat count), d') /\ 0 <= rc /\
     phys_ok d' /\ forall x, phys_view d' x = phys_view d x) /\
  (exists rc d', bd_write d lba count buf = (rc, d') /\ 0 <= rc /\ phys_ok d' /\
     forall x, phys_view d' x = write_view (phys_view d) lba (Z.to_nat count) buf x).
Proof.
  intros [Hc Hp] Hr Hl. pose proof Hr as (H1 & H2 & H3). unfold phys_ok, phys_view in *. destruct d as [s c]. cbn [sel ctl] in *.
  pose proof (read_loop_sectors (Z.to_nat count) c s lba count 0 Hc ltac:(by right) ltac:(lia) ltac:(lia)
    ltac:(lia) ltac:(lia) ltac:(lia)) as (c1 & E1 & Hc1 & Hv1).
  pose proof (write_loop_view (Z.to_nat count) c s lba count 0 buf Hc ltac:(lia) ltac:(lia)
    ltac:(lia) ltac:(lia) Hl ltac:(lia)) as (c2 & E2 & Hc2 & Hv2).
  rewrite Z.add_0_r, Z.sub_0_r in *. change (Z.to_nat 0 * SECTOR)%nat with 0%nat in *. rewrite drop_0 in *.
  destruct s as [|p|]; cbn [bd_read bd_write phys_dev sel ctl];
    unfold ahci_sector_read, ahci_sector_write, nvme_sector_read, nvme_sector_write.
  - destruct (ctl_read_ok c AtaPio lba count Hc Hr (or_intror eq_refl)) as (rc & c3 & -> & Hrc & Hc3 & Hv3).
    destruct (ctl_write_ok c AtaPio lba count buf Hc Hr (or_intror eq_refl) Hl) as (rc' & c4 & -> & Hrc' & Hc4 & Hv4).
    split; [exists rc, (mkPhys AtaPio c3)|exists rc', (mkPhys AtaPio c4)]; done.
  - rewrite (proj2 (Z.ltb_ge p 0)) by lia. rewrite E1, E2.
    split; [exists count, (mkPhys (Ahci p) c1)|exists count, (mkPhys (Ahci p) c2)]; (split; [done|]; split; [lia|done]).
  - rewrite E1, E2.
    split; [exists count, (mkPhys Nvme c1)|exists count, (mkPhys Nvme c2)]; (split; [done|]; split; [lia|done]).
Qed.
End adapter_laws.

(** The selected disk is a sector device. *)
#[export] Program Instance phys_laws {C} `{ControllersLaws C} : BlockDevLaws (PhysDisk C) := {
  bd_ok := phys_ok; bd_view := phys_view }.
Next Obligation. intros C ? ? d x [Hc _]. by apply ctl_view_length. Qed.
Next Obligation.
  intros C ? ? d lba count Hd Hr. 
  destruct (disk_adapters_refine d lba count (zeros (Z.to_nat count * SECTOR)) Hd Hr) as [Hread _]; [apply length_replicate|exact Hread].
Qed.
Next Obligation. intros C ? ? d lba count buf Hd Hr Hl. by destruct (disk_adapters_refine d lba count buf Hd Hr Hl) as [_ Hw]. Qed.

(** ** A concrete system: files "/a" on a cached disk in memory; a disk
    controller backed by memory. *)

Definition no_fat : Fat32.Vol := Fat32.mkVol false 0 0 0 0 0 0.
Definition no_ext2 : Ext2.E2 := Ext2.mkE2 false 0 0 0 0 0 0 0.
Definition demo_kfs : Kfs (Bcache RamDisk) :=
  mkKfs KFS_BACKEND_VERNISFS true fs_a no_fat no_ext2 (Ext2.mkIndCache (zeros 4096) 0).
Definition demo_env : Env := mkEnv 12345 100 None.

#[export] Instance ram_ctl : Controllers RamDisk := {
  ctl_read c _ lba n := bd_read c lba n; ctl_write c _ lba n buf := bd_write c lba n buf;
  nvme_available _ := true; nvme_identified _ := true; ahci_available _ := false;
  ahci_pi _ := 0; ahci_identified _ _ := false }.
#[export] Program Instance ram_ctl_laws : ControllersLaws RamDisk := {
  ctl_ok c _ := ram_ok c; ctl_view c _ := ram_sector c }.
Next Obligation. intros c s x Hc. exact (bd_view_length (D := RamDisk) c x Hc). Qed.
Next Obligation.
  intros c s lba n Hc Hr Hn. exact (bd_read_ok (D := RamDisk) c lba n Hc Hr).
Qed.
Next Obligation.
  intros c s lba n buf Hc Hr Hn Hl. exact (bd_write_ok (D := RamDisk) c lba n buf Hc Hr Hl).
Qed.

Lemma demo_backend : owned s_a OBackend.
Proof.
  constructor.
  - intros Hin. vm_compute in Hin. repeat destruct Hin as [Hin|Hin]; done.
  - intros sub Hs%below_fat_spec. done.
  - intros sub Hs%below_ext2_spec. done.
Qed.

Lemma kfs_routing_witness :
  kfs_read_file 5 demo_env (lit "/mnt/ext2/f") 10 demo_kfs =
    on_ext2 (counted_rd (Ext2.ext2_read no_ext2 (lit "/f") 10)) demo_kfs.
Proof.
  assert (Hp : bytes_ok (lit "/mnt/ext2/f")) by (by apply bytes_ok_dec).
  assert (Ho : owned (lit "/mnt/ext2/f") (OExt2 (lit "/f"))) by (constructor; by apply below_ext2_spec).
  destruct (kfs_routing 5 demo_kfs (lit "/mnt/ext2/f") demo_env 10 Hp) as [_ Hr].
  destruct (Hr _ Ho) as (_ & E & _). exact E.
Defined.

Lemma kfs_chmod_check_perm_witness :
  exists st', kfs_chmod s_a 0 demo_kfs = (0, st') /\
    exists r, kfs_check_perm 5 s_a 7 119 st' = (Ok r, st') /\ r = 0.
Proof.
  assert (Hf : vfs_find_file (g_vfs demo_kfs) s_a = Some 0%nat) by (vm_compute; reflexivity).
  assert (Hm : is_u16 0) by ulia.
  destruct (kfs_chmod_check_perm 5 demo_kfs s_a 0 0%nat fs_a_wf eq_refl path_a_ok demo_backend Hm Hf)
    as (st' & E & Hc). exists st'. split; [exact E|].
  assert (Hop : is_op 119) by (right; by left).
  destruct (Hc 7 119 ltac:(lia) Hop) as (r & Er & Hr). exists r. split; [exact Er|].
  apply Hr. by left.
Defined.

Lemma disk_adapters_refine_witness :
  exists rc d', bd_read (mkPhys (Ahci 2) ram0) 100 20 =
    (rc, sectors (phys_view (mkPhys (Ahci 2) ram0)) 100 20, d').
Proof.
  assert (Hok : phys_ok (mkPhys (Ahci 2) ram0)) by (split; [exact ram0_ok|simpl; lia]).
  assert (Hr : in_range 100 20) by (unfold in_range; lia).
  destruct (disk_adapters_refine (mkPhys (Ahci 2) ram0) 100 20 (zeros (20 * 512)) Hok Hr
    (length_replicate _ _)) as [(rc & d' & E & _) _]. exists rc, d'. exact E.
Defined.
