(* ===== verification/LogRing.v ===== *)
(** Log rings: an array of [cap] slots written at [head], which keeps the
    last [cap] records.  Shared by the audit log and the kernel log. *)

From S2P Require Import Prelude.

(** The last [n] elements. *)
Definition lastn {A} (n : nat) (l : list A) : list A := drop (length l - n) l.

Section lastn.
Context {A : Type}.
Implicit Types (l : list A).

Lemma lastn_all n l : (length l <= n)%nat -> lastn n l = l.
Proof. intros Hl. unfold lastn. by replace (length l - n)%nat with 0%nat by lia. Qed.
Lemma length_lastn n l : length (lastn n l) = Nat.min n (length l).
Proof. unfold lastn. rewrite length_drop. lia. Qed.
Lemma lastn_snoc n l x : (0 < n)%nat -> lastn n (l ++ [x]) = lastn (n - 1) l ++ [x].
Proof.
  intros Hn. unfold lastn. rewrite length_app. simpl.
  rewrite drop_app_le by lia. do 2 f_equal. lia.
Qed.
Lemma lastn_lastn n m l : (n <= m)%nat -> lastn n (lastn m l) = lastn n l.
Proof.
  intros Hn. unfold lastn. rewrite drop_drop, length_drop. f_equal. lia.
Qed.
(** Dropping old records early does not matter. *)
Lemma lastn_push n l x : (0 < n)%nat -> lastn n (lastn n l ++ [x]) = lastn n (l ++ [x]).
Proof. intros Hn. rewrite !lastn_snoc by done. by rewrite lastn_lastn by lia. Qed.
Lemma lastn_app_l n l r : lastn n (lastn n l ++ r) = lastn n (l ++ r).
Proof.
  unfold lastn. rewrite !length_app, length_drop.
  destruct (Nat.le_gt_cases n (length r)).
  - rewrite !drop_app_ge by (rewrite ?length_drop; lia). rewrite length_drop. f_equal. lia.
  - rewrite !drop_app_le by (rewrite ?length_drop; lia). rewrite drop_drop. do 2 f_equal. lia.
Qed.
End lastn.
Lemma lastn_fmap {A B} (f : A -> B) n l : f <$> lastn n l = lastn n (f <$> l).
Proof. unfold lastn. by rewrite length_fmap, fmap_drop. Qed.

Section ring.
Context {A : Type} `{Inhabited A}.
Variable cap : Z.
Hypothesis Hcap : 0 < cap.
Implicit Types (l : list A) (h n : Z).

Definition ring_wf l h n : Prop := Z.of_nat (length l) = cap /\ 0 <= h < cap /\ 0 <= n <= cap.
(** The records, oldest first. *)
Definition ring_list l h n : list A := ring_view l cap (h - n) (Z.to_nat n).
Definition ring_count n : Z := if n <? cap then n + 1 else n.

Lemma ring_put_wf l h n x : ring_wf l h n ->
  ring_wf (puti l h x) ((h + 1) mod cap) (ring_count n).
Proof.
  intros (Hl & Hh & Hn). unfold ring_wf, ring_count. rewrite length_puti.
  split; [done|]. split; [by apply Z.mod_pos_bound|]. case_step; lia.
Qed.

Lemma ring_put_list l h n x : ring_wf l h n ->
  ring_list (puti l h x) ((h + 1) mod cap) (ring_count n) = lastn (Z.to_nat cap) (ring_list l h n ++ [x]).
Proof.
  intros (Hl & Hh & Hn). rewrite lastn_snoc by lia. unfold ring_list, ring_count.
  assert (Hpush : forall k : nat, Z.of_nat k < cap ->
    ring_view (puti l h x) cap (h - Z.of_nat k) (S k) = ring_view l cap (h - Z.of_nat k) k ++ [x]).
  { intros k Hk. pose proof (ring_view_push l cap (h - Z.of_nat k) k x Hcap Hl Hk) as Hp.
    replace (h - Z.of_nat k + Z.of_nat k) with h in Hp by lia. by rewrite Z.mod_small in Hp by done. }
  assert (Hshift : forall z (k : nat), ring_view (puti l h x) cap ((h + 1) mod cap - z) k =
    ring_view (puti l h x) cap (h + 1 - z) k).
  { intros z k. rewrite <- (ring_view_mod _ _ ((h + 1) mod cap - z)), Zminus_mod_idemp_l. apply ring_view_mod. }
  rewrite Hshift. destruct (Z.ltb_spec n cap) as [Hlt|Hge].
  - replace (Z.to_nat (n + 1)) with (S (Z.to_nat n)) by lia.
    replace (h + 1 - (n + 1)) with (h - Z.of_nat (Z.to_nat n)) by lia.
    rewrite Hpush by lia. rewrite lastn_all by (rewrite length_ring_view; lia). by rewrite Z2Nat.id by lia.
  - assert (n = cap) as -> by lia. destruct (Z.to_nat cap) as [|k] eqn:Ek; [lia|].
    replace (h + 1 - cap) with (h - Z.of_nat k) by lia. rewrite Hpush by lia. f_equal.
    unfold lastn. rewrite length_ring_view. replace (S k - (S k - 1))%nat with 1%nat by lia.
    rewrite ring_view_pop. cbn [drop]. rewrite ring_view_mod. rewrite drop_0. f_equal. lia.
Qed.

Lemma ring_list_empty l h : ring_list l h 0 = [].
Proof. done. Qed.
Lemma length_ring_list l h n : length (ring_list l h n) = Z.to_nat n.
Proof. apply length_ring_view. Qed.

(** Reading backwards from the head: the [i]-th newest record. *)
Lemma ring_newest l h n (i : nat) : ring_wf l h n -> Z.of_nat i < n ->
  reverse (ring_list l h n) !! i = Some (geti l ((h - 1 - Z.of_nat i) mod cap)).
Proof.
  intros (Hl & Hh & Hn) Hi. rewrite reverse_lookup by (rewrite length_ring_list; lia).
  rewrite length_ring_list. unfold ring_list, ring_view. rewrite list_lookup_fmap, lookup_seq_lt by lia.
  simpl. do 3 f_equal. lia.
Qed.
End ring.
