(* ===== verification/AuditLog.v ===== *)
(** The deny audit log (kernel/security/auditlog.c): a ring of the last
    AUDIT_LOG_SIZE permission denials, printed newest first.  The output of
    cli_printf is modelled as the rows it is given; the serial messages are
    left out. *)

From S2P Require Import Prelude CString LogRing.

(** [include/auditlog.h] constants *)
Definition AUDIT_LOG_SIZE := 32.
Definition AUDIT_CMD_MAX := 48.
Definition AUDIT_USER_MAX := 16.

(** [include/auditlog.h] AuditEntry *)
Record AuditEntry := mkAuditEntry {
  timestamp : Z; username : bytes; command : bytes; privilege : Z; required : Z }.
#[export] Instance eta_AuditEntry : Eta AuditEntry := fun r =>
  mkAuditEntry (timestamp r) (username r) (command r) (privilege r) (required r).
Definition zero_audit : AuditEntry := mkAuditEntry 0 (zeros 16) (zeros 48) 0 0.
#[export] Instance inhabited_audit : Inhabited AuditEntry := populate zero_audit.

(** [kernel/security/auditlog.c:10-13] g_log *)
Record AuditLog := mkAuditLog { g_log : list AuditEntry; g_head : Z; g_count : Z; g_total : Z }.

(** [kernel/security/auditlog.c] auditlog_init *)
Definition auditlog_init (st : AuditLog) : AuditLog :=
  mkAuditLog ((fun e => mkAuditEntry 0 (puti (username e) 0 0) (puti (command e) 0 0) 0 0) <$> g_log st) 0 0 0.

(** The fields stored over an old entry.
    [kernel/security/auditlog.c:40-45] auditlog_record *)
Definition fill_entry (e : AuditEntry) (t : Z) (user cmd : bytes) (priv req : Z) : AuditEntry :=
  mkAuditEntry t (str_copy_n (username e) user AUDIT_USER_MAX) (str_copy_n (command e) cmd AUDIT_CMD_MAX)
    priv req.
(** [kernel/security/auditlog.c] auditlog_record *)
Definition auditlog_record (st : AuditLog) (t : Z) (user cmd : bytes) (priv req : Z) : AuditLog :=
  mkAuditLog (puti (g_log st) (g_head st) (fill_entry (geti (g_log st) (g_head st)) t user cmd priv req))
    ((g_head st + 1) mod AUDIT_LOG_SIZE)
    (if g_count st <? AUDIT_LOG_SIZE then g_count st + 1 else g_count st)
    (u32 (g_total st + 1)).

(** [kernel/security/auditlog.c] auditlog_total_count *)
Definition auditlog_total_count (st : AuditLog) : Z := g_total st.
(** [kernel/security/auditlog.c] auditlog_current_count *)
Definition auditlog_current_count (st : AuditLog) : Z := g_count st.

(** [kernel/security/auditlog.c] priv_name *)
Definition priv_name (p : Z) : bytes :=
  if p =? 0 then lit "root" else if p <=? 50 then lit "admin" else if p <=? 100 then lit "user" else lit "?".

(** A printed row: ticks, user, command, privilege, required privilege. *)
Definition Row : Type := bytes * bytes * bytes * bytes * bytes.
(** The digits of a 64-bit value; 20 of them leave no room for the
    terminator in [tbuf].
    [kernel/security/auditlog.c:94-108] auditlog_print_all *)
Definition audit_row (e : AuditEntry) : Row :=
  (decimal 20 (timestamp e), cstr (username e), cstr (command e), priv_name (privilege e), priv_name (required e)).
(** [kernel/security/auditlog.c:84-91] auditlog_print_all *)
Definition nth_newest (st : AuditLog) (i : Z) : AuditEntry :=
  let idx := if i + 1 <=? g_head st then g_head st - i - 1 else AUDIT_LOG_SIZE - (i + 1 - g_head st) in
  geti (g_log st) idx.
(** The rows printed, [None] for "No denial events recorded".
    [kernel/security/auditlog.c] auditlog_print_all *)
Definition auditlog_print_all (st : AuditLog) : option (list Row) :=
  if g_count st =? 0 then None
  else Some ((fun i : nat => audit_row (nth_newest st (Z.of_nat i))) <$> seq 0 (Z.to_nat (g_count st))).

(** ** What is printed *)

Definition audit_wf (st : AuditLog) : Prop :=
  ring_wf AUDIT_LOG_SIZE (g_log st) (g_head st) (g_count st) /\ is_u32 (g_total st) /\
  Forall (fun e => length (username e) = 16%nat /\ length (command e) = 48%nat) (g_log st).

(** One denial, as the caller reports it. *)
Record Denial := mkDenial { d_time : Z; d_user : bytes; d_cmd : bytes; d_priv : Z; d_req : Z }.
Definition record_all (st : AuditLog) (ds : list Denial) : AuditLog :=
  fold_left (fun st d => auditlog_record st (d_time d) (d_user d) (d_cmd d) (d_priv d) (d_req d)) ds st.
(** The row it should produce: long names are cut. *)
Definition denial_row (d : Denial) : Row :=
  (decimal 20 (d_time d), take 15 (cstr (d_user d)), take 47 (cstr (d_cmd d)),
   priv_name (d_priv d), priv_name (d_req d)).
Definition rows (st : AuditLog) : list Row :=
  audit_row <$> ring_list AUDIT_LOG_SIZE (g_log st) (g_head st) (g_count st).

Lemma record_spec st d : audit_wf st ->
  let st' := auditlog_record st (d_time d) (d_user d) (d_cmd d) (d_priv d) (d_req d) in
  audit_wf st' /\ rows st' = lastn 32 (rows st ++ [denial_row d]) /\ g_total st' = u32 (g_total st + 1).
Proof.
  intros (Hr & Ht & Hf) st'. set (e := geti (g_log st) (g_head st)).
  pose proof Hr as (Hl & Hh & Hn).
  assert (He : length (username e) = 16%nat /\ length (command e) = 48%nat).
  { apply (geti_Forall _ _ _ Hf). unfold AUDIT_LOG_SIZE in *. lia. }
  set (e' := fill_entry e (d_time d) (d_user d) (d_cmd d) (d_priv d) (d_req d)).
  assert (Hrow : audit_row e' = denial_row d).
  { unfold audit_row, denial_row, e', fill_entry, str_copy_n, AUDIT_USER_MAX, AUDIT_CMD_MAX.
    cbn [timestamp username command privilege required].
    rewrite !cstr_strncpy_loop by lia. done. }
  split; [|split; [|done]].
  - split; [by apply ring_put_wf|]. split; [apply u32_is|]. apply puti_Forall; [done|].
    unfold e', fill_entry, str_copy_n. cbn [username command]. by rewrite !length_strncpy_loop.
  - unfold rows. rewrite (ring_put_list AUDIT_LOG_SIZE eq_refl _ _ _ e' Hr).
    rewrite lastn_fmap, fmap_app. cbn [fmap list_fmap]. by rewrite Hrow.
Qed.

Lemma record_all_spec ds : forall st, audit_wf st ->
  audit_wf (record_all st ds) /\ rows (record_all st ds) = lastn 32 (rows st ++ (denial_row <$> ds)) /\
  g_total (record_all st ds) = u32 (g_total st + Z.of_nat (length ds)).
Proof.
  induction ds as [|d ds IH]; intros st Hwf.
  - pose proof Hwf as ((_ & _ & Hn) & Ht & _). cbn [record_all fold_left fmap list_fmap length].
    rewrite app_nil_r, Z.add_0_r, u32_id by done. split; [done|]. split; [|done]. symmetry. apply lastn_all.
    unfold rows, AUDIT_LOG_SIZE in *. rewrite length_fmap, length_ring_list. lia.
  - destruct (record_spec st d Hwf) as (Hwf' & Hrows & Ht).
    destruct (IH _ Hwf') as (W & R & T). split; [exact W|]. split.
    + transitivity (lastn 32 (lastn 32 (rows st ++ [denial_row d]) ++ (denial_row <$> ds)));
        [by rewrite <- Hrows|]. by rewrite lastn_app_l, <- app_assoc.
    + transitivity (u32 (u32 (g_total st + 1) + Z.of_nat (length ds))); [by rewrite <- Ht|].
      unfold u32. rewrite Zplus_mod_idemp_l. f_equal. simpl length. lia.
Qed.

Lemma print_spec st : audit_wf st ->
  auditlog_print_all st = if g_count st =? 0 then None else Some (reverse (rows st)).
Proof.
  intros (Hr & _ & _). unfold auditlog_print_all. pose proof Hr as (Hl & Hh & Hn).
  destruct (Z.eqb_spec (g_count st) 0); [done|]. f_equal. unfold rows. rewrite <- fmap_reverse.
  apply list_eq_same_length with (Z.to_nat (g_count st)).
  - by rewrite length_fmap, length_reverse, length_ring_list.
  - by rewrite length_fmap, length_seq.
  - intros i x y Hi. rewrite !list_lookup_fmap, lookup_seq_lt by done.
    rewrite (ring_newest AUDIT_LOG_SIZE) by (done || lia). simpl. intros [= <-] [= <-].
    unfold nth_newest, AUDIT_LOG_SIZE in *. do 2 f_equal.
    destruct (Z.leb_spec (Z.of_nat i + 1) (g_head st)).
    + rewrite Z.mod_small; lia.
    + rewrite <- (Z_mod_plus_full _ 1), Z.mod_small; lia.
Qed.

(** The deny log reports the last denials: after auditlog_init and any sequence of denials,
    auditlog_print_all prints the most recent 32 of them (or all, when there were fewer), newest
    first, each with its time, the first 15 characters of the user, the first 47 of the
    command and the two privilege classes; and the lifetime count is their number modulo 2^32. *)
Lemma auditlog_prints_last_denials st ds :
  length (g_log st) = 32%nat ->
  Forall (fun e => length (username e) = 16%nat /\ length (command e) = 48%nat) (g_log st) ->
  let st' := record_all (auditlog_init st) ds in
  auditlog_print_all st' =
    (if bool_decide (ds = []) then None else Some (reverse (lastn 32 (denial_row <$> ds)))) /\
  auditlog_current_count st' = Z.of_nat (Nat.min 32 (length ds)) /\
  auditlog_total_count st' = u32 (Z.of_nat (length ds)).
Proof.
  intros Hl Hf st'.
  assert (Hwf : audit_wf (auditlog_init st)).
  { unfold auditlog_init, audit_wf, ring_wf, AUDIT_LOG_SIZE. cbn [g_log g_head g_count g_total].
    rewrite length_fmap, Hl. split; [lia|]. split; [ulia|]. apply Forall_fmap.
    apply (Forall_impl _ _ _ Hf). intros e [H1 H2]. simpl. by rewrite !length_puti. }
  destruct (record_all_spec ds _ Hwf) as (W & R & T). fold st' in W, R, T.
  change (rows (auditlog_init st)) with (@nil Row) in R. cbn [app] in R.
  assert (Hc : g_count st' = Z.of_nat (Nat.min 32 (length ds))).
  { apply (f_equal length) in R. unfold rows in R.
    rewrite length_fmap, length_ring_list, length_lastn, length_fmap in R.
    destruct W as ((_ & _ & Hn) & _). lia. }
  split; [|split; [exact Hc|exact T]].
  rewrite print_spec, R, Hc by done. case_bool_decide as E.
  - subst ds. done.
  - rewrite (proj2 (Z.eqb_neq _ 0)); [done|]. destruct ds; [done|]. simpl length. lia.
Qed.

Definition log0 : AuditLog := mkAuditLog (replicate 32 zero_audit) 0 0 0.
Lemma auditlog_prints_last_denials_witness :
  auditlog_print_all (record_all (auditlog_init log0)
    [mkDenial 7 (lit "bob") (lit "reboot") 100 0; mkDenial 9 (lit "eve") (lit "insmod") 50 0]) =
  Some [(lit "9", lit "eve", lit "insmod", lit "admin", lit "root");
        (lit "7", lit "bob", lit "reboot", lit "user", lit "root")].
Proof.
  assert (Hf : Forall (fun e => length (username e) = 16%nat /\ length (command e) = 48%nat) (g_log log0))
    by (by apply Forall_replicate).
  destruct (auditlog_prints_last_denials log0
    [mkDenial 7 (lit "bob") (lit "reboot") 100 0; mkDenial 9 (lit "eve") (lit "insmod") 50 0] eq_refl Hf) as [E _].
  rewrite E. vm_compute. reflexivity.
Defined.
