(* ===== verification/Klog.v ===== *)
(** The kernel log (kernel/log/klog.c): every message goes to a ring of
    KLOG_RING_SIZE entries; those severe enough go to the serial port.  A line
    for the serial port and the rows printed by the shell are modelled as the
    strings they consist of. *)

From S2P Require Import Prelude CString LogRing.

(** [include/klog.h] constants *)
Definition KLOG_TAG_MAX := 12.
Definition KLOG_MSG_MAX := 80.
Definition KLOG_RING_SIZE := 64.

(** [include/klog.h] KlogLevel *)
Inductive KlogLevel := KLOG_FATAL | KLOG_ERROR | KLOG_WARN | KLOG_INFO | KLOG_DEBUG | KLOG_TRACE.
Definition severity (l : KlogLevel) : Z :=
  match l with KLOG_FATAL => 0 | KLOG_ERROR => 1 | KLOG_WARN => 2 | KLOG_INFO => 3 | KLOG_DEBUG => 4
          | KLOG_TRACE => 5 end.

(** [include/klog.h] KlogEntry *)
Record KlogEntry := mkKlogEntry { timestamp : Z; level : KlogLevel; tag : bytes; message : bytes }.
Definition zero_klog : KlogEntry := mkKlogEntry 0 KLOG_FATAL (zeros 12) (zeros 80).
#[export] Instance inhabited_klog : Inhabited KlogEntry := populate zero_klog.

(** [kernel/log/klog.c:13-17] g_ring *)
Record Klog := mkKlog {
  g_ring : list KlogEntry; g_head : Z; g_count : Z; g_total : Z; g_min_level : KlogLevel }.
#[export] Instance eta_Klog : Eta Klog := fun r =>
  mkKlog (g_ring r) (g_head r) (g_count r) (g_total r) (g_min_level r).

(** The digits that fit, most significant first.
    [kernel/log/klog.c] klog_u64_to_dec *)
Definition klog_u64_to_dec (val bufsz : Z) : bytes :=
  if bufsz =? 0 then [] else if val =? 0 then [48]
  else take (Z.to_nat (bufsz - 1)) (decimal 20 val).

(** [kernel/log/klog.c] klog_level_name *)
Definition klog_level_name (l : KlogLevel) : bytes :=
  match l with
  | KLOG_FATAL => lit "FATAL" | KLOG_ERROR => lit "ERROR" | KLOG_WARN => lit "WARN "
  | KLOG_INFO => lit "INFO " | KLOG_DEBUG => lit "DEBUG" | KLOG_TRACE => lit "TRACE"
  end.
(** [kernel/log/klog.c] klog_level_short *)
Definition klog_level_short (l : KlogLevel) : bytes :=
  match l with
  | KLOG_FATAL => lit "FTL" | KLOG_ERROR => lit "ERR" | KLOG_WARN => lit "WRN"
  | KLOG_INFO => lit "INF" | KLOG_DEBUG => lit "DBG" | KLOG_TRACE => lit "TRC"
  end.

(** [kernel/log/klog.c] klog_init *)
Definition klog_init (st : Klog) : Klog :=
  mkKlog ((fun e => mkKlogEntry 0 KLOG_TRACE (puti (tag e) 0 0) (puti (message e) 0 0)) <$> g_ring st)
    0 0 0 KLOG_INFO.

(** [kernel/log/klog.c:80-84] klog *)
Definition klog_fill (e : KlogEntry) (now : Z) (l : KlogLevel) (tg msg : option bytes) : KlogEntry :=
  mkKlogEntry now l (klog_strncpy (tag e) (default (lit "?") tg) KLOG_TAG_MAX)
    (klog_strncpy (message e) (default [] msg) KLOG_MSG_MAX).
(** The serial line, if any, and the new state; [None] is a NULL argument.
    [kernel/log/klog.c] klog *)
Definition klog (st : Klog) (now : Z) (l : KlogLevel) (tg msg : option bytes) : option bytes * Klog :=
  let entry := klog_fill (geti (g_ring st) (g_head st)) now l tg msg in
  let st' := mkKlog (puti (g_ring st) (g_head st) entry) ((g_head st + 1) mod KLOG_RING_SIZE)
    (if g_count st <? KLOG_RING_SIZE then g_count st + 1 else g_count st) (u64 (g_total st + 1))
    (g_min_level st) in
  (if severity l <=? severity (g_min_level st)
   then Some (lit "[" ++ klog_u64_to_dec now 20 ++ lit "][" ++ klog_level_short l ++ lit "][" ++
              cstr (tag entry) ++ lit "] " ++ cstr (message entry) ++ [10])
   else None, st').

(** [kernel/log/klog.c] klog_set_level *)
Definition klog_set_level (st : Klog) (l : KlogLevel) : Klog := st <| g_min_level := l |>.
(** [kernel/log/klog.c] klog_get_level *)
Definition klog_get_level (st : Klog) : KlogLevel := g_min_level st.
(** [kernel/log/klog.c] klog_count *)
Definition klog_count (st : Klog) : Z := g_count st.
(** [kernel/log/klog.c] klog_total *)
Definition klog_total (st : Klog) : Z := g_total st.
(** [kernel/log/klog.c] klog_clear *)
Definition klog_clear (st : Klog) : Klog := st <| g_head := 0 |> <| g_count := 0 |>.

(** [kernel/log/klog.c:141-152] klog_print_recent *)
Definition klog_row (e : KlogEntry) : bytes * bytes * bytes * bytes :=
  (klog_u64_to_dec (timestamp e) 20, klog_level_name (level e), cstr (tag e), cstr (message e)).
(** The rows, newest first, and the text of the total; [None] for "(no log entries)".
    [kernel/log/klog.c] klog_print_recent *)
Definition klog_print_recent (st : Klog) (count : Z) : option (list (bytes * bytes * bytes * bytes) * bytes) :=
  let count := if (count =? 0) || (g_count st <? count) then g_count st else count in
  if count =? 0 then None else
  Some ((fun i : nat =>
           klog_row (geti (g_ring st) ((g_head st + KLOG_RING_SIZE - 1 - Z.of_nat i) mod KLOG_RING_SIZE)))
          <$> seq 0 (Z.to_nat count),
        klog_u64_to_dec (g_total st) 20).

(** ** What is kept *)

Definition klog_wf (st : Klog) : Prop :=
  ring_wf KLOG_RING_SIZE (g_ring st) (g_head st) (g_count st) /\
  Forall (fun e => length (tag e) = 12%nat /\ length (message e) = 80%nat) (g_ring st).
Definition klog_rows (st : Klog) := klog_row <$> ring_list KLOG_RING_SIZE (g_ring st) (g_head st) (g_count st).
(** The row of a message: the tag and text as they fit. *)
Definition msg_row (now : Z) (l : KlogLevel) (tg msg : option bytes) :=
  (klog_u64_to_dec now 20, klog_level_name l, take 11 (cstr (default (lit "?") tg)),
   take 79 (cstr (default [] msg))).

Lemma klog_spec st now l tg msg : klog_wf st ->
  let st' := (klog st now l tg msg).2 in
  klog_wf st' /\ klog_rows st' = lastn 64 (klog_rows st ++ [msg_row now l tg msg]) /\
  (is_Some (klog st now l tg msg).1 <-> severity l <= severity (g_min_level st)).
Proof.
  intros (Hr & Hf) st'. set (e := geti (g_ring st) (g_head st)). pose proof Hr as (Hl & Hh & Hn).
  assert (He : length (tag e) = 12%nat /\ length (message e) = 80%nat).
  { apply (geti_Forall _ _ _ Hf). unfold KLOG_RING_SIZE in *. lia. }
  set (e' := klog_fill e now l tg msg).
  assert (Hrow : klog_row e' = msg_row now l tg msg).
  { unfold klog_row, msg_row, e', klog_fill, klog_strncpy, KLOG_TAG_MAX, KLOG_MSG_MAX.
    cbn [timestamp level tag message]. rewrite !cstr_strncpy_loop by lia. done. }
  split; [|split].
  - split; [by apply ring_put_wf|]. apply puti_Forall; [done|].
    unfold e', klog_fill, klog_strncpy. cbn [tag message]. rewrite !length_strncpy_loop. exact He.
  - unfold klog_rows. rewrite (ring_put_list KLOG_RING_SIZE eq_refl _ _ _ e' Hr).
    rewrite lastn_fmap, fmap_app. cbn [fmap list_fmap]. by rewrite Hrow.
  - unfold klog. cbn [fst]. case_step; split; try done; try lia.
Qed.

Lemma klog_print_spec st count : klog_wf st -> 0 <= count ->
  klog_print_recent st count =
    if g_count st =? 0 then None
    else Some (take (Z.to_nat (if count =? 0 then g_count st else count)) (reverse (klog_rows st)),
               klog_u64_to_dec (g_total st) 20).
Proof.
  intros (Hr & _) Hcount. unfold klog_print_recent. pose proof Hr as (Hl & Hh & Hn).
  set (n := if (count =? 0) || (g_count st <? count) then g_count st else count).
  assert (Hn' : 0 <= n <= g_count st /\ (n = 0 <-> g_count st = 0) /\
    take (Z.to_nat (if count =? 0 then g_count st else count)) (reverse (klog_rows st)) =
    take (Z.to_nat n) (reverse (klog_rows st))).
  { unfold n. destruct (Z.eqb_spec count 0); cbn [orb]; [split; [lia|done]|].
    destruct (Z.ltb_spec (g_count st) count); (split; [lia|split; [lia|]]); [|done].
    unfold klog_rows. rewrite !take_ge; [done|..];
      rewrite length_reverse, length_fmap, length_ring_list; lia. }
  destruct Hn' as (Hb & Hz & ->). clearbody n. cbv zeta.
  destruct (Z.eqb_spec n 0) as [E|E]; [by rewrite (proj2 (Z.eqb_eq _ _) (proj1 Hz E))|].
  rewrite (proj2 (Z.eqb_neq (g_count st) 0)) by lia. do 2 f_equal.
  unfold klog_rows. rewrite <- fmap_reverse. apply list_eq_same_length with (Z.to_nat n).
  - rewrite length_take, length_fmap, length_reverse, length_ring_list. lia.
  - by rewrite length_fmap, length_seq.
  - intros i x y Hi. rewrite lookup_take_lt, !list_lookup_fmap, lookup_seq_lt by done.
    rewrite (ring_newest KLOG_RING_SIZE) by (done || lia). simpl. intros [= <-] [= <-].
    do 2 f_equal. unfold KLOG_RING_SIZE.
    replace (g_head st + 64 - 1 - Z.of_nat i) with (g_head st - 1 - Z.of_nat i + 1 * 64) by lia.
    apply Z_mod_plus_full.
Qed.
