(* ===== verification/Sha256.v ===== *)
(** SHA-256 (kernel/security/sha256.c): the streaming hash, and its
    equivalence with the padding and block structure of FIPS 180-4.

    Words are 32-bit values in [Z], wrap-around written as [u32]. *)

From S2P Require Import Prelude.

(** [include/sha256.h] constants *)
Definition SHA256_BLOCK_SIZE := 64.
Definition SHA256_DIGEST_SIZE := 32.

(** [kernel/security/sha256.c:9-26] K *)
Definition K : list Z := concat [
  [0x428a2f98; 0x71374491; 0xb5c0fbcf; 0xe9b5dba5];
  [0x3956c25b; 0x59f111f1; 0x923f82a4; 0xab1c5ed5];
  [0xd807aa98; 0x12835b01; 0x243185be; 0x550c7dc3];
  [0x72be5d74; 0x80deb1fe; 0x9bdc06a7; 0xc19bf174];
  [0xe49b69c1; 0xefbe4786; 0x0fc19dc6; 0x240ca1cc];
  [0x2de92c6f; 0x4a7484aa; 0x5cb0a9dc; 0x76f988da];
  [0x983e5152; 0xa831c66d; 0xb00327c8; 0xbf597fc7];
  [0xc6e00bf3; 0xd5a79147; 0x06ca6351; 0x14292967];
  [0x27b70a85; 0x2e1b2138; 0x4d2c6dfc; 0x53380d13];
  [0x650a7354; 0x766a0abb; 0x81c2c92e; 0x92722c85];
  [0xa2bfe8a1; 0xa81a664b; 0xc24b8b70; 0xc76c51a3];
  [0xd192e819; 0xd6990624; 0xf40e3585; 0x106aa070];
  [0x19a4c116; 0x1e376c08; 0x2748774c; 0x34b0bcb5];
  [0x391c0cb3; 0x4ed8aa4a; 0x5b9cca4f; 0x682e6ff3];
  [0x748f82ee; 0x78a5636f; 0x84c87814; 0x8cc70208];
  [0x90befffa; 0xa4506ceb; 0xbef9a3f7; 0xc67178f2]].

(** [kernel/security/sha256.c] ROTR *)
Definition ROTR (x n : Z) : Z := Z.lor (Z.shiftr x n) (u32 (Z.shiftl x (32 - n))).
(** [kernel/security/sha256.c] CH *)
Definition CH (x y z : Z) : Z := Z.lxor (Z.land x y) (Z.land (Z.lnot x) z).
(** [kernel/security/sha256.c] MAJ *)
Definition MAJ (x y z : Z) : Z := Z.lxor (Z.lxor (Z.land x y) (Z.land x z)) (Z.land y z).
(** [kernel/security/sha256.c] EP0 *)
Definition EP0 (x : Z) : Z := Z.lxor (Z.lxor (ROTR x 2) (ROTR x 13)) (ROTR x 22).
(** [kernel/security/sha256.c] EP1 *)
Definition EP1 (x : Z) : Z := Z.lxor (Z.lxor (ROTR x 6) (ROTR x 11)) (ROTR x 25).
(** [kernel/security/sha256.c] SIG0 *)
Definition SIG0 (x : Z) : Z := Z.lxor (Z.lxor (ROTR x 7) (ROTR x 18)) (Z.shiftr x 3).
(** [kernel/security/sha256.c] SIG1 *)
Definition SIG1 (x : Z) : Z := Z.lxor (Z.lxor (ROTR x 17) (ROTR x 19)) (Z.shiftr x 10).

(** [include/sha256.h] Sha256Context *)
Record Sha256Context := mkSha { state : list Z; bit_count : Z; buffer : bytes; buf_len : Z }.
#[export] Instance eta_Sha : Eta Sha256Context := fun r =>
  mkSha (state r) (bit_count r) (buffer r) (buf_len r).

(** The message schedule, as the loops fill it.
    [kernel/security/sha256.c:42-47] sha256_transform *)
Definition W16 (block : bytes) : list Z :=
  (fun i : nat => let i := Z.of_nat i in
     Z.lor (Z.lor (Z.lor (u32 (Z.shiftl (geti block (i * 4)) 24)) (Z.shiftl (geti block (i * 4 + 1)) 16))
                  (Z.shiftl (geti block (i * 4 + 2)) 8)) (geti block (i * 4 + 3))) <$> seq 0 16.
(** [kernel/security/sha256.c:48-50] sha256_transform *)
Fixpoint W_loop (n : nat) (i : Z) (W : list Z) : list Z :=
  match n with
  | O => W
  | S n => W_loop n (i + 1)
             (W ++ [u32 (SIG1 (geti W (i - 2)) + geti W (i - 7) + SIG0 (geti W (i - 15)) + geti W (i - 16))])
  end.

(** The working variables a to h. *)
Definition Vars : Type := Z * Z * Z * Z * Z * Z * Z * Z.
(** [kernel/security/sha256.c:59-66] sha256_transform *)
Fixpoint rounds (n : nat) (i : Z) (W : list Z) (v : Vars) : Vars :=
  match n with
  | O => v
  | S n =>
      let '(a, b, c, d, e, f, g, h) := v in
      let t1 := u32 (h + EP1 e + CH e f g + geti K i + geti W i) in
      let t2 := u32 (EP0 a + MAJ a b c) in
      rounds n (i + 1) W (u32 (t1 + t2), a, b, c, u32 (d + t1), e, f, g)
  end.
(** The new chaining value.
    [kernel/security/sha256.c] sha256_transform *)
Definition sha256_transform (st : list Z) (block : bytes) : list Z :=
  let W := W_loop 48 16 (W16 block) in
  let '(a, b, c, d, e, f, g, h) :=
    rounds 64 0 W (geti st 0, geti st 1, geti st 2, geti st 3, geti st 4, geti st 5, geti st 6, geti st 7) in
  [u32 (geti st 0 + a); u32 (geti st 1 + b); u32 (geti st 2 + c); u32 (geti st 3 + d);
   u32 (geti st 4 + e); u32 (geti st 5 + f); u32 (geti st 6 + g); u32 (geti st 7 + h)].

Definition sha_H0 : list Z :=
  [0x6a09e667; 0xbb67ae85; 0x3c6ef372; 0xa54ff53a; 0x510e527f; 0x9b05688c; 0x1f83d9ab; 0x5be0cd19].
(** The buffer keeps what it held.
    [kernel/security/sha256.c] sha256_init *)
Definition sha256_init (ctx : Sha256Context) : Sha256Context := mkSha sha_H0 0 (buffer ctx) 0.

(** [kernel/security/sha256.c:89-94] sha256_update *)
Definition sha256_push (ctx : Sha256Context) (x : Z) : Sha256Context :=
  let buf := puti (buffer ctx) (buf_len ctx) x in
  let n := buf_len ctx + 1 in
  if n =? SHA256_BLOCK_SIZE
  then mkSha (sha256_transform (state ctx) buf) (u64 (bit_count ctx + 512)) buf 0
  else mkSha (state ctx) (bit_count ctx) buf n.
(** [kernel/security/sha256.c] sha256_update *)
Definition sha256_update (ctx : Sha256Context) (data : bytes) : Sha256Context :=
  fold_left sha256_push data ctx.

(** [while (ctx->buf_len < k) ctx->buffer[ctx->buf_len++] = 0;]
    [kernel/security/sha256.c:111-112] sha256_final *)
Fixpoint zero_fill (n : nat) (buf : bytes) (i : Z) : bytes :=
  match n with O => buf | S n => zero_fill n (puti buf i 0) (i + 1) end.
(** [kernel/security/sha256.c:115-122] sha256_final *)
Definition length_bytes (total_bits : Z) : bytes :=
  (fun s => u8 (Z.shiftr total_bits s)) <$> [56; 48; 40; 32; 24; 16; 8; 0].
(** [kernel/security/sha256.c:127-132] sha256_final *)
Definition digest_of (st : list Z) : bytes :=
  concat ((fun w => (fun s => u8 (Z.shiftr w s)) <$> [24; 16; 8; 0]) <$> st).
(** The digest stored.
    [kernel/security/sha256.c] sha256_final *)
Definition sha256_final (ctx : Sha256Context) : bytes :=
  let total_bits := u64 (bit_count ctx + u64 (buf_len ctx * 8)) in
  let buf := puti (buffer ctx) (buf_len ctx) 0x80 in
  let n := buf_len ctx + 1 in
  let '(st, buf, n) :=
    if 56 <? n then
      let buf := zero_fill (Z.to_nat (64 - n)) buf n in (sha256_transform (state ctx) buf, buf, 0)
    else (state ctx, buf, n) in
  let buf := zero_fill (Z.to_nat (56 - n)) buf n in
  let buf := blit buf 56 (length_bytes total_bits) in
  digest_of (sha256_transform st buf).

(** [garbage]: what the context on the stack held.
    [kernel/security/sha256.c] sha256_hash *)
Definition sha256_hash (garbage : Sha256Context) (data : bytes) : bytes :=
  sha256_final (sha256_update (sha256_init garbage) data).

(** [kernel/security/sha256.c:144-147] sha256_compare *)
Fixpoint diff_loop (n : nat) (i : Z) (a b : bytes) (diff : Z) : Z :=
  match n with
  | O => diff
  | S n => diff_loop n (i + 1) a b (Z.lor diff (Z.lxor (geti a i) (geti b i)))
  end.
(** [kernel/security/sha256.c] sha256_compare *)
Definition sha256_compare (a b : bytes) : Z :=
  if diff_loop (Z.to_nat SHA256_DIGEST_SIZE) 0 a b 0 =? 0 then 0 else -1.

(** ** The specification: pad the message, then hash its blocks *)

(** Zeros after the bit 1, so that the length ends a block. *)
Definition pad_zeros (len : Z) : Z := (55 - len) mod 64.
Definition pad (msg : bytes) : bytes :=
  let len := Z.of_nat (length msg) in
  msg ++ [0x80] ++ zeros (Z.to_nat (pad_zeros len)) ++ length_bytes (len * 8).
Definition blocks (l : bytes) : list bytes :=
  (fun i : nat => get_bytes l (i * 64) 64) <$> seq 0 (length l / 64).
Definition sha256_spec (msg : bytes) : bytes := digest_of (fold_left sha256_transform (blocks (pad msg)) sha_H0).

(** ** Equivalence *)

Lemma blocks_snoc l b q : length l = (q * 64)%nat -> length b = 64%nat -> blocks (l ++ b) = blocks l ++ [b].
Proof.
  intros Hl Hb. unfold blocks. rewrite length_app, Hb, Hl.
  replace ((q * 64 + 64) / 64)%nat with (q + 1)%nat
    by (replace (q * 64 + 64)%nat with ((q + 1) * 64)%nat by lia; by rewrite Nat.div_mul).
  rewrite Nat.div_mul by done. rewrite seq_app, fmap_app. f_equal.
  - apply list_fmap_ext. intros i x [-> Hi]%lookup_seq. apply get_bytes_app_l. lia.
  - simpl. f_equal. rewrite get_bytes_app_r by lia. rewrite Hl, Nat.sub_diag. by apply get_bytes_all.
Qed.

(** The state after the bytes [msg]: whole blocks hashed, the rest buffered. *)
Definition absorbed (ctx : Sha256Context) (msg : bytes) : Prop :=
  exists body part q, msg = body ++ part /\ length body = (q * 64)%nat /\
    buf_len ctx = Z.of_nat (length part) /\ (length part < 64)%nat /\
    length (buffer ctx) = 64%nat /\ take (length part) (buffer ctx) = part /\
    state ctx = fold_left sha256_transform (blocks body) sha_H0 /\
    bit_count ctx = u64 (8 * Z.of_nat (length body)).

(** A byte stored behind the part of a buffer. *)
Lemma take_puti (buf part : bytes) x :
  (length part < length buf)%nat -> take (length part) buf = part ->
  take (length part + 1) (puti buf (Z.of_nat (length part)) x) = part ++ [x].
Proof.
  intros Hl Ht. rewrite puti_blit by lia. rewrite Nat2Z.id. unfold blit. rewrite Ht.
  rewrite app_assoc. apply take_app_length'. rewrite length_app. simpl. lia.
Qed.

Lemma push_absorbed ctx msg x : absorbed ctx msg -> absorbed (sha256_push ctx x) (msg ++ [x]).
Proof.
  intros (body & part & q & -> & Hbody & Hn & Hlt & Hlb & Ht & Hs & Hc). unfold sha256_push.
  pose proof (take_puti (buffer ctx) part x ltac:(lia) Ht) as Htp. rewrite Hn.
  destruct (Z.eqb_spec (Z.of_nat (length part) + 1) SHA256_BLOCK_SIZE) as [E|E]; unfold SHA256_BLOCK_SIZE in E.
  - assert (Hfull : puti (buffer ctx) (Z.of_nat (length part)) x = part ++ [x]).
    { rewrite <- Htp, take_ge; [done|]. rewrite length_puti. lia. }
    exists (body ++ part ++ [x]), [], (q + 1)%nat. rewrite app_nil_r, app_assoc, length_app, length_app. simpl length.
    split; [done|]. split; [lia|]. split; [done|]. split; [lia|]. cbn [buffer state bit_count].
    split; [by rewrite length_puti|]. split; [done|]. split.
    + rewrite <- app_assoc, (blocks_snoc _ _ q) by (done || rewrite length_app; simpl; lia).
      rewrite fold_left_app. simpl. by rewrite Hs, Hfull.
    + rewrite Hc. unfold u64. rewrite Zplus_mod_idemp_l. f_equal. lia.
  - exists body, (part ++ [x]), q. rewrite app_assoc, length_app. simpl length. cbn [buffer state bit_count buf_len].
    split; [done|]. split; [done|]. split; [lia|]. split; [lia|]. by rewrite length_puti.
Qed.

Lemma update_absorbed data : forall ctx msg, absorbed ctx msg -> absorbed (sha256_update ctx data) (msg ++ data).
Proof.
  induction data as [|x data IH]; intros ctx msg Ha; [by rewrite app_nil_r|].
  rewrite cons_middle, app_assoc. apply (IH (sha256_push ctx x)). by apply push_absorbed.
Qed.

Lemma init_absorbed ctx : length (buffer ctx) = 64%nat -> absorbed (sha256_init ctx) [].
Proof. intros Hl. exists [], [], 0%nat. cbn. split; [done|]. split; [done|]. split; [done|]. split; [lia|done]. Qed.

Lemma zero_fill_spec n : forall buf i, 0 <= i -> i + Z.of_nat n <= Z.of_nat (length buf) ->
  zero_fill n buf i = blit buf (Z.to_nat i) (zeros n).
Proof.
  induction n as [|n IH]; intros buf i Hi Hl; cbn [zero_fill].
  - unfold blit. simpl. by rewrite Nat.add_0_r, take_drop.
  - rewrite IH by (rewrite ?length_puti; lia). rewrite puti_blit by lia.
    replace (Z.to_nat (i + 1)) with (Z.to_nat i + length [0%Z])%nat by (simpl; lia).
    rewrite blit_blit_adj by lia. done.
Qed.

Lemma length_length_bytes n : length (length_bytes n) = 8%nat.
Proof. done. Qed.

(** Filling behind a prefix. *)
Lemma zero_fill_prefix (buf p : bytes) (k : Z) : length buf = 64%nat -> take (length p) buf = p ->
  Z.of_nat (length p) <= k <= 64 ->
  take (Z.to_nat k) (zero_fill (Z.to_nat (k - Z.of_nat (length p))) buf (Z.of_nat (length p))) =
    p ++ zeros (Z.to_nat (k - Z.of_nat (length p))) /\
  length (zero_fill (Z.to_nat (k - Z.of_nat (length p))) buf (Z.of_nat (length p))) = 64%nat.
Proof.
  intros Hl Ht Hk. rewrite zero_fill_spec by lia. rewrite Nat2Z.id. unfold blit. rewrite Ht. split.
  - rewrite app_assoc. apply take_app_length'. len.
  - len.
Qed.

Lemma sha256_hash_ok ctx msg :
  length (buffer ctx) = 64%nat -> Z.of_nat (length msg) < 2 ^ 61 ->
  sha256_hash ctx msg = sha256_spec msg.
Proof.
  intros Hb Hlen. unfold sha256_hash, sha256_spec.
  destruct (update_absorbed msg _ _ (init_absorbed ctx Hb)) as
    (body & part & q & Hmsg & Hbody & Hn & Hlt & Hlb & Ht & Hs & Hc). cbn [app] in Hmsg.
  set (c := sha256_update (sha256_init ctx) msg) in *. unfold sha256_final.
  assert (Hlm : Z.of_nat (length msg) = Z.of_nat (length body) + Z.of_nat (length part))
    by (rewrite Hmsg, length_app; lia).
  assert (Htot : u64 (bit_count c + u64 (buf_len c * 8)) = Z.of_nat (length msg) * 8).
  { change (2 ^ 61) with 2305843009213693952 in Hlen. rewrite Hc, Hn.
    rewrite (u64_id (8 * _)), (u64_id (_ * 8)), u64_id; ulia. }
  rewrite Htot. unfold pad, pad_zeros. set (lb := length_bytes (Z.of_nat (length msg) * 8)).
  assert (Hllb : length lb = 8%nat) by done. clearbody lb.
  assert (Hmod : (55 - Z.of_nat (length msg)) mod 64 =
    if 56 <=? Z.of_nat (length part) then 119 - Z.of_nat (length part) else 55 - Z.of_nat (length part)).
  { rewrite Hlm, Hbody. case_step; dlia. }
  rewrite Hmod. clear Hmod Htot Hlm Hlen Hc. pose proof (take_puti (buffer c) part 0x80 ltac:(lia) Ht) as Htp.
  rewrite Hn. set (buf1 := puti (buffer c) (Z.of_nat (length part)) 0x80) in *.
  assert (Hl1 : length buf1 = 64%nat) by (unfold buf1; by rewrite length_puti).
  assert (Hp1 : Z.of_nat (length part) + 1 = Z.of_nat (length (part ++ [0x80]))) by (rewrite length_app; simpl; lia).
  assert (Htp' : take (length (part ++ [0x80])) buf1 = part ++ [0x80]) by (by rewrite length_app).
  rewrite Hp1. set (p1 := part ++ [0x80]) in *. clearbody buf1.
  assert (Hp1l : length p1 = (length part + 1)%nat) by (unfold p1; rewrite length_app; done).
  destruct (Z.ltb_spec 56 (Z.of_nat (length p1))) as [Hgt|Hle].
  - rewrite (proj2 (Z.leb_le 56 _)) by lia.
    destruct (zero_fill_prefix buf1 p1 64 Hl1 Htp' ltac:(lia)) as [Hz Hzl].
    set (buf2 := zero_fill _ buf1 _) in *. clearbody buf2.
    rewrite take_ge in Hz by (rewrite Hzl; done).
    destruct (zero_fill_prefix buf2 [] 56 Hzl eq_refl ltac:(simpl; lia)) as [Hy Hyl].
    change (Z.of_nat (length [])) with 0 in *. cbn [app] in Hy.
    set (buf3 := zero_fill _ buf2 0) in *. clearbody buf3.
    assert (Hbl : blit buf3 56 lb = zeros 56 ++ lb).
    { unfold blit. change 56%nat with (Z.to_nat 56) at 1. rewrite Hy, drop_ge by (rewrite Hllb, Hyl; done).
      by rewrite app_nil_r. }
    rewrite Hbl, Hz. f_equal.
    replace (msg ++ [0x80] ++ zeros (Z.to_nat (119 - Z.of_nat (length part))) ++ lb)
      with ((body ++ (p1 ++ zeros (Z.to_nat (64 - Z.of_nat (length p1))))) ++ (zeros 56 ++ lb)).
    + rewrite (blocks_snoc _ (zeros 56 ++ lb) (q + 1)), (blocks_snoc _ _ q) by len.
      rewrite !fold_left_app. simpl. by rewrite Hs.
    + unfold p1 in *. rewrite Hmsg, <- !app_assoc. do 3 f_equal. rewrite app_assoc. f_equal.
      unfold zeros. rewrite <- replicate_add. f_equal. lia.
  - rewrite (proj2 (Z.leb_gt 56 _)) by lia.
    destruct (zero_fill_prefix buf1 p1 56 Hl1 Htp' ltac:(lia)) as [Hz Hzl].
    set (buf2 := zero_fill _ buf1 _) in *. clearbody buf2.
    assert (Hbl : blit buf2 56 lb = p1 ++ zeros (Z.to_nat (56 - Z.of_nat (length p1))) ++ lb).
    { unfold blit. change 56%nat with (Z.to_nat 56) at 1. rewrite Hz, drop_ge by (rewrite Hllb, Hzl; done).
      by rewrite app_nil_r, <- app_assoc. }
    rewrite Hbl. f_equal.
    replace (msg ++ [0x80] ++ zeros (Z.to_nat (55 - Z.of_nat (length part))) ++ lb)
      with (body ++ (p1 ++ zeros (Z.to_nat (56 - Z.of_nat (length p1))) ++ lb)).
    + rewrite (blocks_snoc _ _ q) by len. rewrite fold_left_app. simpl. by rewrite Hs.
    + unfold p1 in *. rewrite Hmsg, <- !app_assoc. do 4 f_equal. f_equal. lia.
Qed.



(** ** Comparing digests *)

Lemma lor_eq_0 a b : Z.lor a b = 0 <-> a = 0 /\ b = 0.
Proof. apply Z.lor_eq_0_iff. Qed.

Lemma diff_loop_spec n : forall i a b d, 0 <= i ->
  diff_loop n i a b d = 0 <-> d = 0 /\ forall j, i <= j < i + Z.of_nat n -> geti a j = geti b j.
Proof.
  induction n as [|n IH]; intros i a b d Hi; cbn [diff_loop].
  - split; [|tauto]. intros ->. split; [done|]. intros j. lia.
  - rewrite IH, lor_eq_0, Z.lxor_eq_0_iff by lia. split.
    + intros ((-> & He) & Hf). split; [done|]. intros j Hj. destruct (Z.eq_dec j i) as [->|]; [done|].
      apply Hf. lia.
    + intros (-> & Hf). split; [split; [done|apply Hf; lia]|]. intros j Hj. apply Hf. lia.
Qed.

(** The comparison looks at every byte and decides equality. *)
Lemma sha256_compare_spec a b : length a = 32%nat -> length b = 32%nat ->
  sha256_compare a b = 0 <-> a = b.
Proof.
  intros Ha Hb. unfold sha256_compare. change (Z.to_nat SHA256_DIGEST_SIZE) with 32%nat.
  pose proof (diff_loop_spec 32 0 a b 0 ltac:(lia)) as Hd.
  transitivity (diff_loop 32 0 a b 0 = 0); [case_step; split; congruence|]. rewrite Hd. split.
  - intros [_ He]. apply list_eq_same_length with 32%nat; [done..|]. intros i x y Hi Hx Hy.
    apply lookup_geti in Hx, Hy. rewrite <- Hx, <- Hy. apply He. lia.
  - by intros ->.
Qed.

Lemma transform_length st b : length (sha256_transform st b) = 8%nat.
Proof. unfold sha256_transform. by destruct (rounds _ _ _ _) as [[[[[[[? ?] ?] ?] ?] ?] ?] ?]. Qed.
Lemma digest_length st : length st = 8%nat -> length (digest_of st) = 32%nat.
Proof. intros Hl. do 8 (destruct st as [|? st]; [done|]). by destruct st. Qed.
Lemma sha256_hash_length ctx msg : length (sha256_hash ctx msg) = 32%nat.
Proof.
  unfold sha256_hash, sha256_final. destruct (56 <? _); apply digest_length, transform_length.
Qed.
