(* ===== verification/UserDb.v ===== *)
(** The user database (kernel/security/userdb.c): records loaded from
    /etc/shadow through the file system layer, and authentication by SHA-256. *)

From S2P Require Import Prelude CString BlockDev Bcache VernisFs Kfs Sha256.

(** [include/userdb.h] constants *)
Definition USERDB_MAX_USERS := 8.
Definition USERDB_USERNAME_LEN := 32.
Definition USERDB_HASH_LEN := 32.
Definition USER_FLAG_ACTIVE := 1.
Definition USER_FLAG_LOCKED := 2.
Definition USER_FLAG_NO_PASSWORD := 4.
(** [include/userdb.h] USERDB_PATH *)
Definition USERDB_PATH : bytes := lit "/etc/shadow".

(** [include/userdb.h] UserRecord *)
Record UserRecord := mkUserRecord { username : bytes; password_hash : bytes; privilege : Z; flags : Z }.
Definition zero_user : UserRecord := mkUserRecord (zeros 32) (zeros 32) 0 0.
#[export] Instance inhabited_user : Inhabited UserRecord := populate zero_user.
Definition RECORD_SIZE : nat := 66.
Definition user_encode (r : UserRecord) : bytes := username r ++ password_hash r ++ [privilege r; flags r].
Definition user_decode (b : bytes) : UserRecord :=
  mkUserRecord (get_bytes b 0 32) (get_bytes b 32 32) (geti b 64) (geti b 65).

(** [kernel/security/userdb.c:16-18] g_users *)
Record UserDb := mkUserDb { g_users : list UserRecord; g_user_count : Z; g_userdb_ready : bool }.
#[export] Instance eta_UserDb : Eta UserDb := fun r =>
  mkUserDb (g_users r) (g_user_count r) (g_userdb_ready r).

(** One unit of [n] per record in the buffer.
    [kernel/security/userdb.c:50-63] userdb_init *)
Fixpoint parse_records (n : nat) (offset count nbytes : Z) (buf : bytes) (users : list UserRecord)
    : Z * list UserRecord :=
  match n with
  | O => (count, users)
  | S n =>
      if (offset + Z.of_nat RECORD_SIZE <=? nbytes) && (count <? USERDB_MAX_USERS) then
        let rec := user_decode (get_bytes buf (Z.to_nat offset) RECORD_SIZE) in
        if geti (username rec) 0 =? 0
        then parse_records n (offset + Z.of_nat RECORD_SIZE) count nbytes buf users
        else parse_records n (offset + Z.of_nat RECORD_SIZE) (u8 (count + 1)) nbytes buf (puti users count rec)
      else (count, users)
  end.

(** The size of the buffer on the stack. *)
Definition SHADOW_BUF : Z := USERDB_MAX_USERS * Z.of_nat RECORD_SIZE.
(** [Loops]: the file lies on a cyclic FAT32 chain.
    [kernel/security/userdb.c] userdb_init *)
Definition userdb_init {D} `{BlockDev D} (fuel : nat) (env : Env) (st : UserDb) (fs : Kfs D)
    : res bool * UserDb * Kfs D :=
  let '(r, fs) := kfs_read_file fuel env USERDB_PATH SHADOW_BUF fs in
  let none := st <| g_user_count := 0 |> <| g_userdb_ready := false |> in
  match r with
  | Loops => (Loops, st, fs)
  | Fail => (Ok false, none, fs)
  | Ok (nbytes, buf) =>
      if nbytes <=? 0 then (Ok false, none, fs) else
      let '(count, users) := parse_records (S (Z.to_nat nbytes)) 0 0 nbytes buf (g_users st) in
      (Ok true, mkUserDb users count true, fs)
  end.

(** [kernel/security/userdb.c:107-111] userdb_find_user *)
Definition find_name (st : UserDb) (name : bytes) : option nat :=
  find_idx (fun u => udb_strcmp (username u) name =? 0) (take (Z.to_nat (g_user_count st)) (g_users st)).
(** [kernel/security/userdb.c] userdb_find_user *)
Definition userdb_find_user (st : UserDb) (name : bytes) : option UserRecord :=
  if negb (g_userdb_ready st) then None else (fun i : nat => geti (g_users st) (Z.of_nat i)) <$> find_name st name.
(** [kernel/security/userdb.c] userdb_user_count *)
Definition userdb_user_count (st : UserDb) : Z := g_user_count st.
(** [kernel/security/userdb.c] userdb_get_user *)
Definition userdb_get_user (st : UserDb) (index : Z) : option UserRecord :=
  if g_user_count st <=? index then None else Some (geti (g_users st) index).
(** [kernel/security/userdb.c] userdb_find_uid *)
Definition userdb_find_uid (st : UserDb) (name : option bytes) : Z :=
  match name with
  | Some name => if negb (g_userdb_ready st) then -1
                 else match find_name st name with Some i => Z.of_nat i | None => -1 end
  | None => -1
  end.

(** [garbage] is the hash context on the stack; [None] a NULL password.
    [kernel/security/userdb.c] userdb_authenticate *)
Definition userdb_authenticate (garbage : Sha256Context) (st : UserDb) (name : bytes) (password : option bytes) : Z :=
  if negb (g_userdb_ready st) then -1 else
  match userdb_find_user st name with
  | None => -1
  | Some user =>
      if Z.land (flags user) USER_FLAG_ACTIVE =? 0 then -1 else
      if negb (Z.land (flags user) USER_FLAG_LOCKED =? 0) then -1 else
      if negb (Z.land (flags user) USER_FLAG_NO_PASSWORD =? 0) then privilege user else
      match password with
      | None => -1
      | Some pw =>
          let hash := sha256_hash garbage (take (Z.to_nat (udb_strlen pw)) pw) in
          if sha256_compare hash (password_hash user) =? 0 then privilege user else -1
      end
  end.

(** ** Loading the file *)

Definition record_wf (r : UserRecord) : Prop :=
  length (username r) = 32%nat /\ bytes_ok (username r) /\ length (password_hash r) = 32%nat.

Lemma user_decode_encode r rest : record_wf r -> user_decode (user_encode r ++ rest) = r.
Proof.
  intros (Hu & _ & Hp). destruct r as [u p pr fl]. unfold user_decode, user_encode. cbn [username password_hash privilege flags] in *.
  rewrite <- !app_assoc. f_equal.
  - by apply get_bytes_prefix.
  - rewrite get_bytes_app_r by lia. rewrite Hu. by apply get_bytes_prefix.
  - unfold geti. rewrite !lookup_total_app_r by (rewrite ?Hu, ?Hp; simpl; lia). by rewrite Hu, Hp.
  - unfold geti. rewrite !lookup_total_app_r by (rewrite ?Hu, ?Hp; simpl; lia). by rewrite Hu, Hp.
Qed.
Lemma length_user_encode r : record_wf r -> length (user_encode r) = 66%nat.
Proof. intros (Hu & _ & Hp). unfold user_encode. rewrite !length_app, Hu, Hp. done. Qed.

(** The records with a name, in order. *)
Definition named_users (rs : list UserRecord) : list UserRecord :=
  filter (fun r => geti (username r) 0 <> 0) rs.

Lemma parse_records_spec rs : forall n pre count users buf,
  Forall record_wf rs ->
  take (length rs * RECORD_SIZE) (drop (pre * RECORD_SIZE) buf) = concat (user_encode <$> rs) ->
  (length rs < n)%nat -> length users = 8%nat -> (count + length rs <= 8)%nat ->
  let '(c, us) := parse_records n (Z.of_nat (pre * RECORD_SIZE)) (Z.of_nat count)
                    (Z.of_nat ((pre + length rs) * RECORD_SIZE)) buf users in
  c = Z.of_nat (count + length (named_users rs)) /\ length us = 8%nat /\
  take (count + length (named_users rs)) us = take count users ++ named_users rs.
Proof.
  induction rs as [|r rs IH]; intros n pre count users buf Hw Hb Hn Hu Hc; (destruct n as [|n]; [simpl in Hn; lia|]);
    cbn [parse_records length] in *.
  - rewrite (proj2 (Z.leb_gt _ _)) by (unfold RECORD_SIZE; lia). cbn [andb]. rewrite Nat.add_0_r, app_nil_r. done.
  - inversion_clear Hw as [|? ? Hr Hrs]. pose proof (length_user_encode r Hr) as Hle.
    rewrite (proj2 (Z.leb_le _ _)) by (unfold RECORD_SIZE; lia).
    rewrite (proj2 (Z.ltb_lt _ _)) by (unfold USERDB_MAX_USERS; lia). cbn [andb]. rewrite Nat2Z.id.
    cbn [fmap list_fmap concat] in Hb. fold (user_encode <$> rs) in Hb.
    assert (Hd : user_decode (get_bytes buf (pre * RECORD_SIZE) RECORD_SIZE) = r).
    { assert (Hg : get_bytes buf (pre * RECORD_SIZE) RECORD_SIZE = user_encode r).
      { unfold get_bytes. rewrite <- (take_app_length' (user_encode r) (concat (user_encode <$> rs)) RECORD_SIZE) by done.
        rewrite <- Hb, take_take. by rewrite Nat.min_l by (unfold RECORD_SIZE; lia). }
      rewrite Hg, <- (app_nil_r (user_encode r)). by apply user_decode_encode. }
    assert (Hb' : take (length rs * RECORD_SIZE) (drop ((pre + 1) * RECORD_SIZE) buf) = concat (user_encode <$> rs)).
    { rewrite Nat.mul_add_distr_r, Nat.mul_1_l, <- drop_drop.
      rewrite <- (drop_app_length' (user_encode r) (concat (user_encode <$> rs)) RECORD_SIZE) by done.
      rewrite <- Hb, take_drop_commute. do 2 f_equal. }
    rewrite Hd. unfold named_users in *. rewrite filter_cons.
    replace (Z.of_nat (pre * RECORD_SIZE) + Z.of_nat RECORD_SIZE) with (Z.of_nat ((pre + 1) * RECORD_SIZE))
      by (unfold RECORD_SIZE; lia).
    replace ((pre + S (length rs)) * RECORD_SIZE)%nat with ((pre + 1 + length rs) * RECORD_SIZE)%nat by lia.
    destruct (Z.eqb_spec (geti (username r) 0) 0) as [E|E].
    + rewrite decide_False by tauto. apply IH; [done|done|lia|done|lia].
    + rewrite decide_True by done. cbn [length].
      replace (u8 (Z.of_nat count + 1)) with (Z.of_nat (count + 1)) by (rewrite u8_id; ulia).
      specialize (IH n (pre + 1)%nat (count + 1)%nat (puti users (Z.of_nat count) r) buf Hrs Hb' ltac:(lia)
        ltac:(by rewrite length_puti) ltac:(lia)).
      destruct (parse_records _ _ _ _ _ _) as [c us]. destruct IH as (-> & Hl & Ht).
      split; [f_equal; lia|]. split; [done|]. rewrite Nat.add_succ_r, <- Nat.add_succ_l, <- Nat.add_1_r, Ht.
      unfold puti. rewrite Nat2Z.id.
      rewrite Nat.add_1_r, (take_S_r _ _ r) by (rewrite list_lookup_insert_eq; [done|lia]).
      rewrite take_insert_ge by lia. by rewrite <- app_assoc.
Qed.

(** ** Who may log in *)

(** The decision for a list of users, in terms of the digests of FIPS 180-4. *)
Definition login_spec (us : list UserRecord) (name : bytes) (password : option bytes) : Z :=
  match head (filter (fun u => cstr (username u) = cstr name) us) with
  | None => -1
  | Some u =>
      if Z.testbit (flags u) 0 && negb (Z.testbit (flags u) 1) &&
         (Z.testbit (flags u) 2 ||
          bool_decide (sha256_spec <$> (cstr <$> password) = Some (password_hash u)))
      then privilege u else -1
  end.

Lemma find_idx_filter {A} (f : A -> bool) (P : A -> Prop) `{!forall x, Decision (P x)} l :
  (forall x, x ∈ l -> f x = true <-> P x) ->
  match find_idx f l with Some i => l !! i = head (filter P l) | None => filter P l = [] end.
Proof.
  induction l as [|x l IH]; intros Hf; [done|]. cbn [find_idx]. rewrite filter_cons.
  assert (Hx : f x = true <-> P x) by (apply Hf; left).
  specialize (IH (fun y Hy => Hf y (list_elem_of_further _ _ _ Hy))).
  destruct (f x).
  - rewrite decide_True by (by apply Hx). done.
  - rewrite decide_False by (intros HP; by apply Hx in HP). by destruct (find_idx f l).
Qed.

Lemma strlen_take pw : take (Z.to_nat (udb_strlen pw)) pw = cstr pw.
Proof.
  unfold udb_strlen. rewrite strlen_loop_spec, Z.add_0_l, Nat2Z.id.
  induction pw as [|c pw IH]; simpl; [done|]. case_match; [done|]. simpl. by rewrite IH.
Qed.

Definition users_of (st : UserDb) : list UserRecord := take (Z.to_nat (g_user_count st)) (g_users st).

Lemma authenticate_spec garbage st name password :
  g_userdb_ready st = true -> Forall record_wf (users_of st) -> bytes_ok name ->
  length (buffer garbage) = 64%nat -> (forall pw, password = Some pw -> Z.of_nat (length pw) < 2 ^ 61) ->
  userdb_authenticate garbage st name password = login_spec (users_of st) name password.
Proof.
  intros Hr Hw Hn Hg Hp. unfold userdb_authenticate, userdb_find_user, login_spec. rewrite Hr. cbn [negb].
  pose proof (find_idx_filter (fun u => udb_strcmp (username u) name =? 0)
    (fun u => cstr (username u) = cstr name) (users_of st)) as Hf. unfold find_name. fold (users_of st).
  assert (Hiff : forall x, x ∈ users_of st ->
    (udb_strcmp (username x) name =? 0) = true <-> cstr (username x) = cstr name).
  { intros x Hx. rewrite Z.eqb_eq. apply strcmp_loop_eq; [|done].
    rewrite Forall_forall in Hw. by apply Hw. }
  specialize (Hf Hiff). destruct (find_idx _ (users_of st)) as [i|] eqn:E; [|by rewrite Hf].
  cbn [fmap option_fmap option_map]. apply find_idx_lt in E.
  destruct (users_of st !! i) as [u|] eqn:Eu; [|by apply lookup_ge_None in Eu; lia].
  assert (Hgu : geti (g_users st) (Z.of_nat i) = u).
  { apply lookup_geti. unfold users_of in Eu. by apply lookup_take_Some in Eu as [Eu _]. }
  rewrite Hgu, <- Hf. assert (Hu : record_wf u) by (by eapply Forall_lookup_1).
  change USER_FLAG_ACTIVE with (2 ^ 0). change USER_FLAG_LOCKED with (2 ^ 1).
  change USER_FLAG_NO_PASSWORD with (2 ^ 2). rewrite !land_pow2_eqb, !negb_involutive by lia.
  destruct (Z.testbit (flags u) 0), (Z.testbit (flags u) 1), (Z.testbit (flags u) 2); cbn [negb andb orb]; try done.
  destruct password as [pw|]; [|done]. cbn [fmap option_fmap option_map].
  rewrite strlen_take. assert (Hlen : Z.of_nat (length (cstr pw)) < 2 ^ 61).
  { pose proof (length_cstr pw). specialize (Hp pw eq_refl). lia. }
  rewrite sha256_hash_ok by done.
  assert (Hd : length (sha256_spec (cstr pw)) = 32%nat).
  { rewrite <- (sha256_hash_ok garbage) by done. apply sha256_hash_length. }
  pose proof (sha256_compare_spec _ (password_hash u) Hd (proj2 (proj2 Hu))) as Hc.
  case_bool_decide as Ed; case_step; try done; exfalso.
  - injection Ed as Ed. tauto.
  - apply Ed. f_equal. tauto.
Qed.


(** A shadow file with an administrator, whose password is "abc", and a locked user. *)
Definition shadow_users : list UserRecord :=
  [mkUserRecord (lit "root" ++ zeros 28)
     [0xba; 0x78; 0x16; 0xbf; 0x8f; 0x01; 0xcf; 0xea; 0x41; 0x41; 0x40; 0xde; 0x5d; 0xae; 0x22; 0x23;
      0xb0; 0x03; 0x61; 0xa3; 0x96; 0x17; 0x7a; 0x9c; 0xb4; 0x10; 0xff; 0x61; 0xf2; 0x00; 0x15; 0xad] 0 1;
   mkUserRecord (lit "bob" ++ zeros 29) (zeros 32) 100 7].
Definition shadow_fs : Kfs (Bcache RamDisk) :=
  mkKfs KFS_BACKEND_VERNISFS true
    (vfs_write_file empty_fs USERDB_PATH (concat (user_encode <$> shadow_users)) 132).2
    no_fat no_ext2 (Ext2.mkIndCache (zeros 4096) 0).
Definition shadow_read := kfs_read_file 5 demo_env USERDB_PATH SHADOW_BUF shadow_fs.
Definition shadow_bytes : bytes := match shadow_read.1 with Ok (_, b) => b | _ => [] end.
Definition empty_db : UserDb := mkUserDb (replicate 8 zero_user) 0 false.
Definition stack_ctx : Sha256Context := mkSha [] 0 (zeros 64) 0.

Lemma shadow_read_def : kfs_read_file 5 demo_env USERDB_PATH SHADOW_BUF shadow_fs = shadow_read.
Proof. unfold shadow_read. reflexivity. Qed.
Lemma pair_fst {A B} (p : A * B) a : p.1 = a -> p = (a, p.2).
Proof. by destruct p; intros <-. Qed.


(** The read into the 528 bytes on the stack may store more: VernisFS reads
    whole sectors, two of them for a file of more than 512 bytes. *)
Definition big_shadow_fs : Kfs (Bcache RamDisk) :=
  mkKfs KFS_BACKEND_VERNISFS true (vfs_write_file empty_fs USERDB_PATH (zeros 528) 528).2
    no_fat no_ext2 (Ext2.mkIndCache (zeros 4096) 0).
Lemma userdb_init_overruns_buffer :
  match (kfs_read_file 5 demo_env USERDB_PATH SHADOW_BUF big_shadow_fs).1 with
  | Ok (rc, stored) => rc = SHADOW_BUF /\ Z.of_nat (length stored) = SHADOW_BUF + 496
  | _ => False
  end.
Proof. vm_compute. split; reflexivity. Qed.
