(* ===== verification/Sandbox.v ===== *)
(** Process sandboxing (kernel/security/sandbox.c): the pool of security
    contexts, capabilities, system call filtering and the check of user
    pointers.  A [SecurityContext *] into the pool is its index.  A denial is
    reported to the AI engine: [Denied] carries the two numbers of the event
    as the strings the code builds. *)

From S2P Require Import Prelude CString.

(** [include/sandbox.h] constants *)
Definition CAP_SERIAL_WRITE := 0x1.
Definition CAP_SERIAL_READ := 0x2.
Definition CAP_ALLOC_MEMORY := 0x10.
Definition CAP_MAP_MEMORY := 0x20.
Definition CAP_IPC_SEND := 0x1000.
Definition CAP_IPC_RECEIVE := 0x2000.
Definition CAP_MODULE_LOAD := 0x10000.
Definition CAP_MODULE_UNLOAD := 0x20000.
Definition CAP_MODULE_EXECUTE := 0x40000.
Definition CAP_SYS_DEBUG := 0x100000.
Definition CAP_KERNEL_ALL := 0xFFFFFFFFFFFFFFFF.
Definition PRIV_RING_KERNEL := 0.
Definition PRIV_RING_SYSTEM := 2.
Definition PRIV_RING_USER := 3.
Definition PROC_TYPE_KERNEL := 0.
Definition PROC_TYPE_SYSTEM := 1.
(** Of the process types. *)
Definition PROC_TYPE_USER := 2.
(** [include/sandbox.h] CAP_SYSTEM_DEFAULT *)
Definition CAP_SYSTEM_DEFAULT : Z :=
  fold_left Z.lor [CAP_SERIAL_READ; CAP_ALLOC_MEMORY; CAP_MAP_MEMORY; CAP_IPC_SEND; CAP_IPC_RECEIVE;
                   CAP_SYS_DEBUG] CAP_SERIAL_WRITE.
(** [include/sandbox.h] CAP_USER_DEFAULT *)
Definition CAP_USER_DEFAULT : Z :=
  fold_left Z.lor [CAP_ALLOC_MEMORY; CAP_IPC_SEND; CAP_IPC_RECEIVE] CAP_SERIAL_WRITE.

(** [include/sandbox.h] UserMemoryLayout *)
Record UserMemoryLayout := mkLayout {
  user_base : Z; user_size : Z; stack_base : Z; stack_size : Z; heap_base : Z; heap_size : Z }.
(** [include/sandbox.h] SecurityContext *)
Record SecurityContext := mkCtx {
  pid : Z; proc_type : Z; runtime_ring : Z; capabilities : Z; mem_layout : UserMemoryLayout;
  cr3_value : Z; max_memory : Z; max_open_files : Z; max_cpu_time : Z;
  created_at : Z; syscalls_made : Z; capability_denials : Z }.
#[export] Instance eta_Ctx : Eta SecurityContext := fun r =>
  mkCtx (pid r) (proc_type r) (runtime_ring r) (capabilities r) (mem_layout r) (cr3_value r)
    (max_memory r) (max_open_files r) (max_cpu_time r) (created_at r) (syscalls_made r) (capability_denials r).
Definition zero_ctx : SecurityContext := mkCtx 0 0 0 0 (mkLayout 0 0 0 0 0 0) 0 0 0 0 0 0 0.
#[export] Instance inhabited_ctx : Inhabited SecurityContext := populate zero_ctx.

(** The static variables of sandbox_create_process.
    [kernel/security/sandbox.c:124-125] sandbox_create_process *)
Record Sandbox := mkSandbox { pool : list SecurityContext; pool_idx : Z }.

(** [kernel/security/sandbox.c:22-25] SYSTEM_ALLOWED_MASK *)
Definition SYSTEM_ALLOWED_MASK : Z :=
  fold_left (fun m b => Z.lor m (Z.shiftl 1 b)) [0; 1; 2; 20; 21; 22; 23; 24; 25; 26; 27] 0.
(** [kernel/security/sandbox.c:28-30] USER_ALLOWED_MASK *)
Definition USER_ALLOWED_MASK : Z :=
  fold_left (fun m b => Z.lor m (Z.shiftl 1 b)) [0; 1; 2; 20; 21; 22] 0.

(** [kernel/security/sandbox.c] syscall_allowed_by_mask *)
Definition syscall_allowed_by_mask (syscall_num mask : Z) : bool :=
  if 64 <=? syscall_num then false else negb (Z.land (Z.shiftr mask syscall_num) 1 =? 0).

(** [kernel/security/sandbox.c] sandbox_has_capability *)
Definition sandbox_has_capability (ctx : SecurityContext) (cap : Z) : bool :=
  Z.land (capabilities ctx) cap =? cap.

(** The event: the decimal process id and system call number.
    [kernel/security/sandbox.c] sandbox_notify_deny *)
Definition sandbox_notify_deny (pid syscall_num : Z) : bytes * bytes :=
  (decimal 12 pid, decimal 12 syscall_num).
Inductive verdict := Allowed | Denied (event : option (bytes * bytes)).

(** The capabilities the switch asks for.
    [kernel/security/sandbox.c:66-92] sandbox_check_syscall *)
Definition required_capability (syscall_num : Z) : Z :=
  if existsb (Z.eqb syscall_num) [20; 21; 22; 26; 27] then Z.lor CAP_IPC_SEND CAP_IPC_RECEIVE
  else if existsb (Z.eqb syscall_num) [28; 29] then Z.lor CAP_MODULE_LOAD CAP_MODULE_UNLOAD
  else if syscall_num =? 31 then CAP_MODULE_EXECUTE else 0.
(** [None] is a NULL context.
    [kernel/security/sandbox.c] sandbox_check_syscall *)
Definition sandbox_check_syscall (ctx : option SecurityContext) (syscall_num : Z) : verdict :=
  match ctx with
  | None => Denied None
  | Some ctx =>
      let deny := Denied (Some (sandbox_notify_deny (pid ctx) syscall_num)) in
      if proc_type ctx =? PROC_TYPE_KERNEL then Allowed else
      if negb (sandbox_has_capability ctx (required_capability syscall_num)) then deny else
      if proc_type ctx =? PROC_TYPE_SYSTEM then
        if syscall_allowed_by_mask syscall_num SYSTEM_ALLOWED_MASK then Allowed else deny
      else if proc_type ctx =? PROC_TYPE_USER then
        if syscall_allowed_by_mask syscall_num USER_ALLOWED_MASK then Allowed else deny
      else deny
  end.

(** The context stored in the slot.
    [kernel/security/sandbox.c:133-153] sandbox_create_process *)
Definition init_ctx (ctx : SecurityContext) (id type : Z) : SecurityContext :=
  let user := type =? PROC_TYPE_USER in
  mkCtx id type
    (if type =? PROC_TYPE_KERNEL then PRIV_RING_KERNEL
     else if type =? PROC_TYPE_SYSTEM then PRIV_RING_SYSTEM else PRIV_RING_USER)
    (if type =? PROC_TYPE_KERNEL then CAP_KERNEL_ALL
     else if type =? PROC_TYPE_SYSTEM then CAP_SYSTEM_DEFAULT else CAP_USER_DEFAULT)
    (mem_layout ctx) (cr3_value ctx)
    (if user then 512 * 1024 else 2 * 1024 * 1024) (if user then 32 else 256) (if user then 5000 else 0)
    (created_at ctx) 0 0.
(** [kernel/security/sandbox.c] sandbox_create_process *)
Definition sandbox_create_process (st : Sandbox) (type priority : Z) : option Z * Sandbox :=
  if 16 <=? pool_idx st then (None, st) else
  let i := pool_idx st in
  (Some i, mkSandbox (puti (pool st) i (init_ctx (geti (pool st) i) i type)) (i + 1)).

Definition ctx_at (st : Sandbox) (i : Z) : SecurityContext := geti (pool st) i.
Definition upd_ctx (st : Sandbox) (i : Z) (f : SecurityContext -> SecurityContext) : Sandbox :=
  mkSandbox (puti (pool st) i (f (ctx_at st i))) (pool_idx st).

(** The slot is not given back.
    [kernel/security/sandbox.c] sandbox_destroy_process *)
Definition sandbox_destroy_process (st : Sandbox) (i : option Z) : Sandbox := st.
(** [kernel/security/sandbox.c] sandbox_grant_capability *)
Definition sandbox_grant_capability (st : Sandbox) (i : option Z) (cap : Z) : Sandbox :=
  match i with
  | None => st
  | Some i => upd_ctx st i (fun c => c <| capabilities := Z.lor (capabilities c) cap |>)
  end.
(** [kernel/security/sandbox.c] sandbox_revoke_capability *)
Definition sandbox_revoke_capability (st : Sandbox) (i : option Z) (cap : Z) : Sandbox :=
  match i with
  | None => st
  | Some i => upd_ctx st i (fun c => c <| capabilities := Z.land (capabilities c) (u64 (Z.lnot cap)) |>)
  end.

(** [kernel/security/sandbox.c] sandbox_setup_user_memory *)
Definition sandbox_setup_user_memory (st : Sandbox) (i : option Z) (base size : Z) : Sandbox :=
  match i with
  | None => st
  | Some i =>
      let stack := u32 (base + size - 4096) in
      upd_ctx st i (fun c => c <| mem_layout := mkLayout base size stack 4096 base (u32 (stack - base)) |>)
  end.

(** The pointer is 64 bits wide; only its low half is looked at.
    [kernel/security/sandbox.c] sandbox_validate_user_pointer *)
Definition sandbox_validate_user_pointer (ctx : option SecurityContext) (ptr size : Z) : bool :=
  match ctx with
  | None => true
  | Some ctx =>
      if proc_type ctx =? PROC_TYPE_KERNEL then true else
      let addr := u32 ptr in
      let end_ := u32 (addr + size) in
      negb ((addr <? user_base (mem_layout ctx)) ||
            (u32 (user_base (mem_layout ctx) + user_size (mem_layout ctx)) <? end_))
  end.

(** ** System call filtering *)

(** The whitelist of a process type. *)
Definition whitelist (type : Z) : list Z :=
  if type =? PROC_TYPE_SYSTEM then [0; 1; 2; 20; 21; 22; 23; 24; 25; 26; 27]
  else if type =? PROC_TYPE_USER then [0; 1; 2; 20; 21; 22] else [].

Lemma mask_spec bits n : 0 <= n -> Forall (fun b => 0 <= b < 64) bits ->
  syscall_allowed_by_mask n (fold_left (fun m b => Z.lor m (Z.shiftl 1 b)) bits 0) = true <-> In n bits.
Proof.
  intros Hn Hb. unfold syscall_allowed_by_mask.
  assert (Hbit : forall m, Z.testbit (fold_left (fun m b => Z.lor m (Z.shiftl 1 b)) bits m) n =
    Z.testbit m n || existsb (Z.eqb n) bits).
  { induction Hb as [|b bits Hb Hbits IH]; intros m; simpl; [by rewrite orb_false_r|].
    rewrite IH by done. rewrite Z.lor_spec, Z.shiftl_1_l, Z.pow2_bits_eqb, <- orb_assoc by lia.
    do 2 f_equal. apply Z.eqb_sym. }
  assert (Hin : existsb (Z.eqb n) bits = true <-> In n bits).
  { rewrite existsb_exists. setoid_rewrite Z.eqb_eq. split; [by intros (x & Hx & ->)|]. by exists n. }
  destruct (Z.leb_spec 64 n) as [Hge|Hlt].
  - split; [done|]. intros Hx%list_elem_of_In. rewrite Forall_forall in Hb. apply Hb in Hx. lia.
  - change 1 with (2 ^ 0) at 2. rewrite land_pow2_eqb, negb_involutive, Z.shiftr_spec, Z.add_0_l by lia.
    by rewrite Hbit, Z.bits_0.
Qed.

Lemma whitelist_mask ctx n : 0 <= n -> proc_type ctx <> PROC_TYPE_KERNEL ->
  sandbox_check_syscall (Some ctx) n = Allowed <->
  In n (whitelist (proc_type ctx)) /\ sandbox_has_capability ctx (required_capability n) = true.
Proof.
  intros Hn Hk. unfold sandbox_check_syscall, whitelist. rewrite (proj2 (Z.eqb_neq _ _) Hk).
  destruct (sandbox_has_capability ctx _); cbn [negb]; [|split; [done|by intros [_ ?]]].
  assert (Hs : syscall_allowed_by_mask n SYSTEM_ALLOWED_MASK = true <->
    In n [0; 1; 2; 20; 21; 22; 23; 24; 25; 26; 27])
    by (apply mask_spec; [done|repeat constructor; lia]).
  assert (Hu : syscall_allowed_by_mask n USER_ALLOWED_MASK = true <-> In n [0; 1; 2; 20; 21; 22])
    by (apply mask_spec; [done|repeat constructor; lia]).
  destruct (proc_type ctx =? PROC_TYPE_SYSTEM).
  - rewrite <- Hs. destruct (syscall_allowed_by_mask n SYSTEM_ALLOWED_MASK); split; try done; by intros [? ?].
  - destruct (proc_type ctx =? PROC_TYPE_USER); [|split; [done|by intros [[] _]]].
    rewrite <- Hu. destruct (syscall_allowed_by_mask n USER_ALLOWED_MASK); split; try done; by intros [? ?].
Qed.

(** Changes of capabilities. *)
Inductive cap_op := Grant (cap : Z) | Revoke (cap : Z).
Definition cap_step (i : Z) (st : Sandbox) (o : cap_op) : Sandbox :=
  match o with
  | Grant cap => sandbox_grant_capability st (Some i) cap
  | Revoke cap => sandbox_revoke_capability st (Some i) cap
  end.

Lemma cap_steps_type i ops : forall st, 0 <= i < Z.of_nat (length (pool st)) ->
  proc_type (ctx_at (fold_left (cap_step i) ops st) i) = proc_type (ctx_at st i).
Proof.
  induction ops as [|o ops IH]; intros st Hi; [done|]. simpl. rewrite IH.
  - destruct o; cbn [cap_step sandbox_grant_capability sandbox_revoke_capability]; unfold upd_ctx, ctx_at; simpl;
      by rewrite geti_puti_eq.
  - destruct o; simpl; by rewrite length_puti.
Qed.

(** C34. Least privilege: a process created as a system service or a user process may make exactly
    the system calls of its type's whitelist, and no sequence of capability grants and
    revocations ever lets it make another one; in particular no grant of the module capabilities
    admits the module system calls 28 to 31. A refused call is reported with the process id and
    the call number. *)
Theorem sandbox_least_privilege st type priority i st' ops n :
  length (pool st) = 16%nat -> 0 <= pool_idx st -> type = PROC_TYPE_SYSTEM \/ type = PROC_TYPE_USER -> 0 <= n ->
  sandbox_create_process st type priority = (Some i, st') ->
  (sandbox_check_syscall (Some (ctx_at st' i)) n = Allowed <-> In n (whitelist type)) /\
  (sandbox_check_syscall (Some (ctx_at (fold_left (cap_step i) ops st') i)) n = Allowed ->
     In n (whitelist type) /\ ~ 28 <= n <= 31) /\
  (forall ctx v, v = sandbox_check_syscall (Some ctx) n -> v <> Allowed ->
     v = Denied (Some (decimal 12 (pid ctx), decimal 12 n))).
Proof.
  intros Hl Hidx Ht Hn Hc. unfold sandbox_create_process in Hc.
  destruct (Z.leb_spec 16 (pool_idx st)); [done|]. injection Hc as <- <-.
  set (st' := mkSandbox _ _).
  assert (Hctx : ctx_at st' (pool_idx st) = init_ctx (geti (pool st) (pool_idx st)) (pool_idx st) type).
  { unfold ctx_at, st'. cbn [pool]. apply geti_puti_eq. lia. }
  assert (Hk : proc_type (ctx_at st' (pool_idx st)) = type) by (by rewrite Hctx).
  assert (Hnk : type <> PROC_TYPE_KERNEL) by (by destruct Ht as [->| ->]).
  split; [|split].
  - rewrite whitelist_mask by (done || by rewrite Hk). rewrite Hk. split; [tauto|]. intros Hin. split; [done|].
    rewrite Hctx. destruct Ht as [->| ->]; simpl in Hin;
      repeat (destruct Hin as [<-|Hin]; [reflexivity|]); done.
  - pose proof (cap_steps_type (pool_idx st) ops st') as Hty. rewrite Hk in Hty.
    assert (Hpool : length (pool st') = 16%nat) by (unfold st'; simpl; by rewrite length_puti).
    specialize (Hty ltac:(lia)). rewrite whitelist_mask by (done || by rewrite Hty). rewrite Hty.
    intros [Hin _]. split; [done|]. destruct Ht as [->| ->]; simpl in Hin; lia.
  - intros ctx v -> Hv. unfold sandbox_check_syscall, sandbox_notify_deny in *.
    repeat (case_match; try done).
Qed.

Lemma sandbox_least_privilege_witness :
  In 20 (whitelist PROC_TYPE_USER) /\
  exists st', sandbox_create_process (mkSandbox (replicate 16 zero_ctx) 0) PROC_TYPE_USER 5 = (Some 0, st') /\
    sandbox_check_syscall (Some (ctx_at (fold_left (cap_step 0) [Grant CAP_MODULE_LOAD] st') 0)) 28 <> Allowed.
Proof.
  split; [simpl; tauto|].
  destruct (sandbox_create_process (mkSandbox (replicate 16 zero_ctx) 0) PROC_TYPE_USER 5) as [r st'] eqn:E.
  assert (Hr : r = Some 0) by (vm_compute in E; congruence). subst r. exists st'. split; [reflexivity|].
  intros Ha.
  destruct (sandbox_least_privilege (mkSandbox (replicate 16 zero_ctx) 0) PROC_TYPE_USER 5 0 st'
    [Grant CAP_MODULE_LOAD] 28 eq_refl ltac:(simpl; lia) (or_intror eq_refl) ltac:(lia) E) as (_ & Hs & _).
  destruct (Hs Ha) as [_ Hno]. lia.
Defined.

(** ** User pointers *)

(** C35. What the pointer check establishes: for a process whose region does not reach past 4 GB, a
    pointer below 4 GB and a size that do not wrap around 2^32 are accepted exactly when the
    whole buffer lies inside the process's region. *)
Theorem sandbox_pointer_in_region ctx ptr size :
  proc_type ctx <> PROC_TYPE_KERNEL -> is_u32 ptr -> 0 <= size -> ptr + size < 2 ^ 32 ->
  0 <= user_base (mem_layout ctx) -> 0 <= user_size (mem_layout ctx) ->
  user_base (mem_layout ctx) + user_size (mem_layout ctx) < 2 ^ 32 ->
  sandbox_validate_user_pointer (Some ctx) ptr size = true <->
  user_base (mem_layout ctx) <= ptr /\ ptr + size <= user_base (mem_layout ctx) + user_size (mem_layout ctx).
Proof.
  intros Hk Hp Hs Hw Hb Hz Hr. unfold sandbox_validate_user_pointer.
  rewrite (proj2 (Z.eqb_neq _ _) Hk), !u32_id by ulia. lia.
Qed.

(** A process with the megabyte at 1 MB. *)
Definition user_ctx : SecurityContext :=
  ctx_at (sandbox_setup_user_memory
    (sandbox_create_process (mkSandbox (replicate 16 zero_ctx) 0) PROC_TYPE_USER 5).2 (Some 0) 0x100000 0x100000) 0.
Lemma sandbox_pointer_in_region_witness :
  sandbox_validate_user_pointer (Some user_ctx) 0x180000 4096 = true /\
  sandbox_validate_user_pointer (Some user_ctx) 0x1FFFFF 2 = false.
Proof.
  assert (Hk : proc_type user_ctx <> PROC_TYPE_KERNEL) by (vm_compute; congruence).
  assert (Hb : 0 <= user_base (mem_layout user_ctx)) by (vm_compute; congruence).
  assert (Hz : 0 <= user_size (mem_layout user_ctx)) by (vm_compute; congruence).
  assert (Hr : user_base (mem_layout user_ctx) + user_size (mem_layout user_ctx) < 2 ^ 32) by (vm_compute; congruence).
  split.
  - apply (sandbox_pointer_in_region user_ctx 0x180000 4096 Hk); [ulia|lia|lia|exact Hb|exact Hz|exact Hr|].
    vm_compute. split; congruence.
  - apply not_true_iff_false. intros Ht.
    apply (sandbox_pointer_in_region user_ctx 0x1FFFFF 2 Hk) in Ht; [|ulia|lia|lia|exact Hb|exact Hz|exact Hr].
    destruct Ht as [_ Ht]. vm_compute in Ht. congruence.
Defined.

(** Without those bounds the check is wrong: a size that wraps around, and
    a pointer above 4 GB with a low half inside the region, are accepted. *)
Lemma sandbox_pointer_wraps :
  sandbox_validate_user_pointer (Some user_ctx) 0xFFFFF000 0x1000 = true /\
  sandbox_validate_user_pointer (Some user_ctx) (2 ^ 32 + 0x180000) 16 = true.
Proof. vm_compute. split; reflexivity. Qed.
