(* ===== verification/AiEngine.v ===== *)
(** The kernel's side of the AI engine (kernel/drivers/ai_engine.c): guards,
    string lengths and scheduler callbacks around an engine written in Rust.
    The engine is an interface, [RustEngine]; calls of the scheduler (also
    Rust) are the values [sched_call]. *)

From S2P Require Import Prelude CString.

(** The Rust functions ai_engine_*: buffers arrive with their lengths. *)
Class RustEngine (E : Type) := {
  ai_engine_new : option E;
  ai_engine_feed_event : E -> bytes -> bytes -> Z -> E;
  ai_engine_feed_event_code : E -> Z -> bytes -> Z -> E;
  ai_engine_tick : E -> Z -> E;
  ai_engine_event_count : E -> Z;
  ai_engine_anomaly_count : E -> Z;
  ai_engine_active_procs : E -> Z;
  ai_engine_load_policy : E -> bytes -> Z * E;
  ai_engine_policy_version : E -> Z;
  ai_engine_check_access : E -> bytes -> Z;
  ai_engine_access_rule_count : E -> Z }.

Inductive sched_call := SetQuantum (q : Z) | SetPriority (pid prio : Z).

(** [g_kernel_scheduler] tells that it is not NULL.
    [kernel/drivers/ai_engine.c:40-46] g_ai_engine *)
Record AiKernel (E : Type) := mkAiKernel {
  g_ai_engine : option E; g_kernel_scheduler : bool; g_ticks : Z }.
Arguments mkAiKernel {E}. Arguments g_ai_engine {E}. Arguments g_kernel_scheduler {E}. Arguments g_ticks {E}.

Section ai_engine.
Context {E : Type} `{RustEngine E}.
Implicit Types (st : AiKernel E).

(** [kernel/drivers/ai_engine.c] kernel_ai_tune_cb *)
Definition kernel_ai_tune_cb st (action : bytes) (value : Z) : list sched_call :=
  let action_len := Z.of_nat (length action) in
  if negb (g_kernel_scheduler st) then [] else
  if (13 <=? action_len) && (geti action 6 =? 81) then
    let value := if value <? 1 then 1 else value in
    let value := if 200 <? value then 200 else value in
    [SetQuantum value]
  else if (10 <=? action_len) && (geti action 6 =? 80) then [SetPriority 1 (u8 value)]
  else [].

(** [kernel/drivers/ai_engine.c] kernel_ai_remediate_cb *)
Definition kernel_ai_remediate_cb st (action : bytes) (pid param : Z) : list sched_call :=
  let action_len := Z.of_nat (length action) in
  if negb (g_kernel_scheduler st) then [] else
  if (4 <=? action_len) && (geti action 0 =? 107) && (geti action 1 =? 105) then
    if 0 <? pid then [SetPriority pid 0] else []
  else if (8 <=? action_len) && (geti action 0 =? 116) && (geti action 1 =? 104) then
    let q := if 0 <? param then param else 25 in
    [SetQuantum (if 200 <? q then 200 else q)]
  else [].

(** The new state, and whether the bridge status becomes READY.
    [kernel/drivers/ai_engine.c] ai_kernel_engine_init *)
Definition ai_kernel_engine_init (scheduler : bool) : AiKernel E * bool :=
  match ai_engine_new with
  | None => (mkAiKernel None scheduler 0, false)
  | Some e => (mkAiKernel (Some e) scheduler 0, true)
  end.

(** [kernel/drivers/ai_engine.c] ai_kernel_engine_feed *)
Definition ai_kernel_engine_feed st (event_type data : bytes) (now : Z) : AiKernel E :=
  match g_ai_engine st with
  | None => st
  | Some e => mkAiKernel (Some (ai_engine_feed_event e (cstr event_type) (cstr data) now))
                (g_kernel_scheduler st) now
  end.
(** [kernel/drivers/ai_engine.c] ai_kernel_engine_feed_code *)
Definition ai_kernel_engine_feed_code st (event_code : Z) (data : bytes) (now : Z) : AiKernel E :=
  match g_ai_engine st with
  | None => st
  | Some e => mkAiKernel (Some (ai_engine_feed_event_code e event_code (cstr data) now))
                (g_kernel_scheduler st) now
  end.
(** [kernel/drivers/ai_engine.c] ai_kernel_engine_tick *)
Definition ai_kernel_engine_tick st (now : Z) : AiKernel E :=
  match g_ai_engine st with
  | None => st
  | Some e => mkAiKernel (Some (ai_engine_tick e now)) (g_kernel_scheduler st) now
  end.

Definition query {A} st (dflt : A) (f : E -> A) : A := match g_ai_engine st with None => dflt | Some e => f e end.
(** [kernel/drivers/ai_engine.c] ai_kernel_engine_event_count *)
Definition ai_kernel_engine_event_count st : Z := query st 0 ai_engine_event_count.
(** [kernel/drivers/ai_engine.c] ai_kernel_engine_anomaly_count *)
Definition ai_kernel_engine_anomaly_count st : Z := query st 0 ai_engine_anomaly_count.
(** [kernel/drivers/ai_engine.c] ai_kernel_engine_active_procs *)
Definition ai_kernel_engine_active_procs st : Z := query st 0 ai_engine_active_procs.
(** [kernel/drivers/ai_engine.c] ai_kernel_engine_policy_version *)
Definition ai_kernel_engine_policy_version st : Z := query st 0 ai_engine_policy_version.
(** [kernel/drivers/ai_engine.c] ai_kernel_engine_access_rule_count *)
Definition ai_kernel_engine_access_rule_count st : Z := query st 0 ai_engine_access_rule_count.

(** [blob] are the [len] bytes at the pointer.
    [kernel/drivers/ai_engine.c] ai_kernel_engine_load_policy *)
Definition ai_kernel_engine_load_policy st (blob : bytes) : Z * AiKernel E :=
  match g_ai_engine st with
  | None => (0, st)
  | Some e =>
      if Z.of_nat (length blob) <? 8 then (0, st) else
      let '(r, e) := ai_engine_load_policy e blob in
      (r, mkAiKernel (Some e) (g_kernel_scheduler st) (g_ticks st))
  end.

(** [kernel/drivers/ai_engine.c] ai_kernel_engine_check_access *)
Definition ai_kernel_engine_check_access st (command : bytes) : Z :=
  if (length command =? 0)%nat then 255 else query st 255 (fun e => ai_engine_check_access e command).

(** What the engine may do to the scheduler. *)
Definition call_ok (c : sched_call) : Prop :=
  match c with SetQuantum q => 1 <= q <= 200 | SetPriority pid prio => 0 < pid /\ is_u8 prio end.

(** The AI engine cannot starve the scheduler: whatever action, target process and value the
    engine passes to the two callbacks, the kernel only ever sets a quantum between 1 and 200
    ticks, or the priority of a process other than 0 to an 8-bit value; without a scheduler it
    does nothing. *)
Lemma ai_callbacks_bounded st action pid value :
  (forall c, In c (kernel_ai_tune_cb st action value) -> call_ok c) /\
  (forall c, In c (kernel_ai_remediate_cb st action pid value) -> call_ok c) /\
  (g_kernel_scheduler st = false ->
   kernel_ai_tune_cb st action value = [] /\ kernel_ai_remediate_cb st action pid value = []).
Proof.
  unfold kernel_ai_tune_cb, kernel_ai_remediate_cb. split; [|split].
  - intros c Hc. destruct (g_kernel_scheduler st); [|done]. simpl in Hc. cbv zeta in Hc.
    destruct (_ && _) in Hc; [|destruct (_ && _) in Hc; [|done]]; destruct Hc as [<-|[]]; simpl.
    + case_step; case_step; lia.
    + split; [lia|apply u8_is].
  - intros c Hc. destruct (g_kernel_scheduler st); [|done]. simpl in Hc. cbv zeta in Hc.
    destruct (_ && _ && _) in Hc.
    + destruct (Z.ltb_spec 0 pid); [|done]. destruct Hc as [<-|[]]. simpl. split; [lia|ulia].
    + destruct (_ && _ && _) in Hc; [|done]. destruct Hc as [<-|[]]. simpl. case_step; case_step; lia.
  - intros ->. done.
Qed.
End ai_engine.
