(* ===== verification/AiBridge.v ===== *)
(** The AI bridge (kernel/drivers/ai_bridge.c): the line protocol that the kernel
    speaks with the AI tools over the second serial port.

    [Bridge] is the static state of the file with the two directions of the
    port: [fifo], the bytes that have arrived and were not read, and [com2_tx],
    what was written.  A C string is the list of its bytes up to the NUL, and a
    pointer into the line is the rest of the line from there.  The Rust
    functions the commands lead to are the values of [AiCmd]. *)

From S2P Require Import Prelude CString AiEngine.

(** [include/ai_bridge.h] constants *)
Definition AI_MSG_MAX := 512.
Definition AI_RESP_TIMEOUT := 5000000.
Definition SYS_AI_QUERY := 40.
Definition SYS_AI_STATUS := 41.
Definition SYS_AI_EVENT := 42.
(** [include/ai_bridge.h] AiBridgeStatus *)
Inductive AiBridgeStatus := AI_STATUS_OFFLINE | AI_STATUS_READY | AI_STATUS_BUSY | AI_STATUS_ERROR.
Definition status_code (s : AiBridgeStatus) : Z :=
  match s with AI_STATUS_OFFLINE => 0 | AI_STATUS_READY => 1 | AI_STATUS_BUSY => 2 | AI_STATUS_ERROR => 3 end.

(** [g_tune_handler] and [g_remediate_handler] tell that one is set; [rx_line] and [rx_pos] are static in ai_readline.
    [kernel/drivers/ai_bridge.c:27-31] g_status *)
Record Bridge := mkBridge {
  g_status : AiBridgeStatus; g_com2_hw : bool; g_next_seq : Z; g_tune_handler : bool; g_remediate_handler : bool;
  rx_line : bytes; rx_pos : Z; fifo : bytes; com2_tx : bytes }.
#[export] Instance eta_bridge : Eta Bridge := fun r =>
  mkBridge (g_status r) (g_com2_hw r) (g_next_seq r) (g_tune_handler r) (g_remediate_handler r) (rx_line r) (rx_pos r) (fifo r) (com2_tx r).

(** [scratch]: what the scratch register reads back.
    [kernel/drivers/ai_bridge.c] ai_bridge_init *)
Definition ai_bridge_init (st : Bridge) (scratch : Z) : Bridge :=
  if negb (scratch =? 0xA5) then st <| g_status := AI_STATUS_OFFLINE |> <| g_com2_hw := false |>
  else st <| g_com2_hw := true |> <| g_status := AI_STATUS_READY |> <| g_next_seq := 1 |>.
(** [kernel/drivers/ai_bridge.c] ai_bridge_status *)
Definition ai_bridge_status (st : Bridge) : AiBridgeStatus := g_status st.
(** [kernel/drivers/ai_bridge.c] ai_bridge_set_status *)
Definition ai_bridge_set_status (st : Bridge) (status : AiBridgeStatus) : Bridge := st <| g_status := status |>.
(** [kernel/drivers/ai_bridge.c] ai_set_tune_handler *)
Definition ai_set_tune_handler (st : Bridge) (handler : bool) : Bridge := st <| g_tune_handler := handler |>.
(** [kernel/drivers/ai_bridge.c] ai_set_remediate_handler *)
Definition ai_set_remediate_handler (st : Bridge) (handler : bool) : Bridge := st <| g_remediate_handler := handler |>.

(** ** The port *)

(** [kernel/drivers/ai_bridge.c] ai_putc *)
Definition ai_putc (st : Bridge) (c : Z) : Bridge := st <| com2_tx := com2_tx st ++ [c] |>.
(** [kernel/drivers/ai_bridge.c] ai_puts *)
Definition ai_puts (st : Bridge) (s : bytes) : Bridge := foldl ai_putc st (cstr s).
(** [kernel/drivers/ai_bridge.c] ai_put_dec *)
Definition ai_put_dec (st : Bridge) (v : Z) : Bridge := foldl ai_putc st (decimal 12 v).
Definition BAR := 124.
Definition NL := 10.
Definition CR := 13.
(** [kernel/drivers/ai_bridge.c] ai_send_frame *)
Definition ai_send_frame (st : Bridge) (type : bytes) (seq : Z) (payload : bytes) : Bridge :=
  ai_putc (ai_puts (ai_putc (ai_put_dec (ai_putc (ai_puts st type) BAR) seq) BAR) payload) NL.
(** The loop over the bytes at hand: the result, the line stored in the buffer, the state; the line is
    taken without its NUL.
    [kernel/drivers/ai_bridge.c:120-133] ai_readline *)
Fixpoint readline_loop (input : bytes) (line : bytes) (pos max_len : Z) : Z * bytes * (bytes * Z * bytes) :=
  match input with
  | [] => (0, [], (line, pos, []))
  | c :: input =>
      if c =? CR then readline_loop input line pos max_len else
      if c =? NL then
        let line := puti line pos 0 in
        if max_len <=? pos then (-1, [], (line, 0, input)) else (pos, take (Z.to_nat pos) line, (line, 0, input))
      else if pos <? AI_MSG_MAX - 1 then readline_loop input (puti line pos c) (pos + 1) max_len
      else readline_loop input line pos max_len
  end.
(** [kernel/drivers/ai_bridge.c] ai_readline *)
Definition ai_readline (st : Bridge) (max_len : Z) : Z * bytes * Bridge :=
  let '(n, buf, (line, pos, rest)) := readline_loop (fifo st) (rx_line st) (rx_pos st) max_len in
  (n, buf, st <| rx_line := line |> <| rx_pos := pos |> <| fifo := rest |>).

(** ** Fields *)

(** The token before the first bar and the rest after it.
    [kernel/drivers/ai_bridge.c] ai_split *)
Fixpoint ai_split (s : bytes) : option (bytes * bytes) :=
  match s with
  | [] => None
  | c :: s => if c =? BAR then Some ([], s) else
              match ai_split s with Some (t, r) => Some (c :: t, r) | None => None end
  end.
(** [kernel/drivers/ai_bridge.c] ai_parse_dec *)
Fixpoint ai_parse_dec (s : bytes) (v : Z) : Z :=
  match s with
  | c :: s => if (48 <=? c) && (c <=? 57) then ai_parse_dec s (u32 (v * 10 + (c - 48))) else v
  | [] => v
  end.
(** A char is signed. *)
Definition i8 (c : Z) : Z := if c <? 128 then c else c - 256.
(** [kernel/drivers/ai_bridge.c:166-167] ai_query_sync *)
Definition recv_seq (s : bytes) : Z := fold_left (fun v c => u32 (v * 10 + u32 (i8 c - 48))) s 0.
(** [s] starts with [p]. *)
Definition starts (s p : bytes) : bool := bool_decide (take (length p) s = p).
(** The payload of a line that answers request [seq].
    [kernel/drivers/ai_bridge.c:155-168] ai_query_sync *)
Definition response_payload (line : bytes) (seq : Z) : option bytes :=
  let s := cstr line in
  if negb (starts s (lit "RESP|")) then None else
  match ai_split (drop 5 s) with
  | None => None
  | Some (digits, payload) => if recv_seq digits =? seq then Some payload else None
  end.

(** ** Queries *)

(** [while (payload[i] && i < max_len - 1)], and a query's turn of the loop.  The bytes that arrive before
    the n-th poll are the n-th element of [arrivals].
    [kernel/drivers/ai_bridge.c:150-177] ai_query_sync *)
Fixpoint query_spin (spin : nat) (arrivals : list bytes) (st : Bridge) (seq : Z) : option bytes * Bridge :=
  match spin with
  | O => (None, st)
  | S spin =>
      let '(chunk, arrivals) := match arrivals with c :: a => (c, a) | [] => ([], []) end in
      let '(n, line, st) := ai_readline (st <| fifo := fifo st ++ chunk |>) AI_MSG_MAX in
      if n <=? 0 then query_spin spin arrivals st seq else
      match response_payload line seq with
      | Some payload => (Some payload, st)
      | None => query_spin spin arrivals st seq
      end
  end.
(** The result and the bytes stored at [resp_buf], the NUL included; [None] and [false] are NULL pointers.
    [kernel/drivers/ai_bridge.c] ai_query_sync *)
Definition ai_query_sync (arrivals : list bytes) (st : Bridge) (query : option bytes) (resp_buf : bool) (max_len : Z)
    : Z * bytes * Bridge :=
  match query with
  | Some query =>
      if negb (g_com2_hw st) || negb resp_buf || (max_len <? 2) then (-1, [], st) else
      let seq := g_next_seq st in
      let st := st <| g_next_seq := u32 (seq + 1) |> <| g_status := AI_STATUS_BUSY |> in
      let st := ai_send_frame st (lit "REQ") seq query in
      match query_spin (Z.to_nat AI_RESP_TIMEOUT) arrivals st seq with
      | (Some payload, st) =>
          let out := fit_str payload 0 max_len in
          (Z.of_nat (length out), out ++ [0], st <| g_status := AI_STATUS_READY |>)
      | (None, st) => (-1, [], st <| g_status := AI_STATUS_READY |>)
      end
  | None => (-1, [], st)
  end.

(** ** Events *)

(** [kernel/drivers/ai_bridge.c] ai_send_event *)
Definition ai_send_event (st : Bridge) (event_type : bytes) (data : option bytes) : Bridge :=
  if negb (g_com2_hw st) then st else
  ai_putc (ai_puts (ai_putc (ai_puts (ai_puts st (lit "EVT|")) event_type) BAR) (default [] data)) NL.
(** A part behind what the buffer holds; [max - 1] is a size_t.
    [kernel/drivers/ai_bridge.c:213-215] ai_build_event *)
Definition event_part (out : bytes) (max : Z) (bar : bool) (p : option bytes) : bytes :=
  match p with
  | None => out
  | Some s =>
      let out := if bar && (Z.of_nat (length out) <? u64 (max - 1)) then out ++ [BAR] else out in
      out ++ fit_str s (Z.of_nat (length out)) (u64 (max - 1) + 1)
  end.
(** The bytes stored at [buf].
    [kernel/drivers/ai_bridge.c] ai_build_event *)
Definition ai_build_event (max : Z) (p1 p2 p3 : option bytes) : bytes :=
  event_part (event_part (event_part [] max false p1) max true p2) max true p3 ++ [0].

(** ** Commands *)

(** What a line asks for: a call of a handler that is set, or of the engine. *)
Inductive AiCmd :=
| NoCmd
| Tune (action target : bytes) (value : Z) (reason : bytes)
| Remediate (action target param : bytes)
| LoadPolicy (blob : bytes).

(** [kernel/drivers/ai_bridge.c:332-334] ai_poll_cmd *)
Definition hex_digit (c : Z) : option Z :=
  if (48 <=? c) && (c <=? 57) then Some (c - 48)
  else if (97 <=? c) && (c <=? 102) then Some (c - 97 + 10)
  else if (65 <=? c) && (c <=? 70) then Some (c - 65 + 10) else None.
(** [kernel/drivers/ai_bridge.c:330-342] ai_poll_cmd *)
Fixpoint hex_decode (s : bytes) (room : nat) : bytes :=
  match room, s with
  | S room, a :: b :: s =>
      match hex_digit a, hex_digit b with
      | Some hi, Some lo => Z.lor (u8 (Z.shiftl hi 4)) lo :: hex_decode s room
      | _, _ => []
      end
  | _, _ => []
  end.
(** [kernel/drivers/ai_bridge.c:267-287] ai_poll_cmd *)
Definition parse_tune (s : bytes) : option AiCmd :=
  match ai_split s with
  | None => None
  | Some (action, s) =>
      match ai_split s with
      | None => None
      | Some (target, s) =>
          let '(value, reason) := match ai_split s with Some (v, r) => (v, r) | None => (s, s) end in
          Some (Tune action target (ai_parse_dec value 0) reason)
      end
  end.
(** [kernel/drivers/ai_bridge.c:298-313] ai_poll_cmd *)
Definition parse_remediate (s : bytes) : option AiCmd :=
  match ai_split s with
  | None => None
  | Some (action, s) =>
      Some (match ai_split s with Some (target, param) => Remediate action target param | None => Remediate action s s end)
  end.
(** A line, without its NUL.
    [kernel/drivers/ai_bridge.c:250-348] ai_poll_cmd *)
Definition parse_cmd (line : bytes) : option AiCmd :=
  let s := cstr line in
  if negb (starts s (lit "CMD|")) then None else
  match ai_split (drop 4 s) with
  | None => None
  | Some (_, s) =>
      match ai_split s with
      | None => None
      | Some (subcmd, rest) =>
          if starts subcmd (lit "TUNE") then parse_tune rest
          else if starts subcmd (lit "REME") then parse_remediate rest
          else if starts subcmd (lit "POLI") then
            let blob := hex_decode rest 256 in
            if 8 <=? Z.of_nat (length blob) then Some (LoadPolicy blob) else None
          else None
      end
  end.
(** [kernel/drivers/ai_bridge.c] ai_poll_cmd *)
Definition ai_poll_cmd (st : Bridge) : AiCmd * Bridge :=
  if negb (g_com2_hw st) then (NoCmd, st) else
  let '(n, line, st) := ai_readline st AI_MSG_MAX in
  if n <=? 0 then (NoCmd, st) else
  (match parse_cmd line with
   | Some (Tune a t v r) => if g_tune_handler st then Tune a t v r else NoCmd
   | Some (Remediate a t p) => if g_remediate_handler st then Remediate a t p else NoCmd
   | Some c => c
   | None => NoCmd
   end, st).

(** ** What the kernel does with them *)

(** [action]: the memory at the pointer; the seventh character is looked at whatever the length.
    [kernel/arch/x86_64/kernel_x64.c] kernel_tune_handler *)
Definition kernel_tune_handler (kernel_scheduler : bool) (action : Z -> Z) (value : Z) : list sched_call :=
  if negb kernel_scheduler then [] else
  let sc := (action 0 =? 83) && (action 1 =? 67) in
  if sc && (action 6 =? 81) then
    let value := if value <? 1 then 1 else value in
    [SetQuantum (if 200 <? value then 200 else value)]
  else if sc && (action 6 =? 80) then [SetPriority 1 (u8 value)] else [].
(** [kernel/arch/x86_64/kernel_x64.c] kernel_remediate_handler *)
Definition kernel_remediate_handler (kernel_scheduler : bool) (action target : bytes) (param : option bytes) : list sched_call :=
  if negb kernel_scheduler then [] else
  let pid := if char_at target 0 =? 97 then 0 else ai_parse_dec target 0 in
  if (char_at action 0 =? 116) && (char_at action 1 =? 104) then
    let quantum := match param with Some p => ai_parse_dec p 0 | None => 0 end in
    let quantum := if quantum <? 1 then 10 else quantum in
    [SetQuantum (if 200 <? quantum then 200 else quantum)]
  else if (char_at action 0 =? 107) && (char_at action 1 =? 105) then
    if 0 <? pid then [SetPriority pid 0] else []
  else [].

(** ** System calls *)

(** [str]: the C string at an address; the result, what is stored at [a2], the state.
    [kernel/drivers/ai_bridge.c] ai_syscall *)
Definition ai_syscall (str : Z -> bytes) (arrivals : list bytes) (st : Bridge) (num a1 a2 a3 : Z) : Z * bytes * Bridge :=
  let ptr a := if a =? 0 then None else Some (str a) in
  if num =? SYS_AI_QUERY then
    let '(rc, out, st) := ai_query_sync arrivals st (ptr a1) (negb (a2 =? 0)) AI_MSG_MAX in (u32 rc, out, st)
  else if num =? SYS_AI_STATUS then (status_code (g_status st), [], st)
  else if num =? SYS_AI_EVENT then (0, [], ai_send_event st (str a1) (ptr a2))
  else (u32 (-1), [], st).

(** ** Lines *)

(** The part of a line that has been read. *)
Definition partial (st : Bridge) : bytes := take (Z.to_nat (rx_pos st)) (rx_line st).
(** A byte that a line may hold. *)
Definition plain (c : Z) : Prop := c <> NL /\ c <> CR.
Record bridge_wf (st : Bridge) : Prop := {
  bw_line : length (rx_line st) = 512%nat;
  bw_pos : 0 <= rx_pos st <= 511;
  bw_partial : Forall plain (partial st) }.

Lemma take_puti_snoc (l : bytes) pos c : 0 <= pos < Z.of_nat (length l) -> take (Z.to_nat (pos + 1)) (puti l pos c) = take (Z.to_nat pos) l ++ [c].
Proof.
  intros Hp. unfold puti. replace (Z.to_nat (pos + 1)) with (S (Z.to_nat pos)) by lia.
  rewrite (take_S_r _ _ c) by (apply list_lookup_insert_eq; lia). by rewrite take_insert_ge by lia.
Qed.
(** What is left when no line ends. *)
Lemma readline_more input : forall line pos max_len, length line = 512%nat -> 0 <= pos <= 511 -> Forall plain input ->
  pos + Z.of_nat (length input) <= 511 ->
  exists line', readline_loop input line pos max_len = (0, [], (line', pos + Z.of_nat (length input), [])) /\ length line' = 512%nat /\
    take (Z.to_nat (pos + Z.of_nat (length input))) line' = take (Z.to_nat pos) line ++ input.
Proof.
  induction input as [|c input IH]; intros line pos max_len Hl Hp Hin Hlen; cbn [readline_loop].
  { exists line. rewrite Z.add_0_r, app_nil_r. done. }
  inversion_clear Hin as [|? ? [Hn Hr] Hin']. rewrite (proj2 (Z.eqb_neq c CR)), (proj2 (Z.eqb_neq c NL)) by done. cbn [length] in Hlen.
  rewrite (proj2 (Z.ltb_lt _ _)) by (unfold AI_MSG_MAX; lia).
  destruct (IH (puti line pos c) (pos + 1) max_len) as (line' & E & Hl' & Ht); [by rewrite length_puti|lia|done|lia|].
  exists line'. replace (pos + Z.of_nat (length (c :: input))) with (pos + 1 + Z.of_nat (length input)) by (cbn; lia).
  split; [exact E|]. split; [done|]. rewrite Ht, take_puti_snoc by lia. by rewrite <- app_assoc.
Qed.
(** A line that ends. *)
Lemma readline_ends input rest : forall line pos max_len, length line = 512%nat -> 0 <= pos <= 511 -> Forall plain input ->
  pos + Z.of_nat (length input) <= 511 -> pos + Z.of_nat (length input) < max_len ->
  exists line', readline_loop (input ++ NL :: rest) line pos max_len =
    (pos + Z.of_nat (length input), take (Z.to_nat pos) line ++ input, (line', 0, rest)) /\ length line' = 512%nat.
Proof.
  induction input as [|c input IH]; intros line pos max_len Hl Hp Hin Hlen Hmax; cbn [readline_loop app].
  { cbn [length] in *. rewrite Z.add_0_r, app_nil_r in *. change (NL =? CR) with false. change (NL =? NL) with true.
    rewrite (proj2 (Z.leb_gt _ _)) by done. exists (puti line pos 0). split; [|by rewrite length_puti].
    unfold puti. by rewrite take_insert_ge by lia. }
  inversion_clear Hin as [|? ? [Hn Hr] Hin']. rewrite (proj2 (Z.eqb_neq c CR)), (proj2 (Z.eqb_neq c NL)) by done. cbn [length] in Hlen, Hmax.
  rewrite (proj2 (Z.ltb_lt _ _)) by (unfold AI_MSG_MAX; lia).
  destruct (IH (puti line pos c) (pos + 1) max_len) as (line' & E & Hl'); [by rewrite length_puti|lia|done|lia|lia|].
  exists line'. replace (pos + Z.of_nat (length (c :: input))) with (pos + 1 + Z.of_nat (length input)) by (cbn; lia).
  split; [|done]. rewrite E, take_puti_snoc by lia. by rewrite <- app_assoc.
Qed.

Lemma length_partial st : bridge_wf st -> Z.of_nat (length (partial st)) = rx_pos st.
Proof. intros [Hl Hp _]. unfold partial. rewrite length_take. lia. Qed.
(** Nothing but the receive side changes. *)
Definition received st st' : Prop :=
  bridge_wf st' /\ st' = st <| rx_line := rx_line st' |> <| rx_pos := rx_pos st' |> <| fifo := fifo st' |>.
Lemma readline_waits st : bridge_wf st -> Forall plain (fifo st) -> Z.of_nat (length (partial st ++ fifo st)) <= 511 ->
  exists st', ai_readline st AI_MSG_MAX = (0, [], st') /\ received st st' /\ partial st' = partial st ++ fifo st /\ fifo st' = [].
Proof.
  intros Hwf Hf Hlen. pose proof (length_partial st Hwf) as Hpl. destruct Hwf as [Hl Hp Hpp]. rewrite length_app in Hlen.
  destruct (readline_more (fifo st) (rx_line st) (rx_pos st) AI_MSG_MAX Hl Hp Hf ltac:(lia)) as (line' & E & Hl' & Ht).
  unfold ai_readline. rewrite E. eexists. split; [done|]. unfold received, partial. cbn. rewrite Ht. split; [|done].
  split; [|done]. split; cbn; [done|lia|]. unfold partial. cbn. rewrite Ht. by apply Forall_app.
Qed.
Lemma readline_line st l rest : bridge_wf st -> fifo st = l ++ NL :: rest -> Forall plain l -> Z.of_nat (length (partial st ++ l)) <= 511 ->
  exists st', ai_readline st AI_MSG_MAX = (Z.of_nat (length (partial st ++ l)), partial st ++ l, st') /\
    received st st' /\ partial st' = [] /\ fifo st' = rest.
Proof.
  intros Hwf Hf Hpl Hlen. pose proof (length_partial st Hwf) as Hpp. destruct Hwf as [Hl Hp _]. rewrite length_app in *.
  destruct (readline_ends l rest (rx_line st) (rx_pos st) AI_MSG_MAX Hl Hp Hpl ltac:(lia) ltac:(unfold AI_MSG_MAX; lia)) as (line' & E & Hl').
  unfold ai_readline. rewrite Hf, E. replace (rx_pos st + Z.of_nat (length l)) with (Z.of_nat (length (partial st) + length l)) by lia.
  eexists. split; [done|]. unfold received. cbn. split; [|done]. split; [|done]. split; cbn; [done|lia|]. by unfold partial.
Qed.
Lemma received_trans st st1 st2 : received st st1 -> received st1 st2 -> received st st2.
Proof. intros [_ E1] [Hw E2]. split; [done|]. rewrite E2, E1. done. Qed.

Lemma split_prefix {A} (x : A) q X L R : q ++ X = L ++ x :: R -> x ∉ q -> exists s, L = q ++ s /\ X = s ++ x :: R.
Proof.
  revert L. induction q as [|c q IH]; intros L E Hx; [by exists L|]. destruct L as [|d L]; injection E as -> E.
  - destruct Hx. by left.
  - destruct (IH L E) as (s & -> & ->); [by intros ?; apply Hx; right|]. by exists s.
Qed.
Lemma plain_no_nl l : Forall plain l -> NL ∉ l.
Proof. intros Hl Hx. rewrite Forall_forall in Hl. by destruct (Hl _ Hx). Qed.

(** ** The answer to a query *)

Definition line_ok (l : bytes) : Prop := Forall plain l /\ Z.of_nat (length l) <= 511.
Definition wire (ls : list bytes) : bytes := ls ≫= (fun l => l ++ [NL]).

(** One poll of a stream whose next line is [L]. *)
Lemma poll_line st chunk arrivals L R : bridge_wf st -> partial st ++ fifo st ++ chunk ++ concat arrivals = L ++ NL :: R -> line_ok L ->
  exists st', received (st <| fifo := fifo st ++ chunk |>) st' /\
    ((ai_readline (st <| fifo := fifo st ++ chunk |>) AI_MSG_MAX = (Z.of_nat (length L), L, st') /\ partial st' = [] /\
        fifo st' ++ concat arrivals = R) \/
     (ai_readline (st <| fifo := fifo st ++ chunk |>) AI_MSG_MAX = (0, [], st') /\ arrivals <> [] /\
        partial st' ++ fifo st' ++ concat arrivals = L ++ NL :: R)).
Proof.
  intros Hwf E [HL Hlen]. set (st0 := st <| fifo := fifo st ++ chunk |>).
  assert (Hwf0 : bridge_wf st0) by (by destruct Hwf). assert (Ep : partial st0 = partial st) by done.
  pose proof (plain_no_nl _ HL) as HnL. pose proof (plain_no_nl _ (bw_partial _ Hwf)) as Hnp. rewrite !app_assoc in E.
  rewrite <- (app_assoc (partial st)) in E. change (fifo st ++ chunk) with (fifo st0) in E.
  destruct (decide (NL ∈ fifo st0)) as [(l & r & Ef & Hnl)%list_elem_of_split_l|Hno].
  - assert (E' : (partial st ++ l) ++ (NL :: r ++ concat arrivals) = L ++ NL :: R) by (rewrite <- E, Ef, <- !app_assoc; done).
    assert (Hq : NL ∉ partial st ++ l) by (rewrite elem_of_app; tauto).
    destruct (split_prefix _ _ _ _ _ E' Hq) as (s & -> & Es). destruct s as [|c s].
    2: { injection Es as <- _. destruct HnL. rewrite elem_of_app. right. by left. }
    rewrite app_nil_r in *. injection Es as Es. apply Forall_app in HL as [_ Hl].
    destruct (readline_line st0 l r Hwf0 Ef Hl ltac:(by rewrite Ep)) as (st' & Er & Hr & P1 & P2). rewrite Ep in Er.
    exists st'. split; [done|]. left. by rewrite P2.
  - rewrite <- app_assoc in E. rewrite app_assoc in E. assert (Hq : NL ∉ partial st ++ fifo st0) by (rewrite elem_of_app; tauto).
    destruct (split_prefix _ _ _ _ _ E Hq) as (s & -> & Es). apply Forall_app in HL as [Hl _]. apply Forall_app in Hl as [_ Hf].
    rewrite length_app in Hlen.
    destruct (readline_waits st0 Hwf0 Hf ltac:(rewrite Ep; lia)) as (st' & Er & Hr & P1 & P2). exists st'. split; [done|]. right.
    split; [done|]. split; [intros ->; by destruct s|]. rewrite P1, P2, Ep. exact E.
Qed.
Lemma spin_answers seq frame payload : line_ok frame -> frame <> [] -> response_payload frame seq = Some payload ->
  forall spin arrivals st lines rest, bridge_wf st -> partial st ++ fifo st ++ concat arrivals = wire lines ++ frame ++ NL :: rest ->
  Forall line_ok lines -> Forall (fun l => response_payload l seq = None) lines ->
  (length arrivals + length lines < spin)%nat ->
  exists st', query_spin spin arrivals st seq = (Some payload, st') /\ received st st' /\ partial st' = [] /\
    exists late, fifo st' ++ concat late = rest /\ (length late <= length arrivals)%nat.
Proof.
  intros Hfr Hne Hpay. induction spin as [|spin IH]; intros arrivals st lines rest Hwf E Hok Hno Hspin; [lia|]. cbn [query_spin].
  set (chunk := match arrivals with c :: _ => c | [] => [] end). set (later := match arrivals with _ :: a => a | [] => [] end).
  assert (Epair : (match arrivals with c :: a => (c, a) | [] => ([], []) end) = (chunk, later)) by (by destruct arrivals).
  rewrite Epair. assert (Ec : concat arrivals = chunk ++ concat later) by (by destruct arrivals). rewrite Ec in E.
  assert (Hla : (length later <= length arrivals)%nat) by (unfold later; destruct arrivals; cbn; lia).
  assert (Hla' : arrivals <> [] -> (length later < length arrivals)%nat) by (unfold later; destruct arrivals; [done|cbn; lia]).
  assert (Hlate : later <> [] -> arrivals <> []) by (by destruct arrivals).
  set (st0 := st <| fifo := fifo st ++ chunk |>).
  assert (H0 : forall st1, received st0 st1 -> received st st1) by (intros st1 [Hw E1]; split; [done|]; rewrite E1; done).
  assert (HL : exists L R, partial st ++ fifo st ++ chunk ++ concat later = L ++ NL :: R /\ line_ok L /\
    (lines = [] /\ L = frame /\ R = rest \/ exists ls, lines = L :: ls /\ R = wire ls ++ frame ++ NL :: rest)).
  { rewrite E. destruct lines as [|l ls]; [exists frame, rest; split; [done|]; split; [done|by left]|].
    exists l, (wire ls ++ frame ++ NL :: rest). inversion_clear Hok. split; [|split; [done|right; by exists ls]].
    unfold wire. rewrite bind_cons, <- !app_assoc. done. }
  destruct HL as (L & R & ER & HLok & HR).
  destruct (poll_line st chunk later L R Hwf ER HLok) as (st1 & Hr & [(Er & P1 & P2)|(Er & Hl & P3)]); fold st0 in Er; rewrite Er.
  - destruct HR as [(-> & -> & ->)|(ls & -> & ->)].
    + rewrite (proj2 (Z.leb_gt _ 0)) by (destruct frame; [done|cbn; lia]). rewrite Hpay.
      exists st1. split; [done|]. split; [by apply H0|]. split; [done|]. exists later. by split.
    + inversion_clear Hok as [|? ? _ Hok']. inversion_clear Hno as [|? ? HnL Hno']. cbn [length] in Hspin.
      assert (Hnext : exists st', query_spin spin later st1 seq = (Some payload, st') /\ received st1 st' /\ partial st' = [] /\
        exists late, fifo st' ++ concat late = rest /\ (length late <= length later)%nat).
      { apply (IH later st1 ls rest); [apply Hr|by rewrite P1, P2|done|done|lia]. }
      destruct Hnext as (st' & Eq & Hr' & P' & late & El & Hlen). exists st'. rewrite HnL.
      split; [by destruct (_ <=? 0)|]. split; [by apply H0, (received_trans st0 st1)|]. split; [done|]. exists late. split; [done|lia].
  - change (0 <=? 0) with true. cbn iota. specialize (Hla' (Hlate Hl)). rewrite <- ER in P3.
    destruct (IH later st1 lines rest) as (st' & Eq & Hr' & P' & late & El & Hlen); [apply Hr|by rewrite P3|done|done|lia|].
    exists st'. split; [done|]. split; [by apply H0, (received_trans st0 st1)|]. split; [done|]. exists late. split; [done|lia].
Qed.

Lemma putc_all bs : forall st, foldl ai_putc st bs = st <| com2_tx := com2_tx st ++ bs |>.
Proof.
  induction bs as [|b bs IH]; intros st; cbn [foldl]; [rewrite app_nil_r; by destruct st|].
  rewrite IH. unfold ai_putc. cbn. by rewrite <- app_assoc.
Qed.
Lemma send_frame_tx st type seq payload :
  ai_send_frame st type seq payload =
  st <| com2_tx := com2_tx st ++ cstr type ++ [BAR] ++ decimal 12 seq ++ [BAR] ++ cstr payload ++ [NL] |>.
Proof.
  unfold ai_send_frame, ai_puts, ai_put_dec. rewrite !putc_all. unfold ai_putc. cbn. by rewrite <- !app_assoc.
Qed.
Lemma split_token t r : BAR ∉ t -> ai_split (t ++ BAR :: r) = Some (t, r).
Proof.
  induction t as [|c t IH]; intros Ht; cbn [app ai_split]; [done|].
  rewrite (proj2 (Z.eqb_neq c BAR)) by (intros ->; apply Ht; by left). by rewrite IH by (intros Hx; apply Ht; by right).
Qed.
Lemma split_none t : BAR ∉ t -> ai_split t = None.
Proof.
  induction t as [|c t IH]; intros Ht; cbn [ai_split]; [done|].
  rewrite (proj2 (Z.eqb_neq c BAR)) by (intros ->; apply Ht; by left). by rewrite IH by (intros Hx; apply Ht; by right).
Qed.
Lemma recv_seq_digits s : forall v w, Forall (fun c => 48 <= c < 58) s -> v = u32 w ->
  fold_left (fun v c => u32 (v * 10 + u32 (i8 c - 48))) s v = u32 (fold_left (fun acc c => acc * 10 + (c - 48)) s w).
Proof.
  induction s as [|c s IH]; intros v w Hs Hv; cbn [fold_left]; [done|]. inversion_clear Hs as [|? ? Hc Hs']. apply IH; [done|].
  subst v. assert (Ec : u32 (i8 c - 48) = c - 48) by (unfold i8; rewrite (proj2 (Z.ltb_lt c 128)) by lia; apply u32_id; ulia).
  rewrite Ec. unfold u32. by rewrite <- Z.add_mod_idemp_l, Z.mul_mod_idemp_l, Z.add_mod_idemp_l by lia.
Qed.
Lemma recv_seq_decimal v : is_u32 v -> recv_seq (decimal 12 v) = v.
Proof.
  intros Hv. unfold recv_seq. rewrite (recv_seq_digits _ 0 0); [|apply decimal_digits; ulia|done].
  fold (dec_value (decimal 12 v)). rewrite decimal_value by ulia. by apply u32_id.
Qed.
Lemma decimal_plain v : 0 <= v -> BAR ∉ decimal 12 v /\ Forall (fun c => c <> 0) (decimal 12 v) /\ Forall plain (decimal 12 v).
Proof.
  intros Hv. pose proof (decimal_digits 12 v Hv) as Hd. rewrite Forall_forall in Hd. split; [|split].
  - intros Hb. specialize (Hd _ Hb). unfold BAR in Hd. lia.
  - apply Forall_forall. intros c Hc. specialize (Hd _ Hc). lia.
  - apply Forall_forall. intros c Hc. specialize (Hd _ Hc). unfold plain, NL, CR. lia.
Qed.

(** The answer to request [seq]. *)
Definition response_line (seq : Z) (payload : bytes) : bytes := lit "RESP|" ++ decimal 12 seq ++ BAR :: payload.
Lemma starts_app p s : starts (p ++ s) p = true.
Proof. unfold starts. by rewrite take_app_length, bool_decide_eq_true_2. Qed.
Lemma response_line_payload seq payload : is_u32 seq -> Forall (fun c => c <> 0) payload ->
  response_payload (response_line seq payload) seq = Some payload.
Proof.
  intros Hs Hp. destruct (decimal_plain seq) as (Hb & Hz & _); [ulia|]. unfold response_payload, response_line. rewrite cstr_id.
  2: { apply Forall_app. split; [by repeat constructor|]. apply Forall_app. split; [done|]. by constructor. }
  rewrite starts_app. cbn [negb]. change 5%nat with (length (lit "RESP|")). rewrite drop_app_length, split_token by done.
  by rewrite recv_seq_decimal, Z.eqb_refl.
Qed.


(** ** Commands as the tools send them *)

Definition hex_char (d : Z) : Z := if d <? 10 then 48 + d else 87 + d.
Definition hex_encode (blob : bytes) : bytes := blob ≫= (fun b => [hex_char (b / 16); hex_char (b mod 16)]).
Definition cmd_line (c : AiCmd) : bytes :=
  match c with
  | NoCmd => []
  | Tune action target value reason =>
      lit "CMD|0|" ++ lit "TUNE" ++ BAR :: action ++ BAR :: target ++ BAR :: decimal 12 value ++ BAR :: reason
  | Remediate action target param => lit "CMD|0|" ++ lit "REMEDIATE" ++ BAR :: action ++ BAR :: target ++ BAR :: param
  | LoadPolicy blob => lit "CMD|0|" ++ lit "POLICY" ++ BAR :: hex_encode blob
  end.
Definition text_ok (s : bytes) : Prop := Forall (fun c => c <> 0) s.
Definition field_ok (s : bytes) : Prop := text_ok s /\ BAR ∉ s.
Definition cmd_ok (c : AiCmd) : Prop :=
  match c with
  | NoCmd => False
  | Tune action target value reason => field_ok action /\ field_ok target /\ is_u32 value /\ text_ok reason
  | Remediate action target param => field_ok action /\ field_ok target /\ text_ok param
  | LoadPolicy blob => bytes_ok blob /\ 8 <= Z.of_nat (length blob)
  end.

Lemma hex_digit_char d : 0 <= d < 16 -> hex_digit (hex_char d) = Some d.
Proof.
  intros Hd. unfold hex_digit, hex_char. destruct (Z.ltb_spec d 10).
  - rewrite (proj2 (Z.leb_le 48 _)), (proj2 (Z.leb_le _ 57)) by lia. cbn [andb]. f_equal. lia.
  - rewrite (proj2 (Z.leb_gt _ 57)), andb_false_r, (proj2 (Z.leb_le 97 _)), (proj2 (Z.leb_le _ 102)) by lia. cbn [andb]. f_equal. lia.
Qed.
Lemma hex_decode_encode blob : forall room, bytes_ok blob -> (length blob <= room)%nat -> hex_decode (hex_encode blob) room = blob.
Proof.
  induction blob as [|b blob IH]; intros room Hb Hr; [by destruct room|]. inversion_clear Hb as [|? ? Hb0 Hb'].
  destruct room as [|room]; cbn [length] in Hr; [lia|]. unfold hex_encode. rewrite bind_cons. cbn [app hex_decode].
  rewrite !hex_digit_char by dlia. fold (hex_encode blob). rewrite IH by (done || lia). f_equal.
  rewrite Z.shiftl_mul_pow2 by lia. change (2 ^ 4) with 16. assert (Eu : u8 (b / 16 * 16) = Z.shiftl (b / 16) 4).
  { rewrite Z.shiftl_mul_pow2 by lia. change (2 ^ 4) with 16. unfold u8. dlia. }
  rewrite Eu, Z.lor_comm, lor_shiftl by (lia || dlia). dlia.
Qed.

Lemma parse_sub sub rest : field_ok sub -> text_ok rest ->
  parse_cmd (lit "CMD|0|" ++ sub ++ BAR :: rest) =
    if starts sub (lit "TUNE") then parse_tune rest
    else if starts sub (lit "REME") then parse_remediate rest
    else if starts sub (lit "POLI") then
      let blob := hex_decode rest 256 in if 8 <=? Z.of_nat (length blob) then Some (LoadPolicy blob) else None
    else None.
Proof.
  intros [Hs Hb] Hr. unfold parse_cmd. rewrite cstr_id.
  2: { apply Forall_app. split; [by repeat constructor|]. apply Forall_app. split; [done|]. by constructor. }
  change (lit "CMD|0|" ++ sub ++ BAR :: rest) with (lit "CMD|" ++ lit "0" ++ BAR :: sub ++ BAR :: rest).
  rewrite starts_app. cbn [negb]. change 4%nat with (length (lit "CMD|")). rewrite drop_app_length.
  rewrite split_token by (apply (bool_decide_unpack _); vm_compute; exact I). by rewrite split_token.
Qed.
Lemma parse_dec_digits s : forall v w, Forall (fun c => 48 <= c < 58) s -> v = u32 w ->
  ai_parse_dec s v = u32 (fold_left (fun acc c => acc * 10 + (c - 48)) s w).
Proof.
  induction s as [|c s IH]; intros v w Hs Hv; cbn [fold_left ai_parse_dec]; [done|]. inversion_clear Hs as [|? ? Hc Hs'].
  rewrite (proj2 (Z.leb_le 48 c)), (proj2 (Z.leb_le c 57)) by lia. cbn [andb]. apply IH; [done|]. subst v. unfold u32.
  by rewrite <- Z.add_mod_idemp_l, Z.mul_mod_idemp_l, Z.add_mod_idemp_l by lia.
Qed.
Lemma parse_dec_decimal v : is_u32 v -> ai_parse_dec (decimal 12 v) 0 = v.
Proof.
  intros Hv. rewrite (parse_dec_digits _ 0 0); [|apply decimal_digits; ulia|done]. fold (dec_value (decimal 12 v)).
  rewrite decimal_value by ulia. by apply u32_id.
Qed.
Lemma hex_encode_text blob : bytes_ok blob -> text_ok (hex_encode blob).
Proof.
  induction 1 as [|b blob Hb _ IH]; [constructor|]. unfold hex_encode. rewrite bind_cons. cbn [app].
  assert (Hh : forall d, 0 <= d -> hex_char d <> 0) by (intros d Hd; unfold hex_char; case_match; lia).
  constructor; [apply Hh; dlia|]. constructor; [apply Hh; dlia|done].
Qed.
Lemma length_hex_encode blob : length (hex_encode blob) = (2 * length blob)%nat.
Proof. induction blob as [|b blob IH]; [done|]. unfold hex_encode in *. rewrite bind_cons, length_app, IH. cbn. lia. Qed.
Lemma parse_cmd_line c : cmd_ok c -> line_ok (cmd_line c) -> parse_cmd (cmd_line c) = Some c.
Proof.
  assert (Hsub : field_ok (lit "TUNE") /\ field_ok (lit "REMEDIATE") /\ field_ok (lit "POLICY")).
  { split; [|split]; (split; [by repeat constructor|apply (bool_decide_unpack _); vm_compute; exact I]). }
  destruct Hsub as (S1 & S2 & S3). assert (Hcons : forall s, text_ok s -> text_ok (BAR :: s)) by (intros; by constructor).
  destruct c as [|a t v r|a t p|blob]; cbn [cmd_ok cmd_line].
  - done.
  - intros ([Ha Ba] & [Ht Bt] & Hv & Hr) _. destruct (decimal_plain v) as (Bv & Zv & _); [ulia|]. rewrite parse_sub.
    + change (starts (lit "TUNE") (lit "TUNE")) with true. unfold parse_tune. rewrite !split_token by done. by rewrite parse_dec_decimal.
    + done.
    + apply Forall_app. split; [done|]. apply Hcons, Forall_app. split; [done|]. apply Hcons, Forall_app. split; [done|]. by apply Hcons.
  - intros ([Ha Ba] & [Ht Bt] & Hp) _. rewrite parse_sub.
    + change (starts (lit "REMEDIATE") (lit "TUNE")) with false. change (starts (lit "REMEDIATE") (lit "REME")) with true.
      unfold parse_remediate. by rewrite !split_token.
    + done.
    + apply Forall_app. split; [done|]. apply Hcons, Forall_app. split; [done|]. by apply Hcons.
  - intros (Hb & Hl) [_ Hlen]. rewrite parse_sub by (done || by apply hex_encode_text).
    change (starts (lit "POLICY") (lit "TUNE")) with false. change (starts (lit "POLICY") (lit "REME")) with false.
    change (starts (lit "POLICY") (lit "POLI")) with true. cbv zeta iota.
    rewrite !length_app in Hlen. cbn [length] in Hlen. rewrite length_hex_encode in Hlen.
    by rewrite hex_decode_encode, (proj2 (Z.leb_le _ _)) by (done || lia).
Qed.

(** Commands arrive as the tools sent them: a line that encodes a tuning decision, a remediation or a policy
    (in hexadecimal) makes ai_poll_cmd call the handler with exactly the fields that were encoded, numbers
    included, or load exactly the policy's bytes, and consumes just that line. *)
Lemma ai_command_roundtrip st c rest : g_com2_hw st = true -> g_tune_handler st = true -> g_remediate_handler st = true ->
  bridge_wf st -> partial st = [] -> cmd_ok c -> line_ok (cmd_line c) -> fifo st = cmd_line c ++ NL :: rest ->
  exists st', ai_poll_cmd st = (c, st') /\ received st st' /\ partial st' = [] /\ fifo st' = rest.
Proof.
  intros Hhw Ht Hr Hwf Hp Hc Hl Hf. pose proof Hl as [Hpl Hlen].
  destruct (readline_line st (cmd_line c) rest Hwf Hf Hpl ltac:(by rewrite Hp)) as (st' & E & Hrec & P1 & P2). rewrite Hp in E. cbn [app] in E.
  exists st'. split; [|done]. unfold ai_poll_cmd. rewrite Hhw, E. cbn [negb]. destruct Hrec as [_ E'].
  assert (Hh : g_tune_handler st' = true /\ g_remediate_handler st' = true) by (by rewrite E'). destruct Hh as [-> ->].
  rewrite (proj2 (Z.leb_gt _ 0)) by (destruct c; [done|cbn; lia..]). rewrite parse_cmd_line by done. by destruct c.
Qed.

(** Whatever the tools ask for, the quantum stays within 1 to 200. *)
Lemma quantum_bounds ks action target param value mem q :
  SetQuantum q ∈ kernel_tune_handler ks mem value ++ kernel_remediate_handler ks action target param -> 1 <= q <= 200.
Proof.
  intros [Hq|Hq]%elem_of_app; revert Hq.
  - unfold kernel_tune_handler. case_match; [by rewrite elem_of_nil|]. cbv zeta.
    destruct (_ && (mem 6 =? 81)); [rewrite list_elem_of_singleton; intros [= ->]; repeat case_match; lia|].
    destruct (_ && _); [rewrite list_elem_of_singleton; discriminate|by rewrite elem_of_nil].
  - unfold kernel_remediate_handler. case_match; [by rewrite elem_of_nil|]. cbv zeta. set (d := match param with Some p => _ | None => 0 end). clearbody d.
    destruct (_ && _); [rewrite list_elem_of_singleton; intros [= ->]; repeat case_match; lia|].
    destruct (_ && _); [|by rewrite elem_of_nil]. destruct (0 <? _); [rewrite list_elem_of_singleton; discriminate|by rewrite elem_of_nil].
Qed.
(** A kill that the tools send for a process ends in its scheduler's priority. *)
Lemma kill_command pid param : 0 < pid -> is_u32 pid -> text_ok param ->
  let c := Remediate (lit "kill") (decimal 12 pid) param in line_ok (cmd_line c) ->
  parse_cmd (cmd_line c) = Some c /\ kernel_remediate_handler true (lit "kill") (decimal 12 pid) (Some param) = [SetPriority pid 0].
Proof.
  intros Hp Hpid Hparam c Hl. destruct (decimal_plain pid ltac:(lia)) as (Hb & Hz & _). split.
  - apply parse_cmd_line; [|done]. split; [|split; [by split|done]]. split; [by repeat constructor|apply (bool_decide_unpack _); vm_compute; exact I].
  - unfold kernel_remediate_handler. rewrite parse_dec_decimal by done. cbn [negb]. cbv zeta.
    assert (Hd : (char_at (decimal 12 pid) 0 =? 97) = false).
    { pose proof (decimal_digits 12 pid ltac:(lia)) as Hd. apply Z.eqb_neq. unfold char_at. change (Z.to_nat 0) with 0%nat.
      destruct (decimal 12 pid) as [|c0 l]; [done|]. inversion_clear Hd. cbn. lia. }
    rewrite Hd. change (char_at (lit "kill") 0 =? 116) with false. cbn [andb]. change ((char_at (lit "kill") 0 =? 107) && (char_at (lit "kill") 1 =? 105)) with true.
    by rewrite (proj2 (Z.ltb_lt 0 pid)).
Qed.

(** ** A conversation *)

Definition bridge0 : Bridge := mkBridge AI_STATUS_READY true 7 true true (zeros 512) 0 [] [].
Lemma bridge0_wf : bridge_wf bridge0.
Proof. split; [reflexivity|cbn; lia|constructor]. Qed.
(** A command, then the answer in two pieces, then the beginning of another line. *)
Definition pieces : list bytes := [lit "EVT|x" ++ [NL] ++ lit "RE"; lit "SP|7|ok" ++ [NL] ++ lit "CMD"].
Lemma plain_dec l : forallb (fun c => negb (c =? NL) && negb (c =? CR)) l = true -> Forall plain l.
Proof.
  intros Hl. apply Forall_forall. intros c Hc%list_elem_of_In. rewrite forallb_forall in Hl. specialize (Hl c Hc).
  apply andb_prop in Hl as [H1 H2]. apply negb_true_iff, Z.eqb_neq in H1. apply negb_true_iff, Z.eqb_neq in H2. by split.
Qed.
Lemma line_dec l : forallb (fun c => negb (c =? NL) && negb (c =? CR)) l && (Z.of_nat (length l) <=? 511) = true -> line_ok l.
Proof. intros [H1 H2]%andb_prop. split; [by apply plain_dec|by apply Z.leb_le]. Qed.
Definition arrived (bs : bytes) : Bridge := mkBridge AI_STATUS_READY true 7 true true (zeros 512) 0 bs [].
Lemma ai_command_roundtrip_witness : let c := Tune (lit "SCHED_QUANTUM") (lit "scheduler") 15 (lit "load|high") in
  (ai_poll_cmd (arrived (cmd_line c ++ [NL]))).1 = c.
Proof.
  intros c. assert (Hc : cmd_ok c).
  { assert (Hf : forall s, forallb (fun x => negb (x =? 0)) s = true -> text_ok s).
    { intros s Hs. apply Forall_forall. intros x Hx%list_elem_of_In. rewrite forallb_forall in Hs. specialize (Hs x Hx).
      intros ->. discriminate Hs. }
    split; [split; [apply Hf; reflexivity|apply (bool_decide_unpack _); vm_compute; exact I]|].
    split; [split; [apply Hf; reflexivity|apply (bool_decide_unpack _); vm_compute; exact I]|].
    split; [split; [discriminate|reflexivity]|apply Hf; reflexivity]. }
  assert (Hl : line_ok (cmd_line c)) by (apply line_dec; reflexivity).
  assert (Hwf : bridge_wf (arrived (cmd_line c ++ [NL]))) by (split; [reflexivity|cbn; lia|constructor]).
  destruct (ai_command_roundtrip (arrived (cmd_line c ++ [NL])) c [] eq_refl eq_refl eq_refl Hwf eq_refl Hc Hl eq_refl)
    as (st' & E & _). rewrite E. reflexivity.
Defined.
