(* ===== verification/Policy.v ===== *)
(** The command policy (kernel/security/policy_loader.c, policy_enforce.c):
    finding the policy blob on the disk and feeding it to the AI engine, and
    deciding whether a command may run. *)

From S2P Require Import Prelude CString BlockDev AiEngine.

(** [kernel/security/policy_loader.c] constants *)
Definition POLICY_SECTOR := 4096.
Definition POLICY_MAX_SECTORS := 4.
(** The size of the static buffer. *)
Definition POLICY_BUF : Z := POLICY_MAX_SECTORS * 512.

Section policy.
Context {E : Type} `{RustEngine E}.

(** The offset behind the last section, in 64 bits.
    [kernel/security/policy_loader.c:109-116] policy_load_from_disk *)
Fixpoint sections_end (n : nat) (offset : Z) (buf : bytes) : Z :=
  match n with
  | O => offset
  | S n =>
      if POLICY_BUF <? offset + 8 then offset
      else sections_end n (offset + 8 + get_le buf (Z.to_nat offset + 4) 4) buf
  end.

(** What was done: the ATA read failed, there is no policy, or the result of
    the engine.  [beyond] is the memory behind the buffer. *)
Inductive load_result := ReadFailed | NoPolicy | Fed (ok : Z).
(** [kernel/security/policy_loader.c] policy_load_from_disk *)
Definition policy_load_from_disk {D} `{BlockDev D} (beyond : bytes) (st : AiKernel E) (d : D)
    : load_result * AiKernel E * D :=
  let '(rc, out, d) := bd_read d POLICY_SECTOR POLICY_MAX_SECTORS in
  if rc <? 0 then (ReadFailed, st, d) else
  let policy_buf := out in
  if negb (geti policy_buf 0 =? 86) || negb (geti policy_buf 1 =? 80) ||
     negb (geti policy_buf 2 =? 79) || negb (geti policy_buf 3 =? 76) then (NoPolicy, st, d) else
  let section_count := get_le policy_buf 6 2 in
  let offset := sections_end (Z.to_nat section_count) 8 policy_buf in
  let '(ok, st) := ai_kernel_engine_load_policy st (take (Z.to_nat offset) (policy_buf ++ beyond)) in
  (Fed ok, st, d).

(** [kernel/security/policy_enforce.c] policy_map_privilege *)
Definition policy_map_privilege (policy_priv : Z) : Z :=
  if policy_priv =? 0 then 0 else if policy_priv =? 1 then 50 else if policy_priv =? 2 then 100 else 0.

(** The length of the text before the first blank.
    [kernel/security/policy_enforce.c:34-35] policy_check_command *)
Fixpoint word_len (s : bytes) : nat :=
  match s with c :: s => if c =? 32 then 0 else S (word_len s) | [] => 0 end.
(** [None] is a NULL command.
    [kernel/security/policy_enforce.c] policy_check_command *)
Definition policy_check_command (st : AiKernel E) (command : option bytes) (privilege : Z) : bool :=
  match command with
  | None => false
  | Some command =>
      let command := cstr command in
      let len := length command in
      if (len =? 0)%nat then false else
      let cmd_len := word_len command in
      let full_cmd_len :=
        if (cmd_len <? len)%nat then (cmd_len + 1 + word_len (drop (cmd_len + 1) command))%nat else cmd_len in
      let required := ai_kernel_engine_check_access st (take full_cmd_len command) in
      let required :=
        if (required =? 255) && negb (full_cmd_len =? cmd_len)%nat
        then ai_kernel_engine_check_access st (take cmd_len command) else required in
      if required =? 255 then true else privilege <=? policy_map_privilege required
  end.

(** ** Decisions *)

Lemma word_len_spec w rest : Forall (fun c => c <> 32) w -> (rest = [] \/ head rest = Some 32) ->
  word_len (w ++ rest) = length w.
Proof.
  intros Hw Hr. induction Hw as [|c w Hc Hw IH]; simpl.
  - destruct Hr as [->|Hr]; [done|]. destruct rest as [|x rest]; [done|]. injection Hr as ->. done.
  - by rewrite (proj2 (Z.eqb_neq c 32)), IH.
Qed.

(** The rule of a command: for its first two words, or else for the first. *)
Definition rule_for (st : AiKernel E) (w1 : bytes) (w2 : option bytes) : option Z :=
  let ask w := let r := ai_kernel_engine_check_access st w in if r =? 255 then None else Some r in
  match w2 with
  | None => ask w1
  | Some w2 => match ask (w1 ++ 32 :: w2) with Some r => Some r | None => ask w1 end
  end.
Definition is_word (w : bytes) : Prop := Forall (fun c => c <> 32 /\ c <> 0) w.

(** Which commands a session may run: for a command of one word, or of two words and any
    arguments, the engine's rule for the two words decides, or without one the rule for the first
    word; without either the command is allowed. A rule 0, 1 or 2 demands root, an
    administrator or nobody in particular, any other rule demands root, and a more
    privileged session is never refused what a less privileged one may do. *)
Lemma policy_check_command_spec st w1 w2 args privilege :
  is_word w1 -> w1 <> [] -> (forall w, w2 = Some w -> is_word w) -> Forall (fun c => c <> 0) args ->
  (w2 = None -> args = []) -> (args = [] \/ head args = Some 32) ->
  let command := w1 ++ match w2 with Some w => 32 :: w ++ args | None => [] end in
  policy_check_command st (Some command) privilege =
    match rule_for st w1 w2 with
    | None => true
    | Some r => privilege <=? (if r =? 1 then 50 else if r =? 2 then 100 else 0)
    end /\
  (forall p, p <= privilege -> policy_check_command st (Some command) privilege = true ->
             policy_check_command st (Some command) p = true).
Proof.
  intros H1 Hne H2 Ha Hn Hargs command.
  assert (Hmap : forall r, policy_map_privilege r = if r =? 1 then 50 else if r =? 2 then 100 else 0).
  { intros r. unfold policy_map_privilege. destruct (Z.eqb_spec r 0) as [->|]; [done|].
    by destruct (r =? 1). }
  assert (Hw : forall w, is_word w -> Forall (fun c => c <> 32) w /\ Forall (fun c => c <> 0) w).
  { intros w Hw. split; (eapply Forall_impl; [exact Hw|]); simpl; tauto. }
  destruct (Hw w1 H1) as [H1a H1b].
  assert (Hcz : cstr command = command).
  { apply cstr_id. unfold command. apply Forall_app. split; [done|]. destruct w2 as [w|]; [|done].
    destruct (Hw w (H2 w eq_refl)) as [_ H2b]. constructor; [done|]. by apply Forall_app. }
  assert (Hlen : (length command =? 0)%nat = false).
  { apply Nat.eqb_neq. unfold command. rewrite length_app. destruct w1; [done|]. simpl. lia. }
  assert (Heq : forall p, policy_check_command st (Some command) p =
    match rule_for st w1 w2 with
    | None => true
    | Some r => p <=? (if r =? 1 then 50 else if r =? 2 then 100 else 0)
    end).
  { intros p. unfold policy_check_command, rule_for. rewrite Hcz, Hlen.
    destruct w2 as [w|]; unfold command.
    - destruct (Hw w (H2 w eq_refl)) as [H2a _].
      rewrite word_len_spec by (done || by right).
      rewrite (proj2 (Nat.ltb_lt _ _)) by (rewrite length_app; simpl; lia).
      assert (Hd : drop (length w1 + 1) (w1 ++ 32 :: w ++ args) = w ++ args).
      { rewrite cons_middle, app_assoc. apply drop_app_length'. rewrite length_app. done. }
      rewrite Hd, word_len_spec by done.
      assert (Ht : take (length w1 + 1 + length w) (w1 ++ 32 :: w ++ args) = w1 ++ 32 :: w).
      { rewrite app_comm_cons, app_assoc. apply take_app_length'. rewrite length_app. simpl. lia. }
      rewrite Ht, (take_app_length' w1) by done.
      rewrite (proj2 (Nat.eqb_neq (length w1 + 1 + length w) (length w1))) by lia.
      destruct (Z.eqb_spec (ai_kernel_engine_check_access st (w1 ++ 32 :: w)) 255) as [E2|E2]; cbn [andb negb].
      + destruct (_ =? 255); [done|]. by rewrite Hmap.
      + rewrite (proj2 (Z.eqb_neq _ 255)) by done. by rewrite Hmap.
    - rewrite app_nil_r. pose proof (word_len_spec w1 [] H1a (or_introl eq_refl)) as Hwl.
      rewrite app_nil_r in Hwl. rewrite Hwl, Nat.ltb_irrefl, Nat.eqb_refl, take_ge by done.
      cbn [negb]. rewrite andb_false_r. destruct (_ =? 255); [done|]. by rewrite Hmap. }
  split; [apply Heq|]. intros p Hp. rewrite !Heq. destruct (rule_for st w1 w2); [|done].
  rewrite !Z.leb_le. lia.
Qed.

(** ** The blob *)

(** A section: four bytes of header, its length, its data. *)
Definition section_encode (s : bytes * bytes) : bytes := s.1 ++ le_enc 4 (Z.of_nat (length s.2)) ++ s.2.
Definition section_ok (s : bytes * bytes) : Prop := length s.1 = 4%nat /\ Z.of_nat (length s.2) < 2 ^ 32.
Definition blob_encode (version : bytes) (secs : list (bytes * bytes)) : bytes :=
  [86; 80; 79; 76] ++ version ++ le_enc 2 (Z.of_nat (length secs)) ++ concat (section_encode <$> secs).

Lemma length_section s : section_ok s -> length (section_encode s) = (8 + length s.2)%nat.
Proof. intros [H1 _]. unfold section_encode. len. Qed.

Lemma sections_end_spec secs : forall pre rest, Forall section_ok secs ->
  Z.of_nat (length (pre ++ concat (section_encode <$> secs))) <= POLICY_BUF ->
  sections_end (length secs) (Z.of_nat (length pre)) (pre ++ concat (section_encode <$> secs) ++ rest) =
  Z.of_nat (length (pre ++ concat (section_encode <$> secs))).
Proof.
  induction secs as [|s secs IH]; intros pre rest Hs Hl.
  - simpl. by rewrite app_nil_r.
  - inversion_clear Hs as [|? ? Hs1 Hs2]. pose proof (length_section s Hs1) as Hlen.
    cbn [fmap list_fmap concat] in *. fold (section_encode <$> secs) in *.
    cbn [length sections_end]. rewrite !length_app in Hl.
    rewrite (proj2 (Z.ltb_ge _ _)) by lia. rewrite Nat2Z.id.
    assert (Hg : get_le (pre ++ (section_encode s ++ concat (section_encode <$> secs)) ++ rest)
      (length pre + 4) 4 = Z.of_nat (length s.2)).
    { rewrite get_le_app_r by lia. replace (length pre + 4 - length pre)%nat with 4%nat by lia.
      unfold section_encode at 1. rewrite <- !app_assoc. destruct Hs1 as [H1 H2].
      rewrite get_le_app_r by lia. rewrite H1. apply get_le_enc. simpl. ulia. }
    rewrite Hg. specialize (IH (pre ++ section_encode s) rest Hs2).
    replace (Z.of_nat (length pre) + 8 + Z.of_nat (length s.2))
      with (Z.of_nat (length (pre ++ section_encode s))) by (rewrite length_app, Hlen; lia).
    replace (pre ++ (section_encode s ++ concat (section_encode <$> secs)) ++ rest)
      with ((pre ++ section_encode s) ++ concat (section_encode <$> secs) ++ rest) by (by rewrite <- !app_assoc).
    rewrite IH by (rewrite !length_app; lia). by rewrite <- !app_assoc.
Qed.

(** The policy reaches the engine unchanged: when the four sectors hold a blob (the magic, two
    version bytes, the number of sections and the sections themselves) that fits in 2048 bytes,
    policy_load_from_disk hands the engine exactly the bytes of that blob. *)
Lemma policy_blob_delivered {D} `{BlockDevLaws D} beyond st d version secs rest :
  bd_ok d -> length version = 2%nat -> Forall section_ok secs -> Z.of_nat (length secs) < 2 ^ 16 ->
  sectors (bd_view d) POLICY_SECTOR (Z.to_nat POLICY_MAX_SECTORS) = blob_encode version secs ++ rest ->
  exists d', policy_load_from_disk beyond st d =
    (let '(ok, st') := ai_kernel_engine_load_policy st (blob_encode version secs) in (Fed ok, st', d')).
Proof.
  intros Hd Hv Hs Hn Hsec. unfold policy_load_from_disk.
  destruct (bd_read_ok d POLICY_SECTOR POLICY_MAX_SECTORS Hd) as (rc & d' & E1 & Hrc & _);
    [unfold in_range, POLICY_SECTOR, POLICY_MAX_SECTORS; ulia|].
  exists d'. rewrite E1, (proj2 (Z.ltb_ge rc 0)), Hsec by lia.
  assert (Hlen : length (blob_encode version secs ++ rest) = 2048%nat).
  { rewrite <- Hsec. rewrite length_sectors by (intros s _; by apply bd_view_length). done. }
  set (hdr := [86; 80; 79; 76] ++ version ++ le_enc 2 (Z.of_nat (length secs))).
  assert (Hh : length hdr = 8%nat).
  { unfold hdr. rewrite !length_app, Hv, length_le_enc. done. }
  assert (Hblob : blob_encode version secs = hdr ++ concat (section_encode <$> secs))
    by (unfold blob_encode, hdr; by rewrite <- !app_assoc).
  set (buf := blob_encode version secs ++ rest) in *.
  assert (Hbuf : buf = hdr ++ concat (section_encode <$> secs) ++ rest)
    by (unfold buf; by rewrite Hblob, <- app_assoc).
  assert (Hmagic : geti buf 0 = 86 /\ geti buf 1 = 80 /\ geti buf 2 = 79 /\ geti buf 3 = 76) by done.
  destruct Hmagic as (-> & -> & -> & ->). cbn [Z.eqb Pos.eqb negb orb].
  assert (Hc : get_le buf 6 2 = Z.of_nat (length secs)).
  { rewrite Hbuf. unfold hdr. change 6%nat with (length [86; 80; 79; 76] + 2)%nat. rewrite <- !app_assoc.
    rewrite get_le_app_r by (simpl; lia). rewrite get_le_app_r by (simpl; lia). simpl length. rewrite Hv.
    apply get_le_enc. simpl. ulia. }
  assert (Hfit : Z.of_nat (length (hdr ++ concat (section_encode <$> secs))) <= POLICY_BUF).
  { rewrite Hbuf, app_assoc, length_app in Hlen. change POLICY_BUF with 2048. lia. }
  rewrite Hc, Nat2Z.id. pose proof (sections_end_spec secs hdr rest Hs Hfit) as He.
  rewrite Hh, <- Hbuf in He. change (Z.of_nat 8) with 8 in He. rewrite He, Nat2Z.id, Hblob.
  rewrite Hbuf, <- !app_assoc. rewrite (app_assoc hdr). by rewrite take_app_length.
Qed.
End policy.

(** ** A concrete engine: a table of commands and required privileges *)

Record TableEngine := mkTable { rules : list (bytes * Z); policy_blob : bytes }.
#[export] Instance table_engine : RustEngine TableEngine := {
  ai_engine_new := Some (mkTable [] []);
  ai_engine_feed_event e _ _ _ := e; ai_engine_feed_event_code e _ _ _ := e; ai_engine_tick e _ := e;
  ai_engine_event_count _ := 0; ai_engine_anomaly_count _ := 0; ai_engine_active_procs _ := 0;
  ai_engine_load_policy e b := (1, mkTable (rules e) b);
  ai_engine_policy_version _ := 1;
  ai_engine_check_access e c :=
    default 255 (snd <$> head (filter (fun r => r.1 = c) (rules e)));
  ai_engine_access_rule_count e := Z.of_nat (length (rules e)) }.
Definition demo_engine : AiKernel TableEngine :=
  mkAiKernel (Some (mkTable [(lit "policy reload", 0); (lit "policy", 2)] [])) true 0.

Lemma policy_check_command_spec_witness :
  policy_check_command demo_engine (Some (lit "policy reload now")) 50 = false /\
  policy_check_command demo_engine (Some (lit "policy show")) 100 = true.
Proof.
  assert (Hp : is_word (lit "policy"))
    by (unfold is_word; refine (bool_decide_unpack _ _); vm_compute; exact I).
  assert (Hr : is_word (lit "reload"))
    by (unfold is_word; refine (bool_decide_unpack _ _); vm_compute; exact I).
  assert (Hs : is_word (lit "show"))
    by (unfold is_word; refine (bool_decide_unpack _ _); vm_compute; exact I).
  assert (Hn : Forall (fun c => c <> 0) (lit " now"))
    by (unfold is_word; refine (bool_decide_unpack _ _); vm_compute; exact I).
  split.
  - destruct (policy_check_command_spec demo_engine (lit "policy") (Some (lit "reload")) (lit " now") 50
      Hp ltac:(done) ltac:(intros w [= <-]; exact Hr) Hn ltac:(done) (or_intror eq_refl)) as [E _].
    exact E.
  - destruct (policy_check_command_spec demo_engine (lit "policy") (Some (lit "show")) [] 100
      Hp ltac:(done) ltac:(intros w [= <-]; exact Hs) (Forall_nil_2 _) ltac:(done) (or_introl eq_refl)) as [E _].
    exact E.
Defined.

(** A disk whose sector 4096 starts with a policy of one section. *)
Definition policy_disk : RamDisk :=
  mkRamDisk (<[POLICY_SECTOR := blit (zeros 512) 0 (blob_encode [1; 0] [([1; 0; 2; 0], [7; 7; 7])])]> ∅).
Lemma policy_blob_delivered_witness :
  exists d', policy_load_from_disk [] demo_engine policy_disk =
    (Fed 1, mkAiKernel (Some (mkTable (rules (mkTable [(lit "policy reload", 0); (lit "policy", 2)] []))
       (blob_encode [1; 0] [([1; 0; 2; 0], [7; 7; 7])]))) true 0, d').
Proof.
  assert (Hd : bd_ok (D := RamDisk) policy_disk) by (apply map_Forall_insert_2; done).
  assert (Hs : Forall section_ok [([1; 0; 2; 0], [7; 7; 7])])
    by (apply Forall_cons; split; [split; [done|simpl; ulia]|done]).
  assert (Hsec : sectors (bd_view policy_disk) POLICY_SECTOR (Z.to_nat POLICY_MAX_SECTORS) =
    blob_encode [1; 0] [([1; 0; 2; 0], [7; 7; 7])] ++ zeros (2048 - 19)) by (vm_compute; reflexivity).
  destruct (policy_blob_delivered (D := RamDisk) [] demo_engine policy_disk [1; 0] [([1; 0; 2; 0], [7; 7; 7])]
    (zeros (2048 - 19)) Hd eq_refl Hs ltac:(simpl; ulia) Hsec) as [d' E].
  exists d'. rewrite E. reflexivity.
Defined.

(** The sizes in the blob are not checked against the buffer: one section that
    claims 2^31 - 1 bytes makes the engine read that far behind it. *)
Lemma policy_size_exceeds_buffer :
  sections_end 1 8 (blob_encode [1; 0] [] ++ [0; 0; 0; 0; 255; 255; 255; 127] ++ zeros 2032) = 16 + (2 ^ 31 - 1).
Proof. vm_compute. reflexivity. Qed.
