(* ===== verification/Module.v ===== *)
(** The kernel module loader (kernel/module/module.c): the slot table, header
    validation, and calls by function number.  Memory is flat; a module is a
    header at an address.  Running a module's machine code is the result
    [CallFn]: the address and argument of the call.  The Rust registry and the
    AI event channel are told what happened: [events]. *)

From S2P Require Import Prelude CString.

(** [include/module.h] constants *)
Definition MOD_MAGIC := 0x4C444F4D.
Definition MOD_VERSION := 1.
Definition MOD_MAX_MODULES := 8.
Definition MOD_MAX_EXPORTS := 8.
Definition MOD_NAME_LEN := 24.
Definition MOD_OK := 0.
Definition MOD_ERR_INVAL := -1.
Definition MOD_ERR_NOSLOT := -2.
Definition MOD_ERR_MAGIC := -3.
Definition MOD_ERR_RANGE := -4.
Definition MOD_ERR_NOTFOUND := -5.
Definition SYS_MOD_LOAD := 28.
Definition SYS_MOD_UNLOAD := 29.
Definition SYS_MOD_LIST := 30.
Definition SYS_MOD_CALL := 31.
Definition SYS_MOD_INFO := 32.
(** [sizeof (mod_header_t)]. *)
Definition HEADER_SIZE : Z := 72.
#[export] Hint Unfold MOD_MAX_MODULES MOD_MAX_EXPORTS MOD_NAME_LEN HEADER_SIZE : consts.

(** [include/module.h] ModHeader *)
Record ModHeader := mkHeader {
  h_magic : Z; h_version : Z; h_fn_count : Z; h_code_size : Z; h_name : bytes; h_fn_offsets : list Z }.
Definition header_decode (b : bytes) : ModHeader :=
  mkHeader (get_le b 0 4) (get_le b 4 4) (get_le b 8 4) (get_le b 12 4) (get_bytes b 16 24)
    ((fun i : nat => get_le b (40 + i * 4) 4) <$> seq 0 8).
Definition header_encode (h : ModHeader) : bytes :=
  le_enc 4 (h_magic h) ++ le_enc 4 (h_version h) ++ le_enc 4 (h_fn_count h) ++ le_enc 4 (h_code_size h) ++
  h_name h ++ concat (le_enc 4 <$> h_fn_offsets h).

(** [kernel/module/module.c] ModSlot *)
Record ModSlot := mkSlot {
  in_use : bool; mid : Z; name : bytes; base_addr : Z; code_size : Z; fn_count : Z; fn_offsets : list Z }.
Definition zero_slot : ModSlot := mkSlot false 0 (zeros 24) 0 0 0 (zeros 8).
#[export] Instance inhabited_slot : Inhabited ModSlot := populate zero_slot.
(** [include/module.h] ModInfo *)
Record ModInfo := mkInfo { i_mid : Z; i_name : bytes; i_base_addr : Z; i_code_size : Z; i_fn_count : Z }.

Inductive mod_event :=
| Registered (mid : Z) (name : bytes) (base size fns : Z)
| Unregistered (mid : Z)
| Reported (name what : bytes).
(** [g_registry] tells that the registry exists.
    [kernel/module/module.c:43-44] g_slots *)
Record Modules := mkModules { g_slots : list ModSlot; g_registry : bool; events : list mod_event }.
Definition slot_at (st : Modules) (i : Z) : ModSlot := geti (g_slots st) i.
Definition tell (st : Modules) (es : list mod_event) : Modules :=
  mkModules (g_slots st) (g_registry st) (events st ++ es).
Definition set_slot (st : Modules) (i : Z) (s : ModSlot) : Modules :=
  mkModules (puti (g_slots st) i s) (g_registry st) (events st).

(** [registry]: whether module_registry_new succeeds.
    [kernel/module/module.c] module_init *)
Definition module_init (registry : bool) : Modules :=
  mkModules (replicate (Z.to_nat MOD_MAX_MODULES) zero_slot) registry [].

(** The slot of a module with header [h] at [addr]; a name without a
    terminator is cut.
    [kernel/module/module.c:120-136] module_load *)
Definition load_slot (i addr : Z) (h : ModHeader) : ModSlot :=
  let name_len := mod_strlen (h_name h) in
  let name_len := if MOD_NAME_LEN <=? name_len then MOD_NAME_LEN - 1 else name_len in
  mkSlot true i (puti (blit (zeros 24) 0 (take (Z.to_nat name_len) (h_name h))) name_len 0) addr
    (h_code_size h) (h_fn_count h)
    (blit (zeros 8) 0 (take (Z.to_nat (h_fn_count h)) (h_fn_offsets h))).
(** What the registry and the event channel are told of it.
    [kernel/module/module.c:138-158] module_load *)
Definition load_events (registry : bool) (slot : ModSlot) : list mod_event :=
  (if registry then [Registered (mid slot) (cstr (name slot)) (base_addr slot) (code_size slot) (fn_count slot)]
   else []) ++ [Reported (cstr (name slot)) (lit "load")].
(** [kernel/module/module.c] module_load *)
Definition module_load (m : memory) (st : Modules) (addr size : Z) : Z * Modules :=
  if (addr =? 0) || (size <? HEADER_SIZE) then (MOD_ERR_INVAL, st) else
  let hdr := header_decode (mem_read m addr 72) in
  if negb (h_magic hdr =? MOD_MAGIC) then (MOD_ERR_MAGIC, st) else
  if negb (h_version hdr =? MOD_VERSION) then (MOD_ERR_MAGIC, st) else
  if MOD_MAX_EXPORTS <? h_fn_count hdr then (MOD_ERR_INVAL, st) else
  if size <? HEADER_SIZE + h_code_size hdr then (MOD_ERR_INVAL, st) else
  match find_idx (fun s => negb (in_use s)) (take (Z.to_nat MOD_MAX_MODULES) (g_slots st)) with
  | None => (MOD_ERR_NOSLOT, st)
  | Some i =>
      let i := Z.of_nat i in
      let slot := load_slot i addr hdr in
      (i, tell (set_slot st i slot) (load_events (g_registry st) slot))
  end.

(** [kernel/module/module.c] module_unload *)
Definition module_unload (st : Modules) (id : Z) : Z * Modules :=
  if MOD_MAX_MODULES <=? id then (MOD_ERR_INVAL, st) else
  let slot := slot_at st id in
  if negb (in_use slot) then (MOD_ERR_NOTFOUND, st) else
  (MOD_OK, tell (set_slot st id zero_slot)
             (Reported (cstr (name slot)) (lit "unload") :: if g_registry st then [Unregistered id] else [])).

(** [kernel/module/module.c] module_list *)
Definition module_list (st : Modules) : Z :=
  Z.of_nat (length (filter (fun s => in_use s = true) (take (Z.to_nat MOD_MAX_MODULES) (g_slots st)))).

Inductive call_result := CallErr (rc : Z) | CallFn (fn_addr arg : Z).
(** [kernel/module/module.c] module_call *)
Definition module_call (st : Modules) (id fn_id arg : Z) : call_result :=
  if MOD_MAX_MODULES <=? id then CallErr MOD_ERR_INVAL else
  let slot := slot_at st id in
  if negb (in_use slot) then CallErr MOD_ERR_NOTFOUND else
  if fn_count slot <=? fn_id then CallErr MOD_ERR_RANGE else
  let code_base := u32 (base_addr slot + HEADER_SIZE) in
  CallFn (u32 (code_base + geti (fn_offsets slot) fn_id)) arg.

(** [kernel/module/module.c] module_info *)
Definition module_info (st : Modules) (id : Z) : Z * option ModInfo :=
  if MOD_MAX_MODULES <=? id then (MOD_ERR_INVAL, None) else
  let slot := slot_at st id in
  if negb (in_use slot) then (MOD_ERR_NOTFOUND, None) else
  (MOD_OK, Some (mkInfo (mid slot) (name slot) (base_addr slot) (code_size slot) (fn_count slot))).

(** What the dispatcher does: a code, a call, or the structure to store at the second argument. *)
Inductive syscall_result := Code (rc : Z) | Call (r : call_result) | Info (r : Z * option ModInfo).
(** [kernel/module/module.c] module_syscall *)
Definition module_syscall (m : memory) (st : Modules) (num a1 a2 a3 : Z) : syscall_result * Modules :=
  if num =? SYS_MOD_LOAD then let '(rc, st) := module_load m st a1 a2 in (Code rc, st)
  else if num =? SYS_MOD_UNLOAD then let '(rc, st) := module_unload st a1 in (Code rc, st)
  else if num =? SYS_MOD_LIST then (Code (module_list st), st)
  else if num =? SYS_MOD_CALL then (Call (module_call st a1 a2 a3), st)
  else if num =? SYS_MOD_INFO then
    if a2 =? 0 then (Code MOD_ERR_INVAL, st) else (Info (module_info st a1), st)
  else (Code MOD_ERR_INVAL, st).

(** ** Loading *)

Definition header_ok (h : ModHeader) : Prop :=
  h_magic h = MOD_MAGIC /\ h_version h = MOD_VERSION /\ 0 <= h_fn_count h <= MOD_MAX_EXPORTS /\
  is_u32 (h_code_size h) /\ length (h_name h) = 24%nat /\ length (h_fn_offsets h) = 8%nat /\
  Forall is_u32 (h_fn_offsets h).

Lemma get_le_words (l : list Z) (i : nat) x rest : Forall is_u32 l -> l !! i = Some x ->
  get_le (concat (le_enc 4 <$> l) ++ rest) (i * 4) 4 = x.
Proof.
  intros Hl; revert i; induction Hl as [|y l Hy Hl IH]; intros i Hi; [done|].
  cbn [fmap list_fmap concat]. rewrite <- app_assoc. destruct i as [|i]; simpl in Hi.
  - injection Hi as ->. change (0 * 4)%nat with 0%nat. apply get_le_enc. simpl. ulia.
  - rewrite get_le_app_r by (rewrite length_le_enc; lia). rewrite length_le_enc.
    replace (S i * 4 - 4)%nat with (i * 4)%nat by lia. by apply IH.
Qed.

Lemma length_words (l : list Z) : length (concat (le_enc 4 <$> l)) = (4 * length l)%nat.
Proof. induction l as [|x l IH]; [done|]. cbn [fmap list_fmap concat length]. rewrite length_app, length_le_enc, IH. lia. Qed.
Lemma length_header_encode h : header_ok h -> length (header_encode h) = 72%nat.
Proof.
  intros (_ & _ & _ & _ & Hn & Ho & _). unfold header_encode.
  by rewrite !length_app, !length_le_enc, length_words, Hn, Ho.
Qed.
Lemma header_decode_encode h : header_ok h -> header_decode (header_encode h) = h.
Proof.
  intros (Hm & Hv & Hf & Hc & Hn & Ho & Hou). destruct h as [mg ver fc cs nm offs].
  unfold header_decode, header_encode. cbn [h_magic h_version h_fn_count h_code_size h_name h_fn_offsets] in *.
  unfold MOD_MAGIC, MOD_VERSION, MOD_MAX_EXPORTS in *. subst. f_equal.
  1-3: by fields.
  - apply list_eq_same_length with 8%nat; [done|by len|]. intros i x y Hi.
    rewrite list_lookup_fmap, lookup_seq_lt by done. cbn [fmap option_fmap option_map]. intros <-%(inj Some) Hy.
    rewrite !get_le_app_r by (rewrite ?length_le_enc, ?Hn; lia). rewrite !length_le_enc, Hn.
    replace (40 + (0 + i) * 4 - 4 - 4 - 4 - 4 - 24)%nat with (i * 4)%nat by lia.
    rewrite <- (app_nil_r (concat _)). by apply get_le_words.
Qed.

Lemma load_slot_name i addr h : length (h_name h) = 24%nat ->
  length (name (load_slot i addr h)) = 24%nat /\ cstr (name (load_slot i addr h)) = take 23 (cstr (h_name h)).
Proof.
  intros Hn. unfold load_slot, mod_strlen. rewrite strlen_loop_spec, Z.add_0_l. cbn [name].
  pose proof (length_cstr (h_name h)) as Hl.
  set (k := if MOD_NAME_LEN <=? Z.of_nat (length (cstr (h_name h))) then MOD_NAME_LEN - 1
            else Z.of_nat (length (cstr (h_name h)))).
  assert (Hk : k = Z.of_nat (Nat.min 23 (length (cstr (h_name h))))) by (unfold k, MOD_NAME_LEN; case_step; lia).
  assert (Ht : take (Z.to_nat k) (h_name h) = take 23 (cstr (h_name h))).
  { rewrite Hk, Nat2Z.id. clear. generalize 23%nat. induction (h_name h) as [|c l IH]; intros n; simpl.
    - by rewrite !take_nil.
    - case_match; simpl; [by rewrite Nat.min_0_r, take_nil|]. destruct n as [|n]; [done|]. simpl. by rewrite IH. }
  rewrite Ht, blit_0. assert (Hlt : length (take 23 (cstr (h_name h))) = Z.to_nat k) by (rewrite length_take; lia).
  split.
  - rewrite length_puti, length_app, length_drop, Hlt. change (length (zeros 24)) with 24%nat. lia.
  - rewrite puti_blit, Hlt by (rewrite length_app, length_drop, Hlt; change (length (zeros 24)) with 24%nat; lia).
    unfold blit. rewrite <- Hlt at 1. rewrite take_app_length. apply cstr_app_nul. apply Forall_take, cstr_nonzero.
Qed.

(** A valid header is accepted as soon as a slot is free. *)
Lemma module_load_valid m st addr size h :
  length (g_slots st) = 8%nat -> header_ok h -> mem_read m addr 72 = header_encode h ->
  addr <> 0 -> HEADER_SIZE + h_code_size h <= size ->
  module_load m st addr size =
    match find_idx (fun s => negb (in_use s)) (g_slots st) with
    | None => (MOD_ERR_NOSLOT, st)
    | Some i => (Z.of_nat i, tell (set_slot st (Z.of_nat i) (load_slot (Z.of_nat i) addr h))
                              (load_events (g_registry st) (load_slot (Z.of_nat i) addr h)))
    end.
Proof.
  intros Hl Hh Hmem Haddr Hsize. pose proof Hh as (Hm & Hv & Hf & Hc & _).
  unfold module_load. rewrite Hmem, header_decode_encode by done.
  assert (HE : MOD_MAX_EXPORTS = 8) by done.
  rewrite (proj2 (Z.eqb_neq addr 0)), (proj2 (Z.ltb_ge size HEADER_SIZE)) by ulia. cbn [orb].
  rewrite Hm, Hv, !Z.eqb_refl, (proj2 (Z.ltb_ge _ (h_fn_count h))), (proj2 (Z.ltb_ge size _)) by lia.
  cbn [negb]. rewrite take_ge by (rewrite Hl; done).
  by destruct (find_idx _ (g_slots st)) as [i|].
Qed.

(** A call into a freshly loaded slot. *)
Lemma load_slot_offset i addr h fn : header_ok h -> 0 <= fn < h_fn_count h ->
  geti (fn_offsets (load_slot i addr h)) fn = geti (h_fn_offsets h) fn.
Proof.
  intros (_ & _ & Hf & _ & _ & Ho & _) Hfn. cbn [load_slot fn_offsets]. rewrite blit_0. unfold geti, MOD_MAX_EXPORTS in *.
  rewrite !list_lookup_total_alt, lookup_app_l by (rewrite length_take; lia). by rewrite lookup_take_lt by lia.
Qed.

(** Loading, calling and unloading a module: when a valid header lies at [addr], and the given size
    covers its code, module_load takes the first free slot, whose info then shows the
    header's data; other slots keep their modules; calls of the exported functions jump to the
    code behind the header at the offsets it gives, other function numbers are refused, and
    module_unload frees the slot. With all slots taken it returns MOD_ERR_NOSLOT. *)
Lemma module_load_spec m st addr size h :
  length (g_slots st) = 8%nat -> header_ok h -> mem_read m addr 72 = header_encode h ->
  addr <> 0 -> HEADER_SIZE + h_code_size h <= size ->
  let '(rc, st') := module_load m st addr size in
  (rc = MOD_ERR_NOSLOT /\ st' = st /\ Forall (fun s => in_use s = true) (g_slots st)) \/
  (0 <= rc < 8 /\ in_use (slot_at st rc) = false /\
   (forall i, 0 <= i < rc -> in_use (slot_at st i) = true) /\
   (forall i, 0 <= i -> i <> rc -> slot_at st' i = slot_at st i) /\
   (exists inf, module_info st' rc = (MOD_OK, Some inf) /\ i_mid inf = rc /\ i_base_addr inf = addr /\
      i_code_size inf = h_code_size h /\ i_fn_count inf = h_fn_count h /\
      cstr (i_name inf) = take 23 (cstr (h_name h))) /\
   (forall fn arg, 0 <= fn -> module_call st' rc fn arg =
      if fn <? h_fn_count h then CallFn (u32 (addr + HEADER_SIZE + geti (h_fn_offsets h) fn)) arg
      else CallErr MOD_ERR_RANGE) /\
   (let '(rc', st'') := module_unload st' rc in
    rc' = MOD_OK /\ g_slots st'' = puti (g_slots st) rc zero_slot)).
Proof.
  intros Hl Hh Hmem Haddr Hsize. pose proof Hh as (_ & _ & _ & _ & Hn & _).
  rewrite (module_load_valid m st addr size h Hl Hh Hmem Haddr Hsize).
  destruct (find_idx _ (g_slots st)) as [i|] eqn:E.
  - right. pose proof (find_idx_lt _ _ _ E) as Hi. apply find_idx_Some in E as [[s [Hs Hu]] Hbefore].
    apply negb_true_iff in Hu. set (slot := load_slot _ addr h).
    assert (Hat : slot_at (set_slot st (Z.of_nat i) slot) (Z.of_nat i) = slot)
      by (apply geti_puti_eq; lia).
    split; [lia|]. split; [by rewrite (lookup_geti _ _ _ Hs : slot_at st (Z.of_nat i) = s)|]. split.
    { intros j Hj. unfold slot_at. pose proof (geti_lookup (g_slots st) j ltac:(lia)) as Hg.
      apply Hbefore in Hg; [by apply negb_false_iff in Hg|lia]. }
    split; [intros j Hj Hne; apply geti_puti_ne; lia|].
    unfold module_info, module_call, module_unload, tell, slot_at in *. cbn [g_slots set_slot g_registry] in *.
    rewrite (proj2 (Z.leb_gt MOD_MAX_MODULES (Z.of_nat i))) by (unfold MOD_MAX_MODULES; lia). rewrite !Hat.
    destruct (load_slot_name (Z.of_nat i) addr h Hn) as [_ Hname].
    split; [by eexists|]. split.
    + intros fn arg Hfn. cbn [in_use slot load_slot fn_count negb base_addr fn_offsets]. rewrite Z.leb_antisym.
      destruct (Z.ltb_spec fn (h_fn_count h)) as [Hlt|]; cbn [negb]; [|done]. f_equal.
      unfold u32. rewrite Zplus_mod_idemp_l. do 2 f_equal. exact (load_slot_offset 0 addr h fn Hh (conj Hfn Hlt)).
    + split; [done|]. cbn [g_slots]. apply puti_same.
  - left. split; [done|]. split; [done|]. rewrite find_idx_None in E. apply Forall_forall.
    intros s Hs. apply E in Hs. by apply negb_false_iff in Hs.
Qed.

(** A module of two functions, at address 4096. *)
Definition demo_hdr : ModHeader :=
  mkHeader MOD_MAGIC 1 2 64 (lit "math" ++ zeros 20) [0; 32; 0; 0; 0; 0; 0; 0].
Definition demo_mod_mem : memory := mem_write (fun _ => 0) 4096 (header_encode demo_hdr).
Lemma demo_hdr_ok : header_ok demo_hdr.
Proof.
  split; [done|]. split; [done|]. split; [unfold MOD_MAX_EXPORTS; cbn; lia|]. split; [cbn; ulia|].
  split; [done|]. split; [done|]. repeat (constructor; [ulia|]). constructor.
Qed.

Lemma module_load_spec_witness :
  exists st', module_load demo_mod_mem (module_init true) 4096 200 = (0, st') /\
    module_call st' 0 1 7 = CallFn 4200 7 /\ module_call st' 0 2 7 = CallErr MOD_ERR_RANGE.
Proof.
  pose proof (module_load_spec demo_mod_mem (module_init true) 4096 200 demo_hdr eq_refl demo_hdr_ok
    (mem_read_write _ _ _ _ eq_refl) ltac:(lia) ltac:(unfold HEADER_SIZE; cbn; lia)) as Hs.
  destruct (module_load _ _ _ _) as [rc st']. exists st'.
  destruct Hs as [(_ & _ & Hall)|(Hrc & _ & Hfirst & _ & _ & Hcall & _)].
  - exfalso. inversion Hall; discriminate.
  - assert (rc = 0) as ->.
    { destruct (Z.eq_dec rc 0) as [|Hne]; [done|]. specialize (Hfirst 0 ltac:(lia)). discriminate. }
    split; [done|]. split; by rewrite Hcall.
Defined.
