(* ===== verification/Dylib.v ===== *)
(** The shared-library loader (kernel/module/dylib.c) on top of the module
    loader and the file system layer.  The library files are read into a fixed
    area of the flat memory, one block per slot, and the module loader is given
    the block's address.  The file system is used through [FileSource]. *)

From S2P Require Import Prelude CString BlockDev VernisFs Kfs Module.

(** [include/dylib.h] constants *)
Definition DYLIB_MAX_LIBS := 4.
Definition DYLIB_NAME_MAX := 24.
Definition DYLIB_PATH_MAX := 48.
Definition DYLIB_MAX_FILE_SIZE := 8192.
Definition DYLIB_OK := 0.
Definition DYLIB_ERR_INVAL := -1.
Definition DYLIB_ERR_NOSLOT := -2.
Definition DYLIB_ERR_NOTFOUND := -3.
Definition DYLIB_ERR_IO := -4.
Definition DYLIB_ERR_FORMAT := -5.
#[export] Hint Unfold DYLIB_MAX_LIBS DYLIB_MAX_FILE_SIZE : consts.

(** What the loader needs of a file system: the count kfs_read_file returns,
    the bytes it stored in the buffer, and the file system afterwards. *)
Class FileSource (F : Type) := read_file : F -> bytes -> Z -> Z * bytes * F.
(** The file system layer is one. *)
#[export] Instance kfs_source D `{BlockDev D} (fuel : nat) (env : Env) : FileSource (Kfs D) := fun st path n =>
  let '(r, st) := kfs_read_file fuel env path n st in
  match r with Ok (rc, out) => (rc, out, st) | _ => (-1, [], st) end.

(** [kernel/module/dylib.c] DylibSlot *)
Record DylibSlot := mkDylib {
  d_used : bool; d_handle : Z; d_mid : Z; d_size : Z; d_name : bytes; d_path : bytes }.
Definition zero_dylib : DylibSlot := mkDylib false 0 0 0 (zeros 24) (zeros 48).
#[export] Instance inhabited_dylib : Inhabited DylibSlot := populate zero_dylib.

(** [kernel/module/dylib.c:17-19] g_dylibs *)
Record Dylibs (F : Type) := mkDylibs {
  g_dylibs : list DylibSlot; g_next_handle : Z; d_mem : memory; d_mods : Modules; d_files : F }.
Arguments mkDylibs {F}. Arguments g_dylibs {F}. Arguments g_next_handle {F}.
Arguments d_mem {F}. Arguments d_mods {F}. Arguments d_files {F}.
#[export] Instance eta_Dylibs F : Eta (Dylibs F) := fun r =>
  mkDylibs (g_dylibs r) (g_next_handle r) (d_mem r) (d_mods r) (d_files r).

(** [while (symbol[i] >= '0' && symbol[i] <= '9')]: the number, and the rest;
    [int] arithmetic is taken to wrap.
    [kernel/module/dylib.c:51-54] dylib_symbol_to_fnid *)
Fixpoint symbol_digits (s : bytes) (id : Z) : Z * bytes :=
  match s with
  | c :: s' => if (48 <=? c) && (c <=? 57) then symbol_digits s' (i32 (id * 10 + (c - 48))) else (id, s)
  | [] => (id, [])
  end.
(** [kernel/module/dylib.c] dylib_symbol_to_fnid *)
Definition dylib_symbol_to_fnid (symbol : bytes) : Z :=
  if negb (char_at symbol 0 =? 102) || negb (char_at symbol 1 =? 110) then DYLIB_ERR_NOTFOUND else
  if char_at symbol 2 =? 0 then DYLIB_ERR_NOTFOUND else
  let '(id, rest) := symbol_digits (drop 2 symbol) 0 in
  if negb (char_at rest 0 =? 0) then DYLIB_ERR_NOTFOUND else
  if (id <? 0) || (MOD_MAX_EXPORTS <=? id) then DYLIB_ERR_NOTFOUND else id.

(** "fn" and a decimal number below 8 is that function. *)
Lemma symbol_digits_spec ds acc rest : Forall (fun c => 48 <= c < 58) ds -> 0 <= acc ->
  char_at rest 0 = 0 -> fold_left (fun a c => a * 10 + (c - 48)) ds acc < 2 ^ 31 ->
  acc <= fold_left (fun a c => a * 10 + (c - 48)) ds acc /\
  symbol_digits (ds ++ rest) acc = (fold_left (fun a c => a * 10 + (c - 48)) ds acc, rest).
Proof.
  intros Hds; revert acc; induction Hds as [|c ds Hc Hds IH]; intros acc Hacc Hr Hlt; cbn [fold_left app] in *.
  - split; [lia|]. destruct rest as [|c rest]; [done|]. rewrite char_at_0 in Hr. by subst.
  - assert (Hge : forall a, 0 <= a -> a <= fold_left (fun a c => a * 10 + (c - 48)) ds a).
    { clear -Hds. induction Hds as [|c ds Hc Hds IH]; intros a Ha; cbn [fold_left]; [lia|].
      specialize (IH (a * 10 + (c - 48)) ltac:(lia)). lia. }
    specialize (Hge (acc * 10 + (c - 48)) ltac:(lia)).
    destruct (IH (acc * 10 + (c - 48)) ltac:(lia) Hr Hlt) as [Hle IHe]. split; [lia|].
    cbn [symbol_digits]. rewrite (proj2 (Z.leb_le 48 c)), (proj2 (Z.leb_le c 57)) by lia. cbn [andb].
    by rewrite i32_id by ulia.
Qed.
Lemma dylib_symbol_spec ds : ds <> [] -> Forall (fun c => 48 <= c < 58) ds -> dec_value ds < 2 ^ 31 ->
  dylib_symbol_to_fnid (lit "fn" ++ ds) = if dec_value ds <? 8 then dec_value ds else DYLIB_ERR_NOTFOUND.
Proof.
  intros Hne Hds Hlt. unfold dylib_symbol_to_fnid.
  change (char_at (lit "fn" ++ ds) 0) with 102. change (char_at (lit "fn" ++ ds) 1) with 110. cbn [negb Z.eqb Pos.eqb orb].
  change (drop 2 (lit "fn" ++ ds)) with ds. change (char_at (lit "fn" ++ ds) 2) with (char_at ds 0).
  destruct (symbol_digits_spec ds 0 [] Hds ltac:(lia) eq_refl Hlt) as [Hge He]. rewrite app_nil_r in He. rewrite He.
  fold (dec_value ds) in *. destruct ds as [|c ds]; [done|]. inversion Hds; subst.
  change (char_at (c :: ds) 0) with c. rewrite (proj2 (Z.eqb_neq c 0)) by lia. cbn [negb char_at].
  rewrite (proj2 (Z.ltb_ge _ 0)) by lia. cbn. rewrite Z.leb_antisym. unfold MOD_MAX_EXPORTS. by destruct (_ <? 8).
Qed.

Section dylib.
Context {F : Type} `{FileSource F}.
(** The address of g_dylib_storage, below 4 GB. *)
Variable storage : Z.
Implicit Types (st : Dylibs F) (path dname symbol : bytes).

Definition block (i : Z) : Z := storage + i * DYLIB_MAX_FILE_SIZE.

(** [kernel/module/dylib.c] dylib_find_handle *)
Definition dylib_find_handle st (handle : Z) : option Z :=
  Z.of_nat <$> find_idx (fun s => d_used s && (d_handle s =? handle))
                 (take (Z.to_nat DYLIB_MAX_LIBS) (g_dylibs st)).

(** [kernel/module/dylib.c] dylib_init *)
Definition dylib_init (m : memory) (mods : Modules) (f : F) : Dylibs F :=
  mkDylibs (replicate (Z.to_nat DYLIB_MAX_LIBS) zero_dylib) 1
    (mem_write m storage (zeros (Z.to_nat (DYLIB_MAX_LIBS * DYLIB_MAX_FILE_SIZE)))) mods f.

(** A NULL path or name is the empty one.
    [kernel/module/dylib.c] dylib_open *)
Definition dylib_open st path dname : Z * Dylibs F :=
  if char_at path 0 =? 0 then (DYLIB_ERR_INVAL, st) else
  match find_idx (fun s => negb (d_used s)) (take (Z.to_nat DYLIB_MAX_LIBS) (g_dylibs st)) with
  | None => (DYLIB_ERR_NOSLOT, st)
  | Some free_slot =>
      let i := Z.of_nat free_slot in
      let '(n, out, f) := read_file (d_files st) path DYLIB_MAX_FILE_SIZE in
      let st := st <| d_files := f |> <| d_mem := mem_write (d_mem st) (block i) out |> in
      if n <=? 0 then (DYLIB_ERR_IO, st) else
      if n <? HEADER_SIZE then (DYLIB_ERR_FORMAT, st) else
      let addr := u32 (block i) in
      let '(id, mods) := module_load (d_mem st) (d_mods st) addr (u32 n) in
      let st := st <| d_mods := mods |> in
      if id <? 0 then (id, st) else
      let s := geti (g_dylibs st) i in
      let new_name :=
        if negb (char_at dname 0 =? 0) then d_strncpy (d_name s) dname DYLIB_NAME_MAX else
        match module_info mods (u32 id) with
        | (rc, Some inf) => if rc =? MOD_OK then d_strncpy (d_name s) (i_name inf) DYLIB_NAME_MAX
                            else d_strncpy (d_name s) (lit "lib") DYLIB_NAME_MAX
        | (_, None) => d_strncpy (d_name s) (lit "lib") DYLIB_NAME_MAX
        end in
      let s := mkDylib true (g_next_handle st) (u32 id) (u32 n) new_name
                 (d_strncpy (d_path s) path DYLIB_PATH_MAX) in
      (i32 (g_next_handle st),
       st <| g_dylibs := puti (g_dylibs st) i s |> <| g_next_handle := u32 (g_next_handle st + 1) |>)
  end.

(** [kernel/module/dylib.c] dylib_close *)
Definition dylib_close st (handle : Z) : Z * Dylibs F :=
  match dylib_find_handle st handle with
  | None => (DYLIB_ERR_NOTFOUND, st)
  | Some idx =>
      let '(_, mods) := module_unload (d_mods st) (d_mid (geti (g_dylibs st) idx)) in
      (DYLIB_OK, st <| d_mods := mods |> <| g_dylibs := puti (g_dylibs st) idx zero_dylib |>
                    <| d_mem := mem_write (d_mem st) (block idx) (zeros (Z.to_nat DYLIB_MAX_FILE_SIZE)) |>)
  end.

(** [kernel/module/dylib.c] dylib_list *)
Definition dylib_list st : Z :=
  Z.of_nat (length (filter (fun s => d_used s = true) (take (Z.to_nat DYLIB_MAX_LIBS) (g_dylibs st)))).

(** [kernel/module/dylib.c] dylib_resolve *)
Definition dylib_resolve st (handle : Z) symbol : Z :=
  match dylib_find_handle st handle with
  | None => DYLIB_ERR_NOTFOUND
  | Some idx =>
      match module_info (d_mods st) (d_mid (geti (g_dylibs st) idx)) with
      | (rc, Some inf) =>
          if negb (rc =? MOD_OK) then DYLIB_ERR_NOTFOUND else
          let fn_id := dylib_symbol_to_fnid symbol in
          if fn_id <? 0 then fn_id else
          if i_fn_count inf <=? fn_id then DYLIB_ERR_NOTFOUND else fn_id
      | (_, None) => DYLIB_ERR_NOTFOUND
      end
  end.

(** [kernel/module/dylib.c] dylib_call *)
Definition dylib_call st (handle : Z) symbol (arg : Z) : call_result :=
  match dylib_find_handle st handle with
  | None => CallErr DYLIB_ERR_NOTFOUND
  | Some idx =>
      let fn_id := dylib_resolve st handle symbol in
      if fn_id <? 0 then CallErr fn_id
      else module_call (d_mods st) (d_mid (geti (g_dylibs st) idx)) fn_id arg
  end.

(** ** Properties *)

(** Open libraries have handles and modules of their own. *)
Definition lib_ok st (i : nat) (s : DylibSlot) : Prop :=
  d_used s = true ->
  0 < d_handle s < g_next_handle st /\ 0 <= d_mid s < 8 /\ in_use (slot_at (d_mods st) (d_mid s)) = true /\
  forall j t, g_dylibs st !! j = Some t -> d_used t = true -> j <> i ->
    d_handle t <> d_handle s /\ d_mid t <> d_mid s.
Definition wf st : Prop :=
  length (g_dylibs st) = 4%nat /\ length (g_slots (d_mods st)) = 8%nat /\ 0 < g_next_handle st /\
  forall i s, g_dylibs st !! i = Some s -> lib_ok st i s.

(** What a caller sees of a handle: the module slot its calls go to. *)
Definition lib_module st (handle : Z) : option ModSlot :=
  idx ← dylib_find_handle st handle; Some (slot_at (d_mods st) (d_mid (geti (g_dylibs st) idx))).

Lemma find_handle_spec st i s : wf st -> g_dylibs st !! i = Some s -> d_used s = true ->
  dylib_find_handle st (d_handle s) = Some (Z.of_nat i).
Proof.
  intros (Hl & _ & _ & Hok) Hs Hu. unfold dylib_find_handle. rewrite take_ge by (rewrite Hl; done).
  rewrite (find_idx_unique _ _ i s); [done|done|by rewrite Hu, Z.eqb_refl|].
  intros j t Ht [Hut He%Z.eqb_eq]%andb_prop. destruct (decide (j = i)) as [|Hne]; [done|].
  destruct (Hok i s Hs Hu) as (_ & _ & _ & Hd). by destruct (Hd j t Ht Hut Hne).
Qed.
Lemma find_handle_inv st h idx : wf st -> dylib_find_handle st h = Some idx ->
  exists i s, idx = Z.of_nat i /\ g_dylibs st !! i = Some s /\ d_used s = true /\ d_handle s = h.
Proof.
  intros (Hl & _) (i & E & ->)%fmap_Some. rewrite take_ge in E by (rewrite Hl; done).
  apply find_idx_Some in E as [(s & Hs & [Hu He%Z.eqb_eq]%andb_prop) _]. by exists i, s.
Qed.
Lemma lib_module_None st h : lib_module st h = None <-> dylib_find_handle st h = None.
Proof. unfold lib_module. by destruct (dylib_find_handle st h). Qed.

(** Calls and lookups depend on the module slot only. *)
Lemma dylib_call_spec st h sym arg : wf st -> 
  dylib_call st h sym arg =
  match lib_module st h with
  | None => CallErr DYLIB_ERR_NOTFOUND
  | Some sl =>
      let id := dylib_symbol_to_fnid sym in
      if id <? 0 then CallErr id else
      if fn_count sl <=? id then CallErr DYLIB_ERR_NOTFOUND else
      CallFn (u32 (u32 (base_addr sl + HEADER_SIZE) + geti (fn_offsets sl) id)) arg
  end.
Proof.
  intros Hwf. unfold dylib_call, dylib_resolve, lib_module.
  destruct (dylib_find_handle st h) as [idx|] eqn:E; [|done].
  apply find_handle_inv in E as (i & s & -> & Hs & Hu & _); [|done].
  destruct Hwf as (_ & _ & _ & Hok). destruct (Hok i s Hs Hu) as (_ & Hmid & Hin & _).
  cbn. rewrite (lookup_geti _ _ _ Hs). unfold module_info, module_call.
  rewrite (proj2 (Z.leb_gt MOD_MAX_MODULES (d_mid s))), Hin by (unfold MOD_MAX_MODULES; lia). cbn [negb].
  rewrite (Z.eqb_refl MOD_OK). cbn [negb i_fn_count].
  destruct (Z.ltb_spec (dylib_symbol_to_fnid sym) 0) as [Hneg|Hpos].
  { by rewrite (proj2 (Z.ltb_lt _ _)). }
  destruct (Z.leb_spec (fn_count (slot_at (d_mods st) (d_mid s))) (dylib_symbol_to_fnid sym)) as [Hle|Hlt]; [done|].
  by rewrite (proj2 (Z.ltb_ge _ _)), (proj2 (Z.leb_gt _ _)).
Qed.

(** Calls through a handle whose slot is not [i] only see what did not change. *)
Lemma lib_module_frame st st' (i : nat) h : wf st -> wf st' ->
  (forall j, j <> i -> g_dylibs st' !! j = g_dylibs st !! j) ->
  (forall s, g_dylibs st !! i = Some s -> d_used s = true -> d_handle s <> h) ->
  (forall s, g_dylibs st' !! i = Some s -> d_used s = true -> d_handle s <> h) ->
  (forall j s, j <> i -> g_dylibs st !! j = Some s -> d_used s = true ->
     slot_at (d_mods st') (d_mid s) = slot_at (d_mods st) (d_mid s)) ->
  lib_module st' h = lib_module st h.
Proof.
  intros Hwf Hwf' Hd Hi Hi' Hm. destruct (dylib_find_handle st h) as [idx|] eqn:E.
  - pose proof E as E'. apply find_handle_inv in E as (j & s & -> & Hs & Hu & Hh); [|done].
    assert (Hj : j <> i) by (intros ->; by apply (Hi s)).
    assert (Hs' : g_dylibs st' !! j = Some s) by (by rewrite Hd).
    pose proof (find_handle_spec st' j s Hwf' Hs' Hu) as Ef. rewrite Hh in Ef.
    unfold lib_module. rewrite Ef, E'. cbn. rewrite (lookup_geti _ _ _ Hs), (lookup_geti _ _ _ Hs').
    f_equal. by apply (Hm j).
  - rewrite (proj2 (lib_module_None st h)) by done. apply lib_module_None.
    destruct (dylib_find_handle st' h) as [idx|] eqn:E'; [|done]. exfalso.
    apply find_handle_inv in E' as (j & s & -> & Hs & Hu & Hh); [|done].
    assert (Hj : j <> i) by (intros ->; by apply (Hi' s)).
    rewrite Hd in Hs by done. pose proof (find_handle_spec st j s Hwf Hs Hu) as Ef. congruence.
Qed.

(** A library added in a free slot, or removed from its slot. *)
Lemma wf_add st st' (i : nat) (k : Z) s s0 sl : wf st -> g_dylibs st !! i = Some s0 -> d_used s0 = false ->
  0 <= k < 8 -> in_use (slot_at (d_mods st) k) = false -> in_use sl = true ->
  d_handle s = g_next_handle st -> d_mid s = k -> g_next_handle st < 2 ^ 31 ->
  g_dylibs st' = puti (g_dylibs st) (Z.of_nat i) s -> g_next_handle st' = u32 (g_next_handle st + 1) ->
  g_slots (d_mods st') = puti (g_slots (d_mods st)) k sl -> wf st'.
Proof.
  intros (Hl & Hls & Hn & Hok) Hs0 Hu0 Hk Hfree Hsl Hh Hm Hlt Ed En Es.
  rewrite u32_id in En by ulia. unfold wf. rewrite Ed, Es, En, !length_puti. split; [done|]. split; [done|].
  split; [lia|]. intros j t Ht Hut. unfold lib_ok, slot_at. rewrite Es, En, Ed.
  unfold puti at 1 in Ht. rewrite Nat2Z.id in Ht. apply list_lookup_insert_Some in Ht as [(<- & <- & Hi)|(Hne & Ht)].
  - rewrite Hh, Hm. split; [lia|]. split; [done|]. split; [rewrite geti_puti_eq by lia; done|].
    intros j t Ht Hut' Hj. unfold puti in Ht. rewrite Nat2Z.id, list_lookup_insert_ne in Ht by done.
    destruct (Hok j t Ht Hut') as (Hb & Hmt & Hin & _). split; [lia|]. intros Heq.
    unfold slot_at in *. rewrite Heq in Hin. congruence.
  - destruct (Hok j t Ht Hut) as (Hb & Hmt & Hin & Hd). assert (d_mid t <> k).
    { intros Heq. rewrite Heq in Hin. congruence. }
    split; [lia|]. split; [done|]. split; [rewrite geti_puti_ne by lia; done|].
    intros j' t' Ht' Hut' Hj'. unfold puti in Ht'. rewrite Nat2Z.id in Ht'.
    apply list_lookup_insert_Some in Ht' as [(<- & <- & _)|(_ & Ht')]; [|by apply (Hd j')]. lia.
Qed.
Lemma wf_remove st st' (i : nat) s : wf st -> g_dylibs st !! i = Some s -> d_used s = true ->
  g_dylibs st' = puti (g_dylibs st) (Z.of_nat i) zero_dylib -> g_next_handle st' = g_next_handle st ->
  g_slots (d_mods st') = puti (g_slots (d_mods st)) (d_mid s) zero_slot -> wf st'.
Proof.
  intros (Hl & Hls & Hn & Hok) Hs Hu Ed En Es. unfold wf. rewrite Ed, Es, En, !length_puti.
  split; [done|]. split; [done|]. split; [done|]. intros j t Ht Hut. unfold lib_ok, slot_at. rewrite Es, En, Ed.
  unfold puti at 1 in Ht. rewrite Nat2Z.id in Ht. apply list_lookup_insert_Some in Ht as [(<- & <- & Hi)|(Hne & Ht)]; [done|].
  destruct (Hok j t Ht Hut) as (Hb & Hmt & Hin & Hd). destruct (Hd i s Hs Hu Hne) as [_ Hms].
  destruct (Hok i s Hs Hu) as (_ & Hmi & _).
  split; [done|]. split; [done|]. split; [rewrite geti_puti_ne by lia; done|].
  intros j' t' Ht' Hut' Hj'. unfold puti in Ht'. rewrite Nat2Z.id in Ht'.
  apply list_lookup_insert_Some in Ht' as [(<- & <- & _)|(_ & Ht')]; [done|]. by apply (Hd j').
Qed.

(** What a successful dylib_open does. *)
Lemma dylib_open_ok st path dname n out f h :
  0 < storage -> storage + 4 * 8192 <= 2 ^ 32 -> wf st -> char_at path 0 <> 0 ->
  read_file (d_files st) path DYLIB_MAX_FILE_SIZE = (n, out, f) ->
  header_ok h -> take 72 out = header_encode h -> HEADER_SIZE + h_code_size h <= n <= 8192 ->
  (exists i s, g_dylibs st !! i = Some s /\ d_used s = false) ->
  (exists i s, g_slots (d_mods st) !! i = Some s /\ in_use s = false) ->
  exists (i : nat) (k : Z) s s0 st', dylib_open st path dname = (i32 (g_next_handle st), st') /\
    g_dylibs st !! i = Some s0 /\ d_used s0 = false /\ 0 <= k < 8 /\ in_use (slot_at (d_mods st) k) = false /\
    g_dylibs st' = puti (g_dylibs st) (Z.of_nat i) s /\
    d_used s = true /\ d_handle s = g_next_handle st /\ d_mid s = k /\ g_next_handle st' = u32 (g_next_handle st + 1) /\
    g_slots (d_mods st') = puti (g_slots (d_mods st)) k (load_slot k (block (Z.of_nat i)) h) /\
    d_mem st' = mem_write (d_mem st) (block (Z.of_nat i)) out.
Proof.
  intros Hst0 Hst1 Hwf Hp Hr Hh Hout Hn Hfd Hfm. pose proof Hwf as (Hl & Hls & _).
  unfold dylib_open. rewrite (proj2 (Z.eqb_neq _ 0)) by done. rewrite take_ge by (rewrite Hl; done).
  destruct (find_idx _ (g_dylibs st)) as [i|] eqn:Ei.
  2:{ destruct Hfd as (i & s & Hs & Hu). rewrite find_idx_None in Ei.
      specialize (Ei s (list_elem_of_lookup_2 _ _ _ Hs)). by rewrite Hu in Ei. }
  pose proof (find_idx_lt _ _ _ Ei) as Hi. apply find_idx_Some in Ei as [(s0 & Hs0 & Hu0%negb_true_iff) _].
  rewrite Hr. pose proof Hh as (_ & _ & _ & Hc & _). set (a := block (Z.of_nat i)).
  assert (Ha : 0 < a /\ a < 2 ^ 32) by (unfold a, block; clia).
  assert (Hlen : (72 <= length out)%nat).
  { pose proof (f_equal length Hout) as Hlo. rewrite length_take, length_header_encode in Hlo by done. lia. }
  cbn -[module_load module_info]. rewrite (proj2 (Z.leb_gt n 0)), (proj2 (Z.ltb_ge n HEADER_SIZE)) by clia.
  rewrite !u32_id by clia. rewrite (module_load_valid _ _ _ _ h) by
    (done || lia || (rewrite mem_read_write_prefix by done; done)).
  destruct (find_idx _ (g_slots (d_mods st))) as [k|] eqn:Ek.
  2:{ destruct Hfm as (j & s & Hs & Hu). rewrite find_idx_None in Ek.
      specialize (Ek s (list_elem_of_lookup_2 _ _ _ Hs)). by rewrite Hu in Ek. }
  pose proof (find_idx_lt _ _ _ Ek) as Hk. apply find_idx_Some in Ek as [(sk & Hsk & Huk%negb_true_iff) _].
  rewrite (proj2 (Z.ltb_ge (Z.of_nat k) 0)) by lia. eexists i, (Z.of_nat k), _, s0, _.
  split; [reflexivity|]. split; [done|]. split; [done|]. split; [lia|].
  split; [unfold slot_at; by rewrite (lookup_geti _ _ _ Hsk)|].
  split; [reflexivity|]. cbn. rewrite u32_id by ulia. done.
Qed.

Lemma dylib_close_ok st (i : nat) s : wf st -> g_dylibs st !! i = Some s -> d_used s = true ->
  exists st', dylib_close st (d_handle s) = (DYLIB_OK, st') /\
    g_dylibs st' = puti (g_dylibs st) (Z.of_nat i) zero_dylib /\ g_next_handle st' = g_next_handle st /\
    g_slots (d_mods st') = puti (g_slots (d_mods st)) (d_mid s) zero_slot /\
    d_mem st' = mem_write (d_mem st) (block (Z.of_nat i)) (zeros (Z.to_nat DYLIB_MAX_FILE_SIZE)).
Proof.
  intros Hwf Hs Hu. unfold dylib_close. rewrite (find_handle_spec st i s) by done.
  rewrite (lookup_geti _ _ _ Hs). destruct Hwf as (_ & _ & _ & Hok). destruct (Hok i s Hs Hu) as (_ & Hm & Hin & _).
  unfold module_unload. rewrite (proj2 (Z.leb_gt _ _)) by (unfold MOD_MAX_MODULES; lia). rewrite Hin. cbn [negb].
  eexists. split; [reflexivity|]. done.
Qed.

(** Changing an unused library slot and an unused module slot does not change what the calls of
    the other handles do. *)
Lemma calls_frame st st' (i : nat) s0 x k sl h sym arg : wf st -> wf st' ->
  g_dylibs st !! i = Some s0 -> d_used s0 = false -> g_dylibs st' = puti (g_dylibs st) (Z.of_nat i) x ->
  0 <= k < 8 -> in_use (slot_at (d_mods st) k) = false -> g_slots (d_mods st') = puti (g_slots (d_mods st)) k sl ->
  (d_used x = true -> d_handle x <> h) -> dylib_call st' h sym arg = dylib_call st h sym arg.
Proof.
  intros Hwf Hwf' Hs0 Hu0 Ed Hk Hfree Es Hx. rewrite !dylib_call_spec, (lib_module_frame st st' i); try done.
  - intros j Hj. rewrite Ed. unfold puti. rewrite Nat2Z.id. by apply list_lookup_insert_ne.
  - intros t Ht Hut. congruence.
  - intros t Ht Hut. rewrite Ed in Ht. unfold puti in Ht.
    rewrite Nat2Z.id, list_lookup_insert_eq in Ht by (by eapply lookup_lt_Some). injection Ht as <-. by apply Hx.
  - intros j t _ Ht Hut. destruct Hwf as (_ & _ & _ & Hok). destruct (Hok j t Ht Hut) as (_ & Hb & Hin & _).
    unfold slot_at in *. rewrite Es. apply geti_puti_ne; [lia..|]. intros ->. congruence.
Qed.

(** The memory of the libraries that stay open. *)
Definition others_kept st st' (i : Z) : Prop :=
  forall j, 0 <= j < 4 -> j <> i -> 
    mem_read (d_mem st') (block j) (Z.to_nat DYLIB_MAX_FILE_SIZE) =
    mem_read (d_mem st) (block j) (Z.to_nat DYLIB_MAX_FILE_SIZE).

(** Opening a library whose file holds a valid module, while slots are free: dylib_open returns a
    new handle; calls of "fn<k>" through it jump to the k-th exported function of the code now in
    memory, other symbols are refused; every other handle resolves and calls exactly as before, and
    the code of the other libraries is untouched. Closing the handle undoes it for the callers. *)
Lemma dylib_open_isolated st path dname n out f h :
  0 < storage -> storage + 4 * 8192 <= 2 ^ 32 -> wf st -> g_next_handle st < 2 ^ 31 -> char_at path 0 <> 0 ->
  read_file (d_files st) path DYLIB_MAX_FILE_SIZE = (n, out, f) ->
  header_ok h -> take 72 out = header_encode h ->
  HEADER_SIZE + h_code_size h <= n <= Z.of_nat (length out) -> Z.of_nat (length out) <= DYLIB_MAX_FILE_SIZE ->
  (exists i s, g_dylibs st !! i = Some s /\ d_used s = false) ->
  (exists i s, g_slots (d_mods st) !! i = Some s /\ in_use s = false) ->
  let '(hd, st1) := dylib_open st path dname in
  let '(rc, st2) := dylib_close st1 hd in
  hd = g_next_handle st /\ wf st1 /\
  (exists i, others_kept st st1 i /\ mem_read (d_mem st1) (block i) (Z.to_nat n) = take (Z.to_nat n) out /\
     forall sym arg, dylib_call st1 hd sym arg =
       let id := dylib_symbol_to_fnid sym in
       if id <? 0 then CallErr id else if h_fn_count h <=? id then CallErr DYLIB_ERR_NOTFOUND
       else CallFn (u32 (block i + HEADER_SIZE + geti (h_fn_offsets h) id)) arg) /\
  (forall h' sym arg, h' <> hd -> dylib_call st1 h' sym arg = dylib_call st h' sym arg) /\
  rc = DYLIB_OK /\ wf st2 /\ (forall h' sym arg, dylib_call st2 h' sym arg = dylib_call st h' sym arg).
Proof.
  intros Hst0 Hst1 Hwf Hnx Hp Hr Hh Hout Hn Hlo Hfd Hfm.
  destruct (dylib_open_ok st path dname n out f h Hst0 Hst1 Hwf Hp Hr Hh Hout ltac:(clia) Hfd Hfm)
    as (i & k & s & s0 & st1 & -> & Hs0 & Hu0 & Hk & Hfree & Ed & Hu & Hhd & Hmid & En & Es & Em).
  pose proof Hwf as (Hl & Hls & Hn0 & Hok). rewrite i32_id by ulia.
  pose proof (lookup_lt_Some _ _ _ Hs0) as Hi.
  assert (Hwf1 : wf st1) by (by apply (wf_add st st1 i k s s0 (load_slot k (block (Z.of_nat i)) h))).
  assert (Hs : g_dylibs st1 !! i = Some s) by (rewrite Ed; unfold puti; rewrite Nat2Z.id; by apply list_lookup_insert_eq).
  destruct (dylib_close_ok st1 i s Hwf1 Hs Hu) as (st2 & Ec & Ed2 & En2 & Es2 & _).
  rewrite Hhd in Ec. rewrite Ec. rewrite Hmid, Es, puti_same in Es2. rewrite Ed, puti_same in Ed2.
  assert (Hwf2 : wf st2) by (apply (wf_remove st1 st2 i s Hwf1 Hs Hu); [by rewrite Ed2, Ed, puti_same|done|by rewrite Es2, Es, Hmid, puti_same]).
  split; [done|]. split; [done|]. split; [exists (Z.of_nat i); split; [|split]|].
  - intros j Hj Hne. rewrite Em. apply mem_read_write_other. unfold block. clia.
  - rewrite Em. apply mem_read_write_prefix. lia.
  - intros sym arg. rewrite dylib_call_spec by done. unfold lib_module. rewrite <- Hhd, (find_handle_spec st1 i s) by done.
    cbn. rewrite (lookup_geti _ _ _ Hs), Hmid. unfold slot_at. rewrite Es, geti_puti_eq by lia.
    cbn [fn_count load_slot base_addr]. destruct (Z.ltb_spec (dylib_symbol_to_fnid sym) 0); [done|].
    destruct (Z.leb_spec (h_fn_count h) (dylib_symbol_to_fnid sym)); [done|].
    rewrite load_slot_offset by (done || lia). f_equal. unfold u32. by rewrite Zplus_mod_idemp_l.
  - split; [|split; [done|split; [done|]]].
    + intros h' sym arg Hne. apply (calls_frame st st1 i s0 s k (load_slot k (block (Z.of_nat i)) h)); try done.
      intros _ <-. congruence.
    + intros h' sym arg. by apply (calls_frame st st2 i s0 zero_dylib k zero_slot).
Qed.
End dylib.

(** ** A library *)

Lemma dylib_init_wf {F} `{FileSource F} storage m registry (f : F) :
  wf (dylib_init storage m (module_init registry) f).
Proof.
  split; [done|]. split; [done|]. split; [done|]. intros i s Hs Hu. cbn in Hs.
  repeat (destruct i as [|i]; [injection Hs as <-; discriminate Hu|]). discriminate Hs.
Qed.

(** A file system with one file, whatever the path. *)
Definition demo_lib : bytes := header_encode demo_hdr ++ zeros 64.
#[export] Instance demo_source : FileSource unit := fun f _ _ => (136, demo_lib, f).
Definition demo_dylibs : Dylibs unit := dylib_init 65536 (fun _ => 0) (module_init true) tt.

Lemma dylib_open_isolated_witness : exists st1,
  dylib_open 65536 demo_dylibs (lit "/lib/math") [] = (1, st1) /\
  dylib_call st1 1 (lit "fn1") 7 = CallFn 65640 7.
Proof.
  pose proof (dylib_open_isolated 65536 demo_dylibs (lit "/lib/math") [] 136 demo_lib tt demo_hdr
    ltac:(lia) ltac:(lia) (dylib_init_wf _ _ _ _) ltac:(cbn; lia) ltac:(vm_compute; discriminate) eq_refl demo_hdr_ok
    ltac:(vm_compute; reflexivity) ltac:(split; vm_compute; congruence) ltac:(vm_compute; congruence)
    ltac:(exists 0%nat, zero_dylib; done) ltac:(exists 0%nat, zero_slot; done)) as Hs.
  destruct (dylib_open _ _ _ _) as [hd st1] eqn:Eo. destruct (dylib_close _ _ _) as [rc st2].
  destruct Hs as (-> & _ & (i & _ & _ & Hcall) & _). exists st1. split; [done|].
  pose proof (f_equal (fun r => dylib_call (snd r) 1 (lit "fn1") 7) Eo) as E. cbn [snd] in E. rewrite <- E.
  vm_compute. reflexivity.
Defined.

(** A library whose module was unloaded behind its back: its handle stays open, and reaches the
    module that takes the slot next. *)
Lemma dylib_call_reaches_reused_slot :
  let st1 := snd (dylib_open 65536 demo_dylibs (lit "/lib/math") []) in
  let '(rc, mods) := module_unload (d_mods st1) 0 in
  let '(id, mods) := module_load demo_mod_mem mods 4096 200 in
  rc = MOD_OK /\ id = 0 /\ dylib_call (st1 <| d_mods := mods |>) 1 (lit "fn1") 7 = CallFn 4200 7.
Proof. vm_compute. done. Qed.

(** 2^32 + 1 as a symbol number is function 1. *)
Lemma symbol_number_wraps : dylib_symbol_to_fnid (lit "fn4294967297") = 1.
Proof. by vm_compute. Qed.
