(* ===== verification/Inet.v ===== *)
(** Byte order and the Internet checksum, as the network files compute them:
    the host runs little-endian, packets are big-endian, so a header field is
    stored as the little-endian encoding of its swapped value.  The loops
    here are those of kernel/net/tcp.c; the IP layer runs the same ones. *)

From S2P Require Import Prelude.

(** [kernel/net/tcp.c] t_htons *)
Definition t_htons (h : Z) : Z := u16 (Z.lor (Z.shiftr h 8) (Z.shiftl h 8)).
(** [kernel/net/tcp.c] t_htonl *)
Definition t_htonl (h : Z) : Z :=
  Z.lor (Z.lor (Z.lor (Z.land (Z.shiftr h 24) 0xFF) (Z.land (Z.shiftr h 8) 0xFF00))
    (Z.land (u32 (Z.shiftl h 8)) 0xFF0000)) (u32 (Z.shiftl h 24)).
Definition t_ntohs := t_htons.
Definition t_ntohl := t_htonl.

(** [kernel/net/tcp.c:56-61] tcp_calc_checksum *)
Fixpoint sum_words (p : bytes) (sum : Z) : Z :=
  match p with
  | a :: b :: p => sum_words p (u32 (sum + Z.lor (Z.shiftl a 8) b))
  | [a] => u32 (sum + Z.shiftl a 8)
  | [] => sum
  end.
(** [while (sum >> 16) sum = (sum & 0xFFFF) + (sum >> 16)]; three rounds are
    enough for every 32-bit sum ([fold_sum_spec]).
    [kernel/net/tcp.c:62-62] tcp_calc_checksum *)
Fixpoint fold_sum (fuel : nat) (sum : Z) : Z :=
  match fuel with
  | O => sum
  | S fuel => if Z.shiftr sum 16 =? 0 then sum
              else fold_sum fuel (u32 (Z.land sum 0xFFFF + Z.shiftr sum 16))
  end.

(** ** Arithmetic of the bit operations *)

Lemma land_byte x n : 0 <= n -> Z.land x (Z.shiftl 255 n) = (x / 2 ^ n) mod 256 * 2 ^ n.
Proof.
  intros Hn. change 256 with (2 ^ 8). rewrite <- Z.land_ones, <- Z.shiftl_mul_pow2, <- Z.shiftr_div_pow2 by lia.
  change (Z.ones 8) with 255. apply Z.bits_inj'. intros m Hm.
  rewrite Z.land_spec, !Z.shiftl_spec, Z.land_spec by lia.
  destruct (Z.ltb_spec m n).
  - rewrite !(Z.testbit_neg_r _ (m - n)) by lia. by rewrite !andb_false_r.
  - rewrite Z.shiftr_spec by lia. by replace (m - n + n) with m by lia.
Qed.

(** The swapped halves, written with the bytes. *)
Lemma t_htons_eq h : is_u16 h -> t_htons h = h mod 256 * 256 + h / 256.
Proof.
  intros Hh. unfold t_htons. rewrite Z.shiftr_div_pow2 by lia. change (2 ^ 8) with 256.
  rewrite lor_shiftl by dlia. unfold u16. dlia.
Qed.

Lemma t_htonl_eq h : is_u32 h ->
  t_htonl h = h / 2 ^ 24 + h / 2 ^ 16 mod 256 * 2 ^ 8 + h / 2 ^ 8 mod 256 * 2 ^ 16 + h mod 256 * 2 ^ 24.
Proof.
  intros Hh. unfold t_htonl.
  change 0xFF with (Z.shiftl 255 0). change 0xFF00 with (Z.shiftl 255 8).
  change 0xFF0000 with (Z.shiftl 255 16). rewrite !land_byte by lia.
  rewrite !Z.shiftr_div_pow2, !Z.shiftl_mul_pow2 by lia. unfold u32.
  rewrite <- (Z.shiftl_mul_pow2 (_ mod 256) 8) by lia.
  rewrite <- (Z.shiftl_mul_pow2 (_ mod 256) 16) by lia.
  assert (E : (h * 2 ^ 24) mod 2 ^ 32 = Z.shiftl (h mod 256) 24).
  { rewrite Z.shiftl_mul_pow2 by lia. dlia. }
  rewrite E. change (2 ^ 0) with 1.
  rewrite (lor_shiftl _ (_ mod 256) 8) by dlia.
  rewrite (lor_shiftl _ (_ mod 256) 16) by dlia.
  rewrite (lor_shiftl _ (_ mod 256) 24) by dlia. dlia.
Qed.

(** The bytes in reverse order. *)
Lemma t_htonl_bytes b0 b1 b2 b3 : is_u8 b0 -> is_u8 b1 -> is_u8 b2 -> is_u8 b3 ->
  t_htonl (b0 + 256 * b1 + 65536 * b2 + 16777216 * b3) =
  b3 + 256 * b2 + 65536 * b1 + 16777216 * b0.
Proof.
  intros H0 H1 H2 H3. rewrite t_htonl_eq by ulia. set (h := _ + 16777216 * b3).
  assert (E3 : h / 2 ^ 24 = b3) by (unfold h; dlia).
  assert (E2 : h / 2 ^ 16 mod 256 = b2) by (unfold h; dlia).
  assert (E1 : h / 2 ^ 8 mod 256 = b1) by (unfold h; dlia).
  assert (E0 : h mod 256 = b0) by (unfold h; dlia).
  rewrite E0, E1, E2, E3. ulia.
Qed.

Lemma u32_bytes h : is_u32 h -> exists b0 b1 b2 b3,
  is_u8 b0 /\ is_u8 b1 /\ is_u8 b2 /\ is_u8 b3 /\
  h = b0 + 256 * b1 + 65536 * b2 + 16777216 * b3.
Proof.
  intros Hh. exists (h mod 256), (h / 256 mod 256), (h / 65536 mod 256), (h / 16777216).
  repeat split; dlia.
Qed.

Lemma t_htons_is h : is_u16 (t_htons h).
Proof. apply u16_is. Qed.
Lemma t_htonl_is h : is_u32 h -> is_u32 (t_htonl h).
Proof. intros Hh. rewrite t_htonl_eq by done. dlia. Qed.
#[export] Hint Resolve t_htons_is t_htonl_is : vos.

(** Swapping twice. *)
Lemma t_ntohs_htons h : is_u16 h -> t_ntohs (t_htons h) = h.
Proof. intros Hh. unfold t_ntohs. rewrite !t_htons_eq by auto with vos. dlia. Qed.
Lemma t_ntohl_htonl h : is_u32 h -> t_ntohl (t_htonl h) = h.
Proof.
  intros (b0 & b1 & b2 & b3 & H0 & H1 & H2 & H3 & ->)%u32_bytes.
  unfold t_ntohl. by rewrite !t_htonl_bytes.
Qed.

(** A swapped half is stored high byte first. *)
Lemma le_enc_htons h : is_u16 h -> le_enc 2 (t_htons h) = [h / 256; h mod 256].
Proof.
  intros Hh. rewrite t_htons_eq by done. unfold le_enc. f_equal; [dlia|]. f_equal. dlia.
Qed.

(** ** The checksum *)

Fixpoint word_sum (p : bytes) : Z :=
  match p with
  | a :: b :: p => 256 * a + b + word_sum p
  | [a] => 256 * a
  | [] => 0
  end.

Lemma word_sum_pair a b p : word_sum (a :: b :: p) = 256 * a + b + word_sum p.
Proof. done. Qed.

(** Induction two bytes at a time. *)
Lemma pair_ind (P : bytes -> Prop) :
  P [] -> (forall a, P [a]) -> (forall a b p, P p -> P (a :: b :: p)) -> forall p, P p.
Proof.
  intros H0 H1 H2. fix IH 1. intros [|a [|b p]]; [done|done|]. apply H2, IH.
Qed.

Lemma word_sum_bound p : bytes_ok p -> 0 <= word_sum p <= 65535 * Z.of_nat (length p).
Proof.
  induction p as [|a|a b p IH] using pair_ind; intros Hp; [simpl; lia| |].
  - inversion_clear Hp as [|? ? Ha]. simpl. ulia.
  - inversion_clear Hp as [|? ? Ha Hp']. inversion_clear Hp' as [|? ? Hb Hp].
    rewrite word_sum_pair. cbn [length]. specialize (IH Hp). ulia.
Qed.

Lemma word_sum_app p q : Nat.even (length p) = true -> word_sum (p ++ q) = word_sum p + word_sum q.
Proof.
  induction p as [|a|a b p IH] using pair_ind; intros He; [done|done|].
  simpl app. rewrite !word_sum_pair, IH by done. lia.
Qed.

Lemma sum_words_spec p : forall s, bytes_ok p -> 0 <= s -> s + word_sum p < 2 ^ 32 ->
  sum_words p s = s + word_sum p.
Proof.
  induction p as [|a|a b p IH] using pair_ind; intros s Hp Hs Hb; [simpl; lia| |].
  - inversion_clear Hp as [|? ? Ha]. cbn [sum_words word_sum] in *.
    rewrite Z.shiftl_mul_pow2 by lia. rewrite u32_id; ulia.
  - inversion_clear Hp as [|? ? Ha Hp']. inversion_clear Hp' as [|? ? Hb' Hp].
    cbn [sum_words]. rewrite word_sum_pair in *. pose proof (word_sum_bound p Hp).
    rewrite (Z.lor_comm (Z.shiftl a 8)), lor_shiftl by ulia.
    rewrite u32_id by ulia. rewrite IH; [lia|done|ulia|ulia].
Qed.

(** Folding reduces modulo 65535 and ends within three rounds. *)
Lemma fold_step s : 0 <= s -> Z.land s 0xFFFF + Z.shiftr s 16 = s - 65535 * (s / 65536).
Proof.
  intros Hs. change (Z.land s 0xFFFF) with (Z.land s (Z.ones 16)). rewrite Z.land_ones, Z.shiftr_div_pow2 by lia.
  change (2 ^ 16) with 65536. dlia.
Qed.

Lemma fold_sum_step fuel s : is_u32 s ->
  fold_sum (S fuel) s = if s <? 65536 then s else fold_sum fuel (s - 65535 * (s / 65536)).
Proof.
  intros Hs. cbn [fold_sum]. rewrite fold_step by dlia. rewrite Z.shiftr_div_pow2 by lia.
  change (2 ^ 16) with 65536. destruct (Z.ltb_spec s 65536).
  - rewrite Z.div_small by dlia. done.
  - destruct (Z.eqb_spec (s / 65536) 0); [dlia|]. rewrite u32_id by dlia. done.
Qed.

Lemma fold_sum_spec s : is_u32 s ->
  0 <= fold_sum 3 s <= 65535 /\ (fold_sum 3 s - s) mod 65535 = 0 /\ (0 < s -> 0 < fold_sum 3 s).
Proof.
  intros Hs. rewrite fold_sum_step by done. destruct (Z.ltb_spec s 65536) as [|H1].
  { rewrite Z.sub_diag. split; [dlia|]. done. }
  set (s1 := s - 65535 * (s / 65536)). assert (Hs1 : 0 < s1 < 131071) by (unfold s1; dlia).
  rewrite fold_sum_step by dlia. destruct (Z.ltb_spec s1 65536) as [|H2].
  { split; [lia|]. split; [|lia]. unfold s1. dlia. }
  set (s2 := s1 - 65535 * (s1 / 65536)). assert (Hs2 : 0 < s2 < 65536) by (unfold s2; dlia).
  rewrite fold_sum_step by dlia. destruct (Z.ltb_spec s2 65536); [|lia].
  split; [lia|]. split; [|lia]. unfold s2, s1. dlia.
Qed.

Lemma u16_lnot r : 0 <= r <= 65535 -> u16 (Z.lnot r) = 65535 - r.
Proof. intros Hr. unfold u16, Z.lnot. dlia. Qed.

(** The complement of the folded sum, added to the data, folds to all ones. *)
Lemma checksum_verifies s : 0 < s -> s < 2 ^ 31 ->
  fold_sum 3 (s + (65535 - fold_sum 3 s)) = 65535.
Proof.
  intros H1 H2. destruct (fold_sum_spec s) as (A1 & A2 & A3); [dlia|].
  set (r := fold_sum 3 s) in *.
  destruct (fold_sum_spec (s + (65535 - r))) as (B1 & B2 & B3); [dlia|].
  set (q := fold_sum 3 (s + (65535 - r))) in *.
  specialize (A3 ltac:(lia)). specialize (B3 ltac:(lia)). dlia.
Qed.
