(* ===== verification/Tcp.v ===== *)
(** TCP (kernel/net/tcp.c, include/tcp.h): the connection table, the state
    machine, the sliding-window sender and the receiver with one buffered
    out-of-order segment.

    [Tcp] is the static state of tcp.c; a pointer to a control block is its
    index.  The IP layer below, registered by tcp_set_output, is a parameter
    ([ip_output] gives its return code); every segment handed to it is
    appended to [wire].  get_kernel_tick() is the field [now]: the clock does
    not advance inside a call. *)

From stdpp Require Import strings.
From S2P Require Import Prelude Inet.

(** [include/tcp.h] constants *)
Definition TCP_MAX_SOCKETS := 16.
Definition TCP_RX_BUF_SIZE := 1024.
Definition TCP_TX_BUF_SIZE := 2048.
Definition TCP_MAX_SEG := 1024.
(** [kernel/net/tcp.c] constants *)
Definition TCP_FLAG_FIN := 0x01.
Definition TCP_FLAG_SYN := 0x02.
Definition TCP_FLAG_RST := 0x04.
Definition TCP_FLAG_PSH := 0x08.
Definition TCP_FLAG_ACK := 0x10.
#[export] Hint Unfold TCP_MAX_SOCKETS TCP_RX_BUF_SIZE TCP_TX_BUF_SIZE TCP_MAX_SEG : consts.

(** [include/tcp.h] TcpState *)
Inductive TcpState :=
  | TCP_CLOSED | TCP_LISTEN | TCP_SYN_SENT | TCP_SYN_RECEIVED | TCP_ESTABLISHED
  | TCP_FIN_WAIT_1 | TCP_FIN_WAIT_2 | TCP_CLOSE_WAIT | TCP_CLOSING | TCP_LAST_ACK
  | TCP_TIME_WAIT.
#[export] Instance TcpState_eq_dec : EqDecision TcpState.
Proof. solve_decision. Defined.

(** [include/tcp.h] TcpControlBlock *)
Record TcpControlBlock := mkTcb {
  state : TcpState; local_ip : Z; local_port : Z; remote_ip : Z; remote_port : Z;
  seq_num : Z; ack_num : Z; window : Z; remote_window : Z; retransmit_count : Z;
  last_activity_tick : Z; from_listener : Z; accepted : Z; rx_buf : bytes; rx_len : Z;
  snd_una : Z; tx_start : Z; rto_tick : Z; tx_buf : bytes;
  ooo_valid : Z; ooo_seq : Z; ooo_len : Z; ooo_buf : bytes }.
#[export] Instance eta_tcb : Eta TcpControlBlock := fun r =>
  mkTcb (state r) (local_ip r) (local_port r) (remote_ip r) (remote_port r) (seq_num r)
    (ack_num r) (window r) (remote_window r) (retransmit_count r) (last_activity_tick r)
    (from_listener r) (accepted r) (rx_buf r) (rx_len r) (snd_una r) (tx_start r)
    (rto_tick r) (tx_buf r) (ooo_valid r) (ooo_seq r) (ooo_len r) (ooo_buf r).

Definition zero_tcb : TcpControlBlock :=
  mkTcb TCP_CLOSED 0 0 0 0 0 0 0 0 0 0 0 0 (zeros (Z.to_nat TCP_RX_BUF_SIZE)) 0 0 0 0
    (zeros (Z.to_nat TCP_TX_BUF_SIZE)) 0 0 0 (zeros (Z.to_nat TCP_MAX_SEG)).
#[export] Instance inhabited_tcb : Inhabited TcpControlBlock := populate zero_tcb.

(** [kernel/net/tcp.c:11-15] g_tcbs *)
Record Tcp := mkTcp {
  g_tcbs : list TcpControlBlock; output_set : bool; g_local_ip : Z; g_next_ephemeral : Z;
  now : Z; wire : list (Z * bytes) }.
#[export] Instance eta_Tcp : Eta Tcp := fun r =>
  mkTcp (g_tcbs r) (output_set r) (g_local_ip r) (g_next_ephemeral r) (now r) (wire r).

Definition tcb (st : Tcp) (i : Z) : TcpControlBlock := geti (g_tcbs st) i.
Definition set_tcb (st : Tcp) (i : Z) (t : TcpControlBlock) : Tcp :=
  st <| g_tcbs := puti (g_tcbs st) i t |>.

(** [kernel/net/tcp.c] tcp_calc_checksum *)
Definition tcp_calc_checksum (packet : bytes) (src_ip dst_ip : Z) : Z :=
  let sum := u32 (Z.land (Z.shiftr src_ip 16) 0xFFFF) in
  let sum := u32 (sum + Z.land src_ip 0xFFFF) in
  let sum := u32 (sum + Z.land (Z.shiftr dst_ip 16) 0xFFFF) in
  let sum := u32 (sum + Z.land dst_ip 0xFFFF) in
  let sum := u32 (sum + 6) in
  let sum := u32 (sum + u32 (Z.of_nat (length packet))) in
  let sum := sum_words packet sum in
  let sum := fold_sum 3 sum in
  t_htons (u16 (Z.lnot sum)).

(** [kernel/net/tcp.c] TcpHeader *)
Record TcpHeader := mkTcpHeader {
  h_src_port : Z; h_dst_port : Z; h_seq_num : Z; h_ack_num : Z; h_data_offset : Z;
  h_flags : Z; h_window : Z; h_checksum : Z; h_urgent_ptr : Z }.
Definition header_bytes (h : TcpHeader) : bytes :=
  le_enc 2 (h_src_port h) ++ le_enc 2 (h_dst_port h) ++ le_enc 4 (h_seq_num h) ++
  le_enc 4 (h_ack_num h) ++ le_enc 1 (h_data_offset h) ++ le_enc 1 (h_flags h) ++
  le_enc 2 (h_window h) ++ le_enc 2 (h_checksum h) ++ le_enc 2 (h_urgent_ptr h).
Definition header_of (p : bytes) : TcpHeader :=
  mkTcpHeader (get_le p 0 2) (get_le p 2 2) (get_le p 4 4) (get_le p 8 4) (get_le p 12 1)
    (get_le p 13 1) (get_le p 14 2) (get_le p 16 2) (get_le p 18 2).
Definition TCP_HEADER : Z := 20.

Definition has (flags f : Z) : bool := negb (Z.land flags f =? 0).

Section tcp.
Context (ip_output : Z -> bytes -> Z).

(** The segment built by tcp_output_seq.
    [kernel/net/tcp.c:73-87] tcp_output_seq *)
Definition build_segment (st : Tcp) (t : TcpControlBlock) (flags : Z) (payload : bytes)
    (len seq : Z) : bytes :=
  let h c := mkTcpHeader (t_htons (local_port t)) (t_htons (remote_port t)) (t_htonl seq)
    (if has flags TCP_FLAG_ACK then t_htonl (ack_num t) else 0) (Z.shiftl 5 4) flags
    (t_htons (window t)) c 0 in
  let data := take (Z.to_nat len) payload in
  let cks := tcp_calc_checksum (header_bytes (h 0) ++ data) (g_local_ip st) (remote_ip t) in
  header_bytes (h cks) ++ data.

(** [kernel/net/tcp.c] tcp_output_seq *)
Definition tcp_output_seq (st : Tcp) (i flags : Z) (payload : bytes) (len seq : Z) : Z * Tcp :=
  if negb (output_set st) || (len <? 0) || (TCP_MAX_SEG <? len) then (-1, st) else
  let st := set_tcb st i (tcb st i <| window := u16 (TCP_RX_BUF_SIZE - rx_len (tcb st i)) |>) in
  let seg := build_segment st (tcb st i) flags payload len seq in
  (ip_output (remote_ip (tcb st i)) seg,
   st <| wire := wire st ++ [(remote_ip (tcb st i), seg)] |>).

(** [kernel/net/tcp.c] tcp_output *)
Definition tcp_output (st : Tcp) (i flags : Z) (payload : bytes) (len : Z) : Tcp :=
  (tcp_output_seq st i flags payload len (seq_num (tcb st i))).2.

(** [kernel/net/tcp.c] tcp_retransmit_head *)
Definition tcp_retransmit_head (st : Tcp) (i : Z) : Tcp :=
  let t := tcb st i in
  let inflight := u32 (seq_num t - snd_una t) in
  let n := if inflight <? TCP_MAX_SEG then inflight else TCP_MAX_SEG in
  let lin := ring_view (tx_buf t) TCP_TX_BUF_SIZE (tx_start t) (Z.to_nat n) in
  (tcp_output_seq st i (Z.lor TCP_FLAG_PSH TCP_FLAG_ACK) lin n (snd_una t)).2.

(** [kernel/net/tcp.c] tcp_ack_advance *)
Definition tcp_ack_advance (now : Z) (t : TcpControlBlock) (ack wnd : Z) : TcpControlBlock :=
  let newly := u32 (ack - snd_una t) in
  let inflight := u32 (seq_num t - snd_una t) in
  let t :=
    if (0 <? newly) && (newly <=? inflight) then
      t <| snd_una := ack |> <| tx_start := u16 (u32 (tx_start t + newly) mod TCP_TX_BUF_SIZE) |>
        <| retransmit_count := 0 |> <| rto_tick := now |>
    else t in
  t <| remote_window := wnd |>.

(** [kernel/net/tcp.c] tcp_pick_isn *)
Definition tcp_pick_isn (st : Tcp) (sock : Z) : Z :=
  u32 (u32 (Z.shiftl (now st) 6) + u32 (sock * 64) + 1).

Definition touch (st : Tcp) (i : Z) : Tcp :=
  set_tcb st i (tcb st i <| last_activity_tick := now st |>).

(** [kernel/net/tcp.c] tcp_send_syn *)
Definition tcp_send_syn (st : Tcp) (sock : Z) : Tcp :=
  touch (tcp_output st sock TCP_FLAG_SYN [] 0) sock.
(** [kernel/net/tcp.c] tcp_send_synack *)
Definition tcp_send_synack (st : Tcp) (sock : Z) : Tcp :=
  touch (tcp_output st sock (Z.lor TCP_FLAG_SYN TCP_FLAG_ACK) [] 0) sock.
(** [kernel/net/tcp.c] tcp_send_ack *)
Definition tcp_send_ack (st : Tcp) (sock : Z) : Tcp := tcp_output st sock TCP_FLAG_ACK [] 0.

(** [kernel/net/tcp.c] tcp_init *)
Definition tcp_init (st : Tcp) : Tcp :=
  st <| g_tcbs := replicate (Z.to_nat TCP_MAX_SOCKETS) zero_tcb |>.
(** [kernel/net/tcp.c] tcp_set_output *)
Definition tcp_set_output (st : Tcp) (fn_set : bool) (ip : Z) : Tcp :=
  st <| output_set := fn_set |> <| g_local_ip := ip |>.

Definition is_state (s : TcpState) (t : TcpControlBlock) : bool := bool_decide (state t = s).
Definition in_states (l : list TcpState) (t : TcpControlBlock) : bool := bool_decide (state t ∈ l).

(** [kernel/net/tcp.c] tcp_listen *)
Definition tcp_listen (st : Tcp) (port : Z) : Z * Tcp :=
  match find_idx (is_state TCP_CLOSED) (g_tcbs st) with
  | None => (-1, st)
  | Some n =>
      let i := Z.of_nat n in
      (i, set_tcb st i (zero_tcb <| state := TCP_LISTEN |> <| local_ip := g_local_ip st |>
            <| local_port := port |> <| window := TCP_RX_BUF_SIZE |>))
  end.

(** [kernel/net/tcp.c] tcp_connect *)
Definition tcp_connect (st : Tcp) (ip port : Z) : Z * Tcp :=
  match find_idx (is_state TCP_CLOSED) (g_tcbs st) with
  | None => (-1, st)
  | Some n =>
      let i := Z.of_nat n in
      let eph := g_next_ephemeral st in
      let next := u16 (eph + 1) in
      let st := st <| g_next_ephemeral := if next <? 49152 then 49152 else next |> in
      let st := set_tcb st i (zero_tcb <| state := TCP_SYN_SENT |> <| local_ip := g_local_ip st |>
        <| local_port := eph |> <| remote_ip := ip |> <| remote_port := port |>
        <| seq_num := tcp_pick_isn st i |> <| window := TCP_RX_BUF_SIZE |>) in
      (i, tcp_send_syn st i)
  end.

(** [kernel/net/tcp.c:205-206] tcp_send *)
Fixpoint ring_store (buf : bytes) (w : Z) (s : bytes) : bytes :=
  match s with
  | [] => buf
  | c :: s => ring_store (puti buf (w mod TCP_TX_BUF_SIZE) c) (w + 1) s
  end.

(** [kernel/net/tcp.c:200-202] tcp_send *)
Definition clip_len (len allow space : Z) : Z :=
  let len := if allow <? len then allow else len in
  let len := if space <? len then space else len in
  if TCP_MAX_SEG <? len then TCP_MAX_SEG else len.

(** [kernel/net/tcp.c] tcp_send *)
Definition tcp_send (st : Tcp) (sock : Z) (buf : bytes) (len : Z) : Z * Tcp :=
  if (sock <? 0) || (TCP_MAX_SOCKETS <=? sock) then (-1, st) else
  let t := tcb st sock in
  if negb (in_states [TCP_ESTABLISHED; TCP_CLOSE_WAIT] t) then (-1, st) else
  if len <=? 0 then (0, st) else
  let inflight := u32 (seq_num t - snd_una t) in
  let space := TCP_TX_BUF_SIZE - i32 inflight in
  let allow := remote_window t - i32 inflight in
  if (allow <=? 0) || (space <=? 0) then (0, st) else
  let len := clip_len len allow space in
  let w := u16 (u32 (tx_start t + inflight) mod TCP_TX_BUF_SIZE) in
  let st := set_tcb st sock (t <| tx_buf := ring_store (tx_buf t) w (read_n buf (Z.to_nat len)) |>) in
  let st := tcp_output st sock (Z.lor TCP_FLAG_PSH TCP_FLAG_ACK) buf len in
  let t := tcb st sock in
  (len, set_tcb st sock (t <| seq_num := u32 (seq_num t + len) |> <| rto_tick := now st |>)).

Definition receiving : list TcpState := [TCP_ESTABLISHED; TCP_FIN_WAIT_1; TCP_FIN_WAIT_2].

(** The first [n] bytes leave the receive buffer, the rest moves down.
    [kernel/net/tcp.c:225-227] tcp_recv *)
Definition rx_take (t : TcpControlBlock) (n : Z) : bytes * TcpControlBlock :=
  let out := read_n (rx_buf t) (Z.to_nat n) in
  let rest := get_bytes (rx_buf t) (Z.to_nat n) (Z.to_nat (rx_len t - n)) in
  (out, t <| rx_buf := blit (rx_buf t) 0 rest |> <| rx_len := u16 (rx_len t - u16 n) |>).

(** Code, the bytes stored in the caller's buffer, state.
    [kernel/net/tcp.c] tcp_recv *)
Definition tcp_recv (st : Tcp) (sock maxlen : Z) : Z * bytes * Tcp :=
  if (sock <? 0) || (TCP_MAX_SOCKETS <=? sock) || (maxlen <? 0) then (-1, [], st) else
  let t := tcb st sock in
  if rx_len t =? 0 then (if in_states receiving t then 0 else -1, [], st) else
  let n := if rx_len t <? maxlen then rx_len t else maxlen in
  let was_full := TCP_RX_BUF_SIZE - rx_len t <? TCP_MAX_SEG in
  let '(out, t) := rx_take t n in
  let st := set_tcb st sock t in
  (n, out, if was_full && (0 <? n) && in_states receiving t then tcp_send_ack st sock else st).

(** [kernel/net/tcp.c] tcp_close *)
Definition tcp_close (st : Tcp) (sock : Z) : Z * Tcp :=
  if (sock <? 0) || (TCP_MAX_SOCKETS <=? sock) then (-1, st) else
  let fin st s :=
    let st := tcp_output st sock (Z.lor TCP_FLAG_FIN TCP_FLAG_ACK) [] 0 in
    set_tcb st sock (tcb st sock <| state := s |> <| last_activity_tick := now st |>) in
  (0, match state (tcb st sock) with
      | TCP_ESTABLISHED | TCP_SYN_RECEIVED => fin st TCP_FIN_WAIT_1
      | TCP_CLOSE_WAIT => fin st TCP_LAST_ACK
      | _ => set_tcb st sock (tcb st sock <| state := TCP_CLOSED |>)
      end).

(** One control block in tcp_tick.
    [kernel/net/tcp.c:262-298] tcp_tick *)
Definition tick_one (st : Tcp) (i : Z) : Tcp :=
  let t := tcb st i in
  match state t with
  | TCP_SYN_SENT | TCP_SYN_RECEIVED =>
      if 120 <? u32 (now st - last_activity_tick t) then
        if retransmit_count t <? 5 then
          let st := if is_state TCP_SYN_SENT t then tcp_send_syn st i else tcp_send_synack st i in
          set_tcb st i (tcb st i <| retransmit_count := u8 (retransmit_count (tcb st i) + 1) |>
                                 <| last_activity_tick := now st |>)
        else set_tcb st i (t <| state := TCP_CLOSED |>)
      else st
  | TCP_ESTABLISHED | TCP_CLOSE_WAIT =>
      let inflight := u32 (seq_num t - snd_una t) in
      if 0 <? inflight then
        let shift := if retransmit_count t <? 4 then retransmit_count t else 4 in
        if u32 (Z.shiftl 120 shift) <? u32 (now st - rto_tick t) then
          if retransmit_count t <? 8 then
            let st := tcp_retransmit_head st i in
            set_tcb st i (tcb st i <| retransmit_count := u8 (retransmit_count (tcb st i) + 1) |>
                                   <| rto_tick := now st |>)
          else set_tcb st i (t <| state := TCP_CLOSED |>)
        else st
      else st
  | TCP_FIN_WAIT_1 | TCP_FIN_WAIT_2 | TCP_LAST_ACK | TCP_CLOSING | TCP_TIME_WAIT =>
      if 1200 <? u32 (now st - last_activity_tick t)
      then set_tcb st i (t <| state := TCP_CLOSED |>) else st
  | _ => st
  end.
Fixpoint tick_loop (n : nat) (i : Z) (st : Tcp) : Tcp :=
  match n with O => st | S n => tick_loop n (i + 1) (tick_one st i) end.
(** [kernel/net/tcp.c] tcp_tick *)
Definition tcp_tick (st : Tcp) : Tcp := tick_loop (Z.to_nat TCP_MAX_SOCKETS) 0 st.

(** Storing at the end of the receive buffer as much as fits.
    [kernel/net/tcp.c:363-368] tcp_handle_segment *)
Definition rx_store (t : TcpControlBlock) (data : bytes) (dlen : Z) : TcpControlBlock :=
  let space := TCP_RX_BUF_SIZE - rx_len t in
  let store := if dlen <? space then dlen else space in
  t <| rx_buf := blit (rx_buf t) (Z.to_nat (rx_len t)) (take (Z.to_nat store) data) |>
    <| rx_len := u16 (rx_len t + u16 store) |> <| ack_num := u32 (ack_num t + u32 store) |>.

(** The data of a segment in ESTABLISHED.
    [kernel/net/tcp.c:361-391] tcp_handle_segment *)
Definition rx_data (t : TcpControlBlock) (seq : Z) (data : bytes) : TcpControlBlock :=
  let dlen := Z.of_nat (length data) in
  if seq =? ack_num t then
    let t := rx_store t data dlen in
    if negb (ooo_valid t =? 0) && (ooo_seq t =? ack_num t)
    then rx_store t (ooo_buf t) (ooo_len t) <| ooo_valid := 0 |> else t
  else if (ack_num t <? seq) && (ooo_valid t =? 0) then
    let store := if dlen <? TCP_MAX_SEG then dlen else TCP_MAX_SEG in
    t <| ooo_buf := blit (ooo_buf t) 0 (take (Z.to_nat store) data) |> <| ooo_seq := seq |>
      <| ooo_len := u16 store |> <| ooo_valid := 1 |>
  else t.

(** [kernel/net/tcp.c:357-405] tcp_handle_segment *)
Definition handle_established (st : Tcp) (i seq ack flags wnd : Z) (data : bytes) : Tcp :=
  let t := tcb st i in
  let t := if has flags TCP_FLAG_ACK then tcp_ack_advance (now st) t ack wnd else t in
  let st := set_tcb st i t in
  let dlen := Z.of_nat (length data) in
  let st := if 0 <? dlen then tcp_send_ack (set_tcb st i (rx_data t seq data)) i else st in
  if has flags TCP_FLAG_FIN && (u32 (seq + u32 dlen) =? ack_num (tcb st i)) then
    let st := set_tcb st i (tcb st i <| ack_num := u32 (ack_num (tcb st i) + 1) |>) in
    let st := tcp_send_ack st i in
    set_tcb st i (tcb st i <| state := TCP_CLOSE_WAIT |>)
  else st.

(** [kernel/net/tcp.c] tcp_handle_segment *)
Definition tcp_handle_segment (st : Tcp) (i : Z) (hdr : TcpHeader) (data : bytes) : Tcp :=
  let t := tcb st i in
  let seq := t_ntohl (h_seq_num hdr) in
  let ack := t_ntohl (h_ack_num hdr) in
  let flags := h_flags hdr in
  let wnd := t_ntohs (h_window hdr) in
  if has flags TCP_FLAG_RST then set_tcb st i (t <| state := TCP_CLOSED |>) else
  match state t with
  | TCP_SYN_SENT =>
      let sa := Z.lor TCP_FLAG_SYN TCP_FLAG_ACK in
      if (Z.land flags sa =? sa) && (ack =? u32 (seq_num t + 1)) then
        tcp_send_ack (set_tcb st i (t <| seq_num := u32 (seq_num t + 1) |>
          <| ack_num := u32 (seq + 1) |> <| remote_window := wnd |>
          <| snd_una := u32 (seq_num t + 1) |> <| tx_start := 0 |> <| rto_tick := now st |>
          <| state := TCP_ESTABLISHED |>)) i
      else st
  | TCP_SYN_RECEIVED =>
      if has flags TCP_FLAG_ACK && (ack =? u32 (seq_num t + 1)) then
        set_tcb st i (t <| seq_num := u32 (seq_num t + 1) |> <| remote_window := wnd |>
          <| snd_una := u32 (seq_num t + 1) |> <| tx_start := 0 |> <| rto_tick := now st |>
          <| state := TCP_ESTABLISHED |>)
      else st
  | TCP_ESTABLISHED => handle_established st i seq ack flags wnd data
  | TCP_CLOSE_WAIT =>
      if has flags TCP_FLAG_ACK then set_tcb st i (tcp_ack_advance (now st) t ack wnd) else st
  | TCP_FIN_WAIT_1 =>
      let t := if has flags TCP_FLAG_ACK && (ack =? u32 (seq_num t + 1))
               then t <| seq_num := u32 (seq_num t + 1) |> <| state := TCP_FIN_WAIT_2 |> else t in
      let st := set_tcb st i t in
      if has flags TCP_FLAG_FIN then
        let st := tcp_send_ack (set_tcb st i (t <| ack_num := u32 (seq + 1) |>)) i in
        let t := tcb st i in
        set_tcb st i (t <| state := if is_state TCP_FIN_WAIT_2 t then TCP_CLOSED else TCP_CLOSING |>
                        <| last_activity_tick := now st |>)
      else st
  | TCP_FIN_WAIT_2 =>
      if has flags TCP_FLAG_FIN then
        let st := tcp_send_ack (set_tcb st i (t <| ack_num := u32 (seq + 1) |>)) i in
        set_tcb st i (tcb st i <| state := TCP_CLOSED |>)
      else st
  | TCP_CLOSING | TCP_LAST_ACK =>
      if has flags TCP_FLAG_ACK then set_tcb st i (t <| state := TCP_CLOSED |>) else st
  | _ => st
  end.

(** The 4-tuple match of pass 1. *)
Definition connected_to (sport dport src_ip : Z) (t : TcpControlBlock) : bool :=
  negb (is_state TCP_CLOSED t) && negb (is_state TCP_LISTEN t) && (local_port t =? dport) &&
  (remote_port t =? sport) && (remote_ip t =? src_ip).

(** [kernel/net/tcp.c] tcp_receive_packet *)
Definition tcp_receive_packet (st : Tcp) (src_ip dst_ip : Z) (packet : bytes) : Tcp :=
  let len := Z.of_nat (length packet) in
  if len <? TCP_HEADER then st else
  let hdr := header_of packet in
  let sport := t_ntohs (h_src_port hdr) in
  let dport := t_ntohs (h_dst_port hdr) in
  let hlen := Z.shiftr (h_data_offset hdr) 4 * 4 in
  if (hlen <? TCP_HEADER) || (len <? hlen) then st else
  let data := drop (Z.to_nat hlen) packet in
  match find_idx (connected_to sport dport src_ip) (g_tcbs st) with
  | Some n => tcp_handle_segment st (Z.of_nat n) hdr data
  | None =>
      match find_idx (fun t => is_state TCP_LISTEN t && (local_port t =? dport) &&
          has (h_flags hdr) TCP_FLAG_SYN && negb (has (h_flags hdr) TCP_FLAG_ACK)) (g_tcbs st) with
      | None => st
      | Some n =>
          match find_idx (is_state TCP_CLOSED) (g_tcbs st) with
          | None => st
          | Some c =>
              let c := Z.of_nat c in
              let st := set_tcb st c (zero_tcb <| state := TCP_SYN_RECEIVED |>
                <| local_ip := local_ip (tcb st (Z.of_nat n)) |> <| local_port := dport |>
                <| remote_ip := src_ip |> <| remote_port := sport |>
                <| seq_num := tcp_pick_isn st c |>
                <| ack_num := u32 (t_ntohl (h_seq_num hdr) + 1) |>
                <| remote_window := t_ntohs (h_window hdr) |> <| window := TCP_RX_BUF_SIZE |>
                <| from_listener := 1 |>) in
              tcp_send_synack st c
          end
      end
  end.

(** [kernel/net/tcp.c] tcp_accept *)
Definition tcp_accept (st : Tcp) (listen_sock : Z) : Z * Tcp :=
  if (listen_sock <? 0) || (TCP_MAX_SOCKETS <=? listen_sock) then (-1, st) else
  let l := tcb st listen_sock in
  if negb (is_state TCP_LISTEN l) then (-1, st) else
  match find_idx (fun t => negb (from_listener t =? 0) && (accepted t =? 0) &&
      (local_port t =? local_port l) && in_states [TCP_ESTABLISHED; TCP_CLOSE_WAIT] t) (g_tcbs st) with
  | None => (-1, st)
  | Some n => (Z.of_nat n, set_tcb st (Z.of_nat n) (tcb st (Z.of_nat n) <| accepted := 1 |>))
  end.
End tcp.

(** [kernel/net/tcp.c] tcp_state_name *)
Definition tcp_state_name (s : TcpState) : string :=
  match s with
  | TCP_CLOSED => "CLOSED"
  | TCP_LISTEN => "LISTEN"
  | TCP_SYN_SENT => "SYN_SENT"
  | TCP_SYN_RECEIVED => "SYN_RECEIVED"
  | TCP_ESTABLISHED => "ESTABLISHED"
  | TCP_FIN_WAIT_1 => "FIN_WAIT_1"
  | TCP_FIN_WAIT_2 => "FIN_WAIT_2"
  | TCP_CLOSE_WAIT => "CLOSE_WAIT"
  | TCP_CLOSING => "CLOSING"
  | TCP_LAST_ACK => "LAST_ACK"
  | TCP_TIME_WAIT => "TIME_WAIT"
  end.

(** ** Well-formed connection table *)

Definition sending (t : TcpControlBlock) : Prop :=
  state t = TCP_ESTABLISHED \/ state t = TCP_CLOSE_WAIT.
Definition inflight (t : TcpControlBlock) : Z := u32 (seq_num t - snd_una t).

Record tcb_wf (t : TcpControlBlock) : Prop := mk_tcb_wf {
  wf_rx_buf : length (rx_buf t) = 1024%nat;
  wf_rx_len : 0 <= rx_len t <= 1024;
  wf_tx_buf : length (tx_buf t) = 2048%nat;
  wf_tx_start : 0 <= tx_start t < 2048;
  wf_ooo_buf : length (ooo_buf t) = 1024%nat;
  wf_ooo_len : 0 <= ooo_len t <= 1024;
  wf_seq : is_u32 (seq_num t);
  wf_ack : is_u32 (ack_num t);
  wf_una : is_u32 (snd_una t);
  wf_rwnd : is_u16 (remote_window t);
  wf_inflight : sending t -> inflight t <= 2048 }.
Definition tcp_wf (st : Tcp) : Prop := length (g_tcbs st) = 16%nat /\ Forall tcb_wf (g_tcbs st).

Lemma zero_tcb_wf : tcb_wf zero_tcb.
Proof. split; vm_compute; repeat split; try congruence. Qed.

Lemma inflight_bound t : 0 <= inflight t < 2 ^ 32.
Proof. unfold inflight. pose proof (u32_is (seq_num t - snd_una t)). ulia. Qed.

(** Modular arithmetic on sequence numbers. *)
Lemma u32_add_sub a b : u32 (u32 (a + b) - a) = u32 b.
Proof. unfold u32. rewrite Zminus_mod_idemp_l. f_equal. lia. Qed.
Lemma u32_eq_add a b : is_u32 a -> is_u32 b -> a = u32 (b + u32 (a - b)).
Proof. intros Ha Hb. unfold u32. rewrite Zplus_mod_idemp_r. replace (b + (a - b)) with a by lia. by rewrite Z.mod_small. Qed.
Lemma u32_sub_sub s a u : u32 (a - u) <= u32 (s - u) -> u32 (s - a) = u32 (s - u) - u32 (a - u).
Proof.
  intros Hle. rewrite <- (u32_id (u32 (s - u) - u32 (a - u))).
  - unfold u32. rewrite <- Zminus_mod. f_equal. lia.
  - pose proof (u32_is (s - u)). pose proof (u32_is (a - u)). ulia.
Qed.
Lemma u32_mod a : u32 (u32 a) = u32 a.
Proof. apply u32_id, u32_is. Qed.

Section frame.
Context (ip_output : Z -> bytes -> Z).
Implicit Types (st : Tcp) (i : Z).

Definition sock_ok i : Prop := 0 <= i < 16.

Lemma tcb_set_tcb st i j t : length (g_tcbs st) = 16%nat -> sock_ok i -> sock_ok j ->
  tcb (set_tcb st i t) j = if decide (j = i) then t else tcb st j.
Proof.
  unfold sock_ok. intros Hl Hi Hj. unfold tcb, set_tcb. simpl. case_decide as E.
  - subst. apply geti_puti_eq. lia.
  - apply geti_puti_ne; lia.
Qed.

Lemma tcb_is_wf st i : tcp_wf st -> sock_ok i -> tcb_wf (tcb st i).
Proof. intros [Hl Hw] Hi. apply (geti_Forall tcb_wf (g_tcbs st)); [done|]. unfold sock_ok in Hi. lia. Qed.

Lemma set_tcb_wf st i t : tcp_wf st -> tcb_wf t -> tcp_wf (set_tcb st i t).
Proof.
  intros [Hl Hw] Ht. split; simpl; [by rewrite length_puti|]. by apply puti_Forall.
Qed.

Lemma find_sock f st n :
  tcp_wf st -> find_idx f (g_tcbs st) = Some n ->
  sock_ok (Z.of_nat n) /\ f (tcb st (Z.of_nat n)) = true.
Proof.
  intros [Hl Hw] Hf. pose proof (find_idx_lt _ _ _ Hf) as Hn. split; [unfold sock_ok; lia|].
  apply find_idx_Some in Hf as [[t [Ht He]] _]. unfold tcb. by rewrite (lookup_geti _ _ _ Ht).
Qed.

(** Sending changes nothing but the advertised window and the wire. *)
Lemma output_seq_spec st i flags payload len seq :
  exists w wr, (tcp_output_seq ip_output st i flags payload len seq).2 =
    (if negb (output_set st) || (len <? 0) || (TCP_MAX_SEG <? len) then st
     else set_tcb st i (tcb st i <| window := w |>)) <| wire := wr |>.
Proof.
  unfold tcp_output_seq. case_step.
  - exists 0, (wire st). by destruct st.
  - eexists _, _. done.
Qed.

Lemma tcp_output_frame st i flags payload len :
  tcp_wf st -> sock_ok i ->
  let st' := tcp_output ip_output st i flags payload len in
  tcp_wf st' /\ now st' = now st /\
  exists w, forall j, sock_ok j ->
    tcb st' j = if decide (j = i) then tcb st i <| window := w |> else tcb st j.
Proof.
  intros Hwf Hi st'. unfold st', tcp_output.
  destruct (output_seq_spec st i flags payload len (seq_num (tcb st i))) as (w & wr & ->).
  pose proof (tcb_is_wf st i Hwf Hi) as Ht. case_step.
  - split; [done|]. split; [done|]. exists (window (tcb st i)). intros j Hj.
    case_decide; [subst|done]. change (tcb (_ <| wire := _ |>) i) with (tcb st i).
    by destruct (tcb st i).
  - split; [|split; [done|]].
    + apply set_tcb_wf; [done|]. destruct Ht. by split.
    + exists w. intros j Hj. by apply tcb_set_tcb; [apply Hwf| |].
Qed.
End frame.

(** ** Every operation keeps the table well formed *)

Section invariant.
Context (ip_output : Z -> bytes -> Z).
Implicit Types (st : Tcp) (i : Z).

Inductive tcp_call :=
  | CListen (port : Z) | CConnect (ip port : Z) | CSend (sock : Z) (buf : bytes)
  | CRecv (sock maxlen : Z) | CClose (sock : Z) | CAccept (sock : Z) | CTick
  | CReceive (src_ip dst_ip : Z) (packet : bytes) | CClock (t : Z).
Definition tcp_exec st (c : tcp_call) : Tcp :=
  match c with
  | CListen port => (tcp_listen st port).2
  | CConnect ip port => (tcp_connect ip_output st ip port).2
  | CSend sock buf => (tcp_send ip_output st sock buf (Z.of_nat (length buf))).2
  | CRecv sock maxlen => (tcp_recv ip_output st sock maxlen).2
  | CClose sock => (tcp_close ip_output st sock).2
  | CAccept sock => (tcp_accept st sock).2
  | CTick => tcp_tick ip_output st
  | CReceive src dst packet => tcp_receive_packet ip_output st src dst packet
  | CClock t => st <| now := t |>
  end.
Definition tcp_run st (cs : list tcp_call) : Tcp := fold_left tcp_exec cs st.

Lemma tcp_output_wf st i flags payload len :
  tcp_wf st -> sock_ok i -> tcp_wf (tcp_output ip_output st i flags payload len).
Proof. intros. by apply tcp_output_frame. Qed.

Lemma touch_wf st i : tcp_wf st -> sock_ok i -> tcp_wf (touch st i).
Proof.
  intros Hwf Hi. apply set_tcb_wf; [done|]. destruct (tcb_is_wf st i Hwf Hi). by split.
Qed.

Lemma send_syn_wf st i : tcp_wf st -> sock_ok i -> tcp_wf (tcp_send_syn ip_output st i).
Proof. intros. apply touch_wf; [|done]. by apply tcp_output_wf. Qed.
Lemma send_synack_wf st i : tcp_wf st -> sock_ok i -> tcp_wf (tcp_send_synack ip_output st i).
Proof. intros. apply touch_wf; [|done]. by apply tcp_output_wf. Qed.
Lemma send_ack_wf st i : tcp_wf st -> sock_ok i -> tcp_wf (tcp_send_ack ip_output st i).
Proof. intros. by apply tcp_output_wf. Qed.

(** A control block that stops sending keeps only the buffer bounds. *)
Lemma tcb_wf_state t s :
  tcb_wf t -> s <> TCP_ESTABLISHED -> s <> TCP_CLOSE_WAIT -> tcb_wf (t <| state := s |>).
Proof. intros [] H1 H2. split; try done. unfold sending. simpl. by intros [|]. Qed.

Lemma ack_advance_wf now t ack wnd :
  tcb_wf t -> is_u32 ack -> is_u16 wnd -> tcb_wf (tcp_ack_advance now t ack wnd).
Proof.
  intros Ht Ha Hw. unfold tcp_ack_advance. pose proof (inflight_bound t) as Hb. unfold inflight in Hb.
  destruct ((0 <? _) && _) eqn:E; destruct Ht; split; try done; simpl.
  - rewrite u16_id.
    + apply Z.mod_pos_bound. done.
    + pose proof (Z.mod_pos_bound (u32 (tx_start t + u32 (ack - snd_una t))) TCP_TX_BUF_SIZE). clia.
  - intros Hs. specialize (wf_inflight0 Hs). unfold inflight in *. simpl.
    rewrite (u32_sub_sub (seq_num t) ack (snd_una t)) by lia.
    pose proof (u32_is (ack - snd_una t)). ulia.
Qed.

Lemma rx_store_wf t data dlen :
  tcb_wf t -> 0 <= dlen <= Z.of_nat (length data) -> tcb_wf (rx_store t data dlen).
Proof.
  intros Ht Hd. destruct Ht. unfold rx_store. set (store := if _ <? _ then _ else _).
  assert (Hs : 0 <= store <= 1024 - rx_len t /\ store <= dlen).
  { unfold store. case_step; clia. }
  split; try done; simpl.
  - rewrite length_blit; [done|]. rewrite length_take. lia.
  - rewrite (u16_id store) by ulia. rewrite u16_id by ulia. lia.
  - apply u32_is.
Qed.

Lemma tcb_wf_ooo_valid t v : tcb_wf t -> tcb_wf (t <| ooo_valid := v |>).
Proof. intros []. by split. Qed.

Lemma rx_data_wf t seq data : tcb_wf t -> is_u32 seq -> tcb_wf (rx_data t seq data).
Proof.
  intros Ht Hs. unfold rx_data. case_step; [|case_step].
  - pose proof (rx_store_wf t data (Z.of_nat (length data)) Ht ltac:(lia)) as H1.
    case_step; [|done].
    set (t1 := rx_store t data _) in *. apply tcb_wf_ooo_valid, rx_store_wf; [done|].
    destruct H1. lia.
  - destruct Ht. set (store := if _ <? _ then _ else _).
    assert (Hst : 0 <= store <= 1024 /\ store <= Z.of_nat (length data))
      by (unfold store; case_step; clia).
    split; try done; simpl.
    + rewrite length_blit; [done|]. rewrite length_take. lia.
    + rewrite u16_id by ulia. lia.
  - done.
Qed.

Lemma rx_take_wf t n : tcb_wf t -> 0 <= n <= rx_len t -> tcb_wf (rx_take t n).2.
Proof.
  intros [] Hn. split; try done; simpl.
  - rewrite length_blit; [done|]. unfold get_bytes. rewrite length_take, length_drop. lia.
  - rewrite (u16_id n) by ulia. rewrite u16_id by ulia. lia.
Qed.
End invariant.

(** ** The sending window *)

Definition tx_view (t : TcpControlBlock) : bytes :=
  ring_view (tx_buf t) TCP_TX_BUF_SIZE (tx_start t) (Z.to_nat (inflight t)).

Lemma ring_store_mod s : forall buf w w', w mod TCP_TX_BUF_SIZE = w' mod TCP_TX_BUF_SIZE ->
  ring_store buf w s = ring_store buf w' s.
Proof.
  induction s as [|c s IH]; intros buf w w' Hw; [done|]. cbn [ring_store]. rewrite Hw.
  apply IH. by rewrite <- Zplus_mod_idemp_l, Hw, Zplus_mod_idemp_l.
Qed.

Lemma length_ring_store s : forall buf w, length (ring_store buf w s) = length buf.
Proof. induction s as [|c s IH]; intros; [done|]. cbn [ring_store]. by rewrite IH, length_puti. Qed.

Lemma ring_store_view s : forall buf h n,
  length buf = 2048%nat -> Z.of_nat n + Z.of_nat (length s) <= 2048 ->
  ring_view (ring_store buf (h + Z.of_nat n) s) TCP_TX_BUF_SIZE h (n + length s) =
  ring_view buf TCP_TX_BUF_SIZE h n ++ s.
Proof.
  induction s as [|c s IH]; intros buf h n Hl Hn.
  { simpl. by rewrite Nat.add_0_r, app_nil_r. }
  cbn [ring_store length] in *. replace (n + S (length s))%nat with (S n + length s)%nat by lia.
  replace (h + Z.of_nat n + 1) with (h + Z.of_nat (S n)) by lia.
  rewrite IH by (rewrite ?length_puti; lia). rewrite ring_view_push by clia.
  by rewrite <- app_assoc.
Qed.

Section sender.
Context (ip_output : Z -> bytes -> Z).
Implicit Types (st : Tcp) (i : Z).

(** How many bytes tcp_send accepts. *)
Definition acceptable (t : TcpControlBlock) (len : Z) : Z :=
  Z.max 0 (Z.min (Z.min len TCP_MAX_SEG) (Z.min (TCP_TX_BUF_SIZE - inflight t)
    (remote_window t - inflight t))).

Lemma tcp_send_ok st i buf :
  tcp_wf st -> sock_ok i -> sending (tcb st i) -> 0 < Z.of_nat (length buf) ->
  let n := acceptable (tcb st i) (Z.of_nat (length buf)) in
  let '(rc, st') := tcp_send ip_output st i buf (Z.of_nat (length buf)) in
  rc = n /\ tcp_wf st' /\
  tx_view (tcb st' i) = tx_view (tcb st i) ++ take (Z.to_nat n) buf /\
  inflight (tcb st' i) = inflight (tcb st i) + n /\
  seq_num (tcb st' i) = u32 (seq_num (tcb st i) + n) /\
  snd_una (tcb st' i) = snd_una (tcb st i) /\
  state (tcb st' i) = state (tcb st i) /\
  forall j, sock_ok j -> j <> i -> tcb st' j = tcb st j.
Proof.
  intros Hwf Hi Hs Hlen n. pose proof (tcb_is_wf st i Hwf Hi) as Ht. unfold sock_ok in Hi.
  unfold tcp_send. rewrite (proj2 (Z.ltb_ge i 0)), (proj2 (Z.leb_gt TCP_MAX_SOCKETS i)) by clia.
  cbn [orb]. set (t := tcb st i) in *. fold (inflight t).
  assert (Hst : in_states [TCP_ESTABLISHED; TCP_CLOSE_WAIT] t = true).
  { apply bool_decide_eq_true. destruct Hs as [->| ->]; set_solver. }
  rewrite Hst. cbn [negb]. rewrite (proj2 (Z.leb_gt _ 0)) by lia.
  pose proof (inflight_bound t) as Hb. pose proof (wf_inflight t Ht Hs) as Hin.
  rewrite (i32_id (inflight t)) by ulia.
  destruct ((remote_window t - inflight t <=? 0) || (TCP_TX_BUF_SIZE - inflight t <=? 0)) eqn:Ez.
  { assert (n = 0) as -> by (unfold n, acceptable; clia).
    split; [done|]. split; [done|]. fold t. simpl. rewrite app_nil_r, !Z.add_0_r.
    split; [done|]. split; [done|]. split; [|done]. symmetry. apply u32_id, Ht. }
  assert (Hn : clip_len (Z.of_nat (length buf)) (remote_window t - inflight t)
      (TCP_TX_BUF_SIZE - inflight t) = n /\ 0 < n <= Z.of_nat (length buf) /\ n + inflight t <= 2048 /\ n <= 1024).
  { unfold n, acceptable, clip_len. cbv zeta. repeat case_step; clia. }
  destruct Hn as (-> & Hn1 & Hn2 & Hn3). clearbody n.
  rewrite (u32_id (tx_start t + inflight t)) by (destruct Ht; ulia).
  set (w := u16 _). rewrite read_n_take by lia. set (s := take (Z.to_nat n) buf).
  assert (Hls : length s = Z.to_nat n) by (unfold s; rewrite length_take; lia).
  set (t1 := t <| tx_buf := _ |>).
  assert (Hv1 : ring_view (tx_buf t1) TCP_TX_BUF_SIZE (tx_start t) (Z.to_nat (inflight t) + length s)
                = tx_view t ++ s).
  { unfold t1, tx_view. simpl. rewrite (ring_store_mod s _ w (tx_start t + Z.of_nat (Z.to_nat (inflight t)))).
    - apply ring_store_view; [apply Ht|lia].
    - unfold w. pose proof (Z.mod_pos_bound (tx_start t + inflight t) TCP_TX_BUF_SIZE).
      rewrite u16_id by clia. rewrite Z.mod_mod by done. f_equal. lia. }
  assert (W1 : tcp_wf (set_tcb st i t1)).
  { apply set_tcb_wf; [done|]. destruct Ht. split; try done. unfold t1. simpl.
    by rewrite length_ring_store. }
  destruct (tcp_output_frame ip_output (set_tcb st i t1) i (Z.lor TCP_FLAG_PSH TCP_FLAG_ACK) buf n W1 Hi)
    as (W2 & Hnow & win & Hf).
  set (st2 := tcp_output _ _ _ _ _ _) in *.
  assert (Ht2 : tcb st2 i = t1 <| window := win |>).
  { rewrite Hf, decide_True by done. by rewrite tcb_set_tcb, decide_True by (apply Hwf || done). }
  rewrite Ht2. set (t3 := _ <| rto_tick := _ |>).
  assert (Hinf : inflight t3 = inflight t + n).
  { transitivity (u32 (inflight t + n)); [|apply u32_id; ulia].
    change (inflight t3) with (u32 (u32 (seq_num t + n) - snd_una t)).
    unfold inflight, u32. rewrite Zminus_mod_idemp_l, Zplus_mod_idemp_l. f_equal. lia. }
  assert (W3 : tcb_wf t3).
  { pose proof (tcb_is_wf _ i W2 Hi) as G. rewrite Ht2 in G. destruct G. split; try done.
    - apply u32_is.
    - intros _. lia. }
  assert (Hb3 : forall j, sock_ok j -> tcb (set_tcb st2 i t3) j = if decide (j = i) then t3 else tcb st2 j).
  { intros j Hj. by apply tcb_set_tcb; [apply W2| |]. }
  split; [done|]. split; [by apply set_tcb_wf|]. rewrite Hb3, decide_True by done.
  split; [|split; [done|split; [done|split; [done|split; [done|]]]]].
  - unfold tx_view at 1. rewrite Hinf, Z2Nat.inj_add by lia. rewrite <- Hls. exact Hv1.
  - intros j Hj Hne. rewrite Hb3, decide_False by done. rewrite Hf, decide_False by done.
    by rewrite tcb_set_tcb, decide_False by (apply Hwf || done).
Qed.

(** C24. tcp_send on a connection that may send: it accepts as many bytes as the length, the
    segment size, the free transmit buffer and the peer's window allow, appends exactly these
    to the bytes in flight, advances the sequence number by as much, never lets more than the
    buffer be in flight, and touches no other connection; the unacknowledged position is
    unchanged. *)
Theorem tcp_send_refines st i buf :
  tcp_wf st -> sock_ok i -> sending (tcb st i) -> 0 < Z.of_nat (length buf) ->
  let n := acceptable (tcb st i) (Z.of_nat (length buf)) in
  let '(rc, st') := tcp_send ip_output st i buf (Z.of_nat (length buf)) in
  rc = n /\ tcp_wf st' /\
  tx_view (tcb st' i) = tx_view (tcb st i) ++ take (Z.to_nat n) buf /\
  inflight (tcb st' i) = inflight (tcb st i) + n /\
  seq_num (tcb st' i) = u32 (seq_num (tcb st i) + n) /\
  snd_una (tcb st' i) = snd_una (tcb st i) /\
  state (tcb st' i) = state (tcb st i) /\
  forall j, sock_ok j -> j <> i -> tcb st' j = tcb st j.
Proof. apply tcp_send_ok. Qed.

(** An acknowledgement that covers part of what is in flight removes exactly the acknowledged
    bytes from the front; any other acknowledgement (old, duplicate or ahead of what was
    sent) leaves the bytes in flight alone. *)
Lemma tcp_ack_advance_refines now t ack wnd :
  tcb_wf t -> is_u32 ack ->
  let t' := tcp_ack_advance now t ack wnd in
  let newly := u32 (ack - snd_una t) in
  (newly <= inflight t -> tx_view t' = drop (Z.to_nat newly) (tx_view t) /\ snd_una t' = ack /\
     inflight t' = inflight t - newly) /\
  (inflight t < newly -> tx_view t' = tx_view t /\ snd_una t' = snd_una t) /\
  seq_num t' = seq_num t /\ remote_window t' = wnd.
Proof.
  intros Ht Ha t' newly. unfold t', tcp_ack_advance. fold newly (inflight t).
  pose proof (inflight_bound t) as Hb. pose proof (u32_is (ack - snd_una t)) as Hn. fold newly in Hn.
  destruct ((0 <? newly) && (newly <=? inflight t)) eqn:E.
  - split; [|split; [lia|done]]. intros Hle. set (t1 := _ <| remote_window := _ |>).
    assert (Hinf : inflight t1 = inflight t - newly).
    { unfold inflight, t1. simpl. by apply u32_sub_sub. }
    split; [|done]. unfold tx_view. rewrite Hinf. unfold t1. simpl.
    rewrite u16_id.
    2:{ pose proof (Z.mod_pos_bound (u32 (tx_start t + newly)) TCP_TX_BUF_SIZE). clia. }
    rewrite ring_view_mod. destruct Ht.
    replace (Z.to_nat (inflight t)) with (Z.to_nat newly + Z.to_nat (inflight t - newly))%nat by ulia.
    rewrite ring_view_app, drop_app_length' by (by rewrite length_ring_view).
    rewrite <- ring_view_mod. rewrite <- (ring_view_mod _ _ (tx_start t + _)).
    replace (u32 (tx_start t + newly) mod TCP_TX_BUF_SIZE) with
      ((tx_start t + Z.of_nat (Z.to_nat newly)) mod TCP_TX_BUF_SIZE); [done|].
    unfold u32. rewrite Z2Nat.id by ulia.
    change TCP_TX_BUF_SIZE with (2 ^ 11). rewrite Z.mod_mod_divide; [done|].
    by exists (2 ^ 21).
  - split; [|done]. intros Hle. assert (Hz : newly = 0) by ulia. rewrite Hz, Z.sub_0_r.
    assert (Hack : ack = snd_una t).
    { rewrite (u32_eq_add ack (snd_una t)) by (done || apply Ht). fold newly. rewrite Hz.
      rewrite Z.add_0_r. apply u32_id, Ht. }
    simpl. rewrite drop_0. by rewrite Hack.
Qed.
End sender.

(** ** Runs *)

Section runs.
Context (ip_output : Z -> bytes -> Z).
Implicit Types (st : Tcp) (i : Z).

Lemma tcp_send_wf st i buf : tcp_wf st ->
  tcp_wf (tcp_send ip_output st i buf (Z.of_nat (length buf))).2.
Proof.
  intros Hwf. destruct (decide (sock_ok i /\ sending (tcb st i) /\ 0 < Z.of_nat (length buf)))
    as [(Hi & Hs & Hl)|Hn].
  - pose proof (tcp_send_ok ip_output st i buf Hwf Hi Hs Hl) as Hr.
    cbv zeta in Hr. destruct (tcp_send _ _ _ _ _) as [rc st']. apply Hr.
  - unfold tcp_send. destruct ((i <? 0) || (TCP_MAX_SOCKETS <=? i)) eqn:Ei; [done|].
    destruct (in_states _ _) eqn:Es; cbn [negb]; [|done].
    destruct (Z.leb_spec (Z.of_nat (length buf)) 0); [done|]. exfalso. apply Hn.
    split; [unfold sock_ok; clia|]. split; [|done].
    apply bool_decide_eq_true in Es. unfold sending. set_solver.
Qed.

Lemma tcp_recv_wf st i maxlen : tcp_wf st -> tcp_wf (tcp_recv ip_output st i maxlen).2.
Proof.
  intros Hwf. unfold tcp_recv. destruct (_ || (maxlen <? 0)) eqn:E; [done|].
  assert (Hi : sock_ok i) by (unfold sock_ok; clia). pose proof (tcb_is_wf st i Hwf Hi) as Ht.
  destruct (Z.eqb_spec (rx_len (tcb st i)) 0) as [Hz|Hz]; [done|].
  set (n := if _ <? maxlen then _ else _).
  assert (Hn : 0 <= n <= rx_len (tcb st i)) by (unfold n; destruct Ht; case_step; lia).
  pose proof (rx_take_wf _ n Ht Hn) as Hw. destruct (rx_take (tcb st i) n) as [out t'].
  assert (tcp_wf (set_tcb st i t')) by (by apply set_tcb_wf).
  simpl. case_step; [by apply send_ack_wf|done].
Qed.

Lemma frame_now st i flags payload len : tcp_wf st -> sock_ok i ->
  now (tcp_output ip_output st i flags payload len) = now st.
Proof. intros H1 H2. by destruct (tcp_output_frame ip_output st i flags payload len H1 H2) as (_ & ? & _). Qed.

(** Replacing fields that the invariant does not mention, or by values within it. *)
Lemma wf_retry t c : tcb_wf t -> tcb_wf (t <| retransmit_count := c |>).
Proof. intros []. by split. Qed.
Lemma wf_activity t a : tcb_wf t -> tcb_wf (t <| last_activity_tick := a |>).
Proof. intros []. by split. Qed.
Lemma wf_rto t r : tcb_wf t -> tcb_wf (t <| rto_tick := r |>).
Proof. intros []. by split. Qed.
Lemma wf_accepted t c : tcb_wf t -> tcb_wf (t <| accepted := c |>).
Proof. intros []. by split. Qed.
Lemma wf_ack_num t v : tcb_wf t -> is_u32 v -> tcb_wf (t <| ack_num := v |>).
Proof. intros [] Hv. by split. Qed.

Lemma retransmit_wf st i : tcp_wf st -> sock_ok i -> tcp_wf (tcp_retransmit_head ip_output st i).
Proof.
  intros Hwf Hi. unfold tcp_retransmit_head. set (n := if _ <? _ then _ else _).
  set (lin := ring_view _ _ _ _).
  destruct (output_seq_spec ip_output st i (Z.lor TCP_FLAG_PSH TCP_FLAG_ACK) lin n
    (snd_una (tcb st i))) as (w & wr & ->).
  case_step; [done|]. apply (set_tcb_wf st i); [done|]. destruct (tcb_is_wf st i Hwf Hi). by split.
Qed.

Lemma tick_one_wf st i : tcp_wf st -> sock_ok i -> tcp_wf (tick_one ip_output st i).
Proof.
  intros Hwf Hi. pose proof (tcb_is_wf st i Hwf Hi) as Ht.
  pose proof (tcb_wf_state _ TCP_CLOSED Ht ltac:(done) ltac:(done)) as Hc.
  unfold tick_one. cbv zeta.
  assert (Hsyn : tcp_wf (if 120 <? u32 (now st - last_activity_tick (tcb st i))
    then if retransmit_count (tcb st i) <? 5 then
      let st' := if is_state TCP_SYN_SENT (tcb st i) then tcp_send_syn ip_output st i
                 else tcp_send_synack ip_output st i in
      set_tcb st' i (tcb st' i <| retransmit_count := u8 (retransmit_count (tcb st' i) + 1) |>
                               <| last_activity_tick := now st' |>)
      else set_tcb st i (tcb st i <| state := TCP_CLOSED |>) else st)).
  { case_step; [|done]. case_step; [|by apply set_tcb_wf]. cbv zeta.
    set (st' := if is_state _ _ then _ else _).
    assert (W : tcp_wf st') by (unfold st'; case_step; [by apply send_syn_wf|by apply send_synack_wf]).
    apply set_tcb_wf; [done|]. by apply wf_activity, wf_retry, tcb_is_wf. }
  assert (Hdata : tcp_wf (if 0 <? u32 (seq_num (tcb st i) - snd_una (tcb st i))
    then if u32 (Z.shiftl 120 (if retransmit_count (tcb st i) <? 4
                 then retransmit_count (tcb st i) else 4)) <? u32 (now st - rto_tick (tcb st i))
      then if retransmit_count (tcb st i) <? 8 then
        set_tcb (tcp_retransmit_head ip_output st i) i
          (tcb (tcp_retransmit_head ip_output st i) i
             <| retransmit_count := u8 (retransmit_count (tcb (tcp_retransmit_head ip_output st i) i) + 1) |>
             <| rto_tick := now (tcp_retransmit_head ip_output st i) |>)
        else set_tcb st i (tcb st i <| state := TCP_CLOSED |>) else st else st)).
  { destruct (0 <? _); [|done]. destruct (u32 (Z.shiftl _ _) <? _); [|done].
    destruct (_ <? 8); [|by apply set_tcb_wf].
    pose proof (retransmit_wf st i Hwf Hi) as W.
    apply set_tcb_wf; [done|]. by apply wf_rto, wf_retry, tcb_is_wf. }
  destruct (state (tcb st i)); try done; case_step; try done; by apply set_tcb_wf.
Qed.

(** *** Segments and the state machine *)

(** The transitions a received segment may cause; [ackok] tells that it
    acknowledges the SYN or FIN sent. *)
Inductive seg_edge (flags : Z) (ackok : bool) : TcpState -> TcpState -> Prop :=
  | E_stay s : seg_edge flags ackok s s
  | E_rst s : has flags TCP_FLAG_RST = true -> seg_edge flags ackok s TCP_CLOSED
  | E_synack : has flags TCP_FLAG_SYN = true -> has flags TCP_FLAG_ACK = true -> ackok = true ->
      seg_edge flags ackok TCP_SYN_SENT TCP_ESTABLISHED
  | E_ack : has flags TCP_FLAG_ACK = true -> ackok = true ->
      seg_edge flags ackok TCP_SYN_RECEIVED TCP_ESTABLISHED
  | E_fin : has flags TCP_FLAG_FIN = true -> seg_edge flags ackok TCP_ESTABLISHED TCP_CLOSE_WAIT
  | E_fin_acked : has flags TCP_FLAG_ACK = true -> ackok = true ->
      seg_edge flags ackok TCP_FIN_WAIT_1 TCP_FIN_WAIT_2
  | E_both : has flags TCP_FLAG_FIN = true -> has flags TCP_FLAG_ACK = true -> ackok = true ->
      seg_edge flags ackok TCP_FIN_WAIT_1 TCP_CLOSED
  | E_simultaneous : has flags TCP_FLAG_FIN = true -> seg_edge flags ackok TCP_FIN_WAIT_1 TCP_CLOSING
  | E_fw2 : has flags TCP_FLAG_FIN = true -> seg_edge flags ackok TCP_FIN_WAIT_2 TCP_CLOSED
  | E_closing : has flags TCP_FLAG_ACK = true -> seg_edge flags ackok TCP_CLOSING TCP_CLOSED
  | E_last : has flags TCP_FLAG_ACK = true -> seg_edge flags ackok TCP_LAST_ACK TCP_CLOSED.

(** An update of block [i] only, leaving a good table. *)
Definition only st i st' (P : TcpControlBlock -> Prop) : Prop :=
  tcp_wf st' /\ P (tcb st' i) /\ forall j, sock_ok j -> j <> i -> tcb st' j = tcb st j.

Lemma only_set st i t (P : TcpControlBlock -> Prop) :
  tcp_wf st -> sock_ok i -> tcb_wf t -> P t -> only st i (set_tcb st i t) P.
Proof.
  intros Hwf Hi Ht HP. split; [by apply set_tcb_wf|].
  rewrite tcb_set_tcb, decide_True by (apply Hwf || done). split; [done|].
  intros j Hj Hne. by rewrite tcb_set_tcb, decide_False by (apply Hwf || done).
Qed.

Lemma only_send_ack st i st1 (P : TcpControlBlock -> Prop) :
  sock_ok i -> only st i st1 P -> (forall t w, P t -> P (t <| window := w |>)) ->
  only st i (tcp_send_ack ip_output st1 i) P.
Proof.
  intros Hi (W & HP & Ho) Hw.
  destruct (tcp_output_frame ip_output st1 i TCP_FLAG_ACK [] 0 W Hi) as (W' & _ & w & Hf).
  split; [done|]. unfold tcp_send_ack. rewrite Hf, decide_True by done. split; [by apply Hw|].
  intros j Hj Hne. rewrite Hf, decide_False by done. by apply Ho.
Qed.

Lemma only_then_set st i st1 t (P Q : TcpControlBlock -> Prop) :
  sock_ok i -> only st i st1 P -> tcb_wf t -> Q t -> only st i (set_tcb st1 i t) Q.
Proof.
  intros Hi (W & HP & Ho) Ht HQ. destruct (only_set st1 i t Q W Hi Ht HQ) as (A & B & C).
  split; [done|]. split; [done|]. intros j Hj Hne. rewrite C by done. by apply Ho.
Qed.

Lemma only_refl st i (P : TcpControlBlock -> Prop) : tcp_wf st -> P (tcb st i) -> only st i st P.
Proof. by split. Qed.

Lemma only_wf_i st i st1 P : sock_ok i -> only st i st1 P -> tcb_wf (tcb st1 i) /\ P (tcb st1 i).
Proof. intros Hi (W & HP & _). split; [|done]. by apply tcb_is_wf. Qed.

Lemma rx_data_state t seq data : state (rx_data t seq data) = state t.
Proof. unfold rx_data. by repeat case_step. Qed.
Lemma ack_advance_state now t ack wnd : state (tcp_ack_advance now t ack wnd) = state t.
Proof. unfold tcp_ack_advance. by repeat case_step. Qed.

Definition in_state (s : TcpState) (t : TcpControlBlock) : Prop := state t = s.

Lemma established_only st i seq ack flags wnd data :
  tcp_wf st -> sock_ok i -> state (tcb st i) = TCP_ESTABLISHED ->
  is_u32 seq -> is_u32 ack -> is_u16 wnd ->
  only st i (handle_established ip_output st i seq ack flags wnd data)
    (fun t => state t = TCP_ESTABLISHED \/
              has flags TCP_FLAG_FIN = true /\ state t = TCP_CLOSE_WAIT).
Proof.
  intros Hwf Hi Hs Hseq Hack Hwnd. pose proof (tcb_is_wf st i Hwf Hi) as Ht.
  unfold handle_established.
  set (t1 := if has flags TCP_FLAG_ACK then _ else _).
  assert (W1 : tcb_wf t1 /\ in_state TCP_ESTABLISHED t1).
  { unfold t1, in_state. case_step; [|done]. rewrite ack_advance_state.
    split; [by apply ack_advance_wf|done]. }
  destruct W1 as [W1 S1].
  pose proof (only_set st i t1 (in_state TCP_ESTABLISHED) Hwf Hi W1 S1) as O1.
  set (st1 := set_tcb st i t1) in *.
  set (st2 := if 0 <? _ then _ else st1).
  assert (O2 : only st i st2 (in_state TCP_ESTABLISHED)).
  { unfold st2. case_step; [|done]. apply only_send_ack; [done| |done].
    eapply only_then_set; [done|exact O1| |].
    - by apply rx_data_wf.
    - unfold in_state. by rewrite rx_data_state. }
  destruct (has flags TCP_FLAG_FIN && _) eqn:E.
  - apply andb_true_iff in E as [Ef _].
    destruct (only_wf_i _ _ _ _ Hi O2) as [W2 S2].
    assert (O3 : only st i (tcp_send_ack ip_output (set_tcb st2 i
      (tcb st2 i <| ack_num := u32 (ack_num (tcb st2 i) + 1) |>)) i) (in_state TCP_ESTABLISHED)).
    { apply only_send_ack; [done| |done]. eapply only_then_set; [done|exact O2| |done].
      apply wf_ack_num; [done|apply u32_is]. }
    destruct (only_wf_i _ _ _ _ Hi O3) as [W3 S3].
    eapply only_then_set; [done|exact O3| |by right].
    destruct W3. split; try done. intros _. apply wf_inflight0. by left.
  - destruct O2 as (A & B & C). split; [done|]. split; [by left|done].
Qed.

(** A connection that becomes established has nothing in flight. *)
Lemma tcb_wf_established t t' :
  tcb_wf t -> rx_buf t' = rx_buf t -> rx_len t' = rx_len t -> tx_buf t' = tx_buf t ->
  tx_start t' = 0 -> ooo_buf t' = ooo_buf t -> ooo_len t' = ooo_len t ->
  is_u32 (seq_num t') -> snd_una t' = seq_num t' -> is_u32 (ack_num t') ->
  is_u16 (remote_window t') -> tcb_wf t'.
Proof.
  intros [] E1 E2 E3 E4 E5 E6 H1 H2 H3 H4.
  split; rewrite ?E1, ?E2, ?E3, ?E4, ?E5, ?E6; try done; try congruence.
  intros _. unfold inflight. rewrite H2, Z.sub_diag. done.
Qed.

Lemma land_lor_has flags : 
  Z.land flags (Z.lor TCP_FLAG_SYN TCP_FLAG_ACK) = Z.lor TCP_FLAG_SYN TCP_FLAG_ACK ->
  has flags TCP_FLAG_SYN = true /\ has flags TCP_FLAG_ACK = true.
Proof.
  intros E. unfold has.
  assert (H1 : Z.land flags TCP_FLAG_SYN = TCP_FLAG_SYN).
  { change TCP_FLAG_SYN with (Z.land (Z.lor TCP_FLAG_SYN TCP_FLAG_ACK) TCP_FLAG_SYN) at 1.
    by rewrite Z.land_assoc, E. }
  assert (H2 : Z.land flags TCP_FLAG_ACK = TCP_FLAG_ACK).
  { change TCP_FLAG_ACK with (Z.land (Z.lor TCP_FLAG_SYN TCP_FLAG_ACK) TCP_FLAG_ACK) at 1.
    by rewrite Z.land_assoc, E. }
  by rewrite H1, H2.
Qed.

Definition header_wf (h : TcpHeader) : Prop := is_u32 (h_seq_num h) /\ is_u32 (h_ack_num h).

Definition no_sending (s : TcpState) : Prop := s <> TCP_ESTABLISHED /\ s <> TCP_CLOSE_WAIT.

(** A control block outside the sending states: the sequence number is free. *)
Lemma tcb_wf_seq_state t v s : tcb_wf t -> is_u32 v -> no_sending s ->
  tcb_wf (t <| seq_num := v |> <| state := s |>).
Proof. intros [] Hv [N1 N2]. split; try done. by intros [|]. Qed.

(** Acknowledge with [ack_num] set, then close or move on. *)
Lemma fin_ack_only st i t v s (Q : TcpControlBlock -> Prop) :
  tcp_wf st -> sock_ok i -> tcb_wf t -> is_u32 v -> no_sending s ->
  (forall t', state t' = s -> Q t') ->
  let st1 := tcp_send_ack ip_output (set_tcb st i (t <| ack_num := v |>)) i in
  only st i (set_tcb st1 i (tcb st1 i <| state := s |>)) Q /\
  only st i (set_tcb st1 i (tcb st1 i <| state := s |> <| last_activity_tick := now st1 |>)) Q /\
  state (tcb st1 i) = state t.
Proof.
  intros Hwf Hi Ht Hv [N1 N2] HQ st1.
  assert (O1 : only st i st1 (in_state (state t))).
  { apply only_send_ack; [done| |done]. apply only_set; try done. by apply wf_ack_num. }
  destruct (only_wf_i _ _ _ _ Hi O1) as [W1 S1].
  pose proof (tcb_wf_state _ s W1 N1 N2) as W2.
  split; [|split; [|done]]; (eapply only_then_set; [done|exact O1| |by apply HQ]); [done|].
  by apply wf_activity.
Qed.

Lemma fin_wait_1_only st i t0 flags ackok v :
  tcp_wf st -> sock_ok i -> tcb_wf t0 -> state t0 = TCP_FIN_WAIT_1 -> is_u32 v ->
  let t := if has flags TCP_FLAG_ACK && ackok
           then t0 <| seq_num := u32 (seq_num t0 + 1) |> <| state := TCP_FIN_WAIT_2 |> else t0 in
  let st' := set_tcb st i t in
  let st1 := tcp_send_ack ip_output (set_tcb st' i (t <| ack_num := v |>)) i in
  only st i
    (if has flags TCP_FLAG_FIN then
       set_tcb st1 i (tcb st1 i <| state := if is_state TCP_FIN_WAIT_2 (tcb st1 i)
                                            then TCP_CLOSED else TCP_CLOSING |>
                                <| last_activity_tick := now st1 |>)
     else st')
    (fun t' => seg_edge flags ackok TCP_FIN_WAIT_1 (state t')).
Proof.
  intros Hwf Hi Ht Hs Hv t st' st1.
  assert (W : tcb_wf t /\ seg_edge flags ackok TCP_FIN_WAIT_1 (state t) /\
    (has flags TCP_FLAG_ACK && ackok = true -> state t = TCP_FIN_WAIT_2) /\
    (has flags TCP_FLAG_ACK && ackok = false -> state t = TCP_FIN_WAIT_1)).
  { unfold t. destruct (has flags TCP_FLAG_ACK && ackok) eqn:E.
    - apply andb_true_iff in E as [E1 E2]. split; [|split; [by apply E_fin_acked|done]].
      apply tcb_wf_seq_state; [done|apply u32_is|done].
    - rewrite Hs. split; [done|]. split; [apply E_stay|done]. }
  destruct W as (Wt & Et & S1 & S2).
  assert (Hst' : only st i st' (fun t' => seg_edge flags ackok TCP_FIN_WAIT_1 (state t')))
    by (by apply only_set).
  destruct (has flags TCP_FLAG_FIN) eqn:Ef; [|done].
  assert (W' : tcp_wf st') by apply Hst'.
  destruct (fin_ack_only st' i t v TCP_CLOSED (fun _ => True) W' Hi Wt Hv) as (_ & _ & Sst); [done..|].
  fold st1 in Sst.
  set (s := if is_state _ _ then _ else _).
  destruct (fin_ack_only st' i t v s (fun t' => state t' = s) W' Hi Wt Hv) as (_ & (A & B & C) & _).
  { unfold s. by case_step. }
  { done. }
  fold st1 in A, B, C.
  split; [done|]. split.
  - rewrite B. unfold s, is_state. fold st1. rewrite Sst.
    destruct (has flags TCP_FLAG_ACK && ackok) eqn:E.
    + rewrite S1 by done. apply andb_true_iff in E as [E1 E2]. by apply E_both.
    + rewrite S2 by done. by apply E_simultaneous.
  - intros j Hj Hne. rewrite C by done. by apply Hst'.
Qed.

Lemma tcp_handle_segment_ok st i hdr data :
  tcp_wf st -> sock_ok i -> header_wf hdr ->
  let t := tcb st i in
  let ackok := t_ntohl (h_ack_num hdr) =? u32 (seq_num t + 1) in
  let st' := tcp_handle_segment ip_output st i hdr data in
  tcp_wf st' /\ seg_edge (h_flags hdr) ackok (state t) (state (tcb st' i)) /\
  forall j, sock_ok j -> j <> i -> tcb st' j = tcb st j.
Proof.
  intros Hwf Hi [Hq Ha] t ackok st'. unfold st'.
  set (P := fun t' => seg_edge (h_flags hdr) ackok (state t) (state t')).
  change (only st i (tcp_handle_segment ip_output st i hdr data) P).
  pose proof (tcb_is_wf st i Hwf Hi) as Ht. fold t in Ht.
  assert (Hrefl : only st i st P) by (apply only_refl; [done|apply E_stay]).
  unfold tcp_handle_segment. fold t. cbv zeta.
  pose proof (t_htonl_is _ Hq) as Hseq. pose proof (t_htonl_is _ Ha) as Hack.
  pose proof (t_htons_is (h_window hdr)) as Hwnd.
  fold t_ntohl t_ntohs in *. change t_htonl with t_ntohl in *. change t_htons with t_ntohs in *.
  destruct (has (h_flags hdr) TCP_FLAG_RST) eqn:Er.
  { apply only_set; [done..| |]; [by apply tcb_wf_state|]. by apply E_rst. }
  fold ackok. pose proof (u32_is (t_ntohl (h_seq_num hdr) + 1)) as Hs1.
  assert (Hclose : tcb_wf (t <| state := TCP_CLOSED |>)) by (by apply tcb_wf_state).
  destruct (state t) eqn:Es; try done.
  - destruct (_ && ackok) eqn:E; [|done]. apply andb_true_iff in E as [Ef%Z.eqb_eq Eo].
    apply land_lor_has in Ef as [F1 F2]. apply only_send_ack; [done| |done].
    apply only_set; [done..| |by apply E_synack].
    apply (tcb_wf_established t); try done; apply u32_is.
  - destruct (_ && ackok) eqn:E; [|done]. apply andb_true_iff in E as [Ef Eo].
    apply only_set; [done..| |by apply E_ack].
    apply (tcb_wf_established t); try done; [apply u32_is|apply Ht].
  - destruct (established_only st i (t_ntohl (h_seq_num hdr)) (t_ntohl (h_ack_num hdr))
      (h_flags hdr) (t_ntohs (h_window hdr)) data) as (A & B & C); [done..|].
    split; [done|]. split; [|done]. unfold P. destruct B as [->|[? ->]]; [apply E_stay|by apply E_fin].
  - by apply fin_wait_1_only.
  - destruct (has (h_flags hdr) TCP_FLAG_FIN) eqn:Ef; [|done].
    apply (fin_ack_only st i t _ TCP_CLOSED P Hwf Hi Ht Hs1); [done|].
    intros t' E'. unfold P. rewrite ?Es, E'. by apply E_fw2.
  - destruct (has (h_flags hdr) TCP_FLAG_ACK); [|done].
    apply only_set; [done|done|by apply ack_advance_wf|].
    unfold P. rewrite ack_advance_state, ?Es. apply E_stay.
  - destruct (has (h_flags hdr) TCP_FLAG_ACK) eqn:Ef; [|done].
    apply only_set; [done..|by apply E_closing].
  - destruct (has (h_flags hdr) TCP_FLAG_ACK) eqn:Ef; [|done].
    apply only_set; [done..|by apply E_last].
Qed.

(** A segment for a connection changes only that connection, keeps the table well formed and
    moves the state machine only along the listed edges: in particular a connection becomes
    established only by a segment with the ACK flag (and SYN, for the active side) that
    acknowledges exactly the SYN that was sent. *)
Lemma tcp_handle_segment_edges st i hdr data :
  tcp_wf st -> sock_ok i -> header_wf hdr ->
  let t := tcb st i in
  let ackok := t_ntohl (h_ack_num hdr) =? u32 (seq_num t + 1) in
  let st' := tcp_handle_segment ip_output st i hdr data in
  tcp_wf st' /\ seg_edge (h_flags hdr) ackok (state t) (state (tcb st' i)) /\
  forall j, sock_ok j -> j <> i -> tcb st' j = tcb st j.
Proof. apply tcp_handle_segment_ok. Qed.

Lemma header_of_wf p : bytes_ok p -> header_wf (header_of p).
Proof.
  intros Hp. pose proof (get_le_bound p 4 4 Hp). pose proof (get_le_bound p 8 4 Hp).
  split; simpl; ulia.
Qed.

Lemma init_tcb_wf s lip lp rip rp sq ak rw fl :
  no_sending s -> is_u32 sq -> is_u32 ak -> is_u16 rw ->
  tcb_wf (zero_tcb <| state := s |> <| local_ip := lip |> <| local_port := lp |>
    <| remote_ip := rip |> <| remote_port := rp |> <| seq_num := sq |> <| ack_num := ak |>
    <| remote_window := rw |> <| window := TCP_RX_BUF_SIZE |> <| from_listener := fl |>).
Proof.
  intros [N1 N2] H1 H2 H3. destruct zero_tcb_wf. split; try done. by intros [|].
Qed.

Lemma pick_isn_u32 st i : is_u32 (tcp_pick_isn st i).
Proof. apply u32_is. Qed.

Lemma tcp_connect_wf st ip port : tcp_wf st -> tcp_wf (tcp_connect ip_output st ip port).2.
Proof.
  intros Hwf. unfold tcp_connect. destruct (find_idx _ _) as [k|] eqn:E; [|done].
  destruct (find_sock _ _ _ Hwf E) as [Hi _]. apply send_syn_wf; [|done].
  apply (set_tcb_wf (st <| g_next_ephemeral := _ |>)); [done|].
  destruct zero_tcb_wf. split; try done; [apply u32_is|by intros [|]].
Qed.

Lemma tcp_listen_wf st port : tcp_wf st -> tcp_wf (tcp_listen st port).2.
Proof.
  intros Hwf. unfold tcp_listen. case_step; [|done]. apply set_tcb_wf; [done|].
  destruct zero_tcb_wf. by split.
Qed.

Lemma tcp_accept_wf st sock : tcp_wf st -> tcp_wf (tcp_accept st sock).2.
Proof.
  intros Hwf. unfold tcp_accept. repeat case_step; try done.
  match goal with H : find_idx _ _ = Some _ |- _ => destruct (find_sock _ _ _ Hwf H) as [Hi _] end.
  apply set_tcb_wf; [done|]. by apply wf_accepted, tcb_is_wf.
Qed.

Lemma tcp_close_wf st sock : tcp_wf st -> tcp_wf (tcp_close ip_output st sock).2.
Proof.
  intros Hwf. unfold tcp_close. destruct ((sock <? 0) || _) eqn:E; [done|].
  assert (Hi : sock_ok sock) by (unfold sock_ok; clia). cbn [snd].
  pose proof (tcb_wf_state _ TCP_CLOSED (tcb_is_wf st sock Hwf Hi) ltac:(done) ltac:(done)) as Hc.
  pose proof (tcp_output_wf ip_output st sock (Z.lor TCP_FLAG_FIN TCP_FLAG_ACK) [] 0 Hwf Hi) as W.
  pose proof (tcb_is_wf _ _ W Hi) as Ht.
  destruct (state (tcb st sock)); try (by apply set_tcb_wf);
    (apply set_tcb_wf; [done|]; by apply wf_activity, tcb_wf_state).
Qed.

Lemma tcp_tick_wf st : tcp_wf st -> tcp_wf (tcp_tick ip_output st).
Proof.
  intros Hwf. unfold tcp_tick. change (Z.to_nat TCP_MAX_SOCKETS) with 16%nat.
  assert (Hl : forall n i st0, tcp_wf st0 -> 0 <= i -> i + Z.of_nat n <= 16 ->
    tcp_wf (tick_loop ip_output n i st0)).
  { induction n as [|n IH]; intros i st0 W H1 H2; [done|]. apply IH; [|lia|lia].
    apply tick_one_wf; [done|]. unfold sock_ok. lia. }
  apply Hl; [done|lia|lia].
Qed.

Lemma tcp_receive_wf st src dst packet :
  tcp_wf st -> bytes_ok packet -> tcp_wf (tcp_receive_packet ip_output st src dst packet).
Proof.
  intros Hwf Hp. unfold tcp_receive_packet. case_step; [done|]. case_step; [done|].
  pose proof (header_of_wf packet Hp) as Hh.
  destruct (find_idx (connected_to _ _ _) _) as [k|] eqn:E1.
  { destruct (find_sock _ _ _ Hwf E1) as [Hi _].
    by apply (tcp_handle_segment_ok st _ _ (drop (Z.to_nat _) packet) Hwf Hi Hh). }
  case_step; [|done]. destruct (find_idx (is_state TCP_CLOSED) _) as [c|] eqn:E2; [|done].
  destruct (find_sock _ _ _ Hwf E2) as [Hi _].
  apply send_synack_wf; [|done]. apply set_tcb_wf; [done|].
  apply init_tcb_wf; try done; [apply u32_is|apply u32_is|apply u16_is].
Qed.

Definition call_wf (c : tcp_call) : Prop :=
  match c with CReceive _ _ packet => bytes_ok packet | _ => True end.

(** C25. Whatever the application and the network do - any sequence of listen, connect, send,
    receive, close, accept, timer ticks and arbitrary incoming packets - the connection table
    stays well formed: the buffer indices stay inside their arrays and a connection that may
    send never has more than the transmit buffer unacknowledged. *)
Theorem tcp_run_wf cs : forall st,
  tcp_wf st -> Forall call_wf cs -> tcp_wf (tcp_run ip_output st cs).
Proof.
  induction cs as [|c cs IH]; intros st Hwf Hc; [done|].
  inversion_clear Hc as [|? ? H1 H2]. apply IH; [|done].
  destruct c; simpl; auto using tcp_listen_wf, tcp_connect_wf, tcp_send_wf, tcp_recv_wf,
    tcp_close_wf, tcp_accept_wf, tcp_tick_wf, tcp_receive_wf.
Qed.
End runs.

Lemma tcp_init_wf st : tcp_wf (tcp_init st).
Proof. split; [done|]. apply Forall_replicate, zero_tcb_wf. Qed.

(** ** The receiver reassembles the peer's stream *)

Definition rx_view (t : TcpControlBlock) : bytes := take (Z.to_nat (rx_len t)) (rx_buf t).

Inductive rx_event := Arrive (seq : Z) (data : bytes) | Read (maxlen : Z).

(** The effect of a data segment, or of tcp_recv, on the receive side. *)
Definition rx_step (t : TcpControlBlock) (e : rx_event) : bytes * TcpControlBlock :=
  match e with
  | Arrive seq data => ([], if 0 <? Z.of_nat (length data) then rx_data t seq data else t)
  | Read maxlen =>
      if rx_len t =? 0 then ([], t)
      else rx_take t (if rx_len t <? maxlen then rx_len t else maxlen)
  end.
Fixpoint rx_run (t : TcpControlBlock) (es : list rx_event) : bytes * TcpControlBlock :=
  match es with
  | [] => ([], t)
  | e :: es => let '(out, t) := rx_step t e in
               let '(outs, t) := rx_run t es in (out ++ outs, t)
  end.

Section stream.
(** The stream the peer sends; its first byte has sequence number [irs]. *)
Context (strm : bytes) (irs : Z).
Hypothesis strm_short : Z.of_nat (length strm) < 2 ^ 32.

(** Every segment is a slice of the stream. *)
Definition honest (e : rx_event) : Prop :=
  match e with
  | Arrive seq data => exists p : nat, seq = u32 (irs + Z.of_nat p) /\
      (p + length data <= length strm)%nat /\ data = get_bytes strm p (length data)
  | Read maxlen => 0 <= maxlen
  end.

(** [del] bytes have been delivered. *)
Record rx_inv (del : nat) (t : TcpControlBlock) : Prop := mk_rx_inv {
  inv_wf : tcb_wf t;
  inv_fit : Z.of_nat del + rx_len t <= Z.of_nat (length strm);
  inv_ack : ack_num t = u32 (irs + Z.of_nat del + rx_len t);
  inv_view : rx_view t = get_bytes strm del (Z.to_nat (rx_len t));
  inv_ooo : ooo_valid t <> 0 -> exists p : nat, ooo_seq t = u32 (irs + Z.of_nat p) /\
    Z.of_nat p + ooo_len t <= Z.of_nat (length strm) /\
    take (Z.to_nat (ooo_len t)) (ooo_buf t) = get_bytes strm p (Z.to_nat (ooo_len t)) }.

(** Positions of the stream are told apart by their sequence numbers. *)
Lemma seq_inj p q : 0 <= p <= Z.of_nat (length strm) -> 0 <= q <= Z.of_nat (length strm) ->
  u32 (irs + p) = u32 (irs + q) -> p = q.
Proof.
  intros Hp Hq E. assert (Hz : (p - q) mod 2 ^ 32 = 0).
  { replace (p - q) with ((irs + p) - (irs + q)) by lia. rewrite Zminus_mod.
    unfold u32 in E. rewrite E, Z.sub_diag. done. }
  destruct (Z.eq_dec p q) as [|Hne]; [done|]. exfalso.
  pose proof (Z.div_mod (p - q) (2 ^ 32)). rewrite Hz in *. zify_u. lia.
Qed.

Lemma rx_store_inv del t data dlen p :
  rx_inv del t -> Z.of_nat p = Z.of_nat del + rx_len t -> 0 <= dlen <= Z.of_nat (length data) ->
  Z.of_nat p + dlen <= Z.of_nat (length strm) ->
  take (Z.to_nat dlen) data = get_bytes strm p (Z.to_nat dlen) ->
  rx_inv del (rx_store t data dlen) /\ ooo_valid (rx_store t data dlen) = ooo_valid t /\
  ooo_seq (rx_store t data dlen) = ooo_seq t.
Proof.
  intros [Hwf Hfit Hack Hview Hooo] Hp Hd Hb Hdata. split; [|done].
  pose proof (rx_store_wf t data dlen Hwf Hd) as Hwf'. split; [done| | | |done].
  all: destruct Hwf; unfold rx_store; set (store := if _ <? _ then _ else _);
    assert (Hs : 0 <= store <= 1024 - rx_len t /\ store <= dlen)
      by (unfold store; case_step; clia); clearbody store;
    cbn [rx_len ack_num rx_buf upd_with];
    rewrite (u16_id store), (u16_id (rx_len t + store)) by ulia.
  - lia.
  - rewrite Hack, (u32_id store) by ulia. unfold u32. rewrite Zplus_mod_idemp_l. f_equal. lia.
  - unfold rx_view. cbn [rx_len rx_buf upd_with].
    rewrite Z2Nat.inj_add, get_bytes_add by lia. rewrite <- Hview. unfold blit.
    replace (del + Z.to_nat (rx_len t))%nat with p by lia.
    assert (Hst : take (Z.to_nat store) data = get_bytes strm p (Z.to_nat store)).
    { rewrite <- (take_get_bytes _ _ _ (Z.to_nat dlen)) by lia. rewrite <- Hdata, take_take.
      f_equal. lia. }
    rewrite <- Hst, app_assoc, take_app_le by (len). rewrite take_ge; [done|len].
Qed.

Lemma rx_step_inv del t e : rx_inv del t -> honest e ->
  let '(out, t') := rx_step t e in
  out = get_bytes strm del (length out) /\ rx_inv (del + length out) t'.
Proof.
  intros Hinv He. pose proof (inv_wf _ _ Hinv) as Hwf. destruct e as [seq data|maxlen]; cbn [rx_step].
  - split; [done|]. cbn [length]. rewrite Nat.add_0_r.
    case_step; [|done]. destruct He as (p & Hseq & Hp & Hdata). unfold rx_data.
    destruct (Z.eqb_spec seq (ack_num t)) as [E|E].
    + assert (Epos : Z.of_nat p = Z.of_nat del + rx_len t).
      { destruct Hinv as [_ Hfit Hack _ _], Hwf. rewrite Hack, Hseq, <- Z.add_assoc in E.
        apply seq_inj in E; lia. }
      destruct (rx_store_inv del t data (Z.of_nat (length data)) p Hinv Epos) as (I1 & O1 & O2);
        [lia|lia|by rewrite Nat2Z.id, take_ge by lia|].
      set (t1 := rx_store t data _) in *.
      destruct (negb (ooo_valid t1 =? 0) && (ooo_seq t1 =? ack_num t1)) eqn:Eo; [|done].
      apply andb_true_iff in Eo as [Ev%negb_true_iff Es%Z.eqb_eq]. apply Z.eqb_neq in Ev.
      destruct (inv_ooo _ _ I1 Ev) as (q & Q1 & Q2 & Q3).
      assert (Eq : Z.of_nat q = Z.of_nat del + rx_len t1).
      { pose proof (inv_ack _ _ I1) as Ha. pose proof (inv_fit _ _ I1).
        pose proof (wf_rx_len _ (inv_wf _ _ I1)). pose proof (wf_ooo_len _ (inv_wf _ _ I1)).
        rewrite Ha, Q1, <- Z.add_assoc in Es. apply seq_inj in Es; lia. }
      destruct (rx_store_inv del t1 (ooo_buf t1) (ooo_len t1) q I1 Eq) as ([] & _);
        [destruct (inv_wf _ _ I1); lia|done|done|].
      split; try done. by apply tcb_wf_ooo_valid.
    + destruct ((ack_num t <? seq) && (ooo_valid t =? 0)) eqn:Eo; [|done].
      pose proof (rx_data_wf t seq data Hwf) as Hwf'. unfold rx_data in Hwf'.
      rewrite (proj2 (Z.eqb_neq _ _) E), Eo in Hwf'.
      set (store := if _ <? TCP_MAX_SEG then _ else _) in *.
      assert (Hs : 0 <= store <= 1024 /\ store <= Z.of_nat (length data))
        by (unfold store; case_step; clia).
      destruct Hinv as [_ Hfit Hack Hview _]. split; try done.
      * apply Hwf'. rewrite Hseq. apply u32_is.
      * intros _. exists p. cbn [ooo_seq ooo_len ooo_buf upd_with]. rewrite u16_id by ulia.
        split; [done|]. split; [lia|]. rewrite blit_0, take_app_le by len.
        rewrite take_take, Nat.min_id. rewrite Hdata. apply take_get_bytes. lia.
  - destruct (Z.eqb_spec (rx_len t) 0) as [Ez|Ez].
    { split; [done|]. by rewrite Nat.add_0_r. }
    set (n := if _ <? maxlen then _ else _).
    assert (Hn : 0 <= n <= rx_len t) by (unfold n; destruct Hwf; simpl in He; case_step; lia).
    clearbody n. unfold rx_take. pose proof (rx_take_wf t n Hwf Hn) as Hwf'.
    destruct Hinv as [_ Hfit Hack Hview Hooo]. pose proof (wf_rx_buf t Hwf) as Hlb.
    pose proof (wf_rx_len t Hwf) as Hlr.
    assert (Hout : read_n (rx_buf t) (Z.to_nat n) = get_bytes strm del (Z.to_nat n)).
    { rewrite read_n_take by lia. rewrite <- (take_get_bytes _ _ _ (Z.to_nat (rx_len t))) by lia.
      rewrite <- Hview. unfold rx_view. rewrite take_take. f_equal. lia. }
    rewrite length_read_n. split; [done|]. split; [exact Hwf'|..];
      cbn [rx_len ack_num rx_buf ooo_valid upd_with]; rewrite ?(u16_id n), ?u16_id by ulia.
    + lia.
    + rewrite Hack. f_equal. lia.
    + unfold rx_view. cbn [rx_len rx_buf upd_with].
      rewrite blit_0, take_app_le by (unfold get_bytes; len).
      rewrite take_ge by (unfold get_bytes; len).
      rewrite <- drop_get_bytes. replace (Z.to_nat n + Z.to_nat (rx_len t - n))%nat with
        (Z.to_nat (rx_len t)) by lia. rewrite <- Hview. unfold rx_view, get_bytes.
      rewrite take_drop_commute. do 2 f_equal. lia.
    + done.
Qed.

(** C23. If every arriving segment carries bytes of the peer's stream at the right sequence number
    - in whatever order, duplicated, overlapping or lost - then what the application has
    read followed by what is buffered is exactly a prefix of that stream, and the
    acknowledgement number is the position after it: nothing is delivered twice, out of
    order or from the wrong place (for streams shorter than the sequence space). *)
Theorem tcp_receive_stream t es :
  tcb_wf t -> rx_len t = 0 -> ooo_valid t = 0 -> ack_num t = u32 irs -> Forall honest es ->
  let '(out, t') := rx_run t es in
  out ++ rx_view t' = take (length out + Z.to_nat (rx_len t')) strm /\
  ack_num t' = u32 (irs + Z.of_nat (length out) + rx_len t').
Proof.
  intros Hwf Hr Ho Ha Hes.
  assert (Hrun : forall es del t, rx_inv del t -> Forall honest es ->
    let '(out, t') := rx_run t es in
    out = get_bytes strm del (length out) /\ rx_inv (del + length out) t').
  { clear - strm_short. induction es as [|e es IH]; intros del t Hinv Hes; cbn [rx_run].
    { cbn [length]. by rewrite Nat.add_0_r. }
    inversion_clear Hes as [|? ? He Hes']. pose proof (rx_step_inv del t e Hinv He) as Hs.
    destruct (rx_step t e) as [out t1]. destruct Hs as [E1 I1].
    specialize (IH _ _ I1 Hes'). destruct (rx_run t1 es) as [outs t2]. destruct IH as [E2 I2].
    rewrite length_app. split; [|by rewrite Nat.add_assoc].
    rewrite get_bytes_add. by rewrite <- E1, <- E2. }
  assert (I0 : rx_inv 0 t).
  { split; try done; rewrite ?Hr.
    - lia.
    - by rewrite !Z.add_0_r.
    - unfold rx_view. by rewrite Hr. }
  specialize (Hrun es 0%nat t I0 Hes). destruct (rx_run t es) as [out t']. destruct Hrun as [E I].
  destruct I as [_ _ Hack Hview _]. split; [|done].
  rewrite Hview. rewrite E at 1. rewrite <- get_bytes_add. done.
Qed.
End stream.

(** ** What goes on the wire *)

Section wire.
Implicit Types (h : TcpHeader) (p : bytes).

Lemma length_header_bytes h : length (header_bytes h) = 20%nat.
Proof. unfold header_bytes. len. Qed.

Lemma header_bytes_ok h : bytes_ok (header_bytes h).
Proof. unfold header_bytes, bytes_ok. rewrite !Forall_app. repeat split; apply le_enc_ok. Qed.

Definition fields_wf h : Prop :=
  is_u16 (h_src_port h) /\ is_u16 (h_dst_port h) /\ is_u32 (h_seq_num h) /\ is_u32 (h_ack_num h) /\
  is_u8 (h_data_offset h) /\ is_u8 (h_flags h) /\ is_u16 (h_window h) /\ is_u16 (h_checksum h) /\
  is_u16 (h_urgent_ptr h).

Lemma header_of_bytes h p : fields_wf h -> header_of (header_bytes h ++ p) = h.
Proof.
  intros (H1 & H2 & H3 & H4 & H5 & H6 & H7 & H8 & H9). unfold header_of, header_bytes.
  rewrite <- !app_assoc. destruct h;
    cbn [h_src_port h_dst_port h_seq_num h_ack_num h_data_offset h_flags h_window h_checksum
         h_urgent_ptr] in *.
  f_equal; fields; done.
Qed.

(** The words before and after the checksum field. *)
Definition head16 h : bytes :=
  le_enc 2 (h_src_port h) ++ le_enc 2 (h_dst_port h) ++ le_enc 4 (h_seq_num h) ++
  le_enc 4 (h_ack_num h) ++ le_enc 1 (h_data_offset h) ++ le_enc 1 (h_flags h) ++
  le_enc 2 (h_window h).

Lemma header_bytes_split h p :
  header_bytes h ++ p = head16 h ++ le_enc 2 (h_checksum h) ++ le_enc 2 (h_urgent_ptr h) ++ p.
Proof. unfold header_bytes, head16. by rewrite <- !app_assoc. Qed.

Lemma word_sum_segment h p c :
  h_checksum h = t_htons c -> is_u16 c ->
  word_sum (header_bytes h ++ p) =
  word_sum (head16 h) + c + word_sum (le_enc 2 (h_urgent_ptr h) ++ p).
Proof.
  intros E Hc. rewrite header_bytes_split, word_sum_app by done.
  rewrite E, le_enc_htons by done. simpl app. rewrite word_sum_pair. dlia.
Qed.

(** The sum over the pseudo header. *)
Definition pseudo_sum (src dst len : Z) : Z :=
  src / 65536 + src mod 65536 + dst / 65536 + dst mod 65536 + 6 + len.

Lemma tcp_calc_checksum_eq p src dst :
  bytes_ok p -> is_u32 src -> is_u32 dst -> Z.of_nat (length p) <= 32000 ->
  tcp_calc_checksum p src dst =
  t_htons (65535 - fold_sum 3 (pseudo_sum src dst (Z.of_nat (length p)) + word_sum p)) /\
  0 < pseudo_sum src dst (Z.of_nat (length p)) + word_sum p < 2 ^ 31.
Proof.
  intros Hp Hs Hd Hl. pose proof (word_sum_bound p Hp) as Hw. set (n := Z.of_nat (length p)) in *.
  assert (Hps : 0 < pseudo_sum src dst n < 2 ^ 20).
  { unfold pseudo_sum. change (2 ^ 20) with 1048576. clearbody n. dlia. }
  change (2 ^ 20) with 1048576 in Hps.
  split; [|ulia]. unfold tcp_calc_checksum. fold n.
  assert (Hones : forall x, Z.land x 0xFFFF = x mod 65536) by (intros; by apply (Z.land_ones x 16)).
  rewrite !Hones, !Z.shiftr_div_pow2 by lia. change (2 ^ 16) with 65536. clear Hones.
  assert (Hn0 : 0 <= n) by (unfold n; lia).
  rewrite (Z.mod_small (src / 65536)), (Z.mod_small (dst / 65536)) by dlia.
  rewrite (u32_id n) by (clearbody n; ulia).
  set (a := src / 65536). set (b := src mod 65536). set (c := dst / 65536). set (d := dst mod 65536).
  assert (Hab : 0 <= a < 65536 /\ 0 <= b < 65536 /\ 0 <= c < 65536 /\ 0 <= d < 65536)
    by (unfold a, b, c, d; clear Hps; dlia).
  change (pseudo_sum src dst n) with (a + b + c + d + 6 + n) in *. clearbody a b c d n.
  rewrite (u32_id a), (u32_id (a + b)), (u32_id (a + b + c)), (u32_id (a + b + c + d)),
    (u32_id (a + b + c + d + 6)), (u32_id (a + b + c + d + 6 + n)) by ulia.
  rewrite sum_words_spec by (done || ulia).
  destruct (fold_sum_spec (a + b + c + d + 6 + n + word_sum p)) as (F1 & _ & _); [ulia|].
  by rewrite u16_lnot.
Qed.

(** C26. A segment as it is put on the wire: its checksum verifies at the receiver (the same sum
    over it gives zero), and the receiver decodes from it the ports, the sequence number,
    the acknowledgement, the flags, the window and the payload that were sent. *)
Theorem tcp_segment_on_wire st t flags payload seq :
  is_u32 (g_local_ip st) -> is_u32 (remote_ip t) -> is_u16 (local_port t) ->
  is_u16 (remote_port t) -> is_u32 (ack_num t) -> is_u16 (window t) -> is_u32 seq ->
  is_u8 flags -> bytes_ok payload -> Z.of_nat (length payload) <= TCP_MAX_SEG ->
  let seg := build_segment st t flags payload (Z.of_nat (length payload)) seq in
  let h := header_of seg in
  tcp_calc_checksum seg (g_local_ip st) (remote_ip t) = 0 /\
  t_ntohs (h_src_port h) = local_port t /\ t_ntohs (h_dst_port h) = remote_port t /\
  t_ntohl (h_seq_num h) = seq /\ h_flags h = flags /\ t_ntohs (h_window h) = window t /\
  (has flags TCP_FLAG_ACK = true -> t_ntohl (h_ack_num h) = ack_num t) /\
  Z.shiftr (h_data_offset h) 4 * 4 = TCP_HEADER /\ drop (Z.to_nat TCP_HEADER) seg = payload.
Proof.
  intros Hl Hr Hlp Hrp Ha Hw Hq Hf Hp Hlen seg h.
  assert (Hpl : take (Z.to_nat (Z.of_nat (length payload))) payload = payload)
    by (rewrite Nat2Z.id; apply take_ge; lia).
  set (hd := fun c => mkTcpHeader (t_htons (local_port t)) (t_htons (remote_port t)) (t_htonl seq)
    (if has flags TCP_FLAG_ACK then t_htonl (ack_num t) else 0) (Z.shiftl 5 4) flags
    (t_htons (window t)) c 0).
  set (cks := tcp_calc_checksum (header_bytes (hd 0) ++ payload) (g_local_ip st) (remote_ip t)).
  assert (Eseg : seg = header_bytes (hd cks) ++ payload).
  { unfold seg, build_segment. rewrite Hpl. done. }
  assert (Hok : forall c, bytes_ok (header_bytes (hd c) ++ payload)).
  { intros c. apply Forall_app. split; [apply header_bytes_ok|done]. }
  assert (Hlen2 : forall c, Z.of_nat (length (header_bytes (hd c) ++ payload)) =
                            20 + Z.of_nat (length payload)).
  { intros c. rewrite length_app, length_header_bytes. lia. }
  destruct (tcp_calc_checksum_eq (header_bytes (hd 0) ++ payload) (g_local_ip st) (remote_ip t))
    as [E0 B0]; [done..|rewrite Hlen2; clia|]. rewrite Hlen2 in E0, B0.
  set (s := pseudo_sum _ _ _ + word_sum (header_bytes (hd 0) ++ payload)) in *.
  destruct (fold_sum_spec s) as (F1 & _ & F3); [ulia|]. specialize (F3 ltac:(lia)).
  assert (Hc16 : is_u16 (65535 - fold_sum 3 s)) by ulia.
  assert (Hcks : is_u16 cks) by (unfold cks; rewrite E0; apply t_htons_is).
  assert (Hwf : fields_wf (hd cks)).
  { repeat split; try apply t_htons_is; try apply t_htonl_is; try done; simpl; try apply Hf;
      try (case_step; [apply t_htonl_is; done|done]); apply Hcks. }
  split.
  - rewrite Eseg.
    destruct (tcp_calc_checksum_eq (header_bytes (hd cks) ++ payload) (g_local_ip st) (remote_ip t))
      as [E1 _]; [done..|rewrite Hlen2; clia|]. rewrite E1, Hlen2.
    rewrite (word_sum_segment (hd cks) payload (65535 - fold_sum 3 s)) by done.
    change (head16 (hd cks)) with (head16 (hd 0)).
    change (h_urgent_ptr (hd cks)) with (h_urgent_ptr (hd 0)).
    assert (Es : s = pseudo_sum (g_local_ip st) (remote_ip t) (20 + Z.of_nat (length payload)) +
      (word_sum (head16 (hd 0)) + 0 + word_sum (le_enc 2 (h_urgent_ptr (hd 0)) ++ payload))).
    { unfold s. by rewrite (word_sum_segment (hd 0) payload 0). }
    match goal with |- t_htons (65535 - fold_sum 3 ?x) = 0 =>
      replace x with (s + (65535 - fold_sum 3 s)) by lia end.
    rewrite checksum_verifies by lia. done.
  - assert (Eh : h = hd cks) by (unfold h; rewrite Eseg; by apply header_of_bytes).
    rewrite Eh. cbn [hd h_src_port h_dst_port h_seq_num h_ack_num h_data_offset h_flags h_window].
    rewrite !t_ntohs_htons, t_ntohl_htonl by done. do 5 (split; [done|]). split; [|split; [done|]].
    + intros ->. by apply t_ntohl_htonl.
    + rewrite Eseg. apply drop_app_length'. rewrite length_header_bytes. done.
Qed.
End wire.

(** ** A passive open, as in kernel/net/tests/test_tcp_ooo.c *)

Definition no_ip (dst : Z) (seg : bytes) : Z := 0.
Definition CLIENT_IP := 0x0A000002.
Definition LOCAL_IP := 0x0A00000F.
Definition packet (seq ack flags : Z) (payload : bytes) : bytes :=
  header_bytes (mkTcpHeader (t_htons 55000) (t_htons 7777) (t_htonl seq) (t_htonl ack)
    (Z.shiftl 5 4) flags (t_htons 4096) 0 0) ++ payload.
Definition tcp0 : Tcp :=
  tcp_set_output (tcp_init (mkTcp [] false 0 49152 1000 [])) true LOCAL_IP.
Definition server_isn : Z := 64065.
Definition handshake : list tcp_call :=
  [CListen 7777; CReceive CLIENT_IP LOCAL_IP (packet 100 0 TCP_FLAG_SYN []);
   CReceive CLIENT_IP LOCAL_IP (packet 101 (server_isn + 1) TCP_FLAG_ACK [])].
Definition established : Tcp := tcp_run no_ip tcp0 handshake.
Definition HELLO : bytes := [72; 69; 76; 76; 79].
Definition WORLD : bytes := [87; 79; 82; 76; 68].

Lemma handshake_wf : Forall call_wf handshake.
Proof.
  assert (Hp : forall s a f, bytes_ok (packet s a f [])).
  { intros s a f. apply Forall_app. split; [apply header_bytes_ok|constructor]. }
  constructor; [done|]. constructor; [apply Hp|]. constructor; [apply Hp|constructor].
Qed.

Lemma tcp0_wf : tcp_wf tcp0.
Proof. exact (tcp_init_wf (mkTcp [] false 0 49152 1000 [])). Qed.

Lemma established_wf : tcp_wf established.
Proof.
  assert (Hrun : forall cs st, tcp_wf st -> Forall call_wf cs -> tcp_wf (tcp_run no_ip st cs)).
  { induction cs as [|c cs IH]; intros st Hwf Hc; [done|].
    inversion_clear Hc as [|? ? H1 H2]. apply IH; [|done].
    destruct c; simpl; auto using tcp_listen_wf, tcp_connect_wf, tcp_send_wf, tcp_recv_wf,
      tcp_close_wf, tcp_accept_wf, tcp_tick_wf, tcp_receive_wf. }
  apply Hrun; [apply tcp0_wf|apply handshake_wf].
Qed.

Lemma tcp_run_wf_witness :
  state (tcb established 1) = TCP_ESTABLISHED /\ tcp_wf (tcp_run no_ip tcp0 handshake).
Proof.
  split; [vm_compute; reflexivity|]. apply tcp_run_wf; [apply tcp0_wf|apply handshake_wf].
Defined.

Lemma tcp_send_refines_witness :
  let '(rc, st') := tcp_send no_ip established 1 HELLO 5 in
  rc = 5 /\ tx_view (tcb st' 1) = tx_view (tcb established 1) ++ HELLO.
Proof.
  assert (Hi : sock_ok 1) by (unfold sock_ok; lia).
  assert (Hs : sending (tcb established 1)) by (left; vm_compute; reflexivity).
  assert (Hl : 0 < Z.of_nat (length HELLO)) by (vm_compute; reflexivity).
  assert (Hn : acceptable (tcb established 1) (Z.of_nat (length HELLO)) = 5)
    by (vm_compute; reflexivity).
  pose proof (tcp_send_refines no_ip established 1 HELLO established_wf Hi Hs Hl) as Hr.
  cbv zeta in Hr. rewrite Hn in Hr. change (Z.of_nat (length HELLO)) with 5 in Hr.
  destruct (tcp_send no_ip established 1 HELLO 5) as [rc st'].
  destruct Hr as (R1 & _ & R2 & _). split; [exact R1|exact R2].
Defined.

(** Five bytes in flight, three of them acknowledged. *)
Definition sent5 : TcpControlBlock := tcb (tcp_send no_ip established 1 HELLO 5).2 1.

Lemma tcp_ack_advance_refines_witness :
  tx_view sent5 = HELLO /\
  tx_view (tcp_ack_advance 2000 sent5 (server_isn + 4) 4096) = drop 3 HELLO.
Proof.
  assert (Hv : tx_view sent5 = HELLO) by (vm_compute; reflexivity).
  assert (Hw : tcb_wf sent5).
  { apply tcb_is_wf; [|unfold sock_ok; lia]. apply (tcp_send_wf no_ip established 1 HELLO).
    apply established_wf. }
  assert (Ha : is_u32 (server_isn + 4)) by (vm_compute; split; congruence).
  destruct (tcp_ack_advance_refines 2000 sent5 (server_isn + 4) 4096 Hw Ha) as (H1 & _).
  assert (Hle : u32 (server_isn + 4 - snd_una sent5) <= inflight sent5) by (vm_compute; congruence).
  split; [exact Hv|]. destruct (H1 Hle) as [E _]. rewrite Hv in E.
  assert (Hn : Z.to_nat (u32 (server_isn + 4 - snd_una sent5)) = 3%nat) by (vm_compute; reflexivity).
  rewrite Hn in E. exact E.
Defined.

Lemma tcp_handle_segment_edges_witness :
  let st' := tcp_handle_segment no_ip established 1
    (header_of (packet 101 0 (Z.lor TCP_FLAG_FIN TCP_FLAG_ACK) [])) [] in
  state (tcb st' 1) = TCP_CLOSE_WAIT /\ tcp_wf st'.
Proof.
  split; [vm_compute; reflexivity|].
  apply tcp_handle_segment_edges; [apply established_wf|unfold sock_ok; lia|].
  vm_compute. repeat split; congruence.
Defined.

(** "WORLD" arrives before "HELLO". *)
Definition late_hello : list rx_event := [Arrive 106 WORLD; Arrive 101 HELLO; Read 64].

Lemma tcp_receive_stream_witness :
  let '(out, t') := rx_run (tcb established 1) late_hello in
  out = HELLO ++ WORLD /\ out ++ rx_view t' = take (length out + Z.to_nat (rx_len t')) (HELLO ++ WORLD).
Proof.
  assert (Hs : Z.of_nat (length (HELLO ++ WORLD)) < 2 ^ 32) by (vm_compute; reflexivity).
  assert (Hh : Forall (honest (HELLO ++ WORLD) 101) late_hello).
  { constructor; [|constructor; [|constructor; [|constructor]]].
    - exists 5%nat. repeat split; vm_compute; lia.
    - exists 0%nat. repeat split; vm_compute; lia.
    - vm_compute. congruence. }
  assert (Hw : tcb_wf (tcb established 1))
    by (apply tcb_is_wf; [apply established_wf|unfold sock_ok; lia]).
  assert (H1 : rx_len (tcb established 1) = 0) by (vm_compute; reflexivity).
  assert (H2 : ooo_valid (tcb established 1) = 0) by (vm_compute; reflexivity).
  assert (H3 : ack_num (tcb established 1) = u32 101) by (vm_compute; reflexivity).
  pose proof (tcp_receive_stream (HELLO ++ WORLD) 101 Hs (tcb established 1) late_hello Hw H1 H2 H3 Hh) as Hr.
  assert (Ho : (rx_run (tcb established 1) late_hello).1 = HELLO ++ WORLD) by (vm_compute; reflexivity).
  destruct (rx_run (tcb established 1) late_hello) as [out t']. destruct Hr as [Hr _].
  split; [exact Ho|exact Hr].
Defined.

Lemma tcp_segment_on_wire_witness :
  let seg := build_segment established (tcb established 1) TCP_FLAG_ACK HELLO 5 77 in
  tcp_calc_checksum seg (g_local_ip established) (remote_ip (tcb established 1)) = 0 /\
  drop 20 seg = HELLO.
Proof.
  assert (Hp : bytes_ok HELLO) by (apply bytes_ok_dec; reflexivity).
  assert (R1 : is_u32 (g_local_ip established)) by (vm_compute; split; congruence).
  assert (R2 : is_u32 (remote_ip (tcb established 1))) by (vm_compute; split; congruence).
  assert (R3 : is_u16 (local_port (tcb established 1))) by (vm_compute; split; congruence).
  assert (R4 : is_u16 (remote_port (tcb established 1))) by (vm_compute; split; congruence).
  assert (R5 : is_u32 (ack_num (tcb established 1))) by (vm_compute; split; congruence).
  assert (R6 : is_u16 (window (tcb established 1))) by (vm_compute; split; congruence).
  assert (R7 : is_u32 77 /\ is_u8 TCP_FLAG_ACK) by (vm_compute; repeat split; congruence).
  assert (R8 : Z.of_nat (length HELLO) <= TCP_MAX_SEG) by (vm_compute; congruence).
  destruct (tcp_segment_on_wire established (tcb established 1) TCP_FLAG_ACK HELLO 77
    R1 R2 R3 R4 R5 R6 (proj1 R7) (proj2 R7) Hp R8) as (H1 & _ & _ & _ & _ & _ & _ & _ & H2).
  split; [exact H1|exact H2].
Defined.

(** The buffered out-of-order segment is never given up: once the peer resends its bytes as
    part of a longer segment, the old one stays marked valid behind the acknowledgement
    number, and a later segment that arrives early is not buffered any more. *)
Lemma tcp_stale_ooo_blocks_reassembly :
  let t := tcb established 1 in
  let es := [Arrive 106 WORLD; Arrive 101 (HELLO ++ WORLD ++ HELLO)] in
  let t1 := (rx_run t es).2 in
  ooo_valid t1 = 1 /\ ooo_seq t1 < ack_num t1 /\
  rx_data t1 (ack_num t1 + 5) WORLD = t1.
Proof. vm_compute. done. Qed.
