(* ===== verification/Udp.v ===== *)
(** UDP sockets, and the DHCP and DNS clients built on them
    (kernel/net/udp.c, include/udp.h).

    [Udp] is the static state of udp.c with the clock get_kernel_tick() and
    the log of what was handed to the IP layer.  The clients wait by halting
    until the next interrupt; what happens at the n-th halt (the clock
    advances, datagrams may arrive) is the parameter [irq]. *)

From S2P Require Import Prelude Inet.


(** [include/udp.h] constants *)
Definition UDP_MAX_SOCKETS := 8.
Definition UDP_RX_QUEUE := 4.
Definition UDP_MAX_PAYLOAD := 1472.
(** [kernel/net/udp.c] constants *)
Definition DHCP_MAGIC := 0x63825363.
#[export] Hint Unfold UDP_MAX_SOCKETS UDP_RX_QUEUE UDP_MAX_PAYLOAD : consts.

(** [kernel/net/udp.c] u_htons *)
Definition u_htons (h : Z) : Z := u16 (Z.lor (Z.shiftr h 8) (Z.shiftl h 8)).

(** [kernel/net/udp.c] UdpDatagram *)
Record UdpDatagram := mkDatagram { d_src_ip : Z; d_src_port : Z; d_len : Z; d_data : bytes }.
(** [kernel/net/udp.c] UdpSocket *)
Record UdpSocket := mkUdpSocket {
  in_use : Z; port : Z; rx_head : Z; rx_count : Z; rx : list UdpDatagram }.
#[export] Instance eta_udpsocket : Eta UdpSocket :=
  fun r => mkUdpSocket (in_use r) (port r) (rx_head r) (rx_count r) (rx r).
Definition zero_datagram : UdpDatagram := mkDatagram 0 0 0 (zeros (Z.to_nat UDP_MAX_PAYLOAD)).
#[export] Instance inhabited_datagram : Inhabited UdpDatagram := populate zero_datagram.
Definition zero_socket : UdpSocket :=
  mkUdpSocket 0 0 0 0 (replicate (Z.to_nat UDP_RX_QUEUE) zero_datagram).
#[export] Instance inhabited_udpsocket : Inhabited UdpSocket := populate zero_socket.

(** [kernel/net/udp.c:38-41] g_socks *)
Record Udp := mkUdp {
  g_socks : list UdpSocket; output_set : bool; g_local_ip : Z; g_next_ephemeral : Z;
  g_dns_server : Z; tick : Z; wire : list (Z * Z * bytes) }.
#[export] Instance eta_udp : Eta Udp := fun r =>
  mkUdp (g_socks r) (output_set r) (g_local_ip r) (g_next_ephemeral r) (g_dns_server r)
    (tick r) (wire r).
Definition sock (st : Udp) (i : Z) : UdpSocket := geti (g_socks st) i.
Definition set_sock (st : Udp) (i : Z) (s : UdpSocket) : Udp :=
  st <| g_socks := puti (g_socks st) i s |>.
Definition used (s : UdpSocket) : bool := negb (in_use s =? 0).

(** [kernel/net/udp.c] udp_init *)
Definition udp_init (st : Udp) : Udp :=
  st <| g_socks := replicate (Z.to_nat UDP_MAX_SOCKETS) zero_socket |>.
(** [kernel/net/udp.c] udp_set_output *)
Definition udp_set_output (st : Udp) (fn : bool) (ip : Z) : Udp :=
  st <| output_set := fn |> <| g_local_ip := ip |>.
(** [kernel/net/udp.c] udp_set_local_ip *)
Definition udp_set_local_ip (st : Udp) (ip : Z) : Udp := st <| g_local_ip := ip |>.

(** [kernel/net/udp.c] udp_bind *)
Definition udp_bind (st : Udp) (p : Z) : Z * Udp :=
  let '(p, st) :=
    if p =? 0 then
      let next := u16 (g_next_ephemeral st + 1) in
      (g_next_ephemeral st, st <| g_next_ephemeral := if next <? 50000 then 50000 else next |>)
    else (p, st) in
  match find_idx (fun s => used s && (port s =? p)) (g_socks st) with
  | Some _ => (-1, st)
  | None =>
      match find_idx (fun s => negb (used s)) (g_socks st) with
      | None => (-1, st)
      | Some n => (Z.of_nat n, set_sock st (Z.of_nat n) (zero_socket <| in_use := 1 |> <| port := p |>))
      end
  end.

Definition bad_sock (i : Z) : bool := (i <? 0) || (UDP_MAX_SOCKETS <=? i).

(** [kernel/net/udp.c] udp_close *)
Definition udp_close (st : Udp) (i : Z) : Z * Udp :=
  if bad_sock i then (-1, st) else (0, set_sock st i (sock st i <| in_use := 0 |>)).
(** [kernel/net/udp.c] udp_local_port *)
Definition udp_local_port (st : Udp) (i : Z) : Z :=
  if bad_sock i || negb (used (sock st i)) then 0 else port (sock st i).

Section udp.
(** The IP layer's return code. *)
Context (ip_output : Z -> Z -> bytes -> Z).

(** [kernel/net/udp.c] udp_sendto *)
Definition udp_sendto (st : Udp) (i dst_ip dst_port : Z) (buf : bytes) (len : Z) : Z * Udp :=
  if bad_sock i || negb (used (sock st i)) then (-1, st) else
  if negb (output_set st) || (len <? 0) || (UDP_MAX_PAYLOAD <? len) then (-1, st) else
  let p := port (sock st i) in
  let seg := le_enc 2 (u_htons p) ++ le_enc 2 (u_htons dst_port) ++
             le_enc 2 (u_htons (u16 (8 + len))) ++ le_enc 2 0 ++ read_n buf (Z.to_nat len) in
  let src := if (dst_ip =? 0xFFFFFFFF) && (p =? 68) then 0 else g_local_ip st in
  (ip_output src dst_ip seg, st <| wire := wire st ++ [(src, dst_ip, seg)] |>).

(** Code, the bytes stored in the buffer, the source address and port, state.
    [kernel/net/udp.c] udp_recvfrom *)
Definition udp_recvfrom (st : Udp) (i maxlen : Z) : Z * bytes * (Z * Z) * Udp :=
  if bad_sock i || negb (used (sock st i)) then (-1, [], (0, 0), st) else
  let s := sock st i in
  if rx_count s =? 0 then (0, [], (0, 0), st) else
  let d := geti (rx s) (rx_head s) in
  let n := if d_len d <? maxlen then d_len d else maxlen in
  let s := s <| rx_head := u8 ((rx_head s + 1) mod UDP_RX_QUEUE) |> <| rx_count := rx_count s - 1 |> in
  (n, read_n (d_data d) (Z.to_nat n), (d_src_ip d, d_src_port d), set_sock st i s).

(** The payload length udp_receive_packet takes from the header.
    [kernel/net/udp.c:120-122] udp_receive_packet *)
Definition payload_len (seg : bytes) : Z :=
  let len := Z.of_nat (length seg) in
  let plen := u_htons (get_le seg 4 2) - 8 in
  let plen := if (plen <? 0) || (len - 8 <? plen) then len - 8 else plen in
  if UDP_MAX_PAYLOAD <? plen then UDP_MAX_PAYLOAD else plen.

(** [kernel/net/udp.c] udp_receive_packet *)
Definition udp_receive_packet (st : Udp) (src_ip dst_ip : Z) (seg : bytes) : Udp :=
  if Z.of_nat (length seg) <? 8 then st else
  let dport := u_htons (get_le seg 2 2) in
  let plen := payload_len seg in
  match find_idx (fun s => used s && (port s =? dport)) (g_socks st) with
  | None => st
  | Some n =>
      let s := sock st (Z.of_nat n) in
      if UDP_RX_QUEUE <=? rx_count s then st else
      let k := (rx_head s + rx_count s) mod UDP_RX_QUEUE in
      let d := mkDatagram src_ip (u_htons (get_le seg 0 2)) (u16 plen)
        (blit (d_data (geti (rx s) k)) 0 (get_bytes seg 8 (Z.to_nat plen))) in
      set_sock st (Z.of_nat n) (s <| rx := puti (rx s) k d |> <| rx_count := u8 (rx_count s + 1) |>)
  end.

(** ** DHCP *)

(** The four bytes of an address, high byte first. *)
Definition be32 (v : Z) : bytes := [u8 (Z.shiftr v 24); u8 (Z.shiftr v 16); u8 (Z.shiftr v 8); u8 v].

(** [kernel/net/udp.c] dhcp_build *)
Definition dhcp_build (pkt : bytes) (xid : Z) (mac : bytes) (msg_type req_ip server_ip : Z)
    : Z * bytes :=
  let pkt := blit pkt 0 (zeros 300) in
  let pkt := puti (puti (puti pkt 0 1) 1 1) 2 6 in
  let pkt := blit pkt 4 (be32 xid) in
  let pkt := puti pkt 10 0x80 in
  let pkt := blit pkt 28 (take 6 mac) in
  let pkt := blit pkt 236 [0x63; 0x82; 0x53; 0x63] in
  let opts := [53; 1; msg_type] ++
    (if negb (req_ip =? 0) then [50; 4] ++ be32 req_ip else []) ++
    (if negb (server_ip =? 0) then [54; 4] ++ be32 server_ip else []) ++
    [55; 3; 1; 3; 6; 255] in
  let o := 240 + Z.of_nat (length opts) in
  (if o <? 300 then 300 else o, blit pkt 240 opts).

(** [kernel/net/udp.c] rd_be32 *)
Definition rd_be32 (p : bytes) (off : Z) : Z :=
  Z.lor (Z.lor (Z.lor (u32 (Z.shiftl (geti p off) 24)) (Z.shiftl (geti p (off + 1)) 16))
    (Z.shiftl (geti p (off + 2)) 8)) (geti p (off + 3)).

(** The fields dhcp_parse fills. *)
Record Lease := mkLease { yiaddr : Z; mask : Z; gw : Z; dns : Z; server : Z }.
#[export] Instance eta_lease : Eta Lease :=
  fun r => mkLease (yiaddr r) (mask r) (gw r) (dns r) (server r).

(** [kernel/net/udp.c:196-203] dhcp_parse *)
Definition dhcp_option (pkt : bytes) (opt olen v msg_type : Z) (l : Lease) : Z * Lease :=
  if opt =? 53 then (if 1 <=? olen then geti pkt v else msg_type, l)
  else if opt =? 1 then (msg_type, if 4 <=? olen then l <| mask := rd_be32 pkt v |> else l)
  else if opt =? 3 then (msg_type, if 4 <=? olen then l <| gw := rd_be32 pkt v |> else l)
  else if opt =? 6 then (msg_type, if 4 <=? olen then l <| dns := rd_be32 pkt v |> else l)
  else if opt =? 54 then (msg_type, if 4 <=? olen then l <| server := rd_be32 pkt v |> else l)
  else (msg_type, l).

(** The option loop; every round advances, so [len] rounds are enough
    ([dhcp_options_enough]).
    [kernel/net/udp.c:187-206] dhcp_parse *)
Fixpoint dhcp_options (fuel : nat) (pkt : bytes) (len o msg_type : Z) (l : Lease) : option (Z * Lease) :=
  match fuel with
  | O => None
  | S fuel =>
      if negb (o + 1 <? len) then Some (msg_type, l) else
      let opt := geti pkt o in
      if opt =? 255 then Some (msg_type, l)
      else if opt =? 0 then dhcp_options fuel pkt len (o + 1) msg_type l
      else
        let olen := geti pkt (o + 1) in
        if len <? o + 2 + olen then Some (msg_type, l) else
        let '(msg_type, l) := dhcp_option pkt opt olen (o + 2) msg_type l in
        dhcp_options fuel pkt len (o + 2 + olen) msg_type l
  end.

(** [kernel/net/udp.c] dhcp_parse *)
Definition dhcp_parse (pkt : bytes) (len xid : Z) (l : Lease) : Z * Lease :=
  if (len <? 244) || negb (geti pkt 0 =? 2) then (0, l) else
  if negb (rd_be32 pkt 4 =? xid) then (0, l) else
  if negb (rd_be32 pkt 236 =? DHCP_MAGIC) then (0, l) else
  default (0, l) (dhcp_options (S (Z.to_nat len)) pkt len 240 0 (l <| yiaddr := rd_be32 pkt 16 |>)).

(** *** Waiting *)

(** What the [n]-th halt brings. *)
Context (irq : nat -> Udp -> Udp).

(** The wait for a reply: poll until the predicate on the parsed message
    accepts ([Some]) or the time is over; [hn] counts the halts.
    [kernel/net/udp.c:231-239] dhcp_run *)
Fixpoint wait_offer (fuel : nat) (st : Udp) (pkt : bytes) (i start limit xid : Z) (l : Lease) (hn : nat)
    : bool * Udp * bytes * Lease * nat :=
  match fuel with
  | O => (false, st, pkt, l, hn)
  | S fuel =>
      if negb (u32 (tick st - start) <? limit) then (false, st, pkt, l, hn) else
      let '(r, out, _, st) := udp_recvfrom st i UDP_MAX_PAYLOAD in
      let pkt := blit pkt 0 out in
      let '(t, l) := if 0 <? r then dhcp_parse pkt r xid l else (0, l) in
      if t =? 2 then (true, st, pkt, l, hn)
      else wait_offer fuel (irq hn st) pkt i start limit xid l (S hn)
  end.
(** [kernel/net/udp.c:247-257] dhcp_run *)
Fixpoint wait_ack (fuel : nat) (st : Udp) (pkt : bytes) (i start limit xid : Z) (l : Lease) (hn : nat)
    : bool * Udp * bytes * Lease * nat :=
  match fuel with
  | O => (false, st, pkt, l, hn)
  | S fuel =>
      if negb (u32 (tick st - start) <? limit) then (false, st, pkt, l, hn) else
      let '(r, out, _, st) := udp_recvfrom st i UDP_MAX_PAYLOAD in
      let pkt := blit pkt 0 out in
      let '(t, l) := if 0 <? r then dhcp_parse pkt r xid l else (0, l) in
      if t =? 5 then (true, st, pkt, l, hn)
      else if t =? 6 then (false, st, pkt, l, hn)
      else wait_ack fuel (irq hn st) pkt i start limit xid l (S hn)
  end.

(** [kernel/net/udp.c:223-258] dhcp_run *)
Fixpoint dhcp_attempts (n fuel : nat) (st : Udp) (pkt : bytes) (i limit xid : Z) (mac : bytes)
    (l : Lease) (hn : nat) : Z * Udp * Lease :=
  match n with
  | O => (-1, st, l)
  | S n =>
      let '(k, pkt) := dhcp_build pkt xid mac 1 0 0 in
      let st := (udp_sendto st i 0xFFFFFFFF 67 pkt k).2 in
      let '(got, st, pkt, l, hn) := wait_offer fuel st pkt i (tick st) limit xid l hn in
      if negb got then dhcp_attempts n fuel st pkt i limit xid mac l hn else
      let '(k, pkt) := dhcp_build pkt xid mac 3 (yiaddr l) (server l) in
      let st := (udp_sendto st i 0xFFFFFFFF 67 pkt k).2 in
      let '(acked, st, pkt, l, hn) := wait_ack fuel st pkt i (tick st) limit xid l hn in
      if acked then (0, st, l) else dhcp_attempts n fuel st pkt i limit xid mac l hn
  end.

(** Code, the address, mask, gateway and name server of the lease, state; the
    hardware address and the timer rate are the kernel's, [fuel] bounds the
    polls of one wait.
    [kernel/net/udp.c] dhcp_run *)
Definition dhcp_run (fuel : nat) (st : Udp) (mac : bytes) (hz : Z) : Z * option Lease * Udp :=
  let hz := if hz =? 0 then 240 else hz in
  let '(i, st) := udp_bind st 68 in
  if i <? 0 then (-1, None, st) else
  let xid := Z.lxor (Z.lxor (u32 (Z.shiftl (tick st) 8)) (Z.shiftl (geti mac 5) 4)) (geti mac 4) in
  let '(rc, st, l) := dhcp_attempts 3 fuel st (zeros (Z.to_nat UDP_MAX_PAYLOAD)) i (u32 (hz * 2)) xid
                        mac (mkLease 0 0 0 0 0) 0 in
  let st := (udp_close st i).2 in
  (rc, if rc =? 0 then Some l else None, st).

(** ** DNS *)

(** [kernel/net/udp.c] dns_set_server *)
Definition dns_set_server (st : Udp) (ip : Z) : Udp := st <| g_dns_server := ip |>.
(** [kernel/net/udp.c] dns_get_server *)
Definition dns_get_server (st : Udp) : Z := g_dns_server st.

(** [None] when the fuel runs out, which [len] rounds never do
    ([dns_skip_name_total]).
    [kernel/net/udp.c] dns_skip_name *)
Fixpoint dns_skip_name (fuel : nat) (pkt : bytes) (len o : Z) : option Z :=
  match fuel with
  | O => None
  | S fuel =>
      if negb (o <? len) then Some (-1) else
      let l := geti pkt o in
      if l =? 0 then Some (o + 1)
      else if Z.land l 0xC0 =? 0xC0 then Some (o + 2)
      else dns_skip_name fuel pkt len (o + 1 + l)
  end.
Definition skip_name (pkt : bytes) (len o : Z) : Z :=
  default (-1) (dns_skip_name (S (Z.to_nat len)) pkt len o).

(** The dotted name as length-prefixed labels; [None] is the early return.
    [kernel/net/udp.c:307-321] dns_resolve *)
Fixpoint dns_qname (pkt : bytes) (label_start o label_len : Z) (name : bytes) : option (bytes * Z) :=
  match name with
  | c :: name' =>
      if (c =? 46) || (c =? 0) then
        if (label_len =? 0) || (63 <? label_len) then None else
        let pkt := puti pkt label_start (u8 label_len) in
        if c =? 0 then Some (pkt, o) else dns_qname pkt o (o + 1) 0 name'
      else if 500 <=? o then None
      else dns_qname (puti pkt o (u8 c)) label_start (o + 1) (label_len + 1) name'
  | [] =>
      if (label_len =? 0) || (63 <? label_len) then None
      else Some (puti pkt label_start (u8 label_len), o)
  end.

(** The query packet and its length.
    [kernel/net/udp.c:299-324] dns_resolve *)
Definition dns_query (pkt : bytes) (qid : Z) (name : bytes) : option (bytes * Z) :=
  let pkt := blit pkt 0 (zeros 12) in
  let pkt := puti (puti (puti (puti pkt 0 (u8 (Z.shiftr qid 8))) 1 (u8 qid)) 2 1) 5 1 in
  match dns_qname pkt 12 13 0 name with
  | None => None
  | Some (pkt, o) => Some (blit pkt (Z.to_nat o) [0; 0; 1; 0; 1], o + 5)
  end.

(** [kernel/net/udp.c:338-341] dns_resolve *)
Fixpoint skip_questions (q : nat) (resp : bytes) (r off : Z) : Z :=
  match q with
  | O => off
  | S q =>
      if negb (0 <? off) then off else
      let off := skip_name resp r off in
      skip_questions q resp r (if 0 <? off then off + 4 else off)
  end.
(** The first A record among the answers.
    [kernel/net/udp.c:342-354] dns_resolve *)
Fixpoint scan_answers (a : nat) (resp : bytes) (r off : Z) : option Z :=
  match a with
  | O => None
  | S a =>
      if negb ((0 <? off) && (off + 10 <=? r)) then None else
      let off := skip_name resp r off in
      if (off <? 0) || (r <? off + 10) then None else
      let type := u16 (Z.lor (Z.shiftl (geti resp off) 8) (geti resp (off + 1))) in
      let rdlen := u16 (Z.lor (Z.shiftl (geti resp (off + 8)) 8) (geti resp (off + 9))) in
      let off := off + 10 in
      if (type =? 1) && (rdlen =? 4) && (off + 4 <=? r) then Some (rd_be32 resp off)
      else scan_answers a resp r (off + rdlen)
  end.
(** A reply that matches the query.
    [kernel/net/udp.c:335-354] dns_resolve *)
Definition dns_reply (resp : bytes) (r : Z) : option Z :=
  let qd := u16 (Z.lor (Z.shiftl (geti resp 4) 8) (geti resp 5)) in
  let an := u16 (Z.lor (Z.shiftl (geti resp 6) 8) (geti resp 7)) in
  scan_answers (Z.to_nat an) resp r (skip_questions (Z.to_nat qd) resp r 12).

(** [kernel/net/udp.c:330-358] dns_resolve *)
Fixpoint wait_reply (fuel : nat) (st : Udp) (resp : bytes) (i start limit qid : Z) (hn : nat)
    : option Z * Udp * bytes * nat :=
  match fuel with
  | O => (None, st, resp, hn)
  | S fuel =>
      if negb (u32 (tick st - start) <? limit) then (None, st, resp, hn) else
      let '(r, out, _, st) := udp_recvfrom st i UDP_MAX_PAYLOAD in
      let resp := blit resp 0 out in
      if (12 <? r) && (geti resp 0 =? u8 (Z.shiftr qid 8)) && (geti resp 1 =? u8 qid)
      then (dns_reply resp r, st, resp, hn)
      else wait_reply fuel (irq hn st) resp i start limit qid (S hn)
  end.
(** [kernel/net/udp.c:327-359] dns_resolve *)
Fixpoint dns_attempts (n fuel : nat) (st : Udp) (pkt resp : bytes) (o i limit qid : Z) (hn : nat)
    : option Z * Udp :=
  match n with
  | O => (None, st)
  | S n =>
      let st := (udp_sendto st i (g_dns_server st) 53 pkt o).2 in
      let '(ans, st, resp, hn) := wait_reply fuel st resp i (tick st) limit qid hn in
      match ans with
      | Some ip => (Some ip, st)
      | None => dns_attempts n fuel st pkt resp o i limit qid hn
      end
  end.

(** The address, or [None] for -1.
    [kernel/net/udp.c] dns_resolve *)
Definition dns_resolve (fuel : nat) (st : Udp) (name : bytes) (hz : Z) : option Z * Udp :=
  if (char_at name 0 =? 0) || (g_dns_server st =? 0) then (None, st) else
  let hz := if hz =? 0 then 240 else hz in
  let '(i, st) := udp_bind st 0 in
  if i <? 0 then (None, st) else
  let qid := u16 (Z.lxor (tick st) 0x517A) in
  match dns_query (zeros (Z.to_nat UDP_MAX_PAYLOAD)) qid name with
  | None => (None, (udp_close st i).2)
  | Some (pkt, o) =>
      let '(ans, st) := dns_attempts 2 fuel st pkt (zeros (Z.to_nat UDP_MAX_PAYLOAD)) o i
                          (u32 (hz * 2)) qid 0 in
      (ans, (udp_close st i).2)
  end.
End udp.

(** ** Sockets as queues of datagrams *)

Definition datagram_wf (d : UdpDatagram) : Prop :=
  length (d_data d) = 1472%nat /\ 0 <= d_len d <= UDP_MAX_PAYLOAD.
Record socket_wf (s : UdpSocket) : Prop := mk_socket_wf {
  sw_head : 0 <= rx_head s < UDP_RX_QUEUE;
  sw_count : 0 <= rx_count s <= UDP_RX_QUEUE;
  sw_len : Z.of_nat (length (rx s)) = UDP_RX_QUEUE;
  sw_data : Forall datagram_wf (rx s) }.
Definition udp_wf (st : Udp) : Prop :=
  length (g_socks st) = 8%nat /\ Forall socket_wf (g_socks st).

(** Source address, source port and payload. *)
Definition msg_of (d : UdpDatagram) : Z * Z * bytes :=
  (d_src_ip d, d_src_port d, take (Z.to_nat (d_len d)) (d_data d)).
Definition queue (s : UdpSocket) : list (Z * Z * bytes) :=
  msg_of <$> ring_view (rx s) UDP_RX_QUEUE (rx_head s) (Z.to_nat (rx_count s)).

Definition usock_ok (i : Z) : Prop := 0 <= i < 8.

Lemma sock_set_sock st i j s : length (g_socks st) = 8%nat -> usock_ok i -> usock_ok j ->
  sock (set_sock st i s) j = if decide (j = i) then s else sock st j.
Proof.
  unfold usock_ok. intros Hl Hi Hj. unfold sock, set_sock. simpl. case_decide as E.
  - subst. apply geti_puti_eq. lia.
  - apply geti_puti_ne; lia.
Qed.
Lemma sock_is_wf st i : udp_wf st -> usock_ok i -> socket_wf (sock st i).
Proof.
  intros [Hl Hw] Hi. unfold usock_ok in Hi. apply (geti_Forall socket_wf (g_socks st)); [done|lia].
Qed.
Lemma set_sock_wf st i s : udp_wf st -> socket_wf s -> udp_wf (set_sock st i s).
Proof. intros [Hl Hw] Hs. split; simpl; [by rewrite length_puti|]. by apply puti_Forall. Qed.

Lemma payload_len_bound seg : 8 <= Z.of_nat (length seg) ->
  0 <= payload_len seg <= UDP_MAX_PAYLOAD /\ payload_len seg <= Z.of_nat (length seg) - 8.
Proof.
  intros Hl. unfold payload_len. cbv zeta. set (a := u_htons _ - 8). clearbody a.
  destruct ((a <? 0) || (Z.of_nat (length seg) - 8 <? a)) eqn:E; case_step; clia.
Qed.

Lemma udp_receive_spec st src dst seg :
  udp_wf st -> 8 <= Z.of_nat (length seg) ->
  let st' := udp_receive_packet st src dst seg in
  let m := (src, u_htons (get_le seg 0 2), get_bytes seg 8 (Z.to_nat (payload_len seg))) in
  udp_wf st' /\
  match find_idx (fun s => used s && (port s =? u_htons (get_le seg 2 2))) (g_socks st) with
  | None => st' = st
  | Some n =>
      let q := queue (sock st (Z.of_nat n)) in
      queue (sock st' (Z.of_nat n)) = (if Z.of_nat (length q) <? UDP_RX_QUEUE then q ++ [m] else q) /\
      forall j, usock_ok j -> j <> Z.of_nat n -> sock st' j = sock st j
  end.
Proof.
  intros Hwf Hl st' m. unfold st', udp_receive_packet. rewrite (proj2 (Z.ltb_ge _ 8)) by lia.
  destruct (find_idx _ _) as [n|] eqn:E; [|done].
  pose proof (find_idx_lt _ _ _ E) as Hn. destruct Hwf as [Hls Hw]. rewrite Hls in Hn.
  assert (Hi : usock_ok (Z.of_nat n)) by (unfold usock_ok; lia).
  pose proof (sock_is_wf st _ (conj Hls Hw) Hi) as Hs. set (s := sock st (Z.of_nat n)) in *.
  assert (Hlq : Z.of_nat (length (queue s)) = rx_count s).
  { unfold queue. rewrite length_fmap, length_ring_view. destruct Hs; lia. }
  cbv zeta. rewrite Hlq. destruct (Z.leb_spec UDP_RX_QUEUE (rx_count s)) as [Hfull|Hroom].
  { rewrite (proj2 (Z.ltb_ge _ _)) by done. done. }
  rewrite (proj2 (Z.ltb_lt _ _)) by done. destruct Hs.
  destruct (payload_len_bound seg Hl) as [P1 P2]. set (pl := payload_len seg) in *.
  set (k := (rx_head s + rx_count s) mod UDP_RX_QUEUE).
  assert (Hk : 0 <= k < UDP_RX_QUEUE) by (apply Z.mod_pos_bound; done).
  pose proof (geti_Forall datagram_wf (rx s) k sw_data0 ltac:(lia)) as [D1 D2].
  set (d := mkDatagram _ _ _ _).
  assert (Hgb : length (get_bytes seg 8 (Z.to_nat pl)) = Z.to_nat pl) by (apply length_get_bytes; lia).
  assert (Hd : datagram_wf d /\ msg_of d = m).
  { unfold d, datagram_wf, msg_of. cbn [d_src_ip d_src_port d_data d_len].
    rewrite u16_id by clia. rewrite length_blit by (rewrite Hgb; clia).
    split; [by split|]. unfold m. f_equal. rewrite blit_0, take_app_le by lia. apply take_ge. lia. }
  destruct Hd as [Wd Md]. set (s' := s <| rx := _ |> <| rx_count := _ |>).
  assert (Ws : socket_wf s').
  { split; cbn; try done; [rewrite u8_id by clia; clia|by rewrite length_puti|by apply puti_Forall]. }
  split; [apply set_sock_wf; [by split|done]|]. rewrite sock_set_sock, decide_True by done. split.
  - unfold queue, s'. cbn [rx rx_head rx_count upd_with]. rewrite u8_id by clia.
    replace (Z.to_nat (rx_count s + 1)) with (S (Z.to_nat (rx_count s))) by lia.
    assert (Ek : k = (rx_head s + Z.of_nat (Z.to_nat (rx_count s))) mod UDP_RX_QUEUE)
      by (unfold k; do 2 f_equal; lia).
    rewrite Ek, ring_view_push by clia. rewrite fmap_app. simpl. by rewrite Md.
  - intros j Hj Hne. by rewrite sock_set_sock, decide_False by done.
Qed.

(** An incoming datagram is appended to the queue of the socket bound to its destination port,
    with its source and exactly its payload; it is dropped when that queue is full or the
    port is not bound, and no other socket changes. *)
Lemma udp_receive_refines st src dst seg :
  udp_wf st -> 8 <= Z.of_nat (length seg) ->
  let st' := udp_receive_packet st src dst seg in
  let m := (src, u_htons (get_le seg 0 2), get_bytes seg 8 (Z.to_nat (payload_len seg))) in
  udp_wf st' /\
  match find_idx (fun s => used s && (port s =? u_htons (get_le seg 2 2))) (g_socks st) with
  | None => st' = st
  | Some n =>
      let q := queue (sock st (Z.of_nat n)) in
      queue (sock st' (Z.of_nat n)) = (if Z.of_nat (length q) <? UDP_RX_QUEUE then q ++ [m] else q) /\
      forall j, usock_ok j -> j <> Z.of_nat n -> sock st' j = sock st j
  end.
Proof. exact (udp_receive_spec st src dst seg). Qed.

(** udp_recvfrom takes the oldest datagram of the socket: it returns the length, the source and
    the payload cut to the buffer, and leaves the rest of the queue; an empty queue gives 0. *)
Lemma udp_recvfrom_refines st i maxlen :
  udp_wf st -> usock_ok i -> used (sock st i) = true -> 0 <= maxlen ->
  let '(r, out, src, st') := udp_recvfrom st i maxlen in
  udp_wf st' /\
  match queue (sock st i) with
  | [] => r = 0 /\ out = [] /\ st' = st
  | (ip, p, payload) :: q =>
      r = Z.of_nat (length out) /\ out = take (Z.to_nat maxlen) payload /\ src = (ip, p) /\
      queue (sock st' i) = q /\ forall j, usock_ok j -> j <> i -> sock st' j = sock st j
  end.
Proof.
  intros Hwf Hi Hu Hm. unfold udp_recvfrom. rewrite Hu. unfold usock_ok in Hi.
  assert (Hb : bad_sock i = false) by (unfold bad_sock; clia). rewrite Hb. cbn [orb negb].
  pose proof (sock_is_wf st i Hwf Hi) as Hs. set (s := sock st i) in *.
  destruct (Z.eqb_spec (rx_count s) 0) as [Ez|Ez].
  { split; [done|]. unfold queue. by rewrite Ez. }
  destruct Hs. unfold queue.
  replace (Z.to_nat (rx_count s)) with (S (Z.to_nat (rx_count s - 1))) by lia.
  rewrite ring_view_pop, fmap_cons, (Z.mod_small (rx_head s)) by lia.
  set (d := geti (rx s) (rx_head s)).
  pose proof (geti_Forall datagram_wf (rx s) (rx_head s) sw_data0 ltac:(lia)) as [D1 D2]. fold d in D1, D2.
  unfold msg_of at 1. set (n := if _ <? _ then _ else _).
  assert (Hn : 0 <= n /\ n = Z.min (d_len d) maxlen) by (unfold n; case_step; lia). clearbody n.
  pose proof (Z.mod_pos_bound (rx_head s + 1) UDP_RX_QUEUE ltac:(done)) as Hmod.
  split.
  { apply set_sock_wf; [done|]. split; cbn; try done; [|lia]. rewrite u8_id by clia. done. }
  rewrite length_read_n, read_n_take by clia. split; [lia|]. split; [|split; [done|split]].
  - rewrite take_take. f_equal. lia.
  - rewrite sock_set_sock, decide_True by (done || apply Hwf). cbn [rx rx_head rx_count upd_with].
    by rewrite u8_id by clia.
  - intros j Hj Hne. by rewrite sock_set_sock, decide_False by (done || apply Hwf).
Qed.

(** ** Termination of the parsers *)

(** Bytes read from a packet are not negative. *)
Lemma geti_nonneg (p : bytes) i : bytes_ok p -> 0 <= geti p i.
Proof.
  intros Hp. unfold geti. rewrite list_lookup_total_alt.
  destruct (p !! Z.to_nat i) as [b|] eqn:E; simpl; [|done].
  eapply Forall_lookup_1 in Hp; [|exact E]. ulia.
Qed.

(** The walk over a name makes progress and ends within [len] steps. *)
Lemma dns_skip_name_total fuel : forall pkt len o,
  bytes_ok pkt -> 0 <= o -> len - o < Z.of_nat fuel -> 
  (0 < fuel)%nat -> exists r, dns_skip_name fuel pkt len o = Some r /\ (r = -1 \/ o < r).
Proof.
  induction fuel as [|fuel IH]; intros pkt len o Hp Ho Hf Hpos; [lia|].
  cbn [dns_skip_name]. destruct (Z.ltb_spec o len); cbn [negb]; [|exists (-1); auto].
  pose proof (geti_nonneg pkt o Hp) as Hg. case_step; [exists (o + 1); split; [done|lia]|].
  case_step; [exists (o + 2); split; [done|lia]|].
  destruct (IH pkt len (o + 1 + geti pkt o) Hp) as (r & Hr & Hb); [lia..|].
  exists r. split; [done|lia].
Qed.

(** So do the options of a DHCP message. *)
Lemma dhcp_options_enough fuel : forall pkt len o mt l,
  bytes_ok pkt -> len - o < Z.of_nat fuel -> (0 < fuel)%nat ->
  is_Some (dhcp_options fuel pkt len o mt l).
Proof.
  induction fuel as [|fuel IH]; intros pkt len o mt l Hp Hf Hpos; [lia|].
  cbn [dhcp_options]. destruct (Z.ltb_spec (o + 1) len); cbn [negb]; [|done].
  case_step; [done|]. case_step; [apply IH; [done|lia..]|].
  pose proof (geti_nonneg pkt (o + 1) Hp). case_step; [done|].
  destruct (dhcp_option _ _ _ _ _ _) as [mt' l']. apply IH; [done|lia..].
Qed.

(** ** The query name and the walk over names agree *)

(** From [a] the labels of the packet lead to [b]. *)
Inductive labels (p : bytes) : Z -> Z -> Prop :=
  | L_end a : labels p a a
  | L_step a b : 0 < geti p a <= 63 -> labels p (a + 1 + geti p a) b -> labels p a b.

Lemma labels_ext p q a b : 0 <= a -> b <= Z.of_nat (length p) ->
  labels p a b -> (forall i, 0 <= i < b -> geti q i = geti p i) -> labels q a b.
Proof.
  intros Ha Hb Hl. induction Hl as [a|a b Hg Hl IH]; intros He; [constructor|].
  assert (Hlt : a < b).
  { clear -Hg Hl. assert (Hge : forall x y, labels p x y -> x <= y).
    { intros x y Hxy. induction Hxy; lia. }
    apply Hge in Hl. lia. }
  apply L_step; rewrite He by lia; [done|]. apply IH; [lia|done|done].
Qed.

Lemma labels_le p a b : labels p a b -> a <= b.
Proof. induction 1; lia. Qed.

Lemma labels_skip p a b fuel len : labels p a b -> b < len -> 0 <= a -> geti p b = 0 ->
  len - a < Z.of_nat fuel -> dns_skip_name fuel p len a = Some (b + 1).
Proof.
  intros Hl. revert fuel. induction Hl as [a|a b Hg Hl IH]; intros fuel Hb Ha Hz Hf.
  - destruct fuel as [|fuel]; [lia|]. cbn [dns_skip_name].
    rewrite (proj2 (Z.ltb_lt a len)), Hz by lia. done.
  - pose proof (labels_le _ _ _ Hl). destruct fuel as [|fuel]; [lia|]. cbn [dns_skip_name].
    rewrite (proj2 (Z.ltb_lt a len)) by lia. cbn [negb].
    rewrite (proj2 (Z.eqb_neq (geti p a) 0)) by lia.
    assert (Hc : Z.land (geti p a) 0xC0 = 0).
    { assert (E : Z.land (geti p a) (Z.ones 6) = geti p a).
      { rewrite Z.land_ones by lia. apply Z.mod_small. change (2 ^ 6) with 64. lia. }
      by rewrite <- E, <- Z.land_assoc, Z.land_0_r. }
    rewrite Hc. cbn [Z.eqb]. apply IH; lia.
Qed.

(** What the loop over the characters has built: the bytes before the current
    label are untouched, and the labels from it on lead to the end. *)
Lemma dns_qname_spec name : forall pkt ls ll pkt' o',
  0 <= ls -> 0 <= ll -> ls + 1 + ll <= 501 -> (length pkt = 1472)%nat ->
  dns_qname pkt ls (ls + 1 + ll) ll name = Some (pkt', o') ->
  length pkt' = 1472%nat /\ ls < o' <= 1000 /\ labels pkt' ls o' /\
  forall i, 0 <= i < ls -> geti pkt' i = geti pkt i.
Proof.
  assert (Hend : forall pkt ls ll, 0 <= ls -> 0 < ll <= 63 -> ls + 1 + ll <= 501 ->
    length pkt = 1472%nat -> labels (puti pkt ls (u8 ll)) ls (ls + 1 + ll)).
  { intros pkt ls ll H1 H2 H3 H4. assert (Hg : geti (puti pkt ls (u8 ll)) ls = ll).
    { rewrite geti_puti_eq by lia. apply u8_id. ulia. }
    apply L_step; rewrite Hg; [lia|constructor]. }
  induction name as [|c name IH]; intros pkt ls ll pkt' o' Hls Hll Hb Hlen; cbn [dns_qname].
  - destruct ((ll =? 0) || (63 <? ll)) eqn:E; [done|]. intros [= <- <-].
    rewrite length_puti. split; [done|]. split; [lia|]. split; [apply Hend; lia|].
    intros i Hi. apply geti_puti_ne; lia.
  - destruct ((c =? 46) || (c =? 0)).
    + destruct ((ll =? 0) || (63 <? ll)) eqn:E; [done|]. destruct (c =? 0).
      * intros [= <- <-]. rewrite length_puti. split; [done|]. split; [lia|].
        split; [apply Hend; lia|]. intros i Hi. apply geti_puti_ne; lia.
      * destruct (Z.le_gt_cases (ls + 1 + ll + 1) 501) as [Hle|Hgt].
        -- intros Hq. rewrite <- (Z.add_0_r (ls + 1 + ll + 1)) in Hq.
           apply IH in Hq as (L1 & L2 & L3 & L4); [|lia|lia|lia|by rewrite length_puti].
           split; [done|]. split; [lia|]. split.
           ++ assert (Hg : geti pkt' ls = ll).
              { rewrite L4, geti_puti_eq by lia. apply u8_id. ulia. }
              apply L_step; rewrite Hg; [lia|exact L3].
           ++ intros i Hi. rewrite L4 by lia. apply geti_puti_ne; lia.
        -- (* a label that starts at 501 takes no character *)
           destruct name as [|c' name']; cbn [dns_qname]; [done|].
           destruct ((c' =? 46) || (c' =? 0)); [done|].
           rewrite (proj2 (Z.leb_le 500 _)) by lia. done.
    + destruct (Z.leb_spec 500 (ls + 1 + ll)); [done|]. intros Hq.
      replace (ls + 1 + ll + 1) with (ls + 1 + (ll + 1)) in Hq by lia.
      apply IH in Hq as (L1 & L2 & L3 & L4); [|lia|lia|lia|by rewrite length_puti].
      split; [done|]. split; [lia|]. split; [done|].
      intros i Hi. rewrite L4 by lia. apply geti_puti_ne; lia.
Qed.

(** The DNS query is well formed: for every name the encoder accepts, walking the encoded
    labels with dns_skip_name stops exactly behind the root label, where the type and the
    class (A, IN) follow, and the packet fits the buffer. *)
Lemma dns_query_skip pkt qid name pkt' len :
  length pkt = 1472%nat -> dns_query pkt qid name = Some (pkt', len) ->
  skip_name pkt' len 12 = len - 4 /\ 17 < len <= UDP_MAX_PAYLOAD /\ length pkt' = 1472%nat /\
  get_bytes pkt' (Z.to_nat (len - 4)) 4 = [0; 1; 0; 1].
Proof.
  intros Hlen. unfold dns_query. set (hdr := puti _ 5 1).
  assert (Hh : length hdr = 1472%nat).
  { unfold hdr. rewrite !length_puti, length_blit; [done|]. rewrite Hlen. vm_compute. lia. }
  destruct (dns_qname hdr 12 13 0 name) as [[q o]|] eqn:E; [|done]. intros [= <- <-].
  change 13 with (12 + 1 + 0) in E. apply dns_qname_spec in E as (L1 & L2 & L3 & L4); [|lia..|done].
  assert (Hb : length (blit q (Z.to_nat o) [0; 0; 1; 0; 1]) = 1472%nat)
    by (rewrite length_blit; [done|simpl; lia]).
  assert (Hlo : forall i, 0 <= i < o -> geti (blit q (Z.to_nat o) [0; 0; 1; 0; 1]) i = geti q i).
  { intros i Hi. unfold geti, blit. rewrite !list_lookup_total_alt.
    rewrite lookup_app_l by (rewrite length_take; lia). by rewrite lookup_take_lt by lia. }
  assert (Hat : drop (Z.to_nat o) (blit q (Z.to_nat o) [0; 0; 1; 0; 1]) =
                [0; 0; 1; 0; 1] ++ drop (Z.to_nat o + 5) q).
  { unfold blit. rewrite drop_app_length' by (rewrite length_take; lia). done. }
  split; [|split; [clia|split; [done|]]].
  - unfold skip_name. rewrite (labels_skip _ 12 o); [simpl; lia| |lia|lia| |lia].
    + apply (labels_ext q); [lia|lia|done|done].
    + unfold geti. rewrite list_lookup_total_alt.
      pose proof (lookup_drop (blit q (Z.to_nat o) [0; 0; 1; 0; 1]) (Z.to_nat o) 0) as Hd.
      rewrite Hat, Nat.add_0_r in Hd. by rewrite <- Hd.
  - unfold get_bytes. replace (Z.to_nat (o + 5 - 4)) with (Z.to_nat o + 1)%nat by lia.
    rewrite <- drop_drop, Hat. done.
Qed.

(** ** Concrete packets *)

Definition udp0 : Udp := udp_init (mkUdp [] true 0x0A00000F 50000 0 0 []).
Definition bound : Udp := (udp_bind udp0 53).2.
Definition datagram : bytes :=
  le_enc 2 (u_htons 7) ++ le_enc 2 (u_htons 53) ++ le_enc 2 (u_htons 10) ++ [0; 0; 65; 66].

Lemma bound_wf : udp_wf bound.
Proof.
  split; [done|]. change (g_socks bound) with
    ((zero_socket <| in_use := 1 |> <| port := 53 |>) :: replicate 7 zero_socket).
  assert (Hz : socket_wf zero_socket /\ socket_wf (zero_socket <| in_use := 1 |> <| port := 53 |>)).
  { assert (Forall datagram_wf (rx zero_socket)).
    { apply Forall_replicate. vm_compute. repeat split; congruence. }
    by split; split. }
  constructor; [apply Hz|]. apply Forall_replicate, Hz.
Qed.

Lemma udp_receive_refines_witness :
  queue (sock (udp_receive_packet bound 5 6 datagram) 0) = [(5, 7, [65; 66])] /\
  udp_wf (udp_receive_packet bound 5 6 datagram).
Proof.
  split; [vm_compute; reflexivity|].
  assert (Hl : 8 <= Z.of_nat (length datagram)) by (vm_compute; congruence).
  exact (proj1 (udp_receive_refines bound 5 6 datagram bound_wf Hl)).
Defined.

Lemma udp_recvfrom_refines_witness :
  let st := udp_receive_packet bound 5 6 datagram in
  let '(r, out, src, st') := udp_recvfrom st 0 64 in
  r = 2 /\ out = [65; 66] /\ queue (sock st' 0) = [].
Proof.
  assert (W : udp_wf (udp_receive_packet bound 5 6 datagram)).
  { assert (Hl : 8 <= Z.of_nat (length datagram)) by (vm_compute; congruence).
    exact (proj1 (udp_receive_spec bound 5 6 datagram bound_wf Hl)). }
  assert (Hi : usock_ok 0) by (unfold usock_ok; lia).
  assert (Hu : used (sock (udp_receive_packet bound 5 6 datagram) 0) = true) by (vm_compute; reflexivity).
  assert (Hq : queue (sock (udp_receive_packet bound 5 6 datagram) 0) = [(5, 7, [65; 66])])
    by (vm_compute; reflexivity).
  pose proof (udp_recvfrom_refines _ 0 64 W Hi Hu ltac:(lia)) as Hr. rewrite Hq in Hr.
  cbv zeta. destruct (udp_recvfrom _ 0 64) as [[[r out] src] st'].
  destruct Hr as (_ & R & O & _ & Q & _). subst out. split; [exact R|]. split; [reflexivity|exact Q].
Defined.

(** "a.bc" *)
Lemma dns_query_skip_witness :
  match dns_query (zeros 1472) 7 [97; 46; 98; 99] with
  | Some (pkt, len) => len = 22 /\ skip_name pkt len 12 = len - 4
  | None => False
  end.
Proof.
  destruct (dns_query (zeros 1472) 7 [97; 46; 98; 99]) as [[pkt len]|] eqn:E.
  - destruct (dns_query_skip (zeros 1472) 7 [97; 46; 98; 99] pkt len eq_refl E) as (H1 & _).
    split; [|exact H1].
    assert (Hl : snd <$> dns_query (zeros 1472) 7 [97; 46; 98; 99] = Some 22) by (vm_compute; reflexivity).
    rewrite E in Hl. injection Hl as ->. reflexivity.
  - assert (Hl : snd <$> dns_query (zeros 1472) 7 [97; 46; 98; 99] = Some 22) by (vm_compute; reflexivity).
    rewrite E in Hl. discriminate.
Defined.
