(* ===== verification/Net.v ===== *)
(** The IP layer of the 64-bit kernel (kernel/arch/x86_64/kernel_x64.c): Ethernet
    frames, ARP, IPv4 output for TCP and UDP, the dispatch of received frames,
    ping.

    [Net] is the static state of the layer with the clock; the card's transmit
    ring is the list [sent] of the frames handed to it, and received frames are
    arguments.  TCP's and UDP's logs of segments handed to the IP layer become
    frames when they are replayed here ([tcp_transmit]); the return code that
    TCP sees is the layer's own, which sending does not change
    ([transmit_code]). *)

From stdpp Require Import gmap.
From S2P Require Import Prelude Inet Tcp Udp.

(** [kernel/arch/x86_64/kernel_x64.c] constants *)
Definition NET_ARP_CACHE := 8.
Definition E1000_PKT_SIZE := 2048.
Definition E1000_NUM_RX := 32.

(** [kernel/arch/x86_64/kernel_x64.c] ArpEntry *)
Record ArpEntry := mkArp { a_ip : bytes; a_mac : bytes; a_valid : bool }.
#[export] Instance eta_arp : Eta ArpEntry := fun r => mkArp (a_ip r) (a_mac r) (a_valid r).
Definition zero_arp : ArpEntry := mkArp (zeros 4) (zeros 6) false.
#[export] Instance inhabited_arp : Inhabited ArpEntry := populate zero_arp.

(** [kernel/arch/x86_64/kernel_x64.c:4521-4530] net_ip *)
Record Net := mkNet {
  e1000_up : bool; e1000_mac : bytes; net_ip : bytes; net_gw : bytes; g_icmp_echo_seq : Z; arp_cache : list ArpEntry;
  net_tick : Z; sent : list bytes }.
#[export] Instance eta_net : Eta Net := fun r =>
  mkNet (e1000_up r) (e1000_mac r) (net_ip r) (net_gw r) (g_icmp_echo_seq r) (arp_cache r) (net_tick r) (sent r).
Definition net_bcast_mac : bytes := replicate 6 0xFF.

(** [kernel/arch/x86_64/kernel_x64.c] ip_eq *)
Definition ip_eq (a b : bytes) : bool :=
  (geti a 0 =? geti b 0) && (geti a 1 =? geti b 1) && (geti a 2 =? geti b 2) && (geti a 3 =? geti b 3).
(** [kernel/arch/x86_64/kernel_x64.c] htons *)
Definition htons (h : Z) : Z := u16 (Z.lor (Z.shiftr h 8) (Z.shiftl h 8)).
(** [kernel/arch/x86_64/kernel_x64.c] ntohs *)
Definition ntohs (n : Z) : Z := htons n.
(** The loops are those of kernel/net/tcp.c.
    [kernel/arch/x86_64/kernel_x64.c] ip_checksum *)
Definition ip_checksum (p : bytes) : Z := htons (u16 (Z.lnot (fold_sum 3 (sum_words p 0)))).

(** ** Frames *)

(** [kernel/arch/x86_64/kernel_x64.c] EthHdr *)
Definition eth_hdr (dst src : bytes) (ethertype : Z) : bytes := dst ++ src ++ le_enc 2 (htons ethertype).
(** [kernel/arch/x86_64/kernel_x64.c] ArpPkt *)
Definition arp_pkt (oper : Z) (sha spa tha tpa : bytes) : bytes :=
  le_enc 2 (htons 1) ++ le_enc 2 (htons 0x0800) ++ [6; 4] ++ le_enc 2 (htons oper) ++ sha ++ spa ++ tha ++ tpa.
(** [kernel/arch/x86_64/kernel_x64.c] Ipv4Hdr *)
Definition ipv4_fields (total_len ident protocol checksum : Z) (src dst : bytes) : bytes :=
  [0x45; 0] ++ le_enc 2 (htons total_len) ++ le_enc 2 (htons ident) ++ le_enc 2 0 ++ [64; protocol] ++ le_enc 2 checksum ++ src ++ dst.
(** The header is summed with a zero checksum.
    [kernel/arch/x86_64/kernel_x64.c:4742-4746] net_tcp_ip_output *)
Definition ipv4_hdr (total_len ident protocol : Z) (src dst : bytes) : bytes :=
  ipv4_fields total_len ident protocol (ip_checksum (ipv4_fields total_len ident protocol 0 src dst)) src dst.
(** [(uint8_t)(ip >> 24), ...] *)
Definition ip_bytes (ip : Z) : bytes := be32 ip.

(** The transmit ring gives a descriptor back when its frame is on the wire, so the wait for one ends.
    [kernel/arch/x86_64/kernel_x64.c] e1000_send *)
Definition e1000_send (st : Net) (data : bytes) (len : Z) : Z * Net :=
  if negb (e1000_up st) || (E1000_PKT_SIZE <? len) then (-1, st) else (0, st <| sent := sent st ++ [data] |>).

(** ** ARP *)

(** [kernel/arch/x86_64/kernel_x64.c] net_send_arp_request *)
Definition net_send_arp_request (st : Net) (target_ip : bytes) : Net :=
  (e1000_send st (eth_hdr net_bcast_mac (e1000_mac st) 0x0806 ++ arp_pkt 1 (e1000_mac st) (net_ip st) (zeros 6) target_ip) 42).2.
(** [kernel/arch/x86_64/kernel_x64.c] net_arp_cache_insert *)
Definition net_arp_cache_insert (st : Net) (ip mac : bytes) : Net :=
  match find_idx (fun e => negb (a_valid e) || ip_eq (a_ip e) ip) (arp_cache st) with
  | Some i => st <| arp_cache := puti (arp_cache st) (Z.of_nat i) (mkArp ip mac true) |>
  | None => st
  end.
(** [kernel/arch/x86_64/kernel_x64.c] net_handle_arp *)
Definition net_handle_arp (st : Net) (data : bytes) : Net :=
  if Z.of_nat (length data) <? 28 then st else
  let oper := ntohs (get_le data 6 2) in
  let sha := get_bytes data 8 6 in let spa := get_bytes data 14 4 in let tpa := get_bytes data 24 4 in
  let st :=
    if (oper =? 1) && ip_eq tpa (net_ip st)
    then (e1000_send st (eth_hdr sha (e1000_mac st) 0x0806 ++ arp_pkt 2 (e1000_mac st) (net_ip st) sha spa) 42).2 else st in
  if oper =? 2 then net_arp_cache_insert st spa sha else st.
(** [kernel/arch/x86_64/kernel_x64.c] net_arp_lookup *)
Definition net_arp_lookup (st : Net) (ip : bytes) : option bytes :=
  match find_idx (fun e => a_valid e && ip_eq (a_ip e) ip) (arp_cache st) with
  | Some i => Some (a_mac (geti (arp_cache st) (Z.of_nat i)))
  | None => None
  end.

(** ** Output *)

(** The host itself on this network, the gateway otherwise.
    [kernel/arch/x86_64/kernel_x64.c:4731-4732] net_tcp_ip_output *)
Definition next_hop (st : Net) (dip : bytes) : bytes :=
  if (geti dip 0 =? geti (net_ip st) 0) && (geti dip 1 =? geti (net_ip st) 1) && (geti dip 2 =? geti (net_ip st) 2)
  then dip else net_gw st.
(** [kernel/arch/x86_64/kernel_x64.c:4738-4747] net_tcp_ip_output *)
Definition ip_frame (st : Net) (mac src dst : bytes) (protocol : Z) (seg : bytes) (len : Z) : bytes :=
  eth_hdr mac (e1000_mac st) 0x0800 ++ ipv4_hdr (u16 (20 + len)) (u16 (net_tick st)) protocol src dst ++ read_n seg (Z.to_nat len).
(** [kernel/arch/x86_64/kernel_x64.c] net_tcp_ip_output *)
Definition net_tcp_ip_output (st : Net) (dst_ip : Z) (seg : bytes) : Z * Net :=
  let len := Z.of_nat (length seg) in
  if negb (e1000_up st) || (len <? 0) || (TCP_MAX_SEG + 20 <? len) then (-1, st) else
  let dip := ip_bytes dst_ip in
  let hop := next_hop st dip in
  match net_arp_lookup st hop with
  | None => (-1, net_send_arp_request st hop)
  | Some mac => e1000_send st (ip_frame st mac (net_ip st) dip 6 seg len) (u16 (14 + 20 + len))
  end.
(** [kernel/arch/x86_64/kernel_x64.c] net_udp_ip_output *)
Definition net_udp_ip_output (st : Net) (src_ip dst_ip : Z) (seg : bytes) : Z * Net :=
  let len := Z.of_nat (length seg) in
  if negb (e1000_up st) || (len <? 0) || (1480 <? len) then (-1, st) else
  let dip := ip_bytes dst_ip in
  let send mac := e1000_send st (ip_frame st mac (ip_bytes src_ip) dip 17 seg len) (u16 (14 + 20 + len)) in
  if dst_ip =? 0xFFFFFFFF then send net_bcast_mac else
  let hop := next_hop st dip in
  match net_arp_lookup st hop with
  | None => (-1, net_send_arp_request st hop)
  | Some mac => send mac
  end.

(** ** The stack *)

(** The layer with the transports above it. *)
Record Stack := mkStack { net : Net; tcps : Tcp; udps : Udp }.
#[export] Instance eta_stack : Eta Stack := fun r => mkStack (net r) (tcps r) (udps r).

Definition tcp_code (st : Net) (dst_ip : Z) (seg : bytes) : Z := (net_tcp_ip_output st dst_ip seg).1.
Definition udp_code (st : Net) (src_ip dst_ip : Z) (seg : bytes) : Z := (net_udp_ip_output st src_ip dst_ip seg).1.
Definition tcp_transmit (st : Net) (segs : list (Z * bytes)) : Net :=
  foldl (fun st '(dst, seg) => (net_tcp_ip_output st dst seg).2) st segs.
Definition udp_transmit (st : Net) (segs : list (Z * Z * bytes)) : Net :=
  foldl (fun st '(src, dst, seg) => (net_udp_ip_output st src dst seg).2) st segs.
(** An operation of TCP with what it sends. *)
Definition with_tcp (s : Stack) (op : (Z -> bytes -> Z) -> Tcp -> Tcp) : Stack :=
  let t := op (tcp_code (net s)) (tcps s) in
  s <| tcps := t |> <| net := tcp_transmit (net s) (drop (length (Tcp.wire (tcps s))) (Tcp.wire t)) |>.
Definition with_udp {A} (s : Stack) (op : (Z -> Z -> bytes -> Z) -> Udp -> A * Udp) : A * Stack :=
  let '(r, u) := op (udp_code (net s)) (udps s) in
  (r, s <| udps := u |> <| net := udp_transmit (net s) (drop (length (Udp.wire (udps s))) (Udp.wire u)) |>).

(** ** Input *)

(** [kernel/arch/x86_64/kernel_x64.c] net_dispatch_frame *)
Definition net_dispatch_frame (s : Stack) (buf : bytes) : Stack :=
  let n := Z.of_nat (length buf) in
  if n <? 14 then s else
  let etype := ntohs (get_le buf 12 2) in
  if etype =? 0x0806 then s <| net := net_handle_arp (net s) (drop 14 buf) |> else
  if negb (etype =? 0x0800) || (n <? 14 + 20) then s else
  let ihl := Z.land (geti buf 14) 0x0F * 4 in
  if (ihl <? 20) || (n <? 14 + ihl) then s else
  let tot := ntohs (get_le buf 16 2) in
  let tot := if (tot <? ihl) || (n <? 14 + tot) then n - 14 else tot in
  let s := s <| net := net_arp_cache_insert (net s) (get_bytes buf 26 4) (get_bytes buf 6 6) |> in
  let protocol := geti buf 23 in
  let body := 14 + ihl in
  let packet := get_bytes buf (Z.to_nat body) (Z.to_nat (tot - ihl)) in
  let sip := rd_be32 buf 26 in let dip := rd_be32 buf 30 in
  if (protocol =? 1) && (ihl + 8 <=? tot) then
    if geti buf body =? 0 then s <| net := net s <| g_icmp_echo_seq := ntohs (get_le buf (Z.to_nat body + 6) 2) |> |> else s
  else if protocol =? 6 then with_tcp s (fun code t => tcp_receive_packet code t sip dip packet)
  else if protocol =? 17 then s <| udps := udp_receive_packet (udps s) sip dip packet |>
  else s.
(** The frames in the card's ring, oldest first, each cut to the buffer; an empty one ends the round.
    [kernel/arch/x86_64/kernel_x64.c:4716-4720] net_rx_poll *)
Fixpoint rx_loop (k : nat) (s : Stack) (ring : list bytes) : Stack * list bytes :=
  match k, ring with
  | S k, f :: ring =>
      let f := take (Z.to_nat E1000_PKT_SIZE) f in
      if Z.of_nat (length f) =? 0 then (s, ring) else rx_loop k (net_dispatch_frame s f) ring
  | _, _ => (s, ring)
  end.
(** [kernel/arch/x86_64/kernel_x64.c] net_rx_poll *)
Definition net_rx_poll (s : Stack) (ring : list bytes) : Stack * list bytes :=
  if negb (e1000_up (net s)) then (s, ring) else rx_loop (Z.to_nat E1000_NUM_RX) s ring.

(** ** Waiting

    Each round halts until the next interrupt; [interrupt] is what one does: the clock advances, frames
    are dispatched.  A loop runs [fuel] rounds at most, [None] beyond. *)

Section wait.
(** [TIMER_HZ] is the timer's rate. *)
Context (TIMER_HZ : Z) (interrupt : Stack -> Stack).

(** [kernel/arch/x86_64/kernel_x64.c:4632-4639] net_arp_resolve *)
Fixpoint arp_wait (fuel : nat) (s : Stack) (ip : bytes) (start last_arp : Z) : option (option bytes * Stack) :=
  match fuel with
  | O => None
  | S fuel =>
      if negb (u64 (net_tick (net s) - start) <? TIMER_HZ * 5) then Some (None, s) else
      match net_arp_lookup (net s) ip with
      | Some mac => Some (Some mac, s)
      | None =>
          let '(s, last_arp) :=
            if TIMER_HZ <=? u64 (net_tick (net s) - last_arp)
            then (s <| net := net_send_arp_request (net s) ip |>, net_tick (net s)) else (s, last_arp) in
          arp_wait fuel (interrupt s) ip start last_arp
      end
  end.
(** [kernel/arch/x86_64/kernel_x64.c] net_arp_resolve *)
Definition net_arp_resolve (fuel : nat) (s : Stack) (ip : bytes) : option (option bytes * Stack) :=
  match net_arp_lookup (net s) ip with
  | Some mac => Some (Some mac, s)
  | None => arp_wait fuel (s <| net := net_send_arp_request (net s) ip |>) ip (net_tick (net s)) (net_tick (net s))
  end.

(** [kernel/arch/x86_64/kernel_x64.c] IcmpHdr *)
Definition icmp_echo (checksum seq : Z) : bytes :=
  [8; 0] ++ le_enc 2 checksum ++ le_enc 2 (htons 0x1234) ++ le_enc 2 (htons seq).
(** [kernel/arch/x86_64/kernel_x64.c:4644-4661] net_ping_one *)
Definition ping_frame (st : Net) (dst_ip dst_mac : bytes) (seq : Z) : bytes :=
  let payload := Z.of_nat <$> List.seq 0 32 in
  eth_hdr dst_mac (e1000_mac st) 0x0800 ++ ipv4_hdr (20 + 8 + 32) seq 1 (net_ip st) dst_ip ++
  icmp_echo (ip_checksum (icmp_echo 0 seq ++ payload)) seq ++ payload.
(** [kernel/arch/x86_64/kernel_x64.c:4669-4673] net_ping_one *)
Fixpoint ping_wait (fuel : nat) (s : Stack) (seq start : Z) : option (bool * Stack) :=
  match fuel with
  | O => None
  | S fuel =>
      if negb (u64 (net_tick (net s) - start) <? TIMER_HZ * 3) then Some (false, s) else
      if g_icmp_echo_seq (net s) =? seq then Some (true, s) else ping_wait fuel (interrupt s) seq start
  end.
(** [kernel/arch/x86_64/kernel_x64.c] net_ping_one *)
Definition net_ping_one (fuel : nat) (s : Stack) (dst_ip dst_mac : bytes) (seq : Z) : option (bool * Stack) :=
  let st := net s <| g_icmp_echo_seq := 0 |> in
  ping_wait fuel (s <| net := (e1000_send st (ping_frame st dst_ip dst_mac seq) 74).2 |>) seq (net_tick (net s)).
(** [kernel/arch/x86_64/kernel_x64.c:4836-4838] kernel_net_ping *)
Fixpoint ping_loop (n : nat) (fuel : nat) (s : Stack) (dst_ip dst_mac : bytes) (i ok : Z) : option (Z * Stack) :=
  match n with
  | O => Some (ok, s)
  | S n =>
      match net_ping_one fuel s dst_ip dst_mac (u16 (i + 1)) with
      | None => None
      | Some (r, s) => ping_loop n fuel s dst_ip dst_mac (i + 1) (if r then ok + 1 else ok)
      end
  end.
(** [kernel/arch/x86_64/kernel_x64.c] kernel_net_ping *)
Definition kernel_net_ping (fuel : nat) (s : Stack) (a b c d count : Z) : option (Z * Stack) :=
  if negb (e1000_up (net s)) then Some (-1, s) else
  match net_arp_resolve fuel s [a; b; c; d] with
  | None => None
  | Some (None, s) => Some (-2, s)
  | Some (Some mac, s) => ping_loop (Z.to_nat count) fuel s [a; b; c; d] mac 0 0
  end.
End wait.

(** ** Configuration *)

(** [kernel/arch/x86_64/kernel_x64.c] kernel_net_apply_config *)
Definition kernel_net_apply_config (s : Stack) (ip4 gw4 dns4 : Z) : Stack :=
  let st := net s <| net_ip := ip_bytes ip4 |> in
  let st := if negb (gw4 =? 0) then st <| net_gw := ip_bytes gw4 |> else st in
  let u := udp_set_local_ip (udps s) ip4 in
  s <| net := st |> <| tcps := tcp_set_output (tcps s) true ip4 |>
    <| udps := if negb (dns4 =? 0) then dns_set_server u dns4 else u |>.
(** [kernel/arch/x86_64/kernel_x64.c] kernel_net_available *)
Definition kernel_net_available (st : Net) : bool := e1000_up st.
(** [kernel/arch/x86_64/kernel_x64.c] kernel_net_get_ip *)
Definition kernel_net_get_ip (st : Net) : bytes := net_ip st.
(** [kernel/arch/x86_64/kernel_x64.c] kernel_net_get_mac *)
Definition kernel_net_get_mac (st : Net) : bytes := e1000_mac st.

(** ** The ARP cache as a map *)

Lemma length_4 {A} (l : list A) : length l = 4%nat -> exists a b c d, l = [a; b; c; d].
Proof. intros Hl. destruct l as [|a [|b [|c [|d [|]]]]]; try done. by exists a, b, c, d. Qed.
Lemma length_6 {A} (l : list A) : length l = 6%nat -> exists a b c d e f, l = [a; b; c; d; e; f].
Proof. intros Hl. destruct l as [|a [|b [|c [|d [|e [|f [|]]]]]]]; try done. by exists a, b, c, d, e, f. Qed.

(** A loop that stops at the first entry that is free or has the address. *)
Fixpoint arp_put (c : list ArpEntry) (ip mac : bytes) : list ArpEntry :=
  match c with
  | [] => []
  | e :: c => if negb (a_valid e) || ip_eq (a_ip e) ip then mkArp ip mac true :: c else e :: arp_put c ip mac
  end.
Fixpoint arp_get (c : list ArpEntry) (ip : bytes) : option bytes :=
  match c with
  | [] => None
  | e :: c => if a_valid e && ip_eq (a_ip e) ip then Some (a_mac e) else arp_get c ip
  end.
Lemma insert_put st ip mac : arp_cache (net_arp_cache_insert st ip mac) = arp_put (arp_cache st) ip mac.
Proof.
  unfold net_arp_cache_insert. set (f := fun e => negb (a_valid e) || ip_eq (a_ip e) ip).
  assert (Hf : forall c, match find_idx f c with Some i => puti c (Z.of_nat i) (mkArp ip mac true) | None => c end = arp_put c ip mac).
  { induction c as [|e c IH]; [done|]. cbn [find_idx arp_put]. unfold f at 1. destruct (_ || _); [done|]. rewrite <- IH.
    destruct (find_idx f c) as [i|]; [|done]. cbn [fmap option_fmap option_map]. unfold puti. by rewrite !Nat2Z.id. }
  rewrite <- Hf. by destruct (find_idx f (arp_cache st)).
Qed.
Lemma lookup_get st ip : net_arp_lookup st ip = arp_get (arp_cache st) ip.
Proof.
  unfold net_arp_lookup. induction (arp_cache st) as [|e c IH]; [done|]. cbn [find_idx arp_get]. destruct (_ && _); [done|].
  rewrite <- IH. destruct (find_idx _ c) as [i|]; [|done]. cbn [fmap option_fmap option_map]. unfold geti. by rewrite !Nat2Z.id.
Qed.

Definition arp_map (c : list ArpEntry) : gmap bytes bytes :=
  list_to_map ((fun e => (a_ip e, a_mac e)) <$> filter (fun e => a_valid e = true) c).
Lemma arp_map_valid e c : a_valid e = true -> arp_map (e :: c) = <[a_ip e := a_mac e]> (arp_map c).
Proof. intros Hv. unfold arp_map. by rewrite filter_cons, decide_True by done. Qed.
Lemma arp_map_free e c : a_valid e = false -> arp_map (e :: c) = arp_map c.
Proof. intros Hv. unfold arp_map. by rewrite filter_cons, decide_False by congruence. Qed.
(** Entries in use come first, each address once. *)
Inductive arp_ok : list ArpEntry -> Prop :=
| arp_rest c : Forall (fun e => a_valid e = false) c -> arp_ok c
| arp_used e c : a_valid e = true -> length (a_ip e) = 4%nat -> arp_map c !! a_ip e = None -> arp_ok c -> arp_ok (e :: c).
Record net_wf (st : Net) : Prop := {
  nw_cache : arp_ok (arp_cache st) /\ length (arp_cache st) = 8%nat;
  nw_mac : length (e1000_mac st) = 6%nat;
  nw_ip : length (net_ip st) = 4%nat;
  nw_gw : length (net_gw st) = 4%nat }.

Lemma arp_map_rest c : Forall (fun e => a_valid e = false) c -> arp_map c = ∅.
Proof. induction 1 as [|e c He _ IH]; [done|]. by rewrite arp_map_free. Qed.
Lemma ip_eq_spec a b : length a = 4%nat -> length b = 4%nat -> ip_eq a b = bool_decide (a = b).
Proof.
  intros (a0 & a1 & a2 & a3 & ->)%length_4 (b0 & b1 & b2 & b3 & ->)%length_4.
  change (ip_eq _ _) with ((a0 =? b0) && (a1 =? b1) && (a2 =? b2) && (a3 =? b3)).
  case_bool_decide as E; [injection E as -> -> -> ->; by rewrite !Z.eqb_refl|].
  apply not_true_iff_false. intros Hx. apply E. rewrite !andb_true_iff, !Z.eqb_eq in Hx. by destruct Hx as [[[-> ->] ->] ->].
Qed.

Lemma get_map c ip : arp_ok c -> length ip = 4%nat -> arp_get c ip = arp_map c !! ip.
Proof.
  intros Hc Hip. induction Hc as [c Hf|e c Hv Hl Hn Hc IH].
  - rewrite arp_map_rest by done. rewrite lookup_empty. induction Hf as [|e c He _ IH]; [done|]. cbn [arp_get]. by rewrite He.
  - cbn [arp_get]. rewrite Hv, ip_eq_spec by done. cbn [andb]. rewrite arp_map_valid by done. case_bool_decide as E.
    + subst ip. by rewrite lookup_insert_eq.
    + by rewrite lookup_insert_ne.
Qed.
(** There is room for the address: it is known already, or an entry is free. *)
Definition arp_room (c : list ArpEntry) (ip : bytes) : bool :=
  bool_decide (is_Some (arp_map c !! ip)) || (size (arp_map c) <? length c)%nat.
Lemma put_ok c ip mac : arp_ok c -> length ip = 4%nat ->
  arp_ok (arp_put c ip mac) /\ arp_map (arp_put c ip mac) = if arp_room c ip then <[ip := mac]> (arp_map c) else arp_map c.
Proof.
  intros Hc Hip. induction Hc as [c Hf|e c Hv Hl Hn Hc [IH1 IH2]].
  - destruct Hf as [|e c He Hf]; [split; [by apply arp_rest|done]|]. cbn [arp_put]. rewrite He. cbn [negb orb].
    unfold arp_room. rewrite (arp_map_free e c He), (arp_map_rest c Hf). split.
    + apply arp_used; [done|done|by rewrite (arp_map_rest c Hf)|by apply arp_rest].
    + rewrite arp_map_valid by done. rewrite (arp_map_rest c Hf), map_size_empty. cbn. by rewrite orb_true_r.
  - cbn [arp_put]. rewrite Hv, ip_eq_spec by done. cbn [negb orb]. unfold arp_room. rewrite (arp_map_valid e c Hv). case_bool_decide as E.
    + subst ip. split; [by apply arp_used|]. rewrite arp_map_valid by done. cbn [a_ip a_mac].
      rewrite lookup_insert_eq. rewrite bool_decide_eq_true_2 by done. cbn [orb]. by rewrite insert_insert_eq.
    + rewrite lookup_insert_ne by done. rewrite (arp_map_valid e _ Hv), IH2, map_size_insert_None by done. split.
      * apply arp_used; [done|done| |done]. rewrite IH2. case_match; [by rewrite lookup_insert_ne|done].
      * unfold arp_room. cbn [length]. change (S (size (arp_map c)) <? S (length c))%nat with (size (arp_map c) <? length c)%nat.
        destruct (_ || _); [by apply insert_insert_ne|done].
Qed.
Lemma lookup_map st ip : net_wf st -> length ip = 4%nat -> net_arp_lookup st ip = arp_map (arp_cache st) !! ip.
Proof. intros [[Hc _] _ _ _] Hip. rewrite lookup_get. by apply get_map. Qed.
Lemma length_put c ip mac : length (arp_put c ip mac) = length c.
Proof. induction c as [|e c IH]; [done|]. cbn [arp_put]. case_match; cbn [length]; [done|by rewrite IH]. Qed.
Lemma insert_same st ip mac : exists c, net_arp_cache_insert st ip mac = st <| arp_cache := c |>.
Proof.
  unfold net_arp_cache_insert. destruct (find_idx _ _) as [i|]; [by eexists|]. exists (arp_cache st). by destruct st.
Qed.
Lemma insert_ok st ip mac : net_wf st -> length ip = 4%nat ->
  net_wf (net_arp_cache_insert st ip mac) /\
  arp_map (arp_cache (net_arp_cache_insert st ip mac)) =
    if arp_room (arp_cache st) ip then <[ip := mac]> (arp_map (arp_cache st)) else arp_map (arp_cache st).
Proof.
  intros [[Hc Hl] Hm Hi Hg] Hip. pose proof (put_ok (arp_cache st) ip mac Hc Hip) as [P1 P2].
  pose proof (insert_put st ip mac) as E. destruct (insert_same st ip mac) as [c Ec]. rewrite Ec in *. cbn in E. subst c.
  split; [split; try done|done]. cbn. split; [exact P1|by rewrite length_put].
Qed.

(** ** Frames between hosts *)

Lemma htons_eq h : htons h = t_htons h.
Proof. done. Qed.
Lemma htons_bytes h : is_u16 h -> le_enc 2 (htons h) = [h / 256; h mod 256].
Proof. apply le_enc_htons. Qed.
Lemma ntohs_bytes a b : is_u8 a -> is_u8 b -> ntohs (a + 256 * (b + 256 * 0)) = 256 * a + b.
Proof. intros Ha Hb. unfold ntohs. rewrite htons_eq, t_htons_eq by ulia. dlia. Qed.
Lemma lor_rev a b c d : Z.lor (Z.lor (Z.lor a b) c) d = Z.lor (Z.lor (Z.lor d c) b) a.
Proof. by rewrite (Z.lor_comm _ d), (Z.lor_comm _ c), (Z.lor_comm a b), !Z.lor_assoc. Qed.
Lemma rd_be32_bytes a b c d l : is_u8 a -> is_u8 b -> is_u8 c -> is_u8 d -> rd_be32 ([a; b; c; d] ++ l) 0 = 2 ^ 24 * a + 2 ^ 16 * b + 2 ^ 8 * c + d.
Proof.
  intros Ha Hb Hc Hd. unfold rd_be32. change (geti ([a; b; c; d] ++ l) 0) with a. change (geti ([a; b; c; d] ++ l) (0 + 1)) with b.
  change (geti ([a; b; c; d] ++ l) (0 + 2)) with c. change (geti ([a; b; c; d] ++ l) (0 + 3)) with d.
  assert (Ea : u32 (Z.shiftl a 24) = Z.shiftl a 24) by (apply u32_id; rewrite Z.shiftl_mul_pow2 by lia; ulia).
  rewrite Ea, lor_rev. rewrite (lor_shiftl d c 8) by ulia. rewrite (lor_shiftl _ b 16) by ulia. rewrite (lor_shiftl _ a 24) by ulia. ulia.
Qed.
Lemma be32_bytes ip : is_u32 ip -> exists a b c d, is_u8 a /\ is_u8 b /\ is_u8 c /\ is_u8 d /\ ip_bytes ip = [a; b; c; d] /\
  ip = 2 ^ 24 * a + 2 ^ 16 * b + 2 ^ 8 * c + d.
Proof.
  intros Hip. exists (u8 (Z.shiftr ip 24)), (u8 (Z.shiftr ip 16)), (u8 (Z.shiftr ip 8)), (u8 ip).
  split; [apply u8_is|]. split; [apply u8_is|]. split; [apply u8_is|]. split; [apply u8_is|]. split; [done|].
  rewrite !Z.shiftr_div_pow2 by lia. unfold u8. dlia.
Qed.

(** The header's checksum is valid: summing the header again gives zero. *)
Lemma ipv4_checksum_ok total ident protocol src dst : is_u16 total -> is_u16 ident -> is_u8 protocol -> bytes_ok src -> bytes_ok dst ->
  length src = 4%nat -> length dst = 4%nat -> ip_checksum (ipv4_hdr total ident protocol src dst) = 0.
Proof.
  intros Ht Hi Hp Hs Hd (s0 & s1 & s2 & s3 & ->)%length_4 (d0 & d1 & d2 & d3 & ->)%length_4.
  set (hdr c0 c1 := [0x45; 0; total / 256; total mod 256; ident / 256; ident mod 256; 0; 0; 64; protocol; c0; c1;
    s0; s1; s2; s3; d0; d1; d2; d3]).
  assert (Hf : forall h, is_u16 h -> ipv4_fields total ident protocol (htons h) [s0; s1; s2; s3] [d0; d1; d2; d3] = hdr (h / 256) (h mod 256)).
  { intros h Hh. unfold ipv4_fields. by rewrite !htons_bytes by done. }
  assert (Hok : forall a b, is_u8 a -> is_u8 b -> bytes_ok (hdr a b)).
  { intros a b Ha Hb. unfold hdr. apply (Forall_app_2 _ [_; _; _; _; _; _; _; _; _; _; _; _] ([s0; s1; s2; s3] ++ [d0; d1; d2; d3]));
      [repeat constructor; dlia|by apply Forall_app]. }
  assert (Hw : forall a b, word_sum (hdr a b) = word_sum (hdr 0 0) + (256 * a + b)) by (intros; unfold hdr, word_sum; lia).
  assert (Hb : forall a b, is_u8 a -> is_u8 b -> 0 < word_sum (hdr a b) <= 1310700).
  { intros a b Ha Hb. pose proof (word_sum_bound _ (Hok a b Ha Hb)) as Hx. change (length (hdr a b)) with 20%nat in Hx.
    rewrite Hw in *. assert (Hp' : 69 * 256 <= word_sum (hdr 0 0)); [|dlia].
    assert (Hy : word_sum (hdr 0 0) = 69 * 256 + word_sum (drop 2 (hdr 0 0))) by (unfold hdr, word_sum; cbn; lia). rewrite Hy.
    pose proof (word_sum_bound (drop 2 (hdr 0 0)) (Forall_drop _ _ _ (Hok 0 0 ltac:(ulia) ltac:(ulia)))). lia. }
  pose proof (Hb 0 0 ltac:(ulia) ltac:(ulia)) as Hb0. set (r := fold_sum 3 (word_sum (hdr 0 0))).
  assert (Hr : 0 <= r <= 65535) by (apply fold_sum_spec; ulia).
  assert (E0 : ip_checksum (ipv4_fields total ident protocol 0 [s0; s1; s2; s3] [d0; d1; d2; d3]) = htons (65535 - r)).
  { change 0 with (htons 0) at 1. rewrite (Hf 0) by ulia. change (0 / 256) with 0. change (0 mod 256) with 0. unfold ip_checksum.
    rewrite sum_words_spec by (first [apply Hok; ulia|ulia]). rewrite Z.add_0_l. fold r. by rewrite u16_lnot. }
  unfold ipv4_hdr. rewrite E0, Hf by ulia. set (h := 65535 - r). unfold ip_checksum.
  assert (Hh : is_u8 (h / 256) /\ is_u8 (h mod 256)) by (unfold h; dlia). destruct Hh as [Hh1 Hh2].
  pose proof (Hb _ _ Hh1 Hh2). rewrite sum_words_spec by (first [by apply Hok|ulia]). rewrite Z.add_0_l, Hw.
  replace (256 * (h / 256) + h mod 256) with (65535 - r) by (unfold h; dlia). unfold r. rewrite checksum_verifies by ulia. reflexivity.
Qed.

(** The value of an address in network order. *)
Definition ip_val (ip : bytes) : Z := rd_be32 ip 0.
Lemma ip_val_bytes ip : is_u32 ip -> ip_val (ip_bytes ip) = ip.
Proof.
  intros (a & b & c & d & Ha & Hb & Hc & Hd & E & Hv)%be32_bytes. unfold ip_val. rewrite E.
  change [a; b; c; d] with ([a; b; c; d] ++ []). by rewrite rd_be32_bytes.
Qed.
Lemma ip_bytes_ok ip : length (ip_bytes ip) = 4%nat /\ bytes_ok (ip_bytes ip).
Proof. split; [done|]. repeat constructor; apply u8_is. Qed.
Lemma ip_bytes_inj a b : is_u32 a -> is_u32 b -> ip_bytes a = ip_bytes b -> a = b.
Proof. intros Ha Hb E. by rewrite <- (ip_val_bytes a Ha), E, ip_val_bytes. Qed.

(** What the receiver makes of a packet of [protocol] from [src] to [dst]. *)
Definition deliver (s : Stack) (protocol : Z) (src dst seg : bytes) : Stack :=
  if (protocol =? 1) && (28 <=? 20 + Z.of_nat (length seg)) then
    if geti seg 0 =? 0 then s <| net := net s <| g_icmp_echo_seq := ntohs (get_le seg 6 2) |> |> else s
  else if protocol =? 6 then with_tcp s (fun code t => tcp_receive_packet code t (ip_val src) (ip_val dst) seg)
  else if protocol =? 17 then s <| udps := udp_receive_packet (udps s) (ip_val src) (ip_val dst) seg |>
  else s.
Lemma dispatch_ip s (st : Net) mac src dst protocol seg pad : length mac = 6%nat -> length (e1000_mac st) = 6%nat ->
  length src = 4%nat -> length dst = 4%nat -> Z.of_nat (length seg) <= 1480 ->
  net_dispatch_frame s (ip_frame st mac src dst protocol seg (Z.of_nat (length seg)) ++ pad) =
  deliver (s <| net := net_arp_cache_insert (net s) src (e1000_mac st) |>) protocol src dst seg.
Proof.
  intros (m0 & m1 & m2 & m3 & m4 & m5 & ->)%length_6 He (s0 & s1 & s2 & s3 & ->)%length_4 (d0 & d1 & d2 & d3 & ->)%length_4 Hl.
  unfold ip_frame. set (emac := e1000_mac st) in *. clearbody emac.
  destruct (length_6 emac He) as (e0 & e1 & e2 & e3 & e4 & e5 & ->). set (len := Z.of_nat (length seg)) in *.
  assert (Hlen : 0 <= len) by lia. set (id := u16 (net_tick st)). pose proof (u16_is (net_tick st) : is_u16 id) as Hid. clearbody id.
  unfold ipv4_hdr. set (ck := ip_checksum _). clearbody ck. unfold ipv4_fields, eth_hdr. rewrite u16_id by ulia.
  rewrite !htons_bytes by ulia. unfold len at 3. rewrite Nat2Z.id, read_n_all by done. change (0x800 / 256) with 8. change (0x800 mod 256) with 0.
  set (th := (20 + len) / 256). set (tl := (20 + len) mod 256).
  assert (Ht : is_u8 th /\ is_u8 tl /\ 256 * th + tl = 20 + len) by (unfold th, tl; dlia). destruct Ht as (Hth & Htl & Ht). clearbody th tl.
  change (le_enc 2 ck) with [ck mod 256; ck / 256 mod 256]. change (le_enc 2 0) with [0; 0].
  set (buf := _ ++ _). assert (Eb : buf = [m0; m1; m2; m3; m4; m5; e0; e1; e2; e3; e4; e5; 8; 0; 0x45; 0; th; tl; id / 256; id mod 256; 0; 0;
    64; protocol; ck mod 256; ck / 256 mod 256; s0; s1; s2; s3; d0; d1; d2; d3] ++ seg ++ pad) by done.
  rewrite Eb. clear Eb buf. set (buf := _ ++ _ ++ pad). unfold net_dispatch_frame.
  set (n := Z.of_nat (length buf)). assert (Hn : 34 + len <= n) by (unfold n, buf, len; rewrite !length_app; cbn [length]; lia). cbv zeta.
  rewrite (proj2 (Z.ltb_ge _ 14)) by lia. change (ntohs (get_le buf 12 2)) with 0x800. change (0x800 =? 0x806) with false.
  change (negb (0x800 =? 0x800)) with false. change (geti buf 14) with 0x45. change (Z.land 0x45 15 * 4) with 20.
  change (geti buf 23) with protocol. change (get_bytes buf 26 4) with [s0; s1; s2; s3].
  change (get_bytes buf 6 6) with [e0; e1; e2; e3; e4; e5]. change (rd_be32 buf 26) with (ip_val [s0; s1; s2; s3]).
  change (rd_be32 buf 30) with (ip_val [d0; d1; d2; d3]). change (get_le buf 16 2) with (th + 256 * (tl + 256 * 0)).
  rewrite ntohs_bytes, Ht by done. rewrite (proj2 (Z.ltb_ge _ (14 + 20))) by lia. change (20 <? 20) with false.
  rewrite (proj2 (Z.ltb_ge (20 + len) 20)), (proj2 (Z.ltb_ge n (14 + (20 + len)))) by lia. cbn [orb].
  change (Z.to_nat (14 + 20)) with 34%nat. change (14 + 20) with 34. replace (20 + len - 20) with len by lia.
  assert (Ep : get_bytes buf 34 (Z.to_nat len) = seg).
  { unfold buf, len. rewrite get_bytes_app_r by (cbn; lia). rewrite get_bytes_prefix by (cbn; lia). done. }
  rewrite Ep. unfold deliver. fold len. change (20 + 8) with 28. destruct ((protocol =? 1) && (28 <=? 20 + len)) eqn:E1; [|done].
  apply andb_prop in E1 as [_ E1]. apply Z.leb_le in E1.
  assert (Es : get_le buf (34 + 6) 2 = get_le seg 6 2).
  { unfold buf. rewrite get_le_app_r by (cbn; lia). unfold get_le. by rewrite get_bytes_app_l by (cbn; lia). }
  assert (E0 : geti buf 34 = geti seg 0) by (destruct seg; [cbn in len; lia|done]). by rewrite Es, E0.
Qed.

(** ** Output *)

(** Sending changes nothing but the transmit ring. *)
Lemma send_same st data len : exists w, (e1000_send st data len).2 = st <| sent := w |>.
Proof. unfold e1000_send. case_match; [exists (sent st); by destruct st|by eexists]. Qed.
Lemma tcp_output_same st dst seg : exists w, (net_tcp_ip_output st dst seg).2 = st <| sent := w |>.
Proof.
  unfold net_tcp_ip_output. case_match; [exists (sent st); by destruct st|]. cbv zeta.
  case_match; [apply send_same|]. unfold net_send_arp_request. apply send_same.
Qed.
Lemma code_sent st w dst seg : tcp_code (st <| sent := w |>) dst seg = tcp_code st dst seg.
Proof.
  unfold tcp_code, net_tcp_ip_output. change (e1000_up (st <| sent := w |>)) with (e1000_up st). case_match; [done|]. cbv zeta.
  change (next_hop (st <| sent := w |>) (ip_bytes dst)) with (next_hop st (ip_bytes dst)).
  change (net_arp_lookup (st <| sent := w |>) (next_hop st (ip_bytes dst))) with (net_arp_lookup st (next_hop st (ip_bytes dst))).
  case_match; [|done]. unfold e1000_send. change (e1000_up (st <| sent := w |>)) with (e1000_up st). by case_match.
Qed.
(** The code that TCP sees for a segment does not depend on what it has sent before. *)
Lemma transmit_code st segs dst seg : tcp_code (tcp_transmit st segs) dst seg = tcp_code st dst seg.
Proof.
  revert st. induction segs as [|[d sg] segs IH]; intros st; [done|]. change (tcp_code (tcp_transmit (net_tcp_ip_output st d sg).2 segs) dst seg = tcp_code st dst seg).
  rewrite IH. destruct (tcp_output_same st d sg) as [w ->]. apply code_sent.
Qed.
(** The hop is known: a broadcast needs none. *)
Definition hop_known (st : Net) (dst_ip : Z) (mac : bytes) : Prop :=
  if dst_ip =? 0xFFFFFFFF then mac = net_bcast_mac else net_arp_lookup st (next_hop st (ip_bytes dst_ip)) = Some mac.
Lemma udp_output_frame st src dst seg mac : e1000_up st = true -> Z.of_nat (length seg) <= 1480 -> hop_known st dst mac ->
  net_udp_ip_output st src dst seg =
    (0, st <| sent := sent st ++ [ip_frame st mac (ip_bytes src) (ip_bytes dst) 17 seg (Z.of_nat (length seg))] |>).
Proof.
  intros Hup Hl Hhop. unfold net_udp_ip_output. rewrite Hup. cbn [negb orb]. rewrite (proj2 (Z.ltb_ge (Z.of_nat _) 0)), (proj2 (Z.ltb_ge 1480 _)) by lia.
  cbn [orb]. cbv zeta. unfold e1000_send. rewrite Hup, (u16_id (14 + 20 + _)), (proj2 (Z.ltb_ge E1000_PKT_SIZE _)) by (unfold E1000_PKT_SIZE; ulia).
  unfold hop_known in Hhop. destruct (dst =? 0xFFFFFFFF); [by subst mac|]. by rewrite Hhop.
Qed.
Lemma tcp_ip_output_frame st dst seg mac : e1000_up st = true -> Z.of_nat (length seg) <= TCP_MAX_SEG + 20 ->
  net_arp_lookup st (next_hop st (ip_bytes dst)) = Some mac ->
  net_tcp_ip_output st dst seg =
    (0, st <| sent := sent st ++ [ip_frame st mac (net_ip st) (ip_bytes dst) 6 seg (Z.of_nat (length seg))] |>).
Proof.
  intros Hup Hl Hhop. unfold net_tcp_ip_output. change (TCP_MAX_SEG + 20) with 1044 in *. rewrite Hup. cbn [negb orb].
  rewrite (proj2 (Z.ltb_ge (Z.of_nat _) 0)), (proj2 (Z.ltb_ge 1044 _)) by lia. cbn [orb]. cbv zeta. rewrite Hhop.
  unfold e1000_send. by rewrite Hup, (u16_id (14 + 20 + _)), (proj2 (Z.ltb_ge E1000_PKT_SIZE _)) by (unfold E1000_PKT_SIZE; ulia).
Qed.

(** ** A datagram from one host to another *)

Definition udp_segment (sport dport : Z) (data : bytes) : bytes :=
  le_enc 2 (u_htons sport) ++ le_enc 2 (u_htons dport) ++ le_enc 2 (u_htons (u16 (8 + Z.of_nat (length data)))) ++ le_enc 2 0 ++ data.
Lemma udp_segment_fields sport dport data : is_u16 sport -> is_u16 dport -> Z.of_nat (length data) <= 1472 ->
  let seg := udp_segment sport dport data in
  Z.of_nat (length seg) = 8 + Z.of_nat (length data) /\ u_htons (get_le seg 0 2) = sport /\ u_htons (get_le seg 2 2) = dport /\
  payload_len seg = Z.of_nat (length data) /\ get_bytes seg 8 (length data) = data.
Proof.
  intros Hs Hd Hl. unfold udp_segment. cbv zeta. set (len := Z.of_nat (length data)) in *.
  assert (Hsw : forall h, is_u16 h -> u_htons (u_htons h) = h) by apply t_ntohs_htons.
  assert (Hu : forall h, is_u16 (u_htons h)) by (intros; apply u16_is). pose proof (Hu sport). pose proof (Hu dport).
  pose proof (Hu (u16 (8 + len))). assert (E8 : u16 (8 + len) = 8 + len) by (apply u16_id; ulia).
  set (seg := _ ++ _). assert (Hlen : Z.of_nat (length seg) = 8 + len) by (unfold seg, len; len).
  assert (F0 : get_le seg 0 2 = u_htons sport) by (unfold seg; fields; done).
  assert (F2 : get_le seg 2 2 = u_htons dport) by (unfold seg; fields; done).
  assert (F4 : get_le seg 4 2 = u_htons (u16 (8 + len))) by (unfold seg; fields; done).
  assert (Fd : get_bytes seg 8 (length data) = data) by (unfold seg; fields; by apply get_bytes_all).
  rewrite F0, F2. split; [done|]. split; [by apply Hsw|]. split; [by apply Hsw|]. split; [|done].
  unfold payload_len. rewrite Hlen, F4, Hsw, E8 by (rewrite E8; ulia). unfold UDP_MAX_PAYLOAD.
  replace (8 + len - 8) with len by lia. destruct (Z.ltb_spec len 0); [lia|]. rewrite Z.ltb_irrefl. cbn [orb].
  by rewrite (proj2 (Z.ltb_ge 1472 len)) by lia.
Qed.


(** ** ARP between two hosts *)

Lemma handle_arp st oper sha spa tha tpa pad : is_u16 oper -> length sha = 6%nat -> length spa = 4%nat -> length tha = 6%nat ->
  length tpa = 4%nat -> length (net_ip st) = 4%nat ->
  net_handle_arp st (arp_pkt oper sha spa tha tpa ++ pad) =
  let st' := if (oper =? 1) && bool_decide (tpa = net_ip st)
             then (e1000_send st (eth_hdr sha (e1000_mac st) 0x0806 ++ arp_pkt 2 (e1000_mac st) (net_ip st) sha spa) 42).2 else st in
  if oper =? 2 then net_arp_cache_insert st' spa sha else st'.
Proof.
  intros Ho Hs1 Hs2 Ht1 Ht2 Hip. set (pkt := arp_pkt oper sha spa tha tpa ++ pad).
  assert (Hl : 28 <= Z.of_nat (length pkt)) by (unfold pkt, arp_pkt; rewrite !length_app, !length_le_enc; cbn [length]; lia).
  assert (Eo : get_le pkt 6 2 = htons oper).
  { unfold pkt, arp_pkt. rewrite <- !app_assoc, !get_le_app_r, !length_le_enc by (rewrite ?length_le_enc; cbn; lia).
    cbn [Nat.sub length]. apply get_le_enc. apply u16_is. }
  assert (Ef : get_bytes pkt 8 6 = sha /\ get_bytes pkt 14 4 = spa /\ get_bytes pkt 24 4 = tpa).
  { unfold pkt, arp_pkt. rewrite <- !app_assoc. split; [|split];
      rewrite !get_bytes_app_r by (rewrite ?length_le_enc, ?Hs1, ?Hs2, ?Ht1; cbn; lia); rewrite ?length_le_enc, ?Hs1, ?Hs2, ?Ht1; cbn [Nat.sub length];
      by apply get_bytes_prefix. }
  destruct Ef as (E1 & E2 & E3). unfold net_handle_arp. rewrite (proj2 (Z.ltb_ge _ _)) by lia. rewrite Eo, E1, E2, E3.
  assert (En : ntohs (htons oper) = oper) by (by apply t_ntohs_htons). by rewrite En, ip_eq_spec.
Qed.
Lemma dispatch_arp s dst src oper sha spa tha tpa pad : length dst = 6%nat -> length src = 6%nat -> 
  length sha = 6%nat -> length spa = 4%nat -> length tha = 6%nat -> length tpa = 4%nat ->
  net_dispatch_frame s ((eth_hdr dst src 0x0806 ++ arp_pkt oper sha spa tha tpa) ++ pad) =
  s <| net := net_handle_arp (net s) (arp_pkt oper sha spa tha tpa ++ pad) |>.
Proof.
  intros Hd Hs _ _ _ _. rewrite <- app_assoc. set (pkt := arp_pkt _ _ _ _ _ ++ pad).
  destruct (length_6 dst Hd) as (d0 & d1 & d2 & d3 & d4 & d5 & ->), (length_6 src Hs) as (s0 & s1 & s2 & s3 & s4 & s5 & ->).
  assert (Hl : 14 <= Z.of_nat (length (eth_hdr [d0; d1; d2; d3; d4; d5] [s0; s1; s2; s3; s4; s5] 0x806 ++ pkt)))
    by (rewrite length_app; change (length (eth_hdr _ _ _)) with 14%nat; lia).
  unfold net_dispatch_frame. cbv zeta. by rewrite (proj2 (Z.ltb_ge _ 14)) by lia.
Qed.
Lemma request_frame st ip : e1000_up st = true -> net_send_arp_request st ip =
  st <| sent := sent st ++ [eth_hdr net_bcast_mac (e1000_mac st) 0x0806 ++ arp_pkt 1 (e1000_mac st) (net_ip st) (zeros 6) ip] |>.
Proof. intros Hup. unfold net_send_arp_request, e1000_send. by rewrite Hup. Qed.

(** ARP resolves: the frame that net_send_arp_request broadcasts makes the host that owns the address answer with
    one frame, whoever else it reaches ignores it, and when the asker dispatches the answer it knows the
    owner's MAC (if the address is known or a cache entry is free) and everything it knew before. *)
Lemma arp_resolves a b pad pad' : net_wf (net a) -> net_wf (net b) -> e1000_up (net a) = true -> e1000_up (net b) = true ->
  let ip := net_ip (net b) in let mac := e1000_mac (net b) in
  let a1 := a <| net := net_send_arp_request (net a) ip |> in
  exists f1 f2, sent (net a1) = sent (net a) ++ [f1] /\
    net_dispatch_frame b (f1 ++ pad) = b <| net := net b <| sent := sent (net b) ++ [f2] |> |> /\
    (forall c, net_wf (net c) -> net_ip (net c) <> ip -> net_dispatch_frame c (f1 ++ pad) = c) /\
    let a2 := net_dispatch_frame a1 (f2 ++ pad') in
    net_wf (net a2) /\
    (arp_room (arp_cache (net a)) ip = true -> net_arp_lookup (net a2) ip = Some mac) /\
    (forall ip', length ip' = 4%nat -> ip' <> ip -> net_arp_lookup (net a2) ip' = net_arp_lookup (net a) ip').
Proof.
  intros Hwa Hwb Hua Hub ip mac a1. destruct Hwb as [Hcb Hmb Hib Hgb].
  assert (Hma : length (e1000_mac (net a)) = 6%nat) by apply Hwa. assert (Hia : length (net_ip (net a)) = 4%nat) by apply Hwa.
  set (ma := e1000_mac (net a)) in *. set (ia := net_ip (net a)) in *.
  exists (eth_hdr net_bcast_mac ma 0x0806 ++ arp_pkt 1 ma ia (zeros 6) ip), (eth_hdr ma mac 0x0806 ++ arp_pkt 2 mac ip ma ia).
  split; [unfold a1; rewrite request_frame by done; done|].
  assert (Hreq : forall c, length (net_ip (net c)) = 4%nat -> net_dispatch_frame c ((eth_hdr net_bcast_mac ma 0x0806 ++ arp_pkt 1 ma ia (zeros 6) ip) ++ pad) =
    if bool_decide (ip = net_ip (net c)) then c <| net := (e1000_send (net c) (eth_hdr ma (e1000_mac (net c)) 0x0806 ++
      arp_pkt 2 (e1000_mac (net c)) (net_ip (net c)) ma ia) 42).2 |> else c).
  { intros c Hc. rewrite dispatch_arp, handle_arp by done. change (1 =? 1) with true. change (1 =? 2) with false. cbn [andb]. cbv zeta.
    case_match; [done|by destruct c]. }
  split; [rewrite Hreq by done; rewrite bool_decide_eq_true_2 by done; unfold e1000_send; rewrite Hub; done|]. split.
  { intros c Hc Hne. rewrite Hreq by apply Hc. by rewrite bool_decide_eq_false_2. }
  cbv zeta. assert (Hw1 : net_wf (net a1)) by (unfold a1; rewrite request_frame by done; by destruct Hwa).
  assert (Ec : arp_cache (net a1) = arp_cache (net a)) by (unfold a1; rewrite request_frame by done; done).
  assert (Hi1 : length (net_ip (net a1)) = 4%nat) by apply Hw1.
  rewrite dispatch_arp, handle_arp by done. change (2 =? 1) with false. change (2 =? 2) with true. cbn [andb]. cbv zeta.
  change (net (a1 <| net := ?x |>)) with x. destruct (insert_ok (net a1) ip mac Hw1 Hib) as [Hw2 Em]. rewrite Ec in Em.
  split; [exact Hw2|]. split.
  - intros Hroom. rewrite lookup_map by done. by rewrite Em, Hroom, lookup_insert_eq.
  - intros ip' Hl Hne. rewrite !lookup_map by done. rewrite Em. case_match; [by rewrite lookup_insert_ne|done].
Qed.

(** The ARP cache is a finite map of at most 8 addresses: net_arp_lookup looks an address up in it, and
    net_arp_cache_insert updates or adds one, except that a ninth address is not taken. *)
Lemma arp_cache_refines st ip mac : net_wf st -> length ip = 4%nat ->
  let m := arp_map (arp_cache st) in let st' := net_arp_cache_insert st ip mac in
  net_arp_lookup st ip = m !! ip /\ (size m <= 8)%nat /\ net_wf st' /\
  arp_map (arp_cache st') = if bool_decide (is_Some (m !! ip)) || (size m <? 8)%nat then <[ip := mac]> m else m.
Proof.
  intros Hwf Hip m st'. destruct (insert_ok st ip mac Hwf Hip) as [Hw Em]. split; [by apply lookup_map|].
  pose proof (nw_cache _ Hwf) as [Hc Hl]. split; [|split; [done|]].
  - rewrite <- Hl. unfold m. clear -Hc. induction Hc as [c Hf|e c Hv Hn Hx _ IH]; [rewrite arp_map_rest, map_size_empty by done; lia|].
    rewrite arp_map_valid, map_size_insert_None by done. cbn [length]. lia.
  - unfold arp_room in Em. by rewrite Hl in Em.
Qed.
(** An address is never given up: once eight are known, no other host is ever learned, and nothing is sent
    to it (every datagram and segment is dropped for one more ARP request). *)
Lemma full_arp_cache_is_final st ip mac : net_wf st -> length ip = 4%nat -> size (arp_map (arp_cache st)) = 8%nat ->
  arp_map (arp_cache st) !! ip = None ->
  net_arp_lookup (net_arp_cache_insert st ip mac) ip = None /\ size (arp_map (arp_cache (net_arp_cache_insert st ip mac))) = 8%nat.
Proof.
  intros Hwf Hip Hs Hn. destruct (insert_ok st ip mac Hwf Hip) as [Hw Em]. unfold arp_room in Em.
  rewrite (proj2 (nw_cache _ Hwf)), Hs, Hn in Em. cbn [orb Nat.ltb Nat.leb] in Em. rewrite bool_decide_eq_false_2 in Em by (by intros [? ?]).
  cbn [orb] in Em. by rewrite lookup_map, Em.
Qed.

(** ** Waits end *)

Section waits.
Context (hz : Z) (interrupt : Stack -> Stack).
Hypothesis hz_range : 0 < hz < 2 ^ 32.
(** Every round ends with a timer interrupt. *)
Hypothesis timer_ticks : forall s, net_tick (net (interrupt s)) = u64 (net_tick (net s) + 1).

Lemma request_tick st ip : net_tick (net_send_arp_request st ip) = net_tick st.
Proof. unfold net_send_arp_request. destruct (send_same st (eth_hdr net_bcast_mac (e1000_mac st) 0x806 ++ arp_pkt 1 (e1000_mac st) (net_ip st) (zeros 6) ip) 42) as [w ->]. done. Qed.
Lemma elapsed_next t start : u64 (t - start) < 2 ^ 40 -> u64 (u64 (t + 1) - start) = u64 (t - start) + 1.
Proof. unfold u64. intros Ht. dlia. Qed.
Lemma arp_wait_returns fuel : forall s ip start last, hz * 5 < u64 (net_tick (net s) - start) + Z.of_nat fuel -> u64 (net_tick (net s) - start) <= hz * 5 ->
  exists r, arp_wait hz interrupt fuel s ip start last = Some r.
Proof.
  induction fuel as [|fuel IH]; intros s ip start last Hf He; [lia|]. cbn [arp_wait].
  destruct (Z.ltb_spec (u64 (net_tick (net s) - start)) (hz * 5)); cbn [negb]; [|by eexists].
  destruct (net_arp_lookup (net s) ip); [by eexists|]. set (s1 := if hz <=? _ then _ else _).
  assert (Ht : net_tick (net s1.1) = net_tick (net s)) by (unfold s1; case_match; [apply request_tick|done]).
  destruct s1 as [s1 last1]. cbn [fst] in Ht. pose proof (elapsed_next (net_tick (net s)) start ltac:(ulia)) as Hn.
  apply IH; rewrite timer_ticks, Ht, Hn; lia.
Qed.
Lemma ping_wait_returns fuel : forall s seq start, hz * 3 < u64 (net_tick (net s) - start) + Z.of_nat fuel -> u64 (net_tick (net s) - start) <= hz * 3 ->
  exists r, ping_wait hz interrupt fuel s seq start = Some r.
Proof.
  induction fuel as [|fuel IH]; intros s seq start Hf He; [lia|]. cbn [ping_wait].
  destruct (Z.ltb_spec (u64 (net_tick (net s) - start)) (hz * 3)); cbn [negb]; [|by eexists].
  case_match; [by eexists|]. pose proof (elapsed_next (net_tick (net s)) start ltac:(ulia)) as Hn. apply IH; rewrite timer_ticks, Hn; lia.
Qed.
Lemma ping_loop_returns fuel ip mac : hz * 3 < Z.of_nat fuel -> forall n s i ok, 
  exists k s', ping_loop hz interrupt n fuel s ip mac i ok = Some (k, s') /\ ok <= k <= ok + Z.of_nat n.
Proof.
  intros Hf. induction n as [|n IH]; intros s i ok; cbn [ping_loop]; [exists ok, s; split; [done|lia]|].
  unfold net_ping_one. set (s1 := s <| net := _ |>).
  assert (Ht : net_tick (net s1) = net_tick (net s)).
  { unfold s1. cbn. destruct (send_same (net s <| g_icmp_echo_seq := 0 |>)
      (ping_frame (net s <| g_icmp_echo_seq := 0 |>) ip mac (u16 (i + 1))) 74) as [w ->]. done. }
  destruct (ping_wait_returns fuel s1 (u16 (i + 1)) (net_tick (net s))) as [[r s2] ->]; [rewrite Ht, Z.sub_diag; change (u64 0) with 0; lia..|].
  destruct (IH s2 (i + 1) (if r then ok + 1 else ok)) as (k & s3 & -> & Hk). exists k, s3. split; [done|]. case_match; lia.
Qed.
(** ping ends: 5 * TIMER_HZ + 1 rounds are enough for each wait, and the result counts answers. *)
Lemma kernel_net_ping_returns fuel s a b c d count : hz * 5 < Z.of_nat fuel -> 0 <= count ->
  exists k s', kernel_net_ping hz interrupt fuel s a b c d count = Some (k, s') /\ (k = -1 \/ k = -2 \/ 0 <= k <= count).
Proof.
  intros Hf Hc. unfold kernel_net_ping. destruct (e1000_up (net s)); cbn [negb]; [|exists (-1), s; auto].
  assert (Hr : exists r, net_arp_resolve hz interrupt fuel s [a; b; c; d] = Some r).
  { unfold net_arp_resolve. destruct (net_arp_lookup (net s) _); [by eexists|]. set (s1 := s <| net := _ |>).
    apply arp_wait_returns; unfold s1; cbn [net upd_with]; rewrite request_tick, Z.sub_diag; change (u64 0) with 0; lia. }
  destruct Hr as [[[mac|] s1] ->]; [|exists (-2), s1; auto].
  destruct (ping_loop_returns fuel [a; b; c; d] mac ltac:(lia) (Z.to_nat count) s1 0 0) as (k & s2 & -> & Hk). exists k, s2. split; [done|]. lia.
Qed.
End waits.

(** ** Two hosts *)

Definition mac_a : bytes := [0x52; 0x54; 0; 0; 0; 1].
Definition mac_b : bytes := [0x52; 0x54; 0; 0; 0; 2].
Definition host (mac ip : bytes) (u : Udp) : Stack :=
  mkStack (mkNet true mac ip [10; 0; 0; 1] 0 (replicate 8 zero_arp) 0 []) tcp0 u.
Definition host_a : Stack := host mac_a [10; 0; 0; 16] (udp_bind (udp_set_local_ip udp0 0x0A000010) 1000).2.
Definition host_b : Stack := host mac_b [10; 0; 0; 15] (udp_bind udp0 53).2.
Lemma host_wf mac ip u : length mac = 6%nat -> length ip = 4%nat -> net_wf (net (host mac ip u)).
Proof. intros Hm Hi. split; try done. split; [|done]. apply arp_rest. by repeat constructor. Qed.
(** [host_a] once it knows [host_b]. *)
Definition host_a1 : Stack := host_a <| net := net_arp_cache_insert (net host_a) [10; 0; 0; 15] mac_b |>.

Lemma arp_resolves_witness : exists f1 f2, sent (net_send_arp_request (net host_a) [10; 0; 0; 15]) = [f1] /\
  sent (net (net_dispatch_frame host_b f1)) = [f2] /\
  net_arp_lookup (net (net_dispatch_frame (host_a <| net := net_send_arp_request (net host_a) [10; 0; 0; 15] |>) f2)) [10; 0; 0; 15] = Some mac_b.
Proof.
  assert (Ha : net_wf (net host_a)) by (apply host_wf; reflexivity). assert (Hb : net_wf (net host_b)) by (apply host_wf; reflexivity).
  destruct (arp_resolves host_a host_b [] [] Ha Hb eq_refl eq_refl) as (f1 & f2 & E1 & E2 & _ & _ & E3 & _).
  exists f1, f2. rewrite app_nil_r in E2, E3. split; [exact E1|]. split; [rewrite E2; reflexivity|]. apply E3. vm_compute. reflexivity.
Defined.
Lemma arp_cache_refines_witness : net_arp_lookup (net host_a) [10; 0; 0; 15] = None /\
  net_arp_lookup (net host_a1) [10; 0; 0; 15] = Some mac_b /\ net_wf (net host_a1).
Proof.
  assert (Ha : net_wf (net host_a)) by (apply host_wf; reflexivity).
  destruct (arp_cache_refines (net host_a) [10; 0; 0; 15] mac_b Ha eq_refl) as (E1 & _ & Hw & _).
  split; [rewrite E1; vm_compute; reflexivity|]. split; [vm_compute; reflexivity|exact Hw].
Defined.
