(* ===== verification/Frames.v ===== *)
(** The physical frame allocator of the 64-bit kernel
    (kernel/arch/x86_64/kernel_x64.c): a bump pointer, a free list and a
    reference count per frame.  Physical memory is a function from the address
    of a 64-bit word to its value. *)

From S2P Require Import Prelude.

(** [kernel/arch/x86_64/kernel_x64.c] constants *)
Definition PAGE_SIZE := 4096.
Definition FRAME_FREELIST_MAX := 2048.
Definition FRAME_POOL_MAX_FRAMES := 1024.

(** Physical memory, by word. *)
Definition pmem := Z -> Z.
(** One word of physical memory. *)
Definition put_word (m : pmem) (a v : Z) : pmem := fun x => if x =? a then v else m x.
Definition in_page (f a : Z) : bool := (f <=? a) && (a <? f + PAGE_SIZE).
Definition zero_page (m : pmem) (f : Z) : pmem := fun a => if in_page f a then 0 else m a.
Definition copy_page (m : pmem) (dst src : Z) : pmem := fun a => if in_page dst a then m (src + (a - dst)) else m a.

(** [kernel/arch/x86_64/kernel_x64.c:2662-2674] frame_refcount *)
Record Mm := mkMm {
  phys_next_free : Z; phys_alloc_end : Z; phys_pool_base : Z; phys_frames_used : Z;
  frame_freelist : list Z; frame_freelist_count : Z; frame_refcount : list Z; pm : pmem }.
#[export] Instance eta_Mm : Eta Mm := fun r =>
  mkMm (phys_next_free r) (phys_alloc_end r) (phys_pool_base r) (phys_frames_used r)
    (frame_freelist r) (frame_freelist_count r) (frame_refcount r) (pm r).
Implicit Types (st : Mm) (f : Z).

(** [kernel/arch/x86_64/kernel_x64.c] frame_ref_idx *)
Definition frame_ref_idx st f : Z :=
  if f <? phys_pool_base st then -1 else
  let i := Z.shiftr (f - phys_pool_base st) 12 in
  if i <? FRAME_POOL_MAX_FRAMES then i else -1.
Definition set_ref st (i v : Z) : Mm := st <| frame_refcount := puti (frame_refcount st) i v |>.

(** [kernel/arch/x86_64/kernel_x64.c] frame_ref_inc *)
Definition frame_ref_inc st f : Mm :=
  let i := frame_ref_idx st f in
  if (0 <=? i) && (geti (frame_refcount st) i <? 255) then set_ref st i (u8 (geti (frame_refcount st) i + 1)) else st.
(** [kernel/arch/x86_64/kernel_x64.c] frame_ref_get *)
Definition frame_ref_get st f : Z :=
  let i := frame_ref_idx st f in if 0 <=? i then geti (frame_refcount st) i else 1.

(** [kernel/arch/x86_64/kernel_x64.c:2699-2701] frame_free *)
Definition freelist_push st f : Mm :=
  if frame_freelist_count st <? FRAME_FREELIST_MAX then
    st <| frame_freelist := puti (frame_freelist st) (frame_freelist_count st) f |>
       <| frame_freelist_count := frame_freelist_count st + 1 |>
  else st.
(** [kernel/arch/x86_64/kernel_x64.c] frame_free *)
Definition frame_free st f : Mm :=
  if f =? 0 then st else
  let i := frame_ref_idx st f in
  if 0 <=? i then
    if 1 <? geti (frame_refcount st) i then set_ref st i (geti (frame_refcount st) i - 1)
    else freelist_push (set_ref st i 0) f
  else freelist_push st f.

(** The frame taken, before it is counted and cleared.
    [kernel/arch/x86_64/kernel_x64.c:2706-2716] frame_alloc *)
Definition take_frame st : option Z * Mm :=
  if 0 <? frame_freelist_count st then
    let n := frame_freelist_count st - 1 in (Some (geti (frame_freelist st) n), st <| frame_freelist_count := n |>)
  else if phys_alloc_end st <=? phys_next_free st then (None, st)
  else (Some (phys_next_free st), st <| phys_next_free := u64 (phys_next_free st + PAGE_SIZE) |>
                              <| phys_frames_used := u64 (phys_frames_used st + 1) |>).
(** [kernel/arch/x86_64/kernel_x64.c] frame_alloc *)
Definition frame_alloc st : Z * Mm :=
  let '(f, st) := take_frame st in
  match f with
  | None => (0, st)
  | Some f =>
      let ri := frame_ref_idx st f in
      let st := if 0 <=? ri then set_ref st ri 1 else st in
      (f, st <| pm := zero_page (pm st) f |>)
  end.

(** ** The allocator's invariant *)

(** The frames of the pool. *)
Definition in_pool st f : Prop :=
  phys_pool_base st <= f < phys_pool_base st + FRAME_POOL_MAX_FRAMES * PAGE_SIZE /\ f mod PAGE_SIZE = 0.
Definition rc st f : Z := geti (frame_refcount st) ((f - phys_pool_base st) / PAGE_SIZE).
Definition live st f : Prop := in_pool st f /\ 1 <= rc st f.
Definition free_frames st : list Z := take (Z.to_nat (frame_freelist_count st)) (frame_freelist st).

Record frames_wf st : Prop := {
  fw_base : 0 < phys_pool_base st /\ phys_pool_base st mod PAGE_SIZE = 0 /\ phys_alloc_end st < 2 ^ 48;
  fw_end : phys_alloc_end st = phys_pool_base st + FRAME_POOL_MAX_FRAMES * PAGE_SIZE;
  fw_next : phys_pool_base st <= phys_next_free st <= phys_alloc_end st /\ phys_next_free st mod PAGE_SIZE = 0;
  fw_len : length (frame_refcount st) = 1024%nat /\ length (frame_freelist st) = 2048%nat;
  fw_count : 0 <= frame_freelist_count st <= 1024;
  fw_nodup : NoDup (free_frames st);
  fw_free f : f ∈ free_frames st -> in_pool st f /\ f < phys_next_free st /\ rc st f = 0;
  fw_used f : in_pool st f -> f < phys_next_free st -> f ∉ free_frames st -> 1 <= rc st f <= 255;
  fw_virgin f : in_pool st f -> phys_next_free st <= f -> rc st f = 0 }.

(** Only counters and contents may differ. *)
Definition same_pool st st' : Prop := phys_pool_base st' = phys_pool_base st /\ phys_alloc_end st' = phys_alloc_end st.

#[export] Hint Unfold PAGE_SIZE FRAME_POOL_MAX_FRAMES FRAME_FREELIST_MAX : consts.

Lemma in_pool_idx st f : frames_wf st -> in_pool st f ->
  frame_ref_idx st f = (f - phys_pool_base st) / PAGE_SIZE /\ 0 <= (f - phys_pool_base st) / PAGE_SIZE < 1024.
Proof.
  intros Hwf [Hf _]. unfold frame_ref_idx. rewrite Z.shiftr_div_pow2 by lia. change (2 ^ 12) with 4096.
  autounfold with consts in *. assert (0 <= (f - phys_pool_base st) / 4096 < 1024) by dlia.
  rewrite (proj2 (Z.ltb_ge _ _)), (proj2 (Z.ltb_lt _ _)) by lia. done.
Qed.
Lemma idx_inj st f g : frames_wf st -> in_pool st f -> in_pool st g ->
  (f - phys_pool_base st) / PAGE_SIZE = (g - phys_pool_base st) / PAGE_SIZE -> f = g.
Proof.
  intros Hwf [Hf Hfm] [Hg Hgm] E. destruct (fw_base _ Hwf) as (_ & Hb & _).
  autounfold with consts in *. dlia.
Qed.
Lemma frame_ref_get_rc st f : frames_wf st -> in_pool st f -> frame_ref_get st f = rc st f.
Proof.
  intros Hwf Hp. destruct (in_pool_idx st f Hwf Hp) as [Hi Hb]. unfold frame_ref_get, rc. rewrite Hi.
  by rewrite (proj2 (Z.leb_le _ _)) by lia.
Qed.

Lemma rc_set st f g v : frames_wf st -> in_pool st f -> in_pool st g ->
  rc (set_ref st (frame_ref_idx st f) v) g = if f =? g then v else rc st g.
Proof.
  intros Hwf Hf Hg. destruct (in_pool_idx st f Hwf Hf) as [-> Hb].
  destruct (in_pool_idx st g Hwf Hg) as [_ Hb']. destruct (fw_len _ Hwf) as [Hl _]. unfold rc, set_ref. cbn.
  destruct (Z.eqb_spec f g) as [->|Hne].
  - apply geti_puti_eq. lia.
  - apply geti_puti_ne; [lia..|]. intros E. by apply Hne, (idx_inj st).
Qed.

(** A live frame is below the bump pointer and not in the free list. *)
Lemma live_not_free st f : frames_wf st -> live st f -> f < phys_next_free st /\ f ∉ free_frames st /\ rc st f <= 255.
Proof.
  intros Hwf [Hp Hr]. assert (Hn : f < phys_next_free st).
  { destruct (Z_lt_le_dec f (phys_next_free st)); [done|]. pose proof (fw_virgin _ Hwf f Hp). lia. }
  assert (Hni : f ∉ free_frames st) by (intros Hi; destruct (fw_free _ Hwf f Hi) as (_ & _ & ?); lia).
  split; [done|]. split; [done|]. by apply (fw_used _ Hwf).
Qed.

(** The free list without its last element, and with one more. *)
Lemma free_frames_pop st : 0 < frame_freelist_count st <= 1024 -> frames_wf st ->
  free_frames st =
  take (Z.to_nat (frame_freelist_count st - 1)) (frame_freelist st) ++ [geti (frame_freelist st) (frame_freelist_count st - 1)].
Proof.
  intros Hc Hwf. destruct (fw_len _ Hwf) as [_ Hl]. unfold free_frames.
  replace (Z.to_nat (frame_freelist_count st)) with (S (Z.to_nat (frame_freelist_count st - 1))) by lia.
  apply take_S_r. apply geti_lookup. lia.
Qed.
Lemma free_frames_push st f : frames_wf st ->
  free_frames (freelist_push st f) = free_frames st ++ [f] /\
  frame_freelist_count (freelist_push st f) = frame_freelist_count st + 1 /\
  length (frame_freelist (freelist_push st f)) = 2048%nat.
Proof.
  intros Hwf. destruct (fw_len _ Hwf) as [_ Hl]. pose proof (fw_count _ Hwf) as Hc.
  unfold freelist_push. rewrite (proj2 (Z.ltb_lt _ _)) by clia. unfold free_frames. cbn.
  split; [|split; [done|by rewrite length_puti]].
  replace (Z.to_nat (frame_freelist_count st + 1)) with (S (Z.to_nat (frame_freelist_count st))) by lia.
  rewrite (take_S_r _ _ f).
  - f_equal. unfold puti. by apply take_insert_ge.
  - unfold puti. apply list_lookup_insert_eq. lia.
Qed.

(** The pool has 1024 frames. *)
Lemma pool_list st : frames_wf st -> forall f, in_pool st f ->
  f ∈ ((fun i : nat => phys_pool_base st + Z.of_nat i * PAGE_SIZE) <$> seq 0 1024).
Proof.
  intros Hwf f [Hf Hm]. destruct (fw_base _ Hwf) as (_ & Hb & _). apply list_elem_of_fmap.
  autounfold with consts in *. exists (Z.to_nat ((f - phys_pool_base st) / 4096)). split; [dlia|].
  apply elem_of_seq. dlia.
Qed.
Lemma free_room st f : frames_wf st -> in_pool st f -> f ∉ free_frames st -> frame_freelist_count st < 1024.
Proof.
  intros Hwf Hp Hni. pose proof (fw_count _ Hwf) as Hc. destruct (fw_len _ Hwf) as [_ Hl].
  assert (Hn : (length (f :: free_frames st) <= 1024)%nat).
  { set (pool := (fun i : nat => phys_pool_base st + Z.of_nat i * PAGE_SIZE) <$> seq 0 1024).
    assert (E : length pool = 1024%nat) by (unfold pool; by rewrite length_fmap, length_seq). rewrite <- E.
    apply List.NoDup_incl_length.
    - apply NoDup_ListNoDup, NoDup_cons. split; [done|]. by apply fw_nodup.
    - intros g Hg%list_elem_of_In. apply list_elem_of_In, pool_list; [done|].
      apply elem_of_cons in Hg as [->|Hg]; [done|]. by apply (fw_free _ Hwf). }
  cbn [length] in Hn. unfold free_frames in Hn. rewrite length_take in Hn. lia.
Qed.

(** Where a frame comes from: it was not live, and is no longer free. *)
Lemma take_frame_spec st : frames_wf st ->
  match take_frame st with
  | (None, st') => st' = st /\ forall g, in_pool st g -> live st g
  | (Some f, st') =>
      in_pool st f /\ rc st f = 0 /\ f < phys_next_free st' /\ f ∉ free_frames st' /\
      same_pool st st' /\ pm st' = pm st /\ frame_refcount st' = frame_refcount st /\
      (forall g, in_pool st g -> g <> f -> (g < phys_next_free st' <-> g < phys_next_free st) /\
                                          (g ∈ free_frames st' <-> g ∈ free_frames st)) /\
      NoDup (free_frames st') /\ (forall g, g ∈ free_frames st' -> g ∈ free_frames st) /\
      0 <= frame_freelist_count st' <= 1024 /\ frame_freelist st' = frame_freelist st /\
      phys_pool_base st' <= phys_next_free st' <= phys_alloc_end st' /\ phys_next_free st' mod PAGE_SIZE = 0
  end.
Proof.
  intros Hwf. pose proof (fw_count _ Hwf) as Hc. destruct (fw_next _ Hwf) as [Hn Hna].
  destruct (fw_base _ Hwf) as (Hb0 & Hb & Hend). pose proof (fw_end _ Hwf) as He. unfold take_frame.
  destruct (Z.ltb_spec 0 (frame_freelist_count st)) as [Hpos|Hz].
  - pose proof (free_frames_pop st ltac:(lia) Hwf) as Hfree. set (f := geti _ _) in *.
    destruct (fw_free _ Hwf f) as (Hp & Hlt & Hr); [rewrite Hfree; apply elem_of_app; right; by apply list_elem_of_singleton|].
    pose proof (fw_nodup _ Hwf) as Hnd. rewrite Hfree in Hnd. apply NoDup_app in Hnd as (Hnd & Hdis & _).
    assert (Hni : f ∉ take (Z.to_nat (frame_freelist_count st - 1)) (frame_freelist st)).
    { intros Hi. by apply (Hdis f Hi), list_elem_of_singleton. }
    repeat (split; [done|]). split; [|split; [done|split; [|split; [cbn; lia|done]]]].
    2:{ intros g Hg. rewrite Hfree. apply elem_of_app. by left. }
    intros g Hg Hne. split; [done|]. rewrite Hfree. unfold free_frames at 1. cbn.
    rewrite elem_of_app, list_elem_of_singleton. tauto.
  - assert (Hnil : free_frames st = []) by (unfold free_frames; by replace (frame_freelist_count st) with 0 by lia).
    destruct (Z.leb_spec (phys_alloc_end st) (phys_next_free st)) as [Hfull|Hroom].
    + split; [done|]. intros g Hg. split; [done|]. apply (fw_used _ Hwf); [done| |by rewrite Hnil; apply not_elem_of_nil].
      destruct Hg. lia.
    + set (f := phys_next_free st) in *. assert (Hp : in_pool st f) by (split; clia).
      assert (Hu : u64 (f + PAGE_SIZE) = f + PAGE_SIZE) by (apply u64_id; clia).
      assert (Hnil' : forall n, free_frames (st <| phys_next_free := n |> <| phys_frames_used := u64 (phys_frames_used st + 1) |>) = [])
        by (intros n; exact Hnil).
      split; [done|]. split; [apply (fw_virgin _ Hwf); [done|unfold f; lia]|]. rewrite Hnil'. cbn -[u64]. rewrite Hu.
      split; [clia|]. split; [apply not_elem_of_nil|]. repeat (split; [done|]). split.
      * intros g [Hg Hgm] Hne. split; [autounfold with consts in *; unfold f in *; dlia|]. by rewrite Hnil.
      * split; [constructor|]. split; [by intros g ?%elem_of_nil|]. split; [lia|]. split; [done|]. autounfold with consts in *. unfold f in *. split; dlia.
Qed.

Lemma in_pool_same st st' f : same_pool st st' -> in_pool st' f <-> in_pool st f.
Proof. intros [Hb _]. unfold in_pool. by rewrite Hb. Qed.

(** Operations change the count of one frame. *)
Definition counts_except st st' f (v : Z) : Prop :=
  same_pool st st' /\ rc st' f = v /\ forall g, in_pool st g -> g <> f -> rc st' g = rc st g.

Lemma frame_alloc_ok st : frames_wf st ->
  match frame_alloc st with
  | (f, st') =>
      (f = 0 /\ st' = st /\ forall g, in_pool st g -> live st g) \/
      (in_pool st f /\ f <> 0 /\ rc st f = 0 /\ counts_except st st' f 1 /\
       pm st' = zero_page (pm st) f /\ frames_wf st')
  end.
Proof.
  intros Hwf. pose proof (take_frame_spec st Hwf) as Ht. unfold frame_alloc.
  destruct (take_frame st) as [[f|] st1] eqn:E; [|by destruct Ht as [-> Hall]; left].
  right. destruct Ht as (Hp & Hr & Hlt & Hni & [Hb He] & Hpm & Hrc & Hoth & Hnd & Hsub & Hc & Hfl & Hn1 & Hn2).
  destruct (in_pool_idx st f Hwf Hp) as [Hi Hbi]. destruct (fw_len _ Hwf) as [Hl1 Hl2].
  assert (Hix : frame_ref_idx st1 f = frame_ref_idx st f) by (unfold frame_ref_idx; by rewrite Hb).
  rewrite Hix, Hi, (proj2 (Z.leb_le _ _)) by lia.
  set (st' := set_ref st1 _ 1 <| pm := _ |>).
  assert (Hrc' : forall g, in_pool st g -> rc st' g = if f =? g then 1 else rc st g).
  { intros g Hg. rewrite <- (rc_set st f g 1 Hwf Hp Hg). unfold rc, set_ref, st'. cbn. by rewrite Hb, Hrc, Hi. }
  split; [done|]. split; [destruct (fw_base _ Hwf); destruct Hp; lia|]. split; [done|]. split.
  { split; [done|]. split; [by rewrite Hrc', Z.eqb_refl|].
    intros g Hg Hne. rewrite Hrc', (proj2 (Z.eqb_neq _ _)) by done. done. }
  split; [unfold st', set_ref; cbn; by rewrite Hpm|].
  assert (Hff : free_frames st' = free_frames st1) by done. destruct (fw_base _ Hwf) as (Hb0 & Hbm & Hend).
  assert (Hsp : same_pool st st') by done. assert (Hnx : phys_next_free st' = phys_next_free st1) by done.
  split.
  - cbn. by rewrite Hb, He.
  - cbn. rewrite Hb, He. apply (fw_end _ Hwf).
  - done.
  - cbn. by rewrite length_puti, Hrc, Hfl.
  - done.
  - done.
  - intros g Hg. rewrite Hff in Hg. assert (g <> f) by (by intros ->).
    destruct (fw_free _ Hwf g (Hsub g Hg)) as (Hgp & Hgl & Hgr). destruct (Hoth g Hgp ltac:(done)) as [H1 H2].
    split; [by apply (in_pool_same st)|]. rewrite Hrc', (proj2 (Z.eqb_neq f g)), Hnx by done. by split; [apply H1|].
  - intros g Hg Hlg Hng. rewrite (in_pool_same st) in Hg by done. rewrite Hff in Hng. rewrite Hnx in Hlg. rewrite Hrc' by done.
    destruct (Z.eqb_spec f g) as [->|Hne]; [lia|]. destruct (Hoth g Hg ltac:(done)) as [H1 H2].
    apply (fw_used _ Hwf); [done|by apply H1|by intros ?%H2].
  - intros g Hg Hlg. rewrite (in_pool_same st) in Hg by done. rewrite Hnx in Hlg. rewrite Hrc' by done.
    destruct (Z.eqb_spec f g) as [->|Hne]; [lia|]. destruct (Hoth g Hg ltac:(done)) as [H1 H2].
    apply (fw_virgin _ Hwf); [done|]. destruct (Z_lt_le_dec g (phys_next_free st)) as [?%H1|]; lia.
Qed.

(** Changing the count of a used frame, keeping it used. *)
Lemma set_ref_ok st f v : frames_wf st -> live st f -> 1 <= v <= 255 ->
  counts_except st (set_ref st (frame_ref_idx st f) v) f v /\ frames_wf (set_ref st (frame_ref_idx st f) v).
Proof.
  intros Hwf [Hp Hr] Hv. destruct (live_not_free st f Hwf (conj Hp Hr)) as (Hn & Hni & _).
  pose proof (rc_set st f) as Hrc. set (st' := set_ref st (frame_ref_idx st f) v) in *.
  assert (Hsp : same_pool st st') by done. split.
  { split; [done|]. unfold st'. split; [by rewrite Hrc, Z.eqb_refl|].
    intros g Hg Hne. by rewrite Hrc, (proj2 (Z.eqb_neq f g)) by done. }
  destruct (fw_len _ Hwf) as [Hl1 Hl2]. split; try apply Hwf.
  - cbn. by rewrite length_puti.
  - intros g Hg. destruct (fw_free _ Hwf g Hg) as (Hgp & Hgl & Hgr). split; [done|]. split; [done|].
    unfold st'. rewrite Hrc, (proj2 (Z.eqb_neq f g)); [done| |done..]. intros <-. done.
  - intros g Hg Hgl Hgn. unfold st'. rewrite Hrc by done. case_step; [lia|]. by apply (fw_used _ Hwf).
  - intros g Hg Hgl. unfold st'. rewrite Hrc by done. case_step; [subst; cbn in Hgl; lia|]. by apply (fw_virgin _ Hwf).
Qed.

Lemma frame_ref_inc_ok st f : frames_wf st -> live st f ->
  counts_except st (frame_ref_inc st f) f (Z.min 255 (rc st f + 1)) /\ pm (frame_ref_inc st f) = pm st /\
  frames_wf (frame_ref_inc st f).
Proof.
  intros Hwf Hl. destruct (live_not_free st f Hwf Hl) as (_ & _ & Hr). pose proof Hl as [Hp Hr1].
  destruct (in_pool_idx st f Hwf Hp) as [Hi Hb]. unfold frame_ref_inc. rewrite Hi, (proj2 (Z.leb_le 0 _)) by lia.
  cbn [andb]. fold (rc st f). destruct (Z.ltb_spec (rc st f) 255).
  - rewrite u8_id, Z.min_r by ulia. rewrite <- Hi.
    destruct (set_ref_ok st f (rc st f + 1) Hwf Hl ltac:(lia)) as [H1 H2]. by split; [|split].
  - rewrite Z.min_l by lia. split; [|by split]. split; [done|]. split; [lia|done].
Qed.

(** The frame becomes free with its last reference; the free list never overflows. *)
Lemma frame_free_ok st f : frames_wf st -> live st f ->
  counts_except st (frame_free st f) f (rc st f - 1) /\ pm (frame_free st f) = pm st /\ frames_wf (frame_free st f).
Proof.
  intros Hwf Hl. destruct (live_not_free st f Hwf Hl) as (Hn & Hni & Hr). pose proof Hl as [Hp Hr1].
  destruct (in_pool_idx st f Hwf Hp) as [Hi Hb]. unfold frame_free.
  rewrite (proj2 (Z.eqb_neq f 0)) by (destruct (fw_base _ Hwf), Hp; lia). rewrite Hi, (proj2 (Z.leb_le 0 _)) by lia.
  fold (rc st f). destruct (Z.ltb_spec 1 (rc st f)) as [Hsh|Hlast]; rewrite <- Hi.
  { destruct (set_ref_ok st f (rc st f - 1) Hwf Hl ltac:(lia)) as [H1 H2]. by split; [|split]. }
  pose proof (free_room st f Hwf Hp Hni) as Hroom. replace (rc st f - 1) with 0 by lia.
  pose proof (fun g => rc_set st f g 0 Hwf Hp) as Hrc. destruct (free_frames_push st f Hwf) as (Hff & Hfc & Hfl).
  unfold freelist_push in *. change (frame_freelist_count (set_ref st _ 0)) with (frame_freelist_count st).
  rewrite (proj2 (Z.ltb_lt _ _)) in * by clia. set (st' := _ <| frame_freelist_count := _ |>).
  assert (Hsp : same_pool st st') by done. assert (Hfree : free_frames st' = free_frames st ++ [f]) by exact Hff.
  assert (Hrc' : forall g, in_pool st g -> rc st' g = if f =? g then 0 else rc st g) by exact Hrc.
  split; [split; [done|]|split; [done|]].
  { split; [by rewrite Hrc', Z.eqb_refl|]. intros g Hg Hne. by rewrite Hrc', (proj2 (Z.eqb_neq f g)) by done. }
  destruct (fw_len _ Hwf) as [Hl1 Hl2]. split.
  - apply Hwf.
  - apply Hwf.
  - apply Hwf.
  - cbn. by rewrite !length_puti.
  - cbn. pose proof (fw_count _ Hwf). lia.
  - rewrite Hfree. apply NoDup_app. split; [by apply fw_nodup|]. split; [|apply NoDup_singleton].
    intros g Hg ->%list_elem_of_singleton. done.
  - intros g Hg. rewrite Hfree, elem_of_app, list_elem_of_singleton in Hg. destruct Hg as [Hg| ->].
    + destruct (fw_free _ Hwf g Hg) as (Hgp & Hgl & Hgr). split; [done|]. split; [done|].
      rewrite Hrc', (proj2 (Z.eqb_neq f g)); [done| |done]. by intros <-.
    + split; [done|]. split; [done|]. by rewrite Hrc', Z.eqb_refl.
  - intros g Hg Hgl Hgn. rewrite Hfree, elem_of_app, list_elem_of_singleton in Hgn. rewrite Hrc' by done.
    destruct (Z.eqb_spec f g) as [->|Hne]; [tauto|]. apply (fw_used _ Hwf); [done..|]. intros Hin. apply Hgn. by left.
  - intros g Hg Hgl. rewrite Hrc' by done. destruct (Z.eqb_spec f g); [done|]. by apply (fw_virgin _ Hwf).
Qed.

(** [kernel_end]: the end of the kernel image.
    [kernel/arch/x86_64/kernel_x64.c:2911-2915] paging_init *)
Definition frames_init (kernel_end : Z) (m : pmem) : Mm :=
  let base := Z.ldiff (u64 (kernel_end + PAGE_SIZE - 1)) (PAGE_SIZE - 1) in
  mkMm base (u64 (base + 4 * 1024 * 1024)) base 0 (replicate (Z.to_nat FRAME_FREELIST_MAX) 0) 0
    (replicate (Z.to_nat FRAME_POOL_MAX_FRAMES) 0) m.

Lemma ldiff_ones x n : 0 <= n -> Z.ldiff x (Z.ones n) = x / 2 ^ n * 2 ^ n.
Proof. intros Hn. rewrite Z.ldiff_ones_r by done. by rewrite Z.shiftr_div_pow2, Z.shiftl_mul_pow2. Qed.

Lemma frames_init_wf kernel_end m : 0 < kernel_end -> kernel_end < 2 ^ 47 -> frames_wf (frames_init kernel_end m).
Proof.
  intros H0 H1. change (2 ^ 47) with 140737488355328 in H1. unfold frames_init.
  change (PAGE_SIZE - 1) with (Z.ones 12). rewrite ldiff_ones by lia. change (2 ^ 12) with 4096.
  rewrite u64_id by clia. set (base := _ / 4096 * 4096).
  assert (Hb : 0 < base < 140737488359424 /\ base mod 4096 = 0) by (unfold base; autounfold with consts; dlia).
  rewrite u64_id by ulia.
  set (s0 := mkMm _ _ _ _ _ _ _ _).
  assert (Hr : forall f, in_pool s0 f -> rc s0 f = 0).
  { intros f [Hf _]. unfold rc, geti. cbn [s0 frame_refcount phys_pool_base] in *. rewrite list_lookup_total_alt.
    rewrite lookup_replicate_2; [done|]. autounfold with consts in *. dlia. }
  split; cbn [s0 phys_pool_base phys_alloc_end phys_next_free frame_refcount frame_freelist frame_freelist_count].
  - split; [lia|]. split; [apply Hb|]. change (2 ^ 48) with 281474976710656. lia.
  - clia.
  - split; [lia|]. apply Hb.
  - by rewrite !length_replicate.
  - lia.
  - constructor.
  - intros f Hf. by apply elem_of_nil in Hf.
  - intros f [Hf _] Hlt. cbn in Hf, Hlt. lia.
  - intros f Hf _. by apply Hr.
Qed.

(** *** The allocator as a whole *)

(** A run of the allocator's operations; frames are freed and shared only while they are live. *)
Inductive frame_op st : Mm -> Prop :=
| op_alloc : frame_op st (snd (frame_alloc st))
| op_free f : live st f -> frame_op st (frame_free st f)
| op_share f : live st f -> frame_op st (frame_ref_inc st f).

(** C15. In every state that a run of the allocator reaches: frame_alloc hands out a cleared frame of the
    pool that nobody held, with one reference, and fails only when all 1024 frames are held;
    frame_ref_inc adds a reference (up to 255) and frame_free drops one, each for that frame
    alone, and a frame goes back to the free list exactly with its last reference. *)
Theorem frame_allocator_spec kernel_end m st :
  0 < kernel_end -> kernel_end < 2 ^ 47 -> rtc frame_op (frames_init kernel_end m) st ->
  (let '(f, st') := frame_alloc st in
   (f = 0 /\ st' = st /\ forall g, in_pool st g -> live st g) \/
   (in_pool st f /\ ~ live st f /\ counts_except st st' f 1 /\ forall a, in_page f a = true -> pm st' a = 0)) /\
  (forall f, live st f -> counts_except st (frame_ref_inc st f) f (Z.min 255 (rc st f + 1)) /\
     counts_except st (frame_free st f) f (rc st f - 1) /\
     (f ∈ free_frames (frame_free st f) <-> rc st f = 1)).
Proof.
  intros H0 H1 Hrun. assert (Hwf : frames_wf st).
  { remember (frames_init kernel_end m) as s0 eqn:E. assert (Hs0 : frames_wf s0) by (subst; by apply frames_init_wf).
    clear E. induction Hrun as [|s s1 s2 Hop _ IH]; [done|]. apply IH. destruct Hop as [|f Hl|f Hl].
    - pose proof (frame_alloc_ok s Hs0) as Ha. destruct (frame_alloc s) as [f s']. cbn.
      destruct Ha as [(_ & -> & _)|(_ & _ & _ & _ & _ & Hw)]; done.
    - by apply frame_free_ok.
    - by apply frame_ref_inc_ok. }
  split.
  - pose proof (frame_alloc_ok st Hwf) as Ha. destruct (frame_alloc st) as [f st'].
    destruct Ha as [Ha|(Hp & _ & Hr & Hc & Hpm & _)]; [by left|right].
    split; [done|]. split; [intros [_ Hl]; lia|]. split; [done|]. intros a Hin. rewrite Hpm. unfold zero_page. by rewrite Hin.
  - intros f Hl. destruct (frame_ref_inc_ok st f Hwf Hl) as (Hi & _). destruct (frame_free_ok st f Hwf Hl) as (Hf & _ & Hw).
    split; [done|]. split; [done|]. destruct Hf as (Hsp & Hrc & _). destruct Hl as [Hp Hr]. split.
    + intros Hin. destruct (fw_free _ Hw f Hin) as (_ & _ & Hz). lia.
    + intros Hone. destruct (decide (f ∈ free_frames (frame_free st f))) as [|Hni]; [done|].
      assert (Hp' : in_pool (frame_free st f) f) by (by apply (in_pool_same st)).
      destruct (Z_lt_le_dec f (phys_next_free (frame_free st f))) as [Hlt|Hge].
      * pose proof (fw_used _ Hw f Hp' Hlt Hni). lia.
      * exfalso. assert (Hn : phys_next_free (frame_free st f) = phys_next_free st).
        { unfold frame_free, freelist_push. by repeat case_match. }
        destruct (live_not_free st f Hwf (conj Hp Hr)) as (Hlt & _). lia.
Qed.

Lemma frame_allocator_spec_witness :
  let st := frames_init 0x200000 (fun _ => 7) in
  let '(f, st1) := frame_alloc st in
  f = 0x200000 /\ live st1 f /\ pm st1 (f + 8) = 0 /\ rc (frame_free (frame_ref_inc st1 f) f) f = 1.
Proof.
  intros st.
  destruct (frame_allocator_spec 0x200000 (fun _ => 7) st ltac:(lia) ltac:(vm_compute; reflexivity) ltac:(apply rtc_refl)) as [Ha _].
  assert (Ef : fst (frame_alloc st) = 0x200000) by (vm_compute; reflexivity).
  assert (Ec : rc (frame_free (frame_ref_inc (snd (frame_alloc st)) 0x200000) 0x200000) 0x200000 = 1)
    by (vm_compute; reflexivity).
  destruct (frame_alloc st) as [f st1]. cbn [fst snd] in Ef, Ec.
  destruct Ha as [(-> & _)|(Hp & _ & ([Hb He] & Hr & _) & Hz)]; [done|]. split; [done|]. split; [|split].
  - split; [by apply (in_pool_same st)|lia].
  - apply Hz. unfold in_page, PAGE_SIZE. lia.
  - by subst f.
Defined.
