(* ===== verification/Paging.v ===== *)
(** Page tables and copy-on-write of the 64-bit kernel
    (kernel/arch/x86_64/kernel_x64.c).  Tables are pages of physical memory; a
    pointer to a table is its address. *)

From S2P Require Import Prelude Frames.

(** [kernel/arch/x86_64/kernel_x64.c] constants *)
Definition PAGE_PRESENT := 0x01.
Definition PAGE_WRITABLE := 0x02.
Definition PAGE_USER := 0x04.
Definition PAGE_PS := 0x80.
Definition PAGE_COW := 0x200.
Definition PAGE_ADDR_MASK := 0xFFFFFFFFF000.

(** [e & flag], as a test. *)
Definition has (e flag : Z) : bool := negb (Z.land e flag =? 0).
Definition entry_at (table index : Z) : Z := table + 8 * index.
Definition store st (a v : Z) : Mm := st <| pm := put_word (pm st) a v |>.

(** The next table, 0 when it cannot be allocated.
    [kernel/arch/x86_64/kernel_x64.c] paging_next_level *)
Definition paging_next_level st (table index flags : Z) : Z * Mm :=
  let e := entry_at table index in
  if negb (has (pm st e) PAGE_PRESENT) then
    let '(f, st) := frame_alloc st in
    if f =? 0 then (0, st) else
    let st := store st e (Z.lor (Z.lor (Z.lor f PAGE_PRESENT) PAGE_WRITABLE) (Z.land flags PAGE_USER)) in
    (Z.land (pm st e) 0x000FFFFFFFFFF000, st)
  else
    let st := store st e (Z.lor (pm st e) (Z.land flags PAGE_USER)) in
    (Z.land (pm st e) 0x000FFFFFFFFFF000, st).

Definition index_of (virt shift : Z) : Z := Z.land (Z.shiftr virt shift) 0x1FF.
(** [kernel/arch/x86_64/kernel_x64.c] paging_map_2m *)
Definition paging_map_2m st (pml4 virt phys flags : Z) : Mm :=
  let '(pdpt, st) := paging_next_level st pml4 (index_of virt 39) flags in
  if pdpt =? 0 then st else
  let '(pd, st) := paging_next_level st pdpt (index_of virt 30) flags in
  if pd =? 0 then st else
  store st (entry_at pd (index_of virt 21)) (Z.lor (Z.lor (Z.land phys 0xFFFFFFFFFFE00000) flags) PAGE_PS).
(** [kernel/arch/x86_64/kernel_x64.c] paging_map_4k *)
Definition paging_map_4k st (pml4 virt phys flags : Z) : Mm :=
  let '(pdpt, st) := paging_next_level st pml4 (index_of virt 39) flags in
  if pdpt =? 0 then st else
  let '(pd, st) := paging_next_level st pdpt (index_of virt 30) flags in
  if pd =? 0 then st else
  let '(pt, st) := paging_next_level st pd (index_of virt 21) flags in
  if pt =? 0 then st else
  store st (entry_at pt (index_of virt 12)) (Z.lor (Z.land phys 0xFFFFFFFFF000) flags).

(** [for (i = 0; i < n; i++) dst[i] = src[i]] on 64-bit words, and clearing words. *)
Definition in_words (t n a : Z) : bool := (t <=? a) && (a <? t + 8 * n).
Definition copy_words (m : pmem) (dst src n : Z) : pmem := fun a => if in_words dst n a then m (src + (a - dst)) else m a.
Definition zero_words (m : pmem) (t n : Z) : pmem := fun a => if in_words t n a then 0 else m a.
Definition table_flags (f : Z) : Z := Z.lor (Z.lor (Z.lor f PAGE_PRESENT) PAGE_WRITABLE) PAGE_USER.

(** [kernel/arch/x86_64/kernel_x64.c] paging_create_address_space *)
Definition paging_create_address_space st (src_pml4 : Z) : Z * Mm :=
  let '(new_pml4, st) := frame_alloc st in
  if new_pml4 =? 0 then (0, st) else
  let st := st <| pm := copy_words (pm st) new_pml4 src_pml4 512 |> in
  let src_pdpt := Z.land (pm st src_pml4) PAGE_ADDR_MASK in
  let '(new_pdpt, st) := frame_alloc st in
  if new_pdpt =? 0 then (0, frame_free st new_pml4) else
  let st := st <| pm := copy_words (pm st) new_pdpt src_pdpt 512 |> in
  let st := store st new_pml4 (table_flags new_pdpt) in
  let src_pd := Z.land (pm st src_pdpt) PAGE_ADDR_MASK in
  let '(new_pd, st) := frame_alloc st in
  if new_pd =? 0 then (0, frame_free (frame_free st new_pdpt) new_pml4) else
  let st := st <| pm := zero_words (copy_words (pm st) new_pd src_pd 64) (new_pd + 8 * 64) 448 |> in
  (new_pml4, store st new_pdpt (table_flags new_pd)).

(** [kernel/arch/x86_64/kernel_x64.c:2812-2813] paging_free_user_space *)
Fixpoint free_pt (n : nat) (j : Z) st (pt : Z) : Mm :=
  match n with
  | O => st
  | S n =>
      let e := pm st (entry_at pt j) in
      free_pt n (j + 1) (if has e PAGE_PRESENT then frame_free st (Z.land e PAGE_ADDR_MASK) else st) pt
  end.
(** [kernel/arch/x86_64/kernel_x64.c:2809-2815] paging_free_user_space *)
Fixpoint free_pd (n : nat) (i : Z) st (pd : Z) : Mm :=
  match n with
  | O => st
  | S n =>
      let e := pm st (entry_at pd i) in
      let st := if negb (has e PAGE_PRESENT) || has e PAGE_PS then st
                else let pt := Z.land e PAGE_ADDR_MASK in frame_free (free_pt 512 0 st pt) pt in
      free_pd n (i + 1) st pd
  end.
(** [kernel/arch/x86_64/kernel_x64.c] paging_free_user_space *)
Definition paging_free_user_space st (kernel_pml4 pml4 : Z) : Mm :=
  if (pml4 =? 0) || (pml4 =? kernel_pml4) then st else
  let pdpt := Z.land (pm st pml4) PAGE_ADDR_MASK in
  let pd := Z.land (pm st pdpt) PAGE_ADDR_MASK in
  let st := free_pd 448 64 st pd in
  frame_free (frame_free (frame_free st pd) pdpt) pml4.

(** [kernel/arch/x86_64/kernel_x64.c:2831-2840] paging_clone_user_pages *)
Fixpoint clone_pt (n : nat) (i j : Z) st (dst_pml4 pt : Z) : Mm :=
  match n with
  | O => st
  | S n =>
      let a := entry_at pt j in
      let st :=
        if negb (has (pm st a) PAGE_PRESENT) then st else
        let st := if has (pm st a) PAGE_WRITABLE
                  then store st a (Z.lor (Z.ldiff (pm st a) PAGE_WRITABLE) PAGE_COW) else st in
        let f := Z.land (pm st a) PAGE_ADDR_MASK in
        let flags := Z.land (pm st a) 0xFFF in
        let va := Z.lor (Z.shiftl i 21) (Z.shiftl j 12) in
        frame_ref_inc (paging_map_4k st dst_pml4 va f flags) f in
      clone_pt n i (j + 1) st dst_pml4 pt
  end.
(** [kernel/arch/x86_64/kernel_x64.c:2828-2841] paging_clone_user_pages *)
Fixpoint clone_pd (n : nat) (i : Z) st (dst_pml4 pd : Z) : Mm :=
  match n with
  | O => st
  | S n =>
      let e := pm st (entry_at pd i) in
      let st := if negb (has e PAGE_PRESENT) || has e PAGE_PS then st
                else clone_pt 512 i 0 st dst_pml4 (Z.land e PAGE_ADDR_MASK) in
      clone_pd n (i + 1) st dst_pml4 pd
  end.
(** Always succeeds; the TLB is flushed.
    [kernel/arch/x86_64/kernel_x64.c] paging_clone_user_pages *)
Definition paging_clone_user_pages st (dst_pml4 src_pml4 : Z) : Z * Mm :=
  let pdpt := Z.land (pm st src_pml4) PAGE_ADDR_MASK in
  let pd := Z.land (pm st pdpt) PAGE_ADDR_MASK in
  (0, clone_pd 448 64 st dst_pml4 pd).

(** The address of the entry.
    [kernel/arch/x86_64/kernel_x64.c] paging_get_pte *)
Definition paging_get_pte st (pml4 va : Z) : option Z :=
  if pml4 =? 0 then None else
  let e4 := pm st (entry_at pml4 (index_of va 39)) in
  if negb (has e4 PAGE_PRESENT) then None else
  let e3 := pm st (entry_at (Z.land e4 PAGE_ADDR_MASK) (index_of va 30)) in
  if negb (has e3 PAGE_PRESENT) || has e3 PAGE_PS then None else
  let e2 := pm st (entry_at (Z.land e3 PAGE_ADDR_MASK) (index_of va 21)) in
  if negb (has e2 PAGE_PRESENT) || has e2 PAGE_PS then None else
  Some (entry_at (Z.land e2 PAGE_ADDR_MASK) (index_of va 12)).

(** [kernel/arch/x86_64/kernel_x64.c] paging_handle_cow_fault *)
Definition paging_handle_cow_fault st (kernel_pml4 pml4 fault_addr : Z) : Z * Mm :=
  match paging_get_pte st (if pml4 =? 0 then kernel_pml4 else pml4) fault_addr with
  | None => (-1, st)
  | Some p =>
      if negb (has (pm st p) PAGE_PRESENT) || negb (has (pm st p) PAGE_COW) then (-1, st) else
      let old_frame := Z.land (pm st p) PAGE_ADDR_MASK in
      if frame_ref_get st old_frame =? 1 then
        (0, store st p (Z.ldiff (Z.lor (pm st p) PAGE_WRITABLE) PAGE_COW))
      else
        let '(nf, st) := frame_alloc st in
        if nf =? 0 then (-1, st) else
        let st := st <| pm := copy_page (pm st) nf old_frame |> in
        let st := store st p (Z.lor nf (Z.ldiff (Z.lor (Z.land (pm st p) 0xFFF) PAGE_WRITABLE) PAGE_COW)) in
        (0, frame_free st old_frame)
  end.

(** [for (addr = from; addr < to; addr += 2MB) paging_map_2m(addr, addr)]
    [kernel/arch/x86_64/kernel_x64.c:2922-2924] paging_init *)
Fixpoint identity_map (n : nat) st (kernel_pml4 addr to : Z) : Mm :=
  match n with
  | O => st
  | S n => if to <=? addr then st
           else identity_map n (paging_map_2m st kernel_pml4 addr addr (Z.lor PAGE_PRESENT PAGE_WRITABLE))
                  kernel_pml4 (addr + 2 * 1024 * 1024) to
  end.
(** [fb]: the framebuffer's physical address and size, if the boot information has one.
    Returns the kernel's PML4.
    [kernel/arch/x86_64/kernel_x64.c] paging_init *)
Definition paging_init (kernel_end : Z) (m : pmem) (fb : option (Z * Z)) : Z * Mm :=
  let st := frames_init kernel_end m in
  let '(kernel_pml4, st) := frame_alloc st in
  if kernel_pml4 =? 0 then (0, st) else
  let st := identity_map 64 st kernel_pml4 0 (128 * 1024 * 1024) in
  match fb with
  | None => (kernel_pml4, st)
  | Some (fb_phys, fb_size) =>
      let fb_base := Z.land fb_phys 0xFFFFFFFFFFE00000 in
      let fb_end := Z.land (u64 (fb_phys + fb_size + 0x1FFFFF)) 0xFFFFFFFFFFE00000 in
      (kernel_pml4, identity_map (Z.to_nat ((fb_end - fb_base) / (2 * 1024 * 1024))) st kernel_pml4 fb_base fb_end)
  end.

(** ** Entries *)

Lemma aligned_mask f : 0 <= f < 2 ^ 48 -> f mod PAGE_SIZE = 0 -> Z.land f PAGE_ADDR_MASK = f.
Proof.
  intros Hf Hm. change PAGE_ADDR_MASK with (Z.ldiff (Z.ones 48) (Z.ones 12)).
  replace (Z.land f (Z.ldiff (Z.ones 48) (Z.ones 12))) with (Z.ldiff (Z.land f (Z.ones 48)) (Z.ones 12)).
  - rewrite Z.land_ones, Z.mod_small, ldiff_ones by lia. unfold PAGE_SIZE in Hm. change (2 ^ 12) with 4096. dlia.
  - apply Z.bits_inj'. intros n _. by rewrite !Z.ldiff_spec, !Z.land_spec, Z.ldiff_spec, andb_assoc.
Qed.
Lemma aligned_low f x : f mod PAGE_SIZE = 0 -> 0 <= x < 4096 -> Z.land f x = 0.
Proof.
  intros Hm Hx. assert (E : Z.land x (Z.ones 12) = x) by (rewrite Z.land_ones by lia; apply Z.mod_small; lia).
  rewrite <- E, (Z.land_comm x), Z.land_assoc, Z.land_ones by lia. unfold PAGE_SIZE in Hm. change (2 ^ 12) with 4096.
  by rewrite Hm, Z.land_0_l.
Qed.
Lemma land_ldiff e x y : Z.land (Z.ldiff e x) y = Z.land e (Z.ldiff y x).
Proof.
  apply Z.bits_inj'. intros n _. rewrite !Z.land_spec, !Z.ldiff_spec.
  by destruct (Z.testbit e n), (Z.testbit x n), (Z.testbit y n).
Qed.

(** The parts of an entry. *)
Definition frame_of (e : Z) : Z := Z.land e PAGE_ADDR_MASK.

Lemma has_lor a b k : has (Z.lor a b) k = has a k || has b k.
Proof.
  unfold has. rewrite Z.land_lor_distr_l. pose proof (Z.lor_eq_0_iff (Z.land a k) (Z.land b k)) as Hz.
  destruct (Z.eqb_spec (Z.land a k) 0), (Z.eqb_spec (Z.land b k) 0), (Z.eqb_spec (Z.lor (Z.land a k) (Z.land b k)) 0);
    tauto.
Qed.
Lemma has_land a b k : has (Z.land a b) k = has a (Z.land b k).
Proof. unfold has. by rewrite Z.land_assoc. Qed.
Lemma has_ldiff a b k : has (Z.ldiff a b) k = has a (Z.ldiff k b).
Proof. unfold has. by rewrite land_ldiff. Qed.
Lemma has_0 a : has a 0 = false.
Proof. unfold has. by rewrite Z.land_0_r. Qed.
Lemma has_aligned f k : f mod PAGE_SIZE = 0 -> 0 <= k < 4096 -> has f k = false.
Proof. intros Hf Hk. unfold has. by rewrite aligned_low. Qed.
Lemma frame_of_lor a b : frame_of (Z.lor a b) = Z.lor (frame_of a) (frame_of b).
Proof. apply Z.land_lor_distr_l. Qed.
Lemma frame_of_low x : 0 <= x < 4096 -> frame_of x = 0.
Proof. intros Hx. unfold frame_of. rewrite Z.land_comm. by apply aligned_low. Qed.
Lemma frame_of_flag e flags k : 0 <= k < 4096 -> frame_of (Z.lor e (Z.land flags k)) = frame_of e.
Proof.
  intros Hk. rewrite frame_of_lor. unfold frame_of at 2. rewrite <- Z.land_assoc.
  change (Z.land k PAGE_ADDR_MASK) with (frame_of k). by rewrite (frame_of_low k), Z.land_0_r, Z.lor_0_r by done.
Qed.
Lemma frame_of_ldiff e k : 0 <= k < 4096 -> frame_of (Z.ldiff e k) = frame_of e.
Proof.
  intros Hk. unfold frame_of. rewrite land_ldiff. f_equal. apply Z.bits_inj'. intros n Hn. rewrite Z.ldiff_spec.
  destruct (Z.testbit PAGE_ADDR_MASK n) eqn:E; [|done]. cbn [andb]. apply negb_true_iff.
  pose proof (frame_of_low k Hk) as Hz. apply (f_equal (fun z => Z.testbit z n)) in Hz. unfold frame_of in Hz.
  rewrite Z.land_spec, E, andb_true_r, Z.bits_0 in Hz. done.
Qed.
Lemma frame_of_aligned f : 0 <= f < 2 ^ 48 -> f mod PAGE_SIZE = 0 -> frame_of f = f.
Proof. apply aligned_mask. Qed.

(** Tests of closed flags. *)
Ltac flags :=
  repeat first
    [ rewrite has_lor | rewrite has_land | rewrite has_ldiff
    | rewrite has_aligned by (done || (split; [done|reflexivity]))
    | match goal with |- context [has ?x ?k] =>
        let v := eval vm_compute in (has x k) in
        lazymatch v with true => change (has x k) with true | false => change (has x k) with false end end
    | match goal with |- context [has ?x ?k] =>
        let v := eval vm_compute in k in progress change (has x k) with (has x v) end
    | rewrite has_0 ];
  rewrite ?orb_true_r, ?orb_false_r.

Lemma index_of_div va s : 0 <= s -> index_of va s = (va / 2 ^ s) mod 512.
Proof. intros Hs. unfold index_of. change 0x1FF with (Z.ones 9). by rewrite Z.land_ones, Z.shiftr_div_pow2. Qed.

(** A user address is in the first gigabyte, above the kernel's 128 MB; its table and entry. *)
Definition user_idx (i j : Z) : Prop := 64 <= i < 512 /\ 0 <= j < 512.
Definition va_i (va : Z) : Z := va / 2 ^ 21.
Definition va_j (va : Z) : Z := va / 2 ^ 12 mod 512.
Definition user_va (va : Z) : Prop := 64 * 2 ^ 21 <= va < 2 ^ 30.

Lemma user_va_idx va : user_va va -> user_idx (va_i va) (va_j va) /\
  index_of va 39 = 0 /\ index_of va 30 = 0 /\ index_of va 21 = va_i va /\ index_of va 12 = va_j va.
Proof.
  unfold user_va, user_idx, va_i, va_j. rewrite !index_of_div by lia.
  change (2 ^ 39) with 549755813888. change (2 ^ 30) with 1073741824. change (2 ^ 21) with 2097152. change (2 ^ 12) with 4096.
  intros Hv. repeat split; dlia.
Qed.
Definition va_of (i j : Z) : Z := Z.lor (Z.shiftl i 21) (Z.shiftl j 12).
Lemma va_of_user i j : user_idx i j -> user_va (va_of i j) /\ va_i (va_of i j) = i /\ va_j (va_of i j) = j.
Proof.
  intros [Hi Hj]. assert (E : va_of i j = i * 2097152 + j * 4096).
  { unfold va_of. rewrite <- Z.add_lor_land. rewrite !Z.shiftl_mul_pow2 by lia. change (2 ^ 21) with 2097152.
    change (2 ^ 12) with 4096. replace (Z.land (i * 2097152) (j * 4096)) with 0; [lia|].
    replace (i * 2097152) with (Z.shiftl i 21) by (by rewrite Z.shiftl_mul_pow2).
    symmetry. apply Z.bits_inj'. intros n Hn. rewrite Z.bits_0, Z.land_spec.
    destruct (Z_lt_le_dec n 21) as [Hl|Hl]; [by rewrite Z.shiftl_spec_low|].
    replace (Z.testbit (j * 4096) n) with false; [by rewrite andb_false_r|]. symmetry.
    apply Z.bits_above_log2; [lia|]. destruct (Z.eq_dec j 0) as [->|]; [change (Z.log2 (0 * 4096)) with 0; lia|].
    apply Z.log2_lt_pow2; [lia|]. pose proof (Z.pow_le_mono_r 2 21 n ltac:(lia) ltac:(lia)). change (2 ^ 21) with 2097152 in *. lia. }
  rewrite E. unfold user_va, va_i, va_j. change (2 ^ 30) with 1073741824. change (2 ^ 21) with 2097152. change (2 ^ 12) with 4096.
  repeat split; dlia.
Qed.

(** ** Address spaces *)

(** The user part of the space with PML4 at [root]. *)
Definition pdpt_of (m : pmem) (root : Z) : Z := frame_of (m root).
Definition pd_of (m : pmem) (root : Z) : Z := frame_of (m (pdpt_of m root)).
Definition pde (m : pmem) (root i : Z) : Z := m (entry_at (pd_of m root) i).
Definition pt_of (m : pmem) (root i : Z) : option Z :=
  if has (pde m root i) PAGE_PRESENT then Some (frame_of (pde m root i)) else None.
Definition user_pds : list Z := Z.of_nat <$> seq 64 448.
Definition tables (m : pmem) (root : Z) : list Z :=
  root :: pdpt_of m root :: pd_of m root :: omap (pt_of m root) user_pds.
(** The entry of a user page; 0 without a table. *)
Definition pte (m : pmem) (root i j : Z) : Z :=
  match pt_of m root i with Some pt => m (entry_at pt j) | None => 0 end.
Definition maps (m : pmem) (root i j f : Z) : bool := has (pte m root i j) PAGE_PRESENT && (frame_of (pte m root i j) =? f).
(** How many spaces map the frame there. *)
Definition users (m : pmem) (roots : list Z) (i j f : Z) : nat :=
  length (filter (fun r => maps m r i j f = true) roots).
Definition all_tables (m : pmem) (roots : list Z) : list Z := roots ≫= tables m.

(** An entry that points to a table, whichever mask reads it. *)
Definition link_ok (e : Z) : Prop := has e PAGE_PS = false /\ Z.land e 0x000FFFFFFFFFF000 = frame_of e.

(** The invariant of a set of spaces: tables are frames of their own; a mapped frame is not a
    table; it is mapped at one address only, with as many references as spaces that map it at
    least, and read-only when several do. *)
Record vm_wf st (roots : list Z) : Prop := {
  vw_frames : frames_wf st;
  vw_nodup : NoDup (all_tables (pm st) roots);
  vw_live t : t ∈ all_tables (pm st) roots -> live st t;
  vw_path r : r ∈ roots ->
    has (pm st r) PAGE_PRESENT = true /\ link_ok (pm st r) /\
    has (pm st (pdpt_of (pm st) r)) PAGE_PRESENT = true /\ link_ok (pm st (pdpt_of (pm st) r));
  vw_small r i : r ∈ roots -> 64 <= i < 512 -> link_ok (pde (pm st) r i);
  vw_leaf r i j f : r ∈ roots -> user_idx i j -> maps (pm st) r i j f = true ->
    live st f /\ f ∉ all_tables (pm st) roots;
  vw_share r1 r2 i1 j1 i2 j2 f : r1 ∈ roots -> r2 ∈ roots -> user_idx i1 j1 -> user_idx i2 j2 ->
    maps (pm st) r1 i1 j1 f = true -> maps (pm st) r2 i2 j2 f = true ->
    i1 = i2 /\ j1 = j2 /\ (r1 = r2 \/ has (pte (pm st) r1 i1 j1) PAGE_WRITABLE = false);
  vw_count r i j f : r ∈ roots -> user_idx i j -> maps (pm st) r i j f = true ->
    Z.of_nat (users (pm st) roots i j f) <= rc st f }.

Lemma entry_at_0 t : entry_at t 0 = t.
Proof. unfold entry_at. lia. Qed.
Lemma in_page_entry t k : 0 <= k < 512 -> in_page t (entry_at t k) = true.
Proof. intros Hk. unfold in_page, entry_at, PAGE_SIZE. lia. Qed.
Lemma pages_disjoint st t t' a : in_pool st t -> in_pool st t' -> t <> t' -> in_page t a = true -> in_page t' a = false.
Proof. intros [_ Hm] [_ Hm'] Hne. unfold in_page, PAGE_SIZE in *. intros Ha. apply not_true_iff_false. intros Hb. dlia. Qed.
Lemma entry_ne st t t' k k' : in_pool st t -> in_pool st t' -> t <> t' -> 0 <= k < 512 -> 0 <= k' < 512 ->
  entry_at t k <> entry_at t' k'.
Proof.
  intros Ht Ht' Hne Hk Hk' E. pose proof (pages_disjoint st t t' (entry_at t k) Ht Ht' Hne (in_page_entry t k Hk)) as Hd.
  by rewrite E, in_page_entry in Hd.
Qed.
Lemma pool_frame_of st f : frames_wf st -> in_pool st f -> frame_of f = f.
Proof.
  intros Hwf [Hf Hm]. destruct (fw_base _ Hwf) as (Hb & _ & He). rewrite (fw_end _ Hwf) in He.
  apply frame_of_aligned; [lia|done].
Qed.

Lemma elem_of_user_pds i : i ∈ user_pds <-> 64 <= i < 512.
Proof.
  unfold user_pds. rewrite list_elem_of_fmap. split.
  - intros (n & -> & Hn%elem_of_seq). lia.
  - intros Hi. exists (Z.to_nat i). split; [lia|]. apply elem_of_seq. lia.
Qed.
Lemma user_pds_nodup : NoDup user_pds.
Proof. apply NoDup_fmap_2; [intros ???; lia|]. apply NoDup_seq. Qed.
#[global] Opaque user_pds.
Lemma pt_in_tables m r i t : 64 <= i < 512 -> pt_of m r i = Some t -> t ∈ tables m r.
Proof.
  intros Hi Ht. unfold tables. do 3 (apply elem_of_cons; right). apply list_elem_of_omap.
  exists i. split; [by apply elem_of_user_pds|done].
Qed.

Lemma NoDup_omap_inj {A B} (g : A -> option B) l x x' y :
  NoDup (omap g l) -> x ∈ l -> x' ∈ l -> g x = Some y -> g x' = Some y -> x = x'.
Proof.
  induction l as [|z l IH]; [by intros _ ?%elem_of_nil|]. cbn. intros Hnd Hx Hx' Ex Ex'.
  rewrite elem_of_cons in Hx, Hx'. destruct (g z) as [w|] eqn:Ez.
  - apply NoDup_cons in Hnd as [Hni Hnd]. destruct Hx as [->|Hx], Hx' as [->|Hx']; [done|..|by apply IH].
    + exfalso. apply Hni. apply list_elem_of_omap. exists x'. split; [done|]. congruence.
    + exfalso. apply Hni. apply list_elem_of_omap. exists x. split; [done|]. congruence.
  - destruct Hx as [->|Hx], Hx' as [->|Hx']; [done|congruence|congruence|by apply IH].
Qed.
Lemma NoDup_bind_inj {A B} (g : A -> list B) l x x' y :
  NoDup (l ≫= g) -> x ∈ l -> x' ∈ l -> y ∈ g x -> y ∈ g x' -> x = x'.
Proof.
  induction l as [|z l IH]; [by intros _ ?%elem_of_nil|]. cbn. intros (Hz & Hd & Hnd)%NoDup_app Hx Hx' Ex Ex'.
  rewrite elem_of_cons in Hx, Hx'. destruct Hx as [->|Hx], Hx' as [->|Hx']; [done|..|by apply IH].
  - exfalso. apply (Hd y Ex). apply list_elem_of_bind. by exists x'.
  - exfalso. apply (Hd y Ex'). apply list_elem_of_bind. by exists x.
Qed.
Lemma NoDup_bind_each {A B} (g : A -> list B) l x : NoDup (l ≫= g) -> x ∈ l -> NoDup (g x).
Proof.
  induction l as [|z l IH]; [by intros _ ?%elem_of_nil|]. cbn. intros (Hz & _ & Hnd)%NoDup_app Hx.
  apply elem_of_cons in Hx as [->|Hx]; auto.
Qed.

Lemma root_in m r : r ∈ tables m r.
Proof. unfold tables. rewrite elem_of_cons. auto. Qed.
Lemma pdpt_in m r : pdpt_of m r ∈ tables m r.
Proof. unfold tables. rewrite !elem_of_cons. auto. Qed.
Lemma pd_in m r : pd_of m r ∈ tables m r.
Proof. unfold tables. rewrite !elem_of_cons. auto. Qed.

Section space.
Context (st : Mm) (roots : list Z) (Hwf : vm_wf st roots).
Implicit Types (r t i j : Z).
Local Abbreviation m := (pm st).

Lemma table_of r t : r ∈ roots -> t ∈ tables m r -> t ∈ all_tables m roots.
Proof. intros Hr Ht. apply list_elem_of_bind. by exists r. Qed.
Lemma table_live r t : r ∈ roots -> t ∈ tables m r -> live st t.
Proof. intros Hr Ht. apply (vw_live _ _ Hwf). by eapply table_of. Qed.
Lemma table_root r r' t : r ∈ roots -> r' ∈ roots -> t ∈ tables m r -> t ∈ tables m r' -> r = r'.
Proof. exact (NoDup_bind_inj (tables m) roots r r' t (vw_nodup _ _ Hwf)). Qed.
(** The tables of one space are distinct. *)
Lemma tables_distinct r : r ∈ roots ->
  r <> pdpt_of m r /\ r <> pd_of m r /\ pdpt_of m r <> pd_of m r /\
  (forall i t, 64 <= i < 512 -> pt_of m r i = Some t -> t <> r /\ t <> pdpt_of m r /\ t <> pd_of m r) /\
  (forall i i' t, 64 <= i < 512 -> 64 <= i' < 512 -> pt_of m r i = Some t -> pt_of m r i' = Some t -> i = i').
Proof.
  intros Hr. pose proof (NoDup_bind_each _ _ _ (vw_nodup _ _ Hwf) Hr) as Hnd. unfold tables in Hnd.
  apply NoDup_cons in Hnd as [H1 Hnd]. apply NoDup_cons in Hnd as [H2 Hnd]. apply NoDup_cons in Hnd as [H3 Hnd].
  rewrite !elem_of_cons in H1. rewrite elem_of_cons in H2. split; [tauto|]. split; [tauto|]. split; [tauto|]. split.
  - intros i t Hi Ht. assert (Hin : t ∈ omap (pt_of m r) user_pds).
    { apply list_elem_of_omap. exists i. split; [by apply elem_of_user_pds|done]. }
    split; [intros ->; tauto|]. split; intros ->; tauto.
  - intros i i' t Hi Hi' Ht Ht'. apply (NoDup_omap_inj (pt_of m r) user_pds i i' t Hnd); [by apply elem_of_user_pds..|done|done].
Qed.
End space.

(** Contents do not matter to the allocator. *)
Lemma frames_wf_pm st m : frames_wf st -> frames_wf (st <| pm := m |>).
Proof. intros []. by split. Qed.
Lemma frames_wf_store st a v : frames_wf st -> frames_wf (store st a v).
Proof. apply frames_wf_pm. Qed.
#[export] Hint Resolve frames_wf_pm frames_wf_store vw_frames : vos.

(** *** Steps that keep every user entry *)

Definition same_ptes (m m' : pmem) (roots : list Z) : Prop :=
  forall r i j, r ∈ roots -> user_idx i j -> pte m' r i j = pte m r i j.
Definition upper_ok (m : pmem) (roots : list Z) : Prop :=
  (forall r, r ∈ roots -> has (m r) PAGE_PRESENT = true /\ link_ok (m r) /\
                          has (m (pdpt_of m r)) PAGE_PRESENT = true /\ link_ok (m (pdpt_of m r))) /\
  (forall r i, r ∈ roots -> 64 <= i < 512 -> link_ok (pde m r i)).

Lemma maps_ext m m' roots r i j f : same_ptes m m' roots -> r ∈ roots -> user_idx i j -> maps m' r i j f = maps m r i j f.
Proof. intros Hs Hr Hij. unfold maps. by rewrite Hs. Qed.
Lemma users_ext m m' roots i j f : same_ptes m m' roots -> user_idx i j -> users m' roots i j f = users m roots i j f.
Proof.
  intros Hs Hij. unfold users. f_equal. apply list_filter_iff'. apply Forall_forall. intros r Hr.
  by rewrite (maps_ext m m' roots).
Qed.
Lemma upper_of_wf st roots : vm_wf st roots -> upper_ok (pm st) roots.
Proof. intros Hwf. split; [apply (vw_path _ _ Hwf)|apply (vw_small _ _ Hwf)]. Qed.

Lemma live_mono st st' f : same_pool st st' -> rc st f <= rc st' f -> live st f -> live st' f.
Proof. intros Hs Hr [Hp H1]. split; [by apply (in_pool_same st)|lia]. Qed.

(** [F]: frames that became tables. *)
Lemma vm_wf_ext st st' roots F :
  vm_wf st roots -> frames_wf st' -> same_pool st st' -> (forall f, live st f -> rc st f <= rc st' f) ->
  all_tables (pm st') roots ≡ₚ F ++ all_tables (pm st) roots -> NoDup F ->
  (forall f, f ∈ F -> live st' f /\ f ∉ all_tables (pm st) roots /\
     forall r i j, r ∈ roots -> user_idx i j -> maps (pm st) r i j f = false) ->
  upper_ok (pm st') roots -> same_ptes (pm st) (pm st') roots -> vm_wf st' roots.
Proof.
  intros Hwf Hfw Hsp Hrc Hperm HF HFok [Hpath Hsmall] Hpte.
  split; [done|..|done|done| | |].
  - rewrite Hperm. apply NoDup_app. split; [done|]. split; [|apply (vw_nodup _ _ Hwf)]. intros f Hf. by apply HFok.
  - intros t Ht. rewrite Hperm in Ht. apply elem_of_app in Ht as [Ht|Ht]; [by apply HFok|].
    pose proof (vw_live _ _ Hwf t Ht) as Hl. apply (live_mono st); auto.
  - intros r i j f Hr Hij Hm. rewrite (maps_ext (pm st) _ roots) in Hm by done.
    destruct (vw_leaf _ _ Hwf r i j f Hr Hij Hm) as [Hl Hni]. split; [apply (live_mono st); auto|].
    rewrite Hperm, elem_of_app. intros [Hf|Hf]; [|done]. destruct (HFok f Hf) as (_ & _ & Hno).
    by rewrite Hno in Hm.
  - intros r1 r2 i1 j1 i2 j2 f Hr1 Hr2 Hij1 Hij2 Hm1 Hm2.
    rewrite (maps_ext (pm st) _ roots) in Hm1, Hm2 by done. rewrite Hpte by done. by apply (vw_share _ _ Hwf _ _ _ _ _ _ f).
  - intros r i j f Hr Hij Hm. rewrite (maps_ext (pm st) _ roots) in Hm by done.
    rewrite (users_ext (pm st) _ roots) by done. pose proof (vw_count _ _ Hwf r i j f Hr Hij Hm).
    destruct (vw_leaf _ _ Hwf r i j f Hr Hij Hm) as [Hl _]. pose proof (Hrc f Hl). lia.
Qed.

(** Words of the upper levels decide where the tables are. *)
Definition same_link (e e' : Z) : Prop :=
  frame_of e' = frame_of e /\ has e' PAGE_PRESENT = has e PAGE_PRESENT /\ (link_ok e -> link_ok e').
Lemma same_link_refl e : same_link e e.
Proof. done. Qed.
Definition upper_words (m : pmem) (r a : Z) : Prop :=
  a = r \/ a = pdpt_of m r \/ exists i, 64 <= i < 512 /\ a = entry_at (pd_of m r) i.
Lemma same_shape m m' r : (forall a, upper_words m r a -> same_link (m a) (m' a)) ->
  pdpt_of m' r = pdpt_of m r /\ pd_of m' r = pd_of m r /\
  (forall i, 64 <= i < 512 -> same_link (pde m r i) (pde m' r i) /\ pt_of m' r i = pt_of m r i) /\
  tables m' r = tables m r.
Proof.
  intros Hs. assert (H3 : pdpt_of m' r = pdpt_of m r) by (apply Hs; by left).
  assert (H2 : pd_of m' r = pd_of m r) by (unfold pd_of; rewrite H3; apply Hs; right; by left).
  assert (Hpt : forall i, 64 <= i < 512 -> same_link (pde m r i) (pde m' r i) /\ pt_of m' r i = pt_of m r i).
  { intros i Hi. assert (Hl : same_link (pde m r i) (pde m' r i)).
    { unfold pde. rewrite H2. apply Hs. right. right. by exists i. }
    split; [done|]. destruct Hl as (Hf & Hp & _). unfold pt_of. by rewrite Hf, Hp. }
  split; [done|]. split; [done|]. split; [done|]. unfold tables. rewrite H3, H2. do 3 f_equal.
  assert (Hall : forall l : list Z, (forall i, i ∈ l -> 64 <= i < 512) -> omap (pt_of m' r) l = omap (pt_of m r) l).
  { induction l as [|i l IH]; intros Hl; [done|]. cbn. rewrite (proj2 (Hpt i (Hl i ltac:(by apply elem_of_cons; left)))).
    rewrite IH; [done|]. intros k Hk. apply Hl. apply elem_of_cons. by right. }
  apply Hall. intros i. by apply elem_of_user_pds.
Qed.
Lemma same_upper m m' roots : (forall r a, r ∈ roots -> upper_words m r a -> same_link (m a) (m' a)) ->
  upper_ok m roots -> upper_ok m' roots /\ all_tables m' roots = all_tables m roots.
Proof.
  intros Hs [Hp Hsm]. split; [split|].
  - intros r Hr. destruct (same_shape m m' r (fun a => Hs r a Hr)) as (E & _). rewrite E.
    destruct (Hs r r Hr (or_introl eq_refl)) as (_ & -> & Hl).
    destruct (Hs r (pdpt_of m r) Hr (or_intror (or_introl eq_refl))) as (_ & -> & Hl').
    destruct (Hp r Hr) as (H1 & H2 & H3 & H4). auto.
  - intros r i Hr Hi. destruct (same_shape m m' r (fun a => Hs r a Hr)) as (_ & _ & Hpt & _).
    destruct (Hpt i Hi) as [(_ & _ & Hl) _]. by apply Hl, Hsm.
  - unfold all_tables. induction roots as [|r l IH]; [done|]. rewrite !bind_cons. f_equal.
    + apply (same_shape m m' r). intros a. apply Hs. apply elem_of_cons. by left.
    + apply IH; intros; [eapply Hs|eapply Hp|eapply Hsm]; try done; apply elem_of_cons; by right.
Qed.

(** Steps on tables that callers do not see: user entries, the data of user frames, and
    reference counts of live frames stay; tables are only added. *)
Record quiet st st' (roots : list Z) : Prop := {
  q_wf : vm_wf st' roots;
  q_ptes : same_ptes (pm st) (pm st') roots;
  q_data f a : live st f -> f ∉ all_tables (pm st) roots -> in_page f a = true -> pm st' a = pm st a;
  q_pool : same_pool st st';
  q_rc f : live st f -> rc st' f = rc st f;
  q_new t : t ∈ all_tables (pm st') roots -> t ∈ all_tables (pm st) roots \/ ~ live st t;
  q_path r : r ∈ roots -> pdpt_of (pm st') r = pdpt_of (pm st) r /\ pd_of (pm st') r = pd_of (pm st) r;
  q_pts r i t : r ∈ roots -> 64 <= i < 512 -> pt_of (pm st) r i = Some t -> pt_of (pm st') r i = Some t }.

Lemma quiet_refl st roots : vm_wf st roots -> quiet st st roots.
Proof. intros Hwf. split; auto; done. Qed.
Lemma quiet_live st st' roots f : quiet st st' roots -> live st f -> live st' f.
Proof. intros Hq Hl. apply (live_mono st); [apply Hq| |done]. by rewrite (q_rc _ _ _ Hq). Qed.
Lemma quiet_trans st1 st2 st3 roots : quiet st1 st2 roots -> quiet st2 st3 roots -> quiet st1 st3 roots.
Proof.
  intros H12 H23. split.
  - apply H23.
  - intros r i j Hr Hij. by rewrite (q_ptes _ _ _ H23), (q_ptes _ _ _ H12).
  - intros f a Hl Hni Ha. rewrite (q_data _ _ _ H23 f a); [by apply (q_data _ _ _ H12 f)|by apply (quiet_live st1 _ roots)| |done].
    intros Hin. by destruct (q_new _ _ _ H12 f Hin).
  - destruct (q_pool _ _ _ H12) as [E1 E2], (q_pool _ _ _ H23) as [E3 E4]. split; congruence.
  - intros f Hl. rewrite (q_rc _ _ _ H23) by (by apply (quiet_live st1 _ roots)). by apply (q_rc _ _ _ H12).
  - intros t Ht. destruct (q_new _ _ _ H23 t Ht) as [Hin|Hnl]; [by apply (q_new _ _ _ H12)|].
    right. intros Hl. by apply Hnl, (quiet_live st1 _ roots).
  - intros r Hr. destruct (q_path _ _ _ H12 r Hr), (q_path _ _ _ H23 r Hr). split; congruence.
  - intros r i t Hr Hi Ht. apply (q_pts _ _ _ H23); [done..|]. by apply (q_pts _ _ _ H12).
Qed.

(** Where the words of the upper levels are. *)
Lemma upper_word_entry st roots r a : vm_wf st roots -> r ∈ roots -> upper_words (pm st) r a ->
  exists t k, a = entry_at t k /\ 0 <= k < 512 /\ t ∈ tables (pm st) r /\
    forall i t', 64 <= i < 512 -> pt_of (pm st) r i = Some t' -> t' <> t.
Proof.
  intros Hwf Hr Ha. destruct (tables_distinct st roots Hwf r Hr) as (_ & _ & _ & Hpt & _).
  destruct Ha as [->|[->|(i & Hi & ->)]].
  - exists r, 0. rewrite entry_at_0. split; [done|]. split; [lia|]. split; [by apply root_in|]. intros i t' Hi Ht. by apply (Hpt i t').
  - exists (pdpt_of (pm st) r), 0. rewrite entry_at_0. split; [done|]. split; [lia|]. split; [by apply pdpt_in|].
    intros i t' Hi Ht. by apply (Hpt i t').
  - exists (pd_of (pm st) r), i. split; [done|]. split; [lia|]. split; [by apply pd_in|].
    intros i' t' Hi' Ht. by apply (Hpt i' t').
Qed.
Lemma upper_not_leaf st roots r r' a i j pt : vm_wf st roots -> r ∈ roots -> r' ∈ roots -> upper_words (pm st) r a ->
  user_idx i j -> pt_of (pm st) r' i = Some pt -> a <> entry_at pt j.
Proof.
  intros Hwf Hr Hr' Ha [Hi Hj] Hpt. destruct (upper_word_entry st roots r a Hwf Hr Ha) as (t & k & -> & Hk & Ht & Hd).
  pose proof (pt_in_tables _ _ _ _ Hi Hpt) as Hpt'. apply (entry_ne st).
  - exact (proj1 (table_live st roots Hwf r t Hr Ht)).
  - exact (proj1 (table_live st roots Hwf r' pt Hr' Hpt')).
  - intros ->. assert (r' = r) as -> by exact (table_root st roots Hwf r' r pt Hr' Hr Hpt' Ht). by apply (Hd i pt).
  - done.
  - done.
Qed.

(** Changing only flags of the upper levels. *)
Lemma quiet_upper st roots r a v : vm_wf st roots -> r ∈ roots -> upper_words (pm st) r a ->
  same_link (pm st a) v -> quiet st (store st a v) roots.
Proof.
  intros Hwf Hr Ha Hv. set (st' := store st a v).
  assert (Hw : forall x, same_link (pm st x) (pm st' x)).
  { intros x. unfold st', store, put_word. cbn. destruct (Z.eqb_spec x a) as [->|]; [done|apply same_link_refl]. }
  destruct (same_upper (pm st) (pm st') roots (fun _ x _ _ => Hw x) (upper_of_wf _ _ Hwf)) as [Hup Htab].
  assert (Hpte : same_ptes (pm st) (pm st') roots).
  { intros r' i j Hr' Hij. unfold pte. destruct (same_shape (pm st) (pm st') r' (fun x _ => Hw x)) as (_ & _ & Hpt & _).
    destruct (Hpt i (proj1 Hij)) as [_ ->]. destruct (pt_of (pm st) r' i) as [pt|] eqn:E; [|done].
    unfold st', store, put_word. cbn. rewrite (proj2 (Z.eqb_neq _ a)); [done|].
    intros <-. by apply (upper_not_leaf st roots r r' (entry_at pt j) i j pt). }
  split.
  - apply (vm_wf_ext st st' roots []); [done|apply frames_wf_store, Hwf|done|done| |constructor|by intros f ?%elem_of_nil|done|done].
    by rewrite Htab.
  - done.
  - intros f x Hl Hni Hx. unfold st', store, put_word. cbn. rewrite (proj2 (Z.eqb_neq x a)); [done|]. intros ->.
    destruct (upper_word_entry st roots r a Hwf Hr Ha) as (t & k & -> & Hk & Ht & _).
    pose proof (table_of st roots r t Hr Ht) as Hti. pose proof (table_live st roots Hwf r t Hr Ht) as Htl. clear Ht.
    destruct (Z.eq_dec f t) as [->|Hne]; [done|].
    rewrite (pages_disjoint st t f) in Hx; [done|apply Htl|apply Hl|done|by apply in_page_entry].
  - done.
  - done.
  - intros t Ht. left. by rewrite Htab in Ht.
  - intros r' Hr'. destruct (same_shape (pm st) (pm st') r' (fun x _ => Hw x)) as (-> & -> & _). done.
  - intros r' i t Hr' Hi Ht. destruct (same_shape (pm st) (pm st') r' (fun x _ => Hw x)) as (_ & _ & Hpt & _).
    destruct (Hpt i Hi) as [_ ->]. done.
Qed.

(** Memory that agrees on the tables has the same spaces. *)
Lemma agree_tables st m' roots : vm_wf st roots ->
  (forall t k, t ∈ all_tables (pm st) roots -> 0 <= k < 512 -> m' (entry_at t k) = pm st (entry_at t k)) ->
  upper_ok m' roots /\ all_tables m' roots = all_tables (pm st) roots /\ same_ptes (pm st) m' roots /\
  forall r, r ∈ roots -> pdpt_of m' r = pdpt_of (pm st) r /\ pd_of m' r = pd_of (pm st) r /\
    forall i, 64 <= i < 512 -> pt_of m' r i = pt_of (pm st) r i.
Proof.
  intros Hwf Hag. assert (Hw : forall r a, r ∈ roots -> upper_words (pm st) r a -> same_link (pm st a) (m' a)).
  { intros r a Hr Ha. destruct (upper_word_entry st roots r a Hwf Hr Ha) as (t & k & -> & Hk & Ht & _).
    rewrite Hag; [apply same_link_refl|by apply (table_of st roots r)|done]. }
  destruct (same_upper (pm st) m' roots Hw (upper_of_wf _ _ Hwf)) as [Hup Htab].
  split; [done|]. split; [done|]. split.
  - intros r i j Hr [Hi Hj]. destruct (same_shape (pm st) m' r (fun a => Hw r a Hr)) as (_ & _ & Hpt & _).
    unfold pte. destruct (Hpt i Hi) as [_ ->]. destruct (pt_of (pm st) r i) as [pt|] eqn:E; [|done].
    apply Hag; [|done]. apply (table_of st roots r); [done|]. by apply (pt_in_tables _ _ i).
  - intros r Hr. destruct (same_shape (pm st) m' r (fun a => Hw r a Hr)) as (E1 & E2 & Hpt & _).
    split; [done|]. split; [done|]. intros i Hi. by apply Hpt.
Qed.

(** A frame nobody holds. *)
Definition fresh st (roots : list Z) f : Prop :=
  live st f /\ rc st f = 1 /\ f ∉ all_tables (pm st) roots /\
  forall r i j, r ∈ roots -> user_idx i j -> maps (pm st) r i j f = false.

Lemma quiet_alloc st roots f st' : vm_wf st roots -> frame_alloc st = (f, st') ->
  (f = 0 /\ st' = st /\ forall g, in_pool st g -> live st g) \/
  (f <> 0 /\ quiet st st' roots /\ ~ live st f /\ fresh st' roots f /\ all_tables (pm st') roots = all_tables (pm st) roots /\
   counts_except st st' f 1 /\ pm st' = zero_page (pm st) f).
Proof.
  intros Hwf E. pose proof (frame_alloc_ok st (vw_frames _ _ Hwf)) as Ha. rewrite E in Ha.
  destruct Ha as [Ha|(Hp & Hf0 & Hr0 & Hc & Hpm & Hfw)]; [by left|right].
  assert (Hnl : ~ live st f) by (intros [_ Hl]; lia). destruct Hc as (Hsp & Hrf & Hrg).
  assert (Hz : forall t k, t ∈ all_tables (pm st) roots -> 0 <= k < 512 -> pm st' (entry_at t k) = pm st (entry_at t k)).
  { intros t k Ht Hk. pose proof (vw_live _ _ Hwf t Ht) as Hl. rewrite Hpm. unfold zero_page.
    rewrite (pages_disjoint st t f); [done|apply Hl|done| |by apply in_page_entry]. by intros ->. }
  destruct (agree_tables st (pm st') roots Hwf Hz) as (Hup & Htab & Hpte & Hsh).
  assert (Hni : f ∉ all_tables (pm st) roots) by (intros Ht; by apply Hnl, (vw_live _ _ Hwf)).
  assert (Hnm : forall r i j, r ∈ roots -> user_idx i j -> maps (pm st) r i j f = false).
  { intros r i j Hr Hij. destruct (maps (pm st) r i j f) eqn:Em; [|done]. by destruct (vw_leaf _ _ Hwf r i j f Hr Hij Em). }
  assert (Hrc : forall g, live st g -> rc st' g = rc st g).
  { intros g Hl. apply Hrg; [apply Hl|]. by intros ->. }
  assert (Hwf' : vm_wf st' roots).
  { apply (vm_wf_ext st st' roots []); try done.
    - intros g Hl. by rewrite Hrc.
    - by rewrite Htab.
    - constructor.
    - by intros g ?%elem_of_nil. }
  split; [done|]. split; [split; try done|].
  - intros g a Hl _ Ha. rewrite Hpm. unfold zero_page. rewrite (pages_disjoint st g f); [done|apply Hl|done| |done]. by intros ->.
  - intros t Ht. left. by rewrite Htab in Ht.
  - intros r Hr. destruct (Hsh r Hr) as (-> & -> & _). done.
  - intros r i t Hr Hi Ht. destruct (Hsh r Hr) as (_ & _ & ->); done.
  - split; [done|]. split; [|done]. split; [split; [by apply (in_pool_same st)|lia]|]. split; [done|].
    split; [by rewrite Htab|]. intros r i j Hr Hij. rewrite (maps_ext (pm st) _ roots) by done. by apply Hnm.
Qed.

Lemma omap_insert_perm (g g' : Z -> option Z) (l : list Z) i f : NoDup l -> i ∈ l -> g i = None -> g' i = Some f ->
  (forall k, k ∈ l -> k <> i -> g' k = g k) -> omap g' l ≡ₚ f :: omap g l.
Proof.
  induction l as [|k l IH]; [by intros _ ?%elem_of_nil|]. intros [Hni Hnd]%NoDup_cons Hi Eg Eg' Hoth. cbn.
  destruct (decide (k = i)) as [->|Hne].
  - rewrite Eg, Eg'. constructor. assert (Hall : omap g' l = omap g l); [|by rewrite Hall].
    assert (Hl : forall k, k ∈ l -> g' k = g k).
    { intros k Hk. apply Hoth; [apply elem_of_cons; by right|]. by intros ->. }
    clear -Hl. induction l as [|k l IH]; [done|]. cbn. rewrite Hl by (apply elem_of_cons; by left).
    rewrite IH; [done|]. intros z Hz. apply Hl. apply elem_of_cons. by right.
  - apply elem_of_cons in Hi as [->|Hi]; [done|]. rewrite (Hoth k) by (rewrite ?elem_of_cons; auto).
    assert (Hp : omap g' l ≡ₚ f :: omap g l) by (apply IH; [done..|intros z Hz; apply Hoth; apply elem_of_cons; by right]).
    destruct (g k); [rewrite Hp; apply perm_swap|done].
Qed.

Lemma bind_perm_one (g g' : Z -> list Z) l x f : NoDup l -> x ∈ l -> g' x ≡ₚ f :: g x ->
  (forall y, y ∈ l -> y <> x -> g' y = g y) -> l ≫= g' ≡ₚ f :: (l ≫= g).
Proof.
  induction l as [|k l IH]; [by intros _ ?%elem_of_nil|]. intros [Hni Hnd]%NoDup_cons Hx Hp Hoth. rewrite !bind_cons.
  destruct (decide (k = x)) as [->|Hne].
  - rewrite Hp. assert (E : l ≫= g' = l ≫= g); [|by rewrite E].
    assert (Hl : forall k, k ∈ l -> g' k = g k).
    { intros k Hk. apply Hoth; [apply elem_of_cons; by right|]. by intros ->. }
    clear -Hl. induction l as [|k l IH]; [done|]. rewrite !bind_cons, Hl by (apply elem_of_cons; by left).
    rewrite IH; [done|]. intros z Hz. apply Hl. apply elem_of_cons. by right.
  - apply elem_of_cons in Hx as [->|Hx]; [done|]. rewrite (Hoth k ltac:(apply elem_of_cons; by left) Hne).
    assert (Hl : l ≫= g' ≡ₚ f :: (l ≫= g)) by (apply IH; [done..|intros y Hy; apply Hoth; apply elem_of_cons; by right]).
    rewrite Hl. by rewrite Permutation_middle.
Qed.
Lemma roots_nodup m roots : NoDup (all_tables m roots) -> NoDup roots.
Proof.
  unfold all_tables. induction roots as [|r l IH]; [constructor|]. rewrite bind_cons. intros (_ & Hd & Hnd)%NoDup_app.
  constructor; [|by apply IH]. intros Hr. apply (Hd r); [apply root_in|]. apply list_elem_of_bind. exists r.
  split; [apply root_in|done].
Qed.

(** A fresh, cleared frame becomes the table of an empty directory entry. *)
Lemma link_table st roots r i f v : vm_wf st roots -> r ∈ roots -> 64 <= i < 512 -> fresh st roots f ->
  (forall k, 0 <= k < 512 -> pm st (entry_at f k) = 0) ->
  has (pde (pm st) r i) PAGE_PRESENT = false -> has v PAGE_PRESENT = true -> frame_of v = f -> link_ok v ->
  let st' := store st (entry_at (pd_of (pm st) r) i) v in
  vm_wf st' roots /\ same_ptes (pm st) (pm st') roots /\ all_tables (pm st') roots ≡ₚ f :: all_tables (pm st) roots /\
  pt_of (pm st') r i = Some f /\
  (forall r', r' ∈ roots -> pdpt_of (pm st') r' = pdpt_of (pm st) r' /\ pd_of (pm st') r' = pd_of (pm st) r' /\
     forall k t, 64 <= k < 512 -> pt_of (pm st) r' k = Some t -> pt_of (pm st') r' k = Some t).
Proof.
  intros Hwf Hr Hi (Hfl & Hfr & Hfn & Hfm) Hz Hp Hv Hvf Hvl st'. set (a := entry_at (pd_of (pm st) r) i) in *.
  assert (Ha : upper_words (pm st) r a) by (right; right; by exists i).
  destruct (tables_distinct st roots Hwf r Hr) as (_ & D2 & D3 & _).
  pose proof (table_live st roots Hwf r _ Hr (pd_in (pm st) r)) as Hpdl.
  assert (Hm : forall x, x <> a -> pm st' x = pm st x).
  { intros x Hx. unfold st', store, put_word. cbn. by rewrite (proj2 (Z.eqb_neq x a)). }
  assert (Hma : pm st' a = v) by (unfold st', store, put_word; cbn; by rewrite Z.eqb_refl).
  (* what the other spaces see *)
  assert (Hoth : forall r', r' ∈ roots -> r' <> r -> forall x, upper_words (pm st) r' x -> same_link (pm st x) (pm st' x)).
  { intros r' Hr' Hne x Hx. rewrite Hm; [apply same_link_refl|].
    destruct (upper_word_entry st roots r' x Hwf Hr' Hx) as (t & k & -> & Hk & Ht & _).
    apply (entry_ne st); [exact (proj1 (table_live st roots Hwf r' t Hr' Ht))|apply Hpdl| |done|lia].
    intros ->. apply Hne. exact (table_root st roots Hwf r' r _ Hr' Hr Ht (pd_in (pm st) r)). }
  (* the space itself *)
  assert (H0 : forall t, t ∈ tables (pm st) r -> t <> pd_of (pm st) r -> pm st' t = pm st t).
  { intros t Ht Hne. apply Hm. rewrite <- (entry_at_0 t).
    apply (entry_ne st); [exact (proj1 (table_live st roots Hwf r t Hr Ht))|apply Hpdl|done|lia|lia]. }
  assert (E3 : pdpt_of (pm st') r = pdpt_of (pm st) r) by (unfold pdpt_of; by rewrite (H0 r (root_in (pm st) r) D2)).
  assert (E2 : pd_of (pm st') r = pd_of (pm st) r).
  { unfold pd_of at 1. rewrite E3. by rewrite (H0 _ (pdpt_in (pm st) r) D3). }
  assert (Epde : forall k, 64 <= k < 512 -> k <> i -> pde (pm st') r k = pde (pm st) r k).
  { intros k Hk Hne. unfold pde. rewrite E2. apply Hm. unfold a, entry_at. lia. }
  assert (Ei : pde (pm st') r i = v) by (unfold pde; by rewrite E2).
  assert (Ept : pt_of (pm st') r i = Some f) by (unfold pt_of; by rewrite Ei, Hv, Hvf).
  assert (Epk : forall k, 64 <= k < 512 -> k <> i -> pt_of (pm st') r k = pt_of (pm st) r k).
  { intros k Hk Hne. unfold pt_of. by rewrite (Epde k). }
  assert (Epn : pt_of (pm st) r i = None) by (unfold pt_of; by rewrite Hp).
  assert (Htr : tables (pm st') r ≡ₚ f :: tables (pm st) r).
  { unfold tables. rewrite E3, E2. rewrite (omap_insert_perm (pt_of (pm st) r) (pt_of (pm st') r) user_pds i f);
      [|apply user_pds_nodup|by apply elem_of_user_pds|done|done|intros k ?%elem_of_user_pds; by apply Epk].
    symmetry. apply (Permutation_middle [_; _; _]). }
  assert (Htab : all_tables (pm st') roots ≡ₚ f :: all_tables (pm st) roots).
  { apply (bind_perm_one (tables (pm st)) (tables (pm st')) roots r f); [|done|done|].
    - by apply (roots_nodup (pm st)), vw_nodup.
    - intros r' Hr' Hne. by apply (same_shape (pm st) (pm st') r'), Hoth. }
  assert (Hpte : same_ptes (pm st) (pm st') roots).
  { intros r' k j Hr' [Hk Hj]. unfold pte. destruct (Z.eq_dec r' r) as [->|Hne].
    - destruct (Z.eq_dec k i) as [->|Hki].
      + rewrite Ept, Epn. rewrite Hm; [by apply Hz|]. apply (entry_ne st); [apply Hfl|apply Hpdl| |done|lia].
        intros ->. apply Hfn, (table_of st roots r); [done|]. apply pd_in.
      + rewrite Epk by done. destruct (pt_of (pm st) r k) as [pt|] eqn:E; [|done]. apply Hm. symmetry.
        pose proof (proj1 (vw_live _ _ Hwf pt (table_of st roots r pt Hr (pt_in_tables _ _ _ _ Hk E)))) as Hpl.
        apply (entry_ne st); [apply Hpdl|done| |lia|done]. intros <-.
        destruct (tables_distinct st roots Hwf r Hr) as (_ & _ & _ & Hd & _). by destruct (Hd k _ Hk E) as (_ & _ & ?).
    - destruct (same_shape _ _ _ (Hoth r' Hr' Hne)) as (_ & _ & Hpt & _). destruct (Hpt k Hk) as [_ ->].
      destruct (pt_of (pm st) r' k) as [pt|] eqn:E; [|done]. apply Hm. intros E'.
      exact (upper_not_leaf st roots r r' a k j pt Hwf Hr Hr' Ha (conj Hk Hj) E (eq_sym E')). }
  split; [|split; [done|split; [done|split; [done|]]]].
  - apply (vm_wf_ext st st' roots [f]); try done.
    + apply frames_wf_store, Hwf.
    + apply NoDup_singleton.
    + intros g ->%list_elem_of_singleton. done.
    + destruct (upper_of_wf _ _ Hwf) as [Hup Hsm]. split.
      * intros r' Hr'. destruct (Hup r' Hr') as (P1 & P2 & P3 & P4). destruct (Z.eq_dec r' r) as [->|Hne].
        { rewrite E3, (H0 r (root_in (pm st) r) D2), (H0 _ (pdpt_in (pm st) r) D3). done. }
        destruct (same_shape _ _ _ (Hoth r' Hr' Hne)) as (-> & _).
        destruct (Hoth r' Hr' Hne r' (or_introl eq_refl)) as (_ & -> & Hl1).
        destruct (Hoth r' Hr' Hne (pdpt_of (pm st) r') (or_intror (or_introl eq_refl))) as (_ & -> & Hl2). auto.
      * intros r' k Hr' Hk. destruct (Z.eq_dec r' r) as [->|Hne].
        { destruct (Z.eq_dec k i) as [->|Hki]; [by rewrite Ei|]. rewrite Epde by done. by apply Hsm. }
        destruct (same_shape _ _ _ (Hoth r' Hr' Hne)) as (_ & _ & Hpt & _). destruct (Hpt k Hk) as [(_ & _ & Hl) _].
        by apply Hl, Hsm.
  - intros r' Hr'. destruct (Z.eq_dec r' r) as [->|Hne].
    + split; [done|]. split; [done|]. intros k t Hk Ht. destruct (Z.eq_dec k i) as [->|]; [congruence|]. by rewrite Epk.
    + destruct (same_shape _ _ _ (Hoth r' Hr' Hne)) as (-> & -> & Hpt & _). split; [done|]. split; [done|].
      intros k t Hk Ht. by destruct (Hpt k Hk) as [_ ->].
Qed.

(** *** Mapping a page *)

Lemma live_nonzero st t : frames_wf st -> live st t -> t <> 0.
Proof. intros Hwf [[Ht _] _]. destruct (fw_base _ Hwf). lia. Qed.

Lemma same_link_user e flags : same_link e (Z.lor e (Z.land flags PAGE_USER)).
Proof.
  split; [by apply frame_of_flag|]. split; [by flags|]. intros [H1 H2]. split; [by flags|].
  rewrite frame_of_flag, Z.land_lor_distr_l by done. rewrite <- Z.land_assoc.
  change (Z.land PAGE_USER 0xFFFFFFFFFF000) with 0. by rewrite Z.land_0_r, Z.lor_0_r.
Qed.

(** The entry made for a new table. *)
Lemma new_table_entry f flags : 0 <= f < 2 ^ 48 -> f mod PAGE_SIZE = 0 ->
  let v := Z.lor (Z.lor (Z.lor f PAGE_PRESENT) PAGE_WRITABLE) (Z.land flags PAGE_USER) in
  has v PAGE_PRESENT = true /\ frame_of v = f /\ link_ok v.
Proof.
  intros Hf Hm v. assert (Hfv : frame_of v = f).
  { unfold v. rewrite frame_of_flag, !frame_of_lor, (frame_of_aligned f) by done.
    change (frame_of PAGE_PRESENT) with 0. change (frame_of PAGE_WRITABLE) with 0. by rewrite !Z.lor_0_r. }
  split; [unfold v; by flags|]. split; [done|]. split; [unfold v; by flags|]. rewrite Hfv. unfold v.
  rewrite !Z.land_lor_distr_l, <- (Z.land_assoc flags). change (Z.land PAGE_USER 0xFFFFFFFFFF000) with 0.
  change (Z.land PAGE_PRESENT 0xFFFFFFFFFF000) with 0. change (Z.land PAGE_WRITABLE 0xFFFFFFFFFF000) with 0.
  rewrite Z.land_0_r, !Z.lor_0_r. rewrite <- (aligned_mask f Hf Hm) at 1. rewrite <- Z.land_assoc. by apply aligned_mask.
Qed.

Lemma next_level_present st roots r t k flags : vm_wf st roots -> r ∈ roots -> upper_words (pm st) r (entry_at t k) ->
  has (pm st (entry_at t k)) PAGE_PRESENT = true -> link_ok (pm st (entry_at t k)) ->
  exists st', paging_next_level st t k flags = (frame_of (pm st (entry_at t k)), st') /\ quiet st st' roots.
Proof.
  intros Hwf Hr Ha Hp Hl. unfold paging_next_level. rewrite Hp. cbn [negb].
  set (v := Z.lor _ _). pose proof (same_link_user (pm st (entry_at t k)) flags) as Hs. fold v in Hs.
  eexists. split; [|by apply (quiet_upper st roots r (entry_at t k) v)]. f_equal.
  unfold store, put_word. cbn. rewrite Z.eqb_refl. destruct Hs as (<- & _ & Hlv). by apply Hlv.
Qed.

(** The page table of a user address is found, or made from a new frame. *)
Lemma next_level_pd st roots r i flags : vm_wf st roots -> r ∈ roots -> 64 <= i < 512 ->
  exists st', quiet st st' roots /\
    paging_next_level st (pd_of (pm st) r) i flags = (default 0 (pt_of (pm st') r i), st') /\
    (pt_of (pm st') r i = None -> forall g, in_pool st' g -> live st' g).
Proof.
  intros Hwf Hr Hi. set (a := entry_at (pd_of (pm st) r) i).
  assert (Ha : upper_words (pm st) r a) by (right; right; by exists i).
  destruct (has (pde (pm st) r i) PAGE_PRESENT) eqn:Ep.
  - assert (Ept : pt_of (pm st) r i = Some (frame_of (pm st a))) by (unfold pt_of; by rewrite Ep).
    destruct (next_level_present st roots r (pd_of (pm st) r) i flags Hwf Hr Ha Ep (vw_small _ _ Hwf r i Hr Hi))
      as (st' & E & Hq). exists st'. rewrite (q_pts _ _ _ Hq r i _ Hr Hi Ept). split; [done|]. by split.
  - unfold paging_next_level. fold a. change (pm st a) with (pde (pm st) r i). rewrite Ep. cbn [negb].
    destruct (frame_alloc st) as [f st1] eqn:Ea.
    destruct (quiet_alloc st roots f st1 Hwf Ea) as [(-> & -> & Hall)|(Hf0 & Hq & Hnl & Hfr & Htab & _ & Hz)].
    { exists st. split; [by apply quiet_refl|]. unfold pt_of. rewrite Ep. by split. }
    rewrite (proj2 (Z.eqb_neq f 0)) by done. destruct (q_path _ _ _ Hq r Hr) as [_ Epd].
    pose proof Hfr as (Hfl & _). destruct (fw_base _ (vw_frames _ _ (q_wf _ _ _ Hq))) as (Hb & _ & Hend).
    rewrite (fw_end _ (vw_frames _ _ (q_wf _ _ _ Hq))) in Hend. destruct Hfl as [[Hf Hfm] _].
    destruct (new_table_entry f flags ltac:(lia) Hfm) as (Hvp & Hvf & Hvl). set (v := Z.lor _ _) in *.
    assert (Eae : a = entry_at (pd_of (pm st1) r) i) by (by rewrite Epd).
    assert (Hne : has (pde (pm st1) r i) PAGE_PRESENT = false).
    { unfold pde. rewrite <- Eae. rewrite Hz. unfold zero_page. case_match; [done|exact Ep]. }
    assert (Hzf : forall k, 0 <= k < 512 -> pm st1 (entry_at f k) = 0).
    { intros k Hk. rewrite Hz. unfold zero_page. by rewrite in_page_entry. }
    destruct (link_table st1 roots r i f v (q_wf _ _ _ Hq) Hr Hi Hfr Hzf Hne Hvp Hvf Hvl) as (Hwf' & Hpte' & Htab' & Hpt' & Hsh).
    rewrite <- Eae in *. set (st' := store st1 a v) in *. exists st'. rewrite Hpt'. split; [|split; [|done]].
    + split; try done.
      * intros r' i' j' Hr' Hij. rewrite Hpte' by done. by apply (q_ptes _ _ _ Hq).
      * intros g x Hl Hni Hx. unfold st', store, put_word. cbn. rewrite (proj2 (Z.eqb_neq x a)).
        -- by apply (q_data _ _ _ Hq g).
        -- intros ->. pose proof (table_of st roots r _ Hr (pd_in (pm st) r)) as Hpt.
           rewrite (pages_disjoint st (pd_of (pm st) r) g) in Hx; [done|apply (vw_live _ _ Hwf _ Hpt)|apply Hl| |by apply in_page_entry; lia].
           by intros <-.
      * apply (q_pool _ _ _ Hq).
      * apply (q_rc _ _ _ Hq).
      * intros t Ht. rewrite Htab', Htab in Ht. apply elem_of_cons in Ht as [->|Ht]; auto.
      * intros r' Hr'. destruct (Hsh r' Hr') as (-> & -> & _). by apply (q_path _ _ _ Hq).
      * intros r' k t Hr' Hk Ht. destruct (Hsh r' Hr') as (_ & _ & Hk'). apply Hk'; [done|]. by apply (q_pts _ _ _ Hq).
    + f_equal. unfold st', store, put_word. cbn. rewrite Z.eqb_refl. destruct Hvl as [_ ->]. by rewrite Hvf.
Qed.

(** Mapping a page prepares the tables, then stores the entry. *)
Lemma map_4k_spec st roots r va phys flags : vm_wf st roots -> r ∈ roots -> user_va va ->
  exists st1, quiet st st1 roots /\
    paging_map_4k st r va phys flags =
      match pt_of (pm st1) r (va_i va) with
      | Some pt => store st1 (entry_at pt (va_j va)) (Z.lor (frame_of phys) flags)
      | None => st1
      end /\
    (pt_of (pm st1) r (va_i va) = None -> forall g, in_pool st1 g -> live st1 g).
Proof.
  intros Hwf Hr Hva. destruct (user_va_idx va Hva) as (Hij & E39 & E30 & E21 & E12).
  unfold paging_map_4k. rewrite E39, E30, E21, E12.
  destruct (vw_path _ _ Hwf r Hr) as (P1 & P2 & P3 & P4).
  destruct (next_level_present st roots r r 0 flags Hwf Hr) as (sa & -> & Ha);
    [left; apply entry_at_0|by rewrite entry_at_0..|]. rewrite entry_at_0. fold (pdpt_of (pm st) r).
  pose proof (q_wf _ _ _ Ha) as Hwa. destruct (q_path _ _ _ Ha r Hr) as [Ea1 Ea2].
  rewrite (proj2 (Z.eqb_neq _ 0)) by
    (apply (live_nonzero st); [apply Hwf|exact (table_live st roots Hwf r _ Hr (pdpt_in (pm st) r))]).
  destruct (vw_path _ _ Hwa r Hr) as (_ & _ & P3' & P4'). rewrite Ea1 in P3', P4'.
  destruct (next_level_present sa roots r (pdpt_of (pm st) r) 0 flags Hwa Hr) as (sb & -> & Hb);
    [right; left; by rewrite entry_at_0|by rewrite entry_at_0..|]. rewrite entry_at_0.
  pose proof (q_wf _ _ _ Hb) as Hwb. destruct (q_path _ _ _ Hb r Hr) as [_ Eb2].
  assert (Epd : frame_of (pm sa (pdpt_of (pm st) r)) = pd_of (pm sb) r) by (rewrite Eb2; unfold pd_of; by rewrite Ea1).
  rewrite Epd, (proj2 (Z.eqb_neq _ 0)) by
    (apply (live_nonzero sb); [apply Hwb|exact (table_live sb roots Hwb r _ Hr (pd_in (pm sb) r))]).
  destruct (next_level_pd sb roots r (va_i va) flags Hwb Hr (proj1 Hij)) as (st1 & Hc & -> & Hfull).
  exists st1. split; [by apply (quiet_trans _ sb), Hc; apply (quiet_trans _ sa)|].
  pose proof (q_wf _ _ _ Hc) as Hwc.
  destruct (pt_of (pm st1) r (va_i va)) as [pt|] eqn:E; cbn [default from_option id Z.eqb]; [|by split].
  rewrite (proj2 (Z.eqb_neq pt 0)); [by split|]. apply (live_nonzero st1); [apply Hwc|].
  exact (table_live st1 roots Hwc r pt Hr (pt_in_tables _ _ _ _ (proj1 Hij) E)).
Qed.

(** *** Changing one user entry *)

Definition at_entry (r i j r' i' j' : Z) : bool := (r' =? r) && (i' =? i) && (j' =? j).
Lemma at_entry_spec r i j r' i' j' : at_entry r i j r' i' j' = true <-> r' = r /\ i' = i /\ j' = j.
Proof. unfold at_entry. lia. Qed.
Lemma at_entry_refl r i j : at_entry r i j r i j = true.
Proof. by apply at_entry_spec. Qed.

Lemma leaf_store st roots r i j pt e : vm_wf st roots -> r ∈ roots -> user_idx i j -> pt_of (pm st) r i = Some pt ->
  let m' := put_word (pm st) (entry_at pt j) e in
  upper_ok m' roots /\ all_tables m' roots = all_tables (pm st) roots /\
  (forall r' i' j', r' ∈ roots -> user_idx i' j' ->
     pte m' r' i' j' = if at_entry r i j r' i' j' then e else pte (pm st) r' i' j') /\
  (forall r', r' ∈ roots -> pdpt_of m' r' = pdpt_of (pm st) r' /\ pd_of m' r' = pd_of (pm st) r' /\
     forall k, 64 <= k < 512 -> pt_of m' r' k = pt_of (pm st) r' k) /\
  (forall f a, live st f -> f ∉ all_tables (pm st) roots -> in_page f a = true -> m' a = pm st a).
Proof.
  intros Hwf Hr [Hi Hj] Hpt m'. set (a := entry_at pt j) in *.
  pose proof (pt_in_tables _ _ _ _ Hi Hpt) as Hptt. pose proof (table_live st roots Hwf r pt Hr Hptt) as Hptl.
  assert (Hm : forall x, x <> a -> m' x = pm st x).
  { intros x Hx. unfold m', put_word. by rewrite (proj2 (Z.eqb_neq x a)). }
  assert (Hw : forall r' x, r' ∈ roots -> upper_words (pm st) r' x -> same_link (pm st x) (m' x)).
  { intros r' x Hr' Hx. rewrite Hm; [apply same_link_refl|].
    exact (upper_not_leaf st roots r' r x i j pt Hwf Hr' Hr Hx (conj Hi Hj) Hpt). }
  destruct (same_upper (pm st) m' roots Hw (upper_of_wf _ _ Hwf)) as [Hup Htab].
  assert (Hsh : forall r', r' ∈ roots -> pdpt_of m' r' = pdpt_of (pm st) r' /\ pd_of m' r' = pd_of (pm st) r' /\
     forall k, 64 <= k < 512 -> pt_of m' r' k = pt_of (pm st) r' k).
  { intros r' Hr'. destruct (same_shape (pm st) m' r' (fun x => Hw r' x Hr')) as (-> & -> & H & _).
    split; [done|]. split; [done|]. intros k Hk. by apply H. }
  split; [done|]. split; [done|]. split; [|split; [done|]].
  - intros r' i' j' Hr' [Hi' Hj']. destruct (Hsh r' Hr') as (_ & _ & Hk). unfold pte. rewrite (Hk i' Hi').
    destruct (at_entry r i j r' i' j') eqn:E.
    + apply at_entry_spec in E as (-> & -> & ->). rewrite Hpt. unfold m', put_word. fold a. by rewrite Z.eqb_refl.
    + destruct (pt_of (pm st) r' i') as [pt'|] eqn:E'; [|done]. apply Hm.
      pose proof (pt_in_tables _ _ _ _ Hi' E') as Hpt't. destruct (Z.eq_dec pt' pt) as [->|Hne].
      * assert (r' = r) as -> by exact (table_root st roots Hwf r' r pt Hr' Hr Hpt't Hptt).
        destruct (tables_distinct st roots Hwf r Hr) as (_ & _ & _ & _ & Hu).
        assert (i' = i) as -> by exact (Hu i' i pt Hi' Hi E' Hpt). unfold a, entry_at. intros Ha. assert (Hjj : 8 * j' = 8 * j) by lia.
        assert (j' = j) as -> by lia. by rewrite at_entry_refl in E.
      * exact (entry_ne st pt' pt j' j (proj1 (table_live st roots Hwf r' pt' Hr' Hpt't)) (proj1 Hptl) Hne Hj' Hj).
  - intros f x Hl Hni Hx. apply Hm. intros ->. pose proof (table_of st roots r pt Hr Hptt) as Hin.
    rewrite (pages_disjoint st pt f) in Hx; [done|apply Hptl|apply Hl| |by apply in_page_entry]. by intros <-.
Qed.

(** The spaces other than [r] that map the frame there. *)
Definition others (m : pmem) (roots : list Z) (r i j f : Z) : nat :=
  length (filter (fun r' => r' <> r /\ maps m r' i j f = true) roots).
Lemma users_others m roots r i j f : NoDup roots -> r ∈ roots ->
  users m roots i j f = (others m roots r i j f + if maps m r i j f then 1 else 0)%nat.
Proof.
  unfold users, others. induction roots as [|x l IH]; [by intros _ ?%elem_of_nil|]. intros [Hni Hnd]%NoDup_cons Hr.
  rewrite !filter_cons. destruct (Z.eq_dec x r) as [->|Hne].
  - rewrite (decide_False (P := r <> r /\ _)) by tauto.
    assert (E : filter (fun r' => r' <> r /\ maps m r' i j f = true) l = filter (fun r' => maps m r' i j f = true) l).
    { apply list_filter_iff'. apply Forall_forall. intros y Hy. split; [tauto|]. split; [|done]. by intros ->. }
    rewrite E. destruct (maps m r i j f); [rewrite decide_True by done|rewrite decide_False by done]; cbn [length]; lia.
  - apply elem_of_cons in Hr as [->|Hr]; [done|]. specialize (IH Hnd Hr).
    destruct (maps m x i j f) eqn:Ex.
    + rewrite decide_True by done. rewrite decide_True by (split; [done|reflexivity]). cbn [length]. rewrite IH. lia.
    + rewrite decide_False by done. rewrite decide_False by (intros [_ ?]; done). done.
Qed.
Lemma others_ext m m' roots r i j f : (forall r', r' ∈ roots -> r' <> r -> maps m' r' i j f = maps m r' i j f) ->
  others m' roots r i j f = others m roots r i j f.
Proof.
  intros Hm. unfold others. f_equal. apply list_filter_iff'. apply Forall_forall. intros r' Hr'.
  destruct (Z.eq_dec r' r) as [->|Hne]; [tauto|]. by rewrite Hm.
Qed.
Lemma others_none m roots r i j f : (forall r', r' ∈ roots -> r' <> r -> maps m r' i j f = false) ->
  others m roots r i j f = 0%nat.
Proof.
  intros Hm. unfold others. induction roots as [|x l IH]; [done|]. rewrite filter_cons, decide_False.
  - apply IH. intros r' Hr'. apply Hm. apply elem_of_cons. by right.
  - intros [Hx Hmx]. rewrite Hm in Hmx; [done|apply elem_of_cons; by left|done].
Qed.

Definition entry_maps (e f : Z) : bool := has e PAGE_PRESENT && (frame_of e =? f).

(** When the new entry is allowed. *)
Lemma vm_wf_leaf st st' roots r i j pt e : vm_wf st roots -> r ∈ roots -> user_idx i j -> pt_of (pm st) r i = Some pt ->
  frames_wf st' -> same_pool st st' -> pm st' = put_word (pm st) (entry_at pt j) e ->
  (forall t, t ∈ all_tables (pm st) roots -> live st' t) ->
  (forall r' i' j' f, r' ∈ roots -> user_idx i' j' -> at_entry r i j r' i' j' = false -> maps (pm st) r' i' j' f = true ->
     live st' f /\ Z.of_nat (users (pm st') roots i' j' f) <= rc st' f) ->
  (forall f, entry_maps e f = true ->
     live st' f /\ f ∉ all_tables (pm st) roots /\ Z.of_nat (users (pm st') roots i j f) <= rc st' f /\
     forall r' i' j', r' ∈ roots -> user_idx i' j' -> at_entry r i j r' i' j' = false -> maps (pm st) r' i' j' f = true ->
       i' = i /\ j' = j /\ has e PAGE_WRITABLE = false /\ has (pte (pm st) r' i' j') PAGE_WRITABLE = false) ->
  vm_wf st' roots.
Proof.
  intros Hwf Hr Hij Hpt Hfw Hsp Hpm Htl Hold Hnew.
  destruct (leaf_store st roots r i j pt e Hwf Hr Hij Hpt) as ([Hup Hsm] & Htab & Hpte & _). rewrite <- Hpm in *.
  assert (Hmaps : forall r' i' j' f, r' ∈ roots -> user_idx i' j' ->
    maps (pm st') r' i' j' f = if at_entry r i j r' i' j' then entry_maps e f else maps (pm st) r' i' j' f).
  { intros r' i' j' f Hr' Hij'. unfold maps. rewrite Hpte by done. by destruct (at_entry r i j r' i' j'). }
  split; try done.
  - rewrite Htab. apply (vw_nodup _ _ Hwf).
  - intros t. rewrite Htab. apply Htl.
  - intros r' i' j' f Hr' Hij' Hm. rewrite Htab. rewrite Hmaps in Hm by done.
    destruct (at_entry r i j r' i' j') eqn:E; [by destruct (Hnew f Hm) as (? & ? & _)|].
    destruct (Hold r' i' j' f Hr' Hij' E Hm) as [Hl _]. split; [done|]. by apply (vw_leaf _ _ Hwf r' i' j' f).
  - intros r1 r2 i1 j1 i2 j2 f Hr1 Hr2 Hij1 Hij2 Hm1 Hm2. rewrite Hmaps in Hm1, Hm2 by done. rewrite Hpte by done.
    destruct (at_entry r i j r1 i1 j1) eqn:E1, (at_entry r i j r2 i2 j2) eqn:E2.
    + apply at_entry_spec in E1 as (-> & -> & ->). apply at_entry_spec in E2 as (-> & -> & ->). auto.
    + apply at_entry_spec in E1 as (-> & -> & ->). destruct (Hnew f Hm1) as (_ & _ & _ & Hsh).
      destruct (Hsh r2 i2 j2 Hr2 Hij2 E2 Hm2) as (-> & -> & Hw & _). auto.
    + apply at_entry_spec in E2 as (-> & -> & ->). destruct (Hnew f Hm2) as (_ & _ & _ & Hsh).
      destruct (Hsh r1 i1 j1 Hr1 Hij1 E1 Hm1) as (-> & -> & _ & Hw). auto.
    + by apply (vw_share _ _ Hwf r1 r2 i1 j1 i2 j2 f).
  - intros r' i' j' f Hr' Hij' Hm. rewrite Hmaps in Hm by done. destruct (at_entry r i j r' i' j') eqn:E.
    + apply at_entry_spec in E as (-> & -> & ->). by apply (Hnew f Hm).
    + by apply (Hold r' i' j' f).
Qed.

(** The users of a frame after the change. *)
Lemma users_leaf st roots r i j pt e i' j' f : vm_wf st roots -> r ∈ roots -> user_idx i j -> user_idx i' j' ->
  pt_of (pm st) r i = Some pt ->
  users (put_word (pm st) (entry_at pt j) e) roots i' j' f =
    if (i' =? i) && (j' =? j) then (others (pm st) roots r i j f + if entry_maps e f then 1 else 0)%nat
    else users (pm st) roots i' j' f.
Proof.
  intros Hwf Hr Hij Hij' Hpt. destruct (leaf_store st roots r i j pt e Hwf Hr Hij Hpt) as (_ & _ & Hpte & _).
  set (m' := put_word _ _ _) in *. destruct ((i' =? i) && (j' =? j)) eqn:E.
  - assert (i' = i /\ j' = j) as [-> ->] by lia.
    rewrite (users_others m' roots r) by (done || by apply (roots_nodup (pm st)), vw_nodup). f_equal.
    + apply others_ext. intros r' Hr' Hne. unfold maps. rewrite Hpte by done. unfold at_entry.
      by rewrite (proj2 (Z.eqb_neq r' r)).
    + unfold maps. by rewrite Hpte, at_entry_refl.
  - unfold users. f_equal. apply list_filter_iff'. apply Forall_forall. intros r' Hr'.
    unfold maps. rewrite Hpte by done. unfold at_entry. rewrite <- andb_assoc, E, andb_false_r. done.
Qed.

(** ** Copy on write *)

(** What a space sees of a page. *)
Definition page_at st (r i j off : Z) : option Z :=
  if has (pte (pm st) r i j) PAGE_PRESENT then Some (pm st (frame_of (pte (pm st) r i j) + off)) else None.
Definition same_view st st' (roots : list Z) : Prop :=
  forall r i j off, r ∈ roots -> user_idx i j -> 0 <= off < PAGE_SIZE -> page_at st' r i j off = page_at st r i j off.
Definition exhausted st : Prop := forall g, in_pool st g -> live st g.

Lemma maps_present m r i j : has (pte m r i j) PAGE_PRESENT = true -> maps m r i j (frame_of (pte m r i j)) = true.
Proof. intros Hp. unfold maps. by rewrite Hp, Z.eqb_refl. Qed.
Lemma maps_inv m r i j f : maps m r i j f = true -> has (pte m r i j) PAGE_PRESENT = true /\ frame_of (pte m r i j) = f.
Proof. unfold maps. intros [H1 H2%Z.eqb_eq]%andb_prop. done. Qed.
Lemma in_page_off f off : 0 <= off < PAGE_SIZE -> in_page f (f + off) = true.
Proof. unfold in_page. lia. Qed.

Lemma get_pte_spec st roots r va : vm_wf st roots -> r ∈ roots -> user_va va ->
  paging_get_pte st r va = (fun pt => entry_at pt (va_j va)) <$> pt_of (pm st) r (va_i va).
Proof.
  intros Hwf Hr Hva. destruct (user_va_idx va Hva) as (Hij & E39 & E30 & E21 & E12).
  unfold paging_get_pte. rewrite E39, E30, E21, E12, !entry_at_0.
  rewrite (proj2 (Z.eqb_neq r 0)) by
    (apply (live_nonzero st); [apply Hwf|exact (table_live st roots Hwf r _ Hr (root_in (pm st) r))]).
  destruct (vw_path _ _ Hwf r Hr) as (-> & _ & P3 & P4 & _). fold (frame_of (pm st r)). fold (pdpt_of (pm st) r).
  rewrite P3, P4. cbn [negb orb]. fold (frame_of (pm st (pdpt_of (pm st) r))). fold (pd_of (pm st) r).
  fold (pde (pm st) r (va_i va)). destruct (vw_small _ _ Hwf r (va_i va) Hr (proj1 Hij)) as [-> _].
  rewrite orb_false_r. unfold pt_of.
  destruct (has (pde (pm st) r (va_i va)) PAGE_PRESENT); reflexivity.
Qed.

(** A page that is not a table can be filled without the spaces noticing. *)
Lemma quiet_fill st st1 roots f m' : quiet st st1 roots -> ~ live st f -> fresh st1 roots f ->
  (forall a, in_page f a = false -> m' a = pm st1 a) ->
  quiet st (st1 <| pm := m' |>) roots /\ fresh (st1 <| pm := m' |>) roots f /\
  all_tables m' roots = all_tables (pm st1) roots.
Proof.
  intros Hq Hnl (Hl & Hrc & Hni & Hnm) Hm'. pose proof (q_wf _ _ _ Hq) as Hwf.
  assert (Hag : forall t k, t ∈ all_tables (pm st1) roots -> 0 <= k < 512 -> m' (entry_at t k) = pm st1 (entry_at t k)).
  { intros t k Ht Hk. apply Hm'. apply (pages_disjoint st1 t f); [apply (vw_live _ _ Hwf t Ht)|apply Hl| |by apply in_page_entry].
    by intros ->. }
  destruct (agree_tables st1 m' roots Hwf Hag) as (Hup & Htab & Hpte & Hsh).
  assert (Hwf' : vm_wf (st1 <| pm := m' |>) roots).
  { apply (vm_wf_ext st1 _ roots []); try done.
    - apply frames_wf_pm, Hwf.
    - by rewrite <- Htab.
    - constructor.
    - by intros g ?%elem_of_nil. }
  split; [split; try done|split; [|done]].
  - intros r i j Hr Hij. cbn. rewrite Hpte by done. by apply (q_ptes _ _ _ Hq).
  - intros g a Hg Hgn Ha. cbn. rewrite Hm'; [by apply (q_data _ _ _ Hq g)|].
    apply (pages_disjoint st g f); [apply Hg|apply (in_pool_same st st1); [apply Hq|apply Hl]| |done]. by intros ->.
  - apply (q_pool _ _ _ Hq).
  - apply (q_rc _ _ _ Hq).
  - intros t Ht. cbn in Ht. rewrite Htab in Ht. by apply (q_new _ _ _ Hq).
  - intros r Hr. cbn. destruct (Hsh r Hr) as (-> & -> & _). by apply (q_path _ _ _ Hq).
  - intros r i t Hr Hi Ht. cbn. destruct (Hsh r Hr) as (_ & _ & ->); [|done]. by apply (q_pts _ _ _ Hq).
  - split; [done|]. split; [done|]. split; [cbn; by rewrite Htab|].
    intros r i j Hr Hij. cbn. rewrite (maps_ext (pm st1) m' roots) by done. by apply Hnm.
Qed.

Lemma others_pos m roots r r' i j f : r' ∈ roots -> r' <> r -> maps m r' i j f = true -> (1 <= others m roots r i j f)%nat.
Proof.
  intros Hr Hne Hm. unfold others. assert (Hin : r' ∈ filter (fun r' => r' <> r /\ maps m r' i j f = true) roots).
  { by apply list_elem_of_filter. }
  destruct (filter _ roots); [by apply elem_of_nil in Hin|]. cbn. lia.
Qed.

(** An entry may change its flags; it may become writable only when nobody else maps its frame. *)
Lemma leaf_flags st roots r i j pt e : vm_wf st roots -> r ∈ roots -> user_idx i j -> pt_of (pm st) r i = Some pt ->
  let e0 := pte (pm st) r i j in
  has e0 PAGE_PRESENT = true -> has e PAGE_PRESENT = true -> frame_of e = frame_of e0 ->
  has e PAGE_WRITABLE = false \/ others (pm st) roots r i j (frame_of e0) = 0%nat ->
  let st' := store st (entry_at pt j) e in
  vm_wf st' roots /\ same_view st st' roots /\ pte (pm st') r i j = e /\
  (forall r' i' j', r' ∈ roots -> user_idx i' j' -> at_entry r i j r' i' j' = false ->
     pte (pm st') r' i' j' = pte (pm st) r' i' j') /\
  all_tables (pm st') roots = all_tables (pm st) roots /\
  (forall f a, live st f -> f ∉ all_tables (pm st) roots -> in_page f a = true -> pm st' a = pm st a) /\
  (forall r', r' ∈ roots -> pdpt_of (pm st') r' = pdpt_of (pm st) r' /\ pd_of (pm st') r' = pd_of (pm st) r' /\
     forall k, 64 <= k < 512 -> pt_of (pm st') r' k = pt_of (pm st) r' k).
Proof.
  intros Hwf Hr Hij Hpt e0 Hp0 Hp Hf Hw st'. destruct (leaf_store st roots r i j pt e Hwf Hr Hij Hpt) as (_ & Htab & Hpte & Hsh & Hdata).
  pose proof (maps_present (pm st) r i j Hp0) as Hm0. fold e0 in Hm0.
  assert (Hem : forall f, entry_maps e f = maps (pm st) r i j f).
  { intros f. unfold entry_maps, maps. fold e0. by rewrite Hp, Hp0, Hf. }
  assert (Hus : forall i' j' f, user_idx i' j' -> users (pm st') roots i' j' f = users (pm st) roots i' j' f).
  { intros i' j' f Hij'. unfold st'. cbn [pm store upd_with]. rewrite (users_leaf st roots r i j pt e) by done. case_match; [|done].
    assert (i' = i /\ j' = j) as [-> ->] by lia. rewrite Hem.
    by rewrite (users_others (pm st) roots r) by (done || by apply (roots_nodup (pm st)), vw_nodup). }
  split; [|split; [|split; [|split; [|split; [done|split; [done|exact Hsh]]]]]].
  - apply (vm_wf_leaf st st' roots r i j pt e); try done.
    + apply frames_wf_store, Hwf.
    + intros t Ht. by apply (vw_live _ _ Hwf).
    + intros r' i' j' f Hr' Hij' _ Hm. rewrite Hus by done. split; [|by apply (vw_count _ _ Hwf r')].
      by apply (vw_leaf _ _ Hwf r' i' j').
    + intros f Hm. rewrite Hus by done. rewrite Hem in Hm. destruct (vw_leaf _ _ Hwf r i j f Hr Hij Hm) as [Hl Hni].
      split; [done|]. split; [done|]. split; [by apply (vw_count _ _ Hwf r)|].
      intros r' i' j' Hr' Hij' Hat Hm'. destruct (vw_share _ _ Hwf r' r i' j' i j f Hr' Hr Hij' Hij Hm' Hm) as (-> & -> & Hs).
      assert (Hne : r' <> r) by (intros ->; by rewrite at_entry_refl in Hat).
      destruct Hs as [|Hs]; [done|]. split; [done|]. split; [done|]. split; [|done].
      destruct Hw as [Hw|Hw]; [done|]. apply maps_inv in Hm as [_ Hfe]. fold e0 in Hfe. rewrite Hfe in Hw.
      pose proof (others_pos _ _ _ _ _ _ _ Hr' Hne Hm'). lia.
  - intros r' i' j' off Hr' Hij' Ho. unfold page_at, st'. cbn [pm store upd_with]. rewrite !Hpte by done.
    destruct (at_entry r i j r' i' j') eqn:Hat.
    + apply at_entry_spec in Hat as (-> & -> & ->). fold e0. rewrite Hp, Hp0, Hf. f_equal.
      destruct (vw_leaf _ _ Hwf r i j _ Hr Hij Hm0) as [Hl Hni]. apply (Hdata (frame_of e0)); [done|done|by apply in_page_off].
    + destruct (has (pte (pm st) r' i' j') PAGE_PRESENT) eqn:Hp'; [|done]. f_equal.
      destruct (vw_leaf _ _ Hwf r' i' j' _ Hr' Hij' (maps_present (pm st) _ _ _ Hp')) as [Hl Hni].
      apply (Hdata (frame_of (pte (pm st) r' i' j'))); [done|done|by apply in_page_off].
  - unfold st'. cbn [pm store upd_with]. by rewrite Hpte, at_entry_refl.
  - intros r' i' j' Hr' Hij' Hat. unfold st'. cbn [pm store upd_with]. by rewrite Hpte, Hat.
Qed.

(** The entries of the two ways out of a fault. *)
Lemma cow_entry e f : 0 <= f < 2 ^ 48 -> f mod PAGE_SIZE = 0 -> has e PAGE_PRESENT = true ->
  let e1 := Z.ldiff (Z.lor e PAGE_WRITABLE) PAGE_COW in
  let e2 := Z.lor f (Z.ldiff (Z.lor (Z.land e 0xFFF) PAGE_WRITABLE) PAGE_COW) in
  has e1 PAGE_PRESENT = true /\ has e1 PAGE_WRITABLE = true /\ has e1 PAGE_COW = false /\ frame_of e1 = frame_of e /\
  has e2 PAGE_PRESENT = true /\ has e2 PAGE_WRITABLE = true /\ has e2 PAGE_COW = false /\ frame_of e2 = f.
Proof.
  intros Hf Hm Hp e1 e2. unfold e1, e2. rewrite frame_of_ldiff, !frame_of_lor, frame_of_ldiff, frame_of_lor by done.
  change (frame_of PAGE_WRITABLE) with 0. rewrite (frame_of_aligned f) by done.
  assert (E : frame_of (Z.land e 0xFFF) = 0) by (unfold frame_of; rewrite <- Z.land_assoc; apply Z.land_0_r).
  rewrite E, !Z.lor_0_r. repeat split; try done.
  - flags. exact Hp.
  - by flags.
  - by flags.
  - flags. exact Hp.
  - by flags.
  - by flags.
Qed.

(** Replacing the frame of an entry by a fresh one, and dropping the reference to the old one. *)
Lemma leaf_replace st roots r i j pt e nf : vm_wf st roots -> r ∈ roots -> user_idx i j -> pt_of (pm st) r i = Some pt ->
  let e0 := pte (pm st) r i j in
  has e0 PAGE_PRESENT = true -> has e PAGE_PRESENT = true -> frame_of e = nf -> fresh st roots nf -> rc st (frame_of e0) <> 1 ->
  vm_wf (frame_free (store st (entry_at pt j) e) (frame_of e0)) roots.
Proof.
  intros Hwf Hr Hij Hpt e0 Hp0 Hp Hf (Hnl & Hnr & Hnn & Hnm) Hrc. set (old := frame_of e0) in *. set (s3 := store st _ e).
  pose proof (maps_present (pm st) r i j Hp0) as Hm0. fold e0 old in Hm0.
  destruct (vw_leaf _ _ Hwf r i j old Hr Hij Hm0) as [Hol Hon].
  assert (Hne : nf <> old) by (intros ->; by rewrite (Hnm r i j Hr Hij) in Hm0).
  destruct (frame_free_ok s3 old (frames_wf_store _ _ _ (vw_frames _ _ Hwf)) Hol) as ((Hsp & Hro & Hrg) & Hpm & Hfw).
  change (rc s3 old) with (rc st old) in Hro. set (st' := frame_free s3 old) in *.
  assert (Hrg' : forall g, live st g -> g <> old -> rc st' g = rc st g) by (intros g Hg Hgo; by apply (Hrg g (proj1 Hg) Hgo)).
  assert (Hlv : forall g, live st g -> g <> old -> live st' g).
  { intros g Hg Hgo. apply (live_mono st); [done| |done]. by rewrite Hrg'. }
  assert (Hnd : NoDup roots) by (by apply (roots_nodup (pm st)), vw_nodup).
  pose proof (vw_count _ _ Hwf r i j old Hr Hij Hm0) as Hc0. rewrite (users_others (pm st) roots r), Hm0 in Hc0 by done.
  assert (Hem : forall f, entry_maps e f = (f =? nf)) by (intros f; unfold entry_maps; rewrite Hp, Hf; lia).
  apply (vm_wf_leaf st st' roots r i j pt e); try done.
  - intros t Ht. apply Hlv; [by apply (vw_live _ _ Hwf)|]. by intros ->.
  - intros r' i' j' f Hr' Hij' Hat Hm. rewrite Hpm. cbn [s3 pm store upd_with]. rewrite (users_leaf st roots r i j pt e) by done.
    destruct (vw_leaf _ _ Hwf r' i' j' f Hr' Hij' Hm) as [Hfl _]. pose proof (vw_count _ _ Hwf r' i' j' f Hr' Hij' Hm) as Hc.
    destruct (Z.eq_dec f old) as [->|Hfo].
    + destruct (vw_share _ _ Hwf r' r i' j' i j old Hr' Hr Hij' Hij Hm Hm0) as (-> & -> & _).
      rewrite !Z.eqb_refl. cbn [andb]. rewrite Hem, (proj2 (Z.eqb_neq old nf)) by done. rewrite Nat.add_0_r, Hro.
      assert (Hr'r : r' <> r) by (intros ->; by rewrite at_entry_refl in Hat).
      pose proof (others_pos _ _ _ _ _ _ _ Hr' Hr'r Hm). split; [|lia].
      split; [exact (proj2 (in_pool_same st st' old Hsp) (proj1 Hol))|lia].
    + split; [by apply Hlv|]. rewrite Hrg' by done. case_match eqn:E; [|done].
      assert (i' = i /\ j' = j) as [-> ->] by lia. rewrite Hem. rewrite (users_others (pm st) roots r) in Hc by done.
      destruct (Z.eqb_spec f nf) as [->|]; [by rewrite (Hnm r' i j) in Hm|]. lia.
  - intros f Hfm. rewrite Hem in Hfm. apply Z.eqb_eq in Hfm as ->. split; [by apply Hlv|]. split; [done|]. split.
    + rewrite Hpm. cbn [s3 pm store upd_with]. rewrite (users_leaf st roots r i j pt e), !Z.eqb_refl by done. cbn [andb].
      rewrite others_none by (intros r' Hr' _; by apply Hnm). rewrite Hem, Z.eqb_refl, Hrg' by done. lia.
    + intros r' i' j' Hr' Hij' _ Hm'. by rewrite Hnm in Hm'.
Qed.

(** A write fault on a copy-on-write page. *)
Lemma cow_fault_ok st roots kernel r va : vm_wf st roots -> r ∈ roots -> user_va va ->
  let i := va_i va in let j := va_j va in let e := pte (pm st) r i j in
  let '(res, st') := paging_handle_cow_fault st kernel r va in
  (res = -1 /\ st' = st /\ (has e PAGE_PRESENT = false \/ has e PAGE_COW = false \/ exhausted st)) \/
  (res = 0 /\ has e PAGE_PRESENT = true /\ has e PAGE_COW = true /\
   vm_wf st' roots /\ same_view st st' roots /\
   has (pte (pm st') r i j) PAGE_PRESENT = true /\ has (pte (pm st') r i j) PAGE_WRITABLE = true /\
   forall r' i' j', r' ∈ roots -> user_idx i' j' -> at_entry r i j r' i' j' = false ->
     pte (pm st') r' i' j' = pte (pm st) r' i' j').
Proof.
  intros Hwf Hr Hva i j e. destruct (user_va_idx va Hva) as (Hij & _). fold i j in Hij.
  unfold paging_handle_cow_fault. rewrite (proj2 (Z.eqb_neq r 0)) by
    (apply (live_nonzero st); [apply Hwf|exact (table_live st roots Hwf r _ Hr (root_in (pm st) r))]).
  rewrite (get_pte_spec st roots) by done. fold i j. destruct (pt_of (pm st) r i) as [pt|] eqn:Hpt; cbn [fmap option_fmap option_map].
  2:{ left. split; [done|]. split; [done|]. left. unfold e, pte. by rewrite Hpt. }
  assert (He : pm st (entry_at pt j) = e) by (unfold e, pte; by rewrite Hpt). rewrite He.
  destruct (has e PAGE_PRESENT) eqn:Hp; cbn [negb orb]; [|left; auto].
  destruct (has e PAGE_COW) eqn:Hc; cbn [negb]; [|left; auto].
  fold (frame_of e). set (old := frame_of e). pose proof (maps_present (pm st) r i j Hp) as Hm0. fold e old in Hm0.
  destruct (vw_leaf _ _ Hwf r i j old Hr Hij Hm0) as [Hol Hon].
  rewrite (frame_ref_get_rc st old (vw_frames _ _ Hwf) (proj1 Hol)).
  destruct (fw_base _ (vw_frames _ _ Hwf)) as (Hb & _ & Hend). rewrite (fw_end _ (vw_frames _ _ Hwf)) in Hend.
  assert (Hnd : NoDup roots) by (by apply (roots_nodup (pm st)), vw_nodup).
  destruct (Z.eqb_spec (rc st old) 1) as [Hone|Hmore].
  - right. set (e1 := Z.ldiff (Z.lor e PAGE_WRITABLE) PAGE_COW).
    destruct (cow_entry e old) as (Q1 & Q2 & _ & Q4 & _); [destruct Hol as [[? ?] _]; lia|apply Hol|done|].
    pose proof (vw_count _ _ Hwf r i j old Hr Hij Hm0) as Hcnt. rewrite (users_others (pm st) roots r), Hm0 in Hcnt by done.
    destruct (leaf_flags st roots r i j pt e1 Hwf Hr Hij Hpt Hp Q1 Q4) as (W1 & W2 & W3 & W4 & _).
    { right. fold e old. lia. }
    split; [done|]. split; [done|]. split; [done|]. split; [done|]. split; [done|]. rewrite W3. done.
  - destruct (frame_alloc st) as [nf st1] eqn:Ea.
    destruct (quiet_alloc st roots nf st1 Hwf Ea) as [(-> & -> & Hall)|(Hf0 & Hq & Hnl & Hfr & Htab & Hcnt & Hz)]; [left; auto 6|].
    rewrite (proj2 (Z.eqb_neq nf 0)) by done. right.
    destruct (quiet_fill st st1 roots nf (copy_page (pm st1) nf old) Hq Hnl Hfr) as (Hq2 & Hfr2 & _).
    { intros a Ha. unfold copy_page. by rewrite Ha. }
    set (st2 := st1 <| pm := copy_page (pm st1) nf old |>) in *. pose proof (q_wf _ _ _ Hq2) as Hwf2.
    assert (Hpt2 : pt_of (pm st2) r i = Some pt) by (apply (q_pts _ _ _ Hq2); [done|apply Hij|done]).
    assert (He2 : pte (pm st2) r i j = e) by (by apply (q_ptes _ _ _ Hq2)).
    assert (He2' : pm st2 (entry_at pt j) = e) by (unfold pte in He2; by rewrite Hpt2 in He2). rewrite He2'.
    destruct Hfr as (Hnfl & _). destruct (q_pool _ _ _ Hq) as [Epb _].
    destruct (cow_entry e nf) as (_ & _ & _ & _ & Q5 & Q6 & _ & Q8);
      [destruct Hnfl as [[Hn _] _]; rewrite Epb in Hn; lia|apply Hnfl|done|]. set (e2 := Z.lor nf _) in *.
    set (s3 := store st2 (entry_at pt j) e2). assert (Hol2 : live st2 old) by (by apply (quiet_live st st2 roots)).
    destruct (frame_free_ok s3 old (frames_wf_store _ _ _ (vw_frames _ _ Hwf2)) Hol2) as (_ & Hpm & _).
    destruct (leaf_store st2 roots r i j pt e2 Hwf2 Hr Hij Hpt2) as (_ & _ & Hpte & _ & Hdata).
    split; [done|]. split; [done|]. split; [done|]. rewrite Hpm. unfold same_view, page_at. rewrite !Hpm.
    cbn [s3 pm store upd_with]. split; [|split; [|split; [|split]]].
    + pose proof (leaf_replace st2 roots r i j pt e2 nf Hwf2 Hr Hij Hpt2) as Hrep. rewrite He2 in Hrep. apply Hrep; try done.
      fold old. change (rc st2 old) with (rc st1 old). by rewrite (q_rc _ _ _ Hq).
    + intros r' i' j' off Hr' Hij' Ho. rewrite !Hpte by done. destruct (at_entry r i j r' i' j') eqn:Hat.
      * apply at_entry_spec in Hat as (-> & -> & ->). fold e old. rewrite Q5, Q8, Hp. f_equal.
        destruct Hfr2 as (Hn2 & _ & Hn3 & _). rewrite (Hdata nf) by (done || by apply in_page_off).
        unfold st2, copy_page. cbn [pm upd_with]. rewrite in_page_off by done. replace (nf + off - nf) with off by lia.
        apply (q_data _ _ _ Hq old); [done|done|by apply in_page_off].
      * rewrite !(q_ptes _ _ _ Hq2 r' i' j' Hr' Hij'). destruct (has (pte (pm st) r' i' j') PAGE_PRESENT) eqn:Hp'; [|done]. f_equal.
        destruct (vw_leaf _ _ Hwf r' i' j' _ Hr' Hij' (maps_present (pm st) _ _ _ Hp')) as [Hl Hni].
        set (f := frame_of (pte (pm st) r' i' j')) in *. rewrite (Hdata f).
        -- apply (q_data _ _ _ Hq2 f); [done|done|by apply in_page_off].
        -- by apply (quiet_live st st2 roots).
        -- intros Hin. by destruct (q_new _ _ _ Hq2 f Hin).
        -- by apply in_page_off.
    + by rewrite Hpte, at_entry_refl.
    + by rewrite Hpte, at_entry_refl.
    + intros r' i' j' Hr' Hij' Hat. rewrite Hpte, Hat by done. by apply (q_ptes _ _ _ Hq2).
Qed.

(** *** Making and filling frames *)

Lemma quiet_fresh st st' roots f : quiet st st' roots -> fresh st roots f -> fresh st' roots f.
Proof.
  intros Hq (Hl & Hr & Hni & Hm). split; [by apply (quiet_live st st' roots)|]. split; [by rewrite (q_rc _ _ _ Hq)|].
  split; [intros Hin; by destruct (q_new _ _ _ Hq f Hin)|].
  intros r i j Hr' Hij. rewrite (maps_ext (pm st) (pm st') roots) by (done || apply Hq). by apply Hm.
Qed.

(** Giving back a frame that was taken since. *)
Lemma quiet_free st st1 roots f : quiet st st1 roots -> ~ live st f -> fresh st1 roots f ->
  quiet st (frame_free st1 f) roots /\ forall g, g <> f -> fresh st1 roots g -> fresh (frame_free st1 f) roots g.
Proof.
  intros Hq Hnl (Hl & Hr & Hni & Hm). pose proof (q_wf _ _ _ Hq) as Hwf.
  destruct (frame_free_ok st1 f (vw_frames _ _ Hwf) Hl) as ((Hsp & Hrf & Hrg) & Hpm & Hfw). set (st' := frame_free st1 f) in *.
  assert (Hrc : forall g, live st1 g -> g <> f -> rc st' g = rc st1 g) by (intros g Hg; apply Hrg, Hg).
  assert (Hlv : forall g, live st1 g -> g <> f -> live st' g).
  { intros g Hg Hne. apply (live_mono st1); [done| |done]. by rewrite Hrc. }
  assert (Hwf' : vm_wf st' roots).
  { destruct Hwf as [F1 F2 F3 F4 F5 F6 F7 F8]. split; rewrite ?Hpm; try done.
    - intros t Ht. apply Hlv; [by apply F3|]. by intros ->.
    - intros r i j g Hr' Hij Hg. destruct (F6 r i j g Hr' Hij Hg). split; [|done]. apply Hlv; [done|].
      intros ->. by rewrite Hm in Hg.
    - intros r i j g Hr' Hij Hg. rewrite Hrc; [by apply (F8 r)|by apply (F6 r i j)|]. intros ->. by rewrite Hm in Hg. }
  split; [split; rewrite ?Hpm; try done; try apply Hq|].
  - destruct (q_pool _ _ _ Hq) as [E1 E2], Hsp as [E3 E4]. split; congruence.
  - intros g Hg. rewrite Hrc; [by apply (q_rc _ _ _ Hq)|by apply (quiet_live st st1 roots)|]. by intros ->.
  - intros g Hne (Hgl & Hgr & Hgn & Hgm). split; [by apply Hlv|]. split; [by rewrite Hrc|]. by rewrite Hpm.
Qed.

(** Mapping a fresh frame. *)
Lemma map_fresh_ok st roots r va f flags : vm_wf st roots -> r ∈ roots -> user_va va -> fresh st roots f ->
  has flags PAGE_PRESENT = true -> frame_of flags = 0 ->
  let i := va_i va in let j := va_j va in let st' := paging_map_4k st r va f flags in
  vm_wf st' roots /\
  (forall r' i' j', r' ∈ roots -> user_idx i' j' -> at_entry r i j r' i' j' = false ->
     pte (pm st') r' i' j' = pte (pm st) r' i' j' /\
     forall off, 0 <= off < PAGE_SIZE -> page_at st' r' i' j' off = page_at st r' i' j' off) /\
  ((pte (pm st') r i j = Z.lor f flags /\
    forall off, 0 <= off < PAGE_SIZE -> page_at st' r i j off = Some (pm st (f + off))) \/
   (pte (pm st') r i j = pte (pm st) r i j /\ exhausted st' /\
    forall off, 0 <= off < PAGE_SIZE -> page_at st' r i j off = page_at st r i j off)).
Proof.
  intros Hwf Hr Hva Hfr Hp Hfl i j st'. destruct (user_va_idx va Hva) as (Hij & _). fold i j in Hij.
  destruct (map_4k_spec st roots r va f flags Hwf Hr Hva) as (st1 & Hq & E & Hex). fold i j in E, Hex.
  pose proof (q_wf _ _ _ Hq) as Hwf1. pose proof (quiet_fresh _ _ _ _ Hq Hfr) as (Hfl1 & Hfrc1 & Hfn1 & Hfm1).
  destruct Hfr as (Hfl0 & _ & Hfn0 & _).
  assert (Hff : frame_of f = f) by (apply (pool_frame_of st); [apply Hwf|apply Hfl0]).
  assert (Hdat : forall r' i' j', r' ∈ roots -> user_idx i' j' -> has (pte (pm st) r' i' j') PAGE_PRESENT = true ->
    let g := frame_of (pte (pm st) r' i' j') in live st1 g /\ g ∉ all_tables (pm st1) roots /\
    forall off, 0 <= off < PAGE_SIZE -> pm st1 (g + off) = pm st (g + off)).
  { intros r' i' j' Hr' Hij' Hp' g. destruct (vw_leaf _ _ Hwf r' i' j' g Hr' Hij' (maps_present (pm st) _ _ _ Hp')) as [Hl Hni].
    split; [by apply (quiet_live st st1 roots)|]. split; [intros Hin; by destruct (q_new _ _ _ Hq g Hin)|].
    intros off Ho. apply (q_data _ _ _ Hq g); [done|done|by apply in_page_off]. }
  assert (Hpg1 : forall r' i' j' off, r' ∈ roots -> user_idx i' j' -> 0 <= off < PAGE_SIZE -> page_at st1 r' i' j' off = page_at st r' i' j' off).
  { intros r' i' j' off Hr' Hij' Ho. unfold page_at. rewrite !(q_ptes _ _ _ Hq r' i' j' Hr' Hij').
    destruct (has (pte (pm st) r' i' j') PAGE_PRESENT) eqn:Hp'; [|done]. f_equal. by apply Hdat. }
  unfold st'. rewrite E. destruct (pt_of (pm st1) r i) as [pt|] eqn:Hpt.
  2:{ split; [done|]. split; [intros r' i' j' Hr' Hij' _; split; [by apply (q_ptes _ _ _ Hq)|by intros off; apply Hpg1]|].
      right. split; [by apply (q_ptes _ _ _ Hq)|]. split; [exact (Hex eq_refl)|]. intros off. by apply Hpg1. }
  rewrite Hff. set (e := Z.lor f flags). assert (Hep : has e PAGE_PRESENT = true) by (unfold e; by rewrite has_lor, Hp, orb_true_r).
  assert (Hef : frame_of e = f) by (unfold e; by rewrite frame_of_lor, Hfl, Z.lor_0_r).
  destruct (leaf_store st1 roots r i j pt e Hwf1 Hr Hij Hpt) as (_ & _ & Hpte & _ & Hdata).
  assert (Hem : forall g, entry_maps e g = (g =? f)) by (intros g; unfold entry_maps; rewrite Hep, Hef; lia).
  assert (Hnd : NoDup roots) by (by apply (roots_nodup (pm st)), vw_nodup).
  split; [|split].
  - apply (vm_wf_leaf st1 _ roots r i j pt e); try done.
    + apply frames_wf_store, Hwf1.
    + apply (vw_live _ _ Hwf1).
    + intros r' i' j' g Hr' Hij' Hat Hm. split; [by apply (vw_leaf _ _ Hwf1 r' i' j')|]. cbn [pm store upd_with].
      rewrite (users_leaf st1 roots r i j pt e) by done. pose proof (vw_count _ _ Hwf1 r' i' j' g Hr' Hij' Hm) as Hc.
      change (rc (store st1 (entry_at pt j) e) g) with (rc st1 g).
      case_match eqn:Eij; [|done]. assert (i' = i /\ j' = j) as [-> ->] by lia. rewrite (users_others _ _ r) in Hc by done.
      rewrite Hem. destruct (Z.eqb_spec g f) as [->|]; [by rewrite (Hfm1 r' i j) in Hm|]. lia.
    + intros g Hg. rewrite Hem in Hg. apply Z.eqb_eq in Hg as ->. split; [done|]. split; [done|]. split.
      * cbn [pm store upd_with]. rewrite (users_leaf st1 roots r i j pt e), !Z.eqb_refl by done. cbn [andb].
        rewrite others_none by (intros r' Hr' _; by apply Hfm1). rewrite Hem, Z.eqb_refl.
        change (rc (store st1 (entry_at pt j) e) f) with (rc st1 f). lia.
      * intros r' i' j' Hr' Hij' _ Hm'. by rewrite Hfm1 in Hm'.
  - intros r' i' j' Hr' Hij' Hat. cbn [pm store upd_with]. rewrite Hpte, Hat by done. split; [by apply (q_ptes _ _ _ Hq)|].
    intros off Ho. unfold page_at. cbn [pm store upd_with]. rewrite !Hpte, Hat by done.
    rewrite !(q_ptes _ _ _ Hq r' i' j' Hr' Hij'). destruct (has (pte (pm st) r' i' j') PAGE_PRESENT) eqn:Hp'; [|done].
    f_equal. destruct (Hdat r' i' j' Hr' Hij' Hp') as (G1 & G2 & G3).
    rewrite <- G3 by done. apply (Hdata (frame_of (pte (pm st) r' i' j'))); [done|done|by apply in_page_off].
  - left. unfold page_at. cbn [pm store upd_with]. rewrite !Hpte, at_entry_refl by done. rewrite Hep, Hef.
    split; [done|]. intros off Ho. f_equal. rewrite (Hdata f) by (done || by apply in_page_off).
    apply (q_data _ _ _ Hq f); [done|done|by apply in_page_off].
Qed.

(** A store by the program through a writable entry. *)
Lemma user_store_ok st roots r i j off v : vm_wf st roots -> r ∈ roots -> user_idx i j -> 0 <= off < PAGE_SIZE ->
  let e := pte (pm st) r i j in has e PAGE_PRESENT = true -> has e PAGE_WRITABLE = true ->
  let st' := store st (frame_of e + off) v in
  vm_wf st' roots /\ same_ptes (pm st) (pm st') roots /\
  forall r' i' j' off', r' ∈ roots -> user_idx i' j' -> 0 <= off' < PAGE_SIZE ->
    page_at st' r' i' j' off' = if at_entry r i j r' i' j' && (off' =? off) then Some v else page_at st r' i' j' off'.
Proof.
  intros Hwf Hr Hij Ho e Hp Hw st'. set (f := frame_of e). pose proof (maps_present (pm st) r i j Hp) as Hm. fold e f in Hm.
  destruct (vw_leaf _ _ Hwf r i j f Hr Hij Hm) as [Hl Hni].
  assert (Hag : forall t k, t ∈ all_tables (pm st) roots -> 0 <= k < 512 -> pm st' (entry_at t k) = pm st (entry_at t k)).
  { intros t k Ht Hk. unfold st', store, put_word. cbn. rewrite (proj2 (Z.eqb_neq _ _)); [done|]. intros Heq.
    assert (Hin : in_page f (entry_at t k) = true) by (rewrite Heq; by apply in_page_off).
    rewrite (pages_disjoint st t f) in Hin; [done|apply (vw_live _ _ Hwf t Ht)|apply Hl| |by apply in_page_entry]. by intros ->. }
  destruct (agree_tables st (pm st') roots Hwf Hag) as (Hup & Htab & Hpte & _).
  split; [|split; [done|]].
  - apply (vm_wf_ext st st' roots []); try done.
    + apply frames_wf_store, Hwf.
    + by rewrite Htab.
    + constructor.
    + by intros g ?%elem_of_nil.
  - intros r' i' j' off' Hr' Hij' Ho'. unfold page_at. rewrite !(Hpte r' i' j' Hr' Hij').
    destruct (at_entry r i j r' i' j') eqn:Hat; cbn [andb].
    + apply at_entry_spec in Hat as (-> & -> & ->). fold e f. rewrite Hp. unfold st', store, put_word. cbn. fold f.
      destruct (Z.eqb_spec off' off) as [->|]; [by rewrite Z.eqb_refl|]. by rewrite (proj2 (Z.eqb_neq _ _)) by lia.
    + destruct (has (pte (pm st) r' i' j') PAGE_PRESENT) eqn:Hp'; [|done]. f_equal.
      pose proof (maps_present (pm st) r' i' j' Hp') as Hm'. set (g := frame_of (pte (pm st) r' i' j')) in *.
      destruct (vw_leaf _ _ Hwf r' i' j' g Hr' Hij' Hm') as [Hgl _].
      unfold st', store, put_word. cbn. rewrite (proj2 (Z.eqb_neq _ _)); [done|]. intros Heq. fold f in Heq.
      destruct (Z.eq_dec g f) as [Hgf|Hgf].
      * rewrite Hgf in Hm'. destruct (vw_share _ _ Hwf r r' i j i' j' f Hr Hr' Hij Hij' Hm Hm') as (-> & -> & [->|Hnw]).
        -- by rewrite at_entry_refl in Hat.
        -- fold e in Hnw. congruence.
      * pose proof (pages_disjoint st g f (g + off') (proj1 Hgl) (proj1 Hl) Hgf (in_page_off g off' Ho')) as Hd.
        by rewrite Heq, in_page_off in Hd.
Qed.
