(* ===== verification/AddressSpace.v ===== *)
(** Processes' address spaces of the 64-bit kernel as a whole
    (kernel/arch/x86_64/kernel_x64.c): creation, the copy-on-write clone that
    fork makes, release, and the refinement of independent memories by the
    shared one of Paging. *)

From S2P Require Import Prelude Frames Paging.

(** ** A new space *)

Lemma new_space st roots f1 f2 f3 : vm_wf st roots -> fresh st roots f1 -> fresh st roots f2 -> fresh st roots f3 ->
  f1 <> f2 -> f1 <> f3 -> f2 <> f3 -> pm st f1 = table_flags f2 -> pm st f2 = table_flags f3 ->
  (forall i, 64 <= i < 512 -> pm st (entry_at f3 i) = 0) ->
  vm_wf st (f1 :: roots) /\ forall i j, user_idx i j -> pte (pm st) f1 i j = 0.
Proof.
  intros Hwf (L1 & R1 & N1 & M1) (L2 & R2 & N2 & M2) (L3 & R3 & N3 & M3) D12 D13 D23 E1 E2 E3.
  assert (Htf : forall f, live st f -> frame_of (table_flags f) = f /\ has (table_flags f) PAGE_PRESENT = true /\ link_ok (table_flags f)).
  { intros f [[Hf Hm] _]. destruct (fw_base _ (vw_frames _ _ Hwf)) as (Hb & _ & He). rewrite (fw_end _ (vw_frames _ _ Hwf)) in He.
    destruct (new_table_entry f PAGE_USER ltac:(lia) Hm) as (P1 & P2 & P3). done. }
  destruct (Htf f2 L2) as (F2 & P2 & K2), (Htf f3 L3) as (F3 & P3 & K3).
  assert (T2 : pdpt_of (pm st) f1 = f2) by (unfold pdpt_of; by rewrite E1).
  assert (T3 : pd_of (pm st) f1 = f3) by (unfold pd_of; by rewrite T2, E2).
  assert (Ei : forall i, 64 <= i < 512 -> pde (pm st) f1 i = 0) by (intros i Hi; unfold pde; by rewrite T3, E3).
  assert (Epts : forall i, 64 <= i < 512 -> pt_of (pm st) f1 i = None) by (intros i Hi; unfold pt_of; by rewrite Ei).
  assert (Ept : forall i j, user_idx i j -> pte (pm st) f1 i j = 0) by (intros i j [Hi _]; unfold pte; by rewrite Epts).
  assert (Et : tables (pm st) f1 = [f1; f2; f3]).
  { unfold tables. rewrite T2, T3. do 3 f_equal. assert (Hall : forall l : list Z, (forall i, i ∈ l -> 64 <= i < 512) -> omap (pt_of (pm st) f1) l = []).
    { induction l as [|i l IH]; intros Hl; [done|]. cbn. rewrite Epts by (apply Hl, elem_of_cons; by left).
      apply IH. intros k Hk. apply Hl, elem_of_cons. by right. }
    apply Hall. intros i. by apply elem_of_user_pds. }
  assert (Ha : all_tables (pm st) (f1 :: roots) = f1 :: f2 :: f3 :: all_tables (pm st) roots).
  { unfold all_tables. rewrite bind_cons, Et. done. }
  assert (Hmf : forall i j f, user_idx i j -> maps (pm st) f1 i j f = false) by (intros i j f Hij; unfold maps; by rewrite Ept).
  assert (Hcase : forall r i j f, r ∈ f1 :: roots -> user_idx i j -> maps (pm st) r i j f = true -> r ∈ roots).
  { intros r i j f Hr Hij Hm. apply elem_of_cons in Hr as [->|Hr]; [by rewrite Hmf in Hm|done]. }
  destruct Hwf as [W1 W2 W3 W4 W5 W6 W7 W8]. split; [|done]. split.
  - done.
  - rewrite Ha. repeat (apply NoDup_cons; split; [rewrite ?elem_of_cons; tauto|]). done.
  - intros t. rewrite Ha, !elem_of_cons. intros [->|[->|[->|Ht]]]; [done..|by apply W3].
  - intros r [->|Hr]%elem_of_cons; [|by apply W4]. rewrite T2, E1, E2. done.
  - intros r i [->|Hr]%elem_of_cons Hi; [|by apply W5]. rewrite Ei by done. done.
  - intros r i j f Hr Hij Hm. pose proof (Hcase r i j f Hr Hij Hm) as Hr'. destruct (W6 r i j f Hr' Hij Hm) as [Hl Hni].
    split; [done|]. rewrite Ha, !elem_of_cons. intros [->|[->|[->|Ht]]]; [..|done].
    + by rewrite (M1 r i j) in Hm.
    + by rewrite (M2 r i j) in Hm.
    + by rewrite (M3 r i j) in Hm.
  - intros r1 r2 i1 j1 i2 j2 f Hr1 Hr2 Hij1 Hij2 Hm1 Hm2.
    by apply (W7 r1 r2 i1 j1 i2 j2 f (Hcase _ _ _ _ Hr1 Hij1 Hm1) (Hcase _ _ _ _ Hr2 Hij2 Hm2)).
  - intros r i j f Hr Hij Hm. unfold users. rewrite filter_cons, decide_False by (by rewrite Hmf).
    apply (W8 r); [by apply (Hcase r i j f)|done|done].
Qed.

Lemma page_word f : in_page f f = true.
Proof. unfold in_page, PAGE_SIZE. lia. Qed.
Lemma fresh_pages st roots f g a : fresh st roots f -> fresh st roots g -> f <> g -> in_page f a = true -> in_page g a = false.
Proof. intros (Hf & _) (Hg & _) Hne. apply (pages_disjoint st); [apply Hf|apply Hg|done]. Qed.
Lemma fill_words m m' f n src a : 0 <= n <= 512 -> in_page f a = false -> m' = copy_words m f src n -> m' a = m a.
Proof. intros Hn Ha ->. unfold copy_words, in_words. unfold in_page, PAGE_SIZE in Ha. case_match; [lia|done]. Qed.

(** Frames taken since [st0], of no space yet. *)
Definition owns st0 st (roots fs : list Z) : Prop :=
  quiet st0 st roots /\ NoDup fs /\ forall f, f ∈ fs -> ~ live st0 f /\ fresh st roots f.

Lemma owns_alloc st0 st roots fs f st1 : owns st0 st roots fs -> frame_alloc st = (f, st1) ->
  (f = 0 /\ st1 = st) \/ (f <> 0 /\ owns st0 st1 roots (f :: fs) /\ pm st1 = zero_page (pm st) f).
Proof.
  intros (Hq & Hnd & Hfs) Ea.
  destruct (quiet_alloc st roots f st1 (q_wf _ _ _ Hq) Ea) as [(-> & -> & _)|(Hf & Hq1 & Hnl & Hfr & _ & _ & Hpm)]; [by left|].
  right. split; [done|]. split; [|done]. split; [by apply (quiet_trans _ st)|]. split.
  - apply NoDup_cons. split; [|done]. intros Hin. by apply Hnl, (Hfs f Hin).
  - intros g [->|Hg]%elem_of_cons.
    + split; [|done]. intros Hl. by apply Hnl, (quiet_live st0 st roots).
    + destruct (Hfs g Hg) as [Hg1 Hg2]. split; [done|]. by apply (quiet_fresh st st1).
Qed.

Lemma owns_write st0 st roots fs f m' : owns st0 st roots fs -> f ∈ fs ->
  (forall a, in_page f a = false -> m' a = pm st a) -> owns st0 (st <| pm := m' |>) roots fs.
Proof.
  intros (Hq & Hnd & Hfs) Hf Hm'. destruct (Hfs f Hf) as [Hnl Hfr].
  destruct (quiet_fill st0 st roots f m' Hq Hnl Hfr Hm') as (Hq' & _ & Ht). split; [done|]. split; [done|].
  intros g Hg. destruct (Hfs g Hg) as [Hg1 (Hg2 & Hg3 & Hg4 & Hg5)]. split; [done|]. split; [done|]. split; [done|].
  split; [cbn; by rewrite Ht|]. intros r i j Hr Hij.
  rewrite (maps_ext (pm st0) _ roots) by (done || apply Hq'). rewrite <- (maps_ext (pm st0) (pm st) roots) by (done || apply Hq).
  by apply Hg5.
Qed.

Lemma owns_free st0 st roots fs f : owns st0 st roots (f :: fs) -> owns st0 (frame_free st f) roots fs.
Proof.
  intros (Hq & [Hni Hnd]%NoDup_cons & Hfs). destruct (Hfs f ltac:(apply elem_of_cons; by left)) as [Hnl Hfr].
  destruct (quiet_free st0 st roots f Hq Hnl Hfr) as [Hq' Hfr']. split; [done|]. split; [done|].
  intros g Hg. destruct (Hfs g ltac:(apply elem_of_cons; by right)) as [Hg1 Hg2]. split; [done|].
  apply Hfr'; [|done]. by intros ->.
Qed.

Lemma owns_words st0 st roots fs f g a : owns st0 st roots fs -> f ∈ fs -> g ∈ fs -> f <> g -> in_page f a = true ->
  in_page g a = false.
Proof. intros (_ & _ & Hfs) Hf Hg Hne. apply (fresh_pages st roots); [by apply Hfs|by apply Hfs|done]. Qed.

(** paging_create_address_space: nothing, or a space with an empty user part. *)
Lemma create_ok st roots k : vm_wf st roots ->
  let '(c, st') := paging_create_address_space st k in
  quiet st st' roots /\
  (c = 0 \/ (c <> 0 /\ ~ live st c /\ vm_wf st' (c :: roots) /\ forall i j, user_idx i j -> pte (pm st') c i j = 0)).
Proof.
  intros Hwf. assert (O0 : owns st st roots []).
  { split; [by apply quiet_refl|]. split; [constructor|]. by intros f ?%elem_of_nil. }
  unfold paging_create_address_space. destruct (frame_alloc st) as [f1 s1] eqn:A1.
  destruct (owns_alloc _ _ _ _ _ _ O0 A1) as [(-> & ->)|(Z1 & O1 & _)]; [split; [apply O0|by left]|].
  rewrite (proj2 (Z.eqb_neq f1 0)) by done.
  apply (owns_write _ _ _ _ f1 (copy_words (pm s1) f1 k 512)) in O1;
    [|apply elem_of_cons; by left|intros a Ha; by apply (fill_words (pm s1) _ f1 512 k)].
  set (s1' := s1 <| pm := _ |>) in *. set (src_pdpt := Z.land (pm s1' k) PAGE_ADDR_MASK).
  destruct (frame_alloc s1') as [f2 s2] eqn:A2.
  destruct (owns_alloc _ _ _ _ _ _ O1 A2) as [(-> & ->)|(Z2 & O2 & _)].
  { apply owns_free in O1. split; [apply O1|by left]. }
  rewrite (proj2 (Z.eqb_neq f2 0)) by done.
  apply (owns_write _ _ _ _ f2 (copy_words (pm s2) f2 src_pdpt 512)) in O2;
    [|apply elem_of_cons; by left|intros a Ha; by apply (fill_words (pm s2) _ f2 512 src_pdpt)].
  set (s2' := s2 <| pm := _ |>) in *.
  apply (owns_write _ _ _ _ f1 (put_word (pm s2') f1 (table_flags f2))) in O2;
    [|apply elem_of_cons; right; apply elem_of_cons; by left|].
  2:{ intros a Ha. unfold put_word. rewrite (proj2 (Z.eqb_neq a f1)); [done|]. intros ->. by rewrite page_word in Ha. }
  change (s2' <| pm := put_word (pm s2') f1 (table_flags f2) |>) with (store s2' f1 (table_flags f2)) in *.
  set (s3 := store s2' f1 (table_flags f2)) in *. set (src_pd := Z.land (pm s3 src_pdpt) PAGE_ADDR_MASK).
  destruct (frame_alloc s3) as [f3 s4] eqn:A3.
  destruct (owns_alloc _ _ _ _ _ _ O2 A3) as [(-> & ->)|(Z3 & O3 & Pm3)].
  { apply owns_free, owns_free in O2. split; [apply O2|by left]. }
  rewrite (proj2 (Z.eqb_neq f3 0)) by done. set (m5 := zero_words _ _ _).
  apply (owns_write _ _ _ _ f3 m5) in O3; [|apply elem_of_cons; by left|].
  2:{ intros a Ha. unfold m5, zero_words, copy_words, in_words. unfold in_page, PAGE_SIZE in Ha.
      repeat case_match; try lia; done. }
  set (s5 := s4 <| pm := m5 |>) in *. pose proof O3 as O5.
  apply (owns_write _ _ _ _ f2 (put_word (pm s5) f2 (table_flags f3))) in O3;
    [|apply elem_of_cons; right; apply elem_of_cons; by left|].
  2:{ intros a Ha. unfold put_word. rewrite (proj2 (Z.eqb_neq a f2)); [done|]. intros ->. by rewrite page_word in Ha. }
  change (s5 <| pm := put_word (pm s5) f2 (table_flags f3) |>) with (store s5 f2 (table_flags f3)) in *.
  split; [apply O3|]. right. destruct O3 as (Q & Hnd & Hfs).
  destruct (Hfs f1 ltac:(rewrite !elem_of_cons; auto)) as [Hnl1 Fr1], (Hfs f2 ltac:(rewrite !elem_of_cons; auto)) as [_ Fr2],
    (Hfs f3 ltac:(rewrite !elem_of_cons; auto)) as [_ Fr3].
  rewrite !NoDup_cons, !elem_of_cons in Hnd. destruct Hnd as (D1 & D2 & _).
  assert (D12 : f1 <> f2) by (intros ->; tauto). assert (D13 : f1 <> f3) by (intros ->; tauto). assert (D23 : f2 <> f3) by (intros ->; tauto).
  split; [done|]. split; [done|]. set (s6 := store s5 f2 (table_flags f3)) in *.
  assert (P3 : forall a, in_page f3 a = false -> pm s5 a = pm s3 a).
  { intros a Ha. unfold s5, m5, zero_words, copy_words, in_words. cbn [pm upd_with]. rewrite Pm3. unfold zero_page.
    unfold in_page, PAGE_SIZE in Ha |- *. rewrite Ha. repeat case_match; try lia; done. }
  apply (new_space s6 roots f1 f2 f3 (q_wf _ _ _ Q) Fr1 Fr2 Fr3 D12 D13 D23).
  - unfold s6, store, put_word at 1. cbn [pm upd_with]. rewrite (proj2 (Z.eqb_neq f1 f2)) by done.
    rewrite P3 by (by apply (fresh_pages s6 roots f1 f3); [..|apply page_word]).
    unfold s3, store, put_word. cbn [pm upd_with]. by rewrite Z.eqb_refl.
  - unfold s6, store, put_word. cbn [pm upd_with]. by rewrite Z.eqb_refl.
  - intros i Hi. unfold s6, store, put_word. cbn [pm upd_with]. rewrite (proj2 (Z.eqb_neq _ f2)).
    + unfold s5, m5, zero_words, in_words, entry_at. cbn [pm upd_with]. case_match; [done|lia].
    + intros He. pose proof (fresh_pages s6 roots f3 f2 (entry_at f3 i) Fr3 Fr2 ltac:(done) (in_page_entry f3 i ltac:(lia))) as Hd.
      by rewrite He, page_word in Hd.
Qed.

(** ** Sharing a page *)

Lemma ref_inc_wf st roots f : vm_wf st roots -> live st f ->
  vm_wf (frame_ref_inc st f) roots /\ same_pool st (frame_ref_inc st f) /\ pm (frame_ref_inc st f) = pm st /\
  forall g, live st g -> live (frame_ref_inc st f) g.
Proof.
  intros Hwf Hl. destruct (frame_ref_inc_ok st f (vw_frames _ _ Hwf) Hl) as ((Hsp & Hrf & Hrg) & Hpm & Hfw).
  destruct (live_not_free st f (vw_frames _ _ Hwf) Hl) as (_ & _ & H255).
  assert (Hmono : forall g, live st g -> rc st g <= rc (frame_ref_inc st f) g).
  { intros g Hg. destruct (Z.eq_dec g f) as [->|Hne]; [lia|]. by rewrite Hrg by (done || apply Hg). }
  split; [|split; [done|split; [done|]]].
  - destruct Hwf as [F1 F2 F3 F4 F5 F6 F7 F8]. split; rewrite ?Hpm; try done.
    + intros t Ht. pose proof (F3 t Ht) as Hlt. apply (live_mono st); auto.
    + intros r i j g Hr Hij Hg. destruct (F6 r i j g Hr Hij Hg) as [Hlg ?]. split; [|done]. apply (live_mono st); auto.
    + intros r i j g Hr Hij Hg. pose proof (F8 r i j g Hr Hij Hg). destruct (F6 r i j g Hr Hij Hg) as [Hlg _].
      pose proof (Hmono g Hlg). lia.
  - intros g Hg. apply (live_mono st); auto.
Qed.

Lemma users_le m roots i j f : (users m roots i j f <= length roots)%nat.
Proof. unfold users. apply length_filter. Qed.

(** The child's entry: the same frame, read-only. *)
Lemma child_entry f e : 0 <= f < 2 ^ 48 -> f mod PAGE_SIZE = 0 -> has e PAGE_PRESENT = true ->
  has e PAGE_WRITABLE = false ->
  let v := Z.lor f (Z.land e 0xFFF) in
  has v PAGE_PRESENT = true /\ has v PAGE_WRITABLE = false /\ frame_of v = f.
Proof.
  intros Hf Hm Hp Hw v. unfold v. split; [|split].
  - flags. exact Hp.
  - flags. exact Hw.
  - rewrite frame_of_lor, (frame_of_aligned f) by done. unfold frame_of. rewrite <- Z.land_assoc.
    change (Z.land 0xFFF PAGE_ADDR_MASK) with 0. by rewrite Z.land_0_r, Z.lor_0_r.
Qed.

Lemma share_leaf st roots p c i j pt : vm_wf st roots -> p ∈ roots -> c ∈ roots -> p <> c -> user_idx i j ->
  (length roots <= 255)%nat -> pt_of (pm st) c i = Some pt ->
  let ep := pte (pm st) p i j in let f := frame_of ep in
  has ep PAGE_PRESENT = true -> has ep PAGE_WRITABLE = false -> has (pte (pm st) c i j) PAGE_PRESENT = false ->
  forall v, has v PAGE_PRESENT = true -> has v PAGE_WRITABLE = false -> frame_of v = f ->
  vm_wf (frame_ref_inc (store st (entry_at pt j) v) f) roots.
Proof.
  intros Hwf Hp Hc Hpc Hij Hlen Hpt ep f Hpp Hpw Hcp v Hvp Hvw Hvf.
  pose proof (maps_present (pm st) p i j Hpp) as Hmp. fold ep f in Hmp.
  destruct (vw_leaf _ _ Hwf p i j f Hp Hij Hmp) as [Hfl Hfn]. set (s1 := store st (entry_at pt j) v).
  destruct (frame_ref_inc_ok s1 f (frames_wf_store _ _ _ (vw_frames _ _ Hwf)) Hfl) as ((Hsp & Hrf & Hrg) & Hpm & Hfw).
  set (st' := frame_ref_inc s1 f) in *. change (rc s1 f) with (rc st f) in Hrf.
  assert (Hrg' : forall g, live st g -> g <> f -> rc st' g = rc st g) by (intros g Hg Hgf; by apply (Hrg g (proj1 Hg) Hgf)).
  destruct (live_not_free st f (vw_frames _ _ Hwf) Hfl) as (_ & _ & H255).
  assert (Hlv : forall g, live st g -> live st' g).
  { intros g Hg. apply (live_mono st); [done| |done]. destruct (Z.eq_dec g f) as [->|]; [lia|]. by rewrite Hrg'. }
  assert (Hnd : NoDup roots) by (by apply (roots_nodup (pm st)), vw_nodup).
  assert (Hem : forall g, entry_maps v g = (g =? f)) by (intros g; unfold entry_maps; rewrite Hvp, Hvf; lia).
  assert (Hcm : forall g, maps (pm st) c i j g = false) by (intros g; unfold maps; by rewrite Hcp).
  assert (Hcount : Z.of_nat (users (pm st') roots i j f) <= rc st' f).
  { pose proof (users_le (pm st') roots i j f) as Hle. rewrite Hrf. apply Z.min_glb; [lia|].
    rewrite Hpm. cbn [s1 pm store upd_with]. rewrite (users_leaf st roots c i j pt v), !Z.eqb_refl by done. cbn [andb].
    pose proof (vw_count _ _ Hwf p i j f Hp Hij Hmp) as Hcnt. rewrite (users_others _ _ c), Hcm in Hcnt by done.
    rewrite Hem, Z.eqb_refl. lia. }
  apply (vm_wf_leaf st st' roots c i j pt v); try done.
  - intros t Ht. by apply Hlv, (vw_live _ _ Hwf).
  - intros r' i' j' g Hr' Hij' Hat Hm. destruct (vw_leaf _ _ Hwf r' i' j' g Hr' Hij' Hm) as [Hgl _]. split; [by apply Hlv|].
    destruct (Z.eq_dec g f) as [->|Hgf].
    + destruct (vw_share _ _ Hwf r' p i' j' i j f Hr' Hp Hij' Hij Hm Hmp) as (-> & -> & _). exact Hcount.
    + rewrite Hpm. cbn [s1 pm store upd_with]. rewrite (users_leaf st roots c i j pt v) by done. rewrite Hrg' by done.
      pose proof (vw_count _ _ Hwf r' i' j' g Hr' Hij' Hm) as Hcnt. case_match eqn:E; [|done].
      assert (i' = i /\ j' = j) as [-> ->] by lia. rewrite (users_others _ _ c) in Hcnt by done.
      rewrite Hem, (proj2 (Z.eqb_neq g f)) by done. lia.
  - intros g Hg. rewrite Hem in Hg. apply Z.eqb_eq in Hg as ->. split; [by apply Hlv|]. split; [done|]. split; [done|].
    intros r' i' j' Hr' Hij' _ Hm'. destruct (vw_share _ _ Hwf r' p i' j' i j f Hr' Hp Hij' Hij Hm' Hmp) as (-> & -> & Hs).
    split; [done|]. split; [done|]. split; [done|]. by destruct Hs as [->|].
Qed.

(** ** The clone *)

Definition idx (i j : Z) : Z := (i - 64) * 512 + j.

(** After the first [n] entries of [p]'s tables have been visited. *)
Record cloning st0 st (roots : list Z) (p c n : Z) : Prop := {
  cl_wf : vm_wf st roots;
  cl_live f : live st0 f -> live st f;
  cl_pool : same_pool st0 st;
  cl_data f a : live st0 f -> f ∉ all_tables (pm st0) roots -> in_page f a = true -> pm st a = pm st0 a;
  cl_new t : t ∈ all_tables (pm st) roots -> t ∈ all_tables (pm st0) roots \/ ~ live st0 t;
  cl_others r i j : r ∈ roots -> r <> c -> user_idx i j ->
    has (pte (pm st) r i j) PAGE_PRESENT = has (pte (pm st0) r i j) PAGE_PRESENT /\
    frame_of (pte (pm st) r i j) = frame_of (pte (pm st0) r i j) /\
    (r <> p -> pte (pm st) r i j = pte (pm st0) r i j);
  cl_p : pd_of (pm st) p = pd_of (pm st0) p;
  cl_absent i j : user_idx i j -> has (pte (pm st0) p i j) PAGE_PRESENT = false -> has (pte (pm st) c i j) PAGE_PRESENT = false;
  cl_done i j : user_idx i j -> idx i j < n -> has (pte (pm st0) p i j) PAGE_PRESENT = true ->
    (has (pte (pm st) c i j) PAGE_PRESENT = true /\ frame_of (pte (pm st) c i j) = frame_of (pte (pm st0) p i j)) \/
    (has (pte (pm st) c i j) PAGE_PRESENT = false /\ exhausted st);
  cl_todo i j : user_idx i j -> n <= idx i j -> has (pte (pm st) c i j) PAGE_PRESENT = false }.

(** The body of the inner loop. *)
Definition clone_one (i j : Z) st (dst_pml4 pt : Z) : Mm :=
  let a := entry_at pt j in
  if negb (has (pm st a) PAGE_PRESENT) then st else
  let st := if has (pm st a) PAGE_WRITABLE
            then store st a (Z.lor (Z.ldiff (pm st a) PAGE_WRITABLE) PAGE_COW) else st in
  let f := Z.land (pm st a) PAGE_ADDR_MASK in
  frame_ref_inc (paging_map_4k st dst_pml4 (va_of i j) f (Z.land (pm st a) 0xFFF)) f.

Lemma exhausted_mono st st' : same_pool st st' -> (forall f, live st f -> live st' f) -> exhausted st -> exhausted st'.
Proof. intros Hsp Hl He g Hg. apply Hl, He. by apply (in_pool_same st st'). Qed.

(** Loops that leave everything the invariant speaks of alone. *)
Lemma cloning_quiet st0 st st' roots p c n : cloning st0 st roots p c n -> p ∈ roots -> c ∈ roots -> quiet st st' roots ->
  cloning st0 st' roots p c n.
Proof.
  intros [K1 K2 K3 K4 K5 K6 K7 K8 K9 K10] Hp Hc Hq.
  assert (Hl : forall f, live st f -> live st' f) by (intros f; by apply (quiet_live st st' roots)). split.
  - apply Hq.
  - auto.
  - destruct K3, (q_pool _ _ _ Hq). split; congruence.
  - intros f a Hf Hn Ha. rewrite (q_data _ _ _ Hq f a); [by apply (K4 f)|by apply K2| |done].
    intros Hin. by destruct (K5 f Hin).
  - intros t Ht. destruct (q_new _ _ _ Hq t Ht) as [Hin|Hnl]; [by apply K5|right]. intros Ht0. by apply Hnl, K2.
  - intros r i j Hr Hrc Hij. rewrite (q_ptes _ _ _ Hq) by done. by apply K6.
  - destruct (q_path _ _ _ Hq p Hp) as [_ E]. congruence.
  - intros i j Hij. rewrite (q_ptes _ _ _ Hq) by done. by apply K8.
  - intros i j Hij Hn Hpr. rewrite (q_ptes _ _ _ Hq) by done. destruct (K9 i j Hij Hn Hpr) as [Hd|[Hd He]]; [by left|right].
    split; [done|]. apply (exhausted_mono st); [apply Hq|done|done].
  - intros i j Hij. rewrite (q_ptes _ _ _ Hq) by done. by apply K10.
Qed.

(** Taking write permission from the parent. *)
Lemma ro_entry e : has e PAGE_PRESENT = true ->
  let v := Z.lor (Z.ldiff e PAGE_WRITABLE) PAGE_COW in
  has v PAGE_PRESENT = true /\ has v PAGE_WRITABLE = false /\ frame_of v = frame_of e.
Proof.
  intros Hp v. unfold v. split; [|split].
  - flags. exact Hp.
  - by flags.
  - rewrite frame_of_lor, frame_of_ldiff by done. change (frame_of PAGE_COW) with 0. apply Z.lor_0_r.
Qed.

Lemma cloning_ro st0 st roots p c n i j pt e : cloning st0 st roots p c n -> p ∈ roots -> c ∈ roots -> p <> c ->
  user_idx i j -> pt_of (pm st) p i = Some pt ->
  has (pte (pm st) p i j) PAGE_PRESENT = true -> has e PAGE_PRESENT = true -> has e PAGE_WRITABLE = false ->
  frame_of e = frame_of (pte (pm st) p i j) ->
  let st' := store st (entry_at pt j) e in
  cloning st0 st' roots p c n /\ pte (pm st') p i j = e /\ pt_of (pm st') p i = Some pt.
Proof.
  intros [K1 K2 K3 K4 K5 K6 K7 K8 K9 K10] Hp Hc Hpc Hij Hpt Hpr He Hw Hf st'.
  destruct (leaf_flags st roots p i j pt e K1 Hp Hij Hpt Hpr He Hf (or_introl Hw)) as (L1 & _ & L3 & L4 & L5 & L6 & L7).
  fold st' in L1, L3, L4, L5, L6, L7. destruct (L7 p Hp) as (_ & L8 & L9).
  assert (Hcpte : forall i' j', user_idx i' j' -> pte (pm st') c i' j' = pte (pm st) c i' j').
  { intros i' j' Hij'. apply L4; [done|done|]. apply not_true_iff_false. rewrite at_entry_spec. intros (-> & _). done. }
  split; [|split; [done|rewrite L9; [done|apply Hij]]]. split; try done.
  - intros f a Hf0 Hn Ha. rewrite (L6 f a); [by apply (K4 f)|by apply K2| |done]. intros Hin. by destruct (K5 f Hin).
  - intros t. rewrite L5. apply K5.
  - intros r i' j' Hr Hrc Hij'. destruct (at_entry p i j r i' j') eqn:Hat.
    + apply at_entry_spec in Hat as (-> & -> & ->). rewrite L3. destruct (K6 p i j Hp Hrc Hij) as (<- & <- & _).
      rewrite He, Hpr, Hf. done.
    + rewrite L4 by done. by apply K6.
  - by rewrite L8.
  - intros i' j' Hij'. rewrite Hcpte by done. by apply K8.
  - intros i' j' Hij'. rewrite Hcpte by done. by apply K9.
  - intros i' j' Hij'. rewrite Hcpte by done. by apply K10.
Qed.

Lemma space_idx_inj i j i' j' : user_idx i j -> user_idx i' j' -> idx i j = idx i' j' -> i = i' /\ j = j'.
Proof. unfold user_idx, idx. lia. Qed.

(** The reference is counted although the child's table could not be made. *)
Lemma cloning_unmapped st0 st roots p c i j : cloning st0 st roots p c (idx i j) -> user_idx i j -> exhausted st ->
  has (pte (pm st) c i j) PAGE_PRESENT = false -> forall f, live st f ->
  cloning st0 (frame_ref_inc st f) roots p c (idx i j + 1).
Proof.
  intros [K1 K2 K3 K4 K5 K6 K7 K8 K9 K10] Hij Hex Hcp f Hl.
  destruct (ref_inc_wf st roots f K1 Hl) as (Hwf & Hsp & Hpm & Hlv).
  assert (Hex' : exhausted (frame_ref_inc st f)) by (by apply (exhausted_mono st)).
  split; rewrite ?Hpm; try done.
  - auto.
  - destruct K3, Hsp. split; congruence.
  - intros i' j' Hij' Hlt Hp0. destruct (Z.eq_dec (idx i' j') (idx i j)) as [He|Hne].
    + apply space_idx_inj in He as [-> ->]; [|done..]. by right.
    + destruct (K9 i' j' Hij' ltac:(lia) Hp0) as [Hd|[Hd _]]; [by left|by right].
  - intros i' j' Hij' Hle. apply K10; [done|lia].
Qed.

(** The child's entry is stored. *)
Lemma cloning_mapped st0 st roots p c i j pt v : cloning st0 st roots p c (idx i j) -> p ∈ roots -> c ∈ roots -> p <> c ->
  user_idx i j -> (length roots <= 255)%nat -> pt_of (pm st) c i = Some pt ->
  let ep := pte (pm st) p i j in let f := frame_of ep in
  has ep PAGE_PRESENT = true -> has ep PAGE_WRITABLE = false -> has (pte (pm st) c i j) PAGE_PRESENT = false ->
  has v PAGE_PRESENT = true -> has v PAGE_WRITABLE = false -> frame_of v = f ->
  let st' := frame_ref_inc (store st (entry_at pt j) v) f in
  cloning st0 st' roots p c (idx i j + 1) /\ forall pt', pt_of (pm st) p i = Some pt' -> pt_of (pm st') p i = Some pt'.
Proof.
  intros K Hp Hc Hpc Hij Hlen Hpt ep f Hpp Hpw Hcp Hvp Hvw Hvf st'. pose proof (cl_wf _ _ _ _ _ _ K) as Hwf.
  pose proof (share_leaf st roots p c i j pt Hwf Hp Hc Hpc Hij Hlen Hpt Hpp Hpw Hcp v Hvp Hvw Hvf) as Hwf'. fold ep f st' in Hwf'.
  pose proof (maps_present (pm st) p i j Hpp) as Hmp. fold ep f in Hmp.
  destruct (vw_leaf _ _ Hwf p i j f Hp Hij Hmp) as [Hfl Hfn].
  destruct (leaf_store st roots c i j pt v Hwf Hc Hij Hpt) as (_ & Htab & Hpte & Hsh & Hdata).
  set (s1 := store st (entry_at pt j) v) in *.
  destruct (frame_ref_inc_ok s1 f (frames_wf_store _ _ _ (vw_frames _ _ Hwf)) Hfl) as ((Hsp & Hrf & Hrg) & Hpm & _).
  fold st' in Hsp, Hrf, Hrg, Hpm. change (same_pool st st') in Hsp. change (pm s1) with (put_word (pm st) (entry_at pt j) v) in Hpm. rewrite <- Hpm in *.
  assert (Hlv : forall g, live st g -> live st' g).
  { intros g Hg. apply (live_mono st); [done| |done]. change (rc s1 f) with (rc st f) in Hrf.
    destruct (live_not_free st f (vw_frames _ _ Hwf) Hfl) as (_ & _ & H255).
    destruct (Z.eq_dec g f) as [->|Hne]; [lia|]. rewrite (Hrg g) by (done || apply Hg). done. }
  assert (Epr : has (pte (pm st0) p i j) PAGE_PRESENT = true /\ frame_of (pte (pm st0) p i j) = f).
  { destruct (cl_others _ _ _ _ _ _ K p i j Hp Hpc Hij) as (<- & <- & _). done. }
  destruct K as [K1 K2 K3 K4 K5 K6 K7 K8 K9 K10]. split; [split|].
  - done.
  - auto.
  - destruct K3, Hsp. split; congruence.
  - intros g a Hg Hn Ha. rewrite (Hdata g a); [by apply (K4 g)|by apply K2| |done]. intros Hin. by destruct (K5 g Hin).
  - intros t. rewrite Htab. apply K5.
  - intros r i' j' Hr Hrc Hij'. rewrite Hpte by done.
    replace (at_entry c i j r i' j') with false by (symmetry; apply not_true_iff_false; rewrite at_entry_spec; tauto).
    by apply K6.
  - destruct (Hsh p Hp) as (_ & -> & _). done.
  - intros i' j' Hij' Hab. rewrite Hpte by done. destruct (at_entry c i j c i' j') eqn:Hat; [|by apply K8].
    apply at_entry_spec in Hat as (_ & -> & ->). destruct Epr. congruence.
  - intros i' j' Hij' Hlt Hp0. rewrite Hpte by done. destruct (at_entry c i j c i' j') eqn:Hat.
    + apply at_entry_spec in Hat as (_ & -> & ->). left. split; [done|]. destruct Epr. congruence.
    + assert (Hne : idx i' j' <> idx i j).
      { intros He. apply space_idx_inj in He as [-> ->]; [|done..]. by rewrite at_entry_refl in Hat. }
      destruct (K9 i' j' Hij' ltac:(lia) Hp0) as [Hd|[Hd He]]; [by left|right].
      split; [done|]. apply (exhausted_mono st); done.
  - intros i' j' Hij' Hle. rewrite Hpte by done. destruct (at_entry c i j c i' j') eqn:Hat; [|apply K10; [done|lia]].
    apply at_entry_spec in Hat as (_ & -> & ->). lia.
  - intros pt' Hpt'. destruct (Hsh p Hp) as (_ & _ & ->); [done|apply Hij].
Qed.

(** One entry. *)
Lemma clone_one_ok st0 st roots p c i j pt : cloning st0 st roots p c (idx i j) -> p ∈ roots -> c ∈ roots -> p <> c ->
  user_idx i j -> (length roots <= 255)%nat -> pt_of (pm st) p i = Some pt ->
  let st' := clone_one i j st c pt in
  cloning st0 st' roots p c (idx i j + 1) /\ pt_of (pm st') p i = Some pt.
Proof.
  intros K Hp Hc Hpc Hij Hlen Hpt st'. unfold st', clone_one. clear st'. set (n := idx i j) in *.
  assert (Ee : pm st (entry_at pt j) = pte (pm st) p i j) by (unfold pte; by rewrite Hpt). rewrite Ee.
  destruct (cl_others _ _ _ _ _ _ K p i j Hp Hpc Hij) as (Epr & Efr & _).
  assert (Hcabs : has (pte (pm st) c i j) PAGE_PRESENT = false) by (apply (cl_todo _ _ _ _ _ _ K); [done|unfold n; lia]).
  assert (Hlast : forall i' j', user_idx i' j' -> idx i' j' < n + 1 -> idx i' j' < n \/ (i' = i /\ j' = j)).
  { intros i' j' Hij' Hlt. destruct (Z.eq_dec (idx i' j') n) as [He|]; [right; by apply space_idx_inj|left; lia]. }
  destruct (has (pte (pm st) p i j) PAGE_PRESENT) eqn:Hpr; cbn [negb].
  2:{ split; [|done]. destruct K as [K1 K2 K3 K4 K5 K6 K7 K8 K9 K10]. split; try done.
      - intros i' j' Hij' Hlt Hp0. destruct (Hlast i' j' Hij' Hlt) as [|[-> ->]]; [by apply K9|]. congruence.
      - intros i' j' Hij' Hle. apply K10; [done|lia]. }
  (* the parent's entry is read-only in [s1] *)
  assert (H1 : exists s1, cloning st0 s1 roots p c n /\ pt_of (pm s1) p i = Some pt /\
    has (pte (pm s1) p i j) PAGE_PRESENT = true /\ has (pte (pm s1) p i j) PAGE_WRITABLE = false /\
    frame_of (pte (pm s1) p i j) = frame_of (pte (pm st) p i j) /\
    (if has (pte (pm st) p i j) PAGE_WRITABLE
     then store st (entry_at pt j) (Z.lor (Z.ldiff (pte (pm st) p i j) PAGE_WRITABLE) PAGE_COW) else st) = s1).
  { destruct (has (pte (pm st) p i j) PAGE_WRITABLE) eqn:Hw; [|exists st; done].
    destruct (ro_entry (pte (pm st) p i j) Hpr) as (E1 & E2 & E3).
    destruct (cloning_ro st0 st roots p c n i j pt _ K Hp Hc Hpc Hij Hpt Hpr E1 E2 E3) as (K1 & P1 & P2).
    eexists. split; [exact K1|]. split; [done|]. rewrite P1. done. }
  destruct H1 as (s1 & K1 & Hpt1 & Hpr1 & Hw1 & Hf1 & ->).
  assert (Ee1 : pm s1 (entry_at pt j) = pte (pm s1) p i j) by (unfold pte; by rewrite Hpt1). rewrite Ee1.
  fold (frame_of (pte (pm s1) p i j)). set (e := pte (pm s1) p i j) in *. set (f := frame_of e) in *.
  destruct (va_of_user i j Hij) as (Hva & Ei & Ej).
  destruct (map_4k_spec s1 roots c (va_of i j) f (Z.land e 0xFFF) (cl_wf _ _ _ _ _ _ K1) Hc Hva) as (s2 & Hq & -> & Hex).
  rewrite Ei, Ej in *. pose proof (cloning_quiet _ _ _ _ _ _ _ K1 Hp Hc Hq) as K2.
  pose proof (cl_wf _ _ _ _ _ _ K2) as Hwf2.
  assert (Hpt2 : pt_of (pm s2) p i = Some pt) by (apply (q_pts _ _ _ Hq); [done|apply Hij|done]).
  assert (Ee2 : pte (pm s2) p i j = e) by (by apply (q_ptes _ _ _ Hq)).
  pose proof (maps_present (pm s2) p i j) as Hmp. rewrite Ee2 in Hmp. specialize (Hmp Hpr1). fold f in Hmp.
  destruct (vw_leaf _ _ Hwf2 p i j f Hp Hij Hmp) as [Hfl Hfn].
  assert (Hff : frame_of f = f) by (apply (pool_frame_of s2); [apply Hwf2|apply Hfl]).
  assert (Hcabs2 : has (pte (pm s2) c i j) PAGE_PRESENT = false) by (apply (cl_todo _ _ _ _ _ _ K2); [done|unfold n; lia]).
  destruct (pt_of (pm s2) c i) as [ptc|] eqn:Hptc.
  - rewrite Hff. destruct (fw_base _ (vw_frames _ _ Hwf2)) as (Hb & _ & Hend). rewrite (fw_end _ (vw_frames _ _ Hwf2)) in Hend.
    destruct (child_entry f e) as (V1 & V2 & V3); [destruct Hfl as [[? ?] _]; lia|apply Hfl|done|done|].
    pose proof (cloning_mapped st0 s2 roots p c i j ptc (Z.lor f (Z.land e 0xFFF)) K2 Hp Hc Hpc Hij Hlen Hptc) as HK.
    rewrite Ee2 in HK. fold f in HK. destruct (HK Hpr1 Hw1 Hcabs2 V1 V2 V3) as [HK1 HK2]. split; [done|]. by apply HK2.
  - split; [apply (cloning_unmapped st0 s2 roots p c i j K2 Hij (Hex eq_refl) Hcabs2 f Hfl)|].
    destruct (ref_inc_wf s2 roots f Hwf2 Hfl) as (_ & _ & -> & _). done.
Qed.

Lemma clone_pt_ok st0 roots p c n i : p ∈ roots -> c ∈ roots -> p <> c -> (length roots <= 255)%nat -> 64 <= i < 512 ->
  forall st j pt, 0 <= j -> j + Z.of_nat n = 512 -> cloning st0 st roots p c (idx i j) -> pt_of (pm st) p i = Some pt ->
  cloning st0 (clone_pt n i j st c pt) roots p c (idx (i + 1) 0).
Proof.
  intros Hp Hc Hpc Hlen Hi. induction n as [|n IH]; intros st j pt Hj Hn K Hpt.
  - cbn [clone_pt]. replace (idx (i + 1) 0) with (idx i j); [done|]. unfold idx. lia.
  - assert (Hij : user_idx i j) by (split; lia). change (clone_pt (S n) i j st c pt) with (clone_pt n i (j + 1) (clone_one i j st c pt) c pt).
    destruct (clone_one_ok st0 st roots p c i j pt K Hp Hc Hpc Hij Hlen Hpt) as [K' Hpt'].
    apply IH; [lia|lia| |done]. replace (idx i (j + 1)) with (idx i j + 1); [done|]. unfold idx. lia.
Qed.

Lemma cloning_skip st0 st roots p c i : cloning st0 st roots p c (idx i 0) -> p ∈ roots -> p <> c -> 64 <= i < 512 ->
  pt_of (pm st) p i = None -> cloning st0 st roots p c (idx (i + 1) 0).
Proof.
  intros [K1 K2 K3 K4 K5 K6 K7 K8 K9 K10] Hp Hpc Hi Hnone. split; try done.
  - intros i' j' Hij' Hlt Hp0. destruct (Z_lt_le_dec (idx i' j') (idx i 0)) as [Hl|Hge]; [by apply K9|].
    assert (i' = i) as -> by (unfold idx, user_idx in *; lia). destruct (K6 p i j' Hp Hpc Hij') as (E & _).
    unfold pte in E at 1. rewrite Hnone in E. rewrite <- E in Hp0. done.
  - intros i' j' Hij' Hle. apply K10; [done|]. unfold idx in *. lia.
Qed.

Lemma clone_pd_ok st0 roots p c n : p ∈ roots -> c ∈ roots -> p <> c -> (length roots <= 255)%nat ->
  forall st i, 64 <= i -> i + Z.of_nat n = 512 -> cloning st0 st roots p c (idx i 0) ->
  cloning st0 (clone_pd n i st c (pd_of (pm st0) p)) roots p c (idx 512 0).
Proof.
  intros Hp Hc Hpc Hlen. induction n as [|n IH]; intros st i Hi Hn K.
  - cbn [clone_pd]. by replace 512 with i by lia.
  - cbn [clone_pd]. apply IH; [lia|lia|]. rewrite <- (cl_p _ _ _ _ _ _ K). fold (pde (pm st) p i).
    destruct (vw_small _ _ (cl_wf _ _ _ _ _ _ K) p i Hp ltac:(lia)) as [-> _]. rewrite orb_false_r.
    destruct (has (pde (pm st) p i) PAGE_PRESENT) eqn:E; cbn [negb].
    + apply clone_pt_ok; try done; [lia|]. unfold pt_of. by rewrite E.
    + apply cloning_skip; try done; [lia|]. unfold pt_of. by rewrite E.
Qed.

(** The clone: nobody's pages change, and the new space sees its parent's pages - those for which
    the pool had room. *)
Lemma clone_ok st roots p c : vm_wf st roots -> p ∈ roots -> c ∈ roots -> p <> c -> (length roots <= 255)%nat ->
  (forall i j, user_idx i j -> pte (pm st) c i j = 0) ->
  let '(res, st') := paging_clone_user_pages st c p in
  res = 0 /\ vm_wf st' roots /\
  (forall r i j off, r ∈ roots -> r <> c -> user_idx i j -> 0 <= off < PAGE_SIZE -> page_at st' r i j off = page_at st r i j off) /\
  (forall i j, user_idx i j -> (forall off, 0 <= off < PAGE_SIZE -> page_at st' c i j off = page_at st p i j off) \/
                               (exhausted st' /\ forall off, page_at st' c i j off = None)).
Proof.
  intros Hwf Hp Hc Hpc Hlen H0. unfold paging_clone_user_pages. split; [done|].
  fold (frame_of (pm st p)). fold (pdpt_of (pm st) p). fold (frame_of (pm st (pdpt_of (pm st) p))). fold (pd_of (pm st) p).
  set (st' := clone_pd 448 64 st c (pd_of (pm st) p)). assert (K0 : cloning st st roots p c (idx 64 0)).
  { split; try done.
    - intros t Ht. by left.
    - intros i j Hij _. by rewrite H0.
    - intros i j Hij Hlt. unfold idx, user_idx in *. lia.
    - intros i j Hij _. by rewrite H0. }
  pose proof (clone_pd_ok st roots p c 448 Hp Hc Hpc Hlen st 64 ltac:(lia) ltac:(lia) K0) as K. fold st' in K.
  split; [apply K|].
  assert (Hdat : forall r i j off, r ∈ roots -> user_idx i j -> 0 <= off < PAGE_SIZE -> has (pte (pm st) r i j) PAGE_PRESENT = true ->
    pm st' (frame_of (pte (pm st) r i j) + off) = pm st (frame_of (pte (pm st) r i j) + off)).
  { intros r i j off Hr Hij Ho Hpr. destruct (vw_leaf _ _ Hwf r i j _ Hr Hij (maps_present (pm st) _ _ _ Hpr)) as [Hl Hni].
    apply (cl_data _ _ _ _ _ _ K (frame_of (pte (pm st) r i j))); [done|done|by apply in_page_off]. }
  split.
  - intros r i j off Hr Hrc Hij Ho. unfold page_at. destruct (cl_others _ _ _ _ _ _ K r i j Hr Hrc Hij) as (-> & -> & _).
    destruct (has (pte (pm st) r i j) PAGE_PRESENT) eqn:Hpr; [|done]. f_equal. by apply Hdat.
  - intros i j Hij. destruct (has (pte (pm st) p i j) PAGE_PRESENT) eqn:Hpr.
    + destruct (cl_done _ _ _ _ _ _ K i j Hij ltac:(unfold idx, user_idx in *; lia) Hpr) as [[E1 E2]|[E1 E2]].
      * left. intros off Ho. unfold page_at. rewrite E1, E2, Hpr. f_equal. by apply Hdat.
      * right. split; [done|]. intros off. unfold page_at. by rewrite E1.
    + left. intros off Ho. unfold page_at. by rewrite Hpr, (cl_absent _ _ _ _ _ _ K).
Qed.

(** ** Releasing a space *)

Lemma vm_wf_perm st roots roots' : roots ≡ₚ roots' -> vm_wf st roots -> vm_wf st roots'.
Proof.
  intros Hp [W1 W2 W3 W4 W5 W6 W7 W8].
  assert (Ht : all_tables (pm st) roots ≡ₚ all_tables (pm st) roots') by (unfold all_tables; by rewrite Hp).
  assert (Hin : forall r, r ∈ roots' -> r ∈ roots) by (intros r; by rewrite Hp).
  assert (Hus : forall i j f, users (pm st) roots' i j f = users (pm st) roots i j f).
  { intros i j f. unfold users. by rewrite Hp. }
  split.
  - done.
  - by rewrite <- Ht.
  - intros t. rewrite <- Ht. apply W3.
  - intros r Hr. by apply W4, Hin.
  - intros r i Hr. by apply W5, Hin.
  - intros r i j f Hr Hij Hm. rewrite <- Ht. by apply (W6 r i j f); [apply Hin|..].
  - intros r1 r2 i1 j1 i2 j2 f Hr1 Hr2. apply W7; by apply Hin.
  - intros r i j f Hr Hij Hm. rewrite Hus. by apply (W8 r); [apply Hin|..].
Qed.

(** Dropping a reference that no space in [roots] needs. *)
Lemma free_step st roots f : vm_wf st roots -> live st f -> f ∉ all_tables (pm st) roots ->
  (forall r i j, r ∈ roots -> user_idx i j -> maps (pm st) r i j f = true -> Z.of_nat (users (pm st) roots i j f) + 1 <= rc st f) ->
  let st' := frame_free st f in
  vm_wf st' roots /\ pm st' = pm st /\ same_pool st st' /\
  forall g, live st g -> g <> f -> live st' g /\ rc st' g = rc st g.
Proof.
  intros Hwf Hl Hn Hsp st'. destruct (frame_free_ok st f (vw_frames _ _ Hwf) Hl) as ((Hp & Hrf & Hrg) & Hpm & Hfw).
  fold st' in Hp, Hrf, Hrg, Hpm, Hfw.
  assert (Hlv : forall g, live st g -> g <> f -> live st' g /\ rc st' g = rc st g).
  { intros g Hg Hne. pose proof (Hrg g (proj1 Hg) Hne) as E. split; [|done]. apply (live_mono st); [done|lia|done]. }
  split; [|done]. destruct Hwf as [F1 F2 F3 F4 F5 F6 F7 F8]. split; rewrite ?Hpm; try done.
  - intros t Ht. apply Hlv; [by apply F3|]. by intros ->.
  - intros r i j g Hr Hij Hm. destruct (F6 r i j g Hr Hij Hm) as [Hgl Hgn]. split; [|done].
    destruct (Z.eq_dec g f) as [->|]; [|by apply Hlv]. specialize (Hsp r i j Hr Hij Hm).
    split; [exact (proj2 (in_pool_same st st' f Hp) (proj1 Hl))|]. pose proof (F8 r i j f Hr Hij Hm).
    assert (1 <= users (pm st) roots i j f)%nat; [|lia].
    unfold users. assert (Hi : r ∈ filter (fun r => maps (pm st) r i j f = true) roots) by (by apply list_elem_of_filter).
    destruct (filter _ roots); [by apply elem_of_nil in Hi|]. cbn. lia.
  - intros r i j g Hr Hij Hm. destruct (F6 r i j g Hr Hij Hm) as [Hgl Hgn].
    destruct (Z.eq_dec g f) as [->|Hne]; [specialize (Hsp r i j Hr Hij Hm); lia|].
    destruct (Hlv g Hgl Hne) as [_ ->]. by apply (F8 r).
Qed.

Section release.
Context (st0 : Mm) (r : Z) (rest : list Z) (Hwf0 : vm_wf st0 (r :: rest)).
Local Abbreviation m := (pm st0).

(** Entries from [n] on, and tables from the [k]-th on, are still to be released. *)
Record freeing st (n k : Z) : Prop := {
  fr_wf : vm_wf st rest;
  fr_pm : pm st = m;
  fr_pool : same_pool st0 st;
  fr_leaf i j f : user_idx i j -> n <= idx i j -> maps m r i j f = true ->
    live st f /\ Z.of_nat (users m rest i j f) + 1 <= rc st f;
  fr_upper t : t = r \/ t = pdpt_of m r \/ t = pd_of m r -> live st t;
  fr_tabs i t : 64 <= i < 512 -> k <= i -> pt_of m r i = Some t -> live st t }.

Lemma r_in : r ∈ r :: rest.
Proof. apply elem_of_cons. by left. Qed.
Lemma rest_in r' : r' ∈ rest -> r' ∈ r :: rest.
Proof. intros. apply elem_of_cons. by right. Qed.
Lemma tables_split t : t ∈ all_tables m (r :: rest) <-> t ∈ tables m r \/ t ∈ all_tables m rest.
Proof. unfold all_tables. by rewrite bind_cons, elem_of_app. Qed.
Lemma own_table_apart t : t ∈ tables m r -> t ∉ all_tables m rest.
Proof.
  intros Ht Hin. pose proof (vw_nodup _ _ Hwf0) as Hnd. unfold all_tables in Hnd. rewrite bind_cons in Hnd.
  apply NoDup_app in Hnd as (_ & Hd & _). by apply (Hd t Ht).
Qed.
Lemma own_table_unmapped t r' i j : t ∈ tables m r -> r' ∈ r :: rest -> user_idx i j -> maps m r' i j t = false.
Proof.
  intros Ht Hr' Hij. destruct (maps m r' i j t) eqn:E; [|done].
  destruct (vw_leaf _ _ Hwf0 r' i j t Hr' Hij E) as [_ Hn]. exfalso. apply Hn, tables_split. by left.
Qed.

Lemma freeing_leaf st i j f : freeing st (idx i j) i -> user_idx i j -> maps m r i j f = true ->
  freeing (frame_free st f) (idx i j + 1) i.
Proof.
  intros [K1 K2 K3 K4 K5 K6] Hij Hm. destruct (K4 i j f Hij ltac:(lia) Hm) as [Hl Hc].
  destruct (vw_leaf _ _ Hwf0 r i j f r_in Hij Hm) as [_ Hn].
  assert (Hnt : forall t, t ∈ tables m r -> t <> f) by (intros t Ht ->; apply Hn, tables_split; by left).
  destruct (free_step st rest f K1 Hl) as (W & E1 & E2 & Hlv).
  { rewrite K2. intros Hin. apply Hn, tables_split. by right. }
  { rewrite K2. intros r' i' j' Hr' Hij' Hm'.
    destruct (vw_share _ _ Hwf0 r' r i' j' i j f (rest_in r' Hr') r_in Hij' Hij Hm' Hm) as (-> & -> & _). done. }
  split; [done|by rewrite E1| | | |].
  - destruct K3, E2. split; congruence.
  - intros i' j' g Hij' Hle Hg. destruct (K4 i' j' g Hij' ltac:(lia) Hg) as [Hgl Hgc].
    assert (Hne : g <> f).
    { intros ->. destruct (vw_share _ _ Hwf0 r r i' j' i j f r_in r_in Hij' Hij Hg Hm) as (-> & -> & _). lia. }
    destruct (Hlv g Hgl Hne) as [? ->]. done.
  - intros t Ht. apply Hlv; [by apply K5|]. apply Hnt. destruct Ht as [->|[->| ->]]; [apply root_in|apply pdpt_in|apply pd_in].
  - intros i' t Hi' Hle Ht. apply Hlv; [by apply (K6 i')|]. apply Hnt. by apply (pt_in_tables _ _ i').
Qed.

Lemma freeing_skip_leaf st i j : freeing st (idx i j) i -> has (pte m r i j) PAGE_PRESENT = false -> user_idx i j ->
  freeing st (idx i j + 1) i.
Proof.
  intros [K1 K2 K3 K4 K5 K6] Hp Hij. split; try done. intros i' j' f Hij' Hle Hm. apply K4; [done|lia|done].
Qed.

(** A table of the space, once its own entries are released. *)
Lemma free_own_table st t : vm_wf st rest -> pm st = m -> t ∈ tables m r -> live st t ->
  vm_wf (frame_free st t) rest /\ pm (frame_free st t) = m /\ same_pool st (frame_free st t) /\
  forall g, live st g -> g <> t -> live (frame_free st t) g /\ rc (frame_free st t) g = rc st g.
Proof.
  intros W E Ht Hl. destruct (free_step st rest t W Hl) as (? & Hpm & ?).
  - rewrite E. by apply own_table_apart.
  - rewrite E. intros r' i j Hr' Hij Hm. rewrite own_table_unmapped in Hm; [done|done|by apply rest_in|done].
  - split; [done|]. split; [congruence|done].
Qed.

Lemma free_pt_ok n : forall st i j pt, 64 <= i < 512 -> 0 <= j -> j + Z.of_nat n = 512 -> pt_of m r i = Some pt ->
  freeing st (idx i j) i -> freeing (free_pt n j st pt) (idx (i + 1) 0) i.
Proof.
  induction n as [|n IH]; intros st i j pt Hi Hj Hn Hpt K; cbn [free_pt].
  - replace (idx (i + 1) 0) with (idx i j); [done|]. unfold idx. lia.
  - assert (Hij : user_idx i j) by (split; lia).
    assert (Ee : pm st (entry_at pt j) = pte m r i j) by (rewrite (fr_pm _ _ _ K); unfold pte; by rewrite Hpt). rewrite Ee.
    apply IH; try done; try lia. replace (idx i (j + 1)) with (idx i j + 1) by (unfold idx; lia).
    destruct (has (pte m r i j) PAGE_PRESENT) eqn:Hp; [|by apply freeing_skip_leaf].
    apply freeing_leaf; [done|done|]. by apply maps_present.
Qed.

Lemma free_pd_ok n : forall st i, 64 <= i -> i + Z.of_nat n = 512 -> freeing st (idx i 0) i ->
  freeing (free_pd n i st (pd_of m r)) (idx 512 0) 512.
Proof.
  induction n as [|n IH]; intros st i Hi Hn K; cbn [free_pd].
  - by replace 512 with i by lia.
  - assert (Hi' : 64 <= i < 512) by lia. rewrite (fr_pm _ _ _ K). fold (pde m r i).
    destruct (vw_small _ _ Hwf0 r i r_in Hi') as [-> _]. rewrite orb_false_r. apply IH; [lia|lia|].
    destruct (has (pde m r i) PAGE_PRESENT) eqn:Hp; cbn [negb].
    + assert (Hpt : pt_of m r i = Some (frame_of (pde m r i))) by (unfold pt_of; by rewrite Hp).
      fold (frame_of (pde m r i)). set (pt := frame_of (pde m r i)) in *.
      pose proof (free_pt_ok 512 st i 0 pt Hi' ltac:(lia) ltac:(lia) Hpt K) as K'.
      clearbody pt. clear K. generalize dependent (free_pt 512 0 st pt). intros s [K1 K2 K3 K4 K5 K6].
      pose proof (pt_in_tables _ _ _ _ Hi' Hpt) as Hin.
      destruct (free_own_table _ pt K1 K2 Hin (K6 i pt Hi' ltac:(lia) Hpt)) as (W & E1 & E2 & Hlv).
      destruct (tables_distinct st0 _ Hwf0 r r_in) as (_ & _ & _ & Hd & Hu). destruct (Hd i pt Hi' Hpt) as (D1 & D2 & D3).
      split; [done|done| | | |].
      * destruct K3, E2. split; congruence.
      * intros i' j' f Hij' Hle Hm. destruct (K4 i' j' f Hij' Hle Hm) as [Hl Hc].
        destruct (Hlv f Hl) as [? ->]; [|by split]. intros ->. by rewrite (own_table_unmapped pt r i' j' Hin r_in Hij') in Hm.
      * intros t Ht. apply Hlv; [by apply K5|]. intros ->. destruct Ht as [?|[?|?]]; done.
      * intros i' t Hit Hle Ht. apply Hlv; [apply (K6 i'); [done|lia|done]|]. intros ->.
        assert (i' = i) by exact (Hu i' i pt Hit Hi' Ht Hpt). lia.
    + destruct K as [K1 K2 K3 K4 K5 K6]. split; try done.
      * intros i' j' f Hij' Hle Hm. apply K4; [done| |done]. unfold idx in *. lia.
      * intros i' t Hit Hle. apply K6; [done|lia].
Qed.

Lemma free_space_ok kernel : r <> kernel ->
  let st' := paging_free_user_space st0 kernel r in
  vm_wf st' rest /\ pm st' = m.
Proof.
  intros Hk st'. unfold st', paging_free_user_space. destruct (tables_distinct st0 _ Hwf0 r r_in) as (D1 & D2 & D3 & _).
  pose proof (table_live st0 _ Hwf0 r) as Htl.
  rewrite (proj2 (Z.eqb_neq r 0)) by (apply (live_nonzero st0); [apply Hwf0|exact (Htl r r_in (root_in m r))]).
  rewrite (proj2 (Z.eqb_neq r kernel)) by done. cbn [orb].
  fold (frame_of (m r)). fold (pdpt_of m r). fold (frame_of (m (pdpt_of m r))). fold (pd_of m r).
  assert (K0 : freeing st0 (idx 64 0) 64).
  { split; try done.
    - destruct Hwf0 as [F1 F2 F3 F4 F5 F6 F7 F8]. unfold all_tables in F2. rewrite bind_cons in F2. apply NoDup_app in F2 as (_ & _ & F2).
      assert (Hle : forall i j f, (users m rest i j f <= users m (r :: rest) i j f)%nat).
      { intros i j f. unfold users. rewrite filter_cons. case_decide; cbn; lia. }
      split; try done.
      + intros t Ht. apply F3, tables_split. by right.
      + intros r' Hr'. by apply F4, rest_in.
      + intros r' i Hr' Hi. by apply F5; [apply rest_in|].
      + intros r' i j f Hr' Hij Hm. destruct (F6 r' i j f (rest_in r' Hr') Hij Hm) as [Hl Hn]. split; [done|].
        intros Hin. apply Hn, tables_split. by right.
      + intros r1 r2 i1 j1 i2 j2 f Hr1 Hr2. by apply F7; apply rest_in.
      + intros r' i j f Hr' Hij Hm. pose proof (F8 r' i j f (rest_in r' Hr') Hij Hm). specialize (Hle i j f). lia.
    - intros i j f Hij _ Hm. destruct (vw_leaf _ _ Hwf0 r i j f r_in Hij Hm) as [Hl _]. split; [done|].
      pose proof (vw_count _ _ Hwf0 r i j f r_in Hij Hm) as Hc. unfold users in Hc. rewrite filter_cons, decide_True in Hc by done.
      cbn [length] in Hc. unfold users. lia.
    - intros t Ht. apply (Htl t r_in). destruct Ht as [->|[->| ->]]; [apply root_in|apply pdpt_in|apply pd_in].
    - intros i t Hi _ Ht. apply (Htl t r_in). by apply (pt_in_tables _ _ i). }
  pose proof (free_pd_ok 448 st0 64 ltac:(lia) ltac:(lia) K0) as K'. clear K0.
  generalize dependent (free_pd 448 64 st0 (pd_of m r)). intros s [K1 K2 K3 K4 K5 K6].
  pose proof (K5 r (or_introl eq_refl)) as Lr.
  pose proof (K5 (pdpt_of m r) (or_intror (or_introl eq_refl))) as Lp.
  pose proof (K5 (pd_of m r) (or_intror (or_intror eq_refl))) as Ld.
  destruct (free_own_table s (pd_of m r) K1 K2 (pd_in m r) Ld) as (W2 & E2 & _ & L2).
  generalize dependent (frame_free s (pd_of m r)). intros s2 W2 E2 L2.
  destruct (L2 _ Lp D3) as [Lp2 _]. destruct (L2 _ Lr D2) as [Lr2 _].
  destruct (free_own_table s2 (pdpt_of m r) W2 E2 (pdpt_in m r) Lp2) as (W3 & E3 & _ & L3).
  generalize dependent (frame_free s2 (pdpt_of m r)). intros s3 W3 E3 L3.
  destruct (L3 _ Lr2 D1) as [Lr3 _].
  destruct (free_own_table s3 r W3 E3 (root_in m r) Lr3) as (W4 & E4 & _ & _).
  split; [exact W4|exact E4].
Qed.
End release.

(** ** The spaces together *)

Lemma quiet_same_view st st' roots : vm_wf st roots -> quiet st st' roots -> same_view st st' roots.
Proof.
  intros Hwf Hq r i j off Hr Hij Ho. unfold page_at. rewrite (q_ptes _ _ _ Hq r i j Hr Hij).
  destruct (has (pte (pm st) r i j) PAGE_PRESENT) eqn:Hp; [|done]. f_equal.
  destruct (vw_leaf _ _ Hwf r i j _ Hr Hij (maps_present _ _ _ _ Hp)) as [Hl Hni].
  apply (q_data _ _ _ Hq (frame_of (pte (pm st) r i j))); [done|done|by apply in_page_off].
Qed.
Lemma vm_wf_nil st : frames_wf st -> vm_wf st [].
Proof. intros Hwf. split; [done|constructor|..]; intros *; by intros ?%elem_of_nil. Qed.

Lemma next_level_frames st t i fl : frames_wf st -> frames_wf (snd (paging_next_level st t i fl)).
Proof.
  intros Hwf. unfold paging_next_level. case_match; [|by apply frames_wf_store].
  pose proof (frame_alloc_ok st Hwf) as Ha. destruct (frame_alloc st) as [f st1].
  assert (Hw : frames_wf st1) by (destruct Ha as [(_ & -> & _)|(_ & _ & _ & _ & _ & ?)]; done).
  case_match; [done|]. by apply frames_wf_store.
Qed.
Lemma map_2m_frames st t va ph fl : frames_wf st -> frames_wf (paging_map_2m st t va ph fl).
Proof.
  intros Hwf. unfold paging_map_2m. pose proof (next_level_frames st t (index_of va 39) fl Hwf) as H1.
  destruct (paging_next_level st t _ fl) as [pdpt st1]. case_match; [done|].
  pose proof (next_level_frames st1 pdpt (index_of va 30) fl H1) as H2. destruct (paging_next_level st1 pdpt _ fl) as [pd st2].
  case_match; [done|]. by apply frames_wf_store.
Qed.
Lemma identity_map_frames n : forall st k a b, frames_wf st -> frames_wf (identity_map n st k a b).
Proof. induction n as [|n IH]; intros st k a b Hwf; cbn; [done|]. case_match; [done|]. by apply IH, map_2m_frames. Qed.
(** The boot state: the kernel's own tables are frames of no process. *)
Lemma paging_init_frames kernel_end m fb : 0 < kernel_end -> kernel_end < 2 ^ 47 -> frames_wf (snd (paging_init kernel_end m fb)).
Proof.
  intros H0 H1. unfold paging_init. pose proof (frames_init_wf kernel_end m H0 H1) as Hwf.
  pose proof (frame_alloc_ok _ Hwf) as Ha. destruct (frame_alloc _) as [f st1].
  assert (Hw : frames_wf st1) by (destruct Ha as [(_ & -> & _)|(_ & _ & _ & _ & _ & ?)]; done).
  case_match; [done|]. destruct fb as [[ph sz]|]; cbn [snd]; by repeat apply identity_map_frames.
Qed.

(** The kernel's space and one per task slot. *)
Definition MAX_SPACES : nat := 9.
(** What happens to the spaces: one is created, a process forks (or cannot), it faults on a write,
    it stores through a writable entry, gets a new page filled by the kernel, or exits. *)
Inductive vm_event :=
| EvCreate (c : Z) | EvNoSpace | EvFork (p c : Z) | EvFault (r va : Z) | EvStore (r i j off v : Z)
| EvMap (r va : Z) (data : Z -> Z) | EvExit (r : Z).

Inductive vm_step (kernel : Z) : Mm * list Z -> vm_event -> Mm * list Z -> Prop :=
| step_create st roots c st' : (length roots < MAX_SPACES)%nat -> paging_create_address_space st kernel = (c, st') -> c <> 0 ->
    vm_step kernel (st, roots) (EvCreate c) (st', c :: roots)
| step_no_space st roots st' : paging_create_address_space st kernel = (0, st') ->
    vm_step kernel (st, roots) EvNoSpace (st', roots)
| step_fork st roots p c st1 res st' : (length roots < MAX_SPACES)%nat -> p ∈ roots ->
    paging_create_address_space st kernel = (c, st1) -> c <> 0 -> paging_clone_user_pages st1 c p = (res, st') ->
    vm_step kernel (st, roots) (EvFork p c) (st', c :: roots)
| step_fault st roots r va res st' : r ∈ roots -> user_va va -> paging_handle_cow_fault st kernel r va = (res, st') ->
    vm_step kernel (st, roots) (EvFault r va) (st', roots)
| step_store st roots r i j off v : r ∈ roots -> user_idx i j -> 0 <= off < PAGE_SIZE ->
    has (pte (pm st) r i j) PAGE_PRESENT = true -> has (pte (pm st) r i j) PAGE_WRITABLE = true ->
    vm_step kernel (st, roots) (EvStore r i j off v) (store st (frame_of (pte (pm st) r i j) + off) v, roots)
| step_map st roots r va f st1 m' flags : r ∈ roots -> user_va va -> frame_alloc st = (f, st1) -> f <> 0 ->
    (forall a, in_page f a = false -> m' a = pm st1 a) -> has flags PAGE_PRESENT = true -> frame_of flags = 0 ->
    vm_step kernel (st, roots) (EvMap r va (fun off => m' (f + off)))
      (paging_map_4k (st1 <| pm := m' |>) r va f flags, roots)
| step_exit st roots r rest : roots ≡ₚ r :: rest -> r <> kernel ->
    vm_step kernel (st, roots) (EvExit r) (paging_free_user_space st kernel r, rest).

(** The specification: every process has a memory of its own, a partial map from addresses to words. *)
Definition memories : Type := list Z * (Z -> Z -> Z -> Z -> option Z).
Definition memories_of (x : Mm * list Z) : memories := (x.2, page_at x.1).
Definition page_same (V V' : Z -> Z -> Z -> Z -> option Z) (r r' i j : Z) : Prop :=
  forall off, 0 <= off < PAGE_SIZE -> V' r' i j off = V r i j off.
Definition page_gone (V' : Z -> Z -> Z -> Z -> option Z) (r i j : Z) : Prop := forall off, V' r i j off = None.

Inductive memories_step : memories -> vm_event -> memories -> Prop :=
| mem_create rs c V V' : c ∉ rs -> (forall r i j, r ∈ rs -> user_idx i j -> page_same V V' r r i j) ->
    (forall i j, user_idx i j -> page_gone V' c i j) ->
    memories_step (rs, V) (EvCreate c) (c :: rs, V')
| mem_no_space rs V V' : (forall r i j, r ∈ rs -> user_idx i j -> page_same V V' r r i j) ->
    memories_step (rs, V) EvNoSpace (rs, V')
| mem_fork rs p c V V' : c ∉ rs -> p ∈ rs -> (forall r i j, r ∈ rs -> user_idx i j -> page_same V V' r r i j) ->
    (forall i j, user_idx i j -> page_same V V' p c i j \/ page_gone V' c i j) ->
    memories_step (rs, V) (EvFork p c) (c :: rs, V')
| mem_fault rs r va V V' : (forall r' i j, r' ∈ rs -> user_idx i j -> page_same V V' r' r' i j) ->
    memories_step (rs, V) (EvFault r va) (rs, V')
| mem_store rs r i j off v V V' : r ∈ rs ->
    (forall r' i' j' off', r' ∈ rs -> user_idx i' j' -> 0 <= off' < PAGE_SIZE ->
       V' r' i' j' off' = if at_entry r i j r' i' j' && (off' =? off) then Some v else V r' i' j' off') ->
    memories_step (rs, V) (EvStore r i j off v) (rs, V')
| mem_map rs r va data V V' : r ∈ rs ->
    (forall r' i j, r' ∈ rs -> user_idx i j -> at_entry r (va_i va) (va_j va) r' i j = false -> page_same V V' r' r' i j) ->
    ((forall off, 0 <= off < PAGE_SIZE -> V' r (va_i va) (va_j va) off = Some (data off)) \/
     page_same V V' r r (va_i va) (va_j va)) ->
    memories_step (rs, V) (EvMap r va data) (rs, V')
| mem_exit rs r rest V V' : rs ≡ₚ r :: rest -> (forall r' i j, r' ∈ rest -> user_idx i j -> page_same V V' r' r' i j) ->
    memories_step (rs, V) (EvExit r) (rest, V').

(** Sequences of steps, and a simulation between two machines with the same events. *)
Inductive run {S E} (step : S -> E -> S -> Prop) : S -> list E -> S -> Prop :=
| run_nil s : run step s [] s
| run_cons s e s1 tr s2 : step s e s1 -> run step s1 tr s2 -> run step s (e :: tr) s2.
Lemma run_simulates {S T E} (step : S -> E -> S -> Prop) (step' : T -> E -> T -> Prop) (abs : S -> T) (Inv : S -> Prop) :
  (forall s e s', Inv s -> step s e s' -> Inv s' /\ step' (abs s) e (abs s')) ->
  forall s tr s', Inv s -> run step s tr s' -> Inv s' /\ run step' (abs s) tr (abs s').
Proof.
  intros Hstep s tr s' Hi Hr. induction Hr as [s|s e s1 tr s2 Hs Hr IH]; [split; [done|constructor]|].
  destruct (Hstep _ _ _ Hi Hs) as [Hi1 Hs1]. destruct (IH Hi1) as [? ?]. split; [done|]. by econstructor.
Qed.

(** The invariant of a run. *)
Definition spaces_wf (x : Mm * list Z) : Prop := vm_wf x.1 x.2 /\ (length x.2 <= MAX_SPACES)%nat.

Lemma fresh_root st roots c : vm_wf st roots -> ~ live st c -> c ∉ roots.
Proof. intros Hwf Hl Hin. by apply Hl, (table_live st roots Hwf c c Hin), root_in. Qed.
Lemma pte_absent st r i j : pte (pm st) r i j = 0 -> forall off, page_at st r i j off = None.
Proof. intros E off. unfold page_at. by rewrite E. Qed.

Lemma create_step kernel st roots c st' : spaces_wf (st, roots) -> (length roots < MAX_SPACES)%nat ->
  paging_create_address_space st kernel = (c, st') -> c <> 0 ->
  spaces_wf (st', c :: roots) /\ same_view st st' roots /\ (c ∉ roots) /\
  forall i j, user_idx i j -> pte (pm st') c i j = 0.
Proof.
  intros [Hwf _] Hl E Hc. pose proof (create_ok st roots kernel Hwf) as H. rewrite E in H.
  destruct H as [Hq [->|(_ & Hnl & Hw & H0)]]; [done|].
  split; [split; [done|cbn; lia]|]. split; [by apply quiet_same_view|]. split; [by apply (fresh_root st)|done].
Qed.

Lemma fork_step kernel st roots p c st1 res st' : spaces_wf (st, roots) -> (length roots < MAX_SPACES)%nat -> p ∈ roots ->
  paging_create_address_space st kernel = (c, st1) -> c <> 0 -> paging_clone_user_pages st1 c p = (res, st') ->
  spaces_wf (st', c :: roots) /\ memories_step (memories_of (st, roots)) (EvFork p c) (memories_of (st', c :: roots)).
Proof.
  intros Hs Hl Hp E Hc Ek. destruct (create_step kernel st roots c st1 Hs Hl E Hc) as ([Hw1 Hl1] & Hv & Hni & H0).
  cbn [fst snd] in Hw1, Hl1. assert (Hpc : p <> c) by (intros ->; exact (Hni Hp)). clear E.
  pose proof (clone_ok st1 (c :: roots) p c Hw1 ltac:(apply elem_of_cons; by right) ltac:(apply elem_of_cons; by left) Hpc
    ltac:(unfold MAX_SPACES in Hl1; lia) H0) as Hcl. rewrite Ek in Hcl. clear Ek. destruct Hcl as (_ & Hw & Ho & Hch).
  split; [done|]. apply mem_fork; [done|done| |].
  - intros r i j Hr Hij off Hoff. cbn. rewrite Ho; [by apply Hv|apply elem_of_cons; by right|intros ->; exact (Hni Hr)|done|done].
  - intros i j Hij. destruct (Hch i j Hij) as [Hsame|[_ Hgone]]; [left|by right].
    intros off Hoff. cbn. rewrite Hsame by done. by apply Hv.
Qed.

Lemma vm_step_simulates kernel x e x' : spaces_wf x -> vm_step kernel x e x' ->
  spaces_wf x' /\ memories_step (memories_of x) e (memories_of x').
Proof.
  intros Hs Hstep. destruct Hstep as [st roots c st' Hl E Hc|st roots st' E|st roots p c st1 res st' Hl Hp E Hc Ek
    |st roots r va res st' Hr Hva E|st roots r i j off v Hr Hij Ho Hpr Hw|st roots r va f st1 m' flags Hr Hva E Hf Hm Hp1 Hp2
    |st roots r rest Hp Hk].
  - destruct (create_step kernel st roots c st' Hs Hl E Hc) as (Hs' & Hv & Hni & H0). split; [done|].
    apply mem_create; [done| |].
    + intros r i j Hr Hij off Ho. by apply Hv.
    + intros i j Hij. exact (pte_absent st' c i j (H0 i j Hij)).
  - destruct Hs as [Hwf Hl]. pose proof (create_ok st roots kernel Hwf) as H. rewrite E in H. destruct H as [Hq _].
    split; [by split; [apply Hq|]|]. apply mem_no_space. intros r i j Hr Hij off Ho. by apply (quiet_same_view st st' roots).
  - exact (fork_step kernel st roots p c st1 res st' Hs Hl Hp E Hc Ek).
  - destruct Hs as [Hwf Hl]. pose proof (cow_fault_ok st roots kernel r va Hwf Hr Hva) as H. rewrite E in H.
    destruct H as [(_ & -> & _)|(_ & _ & _ & Hw & Hv & _)]; (split; [done|]); apply mem_fault.
    + done.
    + intros r' i j Hr' Hij off Ho. by apply Hv.
  - destruct Hs as [Hwf Hl]. destruct (user_store_ok st roots r i j off v Hwf Hr Hij Ho Hpr Hw) as (Hw' & _ & Hv).
    split; [done|]. by apply mem_store.
  - destruct Hs as [Hwf Hl].
    destruct (quiet_alloc st roots f st1 Hwf E) as [[-> _]|(_ & Hq & Hnl & Hfr & _)]; [done|].
    destruct (quiet_fill st st1 roots f m' Hq Hnl Hfr Hm) as (Hq' & Hfr' & _).
    destruct (map_fresh_ok (st1 <| pm := m' |>) roots r va f flags (q_wf _ _ _ Hq') Hr Hva Hfr' Hp1 Hp2) as (Hw & Ho & Hpage).
    pose proof (quiet_same_view st _ roots Hwf Hq') as Hv. split; [done|]. destruct (user_va_idx va Hva) as [Hij _].
    apply mem_map; [done| |].
    + intros r' i j Hr' Hij' Hat off Hoff. destruct (Ho r' i j Hr' Hij' Hat) as [_ Hsame]. cbn. rewrite Hsame by done. by apply Hv.
    + destruct Hpage as [[_ Hd]|(_ & _ & Hd)]; [left|right].
      * exact Hd.
      * intros off Hoff. cbn. rewrite Hd by done. by apply Hv.
  - destruct Hs as [Hwf Hl]. cbn in Hwf, Hl. pose proof (vm_wf_perm _ _ _ Hp Hwf) as Hwf'.
    destruct (free_space_ok st r rest Hwf' kernel Hk) as [Hw Hpm].
    split; [split; [done|]|].
    + apply Permutation_length in Hp. cbn in Hp |- *. lia.
    + apply (mem_exit _ r); [done|]. intros r' i j Hr' Hij off Ho. cbn. unfold page_at. by rewrite Hpm.
Qed.


(** A process with one page forks; the child writes to it, and its parent still reads what it had. *)
Definition boot : Z * Mm := paging_init 0x200000 (fun _ => 0) None.
Definition demo_va : Z := 0x10000000.
Definition demo_parent : Z * Mm := paging_create_address_space boot.2 boot.1.
Definition demo_page : Z * Mm := frame_alloc demo_parent.2.
Definition demo_mapped : Mm :=
  paging_map_4k (demo_page.2 <| pm := put_word (pm demo_page.2) demo_page.1 7 |>) demo_parent.1 demo_va demo_page.1
    (Z.lor (Z.lor PAGE_PRESENT PAGE_WRITABLE) PAGE_USER).
Definition demo_child : Z * Mm := paging_create_address_space demo_mapped boot.1.
Definition demo_forked : Z * Mm := paging_clone_user_pages demo_child.2 demo_child.1 demo_parent.1.
Definition demo_fault : Z * Mm := paging_handle_cow_fault demo_forked.2 boot.1 demo_child.1 demo_va.
Definition demo_entry : Z := pte (pm demo_fault.2) demo_child.1 (va_i demo_va) (va_j demo_va).
Definition demo_end : Mm := store demo_fault.2 (frame_of demo_entry + 0) 42.

Lemma demo_create_step : vm_step boot.1 (boot.2, []) (EvCreate demo_parent.1) (demo_parent.2, [demo_parent.1]).
Proof.
  apply step_create; [cbn; unfold MAX_SPACES; lia|unfold demo_parent; apply surjective_pairing|vm_compute; discriminate].
Qed.
Lemma demo_map_step : exists data,
  vm_step boot.1 (demo_parent.2, [demo_parent.1]) (EvMap demo_parent.1 demo_va data) (demo_mapped, [demo_parent.1]).
Proof.
  eexists. apply (step_map boot.1 demo_parent.2 [demo_parent.1] demo_parent.1 demo_va demo_page.1 demo_page.2).
  - apply elem_of_cons. by left.
  - unfold user_va, demo_va. lia.
  - unfold demo_page. apply surjective_pairing.
  - vm_compute. discriminate.
  - intros a Ha. unfold put_word. destruct (Z.eqb_spec a demo_page.1) as [E|]; [|done].
    rewrite E, page_word in Ha. discriminate Ha.
  - reflexivity.
  - reflexivity.
Qed.
Lemma demo_fork_step : vm_step boot.1 (demo_mapped, [demo_parent.1]) (EvFork demo_parent.1 demo_child.1)
  (demo_forked.2, [demo_child.1; demo_parent.1]).
Proof.
  apply (step_fork _ _ _ _ _ demo_child.2 demo_forked.1).
  - cbn. unfold MAX_SPACES. lia.
  - apply elem_of_cons. by left.
  - unfold demo_child. apply surjective_pairing.
  - vm_compute. discriminate.
  - unfold demo_forked. apply surjective_pairing.
Qed.
Lemma demo_fault_step : vm_step boot.1 (demo_forked.2, [demo_child.1; demo_parent.1]) (EvFault demo_child.1 demo_va)
  (demo_fault.2, [demo_child.1; demo_parent.1]).
Proof.
  apply (step_fault _ _ _ _ _ demo_fault.1).
  - apply elem_of_cons. by left.
  - unfold user_va, demo_va. lia.
  - unfold demo_fault. apply surjective_pairing.
Qed.
Lemma demo_store_step : vm_step boot.1 (demo_fault.2, [demo_child.1; demo_parent.1])
  (EvStore demo_child.1 (va_i demo_va) (va_j demo_va) 0 42) (demo_end, [demo_child.1; demo_parent.1]).
Proof.
  unfold demo_end, demo_entry. apply step_store.
  - apply elem_of_cons. by left.
  - unfold user_idx, va_i, va_j, demo_va. change (2 ^ 21) with 2097152. change (2 ^ 12) with 4096. dlia.
  - unfold PAGE_SIZE. lia.
  - vm_compute. reflexivity.
  - vm_compute. reflexivity.
Qed.
Lemma demo_run : exists tr, run (vm_step boot.1) (boot.2, []) tr (demo_end, [demo_child.1; demo_parent.1]).
Proof.
  destruct demo_map_step as [data Hmap]. eexists. eapply run_cons; [exact demo_create_step|].
  eapply run_cons; [exact Hmap|]. eapply run_cons; [exact demo_fork_step|]. eapply run_cons; [exact demo_fault_step|].
  eapply run_cons; [exact demo_store_step|]. apply run_nil.
Qed.

