(* ===== verification/UserPages.v ===== *)
(** User pages made by the 64-bit kernel (kernel/arch/x86_64/kernel_x64.c):
    the loop of sbrk, of the program loaders and of the user stack, which takes
    a frame for each page of a range, fills it and maps it. *)

From S2P Require Import Prelude Frames Paging AddressSpace.

(** [for (va = from; va < page_end; va += 0x1000)]: [fill va frame] is what the body stores into the frame it
    has just taken.  The result is false when the frames run out.
    [kernel/arch/x86_64/kernel_x64.c:1956-1961] sys_sbrk *)
Fixpoint alloc_pages (n : nat) (fill : Z -> Z -> pmem -> pmem) (m : Mm) (table va page_end : Z) : bool * Mm :=
  match n with
  | O => (true, m)
  | S n =>
      if va <? page_end then
        let '(fr, m) := frame_alloc m in
        if fr =? 0 then (false, m) else
        alloc_pages n fill
          (paging_map_4k (m <| pm := fill va fr (pm m) |>) table va fr (Z.lor (Z.lor PAGE_PRESENT PAGE_WRITABLE) PAGE_USER))
          table (u64 (va + 0x1000)) page_end
      else (true, m)
  end.

(** ** What one space's pages have to do with the others *)

(** A space whose contents are the same afterwards. *)
Definition same_memory (m m' : Mm) (r : Z) : Prop :=
  forall i j off, user_idx i j -> 0 <= off < PAGE_SIZE -> page_at m' r i j off = page_at m r i j off.

Lemma same_memory_refl m r : same_memory m m r.
Proof. by intros i j off _ _. Qed.
Lemma same_memory_trans m1 m2 m3 r : same_memory m1 m2 r -> same_memory m2 m3 r -> same_memory m1 m3 r.
Proof. intros H1 H2 i j off Hij Ho. by rewrite H2, H1. Qed.
Lemma same_view_memory m m' rs r : same_view m m' rs -> r ∈ rs -> same_memory m m' r.
Proof. intros Hv Hr i j off Hij Ho. by apply Hv. Qed.

(** What happens to the memory alone, in the space [r]. *)
Definition mm_isolates (m m' : Mm) (rs : list Z) (r : Z) : Prop :=
  vm_wf m' rs /\ forall r', r' ∈ rs -> r' <> r -> same_memory m m' r'.
Lemma mm_isolates_refl m rs r : vm_wf m rs -> mm_isolates m m rs r.
Proof. intros Hw. split; [done|]. intros. apply same_memory_refl. Qed.
Lemma mm_isolates_trans m1 m2 m3 rs r : mm_isolates m1 m2 rs r -> mm_isolates m2 m3 rs r -> mm_isolates m1 m3 rs r.
Proof. intros [_ H1] [Hw H2]. split; [done|]. intros r' Hr Hne. by eapply same_memory_trans; [apply H1|apply H2]. Qed.

(** The pages of a range, by their indices; what two states have in common outside it. *)
Definition in_range (lo hi i j : Z) : Prop := lo <= va_of i j < hi.
Definition same_outside (m m' : Mm) (r lo hi : Z) : Prop :=
  forall i j off, user_idx i j -> ~ in_range lo hi i j -> 0 <= off < PAGE_SIZE -> page_at m' r i j off = page_at m r i j off.

Lemma va_of_eq i j : user_idx i j -> va_of i j = i * 2097152 + j * 4096.
Proof.
  intros Hij. destruct (va_of_user i j Hij) as (Hv & Hi & Hj). unfold va_i, va_j, user_va in *.
  change (2 ^ 21) with 2097152 in *. change (2 ^ 12) with 4096 in *.
  assert (Hal : va_of i j mod 4096 = 0).
  { unfold va_of. apply Z.bits_inj'. intros n Hn. rewrite Z.bits_0. change 4096 with (2 ^ 12).
    destruct (Z.ltb_spec n 12); [|apply Z.mod_pow2_bits_high; lia].
    rewrite Z.mod_pow2_bits_low, Z.lor_spec, !Z.shiftl_spec by lia. rewrite !Z.testbit_neg_r by lia. done. }
  dlia.
Qed.
(** The page of an aligned address. *)
Lemma va_of_page va : user_va va -> va mod 4096 = 0 -> va_of (va_i va) (va_j va) = va.
Proof.
  intros Hv Hal. destruct (user_va_idx va Hv) as [Hij _]. rewrite va_of_eq by done. unfold va_i, va_j.
  change (2 ^ 21) with 2097152. change (2 ^ 12) with 4096. unfold user_va in Hv. dlia.
Qed.
Lemma at_page va i j : user_va va -> va mod 4096 = 0 -> user_idx i j ->
  (i = va_i va /\ j = va_j va) <-> va_of i j = va.
Proof.
  intros Hv Hal Hij. split; [intros [-> ->]; by apply va_of_page|]. intros <-. destruct (va_of_user i j Hij) as (_ & -> & ->). done.
Qed.

(** ** Frames left *)

Definition pool_frames (m : Mm) : list Z := (fun i : nat => phys_pool_base m + Z.of_nat i * PAGE_SIZE) <$> seq 0 1024.
(** How many frames are not in use. *)
Definition room (m : Mm) : nat := length (filter (fun f => rc m f < 1) (pool_frames m)).

Lemma room_le m : (room m <= 1024)%nat.
Proof. unfold room. rewrite length_filter. unfold pool_frames. by rewrite length_fmap, length_seq. Qed.
Lemma elem_of_pool m f : f ∈ pool_frames m -> frames_wf m -> in_pool m f.
Proof.
  intros (i & -> & Hi%elem_of_seq)%list_elem_of_fmap Hw. destruct (fw_base _ Hw) as (_ & Hb & _). unfold in_pool, PAGE_SIZE in *.
  change (FRAME_POOL_MAX_FRAMES) with 1024. split; [lia|]. dlia.
Qed.
Lemma filter_length_mono {A} (P Q : A -> Prop) `{!forall x, Decision (P x), !forall x, Decision (Q x)} (l : list A) :
  (forall x, x ∈ l -> P x -> Q x) -> (length (filter P l) <= length (filter Q l))%nat.
Proof.
  induction l as [|x l IH]; intros Hpq; [done|]. rewrite !filter_cons.
  assert (Hl : (length (filter P l) <= length (filter Q l))%nat) by (apply IH; intros y Hy; apply Hpq; by right).
  destruct (decide (P x)) as [Hp|]; [rewrite decide_True by (apply Hpq; [by left|done]); cbn; lia|].
  destruct (decide (Q x)); cbn; lia.
Qed.
Lemma filter_length_lt {A} (P Q : A -> Prop) `{!forall x, Decision (P x), !forall x, Decision (Q x)} (l : list A) y :
  (forall x, x ∈ l -> P x -> Q x) -> y ∈ l -> Q y -> ~ P y -> (length (filter P l) < length (filter Q l))%nat.
Proof.
  intros Hpq Hy Hq Hp. destruct (list_elem_of_split l y Hy) as (l1 & l2 & ->). rewrite !filter_app, !filter_cons, !length_app.
  rewrite (decide_True (P := Q y)), (decide_False (P := P y)) by done. cbn.
  pose proof (filter_length_mono P Q l1) as H1. pose proof (filter_length_mono P Q l2) as H2.
  specialize (H1 ltac:(intros x Hx; apply Hpq; set_solver)). specialize (H2 ltac:(intros x Hx; apply Hpq; set_solver)). lia.
Qed.

(** What keeps frames in use leaves no more room. *)
Lemma room_mono m m' : frames_wf m -> same_pool m m' -> (forall f, live m f -> live m' f) -> (room m' <= room m)%nat.
Proof.
  intros Hw [Hb He] Hl. unfold room. replace (pool_frames m') with (pool_frames m) by (unfold pool_frames; by rewrite Hb).
  apply filter_length_mono. intros f Hf Hr. destruct (decide (rc m f < 1)) as [|Hge]; [done|].
  destruct (Hl f) as [_ ?]; [split; [by apply elem_of_pool|lia]|lia].
Qed.
Lemma room_lt m m' f : frames_wf m -> same_pool m m' -> (forall g, live m g -> live m' g) -> ~ live m f -> live m' f ->
  (room m' < room m)%nat.
Proof.
  intros Hw Hs Hl Hn [Hp Hr]. unfold room.
  replace (pool_frames m') with (pool_frames m) by (unfold pool_frames; by rewrite (proj1 Hs)).
  apply (in_pool_same m m' f Hs) in Hp. apply (filter_length_lt _ _ _ f).
  - intros g Hg Hlt. destruct (decide (rc m g < 1)) as [|Hge]; [done|]. destruct (Hl g) as [_ ?]; [split; [by apply elem_of_pool|lia]|lia].
  - by apply (pool_list m).
  - destruct (decide (rc m f < 1)); [done|]. exfalso. apply Hn. split; [done|lia].
  - lia.
Qed.
Lemma exhausted_room m : frames_wf m -> exhausted m -> room m = 0%nat.
Proof.
  intros Hw He. unfold room. destruct (filter _ _) as [|f l] eqn:E; [done|].
  assert (Hf : f ∈ filter (fun f => rc m f < 1) (pool_frames m)) by (rewrite E; by left).
  apply list_elem_of_filter in Hf as [Hr Hf]. destruct (He f) as [_ ?]; [by apply elem_of_pool|lia].
Qed.

(** ** One page *)

Lemma map_4k_live m rs r va f flags : vm_wf m rs -> r ∈ rs -> user_va va ->
  same_pool m (paging_map_4k m r va f flags) /\ forall g, live m g -> live (paging_map_4k m r va f flags) g.
Proof.
  intros Hwf Hr Hva. destruct (map_4k_spec m rs r va f flags Hwf Hr Hva) as (m1 & Hq & E & _).
  assert (H1 : same_pool m m1 /\ forall g, live m g -> live m1 g).
  { split; [apply (q_pool _ _ _ Hq)|]. intros g. by apply (quiet_live m m1 rs). }
  rewrite E. by case_match.
Qed.

(** Mapping a frame that was just taken and filled. *)
Lemma map_new_frame m rs r va f m1 pm' flags : vm_wf m rs -> r ∈ rs -> user_va va -> frame_alloc m = (f, m1) -> f <> 0 ->
  (forall a, in_page f a = false -> pm' a = pm m1 a) -> has flags PAGE_PRESENT = true -> frame_of flags = 0 ->
  let m' := paging_map_4k (m1 <| pm := pm' |>) r va f flags in
  mm_isolates m m' rs r /\
  (forall i j off, user_idx i j -> at_entry r (va_i va) (va_j va) r i j = false -> 0 <= off < PAGE_SIZE ->
     page_at m' r i j off = page_at m r i j off) /\
  ((forall off, 0 <= off < PAGE_SIZE -> page_at m' r (va_i va) (va_j va) off = Some (pm' (f + off))) \/
   (exhausted m' /\ forall off, 0 <= off < PAGE_SIZE -> page_at m' r (va_i va) (va_j va) off = page_at m r (va_i va) (va_j va) off)) /\
  same_pool m m' /\ (forall g, live m g -> live m' g) /\ (room m' < room m)%nat.
Proof.
  intros Hwf Hr Hva Ea Hf Hpm Hp Hfl m'.
  destruct (quiet_alloc m rs f m1 Hwf Ea) as [(Hf0 & _)|(_ & Hq & Hnl & Hfr & _)]; [by destruct (Hf Hf0)|].
  destruct (quiet_fill m m1 rs f pm' Hq Hnl Hfr Hpm) as (Hq' & Hfr' & _). set (m2 := m1 <| pm := pm' |>) in *.
  destruct (map_fresh_ok m2 rs r va f flags (q_wf _ _ _ Hq') Hr Hva Hfr' Hp Hfl) as (Hw & Ho & Hd).
  destruct (map_4k_live m2 rs r va f flags (q_wf _ _ _ Hq') Hr Hva) as [Hs2 Hl2].
  pose proof (quiet_same_view m m2 rs Hwf Hq') as Hv. fold m' in Hw, Ho, Hd, Hs2, Hl2.
  assert (Hs : same_pool m m') by (destruct Hs2, (q_pool _ _ _ Hq'); split; congruence).
  assert (Hl : forall g, live m g -> live m' g) by (intros g Hg; by apply Hl2, (quiet_live m m2 rs)).
  split; [split; [done|]|split; [|split; [|split; [done|split; [done|]]]]].
  - intros r' Hr' Hne i j off Hij Hoff.
    assert (Hat : at_entry r (va_i va) (va_j va) r' i j = false) by (unfold at_entry; by rewrite (proj2 (Z.eqb_neq _ _))).
    destruct (Ho r' i j Hr' Hij Hat) as [_ Hsm]. rewrite Hsm by done. by apply Hv.
  - intros i j off Hij Hat Hoff. destruct (Ho r i j Hr Hij Hat) as [_ Hsm]. rewrite Hsm by done. by apply Hv.
  - destruct Hd as [[_ Hd]|(_ & Hx & Hd)]; [by left|right]. split; [done|]. intros off Ho'. rewrite Hd by done.
    apply Hv; [done|by apply user_va_idx|done].
  - apply (room_lt m m' f); [apply Hwf|done|done|done|]. apply Hl2, Hfr'.
Qed.

(** ** The loop *)

(** What the body makes of a page: [content va off] at offset [off]. *)
Definition fills (fill : Z -> Z -> pmem -> pmem) (content : Z -> Z -> Z) : Prop :=
  (forall va f m a, in_page f a = false -> fill va f m a = m a) /\
  (forall va f m off, 0 <= off < PAGE_SIZE -> m (f + off) = 0 -> fill va f m (f + off) = content va off).

(** The loop takes the pages of the range one after the other; with more rounds than frames left it
    ends because it is done, or because a frame is missing. *)
Lemma alloc_pages_ok fill content rs r n : fills fill content -> forall m va e,
  vm_wf m rs -> r ∈ rs -> 64 * 2 ^ 21 <= va -> va mod 4096 = 0 -> e <= 2 ^ 30 -> (room m < n)%nat ->
  let '(ok, m') := alloc_pages n fill m r va e in
  mm_isolates m m' rs r /\ same_outside m m' r va e /\ same_pool m m' /\ (forall g, live m g -> live m' g) /\
  (ok = true -> forall i j, user_idx i j -> in_range va e i j ->
     (forall off, 0 <= off < PAGE_SIZE -> page_at m' r i j off = Some (content (va_of i j) off)) \/
     (exhausted m' /\ forall off, 0 <= off < PAGE_SIZE -> page_at m' r i j off = page_at m r i j off)) /\
  (ok = false -> exhausted m').
Proof.
  intros [Hfill Hcont]. induction n as [|n IH]; intros m va e Hwf Hr Hva Hal He Hn; [lia|]. cbn [alloc_pages].
  assert (Hstop : forall ok : bool, (ok = true -> e <= va) -> (ok = false -> exhausted m) ->
    mm_isolates m m rs r /\ same_outside m m r va e /\ same_pool m m /\
    (forall g, live m g -> live m g) /\ (ok = true -> forall i j, user_idx i j -> in_range va e i j ->
     (forall off, 0 <= off < PAGE_SIZE -> page_at m r i j off = Some (content (va_of i j) off)) \/
     (exhausted m /\ forall off, 0 <= off < PAGE_SIZE -> page_at m r i j off = page_at m r i j off)) /\ (ok = false -> exhausted m)).
  { intros ok Hok Hx. split; [by apply mm_isolates_refl|]. split; [done|]. split; [done|]. split; [done|]. split; [|done].
    intros Ht i j _ Hin. specialize (Hok Ht). unfold in_range in Hin. lia. }
  destruct (Z.ltb_spec va e) as [Hlt|Hge]; [|by apply Hstop].
  destruct (frame_alloc m) as [f m1] eqn:Ea. destruct (Z.eqb_spec f 0) as [->|Hf].
  { destruct (quiet_alloc m rs 0 m1 Hwf Ea) as [(_ & -> & Hx)|(? & _)]; [by apply Hstop|done]. }
  clear Hstop. set (flags := Z.lor _ _). assert (Hvr : user_va va) by (unfold user_va; lia).
  pose proof (map_new_frame m rs r va f m1 (fill va f (pm m1)) flags Hwf Hr Hvr Ea Hf (fun a => Hfill va f (pm m1) a) eq_refl eq_refl) as Hmap.
  assert (Hnew : forall off, 0 <= off < PAGE_SIZE -> fill va f (pm m1) (f + off) = content va off).
  { intros off Ho. apply Hcont; [done|]. destruct (quiet_alloc m rs f m1 Hwf Ea) as [(? & _)|(_ & _ & _ & _ & _ & _ & ->)]; [done|].
    unfold zero_page. by rewrite in_page_off. }
  cbv zeta in Hmap. set (m2 := paging_map_4k _ r va f flags) in *. clearbody m2.
  destruct Hmap as (Hiso & Hout & Hpage & Hs & Hl & Hroom).
  assert (Hnext : u64 (va + 0x1000) = va + 0x1000).
  { apply u64_id. change (2 ^ 21) with 2097152 in *. change (2 ^ 30) with 1073741824 in *. ulia. }
  rewrite Hnext. specialize (IH m2 (va + 0x1000) e (proj1 Hiso) Hr ltac:(lia) ltac:(dlia) He ltac:(lia)).
  destruct (alloc_pages n fill m2 r (va + 0x1000) e) as [ok m']. destruct IH as (Hiso' & Hout' & Hs' & Hl' & Hd & Hx).
  assert (Hat : forall i j, user_idx i j -> va_of i j <> va -> at_entry r (va_i va) (va_j va) r i j = false).
  { intros i j Hij Hne. apply not_true_iff_false. rewrite at_entry_spec. intros (_ & -> & ->). apply Hne. by apply va_of_page. }
  assert (Hpg : forall i j, user_idx i j -> va_of i j mod 4096 = 0).
  { intros i j Hij. rewrite va_of_eq by done. dlia. }
  split; [by apply (mm_isolates_trans m m2)|]. split; [|split; [destruct Hs, Hs'; split; congruence|split; [auto|split; [|done]]]].
  - intros i j off Hij Hin Hoff. unfold in_range in Hin. rewrite Hout' by (try done; unfold in_range; lia).
    apply Hout; [done|apply Hat; [done|lia]|done].
  - intros Hok i j Hij Hin. unfold in_range in Hin. destruct (Z.eq_dec (va_of i j) va) as [Heq|Hne].
    + assert (Hni : ~ in_range (va + 0x1000) e i j) by (unfold in_range; lia).
      apply (at_page va i j Hvr Hal Hij) in Heq as Hij'. destruct Hij' as [-> ->]. rewrite va_of_page in * by done.
      destruct Hpage as [Hp|[Hx2 Hp]]; [left|right].
      * intros off Ho. rewrite Hout', Hp by done. by rewrite Hnew.
      * split; [by apply (exhausted_mono m2)|]. intros off Ho. rewrite Hout' by done. by apply Hp.
    + assert (Hin' : in_range (va + 0x1000) e i j).
      { unfold in_range. specialize (Hpg i j Hij). split; [|lia]. dlia. }
      destruct (Hd Hok i j Hij Hin') as [Hp|[Hx2 Hp]]; [by left|right]. split; [done|]. intros off Ho. rewrite Hp by done.
      apply Hout; [done|by apply Hat|done].
Qed.

(** ** Spaces that are given up *)

(** The frames of a space may stay in use when nobody uses the space. *)
Lemma vm_wf_drop m r rs : vm_wf m (r :: rs) -> vm_wf m rs.
Proof.
  intros Hwf. assert (Hin : forall x, x ∈ rs -> x ∈ r :: rs) by (intros; by right).
  assert (Ht : forall t, t ∈ all_tables (pm m) rs -> t ∈ all_tables (pm m) (r :: rs)).
  { intros t. unfold all_tables. rewrite bind_cons, elem_of_app. by right. }
  split.
  - apply Hwf.
  - pose proof (vw_nodup _ _ Hwf) as Hn. unfold all_tables in Hn. rewrite bind_cons in Hn. by apply NoDup_app in Hn as (_ & _ & ?).
  - intros t Hi. by apply (vw_live _ _ Hwf), Ht.
  - intros x Hx. by apply (vw_path _ _ Hwf), Hin.
  - intros x i Hx. by apply (vw_small _ _ Hwf), Hin.
  - intros x i j f Hx Hij Hm. destruct (vw_leaf _ _ Hwf x i j f (Hin x Hx) Hij Hm) as [Hl Hn]. split; [done|]. intros Hi. by apply Hn, Ht.
  - intros r1 r2 i1 j1 i2 j2 f H1 H2. by apply (vw_share _ _ Hwf); apply Hin.
  - intros x i j f Hx Hij Hm. pose proof (vw_count _ _ Hwf x i j f (Hin x Hx) Hij Hm) as Hc.
    unfold users in *. rewrite filter_cons in Hc. destruct (decide _); cbn in Hc; lia.
Qed.

(** ** Areas of a new space *)

(** A range of pages and what its addresses hold. *)
Record Area := mkArea { lo : Z; hi : Z; content : Z -> Z }.
Definition area_wf (a : Area) : Prop := 64 * 2 ^ 21 <= lo a /\ hi a <= 2 ^ 30 /\ lo a mod 4096 = 0 /\ hi a mod 4096 = 0.
Definition apart (a b : Area) : Prop := hi a <= lo b \/ hi b <= lo a.
Definition layout_ok (areas : list Area) : Prop := Forall area_wf areas /\ ForallOrdPairs apart areas.
Definition mem_image (areas : list Area) (va : Z) : option Z :=
  (fun a => content a va) <$> find (fun a => (lo a <=? va) && (va <? hi a)) areas.
(** The layout as a test. *)
Definition area_okb (a : Area) : bool :=
  (64 * 2 ^ 21 <=? lo a) && (hi a <=? 2 ^ 30) && (lo a mod 4096 =? 0) && (hi a mod 4096 =? 0).
Fixpoint layout_okb (areas : list Area) : bool :=
  match areas with
  | [] => true
  | a :: areas => area_okb a && forallb (fun b => (hi a <=? lo b) || (hi b <=? lo a)) areas && layout_okb areas
  end.
Lemma layout_okb_ok areas : layout_okb areas = true -> layout_ok areas.
Proof.
  induction areas as [|a areas IH]; cbn; [by repeat constructor|]. rewrite !andb_true_iff. intros [[Ha Hb] Hl].
  destruct (IH Hl) as [Hw Hp]. split; constructor; try done.
  - unfold area_okb in Ha. unfold area_wf. lia.
  - apply Forall_forall. intros b Hin. rewrite forallb_forall in Hb. apply list_elem_of_In in Hin. specialize (Hb b Hin). unfold apart. lia.
Qed.
(** What the space [r] holds at a user address. *)
Definition reads (m : Mm) (r va : Z) : option Z := page_at m r (va_i va) (va_j va) (va mod 4096).
(** Every page holds the image, or is absent because the frames ran out. *)
Definition loaded (m : Mm) (r : Z) (areas : list Area) : Prop :=
  forall i j, user_idx i j ->
    (forall off, 0 <= off < PAGE_SIZE -> page_at m r i j off = mem_image areas (va_of i j + off)) \/
    (exhausted m /\ forall off, 0 <= off < PAGE_SIZE -> page_at m r i j off = None).

Lemma loaded_reads m r areas va : loaded m r areas -> user_va va ->
  reads m r va = mem_image areas va \/ (exhausted m /\ reads m r va = None).
Proof.
  intros Hl Hva. destruct (user_va_idx va Hva) as [Hij _]. pose proof (Z.mod_pos_bound va 4096 ltac:(lia)) as Ho.
  assert (E : va_of (va_i va) (va_j va) + va mod 4096 = va).
  { rewrite va_of_eq by done. unfold va_i, va_j, user_va in *. change (2 ^ 21) with 2097152. change (2 ^ 12) with 4096. dlia. }
  destruct (Hl _ _ Hij) as [Hp|[Hx Hp]]; [left|right].
  - unfold reads. by rewrite Hp, E.
  - split; [done|]. by apply Hp.
Qed.
Lemma loaded_nil m r : (forall i j, user_idx i j -> pte (pm m) r i j = 0) -> loaded m r [].
Proof. intros Hz i j Hij. left. intros off _. apply pte_absent. by apply Hz. Qed.

Lemma mem_image_cons a areas va :
  mem_image (a :: areas) va = if (lo a <=? va) && (va <? hi a) then Some (content a va) else mem_image areas va.
Proof. unfold mem_image. cbn. by case_match. Qed.
(** An area is the same throughout a page. *)
Lemma area_page a i j off : area_wf a -> user_idx i j -> 0 <= off < PAGE_SIZE ->
  (lo a <=? va_of i j + off) && (va_of i j + off <? hi a) = true <-> in_range (lo a) (hi a) i j.
Proof.
  intros (_ & _ & Hlo & Hhi) Hij Ho. pose proof (va_of_eq i j Hij) as E. destruct Hij as [Hi Hj]. unfold in_range, PAGE_SIZE in *.
  set (v := va_of i j) in *. clearbody v. dlia.
Qed.
Lemma mem_image_apart a areas i j off : area_wf a -> Forall area_wf areas -> Forall (apart a) areas -> user_idx i j ->
  0 <= off < PAGE_SIZE -> in_range (lo a) (hi a) i j -> mem_image areas (va_of i j + off) = None.
Proof.
  intros Ha Hw Hap Hij Ho Hin. induction areas as [|b areas IH]; [done|]. inversion_clear Hw. inversion_clear Hap. rewrite mem_image_cons.
  destruct (_ && _) eqn:E; [|by apply IH]. apply (area_page b i j off) in E; [|done..]. unfold in_range, apart in *. lia.
Qed.

(** Loading one area more. *)
Lemma load_area m rs r fill a areas : fills fill (fun va off => content a (va + off)) -> vm_wf m rs -> r ∈ rs ->
  area_wf a -> Forall area_wf areas -> Forall (apart a) areas -> loaded m r areas ->
  let '(ok, m') := alloc_pages 1025 fill m r (lo a) (hi a) in
  mm_isolates m m' rs r /\ if ok then loaded m' r (a :: areas) else exhausted m'.
Proof.
  intros Hf Hwf Hr Ha Hw Hap Hl. pose proof (room_le m). destruct Ha as (Hlo & Hhi & Hal & Hah) eqn:Ea. clear Ea.
  assert (Haw : area_wf a) by done.
  pose proof (alloc_pages_ok fill _ rs r 1025 Hf m (lo a) (hi a) Hwf Hr Hlo Hal Hhi ltac:(lia)) as Hok.
  destruct (alloc_pages _ _ _ _ _ _) as [ok m']. destruct Hok as (Hiso & Hout & Hs & Hlive & Hd & Hx). split; [done|].
  destruct ok; [|by apply Hx]. intros i j Hij.
  destruct (decide (in_range (lo a) (hi a) i j)) as [Hin|Hin].
  - assert (Habs : forall off, 0 <= off < PAGE_SIZE -> page_at m r i j off = None).
    { intros off Ho. destruct (Hl i j Hij) as [Hp|[_ Hp]]; rewrite Hp by done; [|done]. by apply (mem_image_apart a). }
    destruct (Hd eq_refl i j Hij Hin) as [Hp|[Hex Hp]]; [left|right].
    + intros off Ho. rewrite Hp by done. rewrite mem_image_cons. by rewrite (proj2 (area_page a i j off Haw Hij Ho) Hin).
    + split; [done|]. intros off Ho. by rewrite Hp, Habs.
  - assert (Hno : forall off, 0 <= off < PAGE_SIZE -> mem_image (a :: areas) (va_of i j + off) = mem_image areas (va_of i j + off)).
    { intros off Ho. rewrite mem_image_cons. destruct (_ && _) eqn:E; [|done]. by apply area_page in E. }
    destruct (Hl i j Hij) as [Hp|[Hex Hp]]; [left|right].
    + intros off Ho. rewrite Hout by done. by rewrite Hno, Hp.
    + split; [by apply (exhausted_mono m)|]. intros off Ho. by rewrite Hout, Hp.
Qed.
