(* ===== verification/Console.v ===== *)
(** The console input of the 64-bit kernel (kernel/arch/x86_64/kernel_x64.c):
    the keyboard's scan codes and ring buffer, the serial console and the
    terminal's line discipline.  Characters are bytes. *)

From S2P Require Import Prelude CString.

(** [kernel/arch/x86_64/kernel_x64.c] constants *)
Definition KBD_BUFFER_SIZE := 256.
Definition TTY_BUF_SIZE := 256.
#[export] Hint Unfold KBD_BUFFER_SIZE TTY_BUF_SIZE : consts.

(** [kernel/arch/x86_64/kernel_x64.c:868-877] KeyboardState *)
Record KeyboardState := mkKbd {
  kb_buffer : bytes; kb_read_pos : Z; kb_write_pos : Z;
  shift_held : Z; ctrl_held : Z; alt_held : Z; caps_lock : Z; extended : bool }.
#[export] Instance eta_Kbd : Eta KeyboardState := fun r =>
  mkKbd (kb_buffer r) (kb_read_pos r) (kb_write_pos r) (shift_held r) (ctrl_held r) (alt_held r) (caps_lock r) (extended r).

(** [kernel/arch/x86_64/kernel_x64.c] KernelTTY_ *)
Record KernelTTY := mkTty {
  input_buf : bytes; input_read : Z; input_write : Z; input_count : Z;
  cooked : bool; line_buf : bytes; line_len : Z; line_ready : bool }.
#[export] Instance eta_Tty : Eta KernelTTY := fun r =>
  mkTty (input_buf r) (input_read r) (input_write r) (input_count r) (cooked r) (line_buf r) (line_len r) (line_ready r).

(** The keyboard, the terminal, the display mode and the owner of the serial line.
    [kernel/arch/x86_64/kernel_x64.c:1083-1085] g_tty_console *)
Record Console := mkConsole { kbd_state : KeyboardState; kernel_tty0 : KernelTTY; display_mode : Z; g_tty_console : bool }.
#[export] Instance eta_Console : Eta Console := fun r =>
  mkConsole (kbd_state r) (kernel_tty0 r) (display_mode r) (g_tty_console r).

(** ** The terminal *)

(** [kernel/arch/x86_64/kernel_x64.c] tty_init *)
Definition tty_init (tty : KernelTTY) : KernelTTY :=
  mkTty (zeros 256) 0 0 0 true (zeros 256) 0 false.

(** One character into the ring, if there is room.
    [kernel/arch/x86_64/kernel_x64.c:1250-1254] tty_push_char *)
Definition input_put (tty : KernelTTY) (c : Z) : KernelTTY :=
  if input_count tty <? TTY_BUF_SIZE then
    tty <| input_buf := puti (input_buf tty) (input_write tty) c |>
        <| input_write := (input_write tty + 1) mod TTY_BUF_SIZE |>
        <| input_count := input_count tty + 1 |>
  else tty.
(** [for (i = 0; i < line_len && input_count < TTY_BUF_SIZE; i++)]
    [kernel/arch/x86_64/kernel_x64.c:1226-1230] tty_push_char *)
Fixpoint line_to_input (n : nat) (i : Z) (tty : KernelTTY) : KernelTTY :=
  match n with
  | O => tty
  | S n => if (i <? line_len tty) && (input_count tty <? TTY_BUF_SIZE)
           then line_to_input n (i + 1) (input_put tty (geti (line_buf tty) i)) else tty
  end.
(** [kernel/arch/x86_64/kernel_x64.c] tty_push_char *)
Definition tty_push_char (tty : KernelTTY) (c : Z) : KernelTTY :=
  if cooked tty then
    if (c =? 10) || (c =? 13) then
      let tty := line_to_input (Z.to_nat TTY_BUF_SIZE) 0 tty in
      let tty := input_put tty 10 in
      tty <| line_len := 0 |> <| line_ready := true |>
    else if (c =? 8) || (c =? 127) then
      if 0 <? line_len tty then tty <| line_len := line_len tty - 1 |> else tty
    else if c =? 3 then tty <| line_len := 0 |>
    else if line_len tty <? TTY_BUF_SIZE - 1 then
      tty <| line_buf := puti (line_buf tty) (line_len tty) c |> <| line_len := line_len tty + 1 |>
    else tty
  else input_put tty c.

(** [while (n < max && input_count > 0)]; the bytes stored in the buffer.
    [kernel/arch/x86_64/kernel_x64.c:1260-1264] tty_read *)
Fixpoint tty_take (n : nat) (tty : KernelTTY) : bytes * KernelTTY :=
  match n with
  | O => ([], tty)
  | S n =>
      if 0 <? input_count tty then
        let c := geti (input_buf tty) (input_read tty) in
        let '(out, tty) := tty_take n (tty <| input_read := (input_read tty + 1) mod TTY_BUF_SIZE |>
                                           <| input_count := input_count tty - 1 |>) in (c :: out, tty)
      else ([], tty)
  end.
(** [kernel/arch/x86_64/kernel_x64.c] tty_read *)
Definition tty_read (tty : KernelTTY) (max : Z) : bytes * KernelTTY :=
  let '(out, tty) := tty_take (Z.to_nat max) tty in
  (out, if cooked tty && (input_count tty =? 0) then tty <| line_ready := false |> else tty).

(** ** The keyboard *)

(** Chars of the two tables; the rest of the 128 entries is 0.
    [kernel/arch/x86_64/kernel_x64.c] scancode_ascii *)
Definition scancode_ascii : bytes :=
  [0; 27] ++ lit "1234567890-=" ++ [8; 9] ++ lit "qwertyuiop[]" ++ [10; 0] ++ lit "asdfghjkl;'`" ++ [0; 92] ++
  lit "zxcvbnm,./" ++ [0] ++ lit "*" ++ [0] ++ lit " " ++ zeros 70.
(** [kernel/arch/x86_64/kernel_x64.c] scancode_ascii_shift *)
Definition scancode_ascii_shift : bytes :=
  [0; 27] ++ lit "!@#$%^&*()_+" ++ [8; 9] ++ lit "QWERTYUIOP{}" ++ [10; 0] ++ lit "ASDFGHJKL:" ++ [34; 126; 0; 124] ++
  lit "ZXCVBNM<>?" ++ [0] ++ lit "*" ++ [0] ++ lit " " ++ zeros 70.

(** [kernel/arch/x86_64/kernel_x64.c] keyboard_init *)
Definition keyboard_init (k : KeyboardState) : KeyboardState := mkKbd (zeros 256) 0 0 0 0 0 0 (extended k).
(** [kernel/arch/x86_64/kernel_x64.c:1064-1068] keyboard_handle_scancode *)
Definition kbd_put (k : KeyboardState) (c : Z) : KeyboardState :=
  let next := (kb_write_pos k + 1) mod KBD_BUFFER_SIZE in
  if next =? kb_read_pos k then k
  else k <| kb_buffer := puti (kb_buffer k) (kb_write_pos k) c |> <| kb_write_pos := next |>.
(** [kernel/arch/x86_64/kernel_x64.c] keyboard_read_char *)
Definition keyboard_read_char (k : KeyboardState) : option Z * KeyboardState :=
  if kb_read_pos k =? kb_write_pos k then (None, k)
  else (Some (geti (kb_buffer k) (kb_read_pos k)), k <| kb_read_pos := (kb_read_pos k + 1) mod KBD_BUFFER_SIZE |>).

(** The arrows and the editing keys, after the 0xE0 prefix; 0 for the others.
    [kernel/arch/x86_64/kernel_x64.c:1020-1029] keyboard_handle_scancode *)
Definition extended_key (scancode : Z) : Z :=
  if scancode =? 0x48 then 0x80 else if scancode =? 0x50 then 0x81 else if scancode =? 0x4B then 0x82 else
  if scancode =? 0x4D then 0x83 else if scancode =? 0x53 then 0x84 else if scancode =? 0x47 then 0x85 else
  if scancode =? 0x4F then 0x86 else 0.

(** The modifiers after a scan code, and the character it types with whether the terminal gets it too.
    [kernel/arch/x86_64/kernel_x64.c:1016-1062] keyboard_handle_scancode *)
Definition keyboard_decode (k : KeyboardState) (scancode : Z) : KeyboardState * option (Z * bool) :=
  if scancode =? 0xE0 then (k <| extended := true |>, None) else
  if extended k then
    let k := k <| extended := false |> in
    if negb (Z.land scancode 0x80 =? 0) then (k, None) else
    let code := extended_key scancode in
    (k, if code =? 0 then None else Some (code, false))
  else if negb (Z.land scancode 0x80 =? 0) then
    let key := Z.land scancode 0x7F in
    let k := if (key =? 0x2A) || (key =? 0x36) then k <| shift_held := 0 |> else k in
    let k := if key =? 0x1D then k <| ctrl_held := 0 |> else k in
    let k := if key =? 0x38 then k <| alt_held := 0 |> else k in
    (k, None)
  else if (scancode =? 0x2A) || (scancode =? 0x36) then (k <| shift_held := 1 |>, None)
  else if scancode =? 0x1D then (k <| ctrl_held := 1 |>, None)
  else if scancode =? 0x38 then (k <| alt_held := 1 |>, None)
  else if scancode =? 0x3A then (k <| caps_lock := Z.lxor (caps_lock k) 1 |>, None)
  else if 128 <=? scancode then (k, None)
  else
    let shift := Z.lxor (shift_held k) (caps_lock k) in
    let c := geti (if negb (shift =? 0) then scancode_ascii_shift else scancode_ascii) scancode in
    (k, if c =? 0 then None else Some (c, true)).
(** [kernel/arch/x86_64/kernel_x64.c] keyboard_handle_scancode *)
Definition keyboard_handle_scancode (st : Console) (scancode : Z) : Console :=
  let '(k, r) := keyboard_decode (kbd_state st) scancode in
  match r with
  | None => st <| kbd_state := k |>
  | Some (c, to_tty) =>
      let st := st <| kbd_state := kbd_put k c |> in
      if to_tty && negb (display_mode st =? 2) then st <| kernel_tty0 := tty_push_char (kernel_tty0 st) c |> else st
  end.

(** ** The serial console *)

(** [kernel/arch/x86_64/kernel_x64.c] kernel_set_tty_console *)
Definition kernel_set_tty_console (st : Console) (on : Z) : Console := st <| g_tty_console := negb (on =? 0) |>.
(** The characters that the receiver holds, in order.
    [kernel/arch/x86_64/kernel_x64.c] serial_console_rx_poll *)
Definition serial_console_rx_poll (st : Console) (received : bytes) : Console :=
  fold_left (fun st c =>
    let c := if c =? 13 then 10 else c in
    let c := if c =? 127 then 8 else c in
    if g_tty_console st then st <| kernel_tty0 := tty_push_char (kernel_tty0 st) c |>
    else st <| kbd_state := kbd_put (kbd_state st) c |>) received st.

(** ** The console as queues

    Keys wait in a queue of 255 characters, lines in one of 256; the line being typed has at most
    255 characters.  A queue that is full drops what comes. *)

Definition mods : Type := Z * Z * Z * Z * bool.
Definition mods_of (k : KeyboardState) : mods := (shift_held k, ctrl_held k, alt_held k, caps_lock k, extended k).
Definition with_mods (m : mods) : KeyboardState :=
  let '(s, c, a, l, e) := m in mkKbd [] 0 0 s c a l e.
Record ConsoleSpec := mkSpec { sp_mods : mods; sp_keys : bytes; sp_input : bytes; sp_line : bytes }.
#[export] Instance eta_ConsoleSpec : Eta ConsoleSpec := fun r => mkSpec (sp_mods r) (sp_keys r) (sp_input r) (sp_line r).

Definition key_put (c : Z) (keys : bytes) : bytes := if (length keys <? 255)%nat then keys ++ [c] else keys.
(** The line discipline: newline hands the line over, backspace and ^C edit it. *)
Definition line_put (c : Z) (s : ConsoleSpec) : ConsoleSpec :=
  if (c =? 10) || (c =? 13) then s <| sp_input := take 256 (sp_input s ++ sp_line s ++ [10]) |> <| sp_line := [] |>
  else if (c =? 8) || (c =? 127) then s <| sp_line := removelast (sp_line s) |>
  else if c =? 3 then s <| sp_line := [] |>
  else s <| sp_line := key_put c (sp_line s) |>.

Inductive console_event := Scan (code : Z) | Serial (c : Z) | ReadKey | ReadTty (max : Z).
Definition spec_step (gui serial_tty : bool) (e : console_event) (s : ConsoleSpec) : bytes * ConsoleSpec :=
  match e with
  | Scan code =>
      let '(k, r) := keyboard_decode (with_mods (sp_mods s)) code in
      let s := s <| sp_mods := mods_of k |> in
      ([], match r with
           | None => s
           | Some (c, to_tty) => let s := s <| sp_keys := key_put c (sp_keys s) |> in
                                 if to_tty && negb gui then line_put c s else s
           end)
  | Serial c =>
      let c := if c =? 13 then 10 else if c =? 127 then 8 else c in
      ([], if serial_tty then line_put c s else s <| sp_keys := key_put c (sp_keys s) |>)
  | ReadKey => (take 1 (sp_keys s), s <| sp_keys := drop 1 (sp_keys s) |>)
  | ReadTty max => (take (Z.to_nat max) (sp_input s), s <| sp_input := drop (Z.to_nat max) (sp_input s) |>)
  end.
Definition console_step (e : console_event) (st : Console) : bytes * Console :=
  match e with
  | Scan code => ([], keyboard_handle_scancode st code)
  | Serial c => ([], serial_console_rx_poll st [c])
  | ReadKey => let '(r, k) := keyboard_read_char (kbd_state st) in
               (match r with Some c => [c] | None => [] end, st <| kbd_state := k |>)
  | ReadTty max => let '(out, t) := tty_read (kernel_tty0 st) max in (out, st <| kernel_tty0 := t |>)
  end.
Fixpoint outputs {S} (step : console_event -> S -> bytes * S) (es : list console_event) (s : S) : list bytes :=
  match es with
  | [] => []
  | e :: es => let '(out, s') := step e s in out :: outputs step es s'
  end.

Record kbd_rel (k : KeyboardState) (keys : bytes) : Prop := {
  kr_len : length (kb_buffer k) = 256%nat;
  kr_pos : 0 <= kb_read_pos k < 256;
  kr_cap : (length keys <= 255)%nat;
  kr_write : kb_write_pos k = (kb_read_pos k + Z.of_nat (length keys)) mod 256;
  kr_view : ring_view (kb_buffer k) 256 (kb_read_pos k) (length keys) = keys }.
Record tty_rel (t : KernelTTY) (input line : bytes) : Prop := {
  tr_cooked : cooked t = true;
  tr_len : length (input_buf t) = 256%nat /\ length (line_buf t) = 256%nat;
  tr_pos : 0 <= input_read t < 256;
  tr_count : input_count t = Z.of_nat (length input) /\ (length input <= 256)%nat;
  tr_write : input_write t = (input_read t + Z.of_nat (length input)) mod 256;
  tr_view : ring_view (input_buf t) 256 (input_read t) (length input) = input;
  tr_line : line_len t = Z.of_nat (length line) /\ (length line <= 255)%nat /\ take (length line) (line_buf t) = line }.

Lemma kbd_put_ok k keys c : kbd_rel k keys -> kbd_rel (kbd_put k c) (key_put c keys) /\ mods_of (kbd_put k c) = mods_of k.
Proof.
  intros [K1 K2 K3 K4 K5]. unfold kbd_put, key_put, KBD_BUFFER_SIZE. rewrite K4.
  destruct (Nat.ltb_spec (length keys) 255) as [Hlt|Hge].
  - rewrite (proj2 (Z.eqb_neq _ _)) by dlia. split; [|done]. split; cbn.
    + by rewrite length_puti.
    + done.
    + rewrite length_app. cbn. lia.
    + rewrite length_app. cbn. dlia.
    + rewrite length_app. cbn. rewrite Nat.add_1_r, ring_view_push by (rewrite ?K1; lia). by rewrite K5.
  - rewrite (proj2 (Z.eqb_eq _ _)) by dlia. done.
Qed.
Lemma kbd_read_ok k keys : kbd_rel k keys ->
  let '(r, k') := keyboard_read_char k in
  match r with Some c => [c] | None => [] end = take 1 keys /\ kbd_rel k' (drop 1 keys) /\ mods_of k' = mods_of k.
Proof.
  intros [K1 K2 K3 K4 K5]. unfold keyboard_read_char, KBD_BUFFER_SIZE. rewrite K4. destruct keys as [|c keys].
  - cbn. rewrite Z.add_0_r, Z.mod_small, Z.eqb_refl by lia. split; [done|]. split; [|done]. by split.
  - rewrite (proj2 (Z.eqb_neq _ _)) by (cbn in *; dlia). cbn [length] in *. rewrite ring_view_pop in K5.
    injection K5 as Hc Hk. rewrite Z.mod_small in Hc by lia. cbn. split; [by rewrite Hc|]. split; [|done]. split; cbn.
    + done.
    + dlia.
    + rewrite drop_0. lia.
    + rewrite drop_0, K4. dlia.
    + by rewrite drop_0.
Qed.

Lemma input_put_ok t input line c : tty_rel t input line -> tty_rel (input_put t c) (take 256 (input ++ [c])) line.
Proof.
  intros [T1 [T2 T2'] T3 [T4 T4'] T5 T6 T7]. unfold input_put, TTY_BUF_SIZE. rewrite T4.
  destruct (Z.ltb_spec (Z.of_nat (length input)) 256).
  - rewrite take_ge by (rewrite length_app; cbn; lia). split; cbn; rewrite ?length_app; cbn.
    + done.
    + by rewrite length_puti.
    + done.
    + lia.
    + rewrite T5. dlia.
    + rewrite Nat.add_1_r, T5, ring_view_push by (rewrite ?T2; lia). by rewrite T6.
    + done.
  - rewrite take_app_le, take_ge by lia. done.
Qed.
Lemma line_to_input_ok line : forall rest i t input, drop i line = rest -> (i <= length line)%nat -> tty_rel t input line ->
  forall n, (length rest <= n)%nat -> tty_rel (line_to_input n (Z.of_nat i) t) (take 256 (input ++ rest)) line.
Proof.
  intros rest. induction rest as [|c rest IH]; intros i t input Hd Hi Ht n Hn.
  - assert (i = length line) as -> by (apply (f_equal length) in Hd; rewrite length_drop in Hd; cbn in Hd; lia).
    rewrite app_nil_r, take_ge by apply Ht. destruct n; cbn [line_to_input]; [done|].
    rewrite (proj1 (tr_line _ _ _ Ht)), Z.ltb_irrefl. done.
  - destruct n as [|n]; [cbn in Hn; lia|]. cbn [line_to_input length] in *.
    assert (Hl : (i < length line)%nat) by (apply (f_equal length) in Hd; rewrite length_drop in Hd; cbn in Hd; lia).
    destruct (tr_line _ _ _ Ht) as (El & Hl5 & Etk). rewrite El, (proj2 (Z.ltb_lt _ _)) by lia. cbn [andb].
    assert (Hc : geti (line_buf t) (Z.of_nat i) = c).
    { apply lookup_geti. rewrite <- (lookup_take_lt _ (length line)) by done. rewrite Etk.
      rewrite <- (Nat.add_0_r i), <- lookup_drop, Hd. done. }
    destruct (tr_count _ _ _ Ht) as [Ec Hc']. rewrite Ec, Hc. destruct (Z.ltb_spec (Z.of_nat (length input)) TTY_BUF_SIZE) as [Hlt|Hge].
    + replace (Z.of_nat i + 1) with (Z.of_nat (S i)) by lia. pose proof (input_put_ok t input line c Ht) as Hp.
      rewrite take_ge in Hp by (rewrite length_app; cbn; unfold TTY_BUF_SIZE in Hlt; lia).
      assert (Hd' : drop (S i) line = rest) by (replace (S i) with (i + 1)%nat by lia; by rewrite <- drop_drop, Hd).
      specialize (IH (S i) (input_put t c) (input ++ [c]) Hd' ltac:(lia) Hp n ltac:(lia)). by rewrite <- app_assoc in IH.
    + unfold TTY_BUF_SIZE in Hge. rewrite take_app_le, take_ge by lia. done.
Qed.

Lemma tty_read_ok t input line max : tty_rel t input line ->
  let '(out, t') := tty_read t max in out = take (Z.to_nat max) input /\ tty_rel t' (drop (Z.to_nat max) input) line.
Proof.
  intros Ht. assert (Htake : forall n t input, tty_rel t input line ->
    let '(out, t') := tty_take n t in out = take n input /\ tty_rel t' (drop n input) line).
  { clear. intros n. induction n as [|n IH]; intros t input Ht; cbn [tty_take]; [by rewrite take_0, drop_0|].
    pose proof Ht as [T1 T2 T3 [T4 T4'] T5 T6 T7]. rewrite T4. destruct input as [|c input]; [by cbn|].
    rewrite (proj2 (Z.ltb_lt _ _)) by (cbn; lia). cbn [length] in *. rewrite ring_view_pop in T6. injection T6 as Hc Hv.
    rewrite Z.mod_small in Hc by lia. unfold TTY_BUF_SIZE.
    specialize (IH (t <| input_read := (input_read t + 1) mod 256 |> <| input_count := Z.of_nat (S (length input)) - 1 |>) input).
    destruct (tty_take n _) as [out t']. cbn [take drop]. destruct IH as [-> Hr]; [|by rewrite Hc].
    split; cbn; try done; try lia; try dlia.  }
  specialize (Htake (Z.to_nat max) t input Ht). unfold tty_read. destruct (tty_take (Z.to_nat max) t) as [out t'].
  destruct Htake as [-> Hr]. split; [done|]. case_match; [|done]. by destruct Hr; split.
Qed.

Definition console_rel (gui serial_tty : bool) (st : Console) (s : ConsoleSpec) : Prop :=
  (display_mode st =? 2) = gui /\ g_tty_console st = serial_tty /\ mods_of (kbd_state st) = sp_mods s /\
  kbd_rel (kbd_state st) (sp_keys s) /\ tty_rel (kernel_tty0 st) (sp_input s) (sp_line s).

Lemma line_taken t input line : tty_rel t input line -> tty_rel (t <| line_len := 0 |> <| line_ready := true |>) input [].
Proof. intros []; split; try done. cbn. split; [done|]. split; [lia|done]. Qed.

Lemma tty_push_ok t c s : tty_rel t (sp_input s) (sp_line s) ->
  tty_rel (tty_push_char t c) (sp_input (line_put c s)) (sp_line (line_put c s)) /\
  sp_keys (line_put c s) = sp_keys s /\ sp_mods (line_put c s) = sp_mods s.
Proof.
  intros Ht. destruct s as [m keys input line]. unfold tty_push_char, line_put. cbn [sp_input sp_line sp_keys sp_mods] in *.
  rewrite (tr_cooked _ _ _ Ht). destruct (tr_line _ _ _ Ht) as (El & Hl & Etk).
  destruct ((c =? 10) || (c =? 13)); [|destruct ((c =? 8) || (c =? 127)); [|destruct (c =? 3)]]; (split; [|by repeat case_match]); cbn.
  - pose proof (line_to_input_ok line line 0 t input eq_refl ltac:(lia) Ht (Z.to_nat TTY_BUF_SIZE) ltac:(unfold TTY_BUF_SIZE; lia)) as H1.
    apply (input_put_ok _ _ _ 10) in H1. cbn [Z.of_nat] in H1.
    replace (take 256 (take 256 (input ++ line) ++ [10])) with (take 256 (input ++ line ++ [10])) in H1.
    + by apply (line_taken _ _ line).
    + rewrite app_assoc. destruct (decide (length (input ++ line) <= 256)%nat) as [Hle|Hgt]; [by rewrite (take_ge (input ++ line))|].
      rewrite (take_app_le (input ++ line)), (take_app_le (take _ _)) by (rewrite ?length_take; lia). by rewrite take_take, Nat.min_id.
  - destruct line as [|c' line] using rev_ind.
    + rewrite El. cbn. done.
    + clear IHline. rewrite removelast_last. rewrite El, length_app in *. cbn [length] in *.
      rewrite (proj2 (Z.ltb_lt _ _)) by lia. destruct Ht; split; try done. cbn. split; [lia|]. split; [lia|].
      apply (f_equal (take (length line))) in Etk. rewrite take_take, take_app_length in Etk. by rewrite Nat.min_l in Etk by lia.
  - destruct Ht; split; try done. cbn. split; [done|]. split; [lia|done].
  - unfold key_put, TTY_BUF_SIZE. rewrite El. destruct (Nat.ltb_spec (length line) 255).
    + rewrite (proj2 (Z.ltb_lt _ _)) by lia. destruct Ht; split; try done; cbn.
      * by rewrite length_puti.
      * rewrite length_app. cbn. split; [lia|]. split; [lia|]. unfold puti. rewrite Nat2Z.id, Nat.add_1_r.
        rewrite (take_S_r _ _ c) by (apply list_lookup_insert_eq; lia). rewrite take_insert_ge by lia. by rewrite Etk.
    + rewrite (proj2 (Z.ltb_ge _ _)) by lia. done.
Qed.

(** Decoding depends on the modifiers alone and leaves the queue. *)
Lemma keyboard_decode_ok k keys code : kbd_rel k keys ->
  let '(k', r) := keyboard_decode k code in let '(m', r') := keyboard_decode (with_mods (mods_of k)) code in
  r = r' /\ mods_of k' = mods_of m' /\ kbd_rel k' keys.
Proof.
  intros Hk. assert (Hsame : forall k', kb_buffer k' = kb_buffer k -> kb_read_pos k' = kb_read_pos k -> kb_write_pos k' = kb_write_pos k ->
    kbd_rel k' keys) by (intros k' E1 E2 E3; destruct Hk; split; by rewrite ?E1, ?E2, ?E3).
  destruct k as [buf rd wr sh ct al ca ex]. unfold keyboard_decode, with_mods, mods_of. cbn.
  repeat case_match; simplify_eq; (split; [done|split; [done|by apply Hsame]]).
Qed.

Lemma tty_push_rel gui serial_tty st s c : console_rel gui serial_tty st s ->
  console_rel gui serial_tty (st <| kernel_tty0 := tty_push_char (kernel_tty0 st) c |>) (line_put c s).
Proof.
  intros (Hg & Hs & Hm & Hk & Ht). destruct (tty_push_ok (kernel_tty0 st) c s Ht) as (H1 & H2 & H3).
  split; [done|]. split; [done|]. cbn. by rewrite H2, H3.
Qed.
Lemma kbd_put_rel gui serial_tty st s c : console_rel gui serial_tty st s ->
  console_rel gui serial_tty (st <| kbd_state := kbd_put (kbd_state st) c |>) (s <| sp_keys := key_put c (sp_keys s) |>).
Proof.
  intros (Hg & Hs & Hm & Hk & Ht). destruct (kbd_put_ok (kbd_state st) (sp_keys s) c Hk) as [Hp Hpm].
  split; [done|]. split; [done|]. cbn. by rewrite Hpm.
Qed.

Lemma console_step_ok gui serial_tty e st s : console_rel gui serial_tty st s ->
  let '(out, st') := console_step e st in let '(out', s') := spec_step gui serial_tty e s in
  out = out' /\ console_rel gui serial_tty st' s'.
Proof.
  intros Hr. pose proof Hr as (Hg & Hs & Hm & Hk & Ht). destruct e as [code|c| |max]; cbn [console_step spec_step].
  - unfold keyboard_handle_scancode. pose proof (keyboard_decode_ok (kbd_state st) (sp_keys s) code Hk) as Hd. rewrite Hm in Hd.
    destruct (keyboard_decode (kbd_state st) code) as [k r], (keyboard_decode (with_mods (sp_mods s)) code) as [m r'].
    destruct Hd as (<- & Hmm & Hk'). split; [done|].
    assert (H1 : console_rel gui serial_tty (st <| kbd_state := k |>) (s <| sp_mods := mods_of m |>)) by done.
    destruct r as [[c to_tty]|]; [|done]. apply (kbd_put_rel _ _ _ _ c) in H1.
    replace (display_mode (st <| kbd_state := kbd_put k c |>) =? 2) with gui by (by rewrite <- Hg).
    destruct (to_tty && negb gui); [|done]. exact (tty_push_rel _ _ _ _ c H1).
  - unfold serial_console_rx_poll. cbn [fold_left]. set (c' := if c =? 13 then 10 else if c =? 127 then 8 else c).
    replace (if (if c =? 13 then 10 else c) =? 127 then 8 else if c =? 13 then 10 else c) with c'
      by (unfold c'; destruct (c =? 13); done).
    split; [done|]. rewrite Hs. destruct serial_tty; [by apply tty_push_rel|by apply kbd_put_rel].
  - pose proof (kbd_read_ok (kbd_state st) (sp_keys s) Hk) as Hkr. destruct (keyboard_read_char (kbd_state st)) as [r k].
    destruct Hkr as (Ho & Hk' & Hmm). split; [done|]. split; [done|]. split; [done|]. cbn. by rewrite Hmm.
  - pose proof (tty_read_ok (kernel_tty0 st) (sp_input s) (sp_line s) max Ht) as Htr.
    destruct (tty_read (kernel_tty0 st) max) as [out t]. destruct Htr as [-> Htr]. by split.
Qed.

Lemma console_init_rel k t dm g :
  console_rel (dm =? 2) g (mkConsole (keyboard_init k) (tty_init t) dm g) (mkSpec (0, 0, 0, 0, extended k) [] [] []).
Proof.
  split; [done|]. split; [done|]. split; [done|]. split; split; cbn; try done; repeat split; lia.
Qed.

(** C36. After keyboard_init and tty_init, in any sequence of scan codes, serial characters and reads, the
    kernel's rings and line buffer give the readers what three queues give: every key typed and
    every line entered, edited by its backspaces and ^C, once and in order, but for what comes
    while a queue is full. *)
Theorem console_refines k t dm g es :
  outputs console_step es (mkConsole (keyboard_init k) (tty_init t) dm g) =
  outputs (spec_step (dm =? 2) g) es (mkSpec (0, 0, 0, 0, extended k) [] [] []).
Proof.
  pose proof (console_init_rel k t dm g) as Hr. revert Hr.
  generalize (mkConsole (keyboard_init k) (tty_init t) dm g) (mkSpec (0, 0, 0, 0, extended k) [] [] []).
  induction es as [|e es IH]; intros st s Hr; cbn [outputs]; [done|].
  pose proof (console_step_ok (dm =? 2) g e st s Hr) as Hs. destruct (console_step e st) as [o st'].
  destruct (spec_step (dm =? 2) g e s) as [o' s']. destruct Hs as [-> Hr']. by rewrite (IH st' s').
Qed.

(** Typing "ab", backspace, "c" and Enter (scan codes) enters the line "ac". *)
Example console_line :
  outputs console_step [Scan 0x1E; Scan 0x30; Scan 0x0E; Scan 0x2E; Scan 0x1C; ReadTty 80; ReadKey]
    (mkConsole (keyboard_init (with_mods (0, 0, 0, 0, false))) (tty_init (mkTty [] 0 0 0 true [] 0 false)) 0 false) =
  [[]; []; []; []; []; [97; 99; 10]; [97]].
Proof. vm_compute. reflexivity. Qed.
