(* ===== verification/Terminal.v ===== *)
(** The text terminal of the 64-bit kernel (kernel/arch/x86_64/kernel_x64.c) in VGA
    text mode: 25 rows of 80 cells, scrolling, and the part of it that the line
    editor draws on.  In the graphical modes the same functions call the Rust
    terminal.  Text mirrored to the serial port is left out. *)

From S2P Require Import Prelude CString.

(** [kernel/arch/x86_64/kernel_x64.c:77-78] VGA_WIDTH *)
Definition VGA_WIDTH := 80.
Definition VGA_HEIGHT := 25.
(** [kernel/arch/x86_64/kernel_x64.c:81-84] terminal_row *)
Record Term := mkTerm {
  terminal_row : Z; terminal_column : Z; terminal_color : Z; terminal_buffer : list Z; hw_cursor : Z }.
#[export] Instance eta_Term : Eta Term := fun r =>
  mkTerm (terminal_row r) (terminal_column r) (terminal_color r) (terminal_buffer r) (hw_cursor r).

(** [kernel/arch/x86_64/kernel_x64.c] make_color *)
Definition make_color (fg bg : Z) : Z := u8 (Z.lor fg (Z.shiftl bg 4)).
(** [kernel/arch/x86_64/kernel_x64.c] make_vgaentry *)
Definition make_vgaentry (c color : Z) : Z := u16 (Z.lor (u8 c) (Z.shiftl color 8)).
Definition grey_on_black : Z := make_color 7 0.

(** [kernel/arch/x86_64/kernel_x64.c] terminal_initialize *)
Definition terminal_initialize (t : Term) : Term := mkTerm 0 0 grey_on_black (terminal_buffer t) (hw_cursor t).
(** [kernel/arch/x86_64/kernel_x64.c] terminal_setcolor *)
Definition terminal_setcolor (t : Term) (color : Z) : Term := t <| terminal_color := color |>.
(** [kernel/arch/x86_64/kernel_x64.c] terminal_putentryat *)
Definition terminal_putentryat (t : Term) (c color x y : Z) : Term :=
  t <| terminal_buffer := puti (terminal_buffer t) (y * VGA_WIDTH + x) (make_vgaentry c color) |>.

(** The two loops run through the cells of the rows in order.
    [kernel/arch/x86_64/kernel_x64.c:109-111] terminal_scroll *)
Fixpoint copy_up (n : nat) (buf : list Z) (i : Z) : list Z :=
  match n with O => buf | S n => copy_up n (puti buf i (geti buf (i + VGA_WIDTH))) (i + 1) end.
(** [kernel/arch/x86_64/kernel_x64.c:112-113] terminal_scroll *)
Fixpoint fill_cells (n : nat) (buf : list Z) (i v : Z) : list Z :=
  match n with O => buf | S n => fill_cells n (puti buf i v) (i + 1) v end.
(** [kernel/arch/x86_64/kernel_x64.c] terminal_scroll *)
Definition terminal_scroll (t : Term) : Term :=
  let buf := copy_up (Z.to_nat ((VGA_HEIGHT - 1) * VGA_WIDTH)) (terminal_buffer t) 0 in
  let buf := fill_cells (Z.to_nat VGA_WIDTH) buf ((VGA_HEIGHT - 1) * VGA_WIDTH) (make_vgaentry 32 (terminal_color t)) in
  t <| terminal_buffer := buf |> <| terminal_row := VGA_HEIGHT - 1 |>.
(** [if (++terminal_row >= VGA_HEIGHT) terminal_scroll();] with the column 0.
    [kernel/arch/x86_64/kernel_x64.c:125-126] terminal_putchar *)
Definition next_row (t : Term) : Term :=
  let t := t <| terminal_column := 0 |> <| terminal_row := terminal_row t + 1 |> in
  if VGA_HEIGHT <=? terminal_row t then terminal_scroll t else t.
(** [kernel/arch/x86_64/kernel_x64.c] terminal_putchar *)
Definition terminal_putchar (t : Term) (c : Z) : Term :=
  if c =? 10 then next_row t else
  if c =? 13 then t <| terminal_column := 0 |> else
  if c =? 8 then
    if 0 <? terminal_column t then t <| terminal_column := terminal_column t - 1 |>
    else if 0 <? terminal_row t then t <| terminal_row := terminal_row t - 1 |> <| terminal_column := VGA_WIDTH - 1 |>
    else t
  else
  let t := terminal_putentryat t c (terminal_color t) (terminal_column t) (terminal_row t) in
  let t := t <| terminal_column := terminal_column t + 1 |> in
  if VGA_WIDTH <=? terminal_column t then next_row t else t.
(** [kernel/arch/x86_64/kernel_x64.c] terminal_writestring *)
Definition terminal_writestring (t : Term) (s : bytes) : Term := fold_left terminal_putchar (cstr s) t.
(** [kernel/arch/x86_64/kernel_x64.c] vga_print *)
Definition vga_print (t : Term) (s : bytes) : Term := terminal_writestring t s.
(** [kernel/arch/x86_64/kernel_x64.c] vga_set_pos *)
Definition vga_set_pos (t : Term) (row col : Z) : Term := t <| terminal_row := row |> <| terminal_column := col |>.
(** [kernel/arch/x86_64/kernel_x64.c] vga_get_pos *)
Definition vga_get_pos (t : Term) : Z * Z := (terminal_row t, terminal_column t).
(** [kernel/arch/x86_64/kernel_x64.c] vga_clear_to_eol *)
Definition vga_clear_to_eol (t : Term) (row col : Z) : Term :=
  t <| terminal_buffer := fill_cells (Z.to_nat (VGA_WIDTH - col)) (terminal_buffer t) (row * VGA_WIDTH + col)
                            (make_vgaentry 32 (terminal_color t)) |>.
(** [kernel/arch/x86_64/kernel_x64.c] vga_clear_screen *)
Definition vga_clear_screen (t : Term) : Term :=
  let blank := make_vgaentry 32 grey_on_black in
  mkTerm 0 0 grey_on_black (fill_cells (Z.to_nat (VGA_WIDTH * VGA_HEIGHT)) (terminal_buffer t) 0 blank) (hw_cursor t).
(** [kernel/arch/x86_64/kernel_x64.c] terminal_print_at_row *)
Definition terminal_print_at_row (t : Term) (row : Z) (s : bytes) (color : Z) : Term :=
  let shown := take (Z.to_nat VGA_WIDTH) (cstr s) in
  let n := length shown in
  let buf := blit (terminal_buffer t) (Z.to_nat (row * VGA_WIDTH)) ((fun c => make_vgaentry c color) <$> shown) in
  t <| terminal_buffer := fill_cells (Z.to_nat VGA_WIDTH - n) buf (row * VGA_WIDTH + Z.of_nat n) (make_vgaentry 32 color) |>.
(** The position the card's cursor is moved to.
    [kernel/arch/x86_64/kernel_x64.c] vga_set_cursor *)
Definition vga_set_cursor (t : Term) (row col : Z) : Term := t <| hw_cursor := u16 (row * VGA_WIDTH + col) |>.
(** The digits of a number, least significant first, as the loop leaves them in its buffer of 12.
    [kernel/arch/x86_64/kernel_x64.c:163-165] vga_print_uint *)
Fixpoint uint_digits (n : nat) (v base : Z) : bytes :=
  match n with
  | O => []
  | S n => if v =? 0 then [] else geti (lit "0123456789abcdef") (v mod base) :: uint_digits n (v / base) base
  end.
(** [kernel/arch/x86_64/kernel_x64.c] vga_print_uint *)
Definition vga_print_uint (t : Term) (v base : Z) : Term :=
  if v =? 0 then terminal_putchar t 48 else fold_left terminal_putchar (rev (uint_digits 12 v base)) t.
(** [kernel/arch/x86_64/kernel_x64.c] vga_print_hex *)
Definition vga_print_hex (t : Term) (v : Z) : Term := vga_print_uint (terminal_writestring t (lit "0x")) v 16.
(** [kernel/arch/x86_64/kernel_x64.c] vga_print_dec *)
Definition vga_print_dec (t : Term) (v : Z) : Term := vga_print_uint t v 10.
(** With no pipe open the text goes to the screen.
    [kernel/shell/cli.c] cli_putchar *)
Definition cli_putchar (t : Term) (c : Z) : Term := vga_print t [c; 0].
(** [kernel/shell/cli.c] redraw_line *)
Definition redraw_line (t : Term) (srow scol : Z) (line : bytes) (len cursor : Z) : Term :=
  let t := vga_set_pos t srow scol in
  let t := fold_left cli_putchar (take (Z.to_nat len) line) t in
  let t := vga_clear_to_eol t srow (scol + len) in
  vga_set_cursor t srow (scol + cursor).

(** ** Cells *)

Definition blank (color : Z) : Z := make_vgaentry 32 color.
Definition cells (color : Z) (s : bytes) : list Z := (fun c => make_vgaentry c color) <$> s.
Definition blanks (color : Z) (n : nat) : list Z := replicate n (blank color).

Lemma puti_at (a r : list Z) x v i : i = Z.of_nat (length a) -> puti (a ++ x :: r) i v = a ++ v :: r.
Proof. intros ->. unfold puti. rewrite Nat2Z.id. rewrite <- (Nat.add_0_r (length a)) at 1. by rewrite insert_app_r. Qed.
Lemma fill_cells_spec n : forall a b r i v, length b = n -> i = Z.of_nat (length a) ->
  fill_cells n (a ++ b ++ r) i v = a ++ replicate n v ++ r.
Proof.
  induction n as [|n IH]; intros a b r i v Hb ->; cbn [fill_cells]; [by destruct b|].
  destruct b as [|x b]; [done|]. cbn [app]. rewrite puti_at by done.
  specialize (IH (a ++ [v]) b r (Z.of_nat (length a) + 1) v ltac:(simpl in Hb; lia)).
  rewrite <- !app_assoc in IH. cbn [app] in IH. rewrite IH by (rewrite length_app; simpl; lia). done.
Qed.
(** Copying cells up: the first [n] become those 80 further on. *)
Lemma copy_up_spec n : forall a b i, i = Z.of_nat (length a) -> (n + 80 <= length b)%nat ->
  copy_up n (a ++ b) i = a ++ take n (drop 80 b) ++ drop n b.
Proof.
  induction n as [|n IH]; intros a b i -> Hb; cbn [copy_up]; [done|].
  destruct b as [|x b]; [simpl in Hb; lia|]. assert (Hg : geti (a ++ x :: b) (Z.of_nat (length a) + VGA_WIDTH) = b !!! 79%nat).
  { unfold geti, VGA_WIDTH. rewrite lookup_total_app_r by lia.
    replace (Z.to_nat (Z.of_nat (length a) + 80) - length a)%nat with 80%nat by lia. done. }
  rewrite Hg, puti_at by done. specialize (IH (a ++ [b !!! 79%nat]) b (Z.of_nat (length a) + 1)).
  rewrite <- !app_assoc in IH. cbn [app] in IH. rewrite IH by (rewrite ?length_app; simpl in *; lia). do 1 f_equal.
  assert (Hd : drop 80 (x :: b) = b !!! 79%nat :: drop 80 b).
  { change (drop 80 (x :: b)) with (drop 79 b). apply drop_S. apply list_lookup_lookup_total_lt. simpl in Hb; lia. }
  rewrite Hd. done.
Qed.

(** ** Layout of a text on rows of 80 cells *)

#[local] Arguments Nat.min : simpl never.
#[local] Arguments Nat.sub : simpl never.
#[local] Arguments blanks : simpl never.

(** The finished rows and the row being written; a row is finished by a line feed or by its 80th character. *)
Definition put_row (l : list bytes * bytes) (c : Z) : list bytes * bytes :=
  let '(finished, cur) := l in
  if c =? 10 then (finished ++ [cur], []) else
  if (79 <=? length cur)%nat then (finished ++ [cur ++ [c]], []) else (finished, cur ++ [c]).
Definition layout (s : bytes) : list bytes * bytes := fold_left put_row s ([], []).
Definition rows (l : list bytes * bytes) : list bytes := l.1 ++ [l.2].
Definition last_rows (n : nat) (l : list bytes) : list bytes := drop (length l - n) l.
(** A row of cells: the characters, and blanks up to the edge. *)
Definition row_cells (color : Z) (r : bytes) : list Z := cells color r ++ blanks color (80 - length r).
(** The screen shows the last 25 rows of the text, blank rows below them, and the next character goes where the
    text ends. *)
Record shows (t : Term) (l : list bytes * bytes) : Prop := {
  shows_cells : terminal_buffer t = concat (row_cells (terminal_color t) <$> last_rows 25 (rows l)) ++
                  blanks (terminal_color t) (80 * (25 - length (rows l)));
  shows_row : terminal_row t = Z.of_nat (length (last_rows 25 (rows l))) - 1;
  shows_column : terminal_column t = Z.of_nat (length l.2) }.
Definition row_wf (l : list bytes * bytes) : Prop := Forall (fun r => length r <= 80)%nat l.1 /\ (length l.2 < 80)%nat.
Definition printable (s : bytes) : Prop := Forall (fun c => c <> 8 /\ c <> 13) s.

Lemma length_cells color s : length (cells color s) = length s.
Proof. apply length_fmap. Qed.
Lemma length_row_cells color r : (length r <= 80)%nat -> length (row_cells color r) = 80%nat.
Proof. intros. unfold row_cells, blanks. rewrite length_app, length_cells, length_replicate. lia. Qed.
Lemma length_concat_rows color l : Forall (fun r => length r <= 80)%nat l ->
  length (concat (row_cells color <$> l)) = (80 * length l)%nat.
Proof. induction 1 as [|r l Hr _ IH]; [done|]. cbn [fmap list_fmap concat]. rewrite length_app, IH, length_row_cells by done. simpl; lia. Qed.
Lemma length_last_rows n l : length (last_rows n l) = Nat.min n (length l).
Proof. unfold last_rows. rewrite length_drop. lia. Qed.
Lemma last_rows_snoc n l x : last_rows (S n) (l ++ [x]) = last_rows n l ++ [x].
Proof.
  unfold last_rows. rewrite length_app. cbn [length]. replace (length l + 1 - S n)%nat with (length l - n)%nat by lia.
  rewrite drop_app_le by lia. done.
Qed.
Lemma put_row_wf l c : row_wf l -> row_wf (put_row l c).
Proof.
  destruct l as [f cur]. intros [Hf Hc]; cbn in Hf, Hc. unfold put_row. destruct (c =? 10); [|destruct (79 <=? length cur)%nat eqn:E1].
  - split; cbn; [|lia]. apply Forall_app; split; [done|]. constructor; [lia|done].
  - split; cbn; [|lia]. apply Forall_app; split; [done|]. constructor; [rewrite length_app; cbn; lia|done].
  - apply Nat.leb_gt in E1. split; cbn; [done|]. rewrite length_app; cbn; lia.
Qed.

(** Scrolling drops the first row and leaves the last one blank. *)
Lemma terminal_scroll_spec t : length (terminal_buffer t) = 2000%nat ->
  terminal_scroll t = t <| terminal_buffer := drop 80 (terminal_buffer t) ++ blanks (terminal_color t) 80 |> <| terminal_row := 24 |>.
Proof.
  intros Hl. unfold terminal_scroll, VGA_HEIGHT, VGA_WIDTH.
  change (Z.to_nat ((25 - 1) * 80)) with 1920%nat. change (Z.to_nat 80) with 80%nat.
  rewrite (copy_up_spec 1920 [] (terminal_buffer t)) by (cbn; lia). cbn [app].
  rewrite <- (app_nil_r (drop 1920 (terminal_buffer t))).
  rewrite fill_cells_spec.
  2:{ rewrite length_drop; lia. }
  2:{ rewrite length_take, length_drop; lia. }
  rewrite app_nil_r, take_ge by (rewrite length_drop; lia). done.
Qed.

(** The cells of a screen that shows finished rows and the current one. *)
Definition screen (color : Z) (finished : list bytes) (cur : bytes) : list Z :=
  concat (row_cells color <$> last_rows 24 finished) ++ row_cells color cur ++ blanks color (80 * (24 - length finished)).

Lemma shows_screen t f cur : shows t (f, cur) <->
  terminal_buffer t = screen (terminal_color t) f cur /\
  terminal_row t = Z.of_nat (Nat.min 24 (length f)) /\ terminal_column t = Z.of_nat (length cur).
Proof.
  assert (Hc : concat (row_cells (terminal_color t) <$> last_rows 25 (rows (f, cur))) ++
                 blanks (terminal_color t) (80 * (25 - length (rows (f, cur)))) = screen (terminal_color t) f cur).
  { unfold rows, screen; cbn [fst snd]. rewrite last_rows_snoc, fmap_app, concat_app, length_app. cbn [length fmap list_fmap concat].
    rewrite app_nil_r, <- app_assoc. replace (25 - (length f + 1))%nat with (24 - length f)%nat by lia. done. }
  assert (Hr : Z.of_nat (length (last_rows 25 (rows (f, cur)))) - 1 = Z.of_nat (Nat.min 24 (length f))).
  { rewrite length_last_rows. unfold rows; cbn [fst snd]. rewrite length_app. cbn [length]. lia. }
  split; [intros [E1 E2 E3]|intros (E1 & E2 & E3); constructor]; rewrite ?Hc, ?Hr in *; auto.
Qed.
Lemma blanks_app color n m : blanks color (n + m) = blanks color n ++ blanks color m.
Proof. apply replicate_add. Qed.
Lemma row_cells_nil color : row_cells color [] = blanks color 80.
Proof. done. Qed.

(** Moving to the next row, when the current one holds [cur]. *)
Lemma next_row_shows t f cur : Forall (fun r => length r <= 80)%nat f -> (length cur <= 80)%nat ->
  terminal_buffer t = screen (terminal_color t) f cur -> terminal_row t = Z.of_nat (Nat.min 24 (length f)) ->
  shows (next_row t) (f ++ [cur], []) /\ terminal_color (next_row t) = terminal_color t.
Proof.
  intros Hf Hcur Hb Hr. unfold next_row. cbn [terminal_row]. destruct (decide (length f < 24)%nat) as [Hl|Hl].
  - case_step; [unfold VGA_HEIGHT in *; cbn in *; lia|]. split; [|done]. apply shows_screen. cbn. split_and!; [|rewrite length_app; cbn; lia|done].
    rewrite Hb. unfold screen. rewrite last_rows_snoc, fmap_app, concat_app, length_app. cbn [length fmap list_fmap concat].
    rewrite app_nil_r, <- app_assoc, row_cells_nil, <- (blanks_app _ 80). unfold last_rows.
    replace (length f - 24)%nat with 0%nat by lia. replace (length f - 23)%nat with 0%nat by lia.
    do 3 f_equal. lia.
  - assert (exists x, last_rows 24 f = x :: last_rows 23 f) as [x Hx].
    { unfold last_rows. destruct (f !! (length f - 24)%nat) as [x|] eqn:E1; [|apply lookup_ge_None in E1; lia].
      exists x. rewrite (drop_S f x _ E1). do 2 f_equal. lia. }
    case_step; [|unfold VGA_HEIGHT in *; cbn in *; lia].
    assert (Hf' := Hf). rewrite <- (take_drop (length f - 24) f) in Hf'. apply Forall_app in Hf' as [_ Hd].
    change (drop (length f - 24) f) with (last_rows 24 f) in Hd. rewrite Hx in Hd. apply Forall_cons in Hd as [Hx1 Hd].
    rewrite terminal_scroll_spec.
    2:{ cbn. rewrite Hb. unfold screen. rewrite !length_app, length_concat_rows, length_row_cells, length_last_rows by (rewrite ?Hx; auto).
        unfold blanks. rewrite length_replicate. lia. }
    split; [|done]. apply shows_screen. cbn. split_and!; [|rewrite length_app; cbn; lia|done].
    rewrite Hb. unfold screen. rewrite last_rows_snoc, Hx, fmap_app, concat_app, length_app. cbn [length fmap list_fmap concat].
    rewrite app_nil_r, <- !app_assoc, row_cells_nil. replace (24 - length f)%nat with 0%nat by lia.
    replace (24 - (length f + 1))%nat with 0%nat by lia. rewrite drop_app_length' by (by rewrite length_row_cells).
    rewrite Nat.mul_0_r. change (blanks (terminal_color t) 0) with (@nil Z). by rewrite !app_nil_r, <- ?app_assoc.
Qed.
Lemma put_cell color cur c : (length cur < 80)%nat ->
  row_cells color cur = cells color cur ++ blank color :: blanks color (79 - length cur) /\
  row_cells color (cur ++ [c]) = cells color cur ++ make_vgaentry c color :: blanks color (79 - length cur).
Proof.
  intros Hl. unfold row_cells. split.
  - replace (80 - length cur)%nat with (S (79 - length cur)) by lia. done.
  - unfold cells. rewrite fmap_app, length_app, <- app_assoc. cbn [length].
    replace (80 - (length cur + 1))%nat with (79 - length cur)%nat by lia. done.
Qed.
Lemma terminal_putchar_shows t l c : shows t l -> row_wf l -> c <> 8 -> c <> 13 ->
  shows (terminal_putchar t c) (put_row l c) /\ terminal_color (terminal_putchar t c) = terminal_color t.
Proof.
  destruct l as [f cur]. intros Hs [Hf Hc] H8 H13; cbn in Hf, Hc. apply shows_screen in Hs as (Hb & Hr & Hcol).
  unfold terminal_putchar, put_row. destruct (Z.eqb_spec c 10); [by apply next_row_shows; [|lia| |]|].
  destruct (Z.eqb_spec c 13); [done|]. destruct (Z.eqb_spec c 8); [done|].
  destruct (put_cell (terminal_color t) cur c Hc) as [Hold Hnew].
  assert (Hlf : Forall (fun r => length r <= 80)%nat (last_rows 24 f)) by (unfold last_rows; by apply Forall_drop).
  assert (Hput : terminal_buffer (terminal_putentryat t c (terminal_color t) (terminal_column t) (terminal_row t)) =
                 screen (terminal_color t) f (cur ++ [c])).
  { cbn. rewrite Hb. unfold screen. rewrite Hold, Hnew, <- !app_assoc. cbn [app].
    rewrite !app_assoc, puti_at; [done|]. rewrite length_app, length_concat_rows, length_cells, length_last_rows by done.
    unfold VGA_WIDTH. rewrite Hr, Hcol. lia. }
  unfold VGA_WIDTH. cbn [terminal_column]. destruct (79 <=? length cur)%nat eqn:E1.
  - apply Nat.leb_le in E1. case_step; [|cbn in *; lia]. refine (next_row_shows _ f (cur ++ [c]) Hf _ Hput Hr). rewrite length_app; cbn; lia.
  - apply Nat.leb_gt in E1. case_step; [cbn in *; lia|]. split; [|done]. apply shows_screen. split_and!; try done.
    cbn. rewrite length_app; cbn. lia.
Qed.
Lemma writestring_shows s : forall t l, printable s -> shows t l -> row_wf l ->
  shows (fold_left terminal_putchar s t) (fold_left put_row s l) /\
  terminal_color (fold_left terminal_putchar s t) = terminal_color t.
Proof.
  induction s as [|c s IH]; intros t l Hp Hs Hw; [done|]. apply Forall_cons in Hp as [[H8 H13] Hp]. cbn [fold_left].
  destruct (terminal_putchar_shows t l c Hs Hw H8 H13) as [Hs' Hcol].
  destruct (IH _ _ Hp Hs' (put_row_wf l c Hw)) as [? E1]. by rewrite E1.
Qed.
Lemma clear_screen_shows t : length (terminal_buffer t) = 2000%nat ->
  shows (vga_clear_screen t) ([], []) /\ terminal_color (vga_clear_screen t) = grey_on_black.
Proof.
  intros Hl. split; [|done]. apply shows_screen. cbn [terminal_row terminal_column terminal_color terminal_buffer vga_clear_screen].
  split; [|done]. change (Z.to_nat (VGA_WIDTH * VGA_HEIGHT)) with 2000%nat.
  pose proof (fill_cells_spec 2000 [] (terminal_buffer t) [] 0 (blank grey_on_black) Hl eq_refl) as Hfill.
  rewrite !app_nil_r in Hfill. exact Hfill.
Qed.


(** ** Redrawing the line being edited *)

Definition plain (s : bytes) : Prop := Forall (fun c => c <> 0 /\ c <> 8 /\ c <> 10 /\ c <> 13) s.

Lemma cli_putchar_plain t c p y r : c <> 0 /\ c <> 8 /\ c <> 10 /\ c <> 13 -> terminal_buffer t = p ++ y :: r ->
  Z.of_nat (length p) = terminal_row t * 80 + terminal_column t -> terminal_column t + 1 < 80 ->
  cli_putchar t c = t <| terminal_buffer := p ++ make_vgaentry c (terminal_color t) :: r |> <| terminal_column := terminal_column t + 1 |>.
Proof.
  intros (N0 & N8 & N10 & N13) Hb Hp Hc. destruct t as [row col color buf hw]; cbn in *. subst buf.
  unfold cli_putchar, vga_print, terminal_writestring. cbn [cstr]. rewrite (proj2 (Z.eqb_neq c 0)) by done. cbn [Z.eqb fold_left].
  unfold terminal_putchar. rewrite (proj2 (Z.eqb_neq c 10)), (proj2 (Z.eqb_neq c 13)), (proj2 (Z.eqb_neq c 8)) by done.
  cbn. unfold VGA_WIDTH. case_step; [lia|]. unfold terminal_putentryat. cbn [terminal_buffer]. rewrite puti_at by (unfold VGA_WIDTH; lia). done.
Qed.
(** Characters that stay within the row are stored one after the other. *)
Lemma print_in_row s : forall t p x q, plain s -> terminal_buffer t = p ++ x ++ q -> length x = length s ->
  Z.of_nat (length p) = terminal_row t * 80 + terminal_column t -> terminal_column t + Z.of_nat (length s) < 80 ->
  fold_left cli_putchar s t =
    t <| terminal_buffer := p ++ cells (terminal_color t) s ++ q |> <| terminal_column := terminal_column t + Z.of_nat (length s) |>.
Proof.
  induction s as [|c s IH]; intros t p x q Hs Hb Hx Hp Hc; cbn [fold_left].
  - destruct x; [|done]. rewrite Z.add_0_r. cbn [app cells fmap list_fmap] in *. rewrite <- Hb. by destruct t.
  - destruct x as [|y x]; [done|]. apply Forall_cons in Hs as [Hc0 Hs]. cbn [length] in *.
    rewrite (cli_putchar_plain t c p y (x ++ q)) by (try done; lia).
    rewrite (IH _ (p ++ [make_vgaentry c (terminal_color t)]) x q); try done; cbn; try lia.
    + rewrite <- !app_assoc, Nat2Z.inj_succ, <- Z.add_1_l, Z.add_assoc. by destruct t.
    + by rewrite <- app_assoc.
    + rewrite length_app; cbn. lia.
Qed.

(** Redrawing a line that fits in its row with a column to spare rewrites that row only: what stands left of the
    line is kept, the line follows, the rest of the row is cleared, and the card's cursor stands on the line's cursor. *)
Lemma redraw_line_shows t a r b srow scol line len cursor :
  terminal_buffer t = a ++ r ++ b -> length r = 80%nat -> Z.of_nat (length a) = srow * 80 -> 0 <= srow < 25 ->
  0 <= scol -> 0 <= len <= Z.of_nat (length line) -> scol + len < 80 -> 0 <= cursor <= len -> plain (take (Z.to_nat len) line) ->
  let t' := redraw_line t srow scol line len cursor in
  terminal_buffer t' = a ++ (take (Z.to_nat scol) r ++ cells (terminal_color t) (take (Z.to_nat len) line) ++
                               blanks (terminal_color t) (Z.to_nat (80 - scol - len))) ++ b /\
  hw_cursor t' = srow * 80 + scol + cursor /\ terminal_row t' = srow /\ terminal_column t' = scol + len.
Proof.
  intros Hb Hr Ha Hrow Hscol Hlen Hfit Hcur Hp. cbn zeta. unfold redraw_line.
  set (s := take (Z.to_nat len) line) in *. assert (Hs : length s = Z.to_nat len) by (unfold s; rewrite length_take; lia).
  set (pre := take (Z.to_nat scol) r). set (rest := drop (Z.to_nat scol) r).
  assert (Hsplit : terminal_buffer t = (a ++ pre) ++ take (Z.to_nat len) rest ++ (drop (Z.to_nat len) rest ++ b)).
  { rewrite Hb. rewrite <- (take_drop (Z.to_nat scol) r) at 1. fold pre rest. rewrite <- (take_drop (Z.to_nat len) rest) at 1. by rewrite <- !app_assoc. }
  assert (Hpre : length pre = Z.to_nat scol) by (unfold pre; rewrite length_take; lia).
  assert (Hrest : length rest = (80 - Z.to_nat scol)%nat) by (unfold rest; rewrite length_drop; lia).
  rewrite (print_in_row s (vga_set_pos t srow scol) (a ++ pre) (take (Z.to_nat len) rest) (drop (Z.to_nat len) rest ++ b));
    cbn [vga_set_pos terminal_buffer terminal_row terminal_column]; try done; try (rewrite ?length_app, ?length_take; cbn; lia).
  cbn. unfold VGA_WIDTH. split; [|split; [|split; [done|lia]]].
  - rewrite !app_assoc, <- (app_assoc _ (drop _ rest) b). rewrite fill_cells_spec.
    + rewrite <- !app_assoc. unfold blanks, blank. do 4 f_equal. f_equal. lia.
    + rewrite length_drop. lia.
    + rewrite !length_app, length_cells. lia.
  - unfold VGA_WIDTH. rewrite Z.add_assoc. apply u16_id. unfold is_u16. lia.
Qed.
Lemma redraw_line_shows_witness :
  hw_cursor (redraw_line (mkTerm 0 0 7 (replicate 1920 5 ++ replicate 80 6 ++ []) 0) 24 70 (lit "ls -l") 5 2) = 24 * 80 + 70 + 2.
Proof.
  apply (redraw_line_shows (mkTerm 0 0 7 (replicate 1920 5 ++ replicate 80 6 ++ []) 0) (replicate 1920 5) (replicate 80 6) []
           24 70 (lit "ls -l") 5 2); try done; try lia.
  unfold plain. repeat constructor; vm_compute; discriminate.
Defined.

(** A line that reaches the right edge of the last row scrolls the screen at every redraw, while the row it is drawn on
    stays 24: the next redraw leaves the earlier copy above and writes after a blank start of row. *)
Lemma redraw_at_edge_scrolls :
  let t := mkTerm 24 78 7 (replicate 80 1 ++ replicate 1840 2 ++ replicate 78 3 ++ replicate 2 4) 0 in
  let t' := redraw_line (redraw_line t 24 78 [120; 121] 2 2) 24 78 [120; 121] 2 2 in
  terminal_buffer t' = replicate 1760 2 ++ (replicate 78 3 ++ cells 7 [120; 121]) ++
                       (blanks 7 78 ++ cells 7 [120; 121]) ++ blanks 7 80.
Proof. vm_compute. reflexivity. Qed.

Lemma uint_digits_decimal n v : 0 <= v -> uint_digits n v 10 = digits_rev n v.
Proof.
  revert v; induction n as [|n IH]; intros v Hv; [done|]. cbn [uint_digits digits_rev]. destruct (Z.eqb_spec v 0); [by subst|].
  rewrite (proj2 (Z.ltb_lt 0 v)) by lia.
  rewrite IH by (apply Z.div_pos; lia). f_equal.
  assert (Hm : 0 <= v mod 10 < 10) by (apply Z.mod_pos_bound; lia).
  revert Hm. generalize (v mod 10). intros m Hm.
  apply Z.eqb_eq. apply (forall_below (fun m => geti (lit "0123456789abcdef") m =? 48 + m) 10); [reflexivity|lia].
Qed.
(** [vga_print_dec] prints the decimal numeral of a number. *)
Lemma vga_print_dec_spec t v : is_u32 v -> vga_print_dec t v = fold_left terminal_putchar (decimal 12 v) t.
Proof.
  intros Hv. unfold vga_print_dec, vga_print_uint, decimal. destruct (v =? 0); [done|]. rewrite uint_digits_decimal; [done|apply Hv].
Qed.
