(* ===== verification/Mouse.v ===== *)
(** The PS/2 mouse of the 64-bit kernel (kernel/arch/x86_64/kernel_x64.c): the controller's set-up and the packets of
    three bytes, a byte an interrupt.  What a packet does is the window system's business: a handled packet is a value. *)

From S2P Require Import Prelude BlockDev Ata.

Section ps2.
Context {P : Type} `{PortIO P}.
Implicit Types (p : P).
(** The wait for a bit of the status port, cleared or set; it gives up in the end.
    [kernel/arch/x86_64/kernel_x64.c] ps2_mouse_wait_input *)
Fixpoint ps2_mouse_wait_input (timeout : nat) p : P :=
  match timeout with
  | O => p
  | S timeout => let '(status, p) := in8 p 0x64 in if Z.land status 0x02 =? 0 then p else ps2_mouse_wait_input timeout p
  end.
(** [kernel/arch/x86_64/kernel_x64.c] ps2_mouse_wait_output *)
Fixpoint ps2_mouse_wait_output (timeout : nat) p : P :=
  match timeout with
  | O => p
  | S timeout => let '(status, p) := in8 p 0x64 in if negb (Z.land status 0x01 =? 0) then p else ps2_mouse_wait_output timeout p
  end.
(** [kernel/arch/x86_64/kernel_x64.c:915-915] ps2_mouse_wait_input *)
Definition PS2_TIMEOUT : nat := Z.to_nat 100000.
Definition wait_in p : P := ps2_mouse_wait_input PS2_TIMEOUT p.
(** [kernel/arch/x86_64/kernel_x64.c] ps2_mouse_write *)
Definition ps2_mouse_write p (data : Z) : P :=
  let p := out8 (wait_in p) 0x64 0xD4 in
  out8 (wait_in p) 0x60 data.
(** [kernel/arch/x86_64/kernel_x64.c] ps2_mouse_read *)
Definition ps2_mouse_read p : Z * P := in8 (ps2_mouse_wait_output PS2_TIMEOUT p) 0x60.
(** The ports; the packet starts anew.
    [kernel/arch/x86_64/kernel_x64.c] ps2_mouse_init *)
Definition ps2_mouse_init p : P :=
  let p := out8 (wait_in p) 0x64 0xA8 in
  let p := out8 (wait_in p) 0x64 0x20 in
  let '(status, p) := ps2_mouse_read p in
  let status := Z.lor status 0x02 in
  let p := out8 (wait_in p) 0x64 0x60 in
  let p := out8 (wait_in p) 0x60 status in
  let '(_, p) := ps2_mouse_read (ps2_mouse_write p 0xF6) in
  let '(_, p) := ps2_mouse_read (ps2_mouse_write p 0xF4) in p.
End ps2.

(** [kernel/arch/x86_64/kernel_x64.c:911-912] mouse_cycle *)
Record Mouse := mkMouse { mouse_cycle : Z; mouse_packet : bytes }.
(** A packet that is handled: the flags and the movement. *)
Record Motion := mkMotion { m_flags : Z; m_dx : Z; m_dy : Z }.
(** A movement of nine bits, the sign in the flags.
    [kernel/arch/x86_64/kernel_x64.c:988-989] mouse_irq_handler *)
Definition movement (data flags sign : Z) : Z := data - (if negb (Z.land flags sign =? 0) then 256 else 0).
(** A byte, and the packet that it completes, unless that has overflowed.
    [kernel/arch/x86_64/kernel_x64.c] mouse_irq_handler *)
Definition mouse_irq_handler (m : Mouse) (data : Z) : option Motion * Mouse :=
  let pk := mouse_packet m in
  if mouse_cycle m =? 0 then
    (None, if negb (Z.land data 0x08 =? 0) then mkMouse 1 (puti pk 0 data) else m)
  else if mouse_cycle m =? 1 then (None, mkMouse 2 (puti pk 1 data))
  else if mouse_cycle m =? 2 then
    let pk := puti pk 2 data in
    let flags := geti pk 0 in
    let dx := movement (geti pk 1) flags 0x10 in
    let dy := movement (geti pk 2) flags 0x20 in
    (if Z.land flags 0xC0 =? 0 then Some (mkMotion flags dx dy) else None, mkMouse 0 pk)
  else (None, m).

(** ** The stream of packets *)

(** What a stream of bytes says: bytes that cannot begin a packet are passed over, then three bytes make a packet. *)
Definition motion_of (flags x y : Z) : list Motion :=
  if Z.land flags 0xC0 =? 0 then [mkMotion flags (movement x flags 0x10) (movement y flags 0x20)] else [].
Fixpoint motions (bs : bytes) : list Motion :=
  match bs with
  | flags :: bs =>
      if Z.land flags 0x08 =? 0 then motions bs
      else match bs with x :: y :: bs => motion_of flags x y ++ motions bs | _ => [] end
  | [] => []
  end.
(** The packets handled as the bytes arrive. *)
Fixpoint handled (m : Mouse) (bs : bytes) : list Motion :=
  match bs with
  | [] => []
  | b :: bs => let '(r, m) := mouse_irq_handler m b in option_list r ++ handled m bs
  end.

Lemma handled_start n : forall bs m, (length bs <= n)%nat -> mouse_cycle m = 0 -> length (mouse_packet m) = 3%nat -> handled m bs = motions bs.
Proof.
  induction n as [|n IH]; intros bs m Hn Hc Hl; (destruct bs as [|f bs]; [done|]); [simpl in Hn; lia|].
  cbn [handled motions length] in *. unfold mouse_irq_handler at 1. rewrite Hc. change (0 =? 0) with true. cbv iota.
  destruct (Z.land f 0x08 =? 0); cbn [negb option_list app]; [apply IH; [lia|done..]|].
  destruct bs as [|x [|y bs]]; [done|done|]. cbn [handled length] in *. unfold mouse_irq_handler at 1. cbn [mouse_cycle]. change (1 =? 0) with false. change (1 =? 1) with true. cbv iota.
  cbn [option_list app]. unfold mouse_irq_handler at 1. cbn [mouse_cycle mouse_packet]. change (2 =? 0) with false. change (2 =? 1) with false. change (2 =? 2) with true. cbv iota.
  destruct m as [c [|a [|b [|d [|? ?]]]]]; try discriminate Hl. cbn [mouse_packet].
  change (geti (puti (puti (puti [a; b; d] 0 f) 1 x) 2 y) 0) with f. change (geti (puti (puti (puti [a; b; d] 0 f) 1 x) 2 y) 1) with x.
  change (geti (puti (puti (puti [a; b; d] 0 f) 1 x) 2 y) 2) with y. rewrite IH; [|lia|done|done]. cbn [option_list app]. unfold motion_of. by destruct (Z.land f 0xC0 =? 0).
Qed.
(** The packets handled are those of the stream, whatever bytes come: the driver finds its place again by itself. *)
Lemma mouse_follows_stream bs m : mouse_cycle m = 0 -> length (mouse_packet m) = 3%nat -> handled m bs = motions bs.
Proof. intros. by eapply handled_start. Qed.

(** A mouse's packet: the buttons, the bit that is always set, the signs, the low bytes. *)
Definition packet_of (buttons dx dy : Z) : bytes :=
  [buttons + 8 + (if dx <? 0 then 16 else 0) + (if dy <? 0 then 32 else 0); u8 dx; u8 dy].
Lemma flags_bits buttons (sx sy : bool) : 0 <= buttons < 8 ->
  let f := buttons + 8 + (if sx then 16 else 0) + (if sy then 32 else 0) in
  (Z.land f 0x08 =? 0) = false /\ (Z.land f 0xC0 =? 0) = true /\ (Z.land f 0x10 =? 0) = negb sx /\ (Z.land f 0x20 =? 0) = negb sy.
Proof.
  intros Hb. assert (Hc : buttons = 0 \/ buttons = 1 \/ buttons = 2 \/ buttons = 3 \/ buttons = 4 \/ buttons = 5 \/ buttons = 6 \/ buttons = 7) by lia.
  destruct sx, sy; destruct Hc as [->|[->|[->|[->|[->|[->|[->| ->]]]]]]]; done.
Qed.
(** A packet that arrives where one may begin is handled with its buttons and its movement. *)
Lemma packet_is_handled buttons dx dy m bs : 0 <= buttons < 8 -> -256 <= dx < 256 -> -256 <= dy < 256 ->
  mouse_cycle m = 0 -> length (mouse_packet m) = 3%nat ->
  exists r, handled m (packet_of buttons dx dy ++ bs) = r :: motions bs /\ m_dx r = dx /\ m_dy r = dy /\ Z.land (m_flags r) 7 = buttons.
Proof.
  intros Hb Hx Hy Hc Hl. rewrite mouse_follows_stream by done. destruct (flags_bits buttons (dx <? 0) (dy <? 0) Hb) as (F1 & F2 & F3 & F4).
  unfold packet_of. set (f := buttons + 8 + _ + _) in *. cbn [app motions]. rewrite F1. unfold motion_of. rewrite F2.
  eexists. split; [reflexivity|]. cbn [m_dx m_dy m_flags]. unfold movement. rewrite F3, F4, !negb_involutive.
  split; [unfold u8; destruct (Z.ltb_spec dx 0); dlia|]. split; [unfold u8; destruct (Z.ltb_spec dy 0); dlia|].
  change 7 with (Z.ones 3). rewrite Z.land_ones by lia. unfold f. repeat case_match; dlia.
Qed.
