(* ===== verification/Acpi.v ===== *)
(** Power control through ACPI (kernel/drivers/acpi.c): finding the root pointer, the root
    table, the fixed description table and the [_S5_] package, and the port writes of shutting
    down and restarting.  Memory is read byte by byte at physical addresses. *)

From S2P Require Import Prelude CString.

Section acpi.
Context (m : memory).
Implicit Types (a : Z).

(** Fields of packed structures. *)
Definition mem8 a : Z := u8 (m a).
Definition mem16 a : Z := mem8 a + mem8 (a + 1) * 2 ^ 8.
Definition mem32 a : Z := mem16 a + mem16 (a + 2) * 2 ^ 16.
Definition mem64 a : Z := mem32 a + mem32 (a + 4) * 2 ^ 32.

(** [kernel/drivers/acpi.c:60-60] acpi_checksum_ok *)
Fixpoint sum_bytes (n : nat) a (sum : Z) : Z :=
  match n with O => sum | S n => sum_bytes n (a + 1) (u8 (sum + mem8 a)) end.
(** [kernel/drivers/acpi.c] acpi_checksum_ok *)
Definition acpi_checksum_ok a (len : Z) : bool := sum_bytes (Z.to_nat len) a 0 =? 0.
(** The comparison of memory with a literal.
    [kernel/drivers/acpi.c] acpi_memcmp *)
Fixpoint acpi_memcmp a (b : bytes) : Z :=
  match b with
  | [] => 0
  | c :: b => if negb (mem8 a =? c) then mem8 a - c else acpi_memcmp (a + 1) b
  end.

(** [kernel/drivers/acpi.c:78-82] acpi_find_rsdp *)
Definition is_rsdp a : bool := (acpi_memcmp a (lit "RSD PTR ") =? 0) && acpi_checksum_ok a 20.
(** The first of [n] places 16 bytes apart.
    [kernel/drivers/acpi.c:76-83] acpi_find_rsdp *)
Fixpoint scan_rsdp (n : nat) a : option Z :=
  match n with
  | O => None
  | S n => if is_rsdp a then Some a else scan_rsdp n (a + 16)
  end.
(** [kernel/drivers/acpi.c] acpi_find_rsdp *)
Definition acpi_find_rsdp : option Z :=
  let ebda := Z.shiftl (mem16 0x40E) 4 in
  match (if (0x80000 <=? ebda) && (ebda <? 0xA0000) then scan_rsdp 64 ebda else None) with
  | Some a => Some a
  | None => scan_rsdp (Z.to_nat 8192) 0xE0000
  end.
(** [sizeof(AcpiSdtHeader)].
    [kernel/drivers/acpi.c] AcpiSdtHeader *)
Definition SDT_HEADER := 36.
(** The entries from the i-th on.
    [kernel/drivers/acpi.c:101-105] acpi_find_table *)
Fixpoint find_entry (n : nat) (table_ptrs i : Z) (sig : bytes) : option Z :=
  match n with
  | O => None
  | S n =>
      let hdr := mem32 (table_ptrs + 4 * i) in
      if negb (hdr =? 0) && (acpi_memcmp hdr sig =? 0) then Some hdr else find_entry n table_ptrs (i + 1) sig
  end.
(** [kernel/drivers/acpi.c] acpi_find_table *)
Definition acpi_find_table (rsdt : Z) (sig : bytes) : option Z :=
  if (rsdt =? 0) || negb (acpi_memcmp rsdt (lit "RSDT") =? 0) then None else
  let entries := u32 (u64 (mem32 (rsdt + 4) - SDT_HEADER) / 4) in
  find_entry (Z.to_nat entries) (rsdt + SDT_HEADER) 0 sig.

(** A package element: a byte after the prefix 0x0A, or the byte itself; its value shifted to the sleep type's bits,
    and where it stands.
    [kernel/drivers/acpi.c:123-124] acpi_parse_s5 *)
Definition s5_element (pkg : Z) : Z * Z :=
  let pkg := if mem8 pkg =? 0x0A then pkg + 1 else pkg in (u16 (Z.shiftl (mem8 pkg) 10), pkg).
(** What follows the name at [i]: the package's first two elements.
    [kernel/drivers/acpi.c:120-128] acpi_parse_s5 *)
Definition s5_types (dsdt i : Z) : Z * Z :=
  let pkg := dsdt + i + 5 in
  let pkg := pkg + Z.shiftr (Z.land (mem8 pkg) 0xC0) 6 + 2 in
  let '(typa, pkg) := s5_element pkg in
  let '(typb, _) := s5_element (pkg + 1) in
  (typa, typb).
(** The tests of a place of the table: the name, the name operator before it, the package operator after it.
    [kernel/drivers/acpi.c:112-118] acpi_parse_s5 *)
Definition is_s5 (dsdt i : Z) : bool :=
  (acpi_memcmp (dsdt + i) (lit "_S5_") =? 0) && negb (i <? 1) &&
  ((mem8 (dsdt + (i - 1)) =? 0x08) || ((2 <=? i) && (mem8 (dsdt + (i - 2)) =? 0x5C) && (mem8 (dsdt + (i - 1)) =? 0x08))) &&
  (mem8 (dsdt + (i + 4)) =? 0x12).
(** [kernel/drivers/acpi.c:111-131] acpi_parse_s5 *)
Fixpoint s5_loop (n : nat) (dsdt length i : Z) : option (Z * Z) :=
  match n with
  | O => None
  | S n =>
      if negb (u32 (i + 7) <? length) then None else
      if is_s5 dsdt i then Some (s5_types dsdt i) else s5_loop n dsdt length (u32 (i + 1))
  end.
(** The two sleep types.
    [kernel/drivers/acpi.c] acpi_parse_s5 *)
Definition acpi_parse_s5 (dsdt length : Z) : option (Z * Z) :=
  if (dsdt =? 0) || (length <? SDT_HEADER) then None else s5_loop (Z.to_nat length) dsdt length SDT_HEADER.
End acpi.

(** [kernel/drivers/acpi.c] AcpiGas *)
Record AcpiGas := mkGas { address_space : Z; bit_width : Z; bit_offset : Z; access_size : Z; address : Z }.
(** [kernel/drivers/acpi.c:49-55] g_pm1a_cnt *)
Record Acpi := mkAcpi {
  g_pm1a_cnt : Z; g_pm1b_cnt : Z; g_slp_typa : Z; g_slp_typb : Z; g_reset_value : Z; g_reset_reg : AcpiGas; g_acpi_ready : bool }.
#[export] Instance eta_Acpi : Eta Acpi := fun s =>
  mkAcpi (g_pm1a_cnt s) (g_pm1b_cnt s) (g_slp_typa s) (g_slp_typb s) (g_reset_value s) (g_reset_reg s) (g_acpi_ready s).

(** A table with a signature and a good checksum; a null pointer is none. *)
Definition table_ok (m : memory) (a : Z) (sig : bytes) : bool :=
  negb (a =? 0) && (acpi_memcmp m a sig =? 0) && acpi_checksum_ok m a (mem32 m (a + 4)).
(** The fields read from the fixed description table, and the address of the DSDT.
    [kernel/drivers/acpi.c:157-168] acpi_init *)
Definition read_fadt (m : memory) (s : Acpi) (fadt : Z) : Acpi * Z :=
  let s := s <| g_pm1a_cnt := u16 (mem32 m (fadt + 64)) |> <| g_pm1b_cnt := u16 (mem32 m (fadt + 68)) |>
             <| g_reset_reg := mkGas (mem8 m (fadt + 116)) (mem8 m (fadt + 117)) (mem8 m (fadt + 118))
                                     (mem8 m (fadt + 119)) (mem64 m (fadt + 120)) |>
             <| g_reset_value := mem8 m (fadt + 128) |> in
  let x_dsdt := if 148 <=? mem32 m (fadt + 4) then mem64 m (fadt + 140) else 0 in
  (s, if negb (x_dsdt =? 0) then u32 x_dsdt else mem32 m (fadt + 40)).
(** [kernel/drivers/acpi.c] acpi_init *)
Definition acpi_init (m : memory) (s : Acpi) : bool * Acpi :=
  match acpi_find_rsdp m with
  | None => (false, s <| g_acpi_ready := false |>)
  | Some rsdp =>
      let rsdt := mem32 m (rsdp + 16) in
      if negb (table_ok m rsdt (lit "RSDT")) then (false, s <| g_acpi_ready := false |>) else
      match acpi_find_table m rsdt (lit "FACP") with
      | None => (false, s <| g_acpi_ready := false |>)
      | Some fadt =>
          if negb (acpi_checksum_ok m fadt (mem32 m (fadt + 4))) then (false, s <| g_acpi_ready := false |>) else
          let '(s, dsdt) := read_fadt m s fadt in
          if negb (table_ok m dsdt (lit "DSDT")) then (false, s <| g_acpi_ready := false |>) else
          match acpi_parse_s5 m dsdt (mem32 m (dsdt + 4)) with
          | None => (false, s <| g_acpi_ready := false |>)
          | Some (typa, typb) =>
              let s := s <| g_slp_typa := typa |> <| g_slp_typb := typb |> in
              let ready := negb (g_pm1a_cnt s =? 0) && negb (g_slp_typa s =? 0) in
              (ready, s <| g_acpi_ready := ready |>)
          end
      end
  end.
(** [kernel/drivers/acpi.c] acpi_ready *)
Definition acpi_ready (s : Acpi) : bool := g_acpi_ready s.
(** A write to an I/O port: its width in bytes, the port, the value. *)
Definition PortWrite : Type := Z * Z * Z.
(** The writes before the processor halts for good.
    [kernel/drivers/acpi.c] acpi_shutdown *)
Definition acpi_shutdown (s : Acpi) : list PortWrite :=
  let slp_en := Z.shiftl 1 13 in
  (if g_acpi_ready s then
     [(2, g_pm1a_cnt s, u16 (Z.lor (g_slp_typa s) slp_en))] ++
     (if negb (g_pm1b_cnt s =? 0) then [(2, g_pm1b_cnt s, u16 (Z.lor (g_slp_typb s) slp_en))] else [])
   else []) ++
  [(2, 0x604, 0x2000); (2, 0x4004, 0x2000); (2, 0xB004, 0x2000)].
(** [kernel/drivers/acpi.c] acpi_reboot *)
Definition acpi_reboot (s : Acpi) : list PortWrite :=
  (if (address_space (g_reset_reg s) =? 1) && negb (address (g_reset_reg s) =? 0)
   then [(1, u16 (address (g_reset_reg s)), g_reset_value s)] else []) ++
  [(1, 0xCF9, 0x02); (1, 0xCF9, 0x06)].

(** ** Checksums and comparisons *)

Lemma sum_bytes_spec m n : forall a sum, is_u8 sum ->
  sum_bytes m n a sum = (sum + fold_right Z.add 0 (mem_read m a n)) mod 2 ^ 8.
Proof.
  induction n as [|n IH]; intros a sum Hs; cbn [sum_bytes].
  { cbn. rewrite Z.add_0_r. symmetry. by apply u8_id. }
  rewrite IH by apply u8_is. unfold mem_read. cbn [seq fmap list_fmap fold_right]. rewrite <- fmap_S_seq, <- list_fmap_compose, Z.add_0_r.
  rewrite (list_fmap_ext ((fun i : nat => m (a + Z.of_nat i)) ∘ S) (fun i => m (a + 1 + Z.of_nat i))) by (intros; cbn; f_equal; lia).
  unfold u8, mem8, u8. rewrite Zplus_mod_idemp_l, Z.add_assoc, <- (Zplus_mod_idemp_l (sum + _)), Zplus_mod_idemp_r, Zplus_mod_idemp_l. done.
Qed.
(** A table's checksum is good when its bytes add up to a multiple of 256. *)
Lemma acpi_checksum_spec m a len : acpi_checksum_ok m a len = (fold_right Z.add 0 (mem_read m a (Z.to_nat len)) mod 2 ^ 8 =? 0).
Proof. unfold acpi_checksum_ok. rewrite sum_bytes_spec; [done|unfold is_u8; lia]. Qed.
Lemma acpi_memcmp_eq m b : forall a, (acpi_memcmp m a b =? 0) = true <-> (fun i : nat => mem8 m (a + Z.of_nat i)) <$> seq 0 (length b) = b.
Proof.
  induction b as [|c b IH]; intros a; [done|]. cbn [acpi_memcmp length seq fmap list_fmap].
  rewrite <- fmap_S_seq, <- list_fmap_compose, Z.add_0_r.
  rewrite (list_fmap_ext ((fun i : nat => mem8 m (a + Z.of_nat i)) ∘ S) (fun i => mem8 m (a + 1 + Z.of_nat i))) by (intros; cbn; f_equal; lia).
  destruct (Z.eqb_spec (mem8 m a) c) as [->|Hne]; cbn [negb].
  - rewrite IH. split; [by intros ->|by injection 1].
  - split; [|by injection 1]. intros E1. apply Z.eqb_eq in E1. lia.
Qed.

(** ** The root pointer *)

(** The places where it is looked for: every 16 bytes of the first kilobyte of the extended BIOS data area, and of the
    BIOS area. *)
Definition rsdp_places (m : memory) : list Z :=
  let ebda := mem16 m 0x40E * 16 in
  (if (0x80000 <=? ebda) && (ebda <? 0xA0000) then (fun i : nat => ebda + 16 * Z.of_nat i) <$> seq 0 64 else []) ++
  ((fun i : nat => 0xE0000 + 16 * Z.of_nat i) <$> seq 0 (Z.to_nat 8192)).

Lemma scan_rsdp_spec m n : forall a, scan_rsdp m n a = head (filter (fun x => is_rsdp m x = true) ((fun i : nat => a + 16 * Z.of_nat i) <$> seq 0 n)).
Proof.
  induction n as [|n IH]; intros a; [done|]. cbn [scan_rsdp seq fmap list_fmap]. rewrite Z.mul_0_r, Z.add_0_r.
  rewrite <- fmap_S_seq, <- list_fmap_compose.
  rewrite (list_fmap_ext ((fun i : nat => a + 16 * Z.of_nat i) ∘ S) (fun i => a + 16 + 16 * Z.of_nat i)) by (intros; cbn; lia).
  rewrite filter_cons. destruct (is_rsdp m a) eqn:E1; [by rewrite decide_True|]. rewrite decide_False by done. apply IH.
Qed.
(** The root pointer found is the first of those places, in that order, that carries the signature and a good
    checksum, and none is found exactly when no place does. *)
Lemma acpi_find_rsdp_first m :
  acpi_find_rsdp m = head (filter (fun x => is_rsdp m x = true) (rsdp_places m)).
Proof.
  unfold acpi_find_rsdp, rsdp_places. rewrite Z.shiftl_mul_pow2 by lia. change (2 ^ 4) with 16. rewrite filter_app.
  destruct (_ && _).
  - rewrite scan_rsdp_spec. destruct (filter _ (_ <$> seq 0 64)); [|done]. apply scan_rsdp_spec.
  - apply scan_rsdp_spec.
Qed.

(** ** The sleep types *)

(** A byte value in a package: after the prefix, or alone. *)
Inductive element : Z -> bytes -> Prop :=
  | prefixed v : element v [0x0A; v]
  | bare v : v <> 0x0A -> element v [v].
(** [mem] at [a] holds the bytes [l]. *)
Definition holds (m : memory) (a : Z) (l : bytes) : Prop := forall i : nat, (i < length l)%nat -> mem8 m (a + Z.of_nat i) = l !!! i.
Lemma holds_app m a l k : holds m a (l ++ k) <-> holds m a l /\ holds m (a + Z.of_nat (length l)) k.
Proof.
  unfold holds. split.
  - intros Hh. split; intros i Hi.
    + rewrite Hh by (rewrite length_app; lia). by rewrite lookup_total_app_l.
    + specialize (Hh (length l + i)%nat ltac:(rewrite length_app; lia)). rewrite lookup_total_app_r in Hh by lia.
      replace (length l + i - length l)%nat with i in Hh by lia. rewrite <- Hh. f_equal. lia.
  - intros [Hl Hk] i Hi. rewrite length_app in Hi. destruct (decide (i < length l)%nat).
    + rewrite lookup_total_app_l by done. by apply Hl.
    + rewrite lookup_total_app_r by lia. rewrite <- Hk by lia. f_equal. lia.
Qed.
Lemma holds_cons m a c l : holds m a (c :: l) <-> mem8 m a = c /\ holds m (a + 1) l.
Proof.
  change (c :: l) with ([c] ++ l). rewrite holds_app. cbn [length]. apply and_iff_compat_r. unfold holds. split.
  - intros Hh. specialize (Hh 0%nat ltac:(cbn; lia)). by rewrite Z.add_0_r in Hh.
  - intros Hc i Hi. cbn in Hi. replace i with 0%nat by lia. by rewrite Z.add_0_r.
Qed.
(** The object [Name (_S5_, Package () \{a, b, ...\})]: [lead] is the first byte of the package length, its two high
    bits the number of bytes that follow it. *)
Definition s5_object (lead : Z) (more : bytes) (count : Z) (ea eb : bytes) : bytes :=
  [0x08] ++ lit "_S5_" ++ [0x12; lead] ++ more ++ [count] ++ ea ++ eb.

Lemma s5_element_spec m a v l : element v l -> holds m a l ->
  s5_element m a = (u16 (Z.shiftl v 10), a + Z.of_nat (length l) - 1).
Proof.
  intros [w|w Hw] Hh; unfold s5_element.
  - apply holds_cons in Hh as [-> Hh]. apply holds_cons in Hh as [E1 _]. cbn [Z.eqb Pos.eqb length]. rewrite E1. f_equal. lia.
  - apply holds_cons in Hh as [E1 _]. rewrite E1, (proj2 (Z.eqb_neq w 0x0A)), E1 by done. cbn [length]. by replace (a + Z.of_nat 1 - 1) with a by lia.
Qed.
Lemma s5_types_spec m dsdt i lead more count ea eb a b :
  holds m (dsdt + i - 1) (s5_object lead more count ea eb) -> Z.of_nat (length more) = Z.shiftr (Z.land lead 0xC0) 6 ->
  element a ea -> element b eb -> s5_types m dsdt i = (u16 (Z.shiftl a 10), u16 (Z.shiftl b 10)).
Proof.
  intros Hh Hm Ea Eb. unfold s5_object in Hh. change (lit "_S5_") with [95; 83; 53; 95] in Hh. apply holds_app in Hh as [_ Hh]. apply holds_app in Hh as [_ Hh].
  cbn [app] in Hh. apply holds_cons in Hh as [_ Hh]. apply holds_cons in Hh as [Hlead Hh].
  apply holds_app in Hh as [_ Hh]. apply holds_cons in Hh as [_ Hh]. apply holds_app in Hh as [Ha Hb].
  cbn [length] in *. replace (dsdt + i - 1 + Z.of_nat 1 + Z.of_nat 4 + 1) with (dsdt + i + 5) in * by lia.
  unfold s5_types. rewrite Hlead, <- Hm.
  replace (dsdt + i + 5 + Z.of_nat (length more) + 2) with (dsdt + i + 5 + 1 + Z.of_nat (length more) + 1) by lia.
  rewrite (s5_element_spec m _ a ea Ea Ha).
  replace (dsdt + i + 5 + 1 + Z.of_nat (length more) + 1 + Z.of_nat (length ea) - 1 + 1)
    with (dsdt + i + 5 + 1 + Z.of_nat (length more) + 1 + Z.of_nat (length ea)) by lia.
  by rewrite (s5_element_spec m _ b eb Eb Hb).
Qed.
Lemma s5_object_found m dsdt i lead more count ea eb : 1 <= i ->
  holds m (dsdt + i - 1) (s5_object lead more count ea eb) -> is_s5 m dsdt i = true.
Proof.
  intros Hi Hh. unfold s5_object in Hh. change (lit "_S5_") with [95; 83; 53; 95] in Hh. apply holds_app in Hh as [H8 Hh]. apply holds_app in Hh as [Hn Hh].
  cbn [app length] in *. apply holds_cons in Hh as [H12 _]. apply holds_cons in H8 as [H8 _].
  unfold is_s5. replace (dsdt + (i - 1)) with (dsdt + i - 1) by lia. rewrite H8.
  replace (dsdt + (i + 4)) with (dsdt + i - 1 + Z.of_nat 1 + Z.of_nat 4) by lia. rewrite H12.
  rewrite (proj2 (Z.ltb_ge i 1)) by lia. rewrite (proj2 (acpi_memcmp_eq m (lit "_S5_") (dsdt + i))); [done|].
  replace (dsdt + i - 1 + Z.of_nat 1) with (dsdt + i) in Hn by lia.
  change (lit "_S5_") with [95; 83; 53; 95]. cbn [length seq fmap list_fmap].
  pose proof (Hn 0%nat ltac:(cbn; lia)) as E0. pose proof (Hn 1%nat ltac:(cbn; lia)) as E1.
  pose proof (Hn 2%nat ltac:(cbn; lia)) as E2. pose proof (Hn 3%nat ltac:(cbn; lia)) as E3. cbn [lookup_total list_lookup_total] in E0, E1, E2, E3. by rewrite E0, E1, E2, E3.
Qed.
Lemma s5_loop_spec m dsdt length pos n : forall i, (Z.to_nat (length - i) <= n)%nat -> i <= pos -> pos + 7 < length -> length <= 2 ^ 31 -> 0 <= i ->
  is_s5 m dsdt pos = true -> (forall j, i <= j < pos -> is_s5 m dsdt j = false) ->
  s5_loop m n dsdt length i = Some (s5_types m dsdt pos).
Proof.
  induction n as [|n IH]; intros i Hn Hi Hpos Hlen H0 Hok Hno; [lia|]. cbn [s5_loop].
  rewrite u32_id by (unfold is_u32; lia). rewrite (proj2 (Z.ltb_lt (i + 7) length)) by lia. cbn [negb].
  destruct (decide (i = pos)) as [->|Hne]; [by rewrite Hok|]. rewrite Hno by lia. rewrite u32_id by (unfold is_u32; lia).
  apply IH; try done; try lia. intros j Hj. apply Hno. lia.
Qed.
Lemma s5_loop_none m dsdt length n : forall i, (forall j, is_s5 m dsdt j = false) -> s5_loop m n dsdt length i = None.
Proof. induction n as [|n IH]; intros i Hno; [done|]. cbn [s5_loop]. destruct (negb _); [done|]. rewrite Hno. by apply IH. Qed.


(** ** Tables for an example *)

(** The bytes of [l] with the one at [k] set so that they add up to a multiple of 256. *)
Definition with_checksum (k : nat) (l : bytes) : bytes := <[k := (- fold_right Z.add 0 (<[k := 0]> l)) mod 256]> l.
Definition demo_table (sig : bytes) (body : bytes) : bytes :=
  with_checksum 9 (sig ++ le_enc 4 (36 + Z.of_nat (length body)) ++ zeros 28 ++ body).
Definition demo_rsdp : bytes := with_checksum 8 (lit "RSD PTR " ++ zeros 8 ++ le_enc 4 0x1000).
Definition demo_s5 : bytes := s5_object 0x06 [] 4 [0x0A; 5] [0].
(** The FADT names the DSDT at 0x3000 and the control port 0x604. *)
Definition demo_fadt : bytes := zeros 4 ++ le_enc 4 0x3000 ++ zeros 20 ++ le_enc 4 0x604 ++ zeros 61.
Definition demo_memory : memory :=
  mem_write (mem_write (mem_write (mem_write (fun _ => 0) 0xE0040 demo_rsdp) 0x1000 (demo_table (lit "RSDT") (le_enc 4 0x2000)))
    0x2000 (demo_table (lit "FACP") demo_fadt)) 0x3000 (demo_table (lit "DSDT") (demo_s5 ++ zeros 10)).
Definition acpi0 : Acpi := mkAcpi 0 0 0 0 0 (mkGas 0 0 0 0 0) false.

Lemma demo_s5_held : holds demo_memory (0x3000 + 37 - 1) demo_s5.
Proof. intros i Hi. do 11 (destruct i as [|i]; [vm_compute; reflexivity|]). cbn in Hi. lia. Qed.
Lemma demo_no_earlier : forall j, 36 <= j < 37 -> is_s5 demo_memory 0x3000 j = false.
Proof. intros j Hj. replace j with 36 by lia. vm_compute. reflexivity. Qed.
Lemma demo_dsdt : (read_fadt demo_memory acpi0 0x2000).2 = 0x3000.
Proof. vm_compute. reflexivity. Qed.


(** ** What the search misses *)

(** A name given from the root, [\_S5_], has the root character before its four letters: it is not found, although the
    comments of the test name that form. *)
Lemma s5_root_name_missed m dsdt len :
  (forall j, acpi_memcmp m (dsdt + j) (lit "_S5_") = 0 -> mem8 m (dsdt + (j - 1)) = 0x5C) -> acpi_parse_s5 m dsdt len = None.
Proof.
  intros Hroot. unfold acpi_parse_s5. destruct (_ || _); [done|]. apply s5_loop_none. intros j. unfold is_s5.
  destruct (Z.eqb_spec (acpi_memcmp m (dsdt + j) (lit "_S5_")) 0) as [E1|]; [|done]. rewrite (Hroot j E1). cbn [Z.eqb Pos.eqb orb andb].
  by rewrite !andb_false_r.
Qed.
(** The number of entries of a root table whose length is less than its header's. *)
Lemma rsdt_entries_wrap : u32 (u64 (32 - SDT_HEADER) / 4) = 2 ^ 32 - 1.
Proof. reflexivity. Qed.
