(* ===== verification/Pci.v ===== *)
(** PCI enumeration of the 64-bit kernel (kernel/arch/x86_64/kernel_x64.c).  Configuration
    space is reached through the address port 0xCF8 and the data port 0xCFC: the bus behind
    them is a parameter, an instance of [PciBus]. *)

From S2P Require Import Prelude.

(** The double word the data port gives for an address, and a write of it. *)
Class PciBus (P : Type) := {
  pci_data : P -> Z -> Z;
  pci_store : P -> Z -> Z -> P }.

(** [kernel/arch/x86_64/kernel_x64.c] PciDev *)
Record PciDev := mkPciDev {
  bus : Z; slot : Z; func : Z; vendor_id : Z; device_id : Z; class_code : Z; subclass : Z; bar0 : Z; irq : Z }.
(** [kernel/arch/x86_64/kernel_x64.c:3451-3451] MAX_PCI_DEVS *)
Definition MAX_PCI_DEVS := 32.
(** [(1u << 31) | (bus << 16) | (slot << 11) | (func << 8) | (off & 0xFC)]. *)
Definition pci_address (bus slot func off : Z) : Z :=
  Z.lor (Z.lor (Z.lor (Z.lor (2 ^ 31) (Z.shiftl bus 16)) (Z.shiftl slot 11)) (Z.shiftl func 8)) (Z.land off 0xFC).

Section pci.
Context {P : Type} `{PciBus P}.

(** [kernel/arch/x86_64/kernel_x64.c] pci_read32 *)
Definition pci_read32 (p : P) (bus slot func off : Z) : Z := u32 (pci_data p (pci_address bus slot func off)).
(** [kernel/arch/x86_64/kernel_x64.c] pci_write32 *)
Definition pci_write32 (p : P) (bus slot func off val : Z) : P := pci_store p (pci_address bus slot func off) val.

(** The function 0 of a slot, if a device answers.
    [kernel/arch/x86_64/kernel_x64.c:3459-3473] pci_scan *)
Definition pci_probe (p : P) (bus slot : Z) : option PciDev :=
  let id := pci_read32 p bus slot 0 0 in
  let vendor := Z.land id 0xFFFF in
  if vendor =? 0xFFFF then None else
  let device := Z.shiftr id 16 in
  let cls := pci_read32 p bus slot 0 0x08 in
  let bar0 := pci_read32 p bus slot 0 0x10 in
  let irq_info := pci_read32 p bus slot 0 0x3C in
  Some (mkPciDev bus slot 0 vendor device (Z.land (Z.shiftr cls 24) 0xFF) (Z.land (Z.shiftr cls 16) 0xFF)
          bar0 (Z.land irq_info 0xFF)).
(** The slots of a bus, from [slot] on.
    [kernel/arch/x86_64/kernel_x64.c:3458-3474] pci_scan *)
Fixpoint scan_slots (n : nat) (p : P) (bus slot : Z) (devs : list PciDev) : list PciDev :=
  match n with
  | O => devs
  | S n => if negb (Z.of_nat (length devs) <? MAX_PCI_DEVS) then devs else
           scan_slots n p bus (slot + 1)
             (match pci_probe p bus slot with Some d => devs ++ [d] | None => devs end)
  end.
(** [kernel/arch/x86_64/kernel_x64.c:3457-3475] pci_scan *)
Fixpoint scan_buses (n : nat) (p : P) (bus : Z) (devs : list PciDev) : list PciDev :=
  match n with
  | O => devs
  | S n => if negb (Z.of_nat (length devs) <? MAX_PCI_DEVS) then devs else
           scan_buses n p (bus + 1) (scan_slots 32 p bus 0 devs)
  end.
(** The devices found, in the order of the table.
    [kernel/arch/x86_64/kernel_x64.c] pci_scan *)
Definition pci_scan (p : P) : list PciDev := scan_buses 256 p 0 [].
(** [kernel/arch/x86_64/kernel_x64.c] kernel_pci_count *)
Definition kernel_pci_count (devs : list PciDev) : Z := Z.of_nat (length devs).
(** [kernel/arch/x86_64/kernel_x64.c:3479-3486] kernel_pci_get *)
Definition kernel_pci_get (devs : list PciDev) (idx : Z) : option PciDev :=
  if (idx <? 0) || (kernel_pci_count devs <=? idx) then None else devs !! Z.to_nat idx.
(** The controller the kernel starts: the first of the table with the class codes.
    [kernel/arch/x86_64/kernel_x64.c:5127-5128] kernel_main *)
Definition first_of_class (devs : list PciDev) (cls sub : Z) : option PciDev :=
  head (filter (fun d => class_code d = cls /\ subclass d = sub) devs).

(** Enabling memory access and bus mastering.
    [kernel/arch/x86_64/kernel_x64.c:4072-4074] nvme_init *)
Definition pci_enable (p : P) (d : PciDev) : P :=
  let cmd := pci_read32 p (bus d) (slot d) 0 0x04 in
  pci_write32 p (bus d) (slot d) 0 0x04 (Z.lor cmd (Z.lor 4 2)).
(** The address in the base register at [off], whose high half is the register after it; none for an I/O port or 0.
    [kernel/arch/x86_64/kernel_x64.c:4077-4085] nvme_init *)
Definition pci_mmio_base (p : P) (d : PciDev) (off : Z) : option Z :=
  let bar := pci_read32 p (bus d) (slot d) 0 off in
  if Z.testbit bar 0 then None else
  let phys := Z.land bar (2 ^ 64 - 16) in
  let phys := if Z.land bar 6 =? 4 then Z.lor phys (Z.shiftl (pci_read32 p (bus d) (slot d) 0 (off + 4)) 32) else phys in
  if phys =? 0 then None else Some phys.

(** ** The table holds the first 32 devices *)

Definition slots_of (b : Z) : list (Z * Z) := (fun s => (b, Z.of_nat s)) <$> seq 0 32.
Definition positions_from (bs : list Z) : list (Z * Z) := b ← bs; slots_of b.
Definition positions : list (Z * Z) := positions_from (Z.of_nat <$> seq 0 256).
Definition present (p : P) (l : list (Z * Z)) : list PciDev := omap (fun x => pci_probe p x.1 x.2) l.

Lemma scan_slots_spec n p b : forall s devs, (length devs <= 32)%nat -> 0 <= s ->
  scan_slots n p b s devs = take 32 (devs ++ present p ((fun i => (b, s + Z.of_nat i)) <$> seq 0 n)).
Proof.
  unfold MAX_PCI_DEVS. induction n as [|n IH]; intros s devs Hl Hs; cbn [scan_slots].
  { cbn. by rewrite app_nil_r, take_ge by lia. }
  unfold MAX_PCI_DEVS. destruct (Z.ltb_spec (Z.of_nat (length devs)) 32) as [Hlt|Hge]; cbn [negb].
  2:{ rewrite take_app_le, take_ge by lia. done. }
  rewrite IH by (destruct (pci_probe p b s); rewrite ?length_app; cbn; lia). f_equal.
  cbn [seq fmap list_fmap present omap list_omap fst snd].
  rewrite <- (fmap_S_seq 0 n), <- list_fmap_compose.
  replace (s + Z.of_nat 0) with s by lia. unfold present.
  rewrite (list_fmap_ext ((fun i => (b, s + Z.of_nat i)) ∘ S) (fun i => (b, s + 1 + Z.of_nat i))) by (intros; cbn; f_equal; lia).
  destruct (pci_probe p b s); [by rewrite <- app_assoc|done].
Qed.
Lemma take_app_take {A} n (l k : list A) : take n (take n l ++ k) = take n (l ++ k).
Proof.
  rewrite !take_app, take_take, Nat.min_id, length_take. destruct (decide (length l <= n)%nat).
  - do 2 f_equal. lia.
  - replace (n - Nat.min n (length l))%nat with 0%nat by lia. by replace (n - length l)%nat with 0%nat by lia.
Qed.
Lemma scan_buses_spec n p : forall b devs, (length devs <= 32)%nat -> 0 <= b ->
  scan_buses n p b devs =
  take 32 (devs ++ present p (positions_from ((fun i => b + Z.of_nat i) <$> seq 0 n))).
Proof.
  induction n as [|n IH]; intros b devs Hl Hb; cbn [scan_buses].
  { cbn. by rewrite app_nil_r, take_ge by lia. }
  unfold MAX_PCI_DEVS. destruct (Z.ltb_spec (Z.of_nat (length devs)) 32) as [Hlt|Hge]; cbn [negb].
  2:{ rewrite take_app_le, take_ge by lia. done. }
  rewrite scan_slots_spec by lia. change ((fun i : nat => (b, 0 + Z.of_nat i)) <$> seq 0 32) with (slots_of b). rewrite IH by (rewrite ?length_take; lia). rewrite take_app_take, <- app_assoc.
  f_equal. f_equal. change (seq 0 (S n)) with (0%nat :: seq 1 n). rewrite <- (fmap_S_seq 0 n).
  rewrite fmap_cons. unfold positions_from, present. rewrite bind_cons, omap_app. rewrite Z.add_0_r. f_equal.
  do 2 f_equal. rewrite <- list_fmap_compose. apply list_fmap_ext. intros; cbn. lia.
Qed.

(** Enumeration finds the devices that answer, function 0 of each slot, in the order of bus and slot, and keeps
    the first 32. *)
Lemma pci_scan_finds p : pci_scan p = take 32 (present p positions).
Proof.
  unfold pci_scan. rewrite scan_buses_spec; [|apply Nat.le_0_l|lia]. unfold positions, positions_from. cbn [app].
  rewrite (list_fmap_ext (fun i => 0 + Z.of_nat i) Z.of_nat) by (intros; apply Z.add_0_l). done.
Qed.
End pci.
