(* ===== verification/Nvme.v ===== *)
(** The NVMe driver of the 64-bit kernel (kernel/arch/x86_64/kernel_x64.c): the admin and the
    I/O queue pairs with their doorbells and phase tags, controller start-up, and reading and
    writing sectors.

    The controller is a parameter, an instance of [NvmeCtl]: its registers, and the writes to
    the queues and buffers it makes while the driver polls.  [NvmeLaws] states what the NVMe
    specification asks of a controller that has accepted the queues; [DemoCtl] is an instance. *)

From S2P Require Import Prelude CString Frames Paging Pci BlockDev.

(** [kernel/arch/x86_64/kernel_x64.c] NvmeSqe *)
Record NvmeSqe := mkSqe {
  cdw0 : Z; nsid : Z; sqe_rsvd : Z; mptr : Z; prp1 : Z; prp2 : Z;
  cdw10 : Z; cdw11 : Z; cdw12 : Z; cdw13 : Z; cdw14 : Z; cdw15 : Z }.
(** [kernel/arch/x86_64/kernel_x64.c] NvmeCqe *)
Record NvmeCqe := mkCqe { cqe_dw0 : Z; cqe_dw1 : Z; sq_head : Z; sq_id : Z; cqe_cid : Z; cqe_status : Z }.
(** A zeroed entry, as [nvme_memzero] leaves it.
    [kernel/arch/x86_64/kernel_x64.c] nvme_memzero *)
Definition sqe0 : NvmeSqe := mkSqe 0 0 0 0 0 0 0 0 0 0 0 0.
Definition cqe0 : NvmeCqe := mkCqe 0 0 0 0 0 0.
#[export] Instance sqe_inhabited : Inhabited NvmeSqe := populate sqe0.
#[export] Instance cqe_inhabited : Inhabited NvmeCqe := populate cqe0.

(** [kernel/arch/x86_64/kernel_x64.c:3934-3934] NVME_AQ_DEPTH *)
Definition NVME_AQ_DEPTH := 16.
(** [kernel/arch/x86_64/kernel_x64.c:4179-4179] NVME_IOQ_DEPTH *)
Definition NVME_IOQ_DEPTH := 16.

(** The queues and buffers the controller reads and writes.
    [kernel/arch/x86_64/kernel_x64.c:3963-3965] nvme_asq *)
Record NvmeMem := mkMem {
  nvme_asq : list NvmeSqe; nvme_acq : list NvmeCqe; nvme_ident_buf : bytes;
  nvme_iosq : list NvmeSqe; nvme_iocq : list NvmeCqe; nvme_io_buf : bytes }.
#[export] Instance eta_NvmeMem : Eta NvmeMem := fun m =>
  mkMem (nvme_asq m) (nvme_acq m) (nvme_ident_buf m) (nvme_iosq m) (nvme_iocq m) (nvme_io_buf m).

(** A controller: reading a 32-bit register, writing one, and what it does to the memory between two polls. *)
Class NvmeCtl (D : Type) := {
  nv_reg : D -> Z -> Z;
  nv_store : D -> Z -> Z -> D;
  nv_step : D -> NvmeMem -> D * NvmeMem }.

(** [kernel/arch/x86_64/kernel_x64.c:3967-3974] nvme_up *)
Record Nvme (D : Type) := mkNvme {
  nvme_mmio : Z; nvme_cap : Z; nvme_vs : Z; nvme_mqes : Z; nvme_up : bool;
  nvme_asq_tail : Z; nvme_acq_head : Z; nvme_acq_phase : Z; nvme_cid_counter : Z;
  nvme_model : bytes; nvme_serial : bytes; nvme_ident_ok : bool; nvme_db_stride : Z;
  nvme_iosq_tail : Z; nvme_iocq_head : Z; nvme_iocq_phase : Z; nvme_ioq_up : bool;
  nvme_mem : NvmeMem; nvme_dev : D }.
Arguments mkNvme {D}. Arguments nvme_mmio {D}. Arguments nvme_cap {D}. Arguments nvme_vs {D}. Arguments nvme_mqes {D}.
Arguments nvme_up {D}. Arguments nvme_asq_tail {D}. Arguments nvme_acq_head {D}. Arguments nvme_acq_phase {D}.
Arguments nvme_cid_counter {D}. Arguments nvme_model {D}. Arguments nvme_serial {D}. Arguments nvme_ident_ok {D}.
Arguments nvme_db_stride {D}. Arguments nvme_iosq_tail {D}. Arguments nvme_iocq_head {D}. Arguments nvme_iocq_phase {D}.
Arguments nvme_ioq_up {D}. Arguments nvme_mem {D}. Arguments nvme_dev {D}.
#[export] Instance eta_Nvme D : Eta (Nvme D) := fun s =>
  mkNvme (nvme_mmio s) (nvme_cap s) (nvme_vs s) (nvme_mqes s) (nvme_up s) (nvme_asq_tail s) (nvme_acq_head s)
    (nvme_acq_phase s) (nvme_cid_counter s) (nvme_model s) (nvme_serial s) (nvme_ident_ok s) (nvme_db_stride s)
    (nvme_iosq_tail s) (nvme_iocq_head s) (nvme_iocq_phase s) (nvme_ioq_up s) (nvme_mem s) (nvme_dev s).

(** Trimming an identify string: at most [dmax - 1] characters, without the blanks at the end.
    [kernel/arch/x86_64/kernel_x64.c] nvme_extract_str *)
Fixpoint trim_blanks (s : bytes) : bytes :=
  match s with
  | [] => []
  | c :: s => match trim_blanks s with [] => if c =? 32 then [] else [c] | t => c :: t end
  end.
(** [kernel/arch/x86_64/kernel_x64.c] nvme_extract_str *)
Definition nvme_extract_str (src : bytes) (len dmax : Z) : bytes :=
  let copy := if len <? dmax - 1 then len else dmax - 1 in
  trim_blanks (read_n src (Z.to_nat copy)).

Section nvme.
Context {D : Type} `{NvmeCtl D}.
(** Where the linker placed the queues and buffers. *)
Context (asq_at acq_at ident_at iosq_at iocq_at iobuf_at : Z).
Implicit Types (s : Nvme D) (m : NvmeMem).

(** [kernel/arch/x86_64/kernel_x64.c] nvme_read32 *)
Definition nvme_read32 s (off : Z) : Z := u32 (nv_reg (nvme_dev s) off).
(** [kernel/arch/x86_64/kernel_x64.c] nvme_write32 *)
Definition nvme_write32 s (off val : Z) : Nvme D := s <| nvme_dev := nv_store (nvme_dev s) off (u32 val) |>.
(** [kernel/arch/x86_64/kernel_x64.c] nvme_read64 *)
Definition nvme_read64 s (off : Z) : Z := Z.lor (Z.shiftl (nvme_read32 s (off + 4)) 32) (nvme_read32 s off).
(** [kernel/arch/x86_64/kernel_x64.c] nvme_write64 *)
Definition nvme_write64 s (off val : Z) : Nvme D := nvme_write32 (nvme_write32 s off val) (off + 4) (Z.shiftr val 32).
(** The controller runs while the driver polls. *)
Definition nvme_poll s : Nvme D :=
  let '(d, m) := nv_step (nvme_dev s) (nvme_mem s) in s <| nvme_dev := d |> <| nvme_mem := m |>.

(** [kernel/arch/x86_64/kernel_x64.c] nvme_ring_asq *)
Definition nvme_ring_asq s : Nvme D := nvme_write32 s 0x1000 (nvme_asq_tail s).
(** [kernel/arch/x86_64/kernel_x64.c] nvme_ring_iosq *)
Definition nvme_ring_iosq s : Nvme D := nvme_write32 s (0x1000 + 2 * nvme_db_stride s) (nvme_iosq_tail s).

(** [p == phase]: the entry was posted in the current round of the queue. *)
Definition cqe_new (c : NvmeCqe) (phase : Z) : bool := Z.land (cqe_status c) 1 =? phase.
(** [(status >> 1) & 0x7FF]. *)
Definition cqe_code (c : NvmeCqe) : Z := Z.land (Z.shiftr (cqe_status c) 1) 0x7FF.
(** The head after an entry is consumed, and the phase it expects then.
    [kernel/arch/x86_64/kernel_x64.c:4256-4260] nvme_wait_iocq *)
Definition cq_advance (head phase depth : Z) : Z * Z :=
  let head := head + 1 in if depth <=? head then (0, Z.lxor phase 1) else (head, phase).
(** The tail after an entry is added.
    [kernel/arch/x86_64/kernel_x64.c:4290-4291] kernel_nvme_read *)
Definition sq_advance (tail depth : Z) : Z := let tail := tail + 1 in if depth <=? tail then 0 else tail.

(** [kernel/arch/x86_64/kernel_x64.c:4016-4038] nvme_wait_acq *)
Fixpoint wait_acq_loop (spin : nat) s (cid : Z) : Z * Nvme D :=
  match spin with
  | O => (-999, s)
  | S spin =>
      let s := nvme_poll s in
      let cqe := geti (nvme_acq (nvme_mem s)) (nvme_acq_head s) in
      if cqe_new cqe (nvme_acq_phase s) then
        let '(head, phase) := cq_advance (nvme_acq_head s) (nvme_acq_phase s) NVME_AQ_DEPTH in
        let s := s <| nvme_acq_head := head |> <| nvme_acq_phase := phase |> in
        let s := nvme_write32 s (0x1000 + nvme_db_stride s) head in
        if negb (cqe_cid cqe =? cid) then wait_acq_loop spin s cid else
        (if cqe_code cqe =? 0 then 0 else - cqe_code cqe, s)
      else wait_acq_loop spin s cid
  end.
(** [kernel/arch/x86_64/kernel_x64.c] nvme_wait_acq *)
Definition nvme_wait_acq s (cid : Z) : Z * Nvme D := wait_acq_loop (Z.to_nat 4000000) s cid.
(** [kernel/arch/x86_64/kernel_x64.c:4249-4268] nvme_wait_iocq *)
Fixpoint wait_iocq_loop (spin : nat) s (cid : Z) : Z * Nvme D :=
  match spin with
  | O => (-999, s)
  | S spin =>
      let s := nvme_poll s in
      let cqe := geti (nvme_iocq (nvme_mem s)) (nvme_iocq_head s) in
      if cqe_new cqe (nvme_iocq_phase s) then
        let '(head, phase) := cq_advance (nvme_iocq_head s) (nvme_iocq_phase s) NVME_IOQ_DEPTH in
        let s := s <| nvme_iocq_head := head |> <| nvme_iocq_phase := phase |> in
        let s := nvme_write32 s (0x1000 + 3 * nvme_db_stride s) head in
        if negb (cqe_cid cqe =? cid) then wait_iocq_loop spin s cid else
        (if cqe_code cqe =? 0 then 0 else - cqe_code cqe, s)
      else wait_iocq_loop spin s cid
  end.
(** [kernel/arch/x86_64/kernel_x64.c] nvme_wait_iocq *)
Definition nvme_wait_iocq s (cid : Z) : Z * Nvme D := wait_iocq_loop (Z.to_nat 4000000) s cid.

(** An admin command: its entry stored at the tail, the doorbell rung, its completion awaited.
    [kernel/arch/x86_64/kernel_x64.c:4046-4057] nvme_identify_controller *)
Definition admin_submit s (cid : Z) (e : NvmeSqe) : Z * Nvme D :=
  let s := s <| nvme_mem := nvme_mem s <| nvme_asq := puti (nvme_asq (nvme_mem s)) (nvme_asq_tail s) e |> |> in
  let s := s <| nvme_asq_tail := sq_advance (nvme_asq_tail s) NVME_AQ_DEPTH |> in
  nvme_wait_acq (nvme_ring_asq s) cid.
(** [kernel/arch/x86_64/kernel_x64.c] nvme_identify_controller *)
Definition nvme_identify_controller s : Z * Nvme D :=
  let cid := nvme_cid_counter s in
  admin_submit (s <| nvme_cid_counter := u16 (cid + 1) |>) cid
    (mkSqe (Z.lor 0x06 (Z.shiftl cid 16)) 0 0 0 ident_at 0 1 0 0 0 0 0).
(** [kernel/arch/x86_64/kernel_x64.c] nvme_create_iocq *)
Definition nvme_create_iocq s : Z * Nvme D :=
  let cid := nvme_cid_counter s in
  admin_submit (s <| nvme_cid_counter := u16 (cid + 1) |>) cid
    (mkSqe (Z.lor 0x05 (Z.shiftl cid 16)) 0 0 0 iocq_at 0 (Z.lor (Z.shiftl (NVME_IOQ_DEPTH - 1) 16) 1) 1 0 0 0 0).
(** [kernel/arch/x86_64/kernel_x64.c] nvme_create_iosq *)
Definition nvme_create_iosq s : Z * Nvme D :=
  let cid := nvme_cid_counter s in
  admin_submit (s <| nvme_cid_counter := u16 (cid + 1) |>) cid
    (mkSqe (Z.lor 0x01 (Z.shiftl cid 16)) 0 0 0 iosq_at 0 (Z.lor (Z.shiftl (NVME_IOQ_DEPTH - 1) 16) 1)
       (Z.lor (Z.shiftl 1 16) 1) 0 0 0 0).
(** [kernel/arch/x86_64/kernel_x64.c] nvme_setup_io_queues *)
Definition nvme_setup_io_queues s : Z * Nvme D :=
  let s := s <| nvme_mem := nvme_mem s <| nvme_iosq := replicate 16 sqe0 |> <| nvme_iocq := replicate 16 cqe0 |> |>
             <| nvme_iosq_tail := 0 |> <| nvme_iocq_head := 0 |> <| nvme_iocq_phase := 1 |> in
  let '(rc, s) := nvme_create_iocq s in
  if negb (rc =? 0) then (rc, s) else
  let '(rc, s) := nvme_create_iosq s in
  if negb (rc =? 0) then (rc, s) else
  (0, s <| nvme_ioq_up := true |>).

(** Waiting until the controller reports it has stopped; the loop ends either way.
    [kernel/arch/x86_64/kernel_x64.c:4107-4110] nvme_init *)
Fixpoint wait_stopped (spin : nat) s : Nvme D :=
  match spin with
  | O => s
  | S spin => let s := nvme_poll s in if negb (Z.testbit (nvme_read32 s 0x1C) 0) then s else wait_stopped spin s
  end.
(** The result of a controller that is ready: identify, then the I/O queues.
    [kernel/arch/x86_64/kernel_x64.c:4139-4153] nvme_init *)
Definition nvme_started s : Nvme D :=
  let s := s <| nvme_up := true |> in
  let '(irc, s) := nvme_identify_controller s in
  let s := if irc =? 0 then
             s <| nvme_serial := nvme_extract_str (drop 24 (nvme_ident_buf (nvme_mem s))) 20 21 |>
               <| nvme_model := nvme_extract_str (drop 44 (nvme_ident_buf (nvme_mem s))) 40 41 |>
               <| nvme_ident_ok := true |>
           else s in
  (nvme_setup_io_queues s).2.
(** [kernel/arch/x86_64/kernel_x64.c:4136-4157] nvme_init *)
Fixpoint wait_ready (spin : nat) s : Z * Nvme D :=
  match spin with
  | O => (-3, s)
  | S spin =>
      let s := nvme_poll s in
      let csts := nvme_read32 s 0x1C in
      if Z.testbit csts 0 then (0, nvme_started s) else
      if Z.testbit csts 1 then (-2, s) else wait_ready spin s
  end.
(** Mapping [n] pages of registers onto themselves.
    [kernel/arch/x86_64/kernel_x64.c:4088-4091] nvme_init *)
Definition map_registers (st : Mm) (kernel_pml4 phys : Z) (n : nat) : Mm :=
  fold_left (fun st i => let a := phys + 4096 * Z.of_nat i in
                         paging_map_4k st kernel_pml4 a a (Z.lor PAGE_PRESENT PAGE_WRITABLE)) (seq 0 n) st.
(** What is read of the capabilities, and the controller stopped if it runs.
    [kernel/arch/x86_64/kernel_x64.c:4097-4111] nvme_init *)
Definition nvme_probe s : Nvme D :=
  let cap := nvme_read64 s 0x00 in
  let s := s <| nvme_cap := cap |> <| nvme_vs := nvme_read32 s 0x08 |> <| nvme_mqes := Z.land cap 0xFFFF |>
             <| nvme_db_stride := Z.shiftl 4 (Z.land (Z.shiftr cap 32) 0xF) |> in
  let cc := nvme_read32 s 0x14 in
  if Z.testbit cc 0 then wait_stopped (Z.to_nat 2000000) (nvme_write32 s 0x14 (Z.clearbit cc 0)) else s.
(** The admin queues reset, their places and sizes given to the controller, and the controller enabled.
    [kernel/arch/x86_64/kernel_x64.c:4114-4133] nvme_init *)
Definition nvme_enable s : Nvme D :=
  let s := s <| nvme_mem := nvme_mem s <| nvme_asq := replicate 16 sqe0 |> <| nvme_acq := replicate 16 cqe0 |> |>
             <| nvme_asq_tail := 0 |> <| nvme_acq_head := 0 |> <| nvme_acq_phase := 1 |> <| nvme_cid_counter := 0 |> in
  let s := nvme_write32 s 0x24 (Z.lor (Z.shiftl (NVME_AQ_DEPTH - 1) 16) (NVME_AQ_DEPTH - 1)) in
  let s := nvme_write64 s 0x28 asq_at in
  let s := nvme_write64 s 0x30 acq_at in
  nvme_write32 s 0x14 (Z.lor (Z.lor (Z.shiftl 6 16) (Z.shiftl 4 20)) 1).
(** [kernel/arch/x86_64/kernel_x64.c] nvme_init *)
Definition nvme_init {P : Type} `{PciBus P} (p : P) (st : Mm) (kernel_pml4 : Z) s (dev : PciDev) : Z * Nvme D * Mm * P :=
  let p := pci_enable p dev in
  match pci_mmio_base p dev 0x10 with
  | None => (-1, s, st, p)
  | Some bar0_phys =>
      let st := map_registers st kernel_pml4 bar0_phys 4 in
      let s := nvme_enable (nvme_probe (s <| nvme_mmio := bar0_phys |>)) in
      let '(rc, s) := wait_ready (Z.to_nat 4000000) s in
      (rc, s, st, p)
  end.

(** [kernel/arch/x86_64/kernel_x64.c] kernel_nvme_available *)
Definition kernel_nvme_available s : bool := nvme_up s.
(** [kernel/arch/x86_64/kernel_x64.c] kernel_nvme_version *)
Definition kernel_nvme_version s : Z := nvme_vs s.
(** [kernel/arch/x86_64/kernel_x64.c] kernel_nvme_model *)
Definition kernel_nvme_model s : bytes := if nvme_ident_ok s then nvme_model s else [].
(** [kernel/arch/x86_64/kernel_x64.c] kernel_nvme_serial *)
Definition kernel_nvme_serial s : bytes := if nvme_ident_ok s then nvme_serial s else [].
(** [kernel/arch/x86_64/kernel_x64.c] kernel_nvme_identified *)
Definition kernel_nvme_identified s : bool := nvme_ident_ok s.

(** The entry of a read (opcode 2) or a write (opcode 1): the buffer, the first sector, the count less one.
    [kernel/arch/x86_64/kernel_x64.c:4281-4288] kernel_nvme_read *)
Definition io_command (opcode cid lba sectors : Z) : NvmeSqe :=
  mkSqe (Z.lor opcode (Z.shiftl cid 16)) 1 0 0 iobuf_at 0 (Z.land lba 0xFFFFFFFF) (u32 (Z.shiftr lba 32)) (u32 (sectors - 1)) 0 0 0.
(** Its entry stored at the tail, the doorbell rung, its completion awaited.
    [kernel/arch/x86_64/kernel_x64.c:4278-4294] kernel_nvme_read *)
Definition io_submit s (opcode lba sectors : Z) : Z * Nvme D :=
  let cid := nvme_cid_counter s in
  let s := s <| nvme_cid_counter := u16 (cid + 1) |> in
  let s := s <| nvme_mem := nvme_mem s <| nvme_iosq := puti (nvme_iosq (nvme_mem s)) (nvme_iosq_tail s)
                                                          (io_command opcode cid lba sectors) |> |> in
  let s := s <| nvme_iosq_tail := sq_advance (nvme_iosq_tail s) NVME_IOQ_DEPTH |> in
  nvme_wait_iocq (nvme_ring_iosq s) cid.
(** The code, and what is stored at [out]; [None] is a NULL pointer.
    [kernel/arch/x86_64/kernel_x64.c] kernel_nvme_read *)
Definition kernel_nvme_read s (lba sectors : Z) (out : bool) (out_max : Z) : Z * bytes * Nvme D :=
  if negb (nvme_up s) || negb (nvme_ioq_up s) then (-1, [], s) else
  if (sectors =? 0) || (8 <? sectors) then (-9, [], s) else
  let len := u32 (sectors * 512) in
  if negb out || (out_max <? len) then (-10, [], s) else
  let '(rc, s) := io_submit s 0x02 lba sectors in
  if negb (rc =? 0) then (rc, [], s) else
  (len, read_n (nvme_io_buf (nvme_mem s)) (Z.to_nat len), s).
(** [kernel/arch/x86_64/kernel_x64.c] kernel_nvme_write *)
Definition kernel_nvme_write s (lba sectors : Z) (data : option bytes) (data_len : Z) : Z * Nvme D :=
  if negb (nvme_up s) || negb (nvme_ioq_up s) then (-1, s) else
  if (sectors =? 0) || (8 <? sectors) then (-9, s) else
  let len := u32 (sectors * 512) in
  match data with
  | None => (-10, s)
  | Some data =>
      if data_len <? len then (-10, s) else
      let s := s <| nvme_mem := nvme_mem s <| nvme_io_buf := blit (nvme_io_buf (nvme_mem s)) 0 (read_n data (Z.to_nat len)) |> |> in
      let '(rc, s) := io_submit s 0x01 lba sectors in
      if negb (rc =? 0) then (rc, s) else (len, s)
  end.
End nvme.

(** ** What the specification asks of a controller *)

(** Where a queue pair stands: the next entry the controller fetches, the next completion it posts, and the phase tag
    it posts with. *)
Record QPair := mkQ { q_head : Z; q_tail : Z; q_phase : Z }.
(** A controller with its admin queues; whether the I/O completion queue exists; the I/O pair; the medium. *)
Record CtlSt := mkCtl { c_adm : QPair; c_iocq : bool; c_io : option QPair; c_view : Z -> bytes }.
#[export] Instance eta_CtlSt : Eta CtlSt := fun a => mkCtl (c_adm a) (c_iocq a) (c_io a) (c_view a).
Definition q_wf (q : QPair) : Prop := 0 <= q_head q < 16 /\ 0 <= q_tail q < 16 /\ (q_phase q = 0 \/ q_phase q = 1).
(** Fetching one entry and posting one completion in queues of 16. *)
Definition q_next (q : QPair) : QPair :=
  mkQ (if q_head q =? 15 then 0 else q_head q + 1) (if q_tail q =? 15 then 0 else q_tail q + 1)
      (if q_tail q =? 15 then 1 - q_phase q else q_phase q).
Definition opcode (e : NvmeSqe) : Z := Z.land (cdw0 e) 0xFF.
Definition sqe_cid (e : NvmeSqe) : Z := Z.shiftr (cdw0 e) 16.
(** A successful completion of the command [cid], in the round with tag [phase]. *)
Definition success (c : NvmeCqe) (cid phase : Z) : Prop := cqe_cid c = cid /\ cqe_status c = phase.

Section spec.
Context (ident_at iosq_at iocq_at iobuf_at : Z) (capacity : Z) (ident : bytes).

(** The admin commands the driver gives: identify controller, create the completion queue 1 and the submission
    queue 1, each of 16 entries. *)
Definition adm_exec (a : CtlSt) (e : NvmeSqe) (m : NvmeMem) : option (CtlSt * NvmeMem) :=
  if (opcode e =? 6) && (cdw10 e =? 1) && (prp1 e =? ident_at) then Some (a, m <| nvme_ident_buf := ident |>) else
  if (opcode e =? 5) && (cdw10 e =? 0xF0001) && (cdw11 e =? 1) && (prp1 e =? iocq_at) then Some (a <| c_iocq := true |>, m) else
  if (opcode e =? 1) && (cdw10 e =? 0xF0001) && (cdw11 e =? 0x10001) && (prp1 e =? iosq_at) && c_iocq a
  then Some (a <| c_io := Some (mkQ 0 0 1) |>, m) else None.
(** Reads (2) and writes (1) of namespace 1 through one page: the first sector in double words 10 and 11, the count
    less one in double word 12. *)
Definition io_exec (v : Z -> bytes) (e : NvmeSqe) (m : NvmeMem) : option ((Z -> bytes) * NvmeMem) :=
  let slba := cdw10 e + cdw11 e * 2 ^ 32 in
  let n := Z.land (cdw12 e) 0xFFFF + 1 in
  if negb ((nsid e =? 1) && (prp1 e =? iobuf_at) && (prp2 e =? 0) && (n <=? 8) && (slba + n <=? capacity)) then None else
  if opcode e =? 2 then Some (v, m <| nvme_io_buf := blit (nvme_io_buf m) 0 (sectors v slba (Z.to_nat n)) |>) else
  if opcode e =? 1 then Some (write_view v slba (Z.to_nat n) (take (Z.to_nat n * SECTOR) (nvme_io_buf m)), m) else None.

(** Letting the controller run [n + 1] times from [d], [m] leads to [d'], [m'], with no completion posted before the
    last. *)
Inductive runs_to {D} `{NvmeCtl D} : nat -> D -> NvmeMem -> D -> NvmeMem -> Prop :=
  | runs_now d m d' m' : nv_step d m = (d', m') -> runs_to 0 d m d' m'
  | runs_later n d m d1 m1 d' m' : nv_step d m = (d1, m1) ->
      nvme_acq m1 = nvme_acq m -> nvme_iocq m1 = nvme_iocq m -> runs_to n d1 m1 d' m' -> runs_to (S n) d m d' m'.
(** A command accepted at the doorbell is completed within the time the driver polls. *)
Definition completes {D} `{NvmeCtl D} (d : D) (m : NvmeMem) (d' : D) (m' : NvmeMem) : Prop :=
  exists n, (n < Z.to_nat 4000000)%nat /\ runs_to n d m d' m'.

(** [nv_is d a]: the controller is idle in the state [a]. *)
Class NvmeLaws (D : Type) `{NvmeCtl D} := {
  nv_stride : Z;
  nv_is : D -> CtlSt -> Prop;
  nv_medium : D -> Z -> bytes;
  nv_medium_view : forall d a x, nv_is d a -> nv_medium d x = c_view a x;
  nv_view_length : forall d a x, nv_is d a -> length (c_view a x) = SECTOR;
  nv_cq_doorbell : forall d a x, nv_is d a ->
    nv_is (nv_store d (0x1000 + nv_stride) x) a /\ nv_is (nv_store d (0x1000 + 3 * nv_stride) x) a;
  nv_admin : forall d a m a' m1, nv_is d a -> q_wf (c_adm a) ->
    adm_exec a (geti (nvme_asq m) (q_head (c_adm a))) m = Some (a', m1) ->
    exists d' c, nv_is d' (a' <| c_adm := q_next (c_adm a) |>) /\
      success c (sqe_cid (geti (nvme_asq m) (q_head (c_adm a)))) (q_phase (c_adm a)) /\
      completes (nv_store d 0x1000 (q_head (q_next (c_adm a)))) m
        d' (m1 <| nvme_acq := puti (nvme_acq m) (q_tail (c_adm a)) c |>);
  nv_io : forall d a m q v' m1, nv_is d a -> c_io a = Some q -> q_wf q -> length (nvme_io_buf m) = 4096%nat ->
    io_exec (c_view a) (geti (nvme_iosq m) (q_head q)) m = Some (v', m1) ->
    exists d' c, nv_is d' (a <| c_io := Some (q_next q) |> <| c_view := v' |>) /\
      success c (sqe_cid (geti (nvme_iosq m) (q_head q))) (q_phase q) /\
      completes (nv_store d (0x1000 + 2 * nv_stride) (q_head (q_next q))) m
        d' (m1 <| nvme_iocq := puti (nvme_iocq m) (q_tail q) c |>) }.
End spec.
Arguments NvmeLaws _ _ _ _ _ _ D {_}.
Arguments nv_stride {_ _ _ _ _ _} D {_ _}.
Arguments nv_is {_ _ _ _ _ _ D _ _}.
Arguments nv_medium {_ _ _ _ _ _ D _ _}.
Arguments nv_medium_view {_ _ _ _ _ _ D _ _}.
Arguments nv_cq_doorbell {_ _ _ _ _ _ D _ _}.
Arguments nv_admin {_ _ _ _ _ _ D _ _}.
Arguments nv_io {_ _ _ _ _ _ D _ _}.
Arguments nv_view_length {_ _ _ _ _ _ D _ _}.

(** ** Waiting for a completion *)

Section waiting.
Context {D : Type} `{NvmeCtl D}.
Implicit Types (s : Nvme D) (m : NvmeMem).

Lemma wait_iocq_spec n d m d' m' (R : runs_to n d m d' m') : forall spin s cid, (n < spin)%nat ->
  nvme_dev s = d -> nvme_mem s = m -> cqe_new (geti (nvme_iocq m) (nvme_iocq_head s)) (nvme_iocq_phase s) = false ->
  let c := geti (nvme_iocq m') (nvme_iocq_head s) in
  cqe_new c (nvme_iocq_phase s) = true -> cqe_cid c = cid -> cqe_code c = 0 ->
  let hp := cq_advance (nvme_iocq_head s) (nvme_iocq_phase s) NVME_IOQ_DEPTH in
  wait_iocq_loop spin s cid =
    (0, s <| nvme_iocq_head := hp.1 |> <| nvme_iocq_phase := hp.2 |> <| nvme_mem := m' |>
          <| nvme_dev := nv_store d' (0x1000 + 3 * nvme_db_stride s) (u32 hp.1) |>).
Proof.
  induction R as [d m d' m' E1|n d m d1 m1 d' m' E1 _ Hq _ IH]; intros spin s cid Hs Hd Hm Hold c Hnew Hcid Hcode hp;
    (destruct spin as [|spin]; [lia|]); cbn [wait_iocq_loop]; unfold nvme_poll; rewrite Hd, Hm, E1; cbn [upd_with nvme_iocq_head nvme_iocq_phase nvme_mem nvme_dev].
  - fold c. rewrite Hnew. fold hp. rewrite (surjective_pairing hp). rewrite Hcid, Z.eqb_refl, Hcode. cbn [negb Z.eqb]. by destruct s.
  - rewrite Hq, Hold. rewrite (IH spin _ cid); [|lia|done|done|by rewrite Hq|done..]. by destruct s.
Qed.
Lemma wait_acq_spec n d m d' m' (R : runs_to n d m d' m') : forall spin s cid, (n < spin)%nat ->
  nvme_dev s = d -> nvme_mem s = m -> cqe_new (geti (nvme_acq m) (nvme_acq_head s)) (nvme_acq_phase s) = false ->
  let c := geti (nvme_acq m') (nvme_acq_head s) in
  cqe_new c (nvme_acq_phase s) = true -> cqe_cid c = cid -> cqe_code c = 0 ->
  let hp := cq_advance (nvme_acq_head s) (nvme_acq_phase s) NVME_AQ_DEPTH in
  wait_acq_loop spin s cid =
    (0, s <| nvme_acq_head := hp.1 |> <| nvme_acq_phase := hp.2 |> <| nvme_mem := m' |>
          <| nvme_dev := nv_store d' (0x1000 + nvme_db_stride s) (u32 hp.1) |>).
Proof.
  induction R as [d m d' m' E1|n d m d1 m1 d' m' E1 Hq _ _ IH]; intros spin s cid Hs Hd Hm Hold c Hnew Hcid Hcode hp;
    (destruct spin as [|spin]; [lia|]); cbn [wait_acq_loop]; unfold nvme_poll; rewrite Hd, Hm, E1; cbn [upd_with nvme_acq_head nvme_acq_phase nvme_mem nvme_dev].
  - fold c. rewrite Hnew. fold hp. rewrite (surjective_pairing hp). rewrite Hcid, Z.eqb_refl, Hcode. cbn [negb Z.eqb]. by destruct s.
  - rewrite Hq, Hold. rewrite (IH spin _ cid); [|lia|done|done|by rewrite Hq|done..]. by destruct s.
Qed.
End waiting.

(** ** Phase tags *)

(** The entries before [t] carry the tag of this round, those from [t] on the tag of the round before. *)
Definition tags (l : list NvmeCqe) (t ph : Z) : Prop :=
  length l = 16%nat /\ forall i, 0 <= i < 16 -> cqe_new (geti l i) ph = (i <? t).

Lemma success_new c cid ph : success c cid ph -> ph = 0 \/ ph = 1 -> cqe_new c ph = true /\ cqe_cid c = cid /\ cqe_code c = 0.
Proof. intros [E1 E2] Hp. unfold cqe_new, cqe_code. rewrite E1, E2. by destruct Hp as [-> | ->]. Qed.
Lemma cqe_new_flip c ph : ph = 0 \/ ph = 1 -> cqe_new c (1 - ph) = negb (cqe_new c ph).
Proof.
  intros Hp. unfold cqe_new. assert (Hl : Z.land (cqe_status c) 1 = 0 \/ Z.land (cqe_status c) 1 = 1).
  { pose proof (Z.land_ones (cqe_status c) 1 ltac:(lia)) as Hm. change (Z.ones 1) with 1 in Hm.
    pose proof (Z.mod_pos_bound (cqe_status c) (2 ^ 1)). lia. }
  by destruct Hl as [-> | ->], Hp as [-> | ->].
Qed.
Lemma tags_old l t ph : 0 <= t < 16 -> tags l t ph -> cqe_new (geti l t) ph = false.
Proof. intros Ht [_ Hl]. rewrite Hl by lia. lia. Qed.
(** Posting an entry at the tail keeps the tags, also when the queue wraps and the tag turns. *)
Lemma tags_post l q c cid : q_wf q -> tags l (q_tail q) (q_phase q) -> success c cid (q_phase q) ->
  tags (puti l (q_tail q) c) (q_tail (q_next q)) (q_phase (q_next q)).
Proof.
  intros (Hh & Ht & Hp) [Hlen Hl] Hc. destruct (success_new _ _ _ Hc Hp) as [Hnew _]. split; [by rewrite length_puti|].
  assert (Hall : forall i, 0 <= i < 16 -> cqe_new (geti (puti l (q_tail q) c) i) (q_phase q) = (i <? q_tail q + 1)).
  { intros i Hi. destruct (decide (i = q_tail q)) as [->|Hne].
    - rewrite geti_puti_eq by lia. rewrite Hnew. lia.
    - rewrite geti_puti_ne by lia. rewrite Hl by lia. lia. }
  intros i Hi. unfold q_next; cbn [q_tail q_phase]. destruct (Z.eqb_spec (q_tail q) 15) as [E1|Hne].
  - rewrite cqe_new_flip, Hall by done. lia.
  - by rewrite Hall.
Qed.
Lemma tags_zero : tags (replicate 16 cqe0) 0 1.
Proof.
  split; [done|]. intros i Hi. unfold geti. rewrite lookup_total_replicate_2 by lia. symmetry. change (cqe_new cqe0 1) with false. apply Z.ltb_ge. lia.
Qed.
Lemma cq_advance_next q : q_wf q -> cq_advance (q_tail q) (q_phase q) 16 = (q_tail (q_next q), q_phase (q_next q)).
Proof.
  intros (_ & Ht & Hp). unfold cq_advance, q_next; cbn [q_tail q_phase].
  destruct (Z.eqb_spec (q_tail q) 15) as [-> |]; case_step; try lia; [|done]. by destruct Hp as [-> | ->].
Qed.
Lemma sq_advance_next q : q_wf q -> sq_advance (q_head q) 16 = q_head (q_next q).
Proof. intros (Hh & _). unfold sq_advance, q_next; cbn [q_head]. destruct (Z.eqb_spec (q_head q) 15) as [-> |]; case_step; try lia; done. Qed.
Lemma q_next_wf q : q_wf q -> q_wf (q_next q).
Proof. unfold q_wf, q_next; cbn. intros (? & ? & ?). split_and!; try case_step; lia. Qed.

(** ** The driver on such a controller *)

Section driver.
Context (asq_at acq_at ident_at iosq_at iocq_at iobuf_at capacity : Z) (ident : bytes).
Context {D : Type} `{L : NvmeLaws ident_at iosq_at iocq_at iobuf_at capacity ident D}.
Implicit Types (s : Nvme D) (m : NvmeMem) (a : CtlSt).

(** The driver's indices and phases agree with the controller's, and the tags in the queues tell old entries from
    new ones. *)
Record admin_ready s a : Prop := {
  ar_is : nv_is (nvme_dev s) a;
  ar_wf : q_wf (c_adm a);
  ar_stride : nvme_db_stride s = nv_stride D;
  ar_tail : nvme_asq_tail s = q_head (c_adm a);
  ar_head : nvme_acq_head s = q_tail (c_adm a);
  ar_phase : nvme_acq_phase s = q_phase (c_adm a);
  ar_sq : length (nvme_asq (nvme_mem s)) = 16%nat;
  ar_tags : tags (nvme_acq (nvme_mem s)) (q_tail (c_adm a)) (q_phase (c_adm a));
  ar_cid : is_u16 (nvme_cid_counter s) }.
Record io_ready s a : Prop := {
  ir_is : nv_is (nvme_dev s) a;
  ir_up : nvme_up s = true /\ nvme_ioq_up s = true;
  ir_stride : nvme_db_stride s = nv_stride D;
  ir_q : exists q, c_io a = Some q /\ q_wf q /\ nvme_iosq_tail s = q_head q /\ nvme_iocq_head s = q_tail q /\
           nvme_iocq_phase s = q_phase q /\ tags (nvme_iocq (nvme_mem s)) (q_tail q) (q_phase q);
  ir_sq : length (nvme_iosq (nvme_mem s)) = 16%nat;
  ir_buf : length (nvme_io_buf (nvme_mem s)) = 4096%nat;
  ir_cid : is_u16 (nvme_cid_counter s) }.

Lemma cdw0_fields op cid : 0 <= op < 2 ^ 8 -> 0 <= cid ->
  Z.land (Z.lor op (Z.shiftl cid 16)) 0xFF = op /\ Z.shiftr (Z.lor op (Z.shiftl cid 16)) 16 = cid.
Proof.
  intros Ho Hc. rewrite lor_shiftl by lia. change 0xFF with (Z.ones 8). rewrite Z.land_ones, Z.shiftr_div_pow2 by lia.
  split; [|rewrite Z.div_add, Z.div_small; lia].
  replace (op + cid * 2 ^ 16) with (op + (cid * 256) * 2 ^ 8) by lia. rewrite Z.mod_add, Z.mod_small; lia.
Qed.

(** One I/O command, from the entry to the consumed completion. *)
Lemma io_submit_spec s a op lba n v' m1 : io_ready s a -> 0 <= op < 2 ^ 8 -> 
  io_exec iobuf_at capacity (c_view a) (io_command iobuf_at op (nvme_cid_counter s) lba n)
    (nvme_mem s <| nvme_iosq := puti (nvme_iosq (nvme_mem s)) (nvme_iosq_tail s) (io_command iobuf_at op (nvme_cid_counter s) lba n) |>)
    = Some (v', m1) ->
  length (nvme_io_buf m1) = 4096%nat ->
  exists s', io_submit iobuf_at s op lba n = (0, s') /\ nvme_io_buf (nvme_mem s') = nvme_io_buf m1 /\
    exists a', io_ready s' a' /\ c_view a' = v'.
Proof.
  intros [His [Hup Hio] Hst (q & Hq & Hwf & Htail & Hhead & Hph & Htags) Hsq Hbuf Hcid] Hop Hex Hbuf1.
  set (e := io_command iobuf_at op (nvme_cid_counter s) lba n) in *. set (m := nvme_mem s <| nvme_iosq := _ |>) in *.
  assert (He : geti (nvme_iosq m) (q_head q) = e).
  { unfold m; cbn [upd_with nvme_iosq]. rewrite Htail. apply geti_puti_eq.
    rewrite Hsq. destruct Hwf as [? _]. lia. }
  assert (Hbufm : length (nvme_io_buf m) = 4096%nat) by done.
  destruct (nv_io _ a m q v' m1 His Hq Hwf Hbufm ltac:(by rewrite He)) as (d' & c & His' & Hc & k & Hk & R).
  rewrite He in Hc. assert (Ecid : sqe_cid e = nvme_cid_counter s) by (apply cdw0_fields; unfold is_u16 in *; lia).
  rewrite Ecid in Hc. destruct (success_new _ _ _ Hc ltac:(apply Hwf)) as (Hnew & Hcc & Hcode).
  assert (Hq1 : nvme_iosq m1 = nvme_iosq m /\ length (nvme_iocq m) = 16%nat).
  { split; [|apply Htags]. unfold io_exec in Hex. case_match; [done|]. case_match; [by injection Hex as <- <-|].
    case_match; [by injection Hex as <- <-|done]. }
  destruct Hq1 as [Hq1 Hlcq].
  unfold io_submit. fold e. set (s1 := nvme_ring_iosq _).
  assert (Hs1 : nvme_dev s1 = nv_store (nvme_dev s) (0x1000 + 2 * nv_stride D) (q_head (q_next q)) /\ nvme_mem s1 = m).
  { split; [|done]. unfold s1, nvme_ring_iosq, nvme_write32. cbn [upd_with nvme_dev nvme_db_stride nvme_iosq_tail].
    rewrite Hst, Htail. change NVME_IOQ_DEPTH with 16. rewrite (sq_advance_next q) by done.
    f_equal. apply u32_id. destruct (q_next_wf q Hwf) as [? _]. unfold is_u32. lia. }
  destruct Hs1 as [Hd1 Hm1].
  assert (Hh1 : nvme_iocq_head s1 = q_tail q) by exact Hhead. assert (Hp1 : nvme_iocq_phase s1 = q_phase q) by exact Hph.
  assert (Ht16 : 0 <= q_tail q < 16) by apply Hwf.
  pose proof (wait_iocq_spec _ _ _ _ _ R (Z.to_nat 4000000) s1 (nvme_cid_counter s) Hk Hd1 Hm1) as Hw.
  rewrite Hh1, Hp1 in Hw. cbn [upd_with nvme_iocq] in Hw. rewrite geti_puti_eq in Hw by lia.
  change NVME_IOQ_DEPTH with 16 in Hw. rewrite cq_advance_next in Hw by done.
  specialize (Hw (tags_old _ _ _ Ht16 Htags) Hnew Hcc Hcode). unfold nvme_wait_iocq. cbv zeta in Hw. rewrite Hw.
  eexists. split; [done|]. split; [done|]. exists (a <| c_io := Some (q_next q) |> <| c_view := v' |>). split; [|done].
  split; cbn [upd_with nvme_dev nvme_mem nvme_up nvme_ioq_up nvme_db_stride nvme_iosq_tail nvme_iocq_head nvme_iocq_phase nvme_iosq
              nvme_iocq nvme_io_buf nvme_cid_counter fst snd]; try done.
  - change (nvme_db_stride s1) with (nvme_db_stride s). rewrite Hst. apply (proj2 (nv_cq_doorbell _ _ _ His')).
  - exists (q_next q). split; [done|]. split; [by apply q_next_wf|]. split; [|split; [done|split; [done|]]].
    + rewrite <- sq_advance_next, <- Htail by done. done.
    + apply (tags_post _ _ _ (nvme_cid_counter s)); done.
  - rewrite Hq1. unfold m; cbn. by rewrite length_puti.
  - apply u16_is.
Qed.

Lemma io_command_fields op cid lba n : 0 <= lba < 2 ^ 64 -> 1 <= n <= 8 ->
  cdw10 (io_command iobuf_at op cid lba n) + cdw11 (io_command iobuf_at op cid lba n) * 2 ^ 32 = lba /\
  Z.land (cdw12 (io_command iobuf_at op cid lba n)) 0xFFFF + 1 = n.
Proof.
  intros Hl Hn. unfold io_command; cbn [cdw10 cdw11 cdw12]. change 0xFFFFFFFF with (Z.ones 32). change 0xFFFF with (Z.ones 16).
  rewrite !Z.land_ones, Z.shiftr_div_pow2 by lia. rewrite (u32_id (n - 1)), (Z.mod_small (n - 1)) by (unfold is_u32; lia).
  split; [|lia]. pose proof (Z.div_mod lba (2 ^ 32) ltac:(lia)).
  rewrite u32_id; [lia|]. split; [apply Z.div_pos; lia|apply Z.div_lt_upper_bound; lia].
Qed.
Lemma io_exec_command v op cid lba n m : 0 <= lba -> 1 <= n <= 8 -> lba + n <= capacity -> capacity <= 2 ^ 64 ->
  0 <= op < 2 ^ 8 -> 0 <= cid ->
  io_exec iobuf_at capacity v (io_command iobuf_at op cid lba n) m =
    if op =? 2 then Some (v, m <| nvme_io_buf := blit (nvme_io_buf m) 0 (sectors v lba (Z.to_nat n)) |>) else
    if op =? 1 then Some (write_view v lba (Z.to_nat n) (take (Z.to_nat n * SECTOR) (nvme_io_buf m)), m) else None.
Proof.
  intros H0 Hn Hr Hcap Hop Hcid. unfold io_exec. destruct (io_command_fields op cid lba n) as [-> ->]; [lia|done|].
  rewrite (proj2 (Z.leb_le n 8)), (proj2 (Z.leb_le (lba + n) capacity)) by lia. cbn [nsid prp1 prp2 io_command].
  rewrite !Z.eqb_refl. cbn [andb negb].
  replace (opcode (io_command iobuf_at op cid lba n)) with op by (symmetry; apply cdw0_fields; lia). done.
Qed.
Lemma length_view_sectors s a lba n : io_ready s a -> length (sectors (c_view a) lba n) = (n * SECTOR)%nat.
Proof. intros R. apply length_sectors. intros x _. apply (nv_view_length _ _ _ (ir_is _ _ R)). Qed.

(** Reading up to 8 sectors delivers the sectors of the medium. *)
Lemma nvme_read_spec s a lba n out_max : io_ready s a -> 0 <= lba -> 1 <= n <= 8 -> lba + n <= capacity -> capacity <= 2 ^ 64 ->
  n * 512 <= out_max ->
  exists s', kernel_nvme_read iobuf_at s lba n true out_max = (n * 512, sectors (c_view a) lba (Z.to_nat n), s') /\
    exists a', io_ready s' a' /\ c_view a' = c_view a.
Proof.
  intros R H0 Hn Hr Hcap Hmax. assert (Hl := length_view_sectors s a lba (Z.to_nat n) R).
  assert (Hb := ir_buf _ _ R). unfold kernel_nvme_read. destruct (ir_up _ _ R) as [-> ->]. cbn [negb orb].
  rewrite (proj2 (Z.eqb_neq n 0)), (proj2 (Z.ltb_ge 8 n)) by lia. cbn [orb]. rewrite u32_id by (unfold is_u32; lia).
  rewrite (proj2 (Z.ltb_ge out_max (n * 512))) by lia.
  pose proof (fun m => io_exec_command (c_view a) 2 (nvme_cid_counter s) lba n m H0 Hn Hr Hcap ltac:(lia) ltac:(apply (ir_cid _ _ R))) as Hex.
  cbn [Z.eqb Pos.eqb] in Hex.
  destruct (io_submit_spec s a 2 lba n _ _ ltac:(done) ltac:(lia) (Hex _)) as (s' & E & Eb & a' & R' & Ev).
  { cbn [upd_with nvme_io_buf]. rewrite length_blit; [done|]. rewrite Hl, Hb. unfold SECTOR. lia. }
  rewrite E. cbn [negb Z.eqb]. exists s'. split; [|by exists a'].
  rewrite Eb. cbn [upd_with nvme_io_buf]. rewrite blit_0, read_n_take by (rewrite length_app, Hl, length_drop, Hb; unfold SECTOR; lia).
  do 2 f_equal. rewrite take_app_length'; [done|]. rewrite Hl. unfold SECTOR. lia.
Qed.
(** Writing up to 8 sectors stores them, and nothing else changes. *)
Lemma nvme_write_spec s a lba n data : io_ready s a -> 0 <= lba -> 1 <= n <= 8 -> lba + n <= capacity -> capacity <= 2 ^ 64 ->
  length data = (Z.to_nat n * SECTOR)%nat ->
  exists s', kernel_nvme_write iobuf_at s lba n (Some data) (n * 512) = (n * 512, s') /\
    exists a', io_ready s' a' /\ c_view a' = write_view (c_view a) lba (Z.to_nat n) data.
Proof.
  intros R H0 Hn Hr Hcap Hd. unfold kernel_nvme_write. destruct (ir_up _ _ R) as [-> ->]. cbn [negb orb].
  rewrite (proj2 (Z.eqb_neq n 0)), (proj2 (Z.ltb_ge 8 n)) by lia. cbn [orb]. rewrite u32_id by (unfold is_u32; lia).
  rewrite Z.ltb_irrefl. rewrite (read_n_all data) by (rewrite Hd; unfold SECTOR; lia).
  assert (Hb := ir_buf _ _ R). set (s0 := s <| nvme_mem := _ |>).
  assert (R0 : io_ready s0 a) by (destruct R; split; try done; cbn; rewrite length_blit; [done|]; unfold SECTOR in *; lia).
  pose proof (fun m => io_exec_command (c_view a) 1 (nvme_cid_counter s0) lba n m H0 Hn Hr Hcap ltac:(lia) ltac:(apply (ir_cid _ _ R))) as Hex.
  cbn [Z.eqb Pos.eqb] in Hex.
  destruct (io_submit_spec s0 a 1 lba n _ _ ltac:(done) ltac:(lia) (Hex _)) as (s' & E & Eb & a' & R' & Ev).
  { cbn. rewrite length_blit; [done|]. unfold SECTOR in *. lia. }
  rewrite E. cbn [negb Z.eqb]. exists s'. split; [done|]. exists a'. split; [done|]. rewrite Ev. f_equal.
  cbn [upd_with nvme_io_buf nvme_mem s0]. rewrite blit_0, take_app_length' by done. done.
Qed.

(** ** Starting a controller *)

Definition io_state s := (nvme_up s, nvme_ioq_up s, nvme_iosq_tail s, nvme_iocq_head s, nvme_iocq_phase s).
Definition identity s := (nvme_ident_ok s, nvme_model s, nvme_serial s).

Lemma admin_submit_spec s a cid e a' m1 : admin_ready s a -> sqe_cid e = cid ->
  adm_exec ident_at iosq_at iocq_at ident a e
    (nvme_mem s <| nvme_asq := puti (nvme_asq (nvme_mem s)) (nvme_asq_tail s) e |>) = Some (a', m1) ->
  exists s' acq, admin_submit s cid e = (0, s') /\ nvme_mem s' = m1 <| nvme_acq := acq |> /\
    admin_ready s' (a' <| c_adm := q_next (c_adm a) |>) /\ io_state s' = io_state s /\ identity s' = identity s.
Proof.
  intros [His Hwf Hst Htail Hhead Hph Hsq Htags Hcid] Hce Hex.
  set (m := nvme_mem s <| nvme_asq := _ |>) in *.
  assert (He : geti (nvme_asq m) (q_head (c_adm a)) = e).
  { unfold m; cbn [upd_with nvme_asq]. rewrite Htail. apply geti_puti_eq. rewrite Hsq. destruct Hwf as [? _]. lia. }
  destruct (nv_admin _ a m a' m1 His Hwf ltac:(by rewrite He)) as (d' & c & His' & Hc & k & Hk & R).
  rewrite He, Hce in Hc. destruct (success_new _ _ _ Hc ltac:(apply Hwf)) as (Hnew & Hcc & Hcode).
  assert (Hm1 : nvme_asq m1 = nvme_asq m).
  { unfold adm_exec in Hex. repeat case_match; by simplify_eq. }
  unfold admin_submit. set (s1 := nvme_ring_asq _).
  assert (Hd1 : nvme_dev s1 = nv_store (nvme_dev s) 0x1000 (q_head (q_next (c_adm a)))).
  { unfold s1, nvme_ring_asq, nvme_write32. cbn [upd_with nvme_dev nvme_asq_tail].
    rewrite Htail. change NVME_AQ_DEPTH with 16. rewrite (sq_advance_next (c_adm a)) by done.
    f_equal. apply u32_id. destruct (q_next_wf _ Hwf) as [? _]. unfold is_u32. lia. }
  assert (Ht16 : 0 <= q_tail (c_adm a) < 16) by apply Hwf. assert (Hlacq := proj1 Htags).
  pose proof (wait_acq_spec _ _ _ _ _ R (Z.to_nat 4000000) s1 cid Hk Hd1 eq_refl) as Hw.
  change (nvme_acq_head s1) with (nvme_acq_head s) in Hw. change (nvme_acq_phase s1) with (nvme_acq_phase s) in Hw.
  rewrite Hhead, Hph in Hw. cbn [upd_with nvme_acq] in Hw. rewrite geti_puti_eq in Hw by (unfold m; cbn; lia).
  change NVME_AQ_DEPTH with 16 in Hw. rewrite cq_advance_next in Hw by done.
  specialize (Hw (tags_old _ _ _ Ht16 Htags) Hnew Hcc Hcode). unfold nvme_wait_acq. cbv zeta in Hw. rewrite Hw.
  eexists _, _. split; [done|]. split; [done|]. split; [|done].
  split; cbn [upd_with nvme_dev nvme_mem nvme_db_stride nvme_asq_tail nvme_acq_head nvme_acq_phase nvme_asq
              nvme_acq nvme_cid_counter fst snd c_adm]; try done.
  - change (nvme_db_stride s1) with (nvme_db_stride s). rewrite Hst. apply (proj1 (nv_cq_doorbell _ _ _ His')).
  - by apply q_next_wf.
  - rewrite <- sq_advance_next, <- Htail by done. done.
  - rewrite Hm1. unfold m; cbn. by rewrite length_puti.
  - apply (tags_post _ _ _ cid); done.
Qed.

(** The controller before it is enabled: what it reports of itself, and how it starts. *)
Inductive starts : nat -> D -> NvmeMem -> D -> Prop :=
  | starts_now d m d' : nv_step d m = (d', m) -> Z.testbit (u32 (nv_reg d' 0x1C)) 0 = true -> starts 0 d m d'
  | starts_later n d m d1 d' : nv_step d m = (d1, m) -> Z.testbit (u32 (nv_reg d1 0x1C)) 0 = false ->
      Z.testbit (u32 (nv_reg d1 0x1C)) 1 = false -> starts n d1 m d' -> starts (S n) d m d'.
(** The stores that give the admin queues and enable the controller. *)
Definition enabled (d : D) : D :=
  nv_store (nv_store (nv_store (nv_store (nv_store (nv_store d 0x24 0xF000F)
    0x28 (u32 asq_at)) 0x2C (u32 (Z.shiftr asq_at 32))) 0x30 (u32 acq_at)) 0x34 (u32 (Z.shiftr acq_at 32))) 0x14 0x460001.
Class NvmeStart := {
  nv_off : D -> (Z -> bytes) -> Prop;
  nv_off_cap : forall d v, nv_off d v -> Z.shiftl 4 (Z.land (u32 (nv_reg d 4)) 0xF) = nv_stride D;
  nv_off_stop : forall d v cc, nv_off d v -> Z.testbit cc 0 = false -> nv_off (nv_store d 0x14 cc) v;
  nv_off_step : forall d v m d' m', nv_off d v -> nv_step d m = (d', m') ->
    nv_off d' v /\ length (nvme_io_buf m') = length (nvme_io_buf m);
  nv_start : forall d v m, nv_off d v ->
    exists n d', (n < Z.to_nat 4000000)%nat /\ starts n (enabled d) m d' /\ nv_is d' (mkCtl (mkQ 0 0 1) false None v) }.
Context `{!NvmeStart}.

Lemma wait_ready_spec n d m d' (S0 : starts n d m d') : forall spin s, (n < spin)%nat -> nvme_dev s = d -> nvme_mem s = m ->
  wait_ready ident_at iosq_at iocq_at spin s = (0, nvme_started ident_at iosq_at iocq_at (s <| nvme_dev := d' |>)).
Proof.
  induction S0 as [d m d' E1 H1|n d m d1 d' E1 Hb0 Hb1 _ IH]; intros spin s Hn Hd Hm;
    (destruct spin as [|spin]; [lia|]); cbn [wait_ready]; unfold nvme_poll; rewrite Hd, Hm, E1; unfold nvme_read32; cbn [upd_with nvme_dev].
  - rewrite H1. assert (Es : s <| nvme_dev := d' |> <| nvme_mem := m |> = s <| nvme_dev := d' |>) by (rewrite <- Hm; by destruct s).
    by rewrite Es.
  - rewrite Hb0, Hb1, IH; [|lia|done|done].
    assert (Es : s <| nvme_dev := d1 |> <| nvme_mem := m |> <| nvme_dev := d' |> = s <| nvme_dev := d' |>) by (rewrite <- Hm; by destruct s).
    by rewrite Es.
Qed.
Lemma wait_stopped_off spin : forall s v, nv_off (nvme_dev s) v ->
  nv_off (nvme_dev (wait_stopped spin s)) v /\
  length (nvme_io_buf (nvme_mem (wait_stopped spin s))) = length (nvme_io_buf (nvme_mem s)) /\
  nvme_db_stride (wait_stopped spin s) = nvme_db_stride s.
Proof.
  induction spin as [|spin IH]; intros s v Hv; cbn [wait_stopped]; [done|].
  destruct (nv_step (nvme_dev s) (nvme_mem s)) as [d m] eqn:E1. destruct (nv_off_step _ _ _ _ _ Hv E1) as [Hv' Hl].
  assert (Ep : nvme_poll s = s <| nvme_dev := d |> <| nvme_mem := m |>) by (unfold nvme_poll; by rewrite E1).
  rewrite Ep. set (s1 := s <| nvme_dev := d |> <| nvme_mem := m |>).
  assert (Hs1 : nvme_dev s1 = d /\ nvme_mem s1 = m /\ nvme_db_stride s1 = nvme_db_stride s) by done.
  clearbody s1. destruct Hs1 as (Ed & Em & Es). case_match; [rewrite Ed, Em, Es; done|].
  destruct (IH s1 v) as (? & E2 & E3); [by rewrite Ed|]. rewrite E2, E3, Em, Es. done.
Qed.

Lemma admin_ready_cid s a : admin_ready s a -> admin_ready (s <| nvme_cid_counter := u16 (nvme_cid_counter s + 1) |>) a.
Proof. intros R. destruct R. split; try done. apply u16_is. Qed.
Lemma admin_ready_mem s a m : admin_ready s a -> nvme_asq m = nvme_asq (nvme_mem s) -> nvme_acq m = nvme_acq (nvme_mem s) ->
  admin_ready (s <| nvme_mem := m |>) a.
Proof. intros R E1 E2. destruct R. split; cbn; try done; by rewrite ?E1, ?E2. Qed.

Lemma identify_spec s a : admin_ready s a ->
  exists s', nvme_identify_controller ident_at s = (0, s') /\ nvme_ident_buf (nvme_mem s') = ident /\
    nvme_io_buf (nvme_mem s') = nvme_io_buf (nvme_mem s) /\
    admin_ready s' (a <| c_adm := q_next (c_adm a) |>) /\ io_state s' = io_state s /\ identity s' = identity s.
Proof.
  intros R. unfold nvme_identify_controller. set (e := mkSqe _ _ _ _ _ _ _ _ _ _ _ _).
  assert (Hc := ar_cid _ _ R). unfold is_u16 in Hc.
  destruct (cdw0_fields 6 (nvme_cid_counter s)) as [Eo Ec]; [lia|lia|].
  destruct (admin_submit_spec _ a (nvme_cid_counter s) e a
    ((nvme_mem s <| nvme_asq := puti (nvme_asq (nvme_mem s)) (nvme_asq_tail s) e |>) <| nvme_ident_buf := ident |>)
    (admin_ready_cid _ _ R) Ec) as (s' & acq & E1 & Em & Rs' & E2 & E3).
  { unfold adm_exec. unfold opcode, e; cbn [cdw0 cdw10 prp1]. rewrite Eo, !Z.eqb_refl. done. }
  exists s'. split; [exact E1|]. rewrite Em. done.
Qed.
Lemma create_iocq_spec s a : admin_ready s a ->
  exists s' m, nvme_create_iocq iocq_at s = (0, s') /\ nvme_mem s' = m /\ nvme_io_buf m = nvme_io_buf (nvme_mem s) /\
    nvme_iosq m = nvme_iosq (nvme_mem s) /\ nvme_iocq m = nvme_iocq (nvme_mem s) /\
    admin_ready s' (a <| c_iocq := true |> <| c_adm := q_next (c_adm a) |>) /\ io_state s' = io_state s /\ identity s' = identity s.
Proof.
  intros R. unfold nvme_create_iocq. set (e := mkSqe _ _ _ _ _ _ _ _ _ _ _ _).
  assert (Hc := ar_cid _ _ R). unfold is_u16 in Hc.
  destruct (cdw0_fields 5 (nvme_cid_counter s)) as [Eo Ec]; [lia|lia|].
  destruct (admin_submit_spec _ a (nvme_cid_counter s) e (a <| c_iocq := true |>)
    (nvme_mem s <| nvme_asq := puti (nvme_asq (nvme_mem s)) (nvme_asq_tail s) e |>)
    (admin_ready_cid _ _ R) Ec) as (s' & acq & E1 & Em & Rs' & E2 & E3).
  { unfold adm_exec. unfold opcode, e; cbn [cdw0 cdw10 cdw11 prp1]. rewrite Eo, !Z.eqb_refl. done. }
  exists s', (nvme_mem s'). split; [exact E1|]. rewrite Em. done.
Qed.
Lemma create_iosq_spec s a : admin_ready s a -> c_iocq a = true ->
  exists s' m, nvme_create_iosq iosq_at s = (0, s') /\ nvme_mem s' = m /\ nvme_io_buf m = nvme_io_buf (nvme_mem s) /\
    nvme_iosq m = nvme_iosq (nvme_mem s) /\ nvme_iocq m = nvme_iocq (nvme_mem s) /\
    admin_ready s' (a <| c_io := Some (mkQ 0 0 1) |> <| c_adm := q_next (c_adm a) |>) /\ io_state s' = io_state s /\ identity s' = identity s.
Proof.
  intros R Hq. unfold nvme_create_iosq. set (e := mkSqe _ _ _ _ _ _ _ _ _ _ _ _).
  assert (Hc := ar_cid _ _ R). unfold is_u16 in Hc.
  destruct (cdw0_fields 1 (nvme_cid_counter s)) as [Eo Ec]; [lia|lia|].
  destruct (admin_submit_spec _ a (nvme_cid_counter s) e (a <| c_io := Some (mkQ 0 0 1) |>)
    (nvme_mem s <| nvme_asq := puti (nvme_asq (nvme_mem s)) (nvme_asq_tail s) e |>)
    (admin_ready_cid _ _ R) Ec) as (s' & acq & E1 & Em & Rs' & E2 & E3).
  { unfold adm_exec. unfold opcode, e; cbn [cdw0 cdw10 cdw11 prp1]. rewrite Eo, Hq, !Z.eqb_refl. done. }
  exists s', (nvme_mem s'). split; [exact E1|]. rewrite Em. done.
Qed.
Lemma setup_io_spec s a : admin_ready s a -> nvme_up s = true -> length (nvme_io_buf (nvme_mem s)) = 4096%nat ->
  exists s', nvme_setup_io_queues iosq_at iocq_at s = (0, s') /\ identity s' = identity s /\
    exists a', io_ready s' a' /\ c_view a' = c_view a.
Proof.
  intros R Hup Hbuf. unfold nvme_setup_io_queues. set (s0 := s <| nvme_mem := _ |> <| nvme_iosq_tail := 0 |> <| nvme_iocq_head := 0 |> <| nvme_iocq_phase := 1 |>).
  assert (R0 : admin_ready s0 a) by (destruct R; split; done).
  destruct (create_iocq_spec s0 a R0) as (s1 & m1 & E1 & Em1 & Eb1 & Es1 & Ec1 & R1 & Ei1 & Eid1).
  rewrite E1. cbn [Z.eqb negb].
  destruct (create_iosq_spec s1 _ R1 eq_refl) as (s2 & m2 & E2 & Em2 & Eb2 & Es2 & Ec2 & R2 & Ei2 & Eid2).
  rewrite E2. cbn [Z.eqb negb]. rewrite Ei1 in Ei2. rewrite Eid1 in Eid2. rewrite Em1 in *. rewrite Eb1 in Eb2. rewrite Es1 in Es2. rewrite Ec1 in Ec2.
  injection Ei2 as F1 F2 F3 F4 F5. eexists. split; [done|]. split; [exact Eid2|]. eexists. split; [split|].
  - exact (ar_is _ _ R2).
  - split; [cbn; by rewrite F1|done].
  - exact (ar_stride _ _ R2).
  - exists (mkQ 0 0 1). split; [done|]. split; [unfold q_wf; cbn; lia|]. cbn [upd_with nvme_iosq_tail nvme_iocq_head nvme_iocq_phase nvme_mem].
    rewrite F3, F4, F5, Em2, Ec2. split_and!; try done. apply tags_zero.
  - cbn [upd_with nvme_mem]. by rewrite Em2, Es2.
  - cbn [upd_with nvme_mem]. rewrite Em2, Eb2. exact Hbuf.
  - exact (ar_cid _ _ R2).
  - done.
Qed.
Lemma started_spec s a : admin_ready s a -> length (nvme_io_buf (nvme_mem s)) = 4096%nat ->
  let s' := nvme_started ident_at iosq_at iocq_at s in
  (nvme_ident_ok s' = true /\ nvme_model s' = nvme_extract_str (drop 44 ident) 40 41 /\
   nvme_serial s' = nvme_extract_str (drop 24 ident) 20 21) /\
  exists a', io_ready s' a' /\ c_view a' = c_view a.
Proof.
  intros R Hbuf. cbn zeta. unfold nvme_started.
  assert (R0 : admin_ready (s <| nvme_up := true |>) a) by (destruct R; split; done).
  destruct (identify_spec _ a R0) as (s1 & E1 & Eid & Eb & R1 & Ei & _). rewrite E1. cbn [Z.eqb]. rewrite Eid.
  set (s2 := s1 <| nvme_serial := _ |> <| nvme_model := _ |> <| nvme_ident_ok := true |>).
  assert (R2 : admin_ready s2 (a <| c_adm := q_next (c_adm a) |>)) by (destruct R1; split; done).
  destruct (setup_io_spec s2 _ R2) as (s3 & E3 & Eid3 & a' & R3 & Ev).
  { injection Ei as F1 _. exact F1. }
  { change (nvme_mem s2) with (nvme_mem s1). rewrite Eb. exact Hbuf. }
  rewrite E3. cbn [snd]. injection Eid3 as F1 F2 F3. split; [by rewrite F1, F2, F3|]. exists a'. done.
Qed.

Lemma probe_off s v : nv_off (nvme_dev s) v ->
  nv_off (nvme_dev (nvme_probe s)) v /\ length (nvme_io_buf (nvme_mem (nvme_probe s))) = length (nvme_io_buf (nvme_mem s)) /\
  nvme_db_stride (nvme_probe s) = nv_stride D.
Proof.
  intros Hv. unfold nvme_probe. set (s1 := s <| nvme_cap := _ |> <| nvme_vs := _ |> <| nvme_mqes := _ |> <| nvme_db_stride := _ |>).
  assert (Hst : nvme_db_stride s1 = nv_stride D).
  { unfold s1; cbn [upd_with nvme_db_stride]. rewrite <- (nv_off_cap _ _ Hv). f_equal. unfold nvme_read64, nvme_read32.
    rewrite Z.shiftr_lor, Z.shiftr_shiftl_l by lia. change (0 + 4) with 4. rewrite Z.shiftl_0_r.
    replace (Z.shiftr (u32 (nv_reg (nvme_dev s) 0)) 32) with 0; [by rewrite Z.lor_0_r|].
    rewrite Z.shiftr_div_pow2 by lia. symmetry. apply Z.div_small, u32_is. }
  assert (Hd : nvme_dev s1 = nvme_dev s /\ nvme_mem s1 = nvme_mem s) by done. destruct Hd as [Hd Hm]. clearbody s1.
  destruct (Z.testbit (nvme_read32 s1 0x14) 0) eqn:Een; [|by rewrite Hd, Hm].
  destruct (wait_stopped_off (Z.to_nat 2000000) (nvme_write32 s1 0x14 (Z.clearbit (nvme_read32 s1 0x14) 0)) v) as (F1 & F2 & F3).
  - unfold nvme_write32; cbn [upd_with nvme_dev]. rewrite Hd. apply nv_off_stop; [done|].
    unfold u32. rewrite Z.mod_pow2_bits_low by lia. apply Z.clearbit_eq.
  - split; [exact F1|]. rewrite F2, F3. unfold nvme_write32; cbn [upd_with nvme_mem nvme_db_stride]. by rewrite Hm.
Qed.

(** Bringing a controller up. *)
Lemma nvme_init_spec {P : Type} `{PciBus P} (p : P) st kernel_pml4 s dev v base :
  nv_off (nvme_dev s) v -> length (nvme_io_buf (nvme_mem s)) = 4096%nat ->
  pci_mmio_base (pci_enable p dev) dev 0x10 = Some base ->
  exists s', nvme_init asq_at acq_at ident_at iosq_at iocq_at p st kernel_pml4 s dev =
      (0, s', map_registers st kernel_pml4 base 4, pci_enable p dev) /\
    (nvme_ident_ok s' = true /\ nvme_model s' = nvme_extract_str (drop 44 ident) 40 41 /\
     nvme_serial s' = nvme_extract_str (drop 24 ident) 20 21) /\
    exists a, io_ready s' a /\ c_view a = v.
Proof.
  intros Hv Hbuf Hbar. unfold nvme_init. rewrite Hbar.
  set (s0 := s <| nvme_mmio := base |>). destruct (probe_off s0 v) as (Hoff & Hlen & Hst); [exact Hv|].
  change (nvme_mem s0) with (nvme_mem s) in Hlen. set (s1 := nvme_probe s0) in *. clearbody s1.
  set (s2 := nvme_enable asq_at acq_at s1).
  destruct (nv_start (nvme_dev s1) v (nvme_mem s2) Hoff) as (n & d' & Hn & Hs & His).
  rewrite (wait_ready_spec _ _ _ _ Hs (Z.to_nat 4000000) s2 Hn) by done.
  assert (R : admin_ready (s2 <| nvme_dev := d' |>) (mkCtl (mkQ 0 0 1) false None v)).
  { split; try done; cbn [c_adm q_tail q_phase]; first [exact Hst|apply tags_zero|unfold q_wf; cbn; lia|idtac]. }
  destruct (started_spec _ _ R) as [Hid Hio]; [by rewrite <- Hbuf, <- Hlen|].
  eexists. split; [reflexivity|]. split; [exact Hid|exact Hio].
Qed.

(** Transfers, and what they deliver on a medium. *)
Inductive IoOp := IoRead (lba n : Z) | IoWrite (lba n : Z) (data : bytes).
Definition op_ok (o : IoOp) : Prop :=
  match o with
  | IoRead lba n => 0 <= lba /\ 1 <= n <= 8 /\ lba + n <= capacity
  | IoWrite lba n data => 0 <= lba /\ 1 <= n <= 8 /\ lba + n <= capacity /\ length data = (Z.to_nat n * SECTOR)%nat
  end.
Definition nvme_do s (o : IoOp) : (Z * bytes) * Nvme D :=
  match o with
  | IoRead lba n => kernel_nvme_read iobuf_at s lba n true 4096
  | IoWrite lba n data => let '(rc, s) := kernel_nvme_write iobuf_at s lba n (Some data) (n * 512) in (rc, [], s)
  end.
Definition medium_do (v : Z -> bytes) (o : IoOp) : (Z * bytes) * (Z -> bytes) :=
  match o with
  | IoRead lba n => (n * 512, sectors v lba (Z.to_nat n), v)
  | IoWrite lba n data => (n * 512, [], write_view v lba (Z.to_nat n) data)
  end.
Fixpoint do_all {S : Type} (f : S -> IoOp -> (Z * bytes) * S) (s : S) (os : list IoOp) : list (Z * bytes) * S :=
  match os with
  | [] => ([], s)
  | o :: os => let '(r, s) := f s o in let '(rs, s) := do_all f s os in (r :: rs, s)
  end.

Lemma nvme_transfers os : forall s a, capacity <= 2 ^ 64 -> io_ready s a -> Forall op_ok os ->
  exists s' a', do_all nvme_do s os = ((do_all medium_do (c_view a) os).1, s') /\ io_ready s' a' /\
    c_view a' = (do_all medium_do (c_view a) os).2.
Proof.
  induction os as [|o os IH]; intros s a Hcap R Hok; [by exists s, a|]. apply Forall_cons in Hok as [Ho Hok]. cbn [do_all].
  assert (Hstep : exists s1 a1, nvme_do s o = ((medium_do (c_view a) o).1, s1) /\ io_ready s1 a1 /\ c_view a1 = (medium_do (c_view a) o).2).
  { destruct o as [lba n|lba n data]; cbn [nvme_do medium_do op_ok fst snd] in *.
    - destruct Ho as (H0' & Hn & Hr). destruct (nvme_read_spec s a lba n 4096 R H0' Hn Hr Hcap ltac:(lia)) as (s1 & E1 & a1 & R1 & Ev).
      by exists s1, a1.
    - destruct Ho as (H0' & Hn & Hr & Hl). destruct (nvme_write_spec s a lba n data R H0' Hn Hr Hcap Hl) as (s1 & E1 & a1 & R1 & Ev).
      exists s1, a1. by rewrite E1. }
  destruct Hstep as (s1 & a1 & E1 & R1 & Ev1). rewrite E1. destruct (medium_do (c_view a) o) as [r v1] eqn:Em. cbn [fst snd] in *.
  destruct (IH s1 a1 Hcap R1 Hok) as (s2 & a2 & E2 & R2 & Ev2). rewrite E2, Ev1 in *.
  exists s2, a2. destruct (do_all medium_do v1 os) as [rs v2]. done.
Qed.

(** C2. On a controller that keeps to the NVMe specification, starting it succeeds and reads its serial number and model,
    and from then on every sequence of transfers of up to 8 sectors gives the results, and leaves the medium, that the
    same transfers on an array of sectors would: the rings wrap, and the phase tags turn, any number of times. *)
Theorem nvme_refines_medium {P : Type} `{PciBus P} (p : P) st kernel_pml4 s dev v base os :
  nv_off (nvme_dev s) v -> length (nvme_io_buf (nvme_mem s)) = 4096%nat ->
  pci_mmio_base (pci_enable p dev) dev 0x10 = Some base -> capacity <= 2 ^ 64 -> Forall op_ok os ->
  exists s0 st' p', nvme_init asq_at acq_at ident_at iosq_at iocq_at p st kernel_pml4 s dev = (0, s0, st', p') /\
    kernel_nvme_available s0 = true /\
    kernel_nvme_model s0 = nvme_extract_str (drop 44 ident) 40 41 /\
    kernel_nvme_serial s0 = nvme_extract_str (drop 24 ident) 20 21 /\
    exists s' a', do_all nvme_do s0 os = ((do_all medium_do v os).1, s') /\ io_ready s' a' /\
      c_view a' = (do_all medium_do v os).2.
Proof.
  intros Hv Hbuf Hbar Hcap Hok. destruct (nvme_init_spec p st kernel_pml4 s dev v base Hv Hbuf Hbar) as (s0 & E & (I1 & I2 & I3) & a & R & Ev).
  eexists _, _, _. split; [exact E|]. unfold kernel_nvme_available, kernel_nvme_model, kernel_nvme_serial. rewrite I1, I2, I3.
  split; [apply (ir_up _ _ R)|]. split; [done|]. split; [done|]. rewrite <- Ev. by apply nvme_transfers.
Qed.
End driver.

(** ** A controller

    One that answers every command at the poll after its doorbell.  It shows that what is asked of a controller can be
    met. *)
Module Demo.
Section demo.
Context (ident_at iosq_at iocq_at iobuf_at capacity : Z) (ident : bytes).
Inductive Bell := Silent | AdminBell | IoBell.
Record Ctl := mkDemo { on : bool; bell : Bell; st : CtlSt }.

Definition demo_reg (d : Ctl) (off : Z) : Z :=
  if off =? 0x00 then 15 else if off =? 0x08 then 0x10400 else if off =? 0x1C then (if on d then 1 else 0) else 0.
Definition demo_store (d : Ctl) (off v : Z) : Ctl :=
  if off =? 0x14 then
    (if Z.testbit v 0 then mkDemo true (bell d) (mkCtl (mkQ 0 0 1) false None (c_view (st d))) else mkDemo false (bell d) (st d))
  else if off =? 0x1000 then mkDemo (on d) AdminBell (st d)
  else if off =? 0x1008 then mkDemo (on d) IoBell (st d) else d.
(** A completion: the code 0, or 2 for a command that is not one of those above. *)
Definition demo_cqe (e : NvmeSqe) (code phase : Z) : NvmeCqe := mkCqe 0 0 0 0 (sqe_cid e) (2 * code + phase).
Definition demo_step (d : Ctl) (m : NvmeMem) : Ctl * NvmeMem :=
  let a := st d in
  match bell d with
  | Silent => (d, m)
  | AdminBell =>
      let q := c_adm a in let e := geti (nvme_asq m) (q_head q) in
      match adm_exec ident_at iosq_at iocq_at ident a e m with
      | Some (a', m1) => (mkDemo (on d) Silent (a' <| c_adm := q_next q |>),
                          m1 <| nvme_acq := puti (nvme_acq m) (q_tail q) (demo_cqe e 0 (q_phase q)) |>)
      | None => (mkDemo (on d) Silent (a <| c_adm := q_next q |>),
                 m <| nvme_acq := puti (nvme_acq m) (q_tail q) (demo_cqe e 2 (q_phase q)) |>)
      end
  | IoBell =>
      match c_io a with
      | None => (mkDemo (on d) Silent a, m)
      | Some q =>
          let e := geti (nvme_iosq m) (q_head q) in
          match io_exec iobuf_at capacity (c_view a) e m with
          | Some (v', m1) => (mkDemo (on d) Silent (a <| c_io := Some (q_next q) |> <| c_view := v' |>),
                              m1 <| nvme_iocq := puti (nvme_iocq m) (q_tail q) (demo_cqe e 0 (q_phase q)) |>)
          | None => (mkDemo (on d) Silent (a <| c_io := Some (q_next q) |>),
                     m <| nvme_iocq := puti (nvme_iocq m) (q_tail q) (demo_cqe e 2 (q_phase q)) |>)
          end
      end
  end.
#[global] Instance demo_ctl : NvmeCtl Ctl := { nv_reg := demo_reg; nv_store := demo_store; nv_step := demo_step }.

Definition full (v : Z -> bytes) : Prop := forall x, length (v x) = SECTOR.
Definition demo_is (d : Ctl) (a : CtlSt) : Prop := on d = true /\ bell d = Silent /\ st d = a /\ full (c_view a).

Lemma io_exec_full v e m v' m1 : full v -> length (nvme_io_buf m) = 4096%nat ->
  io_exec iobuf_at capacity v e m = Some (v', m1) -> full v'.
Proof.
  intros Hv Hm. unfold io_exec. set (n := Z.land (cdw12 e) 0xFFFF + 1). case_match eqn:Eg; [done|].
  apply negb_false_iff, andb_prop in Eg as [Eg _]. apply andb_prop in Eg as [_ Hn]. apply Z.leb_le in Hn.
  case_match; [by injection 1 as <- <-|]. case_match; [|done]. injection 1 as <- <-. intros x. unfold write_view. case_step; [|done].
  apply (length_chunk _ _ (Z.to_nat n)); [|lia]. rewrite length_take, Hm. unfold SECTOR. lia.
Qed.
Lemma completes_now d m d' m' : demo_step d m = (d', m') -> completes (D := Ctl) d m d' m'.
Proof. intros E1. exists 0%nat. split; [lia|]. by apply runs_now. Qed.

#[global] Program Instance demo_laws : NvmeLaws ident_at iosq_at iocq_at iobuf_at capacity ident Ctl := {
  nv_stride := 4; nv_is := demo_is; nv_medium d := c_view (st d) }.
Next Obligation. by intros d a x (_ & _ & <- & _). Qed.
Next Obligation. intros d a x (_ & _ & _ & Hf). apply Hf. Qed.
Next Obligation. intros d a x Hd. done. Qed.
Next Obligation.
  intros d a m a' m1 (Hon & Hb & Hst & Hf) Hwf Hex. subst a.
  exists (mkDemo (on d) Silent (a' <| c_adm := q_next (c_adm (st d)) |>)),
         (demo_cqe (geti (nvme_asq m) (q_head (c_adm (st d)))) 0 (q_phase (c_adm (st d)))).
  split; [split_and!; try done|split; [done|]].
  - unfold adm_exec in Hex. repeat case_match; by simplify_eq.
  - apply completes_now. unfold demo_step. cbn [bell st nv_store demo_ctl demo_store Z.eqb Pos.eqb on]. by rewrite Hex.
Qed.
Next Obligation.
  intros d a m q v' m1 (Hon & Hb & Hst & Hf) Hq Hwf Hbuf Hex. subst a.
  exists (mkDemo (on d) Silent (st d <| c_io := Some (q_next q) |> <| c_view := v' |>)),
         (demo_cqe (geti (nvme_iosq m) (q_head q)) 0 (q_phase q)).
  split; [split_and!; try done|split; [done|]].
  - cbn. by eapply io_exec_full.
  - apply completes_now. change (nv_store d (0x1000 + 2 * 4) _) with (mkDemo (on d) IoBell (st d)).
    unfold demo_step. cbn [bell st on]. by rewrite Hq, Hex.
Qed.
#[global] Program Instance demo_start asq_at acq_at : NvmeStart asq_at acq_at ident_at iosq_at iocq_at iobuf_at capacity ident := {
  nv_off d v := c_view (st d) = v /\ full v /\ bell d = Silent }.
Next Obligation. done. Qed.
Next Obligation.
  intros ? ? d v cc (H1 & H2 & H3) Hcc. cbn [nv_store demo_ctl demo_store Z.eqb Pos.eqb]. by rewrite Hcc.
Qed.
Next Obligation.
  intros ? ? d v m d' m' (H1 & H2 & H3) E1. cbn in E1. unfold demo_step in E1. rewrite H3 in E1. by simplify_eq.
Qed.
Next Obligation.
  intros asq_at acq_at d v m (H1 & H2 & H3). exists 0%nat, (enabled asq_at acq_at d). split; [lia|].
  assert (E1 : enabled asq_at acq_at d = mkDemo true Silent (mkCtl (mkQ 0 0 1) false None v)).
  { unfold enabled. cbn. by rewrite H1, H3. }
  rewrite E1. split; [|by split_and!]. by apply starts_now.
Qed.
End demo.

Inductive OneDevice := one_device.
(** A bus with one device, an NVMe controller whose registers are at 0xFEB00000. *)
#[global] Instance one_dev_bus : PciBus OneDevice := {
  pci_data _ a := if a =? pci_address 0 4 0 0x10 then 0xFEB00004 else 0;
  pci_store p _ _ := p }.
Definition disk0 : Ctl := mkDemo false Silent (mkCtl (mkQ 0 0 1) false None (fun x => replicate SECTOR (u8 x))).
Definition drv0 : Nvme Ctl :=
  mkNvme 0 0 0 0 false 0 0 1 0 [] [] false 4 0 0 1 false (mkMem [] [] [] [] [] (zeros 4096)) disk0.
Definition dev0 : PciDev := mkPciDev 0 4 0 0x1B36 0x10 1 8 0xFEB00004 11.
Definition ident0 : bytes := zeros 24 ++ lit "S1                  " ++ lit "DEMO NVME                               ".
Definition mm0 : Mm := frames_init 0x1000000 (fun _ => 0).
Definition ops0 : list IoOp := [IoWrite 7 1 (zeros 512); IoRead 6 2].
End Demo.

Lemma nvme_refines_medium_witness :
  exists s0 st' p', nvme_init (H := Demo.demo_ctl 3 4 5 6 (2 ^ 32) Demo.ident0) 1 2 3 4 5 Demo.one_device Demo.mm0 0 Demo.drv0 Demo.dev0 = (0, s0, st', p') /\
    kernel_nvme_model s0 = lit "DEMO NVME".
Proof.
  destruct (nvme_refines_medium 1 2 3 4 5 6 (2 ^ 32) Demo.ident0 (D := Demo.Ctl)
    (L := Demo.demo_laws 3 4 5 6 (2 ^ 32) Demo.ident0) (H0 := Demo.demo_start 3 4 5 6 (2 ^ 32) Demo.ident0 1 2) Demo.one_device Demo.mm0 0 Demo.drv0 Demo.dev0
    (fun x => replicate SECTOR (u8 x)) 0xFEB00000 Demo.ops0) as (s0 & st' & p' & E & _ & Em & _).
  - split; [done|]. split; [|done]. intros x. apply length_replicate.
  - apply length_replicate.
  - vm_compute. reflexivity.
  - lia.
  - repeat constructor; try (unfold SECTOR; cbn; lia); apply length_replicate.
  - exists s0, st', p'. split; [exact E|]. rewrite Em. vm_compute. reflexivity.
Defined.

(** The four pages of registers that are mapped hold the doorbells of the first queue pair only while the controller's
    doorbells are at most [4 << 9] bytes apart. *)
Lemma nvme_doorbells_fit dstrd : 0 <= dstrd < 16 -> (0x1000 + 3 * Z.shiftl 4 dstrd + 4 <= 4 * 4096 <-> dstrd <= 9).
Proof.
  intros Hd.
  assert (Hall : forallb (fun d => Bool.eqb (0x1000 + 3 * Z.shiftl 4 d + 4 <=? 4 * 4096) (d <=? 9)) (Z.of_nat <$> seq 0 16) = true) by reflexivity.
  pose proof (forall_below _ 16 dstrd Hall ltac:(lia)) as Hb. apply Bool.eqb_prop in Hb.
  rewrite <- Z.leb_le, Hb, Z.leb_le. done.
Qed.
