(* ===== verification/Ahci.v ===== *)
(** The AHCI driver of the 64-bit kernel (kernel/arch/x86_64/kernel_x64.c): the ports, their
    command lists and tables, and the identify, read and write commands.

    The host bus adapter is a parameter, an instance of [Hba]: reading a register lets it run,
    and it may write the memory it was given. *)

From S2P Require Import Prelude CString Frames Paging Pci BlockDev.

(** [kernel/arch/x86_64/kernel_x64.c:3500-3501] AHCI_MAX_PORTS *)
Definition AHCI_MAX_PORTS := 32.
Definition AHCI_MAX_SLOTS := 32.
(** [kernel/arch/x86_64/kernel_x64.c:3503-3506] AHCI_SIG_ATA *)
Definition AHCI_SIG_ATA := 0x00000101.
Definition AHCI_SIG_ATAPI := 0xEB140101.
Definition AHCI_SIG_SEMB := 0xC33C0101.
Definition AHCI_SIG_PM := 0x96690101.
(** [kernel/arch/x86_64/kernel_x64.c] AhciCmdHeader *)
Record AhciCmdHeader := mkHdr { cfl : Z; flags : Z; prdtl : Z; prdbc : Z; ctba : Z; ctbau : Z }.
(** [kernel/arch/x86_64/kernel_x64.c] AhciPrdtEntry *)
Record AhciPrdtEntry := mkPrdt { dba : Z; dbau : Z; dbc_i : Z }.
(** [kernel/arch/x86_64/kernel_x64.c] AhciCmdTable1 *)
Record AhciCmdTable1 := mkTable { cfis : bytes; acmd : bytes; prdt : AhciPrdtEntry }.
(** Zeroed structures.
    [kernel/arch/x86_64/kernel_x64.c] ahci_memzero *)
Definition hdr0 : AhciCmdHeader := mkHdr 0 0 0 0 0 0.
Definition table0 : AhciCmdTable1 := mkTable (zeros 64) (zeros 16) (mkPrdt 0 0 0).
#[export] Instance hdr_inhabited : Inhabited AhciCmdHeader := populate hdr0.
#[export] Instance table_inhabited : Inhabited AhciCmdTable1 := populate table0.

(** What the driver keeps in memory for a port.
    [kernel/arch/x86_64/kernel_x64.c:3532-3536] ahci_cmd_headers *)
Record PortMem := mkPort {
  ahci_cmd_headers : list AhciCmdHeader; ahci_cmd_tables : list AhciCmdTable1; ahci_rfis : bytes;
  ahci_ident_data : list Z; ahci_io_buf : bytes }.
#[export] Instance eta_PortMem : Eta PortMem := fun p =>
  mkPort (ahci_cmd_headers p) (ahci_cmd_tables p) (ahci_rfis p) (ahci_ident_data p) (ahci_io_buf p).
#[export] Instance port_inhabited : Inhabited PortMem := populate (mkPort [] [] [] [] []).

(** The adapter: a register read (its value, and what the adapter did meanwhile), and a register write. *)
Class Hba (D : Type) := {
  hba_read : D -> list PortMem -> Z -> Z * D * list PortMem;
  hba_write : D -> list PortMem -> Z -> Z -> D * list PortMem }.

(** [kernel/arch/x86_64/kernel_x64.c:3492-3498] ahci_mmio *)
Record Ahci (D : Type) := mkAhci {
  ahci_mmio : Z; ahci_cap : Z; ahci_slots : Z; ahci_pi : Z; ahci_vs : Z; ahci_ports : Z; ahci_up : bool;
  ahci_ident_ok : list bool; ahci_ident_model : list bytes; port_mem : list PortMem; hba : D }.
Arguments mkAhci {D}. Arguments ahci_mmio {D}. Arguments ahci_cap {D}. Arguments ahci_slots {D}. Arguments ahci_pi {D}.
Arguments ahci_vs {D}. Arguments ahci_ports {D}. Arguments ahci_up {D}. Arguments ahci_ident_ok {D}.
Arguments ahci_ident_model {D}. Arguments port_mem {D}. Arguments hba {D}.
#[export] Instance eta_Ahci D : Eta (Ahci D) := fun s =>
  mkAhci (ahci_mmio s) (ahci_cap s) (ahci_slots s) (ahci_pi s) (ahci_vs s) (ahci_ports s) (ahci_up s)
    (ahci_ident_ok s) (ahci_ident_model s) (port_mem s) (hba s).

(** [kernel/arch/x86_64/kernel_x64.c] ahci_count_bits *)
Fixpoint ahci_count_bits (fuel : nat) (v : Z) : Z :=
  match fuel with
  | O => 0
  | S fuel => if v =? 0 then 0 else Z.land v 1 + ahci_count_bits fuel (Z.shiftr v 1)
  end.
(** [kernel/arch/x86_64/kernel_x64.c] ahci_port_connected *)
Definition ahci_port_connected (ssts : Z) : bool :=
  (Z.land ssts 0xF =? 3) && (Z.land (Z.shiftr ssts 8) 0xF =? 1).
(** [kernel/arch/x86_64/kernel_x64.c] ahci_port_sig_type *)
Definition ahci_port_sig_type (sig ssts : Z) : Z :=
  if negb (ahci_port_connected ssts) then 0 else
  if sig =? AHCI_SIG_ATA then 1 else
  if sig =? AHCI_SIG_ATAPI then 2 else
  if sig =? AHCI_SIG_SEMB then 3 else
  if sig =? AHCI_SIG_PM then 4 else 5.
(** The 40 characters of the words 27 to 46, each high byte first.
    [kernel/arch/x86_64/kernel_x64.c:3566-3570] ahci_extract_model *)
Definition model_chars (id : list Z) : bytes :=
  concat ((fun i => let w := geti id (27 + Z.of_nat i) in [Z.land (Z.shiftr w 8) 0xFF; Z.land w 0xFF]) <$> seq 0 20).
(** Blanks at the end become NULs, up to the last other character.
    [kernel/arch/x86_64/kernel_x64.c:3575-3578] ahci_extract_model *)
Fixpoint cut_blanks (s : bytes) : bytes :=
  match s with
  | [] => []
  | c :: s => match cut_blanks s with [] => if c =? 32 then [] else [c] | t => c :: t end
  end.
(** The model as a string: characters that cannot be printed become blanks.
    [kernel/arch/x86_64/kernel_x64.c] ahci_extract_model *)
Definition ahci_model_of (id : list Z) : bytes :=
  cut_blanks ((fun c => if (c <? 32) || (126 <? c) then 32 else c) <$> model_chars id).

Section ahci.
Context {D : Type} `{Hba D}.
(** Where the linker placed the lists, tables and buffers of each port. *)
Context (headers_at rfis_at ident_at iobuf_at : Z -> Z) (table_at : Z -> Z -> Z).
Implicit Types (s : Ahci D).

(** A 32-bit register at an offset from the base. *)
Definition rd s (off : Z) : Z * Ahci D :=
  let '(v, d, m) := hba_read (hba s) (port_mem s) off in (u32 v, s <| hba := d |> <| port_mem := m |>).
Definition wr s (off v : Z) : Ahci D :=
  let '(d, m) := hba_write (hba s) (port_mem s) off (u32 v) in s <| hba := d |> <| port_mem := m |>.
(** [kernel/arch/x86_64/kernel_x64.c] ahci_port_base *)
Definition ahci_port_base s (port : Z) : option Z :=
  if (ahci_mmio s =? 0) || (port <? 0) || (32 <=? port) then None else Some (0x100 + port * 0x80).
Definition upd_port s (port : Z) (f : PortMem -> PortMem) : Ahci D :=
  s <| port_mem := puti (port_mem s) port (f (geti (port_mem s) port)) |>.

(** [kernel/arch/x86_64/kernel_x64.c] ahci_extract_model *)
Definition ahci_extract_model s (port : Z) : Ahci D :=
  if (port <? 0) || (AHCI_MAX_PORTS <=? port) then s else
  s <| ahci_ident_model := puti (ahci_ident_model s) port (ahci_model_of (ahci_ident_data (geti (port_mem s) port))) |>.

(** Polling a register until [stop] holds of it; whether it did.
    [kernel/arch/x86_64/kernel_x64.c:3603-3606] ahci_port_stop *)
Fixpoint poll_reg (spin : nat) s (off : Z) (stop : Z -> bool) : bool * Ahci D :=
  match spin with
  | O => (false, s)
  | S spin => let '(v, s) := rd s off in if stop v then (true, s) else poll_reg spin s off stop
  end.
(** [kernel/arch/x86_64/kernel_x64.c] ahci_port_stop *)
Definition ahci_port_stop s (port : Z) : Ahci D :=
  match ahci_port_base s port with
  | None => s
  | Some pb =>
      let '(v, s) := rd s (pb + 0x18) in
      let s := wr s (pb + 0x18) (Z.clearbit (Z.clearbit v 0) 4) in
      (poll_reg (Z.to_nat 1000000) s (pb + 0x18) (fun cmd => negb (Z.testbit cmd 15) && negb (Z.testbit cmd 14))).2
  end.
(** [kernel/arch/x86_64/kernel_x64.c] ahci_port_start *)
Definition ahci_port_start s (port : Z) : Ahci D :=
  match ahci_port_base s port with
  | None => s
  | Some pb =>
      let '(_, s) := poll_reg (Z.to_nat 1000000) s (pb + 0x18) (fun cmd => negb (Z.testbit cmd 15)) in
      let '(v, s) := rd s (pb + 0x18) in
      let s := wr s (pb + 0x18) (Z.lor v 0x10) in
      let '(v, s) := rd s (pb + 0x18) in
      wr s (pb + 0x18) (Z.lor v 1)
  end.
(** The first slot, below the adapter's number of slots, that is neither active nor issued; -1 when there is none.
    [kernel/arch/x86_64/kernel_x64.c] ahci_find_slot *)
Definition ahci_find_slot s (port : Z) : Z * Ahci D :=
  match ahci_port_base s port with
  | None => (-1, s)
  | Some pb =>
      let '(sact, s) := rd s (pb + 0x34) in
      let '(ci, s) := rd s (pb + 0x38) in
      let slots := Z.lor sact ci in
      let limit := if (ahci_slots s =? 0) || (AHCI_MAX_SLOTS <? ahci_slots s) then AHCI_MAX_SLOTS else ahci_slots s in
      (match find_idx (fun i => negb (Z.testbit slots i)) (Z.of_nat <$> seq 0 (Z.to_nat limit)) with
       | Some i => Z.of_nat i
       | None => -1
       end, s)
  end.
(** The header of a slot that names its command table.
    [kernel/arch/x86_64/kernel_x64.c:3648-3656] ahci_port_rebase *)
Definition slot_header (port i : Z) : AhciCmdHeader := mkHdr 0 0 0 0 (u32 (table_at port i)) (u32 (Z.shiftr (table_at port i) 32)).
(** [kernel/arch/x86_64/kernel_x64.c] ahci_port_rebase *)
Definition ahci_port_rebase s (port : Z) : Z * Ahci D :=
  if (port <? 0) || (AHCI_MAX_PORTS <=? port) then (-1, s) else
  match ahci_port_base s port with
  | None => (-1, s)
  | Some pb =>
      let s := ahci_port_stop s port in
      let s := wr s (pb + 0x00) (headers_at port) in
      let s := wr s (pb + 0x04) (Z.shiftr (headers_at port) 32) in
      let s := wr s (pb + 0x08) (rfis_at port) in
      let s := wr s (pb + 0x0C) (Z.shiftr (rfis_at port) 32) in
      let s := upd_port s port (fun p =>
        p <| ahci_cmd_headers := slot_header port <$> (Z.of_nat <$> seq 0 32) |> <| ahci_rfis := zeros 256 |>
          <| ahci_cmd_tables := replicate 32 table0 |>) in
      let s := wr s (pb + 0x10) 0xFFFFFFFF in
      let s := wr s (pb + 0x38) 0 in
      (0, ahci_port_start s port)
  end.

(** The registers of a device and the checks every command starts with: the base, or the error.
    [kernel/arch/x86_64/kernel_x64.c:3730-3733] kernel_ahci_read *)
Definition check_device s (pb : Z) : option Z * Ahci D :=
  let '(ssts, s) := rd s (pb + 0x28) in
  let '(sig, s) := rd s (pb + 0x24) in
  if negb (ahci_port_connected ssts) then (Some (-2), s) else
  if negb (sig =? AHCI_SIG_ATA) then (Some (-3), s) else (None, s).
(** The port rebased, a free slot taken.
    [kernel/arch/x86_64/kernel_x64.c:3735-3737] kernel_ahci_read *)
Definition take_slot s (port : Z) : (Z + Z) * Ahci D :=
  let '(rc, s) := ahci_port_rebase s port in
  if negb (rc =? 0) then (inl (-4), s) else
  let '(slot, s) := ahci_find_slot s port in
  (if slot <? 0 then inl (-5) else inr slot, s).

(** The command FIS of a transfer of [n] sectors from [lba].
    [kernel/arch/x86_64/kernel_x64.c:3753-3764] kernel_ahci_read *)
Definition transfer_fis (command lba n : Z) : bytes :=
  [0x27; 0x80; command; 0;
   Z.land lba 0xFF; Z.land (Z.shiftr lba 8) 0xFF; Z.land (Z.shiftr lba 16) 0xFF; 0x40;
   Z.land (Z.shiftr lba 24) 0xFF; Z.land (Z.shiftr lba 32) 0xFF; Z.land (Z.shiftr lba 40) 0xFF; 0;
   Z.land n 0xFF; Z.land (Z.shiftr n 8) 0xFF] ++ zeros 50.
(** [kernel/arch/x86_64/kernel_x64.c:3694-3696] kernel_ahci_identify *)
Definition identify_fis : bytes := [0x27; 0x80; 0xEC] ++ zeros 61.
(** The header and the table of a slot, cleared and filled in: [w] is the header's first byte, [buf] and [len] the
    buffer.
    [kernel/arch/x86_64/kernel_x64.c:3739-3764] kernel_ahci_read *)
Definition fill_slot s (port slot w buf len : Z) (fis : bytes) : Ahci D :=
  upd_port s port (fun p =>
    p <| ahci_cmd_headers := puti (ahci_cmd_headers p) slot (mkHdr w 0 1 0 0 0) |>
      <| ahci_cmd_tables := puti (ahci_cmd_tables p) slot
           (mkTable fis (zeros 16) (mkPrdt (u32 buf) (u32 (Z.shiftr buf 32)) (len - 1))) |>).
(** The loop that waits for the command's bit to clear: [Some true] without a task file error, [Some false] with one,
    [None] when time runs out.
    [kernel/arch/x86_64/kernel_x64.c:3775-3783] kernel_ahci_read *)
Fixpoint wait_issue (spin : nat) s (pb slot : Z) : option bool * Ahci D :=
  match spin with
  | O => (None, s)
  | S spin =>
      let '(ci, s) := rd s (pb + 0x38) in
      let '(isr, s) := rd s (pb + 0x10) in
      if negb (Z.testbit ci slot) then (Some (negb (Z.testbit isr 30)), s) else wait_issue spin s pb slot
  end.
(** The command issued once the device is not busy: 0, or the error.
    [kernel/arch/x86_64/kernel_x64.c:3766-3784] kernel_ahci_read *)
Definition issue s (pb slot : Z) : Z * Ahci D :=
  let '(idle, s) := poll_reg (Z.to_nat 1000000) s (pb + 0x20) (fun tfd => Z.land tfd 0x88 =? 0) in
  if negb idle then (-6, s) else
  let s := wr s (pb + 0x10) 0xFFFFFFFF in
  let s := wr s (pb + 0x38) (Z.shiftl 1 slot) in
  let '(r, s) := wait_issue (Z.to_nat 4000000) s pb slot in
  (match r with Some true => 0 | Some false => -7 | None => -8 end, s).
(** [kernel/arch/x86_64/kernel_x64.c] kernel_ahci_identify *)
Definition kernel_ahci_identify s (port : Z) : Z * Ahci D :=
  if negb (ahci_up s) || (port <? 0) || (AHCI_MAX_PORTS <=? port) then (-1, s) else
  if negb (Z.testbit (ahci_pi s) port) then (-1, s) else
  match ahci_port_base s port with
  | None => (-1, s)
  | Some pb =>
      let '(err, s) := check_device s pb in
      match err with Some e => (e, s) | None =>
      let '(slot, s) := take_slot s port in
      match slot with inl e => (e, s) | inr slot =>
      let s := fill_slot s port slot 5 (ident_at port) 512 identify_fis in
      let '(rc, s) := issue s pb slot in
      if negb (rc =? 0) then (rc, s) else
      (0, ahci_extract_model (s <| ahci_ident_ok := puti (ahci_ident_ok s) port true |>) port)
      end end
  end.
(** The code and what is stored at [out]; [false] is a NULL pointer.
    [kernel/arch/x86_64/kernel_x64.c] kernel_ahci_read *)
Definition kernel_ahci_read s (port lba sectors : Z) (out : bool) (out_max : Z) : Z * bytes * Ahci D :=
  if negb (ahci_up s) || (port <? 0) || (AHCI_MAX_PORTS <=? port) then (-1, [], s) else
  if negb (Z.testbit (ahci_pi s) port) then (-1, [], s) else
  if (sectors =? 0) || (8 <? sectors) then (-9, [], s) else
  let len := u32 (sectors * 512) in
  if negb out || (out_max <? len) then (-10, [], s) else
  match ahci_port_base s port with
  | None => (-1, [], s)
  | Some pb =>
      let '(err, s) := check_device s pb in
      match err with Some e => (e, [], s) | None =>
      let '(slot, s) := take_slot s port in
      match slot with inl e => (e, [], s) | inr slot =>
      let s := fill_slot s port slot 5 (iobuf_at port) len (transfer_fis 0x25 lba sectors) in
      let '(rc, s) := issue s pb slot in
      if negb (rc =? 0) then (rc, [], s) else
      (len, read_n (ahci_io_buf (geti (port_mem s) port)) (Z.to_nat len), s)
      end end
  end.
(** [kernel/arch/x86_64/kernel_x64.c] kernel_ahci_write *)
Definition kernel_ahci_write s (port lba sectors : Z) (data : option bytes) (data_len : Z) : Z * Ahci D :=
  if negb (ahci_up s) || (port <? 0) || (AHCI_MAX_PORTS <=? port) then (-1, s) else
  if negb (Z.testbit (ahci_pi s) port) then (-1, s) else
  if (sectors =? 0) || (8 <? sectors) then (-9, s) else
  let len := u32 (sectors * 512) in
  match data with
  | None => (-10, s)
  | Some data =>
      if data_len <? len then (-10, s) else
      match ahci_port_base s port with
      | None => (-1, s)
      | Some pb =>
          let '(err, s) := check_device s pb in
          match err with Some e => (e, s) | None =>
          let '(slot, s) := take_slot s port in
          match slot with inl e => (e, s) | inr slot =>
          let s := upd_port s port (fun p => p <| ahci_io_buf := blit (ahci_io_buf p) 0 (read_n data (Z.to_nat len)) |>) in
          let s := fill_slot s port slot (Z.lor 5 (2 ^ 6)) (iobuf_at port) len (transfer_fis 0x35 lba sectors) in
          let '(rc, s) := issue s pb slot in
          (if negb (rc =? 0) then rc else len, s)
          end end
      end
  end.
(** [kernel/arch/x86_64/kernel_x64.c] kernel_ahci_identified *)
Definition kernel_ahci_identified s (port : Z) : bool :=
  if (port <? 0) || (AHCI_MAX_PORTS <=? port) then false else default false (ahci_ident_ok s !! Z.to_nat port).
(** [kernel/arch/x86_64/kernel_x64.c] kernel_ahci_model *)
Definition kernel_ahci_model s (port : Z) : bytes :=
  if (port <? 0) || (AHCI_MAX_PORTS <=? port) then [] else default [] (ahci_ident_model s !! Z.to_nat port).

(** Mapping [n] pages of registers onto themselves.
    [kernel/arch/x86_64/kernel_x64.c:3887-3890] ahci_init *)
Definition map_abar (st : Mm) (kernel_pml4 phys : Z) (n : nat) : Mm :=
  fold_left (fun st i => let a := phys + 4096 * Z.of_nat i in
                         paging_map_4k st kernel_pml4 a a (Z.lor PAGE_PRESENT PAGE_WRITABLE)) (seq 0 n) st.
(** [kernel/arch/x86_64/kernel_x64.c] ahci_init *)
Definition ahci_init {P : Type} `{PciBus P} (p : P) (st : Mm) (kernel_pml4 : Z) s (dev : PciDev) : Z * Ahci D * Mm * P :=
  let p := pci_enable p dev in
  match pci_mmio_base p dev 0x24 with
  | None => (-1, s, st, p)
  | Some abar_phys =>
      let st := map_abar st kernel_pml4 abar_phys 2 in
      let s := s <| ahci_mmio := abar_phys |> in
      let '(ghc, s) := rd s 0x04 in
      let s := wr s 0x04 (Z.lor ghc (2 ^ 31)) in
      let '(cap, s) := rd s 0x00 in
      let s := s <| ahci_cap := cap |> <| ahci_slots := Z.land (Z.shiftr cap 8) 0x1F + 1 |> in
      let '(pi, s) := rd s 0x0C in
      let s := s <| ahci_pi := pi |> in
      let '(vs, s) := rd s 0x10 in
      (0, s <| ahci_vs := vs |> <| ahci_ports := ahci_count_bits 32 pi |> <| ahci_up := true |>, st, p)
  end.
(** [kernel/arch/x86_64/kernel_x64.c] kernel_ahci_available *)
Definition kernel_ahci_available s : bool := ahci_up s.
(** [kernel/arch/x86_64/kernel_x64.c] kernel_ahci_ports *)
Definition kernel_ahci_ports s : Z := ahci_ports s.
(** [kernel/arch/x86_64/kernel_x64.c] kernel_ahci_pi *)
Definition kernel_ahci_pi s : Z := ahci_pi s.
(** [kernel/arch/x86_64/kernel_x64.c] kernel_ahci_version *)
Definition kernel_ahci_version s : Z := ahci_vs s.
(** The registers of a port: interrupt status, command, task file, signature, SATA status.
    [kernel/arch/x86_64/kernel_x64.c] kernel_ahci_port_info *)
Definition kernel_ahci_port_info s (port : Z) : option (Z * Z * Z * Z * Z) * Ahci D :=
  if negb (ahci_up s) || (port <? 0) || (32 <=? port) then (None, s) else
  if negb (Z.testbit (ahci_pi s) port) then (None, s) else
  match ahci_port_base s port with
  | None => (None, s)
  | Some pb =>
      let '(isr, s) := rd s (pb + 0x10) in
      let '(cmd, s) := rd s (pb + 0x18) in
      let '(tfd, s) := rd s (pb + 0x20) in
      let '(sig, s) := rd s (pb + 0x24) in
      let '(ssts, s) := rd s (pb + 0x28) in
      (Some (isr, cmd, tfd, sig, ssts), s)
  end.
End ahci.

(** ** The command FIS *)

(** How a device reads a command FIS: the command, the sector number, the count. *)
Definition fis_command (f : bytes) : Z := geti f 2.
Definition fis_lba (f : bytes) : Z := le_dec [geti f 4; geti f 5; geti f 6; geti f 8; geti f 9; geti f 10].
Definition fis_count (f : bytes) : Z := le_dec [geti f 12; geti f 13].

(** The FIS of a transfer names the command, the 48-bit sector number and the 16-bit count it was built from, in the
    64 bytes of the table. *)
Lemma transfer_fis_decodes command lba n : 0 <= lba < 2 ^ 48 -> 0 <= n < 2 ^ 16 ->
  let f := transfer_fis command lba n in
  length f = 64%nat /\ fis_command f = command /\ fis_lba f = lba /\ fis_count f = n.
Proof.
  intros Hl Hn. cbn zeta. split; [done|]. split; [done|]. unfold fis_lba, fis_count.
  change (geti (transfer_fis command lba n) 4) with (Z.land lba 0xFF).
  change (geti (transfer_fis command lba n) 5) with (Z.land (Z.shiftr lba 8) 0xFF).
  change (geti (transfer_fis command lba n) 6) with (Z.land (Z.shiftr lba 16) 0xFF).
  change (geti (transfer_fis command lba n) 8) with (Z.land (Z.shiftr lba 24) 0xFF).
  change (geti (transfer_fis command lba n) 9) with (Z.land (Z.shiftr lba 32) 0xFF).
  change (geti (transfer_fis command lba n) 10) with (Z.land (Z.shiftr lba 40) 0xFF).
  change (geti (transfer_fis command lba n) 12) with (Z.land n 0xFF).
  change (geti (transfer_fis command lba n) 13) with (Z.land (Z.shiftr n 8) 0xFF).
  cbn [le_dec]. change 0xFF with (Z.ones 8). rewrite !Z.land_ones, !Z.shiftr_div_pow2 by lia.
  change (2 ^ 8) with 256. change (2 ^ 16) with (256 * 256). change (2 ^ 24) with (256 * 256 * 256).
  change (2 ^ 32) with (256 * 256 * 256 * 256). change (2 ^ 40) with (256 * 256 * 256 * 256 * 256).
  rewrite <- !Z.div_div by lia. split; Z.to_euclidean_division_equations; lia.
Qed.
Lemma transfer_fis_decodes_witness : fis_lba (transfer_fis 0x25 0x123456789A 8) = 0x123456789A.
Proof. apply (transfer_fis_decodes 0x25 0x123456789A 8); lia. Defined.

(** ** Where the adapter finds the command table *)

(** The address of its command table in the header of a slot. *)
Definition table_addr (m : list PortMem) (port i : Z) : Z :=
  let h := geti (ahci_cmd_headers (geti m port)) i in ctba h + ctbau h * 2 ^ 32.
(** What a write to the register at [off] makes the adapter fetch: the tables of the slots whose bit is set, for a
    port's command issue register. *)
Definition fetched (m : list PortMem) (off v : Z) : list Z :=
  let p := (off - 0x138) / 0x80 in
  if (0x138 <=? off) && (off <? 0x138 + 32 * 0x80) && ((off - 0x138) mod 0x80 =? 0)
  then omap (fun i => if Z.testbit v i then Some (table_addr m p i) else None) (Z.of_nat <$> seq 0 32) else [].
(** The number of ports and of headers of each, and the table addresses, stay the same. *)
Record same_tables (m m' : list PortMem) : Prop := {
  st_ports : length m' = length m;
  st_slots : forall p, length (ahci_cmd_headers (geti m' p)) = length (ahci_cmd_headers (geti m p));
  st_addr : forall p i, table_addr m' p i = table_addr m p i }.
(** An adapter leaves the table addresses of the headers alone, and fetches the table of a command when it is issued. *)
Class HbaLaws (D : Type) `{Hba D} := {
  issued : D -> list Z;
  hba_read_keeps : forall d m off v d' m', hba_read d m off = (v, d', m') -> issued d' = issued d /\ same_tables m m';
  hba_write_fetches : forall d m off v d' m', hba_write d m off v = (d', m') ->
    issued d' = issued d ++ fetched m off v /\ same_tables m m' }.

#[export] Instance same_tables_pre : PreOrder same_tables.
Proof.
  split; [intros m; by split|]. intros m1 m2 m3 [E1 E2 E3] [F1 F2 F3].
  split; [congruence|intros p; by rewrite F2|intros p i; by rewrite F3].
Qed.

Section lost_table.
Context {D : Type} `{HbaLaws D}.
Context (headers_at rfis_at ident_at iobuf_at : Z -> Z) (table_at : Z -> Z -> Z).
Implicit Types (s : Ahci D).

(** Nothing is issued, and the tables stay. *)
Definition quiet s s' : Prop := issued (hba s') = issued (hba s) /\ same_tables (port_mem s) (port_mem s').
#[local] Instance quiet_pre : PreOrder quiet.
Proof.
  split; [intros s; by split|]. intros s1 s2 s3 [E1 E2] [F1 F2]. split; [congruence|by etrans].
Qed.
Lemma rd_quiet s off : quiet s (rd s off).2.
Proof.
  unfold rd. destruct (hba_read (hba s) (port_mem s) off) as [[v d] m] eqn:E1. exact (hba_read_keeps _ _ _ _ _ _ E1).
Qed.
Lemma wr_issues s off v :
  issued (hba (wr s off v)) = issued (hba s) ++ fetched (port_mem s) off (u32 v) /\ same_tables (port_mem s) (port_mem (wr s off v)).
Proof.
  unfold wr. destruct (hba_write (hba s) (port_mem s) off (u32 v)) as [d m] eqn:E1. exact (hba_write_fetches _ _ _ _ _ _ E1).
Qed.
Lemma fetched_none m off v : (off - 0x138) mod 0x80 <> 0 \/ v = 0 -> fetched m off v = [].
Proof.
  intros Ho. unfold fetched. destruct (Z.eqb_spec ((off - 0x138) mod 0x80) 0) as [E1|]; [|by rewrite andb_false_r].
  destruct Ho as [? | ->]; [done|]. case_match; [|done]. generalize (Z.of_nat <$> seq 0 32).
  induction l as [|x l IH]; [done|]. cbn. by rewrite Z.testbit_0_l.
Qed.
Lemma wr_quiet s off v : (off - 0x138) mod 0x80 <> 0 \/ u32 v = 0 -> quiet s (wr s off v).
Proof. intros Ho. destruct (wr_issues s off v) as [E1 E2]. rewrite fetched_none, app_nil_r in E1 by done. by split. Qed.
Lemma poll_quiet spin : forall s off stop, quiet s (poll_reg spin s off stop).2.
Proof.
  induction spin as [|spin IH]; intros s off stop; cbn [poll_reg]; [done|]. pose proof (rd_quiet s off) as Hq.
  destruct (rd s off) as [v s1]. cbn [snd] in Hq. destruct (stop v); [done|]. etrans; [exact Hq|apply IH].
Qed.
Lemma port_reg port k : 0 <= k < 0x80 -> k <> 0x38 -> (0x100 + port * 0x80 + k - 0x138) mod 0x80 <> 0.
Proof.
  intros Hk Hne. replace (0x100 + port * 0x80 + k - 0x138) with ((k - 0x38) + port * 0x80) by lia.
  rewrite Z.mod_add by lia. Z.to_euclidean_division_equations. lia.
Qed.

Lemma port_stop_quiet s port : quiet s (ahci_port_stop s port).
Proof.
  unfold ahci_port_stop, ahci_port_base. destruct ((ahci_mmio s =? 0) || (port <? 0) || (32 <=? port)); [done|]. pose proof (rd_quiet s (0x100 + port * 0x80 + 0x18)) as Hq.
  destruct (rd s _) as [v s1]. cbn [snd] in Hq. etrans; [exact Hq|]. etrans; [|apply poll_quiet].
  apply wr_quiet. left. apply port_reg; lia.
Qed.
Lemma port_start_quiet s port : quiet s (ahci_port_start s port).
Proof.
  unfold ahci_port_start, ahci_port_base. destruct ((ahci_mmio s =? 0) || (port <? 0) || (32 <=? port)); [done|]. set (pb := 0x100 + port * 0x80).
  pose proof (poll_quiet (Z.to_nat 1000000) s (pb + 0x18) (fun cmd => negb (Z.testbit cmd 15))) as Hp.
  destruct (poll_reg (Z.to_nat 1000000) s (pb + 0x18) _) as [b s1]. cbn [snd] in Hp. etrans; [exact Hp|].
  pose proof (rd_quiet s1 (pb + 0x18)) as Hq. destruct (rd s1 (pb + 0x18)) as [v s2]. cbn [snd] in Hq. etrans; [exact Hq|].
  set (s3 := wr s2 _ _). assert (H3 : quiet s2 s3) by (apply wr_quiet; left; apply port_reg; lia). etrans; [exact H3|].
  pose proof (rd_quiet s3 (pb + 0x18)) as Hq4. destruct (rd s3 (pb + 0x18)) as [v4 s4]. cbn [snd] in Hq4. etrans; [exact Hq4|].
  apply wr_quiet. left. apply port_reg; lia.
Qed.
Lemma find_slot_quiet s port : quiet s (ahci_find_slot s port).2 /\ (ahci_find_slot s port).1 < 32.
Proof.
  unfold ahci_find_slot, ahci_port_base. destruct ((ahci_mmio s =? 0) || (port <? 0) || (32 <=? port)); [split; [done|cbn; lia]|]. set (pb := 0x100 + port * 0x80).
  pose proof (rd_quiet s (pb + 0x34)) as Hq1. destruct (rd s (pb + 0x34)) as [v1 s1]. cbn [snd] in Hq1.
  pose proof (rd_quiet s1 (pb + 0x38)) as Hq2. destruct (rd s1 (pb + 0x38)) as [v2 s2]. cbn [snd] in Hq2. cbn [fst snd].
  split; [by etrans|]. destruct (find_idx _ _) as [i|] eqn:Ei; [|lia]. apply find_idx_lt in Ei.
  rewrite length_fmap, length_seq in Ei. revert Ei. unfold AHCI_MAX_SLOTS. destruct ((ahci_slots s2 =? 0) || (32 <? ahci_slots s2)) eqn:E1.
  - change (Z.to_nat 32) with 32%nat. lia.
  - apply orb_false_elim in E1 as [_ E1]. lia.
Qed.

(** What a command starts from: 32 ports; and what it leaves: the same, with the fetches made since. *)
Definition commands s s' : Prop :=
  (length (port_mem s) = 32%nat -> length (port_mem s') = 32%nat) /\
  exists k, issued (hba s') = issued (hba s) ++ replicate k 0.
#[local] Instance commands_pre : PreOrder commands.
Proof.
  split; [intros s; split; [done|exists 0%nat; by rewrite app_nil_r]|].
  intros s1 s2 s3 [L1 [k1 E1]] [L2 [k2 E2]]. split; [auto|]. exists (k1 + k2)%nat. by rewrite E2, E1, <- app_assoc, <- replicate_add.
Qed.
Lemma quiet_commands s s' : quiet s s' -> commands s s'.
Proof. intros [E1 [E2 _ _]]. split; [by rewrite E2|]. exists 0%nat. by rewrite E1, app_nil_r. Qed.
Lemma upd_port_commands s port f : commands s (upd_port s port f).
Proof. split; [|exists 0%nat; by rewrite app_nil_r]. intros Hl. cbn. by rewrite length_puti. Qed.
(** Rebasing a port issues nothing and leaves it 32 headers. *)
Lemma rebase_commands s port : let r := ahci_port_rebase headers_at rfis_at table_at s port in
  commands s r.2 /\ (length (port_mem s) = 32%nat -> r.1 = 0 -> length (ahci_cmd_headers (geti (port_mem r.2) port)) = 32%nat).
Proof.
  cbn zeta. unfold ahci_port_rebase, ahci_port_base, AHCI_MAX_PORTS.
  destruct ((port <? 0) || (32 <=? port)) eqn:Ep; [split; [done|cbn; lia]|]. destruct ((ahci_mmio s =? 0) || (port <? 0) || (32 <=? port)); [split; [done|cbn; lia]|].
  cbn [fst snd]. set (pb := 0x100 + port * 0x80). set (s1 := ahci_port_stop s port).
  assert (Q1 : quiet s s1) by apply port_stop_quiet.
  set (s2 := wr (wr (wr (wr s1 (pb + 0x00) _) (pb + 0x04) _) (pb + 0x08) _) (pb + 0x0C) _).
  assert (Q2 : quiet s1 s2).
  { unfold s2. repeat (etrans; [|apply wr_quiet; left; apply port_reg; lia]). done. }
  set (s3 := upd_port s2 port _).
  assert (Q4 : quiet s3 (ahci_port_start (wr (wr s3 (pb + 0x10) 0xFFFFFFFF) (pb + 0x38) 0) port)).
  { etrans; [|apply port_start_quiet]. etrans; [|apply wr_quiet; by right]. apply wr_quiet. left. apply port_reg; lia. }
  split.
  - etrans; [apply quiet_commands; etrans; [exact Q1|exact Q2]|]. etrans; [apply upd_port_commands|]. by apply quiet_commands.
  - intros Hl _. rewrite (st_slots _ _ (proj2 Q4)). unfold s3, upd_port. cbn [upd_with port_mem].
    rewrite geti_puti_eq; [done|].
    rewrite (st_ports _ _ (proj2 Q2)), (st_ports _ _ (proj2 Q1)), Hl. lia.
Qed.

Lemma omap_zeros (f : Z -> option Z) l : (forall x, f x = None \/ f x = Some 0) -> exists k, omap f l = replicate k 0.
Proof.
  intros Hf. induction l as [|x l [k IH]]; [by exists 0%nat|]. cbn. destruct (Hf x) as [-> | ->]; [by exists k|].
  exists (S k). cbn. by f_equal.
Qed.
(** Issuing the command of a slot whose header names the address 0. *)
Lemma issue_commands s port slot : 0 <= port < 32 -> 0 <= slot < 32 -> table_addr (port_mem s) port slot = 0 ->
  commands s (issue s (0x100 + port * 0x80) slot).2.
Proof.
  intros Hport Hslot Hz. unfold issue. set (pb := 0x100 + port * 0x80).
  pose proof (poll_quiet (Z.to_nat 1000000) s (pb + 0x20) (fun tfd => Z.land tfd 0x88 =? 0)) as Q1.
  destruct (poll_reg _ s _ _) as [idle s1]. cbn [snd] in Q1. destruct idle; cbn [negb]; [|by apply quiet_commands].
  set (s2 := wr s1 (pb + 0x10) 0xFFFFFFFF). assert (Q2 : quiet s1 s2) by (apply wr_quiet; left; apply port_reg; lia).
  destruct (wr_issues s2 (pb + 0x38) (Z.shiftl 1 slot)) as [Ei Et]. set (s3 := wr s2 _ _) in *.
  assert (Hw : forall spin s, quiet s (wait_issue spin s pb slot).2).
  { clear. induction spin as [|spin IH]; intros s; cbn [wait_issue]; [done|].
    pose proof (rd_quiet s (pb + 0x38)) as Hq1. destruct (rd s (pb + 0x38)) as [v1 s1]. cbn [snd] in Hq1.
    pose proof (rd_quiet s1 (pb + 0x10)) as Hq2. destruct (rd s1 (pb + 0x10)) as [v2 s2]. cbn [snd] in Hq2.
    destruct (negb _); [by etrans|]. etrans; [exact Hq1|]. etrans; [exact Hq2|apply IH]. }
  specialize (Hw (Z.to_nat 4000000) s3). destruct (wait_issue _ s3 pb slot) as [r s4]. cbn [snd] in *.
  etrans; [apply quiet_commands; etrans; [exact Q1|exact Q2]|]. etrans; [|apply quiet_commands; exact Hw].
  split; [intros Hl; by rewrite (st_ports _ _ Et)|]. rewrite Ei.
  assert (Hf : exists k, fetched (port_mem s2) (pb + 0x38) (u32 (Z.shiftl 1 slot)) = replicate k 0); [|destruct Hf as [k ->]; by exists k].
  unfold fetched. destruct ((_ && _) && _); [|by exists 0%nat]. apply omap_zeros. intros x.
  replace ((pb + 0x38 - 0x138) / 0x80) with port.
  2:{ unfold pb. replace (0x100 + port * 0x80 + 0x38 - 0x138) with (port * 0x80) by lia. rewrite Z.div_mul; lia. }
  destruct (Z.testbit _ x) eqn:Eb; [|by left]. right. f_equal.
  rewrite Z.shiftl_1_l, u32_id in Eb.
  - rewrite Z.pow2_bits_eqb in Eb by lia. apply Z.eqb_eq in Eb. subst x.
    by rewrite (st_addr _ _ (proj2 Q2)), (st_addr _ _ (proj2 Q1)).
  - unfold is_u32. split; [apply Z.pow_nonneg; lia|]. apply Z.pow_lt_mono_r; lia.
Qed.
(** A slot filled in has lost the address of its table: clearing the header cleared it. *)
Lemma fill_slot_loses s port slot w buf len fis : 0 <= port < 32 -> 0 <= slot < 32 -> length (port_mem s) = 32%nat ->
  length (ahci_cmd_headers (geti (port_mem s) port)) = 32%nat ->
  table_addr (port_mem (fill_slot s port slot w buf len fis)) port slot = 0.
Proof.
  intros Hp Hs Hl Hh. unfold fill_slot, upd_port, table_addr. cbn [upd_with port_mem].
  rewrite geti_puti_eq by lia. cbn [upd_with ahci_cmd_headers]. rewrite geti_puti_eq by lia. done.
Qed.
Lemma check_device_quiet s pb : quiet s (check_device s pb).2.
Proof.
  unfold check_device. pose proof (rd_quiet s (pb + 0x28)) as Hq1. destruct (rd s (pb + 0x28)) as [v1 s1]. cbn [snd] in Hq1.
  pose proof (rd_quiet s1 (pb + 0x24)) as Hq2. destruct (rd s1 (pb + 0x24)) as [v2 s2]. cbn [snd] in Hq2.
  assert (quiet s s2) by (by etrans). by repeat case_match.
Qed.
Lemma take_slot_commands s port : 0 <= port < 32 -> let r := take_slot headers_at rfis_at table_at s port in
  commands s r.2 /\ (length (port_mem s) = 32%nat -> forall slot, r.1 = inr slot ->
    0 <= slot < 32 /\ length (ahci_cmd_headers (geti (port_mem r.2) port)) = 32%nat).
Proof.
  intros Hp. cbn zeta. unfold take_slot. destruct (rebase_commands s port) as [C1 L1].
  destruct (ahci_port_rebase _ _ _ s port) as [rc s1]. cbn [fst snd] in *. destruct (Z.eqb_spec rc 0) as [->|]; cbn [negb]; [|by split].
  destruct (find_slot_quiet s1 port) as [Q2 Hlt]. destruct (ahci_find_slot s1 port) as [slot s2]. cbn [fst snd] in *.
  split; [etrans; [exact C1|by apply quiet_commands]|]. intros Hl slot' Es. destruct (Z.ltb_spec slot 0); [done|].
  injection Es as <-. split; [lia|]. rewrite (st_slots _ _ (proj2 Q2)). by apply L1.
Qed.
(** A whole command, from taking a slot to its completion: [prep] is what is stored before the slot is filled in. *)
Lemma slot_issue_commands s port slot w buf len fis : 0 <= port < 32 -> 0 <= slot < 32 -> length (port_mem s) = 32%nat ->
  length (ahci_cmd_headers (geti (port_mem s) port)) = 32%nat ->
  commands s (issue (fill_slot s port slot w buf len fis) (0x100 + port * 0x80) slot).2.
Proof.
  intros Hp Hs Hl Hh. etrans; [apply upd_port_commands|]. apply issue_commands; [done|done|]. by apply fill_slot_loses.
Qed.

Lemma port_base_spec s port pb : ahci_port_base s port = Some pb -> 0 <= port < 32 /\ pb = 0x100 + port * 0x80.
Proof. unfold ahci_port_base. destruct (_ || _) eqn:E1; [done|]. injection 1 as <-. apply orb_false_elim in E1 as [E1 ?]. apply orb_false_elim in E1. split; lia. Qed.

Section steps.
Context (s : Ahci D) (Hl : length (port_mem s) = 32%nat).
Lemma identify_commands port : commands s (kernel_ahci_identify headers_at rfis_at ident_at table_at s port).2.
Proof.
  unfold kernel_ahci_identify. destruct (negb (ahci_up s) || (port <? 0) || (AHCI_MAX_PORTS <=? port)); [done|]. destruct (negb _); [done|].
  destruct (ahci_port_base s port) as [pb|] eqn:Eb; [|done]. apply port_base_spec in Eb as [Hp ->].
  pose proof (check_device_quiet s (0x100 + port * 0x80)) as Q1. destruct (check_device s _) as [[e|] s1]; [by apply quiet_commands|]. cbn [snd] in Q1.
  destruct (take_slot_commands s1 port Hp) as [C2 L2]. destruct (take_slot _ _ _ s1 port) as [[e|slot] s2]; cbn [fst snd] in *;
    (etrans; [apply quiet_commands; exact Q1|]); [done|].
  destruct (L2 ltac:(by rewrite (st_ports _ _ (proj2 Q1))) slot eq_refl) as [Hs Hh]. etrans; [exact C2|].
  assert (Hl2 : length (port_mem s2) = 32%nat) by (apply C2; by rewrite (st_ports _ _ (proj2 Q1))).
  pose proof (slot_issue_commands s2 port slot 5 (ident_at port) 512 identify_fis Hp Hs Hl2 Hh) as C3.
  destruct (issue _ _ slot) as [rc s3]. cbn [snd] in C3. destruct (negb _); [done|]. etrans; [exact C3|].
  cbn [snd]. unfold ahci_extract_model. destruct ((port <? 0) || (AHCI_MAX_PORTS <=? port)); apply quiet_commands; by split.
Qed.
Lemma read_commands port lba n out out_max : commands s (kernel_ahci_read headers_at rfis_at iobuf_at table_at s port lba n out out_max).2.
Proof.
  unfold kernel_ahci_read. destruct (negb (ahci_up s) || (port <? 0) || (AHCI_MAX_PORTS <=? port)); [done|]. destruct (negb (Z.testbit _ _)); [done|].
  destruct ((n =? 0) || (8 <? n)); [done|]. cbv zeta. destruct (negb out || (out_max <? u32 (n * 512))); [done|].
  destruct (ahci_port_base s port) as [pb|] eqn:Eb; [|done]. apply port_base_spec in Eb as [Hp ->].
  pose proof (check_device_quiet s (0x100 + port * 0x80)) as Q1. destruct (check_device s _) as [[e|] s1]; [by apply quiet_commands|]. cbn [snd] in Q1.
  destruct (take_slot_commands s1 port Hp) as [C2 L2]. destruct (take_slot _ _ _ s1 port) as [[e|slot] s2]; cbn [fst snd] in *;
    (etrans; [apply quiet_commands; exact Q1|]); [done|].
  destruct (L2 ltac:(by rewrite (st_ports _ _ (proj2 Q1))) slot eq_refl) as [Hs Hh]. etrans; [exact C2|].
  assert (Hl2 : length (port_mem s2) = 32%nat) by (apply C2; by rewrite (st_ports _ _ (proj2 Q1))).
  pose proof (slot_issue_commands s2 port slot 5 (iobuf_at port) (u32 (n * 512)) (transfer_fis 0x25 lba n) Hp Hs Hl2 Hh) as C3.
  destruct (issue _ _ slot) as [rc s3]. cbn [snd] in C3. by destruct (negb _).
Qed.
Lemma write_commands port lba n data data_len :
  commands s (kernel_ahci_write headers_at rfis_at iobuf_at table_at s port lba n data data_len).2.
Proof.
  unfold kernel_ahci_write. destruct (negb (ahci_up s) || (port <? 0) || (AHCI_MAX_PORTS <=? port)); [done|]. destruct (negb (Z.testbit _ _)); [done|].
  destruct ((n =? 0) || (8 <? n)); [done|]. cbv zeta.
  destruct data as [data|]; [|done]. destruct (_ <? _); [done|].
  destruct (ahci_port_base s port) as [pb|] eqn:Eb; [|done]. apply port_base_spec in Eb as [Hp ->].
  pose proof (check_device_quiet s (0x100 + port * 0x80)) as Q1. destruct (check_device s _) as [[e|] s1]; [by apply quiet_commands|]. cbn [snd] in Q1.
  destruct (take_slot_commands s1 port Hp) as [C2 L2]. destruct (take_slot _ _ _ s1 port) as [[e|slot] s2]; cbn [fst snd] in *;
    (etrans; [apply quiet_commands; exact Q1|]); [done|].
  destruct (L2 ltac:(by rewrite (st_ports _ _ (proj2 Q1))) slot eq_refl) as [Hs Hh]. etrans; [exact C2|].
  assert (Hl2 : length (port_mem s2) = 32%nat) by (apply C2; by rewrite (st_ports _ _ (proj2 Q1))).
  set (s2' := upd_port s2 port _). assert (Hh2 : length (ahci_cmd_headers (geti (port_mem s2') port)) = 32%nat).
  { unfold s2', upd_port. cbn [upd_with port_mem]. rewrite geti_puti_eq by lia. exact Hh. }
  assert (Hl3 : length (port_mem s2') = 32%nat) by (unfold s2', upd_port; cbn; by rewrite length_puti).
  pose proof (slot_issue_commands s2' port slot (Z.lor 5 (2 ^ 6)) (iobuf_at port) (u32 (n * 512)) (transfer_fis 0x35 lba n) Hp Hs Hl3 Hh2) as C3.
  destruct (issue _ _ slot) as [rc s3]. cbn [snd] in *. etrans; [|exact C3]. apply upd_port_commands.
Qed.
End steps.

(** The driver's requests. *)
Inductive AhciOp := Identify (port : Z) | Read (port lba n : Z) (out : bool) (out_max : Z)
  | Write (port lba n : Z) (data : option bytes) (data_len : Z).
Definition ahci_do s (o : AhciOp) : Ahci D :=
  match o with
  | Identify port => (kernel_ahci_identify headers_at rfis_at ident_at table_at s port).2
  | Read port lba n out out_max => (kernel_ahci_read headers_at rfis_at iobuf_at table_at s port lba n out out_max).2
  | Write port lba n data data_len => (kernel_ahci_write headers_at rfis_at iobuf_at table_at s port lba n data data_len).2
  end.

(** C39. Whatever requests are made, and wherever the command tables are, every command table an adapter fetches is at
    address 0: each command clears the slot's header, and with it the table's address that rebasing the port had just
    stored, and never stores it again. *)
Theorem ahci_tables_at_zero s os : length (port_mem s) = 32%nat ->
  exists k, issued (hba (fold_left ahci_do os s)) = issued (hba s) ++ replicate k 0.
Proof.
  intros Hl. assert (C : commands s (fold_left ahci_do os s)); [|exact (proj2 C)]. revert s Hl.
  induction os as [|o os IH]; intros s Hl; [done|]. cbn [fold_left].
  assert (C : commands s (ahci_do s o)) by (destruct o; [by apply identify_commands|by apply read_commands|by apply write_commands]).
  etrans; [exact C|]. apply IH. by apply (proj1 C).
Qed.
End lost_table.

(** ** An adapter

    A port 0 with a disk; it logs the command tables it fetches and completes every command at once. *)
Module Demo.
Definition demo_read (d : list Z) (m : list PortMem) (off : Z) : Z * list Z * list PortMem :=
  (if off =? 0x128 then 0x103 else if off =? 0x124 then 0x101 else 0, d, m).
Definition demo_write (d : list Z) (m : list PortMem) (off v : Z) : list Z * list PortMem := (d ++ fetched m off v, m).
#[global] Instance demo_hba : Hba (list Z) := { hba_read := demo_read; hba_write := demo_write }.
#[global] Program Instance demo_laws : HbaLaws (list Z) := { issued d := d }.
Next Obligation. intros d m off v d' m' E1. cbn in E1. unfold demo_read in E1. by simplify_eq. Qed.
Next Obligation. intros d m off v d' m' E1. cbn in E1. unfold demo_write in E1. by simplify_eq. Qed.
Definition drv0 : Ahci (list Z) :=
  mkAhci 0xFEBF0000 0 32 1 0x10000 1 true (replicate 32 false) (replicate 32 []) (replicate 32 (mkPort [] [] [] [] (zeros 4096))) [].
Definition table_at (port i : Z) : Z := 0x500000 + 144 * (32 * port + i).
End Demo.
Lemma ahci_tables_at_zero_witness :
  exists k, issued (hba (fold_left (ahci_do (fun _ => 0) (fun _ => 0) (fun _ => 0) (fun _ => 0) Demo.table_at) [Read 0 5 1 true 512] Demo.drv0))
    = issued (hba Demo.drv0) ++ replicate k 0.
Proof.
  apply (ahci_tables_at_zero (fun _ => 0) (fun _ => 0) (fun _ => 0) (fun _ => 0) Demo.table_at Demo.drv0 [Read 0 5 1 true 512]). reflexivity.
Defined.
(** A read does reach the adapter, which fetches from 0 and not from the table at 0x500000; the driver takes it as done. *)
Lemma ahci_read_fetches_zero :
  let r := kernel_ahci_read (fun _ => 0) (fun _ => 0) (fun _ => 0) Demo.table_at Demo.drv0 0 5 1 true 512 in
  r.1.1 = 512 /\ issued (hba r.2) = [0] /\ Demo.table_at 0 0 = 0x500000.
Proof. lazy. split_and!; reflexivity. Qed.
