(* ===== verification/Drives.v ===== *)
(** The NVMe driver behind the disk layer of kernel/fs/vfs.c: the driver's commands are the
    controller commands that the sector adapter is written against, so that the block cache and
    VernisFS run on it. *)

From S2P Require Import Prelude CString Frames Paging Pci BlockDev Nvme VernisFs Bcache Kfs.

Section nvme_drive.
Context (ident_at iosq_at iocq_at iobuf_at : Z) (ident : bytes).
(** A namespace that holds at least every sector a 32-bit number reaches. *)
Context (capacity : Z) (Hcap : 2 ^ 32 <= capacity <= 2 ^ 64).
Context {D : Type} `{L : NvmeLaws ident_at iosq_at iocq_at iobuf_at capacity ident D}.

(** The NVMe driver alone: there is no AHCI controller and no ATA disk. *)
#[export] Instance nvme_controllers : Controllers (Nvme.Nvme D) := {
  ctl_read c s lba n := match s with Kfs.Nvme => kernel_nvme_read iobuf_at c lba n true (n * 512) | _ => (-1, [], c) end;
  ctl_write c s lba n buf := match s with Kfs.Nvme => kernel_nvme_write iobuf_at c lba n (Some buf) (n * 512) | _ => (-1, c) end;
  nvme_available := kernel_nvme_available; nvme_identified := kernel_nvme_identified;
  ahci_available _ := false; ahci_pi _ := 0; ahci_identified _ _ := false }.
Definition nvme_ready (c : Nvme.Nvme D) (s : DiskSel) : Prop := s = Kfs.Nvme /\ exists a, io_ready ident_at iosq_at iocq_at iobuf_at capacity ident c a.

Definition nvme_view (c : Nvme.Nvme D) (_ : DiskSel) : Z -> bytes := nv_medium (nvme_dev c).

Lemma ready_view c a x : io_ready ident_at iosq_at iocq_at iobuf_at capacity ident c a -> nvme_view c Kfs.Nvme x = c_view a x.
Proof. intros R. apply nv_medium_view, R. Qed.

#[export] Program Instance nvme_controllers_laws : ControllersLaws (Nvme.Nvme D) := {
  ctl_ok := nvme_ready; ctl_view := nvme_view }.
Next Obligation.
  intros c s x [-> [a R]]. rewrite (ready_view c a x R). apply (nv_view_length _ _ _ (ir_is _ _ _ _ _ _ _ _ R)).
Qed.
Next Obligation.
  intros c s lba n [-> [a R]] (H0 & Hn & Hr) [Hn8|]; [|done].
  destruct (nvme_read_spec _ _ _ _ _ _ c a lba n (n * 512) R) as (c' & E & a' & R' & Ev); [lia..|].
  exists (n * 512), c'. cbn [ctl_read nvme_controllers]. rewrite E. split; [|split; [lia|split; [split; [done|by exists a']|]]].
  - do 2 f_equal. apply sectors_ext. intros x _. symmetry. by apply ready_view.
  - intros x. by rewrite (ready_view c' a' x R'), (ready_view c a x R), Ev.
Qed.
Next Obligation.
  intros c s lba n buf [-> [a R]] (H0 & Hn & Hr) [Hn8|] Hl; [|done].
  destruct (nvme_write_spec _ _ _ _ _ _ c a lba n buf R) as (c' & E & a' & R' & Ev); [lia..|done|].
  exists (n * 512), c'. cbn [ctl_write nvme_controllers]. rewrite E. split; [done|split; [lia|split; [split; [done|by exists a']|]]].
  intros x. rewrite (ready_view c' a' x R'), Ev. apply write_view_ext. symmetry. by apply ready_view.
Qed.

(** The file system's state on the controller: the cache, the sector adapter, the driver. *)
Definition NvmeFiles : Type := Vfs (Bcache (PhysDisk (Nvme.Nvme D))).
End nvme_drive.

(** ** A disk just formatted, on the controller of the NVMe examples *)

Definition fresh_fs {E : Type} (d : E) : Vfs E :=
  mkVfs (mkVfsSuperblock VFS_MAGIC 1 0 1000 0 (zeros 16)) (replicate 32 zero_entry) true (zeros 4096) d.
Lemma fresh_fs_wf {E : Type} `{BlockDevLaws E} (d : E) : bd_ok d -> vfs_wf (fresh_fs d).
Proof.
  intros Hd. assert (He : forall i, (i < 32)%nat -> entry (fresh_fs d) i = zero_entry).
  { intros i Hi. unfold entry, geti. rewrite Nat2Z.id. by apply (lookup_total_replicate_2 32 zero_entry i). }
  split.
  - done.
  - exact Hd.
  - assert (Hs : sb_wf (mkVfsSuperblock VFS_MAGIC 1 0 1000 0 (zeros 16))) by (vm_compute; repeat split; congruence). exact Hs.
  - done.
  - done.
  - apply Forall_replicate. vm_compute. repeat split; try congruence. by repeat constructor.
  - intros i j Hi Hj. by rewrite (He i Hi).
  - intros i Hi. rewrite (He i Hi). vm_compute. split; congruence.
  - vm_compute. congruence.
Qed.

#[local] Abbreviation laws := (Nvme.Demo.demo_laws 3 4 5 6 (2 ^ 32) Nvme.Demo.ident0).
Definition ready_drive (c : Nvme.Nvme Nvme.Demo.Ctl) : Prop := nvme_ready 3 4 5 6 Nvme.Demo.ident0 (2 ^ 32) (L := laws) c Kfs.Nvme.
Lemma demo_drive : exists c, ready_drive c.
Proof.
  destruct (nvme_init_spec 1 2 3 4 5 6 (2 ^ 32) Nvme.Demo.ident0 (D := Nvme.Demo.Ctl) (L := laws)
    (H0 := Nvme.Demo.demo_start 3 4 5 6 (2 ^ 32) Nvme.Demo.ident0 1 2) Nvme.Demo.one_device Nvme.Demo.mm0 0
    Nvme.Demo.drv0 Nvme.Demo.dev0 (fun x => replicate SECTOR (u8 x)) 0xFEB00000) as (s0 & _ & _ & a & R & _).
  - split; [done|]. split; [|done]. intros x. apply length_replicate.
  - apply length_replicate.
  - vm_compute. reflexivity.
  - exists s0. split; [done|]. by exists a.
Qed.
Lemma fresh_slot {E : Type} (d : E) path : has_slot (fresh_fs d) path.
Proof. right. by exists 0%nat. Qed.

#[local] Instance demo_nvme : NvmeCtl Nvme.Demo.Ctl := Nvme.Demo.demo_ctl 3 4 5 6 (2 ^ 32) Nvme.Demo.ident0.
#[local] Instance demo_nvme_laws : NvmeLaws 3 4 5 6 (2 ^ 32) Nvme.Demo.ident0 Nvme.Demo.Ctl := laws.
#[local] Instance demo_ctls : Controllers (Nvme.Nvme Nvme.Demo.Ctl) := nvme_controllers 6.
Lemma demo_capacity : 2 ^ 32 <= 2 ^ 32 <= 2 ^ 64.
Proof. lia. Qed.
#[local] Instance demo_ctls_laws : ControllersLaws (Nvme.Nvme Nvme.Demo.Ctl) :=
  nvme_controllers_laws 3 4 5 6 Nvme.Demo.ident0 (2 ^ 32) demo_capacity.

Definition on_nvme (c : Nvme.Nvme Nvme.Demo.Ctl) : Vfs (Bcache (PhysDisk (Nvme.Nvme Nvme.Demo.Ctl))) :=
  fresh_fs (bcache_init (mkPhys Kfs.Nvme c)).
Lemma demo_stack : exists c, ready_drive c /\ vfs_wf (on_nvme c).
Proof.
  destruct demo_drive as [c Hc]. exists c. split; [exact Hc|]. apply fresh_fs_wf.
  apply (bcache_init_wf (mkPhys Kfs.Nvme c)). by split.
Qed.
