(* ===== verification/E1000.v ===== *)
(** The e1000 network card driver of the 64-bit kernel (kernel/arch/x86_64/kernel_x64.c): its
    descriptor rings, start-up, sending and receiving.

    The registers keep what is written to them; what the card does by itself - moving frames
    between the rings and the wire - are the steps [card_rx] and [card_tx], taken at any time.
    What a reset does to the registers is a parameter. *)

From S2P Require Import Prelude CString Frames Paging Pci.

(** [kernel/arch/x86_64/kernel_x64.c:4376-4378] E1000_NUM_RX *)
Definition E1000_NUM_RX := 32.
Definition E1000_NUM_TX := 8.
Definition E1000_PKT_SIZE := 2048.
(** [kernel/arch/x86_64/kernel_x64.c] E1000RxDesc *)
Record E1000RxDesc := mkRx { rx_addr : Z; rx_length : Z; rx_status : Z }.
(** [kernel/arch/x86_64/kernel_x64.c] E1000TxDesc *)
Record E1000TxDesc := mkTx { tx_addr : Z; tx_length : Z; tx_cmd : Z; tx_status : Z }.
#[export] Instance rx_inhabited : Inhabited E1000RxDesc := populate (mkRx 0 0 0).
#[export] Instance tx_inhabited : Inhabited E1000TxDesc := populate (mkTx 0 0 0 0).
#[export] Instance eta_rx : Eta E1000RxDesc := fun d => mkRx (rx_addr d) (rx_length d) (rx_status d).
#[export] Instance eta_tx : Eta E1000TxDesc := fun d => mkTx (tx_addr d) (tx_length d) (tx_cmd d) (tx_status d).

(** The driver's state and the card's registers.
    [kernel/arch/x86_64/kernel_x64.c:4388-4396] e1000_mmio *)
Record E1000 := mkE1000 {
  e1000_mmio : Z; e1000_mac : bytes; e1000_up : bool;
  e1000_rx_ring : list E1000RxDesc; e1000_tx_ring : list E1000TxDesc;
  e1000_rx_bufs : list bytes; e1000_tx_bufs : list bytes; e1000_rx_cur : Z; e1000_tx_cur : Z; regs : Z -> Z }.
#[export] Instance eta_E1000 : Eta E1000 := fun s =>
  mkE1000 (e1000_mmio s) (e1000_mac s) (e1000_up s) (e1000_rx_ring s) (e1000_tx_ring s) (e1000_rx_bufs s)
    (e1000_tx_bufs s) (e1000_rx_cur s) (e1000_tx_cur s) (regs s).
Implicit Types (s : E1000).

(** [kernel/arch/x86_64/kernel_x64.c:4339-4359] E1000_CTRL *)
Definition CTRL := 0x0000.
Definition ICR := 0x00C0.
Definition IMC := 0x00D8.
Definition RCTL := 0x0100.
Definition TCTL := 0x0400.
Definition TIPG := 0x0410.
Definition RDBAL := 0x2800.
Definition RDBAH := 0x2804.
Definition RDLEN := 0x2808.
Definition RDH := 0x2810.
Definition RDT := 0x2818.
Definition TDBAL := 0x3800.
Definition TDBAH := 0x3804.
Definition TDLEN := 0x3808.
Definition TDH := 0x3810.
Definition TDT := 0x3818.
Definition MTA := 0x5200.
Definition RAL := 0x5400.
Definition RAH := 0x5404.
(** [kernel/arch/x86_64/kernel_x64.c] e1000_w *)
Definition e1000_w s (reg val : Z) : E1000 := s <| regs := fun r => if r =? reg then u32 val else regs s r |>.
(** [kernel/arch/x86_64/kernel_x64.c] e1000_r *)
Definition e1000_r s (reg : Z) : Z := u32 (regs s reg).

Section driver.
(** The registers after a reset, and where the linker placed the rings and buffers. *)
Context (after_reset : (Z -> Z) -> Z -> Z) (rx_ring_at tx_ring_at : Z) (rx_buf_at tx_buf_at : Z -> Z).

(** The address in the base register found by the scan.
    [kernel/arch/x86_64/kernel_x64.c:4412-4417] e1000_init *)
Definition e1000_base {P : Type} `{PciBus P} (p : P) (dev : PciDev) : Z :=
  let mmio_phys := Z.land (bar0 dev) (2 ^ 64 - 16) in
  if Z.land (bar0 dev) 6 =? 4 then Z.lor mmio_phys (Z.shiftl (pci_read32 p (bus dev) (slot dev) 0 0x14) 32) else mmio_phys.
(** Mapping the 32 pages of registers.
    [kernel/arch/x86_64/kernel_x64.c:4420-4423] e1000_init *)
Definition map_card (st : Mm) (kernel_pml4 phys : Z) : Mm :=
  fold_left (fun st i => let a := phys + 4096 * Z.of_nat i in
                         paging_map_4k st kernel_pml4 a a (Z.lor PAGE_PRESENT PAGE_WRITABLE)) (seq 0 32) st.
(** Reset, interrupts off, link up; the card's address.
    [kernel/arch/x86_64/kernel_x64.c:4428-4451] e1000_init *)
Definition e1000_reset s : E1000 :=
  let s := e1000_w s CTRL (Z.lor (e1000_r s CTRL) (2 ^ 26)) in
  let s := s <| regs := after_reset (regs s) |> in
  let s := e1000_w s IMC 0xFFFFFFFF in
  let ctrl := Z.lor (e1000_r s CTRL) (Z.lor (2 ^ 6) (2 ^ 5)) in
  let ctrl := Z.ldiff ctrl (Z.lor (Z.lor (2 ^ 26) (2 ^ 3)) (Z.lor (2 ^ 31) (2 ^ 30))) in
  let s := e1000_w s CTRL ctrl in
  let ral := e1000_r s RAL in
  let rah := e1000_r s RAH in
  let s := s <| e1000_mac := [u8 ral; u8 (Z.shiftr ral 8); u8 (Z.shiftr ral 16); u8 (Z.shiftr ral 24); u8 rah; u8 (Z.shiftr rah 8)] |> in
  e1000_w s RAH (Z.lor (Z.land rah 0xFFFF) (2 ^ 31)).
(** The multicast table cleared.
    [kernel/arch/x86_64/kernel_x64.c:4454-4454] e1000_init *)
Definition clear_multicast s : E1000 := fold_left (fun s i => e1000_w s (MTA + Z.of_nat i * 4) 0) (seq 0 128) s.
(** [kernel/arch/x86_64/kernel_x64.c:4457-4467] e1000_init *)
Definition init_rx s : E1000 :=
  let s := s <| e1000_rx_ring := imap (fun i d => d <| rx_addr := rx_buf_at (Z.of_nat i) |> <| rx_status := 0 |>) (e1000_rx_ring s) |> in
  let s := e1000_w s RDBAL rx_ring_at in
  let s := e1000_w s RDBAH (Z.shiftr rx_ring_at 32) in
  let s := e1000_w s RDLEN (E1000_NUM_RX * 16) in
  let s := e1000_w s RDH 0 in
  let s := e1000_w s RDT (E1000_NUM_RX - 1) in
  let s := e1000_w s RCTL (Z.lor (Z.lor (2 ^ 1) (2 ^ 15)) (2 ^ 26)) in
  s <| e1000_rx_cur := 0 |>.
(** [kernel/arch/x86_64/kernel_x64.c:4470-4482] e1000_init *)
Definition init_tx s : E1000 :=
  let s := s <| e1000_tx_ring := imap (fun i d => d <| tx_addr := tx_buf_at (Z.of_nat i) |> <| tx_status := 1 |> <| tx_cmd := 0 |>) (e1000_tx_ring s) |> in
  let s := e1000_w s TDBAL tx_ring_at in
  let s := e1000_w s TDBAH (Z.shiftr tx_ring_at 32) in
  let s := e1000_w s TDLEN (E1000_NUM_TX * 16) in
  let s := e1000_w s TDH 0 in
  let s := e1000_w s TDT 0 in
  let s := e1000_w s TCTL (Z.lor (Z.lor (Z.lor (2 ^ 1) (2 ^ 3)) (Z.shiftl 15 4)) (Z.shiftl 64 12)) in
  let s := e1000_w s TIPG (Z.lor (Z.lor 10 (Z.shiftl 10 10)) (Z.shiftl 10 20)) in
  s <| e1000_tx_cur := 0 |>.
(** [kernel/arch/x86_64/kernel_x64.c] e1000_init *)
Definition e1000_init {P : Type} `{PciBus P} (p : P) (st : Mm) (kernel_pml4 : Z) s (dev : PciDev) : Z * E1000 * Mm * P :=
  let p := pci_enable p dev in
  let mmio_phys := e1000_base p dev in
  let st := map_card st kernel_pml4 mmio_phys in
  let s := init_tx (init_rx (clear_multicast (e1000_reset (s <| e1000_mmio := mmio_phys |>)))) in
  (0, s <| e1000_up := true |>, st, p).

(** Sending a frame: [None] while the descriptor is still the card's, where the driver spins.
    [kernel/arch/x86_64/kernel_x64.c] e1000_send *)
Definition e1000_send s (data : bytes) (len : Z) : option (Z * E1000) :=
  if negb (e1000_up s) || (E1000_PKT_SIZE <? len) then Some (-1, s) else
  let idx := e1000_tx_cur s in
  if Z.land (tx_status (geti (e1000_tx_ring s) idx)) 1 =? 0 then None else
  let s := s <| e1000_tx_bufs := puti (e1000_tx_bufs s) idx (blit (geti (e1000_tx_bufs s) idx) 0 (read_n data (Z.to_nat len))) |>
             <| e1000_tx_ring := puti (e1000_tx_ring s) idx
                  (geti (e1000_tx_ring s) idx <| tx_length := len |> <| tx_cmd := Z.lor (Z.lor 1 2) 8 |> <| tx_status := 0 |>) |>
             <| e1000_tx_cur := (idx + 1) mod E1000_NUM_TX |> in
  Some (0, e1000_w s TDT (e1000_tx_cur s)).
(** The result and the frame received.
    [kernel/arch/x86_64/kernel_x64.c] e1000_recv *)
Definition e1000_recv s (max_len : Z) : Z * bytes * E1000 :=
  if negb (e1000_up s) then (-1, [], s) else
  let idx := e1000_rx_cur s in
  let d := geti (e1000_rx_ring s) idx in
  if Z.land (rx_status d) 1 =? 0 then (0, [], s) else
  let len := if max_len <? rx_length d then max_len else rx_length d in
  let data := read_n (geti (e1000_rx_bufs s) idx) (Z.to_nat len) in
  let s := s <| e1000_rx_ring := puti (e1000_rx_ring s) idx (d <| rx_status := 0 |>) |>
             <| e1000_rx_cur := (idx + 1) mod E1000_NUM_RX |> in
  (len, data, e1000_w s RDT idx).
End driver.

(** ** What the card does *)

(** A frame from the wire is stored in the next descriptor, unless that is the one at the tail. *)
Definition card_rx s (frame : bytes) : option E1000 :=
  let h := regs s RDH in
  if (h =? regs s RDT) || (E1000_PKT_SIZE <? Z.of_nat (length frame)) then None else
  Some (s <| e1000_rx_bufs := puti (e1000_rx_bufs s) h (blit (geti (e1000_rx_bufs s) h) 0 frame) |>
          <| e1000_rx_ring := puti (e1000_rx_ring s) h (geti (e1000_rx_ring s) h <| rx_length := Z.of_nat (length frame) |> <| rx_status := 3 |>) |>
          <| regs := fun r => if r =? RDH then (h + 1) mod E1000_NUM_RX else regs s r |>).
(** The frame of the next descriptor goes onto the wire, unless the head has reached the tail. *)
Definition card_tx s : option (bytes * E1000) :=
  let h := regs s TDH in
  if h =? regs s TDT then None else
  let d := geti (e1000_tx_ring s) h in
  Some (read_n (geti (e1000_tx_bufs s) h) (Z.to_nat (tx_length d)),
        s <| e1000_tx_ring := puti (e1000_tx_ring s) h (d <| tx_status := 1 |>) |>
          <| regs := fun r => if r =? TDH then (h + 1) mod E1000_NUM_TX else regs s r |>).

(** ** A run: calls of the driver and steps of the card in any order *)

Inductive nic_event := FrameIn (frame : bytes) | FrameOut | Send (data : bytes) | Recv.
(** The card and the driver, with what came off the wire, what the kernel got, what it sent, and what went onto the wire. *)
Record World := mkWorld { nic : E1000; from_wire : list bytes; got : list bytes; sent : list bytes; to_wire : list bytes }.
(** An event that cannot happen yet - a card without a free descriptor or a frame to send, a driver that spins - is
    [None]. *)
Definition nic_do (w : World) (e : nic_event) : option World :=
  match e with
  | FrameIn f => s ← card_rx (nic w) f; Some (mkWorld s (from_wire w ++ [f]) (got w) (sent w) (to_wire w))
  | FrameOut => '(f, s) ← card_tx (nic w); Some (mkWorld s (from_wire w) (got w) (sent w) (to_wire w ++ [f]))
  | Send data =>
      '(rc, s) ← e1000_send (nic w) data (Z.of_nat (length data));
      Some (mkWorld s (from_wire w) (got w) (if rc =? 0 then sent w ++ [data] else sent w) (to_wire w))
  | Recv =>
      let '(n, f, s) := e1000_recv (nic w) E1000_PKT_SIZE in
      Some (mkWorld s (from_wire w) (if 0 <? n then got w ++ [f] else got w) (sent w) (to_wire w))
  end.
Definition nic_run (w : World) (es : list nic_event) : option World := foldl (fun w e => w ≫= fun w => nic_do w e) (Some w) es.

(** ** Frames in a ring *)

(** The [cap] places of a ring from [h] on hold the frames [fs], and the places after them nothing. *)
Definition ring_holds (place : Z -> option bytes) (cap h : Z) (fs : list bytes) : Prop :=
  Z.of_nat (length fs) <= cap /\
  (forall k, (k < length fs)%nat -> place ((h + Z.of_nat k) mod cap) = Some (fs !!! k)) /\
  (forall k, Z.of_nat (length fs) <= k < cap -> place ((h + k) mod cap) = None).

Lemma mod_apart cap h i j : 0 <= i < cap -> 0 <= j < cap -> (h + i) mod cap = (h + j) mod cap -> i = j.
Proof.
  intros Hi Hj E1. pose proof (Z.div_mod (h + i) cap ltac:(lia)). pose proof (Z.div_mod (h + j) cap ltac:(lia)).
  assert (Hd : (h + i) / cap = (h + j) / cap) by nia. nia.
Qed.
Lemma ring_empty (place : Z -> option bytes) cap h : 0 < cap -> (forall i, 0 <= i < cap -> place i = None) -> ring_holds place cap h [].
Proof.
  intros Hc Hn. split; [cbn; lia|]. split; [intros k Hk; cbn in Hk; lia|]. intros k Hk. apply Hn. apply Z.mod_pos_bound. lia.
Qed.
Lemma ring_push place place' cap h fs f : 0 < cap -> ring_holds place cap h fs -> Z.of_nat (length fs) < cap ->
  place' ((h + Z.of_nat (length fs)) mod cap) = Some f ->
  (forall i, i <> (h + Z.of_nat (length fs)) mod cap -> 0 <= i < cap -> place' i = place i) -> ring_holds place' cap h (fs ++ [f]).
Proof.
  intros Hc (Hl & Hin & Hout) Hlt Hnew Hsame. assert (Hr : forall x, 0 <= x mod cap < cap) by (intros; apply Z.mod_pos_bound; lia).
  split; [rewrite length_app; cbn; lia|]. split.
  - intros k Hk. rewrite length_app in Hk. cbn in Hk. destruct (decide (k = length fs)) as [->|Hne].
    + rewrite Hnew, lookup_total_app_r, Nat.sub_diag by lia. done.
    + rewrite lookup_total_app_l by lia. rewrite <- Hin by lia. apply Hsame; [|done].
      intros E1. apply mod_apart in E1; lia.
  - intros k Hk. rewrite length_app in Hk. cbn in Hk. rewrite <- (Hout k) by lia. apply Hsame; [|done].
    intros E1. apply mod_apart in E1; lia.
Qed.
Lemma ring_pop place place' cap h f fs : 0 < cap -> ring_holds place cap h (f :: fs) ->
  place' (h mod cap) = None -> (forall i, i <> h mod cap -> 0 <= i < cap -> place' i = place i) ->
  ring_holds place' cap ((h + 1) mod cap) fs.
Proof.
  intros Hc (Hl & Hin & Hout) Hnew Hsame. cbn [length] in *.
  assert (Hr : forall x, 0 <= x mod cap < cap) by (intros; apply Z.mod_pos_bound; lia).
  assert (Hs : forall k, ((h + 1) mod cap + k) mod cap = (h + (1 + k)) mod cap) by (intros; rewrite Zplus_mod_idemp_l; f_equal; lia).
  assert (Hh : h mod cap = (h + 0) mod cap) by (f_equal; lia).
  split; [lia|]. split.
  - intros k Hk. rewrite Hs. rewrite Hsame; [|rewrite Hh; intros E1; apply mod_apart in E1; lia|done].
    rewrite <- Nat2Z.inj_succ || replace (1 + Z.of_nat k) with (Z.of_nat (S k)) by lia. by rewrite Hin by lia.
  - intros k Hk. rewrite Hs. destruct (decide (k = cap - 1)) as [->|Hne].
    + replace (h + (1 + (cap - 1))) with (h + 1 * cap) by lia. by rewrite Z.mod_add by lia.
    + rewrite Hsame; [|rewrite Hh; intros E1; apply mod_apart in E1; lia|done]. apply Hout. lia.
Qed.

(** A frame that waits in a receive descriptor, or in a transmit descriptor the card has not done. *)
Definition rx_frame s (i : Z) : option bytes :=
  let d := geti (e1000_rx_ring s) i in
  if Z.land (rx_status d) 1 =? 0 then None else Some (take (Z.to_nat (rx_length d)) (geti (e1000_rx_bufs s) i)).
Definition tx_frame s (i : Z) : option bytes :=
  let d := geti (e1000_tx_ring s) i in
  if Z.land (tx_status d) 1 =? 0 then Some (take (Z.to_nat (tx_length d)) (geti (e1000_tx_bufs s) i)) else None.

Definition sizes_ok s : Prop :=
  length (e1000_rx_ring s) = 32%nat /\ length (e1000_tx_ring s) = 8%nat /\
  length (e1000_rx_bufs s) = 32%nat /\ length (e1000_tx_bufs s) = 8%nat /\
  Forall (fun b => length b = 2048%nat) (e1000_rx_bufs s) /\ Forall (fun b => length b = 2048%nat) (e1000_tx_bufs s).
(** What is always so: the frames that came off the wire and the kernel does not have yet wait in the receive ring, in
    order, and those it sent that are not on the wire yet in the transmit ring; the head and tail registers agree. *)
Record nic_inv (w : World) : Prop := {
  ni_up : e1000_up (nic w) = true;
  ni_sizes : sizes_ok (nic w);
  ni_cur : 0 <= e1000_rx_cur (nic w) < 32 /\ 0 <= regs (nic w) TDH < 8;
  ni_lengths : (forall i, 0 <= i < 32 -> 0 <= rx_length (geti (e1000_rx_ring (nic w)) i) <= 2048) /\
               (forall i, 0 <= i < 8 -> 0 <= tx_length (geti (e1000_tx_ring (nic w)) i) <= 2048);
  ni_rx : exists fs, from_wire w = got w ++ fs /\ ring_holds (rx_frame (nic w)) 32 (e1000_rx_cur (nic w)) fs /\
            Z.of_nat (length fs) <= 31 /\ Forall (fun f => length f <> 0%nat) fs /\
            regs (nic w) RDT = (e1000_rx_cur (nic w) + 31) mod 32 /\
            regs (nic w) RDH = (e1000_rx_cur (nic w) + Z.of_nat (length fs)) mod 32;
  ni_tx : exists fs, sent w = to_wire w ++ fs /\ ring_holds (tx_frame (nic w)) 8 (regs (nic w) TDH) fs /\
            regs (nic w) TDT = (regs (nic w) TDH + Z.of_nat (length fs)) mod 8 /\ e1000_tx_cur (nic w) = regs (nic w) TDT }.
(** Frames on the wire are not empty. *)
Definition event_ok (e : nic_event) : Prop := match e with FrameIn f => length f <> 0%nat | _ => True end.

Lemma buf_length (l : list bytes) i : Forall (fun b => length b = 2048%nat) l -> 0 <= i < Z.of_nat (length l) -> length (geti l i) = 2048%nat.
Proof. intros Hl Hi. apply (geti_Forall (fun b => length b = 2048%nat)); done. Qed.
Lemma stored_frame (buf f : bytes) : (length f <= length buf)%nat -> take (Z.to_nat (Z.of_nat (length f))) (blit buf 0 f) = f.
Proof. intros Hl. rewrite Nat2Z.id, blit_0. by rewrite take_app_length. Qed.
Lemma blit_size (buf f : bytes) : length buf = 2048%nat -> (length f <= 2048)%nat -> length (blit buf 0 f) = 2048%nat.
Proof. intros Hb Hf. rewrite length_blit; lia. Qed.

Section steps.
Context (w : World) (I : nic_inv w).

Lemma frame_in_inv f w' : length f <> 0%nat -> nic_do w (FrameIn f) = Some w' -> nic_inv w'.
Proof.
  intros Hf. destruct I as [Hup (R1 & R2 & B1 & B2 & F1 & F2) [Hc Ht] [L1 L2] (fs & Efs & Hh & Hn & Hne & Erdt & Erdh) Htx].
  cbn [nic_do]. unfold card_rx. set (s := nic w) in *. set (h := regs s RDH) in *.
  destruct (Z.eqb_spec h (regs s RDT)) as [|Hfull]; [done|]. unfold E1000_PKT_SIZE. destruct (Z.ltb_spec 2048 (Z.of_nat (length f))) as [|Hlen]; [done|].
  cbn [orb mbind option_bind]. intros [= <-]. assert (Hh32 : 0 <= h < 32) by (rewrite Erdh; apply Z.mod_pos_bound; lia).
  assert (Hlt : Z.of_nat (length fs) < 31).
  { destruct (decide (Z.of_nat (length fs) = 31)) as [E1|]; [|lia]. by rewrite Erdt, Erdh, E1 in Hfull. }
  assert (Hb : length (geti (e1000_rx_bufs s) h) = 2048%nat) by (apply buf_length; [done|lia]).
  split; cbn [nic from_wire got sent to_wire]; try done.
  - split_and!; cbn; rewrite ?length_puti; try done. apply puti_Forall; [done|]. apply blit_size; lia.
  - split; [|done]. intros i Hi. cbn. destruct (decide (i = h)) as [->|Hne2].
    + rewrite geti_puti_eq by lia. cbn. lia.
    + rewrite geti_puti_ne by lia. by apply L1.
  - exists (fs ++ [f]). split; [by rewrite Efs, app_assoc|]. split; [|split; [rewrite length_app; cbn; lia|split; [apply Forall_app; split; [done|by constructor]|split; [done|]]]].
    + cbn [upd_with e1000_rx_cur]. apply (ring_push (rx_frame s)); [lia|done|lia| |].
      * rewrite <- Erdh. unfold rx_frame; cbn [upd_with e1000_rx_ring e1000_rx_bufs]. rewrite !geti_puti_eq by lia. cbn.
        rewrite stored_frame by lia. done.
      * rewrite <- Erdh. intros i Hi Hr. unfold rx_frame; cbn [upd_with e1000_rx_ring e1000_rx_bufs]. by rewrite !geti_puti_ne by lia.
    + cbn. fold h. rewrite Erdh, length_app. cbn [length]. rewrite Zplus_mod_idemp_l. f_equal. lia.
Qed.
Lemma frame_out_inv w' : nic_do w FrameOut = Some w' -> nic_inv w'.
Proof.
  destruct I as [Hup (R1 & R2 & B1 & B2 & F1 & F2) [Hc Ht] [L1 L2] Hrx (fs & Efs & Hh & Etdt & Ecur)].
  cbn [nic_do]. unfold card_tx. set (s := nic w) in *. set (h := regs s TDH) in *.
  destruct (Z.eqb_spec h (regs s TDT)) as [|Hne]; [done|]. cbn [mbind option_bind]. intros [= <-].
  destruct fs as [|f fs]; [rewrite Z.add_0_r, Z.mod_small in Etdt by lia; done|].
  assert (Hplace := proj1 (proj2 Hh) 0%nat ltac:(cbn; lia)). rewrite Z.add_0_r, Z.mod_small in Hplace by lia. cbn [lookup_total list_lookup_total] in Hplace.
  assert (Hb : length (geti (e1000_tx_bufs s) h) = 2048%nat) by (apply buf_length; [done|lia]).
  assert (Ef : read_n (geti (e1000_tx_bufs s) h) (Z.to_nat (tx_length (geti (e1000_tx_ring s) h))) = f).
  { unfold tx_frame in Hplace. specialize (L2 h Ht). case_match; [|done]. injection Hplace as <-. apply read_n_take. lia. }
  split; cbn [nic from_wire got sent to_wire]; try done.
  - split_and!; cbn; rewrite ?length_puti; done.
  - split; [done|]. cbn. apply Z.mod_pos_bound. unfold E1000_NUM_TX. lia.
  - split; [done|]. intros i Hi. cbn. destruct (decide (i = h)) as [->|Hne2]; [rewrite geti_puti_eq by lia; by apply L2|].
    rewrite geti_puti_ne by lia. by apply L2.
  - exists fs. rewrite Ef, Efs, <- app_assoc. split; [done|]. split; [|split; [|done]].
    + change (regs _ TDH) with ((h + 1) mod 8). apply (ring_pop (tx_frame s) _ _ _ f); [lia|done| |].
      * rewrite (Z.mod_small h 8) by lia. unfold tx_frame; cbn [upd_with e1000_tx_ring e1000_tx_bufs]. rewrite geti_puti_eq by lia. done.
      * rewrite (Z.mod_small h 8) by lia. intros i Hi Hr. unfold tx_frame; cbn [upd_with e1000_tx_ring e1000_tx_bufs]. by rewrite geti_puti_ne by lia.
    + change (regs _ TDH) with ((h + 1) mod 8). change (regs _ TDT) with (regs s TDT). rewrite Etdt, Zplus_mod_idemp_l. cbn [length]. f_equal. lia.
Qed.
Lemma send_inv data w' : nic_do w (Send data) = Some w' -> nic_inv w'.
Proof.
  pose proof I as [Hup (R1 & R2 & B1 & B2 & F1 & F2) [Hc Ht] [L1 L2] Hrx (fs & Efs & Hh & Etdt & Ecur)].
  cbn [nic_do]. unfold e1000_send. rewrite Hup. cbn [negb orb]. set (s := nic w) in *. unfold E1000_PKT_SIZE.
  destruct (Z.ltb_spec 2048 (Z.of_nat (length data))) as [|Hlen].
  { cbn [mbind option_bind Z.eqb]. intros [= <-]. destruct w; exact I. }
  set (idx := e1000_tx_cur s) in *. destruct (Z.land (tx_status (geti (e1000_tx_ring s) idx)) 1 =? 0) eqn:Edd; [done|].
  cbn [mbind option_bind Z.eqb]. intros [= <-]. assert (Hidx : 0 <= idx < 8) by (rewrite Ecur, Etdt; apply Z.mod_pos_bound; lia).
  assert (Hlt : Z.of_nat (length fs) < 8).
  { destruct (decide (Z.of_nat (length fs) = 8)) as [E1|]; [|destruct Hh; lia].
    destruct fs as [|f fs]; [done|]. pose proof (proj1 (proj2 Hh) 0%nat ltac:(cbn; lia)) as Hp.
    assert (Ei : idx = regs s TDH) by (rewrite Ecur, Etdt, E1; rewrite <- (Z.mul_1_l 8) at 1; rewrite Z.mod_add, Z.mod_small; lia).
    rewrite Z.add_0_r, Z.mod_small, <- Ei in Hp by lia. unfold tx_frame in Hp. by rewrite Edd in Hp. }
  assert (Hb : length (geti (e1000_tx_bufs s) idx) = 2048%nat) by (apply buf_length; [done|lia]).
  assert (Enext : u32 ((idx + 1) mod 8) = (regs s TDH + Z.of_nat (length fs) + 1) mod 8).
  { rewrite u32_id by (unfold is_u32; pose proof (Z.mod_pos_bound (idx + 1) 8); lia). by rewrite Ecur, Etdt, Zplus_mod_idemp_l. }
  split; cbn [nic from_wire got sent to_wire]; try done.
  - split_and!; cbn; rewrite ?length_puti; try done. apply puti_Forall; [done|]. apply blit_size; [done|]. rewrite length_read_n. lia.
  - split; [done|]. intros i Hi. cbn. destruct (decide (i = idx)) as [->|Hne2]; [rewrite geti_puti_eq by lia; cbn; lia|].
    rewrite geti_puti_ne by lia. by apply L2.
  - exists (fs ++ [data]). split; [by rewrite Efs, app_assoc|]. split; [|split].
    + change (regs _ TDH) with (regs s TDH). apply (ring_push (tx_frame s)); [lia|done|done| |].
      * rewrite <- Etdt, <- Ecur. unfold tx_frame; cbn [e1000_w upd_with e1000_tx_ring e1000_tx_bufs]. rewrite !geti_puti_eq by lia.
        cbn. rewrite read_n_all by lia. rewrite stored_frame by lia. done.
      * rewrite <- Etdt, <- Ecur. intros i Hi Hr. unfold tx_frame; cbn [e1000_w upd_with e1000_tx_ring e1000_tx_bufs]. by rewrite !geti_puti_ne by lia.
    + change (regs _ TDH) with (regs s TDH). change (regs _ TDT) with (u32 ((idx + 1) mod 8)). rewrite Enext, length_app. cbn [length]. f_equal. lia.
    + change (regs _ TDT) with (u32 ((idx + 1) mod 8)). change (e1000_tx_cur _) with ((idx + 1) mod 8). symmetry. apply u32_id.
      unfold is_u32; pose proof (Z.mod_pos_bound (idx + 1) 8); lia.
Qed.
Lemma recv_inv w' : nic_do w Recv = Some w' ->
  nic_inv w' /\ ((e1000_recv (nic w) E1000_PKT_SIZE).1.1 = 0 -> got w = from_wire w).
Proof.
  pose proof I as [Hup (R1 & R2 & B1 & B2 & F1 & F2) [Hc Ht] [L1 L2] (fs & Efs & Hh & Hn & Hne & Erdt & Erdh) Htx].
  cbn [nic_do]. unfold e1000_recv. rewrite Hup. cbn [negb]. set (s := nic w) in *. set (c := e1000_rx_cur s) in *.
  destruct (Z.land (rx_status (geti (e1000_rx_ring s) c)) 1 =? 0) eqn:Edd.
  { cbn [fst]. intros [= <-]. split; [destruct w; exact I|]. intros _. destruct fs as [|f fs]; [by rewrite app_nil_r in Efs|].
    pose proof (proj1 (proj2 Hh) 0%nat ltac:(cbn; lia)) as Hp. rewrite Z.add_0_r, Z.mod_small in Hp by lia.
    unfold rx_frame in Hp. by rewrite Edd in Hp. }
  destruct fs as [|f fs].
  { pose proof (proj2 (proj2 Hh) 0 ltac:(cbn; lia)) as Hp. rewrite Z.add_0_r, Z.mod_small in Hp by lia. unfold rx_frame in Hp. by rewrite Edd in Hp. }
  assert (Hb : length (geti (e1000_rx_bufs s) c) = 2048%nat) by (apply buf_length; [done|lia]).
  specialize (L1 c Hc) as Hlc. unfold E1000_PKT_SIZE. rewrite (proj2 (Z.ltb_ge 2048 _)) by lia.
  pose proof (proj1 (proj2 Hh) 0%nat ltac:(cbn; lia)) as Hp. rewrite Z.add_0_r, Z.mod_small in Hp by lia.
  unfold rx_frame in Hp. rewrite Edd in Hp. cbn [lookup_total list_lookup_total] in Hp. injection Hp as Ef.
  rewrite read_n_take by lia. rewrite Ef. apply Forall_cons in Hne as [Hf Hne].
  assert (Hpos : 0 < rx_length (geti (e1000_rx_ring s) c)).
  { destruct (decide (rx_length (geti (e1000_rx_ring s) c) = 0)) as [E1|]; [|lia]. rewrite E1 in Ef. cbn in Ef. by subst f. }
  rewrite (proj2 (Z.ltb_lt 0 _)) by done. cbn [fst]. intros [= <-]. split; [|lia].
  split; cbn [nic from_wire got sent to_wire]; try done.
  - split_and!; cbn; rewrite ?length_puti; done.
  - split; [|done]. cbn. apply Z.mod_pos_bound. unfold E1000_NUM_RX. lia.
  - split; [|done]. intros i Hi. cbn. destruct (decide (i = c)) as [->|Hne2]; [rewrite geti_puti_eq by lia; by apply L1|].
    rewrite geti_puti_ne by lia. by apply L1.
  - exists fs. rewrite Efs, <- app_assoc. split; [done|].
    set (n' := e1000_w _ RDT c). assert (Ec : e1000_rx_cur n' = (c + 1) mod 32) by done. assert (Et : regs n' RDT = u32 c) by done.
    assert (Eh : regs n' RDH = regs s RDH) by done. rewrite Ec, Et, Eh. clear Ec Et Eh; subst n'.
    cbn [length] in *. split; [|split; [lia|split; [done|split]]].
    + apply (ring_pop (rx_frame s) _ _ _ f); [lia|done| |].
      * rewrite (Z.mod_small c 32) by lia. unfold rx_frame; cbn [e1000_w upd_with e1000_rx_ring e1000_rx_bufs]. rewrite geti_puti_eq by lia. done.
      * rewrite (Z.mod_small c 32) by lia. intros i Hi Hr. unfold rx_frame; cbn [e1000_w upd_with e1000_rx_ring e1000_rx_bufs]. by rewrite geti_puti_ne by lia.
    + rewrite u32_id by (unfold is_u32; lia). rewrite Zplus_mod_idemp_l. replace (c + 1 + 31) with (c + 1 * 32) by lia.
      rewrite Z.mod_add, Z.mod_small; lia.
    + rewrite Erdh, Zplus_mod_idemp_l. f_equal. lia.
Qed.
(** What a receive returns, by what waits. *)
Lemma recv_result : forall rx, from_wire w = got w ++ rx ->
  match rx with
  | [] => exists s', e1000_recv (nic w) 2048 = (0, [], s')
  | f :: _ => exists s', e1000_recv (nic w) 2048 = (Z.of_nat (length f), f, s')
  end.
Proof.
  intros rx Erx. destruct I as [Hup (R1 & R2 & B1 & B2 & F1 & F2) [Hc Ht] [L1 L2] (fs & Efs & Hh & Hn & Hne & Erdt & Erdh) Htx].
  rewrite Efs in Erx. apply app_inv_head in Erx as <-. unfold e1000_recv. rewrite Hup. cbn [negb]. set (s := nic w) in *. set (c := e1000_rx_cur s) in *.
  destruct fs as [|f fs].
  - pose proof (proj2 (proj2 Hh) 0 ltac:(cbn; lia)) as Hp. rewrite Z.add_0_r, Z.mod_small in Hp by lia. unfold rx_frame in Hp.
    case_match; [by eexists|done].
  - pose proof (proj1 (proj2 Hh) 0%nat ltac:(cbn; lia)) as Hp. rewrite Z.add_0_r, Z.mod_small in Hp by lia. unfold rx_frame in Hp.
    case_match; [done|]. cbn [lookup_total list_lookup_total] in Hp. injection Hp as Ef. specialize (L1 c Hc) as Hlc.
    assert (Hb : length (geti (e1000_rx_bufs s) c) = 2048%nat) by (apply buf_length; [done|lia]).
    rewrite (proj2 (Z.ltb_ge 2048 _)) by lia. rewrite read_n_take, Ef by lia. eexists. f_equal. f_equal.
    rewrite <- Ef, length_take. lia.
Qed.
End steps.

Lemma nic_run_inv es : forall w w', Forall event_ok es -> nic_inv w -> nic_run w es = Some w' -> nic_inv w'.
Proof.
  induction es as [|e es IH] using rev_ind; intros w w' Hok I Hr; [by injection Hr as <-|].
  apply Forall_app in Hok as [Hok He]. rewrite Forall_singleton in He. unfold nic_run in *. rewrite foldl_app in Hr. cbn in Hr.
  destruct (foldl _ (Some w) es) as [w1|] eqn:E1; [|done]. cbn in Hr. specialize (IH w w1 Hok I E1).
  destruct e as [f| |data|].
  - exact (frame_in_inv w1 IH f w' He Hr).
  - exact (frame_out_inv w1 IH w' Hr).
  - exact (send_inv w1 IH data w' Hr).
  - exact (proj1 (recv_inv w1 IH w' Hr)).
Qed.

Lemma multicast_keeps s : let s' := clear_multicast s in
  e1000_rx_ring s' = e1000_rx_ring s /\ e1000_tx_ring s' = e1000_tx_ring s /\ e1000_rx_bufs s' = e1000_rx_bufs s /\
  e1000_tx_bufs s' = e1000_tx_bufs s.
Proof.
  unfold clear_multicast. generalize (seq 0 128). intros l. revert s. induction l as [|k l IH]; intros s; [done|].
  cbn [fold_left]. apply (IH (e1000_w s _ 0)).
Qed.
Lemma reset_keeps rst s : let s' := e1000_reset rst s in
  e1000_rx_ring s' = e1000_rx_ring s /\ e1000_tx_ring s' = e1000_tx_ring s /\ e1000_rx_bufs s' = e1000_rx_bufs s /\
  e1000_tx_bufs s' = e1000_tx_bufs s.
Proof. done. Qed.

Section started.
Context (after_reset : (Z -> Z) -> Z -> Z) (rx_ring_at tx_ring_at : Z) (rx_buf_at tx_buf_at : Z -> Z).
(** A card just started, with rings and buffers of the sizes they are declared with. *)
Definition started s : E1000 :=
  init_tx tx_ring_at tx_buf_at (init_rx rx_ring_at rx_buf_at (clear_multicast (e1000_reset after_reset s))) <| e1000_up := true |>.
Lemma started_inv s : sizes_ok s ->
  (forall i, 0 <= i < 32 -> 0 <= rx_length (geti (e1000_rx_ring s) i) <= 2048) ->
  (forall i, 0 <= i < 8 -> 0 <= tx_length (geti (e1000_tx_ring s) i) <= 2048) ->
  nic_inv (mkWorld (started s) [] [] [] []).
Proof.
  intros (R1 & R2 & B1 & B2 & F1 & F2) L1 L2.
  destruct (multicast_keeps (e1000_reset after_reset s)) as (E1 & E2 & E3 & E4).
  destruct (reset_keeps after_reset s) as (K1 & K2 & K3 & K4). rewrite K1 in E1. rewrite K2 in E2. rewrite K3 in E3. rewrite K4 in E4.
  unfold started. generalize dependent (clear_multicast (e1000_reset after_reset s)). intros t E1 E2 E3 E4.
  assert (Hget : forall {A} `{Inhabited A} (g : nat -> A -> A) l i, 0 <= i < Z.of_nat (length l) -> geti (imap g l) i = g (Z.to_nat i) (geti l i)).
  { intros A ? g l i Hi. unfold geti. destruct (l !! Z.to_nat i) as [x|] eqn:Ex; [|apply lookup_ge_None in Ex; lia].
    rewrite (list_lookup_total_correct (imap g l) (Z.to_nat i) (g (Z.to_nat i) x)) by (by rewrite list_lookup_imap, Ex).
    by rewrite (list_lookup_total_correct l (Z.to_nat i) x Ex). }
  split; cbn [nic from_wire got sent to_wire]; try done.
  - split_and!; cbn; rewrite ?length_imap, ?E1, ?E2, ?E3, ?E4; done.
  - split; intros i Hi; cbn; rewrite Hget by (rewrite ?E1, ?E2; lia); cbn; rewrite ?E1, ?E2; auto.
  - exists []. split; [done|]. split; [|split; [cbn; lia|split; [done|split; done]]].
    apply ring_empty; [lia|]. intros i Hi. unfold rx_frame. cbn [e1000_w upd_with e1000_rx_ring init_rx init_tx].
    rewrite Hget by (rewrite E1; lia). done.
  - exists []. split; [done|]. split; [|split; done].
    apply ring_empty; [lia|]. intros i Hi. unfold tx_frame. cbn [e1000_w upd_with e1000_tx_ring init_rx init_tx].
    rewrite Hget by (cbn; rewrite E2; lia). done.
Qed.
End started.

(** With eight frames waiting the tail register equals the head, which to the card is an empty ring, while the driver
    waits for the card to finish the next descriptor: neither moves again. *)
Lemma full_ring_hangs w : nic_inv w -> Z.of_nat (length (sent w)) = Z.of_nat (length (to_wire w)) + 8 ->
  nic_do w FrameOut = None /\ forall data, (length data <= 2048)%nat -> nic_do w (Send data) = None.
Proof.
  intros [Hup _ [_ Ht] _ _ (fs & Efs & Hh & Etdt & Ecur)] Hfull. rewrite Efs, length_app in Hfull.
  assert (Ei : regs (nic w) TDT = regs (nic w) TDH).
  { rewrite Etdt. replace (regs (nic w) TDH + Z.of_nat (length fs)) with (regs (nic w) TDH + 1 * 8) by lia. rewrite Z.mod_add, Z.mod_small; lia. }
  split; [by unfold nic_do, card_tx; rewrite Ei, Z.eqb_refl|]. intros data Hl. unfold nic_do, e1000_send, E1000_PKT_SIZE.
  rewrite Hup, (proj2 (Z.ltb_ge _ _)) by lia. cbn [negb orb]. pose proof (proj1 (proj2 Hh) 0%nat ltac:(lia)) as Hp.
  rewrite Z.add_0_r, Z.mod_small in Hp by lia. unfold tx_frame in Hp. rewrite Ecur, Ei. by case_match.
Qed.
(** While fewer than eight frames wait a send goes through. *)
Lemma send_goes_through w data : nic_inv w -> Z.of_nat (length (sent w)) < Z.of_nat (length (to_wire w)) + 8 -> (length data <= 2048)%nat ->
  exists s, nic_do w (Send data) = Some (mkWorld s (from_wire w) (got w) (sent w ++ [data]) (to_wire w)).
Proof.
  intros [Hup _ [_ Ht] _ _ (fs & Efs & Hh & Etdt & Ecur)] Hlt Hl. rewrite Efs, length_app in Hlt.
  unfold nic_do, e1000_send, E1000_PKT_SIZE. rewrite Hup, (proj2 (Z.ltb_ge _ _)) by lia. cbn [negb orb].
  pose proof (proj2 (proj2 Hh) (Z.of_nat (length fs)) ltac:(lia)) as Hp. rewrite <- Etdt, <- Ecur in Hp. unfold tx_frame in Hp.
  case_match; [done|]. by eexists.
Qed.

Section run.
Context (after_reset : (Z -> Z) -> Z -> Z) (rx_ring_at tx_ring_at : Z) (rx_buf_at tx_buf_at : Z -> Z).
Local Abbreviation start s := (mkWorld (started after_reset rx_ring_at tx_ring_at rx_buf_at tx_buf_at s) [] [] [] []).
Local Abbreviation fresh s := (sizes_ok s /\ (forall i, 0 <= i < 32 -> 0 <= rx_length (geti (e1000_rx_ring s) i) <= 2048) /\
  (forall i, 0 <= i < 8 -> 0 <= tx_length (geti (e1000_tx_ring s) i) <= 2048)).

(** C6. From the started card on, whatever the order of the driver's calls and the card's steps, no frame is lost,
    changed, repeated or reordered by the rings: what came off the wire is what the kernel got followed by at most 31
    frames that wait, what the kernel sent is what went onto the wire followed by at most eight that wait; a receive
    that says there is nothing is right, and otherwise returns the frame that waits longest. *)
Theorem e1000_frames_in_order s es w : fresh s -> Forall event_ok es -> nic_run (start s) es = Some w ->
  exists rx tx, from_wire w = got w ++ rx /\ (length rx <= 31)%nat /\ sent w = to_wire w ++ tx /\ (length tx <= 8)%nat /\
    match rx with
    | [] => exists s', e1000_recv (nic w) 2048 = (0, [], s')
    | f :: _ => exists s', e1000_recv (nic w) 2048 = (Z.of_nat (length f), f, s')
    end.
Proof.
  intros (Hs & L1 & L2) Hok Hr. pose proof (nic_run_inv es _ w Hok (started_inv _ _ _ _ _ s Hs L1 L2) Hr) as I.
  pose proof I as [Hup _ _ _ (rx & Erx & _ & Hn & _) (tx & Etx & (Htl & _) & _)].
  exists rx, tx. split; [done|]. split; [lia|]. split; [done|]. split; [lia|]. by apply (recv_result w I).
Qed.

(** Eight frames sent before the card has taken one: the ring is full, and from then on the card does not send and the
    driver does not return. *)
Lemma eight_sends_hang s frames : fresh s -> length frames = 8%nat -> Forall (fun f : bytes => (length f <= 2048)%nat) frames ->
  exists w, nic_run (start s) (Send <$> frames) = Some w /\ nic_do w FrameOut = None /\
    forall data, (length data <= 2048)%nat -> nic_do w (Send data) = None.
Proof.
  intros (Hs & L1 & L2) Hl Hf. pose proof (started_inv after_reset rx_ring_at tx_ring_at rx_buf_at tx_buf_at s Hs L1 L2) as I0.
  assert (Hrun : forall fs, (length fs <= 8)%nat -> Forall (fun f : bytes => (length f <= 2048)%nat) fs ->
    exists w, nic_run (start s) (Send <$> fs) = Some w /\ nic_inv w /\ sent w = fs /\ to_wire w = []).
  { intros fs. induction fs as [|f fs IH] using rev_ind; intros Hlen Hall; [by eexists|].
    rewrite length_app in Hlen. cbn in Hlen. apply Forall_app in Hall as [Hall Hf1]. rewrite Forall_singleton in Hf1.
    destruct IH as (w & E1 & I & Es & Ew); [lia|done|]. destruct (send_goes_through w f I) as [s' E2]; [rewrite Es, Ew; cbn; lia|done|].
    eexists. rewrite fmap_app. unfold nic_run in *. rewrite foldl_app. cbn. rewrite E1. cbn [mbind option_bind]. split; [exact E2|].
    split; [exact (send_inv w I f _ E2)|]. cbn. by rewrite Es, Ew. }
  destruct (Hrun frames) as (w & E1 & I & Es & Ew); [lia|done|]. exists w. split; [done|]. apply full_ring_hangs; [done|].
  rewrite Es, Ew, Hl. done.
Qed.
End run.

(** A card whose reset clears its registers, and the driver's memory before start-up. *)
Module Demo.
Definition nic0 : E1000 :=
  mkE1000 0 [] false (replicate 32 (mkRx 0 0 0)) (replicate 8 (mkTx 0 0 0 0)) (replicate 32 (replicate 2048 0)) (replicate 8 (replicate 2048 0)) 0 0 (fun _ => 0).
Definition up : World := mkWorld (started (fun _ _ => 0) 0x10000 0x20000 (fun i => 0x30000 + 2048 * i) (fun i => 0x50000 + 2048 * i) nic0) [] [] [] [].
Definition events : list nic_event := [FrameIn [1; 2; 3]; Send [7; 8]; FrameIn [4; 5]; Recv; FrameOut; Send [9]].
End Demo.
Lemma e1000_frames_in_order_witness :
  match nic_run Demo.up Demo.events with
  | Some w => got w = [[1; 2; 3]] /\ to_wire w = [[7; 8]] /\
      exists rx tx, from_wire w = got w ++ rx /\ (length rx <= 31)%nat /\ sent w = to_wire w ++ tx /\ (length tx <= 8)%nat /\
        match rx with
        | [] => exists s', e1000_recv (nic w) 2048 = (0, [], s')
        | f :: _ => exists s', e1000_recv (nic w) 2048 = (Z.of_nat (length f), f, s')
        end
  | None => False
  end.
Proof.
  assert (Hd : match nic_run Demo.up Demo.events with Some w => got w = [[1; 2; 3]] /\ to_wire w = [[7; 8]] | None => False end) by (vm_compute; done).
  destruct (nic_run Demo.up Demo.events) as [w|] eqn:Ew; [|exact Hd]. destruct Hd as [Hg Ht]. split; [exact Hg|]. split; [exact Ht|].
  refine (e1000_frames_in_order _ _ _ _ _ Demo.nic0 Demo.events w _ _ Ew).
  - split; [|split; intros i Hi; unfold Demo.nic0; cbn [e1000_rx_ring e1000_tx_ring]; unfold geti; rewrite lookup_total_replicate_2 by lia; cbn; lia].
    split_and!; try reflexivity; apply Forall_replicate; reflexivity.
  - repeat constructor; cbn; lia.
Defined.
