(* ===== verification/Rtc.v ===== *)
(** The real-time clock of the 64-bit kernel (kernel/arch/x86_64/kernel_x64.c).
    The CMOS registers are an argument: they do not change once the update in
    progress has ended. *)

From S2P Require Import Prelude.

(** [kernel/arch/x86_64/kernel_x64.c] bcd_to_bin *)
Definition bcd_to_bin (bcd : Z) : Z := u8 (Z.shiftr bcd 4 * 10 + Z.land bcd 0x0F).

(** [kernel/arch/x86_64/kernel_x64.c] RtcTime *)
Record RtcTime := mkRtc { second : Z; minute : Z; hour : Z; day : Z; month : Z; year : Z }.

(** [kernel/arch/x86_64/kernel_x64.c] rtc_read *)
Definition rtc_read (cmos_read : Z -> Z) : RtcTime :=
  let regB := cmos_read 0x0B in
  let bcd := Z.land regB 0x04 =? 0 in
  let conv v := if bcd then bcd_to_bin v else v in
  let hr := cmos_read 0x04 in
  let hr := if bcd then bcd_to_bin (Z.land hr 0x7F) else hr in
  let hr := if (Z.land regB 0x02 =? 0) && negb (Z.land (cmos_read 0x04) 0x80 =? 0)
            then (Z.land hr 0x7F + 12) mod 24 else hr in
  mkRtc (conv (cmos_read 0x00)) (conv (cmos_read 0x02)) hr (conv (cmos_read 0x07)) (conv (cmos_read 0x08))
    (2000 + conv (cmos_read 0x09)).

(** ** The registers of a clock that shows a time *)

Definition rtc_wf (t : RtcTime) : Prop :=
  0 <= second t < 60 /\ 0 <= minute t < 60 /\ 0 <= hour t < 24 /\ 1 <= day t <= 31 /\ 1 <= month t <= 12 /\
  2000 <= year t < 2100.
Definition to_bcd (v : Z) : Z := 16 * (v / 10) + v mod 10.
Definition hour_12 (h : Z) : Z := if h mod 12 =? 0 then 12 else h mod 12.
(** In BCD or binary, with 12 or 24 hours. *)
Definition cmos_of (bcd h24 : bool) (t : RtcTime) (reg : Z) : Z :=
  let v x := if bcd then to_bcd x else x in
  if reg =? 0x00 then v (second t) else if reg =? 0x02 then v (minute t) else
  if reg =? 0x04 then (if h24 then v (hour t) else v (hour_12 (hour t)) + (if 12 <=? hour t then 0x80 else 0)) else
  if reg =? 0x07 then v (day t) else if reg =? 0x08 then v (month t) else if reg =? 0x09 then v (year t - 2000) else
  if reg =? 0x0B then (if bcd then (if h24 then 2 else 0) else (if h24 then 6 else 4)) else 0.

Lemma bcd_roundtrip v : 0 <= v < 100 -> bcd_to_bin (to_bcd v) = v.
Proof.
  intros Hv. apply Z.eqb_eq. by apply (forall_below (fun v => bcd_to_bin (to_bcd v) =? v) 100); [vm_compute|].
Qed.

Definition hour_read (bcd h24 : bool) (h : Z) : Z := hour (rtc_read (cmos_of bcd h24 (mkRtc 0 0 h 1 1 2000))).
Lemma hour_read_spec bcd h24 h : 0 <= h < 24 ->
  hour_read bcd h24 h = if negb h24 && (h mod 12 =? 0) then 12 - h else h.
Proof.
  intros Hh. apply Z.eqb_eq.
  apply (forall_below (fun h => hour_read bcd h24 h =? (if negb h24 && (h mod 12 =? 0) then 12 - h else h)) 24); [|lia].
  by destruct bcd, h24; vm_compute.
Qed.

(** What rtc_read returns in each format: the time shown, except that with 12 hours noon and
    midnight are taken for each other. *)
Lemma rtc_read_spec bcd h24 t : rtc_wf t ->
  rtc_read (cmos_of bcd h24 t) =
  mkRtc (second t) (minute t) (if negb h24 && (hour t mod 12 =? 0) then 12 - hour t else hour t) (day t) (month t) (year t).
Proof.
  intros (H1 & H2 & H3 & H4 & H5 & H6). pose proof (hour_read_spec bcd h24 (hour t) H3) as Hh.
  unfold hour_read, rtc_read in Hh |- *. cbn [hour] in Hh. rewrite <- Hh.
  destruct t as [s m h d mo y]. cbn [second minute hour day month year] in *. clear Hh.
  f_equal; try reflexivity; destruct bcd, h24; cbn -[bcd_to_bin to_bcd Z.sub Z.add]; rewrite ?bcd_roundtrip by lia;
    first [reflexivity|transitivity (2000 + (y - 2000)); [reflexivity|lia]].
Qed.
Lemma rtc_noon_is_midnight bcd : hour_read bcd false 12 = 0 /\ hour_read bcd false 0 = 12.
Proof. by destruct bcd. Qed.
