(* ===== verification/Kernel.v ===== *)
(** The process state of the 64-bit kernel (kernel/arch/x86_64/kernel_x64.c):
    task slots with their descriptors and memory areas, pipes, and the
    components the system calls use.  A task's kernel stack is modelled by the
    interrupt frame that its saved rsp points to.  An operation that never
    returns to its caller (a fault in kernel mode halts the machine) is
    [None]. *)

From S2P Require Import Prelude CString BlockDev VernisFs Kfs Sha256 UserDb Tcp Udp Frames Paging Console.

(** [kernel/arch/x86_64/kernel_x64.c] constants *)
Definition MAX_TASKS := 8.
Definition FD_MAX := 16.
Definition FD_TYPE_NONE := 0.
Definition FD_TYPE_FILE := 1.
Definition FD_TYPE_TTY := 2.
Definition FD_TYPE_PIPE_R := 3.
Definition FD_TYPE_PIPE_W := 4.
Definition FD_TYPE_SOCK_TCP := 5.
Definition FD_TYPE_SOCK_UDP := 6.
Definition PIPE_BUF_SIZE := 4096.
Definition MAX_PIPES := 8.
Definition VMA_MAX_PER_TASK := 16.
Definition VMA_TYPE_NONE := 0.
Definition VMA_TYPE_ANON := 1.
Definition VMA_TYPE_FILE := 2.
Definition PROT_READ := 0x01.
Definition PROT_WRITE := 0x02.
Definition MAP_ANONYMOUS := 0x10.
Definition MMAP_BASE_64 := 0x20000000.
Definition USER_VADDR_MIN_64 := 0x10000000.
Definition USER_VADDR_MAX_64 := 0x40000000.
Definition SYS_IO_PATH_MAX := 64.
Definition SYS_IO_BUF_MAX := 4096.
Definition TIMER_HZ := 240.
#[export] Hint Unfold MAX_TASKS FD_MAX PIPE_BUF_SIZE MAX_PIPES VMA_MAX_PER_TASK : consts.

(** ** Data *)

(** [kernel/arch/x86_64/kernel_x64.c:496-510] InterruptFrame *)
Record InterruptFrame := mkFrame {
  f_r15 : Z; f_r14 : Z; f_r13 : Z; f_r12 : Z; f_r11 : Z; f_r10 : Z; f_r9 : Z; f_r8 : Z;
  f_rdi : Z; f_rsi : Z; f_rbp : Z; f_rbx : Z; f_rdx : Z; f_rcx : Z; f_rax : Z;
  f_int_no : Z; f_error_code : Z; f_rip : Z; f_cs : Z; f_rflags : Z; f_rsp : Z; f_ss : Z }.
#[export] Instance eta_Frame : Eta InterruptFrame := fun r =>
  mkFrame (f_r15 r) (f_r14 r) (f_r13 r) (f_r12 r) (f_r11 r) (f_r10 r) (f_r9 r) (f_r8 r)
    (f_rdi r) (f_rsi r) (f_rbp r) (f_rbx r) (f_rdx r) (f_rcx r) (f_rax r)
    (f_int_no r) (f_error_code r) (f_rip r) (f_cs r) (f_rflags r) (f_rsp r) (f_ss r).
Definition zero_frame : InterruptFrame := mkFrame 0 0 0 0 0 0 0 0 0 0 0 0 0 0 0 0 0 0 0 0 0 0.

(** [kernel/arch/x86_64/kernel_x64.c] FdEntry *)
Record FdEntry := mkFd {
  fd_type : Z; fd_flags : Z; fd_path : bytes; fd_offset : Z; fd_pipe_idx : Z; sock_peer_ip : Z; sock_peer_port : Z }.
#[export] Instance eta_Fd : Eta FdEntry := fun r =>
  mkFd (fd_type r) (fd_flags r) (fd_path r) (fd_offset r) (fd_pipe_idx r) (sock_peer_ip r) (sock_peer_port r).
Definition zero_fd : FdEntry := mkFd 0 0 [] 0 0 0 0.
#[export] Instance inhabited_fd : Inhabited FdEntry := populate zero_fd.

(** [kernel/arch/x86_64/kernel_x64.c] KernelPipe *)
Record KernelPipe := mkPipe {
  p_buf : bytes; read_pos : Z; write_pos : Z; p_count : Z; p_active : bool; read_open : bool; write_open : bool }.
#[export] Instance eta_Pipe : Eta KernelPipe := fun r =>
  mkPipe (p_buf r) (read_pos r) (write_pos r) (p_count r) (p_active r) (read_open r) (write_open r).
Definition zero_pipe : KernelPipe := mkPipe (zeros 4096) 0 0 0 false false false.
#[export] Instance inhabited_pipe : Inhabited KernelPipe := populate zero_pipe.

(** [kernel/arch/x86_64/kernel_x64.c] VmaEntry *)
Record VmaEntry := mkVma {
  v_start : Z; v_length : Z; v_type : Z; v_prot : Z; v_flags : Z; v_path : bytes; v_file_offset : Z }.
#[export] Instance eta_Vma : Eta VmaEntry := fun r =>
  mkVma (v_start r) (v_length r) (v_type r) (v_prot r) (v_flags r) (v_path r) (v_file_offset r).
Definition zero_vma : VmaEntry := mkVma 0 0 0 0 0 [] 0.
#[export] Instance inhabited_vma : Inhabited VmaEntry := populate zero_vma.

(** [t_frame]: the frame at the saved [rsp] of the task's stack.
    [kernel/arch/x86_64/kernel_x64.c] TaskSlot *)
Record TaskSlot := mkTask {
  t_frame : InterruptFrame; t_pid : Z; t_active : bool; ticks_remaining : Z; ticks_total : Z; fd_table : list FdEntry;
  ppid_slot : Z; brk : Z; vma_list : list VmaEntry; mmap_next : Z; pml4 : Z; t_uid : Z; t_gid : Z; file_umask : Z; cwd : bytes }.
#[export] Instance eta_Task : Eta TaskSlot := fun r =>
  mkTask (t_frame r) (t_pid r) (t_active r) (ticks_remaining r) (ticks_total r) (fd_table r)
    (ppid_slot r) (brk r) (vma_list r) (mmap_next r) (pml4 r) (t_uid r) (t_gid r) (file_umask r) (cwd r).
Definition zero_task : TaskSlot :=
  mkTask zero_frame 0 false 0 0 (replicate 16 zero_fd) 0 0 (replicate 16 zero_vma) 0 0 0 0 0 (zeros 64).
#[export] Instance inhabited_task : Inhabited TaskSlot := populate zero_task.

(** The Rust scheduler, behind its C interface; [scheduler_rows] are the rows of /proc/ps. *)
Class Scheduler (Sc : Type) := {
  scheduler_create_process : Sc -> Z -> bytes -> Z * Sc;
  scheduler_terminate_pid : Sc -> Z -> Z -> Sc;
  scheduler_kill_process : Sc -> Z -> Sc;
  scheduler_signal_send : Sc -> Z -> Z -> Z * Sc;
  scheduler_schedule : Sc -> Sc;
  scheduler_get_current_pid : Sc -> Z;
  scheduler_get_process_info : Sc -> Z -> option Z;
  scheduler_get_exit_code : Sc -> Z -> Z;
  scheduler_rows : Sc -> list (option PsRow) }.

(** The kernel's state.  [tss_rsp0] is the slot whose stack the TSS names; [terminal_out] is what
    tty_write has sent to the screen and the serial line.
    [kernel/arch/x86_64/kernel_x64.c:1351-1352] task_slots *)
Record Kernel (D Sc : Type) := mkKernel {
  task_slots : list TaskSlot; current_task_idx : Z; context_switch_enabled : bool; context_switch_count : Z;
  tss_rsp0 : option Z; cr3 : Z; kernel_pml4 : Z; mm : Mm; kernel_pipes : list KernelPipe; console : Console;
  terminal_out : bytes; files : Kfs D; tcp : Tcp; udp : Udp; sched : option Sc; users : UserDb; kernel_tick : Z;
  elf_load_buf : bytes }.
Arguments mkKernel {D Sc}. Arguments task_slots {D Sc}. Arguments current_task_idx {D Sc}.
Arguments context_switch_enabled {D Sc}. Arguments context_switch_count {D Sc}. Arguments tss_rsp0 {D Sc}.
Arguments cr3 {D Sc}. Arguments kernel_pml4 {D Sc}. Arguments mm {D Sc}. Arguments kernel_pipes {D Sc}.
Arguments console {D Sc}. Arguments terminal_out {D Sc}. Arguments files {D Sc}. Arguments tcp {D Sc}. Arguments udp {D Sc}.
Arguments sched {D Sc}. Arguments users {D Sc}. Arguments kernel_tick {D Sc}. Arguments elf_load_buf {D Sc}.
#[export] Instance eta_Kernel D Sc : Eta (Kernel D Sc) := fun r =>
  mkKernel (task_slots r) (current_task_idx r) (context_switch_enabled r) (context_switch_count r) (tss_rsp0 r) (cr3 r)
    (kernel_pml4 r) (mm r) (kernel_pipes r) (console r) (terminal_out r) (files r) (tcp r) (udp r) (sched r) (users r)
    (kernel_tick r) (elf_load_buf r).

Section kernel.
Context {D Sc : Type} `{BlockDev D} `{Scheduler Sc}.
Implicit Types (st : Kernel D Sc) (t : TaskSlot).

Definition task st (i : Z) : TaskSlot := geti (task_slots st) i.
Definition set_task st (i : Z) t : Kernel D Sc := st <| task_slots := puti (task_slots st) i t |>.
(** The running task's slot. *)
Definition cur st : TaskSlot := task st (current_task_idx st).
Definition set_cur st t : Kernel D Sc := set_task st (current_task_idx st) t.
Definition free_slot st : option nat := find_idx (fun t => negb (t_active t)) (task_slots st).
Definition kfs_env st : Env := mkEnv (kernel_tick st) TIMER_HZ (scheduler_rows <$> sched st).

(** ** User memory

    The kernel reads and writes it through the active page tables, a byte at a time. *)

Definition byte_at (m : Mm) (table va : Z) : option (Z * Z) :=
  match paging_get_pte m table va with
  | Some p => if has (pm m p) PAGE_PRESENT then Some (pm m p, Z.land (pm m p) PAGE_ADDR_MASK + Z.land va 0xFFF) else None
  | None => None
  end.
Definition user_load st (va : Z) : option Z := (fun ea => pm (mm st) ea.2) <$> byte_at (mm st) (cr3 st) va.
Definition try_store (m : Mm) (table va v : Z) : option Mm :=
  match byte_at m table va with
  | Some (e, a) => if has e PAGE_WRITABLE then Some (store m a v) else None
  | None => None
  end.
(** A write fault in kernel mode is resolved when the page is shared copy-on-write; every other
    fault halts.
    [kernel/arch/x86_64/kernel_x64.c:2451-2461] interrupt_dispatch *)
Definition user_store st (va v : Z) : option (Kernel D Sc) :=
  match try_store (mm st) (cr3 st) va v with
  | Some m => Some (st <| mm := m |>)
  | None =>
      if current_task_idx st <? 0 then None else
      let '(rc, m) := paging_handle_cow_fault (mm st) (kernel_pml4 st) (pml4 (cur st)) va in
      if rc =? 0 then (fun m => st <| mm := m |>) <$> try_store m (cr3 st) va v else None
  end.
Fixpoint load_bytes st (n : nat) (va : Z) : option bytes :=
  match n with
  | O => Some []
  | S n => match user_load st va with
           | Some b => match load_bytes st n (va + 1) with Some bs => Some (b :: bs) | None => None end
           | None => None
           end
  end.
Fixpoint store_bytes st (va : Z) (bs : bytes) : option (Kernel D Sc) :=
  match bs with
  | [] => Some st
  | b :: bs => match user_store st va b with Some st => store_bytes st (va + 1) bs | None => None end
  end.
(** The bytes before the first one that faults, [n] at most. *)
Fixpoint load_prefix st (n : nat) (va : Z) : bytes :=
  match n with
  | O => []
  | S n => match user_load st va with Some b => b :: load_prefix st n (va + 1) | None => [] end
  end.

(** [kernel/arch/x86_64/kernel_x64.c] user_ptr_range_valid_64 *)
Definition user_ptr_range_valid_64 (addr len : Z) : bool :=
  if (addr =? 0) || (len =? 0) then false else
  let end_ := u64 (addr + len) in
  if end_ <? addr then false else (USER_VADDR_MIN_64 <=? addr) && (end_ <=? USER_VADDR_MAX_64).
(** [Some None] is the error, [None] a fault.
    [kernel/arch/x86_64/kernel_x64.c:724-731] copy_user_path_64 *)
Fixpoint path_loop st (n : nat) (va : Z) : option (option bytes) :=
  match n with
  | O => Some None
  | S n => match user_load st va with
           | None => None
           | Some c => if c =? 0 then Some (Some [])
                       else match path_loop st n (va + 1) with
                            | Some (Some s) => Some (Some (c :: s))
                            | r => r
                            end
           end
  end.
(** The string, without its terminator.
    [kernel/arch/x86_64/kernel_x64.c] copy_user_path_64 *)
Definition copy_user_path_64 st (user_ptr : Z) : option (option bytes) :=
  if user_ptr =? 0 then Some None else
  if (user_ptr <? USER_VADDR_MIN_64) || (USER_VADDR_MAX_64 <=? user_ptr) then Some None else
  path_loop st (Z.to_nat SYS_IO_PATH_MAX) user_ptr.

(** ** Memory areas *)

(** [kernel/arch/x86_64/kernel_x64.c] vma_find *)
Definition vma_find (vmas : list VmaEntry) (addr : Z) : option VmaEntry :=
  (fun i : nat => geti vmas (Z.of_nat i)) <$>
  find_idx (fun v => negb (v_type v =? VMA_TYPE_NONE) && (v_start v <=? addr) && (addr <? u64 (v_start v + v_length v))) vmas.
(** [kernel/arch/x86_64/kernel_x64.c] vma_init *)
Definition vma_init (vmas : list VmaEntry) : list VmaEntry := (fun v => v <| v_type := VMA_TYPE_NONE |>) <$> vmas.

Definition page_up (v : Z) : Z := Z.land (u64 (v + 0xFFF)) 0xFFFFFFFFFFFFF000.
(** The slot found and the new entry; the path of a file mapping is checked last.
    [kernel/arch/x86_64/kernel_x64.c] sys_mmap *)
Definition sys_mmap st (length prot_flags path_ptr : Z) : option (Z * Kernel D Sc) :=
  if current_task_idx st <? 0 then Some (-1, st) else
  let t := cur st in
  let length := page_up length in
  if (length =? 0) || (0x1000000 <? length) then Some (-1, st) else
  let prot := Z.land prot_flags 0xFF in
  let flags := Z.land (Z.shiftr prot_flags 8) 0xFF in
  match find_idx (fun v => v_type v =? VMA_TYPE_NONE) (vma_list t) with
  | None => Some (-1, st)
  | Some slot =>
      let va := if mmap_next t =? 0 then MMAP_BASE_64 else mmap_next t in
      let t := t <| mmap_next := u64 (va + length) |> in
      let v := mkVma va length VMA_TYPE_ANON prot flags [] 0 in
      let with_vma v := set_cur st (t <| vma_list := puti (vma_list t) (Z.of_nat slot) v |>) in
      if (path_ptr =? 0) || negb (Z.land flags MAP_ANONYMOUS =? 0) then Some (va, with_vma v)
      else match copy_user_path_64 st path_ptr with
           | None => None
           | Some None => Some (-1, with_vma (v <| v_type := VMA_TYPE_NONE |>))
           | Some (Some path) => Some (va, with_vma (v <| v_type := VMA_TYPE_FILE |> <| v_path := path |>))
           end
  end.
(** [kernel/arch/x86_64/kernel_x64.c] sys_munmap *)
Definition sys_munmap st (addr length : Z) : Z * Kernel D Sc :=
  if current_task_idx st <? 0 then (-1, st) else
  match find_idx (fun v => negb (v_type v =? VMA_TYPE_NONE) && (v_start v =? addr)) (vma_list (cur st)) with
  | None => (-1, st)
  | Some i => let vs := vma_list (cur st) in
              (0, set_cur st (cur st <| vma_list := puti vs (Z.of_nat i) (geti vs (Z.of_nat i) <| v_type := VMA_TYPE_NONE |>) |>))
  end.
End kernel.
