(* ===== verification/Tasks.v ===== *)
(** Processes of the 64-bit kernel (kernel/arch/x86_64/kernel_x64.c): the
    round-robin switch of the timer, fork, exit, kill, the program break, and
    page faults (copy-on-write, demand paging). *)

From S2P Require Import Prelude CString BlockDev VernisFs Kfs Tcp Frames Paging UserPages Console Kernel.

Section tasks.
Context {D Sc : Type} `{BlockDev D} `{Scheduler Sc}.
Variable fuel : nat.
Implicit Types (st : Kernel D Sc) (t : TaskSlot) (frame : InterruptFrame).

(** [kernel/arch/x86_64/kernel_x64.c] task_find *)
Definition task_find st (pid : Z) : Z :=
  match find_idx (fun t => t_active t && (t_pid t =? pid)) (task_slots st) with Some i => Z.of_nat i | None => -1 end.

(** A kernel task starts at [entry] on its own stack, whose top is [stack_top].
    [kernel/arch/x86_64/kernel_x64.c] task_create *)
Definition task_create st (entry pid ticks : Z) (stack_top : Z -> Z) : Z * Kernel D Sc :=
  match free_slot st with
  | None => (-1, st)
  | Some slot =>
      let i := Z.of_nat slot in
      let frame := zero_frame <| f_ss := 0x10 |> <| f_rsp := stack_top i |> <| f_rflags := 0x202 |> <| f_cs := 0x08 |>
                              <| f_rip := entry |> in
      (i, set_task st i (task st i <| t_active := true |> <| t_pid := pid |> <| ticks_remaining := ticks |>
            <| ticks_total := ticks |> <| brk := 0 |> <| mmap_next := 0 |> <| pml4 := kernel_pml4 st |>
            <| vma_list := vma_init (vma_list (task st i)) |> <| t_frame := frame |>))
  end.
(** [kernel/arch/x86_64/kernel_x64.c] task_register_main *)
Definition task_register_main st (pid ticks : Z) : Kernel D Sc :=
  set_task st 0 (task st 0 <| t_active := true |> <| t_pid := pid |> <| t_frame := zero_frame |> <| ticks_remaining := ticks |>
    <| ticks_total := ticks |> <| t_uid := 0 |> <| t_gid := 0 |> <| file_umask := 18 |>
    <| cwd := puti (puti (cwd (task st 0)) 0 47) 1 0 |> <| pml4 := kernel_pml4 st |>)
  <| current_task_idx := 0 |>.

(** [kernel/arch/x86_64/kernel_x64.c] task_switch_cr3 *)
Definition task_switch_cr3 st (idx : Z) : Kernel D Sc :=
  st <| cr3 := if (0 <=? idx) && negb (pml4 (task st idx) =? 0) then pml4 (task st idx) else kernel_pml4 st |>.

(** ** Switching *)

(** [for (tries = 0; tries < n; tries++) { next = (next + 1) % MAX_TASKS; if (active) break; }]
    [kernel/arch/x86_64/kernel_x64.c:2094-2098] interrupt_dispatch *)
Fixpoint next_loop (n : nat) st (next : Z) : Z :=
  match n with
  | O => next
  | S n => let next := (next + 1) mod MAX_TASKS in
           if t_active (task st next) then next else next_loop n st next
  end.
(** The slot's frame, its stack in the TSS and its tables in CR3.
    [kernel/arch/x86_64/kernel_x64.c:2101-2107] interrupt_dispatch *)
Definition switch_to st (next : Z) : InterruptFrame * Kernel D Sc :=
  (t_frame (task st next), task_switch_cr3 (st <| current_task_idx := next |> <| tss_rsp0 := Some next |>) next).
(** The frame to resume.
    [kernel/arch/x86_64/kernel_x64.c:2085-2110] interrupt_dispatch *)
Definition timer_switch st frame : InterruptFrame * Kernel D Sc :=
  if context_switch_enabled st && (0 <=? current_task_idx st) then
    let c := cur st in
    let c := if 0 <? ticks_remaining c then c <| ticks_remaining := ticks_remaining c - 1 |> else c in
    if ticks_remaining c =? 0 then
      let st := set_cur st (c <| t_frame := frame |> <| ticks_remaining := ticks_total c |>) in
      let next := next_loop (Z.to_nat MAX_TASKS) st (current_task_idx st) in
      if negb (next =? current_task_idx st) && t_active (task st next) then
        switch_to (st <| context_switch_count := u64 (context_switch_count st + 1) |>) next
      else (frame, st)
    else (frame, set_cur st c)
  else (frame, st).
(** The timer interrupt.  [poll] is what the polls of the AI link, the block cache and the network
    card do; [received] are the characters in the serial port.
    [kernel/arch/x86_64/kernel_x64.c:2063-2112] interrupt_dispatch *)
Definition irq0 (poll : Kernel D Sc -> Kernel D Sc) (ip_output : Z -> bytes -> Z) (received : bytes) st frame
    : InterruptFrame * Kernel D Sc :=
  let st := st <| kernel_tick := u64 (kernel_tick st + 1) |> in
  let st := poll st in
  let st := st <| tcp := tcp_tick ip_output (tcp st <| now := u32 (kernel_tick st) |>) |> in
  let st := st <| console := serial_console_rx_poll (console st) received |> in
  timer_switch st frame.

(** The first active slot after the current one, which is no longer active; the loop of exit and of faults.
    [kernel/arch/x86_64/kernel_x64.c:2173-2176] interrupt_dispatch *)
Fixpoint next_active (n : nat) (i : Z) st : Z :=
  match n with
  | O => -1
  | S n => let idx := (current_task_idx st + 1 + i) mod MAX_TASKS in
           if t_active (task st idx) then idx else next_active n (i + 1) st
  end.

(** [kernel/arch/x86_64/kernel_x64.c:2188-2189] interrupt_dispatch *)
Definition release_space st (dead : Z) : Kernel D Sc :=
  if negb (dead =? 0) && negb (dead =? kernel_pml4 st)
  then st <| mm := paging_free_user_space (mm st) (kernel_pml4 st) dead |> else st.
(** The frame resumed; [None]: the machine halts.
    [kernel/arch/x86_64/kernel_x64.c:2155-2196] interrupt_dispatch *)
Definition sys_exit st (code : Z) : option (InterruptFrame * Kernel D Sc) :=
  let exit_pid := if 0 <=? current_task_idx st then t_pid (cur st) else 0 in
  let st := st <| sched := (fun s => scheduler_terminate_pid s exit_pid (i32 code)) <$> sched st |> in
  if context_switch_enabled st && (0 <=? current_task_idx st) then
    let dead := pml4 (cur st) in
    let st := set_cur st (cur st <| pml4 := 0 |> <| t_active := false |>) in
    let next := next_active (Z.to_nat MAX_TASKS) 0 st in
    if 0 <=? next then
      let '(frame, st) := switch_to st next in Some (frame, release_space st dead)
    else None
  else None.

(** Yielding leaves one tick of the slice.
    [kernel/arch/x86_64/kernel_x64.c:2227-2231] interrupt_dispatch *)
Definition sys_yield st : Z * Kernel D Sc :=
  (0, if 0 <=? current_task_idx st then set_cur st (cur st <| ticks_remaining := 1 |>) else st).

(** SIGKILL and SIGTERM of another task take its slot and its space.
    [kernel/arch/x86_64/kernel_x64.c:2232-2262] interrupt_dispatch *)
Definition sys_kill st (dst_pid sig : Z) : Z * Kernel D Sc :=
  let sig := u8 sig in
  match sched st with
  | None => (-1, st)
  | Some s =>
      let '(rc, s) := scheduler_signal_send s dst_pid sig in
      let st := st <| sched := Some s |> in
      (rc, if (sig =? 9) || (sig =? 15) then
             match find_idx (fun it => t_active it.2 && (t_pid it.2 =? dst_pid) && negb (it.1 =? current_task_idx st))
                     (zip (Z.of_nat <$> seq 0 (length (task_slots st))) (task_slots st)) with
             | None => st
             | Some i =>
                 let ti := Z.of_nat i in let victim := pml4 (task st ti) in
                 let st := set_task st ti (task st ti <| pml4 := 0 |> <| t_active := false |>) in
                 release_space (st <| sched := Some (scheduler_kill_process s dst_pid) |>) victim
             end
           else st)
  end.

(** ** Fork *)

(** [kernel/arch/x86_64/kernel_x64.c] fd_copy *)
Definition fd_copy (dst src : list FdEntry) : list FdEntry := src.
(** The child's slot once it has its space; it resumes from the same frame with 0 in rax.
    [kernel/arch/x86_64/kernel_x64.c:1800-1830] sys_fork *)
Definition child_of (parent child : TaskSlot) frame : TaskSlot :=
  child <| fd_table := fd_copy (fd_table child) (fd_table parent) |> <| t_uid := t_uid parent |> <| t_gid := t_gid parent |>
        <| file_umask := file_umask parent |> <| cwd := cwd parent |> <| vma_list := vma_list parent |>
        <| mmap_next := mmap_next parent |> <| t_frame := frame <| f_rax := 0 |> |>.
(** [kernel/arch/x86_64/kernel_x64.c] sys_fork *)
Definition sys_fork st frame : Z * Kernel D Sc :=
  if current_task_idx st <? 0 then (-1, st) else
  match free_slot st with
  | None => (-1, st)
  | Some slot =>
      match sched st with
      | None => (-1, st)
      | Some s =>
          let '(child_pid, s) := scheduler_create_process s 5 (lit "forked") in
          let st := st <| sched := Some s |> in
          let i := Z.of_nat slot in let parent := cur st in
          let child := task st i <| t_active := true |> <| t_pid := child_pid |> <| ticks_remaining := ticks_total parent |>
                         <| ticks_total := ticks_total parent |> <| ppid_slot := current_task_idx st |> <| brk := brk parent |> in
          let '(c, m) := paging_create_address_space (mm st) (kernel_pml4 st) in
          let '(rc, m) := if c =? 0 then (0, m) else paging_clone_user_pages m c (pml4 parent) in
          if (c =? 0) || (rc <? 0) then
            let m := if c =? 0 then m else paging_free_user_space m (kernel_pml4 st) c in
            (-1, set_task (st <| mm := m |>) i (child <| pml4 := c |> <| t_active := false |>))
          else
            (child_pid, set_task (st <| mm := m |>) i (child_of parent (child <| pml4 := c |>) frame))
      end
  end.

(** ** The program break *)

(** The increment is signed; a round takes a frame of the pool's 1024, so 1025 rounds are enough
    (UserPages.alloc_pages_ok).
    [kernel/arch/x86_64/kernel_x64.c] sys_sbrk *)
Definition sys_sbrk st (increment : Z) : Z * Kernel D Sc :=
  if current_task_idx st <? 0 then (-1, st) else
  let t := cur st in
  let t := if brk t =? 0 then t <| brk := 0x10100000 |> else t in
  let st := set_cur st t in
  let old_brk := brk t in
  if increment =? 0 then (old_brk, st) else
  let new_brk := u64 (old_brk + increment) in
  if 0 <? increment then
    let table := if pml4 t =? 0 then kernel_pml4 st else pml4 t in
    let '(ok, m) := alloc_pages 1025 (fun _ _ m => m) (mm st) table (page_up old_brk) (page_up new_brk) in
    let st := st <| mm := m |> in
    if ok then (old_brk, set_cur st (t <| brk := new_brk |>)) else (-1, st)
  else (old_brk, set_cur st (t <| brk := new_brk |>)).

(** ** Faults *)

(** The file's bytes that go into the page.
    [kernel/arch/x86_64/kernel_x64.c:2477-2490] interrupt_dispatch *)
Definition file_page st (v : VmaEntry) (page_va : Z) : option (bytes * Kernel D Sc) :=
  let page_off := u32 (u32 (page_va - v_start v) + v_file_offset v) in
  let need := u32 (page_off + PAGE_SIZE) in
  let need := if 65536 <? need then 65536 else need in
  let '(r, fs) := kfs_read_file fuel (kfs_env st) (v_path v) need (files st) in
  let st := st <| files := fs |> in
  match r with
  | Loops => None
  | Fail => Some ([], st)
  | Ok (total, out) =>
      if i32 page_off <? total then
        let ncp := total - i32 page_off in
        let ncp := if PAGE_SIZE <? ncp then PAGE_SIZE else ncp in
        Some (read_n (drop (Z.to_nat page_off) out) (Z.to_nat ncp), st)
      else Some ([], st)
  end.
(** [Some (false, _)]: not a fault of a mapped area, or no frame is left.
    [kernel/arch/x86_64/kernel_x64.c:2465-2506] interrupt_dispatch *)
Definition demand_page st (fault_addr : Z) : option (bool * Kernel D Sc) :=
  if current_task_idx st <? 0 then Some (false, st) else
  match vma_find (vma_list (cur st)) fault_addr with
  | None => Some (false, st)
  | Some v =>
      let page_va := Z.land fault_addr 0xFFFFFFFFFFFFF000 in
      let '(fr, m) := frame_alloc (mm st) in
      let st := st <| mm := m |> in
      if fr =? 0 then Some (false, st) else
      let pg_flags := Z.lor (Z.lor PAGE_PRESENT PAGE_USER) (if negb (Z.land (v_prot v) PROT_WRITE =? 0) then PAGE_WRITABLE else 0) in
      match (if (v_type v =? VMA_TYPE_FILE) && negb (char_at (v_path v) 0 =? 0) then file_page st v page_va else Some ([], st)) with
      | None => None
      | Some (bs, st) =>
          let m := mm st <| pm := mem_write (pm (mm st)) fr bs |> in
          let table := if pml4 (cur st) =? 0 then kernel_pml4 st else pml4 (cur st) in
          Some (true, st <| mm := paging_map_4k m table page_va fr pg_flags |>)
      end
  end.
(** Killing the task that faulted; [None]: the machine halts.
    [kernel/arch/x86_64/kernel_x64.c:2508-2537] interrupt_dispatch *)
Definition fault_kill st : option (InterruptFrame * Kernel D Sc) :=
  let st := match sched st with
            | Some s => let pid := scheduler_get_current_pid s in
                        if pid =? 0 then st else st <| sched := Some (scheduler_schedule (scheduler_kill_process s pid)) |>
            | None => st
            end in
  if context_switch_enabled st && (0 <=? current_task_idx st) then
    let st := set_cur st (cur st <| t_active := false |>) in
    let next := next_active (Z.to_nat MAX_TASKS) 0 st in
    if 0 <=? next then Some (t_frame (task st next), st <| current_task_idx := next |>) else None
  else None.
(** An exception; [addr] is CR2.
    [kernel/arch/x86_64/kernel_x64.c:2451-2542] interrupt_dispatch *)
Definition exception st frame (addr : Z) : option (InterruptFrame * Kernel D Sc) :=
  let vec := f_int_no frame in
  let '(cow, m) :=
    if (vec =? 14) && negb (Z.land (f_error_code frame) 0x2 =? 0) && (0 <=? current_task_idx st)
    then paging_handle_cow_fault (mm st) (kernel_pml4 st) (pml4 (cur st)) addr else (-1, mm st) in
  let st := st <| mm := m |> in
  if cow =? 0 then Some (frame, st) else
  if Z.land (f_cs frame) 3 =? 3 then
    match (if vec =? 14 then demand_page st addr else Some (false, st)) with
    | None => None
    | Some (true, st) => Some (frame, st)
    | Some (false, st) => fault_kill st
    end
  else None.
End tasks.
