(* ===== verification/Isolation.v ===== *)
(** Isolation of processes: the task slots of Kernel and Tasks on top of the
    address spaces of Paging and AddressSpace.  The spaces in use are the
    kernel's and those of the active slots. *)

From S2P Require Import Prelude CString BlockDev Bcache VernisFs Kfs UserDb Tcp Udp Frames Paging AddressSpace UserPages Console Kernel Tasks.

Lemma land_ldiff' a x y : Z.ldiff (Z.land a x) y = Z.land a (Z.ldiff x y).
Proof. apply Z.bits_inj'. intros n _. by rewrite !Z.ldiff_spec, !Z.land_spec, Z.ldiff_spec, andb_assoc. Qed.

Section isolation.
Context {D Sc : Type} `{BlockDev D} `{Scheduler Sc}.
Variable fuel : nat.
Implicit Types (st : Kernel D Sc) (t : TaskSlot) (frame : InterruptFrame).

(** ** The invariant *)

Definition space_of (k : Z) t : list Z := if t_active t && negb (pml4 t =? k) then [pml4 t] else [].
Definition roots st : list Z := kernel_pml4 st :: (task_slots st ≫= space_of (kernel_pml4 st)).

Record kernel_wf st : Prop := {
  kw_len : length (task_slots st) = 8%nat;
  kw_cur : 0 <= current_task_idx st < 8 /\ t_active (cur st) = true;
  kw_cr3 : cr3 st = pml4 (cur st);
  kw_space i : 0 <= i < 8 -> t_active (task st i) = true -> pml4 (task st i) <> 0;
  kw_vm : vm_wf (mm st) (roots st) }.

(** ** The spaces after an update of a slot *)

Lemma slots_split (ts : list TaskSlot) i : (i < length ts)%nat ->
  ts = take i ts ++ ts !!! i :: drop (S i) ts /\ forall t, <[i := t]> ts = take i ts ++ t :: drop (S i) ts.
Proof.
  intros Hi. split; [|intros t; by apply insert_take_drop].
  symmetry. apply take_drop_middle. by apply list_lookup_lookup_total_lt.
Qed.
(** The other spaces. *)
Definition others_of st (i : Z) : list Z :=
  kernel_pml4 st :: ((take (Z.to_nat i) (task_slots st) ≫= space_of (kernel_pml4 st)) ++
                     (drop (S (Z.to_nat i)) (task_slots st) ≫= space_of (kernel_pml4 st))).
Lemma roots_split st i : length (task_slots st) = 8%nat -> 0 <= i < 8 ->
  roots st ≡ₚ space_of (kernel_pml4 st) (task st i) ++ others_of st i /\
  forall t, roots (set_task st i t) ≡ₚ space_of (kernel_pml4 st) t ++ others_of st i.
Proof.
  intros Hl Hi. destruct (slots_split (task_slots st) (Z.to_nat i) ltac:(lia)) as [E1 E2].
  assert (Hp : forall t l, kernel_pml4 st :: ((take (Z.to_nat i) (task_slots st) ++ t :: l) ≫= space_of (kernel_pml4 st)) ≡ₚ
    space_of (kernel_pml4 st) t ++ kernel_pml4 st :: ((take (Z.to_nat i) (task_slots st) ≫= space_of (kernel_pml4 st)) ++
      (l ≫= space_of (kernel_pml4 st)))).
  { intros t l. rewrite bind_app, bind_cons. rewrite <- Permutation_middle. apply perm_skip.
    rewrite !app_assoc. apply Permutation_app_tail, Permutation_app_comm. }
  split.
  - unfold roots. rewrite E1 at 1. apply Hp.
  - intros t. unfold roots, set_task, puti. cbn. rewrite E2. apply Hp.
Qed.

Lemma task_set st i t : length (task_slots st) = 8%nat -> 0 <= i < 8 -> task (set_task st i t) i = t.
Proof. intros Hl Hi. apply geti_puti_eq. lia. Qed.
Lemma task_set_ne st i j t : 0 <= i -> 0 <= j -> i <> j -> task (set_task st i t) j = task st j.
Proof. intros. by apply geti_puti_ne. Qed.
Lemma length_set_task st i t : length (task_slots (set_task st i t)) = length (task_slots st).
Proof. apply length_puti. Qed.

(** Storing a slot with the same space, and the memory and the tables unchanged. *)
Lemma set_task_wf st i t : kernel_wf st -> 0 <= i < 8 -> t_active t = t_active (task st i) -> pml4 t = pml4 (task st i) ->
  kernel_wf (set_task st i t) /\ roots (set_task st i t) ≡ₚ roots st.
Proof.
  intros [W1 W2 W3 W4 W5] Hi Ea Ep.
  assert (Hp : roots (set_task st i t) ≡ₚ roots st).
  { destruct (roots_split st i W1 Hi) as [E1 E2]. rewrite E2, E1. unfold space_of. by rewrite Ea, Ep. }
  assert (Ht : forall j, 0 <= j < 8 -> t_active (task (set_task st i t) j) = t_active (task st j) /\
    pml4 (task (set_task st i t) j) = pml4 (task st j)).
  { intros j Hj. destruct (Z.eq_dec j i) as [->|]; [by rewrite task_set|]. by rewrite task_set_ne by lia. }
  split; [|done]. split.
  - by rewrite length_set_task.
  - split; [apply W2|]. unfold cur. change (current_task_idx (set_task st i t)) with (current_task_idx st).
    destruct (Ht (current_task_idx st)) as [-> _]; apply W2.
  - unfold cur. change (current_task_idx (set_task st i t)) with (current_task_idx st).
    destruct (Ht (current_task_idx st)) as [_ ->]; [apply W2|done].
  - intros j Hj. destruct (Ht j Hj) as [-> ->]. by apply W4.
  - apply (vm_wf_perm _ (roots st)); [by symmetry|done].
Qed.

Lemma task_root st i : length (task_slots st) = 8%nat -> 0 <= i < 8 -> t_active (task st i) = true -> pml4 (task st i) ∈ roots st.
Proof.
  intros Hl Hi Ha. destruct (roots_split st i Hl Hi) as [-> _]. unfold space_of. rewrite Ha. cbn [andb].
  destruct (Z.eqb_spec (pml4 (task st i)) (kernel_pml4 st)) as [->|]; cbn [negb].
  - unfold others_of. apply elem_of_cons. by left.
  - apply elem_of_cons. by left.
Qed.
Lemma cur_root st : kernel_wf st -> pml4 (cur st) ∈ roots st.
Proof. intros Hwf. destruct (kw_cur _ Hwf). by apply task_root; [apply kw_len|..]. Qed.

(** Changing the memory alone. *)
Lemma set_mm_wf st m : kernel_wf st -> vm_wf m (roots st) -> kernel_wf (st <| mm := m |>).
Proof. intros [] Hm. by split. Qed.
Lemma roots_length st : length (task_slots st) = 8%nat -> (length (roots st) <= 9)%nat.
Proof.
  intros Hl. unfold roots. cbn [length]. rewrite <- Hl. clear Hl. induction (task_slots st) as [|t ts IH]; [cbn; lia|].
  rewrite bind_cons, length_app. cbn [length]. assert (length (space_of (kernel_pml4 st) t) <= 1)%nat; [|lia].
  unfold space_of. case_match; cbn; lia.
Qed.

(** ** Switching *)

Lemma mod8 a : 0 <= a mod MAX_TASKS < 8.
Proof. apply Z.mod_pos_bound. reflexivity. Qed.
Lemma next_loop_range n st : forall next, 0 <= next < 8 -> 0 <= next_loop n st next < 8.
Proof.
  induction n as [|n IH]; intros next Hn; cbn [next_loop]; [done|]. pose proof (mod8 (next + 1)).
  case_match; [done|]. by apply IH.
Qed.
Lemma next_active_range n st : forall i, 0 <= next_active n i st ->
  next_active n i st < 8 /\ t_active (task st (next_active n i st)) = true.
Proof.
  induction n as [|n IH]; intros i; cbn [next_active]; [lia|]. pose proof (mod8 (current_task_idx st + 1 + i)).
  destruct (t_active (task st _)) eqn:E; [|by apply IH]. intros _. split; [lia|done].
Qed.

(** Loading an active slot; [st] may be anything that lacks only its current task. *)
Lemma switch_wf st next : length (task_slots st) = 8%nat -> 0 <= next < 8 -> t_active (task st next) = true ->
  (forall i, 0 <= i < 8 -> t_active (task st i) = true -> pml4 (task st i) <> 0) -> vm_wf (mm st) (roots st) ->
  let '(_, st') := switch_to st next in kernel_wf st' /\ mm st' = mm st /\ task_slots st' = task_slots st /\
    kernel_pml4 st' = kernel_pml4 st.
Proof.
  intros Hl Hn Ha Hs Hvm. cbn. split; [|done]. split; cbn; try done.
  change (task (st <| current_task_idx := next |> <| tss_rsp0 := Some next |>) next) with (task st next).
  rewrite (proj2 (Z.leb_le 0 next)) by lia. rewrite (proj2 (Z.eqb_neq _ 0)) by (by apply Hs). done.
Qed.

(** What an operation leaves alone: the memory of every space but [r], as long as it is in use. *)
Definition isolates st st' (r : Z) : Prop :=
  kernel_wf st' /\ kernel_pml4 st' = kernel_pml4 st /\
  forall r', r' ∈ roots st -> r' ∈ roots st' -> r' <> r -> same_memory (mm st) (mm st') r'.

Lemma isolates_same_mm st st' r : kernel_wf st' -> kernel_pml4 st' = kernel_pml4 st -> mm st' = mm st -> isolates st st' r.
Proof. intros Hw Hk Hm. split; [done|]. split; [done|]. intros r' _ _ _. rewrite Hm. apply same_memory_refl. Qed.
Lemma isolates_set_task st i t r : kernel_wf st -> 0 <= i < 8 -> t_active t = t_active (task st i) ->
  pml4 t = pml4 (task st i) -> isolates st (set_task st i t) r.
Proof. intros Hw Hi Ea Ep. apply isolates_same_mm; [by apply set_task_wf|done..]. Qed.

Lemma timer_isolates st frame r : kernel_wf st -> let '(_, st') := timer_switch st frame in isolates st st' r.
Proof.
  intros Hwf. pose proof (kw_cur _ Hwf) as [Hc Hca]. unfold timer_switch.
  destruct (context_switch_enabled st && _); [|by apply isolates_same_mm].
  set (c := if 0 <? ticks_remaining (cur st) then _ else _).
  assert (Hcc : t_active c = t_active (cur st) /\ pml4 c = pml4 (cur st)) by (unfold c; by case_match).
  destruct Hcc as [Ec1 Ec2]. destruct (ticks_remaining c =? 0); [|by apply isolates_set_task].
  set (st1 := set_cur st _). assert (H1 : isolates st st1 r) by (by apply isolates_set_task).
  destruct (negb _ && _) eqn:E; [|done]. apply andb_prop in E as [_ Ha].
  destruct H1 as (Hw1 & Hk1 & _). pose proof (next_loop_range (Z.to_nat MAX_TASKS) st1 (current_task_idx st1) Hc) as Hn.
  set (st2 := st1 <| context_switch_count := _ |>). set (next := next_loop _ st1 _) in *.
  assert (Hs : let '(_, st') := switch_to st2 next in kernel_wf st' /\ mm st' = mm st2 /\ task_slots st' = task_slots st2 /\
    kernel_pml4 st' = kernel_pml4 st2).
  { apply switch_wf; [exact (kw_len st1 Hw1)|exact Hn|exact Ha|exact (kw_space st1 Hw1)|exact (kw_vm st1 Hw1)]. }
  destruct (switch_to st2 next) as [f st'] eqn:Es. destruct Hs as (Hw' & Hm & Ht & Hk').
  apply isolates_same_mm; [done|by rewrite Hk'|by rewrite Hm].
Qed.

(** Taking the slot and the space of a task. *)
Lemma release_isolates st i t : kernel_wf st -> 0 <= i < 8 -> t_active (task st i) = true -> t_active t = false ->
  let st1 := set_task st i t in
  vm_wf (mm (release_space st1 (pml4 (task st i)))) (roots st1) /\
  forall r', same_memory (mm st) (mm (release_space st1 (pml4 (task st i)))) r'.
Proof.
  intros Hwf Hi Ha Ht st1. destruct (roots_split st i (kw_len _ Hwf) Hi) as [E1 E2].
  pose proof (E2 t) as E3. fold st1 in E3. unfold space_of in E1, E3. rewrite Ha in E1. rewrite Ht in E3. cbn [andb app] in E1, E3.
  pose proof (kw_vm _ Hwf) as Hvm. unfold release_space. change (kernel_pml4 st1) with (kernel_pml4 st). change (mm st1) with (mm st).
  rewrite (proj2 (Z.eqb_neq _ 0)) by (by apply Hwf). cbn [negb andb].
  destruct (Z.eqb_spec (pml4 (task st i)) (kernel_pml4 st)) as [Ek|Ek]; cbn [negb] in *.
  - split; [|intros r'; apply same_memory_refl]. apply (vm_wf_perm _ (roots st)); [|done]. by rewrite E1, E3.
  - cbn [app] in E1. apply (vm_wf_perm _ _ _ E1) in Hvm.
    destruct (free_space_ok (mm st) (pml4 (task st i)) (others_of st i) Hvm (kernel_pml4 st) Ek) as [Hw Hpm].
    split; [by apply (vm_wf_perm _ (others_of st i))|].
    intros r' a b off _ _. unfold page_at. cbn. by rewrite Hpm.
Qed.

Lemma exit_switch st : kernel_wf st ->
  let st1 := set_cur st (cur st <| pml4 := 0 |> <| t_active := false |>) in
  let next := next_active (Z.to_nat MAX_TASKS) 0 st1 in 0 <= next ->
  isolates st (release_space (switch_to st1 next).2 (pml4 (cur st))) (pml4 (cur st)).
Proof.
  intros Hwf. pose proof (kw_cur _ Hwf) as [Hc Hca]. set (t := cur st <| pml4 := 0 |> <| t_active := false |>). intros st1 next Hn.
  pose proof (next_active_range _ _ _ Hn) as [Hn8 Hna]. fold next in Hn8, Hna. clearbody next.
  assert (Hs1 : forall i, 0 <= i < 8 -> t_active (task st1 i) = true -> pml4 (task st1 i) <> 0).
  { intros i Hi. unfold st1, set_cur. destruct (Z.eq_dec i (current_task_idx st)) as [->|].
    - rewrite task_set by (apply Hwf || done). done.
    - rewrite task_set_ne by lia. by apply (kw_space _ Hwf). }
  destruct (release_isolates st (current_task_idx st) t Hwf Hc Hca eq_refl) as [Hvm Hmem].
  fold (set_cur st t) in Hvm, Hmem. fold st1 in Hvm, Hmem. fold (cur st) in Hvm, Hmem.
  set (st2 := (switch_to st1 next).2).
  assert (Er : release_space st2 (pml4 (cur st)) = st2 <| mm := mm (release_space st1 (pml4 (cur st))) |>).
  { unfold st2, release_space, switch_to, task_switch_cr3. cbn. by case_match. }
  split; [|split].
  - rewrite Er. split; cbn; try done.
    + by rewrite length_puti, (kw_len _ Hwf).
    + change (task (st1 <| current_task_idx := next |> <| tss_rsp0 := Some next |>) next) with (task st1 next).
      rewrite (proj2 (Z.leb_le 0 next)) by lia. rewrite (proj2 (Z.eqb_neq _ 0)) by (by apply Hs1). done.
  - by rewrite Er.
  - intros r' _ _ _. rewrite Er. apply Hmem.
Qed.
Lemma exit_isolates st code : kernel_wf st ->
  match sys_exit st code with Some (_, st') => isolates st st' (pml4 (cur st)) | None => True end.
Proof.
  intros Hwf. unfold sys_exit. cbv zeta. set (st0 := st <| sched := _ |>).
  assert (Hwf0 : kernel_wf st0) by (by destruct Hwf; split). destruct (context_switch_enabled st0 && _); [|done].
  destruct (Z.leb_spec 0 (next_active (Z.to_nat MAX_TASKS) 0 (set_cur st0 (cur st0 <| pml4 := 0 |> <| t_active := false |>))))
    as [Hn|]; [|done].
  exact (exit_switch st0 Hwf0 Hn).
Qed.

(** [find_idx] over the slots and their numbers. *)
Lemma find_victim st f i : length (task_slots st) = 8%nat ->
  find_idx f (zip (Z.of_nat <$> seq 0 (length (task_slots st))) (task_slots st)) = Some i ->
  (i < 8)%nat /\ f (Z.of_nat i, task st (Z.of_nat i)) = true.
Proof.
  intros Hl [[x [Hx Hf]] _]%find_idx_Some. rewrite Hl in Hx. destruct x as [a b]. apply lookup_zip_Some in Hx as [H1 H2].
  apply list_lookup_fmap_Some in H1 as (k & -> & H1). apply lookup_seq in H1 as [-> Hk]. split; [lia|].
  unfold task. by rewrite (lookup_geti _ _ _ H2).
Qed.

Lemma kill_isolates st dst_pid sig : kernel_wf st ->
  let '(_, st') := sys_kill st dst_pid sig in isolates st st' (pml4 (cur st)).
Proof.
  intros Hwf. unfold sys_kill. destruct (sched st) as [s|]; [|by apply isolates_same_mm].
  destruct (scheduler_signal_send s dst_pid (u8 sig)) as [rc s1]. set (st0 := st <| sched := Some s1 |>).
  assert (Hwf0 : kernel_wf st0) by (by destruct Hwf; split).
  destruct (_ || _); [|by apply (isolates_same_mm st st0)].
  destruct (find_idx _ _) as [i|] eqn:Ef; [|by apply (isolates_same_mm st st0)].
  apply find_victim in Ef as [Hi Ef]; [|apply Hwf0]. cbn [fst snd] in Ef.
  apply andb_prop in Ef as [[Ha _]%andb_prop Hne]. apply negb_true_iff, Z.eqb_neq in Hne.
  set (t := task st0 (Z.of_nat i) <| pml4 := 0 |> <| t_active := false |>). set (st1 := set_task st0 (Z.of_nat i) t).
  destruct (release_isolates st0 (Z.of_nat i) t Hwf0 ltac:(lia) Ha eq_refl) as [Hvm Hmem]. fold st1 in Hvm, Hmem.
  set (st2 := release_space _ _).
  assert (Er : st2 = st1 <| sched := Some (scheduler_kill_process s1 dst_pid) |> <| mm := mm (release_space st1 (pml4 (task st0 (Z.of_nat i)))) |>).
  { unfold st2, release_space. cbn. by case_match. }
  assert (Hslot : forall j, 0 <= j < 8 -> j <> Z.of_nat i -> task st1 j = task st0 j) by (intros j Hj Hji; apply task_set_ne; lia).
  pose proof (kw_cur _ Hwf0) as [Hc Hca]. rewrite Er. split; [split|split].
  - cbn. rewrite length_puti. apply Hwf.
  - split; [exact Hc|]. change (t_active (task st1 (current_task_idx st0)) = true). by rewrite Hslot by done.
  - change (cr3 st0 = pml4 (task st1 (current_task_idx st0))). rewrite Hslot by done. apply Hwf0.
  - intros j Hj. change (t_active (task st1 j) = true -> pml4 (task st1 j) <> 0).
    destruct (Z.eq_dec j (Z.of_nat i)) as [->|Hji]; [|rewrite Hslot by done; by apply (kw_space _ Hwf0)].
    unfold st1. rewrite task_set by (apply Hwf0 || lia). done.
  - exact Hvm.
  - done.
  - intros r' _ _ _. apply Hmem.
Qed.

(** The slot [i] was free; the memory becomes [m]. *)
Lemma fill_slot_wf st m i t : kernel_wf st -> 0 <= i < 8 -> t_active (task st i) = false ->
  (t_active t = true -> pml4 t <> 0) -> vm_wf m (space_of (kernel_pml4 st) t ++ roots st) ->
  kernel_wf (set_task (st <| mm := m |>) i t) /\
  roots (set_task (st <| mm := m |>) i t) ≡ₚ space_of (kernel_pml4 st) t ++ roots st.
Proof.
  intros Hwf Hi Hf Ht Hm. destruct (roots_split st i (kw_len _ Hwf) Hi) as [E1 E2].
  unfold space_of in E1. rewrite Hf in E1. cbn [andb app] in E1.
  assert (Er : roots (set_task (st <| mm := m |>) i t) ≡ₚ space_of (kernel_pml4 st) t ++ roots st).
  { rewrite E1. exact (E2 t). }
  split; [|done]. pose proof (kw_cur _ Hwf) as [Hc Hca].
  assert (Hne : i <> current_task_idx st) by (intros ->; unfold cur in Hca; congruence).
  assert (Hcur : cur (set_task (st <| mm := m |>) i t) = cur st) by (unfold cur; apply (task_set_ne st); lia).
  split.
  - rewrite length_set_task. apply Hwf.
  - split; [done|]. by rewrite Hcur.
  - rewrite Hcur. apply Hwf.
  - intros j Hj. destruct (Z.eq_dec j i) as [->|Hji].
    + change (t_active (task (set_task st i t) i) = true -> pml4 (task (set_task st i t) i) <> 0). by rewrite task_set by apply Hwf || done.
    + change (t_active (task (set_task st i t) j) = true -> pml4 (task (set_task st i t) j) <> 0). rewrite task_set_ne by lia. by apply Hwf.
  - by apply (vm_wf_perm _ _ _ (symmetry Er)).
Qed.

(** The child [i] of a fork that returns [rc], and its memory. *)
Record child_spec st st' (frame : InterruptFrame) (rc i : Z) : Prop := {
  ch_free : t_active (task st i) = false;
  ch_active : t_active (task st' i) = true;
  ch_pid : t_pid (task st' i) = rc;
  ch_frame : t_frame (task st' i) = frame <| f_rax := 0 |>;
  ch_fds : fd_table (task st' i) = fd_table (cur st);
  ch_own : pml4 (task st' i) ∉ roots st;
  ch_memory a b : user_idx a b ->
    (forall off, 0 <= off < PAGE_SIZE -> page_at (mm st') (pml4 (task st' i)) a b off = page_at (mm st) (pml4 (cur st)) a b off) \/
    (exhausted (mm st') /\ forall off, page_at (mm st') (pml4 (task st' i)) a b off = None) }.

Lemma fork_child st i c m1 res m2 t rc frame : kernel_wf st -> 0 <= i < 8 -> t_active (task st i) = false ->
  paging_create_address_space (mm st) (kernel_pml4 st) = (c, m1) -> c <> 0 ->
  paging_clone_user_pages m1 c (pml4 (cur st)) = (res, m2) ->
  t_active t = true -> pml4 t = c -> t_pid t = rc -> t_frame t = frame <| f_rax := 0 |> -> fd_table t = fd_table (cur st) ->
  let st' := set_task (st <| mm := m2 |>) i t in res = 0 /\ isolates st st' 0 /\ child_spec st st' frame rc i.
Proof.
  intros Hwf Hi Hf E1 Hc E2 Ha Ep Hpid Hfr Hfd st'. pose proof (kw_vm _ Hwf) as Hvm.
  pose proof (create_ok (mm st) (roots st) (kernel_pml4 st) Hvm) as Hcr. rewrite E1 in Hcr.
  destruct Hcr as [Hq [Hc0|(_ & Hnl & Hw & Hz)]]; [by destruct (Hc Hc0)|].
  pose proof (fresh_root (mm st) (roots st) c Hvm Hnl) as Hni. pose proof (quiet_same_view _ _ _ Hvm Hq) as Hv.
  pose proof (cur_root _ Hwf) as Hp. assert (Hpc : pml4 (cur st) <> c) by (intros Hx; apply Hni; by rewrite <- Hx).
  assert (Hkc : kernel_pml4 st <> c) by (intros Hx; apply Hni; rewrite <- Hx; apply elem_of_cons; by left).
  assert (Hlen : (length (c :: roots st) <= 255)%nat) by (pose proof (roots_length st (kw_len _ Hwf)); cbn [length]; lia).
  assert (Hpin : pml4 (cur st) ∈ c :: roots st) by (apply elem_of_cons; by right).
  assert (Hcin : c ∈ c :: roots st) by (apply elem_of_cons; by left).
  pose proof (clone_ok m1 (c :: roots st) (pml4 (cur st)) c Hw Hpin Hcin Hpc Hlen Hz) as Hcl. rewrite E2 in Hcl.
  clear E1 E2 Hlen. destruct Hcl as (Hres & Hw2 & Ho & Hch). split; [exact Hres|].
  assert (Hsp : space_of (kernel_pml4 st) t = [c]).
  { unfold space_of. rewrite Ha, Ep. rewrite (proj2 (Z.eqb_neq _ _)) by (intros Hx; by apply Hkc). done. }
  destruct (fill_slot_wf st m2 i t Hwf Hi Hf) as [Hwf' Hroots].
  { intros _. rewrite Ep. exact Hc. }
  { rewrite Hsp. exact Hw2. }
  assert (Ht : task st' i = t) by (apply (task_set st); [apply Hwf|done]).
  split; [split; [exact Hwf'|split; [done|]]|].
  - intros r' Hr _ _ a b off Hab Hoff. change (mm st') with m2. rewrite Ho; [by apply Hv|by apply elem_of_cons; right|intros ->; exact (Hni Hr)|done|done].
  - split; rewrite ?Ht; try done.
    + by rewrite Ep.
    + intros a b Hab. change (mm st') with m2. rewrite Ep. destruct (Hch a b Hab) as [Hs|[Hx Hn]]; [left|by right].
      intros off Hoff. rewrite Hs by done. by apply Hv.
Qed.

Lemma fork_isolates st frame : kernel_wf st ->
  let '(rc, st') := sys_fork st frame in
  isolates st st' 0 /\ (forall i, 0 <= i < 8 -> t_active (task st i) = true -> task st' i = task st i) /\
  ((exists i, 0 <= i < 8 /\ child_spec st st' frame rc i) \/
   (rc = -1 /\ forall i, 0 <= i < 8 -> t_active (task st' i) = t_active (task st i))).
Proof.
  intros Hwf. pose proof (kw_cur _ Hwf) as [Hc Hca]. unfold sys_fork.
  rewrite (proj2 (Z.ltb_ge _ 0)) by lia. destruct (free_slot st) as [slot|] eqn:Ef; [|split; [by apply isolates_same_mm|split; [done|by right]]].
  destruct (sched st) as [s|]; [|split; [by apply isolates_same_mm|split; [done|by right]]].
  destruct (scheduler_create_process s 5 _) as [pid s1].
  pose proof (find_idx_lt _ _ _ Ef) as Hlt. rewrite (kw_len _ Hwf) in Hlt.
  apply find_idx_Some in Ef as [(x & Hx & Hf) _]. apply (lookup_geti (task_slots st)) in Hx. fold (task st (Z.of_nat slot)) in Hx. subst x.
  apply negb_true_iff in Hf. set (i := Z.of_nat slot) in *. assert (Hi : 0 <= i < 8) by lia. clearbody i. clear slot Hlt.
  set (st0 := st <| sched := Some s1 |>). assert (Hwf0 : kernel_wf st0) by (by destruct Hwf; split). cbv zeta.
  set (child := task st0 i <| t_active := true |> <| t_pid := pid |> <| ticks_remaining := _ |> <| ticks_total := _ |>
                  <| ppid_slot := _ |> <| brk := _ |>).
  assert (Hother : forall m t j, 0 <= j < 8 -> t_active (task st j) = true -> task (set_task (st0 <| mm := m |>) i t) j = task st j).
  { intros m t j Hj Ha. apply (task_set_ne st); [lia|lia|]. intros ->. congruence. }
  pose proof (create_ok (mm st0) (roots st0) (kernel_pml4 st0) (kw_vm _ Hwf0)) as Hcr.
  destruct (paging_create_address_space (mm st0) (kernel_pml4 st0)) as [c m1] eqn:E1.
  destruct (Z.eqb_spec c 0) as [->|Hc0]; cbn [orb].
  - destruct Hcr as [Hq _]. set (t := child <| pml4 := 0 |> <| t_active := false |>).
    destruct (fill_slot_wf st0 m1 i t Hwf0 Hi Hf ltac:(done) (q_wf _ _ _ Hq)) as [Hwf' _].
    split; [|split].
    + split; [done|]. split; [done|]. intros r' Hr _ _.
      exact (same_view_memory _ _ _ _ (quiet_same_view _ _ _ (kw_vm _ Hwf0) Hq) Hr).
    + intros j Hj Ha. by apply Hother.
    + right. split; [done|]. intros j Hj. destruct (Z.eq_dec j i) as [->|Hji].
      * rewrite Hf. change (t_active (task (set_task st i t) i) = false). by rewrite task_set by (apply Hwf || done).
      * f_equal. apply (task_set_ne st); lia.
  - clear Hcr. destruct (paging_clone_user_pages m1 c (pml4 (cur st0))) as [res m2] eqn:E2.
    destruct (fork_child st0 i c m1 res m2 (child_of (cur st0) (child <| pml4 := c |>) frame) pid frame
      Hwf0 Hi Hf E1 Hc0 E2 ltac:(done) ltac:(done) ltac:(done) ltac:(done) ltac:(done)) as (-> & Hiso & Hch).
    change (0 <? 0) with false. cbn iota. split; [exact Hiso|]. split.
    + intros j Hj Ha. by apply Hother.
    + left. exists i. split; [done|]. by destruct Hch; split.
Qed.

(** ** Memory of the running task *)

Lemma yield_isolates st r : kernel_wf st -> let '(_, st') := sys_yield st in isolates st st' r.
Proof.
  intros Hwf. unfold sys_yield. pose proof (kw_cur _ Hwf) as [Hc _]. rewrite (proj2 (Z.leb_le _ _)) by lia.
  by apply isolates_set_task.
Qed.
Lemma munmap_isolates st a l r : kernel_wf st -> let '(_, st') := sys_munmap st a l in isolates st st' r.
Proof.
  intros Hwf. unfold sys_munmap. pose proof (kw_cur _ Hwf) as [Hc _]. rewrite (proj2 (Z.ltb_ge _ _)) by lia.
  destruct (find_idx _ _); [by apply isolates_set_task|by apply isolates_same_mm].
Qed.
Lemma mmap_isolates st l pf path r : kernel_wf st ->
  match sys_mmap st l pf path with Some (_, st') => isolates st st' r | None => True end.
Proof.
  intros Hwf. unfold sys_mmap. pose proof (kw_cur _ Hwf) as [Hc _]. rewrite (proj2 (Z.ltb_ge _ _)) by lia.
  destruct (_ || _); [by apply isolates_same_mm|]. destruct (find_idx _ _); [|by apply isolates_same_mm].
  destruct (_ || _); [by apply isolates_set_task|].
  destruct (copy_user_path_64 st path) as [[?|]|]; [by apply isolates_set_task..|done].
Qed.

Lemma mm_isolates_st st m r : kernel_wf st -> mm_isolates (mm st) m (roots st) r -> isolates st (st <| mm := m |>) r.
Proof. intros Hwf [Hw Hm]. split; [by apply set_mm_wf|]. split; [done|]. intros r' Hr _ Hne. by apply Hm. Qed.

(** What sbrk makes of the pages of its range: pages of zeros. *)
Lemma fills_nothing : fills (fun _ _ m => m) (fun _ _ => 0).
Proof. by split. Qed.
Lemma page_of_va a : 0 <= a < 2 ^ 64 -> Z.land a 0xFFFFFFFFFFFFF000 = a - a mod 4096.
Proof.
  intros Ha. change 0xFFFFFFFFFFFFF000 with (Z.ldiff (Z.ones 64) (Z.ones 12)).
  rewrite <- land_ldiff', Z.land_ones, Z.mod_small, ldiff_ones by lia. change (2 ^ 12) with 4096. dlia.
Qed.
Lemma page_up_aligned a : page_up a mod 4096 = 0.
Proof. unfold page_up. pose proof (u64_is (a + 0xFFF)) as Hu. rewrite page_of_va by exact Hu. dlia. Qed.
Lemma grow_ok m rs r va e : vm_wf m rs -> r ∈ rs -> va mod 4096 = 0 -> 64 * 2 ^ 21 <= va -> e <= 2 ^ 30 ->
  let '(ok, m') := alloc_pages 1025 (fun _ _ m => m) m r va e in
  mm_isolates m m' rs r /\ same_outside m m' r va e /\
  (ok = true -> forall i j, user_idx i j -> in_range va e i j ->
     (forall off, 0 <= off < PAGE_SIZE -> page_at m' r i j off = Some 0) \/
     (exhausted m' /\ forall off, 0 <= off < PAGE_SIZE -> page_at m' r i j off = page_at m r i j off)).
Proof.
  intros Hwf Hr Hal Hva He. pose proof (room_le m).
  pose proof (alloc_pages_ok _ _ rs r 1025 fills_nothing m va e Hwf Hr Hva Hal He ltac:(lia)) as Hg.
  destruct (alloc_pages _ _ m r va e) as [ok m']. by destruct Hg as (Hiso & Hout & _ & _ & Hd & _).
Qed.

(** The range that sbrk maps is the user's. *)
Definition sbrk_in_range st (increment : Z) : Prop :=
  let b := if brk (cur st) =? 0 then 0x10100000 else brk (cur st) in
  0 < increment -> 64 * 2 ^ 21 <= page_up b /\ page_up (u64 (b + increment)) <= 2 ^ 30.
Lemma sbrk_isolates st increment : kernel_wf st -> sbrk_in_range st increment ->
  let '(_, st') := sys_sbrk st increment in isolates st st' (pml4 (cur st)).
Proof.
  intros Hwf Hrange. unfold sys_sbrk. pose proof (kw_cur _ Hwf) as [Hc Hca]. rewrite (proj2 (Z.ltb_ge _ _)) by lia.
  set (t := if brk (cur st) =? 0 then _ else _). assert (Ht : t_active t = t_active (cur st) /\ pml4 t = pml4 (cur st)) by (unfold t; by case_match).
  assert (Hb : brk t = if brk (cur st) =? 0 then 0x10100000 else brk (cur st)) by (unfold t; by case_match).
  clearbody t. destruct Ht as [Ht1 Ht2]. set (st1 := set_cur st t). destruct (set_task_wf st _ t Hwf Hc Ht1 Ht2) as [Hwf1 Hro].
  fold (set_cur st t) in Hwf1, Hro. fold st1 in Hwf1, Hro.
  assert (H1 : isolates st st1 (pml4 (cur st))) by (by apply isolates_set_task).
  destruct (Z.eqb_spec increment 0); [done|].
  assert (Hset : forall m b, mm_isolates (mm st) m (roots st) (pml4 (cur st)) ->
    isolates st (set_cur (st1 <| mm := m |>) (t <| brk := b |>)) (pml4 (cur st))).
  { intros m b Hm. assert (E : set_cur (st1 <| mm := m |>) (t <| brk := b |>) = set_cur (st <| mm := m |>) (t <| brk := b |>)).
    { unfold set_cur, set_task, st1. cbn. by rewrite puti_same. }
    rewrite E. unfold set_cur. change (current_task_idx (st <| mm := m |>)) with (current_task_idx st).
    destruct (mm_isolates_st st m _ Hwf Hm) as (Hwm & Hk & Hmem). set (t' := t <| brk := b |>).
    destruct (set_task_wf (st <| mm := m |>) (current_task_idx st) t' Hwm Hc Ht1 Ht2) as [Hw' Hr'].
    split; [exact Hw'|]. split; [done|]. intros r' Hr _ Hne. by apply (Hmem r' Hr). }
  assert (Hid : mm_isolates (mm st) (mm st) (roots st) (pml4 (cur st))) by (apply mm_isolates_refl, Hwf).
  destruct (Z.ltb_spec 0 increment) as [Hpos|Hneg]; [|exact (Hset (mm st) (u64 (brk t + increment)) Hid)].
  rewrite (proj2 (Z.eqb_neq (pml4 t) 0)) by (rewrite Ht2; by apply (kw_space _ Hwf)). rewrite Ht2.
  destruct (Hrange Hpos) as [R1 R2]. rewrite <- Hb in R1, R2.
  pose proof (grow_ok (mm st) _ (pml4 (cur st)) _ _ (kw_vm _ Hwf) (cur_root _ Hwf) (page_up_aligned _) R1 R2) as Hs.
  change (mm st1) with (mm st). destruct (alloc_pages 1025 _ (mm st) _ _ _) as [ok m]. destruct Hs as [Hs _]. destruct ok; [exact (Hset m (u64 (brk t + increment)) Hs)|].
  destruct Hs as [Hw Hm]. split; [apply set_mm_wf; [done|by apply (vm_wf_perm _ (roots st))]|]. split; [done|].
  intros r' Hr _ Hne. by apply Hm.
Qed.

(** ** Faults and accesses to user memory *)

Lemma user_page_va a : user_va a -> user_va (Z.land a 0xFFFFFFFFFFFFF000).
Proof.
  unfold user_va. change (2 ^ 21) with 2097152. change (2 ^ 30) with 1073741824. intros Ha. rewrite page_of_va by (change (2 ^ 64) with 18446744073709551616; lia).
  dlia.
Qed.

Lemma byte_at_ok m rs r va : vm_wf m rs -> r ∈ rs -> user_va va ->
  byte_at m r va = let e := pte (pm m) r (va_i va) (va_j va) in
                   if has e PAGE_PRESENT then Some (e, frame_of e + va mod 4096) else None.
Proof.
  intros Hwf Hr Hva. unfold byte_at, pte. rewrite (get_pte_spec m rs) by done.
  assert (Hl : Z.land va 0xFFF = va mod 4096) by (change 0xFFF with (Z.ones 12); by rewrite Z.land_ones).
  destruct (pt_of (pm m) r (va_i va)) as [pt|]; cbn; [|done]. rewrite Hl. by case_match.
Qed.

(** A byte stored through the tables of the space [r]. *)
Lemma try_store_ok m rs r va v m' : vm_wf m rs -> r ∈ rs -> user_va va -> try_store m r va v = Some m' ->
  vm_wf m' rs /\
  forall r' i j off, r' ∈ rs -> user_idx i j -> 0 <= off < PAGE_SIZE ->
    page_at m' r' i j off = if at_entry r (va_i va) (va_j va) r' i j && (off =? va mod 4096) then Some v else page_at m r' i j off.
Proof.
  intros Hwf Hr Hva. unfold try_store. rewrite (byte_at_ok m rs) by done. cbv zeta.
  destruct (has _ PAGE_PRESENT) eqn:Hp; [|done]. destruct (has _ PAGE_WRITABLE) eqn:Hw; [|done]. intros [= <-].
  destruct (user_va_idx va Hva) as [Hij _].
  destruct (user_store_ok m rs r (va_i va) (va_j va) (va mod 4096) v Hwf Hr Hij ltac:(apply Z.mod_pos_bound; done) Hp Hw) as (Hw' & _ & Hv).
  by split.
Qed.
Lemma user_store_isolates st va v st' : kernel_wf st -> user_va va -> user_store st va v = Some st' ->
  isolates st st' (pml4 (cur st)) /\ st' = st <| mm := mm st' |> /\ vm_wf (mm st') (roots st) /\
  forall i j off, user_idx i j -> 0 <= off < PAGE_SIZE ->
    page_at (mm st') (pml4 (cur st)) i j off =
    if at_entry (pml4 (cur st)) (va_i va) (va_j va) (pml4 (cur st)) i j && (off =? va mod 4096) then Some v
    else page_at (mm st) (pml4 (cur st)) i j off.
Proof.
  intros Hwf Hva. unfold user_store. pose proof (kw_vm _ Hwf) as Hvm. pose proof (cur_root _ Hwf) as Hr.
  pose proof (kw_cur _ Hwf) as [Hc _]. rewrite (kw_cr3 _ Hwf), (proj2 (Z.ltb_ge _ _)) by lia.
  assert (Hcore : forall m m', vm_wf m (roots st) -> same_view (mm st) m (roots st) -> try_store m (pml4 (cur st)) va v = Some m' ->
    isolates st (st <| mm := m' |>) (pml4 (cur st)) /\ vm_wf m' (roots st) /\
    forall i j off, user_idx i j -> 0 <= off < PAGE_SIZE ->
      page_at m' (pml4 (cur st)) i j off =
      if at_entry (pml4 (cur st)) (va_i va) (va_j va) (pml4 (cur st)) i j && (off =? va mod 4096) then Some v
      else page_at (mm st) (pml4 (cur st)) i j off).
  { intros m m' Hw Hv Ht. destruct (try_store_ok m (roots st) (pml4 (cur st)) va v m' Hw Hr Hva Ht) as [Hw' Hp].
    split; [apply mm_isolates_st; [done|]; split; [done|]|split; [done|]].
    - intros r' Hr' Hne i j off Hij Ho. rewrite Hp by done. unfold at_entry. rewrite (proj2 (Z.eqb_neq _ _)) by done. by apply Hv.
    - intros i j off Hij Ho. rewrite Hp by done. case_match; [done|]. by apply Hv. }
  destruct (try_store (mm st) (pml4 (cur st)) va v) as [m|] eqn:Et.
  - intros [= <-]. destruct (Hcore (mm st) m Hvm ltac:(done) Et) as (H1 & H2 & H3). split; [exact H1|]. split; [done|]. by split.
  - pose proof (cow_fault_ok (mm st) (roots st) (kernel_pml4 st) (pml4 (cur st)) va Hvm Hr Hva) as Hcow.
    destruct (paging_handle_cow_fault _ _ _ va) as [rc m1]. destruct (Z.eqb_spec rc 0) as [->|]; [|done].
    destruct Hcow as [[Hx _]|(_ & _ & _ & Hw1 & Hv1 & _)]; [done|].
    destruct (try_store m1 _ va v) as [m|] eqn:Et1; cbn; [|done]. intros [= <-].
    destruct (Hcore m1 m Hw1 Hv1 Et1) as (H1 & H2 & H3). split; [exact H1|]. split; [done|]. by split.
Qed.

Lemma file_page_ok st v va : match file_page fuel st v va with
  | Some (bs, st') => (length bs <= 4096)%nat /\ exists fs, st' = st <| files := fs |>
  | None => True end.
Proof.
  unfold file_page. cbv zeta. destruct (kfs_read_file _ _ _ _ _) as [[[total out]| |] fs]; [|split; [cbn; lia|by eexists]|done].
  destruct (_ <? total); [|split; [cbn; lia|by eexists]]. split; [|by eexists]. rewrite length_read_n. unfold PAGE_SIZE. case_match; lia.
Qed.

Lemma demand_isolates st va : kernel_wf st -> user_va va ->
  match demand_page fuel st va with Some (b, st') => isolates st st' (pml4 (cur st)) /\
    current_task_idx st' = current_task_idx st | None => True end.
Proof.
  intros Hwf Hva. unfold demand_page. pose proof (kw_cur _ Hwf) as [Hc Hca]. rewrite (proj2 (Z.ltb_ge _ _)) by lia.
  assert (H1 : isolates st st (pml4 (cur st))) by (by apply isolates_same_mm).
  destruct (vma_find _ _) as [v|]; [|done]. cbv zeta. destruct (frame_alloc (mm st)) as [f m1] eqn:Ea.
  pose proof (kw_vm _ Hwf) as Hvm. pose proof (cur_root _ Hwf) as Hr.
  destruct (Z.eqb_spec f 0) as [Hf0|Hf].
  { rewrite Hf0 in Ea. destruct (quiet_alloc _ _ 0 m1 Hvm Ea) as [(_ & -> & _)|(? & _)]; [|done].
    split; [|done]. by apply mm_isolates_st; [|apply mm_isolates_refl]. }
  set (st1 := st <| mm := m1 |>).
  assert (Hread : match (if (v_type v =? VMA_TYPE_FILE) && negb (char_at (v_path v) 0 =? 0)
      then file_page fuel st1 v (Z.land va 0xFFFFFFFFFFFFF000) else Some ([], st1)) with
    | Some (bs, st') => (length bs <= 4096)%nat /\ exists fs, st' = st1 <| files := fs |> | None => True end).
  { destruct (_ && _); [apply file_page_ok|]. split; [cbn; lia|]. exists (files st1). by destruct st. }
  destruct (if _ && _ then _ else _) as [[bs st2]|]; [|done]. destruct Hread as (Hlen & fs & ->).
  rewrite (proj2 (Z.eqb_neq _ 0)) by (by apply (kw_space _ Hwf)).
  set (flags := Z.lor (Z.lor PAGE_PRESENT PAGE_USER) _).
  assert (Hfl : has flags PAGE_PRESENT = true /\ frame_of flags = 0) by (unfold flags; case_match; by split).
  pose proof (map_new_frame (mm st) (roots st) (pml4 (cur st)) _ f m1 (mem_write (pm m1) f bs) flags Hvm Hr
    (user_page_va va Hva) Ea Hf) as Hmap. destruct Hmap as [[Hw Hm] _]; [|apply Hfl..|].
  { intros a Ha. unfold mem_write. unfold in_page, PAGE_SIZE in Ha. case_match; [lia|done]. }
  split; [|done]. split; [|split; [done|]].
  - exact (set_mm_wf (st <| files := fs |>) _ ltac:(by destruct Hwf; split) Hw).
  - intros r' Hr' _ Hne. by apply Hm.
Qed.

(** An exception from which the task resumes. *)
Lemma exception_isolates st frame va frame' st' : kernel_wf st -> user_va va ->
  exception fuel st frame va = Some (frame', st') -> current_task_idx st' = current_task_idx st ->
  isolates st st' (pml4 (cur st)).
Proof.
  intros Hwf Hva. unfold exception. cbv zeta. pose proof (kw_cur _ Hwf) as [Hc Hca].
  pose proof (kw_vm _ Hwf) as Hvm. pose proof (cur_root _ Hwf) as Hr.
  assert (Hcow : let '(rc, m) := (if (f_int_no frame =? 14) && negb (Z.land (f_error_code frame) 2 =? 0) && (0 <=? current_task_idx st)
      then paging_handle_cow_fault (mm st) (kernel_pml4 st) (pml4 (cur st)) va else (-1, mm st)) in
    mm_isolates (mm st) m (roots st) (pml4 (cur st)) /\ (rc <> 0 -> m = mm st)).
  { destruct (_ && _ && _); [|split; [by apply mm_isolates_refl|done]].
    pose proof (cow_fault_ok (mm st) (roots st) (kernel_pml4 st) (pml4 (cur st)) va Hvm Hr Hva) as Hcow.
    destruct (paging_handle_cow_fault _ _ _ va) as [rc m].
    destruct Hcow as [(-> & -> & _)|(-> & _ & _ & Hw & Hv & _)]; (split; [|done]); [by apply mm_isolates_refl|].
    split; [done|]. intros r' Hr' _. by apply (same_view_memory _ _ _ _ Hv). }
  destruct (if _ && _ && _ then _ else _) as [rc m]. destruct Hcow as [Hiso Hm].
  destruct (Z.eqb_spec rc 0) as [|Hrc]; [intros [= <- <-] _; by apply mm_isolates_st|].
  rewrite (Hm Hrc). replace (st <| mm := mm st |>) with st by (by destruct st). destruct (_ =? 3); [|done].
  assert (Hd : match (if f_int_no frame =? 14 then demand_page fuel st va else Some (false, st)) with
    | Some (b, st1) => isolates st st1 (pml4 (cur st)) /\ current_task_idx st1 = current_task_idx st | None => True end).
  { destruct (_ =? 14); [by apply demand_isolates|]. split; [by apply isolates_same_mm|done]. }
  destruct (if f_int_no frame =? 14 then _ else _) as [[[|] st1]|]; [|..|done]; destruct Hd as [Hd Hcur].
  - by intros [= <- <-].
  - unfold fault_kill. cbv zeta. set (st2 := match sched st1 with Some _ => _ | None => st1 end).
    assert (Hc2 : current_task_idx st2 = current_task_idx st1 /\ length (task_slots st2) = length (task_slots st1)).
    { unfold st2. by repeat case_match. }
    destruct Hc2 as [Hc2 Hl2]. case_match; [|done]. case_match eqn:E; [|done]. intros [= <- <-].
    apply Z.leb_le in E. set (st3 := set_cur st2 _) in *. pose proof (next_active_range _ _ _ E) as [Hn Hna].
    change (next_active (Z.to_nat MAX_TASKS) 0 st3 = current_task_idx st -> isolates st (st3 <| current_task_idx := next_active (Z.to_nat MAX_TASKS) 0 st3 |>) (pml4 (cur st))).
    intros Heq. exfalso. rewrite Heq, <- Hcur, <- Hc2 in Hna. unfold st3, set_cur in Hna.
    rewrite task_set in Hna; [done| |lia]. rewrite Hl2. destruct Hd as [Hw _]. apply Hw.
Qed.

(** ** Fork *)

(** C9. fork: the child is a free slot that becomes active with the pid returned, resumes from the caller's
    frame with 0 in rax, has the caller's descriptors, and a space of its own in which every page
    reads as the caller's (or is absent, if the frames ran out); every active task, the caller
    included, keeps its slot, and nobody's memory changes.  A fork that fails returns -1 and
    activates nothing. *)
Theorem sys_fork_spec st frame : kernel_wf st ->
  let '(rc, st') := sys_fork st frame in
  kernel_wf st' /\ (forall r, r ∈ roots st -> r ∈ roots st' -> same_memory (mm st) (mm st') r) /\
  (forall i, 0 <= i < 8 -> t_active (task st i) = true -> task st' i = task st i) /\
  ((exists i, 0 <= i < 8 /\ child_spec st st' frame rc i) \/
   (rc = -1 /\ forall i, 0 <= i < 8 -> t_active (task st' i) = t_active (task st i))).
Proof.
  intros Hwf. pose proof (fork_isolates st frame Hwf) as Hf. destruct (sys_fork st frame) as [rc st'].
  destruct Hf as ((Hw & _ & Hm) & Ho & Hc). split; [done|]. split; [|done]. intros r Hr Hr'. apply (Hm r Hr Hr'). intros ->.
  destruct (table_live (mm st) (roots st) (kw_vm _ Hwf) 0 0 Hr (root_in _ _)) as [[Hb _] _].
  destruct (fw_base _ (vw_frames _ _ (kw_vm _ Hwf))). lia.
Qed.
End isolation.

(** ** A machine after boot *)

Lemma boot_tables : tables (pm boot.2) boot.1 = [0x200000; 0x201000; 0x202000].
Proof. vm_compute. reflexivity. Qed.
Lemma boot_pde i : 64 <= i < 512 -> pde (pm boot.2) boot.1 i = 0.
Proof.
  intros Hi. apply Z.eqb_eq.
  assert (Hall : (i <? 64) || (pde (pm boot.2) boot.1 i =? 0) = true).
  { apply (forall_below (fun i => (i <? 64) || (pde (pm boot.2) boot.1 i =? 0)) 512); [vm_compute; reflexivity|lia]. }
  rewrite (proj2 (Z.ltb_ge i 64)) in Hall by lia. done.
Qed.
Lemma boot_unmapped i j f : user_idx i j -> maps (pm boot.2) boot.1 i j f = false.
Proof. intros [Hi _]. unfold maps, pte, pt_of. by rewrite boot_pde. Qed.
Lemma boot_live f : f ∈ [0x200000; 0x201000; 0x202000] -> live boot.2 f.
Proof.
  rewrite !elem_of_cons, elem_of_nil. unfold live, in_pool.
  intros [->|[->|[->|[]]]]; vm_compute; intuition congruence.
Qed.
Lemma boot_wf : vm_wf boot.2 [boot.1].
Proof.
  assert (Ha : all_tables (pm boot.2) [boot.1] = [0x200000; 0x201000; 0x202000]).
  { unfold all_tables. rewrite bind_cons, boot_tables. reflexivity. }
  assert (Hone : forall r, r ∈ [boot.1] -> r = boot.1) by (intros r; by rewrite elem_of_cons, elem_of_nil; intros [->|[]]).
  split.
  - apply (paging_init_frames 0x200000 (fun _ => 0) None); vm_compute; reflexivity.
  - rewrite Ha. apply (bool_decide_unpack _). vm_compute. exact I.
  - intros t. rewrite Ha. apply boot_live.
  - intros r ->%Hone. vm_compute. intuition congruence.
  - intros r i ->%Hone Hi. rewrite (boot_pde i Hi). split; reflexivity.
  - intros r i j f ->%Hone Hij Hm. rewrite (boot_unmapped i j f Hij) in Hm. discriminate Hm.
  - intros r1 r2 i1 j1 i2 j2 f ->%Hone ->%Hone Hij1 Hij2 Hm. rewrite (boot_unmapped i1 j1 f Hij1) in Hm. discriminate Hm.
  - intros r i j f ->%Hone Hij Hm. rewrite (boot_unmapped i j f Hij) in Hm. discriminate Hm.
Qed.

(** One kernel task; a scheduler that hands out pid 7. *)
#[export] Instance unit_scheduler : Scheduler unit := {
  scheduler_create_process s _ _ := (7, s); scheduler_terminate_pid s _ _ := s; scheduler_kill_process s _ := s;
  scheduler_signal_send s _ _ := (0, s); scheduler_schedule s := s; scheduler_get_current_pid _ := 1;
  scheduler_get_process_info _ _ := None; scheduler_get_exit_code _ _ := -1; scheduler_rows _ := [] }.
Definition kernel0 : Kernel (Bcache.Bcache RamDisk) unit :=
  mkKernel ((zero_task <| t_active := true |> <| t_pid := 1 |> <| ticks_total := 24 |> <| pml4 := boot.1 |>) :: replicate 7 zero_task)
    0 true 0 None boot.1 boot.1 boot.2 (replicate 8 zero_pipe)
    (mkConsole (mkKbd (zeros 256) 0 0 0 0 0 0 false) (mkTty (zeros 256) 0 0 0 true (zeros 256) 0 false) 0 false)
    [] demo_kfs tcp0 udp0 (Some tt) (UserDb.mkUserDb [] 0 false) 0 [].
Lemma kernel0_wf : kernel_wf kernel0.
Proof.
  split.
  - reflexivity.
  - split; [vm_compute; intuition congruence|reflexivity].
  - reflexivity.
  - intros i Hi Ha. assert (Hall : negb (t_active (task kernel0 i)) || negb (pml4 (task kernel0 i) =? 0) = true).
    { apply (forall_below (fun i => negb (t_active (task kernel0 i)) || negb (pml4 (task kernel0 i) =? 0)) 8); [vm_compute; reflexivity|lia]. }
    rewrite Ha in Hall. apply negb_true_iff, Z.eqb_neq in Hall. exact Hall.
  - change (roots kernel0) with [boot.1]. exact boot_wf.
Qed.
Definition forked0 : Z * Kernel (Bcache.Bcache RamDisk) unit := sys_fork kernel0 zero_frame.

Lemma sys_fork_spec_witness : forked0.1 = 7 /\ kernel_wf forked0.2.
Proof.
  assert (Hrc : forked0.1 = 7) by (vm_compute; reflexivity). revert Hrc.
  pose proof (sys_fork_spec kernel0 zero_frame kernel0_wf) as Hf. unfold forked0.
  destruct (sys_fork kernel0 zero_frame) as [rc st']. intros Hrc. split; [exact Hrc|exact (proj1 Hf)].
Defined.

(** A task that is killed by a fault leaves its page tables in CR3 for the task that runs next, and its
    frames are not given back. *)
Lemma fault_kill_keeps_cr3 {D Sc} `{Scheduler Sc} (st : Kernel D Sc) frame st' :
  fault_kill st = Some (frame, st') -> cr3 st' = cr3 st /\ mm st' = mm st.
Proof.
  unfold fault_kill. cbv zeta. set (st1 := match sched st with Some _ => _ | None => st end).
  assert (E : cr3 st1 = cr3 st /\ mm st1 = mm st) by (unfold st1; by repeat case_match).
  case_match; [|done]. case_match; [|done]. intros [= <- <-]. exact E.
Qed.
(** Without the range, sbrk writes kernel memory: lower the break below 128 MB, then grow it; the "table"
    that the new entry is stored into is a 2 MB page of the kernel's identity map. *)
Definition lowered : Z * Kernel (Bcache.Bcache RamDisk) unit := sys_sbrk kernel0 (0x400000 - 0x10100000).
Lemma sbrk_overwrites_kernel_memory :
  pm (mm lowered.2) 0x400000 = 0 /\ pm (mm (sys_sbrk lowered.2 4096).2) 0x400000 = 0x203007.
Proof. split; vm_compute; reflexivity. Qed.
