(* ===== verification/Scheduling.v ===== *)
(** The timer's round robin is fair: a task that stays active runs again
    within eight time slices, whatever the running tasks do in between. *)

From S2P Require Import Prelude BlockDev Kernel Tasks Isolation.

Section fair.
Context {D Sc : Type} `{BlockDev D} `{Scheduler Sc}.
Implicit Types (st s : Kernel D Sc) (frame : InterruptFrame).

(** No slice is longer than [T] ticks. *)
Record sched_wf (T : Z) st : Prop := {
  sw_len : length (task_slots st) = 8%nat;
  sw_on : context_switch_enabled st = true;
  sw_cur : 0 <= current_task_idx st < 8;
  sw_ticks i : 0 <= i < 8 -> 0 <= ticks_remaining (task st i) <= T /\ 0 <= ticks_total (task st i) <= T }.

(** What may happen between two ticks: anything that creates and ends no task and gives no task a longer
    slice (giving up the slice leaves one tick). *)
Record between st s : Prop := {
  bt_len : length (task_slots s) = length (task_slots st);
  bt_on : context_switch_enabled s = context_switch_enabled st;
  bt_cur : current_task_idx s = current_task_idx st;
  bt_task i : 0 <= i < 8 -> t_active (task s i) = t_active (task st i) /\ ticks_total (task s i) = ticks_total (task st i) /\
    0 <= ticks_remaining (task s i) <= Z.max 1 (ticks_remaining (task st i)) }.

(** The task [i] runs within [n] ticks, whatever happens between them. *)
Fixpoint runs_within (i : Z) (n : nat) st : Prop :=
  current_task_idx st = i \/
  match n with
  | O => False
  | S n => forall s frame, between st s -> runs_within i n (timer_switch s frame).2
  end.

Lemma between_refl T st : sched_wf T st -> between st st.
Proof. intros Hw. split; try done. intros i Hi. destruct (sw_ticks _ _ Hw i Hi). split; [done|]. split; [done|]. lia. Qed.
Lemma between_wf T st s : 1 <= T -> sched_wf T st -> between st s -> sched_wf T s.
Proof.
  intros HT [W1 W2 W3 W4] [B1 B2 B3 B4]. split.
  - by rewrite B1.
  - by rewrite B2.
  - by rewrite B3.
  - intros i Hi. destruct (B4 i Hi) as (_ & -> & ?), (W4 i Hi). lia.
Qed.
(** Yielding is such a step. *)
Lemma yield_between T st : 1 <= T -> sched_wf T st -> between st (sys_yield st).2.
Proof.
  intros HT Hw. pose proof (sw_cur _ _ Hw) as Hc. unfold sys_yield. rewrite (proj2 (Z.leb_le _ _)) by lia. cbn [snd].
  split; try done; [apply length_puti|]. intros i Hi. destruct (sw_ticks _ _ Hw i Hi). unfold set_cur, task, set_task. cbn.
  destruct (Z.eq_dec i (current_task_idx st)) as [->|].
  - rewrite geti_puti_eq by (rewrite (sw_len _ _ Hw); lia). cbn. split; [done|]. split; [done|]. lia.
  - rewrite geti_puti_ne by lia. fold (task st i). split; [done|]. split; [done|]. lia.
Qed.

Lemma mod_step a b : ((a mod 8) + b) mod 8 = (a + b) mod 8.
Proof. apply Zplus_mod_idemp_l. Qed.

(** The loop stops at the first active slot after [c]. *)
Lemma next_loop_first s n : forall c d, 1 <= d <= Z.of_nat n -> t_active (task s ((c + d) mod 8)) = true ->
  exists d', 1 <= d' <= d /\ next_loop n s c = (c + d') mod 8 /\ t_active (task s ((c + d') mod 8)) = true.
Proof.
  induction n as [|n IH]; intros c d Hd Ha; [lia|]. cbn [next_loop]. unfold MAX_TASKS.
  destruct (t_active (task s ((c + 1) mod 8))) eqn:E.
  - exists 1. split; [lia|done].
  - destruct (Z.eq_dec d 1) as [->|]; [congruence|].
    destruct (IH ((c + 1) mod 8) (d - 1)) as (d' & H1 & H2 & H3); [lia| |].
    + rewrite mod_step. by replace (c + 1 + (d - 1)) with (c + d) by lia.
    + rewrite mod_step in H2, H3. exists (d' + 1). replace (c + (d' + 1)) with (c + 1 + d') by lia. split; [lia|done].
Qed.

(** How far [i] is from the current slot. *)
Definition distance (i : Z) st : Z := (i - current_task_idx st) mod 8.
Definition slice_left st : Z := Z.max 1 (ticks_remaining (cur st)).

(** One tick: the slice gets shorter, or a task nearer to [i] runs. *)
Lemma tick_progress T st frame i : 1 <= T -> sched_wf T st -> 0 <= i < 8 -> t_active (task st i) = true -> 1 <= distance i st ->
  let st' := (timer_switch st frame).2 in
  sched_wf T st' /\ t_active (task st' i) = true /\
  ((distance i st' = distance i st /\ slice_left st' <= slice_left st - 1) \/ distance i st' <= distance i st - 1).
Proof.
  intros HT Hw Hi Ha Hd. pose proof Hw as [W1 W2 W3 W4]. unfold timer_switch. rewrite W2, (proj2 (Z.leb_le _ _)) by lia. cbn [andb].
  set (t := if 0 <? ticks_remaining (cur st) then _ else _).
  assert (Ht : t_active t = t_active (cur st) /\ ticks_total t = ticks_total (cur st) /\
    ticks_remaining t = Z.max 0 (ticks_remaining (cur st) - 1)).
  { unfold t. destruct (W4 _ W3) as [Hr _]. fold (cur st) in Hr. destruct (Z.ltb_spec 0 (ticks_remaining (cur st))); cbn; (split; [done|split; [done|lia]]). }
  destruct Ht as (T1 & T2 & T3). clearbody t. destruct (W4 _ W3) as [Wr Wt]. fold (cur st) in Wr, Wt.
  assert (Hset : forall x, t_active x = t_active (cur st) -> 0 <= ticks_remaining x <= T -> ticks_total x = ticks_total (cur st) ->
    sched_wf T (set_cur st x) /\ forall j, 0 <= j < 8 -> t_active (task (set_cur st x) j) = t_active (task st j)).
  { intros x X1 X2 X3. unfold set_cur, set_task. split; [split; try done|].
    - cbn. by rewrite length_puti.
    - intros j Hj. unfold task. cbn. destruct (Z.eq_dec j (current_task_idx st)) as [->|].
      + rewrite geti_puti_eq by lia. lia.
      + rewrite geti_puti_ne by lia. by apply W4.
    - intros j Hj. unfold task. cbn. destruct (Z.eq_dec j (current_task_idx st)) as [->|].
      + by rewrite geti_puti_eq by lia.
      + by rewrite geti_puti_ne by lia. }
  destruct (Z.eqb_spec (ticks_remaining t) 0) as [Hz|Hnz].
  - set (x := t <| t_frame := frame |> <| ticks_remaining := ticks_total t |>).
    assert (Hx : t_active x = t_active (cur st) /\ 0 <= ticks_remaining x <= T /\ ticks_total x = ticks_total (cur st)) by (unfold x; cbn; rewrite T2; done).
    destruct Hx as (X1 & X2 & X3). clearbody x. destruct (Hset x X1 X2 X3) as [Hw' Ha'].
    set (s := set_cur st x) in *. change (current_task_idx s) with (current_task_idx st).
    unfold distance in Hd |- *. set (d := (i - current_task_idx st) mod 8) in *.
    assert (Hid : (current_task_idx st + d) mod 8 = i) by (unfold d; rewrite Zplus_mod_idemp_r; replace (current_task_idx st + (i - current_task_idx st)) with i by lia; by apply Z.mod_small).
    assert (Hd8 : 0 <= d < 8) by (by apply Z.mod_pos_bound).
    destruct (next_loop_first s 8 (current_task_idx st) d) as (d' & D1 & D2 & D3); [lia|rewrite Hid, Ha' by done; done|].
    change (Z.to_nat MAX_TASKS) with 8%nat. rewrite D2, D3.
    set (next := (current_task_idx st + d') mod 8) in *.
    assert (Hn : 0 <= next < 8 /\ next <> current_task_idx st).
    { split; [by apply Z.mod_pos_bound|]. unfold next. intros E. dlia. }
    rewrite (proj2 (Z.eqb_neq _ _)) by apply Hn. cbn [negb andb switch_to snd].
    split; [|split].
    + destruct Hw' as [V1 V2 V3 V4]. split; try done. apply Hn.
    + change (t_active (task s i) = true). by rewrite Ha'.
    + right. cbn. unfold next, d. dlia.
  - destruct (Hset t T1 ltac:(lia) T2) as [Hw' Ha']. cbn [snd]. split; [done|]. split; [by rewrite Ha'|]. left. split; [done|].
    unfold slice_left. assert (E : cur (set_cur st t) = t) by (unfold cur, task, set_cur, set_task; cbn; apply geti_puti_eq; lia). rewrite E. lia.
Qed.

Lemma between_measure i st s : 0 <= current_task_idx st < 8 -> between st s ->
  distance i s = distance i st /\ slice_left s <= slice_left st.
Proof.
  intros Hc [B1 B2 B3 B4]. unfold distance, slice_left, cur. rewrite B3. split; [done|]. destruct (B4 _ Hc) as (_ & _ & ?). lia.
Qed.

(** C11. Round robin is fair: with slices of at most [T] ticks, an active task becomes the running one within
    8 T timer ticks, whatever the other tasks do between the ticks, as long as none is created or
    ends. *)
Theorem round_robin_fair T st i : 1 <= T -> sched_wf T st -> 0 <= i < 8 -> t_active (task st i) = true ->
  runs_within i (Z.to_nat (8 * T)) st.
Proof.
  intros HT Hw Hi Ha.
  assert (Hmain : forall n s, sched_wf T s -> t_active (task s i) = true ->
    distance i s = 0 \/ slice_left s + (distance i s - 1) * T <= Z.of_nat n -> runs_within i n s).
  { clear st Hw Ha. induction n as [|n IH]; intros s Hw Ha Hn; pose proof (sw_cur _ _ Hw) as Hc;
      assert (Hd : 0 <= distance i s < 8) by (by apply Z.mod_pos_bound);
      (destruct (Z.eq_dec (distance i s) 0) as [Hz|Hz]; [left; unfold distance in Hz; dlia|]).
    - exfalso. assert (1 <= slice_left s) by (unfold slice_left; lia). nia.
    - right. intros s' frame Hb. destruct (between_measure i s s' Hc Hb) as [Hd' Hs'].
      pose proof (between_wf T s s' HT Hw Hb) as Hw'. destruct (bt_task _ _ Hb i Hi) as [Ha' _]. rewrite Ha in Ha'.
      destruct (tick_progress T s' frame i HT Hw' Hi Ha' ltac:(lia)) as (Hw2 & Ha2 & Hp). apply IH; [done|done|].
      assert (Hd2 : 0 <= distance i (timer_switch s' frame).2 < 8) by (by apply Z.mod_pos_bound).
      destruct (Z.eq_dec (distance i (timer_switch s' frame).2) 0) as [|Hz2]; [by left|]. right.
      destruct Hn as [|Hn]; [done|].
      assert (Hsl : slice_left (timer_switch s' frame).2 <= T).
      { unfold slice_left. destruct (sw_ticks _ _ Hw2 _ (sw_cur _ _ Hw2)) as [Hr _]. fold (cur (timer_switch s' frame).2) in Hr. lia. }
      assert (Hone : 1 <= slice_left s) by (unfold slice_left; lia). rewrite Nat2Z.inj_succ in Hn.
      destruct Hp as [[Ed Es]|Ed]; [rewrite Ed, Hd'; lia|]. rewrite Hd' in Ed.
      pose proof (Z.mul_le_mono_nonneg_r (distance i (timer_switch s' frame).2) (distance i s - 1) T ltac:(lia) Ed). lia. }
  apply Hmain; [done|done|]. assert (Hd : 0 <= distance i st < 8) by (by apply Z.mod_pos_bound).
  destruct (Z.eq_dec (distance i st) 0); [by left|right].
  assert (slice_left st <= T).
  { unfold slice_left. destruct (sw_ticks _ _ Hw _ (sw_cur _ _ Hw)) as [Hr _]. fold (cur st) in Hr. lia. }
  nia.
Qed.
End fair.

(** A parent with slices of 24 ticks and its child. *)
Lemma forked0_wf : sched_wf 24 forked0.2.
Proof.
  split; [vm_compute; reflexivity..|vm_compute; intuition congruence|]. intros i Hi.
  set (ok := fun i => (0 <=? ticks_remaining (task forked0.2 i)) && (ticks_remaining (task forked0.2 i) <=? 24) &&
    (0 <=? ticks_total (task forked0.2 i)) && (ticks_total (task forked0.2 i) <=? 24)).
  assert (Hall : ok i = true) by (apply (forall_below ok 8); [vm_compute; reflexivity|exact Hi]). unfold ok in Hall. lia.
Qed.
Lemma round_robin_fair_witness : runs_within 1 192 forked0.2.
Proof.
  exact (round_robin_fair 24 forked0.2 1 ltac:(lia) forked0_wf ltac:(lia) ltac:(vm_compute; reflexivity)).
Defined.
