(* ===== verification/Fds.v ===== *)
(** Descriptors of the 64-bit kernel (kernel/arch/x86_64/kernel_x64.c): files,
    the terminal, pipes and sockets, on the task slots of Kernel.  [None] is an
    operation that never returns: a fault on a user address that is not mapped
    halts the machine, and so does a cyclic FAT32 chain. *)

From S2P Require Import Prelude CString BlockDev Bcache VernisFs Kfs Sha256 UserDb Tcp Udp Frames Paging AddressSpace Console Kernel Tasks Isolation.

Section fds.
Context {D Sc : Type} `{BlockDev D} `{Scheduler Sc}.
Variable fuel : nat.
(** The IP layer's return codes under TCP and UDP. *)
Context (tcp_output : Z -> bytes -> Z) (udp_output : Z -> Z -> bytes -> Z).
Implicit Types (st : Kernel D Sc) (fdt : list FdEntry).

Definition fds st : list FdEntry := fd_table (cur st).
Definition fd st (n : Z) : FdEntry := geti (fds st) n.
Definition set_fds st fdt : Kernel D Sc := set_cur st (cur st <| fd_table := fdt |>).
Definition set_fd st (n : Z) (e : FdEntry) : Kernel D Sc := set_fds st (puti (fds st) n e).
Definition pipe st (i : Z) : KernelPipe := geti (kernel_pipes st) i.
Definition set_pipe st (i : Z) (p : KernelPipe) : Kernel D Sc := st <| kernel_pipes := puti (kernel_pipes st) i p |>.
Definition bad_fd (n : Z) : bool := (n <? 0) || (FD_MAX <=? n).

(** ** The table *)

(** [kernel/arch/x86_64/kernel_x64.c] fd_table_init *)
Definition fd_table_init (fdt : list FdEntry) : list FdEntry :=
  let tty flags := zero_fd <| fd_type := FD_TYPE_TTY |> <| fd_flags := flags |> in
  [tty 1; tty 2; tty 2] ++ replicate 13 zero_fd.
(** [kernel/arch/x86_64/kernel_x64.c] fd_alloc *)
Definition fd_alloc fdt : Z :=
  match find_idx (fun e => fd_type e =? FD_TYPE_NONE) fdt with Some i => Z.of_nat i | None => -1 end.
(** [kernel/arch/x86_64/kernel_x64.c] fd_alloc_at *)
Definition fd_alloc_at fdt (target : Z) : Z :=
  if bad_fd target then -1 else if negb (fd_type (geti fdt target) =? FD_TYPE_NONE) then -1 else target.
(** The pipe end that is closed.
    [kernel/arch/x86_64/kernel_x64.c:1406-1412] fd_close_entry *)
Definition pipe_close_end (p : KernelPipe) (read_end : bool) : KernelPipe :=
  let p := if read_end then p <| read_open := false |> else p <| write_open := false |> in
  if negb (read_open p) && negb (write_open p) then p <| p_active := false |> else p.
(** [kernel/arch/x86_64/kernel_x64.c] fd_close_entry *)
Definition fd_close_entry st (n : Z) : Kernel D Sc :=
  if bad_fd n then st else
  let e := fd st n in
  let ty := fd_type e in let i := fd_pipe_idx e in
  let st :=
    if (ty =? FD_TYPE_PIPE_R) || (ty =? FD_TYPE_PIPE_W) then
      if i <? MAX_PIPES then set_pipe st i (pipe_close_end (pipe st i) (ty =? FD_TYPE_PIPE_R)) else st
    else if (ty =? FD_TYPE_SOCK_TCP) && negb (i =? 0xFF) then st <| tcp := (tcp_close tcp_output (tcp st) i).2 |>
    else if (ty =? FD_TYPE_SOCK_UDP) && negb (i =? 0xFF) then st <| udp := (udp_close (udp st) i).2 |>
    else st in
  set_fd st n (e <| fd_type := FD_TYPE_NONE |> <| fd_flags := 0 |> <| fd_path := [] |> <| fd_offset := 0 |> <| fd_pipe_idx := 0 |>).
(** [kernel/arch/x86_64/kernel_x64.c] sys_close *)
Definition sys_close st (n : Z) : Z * Kernel D Sc :=
  if bad_fd n || (fd_type (fd st n) =? FD_TYPE_NONE) then (-1, st) else (0, fd_close_entry st n).
(** [kernel/arch/x86_64/kernel_x64.c] sys_dup *)
Definition sys_dup st (oldfd : Z) : Z * Kernel D Sc :=
  if bad_fd oldfd || (fd_type (fd st oldfd) =? FD_TYPE_NONE) then (-1, st) else
  let newfd := fd_alloc (fds st) in
  if newfd <? 0 then (-1, st) else (newfd, set_fd st newfd (fd st oldfd)).
(** [kernel/arch/x86_64/kernel_x64.c] sys_dup2 *)
Definition sys_dup2 st (oldfd newfd : Z) : Z * Kernel D Sc :=
  if bad_fd oldfd || (fd_type (fd st oldfd) =? FD_TYPE_NONE) then (-1, st) else
  if bad_fd newfd then (-1, st) else
  if oldfd =? newfd then (newfd, st) else
  let st := if negb (fd_type (fd st newfd) =? FD_TYPE_NONE) then fd_close_entry st newfd else st in
  (newfd, set_fd st newfd (fd st oldfd)).

(** ** Pipes *)

(** [while (n < count && p->count > 0)]; the bytes taken.
    [kernel/arch/x86_64/kernel_x64.c:1480-1484] sys_read_fd *)
Fixpoint pipe_take (n : nat) (p : KernelPipe) : bytes * KernelPipe :=
  match n with
  | O => ([], p)
  | S n =>
      if 0 <? p_count p then
        let c := geti (p_buf p) (read_pos p) in
        let '(out, p) := pipe_take n (p <| read_pos := (read_pos p + 1) mod PIPE_BUF_SIZE |> <| p_count := p_count p - 1 |>) in
        (c :: out, p)
      else ([], p)
  end.
(** [while (n < count && p->count < PIPE_BUF_SIZE)]; how many bytes are stored.
    [kernel/arch/x86_64/kernel_x64.c:1533-1537] sys_write_fd *)
Fixpoint pipe_put (bs : bytes) (p : KernelPipe) : Z * KernelPipe :=
  match bs with
  | [] => (0, p)
  | c :: bs =>
      if p_count p <? PIPE_BUF_SIZE then
        let '(n, p) := pipe_put bs (p <| p_buf := puti (p_buf p) (write_pos p) c |>
                                      <| write_pos := (write_pos p + 1) mod PIPE_BUF_SIZE |> <| p_count := p_count p + 1 |>) in
        (n + 1, p)
      else (0, p)
  end.
(** The descriptors are stored as two 32-bit integers.
    [kernel/arch/x86_64/kernel_x64.c] sys_pipe *)
Definition sys_pipe st (fds_ptr : Z) : option (Z * Kernel D Sc) :=
  if negb (user_ptr_range_valid_64 fds_ptr 8) then Some (-1, st) else
  match find_idx (fun p => negb (p_active p)) (kernel_pipes st) with
  | None => Some (-1, st)
  | Some pidx =>
      let i := Z.of_nat pidx in
      let rfd := fd_alloc (fds st) in
      if rfd <? 0 then Some (-1, st) else
      let st1 := set_fd st rfd (fd st rfd <| fd_type := FD_TYPE_PIPE_R |> <| fd_pipe_idx := i |>) in
      let wfd := fd_alloc (fds st1) in
      if wfd <? 0 then Some (-1, set_fd st1 rfd (fd st1 rfd <| fd_type := FD_TYPE_NONE |>)) else
      let st2 := set_fd st1 wfd (fd st1 wfd <| fd_type := FD_TYPE_PIPE_W |> <| fd_pipe_idx := i |>) in
      let p := pipe st2 i in
      let st3 := set_pipe st2 i (p <| p_active := true |> <| read_open := true |> <| write_open := true |> <| read_pos := 0 |>
                                   <| write_pos := 0 |> <| p_count := 0 |>) in
      match store_bytes st3 fds_ptr (le_enc 4 rfd ++ le_enc 4 wfd) with Some st => Some (0, st) | None => None end
  end.

(** ** Opening, reading and writing *)

(** [kernel/arch/x86_64/kernel_x64.c] sys_open *)
Definition sys_open st (path_ptr flags : Z) : option (Z * Kernel D Sc) :=
  let n := fd_alloc (fds st) in
  if n <? 0 then Some (-1, st) else
  match copy_user_path_64 st path_ptr with
  | None => None
  | Some None => Some (-1, st)
  | Some (Some path) =>
      let '(r, fs) := kfs_find_file fuel path (files st) in
      let st := st <| files := fs |> in
      match r with
      | Loops => None
      | Fail => Some (-1, st)
      | Ok _ =>
          let f := Z.land flags 3 in
          Some (n, set_fd st n (fd st n <| fd_type := FD_TYPE_FILE |> <| fd_flags := if f =? 0 then 1 else f |>
                                       <| fd_offset := 0 |> <| fd_path := take 63 path |>))
      end
  end.
(** A read that finds nothing gives up the slice. *)
Definition give_up_slice st : Kernel D Sc :=
  if 0 <=? current_task_idx st then set_cur st (cur st <| ticks_remaining := 1 |>) else st.
Definition stored (n : Z) (st : option (Kernel D Sc)) : option (Z * Kernel D Sc) := (fun st => (n, st)) <$> st.

(** [kernel/arch/x86_64/kernel_x64.c] sys_read_fd *)
Definition sys_read_fd st (n buf_ptr count : Z) : option (Z * Kernel D Sc) :=
  if bad_fd n || (fd_type (fd st n) =? FD_TYPE_NONE) then Some (-1, st) else
  if count =? 0 then Some (0, st) else
  let count := if SYS_IO_BUF_MAX <? count then SYS_IO_BUF_MAX else count in
  if negb (user_ptr_range_valid_64 buf_ptr count) then Some (-1, st) else
  let e := fd st n in let ty := fd_type e in let i := fd_pipe_idx e in
  if ty =? FD_TYPE_TTY then
    let '(out, t) := tty_read (kernel_tty0 (console st)) count in
    let st := st <| console := console st <| kernel_tty0 := t |> |> in
    let r := Z.of_nat (length out) in
    if 0 <? r then stored r (store_bytes st buf_ptr out) else Some (r, give_up_slice st)
  else if ty =? FD_TYPE_PIPE_R then
    if (MAX_PIPES <=? i) || negb (p_active (pipe st i)) then Some (-1, st) else
    let '(out, p) := pipe_take (Z.to_nat count) (pipe st i) in
    stored (Z.of_nat (length out)) (store_bytes (set_pipe st i p) buf_ptr out)
  else if ty =? FD_TYPE_FILE then
    let '(r, fs) := kfs_read_file fuel (kfs_env st) (fd_path e) SYS_IO_BUF_MAX (files st) in
    let st := st <| files := fs |> in
    match r with
    | Loops => None
    | Fail => Some (-1, st)
    | Ok (total, out) =>
        if total <? 0 then Some (-1, st) else
        let avail := total - i32 (fd_offset e) in
        if avail <=? 0 then Some (0, st) else
        let k := if count <? avail then count else avail in
        match store_bytes st buf_ptr (read_n (drop (Z.to_nat (fd_offset e)) out) (Z.to_nat k)) with
        | None => None
        | Some st => Some (k, set_fd st n (fd st n <| fd_offset := u32 (fd_offset e + k) |>))
        end
    end
  else if (ty =? FD_TYPE_SOCK_TCP) && negb (i =? 0xFF) then
    let '(r, out, t) := tcp_recv tcp_output (tcp st) i count in
    match store_bytes (st <| tcp := t |>) buf_ptr out with
    | None => None
    | Some st => Some (r, if r =? 0 then give_up_slice st else st)
    end
  else if (ty =? FD_TYPE_SOCK_UDP) && negb (i =? 0xFF) then
    let '(r, out, _, u) := udp_recvfrom (udp st) i count in
    match store_bytes (st <| udp := u |>) buf_ptr out with
    | None => None
    | Some st => Some (r, if r =? 0 then give_up_slice st else st)
    end
  else Some (-1, st).

(** The bytes at [buf_ptr] are read as far as the operation needs them.
    [kernel/arch/x86_64/kernel_x64.c] sys_write_fd *)
Definition sys_write_fd st (n buf_ptr count : Z) : option (Z * Kernel D Sc) :=
  if bad_fd n || (fd_type (fd st n) =? FD_TYPE_NONE) then Some (-1, st) else
  if count =? 0 then Some (0, st) else
  let count := if SYS_IO_BUF_MAX <? count then SYS_IO_BUF_MAX else count in
  if negb (user_ptr_range_valid_64 buf_ptr count) then Some (-1, st) else
  let e := fd st n in let ty := fd_type e in let i := fd_pipe_idx e in
  let prefix := load_prefix st (Z.to_nat count) buf_ptr in
  let whole := Z.of_nat (length prefix) =? count in
  if ty =? FD_TYPE_TTY then
    if whole then Some (count, st <| terminal_out := terminal_out st ++ prefix |>) else None
  else if ty =? FD_TYPE_PIPE_W then
    if (MAX_PIPES <=? i) || negb (p_active (pipe st i)) then Some (-1, st) else
    let '(k, p) := pipe_put prefix (pipe st i) in
    if whole || (p_count p =? PIPE_BUF_SIZE) then Some (k, set_pipe st i p) else None
  else if ty =? FD_TYPE_FILE then
    if negb whole then None else
    let '(rc, fs) := kfs_write_file (fd_path e) prefix count (files st) in
    Some (if rc <? 0 then -1 else count, st <| files := fs |>)
  else if (ty =? FD_TYPE_SOCK_TCP) && negb (i =? 0xFF) then
    let '(r, t) := tcp_send tcp_output (tcp st) i prefix count in
    if r <=? Z.of_nat (length prefix) then Some (r, st <| tcp := t |>) else None
  else if (ty =? FD_TYPE_SOCK_UDP) && negb (i =? 0xFF) then
    let '(r, u) := udp_sendto udp_output (udp st) i (sock_peer_ip e) (sock_peer_port e) prefix count in
    if whole || (length (wire u) =? length (wire (udp st)))%nat then Some (r, st <| udp := u |>) else None
  else Some (-1, st).

(** The path-based calls.
    [kernel/arch/x86_64/kernel_x64.c] syscall_vfs_read_64 *)
Definition syscall_vfs_read_64 st (path_ptr user_buf_ptr max_len : Z) : option (Z * Kernel D Sc) :=
  if (max_len =? 0) || (SYS_IO_BUF_MAX <? max_len) then Some (-1, st) else
  if negb (user_ptr_range_valid_64 user_buf_ptr max_len) then Some (-1, st) else
  match copy_user_path_64 st path_ptr with
  | None => None
  | Some None => Some (-1, st)
  | Some (Some path) =>
      let '(r, fs) := kfs_read_file fuel (kfs_env st) path max_len (files st) in
      let st := st <| files := fs |> in
      match r with
      | Loops => None
      | Fail => Some (-1, st)
      | Ok (n, out) => if n <? 0 then Some (-1, st) else stored n (store_bytes st user_buf_ptr (read_n out (Z.to_nat n)))
      end
  end.
(** [kernel/arch/x86_64/kernel_x64.c] syscall_vfs_write_64 *)
Definition syscall_vfs_write_64 st (path_ptr user_buf_ptr len : Z) : option (Z * Kernel D Sc) :=
  if (len =? 0) || (SYS_IO_BUF_MAX <? len) then Some (-1, st) else
  if negb (user_ptr_range_valid_64 user_buf_ptr len) then Some (-1, st) else
  match copy_user_path_64 st path_ptr with
  | None => None
  | Some None => Some (-1, st)
  | Some (Some path) =>
      match load_bytes st (Z.to_nat len) user_buf_ptr with
      | None => None
      | Some bs => let '(rc, fs) := kfs_write_file path bs len (files st) in Some (rc, st <| files := fs |>)
      end
  end.

(** ** Sockets *)

(** [kernel/arch/x86_64/kernel_x64.c] sys_socket *)
Definition sys_socket st (type : Z) : Z * Kernel D Sc :=
  let n := fd_alloc (fds st) in
  if n <? 0 then (-1, st) else
  let st := set_fd st n (fd st n <| sock_peer_ip := 0 |> <| sock_peer_port := 0 |>) in
  if type =? 1 then
    (n, set_fd st n (fd st n <| fd_type := FD_TYPE_SOCK_TCP |> <| fd_pipe_idx := 0xFF |> <| fd_flags := 3 |>))
  else if type =? 2 then
    let '(sock, u) := udp_bind (udp st) 0 in
    let st := st <| udp := u |> in
    if sock <? 0 then (-1, fd_close_entry st n)
    else (n, set_fd st n (fd st n <| fd_type := FD_TYPE_SOCK_UDP |> <| fd_pipe_idx := u8 sock |> <| fd_flags := 3 |>))
  else (-1, fd_close_entry st n).
(** [kernel/arch/x86_64/kernel_x64.c] sys_bind *)
Definition sys_bind st (n port : Z) : Z * Kernel D Sc :=
  if bad_fd n then (-1, st) else
  let e := fd st n in
  if fd_type e =? FD_TYPE_SOCK_UDP then
    let st := if negb (fd_pipe_idx e =? 0xFF) then st <| udp := (udp_close (udp st) (fd_pipe_idx e)).2 |> else st in
    let '(sock, u) := udp_bind (udp st) port in
    let st := st <| udp := u |> in
    if sock <? 0 then (-1, set_fd st n (e <| fd_pipe_idx := 0xFF |>)) else (0, set_fd st n (e <| fd_pipe_idx := u8 sock |>))
  else if fd_type e =? FD_TYPE_SOCK_TCP then
    if negb (fd_pipe_idx e =? 0xFF) then (-1, st) else (0, set_fd st n (e <| sock_peer_port := port |>))
  else (-1, st).
(** [kernel/arch/x86_64/kernel_x64.c] sys_listen *)
Definition sys_listen st (n : Z) : Z * Kernel D Sc :=
  if bad_fd n || negb (fd_type (fd st n) =? FD_TYPE_SOCK_TCP) then (-1, st) else
  let e := fd st n in
  if negb (fd_pipe_idx e =? 0xFF) then (-1, st) else
  if sock_peer_port e =? 0 then (-1, st) else
  let '(sock, t) := tcp_listen (tcp st) (sock_peer_port e) in
  let st := st <| tcp := t |> in
  if sock <? 0 then (-1, st) else (0, set_fd st n (e <| fd_pipe_idx := u8 sock |>)).

(** What the interrupts between two polls of a waiting loop do, the timer's tick included; a loop polls
    [polls] times at most, [None] beyond. *)
Context (interrupts : Kernel D Sc -> Kernel D Sc) (polls : nat).

(** [while (kernel_tick - start < limit)]: [look] answers, or the loop goes on. *)
Fixpoint wait_loop {A} (n : nat) (start limit : Z) (look : Kernel D Sc -> option A * Kernel D Sc) st : option (option A * Kernel D Sc) :=
  match n with
  | O => None
  | S n =>
      if u64 (kernel_tick st - start) <? limit then
        let '(r, st) := look st in
        match r with
        | Some a => Some (Some a, st)
        | None => wait_loop n start limit look (interrupts st)
        end
      else Some (None, st)
  end.
(** [kernel/arch/x86_64/kernel_x64.c] sys_connect *)
Definition sys_connect st (n ip port : Z) : option (Z * Kernel D Sc) :=
  if bad_fd n then Some (-1, st) else
  let e := fd st n in
  if fd_type e =? FD_TYPE_SOCK_UDP then Some (0, set_fd st n (e <| sock_peer_ip := ip |> <| sock_peer_port := port |>)) else
  if negb (fd_type e =? FD_TYPE_SOCK_TCP) then Some (-1, st) else
  let '(sock, t) := tcp_connect tcp_output (tcp st) ip port in
  let st := st <| tcp := t |> in
  if sock <? 0 then Some (-1, st) else
  let st := set_fd st n (e <| fd_pipe_idx := u8 sock |>) in
  let look st := (match Tcp.state (tcb (tcp st) sock) with
                  | TCP_ESTABLISHED => Some true | TCP_CLOSED => Some false | _ => None end, st) in
  match wait_loop polls (kernel_tick st) (TIMER_HZ * 5) look st with
  | None => None
  | Some (r, st) => Some (match r with Some true => 0 | _ => -1 end, st)
  end.
(** [kernel/arch/x86_64/kernel_x64.c] sys_accept *)
Definition sys_accept st (n : Z) : option (Z * Kernel D Sc) :=
  if bad_fd n || negb (fd_type (fd st n) =? FD_TYPE_SOCK_TCP) then Some (-1, st) else
  if fd_pipe_idx (fd st n) =? 0xFF then Some (-1, st) else
  let lsock := fd_pipe_idx (fd st n) in
  let look st := let '(child, t) := tcp_accept (tcp st) lsock in
                 (if 0 <=? child then Some child else None, st <| tcp := t |>) in
  match wait_loop polls (kernel_tick st) (TIMER_HZ * 30) look st with
  | None => None
  | Some (None, st) => Some (-1, st)
  | Some (Some child, st) =>
      let nfd := fd_alloc (fds st) in
      if nfd <? 0 then Some (-1, st <| tcp := (tcp_close tcp_output (tcp st) child).2 |>) else
      let t := tcb (tcp st) child in
      Some (nfd, set_fd st nfd (fd st nfd <| fd_type := FD_TYPE_SOCK_TCP |> <| fd_pipe_idx := u8 child |>
                   <| sock_peer_ip := Tcp.remote_ip t |> <| sock_peer_port := Tcp.remote_port t |> <| fd_flags := 3 |>))
  end.
(** Waiting for a process that exists to end: its exit code.
    [kernel/arch/x86_64/kernel_x64.c:2197-2222] interrupt_dispatch *)
Definition sys_waitpid st (pid : Z) : option (Z * Kernel D Sc) :=
  match sched st with
  | None => Some (-1, st)
  | Some _ =>
      let look st :=
        (match sched st with
         | Some s => match scheduler_get_process_info s pid with
                     | None => Some (-1)
                     | Some state => if (state =? 5) || (state =? 6) then Some (scheduler_get_exit_code s pid) else None
                     end
         | None => None
         end, st) in
      match wait_loop polls (kernel_tick st) (TIMER_HZ * 30) look st with
      | None => None
      | Some (r, st) => Some (default (-1) r, st)
      end
  end.

(** ** Users and directories *)

(** [garbage]: the hash context on the stack.
    [kernel/arch/x86_64/kernel_x64.c] sys_auth *)
Definition sys_auth (garbage : Sha256Context) st (user_ptr pass_ptr : Z) : option Z :=
  match copy_user_path_64 st user_ptr with
  | None => None
  | Some None => Some (-1)
  | Some (Some user) =>
      match (if pass_ptr =? 0 then Some (Some []) else copy_user_path_64 st pass_ptr) with
      | None => None
      | Some None => Some (-1)
      | Some (Some pass) =>
          if userdb_authenticate garbage (users st) user (Some pass) <? 0 then Some (-1)
          else Some (userdb_find_uid (users st) (Some user))
      end
  end.
(** [kernel/arch/x86_64/kernel_x64.c] sys_mkdir2 *)
Definition sys_mkdir2 st (path_ptr : Z) : option (Z * Kernel D Sc) :=
  match copy_user_path_64 st path_ptr with
  | None => None
  | Some None => Some (-1, st)
  | Some (Some path) => let '(rc, fs) := kfs_mkdir path (files st) in Some (if rc <? 0 then -1 else 0, st <| files := fs |>)
  end.
End fds.

(** ** Pipes as queues *)

Record pipe_wf (p : KernelPipe) : Prop := {
  pw_len : length (p_buf p) = 4096%nat;
  pw_read : 0 <= read_pos p < 4096;
  pw_count : 0 <= p_count p <= 4096;
  pw_write : write_pos p = (read_pos p + p_count p) mod 4096 }.
Definition pipe_queue (p : KernelPipe) : bytes := ring_view (p_buf p) 4096 (read_pos p) (Z.to_nat (p_count p)).

Lemma length_pipe_queue p : length (pipe_queue p) = Z.to_nat (p_count p).
Proof. apply length_ring_view. Qed.
Lemma pipe_put_ok bs : forall p, pipe_wf p ->
  let '(k, p') := pipe_put bs p in
  k = Z.min (Z.of_nat (length bs)) (4096 - p_count p) /\ pipe_wf p' /\
  pipe_queue p' = pipe_queue p ++ take (Z.to_nat k) bs /\ p_active p' = p_active p /\ read_open p' = read_open p /\
  write_open p' = write_open p.
Proof.
  induction bs as [|c bs IH]; intros p Hw; cbn [pipe_put]; pose proof Hw as [W1 W2 W3 W4].
  - cbn. rewrite app_nil_r. split; [lia|done].
  - unfold PIPE_BUF_SIZE. destruct (Z.ltb_spec (p_count p) 4096).
    + set (p1 := p <| p_buf := _ |> <| write_pos := _ |> <| p_count := _ |>).
      assert (Hw1 : pipe_wf p1).
      { split; cbn; [by rewrite length_puti|done|lia|rewrite W4; dlia]. }
      assert (Hq : pipe_queue p1 = pipe_queue p ++ [c]).
      { unfold pipe_queue, p1. cbn. rewrite W4. replace (Z.to_nat (p_count p + 1)) with (S (Z.to_nat (p_count p))) by lia.
        rewrite <- (Z2Nat.id (p_count p)) at 1 by lia. apply ring_view_push; [lia|by rewrite W1|lia]. }
      specialize (IH p1 Hw1). destruct (pipe_put bs p1) as [k p']. destruct IH as (Hk & Hw' & Hqq & Ha).
      change (p_count p1) with (p_count p + 1) in Hk. split; [cbn [length]; lia|]. split; [done|]. split; [|done].
      rewrite Hqq, Hq, <- app_assoc. f_equal. replace (Z.to_nat (k + 1)) with (S (Z.to_nat k)) by lia. done.
    + cbn [length]. rewrite app_nil_r. split; [lia|done].
Qed.
Lemma pipe_take_ok n : forall p, pipe_wf p ->
  let '(out, p') := pipe_take n p in
  out = take n (pipe_queue p) /\ pipe_wf p' /\ pipe_queue p' = drop n (pipe_queue p) /\ p_active p' = p_active p /\
  read_open p' = read_open p /\ write_open p' = write_open p.
Proof.
  induction n as [|n IH]; intros p Hw; cbn [pipe_take]; pose proof Hw as [W1 W2 W3 W4].
  - by rewrite take_0, drop_0.
  - unfold PIPE_BUF_SIZE. destruct (Z.ltb_spec 0 (p_count p)).
    + set (p1 := p <| read_pos := _ |> <| p_count := _ |>).
      assert (Hw1 : pipe_wf p1) by (split; cbn; [done|dlia|lia|rewrite W4; dlia]).
      assert (Hq : pipe_queue p = geti (p_buf p) (read_pos p) :: pipe_queue p1).
      { unfold pipe_queue, p1. cbn. replace (Z.to_nat (p_count p)) with (S (Z.to_nat (p_count p - 1))) by lia.
        rewrite ring_view_pop. by rewrite Z.mod_small. }
      specialize (IH p1 Hw1). destruct (pipe_take n p1) as [out p']. destruct IH as (-> & Hw' & Hqq & Ha).
      rewrite Hq. cbn. split; [done|]. split; [done|]. by split.
    + assert (Hq : pipe_queue p = []) by (apply nil_length_inv; rewrite length_pipe_queue; lia). by rewrite Hq.
Qed.

Section pipe_calls.
Context {D Sc : Type} `{BlockDev D} `{Scheduler Sc}.
Variable fuel : nat.
Context (tcp_output : Z -> bytes -> Z) (udp_output : Z -> Z -> bytes -> Z).
Implicit Types (st : Kernel D Sc).

(** Descriptor [n] of the running task is an end of pipe [i], which is in use. *)
Definition pipe_end st (ty n i : Z) : Prop :=
  0 <= n < 16 /\ fd_type (fd st n) = ty /\ fd_pipe_idx (fd st n) = i /\ 0 <= i < 8 /\ p_active (pipe st i) = true /\
  length (kernel_pipes st) = 8%nat /\ pipe_wf (pipe st i).

Lemma load_prefix_all st n va bs : load_bytes st n va = Some bs -> load_prefix st n va = bs /\ length bs = n.
Proof.
  revert va bs; induction n as [|n IH]; intros va bs; cbn; [by intros [= <-]|].
  destruct (user_load st va) as [b|]; [|done]. destruct (load_bytes st n (va + 1)) as [l|] eqn:E; [|done].
  intros [= <-]. destruct (IH _ _ E) as [-> <-]. done.
Qed.

(** C12. A pipe is a queue of 4096 bytes.  Writing [count] bytes of the caller's memory appends as many as there
    is room for and returns how many; reading takes the oldest ones out, as many as there are up to
    [count], stores them in the caller's memory and returns how many; no other pipe, descriptor or
    file is touched. *)
Theorem pipe_io_refines st n i buf count bs :
  1 <= count <= 4096 -> user_ptr_range_valid_64 buf count = true ->
  (pipe_end st FD_TYPE_PIPE_W n i -> load_bytes st (Z.to_nat count) buf = Some bs ->
   exists p, let k := Z.min count (4096 - Z.of_nat (length (pipe_queue (pipe st i)))) in
     sys_write_fd tcp_output udp_output st n buf count = Some (k, set_pipe st i p) /\ pipe_wf p /\ p_active p = true /\
     pipe_queue p = pipe_queue (pipe st i) ++ take (Z.to_nat k) bs) /\
  (pipe_end st FD_TYPE_PIPE_R n i ->
   exists p, let out := take (Z.to_nat count) (pipe_queue (pipe st i)) in
     sys_read_fd fuel tcp_output st n buf count =
       (fun st' => (Z.of_nat (length out), st')) <$> store_bytes (set_pipe st i p) buf out /\ pipe_wf p /\ p_active p = true /\
     pipe_queue p = drop (Z.to_nat count) (pipe_queue (pipe st i))).
Proof.
  intros Hc Hv. split.
  - intros (Hn & Ht & Hi & Hi8 & Ha & Hl & Hw) Hload. unfold sys_write_fd.
    assert (Hb : bad_fd n || (fd_type (fd st n) =? FD_TYPE_NONE) = false) by (unfold bad_fd, FD_MAX; rewrite Ht; unfold FD_TYPE_PIPE_W, FD_TYPE_PIPE_R, FD_TYPE_NONE; lia). rewrite Hb.
    rewrite (proj2 (Z.eqb_neq count 0)) by lia. unfold SYS_IO_BUF_MAX. rewrite (proj2 (Z.ltb_ge 4096 count)) by lia.
    rewrite Hv, Ht, Hi. cbn [negb Z.eqb FD_TYPE_TTY FD_TYPE_PIPE_W Pos.eqb]. unfold MAX_PIPES.
    rewrite (proj2 (Z.leb_gt 8 i)), Ha by lia. cbn [orb negb].
    destruct (load_prefix_all _ _ _ _ Hload) as [-> Hlb]. rewrite (proj2 (Z.eqb_eq (Z.of_nat (length bs)) count)) by lia. cbn [orb].
    pose proof (pipe_put_ok bs (pipe st i) Hw) as Hp. destruct (pipe_put bs (pipe st i)) as [k p]. destruct Hp as (Hk & Hw' & Hq & Hpa & _).
    exists p. cbv zeta. destruct Hw. assert (Ek : Z.min count (4096 - Z.of_nat (length (pipe_queue (pipe st i)))) = k).
    { rewrite length_pipe_queue. lia. }
    rewrite Ek. split; [done|]. split; [done|]. split; [congruence|done].
  - intros (Hn & Ht & Hi & Hi8 & Ha & Hl & Hw). unfold sys_read_fd.
    assert (Hb : bad_fd n || (fd_type (fd st n) =? FD_TYPE_NONE) = false) by (unfold bad_fd, FD_MAX; rewrite Ht; unfold FD_TYPE_PIPE_W, FD_TYPE_PIPE_R, FD_TYPE_NONE; lia). rewrite Hb.
    rewrite (proj2 (Z.eqb_neq count 0)) by lia. unfold SYS_IO_BUF_MAX. rewrite (proj2 (Z.ltb_ge 4096 count)) by lia.
    rewrite Hv, Ht, Hi. cbn [negb Z.eqb FD_TYPE_TTY FD_TYPE_PIPE_R Pos.eqb]. unfold MAX_PIPES.
    rewrite (proj2 (Z.leb_gt 8 i)), Ha by lia. cbn [orb negb].
    pose proof (pipe_take_ok (Z.to_nat count) (pipe st i) Hw) as Hp. destruct (pipe_take (Z.to_nat count) (pipe st i)) as [out p].
    destruct Hp as (-> & Hw' & Hq & Hpa & _). exists p. cbv zeta. split; [done|]. split; [done|]. split; [congruence|done].
Qed.

Lemma fds_set_fds st l : 0 <= current_task_idx st < Z.of_nat (length (task_slots st)) -> fds (set_fds st l) = l.
Proof. intros Hc. unfold fds, set_fds, cur, set_cur, set_task, task. cbn. by rewrite geti_puti_eq. Qed.
Lemma close_pipe_end st n i ty : ty = FD_TYPE_PIPE_R \/ ty = FD_TYPE_PIPE_W -> pipe_end st ty n i ->
  (sys_close tcp_output st n).2 =
    set_fd (set_pipe st i (pipe_close_end (pipe st i) (ty =? FD_TYPE_PIPE_R))) n
      (fd st n <| fd_type := FD_TYPE_NONE |> <| fd_flags := 0 |> <| fd_path := [] |> <| fd_offset := 0 |> <| fd_pipe_idx := 0 |>).
Proof.
  intros Hty (Hn & Ht & Hi & Hi8 & _). unfold sys_close, fd_close_entry.
  assert (Hb : bad_fd n = false) by (unfold bad_fd, FD_MAX; lia). rewrite Hb, Ht. cbn [orb].
  assert (Hz : (ty =? FD_TYPE_NONE) = false) by (destruct Hty as [->| ->]; done). rewrite Hz. cbn [snd].
  assert (Hp : (ty =? FD_TYPE_PIPE_R) || (ty =? FD_TYPE_PIPE_W) = true) by (destruct Hty as [->| ->]; done). rewrite Hp, Hi.
  unfold MAX_PIPES. by rewrite (proj2 (Z.ltb_lt i 8)) by lia.
Qed.
(** No count of a pipe's descriptors is kept: when a task has closed one descriptor of each end, the slot is
    free for the next pipe, while the descriptors of every other task (a forked child's) still name it. *)
Lemma closed_pipe_slot_is_reused st r w i : 0 <= current_task_idx st < Z.of_nat (length (task_slots st)) ->
  pipe_end st FD_TYPE_PIPE_R r i -> pipe_end st FD_TYPE_PIPE_W w i ->
  let st' := (sys_close tcp_output (sys_close tcp_output st r).2 w).2 in
  p_active (pipe st' i) = false /\
  forall t, 0 <= t -> t <> current_task_idx st -> fd_table (task st' t) = fd_table (task st t).
Proof.
  intros Hc Hr Hw. rewrite (close_pipe_end st r i FD_TYPE_PIPE_R (or_introl eq_refl) Hr). set (st1 := set_fd _ r _).
  assert (Hrw : r <> w) by (destruct Hr as (_ & Hr & _), Hw as (_ & Hw & _); intros ->; rewrite Hr in Hw; done).
  pose proof Hr as (Hr16 & _ & _ & Hi8 & _ & Hlp & _). pose proof Hw as (Hw16 & Hwt & Hwi & _).
  assert (Hfd : fd st1 w = fd st w).
  { unfold fd, st1. unfold set_fd at 1. rewrite fds_set_fds by done. change (fds (set_pipe st i _)) with (fds st). by rewrite geti_puti_ne by lia. }
  assert (Hp1 : pipe st1 i = pipe_close_end (pipe st i) true) by (unfold pipe, st1; cbn; apply geti_puti_eq; lia).
  assert (Hcl : (sys_close tcp_output st1 w).2 = set_fd (set_pipe st1 i (pipe_close_end (pipe st1 i) false)) w
    (fd st1 w <| fd_type := FD_TYPE_NONE |> <| fd_flags := 0 |> <| fd_path := [] |> <| fd_offset := 0 |> <| fd_pipe_idx := 0 |>)).
  { unfold sys_close, fd_close_entry. rewrite Hfd. assert (Hb : bad_fd w = false) by (unfold bad_fd, FD_MAX; lia). rewrite Hb, Hwt, Hwi.
    cbn [orb snd Z.eqb FD_TYPE_PIPE_W FD_TYPE_NONE FD_TYPE_PIPE_R Pos.eqb]. unfold MAX_PIPES. by rewrite (proj2 (Z.ltb_lt i 8)) by lia. }
  intros st'. unfold st'. rewrite Hcl. split.
  - unfold pipe at 1. cbn. rewrite geti_puti_eq by (rewrite length_puti; lia). rewrite Hp1.
    unfold pipe_close_end. cbn. by repeat case_match.
  - intros t H1 H2. unfold task. cbn. unfold task. cbn. rewrite !geti_puti_ne by (done || lia). done.
Qed.
End pipe_calls.

(** A task that reads two bytes of a pipe. *)
Definition pipe0 : Kernel (Bcache.Bcache RamDisk) unit :=
  kernel0 <| task_slots := puti (task_slots kernel0) 0
               (task kernel0 0 <| fd_table := replicate 3 zero_fd ++ (zero_fd <| fd_type := FD_TYPE_PIPE_R |>) :: replicate 12 zero_fd |>) |>
          <| kernel_pipes := (pipe_put [65; 66] (zero_pipe <| p_active := true |>)).2 :: replicate 7 zero_pipe |>.
Lemma pipe0_queue : pipe_queue (pipe pipe0 0) = [65; 66].
Proof. vm_compute. reflexivity. Qed.
Lemma pipe_io_refines_witness :
  exists p, sys_read_fd 100 (fun _ _ => 0) pipe0 3 0x10000000 4096 =
    (fun st' => (2, st')) <$> store_bytes (set_pipe pipe0 0 p) 0x10000000 [65; 66] /\ pipe_queue p = [].
Proof.
  assert (He : pipe_end pipe0 FD_TYPE_PIPE_R 3 0).
  { split; [lia|]. split; [vm_compute; reflexivity|]. split; [vm_compute; reflexivity|]. split; [lia|]. split; [vm_compute; reflexivity|].
    split; [vm_compute; reflexivity|]. split; vm_compute; intuition congruence. }
  pose proof (pipe_io_refines 100 (fun _ _ => 0) (fun _ _ _ => 0) pipe0 3 0 0x10000000 4096 [] ltac:(lia) eq_refl) as [_ Hr].
  destruct (Hr He) as (p & Hs & _ & _ & Hq). rewrite pipe0_queue in Hs, Hq. exists p. split; [exact Hs|exact Hq].
Defined.
