(* ===== verification/Elf.v ===== *)
(** The ELF loader of the 64-bit kernel (kernel/arch/x86_64/kernel_x64.c):
    elf_exec starts a program in a new task, execve replaces the program of the
    running one. *)

From S2P Require Import Prelude CString BlockDev Bcache VernisFs Kfs UserDb Tcp Udp Frames Paging AddressSpace UserPages Console Kernel Tasks Isolation Fds.

(** [kernel/arch/x86_64/kernel_x64.c] constants *)
Definition USER_STACK_TOP := 0x10800000.
Definition USER_STACK_SIZE := 0x4000.
Definition ELF_MAGIC := 0x464C457F.
Definition PT_LOAD := 1.
Definition ET_EXEC := 2.
Definition EM_X86_64 := 0x3E.
Definition ELF_BUF_SIZE := 131072.

(** ** Headers *)

(** [kernel/arch/x86_64/kernel_x64.c] Elf64_Ehdr *)
Record Elf64_Ehdr := mkEhdr {
  e_magic : Z; e_class : Z; e_data : Z; e_version : Z; e_osabi : Z; e_type : Z; e_machine : Z; e_version2 : Z; e_entry : Z;
  e_phoff : Z; e_shoff : Z; e_flags : Z; e_ehsize : Z; e_phentsize : Z; e_phnum : Z; e_shentsize : Z; e_shnum : Z; e_shstrndx : Z }.
(** [kernel/arch/x86_64/kernel_x64.c] Elf64_Phdr *)
Record Elf64_Phdr := mkPhdr {
  p_type : Z; p_flags : Z; p_offset : Z; p_vaddr : Z; p_paddr : Z; p_filesz : Z; p_memsz : Z; p_align : Z }.

(** A little-endian field of [n] bytes in an image of bytes by offset. *)
Definition field (img : Z -> Z) (o : Z) (n : nat) : Z := le_dec (mem_read img o n).
(** [kernel/arch/x86_64/kernel_x64.c] Elf64_Ehdr *)
Definition ehdr_of (img : Z -> Z) : Elf64_Ehdr :=
  mkEhdr (field img 0 4) (field img 4 1) (field img 5 1) (field img 6 1) (field img 7 1) (field img 16 2) (field img 18 2)
    (field img 20 4) (field img 24 8) (field img 32 8) (field img 40 8) (field img 48 4) (field img 52 2) (field img 54 2)
    (field img 56 2) (field img 58 2) (field img 60 2) (field img 62 2).
(** [kernel/arch/x86_64/kernel_x64.c] Elf64_Phdr *)
Definition phdr_of (img : Z -> Z) (o : Z) : Elf64_Phdr :=
  mkPhdr (field img o 4) (field img (o + 4) 4) (field img (o + 8) 8) (field img (o + 16) 8) (field img (o + 24) 8)
    (field img (o + 32) 8) (field img (o + 40) 8) (field img (o + 48) 8).
(** The [n] headers from the [i]-th on; [phdr\[i\]] steps by the structure's size, whatever e_phentsize says. *)
Definition phdrs_of (img : Z -> Z) (phoff : Z) (n i : Z) : list Elf64_Phdr :=
  (fun k : nat => phdr_of img (phoff + 56 * (i + Z.of_nat k))) <$> seq 0 (Z.to_nat n).

(** ** Segments *)

(** What the loop over a page's bytes stores at [abs_va], if anything.
    [kernel/arch/x86_64/kernel_x64.c:3214-3222] elf_exec *)
Definition seg_byte (img : Z -> Z) (file_size : Z) (ph : Elf64_Phdr) (abs_va : Z) : option Z :=
  if (abs_va <? p_vaddr ph) || (u64 (p_vaddr ph + p_memsz ph) <=? abs_va) then None else
  let seg_off := abs_va - p_vaddr ph in
  if seg_off <? p_filesz ph then
    let foff := u64 (p_offset ph + seg_off) in
    if foff <? file_size then Some (img foff) else None
  else None.
(** The loop over a page's bytes.
    [kernel/arch/x86_64/kernel_x64.c:3213-3223] elf_exec *)
Definition fill_segment (img : Z -> Z) (file_size : Z) (ph : Elf64_Phdr) (va frame : Z) (m : pmem) : pmem :=
  fun a => if in_page frame a then default (m a) (seg_byte img file_size ph (va + (a - frame))) else m a.
Definition page_down (v : Z) : Z := Z.land v 0xFFFFFFFFFFFFF000.
Definition seg_start (ph : Elf64_Phdr) : Z := page_down (p_vaddr ph).
Definition seg_end (ph : Elf64_Phdr) : Z := page_up (u64 (p_vaddr ph + p_memsz ph)).
Definition loadable (ph : Elf64_Phdr) : bool := (p_type ph =? PT_LOAD) && negb (p_memsz ph =? 0).
(** One segment; a round takes a frame of the pool's 1024.
    [kernel/arch/x86_64/kernel_x64.c:3191-3227] elf_exec *)
Definition load_segment (img : Z -> Z) (file_size : Z) (m : Mm) (table : Z) (ph : Elf64_Phdr) : bool * Mm :=
  alloc_pages 1025 (fill_segment img file_size ph) m table (seg_start ph) (seg_end ph).
(** [kernel/arch/x86_64/kernel_x64.c:3186-3228] elf_exec *)
Fixpoint elf_segments (img : Z -> Z) (file_size : Z) (phs : list Elf64_Phdr) (m : Mm) (table : Z) : bool * Mm :=
  match phs with
  | [] => (true, m)
  | ph :: phs =>
      if negb (loadable ph) then elf_segments img file_size phs m table else
      let '(ok, m) := load_segment img file_size m table ph in
      if ok then elf_segments img file_size phs m table else (false, m)
  end.
(** execve's copy of the loop keeps the break above the segments as it goes.
    [kernel/arch/x86_64/kernel_x64.c:1875-1905] sys_execve *)
Fixpoint exec_segments (img : Z -> Z) (file_size : Z) (phs : list Elf64_Phdr) (m : Mm) (table brk : Z) : bool * Z * Mm :=
  match phs with
  | [] => (true, brk, m)
  | ph :: phs =>
      if negb (loadable ph) then exec_segments img file_size phs m table brk else
      let '(ok, m) := load_segment img file_size m table ph in
      if ok then exec_segments img file_size phs m table (if brk <? seg_end ph then seg_end ph else brk) else (false, brk, m)
  end.
(** [kernel/arch/x86_64/kernel_x64.c:3230-3240] elf_exec *)
Definition map_user_stack (m : Mm) (table : Z) : bool * Mm :=
  alloc_pages 1025 (fun _ _ m => m) m table (USER_STACK_TOP - USER_STACK_SIZE) USER_STACK_TOP.

Section elf.
Context {D Sc : Type} `{BlockDev D} `{Scheduler Sc}.
Variable fuel : nat.
Context (tcp_output : Z -> bytes -> Z).
(** The kernel's memory around elf_load_buf, by offset: what a header beyond the buffer is read from. *)
Variable around : Z -> Z.
Implicit Types (st : Kernel D Sc) (t : TaskSlot) (frame : InterruptFrame).

Definition image (buf : bytes) (o : Z) : Z := let o := u64 o in if o <? ELF_BUF_SIZE then geti buf o else around o.

(** The file in elf_load_buf: the size and the new state; a failed read leaves the buffer as it was.
    [kernel/arch/x86_64/kernel_x64.c:3129-3136] elf_exec *)
Definition read_program st (path : bytes) : option (Z * Kernel D Sc) :=
  let '(r, fs) := kfs_read_file fuel (kfs_env st) path ELF_BUF_SIZE (files st) in
  let st := st <| files := fs |> in
  match r with
  | Loops => None
  | Fail => Some (-1, st)
  | Ok (n, out) => Some (n, st <| elf_load_buf := blit (elf_load_buf st) 0 out |>)
  end.

(** The slot and its process, before it has a space.
    [kernel/arch/x86_64/kernel_x64.c:3165-3177] elf_exec *)
Definition new_program t (pid ticks : Z) : TaskSlot :=
  t <| t_active := true |> <| t_pid := pid |> <| ticks_remaining := ticks |> <| ticks_total := ticks |> <| brk := 0 |>
    <| fd_table := fd_table_init (fd_table t) |> <| t_uid := 0 |> <| t_gid := 0 |> <| file_umask := 18 |>
    <| cwd := puti (puti (cwd t) 0 47) 1 0 |> <| vma_list := vma_init (vma_list t) |> <| mmap_next := 0 |>.
(** The frame the program starts from.
    [kernel/arch/x86_64/kernel_x64.c:3244-3258] elf_exec *)
Definition program_frame (entry : Z) : InterruptFrame :=
  zero_frame <| f_ss := 0x23 |> <| f_rsp := USER_STACK_TOP |> <| f_rflags := 0x202 |> <| f_cs := 0x1B |> <| f_rip := entry |>.
(** [kernel/arch/x86_64/kernel_x64.c:3140-3142] elf_exec *)
Definition elf_valid (e : Elf64_Ehdr) : bool :=
  (e_magic e =? ELF_MAGIC) && (e_class e =? 2) && (e_data e =? 1) && (e_machine e =? EM_X86_64) && (e_type e =? ET_EXEC).
(** [kernel/arch/x86_64/kernel_x64.c:1866-1867] sys_execve *)
Definition exec_valid (e : Elf64_Ehdr) : bool :=
  (e_magic e =? ELF_MAGIC) && (e_class e =? 2) && (e_machine e =? EM_X86_64) && (e_type e =? ET_EXEC).

(** The slot, or -1.
    [kernel/arch/x86_64/kernel_x64.c] elf_exec *)
Definition elf_exec st (path : bytes) (ticks : Z) : option (Z * Kernel D Sc) :=
  match read_program st path with
  | None => None
  | Some (file_size, st) =>
      if file_size <? 64 then Some (-1, st) else
      let img := image (elf_load_buf st) in let e := ehdr_of img in
      if negb (elf_valid e) then Some (-1, st) else
      if (e_phoff e =? 0) || (e_phnum e =? 0) then Some (-1, st) else
      match free_slot st with
      | None => Some (-1, st)
      | Some slot =>
          let i := Z.of_nat slot in
          let '(pid, sc) := match sched st with
                            | Some s => let '(pid, s) := scheduler_create_process s 5 path in (pid, Some s)
                            | None => (0, None)
                            end in
          let st := st <| sched := sc |> in
          let t := new_program (task st i) (u32 pid) ticks in
          let stopped m := Some (-1, set_task (st <| mm := m |>) i (t <| t_active := false |>)) in
          let '(c, m) := paging_create_address_space (mm st) (kernel_pml4 st) in
          if c =? 0 then stopped m else
          let '(ok, m) := elf_segments img file_size (phdrs_of img (e_phoff e) (e_phnum e) 0) m c in
          if negb ok then stopped m else
          let '(ok, m) := map_user_stack m c in
          if negb ok then stopped m else
          Some (i, set_task (st <| mm := m |>) i (t <| pml4 := c |> <| t_frame := program_frame (e_entry e) |>))
      end
  end.
(** [kernel/arch/x86_64/kernel_x64.c] kernel_elf_exec *)
Definition kernel_elf_exec st (path : bytes) : option (Z * Kernel D Sc) :=
  match elf_exec st path 24 with
  | None => None
  | Some (slot, st) => Some (if 0 <=? slot then (0, st <| tss_rsp0 := Some slot |>) else (-1, st))
  end.

(** [for (i = 3; i < FD_MAX; i++) fd_close_entry(fdt, i)]
    [kernel/arch/x86_64/kernel_x64.c:1925-1926] sys_execve *)
Fixpoint close_from (n : nat) (i : Z) st : Kernel D Sc :=
  match n with O => st | S n => close_from n (i + 1) (fd_close_entry tcp_output st i) end.
(** The new space and tables, and the old space given back.
    [kernel/arch/x86_64/kernel_x64.c:1916-1922] sys_execve *)
Definition enter_space st (new_pml4 : Z) : Kernel D Sc :=
  let old_pml4 := pml4 (cur st) in
  let st := set_cur st (cur st <| pml4 := new_pml4 |>) in
  release_space (task_switch_cr3 st (current_task_idx st)) old_pml4.
(** [kernel/arch/x86_64/kernel_x64.c:1930-1934] sys_execve *)
Definition exec_frame frame (entry : Z) : InterruptFrame :=
  frame <| f_rip := entry |> <| f_rsp := USER_STACK_TOP |> <| f_rax := 0 |> <| f_rbx := 0 |> <| f_rcx := 0 |> <| f_rdx := 0 |>
        <| f_rsi := 0 |> <| f_rdi := 0 |> <| f_rbp := 0 |>.
(** The result, the frame to return to and the state.
    [kernel/arch/x86_64/kernel_x64.c] sys_execve *)
Definition sys_execve st frame (path_ptr : Z) : option (Z * InterruptFrame * Kernel D Sc) :=
  if current_task_idx st <? 0 then Some (-1, frame, st) else
  match copy_user_path_64 st path_ptr with
  | None => None
  | Some None => Some (-1, frame, st)
  | Some (Some path) =>
      match read_program st path with
      | None => None
      | Some (file_size, st) =>
          if file_size <? 64 then Some (-1, frame, st) else
          let img := image (elf_load_buf st) in let e := ehdr_of img in
          if negb (exec_valid e) then Some (-1, frame, st) else
          let '(c, m) := paging_create_address_space (mm st) (kernel_pml4 st) in
          if c =? 0 then Some (-1, frame, st <| mm := m |>) else
          let '(ok, b, m) := exec_segments img file_size (phdrs_of img (e_phoff e) (e_phnum e) 0) m c (brk (cur st)) in
          let st := set_cur (st <| mm := m |>) (cur st <| brk := b |>) in
          if negb ok then Some (-1, frame, st) else
          let '(ok, m) := map_user_stack m c in
          let st := st <| mm := m |> in
          if negb ok then Some (-1, frame, st) else
          Some (0, exec_frame frame (e_entry e), close_from 13 3 (enter_space st c))
      end
  end.
End elf.

(** ** The memory a program starts with *)

(** A segment's bytes: p_filesz bytes of the file from p_offset on, as far as the file goes, then zeros. *)
Definition segment_image (img : Z -> Z) (size : Z) (ph : Elf64_Phdr) (va : Z) : Z :=
  let off := u64 (p_offset ph + (va - p_vaddr ph)) in
  if bool_decide (p_vaddr ph <= va < u64 (p_vaddr ph + p_memsz ph) /\ va < p_vaddr ph + p_filesz ph /\ off < size) then img off else 0.
Definition seg_area (img : Z -> Z) (size : Z) (ph : Elf64_Phdr) : Area :=
  mkArea (seg_start ph) (seg_end ph) (segment_image img size ph).
Definition stack_area : Area := mkArea (USER_STACK_TOP - USER_STACK_SIZE) USER_STACK_TOP (fun _ => 0).
Definition seg_areas (img : Z -> Z) (size : Z) (phs : list Elf64_Phdr) : list Area :=
  seg_area img size <$> filter (fun ph => loadable ph = true) phs.
(** The segments with their contents from the file, and a stack of zeros. *)
Definition program_areas (img : Z -> Z) (size : Z) (phs : list Elf64_Phdr) : list Area :=
  stack_area :: reverse (seg_areas img size phs).

Lemma page_down_aligned a : 0 <= a < 2 ^ 64 -> page_down a mod 4096 = 0.
Proof. intros Ha. unfold page_down. rewrite page_of_va by exact Ha. dlia. Qed.

Lemma seg_byte_image img size ph va : default 0 (seg_byte img size ph va) = segment_image img size ph va.
Proof.
  unfold seg_byte, segment_image. cbv zeta. case_bool_decide as E.
  - destruct E as (Q1 & Q2 & Q3). rewrite (proj2 (orb_false_iff _ _)) by (split; lia). rewrite !(proj2 (Z.ltb_lt _ _)) by lia. done.
  - destruct (_ || _) eqn:E1; [done|]. apply orb_false_iff in E1 as [E1 E2].
    destruct (Z.ltb_spec (va - p_vaddr ph) (p_filesz ph)); [|done].
    destruct (Z.ltb_spec (u64 (p_offset ph + (va - p_vaddr ph))) size); [|done]. exfalso. apply E. lia.
Qed.
Lemma fills_segment img size ph : fills (fill_segment img size ph) (fun va off => segment_image img size ph (va + off)).
Proof.
  split.
  - intros va f m a Ha. unfold fill_segment. by rewrite Ha.
  - intros va f m off Ho Hz. unfold fill_segment. rewrite in_page_off by done. rewrite Hz, <- seg_byte_image. by replace (f + off - f) with off by lia.
Qed.
Lemma fops_mid {A} (R : A -> A -> Prop) (l : list A) a l' : ForallOrdPairs R (l ++ a :: l') -> Forall (R a) l'.
Proof. induction l as [|b l IH]; cbn; intros Hl; inversion_clear Hl; [done|by apply IH]. Qed.
Lemma layout_mid l a l' : layout_ok (l ++ a :: l') -> area_wf a /\ Forall area_wf l' /\ Forall (apart a) l'.
Proof.
  intros [Hw Hp]. apply Forall_app in Hw as [_ Hw]. inversion_clear Hw. split; [done|]. split; [done|]. by apply (fops_mid _ l).
Qed.

(** The segments are loaded one after the other; then the stack. *)
Lemma elf_segments_ok img size rs r phs : forall m areas, vm_wf m rs -> r ∈ rs -> loaded m r areas ->
  (exists l, layout_ok (l ++ reverse (seg_areas img size phs) ++ areas)) ->
  let '(ok, m') := elf_segments img size phs m r in
  mm_isolates m m' rs r /\ if ok then loaded m' r (reverse (seg_areas img size phs) ++ areas) else exhausted m'.
Proof.
  induction phs as [|ph phs IH]; intros m areas Hwf Hr Hl [l Hlay]; cbn [elf_segments]; [split; [by apply mm_isolates_refl|done]|].
  unfold seg_areas in *. rewrite filter_cons in *. destruct (loadable ph) eqn:El; cbn [negb].
  2: { rewrite decide_False in * by congruence. apply IH; try done. by exists l. }
  rewrite decide_True in * by done. rewrite fmap_cons, reverse_cons, <- app_assoc in *. cbn [app] in *.
  set (a := seg_area img size ph) in *. rewrite app_assoc in Hlay. destruct (layout_mid _ _ _ Hlay) as (Ha & Hw & Hap).
  pose proof (load_area m rs r (fill_segment img size ph) a areas (fills_segment img size ph) Hwf Hr Ha Hw Hap Hl) as Hload.
  unfold load_segment. change (seg_start ph) with (lo a). change (seg_end ph) with (hi a).
  destruct (alloc_pages _ _ m r _ _) as [ok m1]. destruct Hload as [Hiso Hl1]. destruct ok; [|done].
  specialize (IH m1 (a :: areas) (proj1 Hiso) Hr Hl1). rewrite <- app_assoc in Hlay. specialize (IH (ex_intro _ l Hlay)).
  destruct (elf_segments img size phs m1 r) as [ok m2]. destruct IH as [Hiso2 Hl2]. split; [by apply (mm_isolates_trans m m1)|done].
Qed.
Lemma map_user_stack_ok rs r m areas : vm_wf m rs -> r ∈ rs -> loaded m r areas -> layout_ok (stack_area :: areas) ->
  let '(ok, m') := map_user_stack m r in
  mm_isolates m m' rs r /\ if ok then loaded m' r (stack_area :: areas) else exhausted m'.
Proof.
  intros Hwf Hr Hl Hlay. destruct (layout_mid [] _ _ Hlay) as (Ha & Hw & Hap).
  by apply (load_area m rs r (fun _ _ m => m) stack_area areas).
Qed.
Lemma exec_segments_eq img size phs : forall m r b, exists b',
  exec_segments img size phs m r b = (let '(ok, m') := elf_segments img size phs m r in (ok, b', m')).
Proof.
  induction phs as [|ph phs IH]; intros m r b; cbn [exec_segments elf_segments]; [by exists b|].
  destruct (negb (loadable ph)); [apply IH|]. destruct (load_segment img size m r ph) as [ok m1]. destruct ok; [apply IH|by exists b].
Qed.

(** A whole program in a new space. *)
Definition load_program (img : Z -> Z) (size : Z) (phs : list Elf64_Phdr) (m : Mm) (r : Z) : bool * Mm :=
  let '(ok, m) := elf_segments img size phs m r in if ok then map_user_stack m r else (false, m).
Lemma load_program_ok img size phs rs r m : vm_wf m rs -> r ∈ rs -> (forall i j, user_idx i j -> pte (pm m) r i j = 0) ->
  layout_ok (program_areas img size phs) ->
  let '(ok, m') := load_program img size phs m r in
  mm_isolates m m' rs r /\ if ok then loaded m' r (program_areas img size phs) else exhausted m'.
Proof.
  intros Hwf Hr Hz Hlay. unfold load_program.
  pose proof (elf_segments_ok img size rs r phs m [] Hwf Hr (loaded_nil m r Hz)) as Hseg.
  destruct (elf_segments img size phs m r) as [ok m1]. rewrite app_nil_r in Hseg.
  specialize (Hseg (ex_intro _ [stack_area] Hlay)). destruct Hseg as [Hiso Hl]. destruct ok; [|done].
  pose proof (map_user_stack_ok rs r m1 _ (proj1 Hiso) Hr Hl Hlay) as Hst. destruct (map_user_stack m1 r) as [ok m2].
  destruct Hst as [Hiso2 Hl2]. split; [by apply (mm_isolates_trans m m1)|done].
Qed.

(** ** elf_exec *)

Section loading.
Context {D Sc : Type} `{BlockDev D} `{Scheduler Sc}.
Variable fuel : nat.
Context (around : Z -> Z).
Implicit Types (st : Kernel D Sc) (t : TaskSlot) (frame : InterruptFrame).

Lemma read_program_same st path size st1 : read_program fuel st path = Some (size, st1) ->
  exists fs buf, st1 = st <| files := fs |> <| elf_load_buf := buf |>.
Proof.
  unfold read_program. destruct (kfs_read_file _ _ _ _ _) as [[[n out]| |] fs]; [| |done]; intros [= <- <-].
  - by exists fs, (blit (elf_load_buf st) 0 out).
  - exists fs, (elf_load_buf st). by destruct st.
Qed.
Lemma read_program_wf st path size st1 : kernel_wf st -> read_program fuel st path = Some (size, st1) ->
  kernel_wf st1 /\ mm st1 = mm st /\ task_slots st1 = task_slots st /\ kernel_pml4 st1 = kernel_pml4 st /\
  current_task_idx st1 = current_task_idx st /\ roots st1 = roots st /\ cr3 st1 = cr3 st.
Proof. intros Hwf (fs & buf & ->)%read_program_same. split; [by destruct Hwf; split|done]. Qed.

(** The program that was read, in the buffer of [st]. *)
Definition program_img st : Z -> Z := image around (elf_load_buf st).
Definition program_hdr st : Elf64_Ehdr := ehdr_of (program_img st).
Definition program_phs st : list Elf64_Phdr := phdrs_of (program_img st) (e_phoff (program_hdr st)) (e_phnum (program_hdr st)) 0.
Definition layout st (size : Z) : list Area := program_areas (program_img st) size (program_phs st).

(** The task [i] that runs the program from now on. *)
Record started st st' (entry : Z) (areas : list Area) (i : Z) : Prop := {
  sd_free : t_active (task st i) = false;
  sd_active : t_active (task st' i) = true;
  sd_frame : t_frame (task st' i) = program_frame entry;
  sd_fds : fd_table (task st' i) = fd_table_init [];
  sd_root : t_uid (task st' i) = 0 /\ t_gid (task st' i) = 0;
  sd_own : pml4 (task st' i) ∉ roots st;
  sd_memory va : user_va va ->
    reads (mm st') (pml4 (task st' i)) va = mem_image areas va \/
    (exhausted (mm st') /\ reads (mm st') (pml4 (task st' i)) va = None) }.

(** A new space with a program, and what becomes of it when it stays or is given up. *)
Lemma fresh_program st c m1 img size phs : kernel_wf st -> paging_create_address_space (mm st) (kernel_pml4 st) = (c, m1) ->
  c <> 0 -> layout_ok (program_areas img size phs) ->
  let '(ok, m2) := load_program img size phs m1 c in
  c ∉ roots st /\ vm_wf m2 (c :: roots st) /\ (forall r, r ∈ roots st -> same_memory (mm st) m2 r) /\
  if ok then loaded m2 c (program_areas img size phs) else exhausted m2.
Proof.
  intros Hwf E1 Hc Hlay. pose proof (kw_vm _ Hwf) as Hvm.
  pose proof (create_ok (mm st) (roots st) (kernel_pml4 st) Hvm) as Hcr. rewrite E1 in Hcr.
  destruct Hcr as [Hq [Hc0|(_ & Hnl & Hw & Hz)]]; [by destruct (Hc Hc0)|].
  pose proof (fresh_root (mm st) (roots st) c Hvm Hnl) as Hni. pose proof (quiet_same_view _ _ _ Hvm Hq) as Hv.
  assert (Hcin : c ∈ c :: roots st) by (apply elem_of_cons; by left).
  pose proof (load_program_ok img size phs (c :: roots st) c m1 Hw Hcin Hz Hlay) as Hload. clear E1.
  destruct (load_program img size phs m1 c) as [ok m2]. destruct Hload as [[Hw2 Ho] Hl]. split; [done|]. split; [done|]. split; [|done].
  intros r Hr. apply (same_memory_trans _ m1); [by apply (same_view_memory _ _ _ _ Hv)|].
  apply Ho; [apply elem_of_cons; by right|intros ->; exact (Hni Hr)].
Qed.

(** Why elf_exec fails. *)
Definition cannot_start st st' (size : Z) : Prop :=
  size < 64 \/ elf_valid (program_hdr st) = false \/ e_phoff (program_hdr st) = 0 \/ e_phnum (program_hdr st) = 0 \/
  free_slot st = None \/ (paging_create_address_space (mm st) (kernel_pml4 st)).1 = 0 \/ exhausted (mm st').
(** What elf_exec may have done. *)
Record exec_outcome st st' (size rc : Z) : Prop := {
  eo_wf : kernel_wf st';
  eo_memory r : r ∈ roots st -> same_memory (mm st) (mm st') r;
  eo_tasks i : 0 <= i < 8 -> t_active (task st i) = true -> task st' i = task st i;
  eo_result : (0 <= rc < 8 /\ elf_valid (program_hdr st) = true /\
                 started st st' (e_entry (program_hdr st)) (layout st size) rc) \/
              (rc = -1 /\ cannot_start st st' size /\ forall i, 0 <= i < 8 -> t_active (task st' i) = t_active (task st i)) }.

Lemma nothing_started st size : kernel_wf st -> cannot_start st st size -> exec_outcome st st size (-1).
Proof. intros Hwf Hc. split; [done|intros; apply same_memory_refl|done|by right]. Qed.

(** The new task is put into its slot. *)
Lemma start_task st sc m i t size : kernel_wf st -> 0 <= i < 8 -> t_active (task st i) = false ->
  let st' := set_task (st <| sched := sc |> <| mm := m |>) i t in
  (forall r, r ∈ roots st -> same_memory (mm st) m r) ->
  (t_active t = false /\ vm_wf m (roots st) /\ cannot_start st st' size -> exec_outcome st st' size (-1)) /\
  (t_active t = true /\ pml4 t <> 0 /\ pml4 t ∉ roots st /\ vm_wf m (pml4 t :: roots st) /\
   loaded m (pml4 t) (layout st size) /\ t_frame t = program_frame (e_entry (program_hdr st)) /\
   fd_table t = fd_table_init [] /\ t_uid t = 0 /\ t_gid t = 0 /\ elf_valid (program_hdr st) = true ->
   exec_outcome st st' size i).
Proof.
  intros Hwf Hi Hf st' Hmem.
  assert (Ht : task st' i = t) by (apply (task_set st); [apply Hwf|done]).
  assert (Hother : forall j, 0 <= j < 8 -> j <> i -> task st' j = task st j) by (intros j Hj Hji; apply (task_set_ne st); lia).
  assert (Hact : forall j, 0 <= j < 8 -> t_active (task st j) = true -> task st' j = task st j).
  { intros j Hj Ha. apply Hother; [done|]. intros ->. congruence. }
  assert (Hwf0 : kernel_wf (st <| sched := sc |>)) by (by destruct Hwf; split).
  pose proof (fill_slot_wf (st <| sched := sc |>) m i t Hwf0 Hi Hf) as Hfill. fold st' in Hfill.
  change (roots (st <| sched := sc |>)) with (roots st) in Hfill. unfold space_of in Hfill. change (kernel_pml4 (st <| sched := sc |>)) with (kernel_pml4 st) in Hfill.
  split.
  - intros (Ha & Hvm & Hc). rewrite Ha in Hfill. destruct (Hfill ltac:(done) Hvm) as [Hw _].
    split; [exact Hw|exact Hmem|exact Hact|right]. split; [done|]. split; [done|]. intros j Hj.
    destruct (Z.eq_dec j i) as [->|]; [congruence|by rewrite Hother].
  - intros (Ha & Hp & Hown & Hvm & Hl & Hfr & Hfd & Hu & Hg & Hv). rewrite Ha in Hfill. cbn [andb] in Hfill.
    assert (Hk : (pml4 t =? kernel_pml4 st) = false).
    { apply Z.eqb_neq. intros Hk. apply Hown. rewrite Hk. apply elem_of_cons. by left. }
    rewrite Hk in Hfill. cbn [negb app] in Hfill. destruct (Hfill ltac:(done) Hvm) as [Hw _].
    split; [exact Hw|exact Hmem|exact Hact|left]. split; [done|]. split; [done|].
    split; rewrite ?Ht; try done. intros va. by apply loaded_reads.
Qed.

Lemma elf_exec_ok st path ticks size st1 : kernel_wf st -> read_program fuel st path = Some (size, st1) ->
  layout_ok (layout st1 size) ->
  exists rc st', elf_exec fuel around st path ticks = Some (rc, st') /\ exec_outcome st1 st' size rc.
Proof.
  intros Hwf Hread Hlay. destruct (read_program_wf st path size st1 Hwf Hread) as (Hwf1 & _).
  unfold elf_exec. rewrite Hread. cbv zeta. fold (program_img st1) in *. fold (program_hdr st1) in *. fold (program_phs st1) in *.
  assert (Hno : cannot_start st1 st1 size -> exists rc st', Some (-1, st1) = Some (rc, st') /\ exec_outcome st1 st' size rc).
  { intros Hc. exists (-1), st1. split; [done|]. by apply nothing_started. }
  unfold cannot_start in Hno. destruct (Z.ltb_spec size 64); [apply Hno; tauto|].
  destruct (elf_valid (program_hdr st1)) eqn:Ev; cbn [negb]; [|apply Hno; tauto].
  destruct (Z.eqb_spec (e_phoff (program_hdr st1)) 0); cbn [orb]; [apply Hno; tauto|].
  destruct (Z.eqb_spec (e_phnum (program_hdr st1)) 0); [apply Hno; tauto|].
  destruct (free_slot st1) as [slot|] eqn:Ef; [|apply Hno; tauto]. clear Hno Hread Hwf st.
  pose proof (find_idx_lt _ _ _ Ef) as Hlt. rewrite (kw_len _ Hwf1) in Hlt.
  apply find_idx_Some in Ef as [(x & Hx & Hf) _]. apply (lookup_geti (task_slots st1)) in Hx. fold (task st1 (Z.of_nat slot)) in Hx.
  subst x. apply negb_true_iff in Hf. set (i := Z.of_nat slot) in *. assert (Hi : 0 <= i < 8) by lia. clearbody i. clear slot Hlt.
  set (ps := match sched st1 with Some s => _ | None => _ end). destruct ps as [pid sc]. 
  set (st2 := st1 <| sched := sc |>). change (mm st2) with (mm st1). change (kernel_pml4 st2) with (kernel_pml4 st1).
  change (task st2 i) with (task st1 i). set (t := new_program (task st1 i) (u32 pid) ticks).
  set (dead := t <| t_active := false |>).
  pose proof (create_ok (mm st1) (roots st1) (kernel_pml4 st1) (kw_vm _ Hwf1)) as Hcr.
  destruct (paging_create_address_space (mm st1) (kernel_pml4 st1)) as [c m1] eqn:E1.
  assert (Hfail : forall m, vm_wf m (roots st1) -> (forall r, r ∈ roots st1 -> same_memory (mm st1) m r) ->
    c = 0 \/ exhausted m -> exists rc st', Some (-1, set_task (st2 <| mm := m |>) i dead) = Some (rc, st') /\ exec_outcome st1 st' size rc).
  { intros m Hvm Hmem Hc. exists (-1), (set_task (st2 <| mm := m |>) i dead). split; [done|].
    destruct (start_task st1 sc m i dead size Hwf1 Hi Hf Hmem) as [Hdead _]. apply Hdead. split; [done|]. split; [done|].
    unfold cannot_start. rewrite E1. cbn [fst]. destruct Hc as [->|Hc]; tauto. }
  destruct (Z.eqb_spec c 0) as [->|Hc0].
  { destruct Hcr as [Hq _]. apply Hfail; [apply Hq| |by left]. intros r Hr.
    exact (same_view_memory _ _ _ _ (quiet_same_view _ _ _ (kw_vm _ Hwf1) Hq) Hr). }
  clear Hcr. pose proof (fresh_program st1 c m1 (program_img st1) size (program_phs st1) Hwf1 E1 Hc0 Hlay) as Hfresh.
  unfold load_program in Hfresh. destruct (elf_segments _ _ _ m1 c) as [ok m2]. destruct ok; cbn [negb].
  2: { destruct Hfresh as (_ & Hvm & Hmem & Hx). apply Hfail; [by apply (vm_wf_drop _ c)|done|by right]. }
  destruct (map_user_stack m2 c) as [ok m3]. destruct Hfresh as (Hown & Hvm & Hmem & Hl). destruct ok; cbn [negb].
  2: { apply Hfail; [by apply (vm_wf_drop _ c)|done|by right]. }
  set (t' := t <| pml4 := c |> <| t_frame := _ |>). exists i, (set_task (st2 <| mm := m3 |>) i t'). split; [done|].
  destruct (start_task st1 sc m3 i t' size Hwf1 Hi Hf Hmem) as [_ Hlive]. apply Hlive. done.
Qed.

(** elf_exec: a valid program whose segments lie in the user range, each on pages of its own and off the
    stack's, gets a free task slot and a space of its own where every address of its segments holds
    the file's byte or zero, its stack is zero and nothing else is mapped (what the frames did not
    suffice for is absent), and starts at its entry; no running task and nobody's memory changes.
    It fails only for an invalid header, without a slot, or without frames. *)
Lemma elf_exec_spec st path ticks size st1 : kernel_wf st -> read_program fuel st path = Some (size, st1) ->
  layout_ok (layout st1 size) ->
  exists rc st', elf_exec fuel around st path ticks = Some (rc, st') /\ exec_outcome st1 st' size rc.
Proof. apply elf_exec_ok. Qed.

(** ** execve *)

Context (tcp_output : Z -> bytes -> Z).

(** Only the running task's descriptors and what they stand for have changed. *)
Record fds_only st st' : Prop := {
  fo_cur : current_task_idx st' = current_task_idx st;
  fo_cr3 : cr3 st' = cr3 st;
  fo_kernel : kernel_pml4 st' = kernel_pml4 st;
  fo_mm : mm st' = mm st;
  fo_slots : exists fdt, task_slots st' = puti (task_slots st) (current_task_idx st) (cur st <| fd_table := fdt |>) }.

Lemma fds_only_wf st st' : kernel_wf st -> fds_only st st' ->
  kernel_wf st' /\ roots st' ≡ₚ roots st /\ (forall i, 0 <= i < 8 -> i <> current_task_idx st -> task st' i = task st i) /\
  cur st' = cur st <| fd_table := fd_table (cur st') |>.
Proof.
  intros Hwf [Hc H3 Hk Hm [fdt Hs]]. pose proof (kw_cur _ Hwf) as [Hi Ha]. set (t := cur st <| fd_table := fdt |>) in *.
  destruct (set_task_wf st (current_task_idx st) t Hwf Hi eq_refl eq_refl) as [Hw Hr].
  assert (Hcur : cur st' = t).
  { unfold cur, task. rewrite Hs, Hc. apply geti_puti_eq. rewrite (kw_len _ Hwf). lia. }
  assert (Er : roots st' = roots (set_task st (current_task_idx st) t)) by (unfold roots; by rewrite Hs, Hk).
  split; [|split; [by rewrite Er|split]].
  - destruct Hw as [W1 W2 W3 W4 W5]. split.
    + by rewrite Hs.
    + rewrite Hc. split; [done|]. by rewrite Hcur.
    + rewrite H3, Hcur. apply Hwf.
    + unfold task. rewrite Hs. exact W4.
    + by rewrite Er, Hm.
  - intros i Hi' Hne. unfold task. rewrite Hs. by apply geti_puti_ne; lia.
  - by rewrite Hcur.
Qed.

Lemma close_entry_only st n : 0 <= current_task_idx st < Z.of_nat (length (task_slots st)) -> 0 <= n < 16 ->
  let st' := fd_close_entry tcp_output st n in
  fds_only st st' /\ fd_type (fd st' n) = FD_TYPE_NONE /\ forall k, 0 <= k -> k <> n -> fd st' k = fd st k.
Proof.
  intros Hc Hn. unfold fd_close_entry.
  assert (Eb : bad_fd n = false) by (unfold bad_fd, FD_MAX; lia). rewrite Eb. cbv zeta.
  set (st1 := if _ || _ then _ else _). set (e := fd st n <| fd_type := _ |> <| fd_flags := _ |> <| fd_path := _ |>
    <| fd_offset := _ |> <| fd_pipe_idx := _ |>). set (st' := set_fd st1 n e).
  assert (H1 : current_task_idx st1 = current_task_idx st /\ cr3 st1 = cr3 st /\ kernel_pml4 st1 = kernel_pml4 st /\
    mm st1 = mm st /\ task_slots st1 = task_slots st).
  { unfold st1. by repeat case_match. }
  clearbody st1. destruct H1 as (E1 & E2 & E3 & E4 & E5).
  assert (Ecur : cur st1 = cur st) by (unfold cur, task; by rewrite E1, E5).
  assert (Ecur' : cur st' = cur st <| fd_table := puti (fds st) n e |>).
  { unfold st', set_fd, set_fds, set_cur, cur, task, set_task, fds. cbn. rewrite E1, E5, Ecur. by rewrite geti_puti_eq by exact Hc. }
  split; [|split].
  - split; try done. exists (puti (fds st) n e). unfold st', set_fd, set_fds, set_cur, set_task. cbn.
    unfold fds, cur, task. by rewrite E1, E5.
  - unfold fd, fds. rewrite Ecur'. cbn. destruct (decide (n < Z.of_nat (length (fds st)))) as [|Hge].
    + by rewrite geti_puti_eq by lia.
    + unfold geti, puti. rewrite list_insert_ge by lia. rewrite list_lookup_total_alt, lookup_ge_None_2 by lia. done.
  - intros k Hk Hne. unfold fd, fds. rewrite Ecur'. cbn. by apply geti_puti_ne; lia.
Qed.
Lemma fds_only_trans st1 st2 st3 : 0 <= current_task_idx st1 < Z.of_nat (length (task_slots st1)) ->
  fds_only st1 st2 -> fds_only st2 st3 -> fds_only st1 st3.
Proof.
  intros Hc [A1 A2 A3 A4 [f1 A5]] [B1 B2 B3 B4 [f2 B5]]. split; try congruence. exists f2. rewrite B5, A5, A1.
  unfold puti. rewrite list_insert_insert_eq. f_equal. unfold cur, task. rewrite A5, A1. by rewrite geti_puti_eq.
Qed.
Lemma close_from_ok n : forall i st, 0 <= current_task_idx st < Z.of_nat (length (task_slots st)) ->
  0 <= i -> i + Z.of_nat n <= 16 ->
  let st' := close_from tcp_output n i st in
  fds_only st st' /\ (forall k, 0 <= k < i -> fd st' k = fd st k) /\
  (forall k, i <= k < i + Z.of_nat n -> fd_type (fd st' k) = FD_TYPE_NONE).
Proof.
  induction n as [|n IH]; intros i st Hc Hi Hn; cbn [close_from].
  { split; [|split; [done|lia]]. split; try done. exists (fd_table (cur st)).
    replace (cur st <| fd_table := fd_table (cur st) |>) with (cur st) by (by destruct (cur st)). symmetry. apply list_insert_id. apply list_lookup_lookup_total_lt. lia. }
  destruct (close_entry_only st i Hc ltac:(lia)) as (Ho & Hty & Hk). set (st1 := fd_close_entry tcp_output st i) in *.
  assert (Hc1 : 0 <= current_task_idx st1 < Z.of_nat (length (task_slots st1))).
  { destruct Ho as [-> _ _ _ [fdt ->]]. by rewrite length_puti. }
  destruct (IH (i + 1) st1 Hc1 ltac:(lia) ltac:(lia)) as (Ho' & Hlow & Hhigh). split; [by apply (fds_only_trans st st1)|]. split.
  - intros k Hk'. rewrite Hlow by lia. apply Hk; lia.
  - intros k Hk'. destruct (Z.eq_dec k i) as [->|]; [rewrite Hlow by lia; exact Hty|apply Hhigh; lia].
Qed.

(** The running task moves to a space that is nobody's. *)
Lemma enter_space_ok st c : kernel_wf st -> c <> 0 -> c ∉ roots st -> vm_wf (mm st) (c :: roots st) ->
  let st' := enter_space st c in
  kernel_wf st' /\ pm (mm st') = pm (mm st) /\ kernel_pml4 st' = kernel_pml4 st /\ current_task_idx st' = current_task_idx st /\
  cur st' = cur st <| pml4 := c |> /\ (forall i, 0 <= i < 8 -> i <> current_task_idx st -> task st' i = task st i).
Proof.
  intros Hwf Hc0 Hni Hvm st'. pose proof (kw_cur _ Hwf) as [Hc Hca]. set (t := cur st <| pml4 := c |>). set (st1 := set_cur st t).
  assert (Hlen : Z.of_nat (length (task_slots st)) = 8) by (by rewrite (kw_len _ Hwf)).
  assert (Ht : cur st1 = t) by (apply (task_set st); [apply Hwf|done]).
  set (m' := if negb (pml4 (cur st) =? 0) && negb (pml4 (cur st) =? kernel_pml4 st)
             then paging_free_user_space (mm st) (kernel_pml4 st) (pml4 (cur st)) else mm st).
  assert (E : st' = st1 <| cr3 := c |> <| mm := m' |>).
  { unfold st', enter_space, release_space, task_switch_cr3, m'. cbv zeta. fold t. fold st1.
    change (current_task_idx st1) with (current_task_idx st). rewrite (proj2 (Z.leb_le 0 (current_task_idx st))) by lia.
    change (task st1 (current_task_idx st)) with (cur st1). rewrite Ht. change (pml4 t) with c.
    rewrite (proj2 (Z.eqb_neq c 0)) by done. cbn [negb andb].
    change (kernel_pml4 (st1 <| cr3 := c |>)) with (kernel_pml4 st). change (mm (st1 <| cr3 := c |>)) with (mm st).
    destruct (_ && _); [done|]. unfold st1, set_cur, set_task. by destruct st. }
  destruct (roots_split st (current_task_idx st) (kw_len _ Hwf) Hc) as [E1 E2]. specialize (E2 t). fold (set_cur st t) in E2. fold st1 in E2.
  assert (Hk : (c =? kernel_pml4 st) = false).
  { apply Z.eqb_neq. intros ->. apply Hni. apply elem_of_cons. by left. }
  fold (cur st) in E1. unfold space_of in E1, E2. change (t_active t) with (t_active (cur st)) in E2. rewrite Hca in E1, E2.
  change (pml4 t) with c in E2. rewrite Hk in E2. cbn [negb andb app] in E1, E2.
  assert (Hm' : vm_wf m' (roots st1) /\ pm m' = pm (mm st)).
  { unfold m'. rewrite (proj2 (Z.eqb_neq _ 0)) by (by apply (kw_space _ Hwf)). cbn [negb andb].
    destruct (Z.eqb_spec (pml4 (cur st)) (kernel_pml4 st)) as [Ek|Ek]; cbn [negb] in *.
    - split; [|done]. apply (vm_wf_perm _ (c :: roots st)); [|done]. by rewrite E2, E1.
    - cbn [app] in E1. assert (Hvm' : vm_wf (mm st) (pml4 (cur st) :: c :: others_of st (current_task_idx st))).
      { apply (vm_wf_perm _ (c :: roots st)); [|done]. rewrite E1. apply perm_swap. }
      destruct (free_space_ok (mm st) (pml4 (cur st)) _ Hvm' (kernel_pml4 st) Ek) as [Hw Hpm]. split; [|done].
      by apply (vm_wf_perm _ (c :: others_of st (current_task_idx st))). }
  clearbody m'. destruct Hm' as [Hw Hpm]. rewrite E.
  assert (Hcur' : cur (st1 <| cr3 := c |> <| mm := m' |>) = t) by exact Ht.
  assert (Hother : forall i, 0 <= i < 8 -> i <> current_task_idx st -> task (st1 <| cr3 := c |> <| mm := m' |>) i = task st i).
  { intros i Hi Hne. apply (task_set_ne st); lia. }
  split; [split|split; [exact Hpm|split; [done|split; [done|split; [exact Hcur'|exact Hother]]]]].
  - change (length (task_slots st1) = 8%nat). unfold st1, set_cur. rewrite length_set_task. apply Hwf.
  - split; [exact Hc|]. rewrite Hcur'. exact Hca.
  - rewrite Hcur'. done.
  - intros i Hi. destruct (Z.eq_dec i (current_task_idx st)) as [->|Hne].
    + change (task (st1 <| cr3 := c |> <| mm := m' |>) (current_task_idx st)) with (cur (st1 <| cr3 := c |> <| mm := m' |>)).
      rewrite Hcur'. done.
    + rewrite Hother by done. by apply (kw_space _ Hwf).
  - exact Hw.
Qed.

(** Why execve fails once the path is known. *)
Definition cannot_exec st st' (size : Z) : Prop :=
  size < 64 \/ exec_valid (program_hdr st) = false \/
  (paging_create_address_space (mm st) (kernel_pml4 st)).1 = 0 \/ exhausted (mm st').
(** What execve has done: [st] is the state after the file was read. *)
Record execve_outcome st st' (frame frame' : InterruptFrame) (size rc : Z) : Prop := {
  xo_wf : kernel_wf st';
  xo_cur : current_task_idx st' = current_task_idx st /\ kernel_pml4 st' = kernel_pml4 st;
  xo_memory r : r ∈ roots st -> same_memory (mm st) (mm st') r;
  xo_tasks i : 0 <= i < 8 -> i <> current_task_idx st -> task st' i = task st i;
  xo_identity : t_pid (cur st') = t_pid (cur st) /\ t_uid (cur st') = t_uid (cur st) /\ t_gid (cur st') = t_gid (cur st);
  xo_result :
    (rc = 0 /\ exec_valid (program_hdr st) = true /\ frame' = exec_frame frame (e_entry (program_hdr st)) /\
     pml4 (cur st') ∉ roots st /\
     (exists m, pm m = pm (mm st') /\ forall va, user_va va -> reads (mm st') (cr3 st') va = mem_image (layout st size) va \/
        (exhausted m /\ reads (mm st') (cr3 st') va = None)) /\
     (forall k, 0 <= k < 3 -> fd st' k = fd st k) /\ (forall k, 3 <= k < 16 -> fd_type (fd st' k) = FD_TYPE_NONE)) \/
    (rc = -1 /\ cannot_exec st st' size /\ frame' = frame /\ pml4 (cur st') = pml4 (cur st)) }.

Lemma exec_failed st st' frame size : kernel_wf st' -> current_task_idx st' = current_task_idx st -> kernel_pml4 st' = kernel_pml4 st ->
  (forall r, r ∈ roots st -> same_memory (mm st) (mm st') r) ->
  (forall i, 0 <= i < 8 -> i <> current_task_idx st -> task st' i = task st i) -> pml4 (cur st') = pml4 (cur st) ->
  t_pid (cur st') = t_pid (cur st) /\ t_uid (cur st') = t_uid (cur st) /\ t_gid (cur st') = t_gid (cur st) ->
  cannot_exec st st' size -> execve_outcome st st' frame frame size (-1).
Proof. intros Hw Hc Hk Hm Ht Hp Hid Hx. split; [done|done|done|done|done|by right]. Qed.

Lemma sys_execve_ok st frame path_ptr path size st1 : kernel_wf st -> copy_user_path_64 st path_ptr = Some (Some path) ->
  read_program fuel st path = Some (size, st1) -> layout_ok (layout st1 size) ->
  exists rc frame' st', sys_execve fuel tcp_output around st frame path_ptr = Some (rc, frame', st') /\
    execve_outcome st1 st' frame frame' size rc.
Proof.
  intros Hwf Hpath Hread Hlay. destruct (read_program_wf st path size st1 Hwf Hread) as (Hwf1 & _).
  pose proof (kw_cur _ Hwf) as [Hc0 _]. pose proof (kw_cur _ Hwf1) as [Hc _]. unfold sys_execve.
  rewrite (proj2 (Z.ltb_ge _ 0)) by lia. rewrite Hpath, Hread. cbv zeta.
  fold (program_img st1) in *. fold (program_hdr st1) in *. fold (program_phs st1) in *.
  assert (Hno : cannot_exec st1 st1 size -> exists rc frame' st', Some (-1, frame, st1) = Some (rc, frame', st') /\
    execve_outcome st1 st' frame frame' size rc).
  { intros Hx. exists (-1), frame, st1. split; [done|]. apply exec_failed; try done. }
  unfold cannot_exec in Hno. destruct (Z.ltb_spec size 64); [apply Hno; tauto|].
  destruct (exec_valid (program_hdr st1)) eqn:Ev; cbn [negb]; [|apply Hno; tauto]. clear Hno Hread Hpath Hwf Hc0 st.
  pose proof (create_ok (mm st1) (roots st1) (kernel_pml4 st1) (kw_vm _ Hwf1)) as Hcr.
  destruct (paging_create_address_space (mm st1) (kernel_pml4 st1)) as [c m1] eqn:E1.
  destruct (Z.eqb_spec c 0) as [->|Hc1].
  { destruct Hcr as [Hq _]. exists (-1), frame, (st1 <| mm := m1 |>). split; [done|]. apply exec_failed; try done.
    - apply set_mm_wf; [done|apply Hq].
    - intros r Hr. exact (same_view_memory _ _ _ _ (quiet_same_view _ _ _ (kw_vm _ Hwf1) Hq) Hr).
    - unfold cannot_exec. rewrite E1. tauto. }
  clear Hcr. pose proof (fresh_program st1 c m1 (program_img st1) size (program_phs st1) Hwf1 E1 Hc1 Hlay) as Hfresh.
  unfold load_program in Hfresh. destruct (exec_segments_eq (program_img st1) size (program_phs st1) m1 c (brk (cur st1))) as [b ->].
  destruct (elf_segments _ _ _ m1 c) as [ok m2]. cbv beta iota.
  set (t := cur st1 <| brk := b |>).
  assert (Hst : forall m, vm_wf m (roots st1) -> let st2 := set_cur (st1 <| mm := m |>) t in
    kernel_wf st2 /\ roots st2 ≡ₚ roots st1 /\ cur st2 = t /\ forall i, 0 <= i < 8 -> i <> current_task_idx st1 -> task st2 i = task st1 i).
  { intros m Hm st2. pose proof (set_mm_wf st1 m Hwf1 Hm) as Hw.
    destruct (set_task_wf (st1 <| mm := m |>) (current_task_idx st1) t Hw Hc eq_refl eq_refl) as [Hw2 Hr2].
    split; [exact Hw2|]. split; [exact Hr2|]. split; [apply (task_set st1); [apply Hwf1|done]|].
    intros i Hi Hne. apply (task_set_ne st1 (current_task_idx st1)); lia. }
  assert (Hfail : forall m, vm_wf m (c :: roots st1) -> (forall r, r ∈ roots st1 -> same_memory (mm st1) m r) -> exhausted m ->
    exists rc frame' st', Some (-1, frame, set_cur (st1 <| mm := m |>) t) = Some (rc, frame', st') /\
      execve_outcome st1 st' frame frame' size rc).
  { intros m Hm Hmem Hx. exists (-1), frame, (set_cur (st1 <| mm := m |>) t). split; [done|].
    destruct (Hst m (vm_wf_drop _ _ _ Hm)) as (Hw & _ & Hcur & Ho). apply exec_failed; try done.
    - by rewrite Hcur.
    - by rewrite Hcur.
    - unfold cannot_exec. tauto. }
  destruct ok; cbn [negb]; [|destruct Hfresh as (_ & Hvm & Hmem & Hx); by apply Hfail].
  change (mm (set_cur (st1 <| mm := m2 |>) t)) with m2. destruct (map_user_stack m2 c) as [ok m3].
  change (set_cur (st1 <| mm := m2 |>) t <| mm := m3 |>) with (set_cur (st1 <| mm := m3 |>) t).
  destruct Hfresh as (Hown & Hvm & Hmem & Hl). destruct ok; cbn [negb]; [|by apply Hfail].
  clear Hfail. destruct (Hst m3 (vm_wf_drop _ _ _ Hvm)) as (Hw2 & Hr2 & Hcur2 & Ho2). set (st2 := set_cur (st1 <| mm := m3 |>) t) in *.
  assert (Hvm2 : vm_wf (mm st2) (c :: roots st2)) by (apply (vm_wf_perm _ (c :: roots st1)); [by rewrite Hr2|done]).
  destruct (enter_space_ok st2 c Hw2 Hc1 ltac:(by rewrite Hr2) Hvm2) as (Hw3 & Hpm3 & Hk3 & Hi3 & Hcur3 & Ho3).
  set (st3 := enter_space st2 c) in *. pose proof (kw_cur _ Hw3) as [Hc3 _].
  destruct (close_from_ok 13 3 st3 ltac:(rewrite (kw_len _ Hw3); lia) ltac:(lia) ltac:(lia)) as (Hfo & Hlow & Hhigh).
  set (st4 := close_from tcp_output 13 3 st3) in *. destruct (fds_only_wf st3 st4 Hw3 Hfo) as (Hw4 & _ & Ho4 & Hcur4).
  exists 0, (exec_frame frame (e_entry (program_hdr st1))), st4. split; [done|].
  assert (Hp4 : pml4 (cur st4) = c) by (rewrite Hcur4; cbn; by rewrite Hcur3).
  assert (Hmm4 : pm (mm st4) = pm m3) by (rewrite (fo_mm _ _ Hfo); exact Hpm3).
  assert (Hpg : forall r i j off, page_at (mm st4) r i j off = page_at m3 r i j off) by (intros; unfold page_at; by rewrite Hmm4).
  assert (Hi1 : current_task_idx st3 = current_task_idx st1) by (rewrite Hi3; done).
  split.
  - exact Hw4.
  - split; [by rewrite (fo_cur _ _ Hfo)|by rewrite (fo_kernel _ _ Hfo), Hk3].
  - intros r Hr i j off Hij Hoff. rewrite Hpg. by apply Hmem.
  - intros i Hi Hne. rewrite Ho4, Ho3, Ho2 by (done || (rewrite ?Hi1; done)). done.
  - rewrite Hcur4. cbn. rewrite Hcur3. cbn. by rewrite Hcur2.
  - left. split; [done|]. split; [done|]. split; [done|]. split; [by rewrite Hp4|]. split; [|split].
    + exists m3. split; [done|]. intros va Hva. rewrite (kw_cr3 _ Hw4), Hp4. unfold reads. rewrite Hpg. by apply loaded_reads.
    + intros k Hk. rewrite Hlow by lia. unfold fd, fds. rewrite Hcur3. cbn. by rewrite Hcur2.
    + intros k Hk. apply Hhigh. lia.
Qed.
End loading.

(** ** A program *)

(** One segment of two pages at 256 MB: two instructions, a path, and zeros. *)
Definition demo_elf : bytes :=
  [127; 69; 76; 70; 2; 1; 1; 0] ++ zeros 8 ++ le_enc 2 2 ++ le_enc 2 62 ++ le_enc 4 1 ++ le_enc 8 0x10000000 ++ le_enc 8 64 ++
  zeros 8 ++ zeros 4 ++ le_enc 2 64 ++ le_enc 2 56 ++ le_enc 2 1 ++ zeros 6 ++
  le_enc 4 1 ++ le_enc 4 5 ++ le_enc 8 120 ++ le_enc 8 0x10000000 ++ zeros 8 ++ le_enc 8 7 ++ le_enc 8 8192 ++ le_enc 8 4096 ++
  [144; 144; 235; 254] ++ lit "/p" ++ [0].
Definition demo_st : Kernel (Bcache.Bcache RamDisk) unit :=
  kernel0 <| files := (kfs_write_file (lit "/p") demo_elf 127 demo_kfs).2 |>.
Definition demo_around : Z -> Z := fun _ => 0.
Definition demo_read : Z * Kernel (Bcache.Bcache RamDisk) unit := default (-1, demo_st) (read_program 100 demo_st (lit "/p")).
Definition demo_started : Z * Kernel (Bcache.Bcache RamDisk) unit :=
  default (-1, demo_st) (elf_exec 100 demo_around demo_st (lit "/p") 24).
(** The program runs after the next tick, and executes itself. *)
Definition demo_running : Kernel (Bcache.Bcache RamDisk) unit := (timer_switch demo_started.2 zero_frame).2.
Definition demo_reread : Z * Kernel (Bcache.Bcache RamDisk) unit := default (-1, demo_st) (read_program 100 demo_running (lit "/p")).

Lemma files_wf {D Sc} `{Scheduler Sc} (st : Kernel D Sc) fs : kernel_wf st -> kernel_wf (st <| files := fs |>).
Proof. by intros []; split. Qed.
Lemma demo_st_wf : kernel_wf demo_st.
Proof. exact (files_wf kernel0 _ kernel0_wf). Qed.
Lemma some_default {A} (r : option (Z * A)) d n :
  match r with Some (k, _) => k =? n | None => false end = true -> r = Some (n, (default d r).2).
Proof. destruct r as [[k a]|]; cbn; [|done]. by intros ->%Z.eqb_eq. Qed.
Lemma demo_read_eq : read_program 100 demo_st (lit "/p") = Some (127, demo_read.2).
Proof. refine (some_default _ _ _ _). vm_compute. reflexivity. Qed.
Lemma demo_layout : layout_ok (layout demo_around demo_read.2 127).
Proof. apply layout_okb_ok. vm_compute. reflexivity. Qed.

Lemma elf_exec_spec_witness :
  exists st', elf_exec 100 demo_around demo_st (lit "/p") 24 = Some (1, st') /\ kernel_wf st' /\
    reads (mm st') (pml4 (task st' 1)) 0x10000002 = Some 235 /\ reads (mm st') (pml4 (task st' 1)) 0x10001000 = Some 0.
Proof.
  destruct (elf_exec_spec 100 demo_around demo_st (lit "/p") 24 127 demo_read.2 demo_st_wf demo_read_eq demo_layout)
    as (rc & st' & E & Ho).
  assert (Hr : match elf_exec 100 demo_around demo_st (lit "/p") 24 with
    | Some (rc, s) => (rc, reads (mm s) (pml4 (task s 1)) 0x10000002, reads (mm s) (pml4 (task s 1)) 0x10001000)
    | None => (0, None, None) end = (1, Some 235, Some 0)) by (vm_compute; reflexivity).
  rewrite E in Hr. exists st'. injection Hr as -> H1 H2. split; [exact E|]. split; [apply Ho|]. split; assumption.
Defined.

Lemma demo_running_wf : kernel_wf demo_running.
Proof.
  assert (Hw : kernel_wf demo_started.2).
  { destruct (elf_exec_ok 100 demo_around demo_st (lit "/p") 24 127 demo_read.2 demo_st_wf demo_read_eq demo_layout)
      as (rc & st' & E & Ho). unfold demo_started. rewrite E. apply Ho. }
  pose proof (timer_isolates demo_started.2 zero_frame 0 Hw) as Ht. unfold demo_running.
  destruct (timer_switch demo_started.2 zero_frame) as [f st']. apply Ht.
Qed.
Lemma demo_reread_eq : read_program 100 demo_running (lit "/p") = Some (127, demo_reread.2).
Proof. refine (some_default _ _ _ _). vm_compute. reflexivity. Qed.
