(* ===== verification/Syscalls.v ===== *)
(** The system calls of the 64-bit kernel (kernel/arch/x86_64/kernel_x64.c):
    the int 0x80 branch of interrupt_dispatch, and the calls that are written
    out in it - credentials, the working directory, the file mode mask.  The
    result is the frame the machine resumes from and the kernel's state;
    [None]: the machine halts, or a wait does not end within the polls given. *)

From S2P Require Import Prelude CString BlockDev VernisFs Kfs Sha256 UserDb Tcp Udp Frames Paging Console Kernel Tasks Fds Elf.

(** [kernel/arch/x86_64/kernel_x64.c] constants *)
Definition SYS_USER_TEST := 0xF0.
Definition SYS_EXIT := 60.
Definition SYS_WAITPID := 61.
Definition SYS_GETPID := 62.
Definition SYS_KILL := 63.
Definition SYS_READ := 64.
Definition SYS_WRITE := 65.
Definition SYS_OPEN := 66.
Definition SYS_READ_FD := 67.
Definition SYS_WRITE_FD := 68.
Definition SYS_CLOSE := 69.
Definition SYS_DUP := 70.
Definition SYS_DUP2 := 71.
Definition SYS_PIPE := 72.
Definition SYS_FORK := 73.
Definition SYS_EXECVE := 74.
Definition SYS_SBRK := 75.
Definition SYS_MMAP := 76.
Definition SYS_MUNMAP := 77.
Definition SYS_SYNC := 78.
Definition SYS_SETUID := 79.
Definition SYS_SETGID := 80.
Definition SYS_GETUID := 81.
Definition SYS_GETGID := 82.
Definition SYS_CHDIR := 83.
Definition SYS_GETCWD := 84.
Definition SYS_UMASK := 85.
Definition SYS_YIELD := 86.
Definition SYS_SOCKET := 87.
Definition SYS_CONNECT := 88.
Definition SYS_BIND := 89.
Definition SYS_AUTH := 90.
Definition SYS_MKDIR2 := 91.
Definition SYS_LISTEN := 92.
Definition SYS_ACCEPT := 93.

(** [(int64_t)v] *)
Definition i64 (v : Z) : Z := (v + 2 ^ 63) mod 2 ^ 64 - 2 ^ 63.

Section syscalls.
Context {D Sc : Type} `{BlockDev D} `{Scheduler Sc}.
Variable fuel : nat.
Context (tcp_output : Z -> bytes -> Z) (udp_output : Z -> Z -> bytes -> Z) (around : Z -> Z).
Implicit Types (st : Kernel D Sc) (frame : InterruptFrame).

(** ** Calls written out in the dispatcher *)

(** [kernel/arch/x86_64/kernel_x64.c:2341-2348] interrupt_dispatch *)
Definition sys_setuid st (v : Z) : Z * Kernel D Sc :=
  if current_task_idx st <? 0 then (-1, st) else
  let v := u16 v in
  if (t_uid (cur st) =? 0) || (v =? t_uid (cur st)) then (0, set_cur st (cur st <| t_uid := v |>)) else (-1, st).
(** [kernel/arch/x86_64/kernel_x64.c:2349-2352] interrupt_dispatch *)
Definition sys_setgid st (v : Z) : Z * Kernel D Sc :=
  if current_task_idx st <? 0 then (-1, st) else
  let v := u16 v in
  if (t_uid (cur st) =? 0) || (v =? t_gid (cur st)) then (0, set_cur st (cur st <| t_gid := v |>)) else (-1, st).
(** [kernel/arch/x86_64/kernel_x64.c:2353-2354] interrupt_dispatch *)
Definition sys_getuid st : Z := if 0 <=? current_task_idx st then t_uid (cur st) else 0.
(** [kernel/arch/x86_64/kernel_x64.c:2355-2356] interrupt_dispatch *)
Definition sys_getgid st : Z := if 0 <=? current_task_idx st then t_gid (cur st) else 0.
(** The whole path buffer is copied, what lies behind the string included; [stack] is what it held before.
    [kernel/arch/x86_64/kernel_x64.c:2357-2367] interrupt_dispatch *)
Definition sys_chdir (stack : bytes) st (path_ptr : Z) : option (Z * Kernel D Sc) :=
  if current_task_idx st <? 0 then Some (-1, st) else
  match copy_user_path_64 st path_ptr with
  | None => None
  | Some None => Some (-1, st)
  | Some (Some path) =>
      if negb (char_at path 0 =? 47) then Some (-1, st) else
      let '(r, st) := if char_at path 1 =? 0 then (Ok true, st)
                      else let '(r, fs) := kfs_find_file fuel path (files st) in
                           (match r with Ok _ => Ok true | Fail => Ok false | Loops => Loops end, st <| files := fs |>) in
      match r with
      | Loops | Fail => None
      | Ok true => Some (0, set_cur st (cur st <| cwd := take 64 (blit stack 0 (path ++ [0])) |>))
      | Ok false => Some (-1, st)
      end
  end.
(** [kernel/arch/x86_64/kernel_x64.c:2368-2380] interrupt_dispatch *)
Definition sys_getcwd st (buf size : Z) : option (Z * Kernel D Sc) :=
  if current_task_idx st <? 0 then Some (-1, st) else
  let len := Z.of_nat (length (cstr (take 64 (cwd (cur st))))) in
  if (len <? size) && user_ptr_range_valid_64 buf (len + 1)
  then stored len (store_bytes st buf (take (Z.to_nat (len + 1)) (cwd (cur st))))
  else Some (-1, st).
(** [kernel/arch/x86_64/kernel_x64.c:2381-2388] interrupt_dispatch *)
Definition sys_umask st (mask : Z) : Z * Kernel D Sc :=
  if current_task_idx st <? 0 then (-1, st) else
  (file_umask (cur st), set_cur st (cur st <| file_umask := u16 (Z.land mask 511) |>)).

(** ** The dispatcher *)

(** What is not in this file: bcache_sync of the block cache below the file systems; the kernel calls 20 to 32
    and 40 to 42 of IPC, modules and the AI link, and what the Rust core does with every other
    number; the interrupts a waiting call is open to. *)
Context (bcache_sync : D -> Z * D) (kernel_call : Kernel D Sc -> Z -> Z -> Z -> Z -> Z * Kernel D Sc).
Context (interrupts : Kernel D Sc -> Kernel D Sc) (polls : nat) (garbage : Sha256Context) (stack : bytes).

(** [kernel/arch/x86_64/kernel_x64.c:2569-2595] c_syscall_handler *)
Definition c_syscall_handler st (num arg1 arg2 arg3 : Z) : option (Z * Kernel D Sc) :=
  if num =? SYS_READ then syscall_vfs_read_64 fuel st arg1 arg2 arg3 else
  if num =? SYS_WRITE then syscall_vfs_write_64 st arg1 arg2 arg3 else
  Some (kernel_call st num arg1 arg2 arg3).

(** [kernel/arch/x86_64/kernel_x64.c:2338-2340] interrupt_dispatch *)
Definition sys_sync st : Z * Kernel D Sc :=
  let '(rc, d) := bcache_sync (disk (g_vfs (files st))) in
  (rc, st <| files := files st <| g_vfs := g_vfs (files st) <| disk := d |> |> |>).

(** The calls that return a value; -1 in those that need the caller's descriptors when no task runs.
    [kernel/arch/x86_64/kernel_x64.c:2223-2393] interrupt_dispatch *)
Definition syscall_value st frame : option (Z * Kernel D Sc) :=
  let num := f_rax frame in let a1 := f_rbx frame in let a2 := f_rcx frame in let a3 := f_rdx frame in
  let with_fdt (r : option (Z * Kernel D Sc)) := if 0 <=? current_task_idx st then r else Some (-1, st) in
  if num =? SYS_USER_TEST then Some (0, st) else
  if num =? SYS_WAITPID then sys_waitpid interrupts polls st a1 else
  if num =? SYS_GETPID then Some (match sched st with Some s => scheduler_get_current_pid s | None => 0 end, st) else
  if num =? SYS_YIELD then Some (sys_yield st) else
  if num =? SYS_KILL then Some (sys_kill st a1 a2) else
  if num =? SYS_READ then syscall_vfs_read_64 fuel st a1 a2 a3 else
  if num =? SYS_WRITE then syscall_vfs_write_64 st a1 a2 a3 else
  if num =? SYS_SOCKET then with_fdt (Some (sys_socket tcp_output st a1)) else
  if num =? SYS_CONNECT then with_fdt (sys_connect tcp_output interrupts polls st (i32 a1) (u32 a2) (u16 a3)) else
  if num =? SYS_BIND then with_fdt (Some (sys_bind st (i32 a1) (u16 a2))) else
  if num =? SYS_LISTEN then with_fdt (Some (sys_listen st (i32 a1))) else
  if num =? SYS_ACCEPT then with_fdt (sys_accept tcp_output interrupts polls st (i32 a1)) else
  if num =? SYS_AUTH then (fun rc => (rc, st)) <$> sys_auth garbage st a1 a2 else
  if num =? SYS_MKDIR2 then sys_mkdir2 st a1 else
  if num =? SYS_OPEN then with_fdt (sys_open fuel st a1 a2) else
  if num =? SYS_READ_FD then with_fdt (sys_read_fd fuel tcp_output st (i32 a1) a2 a3) else
  if num =? SYS_WRITE_FD then with_fdt (sys_write_fd tcp_output udp_output st (i32 a1) a2 a3) else
  if num =? SYS_CLOSE then with_fdt (Some (sys_close tcp_output st (i32 a1))) else
  if num =? SYS_DUP then with_fdt (Some (sys_dup st (i32 a1))) else
  if num =? SYS_DUP2 then with_fdt (Some (sys_dup2 tcp_output st (i32 a1) (i32 a2))) else
  if num =? SYS_PIPE then with_fdt (sys_pipe st a1) else
  if num =? SYS_FORK then Some (sys_fork st frame) else
  if num =? SYS_SBRK then Some (sys_sbrk st (i64 a1)) else
  if num =? SYS_MMAP then sys_mmap st a1 a2 a3 else
  if num =? SYS_MUNMAP then Some (sys_munmap st a1 a2) else
  if num =? SYS_SYNC then Some (sys_sync st) else
  if num =? SYS_SETUID then Some (sys_setuid st a1) else
  if num =? SYS_SETGID then Some (sys_setgid st a1) else
  if num =? SYS_GETUID then Some (sys_getuid st, st) else
  if num =? SYS_GETGID then Some (sys_getgid st, st) else
  if num =? SYS_CHDIR then sys_chdir stack st a1 else
  if num =? SYS_GETCWD then sys_getcwd st a1 a2 else
  if num =? SYS_UMASK then Some (sys_umask st a1) else
  c_syscall_handler st num a1 a2 a3.
(** int 0x80.
    [kernel/arch/x86_64/kernel_x64.c:2142-2155] interrupt_dispatch *)
Definition syscall st frame : option (InterruptFrame * Kernel D Sc) :=
  if f_rax frame =? SYS_EXIT then sys_exit st (f_rbx frame) else
  if f_rax frame =? SYS_EXECVE then
    match sys_execve fuel tcp_output around st frame (f_rbx frame) with
    | Some (rc, frame, st) => Some (if rc <? 0 then frame <| f_rax := u64 (-1) |> else frame, st)
    | None => None
    end
  else
    match syscall_value st frame with
    | Some (v, st) => Some (frame <| f_rax := u64 v |>, st)
    | None => None
    end.

(** ** Interrupts *)

(** What the hardware has for the handler: the scan code at port 0x60, the characters in the serial port, CR2. *)
Record Hardware := mkHardware { scancode : Z; received : bytes; fault_addr : Z }.
Context (poll : Kernel D Sc -> Kernel D Sc).

(** The frame to resume from; [None]: the machine halts.  The mouse, the graphical interface and the other
    devices have no part in this state.
    [kernel/arch/x86_64/kernel_x64.c:2060-2144] interrupt_dispatch *)
Definition interrupt_dispatch (hw : Hardware) st frame : option (InterruptFrame * Kernel D Sc) :=
  let vec := f_int_no frame in
  if vec =? 0x20 then Some (irq0 poll tcp_output (received hw) st frame) else
  if vec =? 0x21 then Some (frame, st <| console := keyboard_handle_scancode (console st) (scancode hw) |>) else
  if vec =? 0x2C then Some (frame, st) else
  if (0x22 <=? vec) && (vec <=? 0x2F) then Some (frame, st) else
  if vec =? 0x80 then syscall st frame else
  if vec <=? 19 then exception fuel st frame (fault_addr hw) else None.
End syscalls.
