(* ===== verification/Processes.v ===== *)
(** Processes against each other in the 64-bit kernel
    (kernel/arch/x86_64/kernel_x64.c): every entry into the kernel - timer,
    keyboard, system calls, faults - keeps the address spaces apart and the
    credentials where they are. *)

From S2P Require Import Prelude CString BlockDev Bcache VernisFs Fat32 Ext2 Kfs Sha256 UserDb Tcp Udp Frames Paging AddressSpace UserPages Console Kernel Tasks Isolation Fds Elf Syscalls.

(** ** What a file read may store *)

Section reads.
Context {D : Type} `{BlockDev D}.

Lemma fat_cluster_bound n : forall s vol cl want (out : bytes) (d : D), Z.of_nat (length out) <= Z.max 0 want ->
  match (Fat32.read_cluster n s vol cl want out d).1 with Ok out' => Z.of_nat (length out') <= Z.max 0 want | _ => True end.
Proof.
  induction n as [|n IH]; intros s vol cl want out d Hl; cbn [Fat32.read_cluster]; [done|].
  destruct (Z.ltb_spec (Z.of_nat (length out)) want); cbn [negb]; [|done]. unfold rd_bind.
  destruct (Fat32.read_rel vol _ d) as [[sec|] d']; [|done]. apply IH. rewrite length_app, length_take. case_match; lia.
Qed.
Lemma fat_chain_bound fuel : forall vol cl want (out : bytes) (d : D), Z.of_nat (length out) <= Z.max 0 want ->
  match (Fat32.read_chain fuel vol cl want out d).1 with Ok out' => Z.of_nat (length out') <= Z.max 0 want | _ => True end.
Proof.
  induction fuel as [|fuel IH]; intros vol cl want out d Hl; cbn [Fat32.read_chain]; (destruct (negb _); [done|]); [done|].
  unfold rd_try, rd_bind. pose proof (fat_cluster_bound (Z.to_nat (Fat32.sectors_per_cluster vol)) 0 vol cl want out d Hl) as Hc.
  destruct (Fat32.read_cluster _ _ _ _ _ _ d) as [[out'| |] d1]; [|done..]. destruct (Fat32.fat_next vol cl d1) as [nx d2]. by apply IH.
Qed.
Lemma ext2_blocks_bound fuel : forall g i n want (out : bytes) (s : Ext2.St D), Z.of_nat (length out) <= Z.max 0 want ->
  match (Ext2.read_blocks fuel g i n want out s).1 with Ok out' => Z.of_nat (length out') <= Z.max 0 want | _ => True end.
Proof.
  induction fuel as [|fuel IH]; intros g i n want out s Hl; cbn [Ext2.read_blocks];
    (destruct (Z.ltb_spec (Z.of_nat (length out)) want); cbn [negb]; [|done]); [done|].
  unfold rd_bind. destruct (Ext2.inode_nth_block g _ n s) as [b s1]. destruct (b =? 0); [done|].
  destruct (Ext2.read_block g b s1) as [[blk|] s2]; [|done]. apply IH. rewrite length_app, length_take. case_match; lia.
Qed.
End reads.

Section processes.
Context {D Sc : Type} `{BlockDev D} `{Scheduler Sc}.
Variable fuel : nat.
Context (tcp_output : Z -> bytes -> Z) (udp_output : Z -> Z -> bytes -> Z) (around : Z -> Z).
Implicit Types (st : Kernel D Sc) (frame : InterruptFrame).

(** The file table's sizes are unsigned. *)
Definition sizes_ok (fs : Kfs D) : Prop := forall i, 0 <= size (entry (g_vfs fs) i).
Lemma kfs_read_bound env path max_len (fs : Kfs D) : sizes_ok fs -> 1 <= max_len <= 4096 ->
  match (kfs_read_file fuel env path max_len fs).1 with Ok (n, _) => n <= max_len | _ => True end.
Proof.
  intros Hs Hm. unfold kfs_read_file.
  assert (Htext : forall o : option bytes, (forall b, o = Some b -> Z.of_nat (length b) <= max_len) ->
    match (counted (of_option o)) with Ok (n, _) => n <= max_len | _ => True end).
  { intros [b|] Hb; cbn; [by apply Hb|done]. }
  assert (Hcopy : forall text b, copy_text text max_len = Some b -> Z.of_nat (length b) <= max_len).
  { intros text b. unfold copy_text. case_match; [done|]. intros [= <-]. rewrite length_take. lia. }
  assert (Hu : u32 max_len = max_len) by (apply u32_id; ulia). rewrite Hu.
  destruct (kfs_streq path (lit "/dev/null")); [cbn; lia|]. destruct (kfs_streq path (lit "/dev/zero")); [cbn; rewrite i32_id; ulia|].
  destruct (kfs_streq path (lit "/proc/uptime")); [apply Htext; intros b; apply Hcopy|].
  destruct (kfs_streq path (lit "/proc/ps")); [apply Htext; intros b; apply Hcopy|].
  destruct (kfs_streq path (lit "/proc/fs")); [apply Htext; intros b; apply Hcopy|].
  destruct (_ || _); [done|]. destruct (kfs_mount_subpath path KFS_MNT_FAT32) as [sp|].
  { unfold on_fat, counted_rd, rd_bind, rd_ret. set (d := disk (g_vfs fs)). clearbody d.
    assert (Hb : match (Fat32.fat32_read fuel (g_fat fs) sp max_len d).1 with Ok b => Z.of_nat (length b) <= max_len | _ => True end).
    { unfold Fat32.fat32_read, rd_try, rd_bind. destruct (Fat32.resolve _ _ _ d) as [[[[cl sz] dir]| |] d1]; [|done..].
      destruct dir; [done|].
      pose proof (fat_chain_bound fuel (g_fat fs) cl (if sz <? max_len then sz else max_len) [] d1 ltac:(cbn; lia)) as Hc.
      destruct (Fat32.read_chain _ _ _ _ _ d1) as [[b| |] d2]; cbn in *; [|done..]. case_match; lia. }
    by destruct (Fat32.fat32_read _ _ _ _ d) as [[b| |] d1]. }
  destruct (kfs_mount_subpath path KFS_MNT_EXT2) as [sp|].
  { unfold on_ext2, counted_rd, rd_bind, rd_ret. set (s := (disk (g_vfs fs), g_ind fs)). clearbody s.
    assert (Hb : match (Ext2.ext2_read (g_ext2 fs) sp max_len s).1 with Ok b => Z.of_nat (length b) <= max_len | _ => True end).
    { unfold Ext2.ext2_read, rd_try, rd_bind. destruct (Ext2.resolve_inode _ _ s) as [[i| |] s1]; [|done..].
      destruct (negb _); [done|].
      pose proof (ext2_blocks_bound (Ext2.file_fuel (g_ext2 fs)) (g_ext2 fs) i 0 (if Ext2.i_size i <? max_len then Ext2.i_size i else max_len) [] s1
        ltac:(cbn; lia)) as Hc.
      destruct (Ext2.read_blocks _ _ _ _ _ _ s1) as [[b| |] s2]; cbn in *; [|done..]. case_match; lia. }
    by destruct (Ext2.ext2_read _ _ _ s) as [[b| |] [d1 c1]]. }
  destruct (g_ops fs); [|done]. unfold on_vfs, vfs_read_file. destruct (vfs_find_file _ _) as [i|]; [|done].
  rewrite Hu. pose proof (Hs i) as Hi. set (sz := size (entry (g_vfs fs) i)) in *. clearbody sz. cbv zeta.
  destruct (read_loop _ _ _ _ _ _) as [[ok out] d1]. destruct ok; cbn; [|done].
  assert (Hi32 : i32 (if max_len <? sz then max_len else sz) <= max_len) by (case_match; rewrite i32_id; ulia).
  destruct (i32 _ <? 0); done.
Qed.

(** ** Steps of the running task *)

(** Only the running task's slot and memory have changed, and not who it is. *)
Record own st st' : Prop := {
  own_wf : kernel_wf st';
  own_idx : current_task_idx st' = current_task_idx st;
  own_kernel : kernel_pml4 st' = kernel_pml4 st;
  own_roots : roots st' ≡ₚ roots st;
  own_others i : 0 <= i < 8 -> i <> current_task_idx st -> task st' i = task st i;
  own_cur : t_active (cur st') = t_active (cur st) /\ t_pid (cur st') = t_pid (cur st) /\ t_uid (cur st') = t_uid (cur st) /\
    t_gid (cur st') = t_gid (cur st) /\ pml4 (cur st') = pml4 (cur st);
  own_memory r : r ∈ roots st -> r <> pml4 (cur st) -> same_memory (mm st) (mm st') r }.

Lemma own_refl st : kernel_wf st -> own st st.
Proof. intros Hwf. by split. Qed.
Lemma own_trans st1 st2 st3 : own st1 st2 -> own st2 st3 -> own st1 st3.
Proof.
  intros [A1 A2 A3 A4 A5 (A6 & A7 & A8 & A9 & A10) A11] [B1 B2 B3 B4 B5 (B6 & B7 & B8 & B9 & B10) B11]. split.
  - done.
  - congruence.
  - congruence.
  - by rewrite B4.
  - intros i Hi Hne. rewrite B5, A5 by congruence. done.
  - split; [|split; [|split; [|split]]]; congruence.
  - intros r Hr Hne. apply (same_memory_trans _ (mm st2)); [by apply A11|]. apply B11; [by rewrite A4|congruence].
Qed.
(** Nothing but devices and files. *)
Definition devices_only st st' : Prop :=
  task_slots st' = task_slots st /\ current_task_idx st' = current_task_idx st /\ kernel_pml4 st' = kernel_pml4 st /\
  cr3 st' = cr3 st /\ mm st' = mm st.
Lemma own_devices st st' : kernel_wf st -> devices_only st st' -> own st st'.
Proof.
  intros Hwf (E1 & E2 & E3 & E4 & E5).
  assert (Et : forall i, task st' i = task st i) by (intros; unfold task; by rewrite E1).
  assert (Ec : cur st' = cur st) by (unfold cur; by rewrite Et, E2).
  assert (Er : roots st' = roots st) by (unfold roots; by rewrite E1, E3).
  split; rewrite ?Ec, ?Er; try done.
  - destruct Hwf as [W1 W2 W3 W4 W5]. split.
    + by rewrite E1.
    + by rewrite E2, Ec.
    + by rewrite E4, Ec.
    + intros i. rewrite Et. apply W4.
    + by rewrite E5, Er.
  - intros r _ _. rewrite E5. apply same_memory_refl.
Qed.
(** The slot, its identity kept. *)
Definition same_identity (t t' : TaskSlot) : Prop :=
  t_active t' = t_active t /\ t_pid t' = t_pid t /\ t_uid t' = t_uid t /\ t_gid t' = t_gid t /\ pml4 t' = pml4 t.
Lemma own_set_cur st t : kernel_wf st -> same_identity (cur st) t -> own st (set_cur st t).
Proof.
  intros Hwf Hid. pose proof (kw_cur _ Hwf) as [Hc _]. destruct Hid as (I1 & I2 & I3 & I4 & I5).
  destruct (set_task_wf st (current_task_idx st) t Hwf Hc I1 I5) as [Hw Hr].
  assert (Et : cur (set_cur st t) = t) by (apply (task_set st); [apply Hwf|done]).
  split; rewrite ?Et; try done.
  - intros i Hi Hne. apply (task_set_ne st); lia.
Qed.
Lemma own_then st st1 st2 : own st st1 -> (kernel_wf st1 -> own st1 st2) -> own st st2.
Proof. intros H1 H2. apply (own_trans st st1); [done|]. apply H2, H1. Qed.
Lemma own_isolates st st' : own st st' -> isolates st st' (pml4 (cur st)).
Proof. intros Ho. split; [apply Ho|]. split; [apply Ho|]. intros r Hr _. by apply (own_memory _ _ Ho). Qed.

(** Stores into the caller's memory. *)
Lemma own_user_store st va v st' : kernel_wf st -> user_va va -> user_store st va v = Some st' -> own st st'.
Proof.
  intros Hwf Hva Hs. destruct (user_store_isolates st va v st' Hwf Hva Hs) as ((Hw & _ & Hm) & E & Hvm & _).
  set (m := mm st') in *. clearbody m. subst st'. split; try done.
  intros r Hr Hne. by apply Hm.
Qed.
Lemma own_store_bytes bs : forall st va st', kernel_wf st -> store_bytes st va bs = Some st' ->
  64 * 2 ^ 21 <= va -> va + Z.of_nat (length bs) <= 2 ^ 30 -> own st st'.
Proof.
  induction bs as [|b bs IH]; intros st va st' Hwf; cbn [store_bytes]; [intros [= ->]; by intros; apply own_refl|].
  destruct (user_store st va b) as [st1|] eqn:E; [|done]. intros Hs Hlo Hhi. cbn [length] in Hhi.
  assert (Ho : own st st1) by (apply (own_user_store st va b); [done|unfold user_va; lia|done]).
  apply (own_then st st1 st' Ho). intros Hw. apply (IH st1 (va + 1)); [done|done|lia|lia].
Qed.
Lemma user_range addr len n : user_ptr_range_valid_64 addr len = true -> 0 <= len < 2 ^ 64 -> 0 <= addr < 2 ^ 64 ->
  Z.of_nat n <= len -> 64 * 2 ^ 21 <= addr /\ addr + Z.of_nat n <= 2 ^ 30.
Proof.
  unfold user_ptr_range_valid_64, USER_VADDR_MIN_64, USER_VADDR_MAX_64. change (2 ^ 30) with 1073741824. change (2 ^ 21) with 2097152.
  unfold u64. change (2 ^ 64) with 18446744073709551616. intros Hv Hl Ha Hn. case_match; [done|]. case_match; [done|]. dlia.
Qed.

(** ** Calls that stay with the running task *)

Definition owns st (r : option (Z * Kernel D Sc)) : Prop := match r with Some (_, st') => own st st' | None => True end.

Lemma owns_same st v : kernel_wf st -> owns st (Some (v, st)).
Proof. apply own_refl. Qed.
Lemma owns_devices st v st' : kernel_wf st -> devices_only st st' -> owns st (Some (v, st')).
Proof. apply own_devices. Qed.
Lemma own_set_fd st n e : kernel_wf st -> own st (set_fd st n e).
Proof. intros Hwf. by apply own_set_cur. Qed.
(** A device first, then a descriptor. *)
Lemma own_set_fd' st st1 n e : kernel_wf st -> devices_only st st1 -> own st (set_fd st1 n e).
Proof. intros Hwf Hd. apply (own_then st st1); [by apply own_devices|apply own_set_fd]. Qed.
Lemma own_give_up st : kernel_wf st -> own st (give_up_slice st).
Proof. intros Hwf. unfold give_up_slice. case_match; [by apply own_set_cur|by apply own_refl]. Qed.
Lemma owns_stored st st1 v va bs n len : own st st1 -> user_ptr_range_valid_64 va len = true -> 0 <= len < 2 ^ 64 ->
  0 <= va < 2 ^ 64 -> n = length bs -> Z.of_nat n <= len -> owns st (stored v (store_bytes st1 va bs)).
Proof.
  intros Ho Hv Hl Ha -> Hn. destruct (store_bytes st1 va bs) as [st2|] eqn:E; [|done]. change (own st st2).
  destruct (user_range va len (length bs) Hv Hl Ha Hn). apply (own_then st st1); [done|]. intros Hw. by apply (own_store_bytes bs st1 va).
Qed.
Lemma own_close_entry st n : kernel_wf st -> own st (fd_close_entry tcp_output st n).
Proof.
  intros Hwf. unfold fd_close_entry. destruct (bad_fd n); [by apply own_refl|]. cbv zeta. apply own_set_fd'; [done|].
  destruct (_ || _); [by case_match|]. destruct (_ && _); [done|]. by destruct (_ && _).
Qed.
Lemma close_owns st n : kernel_wf st -> owns st (Some (sys_close tcp_output st n)).
Proof. intros Hwf. unfold sys_close. destruct (_ || _); [by apply owns_same|by apply own_close_entry]. Qed.
Lemma dup_owns st n : kernel_wf st -> owns st (Some (sys_dup st n)).
Proof. intros Hwf. unfold sys_dup. destruct (_ || _); [by apply owns_same|]. case_match; [by apply owns_same|by apply own_set_fd]. Qed.
Lemma dup2_owns st n k : kernel_wf st -> owns st (Some (sys_dup2 tcp_output st n k)).
Proof.
  intros Hwf. unfold sys_dup2. destruct (_ || _); [by apply owns_same|]. destruct (bad_fd k); [by apply owns_same|].
  destruct (n =? k); [by apply owns_same|]. set (st1 := if negb _ then _ else st).
  assert (Q1 : own st st1) by (unfold st1; case_match; [by apply own_close_entry|by apply own_refl]).
  apply (own_then st st1); [done|apply own_set_fd].
Qed.
Lemma socket_owns st ty : kernel_wf st -> owns st (Some (sys_socket tcp_output st ty)).
Proof.
  intros Hwf. unfold sys_socket. destruct (_ <? 0); [by apply owns_same|]. set (n := fd_alloc _). set (e := fd st n <| sock_peer_ip := _ |> <| _ := _ |>).
  set (st1 := set_fd st n e). assert (Q1 : own st st1) by (by apply own_set_fd). pose proof (own_wf _ _ Q1) as Hw.
  destruct (ty =? 1); [apply (own_then st st1 _ Q1); apply own_set_fd|].
  destruct (ty =? 2); [|by apply (own_then st st1 _ Q1), own_close_entry].
  destruct (udp_bind (udp st1) 0) as [sock u]. set (st2 := st1 <| udp := u |>).
  assert (Q2 : own st st2) by (apply (own_then st st1 _ Q1); intros; by apply own_devices).
  destruct (sock <? 0); [by apply (own_then st st2 _ Q2), own_close_entry|by apply (own_then st st2 _ Q2), own_set_fd].
Qed.
Lemma bind_owns st n port : kernel_wf st -> owns st (Some (sys_bind st n port)).
Proof.
  intros Hwf. unfold sys_bind. destruct (bad_fd n); [by apply owns_same|]. destruct (_ =? FD_TYPE_SOCK_UDP).
  - set (st1 := if negb _ then _ else st). assert (Q1 : devices_only st st1) by (unfold st1; by case_match).
    destruct (udp_bind (udp st1) port) as [sock u]. set (st2 := st1 <| udp := u |>).
    assert (Q2 : devices_only st st2) by done. case_match; by apply own_set_fd'.
  - destruct (_ =? FD_TYPE_SOCK_TCP); [|by apply owns_same]. case_match; [by apply owns_same|by apply own_set_fd].
Qed.
Lemma listen_owns st n : kernel_wf st -> owns st (Some (sys_listen st n)).
Proof.
  intros Hwf. unfold sys_listen. destruct (_ || _); [by apply owns_same|]. case_match; [by apply owns_same|].
  case_match; [by apply owns_same|]. destruct (tcp_listen _ _) as [sock t]. set (st1 := st <| tcp := t |>).
  assert (Q1 : devices_only st st1) by done. case_match; [by apply owns_devices|by apply own_set_fd'].
Qed.
Lemma pipe_owns st va : kernel_wf st -> 0 <= va < 2 ^ 64 -> owns st (sys_pipe st va).
Proof.
  intros Hwf Hva. unfold sys_pipe. destruct (user_ptr_range_valid_64 va 8) eqn:Ev; [|by apply owns_same]. cbn [negb].
  destruct (find_idx _ _) as [p|]; [|by apply owns_same]. case_match; [by apply owns_same|].
  set (st1 := set_fd st _ _). assert (Q1 : own st st1) by (by apply own_set_fd). set (w := fd_alloc (fds st1)).
  destruct (w <? 0); [by apply (own_then st st1 _ Q1), own_set_fd|].
  set (st2 := set_fd st1 w _). assert (Q2 : own st st2) by (by apply (own_then st st1 _ Q1), own_set_fd).
  set (st3 := set_pipe st2 _ _). assert (Q3 : own st st3) by (apply (own_then st st2 _ Q2); intros; by apply own_devices).
  change (owns st (stored 0 (store_bytes st3 va (le_enc 4 (fd_alloc (fds st)) ++ le_enc 4 w)))).
  apply (owns_stored st st3 0 va _ 8 8 Q3 Ev); [lia|done|by rewrite length_app, !length_le_enc|lia].
Qed.

(** ** Reading and writing *)

Lemma tty_read_length tty n : (length (tty_read tty n).1 <= Z.to_nat n)%nat.
Proof.
  unfold tty_read. assert (Ht : forall k t, (length (tty_take k t).1 <= k)%nat).
  { induction k as [|k IH]; intros t; cbn [tty_take]; [done|]. case_match; [|cbn; lia].
    set (t' := t <| input_read := _ |> <| _ := _ |>). specialize (IH t'). destruct (tty_take k t') as [out t'']. cbn in *. lia. }
  specialize (Ht (Z.to_nat n) tty). by destruct (tty_take _ tty).
Qed.
Lemma pipe_take_length n : forall p, (length (pipe_take n p).1 <= n)%nat.
Proof.
  induction n as [|n IH]; intros p; cbn [pipe_take]; [done|]. case_match; [|cbn; lia].
  set (p' := p <| read_pos := _ |> <| _ := _ |>). specialize (IH p'). destruct (pipe_take n p') as [out p'']. cbn in *. lia.
Qed.
Lemma tcp_recv_length t i n : (length (tcp_recv tcp_output t i n).1.2 <= Z.to_nat n)%nat.
Proof.
  unfold tcp_recv. destruct (_ || _); [cbn; lia|]. destruct (_ =? 0); [cbn; lia|]. unfold rx_take. cbv zeta beta iota. cbn [fst snd].
  rewrite length_read_n. case_match; lia.
Qed.
Lemma udp_recvfrom_length u i n : (length (udp_recvfrom u i n).1.1.2 <= Z.to_nat n)%nat.
Proof.
  unfold udp_recvfrom. destruct (_ || _); [cbn; lia|]. destruct (_ =? 0); [cbn; lia|]. cbn. rewrite length_read_n. case_match; lia.
Qed.

Lemma owns_stored_then st st1 v va bs len f : own st st1 -> user_ptr_range_valid_64 va len = true -> 0 <= len < 2 ^ 64 ->
  0 <= va < 2 ^ 64 -> (length bs <= Z.to_nat len)%nat -> (forall st2, own st st2 -> own st (f st2)) ->
  owns st (match store_bytes st1 va bs with None => None | Some st2 => Some (v, f st2) end).
Proof.
  intros Ho Hv Hl Ha Hn Hf. pose proof (owns_stored st st1 v va bs (length bs) len Ho Hv Hl Ha eq_refl ltac:(lia)) as Hs.
  destruct (store_bytes st1 va bs) as [st2|]; [|done]. by apply Hf.
Qed.
Lemma read_fd_owns st n va count : kernel_wf st -> 0 <= va < 2 ^ 64 -> 0 <= count < 2 ^ 64 ->
  owns st (sys_read_fd fuel tcp_output st n va count).
Proof.
  intros Hwf Hva Hcount. unfold sys_read_fd. destruct (_ || _); [by apply owns_same|].
  destruct (count =? 0); [by apply owns_same|]. cbv zeta. set (k := if SYS_IO_BUF_MAX <? count then _ else _).
  assert (Hk : 0 <= k < 2 ^ 64) by (unfold k, SYS_IO_BUF_MAX; case_match; [split; [lia|reflexivity]|lia]). clearbody k.
  destruct (user_ptr_range_valid_64 va k) eqn:Ev; [|by apply owns_same]. cbn [negb].
  destruct (_ =? FD_TYPE_TTY).
  { pose proof (tty_read_length (kernel_tty0 (console st)) k) as Hl. destruct (tty_read _ k) as [out t]. cbn [fst] in Hl.
    set (st1 := st <| console := _ |>). assert (Q1 : own st st1) by (by apply own_devices).
    case_match; [by apply (owns_stored st st1 _ va out (length out) k); [..|lia]|]. apply (own_then st st1 _ Q1), own_give_up. }
  destruct (_ =? FD_TYPE_PIPE_R).
  { destruct (_ || _); [by apply owns_same|]. pose proof (pipe_take_length (Z.to_nat k) (pipe st (fd_pipe_idx (fd st n)))) as Hl.
    destruct (pipe_take _ _) as [out p]. cbn [fst] in Hl. set (st1 := set_pipe st _ p).
    assert (Q1 : own st st1) by (by apply own_devices). by apply (owns_stored st st1 _ va out (length out) k); [..|lia]. }
  destruct (_ =? FD_TYPE_FILE).
  { destruct (kfs_read_file _ _ _ _ _) as [[[total out]| |] fs]; [|by apply owns_devices|done].
    set (st1 := st <| files := fs |>). assert (Q1 : own st st1) by (by apply own_devices).
    destruct (total <? 0); [done|]. destruct (_ <=? 0); [done|].
    set (j := if k <? _ then k else _). assert (Hj : (Z.to_nat j <= Z.to_nat k)%nat) by (unfold j; case_match; lia). clearbody j.
    apply (owns_stored_then st st1 _ va _ k); [done..|by rewrite length_read_n|]. intros st2 Q2. by apply (own_then st st2 _ Q2), own_set_fd. }
  assert (Hwait : forall r st2, own st st2 -> own st (if r =? 0 then give_up_slice st2 else st2)).
  { intros r st2 Q2. case_match; [by apply (own_then st st2 _ Q2), own_give_up|done]. }
  destruct ((_ =? FD_TYPE_SOCK_TCP) && _).
  { pose proof (tcp_recv_length (tcp st) (fd_pipe_idx (fd st n)) k) as Hl. destruct (tcp_recv _ _ _ k) as [[r out] t]. cbn [fst snd] in Hl.
    set (st1 := st <| tcp := t |>). assert (Q1 : own st st1) by (by apply own_devices).
    apply (owns_stored_then st st1 r va out k (fun st2 => if r =? 0 then give_up_slice st2 else st2)); [done..|]. apply Hwait. }
  destruct ((_ =? FD_TYPE_SOCK_UDP) && _); [|by apply owns_same].
  pose proof (udp_recvfrom_length (udp st) (fd_pipe_idx (fd st n)) k) as Hl. destruct (udp_recvfrom _ _ k) as [[[r out] src] u]. cbn [fst snd] in Hl.
  set (st1 := st <| udp := u |>). assert (Q1 : own st st1) by (by apply own_devices).
  apply (owns_stored_then st st1 r va out k (fun st2 => if r =? 0 then give_up_slice st2 else st2)); [done..|]. apply Hwait.
Qed.
Lemma write_fd_owns st n va count : kernel_wf st -> owns st (sys_write_fd tcp_output udp_output st n va count).
Proof.
  intros Hwf. unfold sys_write_fd. destruct (_ || _); [by apply owns_same|]. destruct (count =? 0); [by apply owns_same|]. cbv zeta.
  set (k := if SYS_IO_BUF_MAX <? count then _ else _). clearbody k. destruct (negb _); [by apply owns_same|].
  destruct (_ =? FD_TYPE_TTY); [case_match; [by apply owns_devices|done]|].
  destruct (_ =? FD_TYPE_PIPE_W).
  { destruct (_ || _); [by apply owns_same|]. destruct (pipe_put _ _). case_match; [by apply owns_devices|done]. }
  destruct (_ =? FD_TYPE_FILE); [case_match; [done|]; destruct (kfs_write_file _ _ _ _); by apply owns_devices|].
  destruct ((_ =? FD_TYPE_SOCK_TCP) && _); [destruct (tcp_send _ _ _ _ _); case_match; [by apply owns_devices|done]|].
  destruct ((_ =? FD_TYPE_SOCK_UDP) && _); [|by apply owns_same].
  destruct (udp_sendto _ _ _ _ _ _ _). case_match; [by apply owns_devices|done].
Qed.
Lemma vfs_read_owns st path va n : kernel_wf st -> sizes_ok (files st) -> 0 <= va < 2 ^ 64 -> 0 <= n < 2 ^ 64 ->
  owns st (syscall_vfs_read_64 fuel st path va n).
Proof.
  intros Hwf Hs Hva Hn. unfold syscall_vfs_read_64. destruct (_ || _) eqn:En; [by apply owns_same|].
  apply orb_false_iff in En as [E1 E2]. unfold SYS_IO_BUF_MAX in E2.
  destruct (user_ptr_range_valid_64 va n) eqn:Ev; [|by apply owns_same]. cbn [negb].
  destruct (copy_user_path_64 st path) as [[p|]|]; [|by apply owns_same|done].
  pose proof (kfs_read_bound (kfs_env st) p n (files st) Hs ltac:(lia)) as Hb.
  destruct (kfs_read_file _ _ _ _ _) as [[[k out]| |] fs]; cbn [fst] in Hb; [|by apply owns_devices|done].
  set (st1 := st <| files := fs |>). assert (Q1 : own st st1) by (by apply own_devices). destruct (Z.ltb_spec k 0); [done|].
  apply (owns_stored st st1 k va _ (Z.to_nat k) n); try done; [by rewrite length_read_n|lia].
Qed.
Lemma vfs_write_owns st path va n : kernel_wf st -> owns st (syscall_vfs_write_64 st path va n).
Proof.
  intros Hwf. unfold syscall_vfs_write_64. destruct (_ || _); [by apply owns_same|]. case_match; [by apply owns_same|].
  destruct (copy_user_path_64 st path) as [[p|]|]; [|by apply owns_same|done]. destruct (load_bytes _ _ _); [|done].
  destruct (kfs_write_file _ _ _ _). by apply owns_devices.
Qed.
Lemma open_owns st path flags : kernel_wf st -> owns st (sys_open fuel st path flags).
Proof.
  intros Hwf. unfold sys_open. cbv zeta. case_match; [by apply owns_same|].
  destruct (copy_user_path_64 st path) as [[p|]|]; [|by apply owns_same|done].
  destruct (kfs_find_file _ _ _) as [[?| |] fs]; [|by apply owns_devices|done]. by apply own_set_fd'.
Qed.
Lemma mkdir2_owns st path : kernel_wf st -> owns st (sys_mkdir2 st path).
Proof.
  intros Hwf. unfold sys_mkdir2. destruct (copy_user_path_64 st path) as [[p|]|]; [|by apply owns_same|done].
  destruct (kfs_mkdir _ _). by apply owns_devices.
Qed.
Lemma chdir_owns stack st path : kernel_wf st -> owns st (sys_chdir fuel stack st path).
Proof.
  intros Hwf. unfold sys_chdir. case_match; [by apply owns_same|].
  destruct (copy_user_path_64 st path) as [[p|]|]; [|by apply owns_same|done]. case_match; [by apply owns_same|].
  destruct (_ =? 0); [by apply own_set_cur|]. destruct (kfs_find_file _ _ _) as [[?| |] fs]; [|by apply owns_devices|done].
  set (st1 := st <| files := fs |>). apply (own_then st st1); [by apply own_devices|]. intros. by apply own_set_cur.
Qed.
Lemma getcwd_owns st va n : kernel_wf st -> 0 <= va < 2 ^ 64 -> 0 <= n < 2 ^ 64 -> owns st (sys_getcwd st va n).
Proof.
  intros Hwf Hva Hn. unfold sys_getcwd. case_match; [by apply owns_same|]. cbv zeta. set (len := Z.of_nat (length (cstr _))).
  destruct (Z.ltb_spec len n); cbn [andb]; [|by apply owns_same].
  destruct (user_ptr_range_valid_64 va (len + 1)) eqn:Ev; [|by apply owns_same].
  apply (owns_stored st st len va _ (length (take (Z.to_nat (len + 1)) (cwd (cur st)))) (len + 1)).
  - by apply own_refl.
  - done.
  - lia.
  - done.
  - done.
  - rewrite length_take. lia.
Qed.
Lemma mmap_owns st l pf path : kernel_wf st -> owns st (sys_mmap st l pf path).
Proof.
  intros Hwf. unfold sys_mmap. case_match; [by apply owns_same|]. cbv zeta. case_match; [by apply owns_same|].
  destruct (find_idx _ _); [|by apply owns_same]. case_match; [by apply own_set_cur|].
  destruct (copy_user_path_64 st path) as [[?|]|]; [by apply own_set_cur..|done].
Qed.
Lemma munmap_owns st a l : kernel_wf st -> owns st (Some (sys_munmap st a l)).
Proof. intros Hwf. unfold sys_munmap. case_match; [by apply owns_same|]. destruct (find_idx _ _); [by apply own_set_cur|by apply owns_same]. Qed.
Lemma yield_owns st : kernel_wf st -> owns st (Some (sys_yield st)).
Proof. intros Hwf. unfold sys_yield. case_match; [by apply own_set_cur|by apply owns_same]. Qed.
Lemma umask_owns st m : kernel_wf st -> owns st (Some (sys_umask st m)).
Proof. intros Hwf. unfold sys_umask. case_match; [by apply owns_same|by apply own_set_cur]. Qed.

(** ** Who may change whom *)

(** Same process; other credentials only for root. *)
Definition keeps_identity (t t' : TaskSlot) : Prop :=
  t_pid t' = t_pid t /\ (t_uid t' = t_uid t /\ t_gid t' = t_gid t \/ t_uid t = 0).
(** A task keeps its slot unless it is the running one, which keeps its identity; a new one has the
    running task's credentials. *)
Record slots_kept st st' : Prop := {
  sk_other i : 0 <= i < 8 -> i <> current_task_idx st -> t_active (task st i) = true -> t_active (task st' i) = true ->
    task st' i = task st i;
  sk_cur : t_active (task st' (current_task_idx st)) = true -> keeps_identity (cur st) (task st' (current_task_idx st));
  sk_new i : 0 <= i < 8 -> t_active (task st i) = false -> t_active (task st' i) = true ->
    t_uid (task st' i) = t_uid (cur st) /\ t_gid (task st' i) = t_gid (cur st) }.
Definition protects st st' : Prop := isolates st st' (pml4 (cur st)) /\ slots_kept st st'.

Lemma keeps_refl t : keeps_identity t t.
Proof. split; [done|by left]. Qed.
Lemma slots_same st st' : task_slots st' = task_slots st -> slots_kept st st'.
Proof.
  intros E. assert (Et : forall i, task st' i = task st i) by (intros; unfold task; by rewrite E).
  split; intros; rewrite ?Et in *; [done|apply keeps_refl|congruence].
Qed.
Lemma slots_put st st' i t : kernel_wf st -> 0 <= i < 8 -> task_slots st' = puti (task_slots st) i t ->
  t_active t = false \/ (i = current_task_idx st /\ keeps_identity (cur st) t) \/
    (t_active (task st i) = false /\ t_uid t = t_uid (cur st) /\ t_gid t = t_gid (cur st)) -> slots_kept st st'.
Proof.
  intros Hwf Hi E Ht. pose proof (kw_cur _ Hwf) as [Hc Hca]. unfold cur in Hca.
  assert (Ei : task st' i = t) by (unfold task; rewrite E; apply geti_puti_eq; rewrite (kw_len _ Hwf); lia).
  assert (Ej : forall j, 0 <= j < 8 -> j <> i -> task st' j = task st j) by (intros; unfold task; rewrite E; apply geti_puti_ne; lia).
  split.
  - intros j Hj Hjc Ha Ha'. destruct (Z.eq_dec j i) as [->|]; [|by apply Ej]. rewrite Ei in Ha'.
    destruct Ht as [Hx|[[Hx _]|[Hx _]]]; congruence.
  - destruct (Z.eq_dec (current_task_idx st) i) as [Ec|]; [|intros _; rewrite Ej by done; apply keeps_refl].
    rewrite Ec, Ei. intros Ha. destruct Ht as [Hx|[[_ Hx]|[Hx _]]]; [congruence|done|congruence].
  - intros j Hj Ha Ha'. destruct (Z.eq_dec j i) as [->|]; [|rewrite Ej in Ha' by done; congruence]. rewrite Ei in *.
    destruct Ht as [Hx|[[-> _]|[_ Hx]]]; [congruence|congruence|done].
Qed.
Lemma own_protects st st' : kernel_wf st -> own st st' -> protects st st'.
Proof.
  intros Hwf Ho. split; [by apply own_isolates|]. destruct Ho as [Hw Hi Hk Hr Hoth (A1 & A2 & A3 & A4 & A5) Hm].
  pose proof (kw_cur _ Hwf) as [Hc Hca]. unfold cur in A1, A2, A3, A4. rewrite Hi in A1, A2, A3, A4. fold (cur st) in *. split.
  - intros. by apply Hoth.
  - intros _. split; [done|by left].
  - intros i Hi' Ha Ha'. destruct (Z.eq_dec i (current_task_idx st)) as [->|]; [unfold cur in Hca; congruence|]. rewrite Hoth in Ha' by done. congruence.
Qed.
Lemma set_cur_protects st t : kernel_wf st -> t_active t = t_active (cur st) -> pml4 t = pml4 (cur st) -> keeps_identity (cur st) t ->
  protects st (set_cur st t).
Proof.
  intros Hwf Ha Hp Hk. pose proof (kw_cur _ Hwf) as [Hc _]. split; [by apply isolates_set_task|].
  apply (slots_put st _ (current_task_idx st) t); [done|done|done|]. by right; left.
Qed.
Lemma setuid_protects st v : kernel_wf st -> protects st (sys_setuid st v).2.
Proof.
  intros Hwf. pose proof (kw_cur _ Hwf) as [Hc _]. unfold sys_setuid. rewrite (proj2 (Z.ltb_ge _ _)) by lia. cbv zeta.
  destruct (_ || _) eqn:E; [|by apply own_protects, own_refl]. apply set_cur_protects; [done..|]. split; [done|]. cbn.
  apply orb_prop in E as [E|E]; apply Z.eqb_eq in E; auto.
Qed.
Lemma setgid_protects st v : kernel_wf st -> protects st (sys_setgid st v).2.
Proof.
  intros Hwf. pose proof (kw_cur _ Hwf) as [Hc _]. unfold sys_setgid. rewrite (proj2 (Z.ltb_ge _ _)) by lia. cbv zeta.
  destruct (_ || _) eqn:E; [|by apply own_protects, own_refl]. apply set_cur_protects; [done..|]. split; [done|]. cbn.
  apply orb_prop in E as [E|E]; apply Z.eqb_eq in E; auto.
Qed.

(** The calls that reach other slots. *)
Lemma fork_slots st frame : kernel_wf st -> slots_kept st (sys_fork st frame).2.
Proof.
  intros Hwf. pose proof (kw_cur _ Hwf) as [Hc Hca]. unfold sys_fork. rewrite (proj2 (Z.ltb_ge _ 0)) by lia.
  destruct (free_slot st) as [slot|] eqn:Ef; [|by apply slots_same]. destruct (sched st) as [s|]; [|by apply slots_same].
  destruct (scheduler_create_process s 5 _) as [pid s1].
  pose proof (find_idx_lt _ _ _ Ef) as Hlt. rewrite (kw_len _ Hwf) in Hlt.
  apply find_idx_Some in Ef as [(x & Hx & Hf) _]. apply (lookup_geti (task_slots st)) in Hx. fold (task st (Z.of_nat slot)) in Hx. subst x.
  apply negb_true_iff in Hf. cbv zeta. destruct (paging_create_address_space _ _) as [c m]. destruct (if c =? 0 then _ else _) as [rc m'].
  case_match; (eapply slots_put; [done| |done|]; [lia|]); [by left|by right; right].
Qed.
Lemma kill_slots st pid sig : kernel_wf st -> slots_kept st (sys_kill st pid sig).2.
Proof.
  intros Hwf. unfold sys_kill. destruct (sched st) as [s|]; [|by apply slots_same]. destruct (scheduler_signal_send _ _ _) as [rc s1].
  cbv zeta. destruct (_ || _); [|by apply slots_same]. destruct (find_idx _ _) as [i|] eqn:Ef; [|by apply slots_same].
  apply (find_victim (st <| sched := Some s1 |>)) in Ef as [Hi _]; [|apply Hwf].
  apply (slots_put st _ (Z.of_nat i) (task st (Z.of_nat i) <| pml4 := 0 |> <| t_active := false |>)); [done|lia| |by left].
  unfold release_space. by case_match.
Qed.
Lemma exit_slots st code : kernel_wf st -> match sys_exit st code with Some (_, st') => slots_kept st st' | None => True end.
Proof.
  intros Hwf. unfold sys_exit. cbv zeta. destruct (_ && _); [|done]. destruct (0 <=? next_active _ _ _); [|done]. unfold switch_to. cbv zeta.
  apply (slots_put st _ (current_task_idx st) (cur st <| pml4 := 0 |> <| t_active := false |>)); [done|apply Hwf| |by left].
  unfold release_space, task_switch_cr3. by repeat case_match.
Qed.
Lemma timer_slots st frame : kernel_wf st -> slots_kept st (timer_switch st frame).2.
Proof.
  intros Hwf. unfold timer_switch. destruct (_ && _); [|by apply slots_same]. cbv zeta.
  set (c := if 0 <? ticks_remaining (cur st) then _ else _).
  assert (Hcc : keeps_identity (cur st) c) by (unfold c; case_match; (split; [done|by left])).
  assert (Hput : forall st' t, keeps_identity (cur st) t -> task_slots st' = puti (task_slots st) (current_task_idx st) t -> slots_kept st st').
  { intros st' t Hk E. apply (slots_put st _ (current_task_idx st) t); [done|apply Hwf|done|]. by right; left. }
  destruct (_ =? 0); [|by apply (Hput _ c)]. clearbody c. case_match; (eapply Hput; [|done]); done.
Qed.

Lemma demand_slots st va : match demand_page fuel st va with
  | Some (_, st') => task_slots st' = task_slots st /\ current_task_idx st' = current_task_idx st | None => True end.
Proof.
  unfold demand_page. destruct (_ <? 0); [done|]. destruct (vma_find _ _) as [v|]; [|done]. cbv zeta. destruct (frame_alloc _) as [f m].
  destruct (f =? 0); [done|]. set (st1 := st <| mm := m |>). destruct (_ && _); [|done].
  pose proof (file_page_ok fuel st1 v (Z.land va 0xFFFFFFFFFFFFF000)) as Hf.
  destruct (file_page _ _ _ _) as [[bs st2]|]; [|done]. by destruct Hf as (_ & fs & ->).
Qed.
Lemma exception_slots st frame va frame' st' : kernel_wf st -> exception fuel st frame va = Some (frame', st') -> slots_kept st st'.
Proof.
  intros Hwf. unfold exception. cbv zeta. destruct (if _ && _ && _ then _ else _) as [cow m]. set (st0 := st <| mm := m |>).
  destruct (cow =? 0); [intros [= <- <-]; by apply slots_same|]. destruct (_ =? 3); [|done].
  assert (Hd : match (if f_int_no frame =? 14 then demand_page fuel st0 va else Some (false, st0)) with
    | Some (_, st1) => task_slots st1 = task_slots st /\ current_task_idx st1 = current_task_idx st | None => True end).
  { destruct (_ =? 14); [exact (demand_slots st0 va)|done]. }
  destruct (if f_int_no frame =? 14 then _ else _) as [[[|] st1]|]; [|..|done]; destruct Hd as [E1 E2].
  - intros [= <- <-]. by apply slots_same.
  - unfold fault_kill. cbv zeta. set (st2 := match sched st1 with Some _ => _ | None => st1 end).
    assert (E : task_slots st2 = task_slots st /\ current_task_idx st2 = current_task_idx st).
    { rewrite <- E1, <- E2. unfold st2. by repeat case_match. }
    destruct E as [E3 E4]. destruct (_ && _); [|done]. destruct (0 <=? _); [|done]. intros [= _ <-].
    apply (slots_put st _ (current_task_idx st) (cur st2 <| t_active := false |>)); [done|apply Hwf| |by left].
    cbn. by rewrite E3, E4.
Qed.
Lemma sbrk_slots st inc : kernel_wf st -> slots_kept st (sys_sbrk st inc).2.
Proof.
  intros Hwf. pose proof (kw_cur _ Hwf) as [Hc _]. unfold sys_sbrk. rewrite (proj2 (Z.ltb_ge _ _)) by lia. cbv zeta.
  set (t := if brk (cur st) =? 0 then _ else _).
  assert (Hput : forall st' t', keeps_identity (cur st) t' ->
    task_slots st' = puti (puti (task_slots st) (current_task_idx st) t) (current_task_idx st) t' -> slots_kept st st').
  { intros st' t' Hk E. apply (slots_put st _ (current_task_idx st) t'); [done|done|by rewrite E, puti_same|]. by right; left. }
  assert (Ht : keeps_identity (cur st) t) by (unfold t; case_match; (split; [done|by left])).
  assert (Hset : forall st', task_slots st' = puti (task_slots st) (current_task_idx st) t -> slots_kept st st').
  { intros st' E. apply (slots_put st _ (current_task_idx st) t); [done|done|done|]. by right; left. }
  destruct (inc =? 0); [by apply Hset|]. clearbody t.
  destruct (0 <? inc); [|by apply (Hput _ (t <| brk := u64 (brk t + inc) |>))].
  destruct (alloc_pages _ _ _ _ _ _) as [ok m]. destruct ok; [|by apply Hset].
  by apply (Hput _ (t <| brk := u64 (brk t + inc) |>)).
Qed.
(** The segments of the program that is executed lie in the user's range and apart. *)
Definition exec_in_range st path_ptr : Prop := forall path size st1, copy_user_path_64 st path_ptr = Some (Some path) ->
  read_program fuel st path = Some (size, st1) -> layout_ok (layout around st1 size).
Lemma execve_protects st frame path_ptr rc frame' st' : kernel_wf st -> exec_in_range st path_ptr ->
  sys_execve fuel tcp_output around st frame path_ptr = Some (rc, frame', st') -> protects st st'.
Proof.
  intros Hwf Hr. destruct (copy_user_path_64 st path_ptr) as [[path|]|] eqn:Ep.
  - destruct (read_program fuel st path) as [[size st1]|] eqn:Er.
    + destruct (sys_execve_ok fuel around tcp_output st frame path_ptr path size st1 Hwf Ep Er (Hr path size st1 Ep Er))
        as (rc1 & f1 & st2 & -> & [Hw [Hi Hk] Hm Ht (I1 & I2 & I3) _]). intros [= <- <- <-].
      destruct (read_program_wf fuel st path size st1 Hwf Er) as (_ & Em & Es & Ek & Ec & Ero & _).
      assert (Et : forall i, task st1 i = task st i) by (intros; unfold task; by rewrite Es).
      rewrite Em, Ero in Hm. rewrite Ec in Hi, Ht. rewrite Ek in Hk. unfold cur in I1, I2, I3. rewrite Hi, Ec, Et in I1, I2, I3.
      split; [split; [done|]; split; [done|]; intros; by apply Hm|]. split.
      * intros i Hi' Hne _ _. by rewrite Ht, Et.
      * intros _. split; [done|by left].
      * intros i Hi' Ha Ha'. pose proof (kw_cur _ Hwf) as [_ Hca]. unfold cur in Hca.
        destruct (Z.eq_dec i (current_task_idx st)) as [->|]; [congruence|]. rewrite Ht, Et in Ha' by done. congruence.
    + unfold sys_execve. rewrite Ep, Er. case_match; [|done]. intros [= <- <- <-]. by apply own_protects, own_refl.
  - unfold sys_execve. rewrite Ep. case_match; intros [= <- <- <-]; by apply own_protects, own_refl.
  - unfold sys_execve. rewrite Ep. case_match; [|done]. intros [= <- <- <-]. by apply own_protects, own_refl.
Qed.

(** ** The dispatcher *)

Context (bcache_sync : D -> Z * D) (kernel_call : Kernel D Sc -> Z -> Z -> Z -> Z -> Z * Kernel D Sc).
Context (interrupts : Kernel D Sc -> Kernel D Sc) (polls : nat) (garbage : Sha256Context) (stack : bytes).
Context (poll : Kernel D Sc -> Kernel D Sc).
Abbreviation value := (syscall_value fuel tcp_output udp_output bcache_sync kernel_call interrupts polls garbage stack).
Abbreviation dispatch := (interrupt_dispatch fuel tcp_output udp_output around bcache_sync kernel_call interrupts polls garbage stack poll).

(** The calls of this file that return without waiting: not waitpid, connect and accept, during
    which other tasks run, and not those that the dispatcher passes on. *)
Definition direct_calls : list Z :=
  [SYS_USER_TEST; SYS_EXIT; SYS_GETPID; SYS_KILL; SYS_READ; SYS_WRITE; SYS_OPEN; SYS_READ_FD; SYS_WRITE_FD; SYS_CLOSE; SYS_DUP;
   SYS_DUP2; SYS_PIPE; SYS_FORK; SYS_EXECVE; SYS_SBRK; SYS_MMAP; SYS_MUNMAP; SYS_SYNC; SYS_SETUID; SYS_SETGID; SYS_GETUID;
   SYS_GETGID; SYS_CHDIR; SYS_GETCWD; SYS_UMASK; SYS_YIELD; SYS_SOCKET; SYS_BIND; SYS_AUTH; SYS_MKDIR2; SYS_LISTEN].
Record call_ok st frame : Prop := {
  call_direct : f_rax frame ∈ direct_calls;
  call_regs : 0 <= f_rbx frame < 2 ^ 64 /\ 0 <= f_rcx frame < 2 ^ 64 /\ 0 <= f_rdx frame < 2 ^ 64;
  call_sbrk : f_rax frame = SYS_SBRK -> sbrk_in_range st (i64 (f_rbx frame));
  call_exec : f_rax frame = SYS_EXECVE -> exec_in_range st (f_rbx frame);
  call_read : f_rax frame = SYS_READ -> sizes_ok (files st) }.

Definition protected st (r : option (Z * Kernel D Sc)) : Prop := match r with Some (_, st') => protects st st' | None => True end.
Lemma owns_protected st r : kernel_wf st -> owns st r -> protected st r.
Proof. intros Hwf. destruct r as [[v st']|]; [|done]. by apply own_protects. Qed.
Lemma pair_protected st (r : Z * Kernel D Sc) : protects st r.2 -> protected st (Some r).
Proof. by destruct r. Qed.
Lemma fork_protects st frame : kernel_wf st -> protects st (sys_fork st frame).2.
Proof.
  intros Hwf. split; [|by apply fork_slots]. pose proof (fork_isolates st frame Hwf) as Hf.
  destruct (sys_fork st frame) as [rc st']. destruct Hf as [(Hw & Hk & Hm) _]. split; [done|]. split; [done|].
  intros r Hr Hr' _. apply (Hm r Hr Hr'). intros ->.
  destruct (table_live (mm st) (roots st) (kw_vm _ Hwf) 0 0 Hr (root_in _ _)) as [[Hb _] _].
  destruct (fw_base _ (vw_frames _ _ (kw_vm _ Hwf))). lia.
Qed.
Lemma kill_protects st pid sig : kernel_wf st -> protects st (sys_kill st pid sig).2.
Proof.
  intros Hwf. split; [|by apply kill_slots]. pose proof (kill_isolates st pid sig Hwf) as Hk. by destruct (sys_kill st pid sig).
Qed.
Lemma sbrk_protects st inc : kernel_wf st -> sbrk_in_range st inc -> protects st (sys_sbrk st inc).2.
Proof.
  intros Hwf Hr. split; [|by apply sbrk_slots]. pose proof (sbrk_isolates st inc Hwf Hr) as Hk. by destruct (sys_sbrk st inc).
Qed.
Lemma waits_not_direct : SYS_WAITPID ∉ direct_calls /\ SYS_CONNECT ∉ direct_calls /\ SYS_ACCEPT ∉ direct_calls.
Proof. apply (bool_decide_unpack _). vm_compute. exact I. Qed.
Ltac next_call := match goal with |- protected _ (if ?n =? ?k then _ else _) => destruct (Z.eqb_spec n k) as [Heq|] end.
Lemma value_protected st frame : kernel_wf st -> call_ok st frame -> f_rax frame <> SYS_EXIT -> f_rax frame <> SYS_EXECVE ->
  protected st (value st frame).
Proof.
  intros Hwf [Hd (Hb & Hc & Hdx) Hs _ Hr] Nx Ne. unfold syscall_value. cbv zeta. pose proof (kw_cur _ Hwf) as [Hi _].
  destruct waits_not_direct as (W1 & W2 & W3). rewrite (proj2 (Z.leb_le _ _)) by lia. pose proof (owns_protected st) as Ho. set (num := f_rax frame) in *.
  next_call; [by apply Ho, owns_same|]. next_call; [by rewrite Heq in Hd|].
  next_call; [by apply Ho, owns_same|]. next_call; [by apply Ho, yield_owns|]. next_call; [by apply pair_protected, kill_protects|].
  next_call; [by apply Ho, vfs_read_owns; auto|]. next_call; [by apply Ho, vfs_write_owns|].
  next_call; [by apply Ho, socket_owns|]. next_call; [by rewrite Heq in Hd|].
  next_call; [by apply Ho, bind_owns|]. next_call; [by apply Ho, listen_owns|].
  next_call; [by rewrite Heq in Hd|].
  next_call; [destruct (sys_auth _ _ _ _); [by apply Ho, owns_same|done]|]. next_call; [by apply Ho, mkdir2_owns|].
  next_call; [by apply Ho, open_owns|]. next_call; [by apply Ho, read_fd_owns|]. next_call; [by apply Ho, write_fd_owns|].
  next_call; [by apply Ho, close_owns|]. next_call; [by apply Ho, dup_owns|]. next_call; [by apply Ho, dup2_owns|].
  next_call; [by apply Ho, pipe_owns|]. next_call; [by apply pair_protected, fork_protects|].
  next_call; [by apply pair_protected, sbrk_protects; auto|]. next_call; [by apply Ho, mmap_owns|].
  next_call; [by apply Ho, munmap_owns|].
  next_call; [unfold sys_sync; destruct (bcache_sync _); by apply Ho, owns_devices|].
  next_call; [by apply pair_protected, setuid_protects|]. next_call; [by apply pair_protected, setgid_protects|].
  next_call; [by apply Ho, owns_same|]. next_call; [by apply Ho, owns_same|]. next_call; [by apply Ho, chdir_owns|].
  next_call; [by apply Ho, getcwd_owns|]. next_call; [by apply Ho, umask_owns|]. exfalso.
  unfold direct_calls in Hd. rewrite !elem_of_cons, elem_of_nil in Hd. intuition congruence.
Qed.
Lemma syscall_protects st frame frame' st' : kernel_wf st -> call_ok st frame ->
  syscall fuel tcp_output udp_output around bcache_sync kernel_call interrupts polls garbage stack st frame = Some (frame', st') ->
  protects st st'.
Proof.
  intros Hwf Hok. unfold syscall. destruct (Z.eqb_spec (f_rax frame) SYS_EXIT).
  - intros E. pose proof (exit_isolates st (f_rbx frame) Hwf) as Hi. pose proof (exit_slots st (f_rbx frame) Hwf) as Hs.
    rewrite E in Hi, Hs. by split.
  - destruct (Z.eqb_spec (f_rax frame) SYS_EXECVE) as [Hx|].
    + destruct (sys_execve _ _ _ st frame _) as [[[rc f] st1]|] eqn:E; [|done]. intros [= _ <-].
      apply (execve_protects st frame (f_rbx frame) rc f st1 Hwf); [by apply Hok|exact E].
    + pose proof (value_protected st frame Hwf Hok ltac:(done) ltac:(done)) as Hv.
      destruct (value st frame) as [[v st1]|]; [|done]. by intros [= _ <-].
Qed.
Lemma protects_after st st1 st2 : devices_only st st1 -> protects st1 st2 -> protects st st2.
Proof.
  intros (E1 & E2 & E3 & E4 & E5) [(Hw & Hk & Hm) [A B C]].
  assert (Et : forall i, task st1 i = task st i) by (intros; unfold task; by rewrite E1).
  assert (Ec : cur st1 = cur st) by (unfold cur; by rewrite Et, E2).
  assert (Er : roots st1 = roots st) by (unfold roots; by rewrite E1, E3).
  rewrite Er, Ec, E5 in Hm. rewrite E2, Ec in B. split; [split; [done|]; split; [congruence|exact Hm]|]. split.
  - intros i. rewrite <- (Et i), <- E2. apply A.
  - exact B.
  - intros i. rewrite <- (Et i), <- Ec. apply C.
Qed.
Lemma devices_wf st st1 : kernel_wf st -> devices_only st st1 -> kernel_wf st1.
Proof. intros Hwf Hd. apply (own_devices st st1 Hwf Hd). Qed.

(** What the polls of the timer interrupt do, they do to devices. *)
Hypothesis poll_devices : forall st, devices_only st (poll st).

Lemma irq0_protects received st frame : kernel_wf st -> protects st (irq0 poll tcp_output received st frame).2.
Proof.
  intros Hwf. unfold irq0. cbv zeta. set (st1 := st <| kernel_tick := _ |>). destruct (poll_devices st1) as (P1 & P2 & P3 & P4 & P5).
  set (st2 := poll st1) in *. set (st3 := st2 <| tcp := _ |>). set (st4 := st3 <| console := _ |>).
  assert (Hd : devices_only st st4) by (split; [exact P1|split; [exact P2|split; [exact P3|split; [exact P4|exact P5]]]]).
  pose proof (devices_wf st st4 Hwf Hd) as Hw4. apply (protects_after st st4 _ Hd).
  split; [|by apply timer_slots]. pose proof (timer_isolates st4 frame (pml4 (cur st4)) Hw4) as Ht. by destruct (timer_switch st4 frame).
Qed.

(** What the kernel is entered with: a fault in the user's range, or a call that it can answer. *)
Definition entry_ok (hw : Hardware) st frame : Prop :=
  if f_int_no frame =? 0x80 then call_ok st frame else f_int_no frame <= 19 -> user_va (fault_addr hw).
(** One entry into the kernel, or one store of the running task into its memory.  After an exception the
    task that faulted runs on. *)
Inductive kernel_step st : Kernel D Sc -> Prop :=
| ks_enter hw frame frame' st' : entry_ok hw st frame -> dispatch hw st frame = Some (frame', st') ->
    (f_int_no frame <= 19 -> current_task_idx st' = current_task_idx st) -> kernel_step st st'
| ks_store va v st' : user_va va -> user_store st va v = Some st' -> kernel_step st st'.

Lemma kernel_step_protects st st' : kernel_wf st -> kernel_step st st' -> protects st st'.
Proof.
  intros Hwf [hw frame frame' st1 Hok E Hres|va v st1 Hva E].
  - unfold entry_ok in Hok. unfold interrupt_dispatch in E. cbv zeta in E.
    destruct (Z.eqb_spec (f_int_no frame) 0x20).
    { pose proof (irq0_protects (received hw) st frame Hwf) as Hp. destruct (irq0 _ _ _ st frame). by injection E as <- <-. }
    destruct (Z.eqb_spec (f_int_no frame) 0x21); [injection E as <- <-; by apply own_protects, own_devices|].
    destruct (_ =? 0x2C); [injection E as <- <-; by apply own_protects, own_refl|].
    destruct (_ && _); [injection E as <- <-; by apply own_protects, own_refl|].
    destruct (f_int_no frame =? 0x80); [by apply (syscall_protects st frame frame')|].
    destruct (Z.leb_spec (f_int_no frame) 19) as [Hv|]; [|done].
    split; [by apply (exception_isolates fuel st frame (fault_addr hw) frame'); auto|by apply (exception_slots st frame (fault_addr hw) frame')].
  - by apply own_protects, (own_user_store st va v).
Qed.
Lemma run_wf st0 st : kernel_wf st0 -> rtc kernel_step st0 st -> kernel_wf st.
Proof.
  intros Hwf0 Hrun. induction Hrun as [|s s1 s2 Q1 _ IH]; [done|]. apply IH. by destruct (kernel_step_protects s s1) as [[Hw _] _].
Qed.
Definition no_root st : Prop := forall i, 0 <= i < 8 -> t_active (task st i) = true -> t_uid (task st i) <> 0.
Lemma no_root_step st st' : kernel_wf st -> no_root st -> kernel_step st st' -> no_root st'.
Proof.
  intros Hwf Hn Hs i Hi Ha. destruct (kernel_step_protects st st' Hwf Hs) as [_ [A B C]]. pose proof (kw_cur _ Hwf) as [Hc Hca].
  pose proof (Hn (current_task_idx st) Hc Hca) as Hcur. fold (cur st) in Hcur.
  destruct (Z.eq_dec i (current_task_idx st)) as [->|Hne]; [destruct (B Ha) as [_ [[-> _]|]]; done|].
  destruct (t_active (task st i)) eqn:E; [rewrite A by done; by apply Hn|]. by destruct (C i Hi E Ha) as [-> _].
Qed.

(** C7. In every state that interrupts, system calls, resumed faults and the tasks' own stores reach, one more of
    these steps leaves the running task's page tables in CR3, gives every active task a space that is
    its own or the kernel's, and changes no byte of a space that stays in use other than the
    running task's: processes cannot reach each other's memory, although fork shares their frames and
    read, getcwd, pipe and recv store into addresses that the caller names (sbrk and execve are taken
    within the user range; waitpid, connect, accept and the calls passed on to IPC, modules and the Rust
    core are left out). *)
Theorem processes_isolated st0 st st' : kernel_wf st0 -> rtc kernel_step st0 st -> kernel_step st st' ->
  t_active (cur st') = true /\ cr3 st' = pml4 (cur st') /\ NoDup (roots st') /\
  (forall i, 0 <= i < 8 -> t_active (task st' i) = true -> pml4 (task st' i) ∈ roots st') /\
  forall r, r ∈ roots st -> r ∈ roots st' -> r <> pml4 (cur st) -> same_memory (mm st) (mm st') r.
Proof.
  intros Hwf0 Hrun Hs. pose proof (run_wf st0 st Hwf0 Hrun) as Hwf.
  destruct (kernel_step_protects st st' Hwf Hs) as [(Hw & _ & Hm) _]. destruct (kw_cur _ Hw) as [_ Ha].
  split; [done|]. split; [apply Hw|]. split; [by apply (roots_nodup (pm (mm st'))), vw_nodup, Hw|].
  split; [|done]. intros i Hi Hia. by apply task_root; [apply Hw|..].
Qed.

(** C8. Credentials: over the same steps a task keeps its pid, and its uid and gid change only while it runs with
    uid 0; a task that appears has the uid and gid of the one that was running; and once no task is
    root, none ever becomes root. *)
Theorem credentials_protected st0 st st' : kernel_wf st0 -> rtc kernel_step st0 st -> kernel_step st st' ->
  (forall i, 0 <= i < 8 -> t_active (task st i) = true -> t_active (task st' i) = true ->
     t_pid (task st' i) = t_pid (task st i) /\
     (t_uid (task st' i) = t_uid (task st i) /\ t_gid (task st' i) = t_gid (task st i) \/
      i = current_task_idx st /\ t_uid (task st i) = 0)) /\
  (forall i, 0 <= i < 8 -> t_active (task st i) = false -> t_active (task st' i) = true ->
     t_uid (task st' i) = t_uid (cur st) /\ t_gid (task st' i) = t_gid (cur st)) /\
  (no_root st0 -> no_root st').
Proof.
  intros Hwf0 Hrun Hs. pose proof (run_wf st0 st Hwf0 Hrun) as Hwf. destruct (kernel_step_protects st st' Hwf Hs) as [_ [A B C]].
  split; [|split; [done|]].
  - intros i Hi Ha Ha'. destruct (Z.eq_dec i (current_task_idx st)) as [->|]; [|rewrite A by done; auto].
    destruct (B Ha') as [Hp [Hid|Hr]]; auto.
  - intros Hn. apply (no_root_step st st' Hwf); [|done]. clear - Hwf0 Hrun Hn poll_devices.
    induction Hrun as [|s s1 s2 Q1 _ IH]; [done|].
    apply IH; [by destruct (kernel_step_protects s s1) as [[Hw _] _]|by apply (no_root_step s s1)].
Qed.
End processes.

(** ** A fork *)

Definition call_frame (num rbx rcx rdx : Z) : InterruptFrame :=
  zero_frame <| f_int_no := 0x80 |> <| f_rax := num |> <| f_rbx := rbx |> <| f_rcx := rcx |> <| f_rdx := rdx |>.
Definition no_hw : Hardware := mkHardware 0 [] 0.
Definition no_hash : Sha256Context := mkSha [] 0 [] 0.
Definition entry0 (st : Kernel (Bcache.Bcache RamDisk) unit) frame : option (InterruptFrame * Kernel (Bcache.Bcache RamDisk) unit) :=
  interrupt_dispatch 100 (fun _ _ => 0) (fun _ _ _ => 0) (fun _ => 0) (fun d => (0, d)) (fun st _ _ _ _ => (-1, st)) (fun st => st) 0
    no_hash [] (fun st => st) no_hw st frame.
Abbreviation step0 := (kernel_step 100 (fun _ _ => 0) (fun _ _ _ => 0) (fun _ => 0) (fun d => (0, d)) (fun st _ _ _ _ => (-1, st))
  (fun st => st) 0 no_hash [] (fun st => st)).

Lemma fork_entry st : let f := call_frame SYS_FORK 0 0 0 in
  entry0 st f = Some (f <| f_rax := u64 (sys_fork st f).1 |>, (sys_fork st f).2).
Proof.
  intros f. unfold entry0, interrupt_dispatch. change (f_int_no f) with 0x80. cbn [Z.eqb Z.leb andb Pos.eqb].
  unfold syscall, syscall_value. change (f_rax f) with 73. cbv zeta.
  change (match Some (sys_fork st f) with Some (v, st) => Some (f <| f_rax := u64 v |>, st) | None => None end =
    Some (f <| f_rax := u64 (sys_fork st f).1 |>, (sys_fork st f).2)). by destruct (sys_fork st f).
Qed.
Lemma setuid_entry st : let f := call_frame SYS_SETUID 1000 0 0 in
  entry0 st f = Some (f <| f_rax := u64 (sys_setuid st 1000).1 |>, (sys_setuid st 1000).2).
Proof.
  intros f. unfold entry0, interrupt_dispatch. change (f_int_no f) with 0x80. cbn [Z.eqb Z.leb andb Pos.eqb].
  unfold syscall, syscall_value. change (f_rax f) with 79. cbv zeta.
  change (match Some (sys_setuid st 1000) with Some (v, st) => Some (f <| f_rax := u64 v |>, st) | None => None end =
    Some (f <| f_rax := u64 (sys_setuid st 1000).1 |>, (sys_setuid st 1000).2)). by destruct (sys_setuid st 1000).
Qed.
Lemma plain_call_ok (st : Kernel (Bcache.Bcache RamDisk) unit) num a :
  num = SYS_FORK \/ num = SYS_SETUID -> 0 <= a < 2 ^ 64 -> call_ok 100 (fun _ => 0) st (call_frame num a 0 0).
Proof.
  intros Hn Ha. assert (Hz : 0 <= 0 < 2 ^ 64) by (split; [lia|reflexivity]).
  split; [|done|destruct Hn as [-> | ->]; discriminate..].
  assert (Hd : SYS_FORK ∈ direct_calls /\ SYS_SETUID ∈ direct_calls) by (apply (bool_decide_unpack _); vm_compute; exact I).
  cbn. destruct Hd, Hn as [-> | ->]; done.
Qed.
(** The states along a run: a kernel task that forks and then becomes user 1000. *)
Definition parent0 : Kernel (Bcache.Bcache RamDisk) unit := (sys_fork kernel0 (call_frame SYS_FORK 0 0 0)).2.
Definition user0 : Kernel (Bcache.Bcache RamDisk) unit := (sys_setuid parent0 1000).2.
Lemma fork_step_at (st : Kernel (Bcache.Bcache RamDisk) unit) : step0 st (sys_fork st (call_frame SYS_FORK 0 0 0)).2.
Proof.
  refine (ks_enter _ _ _ _ _ _ _ _ _ _ _ st no_hw (call_frame SYS_FORK 0 0 0) _ _ _ (fork_entry st) _).
  - refine (plain_call_ok st SYS_FORK 0 (or_introl eq_refl) _). split; [lia|reflexivity].
  - intros Hx. exfalso. apply Hx. reflexivity.
Qed.
Lemma setuid_step_at (st : Kernel (Bcache.Bcache RamDisk) unit) : step0 st (sys_setuid st 1000).2.
Proof.
  refine (ks_enter _ _ _ _ _ _ _ _ _ _ _ st no_hw (call_frame SYS_SETUID 1000 0 0) _ _ _ (setuid_entry st) _).
  - refine (plain_call_ok st SYS_SETUID 1000 (or_intror eq_refl) _). split; [lia|reflexivity].
  - intros Hx. exfalso. apply Hx. reflexivity.
Qed.
Lemma forks_step : step0 kernel0 parent0.
Proof. exact (fork_step_at kernel0). Qed.
Lemma setuid_step : step0 parent0 user0.
Proof. exact (setuid_step_at parent0). Qed.
Lemma no_polls (st : Kernel (Bcache.Bcache RamDisk) unit) : devices_only st st.
Proof. repeat split. Qed.

Lemma processes_isolated_witness : NoDup (roots parent0) /\ length (roots parent0) = 2%nat.
Proof.
  split; [|vm_compute; reflexivity].
  exact (proj1 (proj2 (proj2 (processes_isolated _ _ _ _ _ _ _ _ _ _ _ no_polls kernel0 kernel0 parent0 kernel0_wf (rtc_refl _ _) forks_step)))).
Defined.
Lemma credentials_protected_witness :
  (t_uid (cur parent0) = 0 /\ t_uid (cur user0) = 1000) /\ t_uid (task user0 1) = t_uid (task parent0 1).
Proof.
  split; [split; vm_compute; reflexivity|].
  assert (Ha : t_active (task parent0 1) = true) by (vm_compute; reflexivity).
  assert (Ha' : t_active (task user0 1) = true) by (vm_compute; reflexivity).
  destruct (proj1 (credentials_protected _ _ _ _ _ _ _ _ _ _ _ no_polls kernel0 parent0 user0 kernel0_wf (rtc_once _ _ forks_step) setuid_step)
    1 ltac:(split; [lia|reflexivity]) Ha Ha') as [_ [[E _]|[E _]]]; [exact E|].
  exfalso. assert (Hc : current_task_idx parent0 = 0) by (vm_compute; reflexivity). rewrite Hc in E. discriminate E.
Defined.
