(* ===== verification/Cli.v ===== *)
(** The command line of the shell (kernel/shell/cli.c, include/cli.h): sessions,
    the tokenizer, and the splitter for [;], [&&] and [||]. *)

From S2P Require Import Prelude CString.

(** [include/cli.h:34-50] constants *)
Definition CLI_MAX_INPUT_LEN := 256.
Definition CLI_MAX_ARGS : nat := 16.
Definition CLI_MAX_SESSIONS := 8.
Definition CLI_HISTORY_SIZE := 50.
Definition CLI_OK := 0.
Definition CLI_ERR_UNKNOWN_CMD := -1.
Definition CLI_ERR_SYNTAX := -2.
Definition CLI_ERR_NO_PERMISSION := -3.
Definition CLI_ERR_EXEC_FAILED := -4.
(** [include/cli.h:53-57] CliPrivilegeLevel *)
Definition CLI_PRIV_ROOT := 0.
Definition CLI_PRIV_ADMIN := 50.
Definition CLI_PRIV_USER := 100.
#[export] Hint Unfold CLI_MAX_INPUT_LEN CLI_MAX_ARGS CLI_MAX_SESSIONS CLI_HISTORY_SIZE
  CLI_PRIV_ROOT CLI_PRIV_ADMIN CLI_PRIV_USER : consts.

(** [include/cli.h] CliSession *)
Record CliSession := mkSession {
  session_id : Z; uid : Z; username : bytes; privilege : Z; current_pid : Z;
  session_created : Z; commands_executed : Z; is_active : bool }.
#[export] Instance eta_CliSession : Eta CliSession := fun r =>
  mkSession (session_id r) (uid r) (username r) (privilege r) (current_pid r)
    (session_created r) (commands_executed r) (is_active r).
Definition zero_session : CliSession := mkSession 0 0 (zeros 32) 0 0 0 0 false.
#[export] Instance inhabited_session : Inhabited CliSession := populate zero_session.

(** [sessions[i]] always points to [pool[i]], the static array of
    cli_session_create: the sessions are kept in it.
    [include/cli.h] CliShell *)
Record CliShell := mkShell {
  pool : list CliSession; session_count : Z; next_session_id : Z;
  history : list bytes; history_index : Z; is_interactive : bool; exit_code : Z }.
#[export] Instance eta_CliShell : Eta CliShell := fun r =>
  mkShell (pool r) (session_count r) (next_session_id r) (history r) (history_index r)
    (is_interactive r) (exit_code r).

(** ** Strings *)

(** [for (i = 0; i < max - 1 && src[i]; i++) dst[i] = src[i];]
    [kernel/shell/cli.c] cli_strcpy *)
Fixpoint copy_chars (dst src : bytes) (i max : Z) : bytes :=
  match src with
  | c :: src' => if (i <? max - 1) && negb (c =? 0) then copy_chars (puti dst i c) src' (i + 1) max else dst
  | [] => dst
  end.
(** Only the last byte is cleared: behind a string that is shorter the old
    contents of [dst] stay.
    [kernel/shell/cli.c] cli_strcpy *)
Definition cli_strcpy (dst src : bytes) (max : Z) : bytes := puti (copy_chars dst src 0 max) (max - 1) 0.
(** [kernel/shell/cli.c] cli_strcmp *)
Definition cli_strcmp := strcmp_loop.
(** [kernel/shell/cli.c] cli_streq *)
Definition cli_streq (a b : bytes) : bool := cli_strcmp a b =? 0.

(** ** Sessions *)

(** [kernel/shell/cli.c] cli_shell_init *)
Definition cli_shell_init (g_shell : option CliShell) : CliShell :=
  match g_shell with
  | Some sh => sh
  | None => mkShell (replicate 8 zero_session) 0 1 (replicate 50 (zeros 256)) 0 true 0
  end.
(** [name] is [None] for NULL; the result is the index of the session.
    [kernel/shell/cli.c] cli_session_create *)
Definition cli_session_create (sh : CliShell) (name : option bytes) (priv : Z) : option Z * CliShell :=
  if CLI_MAX_SESSIONS <=? session_count sh then (None, sh) else
  let i := session_count sh in
  let session := mkSession (next_session_id sh) i
    (cli_strcpy (zeros 32) (match name with Some n => n | None => lit "user" end) 32) priv 0 0 0 true in
  (Some i, sh <| next_session_id := u32 (next_session_id sh + 1) |> <| pool := puti (pool sh) i session |>
              <| session_count := i + 1 |>).
(** [kernel/shell/cli.c] cli_session_destroy *)
Definition cli_session_destroy (session : CliSession) : CliSession := session <| is_active := false |>.
(** [kernel/shell/cli.c] cli_shell_get_active_session *)
Definition cli_shell_get_active_session (sh : CliShell) : option CliSession :=
  if session_count sh =? 0 then None else Some (geti (pool sh) 0).

(** ** The tokenizer *)

(** The pointers into the [command] buffer, as the strings they point to when
    the tokenizer has ended; [argc] is the length of [argv].
    [include/cli.h] ParsedCommand *)
Record ParsedCommand := mkParsed {
  argv : list bytes; background : bool;
  input_redirect : option bytes; output_redirect : option bytes; pipe_to : option bytes }.
#[export] Instance eta_ParsedCommand : Eta ParsedCommand := fun r =>
  mkParsed (argv r) (background r) (input_redirect r) (output_redirect r) (pipe_to r).
Definition no_command : ParsedCommand := mkParsed [] false None None None.

(** [while (accepted) p++;]: what was passed over and what is left. *)
Fixpoint span (f : Z -> bool) (l : bytes) : bytes * bytes :=
  match l with
  | c :: l' => if f c then let '(a, b) := span f l' in (c :: a, b) else ([], l)
  | [] => ([], [])
  end.
Definition is_blank (c : Z) : bool := (c =? 32) || (c =? 9).
(** The characters that end a token. *)
Definition ends_token (c : Z) : bool := is_blank c || (c =? 38) || (c =? 60) || (c =? 62).
(** The terminator replaces the character reached, if any. *)
Definition cut (l : bytes) : bytes := match l with _ :: l' => l' | [] => [] end.

(** An iteration at [p]: the command so far and where to go on, if at all.
    [kernel/shell/cli.c:1055-1098] cli_parse_command *)
Definition parse_step (p : bytes) (cmd : ParsedCommand) : ParsedCommand * option bytes :=
  if (CLI_MAX_ARGS <=? length (argv cmd))%nat then (cmd, None) else
  match (span is_blank p).2 with
  | [] => (cmd, None)
  | c :: p' =>
      let '(name, after_name) := span (fun c => negb (is_blank c)) (span (Z.eqb 32) p').2 in
      if c =? 38 then (cmd <| background := true |>, Some p') else
      if c =? 60 then (cmd <| input_redirect := Some name |>, Some (cut after_name)) else
      if c =? 62 then (cmd <| output_redirect := Some name |>, Some (cut after_name)) else
      if c =? 124 then (cmd <| pipe_to := Some (span (Z.eqb 32) p').2 |>, None) else
      let '(word, rest) := span (fun c => negb (ends_token c)) (c :: p') in
      (cmd <| argv := argv cmd ++ [word] |>, Some (cut rest))
  end.
(** Each iteration that goes on consumes a character.
    [kernel/shell/cli.c:1055-1098] cli_parse_command *)
Fixpoint parse_loop (fuel : nat) (p : bytes) (cmd : ParsedCommand) : ParsedCommand :=
  match fuel with
  | O => cmd
  | S fuel =>
      match parse_step p cmd with
      | (cmd, Some p) => parse_loop fuel p cmd
      | (cmd, None) => cmd
      end
  end.
(** [kernel/shell/cli.c] cli_parse_command *)
Definition cli_parse_command (input : bytes) : Z * ParsedCommand :=
  let p := cstr (cli_strcpy (zeros 256) input CLI_MAX_INPUT_LEN) in
  let cmd := parse_loop (S (length p)) p no_command in
  (match argv cmd with [] => CLI_ERR_SYNTAX | _ => CLI_OK end, cmd).

(** ** The splitter *)

(** [kernel/shell/cli.c:2042-2042] CliSep *)
Inductive CliSep := SEP_NONE | SEP_SEQ | SEP_AND | SEP_OR.
Definition CLI_MAX_SEGMENTS : nat := 16.

(** [cur] is the segment so far, [pre] the separator before it, [nseg] the
    number of segments.
    [kernel/shell/cli.c:2067-2096] cli_process_line *)
Fixpoint split_scan (p cur : bytes) (pre : CliSep) (in_quote : bool) (nseg : nat) : list (CliSep * bytes) :=
  match p with
  | [] => [(pre, cur)]
  | c :: p1 =>
      if c =? 34 then split_scan p1 (cur ++ [c]) pre (negb in_quote) nseg else
      if in_quote then split_scan p1 (cur ++ [c]) pre in_quote nseg else
      if c =? 59 then
        if (nseg <? CLI_MAX_SEGMENTS)%nat then (pre, cur) :: split_scan p1 [] SEP_SEQ in_quote (S nseg)
        else [(pre, cur ++ p)]
      else match p1 with
      | d :: p2 =>
          if (c =? 38) && (d =? 38) then
            if (nseg <? CLI_MAX_SEGMENTS)%nat then (pre, cur) :: split_scan p2 [] SEP_AND in_quote (S nseg)
            else [(pre, cur ++ p)]
          else if (c =? 124) && (d =? 124) then
            if (nseg <? CLI_MAX_SEGMENTS)%nat then (pre, cur) :: split_scan p2 [] SEP_OR in_quote (S nseg)
            else [(pre, cur ++ p)]
          else split_scan p1 (cur ++ [c]) pre in_quote nseg
      | [] => split_scan p1 (cur ++ [c]) pre in_quote nseg
      end
  end.
(** [work] is zeroed before the copy.
    [kernel/shell/cli.c:2063-2096] cli_process_line *)
Definition split_line (line : bytes) : list (CliSep * bytes) :=
  split_scan (cstr (cli_strcpy (zeros 256) line CLI_MAX_INPUT_LEN)) [] SEP_NONE false 1.

Example parse_ex : cli_parse_command (lit "  grep foo  <in>out& | wc -l") =
  (0, mkParsed [lit "grep"; lit "foo"] false (Some (lit "in>out&")) None (Some (lit "wc -l"))).
Proof. vm_compute. reflexivity. Qed.
(** The character that ends a token is overwritten: [a>f] has no redirection. *)
Example parse_ex2 : cli_parse_command (lit "echo a>f") = (0, mkParsed [lit "echo"; lit "a"; lit "f"] false None None None).
Proof. vm_compute. reflexivity. Qed.
Example split_ex : split_line (lit "a&&b | c;;d||e") =
  [(SEP_NONE, lit "a"); (SEP_AND, lit "b | c"); (SEP_SEQ, []); (SEP_SEQ, lit "d"); (SEP_OR, lit "e")].
Proof. vm_compute. reflexivity. Qed.

(** ** What cli_strcpy does *)

Lemma copy_chars_spec dst src i max : 0 <= i <= max - 1 -> max <= Z.of_nat (length dst) ->
  copy_chars dst src i max = blit dst (Z.to_nat i) (take (Z.to_nat (max - 1 - i)) (cstr src)).
Proof.
  revert dst i; induction src as [|c src IH]; intros dst i Hi Hm; cbn [copy_chars cstr].
  - rewrite take_nil. unfold blit. simpl. by rewrite Nat.add_0_r, take_drop.
  - assert (Hnil : blit dst (Z.to_nat i) [] = dst) by (unfold blit; simpl; by rewrite Nat.add_0_r, take_drop).
    destruct (Z.eqb_spec c 0) as [->|Hc]; cbn [negb].
    { by rewrite andb_false_r, take_nil, Hnil. }
    rewrite andb_true_r. destruct (Z.ltb_spec i (max - 1)) as [Hlt|Hge].
    + rewrite IH by (rewrite ?length_puti; lia). rewrite puti_blit by lia.
      replace (Z.to_nat (max - 1 - i)) with (S (Z.to_nat (max - 1 - (i + 1)))) by lia.
      replace (Z.to_nat (i + 1)) with (Z.to_nat i + length [c])%nat by (simpl; lia).
      by rewrite blit_blit_adj by lia.
    + by replace (Z.to_nat (max - 1 - i)) with 0%nat by lia.
Qed.

(** The text is laid over the old contents, whose rest stays behind it. *)
Lemma cli_strcpy_spec dst src max : 1 <= max -> max = Z.of_nat (length dst) ->
  let s := take (Z.to_nat (max - 1)) (cstr src) in
  cli_strcpy dst src max = take (Z.to_nat (max - 1)) (s ++ drop (length s) dst) ++ [0].
Proof.
  intros Hm Hl s. unfold cli_strcpy. rewrite copy_chars_spec by lia. rewrite Z.sub_0_r. fold s.
  rewrite Z2Nat.inj_0, blit_0. set (b := s ++ drop (length s) dst).
  assert (Hs : (length s <= Z.to_nat (max - 1))%nat) by (unfold s; rewrite length_take; lia).
  assert (Hb : length b = length dst) by (unfold b; rewrite length_app, length_drop; lia).
  rewrite puti_blit by lia. unfold blit. simpl length. rewrite (drop_ge b) by lia. done.
Qed.
Lemma length_cli_strcpy dst src max : 1 <= max -> max = Z.of_nat (length dst) ->
  length (cli_strcpy dst src max) = length dst.
Proof.
  intros Hm Hl. rewrite cli_strcpy_spec by done. set (s := take _ (cstr src)).
  assert (Hs : (length s <= Z.to_nat (max - 1))%nat) by (unfold s; rewrite length_take; lia).
  rewrite !length_app, length_take, length_app, length_drop. simpl. lia.
Qed.
(** Over a cleared buffer the copy is the string, cut to fit. *)
Lemma cli_strcpy_zeros n src : (0 < n)%nat ->
  cstr (cli_strcpy (zeros n) src (Z.of_nat n)) = take (n - 1) (cstr src).
Proof.
  intros Hn. rewrite cli_strcpy_spec by (unfold zeros; rewrite ?length_replicate; lia).
  replace (Z.to_nat (Z.of_nat n - 1)) with (n - 1)%nat by lia. set (s := take (n - 1) (cstr src)).
  assert (Hs : (length s <= n - 1)%nat) by (unfold s; rewrite length_take; lia).
  assert (Hnz : Forall (fun c => c <> 0) s) by (apply Forall_take, cstr_nonzero).
  unfold zeros. rewrite drop_replicate.
  replace (take (n - 1) (s ++ replicate (n - length s) 0)) with (s ++ replicate (n - 1 - length s) 0).
  2:{ rewrite take_app, take_ge by lia. f_equal. rewrite take_replicate. f_equal. lia. }
  rewrite <- app_assoc. destruct (n - 1 - length s)%nat; apply cstr_app_nul, Hnz.
Qed.

(** ** What the tokenizer produces *)

Lemma span_spec f l : let '(a, b) := span f l in
  l = a ++ b /\ Forall (fun c => f c = true) a /\ (forall c b', b = c :: b' -> f c = false).
Proof.
  induction l as [|c l IH]; cbn [span]; [done|]. destruct (f c) eqn:E.
  - destruct (span f l) as [a b]. destruct IH as (-> & Ha & Hb). split; [done|]. split; [by constructor|done].
  - split; [done|]. split; [constructor|]. by intros ? ? [= <- <-].
Qed.
Lemma span_app f a b : Forall (fun c => f c = true) a -> (forall c b', b = c :: b' -> f c = false) ->
  span f (a ++ b) = (a, b).
Proof.
  intros Ha Hb. induction Ha as [|c a Hc Ha IH]; cbn [app span].
  - destruct b as [|c b]; [done|]. cbn [span]. by rewrite (Hb c b).
  - by rewrite Hc, IH.
Qed.
Lemma length_span f l : (length (span f l).2 <= length l)%nat.
Proof.
  pose proof (span_spec f l) as Hs. destruct (span f l) as [a b]. destruct Hs as (-> & _). simpl.
  rewrite length_app. lia.
Qed.
Lemma length_cut l : length (cut l) = (length l - 1)%nat.
Proof. destruct l; simpl; lia. Qed.
Lemma span_suffix f l : exists a, l = a ++ (span f l).2.
Proof. pose proof (span_spec f l) as Hs. destruct (span f l) as [a b]. exists a. by destruct Hs. Qed.
Lemma cut_suffix l : exists a, l = a ++ cut l.
Proof. destruct l as [|c l]; [by exists []|]. by exists [c]. Qed.

(** A word the tokenizer can produce. *)
Definition word_ok (w : bytes) : Prop :=
  w <> [] /\ Forall (fun c => ends_token c = false /\ c <> 0) w /\ (forall w', w <> 124 :: w').
(** The words with one blank between them. *)
Fixpoint join_words (ws : list bytes) : bytes :=
  match ws with [] => [] | [w] => w | w :: ws' => w ++ 32 :: join_words ws' end.
(** A command as it is typed: its words and, after a bar, the next command. *)
Definition typed (ws : list bytes) (pipe : option bytes) : bytes :=
  join_words ws ++ match pipe with Some t => 32 :: 124 :: 32 :: t | None => [] end.

Lemma join_cons w ws : ws <> [] -> join_words (w :: ws) = w ++ 32 :: join_words ws.
Proof. by destruct ws. Qed.

Lemma ends_token_false c : ends_token c = false -> is_blank c = false /\ c <> 38 /\ c <> 60 /\ c <> 62.
Proof. unfold ends_token. rewrite !orb_false_iff, !Z.eqb_neq. tauto. Qed.
Lemma parse_word w rest cmd : word_ok w -> (length (argv cmd) < 16)%nat ->
  (forall c r, rest = c :: r -> ends_token c = true) ->
  parse_step (w ++ rest) cmd = (cmd <| argv := argv cmd ++ [w] |>, Some (cut rest)).
Proof.
  intros (Hne & Hw & Hbar) Hn Hrest. unfold parse_step, CLI_MAX_ARGS.
  rewrite (proj2 (Nat.leb_gt _ _)) by done. destruct w as [|c w]; [done|].
  inversion Hw as [|? ? [Hc Hc0] Hw']; subst. apply ends_token_false in Hc as Hc'.
  destruct Hc' as (Hb & H38 & H60 & H62).
  change ((c :: w) ++ rest) with ([] ++ (c :: w ++ rest)).
  rewrite span_app by (try constructor; by intros ? ? [= <- <-]). cbn [snd].
  rewrite !(proj2 (Z.eqb_neq c _)) by (done || intros ->; by apply (Hbar w)).
  destruct (span (fun c => negb (is_blank c)) _) as [? ?].
  change (c :: w ++ rest) with ((c :: w) ++ rest). rewrite span_app; [done| |].
  - eapply Forall_impl; [exact Hw|]. intros x [Hx _]. cbn beta. by rewrite Hx.
  - intros x r Hr. by rewrite (Hrest x r Hr).
Qed.
Lemma parse_end cmd : parse_step [] cmd = (cmd, None).
Proof. unfold parse_step. by destruct (CLI_MAX_ARGS <=? _)%nat. Qed.
Lemma parse_bar t cmd : (length (argv cmd) < 16)%nat -> (forall t', t <> 32 :: t') ->
  parse_step (124 :: 32 :: t) cmd = (cmd <| pipe_to := Some t |>, None).
Proof.
  intros Hn Ht. unfold parse_step, CLI_MAX_ARGS. rewrite (proj2 (Nat.leb_gt _ _)) by done.
  change (124 :: 32 :: t) with ([] ++ 124 :: 32 :: t). rewrite span_app by (done || by intros ? ? [= <- <-]).
  cbn [snd]. change (32 :: t) with ([32] ++ t). rewrite span_app; [|by constructor|].
  - cbn [snd]. by destruct (span (fun c => negb (is_blank c)) t).
  - intros c t' Ec. apply Z.eqb_neq. intros <-. by apply (Ht t').
Qed.

Lemma parse_words ws : forall fuel cmd pipe,
  Forall word_ok ws -> (length (argv cmd) + length ws <= 16)%nat -> (length ws < fuel)%nat -> ws <> [] ->
  (forall t, pipe = Some t -> (length (argv cmd) + length ws < 16)%nat /\ (forall t', t <> 32 :: t')) ->
  parse_loop fuel (typed ws pipe) cmd =
    let cmd := cmd <| argv := argv cmd ++ ws |> in
    match pipe with Some t => cmd <| pipe_to := Some t |> | None => cmd end.
Proof.
  induction ws as [|w ws IH]; intros fuel cmd pipe Hws Hn Hf Hne Hp; [done|].
  inversion_clear Hws as [|? ? Hw Hws']. destruct fuel as [|fuel]; [simpl in Hf; lia|].
  simpl length in *. set (cmd' := cmd <| argv := argv cmd ++ [w] |>).
  assert (Hl : length (argv cmd') = (length (argv cmd) + 1)%nat)
    by (unfold cmd'; cbn; rewrite length_app; done).
  destruct (decide (ws = [])) as [->|Hne'].
  - unfold typed. cbn [join_words parse_loop]. rewrite parse_word; [|done|lia|].
    2:{ destruct pipe; [|done]. by intros ? ? [= <- <-]. }
    fold cmd'. destruct fuel as [|fuel]; [simpl in Hf; lia|]. cbv zeta. cbn [parse_loop].
    destruct pipe as [t|]; cbn [cut]; [|by rewrite parse_end].
    destruct (Hp t eq_refl) as [Hn' Ht]. rewrite parse_bar by (done || rewrite Hl; simpl in *; lia). done.
  - unfold typed. rewrite join_cons by done. rewrite <- app_assoc. cbn [app parse_loop].
    rewrite parse_word; [|done|lia|by intros ? ? [= <- <-]]. cbn [cut]. fold cmd'.
    change (join_words ws ++ _) with (typed ws pipe). rewrite IH; [|done|lia|lia|done|].
    + unfold cmd'. destruct pipe; cbn; by rewrite <- app_assoc.
    + intros t Et. destruct (Hp t Et). split; [lia|done].
Qed.

Lemma word_nonzero w : word_ok w -> Forall (fun c => c <> 0) w.
Proof. intros (_ & Hw & _). eapply Forall_impl; [exact Hw|]. by intros c [_ ?]. Qed.
Lemma join_nonzero ws : Forall word_ok ws -> Forall (fun c => c <> 0) (join_words ws).
Proof.
  induction 1 as [|w ws Hw Hws IH]; [constructor|]. destruct (decide (ws = [])) as [->|Hne].
  - by apply word_nonzero.
  - rewrite join_cons by done. apply Forall_app. split; [by apply word_nonzero|]. by constructor.
Qed.
Lemma length_join ws : Forall word_ok ws -> (length ws <= length (join_words ws))%nat.
Proof.
  induction 1 as [|w ws Hw Hws IH]; [done|]. destruct Hw as (Hne & _). destruct w as [|c w]; [done|].
  destruct (decide (ws = [])) as [->|Hne']; [simpl; lia|]. rewrite join_cons by done.
  rewrite length_app. simpl. lia.
Qed.

Lemma two_words a b : word_ok a -> word_ok b -> Forall word_ok [a; b].
Proof. intros; constructor; [done|]. by constructor. Qed.

(** Parsing what was typed. *)
Lemma cli_parse_typed ws pipe : Forall word_ok ws -> ws <> [] -> (length ws <= 16)%nat ->
  (length (typed ws pipe) <= 255)%nat ->
  (forall t, pipe = Some t -> (length ws < 16)%nat /\ (forall t', t <> 32 :: t') /\ Forall (fun c => c <> 0) t) ->
  cli_parse_command (typed ws pipe) = (CLI_OK, mkParsed ws false None None pipe).
Proof.
  intros Hws Hne Hn Hl Hp. unfold cli_parse_command.
  change CLI_MAX_INPUT_LEN with (Z.of_nat 256). rewrite cli_strcpy_zeros by lia.
  assert (Hnz : Forall (fun c => c <> 0) (typed ws pipe)).
  { apply Forall_app. split; [by apply join_nonzero|]. destruct pipe as [t|]; [|constructor].
    destruct (Hp t eq_refl) as (_ & _ & Ht). by repeat constructor. }
  rewrite (cstr_id _ Hnz), take_ge by lia. rewrite parse_words; [|done|cbn; lia| |done|].
  - destruct pipe; cbn; by destruct ws.
  - pose proof (length_join ws Hws). unfold typed. rewrite length_app. lia.
  - intros t Et. destruct (Hp t Et) as (H1 & H2 & _). split; [cbn; lia|done].
Qed.

(** The room a command takes: its words and the rest of the pipeline. *)
Fixpoint words_size (ws : list bytes) : nat :=
  match ws with [] => 0 | w :: ws => S (length w) + words_size ws end.
Definition cmd_size (cmd : ParsedCommand) : nat :=
  words_size (argv cmd) + match pipe_to cmd with Some t => S (length t) | None => 0 end.
Lemma words_size_app a b : words_size (a ++ b) = (words_size a + words_size b)%nat.
Proof. induction a as [|w a IH]; simpl; [done|]. rewrite IH. lia. Qed.
Lemma words_size_join ws : ws <> [] -> words_size ws = S (length (join_words ws)).
Proof.
  induction ws as [|w ws IH]; intros Hne; [done|]. destruct (decide (ws = [])) as [->|Hne'].
  - simpl. lia.
  - rewrite join_cons by done. cbn [words_size]. rewrite IH by done. rewrite length_app. simpl. lia.
Qed.

(** Every command the tokenizer produces has at most 16 words, each one it
    could have been typed with, and is no larger than the line. *)
Definition cmd_ok (cmd : ParsedCommand) : Prop :=
  Forall word_ok (argv cmd) /\ (length (argv cmd) <= 16)%nat.

(** One iteration keeps that, and what it adds it has consumed. *)
Lemma parse_step_inv p cmd : Forall (fun c => c <> 0) p -> cmd_ok cmd -> pipe_to cmd = None ->
  let '(cmd', r) := parse_step p cmd in
  cmd_ok cmd' /\
  match r with
  | Some p' => pipe_to cmd' = None /\ (exists a, a <> [] /\ p = a ++ p') /\
      (cmd_size cmd' + length p' <= cmd_size cmd + length p + 1)%nat /\
      (p' <> [] -> (cmd_size cmd' + length p' <= cmd_size cmd + length p)%nat)
  | None => (cmd_size cmd' <= cmd_size cmd + length p)%nat
  end.
Proof.
  intros Hp [Hw Hn] Hpipe. unfold parse_step. destruct (Nat.leb_spec CLI_MAX_ARGS (length (argv cmd))) as [Hf|Hf].
  { split; [by split|lia]. }
  pose proof (span_spec is_blank p) as Hs. destruct (span is_blank p) as [bl q]. destruct Hs as (-> & _ & Hc).
  cbn [snd]. apply Forall_app in Hp as [_ Hq]. rewrite length_app. destruct q as [|c q]; [split; [by split|lia]|].
  specialize (Hc c q eq_refl). pose proof (span_suffix (Z.eqb 32) q) as [a1 E1].
  pose proof (length_span (Z.eqb 32) q) as Hlp. set (q1 := (span (Z.eqb 32) q).2) in *.
  pose proof (span_spec (fun c => negb (is_blank c)) q1) as Hs2.
  destruct (span (fun c => negb (is_blank c)) q1) as [name r]. destruct Hs2 as (E2 & _).
  destruct (cut_suffix r) as [a2 E3].
  assert (Hsuf : exists a, a <> [] /\ bl ++ c :: q = a ++ cut r).
  { exists (bl ++ c :: a1 ++ name ++ a2). split; [by destruct bl|]. rewrite E1, E2, E3 at 1.
    rewrite <- !app_assoc. cbn [app]. by rewrite <- !app_assoc. }
  assert (Hlr : (length (cut r) <= length q)%nat).
  { rewrite length_cut. rewrite E2, length_app in Hlp. lia. }
  destruct (Z.eqb_spec c 38) as [->|H38].
  { split; [by split|]. split; [done|]. split; [|unfold cmd_size; simpl; lia].
    exists (bl ++ [38]). split; [by destruct bl|]. by rewrite <- app_assoc. }
  destruct (Z.eqb_spec c 60) as [->|H60]; [by repeat split; try done; unfold cmd_size; simpl; lia|].
  destruct (Z.eqb_spec c 62) as [->|H62]; [by repeat split; try done; unfold cmd_size; simpl; lia|].
  destruct (Z.eqb_spec c 124) as [->|H124].
  { split; [by split|]. unfold cmd_size. cbn. rewrite Hpipe. lia. }
  pose proof (span_spec (fun c => negb (ends_token c)) (c :: q)) as Hs3.
  destruct (span (fun c => negb (ends_token c)) (c :: q)) as [word rest] eqn:E. destruct Hs3 as (E4 & Hword & _).
  assert (Het : ends_token c = false).
  { unfold ends_token. rewrite Hc. by rewrite !(proj2 (Z.eqb_neq c _)). }
  assert (Hwne : exists w', word = c :: w').
  { cbn [span] in E. rewrite Het in E. cbn [negb] in E. destruct (span (fun c => negb (ends_token c)) q) as [w' b]. injection E as <- _. by exists w'. }
  destruct Hwne as [w' ->]. destruct (cut_suffix rest) as [a5 E5].
  rewrite E4 in Hq. apply Forall_app in Hq as [Hnz _].
  assert (Hlq : S (length q) = (S (length w') + length rest)%nat)
    by (change (S (length q)) with (length (c :: q)); rewrite E4, length_app; done).
  split; [|split; [done|split; [|]]].
  - split; cbn; [|rewrite length_app; unfold CLI_MAX_ARGS in Hf; simpl; lia].
    apply Forall_app. split; [done|]. constructor; [|constructor]. split; [done|]. split.
    + apply Forall_and. split; [|done]. eapply Forall_impl; [exact Hword|]. intros x Hx. cbn beta in *. by destruct (ends_token x).
    + intros w2 [= -> _]. done.
  - exists (bl ++ (c :: w') ++ a5). split; [by destruct bl|]. rewrite <- !app_assoc. f_equal.
    rewrite E4 at 1. by rewrite E5 at 1.
  - unfold cmd_size. cbn. rewrite Hpipe, words_size_app, length_cut. cbn [words_size length] in *.
    split; [lia|]. destruct rest; [done|]. simpl in *. lia.
Qed.
Lemma parse_loop_inv fuel : forall p cmd, Forall (fun c => c <> 0) p -> cmd_ok cmd -> pipe_to cmd = None ->
  let cmd' := parse_loop fuel p cmd in
  cmd_ok cmd' /\ (cmd_size cmd' <= cmd_size cmd + length p + match p with [] => 0 | _ => 1 end)%nat.
Proof.
  induction fuel as [|fuel IH]; intros p cmd Hp Hok Hpipe; cbn [parse_loop]; cbv zeta; [split; [done|lia]|].
  pose proof (parse_step_inv p cmd Hp Hok Hpipe) as Hs. pose proof (parse_end cmd) as He.
  destruct (parse_step p cmd) as [cmd' [p'|]] eqn:E; destruct Hs as [Hok' Hs]; [|split; [done|lia]].
  destruct Hs as (Hpipe' & (a & Hne & ->) & Hsz & Hsz'). apply Forall_app in Hp as [_ Hp].
  destruct (IH p' cmd' Hp Hok' Hpipe') as [I1 I2]. split; [done|].
  destruct a as [|c a]; [done|]. cbn [app]. destruct p' as [|x p']; [rewrite app_nil_r in *; simpl in *; lia|].
  specialize (Hsz' ltac:(done)). simpl in *. lia.
Qed.
(** More fuel than characters changes nothing. *)
Lemma parse_loop_fuel f1 : forall f2 p cmd, Forall (fun c => c <> 0) p -> cmd_ok cmd -> pipe_to cmd = None ->
  (length p < f1)%nat -> (length p < f2)%nat -> parse_loop f1 p cmd = parse_loop f2 p cmd.
Proof.
  induction f1 as [|f1 IH]; intros [|f2] p cmd Hp Hok Hpipe H1 H2; try lia. cbn [parse_loop].
  pose proof (parse_step_inv p cmd Hp Hok Hpipe) as Hs. destruct (parse_step p cmd) as [cmd' [p'|]]; [|done].
  destruct Hs as (Hok' & Hpipe' & (a & Hne & ->) & _). apply Forall_app in Hp as [_ Hp].
  rewrite length_app in *. destruct a as [|c a]; [done|]. simpl in *. apply IH; done || lia.
Qed.
Lemma cli_parse_inv input : let '(rc, cmd) := cli_parse_command input in
  cmd_ok cmd /\ (cmd_size cmd <= S (length (cstr input)))%nat /\ (cmd_size cmd <= 256)%nat /\
  (rc = CLI_OK <-> argv cmd <> []) /\ (rc = CLI_OK \/ rc = CLI_ERR_SYNTAX).
Proof.
  unfold cli_parse_command. change CLI_MAX_INPUT_LEN with (Z.of_nat 256). rewrite cli_strcpy_zeros by lia.
  set (p := take (256 - 1) (cstr input)).
  assert (Hl : (length p <= length (cstr input) /\ length p <= 255)%nat) by (unfold p; rewrite length_take; lia).
  destruct (parse_loop_inv (S (length p)) p no_command) as [I1 I2];
    [apply Forall_take, cstr_nonzero|split; [constructor|simpl; lia]|done|].
  split; [done|]. change (cmd_size no_command) with 0%nat in I2. cbn [Nat.add] in I2.
  split; [destruct p; simpl in *; lia|]. split; [destruct p; simpl in *; lia|].
  destruct (argv _); [|by split; [|left]]. split; [by split|by right].
Qed.

(** ** What the splitter produces *)

(** A segment in which the splitter finds no separator, whatever follows:
    outside of quotes no semicolon, no bar or ampersand before another one or
    at the end; quotes are closed. *)
Fixpoint plain (in_quote : bool) (s : bytes) : bool :=
  match s with
  | [] => negb in_quote
  | c :: s' =>
      if c =? 34 then plain (negb in_quote) s' else
      if in_quote then plain in_quote s' else
      negb (c =? 59) &&
      negb (((c =? 38) || (c =? 124)) && match s' with [] => true | d :: _ => d =? c end) &&
      plain in_quote s'
  end.
Definition sep_text (sep : CliSep) : bytes :=
  match sep with SEP_NONE => [] | SEP_SEQ => [59] | SEP_AND => [38; 38] | SEP_OR => [124; 124] end.
(** A line: the first command, and the others each behind a separator. *)
Definition line_text (first : bytes) (others : list (CliSep * bytes)) : bytes :=
  first ++ concat ((fun x => sep_text x.1 ++ x.2) <$> others).

Lemma split_plain s : forall cur pre q n rest, plain q s = true ->
  split_scan (s ++ rest) cur pre q n = split_scan rest (cur ++ s) pre false n.
Proof.
  induction s as [|c s IH]; intros cur pre q n rest; cbn [plain app].
  { intros Hq. rewrite app_nil_r. by destruct q. }
  assert (Hgo : forall q', plain q' s = true ->
    split_scan (s ++ rest) (cur ++ [c]) pre q' n = split_scan rest (cur ++ c :: s) pre false n).
  { intros q' Hs. rewrite IH by done. by rewrite <- app_assoc. }
  cbn [split_scan]. destruct (c =? 34); [apply Hgo|]. destruct q; [apply Hgo|].
  rewrite !andb_true_iff, !negb_true_iff. intros [[H59 Hcc] Hs]. rewrite H59.
  destruct s as [|d s]; cbn [app] in *.
  - rewrite andb_true_r in Hcc. apply orb_false_iff in Hcc as [-> ->]. cbn [andb].
    destruct rest; by apply Hgo.
  - destruct (Z.eqb_spec c 38) as [->|]; cbn [orb andb] in *; [rewrite Hcc; by apply Hgo|].
    destruct (Z.eqb_spec c 124) as [->|]; cbn [orb andb] in *; [rewrite Hcc|]; by apply Hgo.
Qed.

(** Splitting a line gives back its commands. *)
Lemma split_line_text first others : plain false first = true ->
  Forall (fun x => x.1 <> SEP_NONE /\ plain false x.2 = true) others -> (length others <= 15)%nat ->
  Forall (fun c => c <> 0) (line_text first others) -> (length (line_text first others) <= 255)%nat ->
  split_line (line_text first others) = (SEP_NONE, first) :: others.
Proof.
  intros Hf Ho Hn Hnz Hl. unfold split_line. change CLI_MAX_INPUT_LEN with (Z.of_nat 256).
  rewrite cli_strcpy_zeros by lia. rewrite cstr_id, take_ge by (done || lia). clear Hnz Hl.
  unfold line_text. assert (Hlen : (1 + length others <= CLI_MAX_SEGMENTS)%nat) by (unfold CLI_MAX_SEGMENTS; lia).
  clear Hn. revert Hlen. generalize 1%nat as n. generalize SEP_NONE as pre. revert first Hf.
  induction Ho as [|[sep s] others [Hsep Hs] Ho IH]; intros first Hf pre n Hlen; rewrite split_plain by done.
  - done.
  - cbn [fmap list_fmap concat fst snd] in *. rewrite <- app_assoc. simpl length in Hlen.
    assert (Hlt : (n <? CLI_MAX_SEGMENTS)%nat = true) by (apply Nat.ltb_lt; lia).
    destruct sep; [done|..]; cbn [sep_text app split_scan Z.eqb Pos.eqb andb]; rewrite Hlt;
      f_equal; apply IH; done || lia.
Qed.
