(* ===== verification/SelfTest.v ===== *)
(** The self test the shell's test command runs (kernel/selftest/selftest.c): checks of SHA-256, the accounts, the
    policy, the AI engine's rules, IPC, the sandbox, the kernel log and the audit log, made on the running kernel.
    The text goes to the console as the lines [printed]. *)

From S2P Require Import Prelude CString Cli Ipc Sha256 UserDb Sandbox AiEngine Policy LogRing AuditLog Klog.

Section selftest.
Context {E : Type} `{RustEngine E}.
(** The hash context on the stack, and the tick count. *)
Variable garbage : Sha256Context.
Variable ticks : Z.

(** What the tests reach of the kernel, the events told to the AI bridge, and the test's own counters.
    [kernel/selftest/selftest.c:19-20] g_pass *)
Record Tested := mkTested {
  t_ipc : IpcState; t_sandbox : Sandbox; t_klog : Klog; t_audit : AuditLog; t_users : UserDb; t_ai : AiKernel E;
  t_events : list (bytes * bytes); g_pass : Z; g_fail : Z; printed : list bytes }.
#[global] Instance eta_Tested : Eta Tested := fun r =>
  mkTested (t_ipc r) (t_sandbox r) (t_klog r) (t_audit r) (t_users r) (t_ai r) (t_events r) (g_pass r) (g_fail r) (printed r).
Implicit Types (st : Tested).

Definition say (line : bytes) st : Tested := st <| printed := printed st ++ [line] |>.
(** [kernel/selftest/selftest.c] test_ok *)
Definition test_ok (name : bytes) st : Tested := say (lit "  [PASS] " ++ name) st <| g_pass := g_pass st + 1 |>.
(** [kernel/selftest/selftest.c] test_fail *)
Definition test_fail (name : bytes) st : Tested := say (lit "  [FAIL] " ++ name) st <| g_fail := g_fail st + 1 |>.
(** [if (ok) test_ok(good); else { test_fail(bad); fails++; }] *)
Definition expect (ok : bool) (good bad : bytes) (r : Z * Tested) : Z * Tested :=
  if ok then (r.1, test_ok good r.2) else (r.1 + 1, test_fail bad r.2).

(** [kernel/selftest/selftest.c:43-48] selftest_sha256 *)
Definition empty_digest : bytes :=
  [0xe3; 0xb0; 0xc4; 0x42; 0x98; 0xfc; 0x1c; 0x14; 0x9a; 0xfb; 0xf4; 0xc8; 0x99; 0x6f; 0xb9; 0x24;
   0x27; 0xae; 0x41; 0xe4; 0x64; 0x9b; 0x93; 0x4c; 0xa4; 0x95; 0x99; 0x1b; 0x78; 0x52; 0xb8; 0x55].
(** [kernel/selftest/selftest.c:57-62] selftest_sha256 *)
Definition abc_digest : bytes :=
  [0xba; 0x78; 0x16; 0xbf; 0x8f; 0x01; 0xcf; 0xea; 0x41; 0x41; 0x40; 0xde; 0x5d; 0xae; 0x22; 0x23;
   0xb0; 0x03; 0x61; 0xa3; 0x96; 0x17; 0x7a; 0x9c; 0xb4; 0x10; 0xff; 0x61; 0xf2; 0x00; 0x15; 0xad].
(** [kernel/selftest/selftest.c] selftest_sha256 *)
Definition selftest_sha256 st : Z * Tested :=
  let hash := sha256_hash garbage in
  let quoted (s t : bytes) := lit "sha256(" ++ 34 :: s ++ 34 :: lit ") " ++ t in
  let r := (0, say (lit "--- SHA-256 ---") st) in
  let r := expect (sha256_compare (hash []) empty_digest =? 0) (quoted [] (lit "correct")) (quoted [] (lit "incorrect")) r in
  let r := expect (sha256_compare (hash (lit "abc")) abc_digest =? 0) (quoted (lit "abc") (lit "correct")) (quoted (lit "abc") (lit "incorrect")) r in
  let r := expect (negb (sha256_compare (hash (lit "hello")) (hash (lit "world")) =? 0))
             (lit "sha256 compare (different) non-zero") (lit "sha256 compare (different) returned zero") r in
  expect (sha256_compare (hash (lit "test")) (hash (lit "test")) =? 0)
    (lit "sha256 compare (same) zero") (lit "sha256 compare (same) returned non-zero") r.

(** A login that should give privilege [want]: the three-way test of the result.
    [kernel/selftest/selftest.c:100-105] selftest_userdb *)
Definition expect_login (priv want : Z) (good wrong bad : bytes) (r : Z * Tested) : Z * Tested :=
  expect (priv =? want) good (if 0 <=? priv then wrong else bad) r.
(** [kernel/selftest/selftest.c] selftest_userdb *)
Definition selftest_userdb st : Z * Tested :=
  let auth name pw := userdb_authenticate garbage (t_users st) name (Some pw) in
  let r := (0, say (lit "--- UserDB ---") st) in
  let r := expect_login (auth (lit "root") []) CLI_PRIV_ROOT (lit "root auth (no password) → priv=0")
             (lit "root auth → wrong privilege") (lit "root auth failed (VernisFS not loaded?)") r in
  let r := expect_login (auth (lit "admin") (lit "admin")) CLI_PRIV_ADMIN (lit "admin auth (pw=admin) → priv=50")
             (lit "admin auth → wrong privilege") (lit "admin auth failed") r in
  let r := expect_login (auth (lit "user") (lit "user")) CLI_PRIV_USER (lit "user auth (pw=user) → priv=100")
             (lit "user auth → wrong privilege") (lit "user auth failed") r in
  let r := expect (auth (lit "admin") (lit "wrongpass") <? 0) (lit "admin wrong password → denied") (lit "admin wrong password → should deny") r in
  let r := expect (auth (lit "nobody") (lit "x") <? 0) (lit "nonexistent user → denied") (lit "nonexistent user → should deny") r in
  expect (bool_decide (is_Some (userdb_find_user (t_users st) (lit "root"))))
    (lit "userdb_find_user(root) found") (lit "userdb_find_user(root) not found") r.

(** [kernel/selftest/selftest.c] selftest_policy *)
Definition selftest_policy st : Z * Tested :=
  let may cmd priv := policy_check_command (t_ai st) (Some cmd) priv in
  let r := (0, say (lit "--- Policy Enforcement ---") st) in
  let r := expect (may (lit "shutdown") CLI_PRIV_ROOT) (lit "root can shutdown") (lit "root denied shutdown") r in
  let r := expect (negb (may (lit "shutdown") CLI_PRIV_ADMIN)) (lit "admin denied shutdown") (lit "admin allowed shutdown (should deny)") r in
  let r := expect (negb (may (lit "shutdown") CLI_PRIV_USER)) (lit "user denied shutdown") (lit "user allowed shutdown (should deny)") r in
  let r := expect (may (lit "help") CLI_PRIV_USER) (lit "user can help") (lit "user denied help") r in
  let r := expect (may (lit "ps") CLI_PRIV_ADMIN) (lit "admin can ps") (lit "admin denied ps") r in
  expect (negb (may (lit "policy reload") CLI_PRIV_USER)) (lit "user denied policy reload") (lit "user allowed policy reload") r.

(** [kernel/selftest/selftest.c] selftest_access_rules *)
Definition selftest_access_rules st : Z * Tested :=
  let priv := ai_kernel_engine_check_access (t_ai st) in
  let got v := lit ", got " ++ decimal 16 v in
  let r := (0, say (lit "--- AI Access Rules ---") st) in
  let r := expect (0 <? ai_kernel_engine_access_rule_count (t_ai st)) (lit "access rules loaded (count > 0)") (lit "no access rules loaded") r in
  let v := priv (lit "shutdown") in
  let r := if v =? 0 then (r.1, test_ok (lit "check_access(shutdown) → 0 (root)") r.2)
           else (r.1 + 1, test_fail (lit "check_access(shutdown) wrong privilege") (say (lit "    expected 0" ++ got v) r.2)) in
  let v := priv (lit "help") in
  let r := if (v =? 2) || (v =? 255) then (r.1, test_ok (lit "check_access(help) → user/no-rule") r.2)
           else (r.1 + 1, test_fail (lit "check_access(help) unexpected") (say (lit "    expected 2 or 255" ++ got v) r.2)) in
  (r.1, test_ok (lit "anomaly_count() callable") (test_ok (lit "event_count() callable") r.2)).

(** [kernel/selftest/selftest.c] selftest_ipc *)
Definition selftest_ipc st : Z * Tested :=
  let same c name := expect c name name in
  let r := (0, say (lit "--- IPC Tests ---") (say [] st)) in
  let '(qid, s) := ipc_queue_create (t_ipc st) 100 in
  let r := same (0 <=? qid) (lit "queue_create(pid=100)") r in
  let '(qid2, s) := ipc_queue_create s 100 in
  let r := same (qid2 =? qid) (lit "queue_create(dup) returns same qid") r in
  let '(rc, s) := ipc_send s 1 100 1 (Some (lit "hello")) 5 in
  let r := same (rc =? 0) (lit "ipc_send(1->100)") r in
  let '(rc, msg, s) := ipc_recv s (u32 qid) true in
  let r := same ((rc =? 0) && match msg with Some m => (src_pid m =? 1) && (type_ m =? 1) | None => false end)
             (lit "ipc_recv(100) matches sent") r in
  let '(rc, msg, s) := ipc_recv s (u32 qid) true in
  let r := same (negb (rc =? 0)) (lit "ipc_recv(empty) returns error") r in
  let s := ipc_queue_destroy s (u32 qid) in
  (r.1, test_ok (lit "queue_destroy succeeded") (r.2 <| t_ipc := s |>)).

(** The events of a refused call.
    [kernel/security/sandbox.c:38-50] sandbox_notify_deny *)
Definition told (v : verdict) st : Tested := match v with Denied (Some e) => st <| t_events := t_events st ++ [e] |> | _ => st end.
Definition allowed (v : verdict) : bool := match v with Allowed => true | Denied _ => false end.
(** [kernel/selftest/selftest.c] selftest_sandbox *)
Definition selftest_sandbox st : Z * Tested :=
  let same c name := expect c name name in
  let r := (0, say (lit "--- Sandbox Tests ---") (say [] st)) in
  let '(kctx, s) := sandbox_create_process (t_sandbox st) PROC_TYPE_KERNEL 0 in
  let r := same (match kctx with Some i => proc_type (ctx_at s i) =? PROC_TYPE_KERNEL | None => false end) (lit "kernel context created") r in
  let check s (i : option Z) n st := match i with
    | Some i => let v := sandbox_check_syscall (Some (ctx_at s i)) n in (allowed v, told v st) | None => (false, st) end in
  let '(ok, t) := check s kctx 0 r.2 in
  let r := same ok (lit "kernel syscall 0 allowed") (r.1, t) in
  let '(uctx, s) := sandbox_create_process s PROC_TYPE_USER 100 in
  let r := same (match uctx with Some i => proc_type (ctx_at s i) =? PROC_TYPE_USER | None => false end) (lit "user context created") r in
  let '(ok, t) := check s uctx 0 r.2 in
  let r := same ok (lit "user syscall 0 (WRITE) allowed") (r.1, t) in
  let '(ok, t) := check s uctx 28 r.2 in
  let r := same (bool_decide (is_Some uctx) && negb ok) (lit "user syscall 28 (MOD_LOAD) denied") (r.1, t) in
  let s := if bool_decide (is_Some kctx) then sandbox_destroy_process s kctx else s in
  let s := if bool_decide (is_Some uctx) then sandbox_destroy_process s uctx else s in
  (r.1, r.2 <| t_sandbox := s |>).

(** [kernel/selftest/selftest.c] selftest_klog *)
Definition selftest_klog st : Z * Tested :=
  let same c name := expect c name name in
  let r := (0, say (lit "--- Klog Tests ---") (say [] st)) in
  let before := klog_total (t_klog st) in
  let l := (klog (t_klog st) ticks KLOG_INFO (Some (lit "test")) (Some (lit "selftest message"))).2 in
  let r := same (klog_total l =? u64 (before + 1)) (lit "klog record increments total") r in
  let r := same (0 <? klog_count l) (lit "klog_count() > 0") r in
  let prev := klog_get_level l in
  let l := klog_set_level l KLOG_ERROR in
  let r := same (severity (klog_get_level l) =? severity KLOG_ERROR) (lit "klog_set_level(ERROR)") r in
  let l := klog_set_level l prev in
  let r := same (geti (klog_level_name KLOG_FATAL) 0 =? 70) (lit "klog_level_name(FATAL)") r in
  (r.1, r.2 <| t_klog := l |>).

(** [kernel/selftest/selftest.c] selftest_auditlog *)
Definition selftest_auditlog st : Z * Tested :=
  let same c name := expect c name name in
  let r := (0, say (lit "--- Auditlog Tests ---") (say [] st)) in
  let before := auditlog_total_count (t_audit st) in
  let a := auditlog_record (t_audit st) ticks (lit "testuser") (lit "shutdown") 100 0 in
  let r := same (auditlog_total_count a =? u32 (before + 1)) (lit "auditlog_record increments total") r in
  let r := same (0 <? auditlog_current_count a) (lit "auditlog_current_count() > 0") r in
  let r := same (auditlog_current_count a <=? auditlog_total_count a) (lit "total >= current") r in
  (r.1, r.2 <| t_audit := a |>).

(** [kernel/selftest/selftest.c] selftest_run_all *)
Definition selftest_run_all st : Z * Tested :=
  let st := st <| g_pass := 0 |> <| g_fail := 0 |> in
  let st := say (lit "========== VernisOS Self-Test ==========") st in
  let st := (selftest_sha256 st).2 in
  let st := (selftest_userdb st).2 in
  let st := (selftest_policy st).2 in
  let st := (selftest_access_rules st).2 in
  let st := (selftest_ipc st).2 in
  let st := (selftest_sandbox st).2 in
  let st := (selftest_klog st).2 in
  let st := (selftest_auditlog st).2 in
  let st := say (lit "========================================") st in
  let st := say (lit "Results: " ++ decimal 16 (g_pass st) ++ lit " passed, " ++ decimal 16 (g_fail st) ++ lit " failed") st in
  let st := if g_fail st =? 0 then say (lit "All tests PASSED!") st
            else say (lit "*** " ++ decimal 16 (g_fail st) ++ lit " test(s) FAILED ***") st in
  (g_fail st, st).

End selftest.

(** ** One mailbox through the IPC calls *)

Lemma scan_set_queue s (i : nat) q pid :
  owner_pid q = owner_pid (geti (g_queues s) (Z.of_nat i)) -> queue_scan (set_queue s (Z.of_nat i) q) pid = queue_scan s pid.
Proof.
  intros Ho. unfold queue_scan, set_queue, puti. cbn [upd_with g_queues]. rewrite Nat2Z.id. apply find_idx_insert.
  intros y Hy. rewrite Ho. by rewrite (lookup_geti _ _ _ Hy).
Qed.
Lemma create_again s pid i : ipc_wf s -> is_u32 pid -> pid <> 0 -> queue_scan s pid = Some i ->
  let '(rc, s') := ipc_queue_create s pid in
  rc = Z.of_nat i /\ ipc_wf s' /\ queue_scan s' pid = Some i /\ inbox s' pid = inbox s pid /\ (forall p, p <> 0 -> p <> pid -> inbox s' p = inbox s p).
Proof.
  intros Hwf Hu Hp Hs. pose proof (ipc_queue_create_spec s pid Hwf Hu Hp) as Hc. unfold ipc_queue_create in *.
  rewrite (proj2 (Z.eqb_neq _ _) Hp) in *. destruct (queue_find_by_pid_scan s pid Hwf Hu Hp) as (c & E1 & _). rewrite E1, Hs in *.
  rewrite (proj2 (Z.leb_le 0 (Z.of_nat i))) in * by lia. destruct Hc as (Hw & Ho & _). done.
Qed.
Lemma send_keeps_owner s src pid i type d len : ipc_wf s -> is_u32 pid -> pid <> 0 -> queue_scan s pid = Some i ->
  queue_scan (ipc_send s src pid type (Some d) len).2 pid = Some i.
Proof.
  intros Hwf Hu Hp Hs. unfold ipc_send. rewrite (proj2 (Z.eqb_neq _ _) Hp).
  destruct (queue_find_by_pid_scan s pid Hwf Hu Hp) as (c & E1 & _). rewrite E1, Hs. set (s1 := s <| g_pid_to_qid := c |>).
  assert (Hs1 : queue_scan s1 pid = Some i) by exact Hs. clearbody s1.
  rewrite (proj2 (Z.ltb_ge (Z.of_nat i) 0)) by lia. rewrite (proj2 (Z.ltb_ge (Z.of_nat i) 0)) by lia.
  destruct (_ <=? _); cbn [snd]; [exact Hs1|].
  refine (eq_trans (scan_set_queue s1 i _ pid _) Hs1). reflexivity.
Qed.
Lemma recv_keeps_owner s i pid : queue_scan (ipc_recv s (Z.of_nat i) true).2 pid = queue_scan s pid.
Proof.
  unfold ipc_recv. destruct (_ || _); [done|]. destruct (_ =? 0); [done|]. destruct (_ =? 0); [done|]. cbn [snd]. by apply scan_set_queue.
Qed.
Lemma recv_own s pid i : ipc_wf s -> pid <> 0 -> queue_scan s pid = Some i ->
  let '(rc, m, s') := ipc_recv s (Z.of_nat i) true in
  ipc_wf s' /\ queue_scan s' pid = Some i /\ (forall p, p <> 0 -> p <> pid -> inbox s' p = inbox s p) /\
  match inbox s pid with
  | None => False
  | Some [] => rc = IPC_ERR_EMPTY /\ m = None /\ s' = s
  | Some (x :: l) => rc = IPC_OK /\ m = Some x /\ inbox s' pid = Some l
  end.
Proof.
  intros Hwf Hp Hs. pose proof (ipc_recv_ok s (Z.of_nat i) Hwf ltac:(lia)) as Hr. pose proof (recv_keeps_owner s i pid) as Hk.
  destruct (queue_scan_Some _ _ _ Hs) as [Hi Ho]. pose proof (wf_nqueues s Hwf) as Hn.
  destruct (ipc_recv s (Z.of_nat i) true) as [[rc m] s']. rewrite Ho in Hr. cbn [snd] in Hk.
  rewrite (proj2 (Z.leb_gt IPC_MAX_QUEUES _)), (proj2 (Z.eqb_neq _ _) Hp) in Hr by lia. cbn [orb] in Hr.
  destruct Hr as (Hw & Hoth & Hm). split; [done|]. split; [congruence|]. split; [done|done].
Qed.
Lemma destroy_own s pid i : ipc_wf s -> is_u32 pid -> pid <> 0 -> queue_scan s pid = Some i ->
  let s' := ipc_queue_destroy s (Z.of_nat i) in
  ipc_wf s' /\ inbox s' pid = None /\ (forall p, p <> 0 -> p <> pid -> inbox s' p = inbox s p).
Proof.
  intros Hwf Hu Hp Hs. destruct (queue_scan_Some _ _ _ Hs) as [Hi Ho]. pose proof (wf_nqueues s Hwf) as Hn.
  split; [apply ipc_queue_destroy_wf; [done|lia]|]. unfold ipc_queue_destroy.
  rewrite (proj2 (Z.leb_gt IPC_MAX_QUEUES _)) by lia. rewrite Ho, (proj2 (Z.eqb_neq _ _) Hp).
  set (s1 := if pid <? IPC_PID_CACHE_SIZE then set_cache s pid (-1) else s).
  assert (Hq1 : g_queues s1 = g_queues s) by (by unfold s1; destruct (pid <? _)).
  set (s2 := set_queue s1 (Z.of_nat i) zero_queue).
  assert (Hin : forall p, p <> 0 -> inbox s2 p = if decide (p = pid) then None else inbox s p).
  { intros p Hp0. destruct (decide (p = pid)) as [->|Hne].
    - unfold inbox. replace (queue_scan s2 pid) with (@None nat); [done|]. symmetry. apply find_idx_None. intros q Hq.
      apply list_elem_of_lookup in Hq as [j Hj]. apply Z.eqb_neq. unfold s2, set_queue, puti in Hj. cbn [upd_with g_queues] in Hj.
      rewrite Hq1, Nat2Z.id in Hj. destruct (decide (i = j)) as [->|Hij].
      + rewrite list_lookup_insert_eq in Hj by done. injection Hj as <-. cbn. lia.
      + rewrite list_lookup_insert_ne in Hj by done. intros Hoq. apply Hij.
        eapply (wf_owners s Hwf i j (geti (g_queues s) (Z.of_nat i)) q); [|done|congruence|congruence].
        rewrite <- (Nat2Z.id i) at 1. apply geti_lookup. lia.
    - assert (E1 : inbox s2 p = inbox s1 p).
      { unfold s2. rewrite inbox_set_queue; rewrite ?Hq1; [|done|].
        - rewrite bool_decide_eq_false_2; [done|]. intros [_ E2]%queue_scan_Some. rewrite Hq1 in E2. congruence.
        - rewrite Ho. change (owner_pid zero_queue) with 0. rewrite (proj2 (Z.eqb_neq pid p)), (proj2 (Z.eqb_neq 0 p)) by lia. done. }
      rewrite E1. unfold inbox, queue_scan. by rewrite Hq1. }
  cbv zeta. fold s1. fold s2. destruct (queues_active _ =? 0).
  - split; [rewrite Hin by done; by rewrite decide_True|]. intros p Hp0 Hpp. rewrite Hin by done. by rewrite decide_False.
  - split; [change (inbox s2 pid = None); rewrite Hin by done; by rewrite decide_True|].
    intros p Hp0 Hpp. change (inbox s2 p = inbox s p). rewrite Hin by done. by rewrite decide_False.
Qed.

Section passes.
Context {E : Type} `{RustEngine E}.
Variable garbage : Sha256Context.
Variable ticks : Z.
Implicit Types (st : Tested (E := E)).

(** ** What the counters say *)

Definition failures (oks : list bool) : Z := Z.of_nat (length (filter (fun b => b = false) oks)).
(** The part of the state the tests work on. *)
Definition kernel_of st := (t_ipc st, t_sandbox st, t_klog st, t_audit st, t_users st, t_ai st).
(** The checks [oks] were made, one after another, and counted. *)
Definition ran (oks : list bool) st (r : Z * Tested (E := E)) : Prop :=
  r.1 = failures oks /\ g_fail r.2 = g_fail st + failures oks /\ g_pass r.2 + g_fail r.2 = g_pass st + g_fail st + Z.of_nat (length oks).

Lemma failures_app a b : failures (a ++ b) = failures a + failures b.
Proof. unfold failures. rewrite filter_app, length_app. lia. Qed.
Lemma failures_zero oks : failures oks = 0 <-> Forall (fun b => b = true) oks.
Proof.
  unfold failures. split.
  - intros Hz. assert (Hn : filter (fun b => b = false) oks = []) by (apply nil_length_inv; lia).
    apply Forall_forall. intros [|] Hb; [done|]. assert (Hin : false ∈ filter (fun b => b = false) oks) by (by apply list_elem_of_filter).
    rewrite Hn in Hin. by apply elem_of_nil in Hin.
  - intros Ha. induction Ha as [|b l -> _ IH]; [done|]. rewrite filter_cons_False by done. done.
Qed.
Lemma failures_nonneg oks : 0 <= failures oks.
Proof. unfold failures. lia. Qed.
Lemma ran_start st line : ran [] st (0, say line st).
Proof. unfold ran, say. cbn [fst snd upd_with g_pass g_fail length]. change (failures []) with 0. lia. Qed.
Lemma ran_start2 st line : ran [] st (0, say line (say [] st)).
Proof. unfold ran, say. cbn [fst snd upd_with g_pass g_fail length]. change (failures []) with 0. lia. Qed.
Lemma ran_expect oks st r ok good bad : ran oks st r -> ran (oks ++ [ok]) st (expect ok good bad r).
Proof.
  intros (F & G & P). unfold ran. rewrite failures_app, length_app.
  assert (Hf : failures [ok] = if ok then 0 else 1) by (by destruct ok). rewrite Hf. unfold expect, test_ok, test_fail, say.
  destruct ok; cbn [fst snd upd_with g_pass g_fail length]; lia.
Qed.
Lemma ran_upd oks st r st' : ran oks st r -> g_pass st' = g_pass r.2 -> g_fail st' = g_fail r.2 -> ran oks st (r.1, st').
Proof. intros (F & G & P) E1 E2. unfold ran. cbn. lia. Qed.
Lemma expect_kernel ok good bad r : kernel_of (expect ok good bad r).2 = kernel_of r.2.
Proof. by destruct ok. Qed.
Lemma told_counts v st : g_pass (told v st) = g_pass st /\ g_fail (told v st) = g_fail st /\ kernel_of (told v st) = kernel_of st.
Proof. by destruct v as [|[e|]]. Qed.

(** ** What each group of tests comes to *)

Hypothesis garbage_ok : length (buffer garbage) = 64%nat.
Lemma hash_is msg : Z.of_nat (length msg) < 100 -> sha256_hash garbage msg = sha256_spec msg.
Proof. intros Hl. apply sha256_hash_ok; [done|lia]. Qed.

Lemma sha256_tests st : let r := selftest_sha256 garbage st in ran [true; true; true; true] st r /\ kernel_of r.2 = kernel_of st.
Proof.
  unfold selftest_sha256. rewrite !hash_is by (cbn; lia).
  replace (sha256_compare (sha256_spec []) empty_digest =? 0) with true by (vm_compute; done).
  replace (sha256_compare (sha256_spec (lit "abc")) abc_digest =? 0) with true by (vm_compute; done).
  replace (sha256_compare (sha256_spec (lit "hello")) (sha256_spec (lit "world")) =? 0) with false by (vm_compute; done).
  replace (sha256_compare (sha256_spec (lit "test")) (sha256_spec (lit "test")) =? 0) with true by (vm_compute; done).
  split; [|by rewrite !expect_kernel]. refine (ran_expect [_; _; _] _ _ _ _ _ (ran_expect [_; _] _ _ _ _ _ (ran_expect [_] _ _ _ _ _ (ran_expect [] _ _ _ _ _ (ran_start _ _))))).
Qed.
(** The accounts the tests ask for. *)
Definition accounts_ok (u : UserDb) : Prop :=
  let auth name pw := userdb_authenticate garbage u name (Some pw) in
  auth (lit "root") [] = 0 /\ auth (lit "admin") (lit "admin") = 50 /\ auth (lit "user") (lit "user") = 100 /\
  auth (lit "admin") (lit "wrongpass") < 0 /\ auth (lit "nobody") (lit "x") < 0 /\ is_Some (userdb_find_user u (lit "root")).
Lemma userdb_tests st : let r := selftest_userdb garbage st in exists oks, ran oks st r /\ length oks = 6%nat /\ kernel_of r.2 = kernel_of st /\
  (failures oks = 0 <-> accounts_ok (t_users st)).
Proof.
  eexists [_; _; _; _; _; _]. split; [|split; [done|split; [by unfold selftest_userdb, expect_login; rewrite !expect_kernel|]]].
  - unfold selftest_userdb, expect_login.
    refine (ran_expect [_; _; _; _; _] _ _ _ _ _ (ran_expect [_; _; _; _] _ _ _ _ _ (ran_expect [_; _; _] _ _ _ _ _ (ran_expect [_; _] _ _ _ _ _
      (ran_expect [_] _ _ _ _ _ (ran_expect [] _ _ _ _ _ (ran_start _ _))))))).
  - rewrite failures_zero, !Forall_cons, Forall_nil. unfold accounts_ok.
    rewrite !Z.eqb_eq, !Z.ltb_lt, bool_decide_eq_true. tauto.
Qed.
(** The rules the tests expect of the policy. *)
Definition policy_ok (a : AiKernel E) : Prop :=
  let may cmd priv := policy_check_command a (Some cmd) priv in
  may (lit "shutdown") 0 = true /\ may (lit "shutdown") 50 = false /\ may (lit "shutdown") 100 = false /\
  may (lit "help") 100 = true /\ may (lit "ps") 50 = true /\ may (lit "policy reload") 100 = false.
Lemma policy_tests st : let r := selftest_policy st in exists oks, ran oks st r /\ length oks = 6%nat /\ kernel_of r.2 = kernel_of st /\
  (failures oks = 0 <-> policy_ok (t_ai st)).
Proof.
  eexists [_; _; _; _; _; _]. split; [|split; [done|split; [by unfold selftest_policy; rewrite !expect_kernel|]]].
  - unfold selftest_policy.
    refine (ran_expect [_; _; _; _; _] _ _ _ _ _ (ran_expect [_; _; _; _] _ _ _ _ _ (ran_expect [_; _; _] _ _ _ _ _ (ran_expect [_; _] _ _ _ _ _
      (ran_expect [_] _ _ _ _ _ (ran_expect [] _ _ _ _ _ (ran_start _ _))))))).
  - rewrite failures_zero, !Forall_cons, Forall_nil. unfold policy_ok.
    rewrite !negb_true_iff. tauto.
Qed.
(** The rules the tests expect of the engine. *)
Definition rules_ok (a : AiKernel E) : Prop :=
  0 < ai_kernel_engine_access_rule_count a /\ ai_kernel_engine_check_access a (lit "shutdown") = 0 /\
  (ai_kernel_engine_check_access a (lit "help") = 2 \/ ai_kernel_engine_check_access a (lit "help") = 255).
Lemma ran_say oks st r line : ran oks st r -> ran oks st (r.1, say line r.2).
Proof. intros Hr. by apply ran_upd. Qed.
Lemma rules_tests st : let r := selftest_access_rules st in exists oks, ran oks st r /\ length oks = 5%nat /\ kernel_of r.2 = kernel_of st /\
  (failures oks = 0 <-> rules_ok (t_ai st)).
Proof.
  set (a := t_ai st). set (sd := ai_kernel_engine_check_access a (lit "shutdown")). set (hp := ai_kernel_engine_check_access a (lit "help")).
  exists [0 <? ai_kernel_engine_access_rule_count a; sd =? 0; (hp =? 2) || (hp =? 255); true; true].
  pose proof (ran_expect [] st _ (0 <? ai_kernel_engine_access_rule_count a) (lit "access rules loaded (count > 0)") (lit "no access rules loaded")
    (ran_start st (lit "--- AI Access Rules ---"))) as R1.
  unfold selftest_access_rules. fold a. fold sd. fold hp. split; [|split; [done|split]].
  - refine (ran_expect [_; _; _; _] st (_, _) true (lit "anomaly_count() callable") [] _).
    refine (ran_expect [_; _; _] st (_, _) true (lit "event_count() callable") [] _).
    rewrite <- surjective_pairing. destruct ((hp =? 2) || (hp =? 255)).
    + refine (ran_expect [_; _] st _ true _ [] _). destruct (sd =? 0).
      * exact (ran_expect [_] st _ true _ [] R1).
      * exact (ran_expect [_] st (_, _) false [] _ (ran_say _ _ _ _ R1)).
    + refine (ran_expect [_; _] st (_, _) false [] _ (ran_say _ _ _ _ _)). destruct (sd =? 0).
      * exact (ran_expect [_] st _ true _ [] R1).
      * exact (ran_expect [_] st (_, _) false [] _ (ran_say _ _ _ _ R1)).
  - cbn zeta. destruct (0 <? _), (sd =? 0), ((hp =? 2) || (hp =? 255)); reflexivity.
  - rewrite failures_zero, !Forall_cons, Forall_nil. unfold rules_ok. fold a sd hp.
    rewrite orb_true_iff, !Z.eqb_eq, Z.ltb_lt. tauto.
Qed.
(** A mailbox the IPC tests can work with: none yet and a free slot, or an empty one. *)
Definition mailbox_free (s : IpcState) : Prop :=
  inbox s 100 = Some [] \/ (inbox s 100 = None /\ ~ Forall (fun q => owner_pid q <> 0) (g_queues s)).
Lemma surj_let {A B} (x : A * B) (P : A -> B -> Prop) : (let '(a, b) := x in P a b) -> P x.1 x.2.
Proof. by destruct x. Qed.
(** With every slot taken and no mailbox for the process nothing happens to the queues. *)
Lemma no_slot s pid : ipc_wf s -> is_u32 pid -> pid <> 0 -> queue_scan s pid = None -> Forall (fun q => owner_pid q <> 0) (g_queues s) ->
  (ipc_queue_create s pid).1 = IPC_ERR_NOSLOT /\ g_queues (ipc_queue_create s pid).2 = g_queues s /\
  forall src type d len, (ipc_send s src pid type (Some d) len).1 = IPC_ERR_NOSLOT /\ g_queues (ipc_send s src pid type (Some d) len).2 = g_queues s.
Proof.
  intros Hwf Hu Hp Hs Hall.
  assert (Hf : find_idx (fun q => owner_pid q =? 0) (g_queues s) = None).
  { apply find_idx_None. intros q Hin. rewrite Forall_forall in Hall. apply Z.eqb_neq. by apply Hall. }
  assert (Hc : forall t, ipc_wf t -> g_queues t = g_queues s -> (ipc_queue_create t pid).1 = IPC_ERR_NOSLOT /\ g_queues (ipc_queue_create t pid).2 = g_queues s).
  { intros t Ht Eq. unfold ipc_queue_create. rewrite (proj2 (Z.eqb_neq _ _) Hp).
    destruct (queue_find_by_pid_scan t pid Ht Hu Hp) as (c & E1 & _). rewrite E1. unfold queue_scan in *. rewrite Eq, Hs.
    change (0 <=? -1) with false. cbn [upd_with g_queues]. rewrite Eq, Hf. done. }
  destruct (Hc s Hwf eq_refl) as [C1 C2]. split; [done|]. split; [done|]. intros src type d len. unfold ipc_send. rewrite (proj2 (Z.eqb_neq _ _) Hp).
  destruct (queue_find_by_pid_scan s pid Hwf Hu Hp) as (c & E1 & Hl). rewrite E1, Hs. change (-1 <? 0) with true. cbv iota.
  set (s1 := s <| g_pid_to_qid := c |>). assert (W1 : ipc_wf s1) by (by apply wf_cache_upd).
  destruct (Hc s1 W1 eq_refl) as [D1 D2]. destruct (ipc_queue_create s1 pid) as [rc s2]. cbn [fst snd] in D1, D2. subst rc. done.
Qed.
(** The IPC calls of the test, and the outcome of its checks. *)
Definition ipc_script (s : IpcState) : list bool * IpcState :=
  let '(qid, s) := ipc_queue_create s 100 in
  let '(qid2, s) := ipc_queue_create s 100 in
  let '(rc3, s) := ipc_send s 1 100 1 (Some (lit "hello")) 5 in
  let '(rc4, msg, s) := ipc_recv s (u32 qid) true in
  let '(rc5, _, s) := ipc_recv s (u32 qid) true in
  ([0 <=? qid; qid2 =? qid; rc3 =? 0;
    (rc4 =? 0) && match msg with Some m => (src_pid m =? 1) && (type_ m =? 1) | None => false end; negb (rc5 =? 0); true],
   ipc_queue_destroy s (u32 qid)).
Lemma kernel_ipc st x s' n : kernel_of x = kernel_of st ->
  kernel_of (test_ok n (x <| t_ipc := s' |>)) = (s', t_sandbox st, t_klog st, t_audit st, t_users st, t_ai st).
Proof. unfold kernel_of. intros [= E1 E2 E3 E4 E5 E6]. cbn. congruence. Qed.
Lemma ipc_test_script st : let r := selftest_ipc st in
  ran (ipc_script (t_ipc st)).1 st r /\
  kernel_of r.2 = ((ipc_script (t_ipc st)).2, t_sandbox st, t_klog st, t_audit st, t_users st, t_ai st).
Proof.
  unfold selftest_ipc, ipc_script. set (s := t_ipc st). destruct (ipc_queue_create s 100) as [qid s1].
  destruct (ipc_queue_create s1 100) as [qid2 s2]. destruct (ipc_send s2 1 100 1 _ 5) as [rc3 s3].
  destruct (ipc_recv s3 (u32 qid) true) as [[rc4 m4] s4]. destruct (ipc_recv s4 (u32 qid) true) as [[rc5 m5] s5]. cbn [fst snd]. split.
  - refine (ran_expect [_; _; _; _; _] st (_, _) true _ [] _).
    match goal with |- ran _ _ (?x.1, _) => apply (ran_upd _ _ x); [|done|done] end.
    refine (ran_expect [_; _; _; _] _ _ _ _ _ (ran_expect [_; _; _] _ _ _ _ _ (ran_expect [_; _] _ _ _ _ _
      (ran_expect [_] _ _ _ _ _ (ran_expect [] _ _ _ _ _ (ran_start2 _ _)))))).
  - apply kernel_ipc. by rewrite !expect_kernel.
Qed.
Lemma ipc_script_spec s : ipc_wf s -> let '(oks, s') := ipc_script s in
  length oks = 6%nat /\ ipc_wf s' /\ (forall p, p <> 0 -> p <> 100 -> inbox s' p = inbox s p) /\ inbox s' 100 = None /\
  (failures oks = 0 <-> mailbox_free s).
Proof.
  intros Hwf. assert (Hu : is_u32 100) by ulia. unfold ipc_script.
  pose proof (ipc_queue_create_spec s 100 Hwf Hu ltac:(done)) as Hc1. destruct (ipc_queue_create s 100) as [qid s1] eqn:E1.
  destruct Hc1 as (W1 & O1 & [(Hq & S1 & I1)|(-> & I1 & I0 & Hfull)]).
  - assert (Hqn : qid = Z.of_nat (Z.to_nat qid)) by lia. set (i := Z.to_nat qid) in *. clearbody i. subst qid.
    pose proof (create_again s1 100 i W1 Hu ltac:(done) S1) as Hc2. destruct (ipc_queue_create s1 100) as [qid2 s2].
    destruct Hc2 as (-> & W2 & S2 & I2 & O2).
    pose proof (ipc_send_ok s2 1 100 1 (Some (lit "hello")) 5 W2 Hu ltac:(lia)) as Hs3.
    pose proof (send_keeps_owner s2 1 100 i 1 (lit "hello") 5 W2 Hu ltac:(done) S2) as S3.
    destruct (ipc_send s2 1 100 1 _ 5) as [rc3 s3]. destruct Hs3 as (W3 & O3 & C3). cbn [snd] in S3.
    assert (Hi : u32 (Z.of_nat i) = Z.of_nat i).
    { apply u32_id. destruct (queue_scan_Some _ _ _ S1) as [Hlt _]. pose proof (wf_nqueues s1 W1). unfold IPC_MAX_QUEUES in *. ulia. }
    rewrite Hi. pose proof (recv_own s3 100 i W3 ltac:(done) S3) as H4. destruct (ipc_recv s3 (Z.of_nat i) true) as [[rc4 m4] s4].
    destruct H4 as (W4 & S4 & O4 & C4). pose proof (recv_own s4 100 i W4 ltac:(done) S4) as H5.
    destruct (ipc_recv s4 (Z.of_nat i) true) as [[rc5 m5] s5]. destruct H5 as (W5 & S5 & O5 & C5).
    destruct (destroy_own s5 100 i W5 Hu ltac:(done) S5) as (W6 & I6 & O6).
    split; [done|]. split; [done|]. split; [intros p Hp0 Hp; rewrite O6, O5, O4, O3, O2, O1 by done; done|]. split; [done|].
    rewrite failures_zero, !Forall_cons, Forall_nil. rewrite !andb_true_iff, negb_true_iff, !Z.eqb_eq, Z.eqb_neq.
    rewrite I2, I1 in C3. cbn [default] in C3.
    assert (Hfree : mailbox_free s <-> default [] (inbox s 100) = []).
    { unfold mailbox_free. split; [intros [-> | [-> _]]; done|]. destruct (inbox s 100) as [l|] eqn:Ei; [cbn; intros ->; by left|].
      intros _. right. split; [done|]. intros Hall. unfold ipc_queue_create in E1.
      destruct (queue_find_by_pid_scan s 100 Hwf Hu ltac:(done)) as (c & E2 & _). change (100 =? 0) with false in E1. rewrite E2 in E1.
      assert (Hn : queue_scan s 100 = None) by (unfold inbox in Ei; by destruct (queue_scan s 100)).
      rewrite Hn in E1. cbn [Z.leb] in E1. change (0 <=? -1) with false in E1. cbn [upd_with g_queues] in E1.
      replace (find_idx (fun q => owner_pid q =? 0) (g_queues s)) with (@None nat) in E1.
      + injection E1 as E1 _. unfold IPC_ERR_NOSLOT in E1. lia.
      + symmetry. apply find_idx_None. intros q Hin. rewrite Forall_forall in Hall. apply Z.eqb_neq. by apply Hall. }
    rewrite Hfree. destruct C3 as [[? _]|[_ [(-> & I3)|[(-> & I3 & l & El & Hl)|(-> & I3 & Hno & _)]]]]; [done| | |congruence].
    + rewrite I3 in C4. destruct (default [] (inbox s 100)) as [|x q0]; cbn [app] in C4.
      * destruct C4 as (-> & -> & I4). rewrite I4 in C5. destruct C5 as (-> & -> & _). split; [done|]. intros _.
        split_and!; try done. apply Z.leb_le. lia.
      * destruct C4 as (-> & -> & I4). rewrite I4 in C5. destruct (q0 ++ _) as [|y r] eqn:Er; [by destruct q0|].
        destruct C5 as (-> & -> & _). split; [|done]. intros (_ & _ & _ & _ & Hbad & _). done.
    + split; [intros (_ & _ & Hbad & _); done|]. intros Hnil. rewrite Hnil in El. injection El as <-. done.
  - assert (S0 : queue_scan s 100 = None) by (unfold inbox in I0; by destruct (queue_scan s 100)).
    destruct (no_slot s 100 Hwf Hu ltac:(done) S0 Hfull) as (_ & Q1 & _). rewrite E1 in Q1. cbn [snd] in Q1.
    destruct (no_slot s1 100 W1 Hu ltac:(done)) as (_ & Q2 & _); [by unfold queue_scan in *; rewrite Q1|by rewrite Q1|].
    pose proof (ipc_queue_create_spec s1 100 W1 Hu ltac:(done)) as (W2 & _)%surj_let.
    destruct (no_slot (ipc_queue_create s1 100).2 100 W2 Hu ltac:(done)) as (_ & _ & Q3); [by unfold queue_scan in *; rewrite Q2, Q1|by rewrite Q2, Q1|].
    destruct (Q3 1 1 (lit "hello") 5) as [_ Q4].
    pose proof (ipc_send_ok (ipc_queue_create s1 100).2 1 100 1 (Some (lit "hello")) 5 W2 Hu ltac:(lia)) as (W3 & _)%surj_let.
    destruct (ipc_queue_create s1 100) as [qid2 s2]. cbn [fst snd] in *. destruct (ipc_send s2 1 100 1 _ 5) as [rc3 s3]. cbn [fst snd] in *.
    change (ipc_recv s3 (u32 IPC_ERR_NOSLOT) true) with (IPC_ERR_INVAL, @None IpcMessage, s3). cbv iota beta.
    change (ipc_recv s3 (u32 IPC_ERR_NOSLOT) true) with (IPC_ERR_INVAL, @None IpcMessage, s3). cbv iota beta.
    change (ipc_queue_destroy s3 (u32 IPC_ERR_NOSLOT)) with s3.
    assert (Hin : forall p, inbox s3 p = inbox s p) by (intros p; unfold inbox, queue_scan; by rewrite Q4, Q2, Q1).
    split; [done|]. split; [done|]. split; [done|]. split; [by rewrite Hin|].
    rewrite failures_zero, Forall_cons. split; [by intros [? _]|]. unfold mailbox_free. intros [E3|[_ Hno]]; [by rewrite I0 in E3|done].
Qed.

Definition sandbox_wf (s : Sandbox) : Prop := length (pool s) = 16%nat /\ 0 <= pool_idx s <= 16.
Lemma told_ran oks st r v : ran oks st r -> ran oks st (r.1, told v r.2).
Proof. intros Hr. destruct (told_counts v r.2) as (E1 & E2 & _). by apply ran_upd. Qed.
Lemma kernel_sandbox st x s' : kernel_of x = kernel_of st ->
  kernel_of (x <| t_sandbox := s' |>) = (t_ipc st, s', t_klog st, t_audit st, t_users st, t_ai st).
Proof. unfold kernel_of. intros [= E1 E2 E3 E4 E5 E6]. cbn. congruence. Qed.
Lemma ran_sandbox oks st r s' : ran oks st r -> ran oks st (r.1, r.2 <| t_sandbox := s' |>).
Proof. intros Hr. by apply ran_upd. Qed.
Lemma create_spec s type prio : sandbox_wf s -> let '(i, s') := sandbox_create_process s type prio in
  sandbox_wf s' /\ pool_idx s' = Z.min 16 (pool_idx s + 1) /\
  match i with
  | Some i => pool_idx s <= 15 /\ exists c, ctx_at s' i = init_ctx c i type
  | None => pool_idx s = 16
  end.
Proof.
  intros [Hl Hi]. unfold sandbox_create_process. destruct (Z.leb_spec 16 (pool_idx s)).
  - split; [done|]. split; lia.
  - unfold sandbox_wf, ctx_at. cbn [pool pool_idx]. rewrite length_puti. split; [lia|]. split; [lia|]. split; [lia|].
    eexists. rewrite geti_puti_eq by lia. done.
Qed.
Lemma sandbox_tests st : sandbox_wf (t_sandbox st) -> let r := selftest_sandbox st in exists oks s',
  ran oks st r /\ length oks = 5%nat /\
  kernel_of r.2 = (t_ipc st, s', t_klog st, t_audit st, t_users st, t_ai st) /\ sandbox_wf s' /\
  pool_idx s' = Z.min 16 (pool_idx (t_sandbox st) + 2) /\ (failures oks = 0 <-> pool_idx (t_sandbox st) <= 14).
Proof.
  intros W0. unfold selftest_sandbox. set (s := t_sandbox st) in *.
  pose proof (create_spec s PROC_TYPE_KERNEL 0 W0) as C1. destruct (sandbox_create_process s PROC_TYPE_KERNEL 0) as [kctx s1].
  destruct C1 as (W1 & P1 & C1). pose proof (create_spec s1 PROC_TYPE_USER 100 W1) as C2.
  destruct (sandbox_create_process s1 PROC_TYPE_USER 100) as [uctx s2]. destruct C2 as (W2 & P2 & C2).
  assert (Hd : (if bool_decide (is_Some uctx) then sandbox_destroy_process (if bool_decide (is_Some kctx) then sandbox_destroy_process s2 kctx else s2) uctx
                else if bool_decide (is_Some kctx) then sandbox_destroy_process s2 kctx else s2) = s2)
    by (by destruct (bool_decide (is_Some uctx)), (bool_decide (is_Some kctx))).
  destruct kctx as [k|].
  - destruct C1 as (Hk & c1 & Ec1). rewrite Ec1.
    change (sandbox_check_syscall (Some (init_ctx c1 k PROC_TYPE_KERNEL)) 0) with Allowed.
    change (proc_type (init_ctx c1 k PROC_TYPE_KERNEL) =? PROC_TYPE_KERNEL) with true. cbv zeta. cbn [allowed told].
    destruct uctx as [u|].
    + destruct C2 as (Hu & c2 & Ec2). rewrite Ec2.
      change (sandbox_check_syscall (Some (init_ctx c2 u PROC_TYPE_USER)) 0) with Allowed.
      change (proc_type (init_ctx c2 u PROC_TYPE_USER) =? PROC_TYPE_USER) with true. cbn [allowed told].
      change (allowed (sandbox_check_syscall (Some (init_ctx c2 u PROC_TYPE_USER)) 28)) with false.
      rewrite bool_decide_eq_true_2 by done. cbn [andb negb].
      exists [true; true; true; true; true], s2. split; [|split; [done|split; [|split; [done|split; [lia|]]]]].
      * apply ran_sandbox.
        apply (ran_expect [_; _; _; _]). apply (told_ran [_; _; _; _] st).
        refine (ran_expect [_; _; _] st _ _ _ _ _). rewrite <- surjective_pairing. apply (ran_expect [_; _] st).
        apply (ran_expect [_] st). rewrite <- surjective_pairing. apply (ran_expect [] st). apply ran_start2.
      * apply kernel_sandbox. rewrite expect_kernel. cbn [snd]. rewrite (proj2 (proj2 (told_counts _ _))). by rewrite !expect_kernel.
      * split; [intros _; lia|done].
    + exists [true; true; false; false; false], s2. split; [|split; [done|split; [|split; [done|split; [lia|]]]]].
      * apply ran_sandbox.
        rewrite bool_decide_eq_false_2 by (by intros []). cbn [andb]. apply (ran_expect [_; _; _; _]). rewrite <- surjective_pairing.
        apply (ran_expect [_; _; _] st). rewrite <- surjective_pairing. apply (ran_expect [_; _] st).
        apply (ran_expect [_] st). rewrite <- surjective_pairing. apply (ran_expect [] st). apply ran_start2.
      * apply kernel_sandbox. by rewrite !expect_kernel.
      * split; [done|]. lia.
  - destruct uctx as [u|]; [destruct C2; lia|]. cbv zeta.
    exists [false; false; false; false; false], s2. split; [|split; [done|split; [|split; [done|split; [lia|]]]]].
    * apply ran_sandbox.
      rewrite bool_decide_eq_false_2 by (by intros []). cbn [andb]. apply (ran_expect [_; _; _; _]). rewrite <- surjective_pairing.
      apply (ran_expect [_; _; _] st). rewrite <- surjective_pairing. apply (ran_expect [_; _] st).
      apply (ran_expect [_] st). rewrite <- surjective_pairing. apply (ran_expect [] st). apply ran_start2.
    * apply kernel_sandbox. by rewrite !expect_kernel.
    * split; [done|]. lia.
Qed.

Lemma ran_klog oks st r l : ran oks st r -> ran oks st (r.1, r.2 <| t_klog := l |>).
Proof. intros Hr. by apply ran_upd. Qed.
Lemma ran_audit oks st r a : ran oks st r -> ran oks st (r.1, r.2 <| t_audit := a |>).
Proof. intros Hr. by apply ran_upd. Qed.
Lemma kernel_klog st x l : kernel_of x = kernel_of st ->
  kernel_of (x <| t_klog := l |>) = (t_ipc st, t_sandbox st, l, t_audit st, t_users st, t_ai st).
Proof. unfold kernel_of. intros [= E1 E2 E3 E4 E5 E6]. cbn. congruence. Qed.
Lemma kernel_audit st x a : kernel_of x = kernel_of st ->
  kernel_of (x <| t_audit := a |>) = (t_ipc st, t_sandbox st, t_klog st, a, t_users st, t_ai st).
Proof. unfold kernel_of. intros [= E1 E2 E3 E4 E5 E6]. cbn. congruence. Qed.
(** The log after the test's message. *)
Definition klog_after st : Klog := (klog (t_klog st) ticks KLOG_INFO (Some (lit "test")) (Some (lit "selftest message"))).2.
Lemma klog_tests st : klog_wf (t_klog st) -> let r := selftest_klog ticks st in
  ran [true; true; true; true] st r /\ kernel_of r.2 = (t_ipc st, t_sandbox st, klog_after st, t_audit st, t_users st, t_ai st).
Proof.
  intros [(_ & _ & Hn) _]. unfold selftest_klog. fold (klog_after st). set (l := klog_after st).
  assert (E1 : klog_total l = u64 (klog_total (t_klog st) + 1)) by done.
  assert (E2 : 0 < klog_count l) by (unfold klog_count, l, klog_after; cbn; unfold KLOG_RING_SIZE in *; case_step; lia).
  assert (E3 : klog_set_level (klog_set_level l KLOG_ERROR) (klog_get_level l) = l) by (by destruct l).
  rewrite E3, E1, (Z.eqb_refl (u64 _)), (proj2 (Z.ltb_lt 0 _)) by done.
  change (severity (klog_get_level (klog_set_level l KLOG_ERROR)) =? severity KLOG_ERROR) with true.
  change (geti (klog_level_name KLOG_FATAL) 0 =? 70) with true. split.
  - apply ran_klog.
    refine (ran_expect [_; _; _] _ _ _ _ _ (ran_expect [_; _] _ _ _ _ _ (ran_expect [_] _ _ _ _ _ (ran_expect [] _ _ _ _ _ (ran_start2 _ _))))).
  - apply kernel_klog. by rewrite !expect_kernel.
Qed.
(** The audit log after the test's entry, and whether its total covers its entries still. *)
Definition audit_after st : AuditLog := auditlog_record (t_audit st) ticks (lit "testuser") (lit "shutdown") 100 0.
Definition audit_ok st : Prop := auditlog_current_count (audit_after st) <= auditlog_total_count (audit_after st).
Lemma audit_tests st : audit_wf (t_audit st) -> let r := selftest_auditlog ticks st in exists oks,
  ran oks st r /\ length oks = 3%nat /\
  kernel_of r.2 = (t_ipc st, t_sandbox st, t_klog st, audit_after st, t_users st, t_ai st) /\ (failures oks = 0 <-> audit_ok st).
Proof.
  intros ((_ & _ & Hn) & _). unfold selftest_auditlog. fold (audit_after st). unfold audit_ok. set (a := audit_after st).
  assert (E1 : auditlog_total_count a = u32 (auditlog_total_count (t_audit st) + 1)) by done.
  assert (E2 : 0 < auditlog_current_count a) by (unfold auditlog_current_count, a, audit_after; cbn; unfold AUDIT_LOG_SIZE in *; case_step; lia).
  exists [true; true; auditlog_current_count a <=? auditlog_total_count a]. split; [|split; [done|split]].
  - rewrite (proj2 (Z.ltb_lt 0 _) E2). replace (auditlog_total_count a =? u32 (auditlog_total_count (t_audit st) + 1)) with true by (by rewrite E1, Z.eqb_refl).
    apply ran_audit. refine (ran_expect [_; _] _ _ _ _ _ (ran_expect [_] _ _ _ _ _ (ran_expect [] _ _ _ _ _ (ran_start2 _ _)))).
  - apply kernel_audit. by rewrite !expect_kernel.
  - rewrite failures_zero, !Forall_cons, Forall_nil, Z.leb_le. tauto.
Qed.

(** ** The whole test *)

Definition tested_wf st : Prop := ipc_wf (t_ipc st) /\ sandbox_wf (t_sandbox st) /\ klog_wf (t_klog st) /\ audit_wf (t_audit st).
Lemma selftest_outcome st : tested_wf st -> let '(fails, st') := selftest_run_all garbage ticks st in
  (fails = 0 <-> accounts_ok (t_users st) /\ policy_ok (t_ai st) /\ rules_ok (t_ai st) /\ mailbox_free (t_ipc st) /\
                 pool_idx (t_sandbox st) <= 14 /\ audit_ok st) /\
  0 <= fails /\ g_fail st' = fails /\ g_pass st' + g_fail st' = 39 /\
  (t_users st' = t_users st /\ t_ai st' = t_ai st /\ t_klog st' = klog_after st /\ t_audit st' = audit_after st) /\
  inbox (t_ipc st') 100 = None /\ (forall p, p <> 0 -> p <> 100 -> inbox (t_ipc st') p = inbox (t_ipc st) p) /\
  pool_idx (t_sandbox st') = Z.min 16 (pool_idx (t_sandbox st) + 2) /\ ipc_wf (t_ipc st') /\ sandbox_wf (t_sandbox st').
Proof.
  intros (Wi & Ws & Wk & Wa). unfold selftest_run_all.
  set (s0 := say (lit "========== VernisOS Self-Test ==========") _). assert (K0 : kernel_of s0 = kernel_of st) by done. assert (G0 : g_pass s0 = 0 /\ g_fail s0 = 0) by done.
  assert (Ea : audit_after s0 = audit_after st /\ klog_after s0 = klog_after st) by done. destruct Ea as [Ea Ek]. clearbody s0.
  destruct (sha256_tests s0) as (R1 & K1). destruct (selftest_sha256 garbage s0) as [f1 s1]. cbn [snd] in *.
  destruct (userdb_tests s1) as (o2 & R2 & N2 & K2 & C2). destruct (selftest_userdb garbage s1) as [f2 s2]. cbn [snd] in *.
  destruct (policy_tests s2) as (o3 & R3 & N3 & K3 & C3). destruct (selftest_policy s2) as [f3 s3]. cbn [snd] in *.
  destruct (rules_tests s3) as (o4 & R4 & N4 & K4 & C4). destruct (selftest_access_rules s3) as [f4 s4]. cbn [snd] in *.
  unfold kernel_of in K0, K1, K2, K3, K4. injection K0 as I0 S0 L0 A0 U0 V0. injection K1 as I1 S1 L1 A1 U1 V1.
  injection K2 as I2 S2 L2 A2 U2 V2. injection K3 as I3 S3 L3 A3 U3 V3. injection K4 as I4 S4 L4 A4 U4 V4.
  assert (Hi : t_ipc s4 = t_ipc st) by congruence.
  destruct (ipc_test_script s4) as (R5 & K5). pose proof (ipc_script_spec (t_ipc s4) ltac:(by rewrite Hi)) as C5.
  destruct (ipc_script (t_ipc s4)) as [o5 i5]. destruct (selftest_ipc s4) as [f5 s5]. cbn [fst snd] in *.
  destruct C5 as (N5 & W5 & O5 & M5 & C5). injection K5 as I5 S5 L5 A5 U5 V5. assert (Hs : t_sandbox s5 = t_sandbox st) by congruence.
  destruct (sandbox_tests s5) as (o6 & b6 & R6 & N6 & K6 & W6 & P6 & C6); [by rewrite Hs|].
  destruct (selftest_sandbox s5) as [f6 s6]. cbn [fst snd] in *. injection K6 as I6 S6 L6 A6 U6 V6.
  assert (Hl : t_klog s6 = t_klog st) by congruence. destruct (klog_tests s6) as (R7 & K7); [by rewrite Hl|].
  destruct (selftest_klog ticks s6) as [f7 s7]. cbn [fst snd] in *. injection K7 as I7 S7 L7 A7 U7 V7.
  assert (Ha : t_audit s7 = t_audit st) by congruence. destruct (audit_tests s7) as (o8 & R8 & N8 & K8 & C8); [by rewrite Ha|].
  destruct (selftest_auditlog ticks s7) as [f8 s8]. cbn [fst snd] in *. injection K8 as I8 S8 L8 A8 U8 V8.
  unfold ran in *. cbn [fst snd length] in *. unfold audit_ok, audit_after, klog_after in *. rewrite Ha in C8, A8. rewrite Hl in L7.
  rewrite U1, U0 in C2. rewrite V2, V1, V0 in C3. rewrite V3, V2, V1, V0 in C4. rewrite Hi in C5, O5. rewrite Hs in C6, P6.
  cbv zeta. match goal with |- context [if g_fail ?x =? 0 then _ else _] => set (s9 := x) end.
  assert (F9 : g_fail s9 = g_fail s8 /\ g_pass s9 = g_pass s8 /\ kernel_of s9 = kernel_of s8) by done. clearbody s9.
  match goal with |- context [g_fail (if ?c then ?x else ?y)] =>
    assert (F10 : g_fail (if c then x else y) = g_fail s9 /\ g_pass (if c then x else y) = g_pass s9 /\ kernel_of (if c then x else y) = kernel_of s9)
      by (by destruct c); generalize dependent (if c then x else y) end.
  intros s10 F10. destruct F9 as (F9 & P9 & K9). destruct F10 as (F10 & P10 & K10). rewrite K9 in K10. unfold kernel_of in K10.
  injection K10 as I10 S10 L10 A10 U10 V10. change (failures [true; true; true; true]) with 0 in *.
  pose proof (failures_nonneg o2). pose proof (failures_nonneg o3). pose proof (failures_nonneg o4).
  pose proof (failures_nonneg o5). pose proof (failures_nonneg o6). pose proof (failures_nonneg o8).
  assert (Hsum : g_fail s10 = failures o2 + failures o3 + failures o4 + failures o5 + failures o6 + failures o8) by lia.
  rewrite I10, S10, I8, S8, I7, S7, I6, S6, I5. split; [|split; [lia|split; [done|split; [lia|split; [split_and!; congruence|done]]]]].
  rewrite <- C2, <- C3, <- C4, <- C5, <- C6, <- C8. lia.
Qed.


Lemma selftest_keeps_wf st : tested_wf st -> tested_wf (selftest_run_all garbage ticks st).2.
Proof.
  intros Hwf. pose proof (selftest_outcome st Hwf) as Ho. destruct (selftest_run_all garbage ticks st) as [fails st'].
  destruct Ho as (_ & _ & _ & _ & (_ & _ & El & Ea) & _ & _ & _ & Wi & Ws). destruct Hwf as (_ & _ & Wk & Wa). cbn [snd].
  split; [done|]. split; [done|]. rewrite El, Ea. split; [by apply klog_spec|].
  exact (proj1 (record_spec (t_audit st) (mkDenial ticks (lit "testuser") (lit "shutdown") 100 0) Wa)).
Qed.
(** The contexts are never given back: from the ninth run on the test fails, and no process gets a context any more. *)
Lemma ninth_selftest_fails st n : tested_wf st -> (8 <= n)%nat ->
  let st' := Nat.iter n (fun s => (selftest_run_all garbage ticks s).2) st in
  (selftest_run_all garbage ticks st').1 <> 0 /\ forall type prio, (sandbox_create_process (t_sandbox st') type prio).1 = None.
Proof.
  intros Hwf Hn. set (st' := Nat.iter n _ st). assert (Hi : tested_wf st' /\ Z.min 16 (2 * Z.of_nat n) <= pool_idx (t_sandbox st') <= 16).
  { unfold st'. clear Hn st'. induction n as [|n IH]; [split; [done|]; destruct Hwf as (_ & [_ Hp] & _); cbn; lia|].
    destruct IH as [W P]. cbn [Nat.iter nat_rect]. split; [by apply selftest_keeps_wf|]. pose proof (selftest_outcome _ W) as Ho.
    set (s := Nat.iter n _ st) in *. change (nat_rect _ _ _ n) with s. destruct (selftest_run_all garbage ticks s) as [f s'].
    destruct Ho as (_ & _ & _ & _ & _ & _ & _ & Hp & _). cbn [snd]. lia. }
  clearbody st'. destruct Hi as [W P]. split.
  - pose proof (selftest_outcome st' W) as Ho. destruct (selftest_run_all garbage ticks st') as [f s']. cbn [fst].
    intros ->. destruct Ho as [[Ho _] _]. destruct (Ho eq_refl) as (_ & _ & _ & _ & Hp & _). lia.
  - intros type prio. unfold sandbox_create_process. by rewrite (proj2 (Z.leb_le 16 _)) by lia.
Qed.
End passes.

(** A kernel the test passes on. *)
Module Demo.
Definition account (name : bytes) (hash : bytes) (priv fl : Z) : UserRecord := mkUserRecord (name ++ zeros (32 - length name)) hash priv fl.
Definition accounts : UserDb := mkUserDb
  ([account (lit "root") (zeros 32) 0 5; account (lit "admin") (sha256_spec (lit "admin")) 50 1; account (lit "user") (sha256_spec (lit "user")) 100 1]
   ++ replicate 5 zero_user) 3 true.
Definition engine : AiKernel TableEngine := mkAiKernel (Some (mkTable [(lit "shutdown", 0); (lit "policy reload", 0)] [])) true 0.
Definition kernel : Tested := mkTested ipc_init (mkSandbox (replicate 16 zero_ctx) 0)
  (mkKlog (replicate 64 zero_klog) 0 0 0 KLOG_INFO) log0 accounts engine [] 0 0 [].
End Demo.
