(* ===== verification/LineEdit.v ===== *)
(** The line editor of the shell (kernel/shell/cli.c: cli_readline) and the
    command history.  What is drawn on the screen while a line is edited is
    left out; [keys] are the characters the keyboard and the serial port
    deliver, one by one. *)

From S2P Require Import Prelude CString Cli.

(** [include/cli.h:25-31] key codes *)
Definition KEY_UP := 128.
Definition KEY_DOWN := 129.
Definition KEY_LEFT := 130.
Definition KEY_RIGHT := 131.
Definition KEY_DEL := 132.
Definition KEY_HOME := 133.
Definition KEY_END := 134.

(** The local variables: the line with its terminator, its length, the cursor,
    and how far back in the history the user is.
    [kernel/shell/cli.c:2133-2138] cli_readline *)
Record Editor := mkEditor { line : bytes; len : Z; cur : Z; hist_off : Z }.

(** [for (i = from; ...; i++) line[i] = line[i + 1];] - [n] times.
    [kernel/shell/cli.c:2178-2178] cli_readline *)
Fixpoint shift_left (n : nat) (l : bytes) (i : Z) : bytes :=
  match n with O => l | S n => shift_left n (puti l i (geti l (i + 1))) (i + 1) end.
(** [for (i = from; ...; i--) line[i] = line[i - 1];] - [n] times.
    [kernel/shell/cli.c:2268-2268] cli_readline *)
Fixpoint shift_right (n : nat) (l : bytes) (i : Z) : bytes :=
  match n with O => l | S n => shift_right n (puti l i (geti l (i - 1))) (i - 1) end.
(** [kernel/shell/cli.c:2235-2237] cli_readline *)
Fixpoint load_line (h l : bytes) (n max : Z) : bytes * Z :=
  match h with
  | c :: h' => if negb (c =? 0) && (n <? max - 1) then load_line h' (puti l n c) (n + 1) max else (puti l n 0, n)
  | [] => (puti l n 0, n)
  end.
(** The entry [off] lines back.
    [kernel/shell/cli.c:2232-2234] cli_readline *)
Definition hist_entry (sh : CliShell) (off : Z) : bytes :=
  let base := u64 (history_index sh + CLI_HISTORY_SIZE * 2) in
  geti (history sh) (u64 (base - off) mod CLI_HISTORY_SIZE).
(** [kernel/shell/cli.c:2227-2229] cli_readline *)
Definition hist_count (sh : CliShell) : Z :=
  if history_index sh <? CLI_HISTORY_SIZE then history_index sh else CLI_HISTORY_SIZE.
(** [kernel/shell/cli.c:2230-2238] cli_readline *)
Definition recall (sh : CliShell) (max_len : Z) (e : Editor) (off : Z) : Editor :=
  let '(l, n) := load_line (hist_entry sh off) (line e) 0 max_len in mkEditor l n n off.

(** One key other than Enter.
    [kernel/shell/cli.c:2175-2274] cli_readline *)
Definition readline_key (g_shell : option CliShell) (max_len : Z) (e : Editor) (uc : Z) : Editor :=
  if (uc =? 8) || (uc =? 127) then
    if 0 <? cur e then
      let l := shift_left (Z.to_nat (len e - cur e)) (line e) (cur e - 1) in
      mkEditor (puti l (len e - 1) 0) (len e - 1) (cur e - 1) (hist_off e)
    else e
  else if uc =? KEY_DEL then
    if cur e <? len e then
      let l := shift_left (Z.to_nat (len e - 1 - cur e)) (line e) (cur e) in
      mkEditor (puti l (len e - 1) 0) (len e - 1) (cur e) (hist_off e)
    else e
  else if uc =? KEY_LEFT then
    if 0 <? cur e then mkEditor (line e) (len e) (cur e - 1) (hist_off e) else e
  else if uc =? KEY_RIGHT then
    if cur e <? len e then mkEditor (line e) (len e) (cur e + 1) (hist_off e) else e
  else if uc =? KEY_HOME then mkEditor (line e) (len e) 0 (hist_off e)
  else if uc =? KEY_END then mkEditor (line e) (len e) (len e) (hist_off e)
  else match (if (uc =? KEY_UP) || (uc =? KEY_DOWN) then g_shell else None) with
  | Some sh =>
      if uc =? KEY_UP then
        if hist_off e <? hist_count sh then recall sh max_len e (hist_off e + 1) else e
      else if 1 <? hist_off e then recall sh max_len e (hist_off e - 1)
      else if hist_off e =? 1 then mkEditor (puti (line e) 0 0) 0 0 0
      else e
  | None =>
      if (32 <=? uc) && (uc <? 127) && (len e <? max_len - 1) then
        let l := shift_right (Z.to_nat (len e - cur e)) (line e) (len e) in
        mkEditor (puti (puti l (cur e) uc) (len e + 1) 0) (len e + 1) (cur e + 1) (hist_off e)
      else e
  end.
(** [None]: the keys run out before Enter, the reader waits.
    [kernel/shell/cli.c:2145-2275] cli_readline *)
Fixpoint readline_loop (g_shell : option CliShell) (max_len : Z) (e : Editor) (keys : bytes)
    : option (Editor * bytes) :=
  match keys with
  | [] => None
  | uc :: keys =>
      if (uc =? 10) || (uc =? 13) then Some (e, keys)
      else readline_loop g_shell max_len (readline_key g_shell max_len e uc) keys
  end.
(** The result, the buffer and the keys not read.
    [kernel/shell/cli.c] cli_readline *)
Definition cli_readline (g_shell : option CliShell) (buf : bytes) (max_len : Z) (keys : bytes)
    : option (Z * bytes * bytes) :=
  if max_len <? 2 then Some (0, buf, keys) else
  match readline_loop g_shell max_len (mkEditor (zeros 256) 0 0 0) keys with
  | Some (e, keys) => Some (len e, cli_strcpy buf (line e) max_len, keys)
  | None => None
  end.

(** [kernel/shell/cli.c] cli_history_push *)
Definition cli_history_push (sh : CliShell) (l : bytes) : CliShell :=
  if char_at l 0 =? 0 then sh else
  let slot := history_index sh mod CLI_HISTORY_SIZE in
  sh <| history := puti (history sh) slot (cli_strcpy (geti (history sh) slot) l CLI_MAX_INPUT_LEN) |>
     <| history_index := u64 (history_index sh + 1) |>.

(** ** The abstract editor: the text before the cursor, last character first,
    the text behind it, and how far back in the history it is. *)

Record Zip := mkZip { bef : bytes; aft : bytes; off : nat }.
Definition zip_text (z : Zip) : bytes := rev (bef z) ++ aft z.
Definition zip_at_end (t : bytes) (n : nat) : Zip := mkZip (rev t) [] n.
(** [hist] has the latest line first; a line has room for [room] characters. *)
Definition zip_key (hist : list bytes) (room : nat) (z : Zip) (c : Z) : Zip :=
  if (c =? 8) || (c =? 127) then mkZip (tail (bef z)) (aft z) (off z)
  else if c =? KEY_DEL then mkZip (bef z) (tail (aft z)) (off z)
  else if c =? KEY_LEFT then
    match bef z with x :: b => mkZip b (x :: aft z) (off z) | [] => z end
  else if c =? KEY_RIGHT then
    match aft z with x :: a => mkZip (x :: bef z) a (off z) | [] => z end
  else if c =? KEY_HOME then mkZip [] (zip_text z) (off z)
  else if c =? KEY_END then zip_at_end (zip_text z) (off z)
  else if c =? KEY_UP then
    match hist !! off z with Some h => zip_at_end (take room h) (S (off z)) | None => z end
  else if c =? KEY_DOWN then
    match off z with
    | O => z
    | S O => mkZip [] [] 0
    | S (S n) => zip_at_end (take room (hist !!! n)) (S n)
    end
  else if (32 <=? c) && (c <? 127) && (length (zip_text z) <? room)%nat then mkZip (c :: bef z) (aft z) (off z)
  else z.
(** The text when Enter is pressed, and the keys behind it. *)
Fixpoint zip_read (hist : list bytes) (room : nat) (z : Zip) (keys : bytes) : option (bytes * bytes) :=
  match keys with
  | [] => None
  | c :: keys => if (c =? 10) || (c =? 13) then Some (zip_text z, keys)
                 else zip_read hist room (zip_key hist room z c) keys
  end.

(** The history, latest line first. *)
Definition recent (sh : CliShell) : list bytes :=
  (fun k : nat => cstr (hist_entry sh (Z.of_nat k + 1))) <$> seq 0 (Z.to_nat (hist_count sh)).
Definition hist_wf (sh : CliShell) : Prop :=
  length (history sh) = 50%nat /\ Forall (fun h => length h = 256%nat) (history sh) /\
  0 <= history_index sh < 2 ^ 63.

(** ** Moving characters *)

Lemma puti_mid (a r : bytes) x v : puti (a ++ x :: r) (Z.of_nat (length a)) v = a ++ v :: r.
Proof.
  unfold puti. rewrite Nat2Z.id. rewrite <- (Nat.add_0_r (length a)) at 1. by rewrite insert_app_r.
Qed.
Lemma geti_mid (a r : bytes) x : geti (a ++ x :: r) (Z.of_nat (length a)) = x.
Proof.
  unfold geti. rewrite Nat2Z.id. rewrite lookup_total_app_r by done. by rewrite Nat.sub_diag.
Qed.

Lemma shift_left_spec b : forall a x r, exists y,
  shift_left (length b) (a ++ x :: b ++ r) (Z.of_nat (length a)) = a ++ b ++ y :: r.
Proof.
  induction b as [|c b IH]; intros a x r; cbn [length shift_left app]; [by exists x|].
  assert (Hg : geti (a ++ x :: c :: b ++ r) (Z.of_nat (length a) + 1) = c).
  { replace (Z.of_nat (length a) + 1) with (Z.of_nat (length (a ++ [x]))) by (rewrite length_app; simpl; lia).
    rewrite cons_middle, app_assoc. apply geti_mid. }
  rewrite Hg, puti_mid. destruct (IH (a ++ [c]) c r) as [y E]. exists y.
  replace (Z.of_nat (length a) + 1) with (Z.of_nat (length (a ++ [c]))) by (rewrite length_app; simpl; lia).
  rewrite <- app_assoc in E. cbn [app] in E. rewrite E. by rewrite <- !app_assoc.
Qed.
Lemma shift_right_spec b : forall a y r, exists x,
  shift_right (length b) (a ++ b ++ y :: r) (Z.of_nat (length a + length b)) = a ++ x :: b ++ r.
Proof.
  induction b as [|c b IH] using rev_ind; intros a y r; [rewrite Nat.add_0_r; by exists y|].
  rewrite length_app. cbn [length]. replace (length b + 1)%nat with (S (length b)) by lia.
  cbn [shift_right]. set (i := Z.of_nat (length a + S (length b))).
  assert (Hg : geti (a ++ (b ++ [c]) ++ y :: r) (i - 1) = c).
  { replace (i - 1) with (Z.of_nat (length (a ++ b))) by (unfold i; rewrite length_app; lia).
    rewrite <- app_assoc, app_assoc. apply geti_mid. }
  assert (Hp : puti (a ++ (b ++ [c]) ++ y :: r) i c = a ++ b ++ c :: c :: r).
  { replace i with (Z.of_nat (length (a ++ b ++ [c]))) by (unfold i; rewrite !length_app; simpl; lia).
    rewrite (app_assoc a), puti_mid. by rewrite <- !app_assoc. }
  rewrite Hg, Hp. replace (i - 1) with (Z.of_nat (length a + length b)) by (unfold i; lia).
  destruct (IH a c (c :: r)) as [x ->]. exists x. by rewrite <- app_assoc.
Qed.
Lemma load_line_spec h : forall l i n max, n = Z.of_nat i -> (i < length l)%nat -> n <= max - 1 ->
  max <= Z.of_nat (length l) -> exists r,
  let t := take (Z.to_nat (max - 1 - n)) (cstr h) in
  load_line h l n max = (take i l ++ t ++ 0 :: r, n + Z.of_nat (length t)) /\
  length (take i l ++ t ++ 0 :: r) = length l.
Proof.
  assert (Hbase : forall (l : bytes) i, (i < length l)%nat ->
    puti l (Z.of_nat i) 0 = take i l ++ 0 :: drop (S i) l).
  { intros l i Hi. unfold puti. rewrite Nat2Z.id. by apply insert_take_drop. }
  assert (Hlen : forall (l : bytes) i, (i < length l)%nat -> length (take i l ++ 0 :: drop (S i) l) = length l).
  { intros l i Hi. rewrite length_app, length_take. simpl. rewrite length_drop. lia. }
  induction h as [|c h IH]; intros l i n max -> Hi Hn Hm; cbn [load_line cstr].
  - exists (drop (S i) l). rewrite take_nil. cbn [app length]. rewrite Z.add_0_r, Hbase by done. by split; [|apply Hlen].
  - destruct (Z.eqb_spec c 0) as [->|Hc]; cbn [negb andb].
    { exists (drop (S i) l). rewrite take_nil. cbn [app length]. rewrite Z.add_0_r, Hbase by done.
      by split; [|apply Hlen]. }
    destruct (Z.ltb_spec (Z.of_nat i) (max - 1)) as [Hlt|Hge].
    + destruct (IH (puti l (Z.of_nat i) c) (S i) (Z.of_nat i + 1) max) as (r & E & El);
        [lia|rewrite length_puti; lia|lia|rewrite length_puti; lia|].
      exists r. rewrite length_puti in El.
      replace (Z.to_nat (max - 1 - Z.of_nat i)) with (S (Z.to_nat (max - 1 - (Z.of_nat i + 1)))) by lia.
      cbn [firstn app length]. rewrite E.
      assert (Ht : take (S i) (puti l (Z.of_nat i) c) = take i l ++ [c]).
      { unfold puti. rewrite Nat2Z.id, insert_take_drop by done. rewrite take_app.
        rewrite length_take, Nat.min_l by lia. rewrite take_ge by (rewrite length_take; lia).
        replace (S i - i)%nat with 1%nat by lia. done. }
      rewrite Ht in *. rewrite <- app_assoc in *. cbn [app] in *. split; [|done]. f_equal. lia.
    + replace (Z.to_nat (max - 1 - Z.of_nat i)) with 0%nat by lia. exists (drop (S i) l). cbn [firstn app length].
      rewrite Z.add_0_r, Hbase by done. by split; [|apply Hlen].
Qed.

(** ** The editor refines the abstract one *)

Section refinement.
Variable sh : CliShell.
Variable max_len : Z.
Hypothesis Hmax : 2 <= max_len <= 256.
Definition room : nat := Z.to_nat (max_len - 1).

Record rep (e : Editor) (z : Zip) : Prop := {
  rep_line : exists r, line e = zip_text z ++ 0 :: r;
  rep_size : length (line e) = 256%nat;
  rep_len : len e = Z.of_nat (length (zip_text z));
  rep_cur : cur e = Z.of_nat (length (bef z));
  rep_off : hist_off e = Z.of_nat (off z);
  rep_room : (length (zip_text z) <= room)%nat;
  rep_nz : Forall (fun c => c <> 0) (zip_text z);
  rep_hist : (off z <= length (recent sh))%nat }.

Lemma length_recent : length (recent sh) = Z.to_nat (hist_count sh).
Proof. unfold recent. by rewrite length_fmap, length_seq. Qed.
Lemma recent_lookup k : (k < length (recent sh))%nat ->
  recent sh !! k = Some (cstr (hist_entry sh (Z.of_nat k + 1))).
Proof.
  rewrite length_recent. intros Hk. unfold recent. rewrite list_lookup_fmap, lookup_seq_lt by done. done.
Qed.

Lemma length_text z : length (zip_text z) = (length (bef z) + length (aft z))%nat.
Proof. unfold zip_text. by rewrite length_app, length_rev. Qed.

(** The line set to another text, the cursor at its end. *)
Lemma rep_at_end l r t n : l = t ++ 0 :: r -> length l = 256%nat -> (length t <= room)%nat ->
  Forall (fun c => c <> 0) t -> (n <= length (recent sh))%nat ->
  rep (mkEditor l (Z.of_nat (length t)) (Z.of_nat (length t)) (Z.of_nat n)) (zip_at_end t n).
Proof.
  intros -> Hl Ht Hz Hn. unfold zip_at_end.
  assert (Et : zip_text (mkZip (rev t) [] n) = t) by (unfold zip_text; cbn; by rewrite rev_involutive, app_nil_r).
  split; rewrite ?Et; cbn; try done; [by exists r|by rewrite length_rev].
Qed.
Lemma rep_recall e z k : rep e z -> (k < length (recent sh))%nat ->
  rep (recall sh max_len e (Z.of_nat (S k))) (zip_at_end (take room (recent sh !!! k)) (S k)).
Proof.
  intros Hr Hk. unfold recall. pose proof (rep_size _ _ Hr) as Hs.
  assert (Ek : Z.of_nat k + 1 = Z.of_nat (S k)) by lia.
  destruct (load_line_spec (hist_entry sh (Z.of_nat (S k))) (line e) 0 0 max_len) as (r & E & El); [done|lia..|].
  rewrite Z.sub_0_r in E, El. cbn [firstn app] in E, El. rewrite take_0 in E, El. cbn [app] in E, El. rewrite E.
  rewrite (list_lookup_total_correct _ _ _ (recent_lookup k Hk)), Ek. fold room in *.
  rewrite Z.add_0_l.
  eapply rep_at_end; [done|by rewrite El|rewrite length_take; lia|apply Forall_take, cstr_nonzero|lia].
Qed.

(** The same text with the cursor elsewhere. *)
Lemma rep_move e z b a : rep e z -> zip_text z = rev b ++ a ->
  rep (mkEditor (line e) (len e) (Z.of_nat (length b)) (hist_off e)) (mkZip b a (off z)).
Proof.
  intros [R1 R2 R3 R4 R5 R6 R7 R8] Et. assert (E : zip_text (mkZip b a (off z)) = zip_text z) by done.
  split; rewrite ?E; done.
Qed.
(** One character less. *)
Lemma rep_delete e z b x a i : rep e z -> zip_text z = rev b ++ x :: a -> i = Z.of_nat (length b) ->
  rep (mkEditor (puti (shift_left (length a) (line e) i) (len e - 1) 0) (len e - 1) i (hist_off e)) (mkZip b a (off z)).
Proof.
  intros [[r R1] R2 R3 R4 R5 R6 R7 R8] Et ->. rewrite Et in R1, R3, R6, R7. rewrite length_app in R3, R6. simpl in R3, R6.
  rewrite R1, length_app in R2. simpl in R2.
  rewrite <- app_assoc in R1. cbn [app] in R1. destruct (shift_left_spec a (rev b) x (0 :: r)) as [y E].
  rewrite length_rev in E, R3, R6. rewrite R1, E.
  replace (len e - 1) with (Z.of_nat (length (rev b ++ a))) by (rewrite length_app, length_rev; lia).
  rewrite (app_assoc (rev b)), puti_mid. apply Forall_app in R7 as [R7 R9].
  inversion_clear R9 as [|? ? R9' R9'']. rewrite length_app in R2. rewrite length_rev in R2. simpl in R2.
  split; unfold zip_text; cbn; try done.
  - by exists (0 :: r).
  - rewrite !length_app, length_rev. simpl. lia.
  - rewrite length_app, length_rev. lia.
  - by apply Forall_app.
Qed.
(** One character more. *)
Lemma rep_insert e z c : rep e z -> (length (zip_text z) < room)%nat -> c <> 0 ->
  rep (mkEditor (puti (puti (shift_right (length (aft z)) (line e) (len e)) (cur e) c) (len e + 1) 0)
         (len e + 1) (cur e + 1) (hist_off e)) (mkZip (c :: bef z) (aft z) (off z)).
Proof.
  intros [[r R1] R2 R3 R4 R5 R6 R7 R8] Hroom Hc. unfold zip_text in *. set (b := bef z) in *. set (a := aft z) in *.
  rewrite R1, length_app in R2. simpl in R2.
  assert (Hr : exists y r', r = y :: r') by (destruct r as [|y r']; [unfold room in Hroom; simpl in R2; lia|eauto]).
  destruct Hr as (y & r' & ->).
  rewrite <- app_assoc in R1. destruct (shift_right_spec a (rev b) 0 (y :: r')) as [x E].
  rewrite <- length_app in E. rewrite R3, R4, R1. cbn [app] in *. rewrite E.
  replace (Z.of_nat (length b)) with (Z.of_nat (length (rev b))) at 1 by (by rewrite length_rev).
  rewrite puti_mid. replace (Z.of_nat (length (rev b ++ a)) + 1) with (Z.of_nat (length (rev b ++ c :: a)))
    by (rewrite !length_app; simpl; lia).
  change (rev b ++ c :: a ++ y :: r') with (rev b ++ (c :: a) ++ y :: r').
  rewrite (app_assoc (rev b)), puti_mid.
  assert (Et : zip_text (mkZip (c :: b) a (off z)) = rev b ++ c :: a)
    by (unfold zip_text; cbn; by rewrite <- app_assoc).
  split; rewrite ?Et; cbn; try done.
  - by exists r'.
  - rewrite !length_app in *. simpl in *. lia.
  - lia.
  - rewrite !length_app in *. simpl in *. lia.
  - apply Forall_app in R7 as [R7 R9]. apply Forall_app. split; [done|]. by constructor.
Qed.

Lemma hist_count_len : hist_wf sh -> hist_count sh = Z.of_nat (length (recent sh)).
Proof. intros (_ & _ & Hi). rewrite length_recent. unfold hist_count, CLI_HISTORY_SIZE. case_step; lia. Qed.

Lemma key_refines e z c : hist_wf sh -> rep e z ->
  rep (readline_key (Some sh) max_len e c) (zip_key (recent sh) room z c).
Proof.
  intros Hwf Hr. pose proof Hr as [_ _ R3 R4 R5 R6 _ R8]. rewrite length_text in R3, R6.
  assert (Hz : z = mkZip (bef z) (aft z) (off z)) by (by destruct z).
  unfold readline_key, zip_key. destruct ((c =? 8) || (c =? 127)) eqn:E8.
  { destruct (bef z) as [|x b] eqn:Eb; cbn [tail length] in *.
    - rewrite (proj2 (Z.ltb_ge _ _)) by lia. rewrite Hz in Hr. exact Hr.
    - rewrite (proj2 (Z.ltb_lt _ _)) by lia. replace (Z.to_nat (len e - cur e)) with (length (aft z)) by lia.
      replace (cur e - 1) with (Z.of_nat (length b)) by lia. eapply rep_delete; [done| |done].
      unfold zip_text. rewrite Eb. cbn. by rewrite <- app_assoc. }
  destruct (c =? KEY_DEL).
  { destruct (aft z) as [|x a] eqn:Ea; cbn [tail length] in *.
    - rewrite (proj2 (Z.ltb_ge _ _)) by lia. rewrite Hz in Hr. exact Hr.
    - rewrite (proj2 (Z.ltb_lt _ _)) by lia. replace (Z.to_nat (len e - 1 - cur e)) with (length a) by lia.
      rewrite R4. eapply rep_delete; [done| |done]. unfold zip_text. by rewrite Ea. }
  destruct (c =? KEY_LEFT).
  { destruct (bef z) as [|x b] eqn:Eb; cbn [length] in *.
    - by rewrite (proj2 (Z.ltb_ge _ _)) by lia.
    - rewrite (proj2 (Z.ltb_lt _ _)) by lia. replace (cur e - 1) with (Z.of_nat (length b)) by lia.
      apply rep_move; [done|]. unfold zip_text. rewrite Eb. cbn. by rewrite <- app_assoc. }
  destruct (c =? KEY_RIGHT).
  { destruct (aft z) as [|x a] eqn:Ea; cbn [length] in *.
    - by rewrite (proj2 (Z.ltb_ge _ _)) by lia.
    - rewrite (proj2 (Z.ltb_lt _ _)) by lia. replace (cur e + 1) with (Z.of_nat (length (x :: bef z))) by (simpl; lia).
      apply rep_move; [done|]. unfold zip_text. rewrite Ea. cbn. by rewrite <- app_assoc. }
  destruct (c =? KEY_HOME); [by apply (rep_move e z [])|].
  destruct (c =? KEY_END).
  { rewrite R3, <- length_text, <- length_rev. replace (Z.of_nat (length (rev (zip_text z)))) with (len e) at 1
      by (rewrite length_rev, length_text; lia).
    apply rep_move; [done|]. by rewrite rev_involutive, app_nil_r. }
  destruct (c =? KEY_UP); cbn [orb].
  { rewrite hist_count_len, R5 by done. destruct (Z.ltb_spec (Z.of_nat (off z)) (Z.of_nat (length (recent sh)))) as [Hlt|Hge].
    - destruct (recent sh !! off z) as [h|] eqn:Eh; [|apply lookup_ge_None in Eh; lia].
      replace (Z.of_nat (off z) + 1) with (Z.of_nat (S (off z))) by lia.
      rewrite <- (list_lookup_total_correct _ _ _ Eh). apply (rep_recall e z); [done|lia].
    - by rewrite (proj2 (lookup_ge_None _ _)) by lia. }
  destruct (c =? KEY_DOWN).
  { destruct (off z) as [|[|n]] eqn:Eo; rewrite R5.
    - rewrite (proj2 (Z.ltb_ge _ _)), (proj2 (Z.eqb_neq _ _)) by lia. done.
    - rewrite (proj2 (Z.ltb_ge _ _)) by lia. cbn [Z.of_nat Z.eqb Pos.of_succ_nat Pos.eqb].
      pose proof (rep_size _ _ Hr) as Hs. destruct (line e) as [|x l] eqn:El; [done|].
      apply (rep_at_end (puti (x :: l) 0 0) l [] 0); [done|by rewrite length_puti|simpl; lia|constructor|lia].
    - rewrite (proj2 (Z.ltb_lt _ _)) by lia. replace (Z.of_nat (S (S n)) - 1) with (Z.of_nat (S n)) by lia.
      apply (rep_recall e z); [done|lia]. }
  destruct (Z.leb_spec 32 c) as [Hge|], (Z.ltb_spec c 127) as [Hlt|]; cbn [andb]; try done.
  destruct (Nat.ltb_spec (length (zip_text z)) room) as [Hroom|Hfull]; rewrite length_text in *; unfold room in *.
  - rewrite (proj2 (Z.ltb_lt _ _)) by lia. replace (Z.to_nat (len e - cur e)) with (length (aft z)) by lia.
    apply rep_insert; [done|rewrite length_text; unfold room; lia|lia].
  - by rewrite (proj2 (Z.ltb_ge _ _)) by lia.
Qed.

Lemma loop_refines keys : forall e z, hist_wf sh -> rep e z ->
  match readline_loop (Some sh) max_len e keys, zip_read (recent sh) room z keys with
  | Some (e', k), Some (t, k') => k = k' /\ exists z', rep e' z' /\ zip_text z' = t
  | None, None => True
  | _, _ => False
  end.
Proof.
  induction keys as [|c keys IH]; intros e z Hwf Hr; cbn [readline_loop zip_read]; [done|].
  destruct ((c =? 10) || (c =? 13)).
  - split; [done|]. by exists z.
  - apply IH; [done|]. by apply key_refines.
Qed.
Lemma rep_empty : rep (mkEditor (zeros 256) 0 0 0) (mkZip [] [] 0).
Proof. apply (rep_at_end (zeros 256) (zeros 255) [] 0); [done|done|simpl; lia|constructor|lia]. Qed.
End refinement.


(** ** The history *)

Lemma hist_entry_mod sh k : hist_wf sh -> 0 <= k < 50 ->
  hist_entry sh (k + 1) = geti (history sh) ((history_index sh - 1 - k) mod 50).
Proof.
  intros (_ & _ & Hi) Hk. unfold hist_entry, CLI_HISTORY_SIZE.
  rewrite (u64_id (history_index sh + 50 * 2)), u64_id by ulia.
  f_equal. replace (history_index sh + 50 * 2 - (k + 1)) with (history_index sh - 1 - k + 2 * 50) by lia.
  by rewrite Z_mod_plus_full.
Qed.

(** A line becomes the latest entry - laid over the entry of 50 lines before - and the 49 latest
    others stay. *)
Lemma history_push_recent sh l : hist_wf sh -> char_at l 0 <> 0 -> history_index sh < 2 ^ 63 - 1 ->
  let old := geti (history sh) (history_index sh mod 50) in
  hist_wf (cli_history_push sh l) /\
  recent (cli_history_push sh l) = take 50 (cstr (cli_strcpy old l 256) :: recent sh).
Proof.
  intros Hwf Hl Hlt old. pose proof Hwf as (H50 & H256 & Hi).
  assert (Hslot : 0 <= history_index sh mod 50 < 50) by (by apply Z.mod_pos_bound).
  assert (Hold : length old = 256%nat) by (apply (geti_Forall _ _ _ H256); lia).
  set (sh' := cli_history_push sh l).
  assert (Eh : history sh' = puti (history sh) (history_index sh mod 50) (cli_strcpy old l 256) /\
               history_index sh' = history_index sh + 1).
  { unfold sh', cli_history_push. rewrite (proj2 (Z.eqb_neq _ 0)) by done. cbn. split; [done|]. by rewrite u64_id by ulia. }
  destruct Eh as [Eh Ei].
  assert (Hwf' : hist_wf sh').
  { split; [by rewrite Eh, length_puti|]. split; [|rewrite Ei; lia]. rewrite Eh. apply puti_Forall; [done|].
    by rewrite length_cli_strcpy by (rewrite ?Hold; lia). }
  split; [done|]. apply list_eq. intros k.
  assert (Hc : Z.to_nat (hist_count sh') = Nat.min 50 (S (Z.to_nat (hist_count sh)))).
  { unfold hist_count, CLI_HISTORY_SIZE. rewrite Ei. repeat case_step; lia. }
  destruct (Nat.lt_ge_cases k (length (recent sh'))) as [Hk|Hk].
  2:{ rewrite !(proj2 (lookup_ge_None _ _)); [done| |done]. rewrite length_take. cbn [length].
      rewrite !length_recent in *. lia. }
  rewrite recent_lookup by done. rewrite length_recent, Hc in Hk.
  rewrite lookup_take_lt by lia. rewrite hist_entry_mod, Eh, Ei by (done || lia). destruct k as [|k].
  - cbn [lookup list_lookup]. replace (history_index sh + 1 - 1 - Z.of_nat 0) with (history_index sh) by lia.
    by rewrite geti_puti_eq by lia.
  - cbn [lookup list_lookup]. rewrite recent_lookup by (rewrite length_recent; lia).
    rewrite hist_entry_mod by (done || lia). rewrite geti_puti_ne; [|lia|by apply Z.mod_pos_bound|].
    + by replace (history_index sh + 1 - 1 - Z.of_nat (S k)) with (history_index sh - 1 - Z.of_nat k) by lia.
    + intros E. assert (Hd : (history_index sh - (history_index sh + 1 - 1 - Z.of_nat (S k))) mod 50 = 0)
        by (rewrite Zminus_mod, E, Z.sub_diag; done).
      replace (history_index sh - (history_index sh + 1 - 1 - Z.of_nat (S k))) with (Z.of_nat (S k)) in Hd by lia.
      rewrite Z.mod_small in Hd; lia.
Qed.

(** A new shell recalls its first 50 lines as they were typed. *)
Lemma history_first_lines ls : (length ls <= 50)%nat ->
  Forall (fun l => l <> [] /\ Forall (fun c => c <> 0) l /\ (length l <= 255)%nat) ls ->
  let sh := fold_left cli_history_push ls (cli_shell_init None) in
  hist_wf sh /\ recent sh = rev ls /\ history_index sh = Z.of_nat (length ls) /\
  (forall i, Z.of_nat (length ls) <= i < 50 -> geti (history sh) i = zeros 256).
Proof.
  induction ls as [|l ls IH] using rev_ind; intros Hn Hf.
  - cbn [fold_left]. assert (Hh : history (cli_shell_init None) = replicate 50 (zeros 256)) by done.
    assert (Hi : history_index (cli_shell_init None) = 0) by done. cbv zeta. rewrite Hi.
    split; [|split; [done|split; [done|]]].
    + split; [done|]. rewrite Hh, Hi. split; [by apply Forall_replicate|lia].
    + intros i Hb. rewrite Hh. unfold geti. apply lookup_total_replicate_2. lia.
  - rewrite length_app in Hn. simpl in Hn. apply Forall_app in Hf as [Hf Hl]. inversion_clear Hl as [|? ? (Hne & Hz & Hlen) _].
    destruct (IH ltac:(lia) Hf) as (Hwf & Er & Ei & Eg). rewrite fold_left_app. cbn [fold_left].
    set (sh := fold_left cli_history_push ls (cli_shell_init None)) in *.
    assert (Hc : char_at l 0 <> 0) by (destruct l; [done|]; by inversion_clear Hz).
    destruct (history_push_recent sh l Hwf Hc) as [Hwf' Er']; [rewrite Ei; lia|].
    rewrite Ei, Z.mod_small, Eg in Er' by lia. change 256 with (Z.of_nat 256) in Er'.
    rewrite cli_strcpy_zeros, cstr_id, (take_ge l), Er in Er' by (done || lia).
    split; [done|]. split; [|split].
    + rewrite Er', rev_app_distr. apply take_ge. simpl. rewrite length_rev. lia.
    + unfold cli_history_push. rewrite (proj2 (Z.eqb_neq _ 0)) by done. cbn. rewrite Ei, length_app, u64_id by ulia.
      simpl. lia.
    + intros i Hi. rewrite length_app in Hi. simpl in Hi. unfold cli_history_push.
      rewrite (proj2 (Z.eqb_neq _ 0)) by done. cbn. unfold CLI_HISTORY_SIZE. rewrite Ei, (Z.mod_small _ 50) by lia.
      rewrite geti_puti_ne by lia. apply Eg. lia.
Qed.

(** Typing [pong], recalling [ls -l], editing it to [ls -al]. *)
Definition typed_shell : CliShell :=
  cli_history_push (cli_history_push (cli_shell_init None) (lit "ls -l")) (lit "ps").
Definition typed_keys : bytes := lit "pong" ++ [KEY_HOME; KEY_DEL; KEY_UP; KEY_UP; KEY_LEFT; 97; 10; 120].

(** From the 51st line on, a line that is shorter than the one it replaces keeps the tail of it. *)
Lemma history_keeps_old_tail :
  recent (cli_history_push (fold_left cli_history_push (replicate 50 (lit "ls -l")) (cli_shell_init None)) (lit "ps")) !! 0%nat =
  Some (lit "ps -l").
Proof. vm_compute. reflexivity. Qed.
