(* ===== verification/Shell.v ===== *)
(** The shell (kernel/shell/cli.c): running commands.  Who may run what, the
    built-in commands on sessions, files and text, pipes, and the lines of
    several commands.

    A command whose handler is not in this file - the network tools, the listings of
    hardware and processes, the AI and log viewers, most of them in files of their own
    (ShellIpc, ShellFiles, ShellNet, ShellDisk, ShellInfo) - is the parameter [other]: what it returns, what it prints and what it does to the
    rest of the kernel are left open.  No such handler writes to the session.
    [screen] collects the characters sent to the terminal, [keys] are the
    characters the keyboard and the serial port will deliver.  The clock stands
    still while a line runs. *)

From S2P Require Import Prelude CString BlockDev Bcache VernisFs Kfs LogRing AuditLog Klog Sha256 UserDb AiEngine Policy Cli LineEdit.

(** [kernel/shell/cli.c:563-563] CLI_PIPE_BUF_SIZE *)
Definition CLI_PIPE_BUF_SIZE := 8192.
Definition NL : Z := 10.

(** The handlers; [H_other] stands for those that are not modelled. *)
Inductive Handler :=
| H_help | H_exit | H_whoami | H_ver | H_echo | H_shutdown | H_restart | H_login | H_su | H_logout | H_users
| H_cat | H_write | H_append | H_rm | H_mkdir | H_chmod | H_chown | H_grep | H_wc | H_other.
(** [include/cli.h] CliBuiltinCommand *)
Record CliBuiltinCommand := mkBuiltin { name : bytes; description : bytes; handler : Handler; min_privilege : Z }.
(** [kernel/shell/cli.c:650-721] BUILTIN_COMMANDS *)
Definition BUILTIN_COMMANDS : list CliBuiltinCommand := [
  mkBuiltin (lit "help") (lit "Show help message") H_help CLI_PRIV_USER;
  mkBuiltin (lit "clear") (lit "Clear the screen") H_other CLI_PRIV_USER;
  mkBuiltin (lit "info") (lit "Show system info") H_other CLI_PRIV_USER;
  mkBuiltin (lit "exit") (lit "Exit shell") H_exit CLI_PRIV_USER;
  mkBuiltin (lit "whoami") (lit "Show current user") H_whoami CLI_PRIV_USER;
  mkBuiltin (lit "ver") (lit "Show VernisOS version") H_ver CLI_PRIV_USER;
  mkBuiltin (lit "ps") (lit "Realtime process list") H_other CLI_PRIV_USER;
  mkBuiltin (lit "echo") (lit "Print text") H_echo CLI_PRIV_USER;
  mkBuiltin (lit "shutdown") (lit "Shutdown the system") H_shutdown CLI_PRIV_ROOT;
  mkBuiltin (lit "restart") (lit "Restart the system") H_restart CLI_PRIV_ROOT;
  mkBuiltin (lit "ai") (lit "Query AI engine") H_other CLI_PRIV_ADMIN;
  mkBuiltin (lit "policy") (lit "Show/reload policy") H_other CLI_PRIV_ROOT;
  mkBuiltin (lit "login") (lit "Switch user session") H_login CLI_PRIV_USER;
  mkBuiltin (lit "su") (lit "Run command as root") H_su CLI_PRIV_USER;
  mkBuiltin (lit "logout") (lit "Return to default user") H_logout CLI_PRIV_USER;
  mkBuiltin (lit "users") (lit "List system users") H_users CLI_PRIV_ADMIN;
  mkBuiltin (lit "test") (lit "Run kernel self-tests") H_other CLI_PRIV_ROOT;
  mkBuiltin (lit "auditlog") (lit "Show deny audit log") H_other CLI_PRIV_ADMIN;
  mkBuiltin (lit "log") (lit "View kernel log") H_other CLI_PRIV_ADMIN;
  mkBuiltin (lit "ls") (lit "List directory") H_other CLI_PRIV_USER;
  mkBuiltin (lit "cat") (lit "Read file contents") H_cat CLI_PRIV_USER;
  mkBuiltin (lit "write") (lit "Write/create file") H_write CLI_PRIV_USER;
  mkBuiltin (lit "append") (lit "Append to file") H_append CLI_PRIV_USER;
  mkBuiltin (lit "rm") (lit "Remove file") H_rm CLI_PRIV_ADMIN;
  mkBuiltin (lit "mkdir") (lit "Create directory") H_mkdir CLI_PRIV_USER;
  mkBuiltin (lit "exec") (lit "Run ELF program") H_other CLI_PRIV_USER;
  mkBuiltin (lit "date") (lit "Show current date/time") H_other CLI_PRIV_USER;
  mkBuiltin (lit "uptime") (lit "Show system uptime") H_other CLI_PRIV_USER;
  mkBuiltin (lit "lspci") (lit "List PCI devices") H_other CLI_PRIV_USER;
  mkBuiltin (lit "ahci") (lit "Show AHCI controller") H_other CLI_PRIV_USER;
  mkBuiltin (lit "nvme") (lit "Show NVMe controller") H_other CLI_PRIV_USER;
  mkBuiltin (lit "ping") (lit "Ping a host (ICMP)") H_other CLI_PRIV_USER;
  mkBuiltin (lit "kill") (lit "Send signal to process") H_other CLI_PRIV_USER;
  mkBuiltin (lit "grep") (lit "Filter lines by pattern") H_grep CLI_PRIV_USER;
  mkBuiltin (lit "wc") (lit "Count lines/words/bytes") H_wc CLI_PRIV_USER;
  mkBuiltin (lit "usockbind") (lit "Bind local unix socket") H_other CLI_PRIV_ADMIN;
  mkBuiltin (lit "usocksend") (lit "Send to unix socket") H_other CLI_PRIV_USER;
  mkBuiltin (lit "usockrecv") (lit "Recv from unix socket") H_other CLI_PRIV_USER;
  mkBuiltin (lit "usockclose") (lit "Close unix socket") H_other CLI_PRIV_ADMIN;
  mkBuiltin (lit "dlopen") (lit "Load shared library") H_other CLI_PRIV_ADMIN;
  mkBuiltin (lit "dlsym") (lit "Resolve symbol") H_other CLI_PRIV_USER;
  mkBuiltin (lit "dlcall") (lit "Call resolved symbol") H_other CLI_PRIV_USER;
  mkBuiltin (lit "dlclose") (lit "Unload shared library") H_other CLI_PRIV_ADMIN;
  mkBuiltin (lit "dllist") (lit "List shared libraries") H_other CLI_PRIV_USER;
  mkBuiltin (lit "chmod") (lit "Change file permissions") H_chmod CLI_PRIV_USER;
  mkBuiltin (lit "chown") (lit "Change file owner/group") H_chown CLI_PRIV_ROOT;
  mkBuiltin (lit "sync") (lit "Flush block cache") H_other CLI_PRIV_USER;
  mkBuiltin (lit "tcphandshake") (lit "Test TCP handshake") H_other CLI_PRIV_USER;
  mkBuiltin (lit "tcpaccept") (lit "Accept TCP connection") H_other CLI_PRIV_USER;
  mkBuiltin (lit "fatmount") (lit "Mount FAT32 volume") H_other CLI_PRIV_USER;
  mkBuiltin (lit "fatls") (lit "List FAT32 directory") H_other CLI_PRIV_USER;
  mkBuiltin (lit "fatcat") (lit "Print FAT32 file") H_other CLI_PRIV_USER;
  mkBuiltin (lit "ext2mount") (lit "Mount ext2 volume") H_other CLI_PRIV_USER;
  mkBuiltin (lit "ext2ls") (lit "List ext2 directory") H_other CLI_PRIV_USER;
  mkBuiltin (lit "ext2cat") (lit "Print ext2 file") H_other CLI_PRIV_USER;
  mkBuiltin (lit "tcpstat") (lit "Show TCP sockets") H_other CLI_PRIV_USER;
  mkBuiltin (lit "tcpsend") (lit "Send data on TCP socket") H_other CLI_PRIV_USER;
  mkBuiltin (lit "tcprecv") (lit "Read data from TCP socket") H_other CLI_PRIV_USER;
  mkBuiltin (lit "tcpclose") (lit "Close TCP socket") H_other CLI_PRIV_USER;
  mkBuiltin (lit "winmove") (lit "Move focused window (GUI)") H_other CLI_PRIV_USER;
  mkBuiltin (lit "udpbind") (lit "Bind UDP socket") H_other CLI_PRIV_USER;
  mkBuiltin (lit "udpsend") (lit "Send UDP datagram") H_other CLI_PRIV_USER;
  mkBuiltin (lit "udprecv") (lit "Receive UDP datagram") H_other CLI_PRIV_USER;
  mkBuiltin (lit "udpclose") (lit "Close UDP socket") H_other CLI_PRIV_USER;
  mkBuiltin (lit "dhcp") (lit "Configure IP via DHCP") H_other CLI_PRIV_USER;
  mkBuiltin (lit "nslookup") (lit "Resolve hostname (DNS)") H_other CLI_PRIV_USER;
  mkBuiltin (lit "perf") (lit "Show kernel perf counters") H_other CLI_PRIV_USER;
  mkBuiltin (lit "console") (lit "Hand serial to userland login") H_other CLI_PRIV_USER;
  mkBuiltin (lit "slots") (lit "Show C task slots (debug)") H_other CLI_PRIV_USER
].
(** [kernel/shell/cli.c] cli_find_builtin *)
Definition cli_find_builtin (n : bytes) : option CliBuiltinCommand :=
  find (fun b => cli_strcmp (name b) n =? 0) BUILTIN_COMMANDS.
(** [kernel/shell/cli.c] cli_command_pipe_safe *)
Definition cli_command_pipe_safe (n : bytes) : bool :=
  negb (cli_streq n (lit "ps") || cli_streq n (lit "shutdown") || cli_streq n (lit "restart") ||
        cli_streq n (lit "clear") || cli_streq n (lit "login") || cli_streq n (lit "su") ||
        cli_streq n (lit "logout") || cli_streq n (lit "exec")).

(** ** Output *)

(** The text captured for a pipe and the input from a pipe are the first
    g_cli_capture_len and g_cli_pipe_input_len characters of their buffers.
    [kernel/shell/cli.c:564-569] g_cli_capture_buf *)
Record Con := mkCon {
  capture_active : bool; capture_echo : bool; captured : bytes; pipe_input : bytes; screen : bytes }.
(** [kernel/shell/cli.c] cli_write_raw *)
Definition write_char (con : Con) (c : Z) : Con :=
  mkCon (capture_active con) (capture_echo con)
    (if capture_active con && (Z.of_nat (length (captured con)) <? CLI_PIPE_BUF_SIZE - 1)
     then captured con ++ [c] else captured con)
    (pipe_input con)
    (if negb (capture_active con) || capture_echo con then screen con ++ [c] else screen con).
(** [kernel/shell/cli.c] cli_write_raw *)
Definition cli_write_raw (con : Con) (s : bytes) : Con := fold_left write_char (cstr s) con.
(** [kernel/shell/cli.c] cli_capture_begin *)
Definition cli_capture_begin (echo : bool) (con : Con) : Con :=
  mkCon true echo [] (pipe_input con) (screen con).
(** The text is copied onto itself.
    [kernel/shell/cli.c] cli_capture_end *)
Definition cli_capture_end (con : Con) : bytes * Con :=
  (captured con, mkCon false true (captured con) (pipe_input con) (screen con)).
(** [kernel/shell/cli.c] cli_pipe_set_input *)
Definition cli_pipe_set_input (text : bytes) (con : Con) : Con :=
  mkCon (capture_active con) (capture_echo con) (captured con)
    (take (Z.to_nat (CLI_PIPE_BUF_SIZE - 1)) text) (screen con).
(** [kernel/shell/cli.c] cli_pipe_clear_input *)
Definition cli_pipe_clear_input (con : Con) : Con :=
  mkCon (capture_active con) (capture_echo con) (captured con) [] (screen con).

(** [%d] and [%u], without a width.
    [kernel/shell/cli.c] cli_write_int_dec *)
Definition int_dec (v : Z) : bytes := if v <? 0 then 45 :: decimal 16 (- v) else decimal 16 v.
(** [%-ns].
    [kernel/shell/cli.c] cli_print_field_s *)
Definition field_left (s : bytes) (width : nat) : bytes :=
  let t := take width (cstr s) in t ++ replicate (width - length t) 32.

(** [if (i > start) buf[pos++] = ' ';] and the characters of the word that fit.
    [kernel/shell/cli.c] cli_join_args *)
Fixpoint join_loop (first : bool) (ws : list bytes) (pos max : Z) : bytes :=
  match ws with
  | [] => []
  | w :: ws =>
      if pos <? max - 1 then
        let blank := if first then [] else [32] in
        let chars := fit_str w (pos + Z.of_nat (length blank)) max in
        blank ++ chars ++ join_loop false ws (pos + Z.of_nat (length (blank ++ chars))) max
      else []
  end.
(** [kernel/shell/cli.c] cli_join_args *)
Definition cli_join_args (cmd : ParsedCommand) (start : nat) (max : Z) : bytes :=
  join_loop true (drop start (argv cmd)) 0 max.

(** ** What joining the words gives *)

Lemma join_loop_spec ws : forall first pos max, Forall (fun w => Forall (fun c => c <> 0) w) ws ->
  join_loop first ws pos max =
  take (Z.to_nat (max - 1 - pos)) (match ws with [] => [] | _ => (if first then [] else [32]) ++ join_words ws end).
Proof.
  induction ws as [|w ws IH]; intros first pos max Hws; cbn [join_loop]; [by rewrite take_nil|].
  inversion_clear Hws as [|? ? Hw Hws']. destruct (Z.ltb_spec pos (max - 1)) as [Hlt|Hge].
  2:{ replace (Z.to_nat (max - 1 - pos)) with 0%nat by lia. done. }
  set (blank := if first then [] else [32]). assert (Hb : (length blank <= 1)%nat) by (unfold blank; destruct first; simpl; lia).
  rewrite fit_str_spec, cstr_id by done. rewrite IH by done.
  set (m := Z.to_nat (max - 1 - (pos + Z.of_nat (length blank)))).
  replace (Z.to_nat (max - 1 - pos)) with (length blank + m)%nat by lia.
  rewrite length_app, length_take, take_app_add. f_equal.
  assert (Hj : join_words (w :: ws) = w ++ match ws with [] => [] | _ => [32] ++ join_words ws end).
  { destruct ws; [by rewrite app_nil_r|by rewrite join_cons]. }
  rewrite Hj, take_app. f_equal. f_equal. lia.
Qed.

Section shell.
Context {E : Type} `{RustEngine E} {D : Type} `{BlockDev D} {W : Type}.

(** The rest of the kernel, as far as commands reach it. *)
Record Sys := mkSys {
  users : UserDb; ai : AiKernel E; audit : AuditLog; log : Klog; fs : Kfs D; env : Env;
  keys : bytes; g_ps_gui_live : bool; others : W }.
#[export] Instance eta_Sys : Eta Sys := fun r =>
  mkSys (users r) (ai r) (audit r) (log r) (fs r) (env r) (keys r) (g_ps_gui_live r) (others r).
Record Sh := mkSh { session : CliSession; con : Con; sys : Sys }.
#[export] Instance eta_Sh : Eta Sh := fun r => mkSh (session r) (con r) (sys r).

(** The end of a command: its result; or it waits for a key that does not
    come, reads a file on a cyclic cluster chain, or powers the machine off;
    [NoFuel] does not happen. *)
Inductive outcome := Done (rc : Z) (sh : Sh) | Waits | Hangs | Stops (sh : Sh) | NoFuel.
Definition andthen (o : outcome) (f : Z -> Sh -> outcome) : outcome :=
  match o with Done rc sh => f rc sh | _ => o end.
Definition print (s : bytes) (sh : Sh) : Sh := mkSh (session sh) (cli_write_raw (con sh) s) (sys sh).
Definition now (sh : Sh) : Z := u64 (ticks (env (sys sh))).

(** Handlers that only read the console: result, text, session, kernel. *)
Inductive hres :=
| Ret (rc : Z) (text : bytes) (s : CliSession) (k : Sys) | HWaits | HHangs
| HStops (text : bytes) (s : CliSession) (k : Sys).
Definition lift (sh : Sh) (r : hres) : outcome :=
  match r with
  | Ret rc text s k => Done rc (mkSh s (cli_write_raw (con sh) text) k)
  | HWaits => Waits | HHangs => Hangs
  | HStops text s k => Stops (mkSh s (cli_write_raw (con sh) text) k)
  end.

Variable fs_fuel : nat.
Variable garbage : Sha256Context.
(** What [saved_name] of cli_cmd_su holds before it is written. *)
Variable stack_name : bytes.
Variable other : bytes -> CliSession -> ParsedCommand -> bytes -> Sys -> option (Z * bytes * Sys).

Implicit Types (s : CliSession) (cmd : ParsedCommand) (inp : bytes) (k : Sys) (sh : Sh).
Definition argc cmd : nat := length (argv cmd).
Definition arg cmd (i : nat) : bytes := argv cmd !!! i.
Definition on_fs {A} (m : Rd (Kfs D) (res A)) k (f : option A -> Sys -> hres) : hres :=
  let '(r, v) := m (fs k) in
  let k := k <| fs := v |> in
  match r with Ok a => f (Some a) k | Fail => f None k | Loops => HHangs end.
Definition do_fs {A} (m : Rd (Kfs D) A) k (f : A -> Sys -> hres) : hres :=
  let '(a, v) := m (fs k) in f a (k <| fs := v |>).

(** ** Commands on text and files *)

(** [kernel/shell/cli.c:1474-1477] cli_cmd_echo *)
Definition pass_input inp : bytes := inp ++ (if default 0 (last inp) =? 10 then [] else [NL]).
(** [kernel/shell/cli.c] cli_cmd_echo *)
Definition cli_cmd_echo s cmd inp k : hres :=
  if (argc cmd =? 1)%nat && negb (length inp =? 0)%nat then Ret CLI_OK (pass_input inp) s k
  else Ret CLI_OK (join_words (drop 1 (argv cmd)) ++ [NL]) s k.
(** [kernel/shell/cli.c] cli_cmd_cat *)
Definition cli_cmd_cat s cmd inp k : hres :=
  if (argc cmd <? 2)%nat && (length inp =? 0)%nat then Ret 1 (lit "Usage: cat <path>" ++ [NL]) s k else
  if (argc cmd <? 2)%nat then Ret CLI_OK (pass_input inp) s k else
  on_fs (kfs_check_perm fs_fuel (arg cmd 1) (u16 (uid s)) 114) k (fun r k =>
  if default (-1) r <? 0 then Ret 1 (lit "cat: " ++ arg cmd 1 ++ lit ": permission denied" ++ [NL]) s k else
  on_fs (kfs_read_file fs_fuel (env k) (arg cmd 1) 511) k (fun r k =>
  match r with
  | None => Ret 1 (lit "cat: " ++ arg cmd 1 ++ lit ": not found" ++ [NL]) s k
  | Some (n, buf) => Ret CLI_OK (cstr (take (Z.to_nat n) buf) ++ [NL]) s k
  end)).
(** The check both commands make before they write.
    [kernel/shell/cli.c:2392-2397] cli_cmd_write *)
Definition may_write s cmd k (f : bool -> Sys -> hres) : hres :=
  on_fs (kfs_find_file fs_fuel (arg cmd 1)) k (fun e k =>
  match e with
  | None => f true k
  | Some _ => on_fs (kfs_check_perm fs_fuel (arg cmd 1) (u16 (uid s)) 119) k (fun r k =>
                f (negb (default (-1) r <? 0)) k)
  end).
(** What write and append store: the input, or the words behind the path.
    [kernel/shell/cli.c:2398-2409] cli_cmd_write *)
Definition content cmd inp : option bytes :=
  if (argc cmd =? 2)%nat && negb (length inp =? 0)%nat then Some inp else
  if (argc cmd <? 3)%nat then None else Some (cli_join_args cmd 2 256).
(** [kernel/shell/cli.c] cli_cmd_write *)
Definition cli_cmd_write s cmd inp k : hres :=
  let usage := lit "Usage: write <path> <content...>" ++ [NL] in
  if (argc cmd <? 2)%nat then Ret 1 usage s k else
  may_write s cmd k (fun ok k =>
  if negb ok then Ret 1 (lit "write: " ++ arg cmd 1 ++ lit ": permission denied" ++ [NL]) s k else
  match content cmd inp with
  | None => Ret 1 usage s k
  | Some data => do_fs (kfs_write_file (arg cmd 1) data (Z.of_nat (length data))) k (fun n k =>
      if n <? 0 then Ret 1 (lit "write: failed" ++ [NL]) s k
      else Ret CLI_OK (lit "Wrote " ++ int_dec n ++ lit " bytes -> " ++ arg cmd 1 ++ [NL]) s k)
  end).
(** [kernel/shell/cli.c] cli_cmd_append *)
Definition cli_cmd_append s cmd inp k : hres :=
  let usage := lit "Usage: append <path> <content...>" ++ [NL] in
  if (argc cmd <? 2)%nat then Ret 1 usage s k else
  may_write s cmd k (fun ok k =>
  if negb ok then Ret 1 (lit "append: " ++ arg cmd 1 ++ lit ": permission denied" ++ [NL]) s k else
  match content cmd inp with
  | None => Ret 1 usage s k
  | Some data => do_fs (kfs_append_file (arg cmd 1) data (Z.of_nat (length data))) k (fun n k =>
      if n <? 0 then Ret 1 (lit "append: failed" ++ [NL]) s k
      else Ret CLI_OK (lit "File " ++ arg cmd 1 ++ lit " now " ++ int_dec n ++ lit " bytes" ++ [NL]) s k)
  end).
(** [kernel/shell/cli.c] cli_cmd_rm *)
Definition cli_cmd_rm s cmd k : hres :=
  if (argc cmd <? 2)%nat then Ret 1 (lit "Usage: rm <path>" ++ [NL]) s k else
  on_fs (kfs_check_perm fs_fuel (arg cmd 1) (u16 (uid s)) 119) k (fun r k =>
  if default (-1) r <? 0 then Ret 1 (lit "rm: " ++ arg cmd 1 ++ lit ": permission denied" ++ [NL]) s k else
  do_fs (kfs_delete_file (arg cmd 1)) k (fun n k =>
  if n <? 0 then Ret 1 (lit "rm: " ++ arg cmd 1 ++ lit ": not found" ++ [NL]) s k
  else Ret CLI_OK (lit "Removed " ++ arg cmd 1 ++ [NL]) s k)).
(** [kernel/shell/cli.c] cli_cmd_mkdir *)
Definition cli_cmd_mkdir s cmd k : hres :=
  if (argc cmd <? 2)%nat then Ret 1 (lit "Usage: mkdir <path>" ++ [NL]) s k else
  do_fs (kfs_mkdir (arg cmd 1)) k (fun n k =>
  if n <? 0 then Ret 1 (lit "mkdir: failed (full or already exists)" ++ [NL]) s k
  else Ret CLI_OK (lit "Created " ++ arg cmd 1 ++ [NL]) s k).

(** [kernel/shell/cli.c] cli_parse_octal *)
Fixpoint octal_loop (t : bytes) (val : Z) : Z :=
  match t with
  | c :: t => if (48 <=? c) && (c <=? 55) then octal_loop t (u16 (val * 8 + (c - 48))) else val
  | [] => val
  end.
(** [kernel/shell/cli.c] cli_parse_octal *)
Definition cli_parse_octal (t : bytes) : Z := octal_loop t 0.
(** cli_printf knows no [%c]: the digits are not printed.
    [kernel/shell/cli.c] cli_cmd_chmod *)
Definition cli_cmd_chmod s cmd k : hres :=
  if (argc cmd <? 3)%nat then
    Ret 1 (lit "Usage: chmod <mode> <path>" ++ [NL] ++ lit "  e.g. chmod 755 /bin/hello64" ++ [NL]) s k else
  let path := arg cmd 2 in
  on_fs (kfs_find_file fs_fuel path) k (fun e k =>
  match e with
  | None => Ret 1 (lit "chmod: " ++ path ++ lit ": not found" ++ [NL]) s k
  | Some e =>
      if negb (uid s =? 0) && negb (uid s =? VernisFs.uid e) then Ret 1 (lit "chmod: permission denied" ++ [NL]) s k else
      let mode := cli_parse_octal (arg cmd 1) in
      if 511 <? mode then Ret 1 (lit "chmod: invalid mode" ++ [NL]) s k else
      do_fs (kfs_chmod path mode) k (fun n k =>
      if n <? 0 then Ret 1 (lit "chmod: failed" ++ [NL]) s k
      else Ret CLI_OK (lit "Mode of " ++ path ++ lit " set to " ++ [NL]) s k)
  end).
(** The digits read and the rest.
    [kernel/shell/cli.c:2532-2546] cli_cmd_chown *)
Fixpoint number_loop (t : bytes) (val : Z) : Z * bytes :=
  match t with
  | c :: t' => if (48 <=? c) && (c <=? 57) then number_loop t' (u16 (val * 10 + (c - 48))) else (val, t)
  | [] => (val, [])
  end.
(** [kernel/shell/cli.c] cli_cmd_chown *)
Definition cli_cmd_chown s cmd k : hres :=
  if (argc cmd <? 3)%nat then Ret 1 (lit "Usage: chown <uid>[:<gid>] <path>" ++ [NL]) s k else
  if negb (uid s =? 0) then Ret 1 (lit "chown: permission denied (root only)" ++ [NL]) s k else
  let path := arg cmd 2 in
  on_fs (kfs_find_file fs_fuel path) k (fun e k =>
  match e with
  | None => Ret 1 (lit "chown: " ++ path ++ lit ": not found" ++ [NL]) s k
  | Some e =>
      let '(new_uid, p) := number_loop (arg cmd 1) 0 in
      let new_gid := match p with c :: p => if c =? 58 then (number_loop p 0).1 else gid e | [] => gid e end in
      do_fs (kfs_chown path new_uid new_gid) k (fun n k =>
      if n <? 0 then Ret 1 (lit "chown: failed" ++ [NL]) s k
      else Ret CLI_OK (lit "Owner of " ++ path ++ lit " set to " ++ int_dec new_uid ++ lit ":" ++ int_dec new_gid ++ [NL]) s k)
  end).

(** [f] gets the text, or [None] and the message.
    [kernel/shell/cli.c] cli_read_text_source *)
Definition cli_read_text_source cmd (i : nat) (max : Z) (usage : bytes) inp k (f : bytes + bytes -> Sys -> hres) : hres :=
  if (i <? argc cmd)%nat then
    on_fs (kfs_read_file fs_fuel (env k) (arg cmd i) (max - 1)) k (fun r k =>
    match r with
    | None => f (inr (arg cmd 0 ++ lit ": " ++ arg cmd i ++ lit ": not found" ++ [NL])) k
    | Some (n, buf) => f (inl (take (Z.to_nat n) buf)) k
    end)
  else if negb (length inp =? 0)%nat then f (inl (take (Z.to_nat (max - 1)) inp)) k
  else f (inr (lit "Usage: " ++ usage ++ [NL])) k.

(** [needle] matches at the head of [hay].
    [kernel/shell/cli.c:735-737] cli_str_contains *)
Fixpoint matches_at (hay needle : bytes) : bool :=
  match needle, hay with
  | [], _ => true
  | n :: needle, h :: hay => (h =? n) && matches_at hay needle
  | _, [] => false
  end.
(** [kernel/shell/cli.c] cli_str_contains *)
Fixpoint str_contains (hay needle : bytes) : bool :=
  match needle with
  | [] => true
  | _ => match hay with [] => false | _ :: hay' => matches_at hay needle || str_contains hay' needle end
  end.
(** [text] ends in the newline added behind the buffer; [line] is the line so
    far, the result the text printed and the number of matches.
    [kernel/shell/cli.c:3014-3032] cli_cmd_grep *)
Fixpoint grep_loop (pattern text line out : bytes) (matches : Z) : bytes * Z :=
  match text with
  | [] => (out, matches)
  | c :: text =>
      if c =? 13 then grep_loop pattern text line out matches else
      if (c =? 10) || (511 <=? Z.of_nat (length line)) then
        if str_contains (cstr line) pattern
        then grep_loop pattern text [] (out ++ cstr line ++ [NL]) (matches + 1)
        else grep_loop pattern text [] out matches
      else grep_loop pattern text (line ++ [c]) out matches
  end.
(** [kernel/shell/cli.c] cli_cmd_grep *)
Definition cli_cmd_grep s cmd inp k : hres :=
  if (argc cmd <? 2)%nat then Ret 1 (lit "Usage: grep <pattern> [path]" ++ [NL]) s k else
  cli_read_text_source cmd 2 4096 (lit "grep <pattern> [path]") inp k (fun t k =>
  match t with
  | inr msg => Ret 1 msg s k
  | inl t => let '(out, matches) := grep_loop (arg cmd 1) (t ++ [10]) [] [] 0 in
             Ret (if 0 <? matches then CLI_OK else 1) out s k
  end).
(** [kernel/shell/cli.c:3043-3055] cli_cmd_wc *)
Fixpoint wc_loop (text : bytes) (lines words : Z) (in_word : bool) : Z * Z :=
  match text with
  | [] => (lines, words)
  | c :: text =>
      let lines := if c =? 10 then lines + 1 else lines in
      if (c =? 32) || (c =? 9) || (c =? 10) || (c =? 13) then wc_loop text lines words false
      else wc_loop text lines (if in_word then words else words + 1) true
  end.
(** [kernel/shell/cli.c] cli_cmd_wc *)
Definition cli_cmd_wc s cmd inp k : hres :=
  cli_read_text_source cmd 1 4096 (lit "wc [path]") inp k (fun t k =>
  match t with
  | inr msg => Ret 1 msg s k
  | inl t => let '(lines, words) := wc_loop t 0 0 false in
             Ret CLI_OK (int_dec lines ++ [32] ++ int_dec words ++ [32] ++ int_dec (Z.of_nat (length t)) ++ [NL]) s k
  end).

(** ** Commands on the session *)

(** [kernel/shell/cli.c] cli_cmd_help *)
Definition cli_cmd_help s k : hres :=
  Ret CLI_OK ([NL] ++ lit "=== VernisOS Shell Help ===" ++ [NL] ++ lit "Built-in commands:" ++ [NL; NL] ++
    concat ((fun b => lit "  " ++ field_left (name b) 10 ++ lit " - " ++ description b ++ [NL]) <$> BUILTIN_COMMANDS) ++
    [NL] ++ lit "Operators: cmd1 | cmd2 (pipe)  cmd1 ; cmd2 (run both)" ++ [NL] ++
    lit "           cmd1 && cmd2 (if ok)  cmd1 || cmd2 (if failed)" ++ [NL; NL]) s k.
(** [kernel/shell/cli.c] cli_cmd_exit *)
Definition cli_cmd_exit s k : hres :=
  Ret CLI_OK (lit "Goodbye " ++ cstr (username s) ++ lit "!" ++ [NL]) (s <| is_active := false |>) k.
(** [kernel/shell/cli.c] cli_cmd_whoami *)
Definition cli_cmd_whoami s k : hres :=
  let role := if privilege s =? CLI_PRIV_ADMIN then lit "admin"
              else if privilege s =? CLI_PRIV_USER then lit "user" else lit "root" in
  Ret CLI_OK (cstr (username s) ++ lit " (privilege: " ++ role ++ lit ")" ++ [NL]) s k.
(** [kernel/shell/cli.c] cli_cmd_ver *)
Definition cli_cmd_ver s k : hres := Ret CLI_OK (lit "VernisOS - x86-64 (64-bit) - build dev" ++ [NL]) s k.
(** [kernel/shell/cli.c] cli_cmd_shutdown *)
Definition cli_cmd_shutdown s k : hres :=
  HStops (lit "Shutting down VernisOS..." ++ [NL] ++ lit "Goodbye " ++ cstr (username s) ++ lit "!" ++ [NL])
    (s <| is_active := false |>) k.
(** [kernel/shell/cli.c] cli_cmd_restart *)
Definition cli_cmd_restart s k : hres :=
  HStops (lit "Restarting VernisOS..." ++ [NL] ++ lit "See you soon " ++ cstr (username s) ++ lit "!" ++ [NL])
    (s <| is_active := false |>) k.

(** The password, the text shown for it, and the keys left; [None] when the
    keys run out.
    [kernel/shell/cli.c:1655-1679] cli_read_password *)
Fixpoint password_loop (max : Z) (ks buf text : bytes) : option (bytes * bytes * bytes) :=
  if negb (Z.of_nat (length buf) <? max - 1) then Some (buf, text, ks) else
  match ks with
  | [] => None
  | c :: ks =>
      if (c =? 10) || (c =? 13) then Some (buf, text ++ [NL], ks) else
      if (c =? 8) || (c =? 127) then
        match buf with
        | [] => password_loop max ks buf text
        | _ => password_loop max ks (take (length buf - 1) buf) (text ++ [8; 32; 8])
        end
      else if (c <? 32) || (127 <? c) then password_loop max ks buf text
      else password_loop max ks (buf ++ [c]) (text ++ [42])
  end.
(** [kernel/shell/cli.c] cli_read_password *)
Definition cli_read_password (max : Z) (ks : bytes) : option (bytes * bytes * bytes) :=
  if max <? 2 then Some ([], [], ks) else password_loop max ks [] [].
Definition has_flag (u : UserRecord) (f : Z) : bool := negb (Z.land (flags u) f =? 0).
(** [kernel/shell/cli.c:1954-1955] cli_execute_single_command *)
Definition feed_deny (who : bytes) k : Sys :=
  k <| ai := ai_kernel_engine_feed (ai k) (lit "DENY") who (u64 (ticks (env k))) |>.

(** The session of a user who has identified himself.
    [kernel/shell/cli.c:1729-1736] cli_cmd_login *)
Definition become (user : bytes) (u : UserRecord) (text : bytes) s k : hres :=
  let id := userdb_find_uid (users k) (Some user) in
  let s := s <| username := cli_strcpy (username s) user 32 |> <| privilege := UserDb.privilege u |> in
  let s := if 0 <=? id then s <| uid := u32 id |> else s in
  Ret CLI_OK (text ++ lit "Logged in as " ++ user ++ [NL]) s k.
(** [kernel/shell/cli.c] cli_cmd_login *)
Definition cli_cmd_login s cmd k : hres :=
  if (argc cmd <? 2)%nat then Ret CLI_OK (lit "Usage: login <username>" ++ [NL]) s k else
  let user := arg cmd 1 in
  match userdb_find_user (users k) user with
  | None => Ret CLI_OK (lit "Unknown user: " ++ user ++ [NL]) s k
  | Some u =>
      if negb (has_flag u USER_FLAG_ACTIVE) then Ret CLI_OK (lit "Account disabled" ++ [NL]) s k else
      if has_flag u USER_FLAG_LOCKED then Ret CLI_OK (lit "Account locked" ++ [NL]) s k else
      if has_flag u USER_FLAG_NO_PASSWORD then become user u [] s k else
      match cli_read_password 64 (keys k) with
      | None => HWaits
      | Some (pw, text, ks) =>
          let k := k <| keys := ks |> in
          let text := lit "Password: " ++ text in
          if (length pw =? 0)%nat then Ret CLI_OK (text ++ lit "Login cancelled" ++ [NL]) s k else
          if userdb_authenticate garbage (users k) user (Some pw) <? 0 then
            Ret CLI_OK (text ++ lit "Authentication failed" ++ [NL]) s (feed_deny user k)
          else become user u text s k
      end
  end.
(** The uid stays as it is.
    [kernel/shell/cli.c] cli_cmd_logout *)
Definition cli_cmd_logout s k : hres :=
  let free_root := match userdb_find_user (users k) (lit "root") with
                   | Some u => has_flag u USER_FLAG_NO_PASSWORD | None => false end in
  if (privilege s =? CLI_PRIV_ROOT) && free_root then Ret CLI_OK (lit "Already at default root session" ++ [NL]) s k
  else Ret CLI_OK (lit "Logged out — returned to root" ++ [NL])
         (s <| username := cli_strcpy (username s) (lit "root") 32 |> <| privilege := CLI_PRIV_ROOT |>) k.
(** [kernel/shell/cli.c] cli_cmd_users *)
Definition user_row (u : UserRecord) : bytes :=
  let priv := if UserDb.privilege u =? 0 then lit "root" else if UserDb.privilege u =? 50 then lit "admin" else lit "user" in
  let status := if has_flag u USER_FLAG_LOCKED then lit "locked"
                else if negb (has_flag u USER_FLAG_ACTIVE) then lit "disabled" else lit "active" in
  lit "  " ++ field_left (UserDb.username u) 12 ++ [32] ++ field_left priv 8 ++ [32] ++ field_left status 8 ++ [NL].
(** [kernel/shell/cli.c] cli_cmd_users *)
Definition cli_cmd_users s k : hres :=
  let count := userdb_user_count (users k) in
  if count =? 0 then Ret CLI_OK (lit "No users loaded" ++ [NL]) s k else
  let title a b c := lit "  " ++ field_left a 12 ++ [32] ++ field_left b 8 ++ [32] ++ field_left c 8 ++ [NL] in
  Ret CLI_OK ([NL] ++ title (lit "USERNAME") (lit "PRIV") (lit "STATUS") ++ title (lit "--------") (lit "----") (lit "------") ++
    concat ((fun i : nat => match userdb_get_user (users k) (Z.of_nat i) with Some u => user_row u | None => [] end)
              <$> seq 0 (Z.to_nat count)) ++ [NL]) s k.

(** ** Running a command *)

(** The words behind su, run as they are.
    [kernel/shell/cli.c:1807-1818] cli_cmd_su *)
Definition sub_command cmd : Z * ParsedCommand := cli_parse_command (cli_join_args cmd 1 CLI_MAX_INPUT_LEN).
(** Root for the time of one command.
    [kernel/shell/cli.c:1796-1830] cli_cmd_su *)
Definition elevated (exec : Sh -> ParsedCommand -> outcome) sh cmd : outcome :=
  let s := session sh in
  let saved_name := cli_strcpy stack_name (username s) 32 in
  let root := s <| privilege := CLI_PRIV_ROOT |> <| uid := 0 |> <| username := cli_strcpy (username s) (lit "root") 32 |> in
  let '(parse_result, sub) := sub_command cmd in
  let run := if parse_result =? CLI_OK then exec (sh <| session := root |>) sub else Done CLI_OK (sh <| session := root |>) in
  andthen run (fun exec_result sh =>
    Done exec_result (sh <| session := session sh <| privilege := privilege s |> <| uid := uid s |>
                              <| username := cli_strcpy (username (session sh)) saved_name 32 |> |>)).
(** [kernel/shell/cli.c] cli_cmd_su *)
Definition cli_cmd_su (exec : Sh -> ParsedCommand -> outcome) sh cmd : outcome :=
  let k := sys sh in
  if (argc cmd <? 2)%nat then
    Done CLI_OK (print (lit "Usage: su <command> [args...]" ++ [NL] ++ lit "  Run a command with root privileges" ++ [NL]) sh)
  else if privilege (session sh) =? CLI_PRIV_ROOT then
    let '(parse_result, sub) := sub_command cmd in
    if parse_result =? CLI_OK then exec sh sub else Done parse_result sh
  else
  let failed sh := Done CLI_OK (print (lit "Authentication failed" ++ [NL]) sh) in
  match userdb_find_user (users k) (lit "root") with
  | None => failed sh
  | Some root =>
      if negb (has_flag root USER_FLAG_ACTIVE) then failed sh else
      if has_flag root USER_FLAG_NO_PASSWORD then elevated exec sh cmd else
      match cli_read_password 64 (keys k) with
      | None => Waits
      | Some (pw, text, ks) =>
          let sh := print text (print (lit "Password: ") sh) <| sys := k <| keys := ks |> |> in
          if (length pw =? 0)%nat then Done CLI_OK (print (lit "Cancelled" ++ [NL]) sh) else
          if userdb_authenticate garbage (users k) (lit "root") (Some pw) <? 0
          then failed (sh <| sys := feed_deny (lit "su") (sys sh) |>)
          else elevated exec sh cmd
      end
  end.

(** The handlers of the table; [exec] runs another command.
    [kernel/shell/cli.c:1976-1978] cli_execute_single_command *)
Definition cli_handler (exec : Sh -> ParsedCommand -> outcome) (b : CliBuiltinCommand) sh cmd : outcome :=
  let s := session sh in let inp := pipe_input (con sh) in let k := sys sh in
  match handler b with
  | H_su => cli_cmd_su exec sh cmd
  | H_help => lift sh (cli_cmd_help s k)
  | H_exit => lift sh (cli_cmd_exit s k)
  | H_whoami => lift sh (cli_cmd_whoami s k)
  | H_ver => lift sh (cli_cmd_ver s k)
  | H_echo => lift sh (cli_cmd_echo s cmd inp k)
  | H_shutdown => lift sh (cli_cmd_shutdown s k)
  | H_restart => lift sh (cli_cmd_restart s k)
  | H_login => lift sh (cli_cmd_login s cmd k)
  | H_logout => lift sh (cli_cmd_logout s k)
  | H_users => lift sh (cli_cmd_users s k)
  | H_cat => lift sh (cli_cmd_cat s cmd inp k)
  | H_write => lift sh (cli_cmd_write s cmd inp k)
  | H_append => lift sh (cli_cmd_append s cmd inp k)
  | H_rm => lift sh (cli_cmd_rm s cmd k)
  | H_mkdir => lift sh (cli_cmd_mkdir s cmd k)
  | H_chmod => lift sh (cli_cmd_chmod s cmd k)
  | H_chown => lift sh (cli_cmd_chown s cmd k)
  | H_grep => lift sh (cli_cmd_grep s cmd inp k)
  | H_wc => lift sh (cli_cmd_wc s cmd inp k)
  | H_other => lift sh (match other (name b) s cmd inp k with
                        | Some (rc, text, k) => Ret rc text s k | None => HWaits end)
  end.

(** A refusal: the message, the AI engine, the audit log and the kernel log.
    [kernel/shell/cli.c:1952-1962] cli_execute_single_command *)
Definition deny (message cmd_name tag : bytes) (required : Z) sh : outcome :=
  let sh := print message sh in
  let k := feed_deny cmd_name (sys sh) in
  let priv := u8 (privilege (session sh)) in
  let k := k <| audit := auditlog_record (audit k) (now sh) (username (session sh)) cmd_name priv (u8 required) |>
             <| log := (klog (log k) (now sh) KLOG_WARN (Some tag) (Some cmd_name)).2 |> in
  Done CLI_ERR_NO_PERMISSION (sh <| sys := k |>).
(** [run] is the handler.
    [kernel/shell/cli.c] cli_execute_single_command *)
Definition cli_execute_single_command (run : CliBuiltinCommand -> Sh -> ParsedCommand -> outcome) sh cmd : outcome :=
  match argv cmd with
  | [] => Done CLI_ERR_SYNTAX sh
  | n :: _ =>
      match cli_find_builtin n with
      | None => Done CLI_ERR_UNKNOWN_CMD (print (lit "Unknown command: " ++ n ++ [NL]) sh)
      | Some b =>
          let s := session sh in
          if min_privilege b <? privilege s then
            deny (lit "Permission denied: '" ++ n ++ lit "' requires higher privilege" ++ [NL]) n (lit "cli") (min_privilege b) sh
          else if negb (policy_check_command (ai (sys sh)) (Some n) (u8 (privilege s))) then
            deny (lit "Policy denied: '" ++ n ++ lit "' not allowed for " ++ cstr (username s) ++ [NL]) n (lit "policy") 0 sh
          else
            let s := s <| commands_executed := u64 (commands_executed s + 1) |> in
            let k := sys sh <| log := (klog (log (sys sh)) (now sh) KLOG_DEBUG (Some (lit "cli")) (Some n)).2 |> in
            run b (mkSh s (con sh) k) cmd
      end
  end.

Section run.
(** The handlers, given what runs a further command: [cli_handler]. *)
Variable dispatch : (Sh -> ParsedCommand -> outcome) -> CliBuiltinCommand -> Sh -> ParsedCommand -> outcome.

(** The recursion is through pipes and su.
    [kernel/shell/cli.c] cli_execute_command *)
Fixpoint cli_execute_command (fuel : nat) sh cmd : outcome :=
  match fuel with
  | O => NoFuel
  | S fuel =>
      let single := cli_execute_single_command (dispatch (cli_execute_command fuel)) in
      match argv cmd, pipe_to cmd with
      | [], _ => Done CLI_ERR_SYNTAX sh
      | n :: _, Some (c :: next) =>
          if negb (cli_command_pipe_safe n) then
            Done CLI_ERR_EXEC_FAILED (print (lit "pipe: command '" ++ n ++ lit "' cannot be piped" ++ [NL]) sh)
          else
          let '(parse_result, next_cmd) := cli_parse_command (c :: next) in
          if negb (parse_result =? CLI_OK) then
            Done parse_result (print (lit "pipe: invalid command after '|'" ++ [NL]) sh)
          else
          andthen (single (sh <| con := cli_capture_begin false (con sh) |>) cmd) (fun left_rc sh =>
          let '(text, con') := cli_capture_end (con sh) in
          let sh := sh <| con := con' |> in
          if negb (left_rc =? CLI_OK) then Done left_rc (if (length text =? 0)%nat then sh else print text sh) else
          andthen (cli_execute_command fuel (sh <| con := cli_pipe_set_input text (con sh) |>) next_cmd) (fun rc sh =>
          Done rc (sh <| con := cli_pipe_clear_input (con sh) |>)))
      | _, _ => single sh cmd
      end
  end.
(** [kernel/shell/cli.c] cli_process_single *)
Definition cli_process_single (fuel : nat) sh (seg : bytes) : outcome :=
  let '(parse_result, cmd) := cli_parse_command seg in
  if negb (parse_result =? CLI_OK) then Done parse_result (print (lit "Syntax error" ++ [NL]) sh)
  else cli_execute_command fuel sh cmd.
(** [kernel/shell/cli.c:2102-2114] cli_process_line *)
Fixpoint run_segments (fuel : nat) (segs : list (CliSep * bytes)) (status : Z) sh : outcome :=
  match segs with
  | [] => Done status sh
  | (pre, seg) :: segs =>
      match (span is_blank seg).2 with
      | [] => run_segments fuel segs status sh
      | seg =>
          let skip := match pre with
                      | SEP_AND => negb (status =? CLI_OK) | SEP_OR => status =? CLI_OK | _ => false end in
          if skip then run_segments fuel segs status sh
          else andthen (cli_process_single fuel sh seg) (fun status sh => run_segments fuel segs status sh)
      end
  end.
(** [q] ends the process monitor of the graphical terminal.
    [kernel/shell/cli.c:2048-2056] cli_process_line *)
Definition leaves_monitor sh (line : bytes) : bool :=
  g_ps_gui_live (sys sh) &&
  match (span is_blank (cstr line)).2 with [c] => (c =? 113) || (c =? 81) | _ => false end.
(** [kernel/shell/cli.c] cli_process_line *)
Definition cli_process_line (fuel : nat) sh (line : bytes) : outcome :=
  if leaves_monitor sh line then
    Done CLI_OK (print (lit "Exited ps realtime mode." ++ [NL]) (sh <| sys := sys sh <| g_ps_gui_live := false |> |>))
  else run_segments fuel (split_line line) CLI_OK sh.
(** A line typed into the graphical terminal.
    [kernel/arch/x86_64/kernel_x64.c] cli_process_line_gui *)
Definition cli_process_line_gui (fuel : nat) sh (line : bytes) (len : Z) : outcome :=
  if len =? 0 then Done CLI_OK sh else
  cli_process_line fuel sh (take (Z.to_nat (if len <? 255 then len else 255)) line ++ [0]).
End run.

(** [kernel/shell/cli.c] cli_print_prompt *)
Definition cli_print_prompt sh : Sh := print (cstr (username (session sh)) ++ lit "@vernisOS:/> ") sh.
(** Turns of the loop, at most [n], until the session ends or no key is left.
    [kernel/shell/cli.c] cli_shell_loop *)
Fixpoint shell_turns (n fuel : nat) (shell : CliShell) sh : CliShell * outcome :=
  match n with
  | O => (shell, NoFuel)
  | S n =>
      if negb (is_active (session sh)) then (shell, Done CLI_OK sh) else
      let sh := cli_print_prompt sh in
      match cli_readline (Some shell) (zeros 256) CLI_MAX_INPUT_LEN (keys (sys sh)) with
      | None => (shell, Waits)
      | Some (read_len, input_buf, ks) =>
          let sh := sh <| sys := sys sh <| keys := ks |> |> in
          if read_len =? 0 then shell_turns n fuel shell sh else
          let shell := cli_history_push shell input_buf in
          match cli_process_line cli_handler fuel sh input_buf with
          | Done _ sh => shell_turns n fuel shell sh
          | o => (shell, o)
          end
      end
  end.
(** [kernel/shell/cli.c] cli_shell_loop *)
Definition cli_shell_loop (n fuel : nat) (shell : CliShell) sh : CliShell * outcome :=
  shell_turns n fuel shell (print ([NL] ++ lit "Welcome to VernisOS Shell!" ++ [NL] ++
    lit "Type 'help' for command list" ++ [NL; NL]) sh).

(** ** Who may run what *)

(** The session may run the command [n] of the table's row [b]. *)
Definition permitted (b : CliBuiltinCommand) (n : bytes) sh : bool :=
  negb (min_privilege b <? privilege (session sh)) &&
  policy_check_command (ai (sys sh)) (Some n) (u8 (privilege (session sh))).
(** The handlers, with [evil] in the place of every one whose command the
    session may not run at that moment. *)
Definition guarded (evil : CliBuiltinCommand -> Sh -> ParsedCommand -> outcome)
    (exec : Sh -> ParsedCommand -> outcome) (b : CliBuiltinCommand) sh cmd : outcome :=
  if permitted b (arg cmd 0) sh then cli_handler exec b sh cmd else evil b sh cmd.

Lemma andthen_ext o f g : (forall rc sh, f rc sh = g rc sh) -> andthen o f = andthen o g.
Proof. intros Hfg. by destruct o; cbn. Qed.
Lemma andthen_Done o f rc sh : andthen o f = Done rc sh ->
  exists rc' sh', o = Done rc' sh' /\ f rc' sh' = Done rc sh.
Proof. destruct o; cbn; try done. eauto. Qed.

(** A handler depends on how the command behind su runs, and on no more. *)
Lemma handler_ext e1 e2 b sh cmd :
  ((2 <= argc cmd)%nat -> forall sh, e1 sh (sub_command cmd).2 = e2 sh (sub_command cmd).2) ->
  cli_handler e1 b sh cmd = cli_handler e2 b sh cmd.
Proof.
  intros He. unfold cli_handler. destruct (handler b); try done. unfold cli_cmd_su.
  destruct (Nat.ltb_spec (argc cmd) 2) as [|Ha]; [done|]. specialize (He Ha).
  assert (Hel : forall sh, elevated e1 sh cmd = elevated e2 sh cmd).
  { intros sh'. unfold elevated. destruct (sub_command cmd) as [rc sub]. cbn [snd] in He. by rewrite He. }
  destruct (_ =? CLI_PRIV_ROOT).
  { destruct (sub_command cmd) as [rc sub]. cbn [snd] in He. by rewrite He. }
  destruct (userdb_find_user _ _) as [root|]; [|done]. destruct (negb _); [done|].
  destruct (has_flag root USER_FLAG_NO_PASSWORD); [apply Hel|].
  destruct (cli_read_password _ _) as [[[pw text] ks]|]; [|done]. cbv zeta.
  destruct (length pw =? 0)%nat; [done|]. destruct (userdb_authenticate _ _ _ _ <? 0); [done|]. apply Hel.
Qed.

(** What runs a command decides with the state before the command. *)
Lemma single_ext r1 r2 sh cmd :
  (forall b n ws, argv cmd = n :: ws -> forall sh, permitted b n sh = true -> r1 b sh cmd = r2 b sh cmd) ->
  cli_execute_single_command r1 sh cmd = cli_execute_single_command r2 sh cmd.
Proof.
  intros Hr. unfold cli_execute_single_command. destruct (argv cmd) as [|n ws] eqn:Ea; [done|].
  destruct (cli_find_builtin n) as [b|]; [|done]. destruct (_ <? _) eqn:Ep; [done|].
  destruct (policy_check_command _ _ _) eqn:Eq; [|done]. cbn [negb]. eapply Hr; [done|].
  change (permitted b n sh = true). unfold permitted. by rewrite Ep, Eq.
Qed.

Lemma execute_ext d1 d2 :
  (forall e1 e2 b sh cmd, (forall sh cmd, e1 sh cmd = e2 sh cmd) -> permitted b (arg cmd 0) sh = true ->
     d1 e1 b sh cmd = d2 e2 b sh cmd) ->
  forall fuel sh cmd, cli_execute_command d1 fuel sh cmd = cli_execute_command d2 fuel sh cmd.
Proof.
  intros Hd. induction fuel as [|fuel IH]; intros sh cmd; [done|]. cbn [cli_execute_command].
  assert (Hs : forall sh, cli_execute_single_command (d1 (cli_execute_command d1 fuel)) sh cmd =
    cli_execute_single_command (d2 (cli_execute_command d2 fuel)) sh cmd).
  { intros sh'. apply single_ext. intros b n ws Ea sh2 Hp. apply Hd; [done|]. unfold arg. by rewrite Ea. }
  destruct (argv cmd) as [|n ws]; [done|]. destruct (pipe_to cmd) as [[|c next]|]; [apply Hs| |apply Hs].
  destruct (negb (cli_command_pipe_safe n)); [done|]. destruct (cli_parse_command (c :: next)) as [rc nxt].
  destruct (negb (rc =? CLI_OK)); [done|]. rewrite Hs. apply andthen_ext. intros rc' sh'.
  destruct (cli_capture_end (con sh')) as [text con']. destruct (negb (rc' =? CLI_OK)); [done|]. by rewrite IH.
Qed.
Lemma line_ext d1 d2 fuel : (forall sh cmd, cli_execute_command d1 fuel sh cmd = cli_execute_command d2 fuel sh cmd) ->
  forall sh line, cli_process_line d1 fuel sh line = cli_process_line d2 fuel sh line.
Proof.
  intros Hd sh line. unfold cli_process_line. destruct (leaves_monitor sh line); [done|].
  generalize (split_line line) as segs. intros segs. generalize CLI_OK as status. revert sh.
  induction segs as [|[pre seg] segs IH]; intros sh status; cbn [run_segments]; [done|].
  destruct (span is_blank seg).2 as [|c q]; [apply IH|].
  destruct (match pre with SEP_AND => _ | _ => _ end); [apply IH|].
  unfold cli_process_single. destruct (cli_parse_command (c :: q)) as [rc cmd].
  destruct (negb (rc =? CLI_OK)); [cbn [andthen]; apply IH|]. rewrite Hd. apply andthen_ext. intros; apply IH.
Qed.

(** C18. No command runs without clearance: whatever the handlers of those commands would do that
    the session's privilege or the policy forbids at the moment they are reached - alone, in a pipe,
    behind [;], [&&] or [||], or under su - the line does the same, because they are never called. *)
Theorem forbidden_commands_never_run evil fuel sh line :
  cli_process_line (guarded evil) fuel sh line = cli_process_line cli_handler fuel sh line.
Proof.
  apply line_ext, execute_ext. intros e1 e2 b sh' cmd He Hp. unfold guarded. rewrite Hp. apply handler_ext. intros _ sh2. apply He.
Qed.


(** ** su *)

Lemma argv_nonzero cmd n : cmd_ok cmd -> Forall (fun w => Forall (fun c => c <> 0) w) (drop n (argv cmd)).
Proof.
  intros [Hw _]. apply Forall_drop. eapply Forall_impl; [exact Hw|]. intros w. apply word_nonzero.
Qed.
(** su runs the words behind it as they are. *)
Lemma sub_command_spec cmd : cmd_ok cmd -> (2 <= argc cmd)%nat -> (words_size (argv cmd) <= 256)%nat ->
  sub_command cmd = (CLI_OK, mkParsed (drop 1 (argv cmd)) false None None None) /\
  (words_size (drop 1 (argv cmd)) < words_size (argv cmd))%nat.
Proof.
  intros Hok Ha Hs. pose proof Hok as [Hw Hn]. unfold argc in Ha. destruct (argv cmd) as [|w [|w' ws]] eqn:Ea; [simpl in Ha; lia..|].
  split; [|simpl; lia]. cbn [words_size] in Hs. set (l := drop 1 (w :: w' :: ws)) in *.
  pose proof (argv_nonzero cmd 1 Hok) as Hnz. rewrite Ea in Hnz. fold l in Hnz.
  unfold sub_command, cli_join_args. rewrite Ea. fold l. rewrite join_loop_spec by done.
  pose proof (words_size_join l ltac:(done)) as Hj. cbn [l skipn drop words_size] in Hj.
  change (match l with [] => [] | _ :: _ => [] ++ join_words l end) with (join_words l).
  change (join_words (w' :: ws)) with (join_words l) in Hj.
  rewrite take_ge by (unfold CLI_MAX_INPUT_LEN; lia).
  assert (Hlw : Forall word_ok l) by (by inversion Hw).
  pose proof (cli_parse_typed l None Hlw ltac:(done)) as Hp. unfold typed in Hp. rewrite app_nil_r in Hp.
  apply Hp; [unfold l in *; simpl in *; lia|lia|done].
Qed.

(** What the session may do: its privilege and its user id. *)
Definition rights s : Z * Z := (privilege s, uid s).
(** su may go on: root is there and active, and needs no password or the one typed is his. *)
Definition su_allowed k : Prop := exists root, userdb_find_user (users k) (lit "root") = Some root /\
  has_flag root USER_FLAG_ACTIVE = true /\
  (has_flag root USER_FLAG_NO_PASSWORD = true \/
   exists pw text ks, cli_read_password 64 (keys k) = Some (pw, text, ks) /\ pw <> [] /\
     0 <= userdb_authenticate garbage (users k) (lit "root") (Some pw)).
(** The session's rights put back. *)
Definition give_back s sh : Sh :=
  sh <| session := session sh <| privilege := privilege s |> <| uid := uid s |>
          <| username := cli_strcpy (username (session sh)) (cli_strcpy stack_name (username s) 32) 32 |> |>.

Lemma elevated_spec sh cmd : cmd_ok cmd -> (2 <= argc cmd)%nat -> (words_size (argv cmd) <= 256)%nat ->
  exists sh1, rights (session sh1) = (CLI_PRIV_ROOT, 0) /\ sys sh1 = sys sh /\ con sh1 = con sh /\
  forall exec, elevated exec sh cmd =
    andthen (exec sh1 (mkParsed (drop 1 (argv cmd)) false None None None))
      (fun rc sh2 => Done rc (give_back (session sh) sh2)).
Proof.
  intros Hok Ha Hs. destruct (sub_command_spec cmd Hok Ha Hs) as [Esub _].
  eexists. split; [|split; [|split; [|intros exec; unfold elevated; rewrite Esub; reflexivity]]]; done.
Qed.

(** su runs one command as root, for those who may. For a session that is not root's: unless root is
    active and passwordless, or the password typed is root's, nothing is run, whatever would be;
    otherwise exactly the words behind su are run, by a session with root's privilege and user id 0
    on the same files and users; and whatever they do - even log in or out - the session ends with
    the privilege and the user id it had. *)
Lemma su_runs_one_command_as_root sh cmd : cmd_ok cmd -> (2 <= argc cmd)%nat -> (words_size (argv cmd) <= 256)%nat ->
  privilege (session sh) <> CLI_PRIV_ROOT ->
  (~ su_allowed (sys sh) -> forall e1 e2, cli_cmd_su e1 sh cmd = cli_cmd_su e2 sh cmd) /\
  (su_allowed (sys sh) -> exists sh1, rights (session sh1) = (CLI_PRIV_ROOT, 0) /\
     users (sys sh1) = users (sys sh) /\ fs (sys sh1) = fs (sys sh) /\
     forall exec, cli_cmd_su exec sh cmd = andthen (exec sh1 (mkParsed (drop 1 (argv cmd)) false None None None))
       (fun rc sh2 => Done rc (give_back (session sh) sh2))) /\
  (forall exec rc sh', cli_cmd_su exec sh cmd = Done rc sh' -> rights (session sh') = rights (session sh)).
Proof.
  intros Hok Ha Hs Hp. unfold cli_cmd_su. rewrite (proj2 (Nat.ltb_ge _ _)) by done.
  rewrite (proj2 (Z.eqb_neq _ _)) by done.
  assert (Hgive : forall sh0 exec rc sh', session sh0 = session sh -> elevated exec sh0 cmd = Done rc sh' ->
    rights (session sh') = rights (session sh)).
  { intros sh0 exec rc sh' Es Hd. destruct (elevated_spec sh0 cmd Hok Ha Hs) as (sh1 & _ & _ & _ & E1).
    rewrite E1 in Hd. apply andthen_Done in Hd as (rc' & sh2 & _ & [= _ <-]). by rewrite Es. }
  destruct (userdb_find_user (users (sys sh)) (lit "root")) as [root|] eqn:Er.
  2:{ split; [done|]. split; [intros (? & E1 & _); congruence|]. by intros ? ? ? [= _ <-]. }
  destruct (has_flag root USER_FLAG_ACTIVE) eqn:Eact; cbn [negb].
  2:{ split; [done|]. split; [intros (? & E1 & ? & _); congruence|]. by intros ? ? ? [= _ <-]. }
  destruct (has_flag root USER_FLAG_NO_PASSWORD) eqn:Enp.
  { split; [|split].
    - intros Hn. exfalso. apply Hn. exists root. split; [exact Er|]. split; [exact Eact|]. left. exact Enp.
    - intros _. destruct (elevated_spec sh cmd Hok Ha Hs) as (sh1 & R1 & R2 & _ & R3).
      exists sh1. rewrite R2. split; [exact R1|]. split; [done|]. split; [done|exact R3].
    - intros exec rc sh'. by apply Hgive. }
  destruct (cli_read_password 64 (keys (sys sh))) as [[[pw text] ks]|] eqn:Ek.
  2:{ split; [done|]. split; [|done].
      intros (r' & E1 & _ & [E2|(pw & t & k' & E2 & _)]); congruence. }
  cbv zeta. destruct (Nat.eqb_spec (length pw) 0) as [El|El].
  { split; [done|]. split; [|by intros ? ? ? [= _ <-]].
    intros (r' & E1 & _ & [E2|(pw' & t & k' & E2 & Hne & _)]); [congruence|].
    rewrite Ek in E2. injection E2 as -> _ _. destruct pw'; [done|simpl in El; lia]. }
  destruct (Z.ltb_spec (userdb_authenticate garbage (users (sys sh)) (lit "root") (Some pw)) 0) as [Hlt|Hge].
  { split; [done|]. split; [|by intros ? ? ? [= _ <-]].
    intros (r' & E1 & _ & [E2|(pw' & t & k' & E2 & Hne & Hge)]); [congruence|].
    rewrite Ek in E2. injection E2 as -> _ _. lia. }
  split; [|split].
  - intros Hn. exfalso. apply Hn. exists root. split; [exact Er|]. split; [exact Eact|]. right.
    exists pw, text, ks. split; [exact Ek|]. split; [by destruct pw|exact Hge].
  - intros _. match goal with |- context [elevated _ ?s0 cmd] => set (sh0 := s0) end.
    destruct (elevated_spec sh0 cmd Hok Ha Hs) as (sh1 & R1 & R2 & _ & R3).
    exists sh1. rewrite R2. split; [exact R1|]. split; [done|]. split; [done|]. exact R3.
  - intros exec rc sh'. by apply Hgive.
Qed.

(** ** What changes the rights of a session *)

Lemma on_fs_Ret {A} (m : Rd (Kfs D) (res A)) k f rc t s' k' : on_fs m k f = Ret rc t s' k' ->
  exists a k1, f a k1 = Ret rc t s' k'.
Proof. unfold on_fs. destruct (m (fs k)) as [[a| |] v]; try done; eauto. Qed.
Lemma do_fs_Ret {A} (m : Rd (Kfs D) A) k f rc t s' k' : do_fs m k f = Ret rc t s' k' ->
  exists a k1, f a k1 = Ret rc t s' k'.
Proof. unfold do_fs. destruct (m (fs k)). eauto. Qed.
(** Follows a handler to its end: the session it returns. *)
Ltac end_of_handler :=
  repeat match goal with
  | |- Ret _ _ _ _ = Ret _ _ _ _ -> _ => by intros [= _ _ <- _]
  | |- HWaits = _ -> _ => done
  | |- HHangs = _ -> _ => done
  | |- HStops _ _ _ = _ -> _ => done
  | |- on_fs _ _ _ = _ -> _ => let Hx := fresh in intros Hx; apply on_fs_Ret in Hx as (? & ? & Hx); revert Hx
  | |- do_fs _ _ _ = _ -> _ => let Hx := fresh in intros Hx; apply do_fs_Ret in Hx as (? & ? & Hx); revert Hx
  | |- cli_read_text_source _ _ _ _ _ _ _ = _ -> _ => unfold cli_read_text_source
  | |- may_write _ _ _ _ = _ -> _ => unfold may_write
  | |- (let _ := _ in _) = _ -> _ => cbv zeta
  | |- (if ?b then _ else _) = _ -> _ => destruct b
  | |- (match ?x with _ => _ end) = _ -> _ => destruct x
  | |- (fun _ => _) _ _ = _ -> _ => cbv beta
  end.

(** Every handler but login, logout and su leaves the session's rights. *)
Lemma handler_rights exec b sh cmd rc sh' :
  handler b <> H_login -> handler b <> H_logout -> handler b <> H_su ->
  cli_handler exec b sh cmd = Done rc sh' -> rights (session sh') = rights (session sh).
Proof.
  intros H1 H2 H3. assert (Hl : forall r, (forall rc t s k, r = Ret rc t s k -> rights s = rights (session sh)) ->
    lift sh r = Done rc sh' -> rights (session sh') = rights (session sh)).
  { intros [rc0 t s k| | |] Hr; cbn; try done. intros [= _ <-]. by eapply Hr. }
  unfold cli_handler. destruct (handler b); try done; apply Hl; intros ? ? ? ?; clear Hl.
  - unfold cli_cmd_help. end_of_handler.
  - unfold cli_cmd_exit. end_of_handler.
  - unfold cli_cmd_whoami. end_of_handler.
  - unfold cli_cmd_ver. end_of_handler.
  - unfold cli_cmd_echo. end_of_handler.
  - unfold cli_cmd_users. end_of_handler.
  - unfold cli_cmd_cat. end_of_handler.
  - unfold cli_cmd_write. end_of_handler.
  - unfold cli_cmd_append. end_of_handler.
  - unfold cli_cmd_rm. end_of_handler.
  - unfold cli_cmd_mkdir. end_of_handler.
  - unfold cli_cmd_chmod. end_of_handler.
  - unfold cli_cmd_chown. end_of_handler.
  - unfold cli_cmd_grep. end_of_handler.
  - unfold cli_cmd_wc. end_of_handler.
  - end_of_handler.
Qed.

Lemma elevated_rights exec sh0 cmd rc sh' : elevated exec sh0 cmd = Done rc sh' ->
  rights (session sh') = rights (session sh0).
Proof.
  unfold elevated. destruct (sub_command cmd) as [prc sub]. intros Hd.
  by apply andthen_Done in Hd as (? & ? & _ & [= _ <-]).
Qed.
Lemma su_rights exec sh cmd rc sh' :
  (forall sub rc sh', exec sh sub = Done rc sh' -> rights (session sh') = rights (session sh)) ->
  cli_cmd_su exec sh cmd = Done rc sh' -> rights (session sh') = rights (session sh).
Proof.
  intros He. unfold cli_cmd_su. destruct (argc cmd <? 2)%nat; [by intros [= _ <-]|].
  destruct (_ =? CLI_PRIV_ROOT).
  { destruct (sub_command cmd) as [prc sub]. destruct (prc =? CLI_OK); [apply He|by intros [= _ <-]]. }
  destruct (userdb_find_user _ _) as [root|]; [|by intros [= _ <-]].
  destruct (negb _); [by intros [= _ <-]|].
  destruct (has_flag root USER_FLAG_NO_PASSWORD); [apply elevated_rights|].
  destruct (cli_read_password _ _) as [[[pw text] ks]|]; [|done]. cbv zeta.
  destruct (length pw =? 0)%nat; [by intros [= _ <-]|].
  destruct (userdb_authenticate _ _ _ _ <? 0); [by intros [= _ <-]|].
  intros Hd. apply elevated_rights in Hd. exact Hd.
Qed.

Lemma single_inv (P : Sh -> Sh -> Prop) run sh cmd rc sh' :
  (forall t, P sh (print t sh)) -> (forall t n g req, P sh (match deny t n g req sh with Done _ s => s | _ => sh end)) ->
  (forall b s k rc sh', rights s = rights (session sh) -> run b (mkSh s (con sh) k) cmd = Done rc sh' -> P sh sh') ->
  P sh sh -> cli_execute_single_command run sh cmd = Done rc sh' -> P sh sh'.
Proof.
  intros Hprint Hdeny Hrun Hrefl. unfold cli_execute_single_command.
  destruct (argv cmd) as [|n ws]; [by intros [= _ <-]|]. destruct (cli_find_builtin n) as [b|]; [|by intros [= _ <-]].
  cbv zeta. destruct (_ <? _).
  { intros [= _ <-]. specialize (Hdeny (lit "Permission denied: '" ++ n ++ lit "' requires higher privilege" ++ [NL]) n (lit "cli") (min_privilege b)).
    exact Hdeny. }
  destruct (negb _).
  { intros [= _ <-]. specialize (Hdeny (lit "Policy denied: '" ++ n ++ lit "' not allowed for " ++ cstr (username (session sh)) ++ [NL]) n (lit "policy") 0).
    exact Hdeny. }
  by apply Hrun.
Qed.

Section rights.
Variable d : (Sh -> ParsedCommand -> outcome) -> CliBuiltinCommand -> Sh -> ParsedCommand -> outcome.
(** Login and logout are replaced by what leaves the rights, the other handlers are the real ones. *)
Hypothesis d_login : forall exec b sh cmd rc sh', handler b = H_login \/ handler b = H_logout ->
  d exec b sh cmd = Done rc sh' -> rights (session sh') = rights (session sh).
Hypothesis d_others : forall exec b sh cmd, handler b <> H_login -> handler b <> H_logout ->
  d exec b sh cmd = cli_handler exec b sh cmd.

Lemma dispatch_rights exec b sh cmd rc sh' :
  (forall sub rc sh', exec sh sub = Done rc sh' -> rights (session sh') = rights (session sh)) ->
  d exec b sh cmd = Done rc sh' -> rights (session sh') = rights (session sh).
Proof.
  intros He Hd. destruct (handler b) eqn:Eh; try (eapply d_login; [|exact Hd]; tauto);
    rewrite d_others in Hd by congruence; try (eapply handler_rights; [..|exact Hd]; congruence).
  unfold cli_handler in Hd. rewrite Eh in Hd. eapply su_rights; [exact He|exact Hd].
Qed.
Lemma single_rights exec sh cmd rc sh' :
  (forall sh sub rc sh', exec sh sub = Done rc sh' -> rights (session sh') = rights (session sh)) ->
  cli_execute_single_command (d exec) sh cmd = Done rc sh' -> rights (session sh') = rights (session sh).
Proof.
  intros He. apply (single_inv (fun sh sh' => rights (session sh') = rights (session sh))); try done.
  intros b s k rc' sh2 Hs Hd. rewrite <- Hs.
  exact (dispatch_rights exec b (mkSh s (con sh) k) cmd rc' sh2 (fun sub rc sh' => He _ sub rc sh') Hd).
Qed.
Lemma execute_rights fuel : forall sh cmd rc sh', cli_execute_command d fuel sh cmd = Done rc sh' ->
  rights (session sh') = rights (session sh).
Proof.
  induction fuel as [|fuel IH]; intros sh cmd rc sh'; [done|]. cbn [cli_execute_command].
  destruct (argv cmd) as [|n ws]; [by intros [= _ <-]|].
  destruct (pipe_to cmd) as [[|c next]|]; [by apply single_rights| |by apply single_rights].
  destruct (negb (cli_command_pipe_safe n)); [by intros [= _ <-]|].
  destruct (cli_parse_command (c :: next)) as [prc nxt]. destruct (negb (prc =? CLI_OK)); [by intros [= _ <-]|].
  intros Hd. apply andthen_Done in Hd as (rc1 & sh1 & Hs & Hd). apply single_rights in Hs; [|exact IH].
  cbn in Hs. destruct (cli_capture_end (con sh1)) as [text con'].
  destruct (negb (rc1 =? CLI_OK)).
  { injection Hd as _ <-. by destruct (length text =? 0)%nat. }
  apply andthen_Done in Hd as (rc2 & sh2 & Hx & [= _ <-]). apply IH in Hx. cbn in *. congruence.
Qed.

(** C19. Only login and logout change what a session may do: with those two replaced by anything that
    leaves the rights alone, every command line - pipes, lists, su with all it runs, handlers that
    read or write files, refusals - ends with the session's privilege and user id as they were. *)
Theorem rights_change_only_by_login fuel sh line rc sh' :
  cli_process_line d fuel sh line = Done rc sh' -> rights (session sh') = rights (session sh).
Proof.
  unfold cli_process_line. destruct (leaves_monitor sh line); [by intros [= _ <-]|].
  generalize (split_line line) as segs. intros segs. generalize CLI_OK as status. revert sh.
  induction segs as [|[pre seg] segs IH]; intros sh status; cbn [run_segments]; [by intros [= _ <-]|].
  destruct (span is_blank seg).2 as [|c q]; [apply IH|].
  destruct (match pre with SEP_AND => _ | _ => _ end); [apply IH|].
  intros Hd. apply andthen_Done in Hd as (rc1 & sh1 & Hs & Hd). apply IH in Hd. rewrite Hd.
  unfold cli_process_single in Hs. destruct (cli_parse_command (c :: q)) as [prc cmd].
  destruct (negb (prc =? CLI_OK)); [by injection Hs as _ <-|]. by eapply execute_rights.
Qed.
End rights.

(** ** Fuel *)

Lemma handler_no_fuel e b sh cmd :
  ((2 <= argc cmd)%nat -> forall sh, e sh (sub_command cmd).2 <> NoFuel) -> cli_handler e b sh cmd <> NoFuel.
Proof.
  assert (Hl : forall r, lift sh r <> NoFuel) by (by intros []).
  intros He. unfold cli_handler. destruct (handler b); try apply Hl. unfold cli_cmd_su.
  destruct (Nat.ltb_spec (argc cmd) 2) as [|Ha]; [done|]. specialize (He Ha).
  assert (Hel : forall sh, elevated e sh cmd <> NoFuel).
  { intros sh'. unfold elevated. destruct (sub_command cmd) as [rc sub]. cbn [snd] in He.
    destruct (rc =? CLI_OK); [|done]. match goal with |- andthen (e ?s ?c) _ <> _ => specialize (He s) end.
    by destruct (e _ sub). }
  destruct (_ =? CLI_PRIV_ROOT).
  { destruct (sub_command cmd) as [rc sub]. cbn [snd] in He. destruct (rc =? CLI_OK); [apply He|done]. }
  destruct (userdb_find_user _ _) as [root|]; [|done]. destruct (negb _); [done|].
  destruct (has_flag root USER_FLAG_NO_PASSWORD); [apply Hel|].
  destruct (cli_read_password _ _) as [[[pw text] ks]|]; [|done]. cbv zeta.
  destruct (length pw =? 0)%nat; [done|]. destruct (userdb_authenticate _ _ _ _ <? 0); [done|]. apply Hel.
Qed.
Lemma single_no_fuel run sh cmd : (forall b sh, run b sh cmd <> NoFuel) -> cli_execute_single_command run sh cmd <> NoFuel.
Proof.
  intros Hr. unfold cli_execute_single_command. destruct (argv cmd) as [|n ws]; [done|].
  destruct (cli_find_builtin n) as [b|]; [|done]. cbv zeta. destruct (_ <? _); [done|]. by destruct (negb _).
Qed.
(** The commands a command runs are smaller. *)
Lemma sub_smaller cmd : cmd_ok cmd -> (2 <= argc cmd)%nat -> (cmd_size cmd <= 256)%nat ->
  cmd_ok (sub_command cmd).2 /\ (cmd_size (sub_command cmd).2 < cmd_size cmd)%nat.
Proof.
  intros Hok Ha Hs. unfold cmd_size in Hs. destruct (sub_command_spec cmd Hok Ha ltac:(lia)) as [Esub Hlt].
  rewrite Esub. cbn [snd]. split.
  - destruct Hok as [Hw Hn]. split; cbn; [by apply Forall_drop|]. rewrite length_drop. lia.
  - unfold cmd_size. cbn [argv pipe_to]. lia.
Qed.
Lemma next_smaller cmd t n ws : argv cmd = n :: ws -> pipe_to cmd = Some t ->
  cmd_ok (cli_parse_command t).2 /\ (cmd_size (cli_parse_command t).2 < cmd_size cmd)%nat /\
  (cmd_size (cli_parse_command t).2 <= 256)%nat.
Proof.
  intros Ea Et. pose proof (cli_parse_inv t) as Hi. destruct (cli_parse_command t) as [rc nxt]. cbn [snd].
  destruct Hi as (Hok & H1 & H2 & _). split; [done|]. split; [|done]. pose proof (length_cstr t).
  unfold cmd_size at 2. rewrite Ea, Et. cbn [words_size]. lia.
Qed.

Lemma execute_fuel fuel : forall f sh cmd, cmd_ok cmd -> (cmd_size cmd <= 256)%nat ->
  (cmd_size cmd < fuel)%nat -> (cmd_size cmd < f)%nat ->
  cli_execute_command cli_handler fuel sh cmd <> NoFuel /\
  cli_execute_command cli_handler fuel sh cmd = cli_execute_command cli_handler f sh cmd.
Proof.
  induction fuel as [|fuel IH]; intros [|f] sh cmd Hok Hs Hf1 Hf2; try lia. cbn [cli_execute_command].
  destruct (argv cmd) as [|n ws] eqn:Ea; [done|].
  assert (Hsub : (2 <= argc cmd)%nat -> forall sh,
    cli_execute_command cli_handler fuel sh (sub_command cmd).2 <> NoFuel /\
    cli_execute_command cli_handler fuel sh (sub_command cmd).2 = cli_execute_command cli_handler f sh (sub_command cmd).2).
  { intros Ha sh2. destruct (sub_smaller cmd Hok Ha Hs). apply IH; [done|lia..]. }
  assert (Hsingle : forall sh,
    cli_execute_single_command (cli_handler (cli_execute_command cli_handler fuel)) sh cmd <> NoFuel /\
    cli_execute_single_command (cli_handler (cli_execute_command cli_handler fuel)) sh cmd =
    cli_execute_single_command (cli_handler (cli_execute_command cli_handler f)) sh cmd).
  { intros sh2. split; [apply single_no_fuel; intros b sh3; apply handler_no_fuel|apply single_ext; intros b ? ? _ sh3 _; apply handler_ext];
      intros Ha sh4; apply (Hsub Ha sh4). }
  destruct (pipe_to cmd) as [[|c next]|] eqn:Et; [apply Hsingle| |apply Hsingle].
  destruct (negb (cli_command_pipe_safe n)); [done|].
  pose proof (next_smaller cmd (c :: next) n ws Ea Et) as (Nok & Nlt & N256).
  destruct (cli_parse_command (c :: next)) as [prc nxt]. cbn [snd] in Nok, Nlt, N256.
  destruct (negb (prc =? CLI_OK)); [done|].
  match goal with |- andthen (_ ?s1 cmd) _ <> _ /\ _ => destruct (Hsingle s1) as [S1 S2]; rewrite <- S2 end.
  destruct (cli_execute_single_command _ _ cmd) as [rc1 sh1| | | |]; cbn [andthen]; try done.
  destruct (cli_capture_end (con sh1)) as [text con']. destruct (negb (rc1 =? CLI_OK)); [done|].
  match goal with |- andthen (_ fuel ?s1 nxt) _ <> _ /\ _ => destruct (IH f s1 nxt Nok) as [X1 X2]; [lia..|]; rewrite <- X2 end.
  by destruct (cli_execute_command cli_handler fuel _ nxt).
Qed.

(** Every line terminates: the recursion through pipes and su needs no more than 257 levels, for
    each command that is run in turn is shorter than the one that runs it; with that fuel a line
    never runs out of it, and more fuel changes nothing. *)
Lemma process_line_terminates fuel sh line : (257 <= fuel)%nat ->
  cli_process_line cli_handler fuel sh line <> NoFuel /\
  cli_process_line cli_handler fuel sh line = cli_process_line cli_handler 257 sh line.
Proof.
  intros Hf. unfold cli_process_line. destruct (leaves_monitor sh line); [done|].
  generalize (split_line line) as segs. intros segs. generalize CLI_OK as status. revert sh.
  induction segs as [|[pre seg] segs IH]; intros sh status; cbn [run_segments]; [done|].
  destruct (span is_blank seg).2 as [|c q]; [apply IH|].
  destruct (match pre with SEP_AND => _ | _ => _ end); [apply IH|].
  assert (Hp : cli_process_single cli_handler fuel sh (c :: q) <> NoFuel /\
    cli_process_single cli_handler fuel sh (c :: q) = cli_process_single cli_handler 257 sh (c :: q)).
  { unfold cli_process_single. pose proof (cli_parse_inv (c :: q)) as Hi.
    destruct (cli_parse_command (c :: q)) as [prc cmd]. destruct Hi as (Hok & _ & Hsz & _).
    destruct (negb (prc =? CLI_OK)); [done|]. apply execute_fuel; [done|lia..]. }
  destruct Hp as [P1 P2]. rewrite <- P2. destruct (cli_process_single _ _ _ _) as [rc1 sh1| | | |]; cbn [andthen]; try done.
Qed.

End shell.

(** ** A concrete shell *)

Definition demo_users : UserDb :=
  mkUserDb ([mkUserRecord (lit "root" ++ zeros 28) (sha256_hash stack_ctx (lit "secret")) 0 1;
             mkUserRecord (lit "ann" ++ zeros 29) (zeros 32) 50 5;
             mkUserRecord (lit "bob" ++ zeros 29) (zeros 32) 100 5] ++ replicate 5 zero_user) 3 true.
Definition demo_ai : AiKernel TableEngine := mkAiKernel (Some (mkTable [(lit "wc", 1)] [])) true 0.
Definition demo_log : Klog := mkKlog (replicate 64 zero_klog) 0 0 0 KLOG_INFO.
Definition demo_sys (input : bytes) : Sys (E := TableEngine) (D := Bcache RamDisk) (W := unit) :=
  mkSys demo_users demo_ai log0 demo_log demo_kfs demo_env input false tt.
Definition demo_session (user : bytes) (priv id : Z) : CliSession :=
  mkSession 1 id (cli_strcpy (zeros 32) user 32) priv 0 0 0 true.
Definition demo_shell (user : bytes) (priv id : Z) (input : bytes) : Sh :=
  mkSh (demo_session user priv id) (mkCon false true [] [] []) (demo_sys input).
Definition no_other : bytes -> CliSession -> ParsedCommand -> bytes -> Sys (E := TableEngine) (D := Bcache RamDisk) (W := unit) ->
    option (Z * bytes * Sys (E := TableEngine) (D := Bcache RamDisk) (W := unit)) :=
  fun _ _ _ _ k => Some (0, [], k).
Definition demo_run (user : bytes) (priv id : Z) (input line : bytes) :=
  match cli_process_line (cli_handler 5 stack_ctx (zeros 32) no_other) 257 (demo_shell user priv id input) line with
  | Done rc sh => Some (rc, screen (con sh), cstr (username (session sh)), privilege (session sh), uid (session sh))
  | _ => None
  end.

Lemma demo_audit_wf : audit_wf log0.
Proof. split; [split; [done|split; done]|]. split; [done|]. by apply Forall_replicate. Qed.
Abbreviation demo_handler := (cli_handler 5 stack_ctx (zeros 32) no_other).


Definition su_cmd : ParsedCommand := mkParsed [lit "su"; lit "whoami"] false None None None.
Lemma su_cmd_ok : cmd_ok su_cmd.
Proof.
  split; [|simpl; lia]. apply two_words; (split; [done|split; [|by intros w [=]]]);
    refine (bool_decide_unpack _ _); vm_compute; exact I.
Qed.
Lemma su_runs_one_command_as_root_witness :
  exists sh1, rights (session sh1) = (0, 0) /\
    forall exec, cli_cmd_su stack_ctx (zeros 32) exec (demo_shell (lit "bob") 100 2 (lit "secret" ++ [10])) su_cmd =
      andthen (exec sh1 (mkParsed [lit "whoami"] false None None None))
        (fun rc sh2 => Done rc (give_back (zeros 32) (demo_session (lit "bob") 100 2) sh2)).
Proof.
  destruct (su_runs_one_command_as_root stack_ctx (zeros 32) (demo_shell (lit "bob") 100 2 (lit "secret" ++ [10])) su_cmd su_cmd_ok
    ltac:(vm_compute; lia) ltac:(vm_compute; lia) ltac:(done)) as (_ & Hs & _).
  destruct Hs as (sh1 & R1 & _ & _ & E1).
  - exists (mkUserRecord (lit "root" ++ zeros 28) (sha256_hash stack_ctx (lit "secret")) 0 1).
    split; [reflexivity|]. split; [reflexivity|]. right. exists (lit "secret"), (lit "******" ++ [10]), [].
    split; [reflexivity|]. split; [done|]. vm_compute. congruence.
  - exists sh1. split; [exact R1|exact E1].
Defined.

(** The shell without login and logout. *)
Definition no_login exec b (sh : Sh (E := TableEngine) (D := Bcache RamDisk) (W := unit)) cmd :=
  match handler b with H_login | H_logout => Done CLI_OK sh | _ => demo_handler exec b sh cmd end.
Definition done_rights (o : outcome (E := TableEngine) (D := Bcache RamDisk) (W := unit)) : option (Z * Z) :=
  match o with Done _ sh => Some (rights (session sh)) | _ => None end.
Definition rights_line : bytes := lit "su login ann && logout ; echo a | cat".
Lemma done_rights_intro o x : (forall rc sh, o = Done rc sh -> rights (session sh) = x) ->
  is_Some (done_rights o) -> done_rights o = Some x.
Proof. intros Ho. destruct o as [rc sh| | | |]; intros [y Hy]; try done. cbn. f_equal. by eapply Ho. Qed.
Lemma rights_change_only_by_login_witness :
  done_rights (cli_process_line no_login 257 (demo_shell (lit "bob") 100 2 (lit "secret" ++ [10])) rights_line) = Some (100, 2).
Proof.
  assert (H1 : forall exec b sh cmd rc sh', handler b = H_login \/ handler b = H_logout ->
    no_login exec b sh cmd = Done rc sh' -> rights (session sh') = rights (session sh))
    by (unfold no_login; intros exec b sh cmd rc sh' [-> | ->]; by intros [= _ <-]).
  assert (H2 : forall exec b sh cmd, handler b <> H_login -> handler b <> H_logout ->
    no_login exec b sh cmd = demo_handler exec b sh cmd)
    by (unfold no_login; intros exec b sh cmd Hl Ho; by destruct (handler b)).
  refine (done_rights_intro _ _ (fun rc sh' => rights_change_only_by_login 5 stack_ctx (zeros 32) no_other no_login H1 H2 257
    (demo_shell (lit "bob") 100 2 (lit "secret" ++ [10])) rights_line rc sh') _).
  vm_compute. eexists. reflexivity.
Defined.

Lemma process_line_terminates_witness :
  cli_process_line demo_handler 300 (demo_shell (lit "bob") 100 2 []) (lit "echo hi | cat | cat") =
  cli_process_line demo_handler 257 (demo_shell (lit "bob") 100 2 []) (lit "echo hi | cat | cat").
Proof.
  exact (proj2 (process_line_terminates 5 stack_ctx (zeros 32) no_other 300 (demo_shell (lit "bob") 100 2 [])
    (lit "echo hi | cat | cat") ltac:(lia))).
Defined.

(** ** What the model shows about the code *)

(** Whoever the session belongs to, logout makes it root's, without a password. *)
Lemma logout_gives_root {E D W} (s : CliSession) (k : Sys (E := E) (D := D) (W := W)) : privilege s <> CLI_PRIV_ROOT ->
  exists text, cli_cmd_logout s k =
    Ret CLI_OK text (s <| username := cli_strcpy (username s) (lit "root") 32 |> <| privilege := CLI_PRIV_ROOT |>) k.
Proof.
  intros Hp. unfold cli_cmd_logout. rewrite (proj2 (Z.eqb_neq _ _)) by done. cbn [andb]. by eexists.
Qed.
(** The name of a session that was root's for a while keeps the end of the longer one, and the
    user id of the account that was left stays. *)
Lemma names_are_mixed :
  demo_run (lit "bob") 100 2 (lit "secret" ++ [10]) (lit "su whoami") =
    Some (0, lit "Password: ******" ++ [10] ++ lit "root (privilege: root)" ++ [10], lit "bobt", 100, 2) /\
  demo_run (lit "bob") 100 2 [] (lit "logout") =
    Some (0, lit "Logged out — returned to root" ++ [10], lit "root", 0, 2).
Proof. split; vm_compute; reflexivity. Qed.
(** A redirection is read and ignored. *)
Lemma redirection_is_ignored :
  demo_run (lit "bob") 100 2 [] (lit "echo hi > /new") = Some (0, lit "hi" ++ [10], lit "bob", 100, 2).
Proof. vm_compute. reflexivity. Qed.
(** The octal number wraps around before it is checked, and the mode set is not printed. *)
Lemma octal_wraps : cli_parse_octal (lit "200755") = 493.
Proof. reflexivity. Qed.
(** The policy is asked for the first word alone: a rule for two words is never found. *)
Lemma two_word_rules_unused : forall w, word_ok w -> Forall (fun c => c <> 32) w.
Proof.
  intros w (_ & Hw & _). eapply Forall_impl; [exact Hw|]. intros c [Hc _] ->. by vm_compute in Hc.
Qed.
(** A line of more than 511 characters loses the one at which it is broken. *)
Lemma grep_loses_a_character :
  (grep_loop (lit "a") (replicate 511 97 ++ [98; 97; 10]) [] [] 0).1 = replicate 511 97 ++ [10; 97; 10].
Proof. vm_compute. reflexivity. Qed.
(** Of a password longer than 63 characters the rest is left to be read as a command. *)
Lemma password_rest_is_left :
  cli_read_password 64 (replicate 63 97 ++ lit "logout" ++ [10]) = Some (replicate 63 97, replicate 63 42, lit "logout" ++ [10]).
Proof. vm_compute. reflexivity. Qed.
