(* ===== verification/Printf.v ===== *)
(** Formatted output of the shell (kernel/shell/cli.c, cli_printf): the text of a format with its arguments, as the
    bytes handed to cli_write_raw. *)

From S2P Require Import Prelude CString Cli Shell.

(** The arguments behind the format. *)
Inductive farg := AStr (s : bytes) | ANum (v : Z).

(** [%s] of a width, right-aligned unless [left].
    [kernel/shell/cli.c] cli_print_field_s *)
Definition cli_print_field_s (s : bytes) (width : Z) (left : bool) : bytes :=
  let t := take (Z.to_nat width) (cstr s) in
  let pad := replicate (Z.to_nat width - length t) 32 in
  if left then t ++ pad else pad ++ t.
(** [val = -val] leaves the least int as it is, and no digits are stored for it.
    [kernel/shell/cli.c] cli_print_field_d *)
Definition cli_print_field_d (val : Z) (width : Z) (left : bool) : bytes :=
  let neg := val <? 0 in
  let val := if neg then i32 (- val) else val in
  let digits := if val <? 0 then [] else decimal 12 val in
  let t := (if neg then [45] else []) ++ digits in
  let pad := replicate (Z.to_nat width - length t) 32 in
  if left then t ++ pad else pad ++ t.
(** Eight digits, whatever the value.
    [kernel/shell/cli.c] cli_write_hex32 *)
Definition cli_write_hex32 (val : Z) : bytes :=
  (fun i : nat => let d := Z.land (Z.shiftr val (4 * Z.of_nat i)) 0xF in if d <? 10 then 48 + d else 65 + d - 10) <$> rev (seq 0 8).

Definition is_digit (c : Z) : bool := (48 <=? c) && (c <=? 57).
(** [kernel/shell/cli.c:903-904] cli_printf *)
Definition parse_width (digits : bytes) : Z := fold_left (fun w c => w * 10 + (c - 48)) digits 0.
(** One conversion: the text and the arguments left; [None] when the argument is missing or of the other kind, which is
    undefined in C.
    [kernel/shell/cli.c:906-933] cli_printf *)
Definition convert (c width : Z) (left : bool) (args : list farg) : option (bytes * list farg) :=
  if c =? 115 then
    match args with
    | AStr s :: args => Some (if 0 <? width then cli_print_field_s s width left else cstr s, args)
    | _ => None
    end
  else if (c =? 100) || (c =? 117) then
    match args with
    | ANum v :: args => Some (if 0 <? width then cli_print_field_d (i32 v) width left else int_dec (i32 v), args)
    | _ => None
    end
  else if c =? 120 then
    match args with
    | ANum v :: args => Some (cli_write_hex32 (u32 v), args)
    | _ => None
    end
  else if c =? 37 then Some ([37], args)
  else Some ([], args).
(** The format from [p] on; [fuel] is at least its length. A format that ends inside a conversion is read beyond its
    end.
    [kernel/shell/cli.c] cli_printf *)
Fixpoint printf_loop (fuel : nat) (p : bytes) (args : list farg) : option bytes :=
  match fuel, p with
  | S fuel, c :: p =>
      if (c =? 37) && negb (char_at p 0 =? 0) then
        let left := char_at p 0 =? 45 in
        let p := if left then cut p else p in
        let '(_, p) := span (fun c => (c =? 43) || (c =? 32)) p in
        let '(digits, p) := span is_digit p in
        match p with
        | [] => None
        | c :: p =>
            '(t, args) ← convert c (parse_width digits) left args;
            rest ← printf_loop fuel p args; Some (t ++ rest)
        end
      else rest ← printf_loop fuel p args; Some ((if c =? 9 then replicate 4 32 else [c]) ++ rest)
  | _, _ => Some []
  end.
(** [kernel/shell/cli.c] cli_printf *)
Definition cli_printf (fmt : bytes) (args : list farg) : option bytes := printf_loop (length fmt) (cstr fmt) args.

(** ** What a format prints *)

(** The pieces of a format with their arguments. *)
Inductive piece := Text (s : bytes) | Str (l : bool) (width : nat) (s : bytes) | Num (l : bool) (width : nat) (v : Z) | Hex (v : Z) | Percent.
Definition flags_of (l : bool) (width : nat) : bytes :=
  (if l then [45] else []) ++ (if (width =? 0)%nat then [] else decimal 3 (Z.of_nat width)).
Definition fmt_of (p : piece) : bytes :=
  match p with
  | Text s => s
  | Str l w _ => 37 :: flags_of l w ++ [115]
  | Num l w _ => 37 :: flags_of l w ++ [100]
  | Hex _ => [37; 120]
  | Percent => [37; 37]
  end.
Definition args_of (p : piece) : list farg :=
  match p with Str _ _ s => [AStr s] | Num _ _ v => [ANum v] | Hex v => [ANum v] | _ => [] end.
(** What a piece prints: texts as they are, strings and numbers in their fields. *)
Definition shown (p : piece) : bytes :=
  match p with
  | Text s => s
  | Str l w s => if (w =? 0)%nat then cstr s else cli_print_field_s s (Z.of_nat w) l
  | Num l w v => if (w =? 0)%nat then int_dec v else cli_print_field_d v (Z.of_nat w) l
  | Hex v => cli_write_hex32 v
  | Percent => [37]
  end.
Definition piece_ok (p : piece) : Prop :=
  match p with
  | Text s => Forall (fun c => c <> 0 /\ c <> 37 /\ c <> 9) s
  | Str _ w _ => (w < 1000)%nat
  | Num _ w v => (w < 1000)%nat /\ - 2 ^ 31 <= v < 2 ^ 31
  | Hex v => is_u32 v
  | Percent => True
  end.

Lemma parse_width_app a b : parse_width (a ++ b) = fold_left (fun w c => w * 10 + (c - 48)) b (parse_width a).
Proof. apply fold_left_app. Qed.
Lemma parse_width_decimal w : (w < 1000)%nat -> parse_width (decimal 3 (Z.of_nat w)) = Z.of_nat w.
Proof. intros Hw. etrans; [|apply (decimal_value 3 (Z.of_nat w)); lia]. done. Qed.

Lemma printf_conversion f l w c rest args : (w < 1000)%nat -> c = 115 \/ c = 100 \/ c = 117 \/ c = 120 \/ c = 37 ->
  printf_loop (S f) (37 :: flags_of l w ++ c :: rest) args =
    '(t, args) ← convert c (Z.of_nat w) l args; rest ← printf_loop f rest args; Some (t ++ rest).
Proof.
  intros Hw Hc. set (d := if (w =? 0)%nat then [] else decimal 3 (Z.of_nat w)).
  assert (Hd : Forall (fun c => is_digit c = true) d).
  { unfold d. destruct (w =? 0)%nat; [constructor|]. eapply Forall_impl; [apply (decimal_digits 3 (Z.of_nat w)); lia|]. intros x Hx. cbn in Hx.
    unfold is_digit. rewrite (proj2 (Z.leb_le _ _)), (proj2 (Z.leb_le _ _)) by lia. done. }
  assert (Hv : parse_width d = Z.of_nat w).
  { unfold d. destruct (Nat.eqb_spec w 0) as [->|]; [done|]. by apply parse_width_decimal. }
  assert (Hcd : is_digit c = false) by (unfold is_digit; destruct Hc as [->|[->|[->|[->| ->]]]]; done).
  assert (Hs : span is_digit (d ++ c :: rest) = (d, c :: rest)) by (apply span_app; [done|]; by intros ? ? [= <- <-]).
  assert (Hsp : span (fun c => (c =? 43) || (c =? 32)) (d ++ c :: rest) = ([], d ++ c :: rest)).
  { apply (span_app _ [] (d ++ c :: rest)); [constructor|]. intros x b' E1. destruct d as [|x' d'].
    - injection E1 as <- _. destruct Hc as [->|[->|[->|[->| ->]]]]; done.
    - injection E1 as -> _. apply Forall_cons in Hd as [Hx _]. unfold is_digit in Hx. destruct (Z.eqb_spec x 43) as [->|]; [done|]. by destruct (Z.eqb_spec x 32) as [->|]. }
  unfold flags_of. fold d. destruct l.
  - cbn [app printf_loop]. change (char_at (45 :: d ++ c :: rest) 0 =? 45) with true. change (char_at (45 :: d ++ c :: rest) 0 =? 0) with false.
    cbn [andb negb Z.eqb Pos.eqb]. cbn [cut]. rewrite Hsp, Hs, Hv. done.
  - assert (Hne : exists y ys, d ++ c :: rest = y :: ys /\ (y =? 45) = false /\ (y =? 0) = false).
    { destruct d as [|x' d']; [exists c, rest; destruct Hc as [->|[->|[->|[->| ->]]]]; done|].
      exists x', (d' ++ c :: rest). split; [done|]. apply Forall_cons in Hd as [Hx _]. unfold is_digit in Hx. by destruct (Z.eqb_spec x' 45) as [->|]; [|destruct (Z.eqb_spec x' 0) as [->|]]. }
    destruct Hne as (y & ys & E1 & E2 & E3). cbn [app]. rewrite E1 in *. cbn [printf_loop].
    change (char_at (y :: ys) 0) with y. rewrite E2, E3. cbn [andb negb Z.eqb Pos.eqb]. rewrite Hsp, Hs, Hv. done.
Qed.
Lemma printf_text s : forall f rest args, Forall (fun c => c <> 0 /\ c <> 37 /\ c <> 9) s ->
  printf_loop (length s + f) (s ++ rest) args = (t ← printf_loop f rest args; Some (s ++ t)).
Proof.
  induction s as [|c s IH]; intros f rest args Hs; [cbn [length app Nat.add]; by destruct (printf_loop f rest args)|].
  inversion_clear Hs as [|? ? (H0 & H37 & H9) Hs']. cbn [length app Nat.add].
  assert (E1 : printf_loop (S (length s + f)) (c :: s ++ rest) args = (t ← printf_loop (length s + f) (s ++ rest) args; Some ([c] ++ t))).
  { cbn [printf_loop]. rewrite (proj2 (Z.eqb_neq c 37)), (proj2 (Z.eqb_neq c 9)) by done. done. }
  rewrite E1, IH by done. by destruct (printf_loop f rest args).
Qed.
Lemma pieces_printed ps : forall f, Forall piece_ok ps -> (length (concat (fmt_of <$> ps)) <= f)%nat ->
  printf_loop f (concat (fmt_of <$> ps)) (concat (args_of <$> ps)) = Some (concat (shown <$> ps)).
Proof.
  induction ps as [|p ps IH]; intros f Hok Hf; [by destruct f|]. inversion_clear Hok as [|? ? Hp Hps].
  cbn [fmap list_fmap concat] in *. fold (fmt_of <$> ps) (args_of <$> ps) (shown <$> ps) in *. rewrite length_app in Hf.
  assert (Hconv : forall l w c a, fmt_of p = 37 :: flags_of l w ++ [c] -> (w < 1000)%nat -> c = 115 \/ c = 100 \/ c = 117 \/ c = 120 \/ c = 37 ->
    args_of p = a -> (forall args, convert c (Z.of_nat w) l (a ++ args) = Some (shown p, args)) ->
    printf_loop f (fmt_of p ++ concat (fmt_of <$> ps)) (args_of p ++ concat (args_of <$> ps)) = Some (shown p ++ concat (shown <$> ps))).
  { intros l w c a Ef Hw Hc Ea Hconv. rewrite Ef, Ea in *. cbn [length] in Hf. destruct f as [|f]; [lia|].
    cbn [app]. rewrite <- app_assoc. cbn [app]. rewrite printf_conversion, Hconv by done. cbn [mbind option_bind].
    rewrite IH; [done|done|lia]. }
  destruct p as [s|l w s|l w v|v|]; cbn [piece_ok] in Hp.
  - cbn [fmt_of args_of shown app] in *. replace f with (length s + (f - length s))%nat by lia. rewrite printf_text by done.
    rewrite IH; [done|done|lia].
  - apply (Hconv l w 115 [AStr s]); try done; [by left|]. intros args. unfold convert. cbn [Z.eqb Pos.eqb app shown].
    destruct (Nat.eqb_spec w 0) as [->|]; [done|]. by rewrite (proj2 (Z.ltb_lt 0 _)) by lia.
  - destruct Hp as [Hw Hv]. apply (Hconv l w 100 [ANum v]); try done; [by right; left|]. intros args. unfold convert. cbn [Z.eqb Pos.eqb app shown orb].
    rewrite i32_id by done. destruct (Nat.eqb_spec w 0) as [->|]; [done|]. by rewrite (proj2 (Z.ltb_lt 0 _)) by lia.
  - apply (Hconv false 0%nat 120 [ANum v]); try done; [lia|tauto|]. intros args. unfold convert. cbn [Z.eqb Pos.eqb app shown orb]. by rewrite u32_id.
  - apply (Hconv false 0%nat 37 []); try done; [lia|tauto].
Qed.
(** cli_printf: a format without tabs prints its text, and for every conversion its argument: strings and numbers as
    they are or in a field of the width given, on the left with a minus sign, hexadecimal numbers with eight digits. *)
Lemma cli_printf_spec ps : Forall piece_ok ps -> cli_printf (concat (fmt_of <$> ps)) (concat (args_of <$> ps)) = Some (concat (shown <$> ps)).
Proof.
  intros Hok. unfold cli_printf. assert (Hz : cstr (concat (fmt_of <$> ps)) = concat (fmt_of <$> ps)).
  { apply cstr_id. induction Hok as [|p ps Hp _ IH]; [constructor|]. cbn [fmap list_fmap concat]. apply Forall_app. split; [|exact IH].
    assert (Hfl : forall l w, Forall (fun c => c <> 0) (flags_of l w)).
    { intros l w. unfold flags_of. apply Forall_app. split; [by destruct l; repeat constructor|]. destruct (w =? 0)%nat; [constructor|].
      eapply Forall_impl; [apply (decimal_digits 3 (Z.of_nat w)); lia|]. intros x Hx. cbn in Hx. lia. }
    destruct p; cbn [fmt_of]; [eapply Forall_impl; [exact Hp|]; cbn; tauto|..]; repeat (constructor; [done|]);
      try (apply Forall_app; split; [apply Hfl|by repeat constructor]); by repeat constructor. }
  rewrite Hz. apply pieces_printed; done || lia.
Qed.
Ltac pieces := unfold NL; repeat (apply Forall_cons_2; [cbn [piece_ok]; first [exact I | lia | refine (bool_decide_unpack _ _); vm_compute; exact I]|]); apply Forall_nil_2.
Lemma cli_printf_spec_witness : cli_printf (lit "%-5d|%3u|%s%%") [ANum 7; ANum 42; AStr (lit "ab")] = Some (lit "7    | 42|ab%").
Proof.
  refine (cli_printf_spec [Num true 5 7; Text (lit "|"); Num false 3 42; Text (lit "|"); Str false 0 (lit "ab"); Percent] _).
  pieces.
Defined.

(** The rows of the shell's users command, as the code formats them. *)
Lemma user_row_printf u : exists priv status, cli_printf (lit "  %-12s %-8s %-8s" ++ [NL]) [AStr (UserDb.username u); AStr priv; AStr status] = Some (user_row u).
Proof.
  eexists _, _. unfold user_row. etrans; [refine (cli_printf_spec [Text (lit "  "); Str true 12 _; Text [32]; Str true 8 _; Text [32]; Str true 8 _; Text [NL]] _)|].
  - pieces.
  - reflexivity.
Qed.
(** [%02d] is read as a width of 2: numbers are padded with blanks, not zeros. *)
Lemma zero_flag_pads_with_blanks : cli_printf (lit "%02d:%02d") [ANum 7; ANum 5] = Some (lit " 7: 5").
Proof. reflexivity. Qed.
(** [%u] prints numbers from 2^31 on as negative ones, and [%02x] eight digits. *)
Lemma unsigned_prints_negative : cli_printf (lit "%u") [ANum (2 ^ 32 - 1)] = Some (lit "-1") /\ cli_printf (lit "%02x") [ANum 255] = Some (lit "000000FF").
Proof. by split. Qed.
