(* ===== verification/ShellIpc.v ===== *)
(** The shell's commands for local sockets and shared libraries (kernel/shell/cli.c): what is told between commands and
    the kernel's IPC and loader. A command gives its result, its text and the new state. *)

From S2P Require Import Prelude CString Ipc Module Dylib Cli Shell Printf.

(** [int v] wraps around.
    [kernel/shell/cli.c] simple_atoi *)
Fixpoint simple_atoi_loop (s : bytes) (v : Z) : Z :=
  match s with
  | c :: s => if (48 <=? c) && (c <=? 57) then simple_atoi_loop s (i32 (v * 10 + (c - 48))) else v
  | [] => v
  end.
(** [kernel/shell/cli.c] simple_atoi *)
Definition simple_atoi (s : bytes) : Z := simple_atoi_loop s 0.
(** A row of text. *)
Definition row (text : bytes) : bytes := text ++ [NL].
(** [%d] of a 32-bit value. *)
Definition dec (v : Z) : bytes := int_dec (i32 v).

Section usock.
Implicit Types (s : IpcState) (u : CliSession) (cmd : ParsedCommand).
(** [kernel/shell/cli.c] cli_session_pid_hint *)
Definition cli_session_pid_hint u : Z := if negb (current_pid u =? 0) then current_pid u else u32 (uid u + 1).
(** [kernel/shell/cli.c] cli_cmd_usockbind *)
Definition cli_cmd_usockbind s u cmd : Z * bytes * IpcState :=
  if (argc cmd <? 2)%nat then (1, row (lit "Usage: usockbind <path> [owner_pid]"), s) else
  let owner := if (3 <=? argc cmd)%nat then u32 (simple_atoi (arg cmd 2)) else cli_session_pid_hint u in
  let owner := if owner =? 0 then 1 else owner in
  let '(rc, s) := ipc_usock_bind s (Some (arg cmd 1)) owner in
  if rc <? 0 then (1, row (lit "usockbind: failed (" ++ dec rc ++ lit ")"), s)
  else (CLI_OK, row (lit "unix socket bound: " ++ arg cmd 1 ++ lit " (owner=" ++ dec owner ++ lit ")"), s).
(** The words behind the path, or the text from the pipe.
    [kernel/shell/cli.c:3089-3104] cli_cmd_usocksend *)
Definition send_data cmd (inp : bytes) : option bytes :=
  if (3 <=? argc cmd)%nat then Some (cli_join_args cmd 2 256)
  else if (0 <? length inp)%nat then Some inp else None.
(** [kernel/shell/cli.c] cli_cmd_usocksend *)
Definition cli_cmd_usocksend s cmd (inp : bytes) : Z * bytes * IpcState :=
  let usage := row (lit "Usage: usocksend <path> <data...>") in
  if (argc cmd <? 2)%nat then (1, usage, s) else
  match send_data cmd inp with
  | None => (1, usage, s)
  | Some data =>
      let '(rc, s) := ipc_usock_send s (Some (arg cmd 1)) (Some data) (Z.of_nat (length data)) in
      if rc <? 0 then (1, row (lit "usocksend: failed (" ++ dec rc ++ lit ")"), s)
      else (CLI_OK, row (lit "usocksend: wrote " ++ dec rc ++ lit " bytes to " ++ arg cmd 1), s)
  end.
(** [kernel/shell/cli.c] cli_cmd_usockrecv *)
Definition cli_cmd_usockrecv s cmd : Z * bytes * IpcState :=
  if (argc cmd <? 2)%nat then (1, row (lit "Usage: usockrecv <path> [max_bytes]"), s) else
  let max := if (3 <=? argc cmd)%nat then
               let max := simple_atoi (arg cmd 2) in
               let max := if max <? 1 then 1 else max in if 1024 <? max then 1024 else max
             else 255 in
  let '(rc, buf, s) := ipc_usock_recv s (Some (arg cmd 1)) true max in
  if rc <? 0 then (1, row (lit "usockrecv: failed (" ++ dec rc ++ lit ")"), s) else
  if rc =? 0 then (CLI_OK, row (lit "usockrecv: empty"), s) else
  (CLI_OK, row (cstr (take (Z.to_nat rc) buf)), s).
(** [kernel/shell/cli.c] cli_cmd_usockclose *)
Definition cli_cmd_usockclose s cmd : Z * bytes * IpcState :=
  if (argc cmd <? 2)%nat then (1, row (lit "Usage: usockclose <path>"), s) else
  let '(rc, s) := ipc_usock_close s (Some (arg cmd 1)) in
  if rc <? 0 then (1, row (lit "usockclose: failed (" ++ dec rc ++ lit ")"), s)
  else (CLI_OK, row (lit "unix socket closed: " ++ arg cmd 1), s).
End usock.

Section dylib_commands.
Context {F : Type} `{FileSource F}.
(** Where the libraries lie, and what their code returns: called at an address with an argument. *)
Variable storage : Z.
Variable native : Dylibs F -> Z -> Z -> Z * Dylibs F.
Implicit Types (st : Dylibs F) (cmd : ParsedCommand).
(** [kernel/shell/cli.c] cli_cmd_dlopen *)
Definition cli_cmd_dlopen st cmd : Z * bytes * Dylibs F :=
  if (argc cmd <? 2)%nat then (1, row (lit "Usage: dlopen <path> [name]"), st) else
  let name := if (3 <=? argc cmd)%nat then arg cmd 2 else [] in
  let '(rc, st) := dylib_open storage st (arg cmd 1) name in
  if rc <? 0 then (1, row (lit "dlopen: failed (" ++ dec rc ++ lit ")"), st)
  else (CLI_OK, row (lit "dlopen: handle=" ++ dec rc), st).
(** [kernel/shell/cli.c] cli_cmd_dlsym *)
Definition cli_cmd_dlsym st cmd : Z * bytes * Dylibs F :=
  if (argc cmd <? 3)%nat then (1, row (lit "Usage: dlsym <handle> <symbol>"), st) else
  let handle := u32 (simple_atoi (arg cmd 1)) in
  let rc := dylib_resolve st handle (arg cmd 2) in
  if rc <? 0 then (1, row (lit "dlsym: not found (" ++ dec rc ++ lit ")"), st)
  else (CLI_OK, row (lit "dlsym: " ++ arg cmd 2 ++ lit " -> fn" ++ dec rc), st).
(** [kernel/shell/cli.c] cli_cmd_dlcall *)
Definition cli_cmd_dlcall st cmd : Z * bytes * Dylibs F :=
  if (argc cmd <? 3)%nat then (1, row (lit "Usage: dlcall <handle> <symbol> [arg]"), st) else
  let handle := u32 (simple_atoi (arg cmd 1)) in
  let a := if (4 <=? argc cmd)%nat then u32 (simple_atoi (arg cmd 3)) else 0 in
  let '(rc, st) := match dylib_call st handle (arg cmd 2) a with CallErr rc => (rc, st) | CallFn fn a => native st fn a end in
  if rc <? 0 then (1, row (lit "dlcall: failed (" ++ dec rc ++ lit ")"), st)
  else (CLI_OK, row (lit "dlcall: return=" ++ dec rc), st).
(** [kernel/shell/cli.c] cli_cmd_dlclose *)
Definition cli_cmd_dlclose st cmd : Z * bytes * Dylibs F :=
  if (argc cmd <? 2)%nat then (1, row (lit "Usage: dlclose <handle>"), st) else
  let handle := u32 (simple_atoi (arg cmd 1)) in
  let '(rc, st) := dylib_close storage st handle in
  if rc <? 0 then (1, row (lit "dlclose: failed (" ++ dec rc ++ lit ")"), st)
  else (CLI_OK, row (lit "dlclose: handle=" ++ dec handle ++ lit " closed"), st).
(** [kernel/shell/cli.c] cli_cmd_dllist *)
Definition cli_cmd_dllist st : Z * bytes * Dylibs F :=
  (CLI_OK, row (lit "dllist: " ++ dec (dylib_list st) ++ lit " loaded"), st).
End dylib_commands.

(** ** A message between two commands *)

Definition command (ws : list bytes) : ParsedCommand := mkParsed ws false None None None.
Lemma channel_write_usocks s cid b len : g_usocks (ipc_channel_write s cid b len).2 = g_usocks s.
Proof.
  unfold ipc_channel_write. destruct b as [b|]; [|done]. destruct (_ || _); [done|]. destruct (_ || _); [done|].
  by destruct (channel_write_loop _ _ _).
Qed.
Lemma channel_read_usocks s cid b n : g_usocks (ipc_channel_read s cid b n).2 = g_usocks s.
Proof.
  unfold ipc_channel_read. destruct (_ || _); [done|]. destruct (_ =? 0); [done|]. destruct (_ =? 0); [done|].
  by destruct (channel_read_loop _ _ _).
Qed.
Lemma find_usocks s t path : g_usocks t = g_usocks s -> usock_find_by_path t path = usock_find_by_path s path.
Proof. unfold usock_find_by_path. by intros ->. Qed.
(** A socket found at [p], and what waits on its channel. *)
Definition socket_at (s : IpcState) (p : bytes) (q : bytes) : Prop :=
  0 <= usock_find_by_path s (Some p) /\
  let ch := geti (g_channels s) (us_cid (geti (g_usocks s) (usock_find_by_path s (Some p)))) in
  ch_owner_pid ch <> 0 /\ ch_closed ch = 0 /\ chan_view ch = q.
Lemma usock_send_spec s p q data : ipc_wf s -> socket_at s p q -> (0 < length data)%nat -> Z.of_nat (length q + length data) <= 512 ->
  exists s', ipc_usock_send s (Some p) (Some data) (Z.of_nat (length data)) = (Z.of_nat (length data), s') /\ ipc_wf s' /\ socket_at s' p (q ++ data).
Proof.
  intros Hwf (Hf & Ho & Hcl & Hv) Hd Hl. destruct (usock_find_range s (Some p) Hwf Hf) as [_ Hcid].
  unfold ipc_usock_send. rewrite (proj2 (Z.ltb_ge _ 0)) by done. set (cid := us_cid _) in *.
  pose proof (ipc_channel_write_refines s cid data (Z.of_nat (length data)) Hwf Hcid ltac:(lia) eq_refl) as Hw.
  pose proof (channel_write_usocks s cid (Some data) (Z.of_nat (length data))) as Hu.
  pose proof (geti_chan_wf s cid Hwf Hcid) as Hcw. pose proof (length_chan_view _ Hcw) as Hlv.
  assert (Hkeep : forall ch b w, ch_owner_pid (channel_write_loop ch b w).1 = ch_owner_pid ch /\ ch_closed (channel_write_loop ch b w).1 = ch_closed ch).
  { intros ch b. revert ch. induction b as [|x b IH]; intros ch w; [done|]. cbn [channel_write_loop]. destruct (_ <=? _); [done|]. cbv zeta.
    edestruct IH as [E1 E2]; by rewrite E1, E2. }
  assert (Hch : let t := (ipc_channel_write s cid (Some data) (Z.of_nat (length data))).2 in
    ch_owner_pid (geti (g_channels t) cid) <> 0 /\ ch_closed (geti (g_channels t) cid) = 0).
  { unfold ipc_channel_write. destruct (_ || _); [done|]. destruct (_ || _); [done|].
    destruct (Hkeep (geti (g_channels s) cid) (read_n data (Z.to_nat (Z.of_nat (length data)))) 0) as [E1 E2].
    destruct (channel_write_loop _ _ _) as [ch w]. cbn [fst snd] in *. cbn [set_channel upd_with g_channels].
    rewrite geti_puti_eq by (rewrite (wf_nchannels s Hwf); lia). by rewrite E1, E2. }
  destruct (ipc_channel_write s cid (Some data) _) as [rc s']. cbn [fst snd] in *. destruct Hw as [Hwf' Hw].
  rewrite (proj2 (Z.eqb_neq _ 0)), Hcl in Hw by done. cbn [Z.eqb orb negb] in Hw. rewrite Hv in Hlv. unfold IPC_CHAN_BUF_SIZE in Hw.
  rewrite (proj2 (Z.eqb_neq _ 0)), Z.min_l in Hw by lia. destruct Hw as (-> & Hv' & _).
  exists s'. split; [done|]. split; [done|]. unfold socket_at. rewrite (find_usocks s s'), Hu by done. fold cid.
  split; [done|]. destruct Hch as [Hc1 Hc2]. split; [done|]. split; [done|]. by rewrite Hv', Hv, Nat2Z.id, take_ge.
Qed.
Lemma usock_recv_spec s p q max : ipc_wf s -> socket_at s p q -> 0 < max ->
  exists s', ipc_usock_recv s (Some p) true max =
      (if (length q =? 0)%nat then IPC_ERR_EMPTY else Z.of_nat (length (take (Z.to_nat max) q)), take (Z.to_nat max) q, s') /\
    ipc_wf s' /\ g_usocks s' = g_usocks s.
Proof.
  intros Hwf (Hf & Ho & Hcl & Hv) Hm. destruct (usock_find_range s (Some p) Hwf Hf) as [_ Hcid].
  unfold ipc_usock_recv. rewrite (proj2 (Z.ltb_ge _ 0)) by done. set (cid := us_cid _) in *.
  pose proof (ipc_channel_read_refines s cid max Hwf Hcid Hm) as Hr. pose proof (channel_read_usocks s cid true max) as Hu.
  pose proof (length_chan_view _ (geti_chan_wf s cid Hwf Hcid)) as Hlv. rewrite Hv in Hlv.
  destruct (ipc_channel_read s cid true max) as [[rc out] s']. cbn [snd] in Hu. destruct Hr as [Hwf' Hr].
  rewrite (proj2 (Z.eqb_neq _ 0)) in Hr by done. destruct Hr as (Eo & _ & -> & _). rewrite Hv in Eo. subst out.
  exists s'. split; [|done]. do 2 f_equal. rewrite <- Hlv. destruct (Nat.eqb_spec (length q) 0) as [->|]; [done|].
  by rewrite (proj2 (Z.eqb_neq _ 0)) by lia.
Qed.

Lemma join_chars (P : Z -> Prop) ws : P 32 -> Forall (Forall P) ws -> Forall P (join_words ws).
Proof.
  intros H32. induction 1 as [|w ws Hw Hws IH]; [constructor|]. destruct (decide (ws = [])) as [->|Hne]; [done|].
  rewrite join_cons by done. apply Forall_app. split; [done|]. by constructor.
Qed.
(** Two commands talk through a local socket: after a usockbind that succeeds, usocksend with words that fit prints
    how many bytes it wrote, and the next usockrecv prints exactly the words, joined by blanks; nothing is left, and
    the IPC tables stay well formed. *)
Lemma usock_message_delivered s u n1 n2 n3 p ws :
  ipc_wf s -> bytes_ok p -> Forall (fun c => c <> 0) p -> (length p <= 31)%nat ->
  Forall (fun k => bytes_ok (us_path k)) (g_usocks s) ->
  Forall (fun w => Forall (fun c => c <> 0) w) ws -> join_words ws <> [] -> (length (join_words ws) <= 255)%nat ->
  let '(rc, _, s1) := cli_cmd_usockbind s u (command [n1; p]) in rc = CLI_OK ->
  let '(rc, text, s2) := cli_cmd_usocksend s1 (command (n2 :: p :: ws)) [] in
  rc = CLI_OK /\ text = row (lit "usocksend: wrote " ++ dec (Z.of_nat (length (join_words ws))) ++ lit " bytes to " ++ p) /\
  let '(rc, text, s3) := cli_cmd_usockrecv s2 (command [n3; p]) in
  rc = CLI_OK /\ text = row (join_words ws) /\ ipc_wf s3.
Proof.
  intros Hwf Hp Hp0 Hpl Hus Hws Hj Hjl. assert (Hcp : cstr p = p) by (by apply cstr_id).
  assert (Hlj : (0 < length (join_words ws))%nat) by (destruct (join_words ws); [done|cbn; lia]).
  unfold cli_cmd_usockbind. change (argc (command [n1; p])) with 2%nat. change (arg (command [n1; p]) 1) with p. cbn [Nat.ltb Nat.leb]. cbv zeta.
  set (owner := if cli_session_pid_hint u =? 0 then 1 else cli_session_pid_hint u).
  pose proof (ipc_usock_bind_find s p owner Hwf Hp Hus ltac:(rewrite Hcp; change (Z.to_nat IPC_USOCK_PATH_MAX) with 32%nat; lia)) as Hb.
  assert (Hc : (ipc_usock_bind s (Some p) owner).1 = IPC_OK \/ (ipc_usock_bind s (Some p) owner).1 < 0).
  { unfold ipc_usock_bind. destruct (_ || _); [by right|]. destruct (_ <=? _); [by right|]. destruct (ipc_channel_create s owner 0) as [c t].
    destruct (Z.ltb_spec c 0); [by right|]. destruct (find_idx _ _); [by left|by right]. }
  assert (Hw1 : ipc_wf (ipc_usock_bind s (Some p) owner).2) by (by apply ipc_usock_bind_wf).
  assert (Ho : owner <> 0) by (unfold owner; case_step; lia).
  destruct (ipc_usock_bind s (Some p) owner) as [rc s1]. cbn [fst snd] in *. destruct (Z.ltb_spec rc 0) as [Hneg|Hrc]; [done|]. intros _.
  destruct Hc as [->|]; [|lia]. destruct (Hb eq_refl) as (Hsid & _ & Hch).
  assert (Hat : socket_at s1 p []) by (unfold socket_at; rewrite Hch; split; [lia|done]).
  unfold cli_cmd_usocksend, send_data. destruct ws as [|w ws]; [done|].
  change (argc (command (n2 :: p :: w :: ws))) with (S (S (S (length ws)))). change (arg (command (n2 :: p :: w :: ws)) 1) with p.
  cbn [Nat.ltb Nat.leb]. assert (Hdata : cli_join_args (command (n2 :: p :: w :: ws)) 2 256 = join_words (w :: ws)).
  { unfold cli_join_args. cbn [argv command drop]. rewrite join_loop_spec by done. cbn [app]. apply take_ge. lia. }
  rewrite Hdata. destruct (usock_send_spec s1 p [] (join_words (w :: ws)) Hw1 Hat Hlj ltac:(cbn [length]; lia)) as (s2 & E2 & Hw2 & Hat2).
  rewrite E2. rewrite (proj2 (Z.ltb_ge (Z.of_nat _) 0)) by lia. split; [done|]. split; [done|].
  unfold cli_cmd_usockrecv. change (argc (command [n3; p])) with 2%nat. change (arg (command [n3; p]) 1) with p. cbn [Nat.ltb Nat.leb].
  destruct (usock_recv_spec s2 p _ 255 Hw2 Hat2 ltac:(lia)) as (s3 & E3 & Hw3 & _). cbv zeta. rewrite E3. cbn [app].
  rewrite (proj2 (Nat.eqb_neq _ 0)) by lia. rewrite take_ge by lia. rewrite (proj2 (Z.ltb_ge (Z.of_nat _) 0)), (proj2 (Z.eqb_neq (Z.of_nat _) 0)) by lia.
  split; [done|]. split; [|done]. by rewrite Nat2Z.id, take_ge, cstr_id by (done || by apply join_chars).
Qed.
Lemma usock_message_delivered_witness :
  let '(rc, text, s1) := cli_cmd_usockbind ipc_init zero_session (command [lit "usockbind"; lit "/chat"]) in
  rc = CLI_OK /\ text = row (lit "unix socket bound: /chat (owner=1)") /\
  let '(_, _, s2) := cli_cmd_usocksend s1 (command [lit "usocksend"; lit "/chat"; lit "hello"; lit "there"]) [] in
  let '(rc, text, _) := cli_cmd_usockrecv s2 (command [lit "usockrecv"; lit "/chat"]) in
  rc = CLI_OK /\ text = row (lit "hello there").
Proof.
  assert (Hok : forall w, forallb (fun c => (0 <=? c) && (c <? 256) && negb (c =? 0)) w = true -> bytes_ok w /\ Forall (fun c => c <> 0) w).
  { intros w Hw. rewrite forallb_forall in Hw. split; apply Forall_forall; intros c Hc; apply list_elem_of_In, Hw in Hc; [unfold is_u8|]; lia. }
  pose proof (usock_message_delivered ipc_init zero_session (lit "usockbind") (lit "usocksend") (lit "usockrecv") (lit "/chat") [lit "hello"; lit "there"]
    ipc_init_wf (proj1 (Hok (lit "/chat") eq_refl)) (proj2 (Hok (lit "/chat") eq_refl)) ltac:(cbn; lia)) as Ht.
  destruct (cli_cmd_usockbind ipc_init zero_session (command [lit "usockbind"; lit "/chat"])) as [[rc text] s1] eqn:E1.
  assert (Hb : (rc, text) = (CLI_OK, row (lit "unix socket bound: /chat (owner=1)"))).
  { transitivity (cli_cmd_usockbind ipc_init zero_session (command [lit "usockbind"; lit "/chat"])).1; [by rewrite E1|vm_compute; reflexivity]. }
  injection Hb as -> ->. split; [reflexivity|]. split; [reflexivity|].
  specialize (Ht ltac:(apply Forall_replicate; vm_compute; repeat constructor; discriminate)
    ltac:(repeat (apply Forall_cons_2; [apply Hok; reflexivity|]); apply Forall_nil_2) ltac:(vm_compute; discriminate) ltac:(vm_compute; lia) eq_refl).
  destruct (cli_cmd_usocksend s1 _ []) as [[rc2 t2] s2]. destruct Ht as (_ & _ & Ht). destruct (cli_cmd_usockrecv s2 _) as [[rc3 t3] s3].
  destruct Ht as (Hrc & Htx & _). split; [exact Hrc|]. exact Htx.
Defined.
(** An empty socket is reported as a failure: the answer for nothing to read is a negative code, never 0. *)
Lemma usockrecv_empty_fails s p max : ipc_wf s -> socket_at s p [] -> 0 < max ->
  (ipc_usock_recv s (Some p) true max).1.1 = -2 /\ (cli_cmd_usockrecv s (command [lit "usockrecv"; p])).1 = (1, row (lit "usockrecv: failed (-2)")).
Proof.
  intros Hwf Hs Hm. split.
  - destruct (usock_recv_spec s p [] max Hwf Hs Hm) as (s' & E1 & _). by rewrite E1.
  - unfold cli_cmd_usockrecv. change (argc (command [lit "usockrecv"; p])) with 2%nat. change (arg (command [lit "usockrecv"; p]) 1) with p.
    cbn [Nat.ltb Nat.leb]. destruct (usock_recv_spec s p [] 255 Hwf Hs ltac:(lia)) as (s' & E1 & _). cbv zeta. by rewrite E1.
Qed.
