(* ===== verification/ShellFiles.v ===== *)
(** The shell's commands on volumes, directories and logs (kernel/shell/cli.c), with the texts of the audit log and the
    kernel log. [Loops] is a command that does not come back from a volume whose cluster chain is a cycle. *)

From S2P Require Import Prelude CString BlockDev Bcache VernisFs Fat32 Ext2 Kfs LogRing AuditLog Klog Cli Shell Printf ShellIpc.

(** [include/fat32.h:14-14] FAT32_DEFAULT_LBA *)
Definition FAT32_DEFAULT_LBA := 8192.
(** [include/ext2.h:14-14] EXT2_DEFAULT_LBA *)
Definition EXT2_DEFAULT_LBA := 81920.

Section volumes.
Context {D : Type} `{BlockDev D}.
Variable fuel : nat.
Implicit Types (st : Kfs D) (cmd : ParsedCommand).

(** The sector named on the line, or the usual one.
    [kernel/shell/cli.c:97-98] cli_cmd_fatmount *)
Definition lba_arg cmd (usual : Z) : Z := if (2 <=? argc cmd)%nat then u32 (simple_atoi (arg cmd 1)) else usual.
(** [kernel/shell/cli.c] cli_cmd_fatmount *)
Definition cli_cmd_fatmount cmd : Rd (Kfs D) (Z * bytes) := fun st =>
  let lba := lba_arg cmd FAT32_DEFAULT_LBA in
  let '((rc, vol), st) := on_fat (fat32_mount (g_fat st) lba) st in
  let st := st <| g_fat := vol |> in
  (if rc <? 0 then (1, row (lit "fatmount: no FAT32 volume at sector " ++ dec lba))
   else (0, row (lit "FAT32 volume mounted (sector " ++ dec lba ++ lit ")")), st).
(** [kernel/shell/cli.c] cli_fatls_cb *)
Definition cli_fatls_cb (i : bytes * Z * bool) : bytes :=
  let '(name, size, is_dir) := i in
  if is_dir then row (lit "  " ++ cstr name ++ lit "/") else row (lit "  " ++ cstr name ++ lit "  " ++ dec size ++ lit " bytes").
(** [kernel/shell/cli.c:115-115] cli_cmd_fatls *)
Definition path_arg cmd : bytes := if (2 <=? argc cmd)%nat then arg cmd 1 else lit "/".
(** [kernel/shell/cli.c] cli_cmd_fatls *)
Definition cli_cmd_fatls cmd : Rd (Kfs D) (res (Z * bytes)) := fun st =>
  let path := path_arg cmd in
  if negb (fat32_mounted (g_fat st)) then (Ok (1, row (lit "fatls: not mounted (run fatmount)")), st) else
  let '(r, st) := on_fat (fat32_list fuel (g_fat st) path) st in
  (match r with
   | Loops => Loops
   | Fail => Ok (1, row (lit "fatls: no such directory: " ++ path))
   | Ok l => Ok (0, concat (cli_fatls_cb <$> l) ++ row (dec (Z.of_nat (length l)) ++ lit " entries"))
   end, st).
(** The text of a file: up to its first zero byte, with a new line behind it unless the last byte read is one.
    [kernel/shell/cli.c:130-132] cli_cmd_fatcat *)
Definition cat_text (b : bytes) : bytes :=
  cstr b ++ (if (0 <? length b)%nat && negb (default 0 (last b) =? 10) then [NL] else []).
(** [kernel/shell/cli.c] cli_cmd_fatcat *)
Definition cli_cmd_fatcat cmd : Rd (Kfs D) (res (Z * bytes)) := fun st =>
  if (argc cmd <? 2)%nat then (Ok (1, row (lit "Usage: fatcat <path>")), st) else
  if negb (fat32_mounted (g_fat st)) then (Ok (1, row (lit "fatcat: not mounted (run fatmount)")), st) else
  let '(r, st) := on_fat (fat32_read fuel (g_fat st) (arg cmd 1) 4095) st in
  (match r with
   | Loops => Loops
   | Fail => Ok (1, row (lit "fatcat: no such file: " ++ arg cmd 1))
   | Ok b => Ok (0, cat_text b)
   end, st).
(** [kernel/shell/cli.c] cli_cmd_ext2mount *)
Definition cli_cmd_ext2mount cmd : Rd (Kfs D) (Z * bytes) := fun st =>
  let lba := lba_arg cmd EXT2_DEFAULT_LBA in
  let '((rc, g), st) := on_ext2 (ext2_mount (g_ext2 st) lba) st in
  let st := st <| g_ext2 := g |> in
  (if rc <? 0 then (1, row (lit "ext2mount: no ext2 volume at sector " ++ dec lba))
   else (0, row (lit "ext2 volume mounted (sector " ++ dec lba ++ lit ")")), st).
(** [kernel/shell/cli.c] cli_ext2ls_cb *)
Definition cli_ext2ls_cb (i : bytes * Z * bool) : bytes :=
  let '(name, size, is_dir) := i in
  if is_dir then row (lit "  " ++ cstr name ++ lit "/") else row (lit "  " ++ cstr name ++ lit "  " ++ dec size ++ lit " bytes").
(** [kernel/shell/cli.c] cli_cmd_ext2ls *)
Definition cli_cmd_ext2ls cmd : Rd (Kfs D) (res (Z * bytes)) := fun st =>
  let path := path_arg cmd in
  if negb (ext2_mounted (g_ext2 st)) then (Ok (1, row (lit "ext2ls: not mounted (run ext2mount)")), st) else
  let '(r, st) := on_ext2 (ext2_list (g_ext2 st) path) st in
  (match r with
   | Loops => Loops
   | Fail => Ok (1, row (lit "ext2ls: no such directory: " ++ path))
   | Ok l => Ok (0, concat (cli_ext2ls_cb <$> omap id l) ++ row (dec (Z.of_nat (length l)) ++ lit " entries"))
   end, st).
(** [kernel/shell/cli.c] cli_cmd_ext2cat *)
Definition cli_cmd_ext2cat cmd : Rd (Kfs D) (res (Z * bytes)) := fun st =>
  if (argc cmd <? 2)%nat then (Ok (1, row (lit "Usage: ext2cat <path>")), st) else
  if negb (ext2_mounted (g_ext2 st)) then (Ok (1, row (lit "ext2cat: not mounted (run ext2mount)")), st) else
  let '(r, st) := on_ext2 (ext2_read (g_ext2 st) (arg cmd 1) 4095) st in
  (match r with
   | Loops => Loops
   | Fail => Ok (1, row (lit "ext2cat: no such file: " ++ arg cmd 1))
   | Ok b => Ok (0, cat_text b)
   end, st).

(** ** Directories *)

(** The options and the last path on the line.
    [kernel/shell/cli.c:2312-2320] cli_cmd_ls *)
Definition ls_args cmd : bool * bytes :=
  fold_left (fun '(long, path) a => if cli_streq a (lit "-l") then (true, path) else (long, a)) (drop 1 (argv cmd)) (false, lit "/").
(** The part behind the last slash.
    [kernel/shell/cli.c:2333-2335] cli_cmd_ls *)
Fixpoint basename_loop (name p : bytes) : bytes :=
  match p with c :: p => basename_loop (if c =? 47 then p else name) p | [] => name end.
Definition basename (entry : bytes) : bytes := basename_loop entry entry.
(** [kernel/shell/cli.c:2337-2348] cli_cmd_ls *)
Definition mode_text (e : VfsFileEntry) : bytes :=
  let bit b c := if Z.land (mode e) b =? 0 then 45 else c in
  [if VernisFs.type e =? VFS_TYPE_DIRECTORY then 100 else 45;
   bit 256 114; bit 128 119; bit 64 120; bit 32 114; bit 16 119; bit 8 120; bit 4 114; bit 2 119; bit 1 120].
(** The row of an entry; nothing when it is not found any more.
    [kernel/shell/cli.c:2336-2354] cli_cmd_ls *)
Definition ls_row (long : bool) (entry : bytes) (e : option VfsFileEntry) : bytes :=
  match e with
  | None => []
  | Some e =>
      if long then
        row (lit "  " ++ mode_text e ++ [32] ++ cli_print_field_d (i32 (VernisFs.uid e)) 3 false ++ [32] ++
             cli_print_field_d (i32 (gid e)) 3 false ++ [32] ++ cli_print_field_d (i32 (size e)) 6 false ++ [32] ++ basename entry)
      else if VernisFs.type e =? VFS_TYPE_DIRECTORY then row (lit "  [dir] " ++ basename entry)
      else row (lit "  [file] " ++ field_left (basename entry) 20 ++ [32] ++ dec (size e) ++ lit " B")
  end.
(** [kernel/shell/cli.c:2329-2355] cli_cmd_ls *)
Fixpoint ls_rows (long : bool) (entries : list bytes) : Rd (Kfs D) (res bytes) :=
  match entries with
  | [] => rd_ret (Ok [])
  | entry :: entries => fun st =>
      let '(e, st) := kfs_find_file fuel entry st in
      match e with
      | Loops => (Loops, st)
      | _ =>
          let '(r, st) := ls_rows long entries st in
          (match r with Ok t => Ok (ls_row long entry (match e with Ok e => Some e | _ => None end) ++ t) | x => x end, st)
      end
  end.
(** [kernel/shell/cli.c] cli_cmd_ls *)
Definition cli_cmd_ls cmd : Rd (Kfs D) (res (Z * bytes)) := fun st =>
  let '(long_fmt, path) := ls_args cmd in
  let '(r, st) := kfs_list_dir fuel path VFS_MAX_FILES st in
  match r with
  | Loops => (Loops, st)
  | Fail => (Ok (1, row (lit "ls: VernisFS not ready")), st)
  | Ok entries =>
      let '(r, st) := ls_rows long_fmt entries st in
      (match r with
       | Ok rows => Ok (CLI_OK, row path ++ rows ++ (if (length entries =? 0)%nat then row (lit "  (empty)") else []))
       | Loops => Loops | Fail => Fail
       end, st)
  end.
End volumes.

(** Writing back the block cache.
    [kernel/shell/cli.c] cli_cmd_sync *)
Definition cli_cmd_sync {B} `{BlockDev B} (st : Kfs (Bcache B)) : (Z * bytes) * Kfs (Bcache B) :=
  let before := bcache_get_stats (disk (g_vfs st)) in
  let '(rc, d) := bcache_sync (disk (g_vfs st)) in
  let st := st <| g_vfs := g_vfs st <| disk := d |> |> in
  let after := bcache_get_stats d in
  let flushed := u32 (writebacks after - writebacks before) in
  (if rc <? 0 then (1, row (lit "sync: error flushing cache"))
   else (CLI_OK, row (lit "sync: " ++ dec flushed ++ lit " blocks written back") ++
          row (lit "  cache stats: hits=" ++ dec (hits after) ++ lit " misses=" ++ dec (misses after) ++
               lit " writebacks=" ++ dec (writebacks after) ++ lit " evictions=" ++ dec (evictions after))), st).

(** ** Logs *)

(** A row of five fields.
    [kernel/security/auditlog.c:105-107] auditlog_print_all *)
Definition audit_text (r : Row) : bytes :=
  let '(t, u, c, p, q) := r in
  row (field_left t 10 ++ lit "  " ++ field_left u 10 ++ lit "  " ++ field_left c 20 ++ lit "  " ++ field_left p 6 ++ lit "  " ++ field_left q 8).
(** [kernel/security/auditlog.c:72-82] auditlog_print_all *)
Definition auditlog_text (st : AuditLog) : bytes :=
  match auditlog_print_all st with
  | None => row (lit "No denial events recorded.")
  | Some rows =>
      row (lit "Deny Audit Log (" ++ dec (AuditLog.g_count st) ++ lit " entries, " ++ dec (AuditLog.g_total st) ++ lit " total lifetime)") ++
      audit_text (lit "Ticks", lit "User", lit "Command", lit "Priv", lit "Required") ++
      row (lit "---------- ---------- -------------------- ------ --------") ++ concat (audit_text <$> rows)
  end.
(** [kernel/shell/cli.c] cli_cmd_auditlog *)
Definition cli_cmd_auditlog (st : AuditLog) : Z * bytes := (CLI_OK, auditlog_text st).
(** [kernel/log/klog.c:148-149] klog_print_recent *)
Definition klog_text_row (r : bytes * bytes * bytes * bytes) : bytes :=
  let '(t, l, g, m) := r in row (lit "  " ++ field_left t 8 ++ [32] ++ field_left l 5 ++ [32] ++ field_left g 10 ++ [32] ++ m).
(** [kernel/log/klog.c:132-156] klog_print_recent *)
Definition klog_text (st : Klog) (count : Z) : bytes :=
  match klog_print_recent st count with
  | None => row (lit "  (no log entries)")
  | Some (rows, total) =>
      klog_text_row (lit "Ticks", lit "Level", lit "Tag", lit "Message") ++
      klog_text_row (lit "--------", lit "-----", lit "----------", lit "--------") ++
      concat (klog_text_row <$> rows) ++
      row (lit "  --- " ++ dec (Z.of_nat (length rows)) ++ lit " of " ++ total ++ lit " total entries ---")
  end.
(** [kernel/shell/cli.c:1914-1914] cli_cmd_log *)
Definition level_of (n : Z) : KlogLevel :=
  if n =? 0 then KLOG_FATAL else if n =? 1 then KLOG_ERROR else if n =? 2 then KLOG_WARN else if n =? 3 then KLOG_INFO
  else if n =? 4 then KLOG_DEBUG else KLOG_TRACE.
(** [kernel/shell/cli.c] cli_cmd_log *)
Definition cli_cmd_log (st : Klog) (cmd : ParsedCommand) : (Z * bytes) * Klog :=
  let all := ((CLI_OK, row (lit "=== Kernel Log ===") ++ klog_text st 0), st) in
  if (2 <=? argc cmd)%nat then
    let a := arg cmd 1 in
    if char_at a 0 =? 99 then ((CLI_OK, row (lit "Kernel log buffer cleared.")), klog_clear st) else
    if (char_at a 0 =? 108) && (3 <=? argc cmd)%nat then
      let lvl := char_at (arg cmd 2) 0 - 48 in
      if (0 <=? lvl) && (lvl <=? 5) then
        ((CLI_OK, row (lit "Log level set to " ++ klog_level_name (level_of lvl))), klog_set_level st (level_of lvl))
      else ((CLI_OK, row (lit "Usage: log level <0-5> (0=FATAL..5=TRACE)")), st)
    else
    let n := simple_atoi a in
    if 0 <? n then ((CLI_OK, row (lit "=== Kernel Log (last " ++ dec n ++ lit ") ===") ++ klog_text st n), st) else all
  else all.

(** A field cuts what is longer: from 10^8 ticks on the log shows the leading eight digits of the time. *)
Lemma log_cuts_ticks : klog_text_row (klog_u64_to_dec 123456789 20, lit "INFO ", lit "boot", lit "x") = row (lit "  12345678 INFO  boot       x").
Proof. reflexivity. Qed.
(** log n prints the newest n messages of the log, newest first, with their number and the total. *)
Lemma log_prints_newest st cmd n : klog_wf st -> (2 <= argc cmd)%nat -> char_at (arg cmd 1) 0 <> 99 -> char_at (arg cmd 1) 0 <> 108 ->
  simple_atoi (arg cmd 1) = n -> 0 < n -> Klog.g_count st <> 0 ->
  let shown := take (Z.to_nat n) (reverse (klog_rows st)) in
  cli_cmd_log st cmd = ((CLI_OK, row (lit "=== Kernel Log (last " ++ dec n ++ lit ") ===") ++
    klog_text_row (lit "Ticks", lit "Level", lit "Tag", lit "Message") ++
    klog_text_row (lit "--------", lit "-----", lit "----------", lit "--------") ++ concat (klog_text_row <$> shown) ++
    row (lit "  --- " ++ dec (Z.of_nat (length shown)) ++ lit " of " ++ klog_u64_to_dec (Klog.g_total st) 20 ++ lit " total entries ---")), st).
Proof.
  intros Hwf Ha Hc Hl En Hn Hcount. unfold cli_cmd_log. destruct (Nat.leb_spec 2 (argc cmd)); [|lia].
  rewrite (proj2 (Z.eqb_neq _ 99)), (proj2 (Z.eqb_neq _ 108)) by done. cbn [andb]. rewrite En, (proj2 (Z.ltb_lt 0 n)) by done.
  unfold klog_text. rewrite klog_print_spec by (done || lia). rewrite (proj2 (Z.eqb_neq (Klog.g_count st) 0)), (proj2 (Z.eqb_neq n 0)) by lia. done.
Qed.
