(* ===== verification/ShellNet.v ===== *)
(** The shell's network commands (kernel/shell/cli.c): sockets, addresses, DHCP, name resolution and ping, on the
    network stack of Net.v. A command that waits runs at most [fuel] rounds, each until the next interrupt; [None]
    beyond. *)

From S2P Require Import Prelude CString Inet Tcp Udp Net Cli Shell Printf ShellIpc.

(** ** Addresses as text *)

(** The four numbers and the current one; [None] for a character that is neither a digit nor a dot.
    [kernel/shell/cli.c:419-430] cli_parse_ip *)
Fixpoint parse_ip_loop (p : bytes) (vals : list Z) (seg : Z) : option (list Z * Z) :=
  match p with
  | [] => Some (vals, seg)
  | c :: p =>
      if negb (seg <? 4) then Some (vals, seg) else
      if (48 <=? c) && (c <=? 57) then parse_ip_loop p (puti vals seg (u32 (geti vals seg * 10 + (c - 48)))) seg
      else if c =? 46 then (if 3 <? seg + 1 then Some (vals, seg + 1) else parse_ip_loop p vals (seg + 1))
      else None
  end.
(** The numbers stored for 4, [None] for 0.
    [kernel/shell/cli.c] cli_parse_ip *)
Definition cli_parse_ip (s : bytes) : option (Z * Z * Z * Z) :=
  match parse_ip_loop (cstr s) [0; 0; 0; 0] 0 with
  | Some ([a; b; c; d], seg) => if seg =? 3 then Some (a, b, c, d) else None
  | _ => None
  end.
(** [kernel/shell/cli.c:45-45] cli_cmd_tcphandshake *)
Definition ip_of (q : Z * Z * Z * Z) : Z :=
  let '(a, b, c, d) := q in Z.lor (Z.lor (Z.lor (u32 (Z.shiftl a 24)) (u32 (Z.shiftl b 16))) (u32 (Z.shiftl c 8))) d.
(** [kernel/shell/cli.c] cli_print_ip4 *)
Definition cli_print_ip4 (ip : Z) : bytes :=
  let o k := dec (Z.land (Z.shiftr ip k) 0xFF) in
  o 24 ++ [46] ++ o 16 ++ [46] ++ o 8 ++ [46] ++ dec (Z.land ip 0xFF).

Section net_commands.
Implicit Types (s : Stack) (cmd : ParsedCommand).
(** An operation of TCP with its result and what it sends. *)
Definition tcp_do {A} s (op : (Z -> bytes -> Z) -> Tcp -> A * Tcp) : A * Stack :=
  let r := op (tcp_code (net s)) (tcps s) in (r.1, with_tcp s (fun code t => (op code t).2)).

(** ** TCP *)

(** The wait for the handshake; 240 ticks are a second.
    [kernel/shell/cli.c:55-60] cli_cmd_tcphandshake *)
Fixpoint handshake_wait (interrupt : Stack -> Stack) (fuel : nat) s (sock start : Z) : option Stack :=
  match fuel with
  | O => None
  | S fuel =>
      if negb (u32 (u32 (net_tick (net s)) - start) <? 240 * 5) then Some s else
      if in_states [TCP_ESTABLISHED; TCP_CLOSED] (tcb (tcps s) sock) then Some s
      else handshake_wait interrupt fuel (interrupt s) sock start
  end.
(** [kernel/shell/cli.c] cli_cmd_tcphandshake *)
Definition cli_cmd_tcphandshake (interrupt : Stack -> Stack) (fuel : nat) s cmd : option (Z * bytes * Stack) :=
  if (argc cmd <? 4)%nat then Some (1, row (lit "Usage: tcphandshake <connect|listen> <ip> <port>"), s) else
  let port := u16 (simple_atoi (arg cmd 3)) in
  match cli_parse_ip (arg cmd 2) with
  | None => Some (1, row (lit "Invalid IP format"), s)
  | Some q =>
      if cli_streq (arg cmd 1) (lit "connect") then
        let '(sock, s) := tcp_do s (fun code t => tcp_connect code t (ip_of q) port) in
        if sock <? 0 then Some (1, row (lit "no free TCP socket"), s) else
        let text := row (lit "sock " ++ dec sock ++ lit ": SYN sent, waiting for handshake...") in
        match handshake_wait interrupt fuel s sock (u32 (net_tick (net s))) with
        | None => None
        | Some s => Some (0, text ++ row (lit "sock " ++ dec sock ++ lit " state: " ++ lit (tcp_state_name (state (tcb (tcps s) sock)))), s)
        end
      else if cli_streq (arg cmd 1) (lit "listen") then
        let '(sock, s) := tcp_do s (fun _ t => tcp_listen t port) in
        if sock <? 0 then Some (1, row (lit "no free TCP socket"), s) else
        Some (0, row (lit "sock " ++ dec sock ++ lit ": listening on port " ++ dec port ++ lit " (poll with: tcpaccept " ++ dec sock ++ lit ")"), s)
      else Some (1, row (lit "Unknown subcommand"), s)
  end.
(** [kernel/shell/cli.c] cli_cmd_tcpaccept *)
Definition cli_cmd_tcpaccept s cmd : Z * bytes * Stack :=
  if (argc cmd <? 2)%nat then (1, row (lit "Usage: tcpaccept <listen-sock>"), s) else
  let '(child, s) := tcp_do s (fun _ t => tcp_accept t (simple_atoi (arg cmd 1))) in
  if child <? 0 then (1, row (lit "tcpaccept: no pending connection"), s)
  else (0, row (lit "sock " ++ dec child ++ lit ": accepted connection (use tcpsend/tcprecv " ++ dec child ++ lit ")"), s).
(** [kernel/shell/cli.c] cli_cmd_tcpsend *)
Definition cli_cmd_tcpsend s cmd : Z * bytes * Stack :=
  if (argc cmd <? 3)%nat then (1, row (lit "Usage: tcpsend <sock> <text...>"), s) else
  let sock := simple_atoi (arg cmd 1) in
  let buf := cli_join_args cmd 2 256 ++ [NL] in
  let '(n, s) := tcp_do s (fun code t => tcp_send code t sock buf (Z.of_nat (length buf))) in
  if n <? 0 then (1, row (lit "tcpsend: socket not connected"), s) else (0, row (lit "sent " ++ dec n ++ lit " bytes"), s).
(** [kernel/shell/cli.c] cli_cmd_tcprecv *)
Definition cli_cmd_tcprecv s cmd : Z * bytes * Stack :=
  if (argc cmd <? 2)%nat then (1, row (lit "Usage: tcprecv <sock>"), s) else
  let sock := simple_atoi (arg cmd 1) in
  let '((n, buf), s) := tcp_do s (fun code t => tcp_recv code t sock 256) in
  if n <? 0 then (1, row (lit "tcprecv: connection closed"), s) else
  if n =? 0 then (0, row (lit "(no data)"), s) else (0, cstr (take (Z.to_nat n) buf), s).
(** [kernel/shell/cli.c] cli_cmd_tcpclose *)
Definition cli_cmd_tcpclose s cmd : Z * bytes * Stack :=
  if (argc cmd <? 2)%nat then (1, row (lit "Usage: tcpclose <sock>"), s) else
  let sock := simple_atoi (arg cmd 1) in
  let '(rc, s) := tcp_do s (fun code t => tcp_close code t sock) in
  if rc <? 0 then (1, row (lit "tcpclose: bad socket"), s)
  else (0, row (lit "sock " ++ dec sock ++ lit ": " ++ lit (tcp_state_name (state (tcb (tcps s) sock)))), s).
(** [kernel/shell/cli.c:455-468] cli_cmd_tcpstat *)
Definition stat_name (t : TcpState) : bytes :=
  match t with TCP_SYN_RECEIVED => lit "SYN_RECV" | _ => lit (tcp_state_name t) end.
(** [kernel/shell/cli.c:446-453] cli_cmd_tcpstat *)
Definition stat_row (i : Z) (t : TcpControlBlock) : bytes :=
  let n v w := cli_print_field_d (i32 v) w false in
  let ip v := n (Z.land (Z.shiftr v 24) 0xFF) 3 ++ [46] ++ n (Z.land (Z.shiftr v 16) 0xFF) 3 ++ [46] ++
              n (Z.land (Z.shiftr v 8) 0xFF) 3 ++ [46] ++ n (Z.land v 0xFF) 3 in
  row (n i 2 ++ lit "  " ++ ip (local_ip t) ++ lit "  " ++ n (local_port t) 5 ++ lit "  " ++
       ip (remote_ip t) ++ lit "  " ++ n (remote_port t) 5 ++ lit "  " ++ stat_name (state t)).
(** [kernel/shell/cli.c] cli_cmd_tcpstat *)
Definition cli_cmd_tcpstat s : Z * bytes :=
  (0, row [] ++ row (lit "TCP Sockets:") ++ row (lit "ID  Local IP      LPort  Remote IP     RPort  State") ++
      concat ((fun i : nat => let t := tcb (tcps s) (Z.of_nat i) in
                 if is_state TCP_CLOSED t then [] else stat_row (Z.of_nat i) t) <$> seq 0 (Z.to_nat TCP_MAX_SOCKETS))).

(** ** UDP *)

(** [kernel/shell/cli.c] cli_cmd_udpbind *)
Definition cli_cmd_udpbind s cmd : Z * bytes * Stack :=
  if (argc cmd <? 2)%nat then (1, row (lit "Usage: udpbind <port>"), s) else
  let '(sock, s) := with_udp s (fun _ u => udp_bind u (u16 (simple_atoi (arg cmd 1)))) in
  if sock <? 0 then (1, row (lit "udpbind: no socket / port taken"), s)
  else (0, row (lit "sock " ++ dec sock ++ lit " bound to port " ++ dec (udp_local_port (udps s) sock)), s).
(** [kernel/shell/cli.c] cli_cmd_udpsend *)
Definition cli_cmd_udpsend s cmd : Z * bytes * Stack :=
  if (argc cmd <? 4)%nat then (1, row (lit "Usage: udpsend <ip> <port> <text...>"), s) else
  match cli_parse_ip (arg cmd 1) with
  | None => (1, row (lit "Invalid IP"), s)
  | Some q =>
      let port := u16 (simple_atoi (arg cmd 2)) in
      let buf := cli_join_args cmd 3 256 ++ [NL] in
      let len := Z.of_nat (length buf) in
      let '(sock, s) := with_udp s (fun _ u => udp_bind u 0) in
      if sock <? 0 then (1, row (lit "udpsend: no socket"), s) else
      let '(n, s) := with_udp s (fun code u => udp_sendto code u sock (ip_of q) port buf len) in
      let '(_, s) := with_udp s (fun _ u => udp_close u sock) in
      if n <? 0 then (1, row (lit "udpsend: send failed (ARP pending? retry)"), s)
      else (0, row (lit "sent " ++ dec len ++ lit " bytes"), s)
  end.
(** The dash is the three bytes of U+2014.
    [kernel/shell/cli.c] cli_cmd_udprecv *)
Definition cli_cmd_udprecv s cmd : Z * bytes * Stack :=
  if (argc cmd <? 2)%nat then (1, row (lit "Usage: udprecv <sock>"), s) else
  let '((n, buf, (sip, sport)), s) := with_udp s (fun _ u => udp_recvfrom u (simple_atoi (arg cmd 1)) 256) in
  if n <? 0 then (1, row (lit "udprecv: bad socket"), s) else
  if n =? 0 then (0, row (lit "(no datagram)"), s) else
  (0, lit "from " ++ cli_print_ip4 sip ++ [58] ++ dec sport ++ [32; 0xE2; 0x80; 0x94; 32] ++ cstr (take (Z.to_nat n) buf), s).
(** [kernel/shell/cli.c] cli_cmd_udpclose *)
Definition cli_cmd_udpclose s cmd : Z * bytes * Stack :=
  if (argc cmd <? 2)%nat then (1, row (lit "Usage: udpclose <sock>"), s) else
  let '(rc, s) := with_udp s (fun _ u => udp_close u (simple_atoi (arg cmd 1))) in
  if rc <? 0 then (1, row (lit "udpclose: bad socket"), s) else (0, row (lit "closed"), s).

(** ** Configuration and names *)

Section waits.
(** What the n-th halt brings to the sockets, the timer's rate, and the rounds of a wait. *)
Variables (irq : nat -> Udp -> Udp) (hz : Z) (fuel : nat).
(** [kernel/shell/cli.c] cli_cmd_dhcp *)
Definition cli_cmd_dhcp s : Z * bytes * Stack :=
  let first := row (lit "DHCP: discovering...") in
  let '((rc, lease), s) := with_udp s (fun code u => dhcp_run code irq fuel u (e1000_mac (net s)) hz) in
  match lease with
  | Some l =>
      let s := kernel_net_apply_config s (yiaddr l) (gw l) (dns l) in
      (0, first ++ row (lit "lease: ip " ++ cli_print_ip4 (yiaddr l) ++ lit " mask " ++ cli_print_ip4 (mask l) ++
                        lit " gw " ++ cli_print_ip4 (gw l) ++ lit " dns " ++ cli_print_ip4 (dns l)), s)
  | None => (1, first ++ row (lit "DHCP failed (no server?)"), s)
  end.
(** [kernel/shell/cli.c] cli_cmd_nslookup *)
Definition cli_cmd_nslookup s cmd : Z * bytes * Stack :=
  if (argc cmd <? 2)%nat then (1, row (lit "Usage: nslookup <hostname>"), s) else
  let '(ip, s) := with_udp s (fun code u => dns_resolve code irq fuel u (arg cmd 1) hz) in
  match ip with
  | None => (1, row (lit "nslookup: resolution failed (dns server " ++ cli_print_ip4 (dns_get_server (udps s)) ++ lit ")"), s)
  | Some ip => (0, row (arg cmd 1 ++ lit " -> " ++ cli_print_ip4 ip), s)
  end.
End waits.

(** Anything but digits and dots is passed over, and the numbers wrap around in a byte.
    [kernel/shell/cli.c:2914-2922] cli_cmd_ping *)
Fixpoint ping_ip_loop (p : bytes) (ip : list Z) (part : Z) : list Z * Z :=
  match p with
  | [] => (ip, part)
  | c :: p =>
      if negb (part <? 4) then (ip, part) else
      if c =? 46 then ping_ip_loop p ip (part + 1)
      else if (48 <=? c) && (c <=? 57) then ping_ip_loop p (puti ip part (u8 (geti ip part * 10 + (c - 48)))) part
      else ping_ip_loop p ip part
  end.
(** [kernel/shell/cli.c] cli_cmd_ping *)
Definition cli_cmd_ping (hz : Z) (interrupt : Stack -> Stack) (fuel : nat) s cmd : option (Z * bytes * Stack) :=
  if (argc cmd <? 2)%nat then Some (1, row (lit "Usage: ping <a.b.c.d> [count]"), s) else
  if negb (kernel_net_available (net s)) then Some (1, row (lit "No network device available."), s) else
  let '(ip, part) := ping_ip_loop (cstr (arg cmd 1)) [0; 0; 0; 0] 0 in
  if negb (part =? 3) then Some (1, row (lit "Invalid IP address: " ++ arg cmd 1), s) else
  let count := if (3 <=? argc cmd)%nat then
                 let c := simple_atoi (arg cmd 2) in let c := if c <? 1 then 1 else c in if 20 <? c then 20 else c
               else 4 in
  let o k := geti ip k in
  let first := row (lit "PING " ++ dec (o 0) ++ [46] ++ dec (o 1) ++ [46] ++ dec (o 2) ++ [46] ++ dec (o 3) ++ lit ": " ++ dec count ++ lit " packets") in
  match kernel_net_ping hz interrupt fuel s (o 0) (o 1) (o 2) (o 3) count with
  | None => None
  | Some (ok, s) =>
      if ok <? 0 then Some (1, first ++ row (if ok =? -2 then lit "ARP resolution failed." else lit "Network error."), s)
      else Some (CLI_OK, first ++ row (dec ok ++ lit "/" ++ dec count ++ lit " packets received"), s)
  end.
End net_commands.

(** ** Addresses are read back *)

Lemma parse_digits ds : forall rest vals seg, Forall (fun c => is_digit c = true) ds -> 0 <= seg < 4 -> length vals = 4%nat -> is_u32 (geti vals seg) ->
  parse_ip_loop (ds ++ rest) vals seg = parse_ip_loop rest (puti vals seg (fold_left (fun v c => u32 (v * 10 + (c - 48))) ds (geti vals seg))) seg.
Proof.
  induction ds as [|c ds IH]; intros rest vals seg Hd Hs Hl Hu.
  - cbn [app fold_left]. f_equal. unfold puti, geti. symmetry. apply list_insert_id. apply list_lookup_lookup_total_lt. lia.
  - inversion_clear Hd as [|? ? Hc Hd']. cbn [app parse_ip_loop fold_left]. rewrite (proj2 (Z.ltb_lt seg 4)) by lia. cbn [negb].
    unfold is_digit in Hc. rewrite Hc. rewrite IH; [|done|done|by rewrite length_puti|].
    + rewrite geti_puti_eq by lia. by rewrite puti_same.
    + rewrite geti_puti_eq by lia. apply u32_is.
Qed.
(** Every octet's decimal text. *)
Lemma octet_text o : 0 <= o < 256 -> Forall (fun c => is_digit c = true) (dec o) /\ fold_left (fun v c => u32 (v * 10 + (c - 48))) (dec o) 0 = o.
Proof.
  intros Ho. set (P o := forallb is_digit (dec o) && (fold_left (fun v c => u32 (v * 10 + (c - 48))) (dec o) 0 =? o)).
  assert (HP : P o = true).
  { assert (Hall : forallb P (Z.of_nat <$> seq 0 256) = true) by (vm_compute; reflexivity).
    rewrite forallb_forall in Hall. apply Hall. apply list_elem_of_In, list_elem_of_fmap. exists (Z.to_nat o). rewrite elem_of_seq. split; lia. }
  unfold P in HP. apply andb_true_iff in HP as [H1 H2]. split; [|by apply Z.eqb_eq].
  rewrite forallb_forall in H1. apply Forall_forall. intros x Hx. by apply H1, list_elem_of_In.
Qed.
(** The four octets of an address. *)
Definition octets (ip : Z) : Z * Z * Z * Z :=
  (Z.land (Z.shiftr ip 24) 0xFF, Z.land (Z.shiftr ip 16) 0xFF, Z.land (Z.shiftr ip 8) 0xFF, Z.land ip 0xFF).
Lemma land_octet x n : 0 <= n -> Z.land (Z.shiftr x n) 0xFF = (x / 2 ^ n) mod 256.
Proof. intros Hn. change 0xFF with (Z.ones 8). by rewrite Z.land_ones, Z.shiftr_div_pow2 by lia. Qed.
Lemma ip_of_octets ip : is_u32 ip -> ip_of (octets ip) = ip.
Proof.
  intros Hip. unfold ip_of, octets. change (Z.land ip 0xFF) with (Z.land (Z.shiftr ip 0) 0xFF). rewrite !land_octet by lia.
  assert (Hs : forall x k, is_u8 x -> 0 <= k <= 24 -> u32 (Z.shiftl x k) = Z.shiftl x k).
  { intros x k Hx Hk. apply u32_id. rewrite Z.shiftl_mul_pow2 by lia. pose proof (Z.pow_le_mono_r 2 k 24). assert (0 < 2 ^ k) by (apply Z.pow_pos_nonneg; lia).
    unfold is_u8, is_u32 in *. nia. }
  assert (Hb : forall y, is_u8 (y mod 256)) by (intros y; apply (u8_is y)).
  rewrite !Hs by (apply Hb || lia). rewrite lor_rev. pose proof (Hb (ip / 2 ^ 0)). pose proof (Hb (ip / 2 ^ 8)). pose proof (Hb (ip / 2 ^ 16)).
  rewrite (lor_shiftl _ _ 8) by ulia. rewrite (lor_shiftl _ _ 16) by ulia. rewrite (lor_shiftl _ _ 24) by ulia. dlia.
Qed.
Lemma parse_octet o rest vals seg : 0 <= o < 256 -> 0 <= seg < 4 -> length vals = 4%nat -> geti vals seg = 0 ->
  parse_ip_loop (dec o ++ rest) vals seg = parse_ip_loop rest (puti vals seg o) seg.
Proof.
  intros Ho Hs Hl H0. destruct (octet_text o Ho) as [Hd Hv]. rewrite parse_digits; [by rewrite H0, Hv|done..|]. rewrite H0. ulia.
Qed.
(** An address printed by cli_print_ip4 is read back by cli_parse_ip: its octets, and put together again the address. *)
Lemma ip_text_roundtrip ip : is_u32 ip -> cli_parse_ip (cli_print_ip4 ip) = Some (octets ip) /\ ip_of (octets ip) = ip.
Proof.
  intros Hip. split; [|by apply ip_of_octets]. unfold cli_print_ip4, octets. change (Z.land ip 0xFF) with (Z.land (Z.shiftr ip 0) 0xFF).
  rewrite !land_octet by lia. set (a := _ mod 256). set (b := (ip / 2 ^ 16) mod 256). set (c := (ip / 2 ^ 8) mod 256). set (d := (ip / 2 ^ 0) mod 256).
  assert (Hr : forall y, 0 <= y mod 256 < 256) by (intros y; by apply Z.mod_pos_bound).
  assert (Ha : 0 <= a < 256) by apply Hr. assert (Hb : 0 <= b < 256) by apply Hr. assert (Hc : 0 <= c < 256) by apply Hr. assert (Hd : 0 <= d < 256) by apply Hr.
  clearbody a b c d. unfold cli_parse_ip. rewrite cstr_id.
  2:{ assert (Hz : forall o, 0 <= o < 256 -> Forall (fun c => c <> 0) (dec o)).
      { intros o Ho. eapply Forall_impl; [apply octet_text, Ho|]. cbn. unfold is_digit. intros x Hx. lia. }
      repeat (apply Forall_app; split; [by apply Hz || by repeat constructor|]). by apply Hz. }
  rewrite parse_octet by done. change (parse_ip_loop ([46] ++ ?r) ?v 0) with (parse_ip_loop r v 1).
  rewrite parse_octet by done. change (parse_ip_loop ([46] ++ ?r) ?v 1) with (parse_ip_loop r v 2).
  rewrite parse_octet by done. change (parse_ip_loop ([46] ++ ?r) ?v 2) with (parse_ip_loop r v 3).
  rewrite <- (app_nil_r (dec d)). rewrite parse_octet by done. done.
Qed.
Lemma ip_text_roundtrip_witness : cli_parse_ip (lit "10.0.2.15") = Some (10, 0, 2, 15) /\ ip_of (10, 0, 2, 15) = 0x0A00020F.
Proof. refine (ip_text_roundtrip 0x0A00020F _). ulia. Defined.
(** Octets are not checked: larger ones run over into the octets before, and missing ones are zeros; ping passes over
    other characters and cuts the octets to a byte. *)
Lemma loose_addresses : (ip_of <$> cli_parse_ip (lit "10.300.0.1")) = (ip_of <$> cli_parse_ip (lit "11.44.0.1")) /\
  cli_parse_ip (lit "...") = Some (0, 0, 0, 0) /\ ping_ip_loop (lit "1x0.256.-2.1") [0; 0; 0; 0] 0 = ([10; 0; 2; 1], 3).
Proof. done. Qed.
