(* ===== verification/ShellDisk.v ===== *)
(** The shell's commands on the disk controllers (kernel/shell/cli.c): ahci and nvme, with sectors read and written
    below every file system. *)

From S2P Require Import Prelude CString BlockDev Bcache VernisFs Nvme Ahci Drives UserDb AiEngine Policy Cli Shell Printf ShellIpc.

(** [kernel/shell/cli.c] simple_atou64 *)
Fixpoint simple_atou64_loop (s : bytes) (v : Z) : Z :=
  match s with
  | c :: s => if is_digit c then simple_atou64_loop s (u64 (u64 (v * 10) + (c - 48))) else v
  | [] => v
  end.
(** [kernel/shell/cli.c] simple_atou64 *)
Definition simple_atou64 (s : bytes) : Z := simple_atou64_loop s 0.
(** [kernel/shell/cli.c:2869-2873] cli_cmd_nvme *)
Definition nibble (c : Z) : Z :=
  if is_digit c then c - 48 else
  if (97 <=? c) && (c <=? 102) then c - 97 + 10 else
  if (65 <=? c) && (c <=? 70) then c - 65 + 10 else 0.
(** Two digits at most; anything else counts as a zero.
    [kernel/shell/cli.c:2867-2875] cli_cmd_nvme *)
Definition fill_byte (hx : bytes) : Z := fold_left (fun f c => u8 (Z.lor (u8 (Z.shiftl f 4)) (nibble c))) (take 2 hx) 0.
(** [kernel/shell/cli.c:2836-2841] cli_cmd_nvme *)
Definition sectors_arg cmd (i : nat) : Z :=
  let n := if (i <? argc cmd)%nat then (let sv := simple_atoi (arg cmd i) in if 0 <? sv then u32 sv else 1) else 1 in
  if 8 <? n then 8 else n.
(** Rows of sixteen bytes, each as eight digits.
    [kernel/shell/cli.c:2853-2859] cli_cmd_nvme *)
Definition dump_rows (buf : bytes) : bytes :=
  concat ((fun i : nat => cli_write_hex32 (16 * Z.of_nat i) ++ lit ": " ++
             row (concat ((fun c => cli_write_hex32 c ++ [32]) <$> take 16 (drop (16 * i) buf))))
          <$> seq 0 (Nat.div (length buf + 15) 16)).

Section nvme_command.
Context {D : Type} `{NvmeCtl D}.
(** Where the linker placed the buffer. *)
Variable iobuf_at : Z.
Implicit Types (s : Nvme D) (cmd : ParsedCommand).
(** [kernel/shell/cli.c:2831-2859] cli_cmd_nvme *)
Definition nvme_cmd_read s cmd : Z * bytes * Nvme D :=
  if (argc cmd <? 3)%nat then (1, row (lit "Usage: nvme read <lba> [sectors]"), s) else
  let lba := simple_atou64 (arg cmd 2) in
  let sectors := sectors_arg cmd 3 in
  let '(rc, buf, s) := kernel_nvme_read iobuf_at s lba sectors true 4096 in
  if rc <? 0 then (1, row (lit "NVMe read failed (" ++ dec rc ++ lit ")"), s) else
  (CLI_OK, row (lit "NVMe read OK: lba=" ++ dec lba ++ lit " sectors=" ++ dec sectors ++ lit " bytes=" ++ dec rc) ++
           dump_rows (take (Z.to_nat (if 128 <? rc then 128 else rc)) buf), s).
(** [kernel/shell/cli.c:2861-2887] cli_cmd_nvme *)
Definition nvme_cmd_write s cmd : Z * bytes * Nvme D :=
  if (argc cmd <? 4)%nat then (1, row (lit "Usage: nvme write <lba> <fill-byte-hex>"), s) else
  let lba := simple_atou64 (arg cmd 2) in
  let fill := fill_byte (arg cmd 3) in
  let '(rc, s) := kernel_nvme_write iobuf_at s lba 1 (Some (replicate 512 fill)) 512 in
  if rc <? 0 then (1, row (lit "NVMe write failed (" ++ dec rc ++ lit ")"), s) else
  (CLI_OK, row (lit "NVMe write OK: lba=" ++ dec lba ++ lit " fill=0x" ++ cli_write_hex32 fill ++ lit " bytes=" ++ dec rc), s).
(** [kernel/shell/cli.c] cli_cmd_nvme *)
Definition cli_cmd_nvme s cmd : Z * bytes * Nvme D :=
  if negb (kernel_nvme_available s) then (CLI_OK, row (lit "NVMe controller not available."), s) else
  let ver := kernel_nvme_version s in
  let head := row (lit "NVMe online: version " ++ dec (u16 (Z.shiftr ver 16)) ++ [46] ++ dec (Z.land (Z.shiftr ver 8) 0xFF) ++ [46] ++ dec (Z.land ver 0xFF)) ++
    (if kernel_nvme_identified s then row (lit "Model:  " ++ cstr (kernel_nvme_model s)) ++ row (lit "Serial: " ++ cstr (kernel_nvme_serial s))
     else row (lit "Controller identified: no")) in
  let behind (r : Z * bytes * Nvme D) := let '(rc, text, s) := r in (rc, head ++ text, s) in
  if (argc cmd <? 2)%nat then (CLI_OK, head, s) else
  if cli_streq (arg cmd 1) (lit "read") then behind (nvme_cmd_read s cmd) else
  if cli_streq (arg cmd 1) (lit "write") then behind (nvme_cmd_write s cmd) else
  (CLI_OK, head ++ row (lit "Usage: nvme [read <lba> [sectors]|write <lba> <fill-hex>]"), s).
End nvme_command.

Section ahci_command.
Context {D : Type} `{Hba D}.
(** Where the linker placed the command lists, buffers and tables. *)
Context (headers_at rfis_at ident_at iobuf_at : Z -> Z) (table_at : Z -> Z -> Z).
Implicit Types (s : Ahci D) (cmd : ParsedCommand).
(** The implemented ports, one after the other.
    [kernel/shell/cli.c:2692-2693] cli_cmd_ahci *)
Fixpoint each_port (n : nat) (p : Z) (pi : Z) (f : Ahci D -> Z -> bytes * Ahci D) s : bytes * Ahci D :=
  match n with
  | O => ([], s)
  | S n =>
      let '(text, s) := if Z.testbit pi p then f s p else ([], s) in
      let '(texts, s) := each_port n (p + 1) pi f s in (text ++ texts, s)
  end.
(** [kernel/shell/cli.c:2697-2708] cli_cmd_ahci *)
Definition port_type (ssts sig : Z) : bytes :=
  if (Z.land ssts 0x0F =? 3) && (Z.land (Z.shiftr ssts 8) 0x0F =? 1) then
    if sig =? 0x00000101 then lit "SATA" else if sig =? 0xEB140101 then lit "ATAPI" else
    if sig =? 0xC33C0101 then lit "SEMB" else if sig =? 0x96690101 then lit "PM" else lit "UNK"
  else lit "NO-LINK".
(** [kernel/shell/cli.c:2694-2711] cli_cmd_ahci *)
Definition port_row s (p : Z) : bytes * Ahci D :=
  let '(info, s) := kernel_ahci_port_info s p in
  match info with
  | None => ([], s)
  | Some (isr, pcmd, tfd, sig, ssts) =>
      let hex v := cli_write_hex32 (u32 v) in
      (row (cli_print_field_d p 2 false ++ lit "    " ++ cli_print_field_s (port_type ssts sig) 6 true ++ lit "  " ++
            hex ssts ++ lit "  " ++ hex sig ++ lit "  " ++ hex pcmd ++ lit "  " ++ hex tfd), s)
  end.
(** [kernel/shell/cli.c:2716-2727] cli_cmd_ahci *)
Definition ahci_cmd_identify_one s cmd : bytes * Ahci D :=
  let port := simple_atoi (arg cmd 2) in
  let '(rc, s) := kernel_ahci_identify headers_at rfis_at ident_at table_at s port in
  (if rc =? 0 then row (lit "AHCI port " ++ dec port ++ lit " identify OK: " ++ cstr (kernel_ahci_model s port))
   else row (lit "AHCI port " ++ dec port ++ lit " identify failed (" ++ dec rc ++ lit ")"), s).
(** [kernel/shell/cli.c:2732-2734] cli_cmd_ahci *)
Definition identify_row s (p : Z) : bytes * Ahci D :=
  let '(rc, s) := kernel_ahci_identify headers_at rfis_at ident_at table_at s p in
  (if rc =? 0 then row (lit "p" ++ dec p ++ lit ": " ++ cstr (kernel_ahci_model s p))
   else row (lit "p" ++ dec p ++ lit ": identify failed (" ++ dec rc ++ lit ")"), s).
(** [kernel/shell/cli.c:2741-2742] cli_cmd_ahci *)
Definition model_row s (p : Z) : bytes * Ahci D :=
  (row (lit "p" ++ dec p ++ lit ": " ++ (if kernel_ahci_identified s p then cstr (kernel_ahci_model s p) else lit "(not identified)")), s).
(** [kernel/shell/cli.c:2745-2775] cli_cmd_ahci *)
Definition ahci_cmd_read s cmd : Z * bytes * Ahci D :=
  if (argc cmd <? 4)%nat then (1, row (lit "Usage: ahci read <port> <lba> [sectors]"), s) else
  let port := simple_atoi (arg cmd 2) in
  let lba := simple_atou64 (arg cmd 3) in
  let sectors := sectors_arg cmd 4 in
  let '(rc, buf, s) := kernel_ahci_read headers_at rfis_at iobuf_at table_at s port lba sectors true 4096 in
  if rc <? 0 then (1, row (lit "AHCI read failed (" ++ dec rc ++ lit ")"), s) else
  (CLI_OK, row (lit "AHCI read OK: port=" ++ dec port ++ lit " lba=" ++ dec lba ++ lit " sectors=" ++ dec sectors ++ lit " bytes=" ++ dec rc) ++
           dump_rows (take (Z.to_nat (if 128 <? rc then 128 else rc)) buf), s).
(** [kernel/shell/cli.c:2777-2811] cli_cmd_ahci *)
Definition ahci_cmd_write s cmd : Z * bytes * Ahci D :=
  if (argc cmd <? 5)%nat then (1, row (lit "Usage: ahci write <port> <lba> <fill-byte-hex>"), s) else
  let port := simple_atoi (arg cmd 2) in
  let lba := simple_atou64 (arg cmd 3) in
  let fill := fill_byte (arg cmd 4) in
  let '(rc, s) := kernel_ahci_write headers_at rfis_at iobuf_at table_at s port lba 1 (Some (replicate 512 fill)) 512 in
  if rc <? 0 then (1, row (lit "AHCI write failed (" ++ dec rc ++ lit ")"), s) else
  (CLI_OK, row (lit "AHCI write OK: port=" ++ dec port ++ lit " lba=" ++ dec lba ++ lit " fill=0x" ++ cli_write_hex32 fill ++ lit " bytes=" ++ dec rc), s).
(** [kernel/shell/cli.c] cli_cmd_ahci *)
Definition cli_cmd_ahci s cmd : Z * bytes * Ahci D :=
  if negb (kernel_ahci_available s) then (CLI_OK, row (lit "AHCI controller not available."), s) else
  let ver := kernel_ahci_version s in
  let pi := kernel_ahci_pi s in
  let head := row (lit "AHCI online: version " ++ dec (u16 (Z.shiftr ver 16)) ++ [46] ++ dec (Z.land ver 0xFFFF)) ++
    row (lit "Implemented ports: " ++ dec (kernel_ahci_ports s)) ++ row (lit "PI bitmap: 0x" ++ cli_write_hex32 (u32 pi)) in
  let behind (r : Z * bytes * Ahci D) := let '(rc, text, s) := r in (rc, head ++ text, s) in
  let ok (r : bytes * Ahci D) := (CLI_OK, r.1, r.2) in
  let all f := ok (each_port 32 0 pi f s) in
  let named w := cli_streq (arg cmd 1) w in
  if (argc cmd <? 2)%nat then (CLI_OK, head, s) else
  if named (lit "ports") then
    behind (let '(rc, rows, s) := all port_row in
            (rc, row (lit "Port  Type    SSTS      SIG       CMD       TFD") ++ row (lit "----  ------  --------  --------  --------  --------") ++ rows, s))
  else if named (lit "identify") then
    behind (if (3 <=? argc cmd)%nat then ok (ahci_cmd_identify_one s cmd) else all identify_row)
  else if named (lit "model") then behind (all model_row)
  else if named (lit "read") then behind (ahci_cmd_read s cmd)
  else if named (lit "write") then behind (ahci_cmd_write s cmd)
  else (CLI_OK, head ++ row (lit "Usage: ahci [ports|identify [port]|model|read|write]"), s).
End ahci_command.

(** ** Who may write where *)

(** A byte as two digits. *)
Definition hex_digit (d : Z) : Z := if d <? 10 then 48 + d else 97 + d - 10.
Definition hex_byte (f : Z) : bytes := [hex_digit (f / 16); hex_digit (f mod 16)].
Lemma fill_byte_hex f : is_u8 f -> fill_byte (hex_byte f) = f.
Proof.
  intros Hf. assert (Hall : forallb (fun i => fill_byte (hex_byte (Z.of_nat i)) =? Z.of_nat i) (seq 0 256) = true) by (vm_compute; reflexivity).
  rewrite forallb_forall in Hall. specialize (Hall (Z.to_nat f)). rewrite Z2Nat.id in Hall by ulia. apply Z.eqb_eq, Hall, in_seq. ulia.
Qed.
Lemma dec_value_grows ds : forall v, Forall (fun c => 48 <= c < 58) ds -> 0 <= v -> v <= fold_left (fun acc c => acc * 10 + (c - 48)) ds v.
Proof.
  induction ds as [|c ds IH]; intros v Hd Hv; [done|]. inversion_clear Hd. cbn [fold_left]. etrans; [|apply IH; [done|lia]]. lia.
Qed.
Lemma atou64_digits ds : forall v, Forall (fun c => 48 <= c < 58) ds -> 0 <= v -> fold_left (fun acc c => acc * 10 + (c - 48)) ds v < 2 ^ 64 ->
  simple_atou64_loop ds v = fold_left (fun acc c => acc * 10 + (c - 48)) ds v.
Proof.
  induction ds as [|c ds IH]; intros v Hd Hv Hf; [done|]. inversion_clear Hd as [|? ? Hc Hd']. cbn [fold_left simple_atou64_loop] in *.
  unfold is_digit. rewrite (proj2 (Z.leb_le 48 c)), (proj2 (Z.leb_le c 57)) by lia. cbn [andb].
  pose proof (dec_value_grows ds (v * 10 + (c - 48)) Hd' ltac:(lia)). rewrite (u64_id (v * 10)), u64_id by (unfold is_u64; lia). by apply IH; [|lia|].
Qed.
(** A sector number typed in decimal. *)
Lemma simple_atou64_decimal v : is_u64 v -> simple_atou64 (decimal 20 v) = v.
Proof.
  intros Hv. assert (E : dec_value (decimal 20 v) = v) by (apply decimal_value; unfold is_u64 in Hv; lia).
  unfold simple_atou64. rewrite atou64_digits; [exact E|apply decimal_digits; unfold is_u64 in Hv; lia|done|]. unfold dec_value in E. rewrite E. unfold is_u64 in Hv. lia.
Qed.

Section anyone.
Context {E : Type} `{RustEngine E} {Dk : Type} `{BlockDev Dk} {W : Type}.
Context (ident_at iosq_at iocq_at iobuf_at capacity : Z) (ident : bytes).
Context {D : Type} `{L : NvmeLaws ident_at iosq_at iocq_at iobuf_at capacity ident D}.
Abbreviation Sh := (Shell.Sh (E := E) (D := Dk) (W := W)).
Abbreviation ready := (io_ready ident_at iosq_at iocq_at iobuf_at capacity ident).
Implicit Types (sh : Sh) (s : Nvme D).

(** The command nvme write with its sector and byte. *)
Definition nvme_write_line (lba f : Z) : ParsedCommand := command [lit "nvme"; lit "write"; decimal 20 lba; hex_byte f].

(** The nvme command is not held back: a session of any privilege, if no policy rule says otherwise, has its
    handler called, and [nvme write <lba> <byte>] then makes that one sector of the medium 512 times that byte - below
    the file system, its permissions, the users' file and the policy alike - and changes no other. *)
Lemma anyone_overwrites_any_sector run sh s a lba f :
  privilege (session sh) <= CLI_PRIV_USER -> policy_check_command (ai (sys sh)) (Some (lit "nvme")) (u8 (privilege (session sh))) = true ->
  ready s a -> 0 <= lba < capacity -> capacity <= 2 ^ 64 -> is_u8 f ->
  (exists b sh', cli_find_builtin (lit "nvme") = Some b /\
     cli_execute_single_command run sh (nvme_write_line lba f) = run b sh' (nvme_write_line lba f)) /\
  exists text s' a', cli_cmd_nvme iobuf_at s (nvme_write_line lba f) = (CLI_OK, text, s') /\ ready s' a' /\
    forall x, c_view a' x = if x =? lba then replicate 512 f else c_view a x.
Proof.
  intros Hp Hpol R Hlba Hcap Hf. split.
  - unfold cli_execute_single_command, nvme_write_line. cbn [argv command]. destruct (cli_find_builtin (lit "nvme")) as [b|] eqn:Eb; [|by vm_compute in Eb].
    assert (Em : min_privilege b = CLI_PRIV_USER) by (vm_compute in Eb; by injection Eb as <-).
    cbv zeta. rewrite Em, (proj2 (Z.ltb_ge _ _)) by done. rewrite Hpol. by exists b; eexists.
  - destruct (nvme_write_spec _ _ _ _ _ _ s a lba 1 (replicate 512 f) R) as (s' & Ew & a' & R' & Ev); [lia..|by rewrite length_replicate|].
    change (1 * 512) with 512 in Ew. unfold cli_cmd_nvme, kernel_nvme_available. rewrite (proj1 (ir_up _ _ _ _ _ _ _ _ R)). cbn [negb].
    set (ver := kernel_nvme_version s). set (id := kernel_nvme_identified s). cbv zeta.
    change (argc (nvme_write_line lba f) <? 2)%nat with false. change (arg (nvme_write_line lba f) 1) with (lit "write").
    change (cli_streq (lit "write") (lit "read")) with false. change (cli_streq (lit "write") (lit "write")) with true.
    unfold nvme_cmd_write. change (argc (nvme_write_line lba f) <? 4)%nat with false. cbv zeta.
    change (arg (nvme_write_line lba f) 2) with (decimal 20 lba). change (arg (nvme_write_line lba f) 3) with (hex_byte f).
    rewrite simple_atou64_decimal by (unfold is_u64; lia). rewrite fill_byte_hex, Ew by done. cbn [Z.ltb Z.compare].
    eexists _, s', a'. split; [reflexivity|]. split; [exact R'|]. intros x. rewrite Ev. unfold write_view.
    destruct (Z.eqb_spec x lba) as [->|Hne].
    + rewrite (proj2 (Z.leb_le lba lba)), (proj2 (Z.ltb_lt lba _)) by lia. cbn [andb]. rewrite Z.sub_diag. done.
    + assert (Ei : (lba <=? x) && (x <? lba + Z.of_nat (Z.to_nat 1)) = false) by lia. by rewrite Ei.
Qed.
End anyone.

(** On the controller of the NVMe examples: bob, who is nobody special, clears sector 4096, where the policy lies. *)
#[local] Instance demo_nvme : NvmeCtl Nvme.Demo.Ctl := Nvme.Demo.demo_ctl 3 4 5 6 (2 ^ 32) Nvme.Demo.ident0.
#[local] Instance demo_nvme_laws : NvmeLaws 3 4 5 6 (2 ^ 32) Nvme.Demo.ident0 Nvme.Demo.Ctl := Nvme.Demo.demo_laws 3 4 5 6 (2 ^ 32) Nvme.Demo.ident0.
Lemma anyone_overwrites_any_sector_witness : exists c,
  let r := cli_cmd_nvme 6 c (nvme_write_line 4096 0) in
  privilege (session (demo_shell (lit "bob") 100 2 [])) = 100 /\ r.1.1 = CLI_OK /\ nv_medium (nvme_dev r.2) 4096 = replicate 512 0.
Proof.
  destruct demo_drive as (c & _ & a & R). exists c.
  destruct (anyone_overwrites_any_sector 3 4 5 6 (2 ^ 32) Nvme.Demo.ident0 (L := demo_nvme_laws) (fun _ sh _ => Done 0 sh)
    (demo_shell (lit "bob") 100 2 []) c a 4096 0 ltac:(vm_compute; congruence) eq_refl R ltac:(lia) ltac:(lia) ltac:(ulia)) as (_ & text & s' & a' & E1 & R' & Hv).
  cbv zeta. rewrite E1. split; [reflexivity|]. split; [reflexivity|]. cbn [snd].
  rewrite (nv_medium_view _ _ 4096 (ir_is _ _ _ _ _ _ _ _ R')), Hv. reflexivity.
Defined.
