(* ===== verification/ShellInfo.v ===== *)
(** The shell's commands that show the machine or ask one part of it (kernel/shell/cli.c): info, date, uptime, perf,
    slots, lspci, ps, ai, policy, exec, kill and winmove. *)

From S2P Require Import Prelude CString BlockDev VernisFs Kfs AiEngine AiBridge Policy Pci Rtc Cli Shell Printf ShellIpc.

(** [%d] in a field of a width. *)
Definition num (w : Z) (v : Z) : bytes := cli_print_field_d (i32 v) w false.
(** [%-ws]. *)
Definition left_field (w : Z) (s : bytes) : bytes := cli_print_field_s s w true.

(** ** Clocks and counters *)

(** [kernel/shell/cli.c:2618-2619] cli_cmd_uptime *)
Definition hz_or_100 (hz : Z) : Z := if hz =? 0 then 100 else hz.
(** [kernel/shell/cli.c] cli_cmd_date *)
Definition cli_cmd_date (t : RtcTime) : Z * bytes :=
  (CLI_OK, row (num 4 (year t) ++ [45] ++ num 2 (month t) ++ [45] ++ num 2 (day t) ++ [32] ++
                num 2 (hour t) ++ [58] ++ num 2 (minute t) ++ [58] ++ num 2 (second t) ++ lit " UTC")).
(** [kernel/shell/cli.c] cli_cmd_uptime *)
Definition cli_cmd_uptime (ticks hz : Z) : Z * bytes :=
  let total_sec := u32 ticks / hz_or_100 hz in
  let days := total_sec / 86400 in
  let clock := num 2 (total_sec mod 86400 / 3600) ++ [58] ++ num 2 (total_sec mod 3600 / 60) ++ [58] ++ num 2 (total_sec mod 60) in
  (CLI_OK, if 0 <? days then row (lit "up " ++ dec days ++ lit " day" ++ (if days =? 1 then [] else lit "s") ++ lit ", " ++ clock)
           else row (lit "up " ++ clock)).
(** [x64]: the kernel it is compiled into; [nproc]: the scheduler's count, 0 without one.
    [kernel/shell/cli.c] cli_cmd_info *)
Definition cli_cmd_info (x64 : bool) (ticks hz nproc : Z) (ai : AiBridgeStatus) (s : CliSession) : Z * bytes :=
  let seconds := u32 ticks / hz_or_100 hz in
  let minutes := seconds / 60 in
  let hours := minutes / 60 in
  let ai_str := match ai with AI_STATUS_READY => lit "ready (in-kernel Rust)" | AI_STATUS_BUSY => lit "busy" | _ => lit "offline" end in
  let rule := row (lit "  +---------------------------------+") in
  (CLI_OK, row [] ++ rule ++ row (lit "  |     VernisOS System Info        |") ++ rule ++
    row (lit "  OS          : VernisOS") ++ row (lit "  Version     : 0.1.0") ++
    row (lit "  Arch        : " ++ if x64 then lit "x86-64 (64-bit)" else lit "x86 (32-bit)") ++
    row (lit "  Uptime      : " ++ dec hours ++ [58] ++ dec (minutes mod 60) ++ [58] ++ dec (seconds mod 60) ++ lit " (hh:mm:ss)") ++
    row (lit "  Heap        : 2 MB") ++ row (lit "  Processes   : " ++ dec nproc) ++ row (lit "  AI Bridge   : " ++ ai_str) ++
    row (lit "  User        : " ++ cstr (username s)) ++ rule ++ row []).
(** The counters of kernel_perf_get, in order.
    [kernel/shell/cli.c] cli_cmd_perf *)
Definition cli_cmd_perf (perf : Z -> Z) : Z * bytes :=
  (0, row (lit "uptime ticks:   " ++ dec (perf 0)) ++ row (lit "ctx switches:   " ++ dec (perf 1)) ++
      row (lit "syscalls:       " ++ dec (perf 2)) ++ row (lit "kbd irqs:       " ++ dec (perf 3)) ++
      row (lit "mouse irqs:     " ++ dec (perf 4)) ++ row (lit "page faults:    " ++ dec (perf 5))).
(** The slots as kernel_task_slot_info gives them: pid, active, ticks left, ticks; and the running one.
    [kernel/shell/cli.c] cli_cmd_slots *)
Definition cli_cmd_slots (slots : list (Z * bool * Z * Z)) (current : Z) : Z * bytes :=
  let line (i : nat) (x : Z * bool * Z * Z) :=
    let '(pid, act, rem, tot) := x in
    if negb act && (pid =? 0) then [] else
    row (dec (Z.of_nat i) ++ lit "    " ++ dec pid ++ lit "   " ++ dec (if act then 1 else 0) ++ lit "      " ++ dec rem ++ lit "   " ++ dec tot) in
  (0, row (lit "slot pid active rem total") ++ concat (imap line (take 16 slots)) ++ row (lit "current: " ++ dec current)).
(** The signed numbers; the window moves by them.
    [kernel/shell/cli.c:383-390] cli_cmd_winmove *)
Definition signed_arg (s : bytes) : Z := if char_at s 0 =? 45 then i32 (- simple_atoi (drop 1 s)) else simple_atoi s.
(** [gui]: what gui_move_focused_window does and returns.
    [kernel/shell/cli.c] cli_cmd_winmove *)
Definition cli_cmd_winmove {G} (gui : Z -> Z -> G -> Z * G) (g : G) cmd : Z * bytes * G :=
  if (argc cmd <? 3)%nat then (1, row (lit "Usage: winmove <dx> <dy>"), g) else
  let dx := signed_arg (arg cmd 1) in let dy := signed_arg (arg cmd 2) in
  let '(rc, g) := gui dx dy g in
  if rc <? 0 then (1, row (lit "winmove: no window (GUI mode only)"), g)
  else (0, row (lit "moved by " ++ dec dx ++ [44] ++ dec dy), g).

(** ** Devices *)

(** [kernel/shell/cli.c] pci_lookup *)
Definition pci_lookup (id : Z) (tbl : list (Z * bytes)) : bytes :=
  match find (fun e => e.1 =? id) tbl with Some e => e.2 | None => lit "Unknown" end.
(** [kernel/shell/cli.c] pci_vendors *)
Definition pci_vendors : list (Z * bytes) := [(0x8086, lit "Intel"); (0x10DE, lit "NVIDIA"); (0x1234, lit "QEMU"); (0x1022, lit "AMD")].
(** [kernel/shell/cli.c] pci_devices *)
Definition pci_devices : list (Z * bytes) := [(0x100E, lit "82540EM Gigabit"); (0x2922, lit "ICH9 SATA"); (0x1AF4, lit "Virtio")].
(** [kernel/shell/cli.c] pci_classes *)
Definition pci_classes : list (Z * bytes) :=
  [(0x01, lit "Mass Storage"); (0x02, lit "Network"); (0x03, lit "Display"); (0x06, lit "Bridge"); (0x0C, lit "Serial Bus")].
(** [kernel/shell/cli.c:2660-2668] cli_cmd_lspci *)
Definition lspci_row (d : PciDev) : bytes :=
  let hex := cli_write_hex32 in
  row (hex (bus d) ++ lit "   " ++ hex (slot d) ++ lit "    " ++ hex (vendor_id d) ++ [32] ++ left_field 7 (pci_lookup (vendor_id d) pci_vendors) ++
       lit "  " ++ hex (device_id d) ++ [32] ++ left_field 10 (pci_lookup (device_id d) pci_devices) ++ lit "  " ++
       hex (class_code d) ++ [58] ++ hex (subclass d) ++ [32] ++ left_field 13 (pci_lookup (class_code d) pci_classes)).
(** [kernel/shell/cli.c] cli_cmd_lspci *)
Definition cli_cmd_lspci (devs : list PciDev) : Z * bytes :=
  let n := kernel_pci_count devs in
  if n =? 0 then (CLI_OK, row (lit "No PCI devices found.")) else
  (CLI_OK, row (lit "Bus  Slot  Vendor      Device      Class") ++ row (lit "---  ----  ----------  ----------  ---------------") ++
           concat (lspci_row <$> devs) ++ row (dec n ++ lit " device(s)")).

(** ** Programs and signals *)

(** [elf_exec]: the loader, absent while no kernel has set it.
    [kernel/shell/cli.c] cli_cmd_exec *)
Definition cli_cmd_exec {D} `{BlockDev D} {K} (fuel : nat) (elf_exec : option (bytes -> K -> Z * K)) (s : CliSession) cmd (fs : Kfs D) (k : K)
    : res (Z * bytes) * Kfs D * K :=
  if (argc cmd <? 2)%nat then (Ok (1, row (lit "Usage: exec <path>") ++ row (lit "  e.g. exec /bin/hello64")), fs, k) else
  let path := arg cmd 1 in
  let '(r, fs) := kfs_check_perm fuel path (u16 (uid s)) 120 fs in
  match r with
  | Loops => (Loops, fs, k)
  | Fail => (Ok (1, row (lit "exec: " ++ path ++ lit ": permission denied")), fs, k)
  | Ok rc =>
      if rc <? 0 then (Ok (1, row (lit "exec: " ++ path ++ lit ": permission denied")), fs, k) else
      match elf_exec with
      | None => (Ok (1, row (lit "exec: ELF loader not available")), fs, k)
      | Some load =>
          let first := row (lit "Loading " ++ path ++ lit "...") in
          let '(ret, k) := load path k in
          if ret <? 0 then (Ok (1, first ++ row (lit "exec: failed to load " ++ path)), fs, k)
          else (Ok (CLI_OK, first ++ row (lit "Process started from " ++ path)), fs, k)
      end
  end.
(** [sys_kill]: the system call with its number, process and signal.
    [kernel/shell/cli.c] cli_cmd_kill *)
Definition cli_cmd_kill {K} (sys_kill : K -> Z -> Z -> Z * K) (k : K) cmd : Z * bytes * K :=
  if (argc cmd <? 3)%nat then (1, row (lit "Usage: kill <pid> <signal>") ++ row (lit "Signals: 2=SIGINT, 9=SIGKILL, 15=SIGTERM"), k) else
  let pid := u32 (simple_atoi (arg cmd 1)) in
  let sig := u8 (simple_atoi (arg cmd 2)) in
  if pid =? 0 then (1, row (lit "kill: invalid PID"), k) else
  if sig =? 0 then (1, row (lit "kill: invalid signal"), k) else
  let '(result, k) := sys_kill k pid sig in
  if result <? 0 then (1, row (lit "kill: failed (process not found or error)"), k)
  else (CLI_OK, row (lit "Signal " ++ dec sig ++ lit " sent to PID " ++ dec pid), k).

(** ** The table of processes *)

(** C's division rounds towards zero.
    [kernel/shell/cli.c:1223-1224] ps_itoa *)
Fixpoint itoa_digits (n : nat) (v : Z) : bytes :=
  match n with
  | O => []
  | S n => if v =? 0 then [] else u8 (48 + Z.rem v 10) :: itoa_digits n (Z.quot v 10)
  end.
(** [kernel/shell/cli.c] ps_itoa *)
Definition ps_itoa (max val : Z) : bytes :=
  if max <? 2 then [] else
  let neg := val <? 0 in
  let val := if neg then i32 (- val) else val in
  take (Z.to_nat (max - 1)) ((if neg then [45] else []) ++ rev (if val =? 0 then [48] else itoa_digits 10 val)).
(** [kernel/shell/cli.c] ps_cat *)
Definition ps_cat (max : Z) (buf src : bytes) : bytes := take (Z.to_nat (max - 1)) (buf ++ src).

(** [include/scheduler_base.h:51-63] PsRow *)
Record PsEntry := mkPs {
  pe_pid : Z; pe_ppid : Z; pe_state : Z; pe_priority : Z; pe_ptype : Z; pe_cpu_time_ms : Z; pe_mem_rss : Z; pe_uptime_secs : Z; pe_command : bytes }.
(** The scheduler, written in Rust: at most [max] process numbers, its count, a row.
    [include/scheduler_base.h:69-70] scheduler_get_pid_list *)
Class PsSource (Sc : Type) := {
  scheduler_get_pid_list : Sc -> Z -> list Z;
  scheduler_get_process_count : Sc -> Z;
  scheduler_get_ps_row : Sc -> Z -> option PsEntry }.

(** [kernel/shell/cli.c:1291-1302] ps_render_table *)
Definition cpu_column (r : PsEntry) : bytes :=
  let uptime_ms := u64 (pe_uptime_secs r * 1000) in
  if 0 <? uptime_ms then
    let pct_x10 := u64 (pe_cpu_time_ms r * 1000) / uptime_ms in
    ps_cat 8 (ps_cat 8 (ps_itoa 8 (i32 (pct_x10 / 10))) [46]) [48 + pct_x10 mod 10]
  else ps_cat 8 [] (lit "0.0").
(** [kernel/shell/cli.c:1312-1320] ps_render_table *)
Definition scaled (rss unit : Z) (name : bytes) : bytes :=
  let frac := rss mod unit * 10 / unit in
  let p := ps_itoa 12 (i32 (rss / unit)) in
  let p := if 0 <? frac then ps_cat 12 (ps_cat 12 p [46]) [48 + frac] else p in
  ps_cat 12 p name.
(** [kernel/shell/cli.c:1306-1335] ps_render_table *)
Definition mem_column (rss : Z) : bytes :=
  if rss =? 0 then ps_cat 12 [] (lit "0B") else
  if rss <? 1024 then ps_cat 12 (ps_itoa 12 rss) (lit "B") else
  if rss <? 1048576 then scaled rss 1024 (lit "KB") else
  if rss <? 1073741824 then scaled rss 1048576 (lit "MB") else
  ps_cat 12 (ps_itoa 12 (i32 (rss / 1073741824))) (lit "GB").
(** [kernel/shell/cli.c:1339-1355] ps_render_table *)
Definition up_column (up : Z) : bytes :=
  if up <? 60 then ps_cat 12 (ps_itoa 12 up) (lit "s") else
  if up <? 3600 then ps_cat 12 (ps_cat 12 (ps_cat 12 (ps_itoa 12 (up / 60)) (lit "m")) (ps_itoa 4 (up mod 60))) (lit "s")
  else ps_cat 12 (ps_cat 12 (ps_cat 12 (ps_itoa 12 (i32 (up / 3600))) (lit "h")) (ps_itoa 4 (up mod 3600 / 60))) (lit "m").
(** [kernel/shell/cli.c:1267-1270] ps_render_table *)
Definition state_name (s : Z) : bytes :=
  nth (Z.to_nat s) [lit "New"; lit "Standby"; lit "Running"; lit "Waiting"; lit "Suspended"; lit "Terminated"; lit "Zombie"] (lit "?").
(** [kernel/shell/cli.c:1271-1271] ps_render_table *)
Definition type_name (t : Z) : bytes := nth (Z.to_nat t) [lit "Kernel"; lit "System"; lit "User"] (lit "?").
(** [kernel/shell/cli.c:1357-1359] ps_render_table *)
Definition ps_line (r : PsEntry) : bytes :=
  let f w s := left_field w s ++ [32] in
  let d w v := cli_print_field_d (i32 v) w true ++ [32] in
  row (d 5 (pe_pid r) ++ d 6 (pe_ppid r) ++ d 8 (pe_priority r) ++ f 10 (state_name (pe_state r)) ++ f 7 (type_name (pe_ptype r)) ++
       f 6 (cpu_column r) ++ f 8 (mem_column (pe_mem_rss r)) ++ f 10 (up_column (pe_uptime_secs r)) ++
       let name := cstr (pe_command r) in match name with [] => lit "(none)" | _ => name end).

Section ps.
Context {Sc : Type} `{PsSource Sc}.
Implicit Types (sched : Sc).
(** [for (pid = 1; pid <= probe_limit && found < 32; pid++)], from [pid] on.
    [kernel/shell/cli.c:1253-1264] ps_render_table *)
Fixpoint probe_pids (n : nat) sched (pid : Z) (found : nat) : list Z :=
  match n with
  | O => []
  | S n =>
      if (32 <=? found)%nat then [] else
      match scheduler_get_ps_row sched pid with
      | Some _ => pid :: probe_pids n sched (pid + 1) (S found)
      | None => probe_pids n sched (pid + 1) found
      end
  end.
(** [kernel/shell/cli.c:1246-1265] ps_render_table *)
Definition ps_pids sched : list Z :=
  let pids := take 32 (scheduler_get_pid_list sched 32) in
  let total_known := scheduler_get_process_count sched in
  match pids with
  | [] => if 0 <? total_known then
            let limit := total_known * 16 in
            let limit := if limit <? 64 then 64 else limit in
            let limit := if 4096 <? limit then 4096 else limit in
            probe_pids (Z.to_nat limit) sched 1 0
          else []
  | _ => pids
  end.
(** [kernel/shell/cli.c] ps_render_table *)
Definition ps_render_table (sched : option Sc) : Z * bytes :=
  match sched with
  | None => (CLI_ERR_EXEC_FAILED, row (lit "scheduler not ready"))
  | Some sched =>
      let pids := ps_pids sched in
      let f w s := left_field w (lit s) ++ [32] in
      let rule := row (lit "===== ====== ======== ========== ======= ====== ======== ========== ================") in
      (CLI_OK, row (left_field 5 (lit "PID") ++ [32] ++ left_field 6 (lit "PPID") ++ [32] ++ left_field 8 (lit "PRIORITY") ++ [32] ++
                    left_field 10 (lit "STATE") ++ [32] ++ left_field 7 (lit "TYPE") ++ [32] ++ left_field 6 (lit "CPU%") ++ [32] ++
                    left_field 8 (lit "MEMORY") ++ [32] ++ left_field 10 (lit "UPTIME") ++ [32] ++ lit "COMMAND") ++ rule ++
               concat (ps_line <$> omap (scheduler_get_ps_row sched) pids) ++ rule ++
               row (lit "  Total: " ++ dec (Z.of_nat (length pids)) ++ lit " shown / " ++ dec (scheduler_get_process_count sched) ++ lit " known"))
  end.

(** *** The table, drawn again and again *)

(** The realtime display on the text screen, after the stale keys are taken. The clock is read once a round: at round
    [n] of the waiting it shows [tick n], the character [key n] is there, if any, and [sched_at n] is the scheduler. *)
Variables (tick : nat -> Z) (key : nat -> option Z) (sched_at : nat -> Sc).
Inductive ps_end := Quit | TimedOut.
(** The screens drawn, and how it ends; [None]: not within the fuel. [start] is the tick of the last drawing.
    [kernel/shell/cli.c:1442-1467] cli_cmd_ps *)
Fixpoint ps_watch (fuel : nat) (n : nat) (started start interval auto_exit : Z) : option (list bytes * ps_end) :=
  match fuel with
  | O => None
  | S fuel =>
      if u32 (tick n - start) <? interval then
        match key n with
        | Some c => if (c =? 113) || (c =? 81) || (c =? 27) then Some ([], Quit)
                    else if auto_exit <=? u32 (tick n - started) then Some ([], TimedOut)
                    else ps_watch fuel (S n) started start interval auto_exit
        | None => if auto_exit <=? u32 (tick n - started) then Some ([], TimedOut)
                  else ps_watch fuel (S n) started start interval auto_exit
        end
      else
        let screen := (ps_render_table (Some (sched_at n))).2 ++ row [] ++ row (lit "[ps realtime] press q / Esc to quit") in
        '(screens, e) ← ps_watch fuel n started (tick n) interval auto_exit; Some (screen :: screens, e)
  end.
Lemma ps_watch_more fuel : forall n started start interval auto_exit r,
  ps_watch fuel n started start interval auto_exit = Some r -> ps_watch (S fuel) n started start interval auto_exit = Some r.
Proof.
  induction fuel as [|fuel IH]; intros n started start interval auto_exit r; [done|]. remember (S fuel) as f. cbn [ps_watch]. rewrite Heqf at 1. cbn [ps_watch].
  destruct (_ <? interval).
  - destruct (key n); repeat case_match; try done; apply IH.
  - destruct (ps_watch fuel n started (tick n) interval auto_exit) as [x|] eqn:Ex; [|done]. subst f. by rewrite (IH _ _ _ _ _ _ Ex).
Qed.
(** A screen at once, the next ones every half second, thirty seconds at most.
    [kernel/shell/cli.c] cli_cmd_ps *)
Definition cli_cmd_ps (fuel : nat) (ready : bool) (hz : Z) cmd : option (Z * list bytes) :=
  if negb ready then Some (CLI_ERR_EXEC_FAILED, [row (lit "scheduler not ready")]) else
  if negb (argc cmd =? 1)%nat then Some (CLI_OK, [row (lit "Usage: ps") ++ row (lit "  Realtime process monitor (press 'q' to quit)")]) else
  let hz := hz_or_100 hz in
  let interval := u32 (u32 (500 * hz) + 999) / 1000 in
  let auto_exit := u32 (u32 (30000 * hz) + 999) / 1000 in
  let interval := if interval =? 0 then 1 else interval in
  let auto_exit := if auto_exit =? 0 then hz else auto_exit in
  let screen := (ps_render_table (Some (sched_at 0))).2 ++ row [] ++ row (lit "[ps realtime] press q / Esc to quit") in
  '(screens, e) ← ps_watch fuel 0 (u32 (tick 0)) (u32 (tick 0)) interval auto_exit;
  Some (CLI_OK, screen :: screens ++ [row (match e with Quit => lit "Exited ps realtime mode." | TimedOut => lit "Exited ps realtime mode (auto timeout)." end)]).

(** The display always ends: by a key, or when the clock, which does not run backwards, is [auto_exit] ticks on. *)
Lemma ps_ends t0 (g : nat -> Z) interval auto_exit N : (forall n, tick n = u32 (t0 + g n)) -> (forall n m, (n <= m)%nat -> 0 <= g n <= g m) ->
  auto_exit <= g N -> g N < 2 ^ 32 -> 0 < interval ->
  forall k n s, (n + k = N)%nat -> exists r, ps_watch (2 * k + 2) n (u32 t0) s interval auto_exit = Some r.
Proof.
  intros Ht Hm Ha Hg Hi. assert (Hs : forall n, (n <= N)%nat -> u32 (tick n - u32 t0) = g n).
  { intros n Hn. rewrite Ht. pose proof (Hm n N Hn). unfold u32. rewrite <- Zminus_mod. replace (t0 + g n - t0) with (g n) by lia. apply Z.mod_small. lia. }
  assert (Hz : forall n, (u32 (tick n - tick n) <? interval) = true) by (intros n; rewrite Z.sub_diag; apply Z.ltb_lt; done).
  assert (Hround : forall f k n s, (n + k = N)%nat -> (u32 (tick n - s) <? interval) = true ->
    (forall s, k <> 0%nat -> exists r, ps_watch f (S n) (u32 t0) s interval auto_exit = Some r) ->
    exists r, ps_watch (S f) n (u32 t0) s interval auto_exit = Some r).
  { intros f k n s En Hw IH. cbn [ps_watch]. rewrite Hw, Hs by lia.
    assert (Hgo : exists r, (if auto_exit <=? g n then Some ([], TimedOut) else ps_watch f (S n) (u32 t0) s interval auto_exit) = Some r).
    { destruct (Z.leb_spec auto_exit (g n)); [by eexists|]. apply IH. intros ->. rewrite Nat.add_0_r in En. subst n. lia. }
    destruct (key n) as [c|]; [|exact Hgo]. destruct (_ || _); [by eexists|exact Hgo]. }
  intros k. induction k as [|k IH]; intros n s En.
  - destruct (u32 (tick n - s) <? interval) eqn:Ew.
    + apply (Hround 1%nat 0%nat); [done..|]. intros s' Hk. by destruct Hk.
    + cbn [Nat.mul Nat.add]. remember 1%nat as f1. cbn [ps_watch]. rewrite Ew. subst f1.
      destruct (Hround 0%nat 0%nat n (tick n) En (Hz n)) as [r ->]; [intros s' Hk; by destruct Hk|]. cbn [mbind option_bind]. destruct r. by eexists.
  - replace (2 * S k + 2)%nat with (S (S (2 * k + 2))) by lia.
    assert (Hnext : forall f s', (f = 2 * k + 2 \/ f = S (2 * k + 2))%nat -> exists r, ps_watch f (S n) (u32 t0) s' interval auto_exit = Some r).
    { intros f s' [-> | ->]; [apply IH; lia|]. destruct (IH (S n) s' ltac:(lia)) as [r Hr]. exists r. by apply ps_watch_more. }
    destruct (u32 (tick n - s) <? interval) eqn:Ew.
    + apply (Hround _ (S k)); [done..|]. intros s' _. apply Hnext. by right.
    + set (f1 := S (2 * k + 2)). cbn [ps_watch]. rewrite Ew. unfold f1.
      destruct (Hround (2 * k + 2)%nat (S k) n (tick n) En (Hz n)) as [r ->]; [intros s' _; apply Hnext; by left|]. cbn [mbind option_bind]. destruct r. by eexists.
Qed.

(** The realtime process display always ends: whatever keys are pressed and whatever the scheduler shows, the ps
    command comes back within the round at which the clock has gone on for thirty seconds. *)
Lemma ps_command_ends t0 (g : nat -> Z) hz N : (forall n, tick n = u32 (t0 + g n)) -> g 0%nat = 0 -> (forall n m, (n <= m)%nat -> g n <= g m) ->
  0 < hz <= 100000 -> 30 * hz <= g N -> g N < 2 ^ 32 ->
  exists rc screens, cli_cmd_ps (2 * N + 2) true hz (command [lit "ps"]) = Some (rc, screens).
Proof.
  intros Ht H0 Hm Hhz Ha Hg. unfold cli_cmd_ps, hz_or_100. cbn [negb]. change (argc (command [lit "ps"]) =? 1)%nat with true. cbn [negb].
  rewrite (proj2 (Z.eqb_neq hz 0)) by lia. rewrite (u32_id (500 * hz)), (u32_id (30000 * hz)), (u32_id (500 * hz + 999)), (u32_id (30000 * hz + 999)) by (unfold is_u32; lia). cbv zeta.
  assert (E1 : ((500 * hz + 999) / 1000 =? 0) = false) by (apply Z.eqb_neq; dlia). assert (E2 : (30000 * hz + 999) / 1000 = 30 * hz) by dlia.
  rewrite E1, E2, (proj2 (Z.eqb_neq (30 * hz) 0)) by lia.
  assert (Eu : u32 (tick 0) = u32 t0) by (rewrite Ht, H0, Z.add_0_r; apply u32_id, u32_is). rewrite Eu.
  destruct (ps_ends t0 g ((500 * hz + 999) / 1000) (30 * hz) N Ht) with (k := N) (n := 0%nat) (s := u32 t0) as [[screens e] ->]; try done; [|apply Z.div_str_pos; lia|].
  - intros n m Hnm. pose proof (Hm n m Hnm). pose proof (Hm 0%nat n ltac:(lia)). lia.
  - by eexists _, _.
Qed.
End ps.

#[global] Instance no_processes : PsSource unit := {
  scheduler_get_pid_list _ _ := []; scheduler_get_process_count _ := 0; scheduler_get_ps_row _ _ := None }.
(** Somebody leans on the space bar. *)
Lemma ps_command_ends_witness : exists rc screens, cli_cmd_ps (fun n => u32 (5 + Z.of_nat n)) (fun _ => Some 32) (fun _ => tt) 62 true 1 (command [lit "ps"]) = Some (rc, screens).
Proof. apply (ps_command_ends (fun n => u32 (5 + Z.of_nat n)) (fun _ => Some 32) (fun _ => tt) 5 Z.of_nat 1 30); lia. Defined.

(** ** The AI engine and the policy *)

Section ai_commands.
Context {E : Type} `{RustEngine E}.
Implicit Types (st : AiKernel E) (cmd : ParsedCommand).
(** The words behind the name, one blank between two of them.
    [kernel/shell/cli.c:1568-1573] cli_cmd_ai *)
Fixpoint query_loop (first : bool) (ws : list bytes) (pos : Z) : bytes :=
  match ws with
  | [] => []
  | w :: ws =>
      if pos <? AI_MSG_MAX - 2 then
        let blank := if first then [] else [32] in
        let chars := fit_str w (pos + Z.of_nat (length blank)) AI_MSG_MAX in
        blank ++ chars ++ query_loop false ws (pos + Z.of_nat (length (blank ++ chars)))
      else []
  end.
(** [ai status].
    [kernel/shell/cli.c:1512-1554] cli_cmd_ai *)
Definition ai_status_text st (bridge : AiBridgeStatus) : bytes :=
  row (lit "AI bridge: " ++ match bridge with AI_STATUS_OFFLINE => lit "offline" | AI_STATUS_READY => lit "ready" | AI_STATUS_BUSY => lit "busy" | AI_STATUS_ERROR => lit "error" end) ++
  row (lit "AI engine: in-kernel (Rust)") ++ row (lit "  events:    " ++ decimal 20 (ai_kernel_engine_event_count st)) ++
  row (lit "  anomalies: " ++ decimal 10 (ai_kernel_engine_anomaly_count st)) ++ row (lit "  processes: " ++ decimal 10 (ai_kernel_engine_active_procs st)).
(** [arrivals]: what the serial line brings while the query is waited for.
    [kernel/shell/cli.c] cli_cmd_ai *)
Definition cli_cmd_ai (arrivals : list bytes) st (b : Bridge) cmd : Z * bytes * Bridge :=
  if (argc cmd =? 2)%nat && bool_decide (take 3 (arg cmd 1) = lit "sta") then (CLI_OK, ai_status_text st (ai_bridge_status b), b) else
  if (argc cmd <? 2)%nat then (CLI_OK, row (lit "Usage: ai <query>  |  ai status"), b) else
  let query := query_loop true (drop 1 (argv cmd)) 0 in
  let '(n, resp, b) := ai_query_sync arrivals b (Some query) true AI_MSG_MAX in
  (CLI_OK, row (lit "AI> " ++ query) ++
           (if n <? 0 then row (lit "[ai] No response (bridge offline or timeout)") else row (lit "AI: " ++ cstr resp)), b).
(** [kernel/shell/cli.c:1597-1627] cli_cmd_policy *)
Definition policy_show_text st (bridge : AiBridgeStatus) : bytes :=
  row (lit "Policy System (Phase 12)") ++ row (lit "  Version : " ++ ps_itoa 8 (ai_kernel_engine_policy_version st)) ++
  row (lit "  Source  : os.img sector 4096 (VPOL binary)") ++ row (lit "  Engine  : in-kernel Rust AI") ++
  row (lit "  Bridge  : " ++ match bridge with AI_STATUS_OFFLINE => lit "OFFLINE" | AI_STATUS_READY => lit "READY" | AI_STATUS_BUSY => lit "BUSY" | AI_STATUS_ERROR => lit "ERROR" end) ++
  row (lit "  Events  : " ++ ps_itoa 20 (i32 (ai_kernel_engine_event_count st))) ++
  row (lit "  Anomaly : " ++ ps_itoa 12 (i32 (ai_kernel_engine_anomaly_count st))).
(** [beyond] is the memory behind the policy's buffer; what the loader reports goes to the serial line.
    [kernel/shell/cli.c] cli_cmd_policy *)
Definition cli_cmd_policy {D} `{BlockDev D} (beyond : bytes) st (b : Bridge) (d : D) cmd : Z * bytes * AiKernel E * D :=
  let usage := row (lit "Usage: policy show   - show current policy info") ++ row (lit "       policy reload - reload policy from disk") in
  if (argc cmd <? 2)%nat then (CLI_OK, usage, st, d) else
  if bool_decide (take 2 (arg cmd 1) = lit "sh") then (CLI_OK, policy_show_text st (ai_bridge_status b), st, d) else
  if bool_decide (take 2 (arg cmd 1) = lit "re") then
    let '(_, st, d) := policy_load_from_disk beyond st d in
    (CLI_OK, row (lit "Reloading policy from disk...") ++ row (lit "Policy version: " ++ ps_itoa 8 (ai_kernel_engine_policy_version st)), st, d)
  else (CLI_OK, usage, st, d).
End ai_commands.

(** The decimal text of a number up to 2^31 - 1 that fits. *)
Lemma itoa_digits_rev n v : 0 <= v -> itoa_digits n v = digits_rev n v.
Proof.
  revert v. induction n as [|n IH]; intros v Hv; [done|]. cbn [itoa_digits digits_rev].
  destruct (Z.eqb_spec v 0) as [->|]; [done|]. rewrite (proj2 (Z.ltb_lt 0 v)) by lia. rewrite Z.rem_mod_nonneg, Z.quot_div_nonneg by lia.
  rewrite u8_id by (unfold is_u8; dlia). f_equal. apply IH. dlia.
Qed.
Lemma ps_itoa_decimal max v : 12 <= max -> 0 <= v < 2 ^ 31 -> ps_itoa max v = decimal 10 v.
Proof.
  intros Hm Hv. unfold ps_itoa, decimal. rewrite (proj2 (Z.ltb_ge max 2)), (proj2 (Z.ltb_ge v 0)) by lia. cbv zeta. cbn [app].
  rewrite itoa_digits_rev by lia. destruct (v =? 0); apply take_ge; cbn [length]; [lia|]. rewrite length_rev. pose proof (length_digits_rev 10 v). lia.
Qed.
(** Sizes are cut after one decimal, and large processor times after seven characters. *)
Example columns : mem_column 1536 = lit "1.5KB" /\ mem_column 1047552 = lit "1023KB" /\ up_column 3661 = lit "1h1m" /\
  cpu_column (mkPs 1 0 2 0 0 1500 0 2 []) = lit "75.0".
Proof. by vm_compute. Qed.
