(* ===== verification/ShellLines.v ===== *)
(** Lines of several commands: lists joined by [;], [&&] and [||], and text
    that goes through a pipe (the commands are those of Shell.v). *)

From S2P Require Import Prelude CString BlockDev Bcache VernisFs Kfs LogRing AuditLog Klog Sha256 UserDb AiEngine Policy Cli LineEdit Shell.

Section lines.
Context {E : Type} `{RustEngine E} {D : Type} `{BlockDev D} {W : Type}.
Abbreviation Sys := (Shell.Sys (E := E) (D := D) (W := W)).
Abbreviation Sh := (Shell.Sh (E := E) (D := D) (W := W)).
Abbreviation outcome := (Shell.outcome (E := E) (D := D) (W := W)).
Variable fs_fuel : nat.
Variable garbage : Sha256Context.
Variable stack_name : bytes.
Variable other : bytes -> CliSession -> ParsedCommand -> bytes -> Sys -> option (Z * bytes * Sys).
Abbreviation cli_handler := (Shell.cli_handler fs_fuel garbage stack_name other).
Implicit Types (s : CliSession) (cmd : ParsedCommand) (inp : bytes) (k : Sys) (sh : Sh).

(** ** Lists of commands *)

Section lists.
Variable d : (Sh -> ParsedCommand -> outcome) -> CliBuiltinCommand -> Sh -> ParsedCommand -> outcome.
Variable fuel : nat.

(** A command, and those joined to it by [&&] ([true]) and [||]. *)
Definition AndOrList : Type := bytes * list (bool * bytes).
Definition run_one sh (seg : bytes) : outcome := cli_process_single d fuel sh (span is_blank seg).2.
(** The next command runs when the last one that ran succeeded, or failed. *)
Fixpoint eval_ops (ops : list (bool * bytes)) (status : Z) sh : outcome :=
  match ops with
  | [] => Done status sh
  | (both, seg) :: ops =>
      if Bool.eqb both (status =? CLI_OK) then andthen (run_one sh seg) (eval_ops ops) else eval_ops ops status sh
  end.
Definition eval_and_or (c : AndOrList) sh : outcome := andthen (run_one sh c.1) (eval_ops c.2).
(** One list after the other, whatever their results; the last one's result counts. *)
Fixpoint eval_list (cs : list AndOrList) sh : outcome :=
  match cs with
  | [] => Done CLI_OK sh
  | [c] => eval_and_or c sh
  | c :: cs => andthen (eval_and_or c sh) (fun _ sh => eval_list cs sh)
  end.

(** As it is typed. *)
Definition op_segments (ops : list (bool * bytes)) : list (CliSep * bytes) :=
  (fun o => (if o.1 : bool then SEP_AND else SEP_OR, o.2)) <$> ops.
Definition list_segments (cs : list AndOrList) : list (CliSep * bytes) :=
  concat ((fun c : AndOrList => (SEP_SEQ, c.1) :: op_segments c.2) <$> cs).
Definition list_text (c : AndOrList) (cs : list AndOrList) : bytes :=
  line_text c.1 (op_segments c.2 ++ list_segments cs).
(** A command that the splitter leaves whole, and that is not blank. *)
Definition segment_ok (seg : bytes) : Prop := plain false seg = true /\ (span is_blank seg).2 <> [].
Definition and_or_ok (c : AndOrList) : Prop := segment_ok c.1 /\ Forall (fun o => segment_ok o.2) c.2.

Lemma andthen_assoc o f g : andthen (andthen o f) g = andthen o (fun rc sh => andthen (f rc sh) g).
Proof. by destruct o. Qed.
Lemma run_segment pre seg segs status sh : segment_ok seg ->
  run_segments d fuel ((pre, seg) :: segs) status sh =
  if match pre with SEP_AND => negb (status =? CLI_OK) | SEP_OR => status =? CLI_OK | _ => false end
  then run_segments d fuel segs status sh
  else andthen (run_one sh seg) (fun st sh => run_segments d fuel segs st sh).
Proof. intros [_ Hne]. cbn [run_segments]. unfold run_one. by destruct (span is_blank seg).2. Qed.
Lemma run_ops ops : forall rest status sh, Forall (fun o => segment_ok o.2) ops ->
  run_segments d fuel (op_segments ops ++ rest) status sh =
  andthen (eval_ops ops status sh) (fun st sh => run_segments d fuel rest st sh).
Proof.
  induction ops as [|[both seg] ops IH]; intros rest status sh Hok; [done|]. inversion_clear Hok as [|? ? Hs Hok'].
  cbn [op_segments fmap list_fmap app fst snd eval_ops]. fold (op_segments ops). rewrite run_segment by done.
  destruct both, (status =? CLI_OK); cbn [negb Bool.eqb]; rewrite ?IH by done; rewrite ?andthen_assoc; try done;
    apply andthen_ext; intros; by apply IH.
Qed.
Lemma run_lists cs : forall status sh, Forall and_or_ok cs ->
  run_segments d fuel (list_segments cs) status sh =
  match cs with [] => Done status sh | _ => eval_list cs sh end.
Proof.
  induction cs as [|c cs IH]; intros status sh Hok; [done|]. inversion_clear Hok as [|? ? [Hc Ho] Hok'].
  unfold list_segments. cbn [fmap list_fmap concat app]. fold (list_segments cs). rewrite run_segment by done.
  assert (Hg : andthen (run_one sh c.1) (fun st sh => run_segments d fuel (op_segments c.2 ++ list_segments cs) st sh) =
    andthen (eval_and_or c sh) (fun st sh => match cs with [] => Done st sh | _ => eval_list cs sh end)).
  { unfold eval_and_or. rewrite andthen_assoc. apply andthen_ext. intros st sh1. rewrite run_ops by done.
    apply andthen_ext. intros st2 sh2. by apply IH. }
  cbn match. rewrite Hg. destruct cs as [|c' cs]; [|done]. cbn [eval_list]. by destruct (eval_and_or c sh).
Qed.

(** C20. Lines run as lists of commands: a line of and-or lists separated by semicolons - up to 16
    commands, none of them blank, quotes closed - runs the lists one after the other; within a
    list a command behind [&&] runs if the last one that ran succeeded, one behind [||] if it
    failed, the skipped ones leaving the result alone; the line's result is that of the last list. *)
Theorem process_line_and_or sh c cs : Forall and_or_ok (c :: cs) ->
  (length (op_segments c.2 ++ list_segments cs) <= 15)%nat ->
  Forall (fun x => x <> 0) (list_text c cs) -> (length (list_text c cs) <= 255)%nat ->
  g_ps_gui_live (sys sh) = false ->
  cli_process_line d fuel sh (list_text c cs) = eval_list (c :: cs) sh.
Proof.
  intros Hok Hn Hnz Hl Hlive. unfold cli_process_line, leaves_monitor. rewrite Hlive. cbn [andb].
  inversion Hok as [|? ? [[Hc Hne] Ho] Hok']; subst.
  assert (Hsegs : Forall (fun x => x.1 <> SEP_NONE /\ plain false x.2 = true) (op_segments c.2 ++ list_segments cs)).
  { assert (Hops : forall ops, Forall (fun o => segment_ok o.2) ops ->
      Forall (fun x => x.1 <> SEP_NONE /\ plain false x.2 = true) (op_segments ops)).
    { intros ops Hf. unfold op_segments. apply Forall_fmap. eapply Forall_impl; [exact Hf|].
      intros [both seg] [Hp _]. simpl in *. split; [by destruct both|done]. }
    apply Forall_app. split; [by apply Hops|]. clear -Hok' Hops. induction Hok' as [|c' cs [[Hc _] Ho] _ IH]; [constructor|].
    unfold list_segments. cbn [fmap list_fmap concat]. apply Forall_app. split; [|exact IH].
    constructor; [done|by apply Hops]. }
  unfold list_text in *. rewrite split_line_text by done. rewrite run_segment by done.
  pose proof (run_lists (c :: cs) CLI_OK sh Hok) as Hr. unfold list_segments in Hr. cbn [fmap list_fmap concat app] in Hr.
  fold (list_segments cs) in Hr. rewrite run_segment in Hr by done. exact Hr.
Qed.
End lists.

(** ** Text through a pipe *)

Lemma matches_at_spec hay : forall needle, matches_at hay needle = true <-> exists b, hay = needle ++ b.
Proof.
  induction hay as [|h hay IH]; intros [|x needle]; cbn [matches_at].
  - split; [by exists []|done].
  - split; [done|]. by intros [b Eb].
  - split; [by exists (h :: hay)|done].
  - rewrite andb_true_iff, Z.eqb_eq, IH. split.
    + intros [-> [b ->]]. by exists b.
    + intros [b [= -> ->]]. split; [done|]. by exists b.
Qed.
Lemma str_contains_spec hay needle : str_contains hay needle = true <-> exists a b, hay = a ++ needle ++ b.
Proof.
  destruct needle as [|x needle].
  { split; [|by destruct hay]. intros _. by exists [], hay. }
  induction hay as [|h hay IH]; [split; [done|]; by intros ([|? ?] & b & Eb)|].
  cbn [str_contains]. rewrite orb_true_iff, matches_at_spec, IH. split.
  - intros [[b Eb]|(a & b & ->)]; [exists [], b; done|exists (h :: a), b; done].
  - intros ([|h' a] & b & Eb); [left; by exists b|]. right. injection Eb as _ ->. by exists a, b.
Qed.

(** The lines of a text, [cur] the beginning of the first one. *)
Fixpoint lines_from (cur text : bytes) : list bytes :=
  match text with
  | [] => [cur]
  | c :: text => if c =? 10 then cur :: lines_from [] text else lines_from (cur ++ [c]) text
  end.
(** The lines with the pattern in them, as they are printed. *)
Definition matching (pattern text : bytes) : list bytes :=
  List.filter (fun l => str_contains l pattern) (lines_from [] text).
Definition printed (ls : list bytes) : bytes := concat ((fun l => l ++ [NL]) <$> ls).

Lemma printed_app a b : printed (a ++ b) = printed a ++ printed b.
Proof. unfold printed. by rewrite fmap_app, concat_app. Qed.
(** The line that a newline ends, if it is printed. *)
Definition hit (pattern l : bytes) : list bytes := if str_contains l pattern then [l] else [].
Lemma matching_cons pattern l ls :
  List.filter (fun l => str_contains l pattern) (l :: ls) =
  hit pattern l ++ List.filter (fun l => str_contains l pattern) ls.
Proof. unfold hit. cbn [List.filter]. by destruct (str_contains l pattern). Qed.
Lemma grep_newline pattern text cur out m : Forall (fun c => c <> 0) cur ->
  grep_loop pattern (10 :: text) cur out m =
  grep_loop pattern text [] (out ++ printed (hit pattern cur)) (m + Z.of_nat (length (hit pattern cur))).
Proof.
  intros Hc. cbn [grep_loop Z.eqb Pos.eqb orb]. rewrite cstr_id by done. unfold hit, printed.
  destruct (str_contains cur pattern); cbn; by rewrite ?app_nil_r, ?Z.add_0_r.
Qed.
Lemma lines_from_length text : forall cur, Forall (fun l => (length l <= 511)%nat) (lines_from cur text) ->
  (length cur <= 511)%nat.
Proof.
  induction text as [|x t IH]; intros cur; cbn [lines_from]; [by inversion 1|].
  destruct (x =? 10); [by inversion 1|]. intros Hf. apply IH in Hf. rewrite length_app in Hf. lia.
Qed.
Lemma grep_loop_spec pattern text : forall cur out m, Forall (fun c => c <> 0 /\ c <> 13) text ->
  Forall (fun c => c <> 0) cur -> Forall (fun l => (length l <= 511)%nat) (lines_from cur text) ->
  let ms := List.filter (fun l => str_contains l pattern) (lines_from cur text) in
  grep_loop pattern (text ++ [10]) cur out m = (out ++ printed ms, m + Z.of_nat (length ms)).
Proof.
  induction text as [|c text IH]; intros cur out m Ht Hc Hl; cbv zeta.
  - cbn [app lines_from]. rewrite grep_newline by done. cbn [grep_loop].
    by rewrite matching_cons, app_nil_r.
  - inversion_clear Ht as [|? ? [Hc0 Hc13] Ht']. cbn [app lines_from] in *.
    destruct (Z.eqb_spec c 10) as [->|H10].
    + inversion_clear Hl as [|? ? Hl1 Hl']. rewrite grep_newline, IH by done.
      rewrite matching_cons, printed_app, length_app. f_equal; [by rewrite <- app_assoc|lia].
    + cbn [grep_loop]. rewrite (proj2 (Z.eqb_neq c 13)), (proj2 (Z.eqb_neq c 10)) by done. cbn [orb].
      rewrite (proj2 (Z.leb_gt 511 _)).
      * apply IH; [done| |done]. apply Forall_app. split; [done|]. by constructor.
      * apply lines_from_length in Hl. rewrite length_app in Hl. simpl in Hl. lia.
Qed.

(** What a text does to the console. *)
Lemma write_raw_screen cn t : capture_active cn = false -> Forall (fun c => c <> 0) t ->
  cli_write_raw cn t = mkCon false (capture_echo cn) (captured cn) (pipe_input cn) (screen cn ++ t).
Proof.
  intros Hc Ht. unfold cli_write_raw. rewrite cstr_id by done. clear Ht. revert cn Hc.
  induction t as [|c t IH]; intros cn Hc; cbn [fold_left].
  - rewrite app_nil_r. destruct cn. cbn in *. by subst.
  - rewrite IH by done. unfold write_char. rewrite Hc. cbn. by rewrite <- app_assoc.
Qed.
Lemma write_raw_captured cn t : capture_active cn = true -> capture_echo cn = false -> Forall (fun c => c <> 0) t ->
  Z.of_nat (length (captured cn ++ t)) < CLI_PIPE_BUF_SIZE ->
  cli_write_raw cn t = mkCon true false (captured cn ++ t) (pipe_input cn) (screen cn).
Proof.
  intros Hc He Ht. unfold cli_write_raw. rewrite cstr_id by done. clear Ht. revert cn Hc He.
  induction t as [|c t IH]; intros cn Hc He Hl; cbn [fold_left].
  - rewrite app_nil_r. destruct cn. cbn in *. by subst.
  - rewrite length_app in Hl. cbn [length] in Hl.
    assert (Ew : write_char cn c = mkCon true false (captured cn ++ [c]) (pipe_input cn) (screen cn)).
    { unfold write_char. rewrite Hc, He. cbn. rewrite (proj2 (Z.ltb_lt _ _)) by lia. done. }
    rewrite Ew, IH; [cbn; by rewrite <- app_assoc|done|done|]. cbn [captured]. rewrite !length_app. simpl. lia.
Qed.

(** The state in which the handler of the command [n] starts. *)
Definition started (n : bytes) sh : Sh :=
  mkSh (session sh <| commands_executed := u64 (commands_executed (session sh) + 1) |>) (con sh)
    (sys sh <| log := (klog (log (sys sh)) (now sh) KLOG_DEBUG (Some (lit "cli")) (Some n)).2 |>).
Lemma single_permitted run sh cmd n ws b : argv cmd = n :: ws -> cli_find_builtin n = Some b ->
  permitted b n sh = true -> cli_execute_single_command run sh cmd = run b (started n sh) cmd.
Proof.
  intros Ea Eb Hp. unfold cli_execute_single_command. rewrite Ea, Eb. cbv zeta. unfold permitted in Hp.
  apply andb_true_iff in Hp as [Hp1 Hp2]. apply negb_true_iff in Hp1. by rewrite Hp1, Hp2.
Qed.
(** A pipe: the text of the first command is the input of the second, and is not shown. *)
Lemma pipe_runs d fuel sh cmd next n b s text k rc nxt :
  argv cmd <> [] -> hd [] (argv cmd) = n -> pipe_to cmd = Some next -> next <> [] ->
  cli_command_pipe_safe n = true -> cli_parse_command next = (CLI_OK, nxt) ->
  cli_find_builtin n = Some b -> permitted b n sh = true ->
  (forall e cn, pipe_input cn = pipe_input (con sh) ->
     d e b (mkSh (session (started n sh)) cn (sys (started n sh))) cmd = Done rc (mkSh s (cli_write_raw cn text) k)) ->
  rc = CLI_OK -> Forall (fun c => c <> 0) text -> Z.of_nat (length text) < CLI_PIPE_BUF_SIZE ->
  cli_execute_command d (S fuel) sh cmd =
  andthen (cli_execute_command d fuel (mkSh s (mkCon false true text text (screen (con sh))) k) nxt)
    (fun rc sh => Done rc (sh <| con := cli_pipe_clear_input (con sh) |>)).
Proof.
  intros Ha Hn Et Hne Hsafe Hparse Hb Hperm Hd -> Htext Hlen. cbn [cli_execute_command].
  destruct (argv cmd) as [|n' ws] eqn:Ea; [done|]. cbn in Hn. subst n'. rewrite Et.
  destruct next as [|c next]; [done|]. rewrite Hsafe, Hparse. cbn [negb Z.eqb].
  set (sh1 := sh <| con := cli_capture_begin false (con sh) |>).
  rewrite (single_permitted _ sh1 cmd n ws b Ea Hb Hperm).
  change (started n sh1) with (mkSh (session (started n sh)) (cli_capture_begin false (con sh)) (sys (started n sh))).
  rewrite Hd by done. cbn [andthen]. rewrite write_raw_captured by done.
  assert (Eset : forall e p sc, cli_pipe_set_input text (mkCon false e text p sc) = mkCon false e text text sc).
  { intros. unfold cli_pipe_set_input. cbn. f_equal. apply take_ge. unfold CLI_PIPE_BUF_SIZE in *. lia. }
  cbn -[cli_execute_command cli_pipe_set_input]. by rewrite Eset.
Qed.

(** ** grep on a file *)

Lemma cat_row : exists b, cli_find_builtin (lit "cat") = Some b /\ handler b = H_cat /\ min_privilege b = CLI_PRIV_USER.
Proof. eexists. split; [vm_compute; reflexivity|done]. Qed.
Lemma grep_row : exists b, cli_find_builtin (lit "grep") = Some b /\ handler b = H_grep /\ min_privilege b = CLI_PRIV_USER.
Proof. eexists. split; [vm_compute; reflexivity|done]. Qed.
Lemma lines_from_snoc text : forall cur, lines_from cur (text ++ [10]) = lines_from cur text ++ [[]].
Proof. induction text as [|c text IH]; intros cur; [done|]. cbn [app lines_from]. case_step; [by rewrite IH|apply IH]. Qed.
Lemma lines_from_short text : forall cur, Forall (fun l => (length l <= length cur + length text)%nat) (lines_from cur text).
Proof.
  induction text as [|c text IH]; intros cur; cbn [lines_from]; [constructor; [lia|constructor]|].
  case_step; [constructor; [lia|]|]; (eapply Forall_impl; [apply IH|]; intros l; rewrite ?length_app; simpl; lia).
Qed.
Lemma word_cat : word_ok (lit "cat").
Proof. split; [done|]. split; [refine (bool_decide_unpack _ _); vm_compute; exact I|]. by intros w [=]. Qed.
Lemma word_grep : word_ok (lit "grep").
Proof. split; [done|]. split; [refine (bool_decide_unpack _ _); vm_compute; exact I|]. by intros w [=]. Qed.

(** What cat and grep do when all is well. *)
Lemma cat_handler exec b s k cn path r n buf v1 v2 p : handler b = H_cat ->
  kfs_check_perm fs_fuel path (u16 (uid s)) 114 (fs k) = (Ok r, v1) -> 0 <= r ->
  kfs_read_file fs_fuel (env k) path 511 v1 = (Ok (n, buf), v2) -> Forall (fun c => c <> 0) (take (Z.to_nat n) buf) ->
  cli_handler exec b (mkSh s cn k) (mkParsed [lit "cat"; path] false None None p) =
  Done CLI_OK (mkSh s (cli_write_raw cn (take (Z.to_nat n) buf ++ [NL])) (k <| fs := v1 |> <| fs := v2 |>)).
Proof.
  intros Hb Hperm Hr Hread Hnz. unfold cli_handler. rewrite Hb. cbn [session sys con]. unfold cli_cmd_cat.
  change (argc (mkParsed [lit "cat"; path] false None None p)) with 2%nat.
  change (arg (mkParsed [lit "cat"; path] false None None p) 1) with path.
  cbn [Nat.ltb Nat.leb andb]. unfold on_fs. rewrite Hperm. cbn [default].
  change (fs (k <| fs := v1 |>)) with v1. change (env (k <| fs := v1 |>)) with (env k).
  rewrite (proj2 (Z.ltb_ge _ _)) by done. rewrite Hread. by rewrite cstr_id.
Qed.
Lemma grep_handler exec b s k cn pat text : handler b = H_grep -> pipe_input cn = text ++ [NL] -> pat <> [] ->
  Forall (fun c => c <> 0 /\ c <> 13) text -> (length text <= 511)%nat ->
  cli_handler exec b (mkSh s cn k) (mkParsed [lit "grep"; pat] false None None None) =
  Done (if (length (matching pat text) =? 0)%nat then 1 else CLI_OK) (mkSh s (cli_write_raw cn (printed (matching pat text))) k).
Proof.
  intros Hb Hin Hpat Ht Hl. unfold cli_handler. rewrite Hb. cbn [session sys con]. rewrite Hin.
  unfold cli_cmd_grep, cli_read_text_source.
  change (argc (mkParsed [lit "grep"; pat] false None None None)) with 2%nat.
  change (arg (mkParsed [lit "grep"; pat] false None None None) 1) with pat.
  cbn [Nat.ltb Nat.leb]. rewrite (proj2 (Nat.eqb_neq _ 0)) by (rewrite length_app; simpl; lia). cbn [negb].
  rewrite take_ge by (rewrite length_app; simpl; lia). unfold NL.
  assert (Hend : List.filter (fun l => str_contains l pat) (lines_from [] (text ++ [10])) = matching pat text).
  { unfold matching. rewrite lines_from_snoc, List.filter_app. cbn [List.filter]. destruct pat; [done|]. cbn. by rewrite app_nil_r. }
  rewrite grep_loop_spec; [|apply Forall_app; split; [done|by repeat constructor]|constructor|].
  - rewrite Hend. cbn [app lift]. do 2 f_equal. destruct (matching pat text); [done|]. cbn [length].
    by rewrite (proj2 (Z.ltb_lt _ _)) by lia.
  - rewrite lines_from_snoc. apply Forall_app. split; [|constructor; [simpl; lia|constructor]].
    eapply Forall_impl; [apply lines_from_short|]. intros l. simpl. lia.
Qed.

(** A search through a pipe finds what is there: the line "cat FILE | grep WORD", typed in a session
    that may run both commands and read the file - a text of at most 511 bytes without carriage
    returns - prints exactly the lines of the file that contain the word, in their order, and
    nothing else; its result is 0 if there is such a line and 1 if not; the input of the pipe is
    gone afterwards. *)
Lemma cat_grep_prints_matches fuel sh path pat r n buf v1 v2 text :
  word_ok path -> word_ok pat ->
  (length (typed [lit "cat"; path] (Some (typed [lit "grep"; pat] None))) <= 255)%nat ->
  privilege (session sh) <= CLI_PRIV_USER ->
  policy_check_command (ai (sys sh)) (Some (lit "cat")) (u8 (privilege (session sh))) = true ->
  policy_check_command (ai (sys sh)) (Some (lit "grep")) (u8 (privilege (session sh))) = true ->
  kfs_check_perm fs_fuel path (u16 (uid (session sh))) 114 (fs (sys sh)) = (Ok r, v1) -> 0 <= r ->
  kfs_read_file fs_fuel (env (sys sh)) path 511 v1 = (Ok (n, buf), v2) ->
  take (Z.to_nat n) buf = text -> (length text <= 511)%nat -> Forall (fun c => c <> 0 /\ c <> 13) text ->
  exists sh', cli_process_single cli_handler (S (S fuel)) sh (typed [lit "cat"; path] (Some (typed [lit "grep"; pat] None))) =
      Done (if (length (matching pat text) =? 0)%nat then 1 else CLI_OK) sh' /\
    screen (con sh') = screen (con sh) ++ printed (matching pat text) /\
    (forall l, In l (matching pat text) <-> In l (lines_from [] text) /\ exists a b, l = a ++ pat ++ b) /\
    pipe_input (con sh') = [] /\ fs (sys sh') = v2.
Proof.
  intros Hpath Hpat Hlen Hpriv Hpc Hpg Hperm Hr Hread Htext Hl Ht.
  destruct cat_row as (bc & Ec & Hc & Mc). destruct grep_row as (bg & Eg & Hg & Mg).
  assert (Hgl : (length (typed [lit "grep"; pat] None) <= 255)%nat).
  { clear -Hlen. revert Hlen. generalize (typed [lit "grep"; pat] None) as t. intros t.
    unfold typed. rewrite length_app. cbn [length]. lia. }
  assert (Hgnz : Forall (fun c => c <> 0) (typed [lit "grep"; pat] None)).
  { unfold typed. rewrite app_nil_r. apply join_nonzero, two_words; [apply word_grep|done]. }
  assert (Hpg' : cli_parse_command (typed [lit "grep"; pat] None) = (CLI_OK, mkParsed [lit "grep"; pat] false None None None)).
  { apply cli_parse_typed; [apply two_words; [apply word_grep|done]|done|simpl; lia|done|done]. }
  unfold cli_process_single. rewrite cli_parse_typed; [|apply two_words; [apply word_cat|done]|done|simpl; lia|done|].
  2:{ intros t [= <-]. split; [simpl; lia|]. split; [by intros t'|done]. }
  cbn [negb Z.eqb CLI_OK]. set (cmd := mkParsed _ _ _ _ _).
  assert (Hnz : Forall (fun c => c <> 0) (text ++ [NL])).
  { apply Forall_app. split; [|by repeat constructor]. eapply Forall_impl; [exact Ht|]. by intros c [? _]. }
  subst text. set (text := take (Z.to_nat n) buf) in *.
  pose proof (fun e cn => cat_handler e bc (session (started (lit "cat") sh)) (sys (started (lit "cat") sh)) cn path r n buf v1 v2
    (Some (typed [lit "grep"; pat] None)) Hc Hperm Hr Hread ltac:(by apply Forall_app in Hnz as [? _])) as Hcat.
  assert (Hpermc : permitted bc (lit "cat") sh = true).
  { unfold permitted. rewrite Mc, Hpc, (proj2 (Z.ltb_ge _ _)) by done. done. }
  rewrite (pipe_runs cli_handler (S fuel) sh cmd (typed [lit "grep"; pat] None) (lit "cat") bc _ (text ++ [NL]) _ CLI_OK
    (mkParsed [lit "grep"; pat] false None None None) ltac:(done) eq_refl eq_refl ltac:(done) eq_refl Hpg' Ec Hpermc
    (fun e cn _ => Hcat e cn) eq_refl Hnz); [|rewrite length_app; unfold CLI_PIPE_BUF_SIZE; simpl; lia].
  set (sh1 := mkSh _ _ _). cbn [cli_execute_command argv pipe_to].
  rewrite (single_permitted _ sh1 (mkParsed [lit "grep"; pat] false None None None) (lit "grep") [pat] bg eq_refl Eg).
  2:{ unfold permitted. rewrite Mg. change (privilege (session sh1)) with (privilege (session sh)).
      change (ai (sys sh1)) with (ai (sys sh)). rewrite Hpg, (proj2 (Z.ltb_ge _ _)) by done. done. }
  pose proof (grep_handler (cli_execute_command cli_handler fuel) bg (session (started (lit "grep") sh1)) (sys (started (lit "grep") sh1))
    (con sh1) pat text Hg eq_refl ltac:(by destruct Hpat) Ht Hl) as Hgrep.
  change (mkSh (session (started (lit "grep") sh1)) (con sh1) (sys (started (lit "grep") sh1))) with (started (lit "grep") sh1) in Hgrep.
  rewrite Hgrep. cbn [andthen]. eexists. split; [reflexivity|].
  assert (Hpr : Forall (fun c => c <> 0) (printed (matching pat text))).
  { unfold printed, matching. apply Forall_concat, Forall_fmap, Forall_forall. intros l Hin.
    apply list_elem_of_In, filter_In in Hin as [Hin _]. apply Forall_app. split; [|by repeat constructor].
    apply Forall_app in Hnz as [Hnz _]. clear -Hin Hnz. assert (Hcur : Forall (fun c : Z => c <> 0) []) by constructor.
    revert Hcur Hin. generalize (@nil Z) as cur. induction Hnz as [|c t Hc0 Ht IH]; intros cur Hcur; cbn [lines_from].
    - by intros [<-|[]].
    - case_step; [intros [<-|Hin]; [done|by apply (IH [])]|]. apply IH. apply Forall_app. split; [done|by constructor]. }
  split; [|split; [|split; done]].
  - cbn. rewrite write_raw_screen by done. reflexivity.
  - intros l. unfold matching. rewrite filter_In, str_contains_spec. done.
Qed.
End lines.

(** ** Concrete lines *)

(** [echo a && rm /x || echo b; wc /y || echo c]. *)
Definition demo_list : AndOrList := (lit "echo a ", [(true, lit " rm /x "); (false, lit " echo b")]).
Definition demo_lists : list AndOrList := [(lit " wc /y ", [(false, lit " echo c")])].
Lemma process_line_and_or_witness :
  cli_process_line demo_handler 257 (demo_shell (lit "bob") 100 2 []) (lit "echo a && rm /x || echo b; wc /y || echo c") =
  eval_list demo_handler 257 (demo_list :: demo_lists) (demo_shell (lit "bob") 100 2 []).
Proof.
  assert (Hok : Forall and_or_ok (demo_list :: demo_lists)).
  { assert (Hseg : forall seg, (plain false seg && negb (length (span is_blank seg).2 =? 0)%nat) = true -> segment_ok seg).
    { intros seg. rewrite andb_true_iff, negb_true_iff, Nat.eqb_neq. intros [Hp Hl]. split; [exact Hp|].
      by intros En; rewrite En in Hl. }
    repeat (apply Forall_cons; split); try (apply Forall_nil; done); (split; [apply Hseg; vm_compute; reflexivity|]);
      repeat (apply Forall_cons; split); try (apply Forall_nil; done); apply Hseg; vm_compute; reflexivity. }
  exact (process_line_and_or demo_handler 257 (demo_shell (lit "bob") 100 2 []) demo_list demo_lists Hok
    ltac:(simpl; lia) ltac:(refine (bool_decide_unpack _ _); vm_compute; exact I) ltac:(vm_compute; lia) eq_refl).
Defined.

(** A file of three lines. *)
Definition notes : bytes := lit "buy milk" ++ [10] ++ lit "call bob" ++ [10] ++ lit "milk the cow".
Definition notes_fs : Kfs (Bcache RamDisk) := (kfs_write_file (lit "/notes") notes 30 demo_kfs).2.
Definition notes_shell : Sh (E := TableEngine) (D := Bcache RamDisk) (W := unit) :=
  mkSh (demo_session (lit "bob") 100 2) (mkCon false true [] [] []) (demo_sys [] <| fs := notes_fs |>).
Definition notes_perm := kfs_check_perm 5 (lit "/notes") 2 114 notes_fs.
Definition notes_read := kfs_read_file 5 demo_env (lit "/notes") 511 notes_perm.2.
Lemma notes_defs : kfs_check_perm 5 (lit "/notes") 2 114 notes_fs = notes_perm /\
  kfs_read_file 5 demo_env (lit "/notes") 511 notes_perm.2 = notes_read.
Proof. unfold notes_read, notes_perm. done. Qed.
Definition notes_data : Z * bytes := match notes_read.1 with Ok x => x | _ => (0, []) end.
Lemma word_dec w : (negb (length w =? 0)%nat && forallb (fun c => negb (ends_token c) && negb (c =? 0)) w &&
  negb (hd 0 w =? 124)) = true -> word_ok w.
Proof.
  rewrite !andb_true_iff, !negb_true_iff, Nat.eqb_neq, Z.eqb_neq. intros [[Hl Hf] Hh].
  split; [by intros ->|]. split; [|by intros w' ->]. apply Forall_forall. intros c Hc.
  rewrite forallb_forall in Hf. apply list_elem_of_In in Hc. specialize (Hf c Hc).
  rewrite andb_true_iff, !negb_true_iff, Z.eqb_neq in Hf. done.
Qed.
Lemma cat_grep_prints_matches_witness : exists sh',
  cli_process_single demo_handler 257 notes_shell (lit "cat /notes | grep milk") = Done 0 sh' /\
  screen (con sh') = lit "buy milk" ++ [10] ++ lit "milk the cow" ++ [10].
Proof.
  destruct notes_defs as [D1 D2].
  assert (Hperm : kfs_check_perm 5 (lit "/notes") 2 114 notes_fs = (Ok 0, notes_perm.2)).
  { rewrite D1. apply pair_fst. vm_compute. reflexivity. }
  assert (Hread : kfs_read_file 5 demo_env (lit "/notes") 511 notes_perm.2 = (Ok (notes_data.1, notes_data.2), notes_read.2)).
  { rewrite D2. apply pair_fst. vm_compute. reflexivity. }
  assert (Htext : take (Z.to_nat notes_data.1) notes_data.2 = notes) by (vm_compute; reflexivity).
  destruct (cat_grep_prints_matches 5 stack_ctx (zeros 32) no_other 255 notes_shell (lit "/notes") (lit "milk") 0
    notes_data.1 notes_data.2 notes_perm.2 notes_read.2 notes) as (sh' & E1 & S1 & _).
  - apply word_dec. vm_compute. reflexivity.
  - apply word_dec. vm_compute. reflexivity.
  - vm_compute. lia.
  - vm_compute. congruence.
  - vm_compute. reflexivity.
  - vm_compute. reflexivity.
  - exact Hperm.
  - lia.
  - exact Hread.
  - exact Htext.
  - vm_compute. lia.
  - apply Forall_and. split; refine (bool_decide_unpack _ _); vm_compute; exact I.
  - exists sh'. split; [exact E1|]. rewrite S1. vm_compute. reflexivity.
Defined.
