(* ===== verification/Userlib.v ===== *)
(** User space: the C library of the programs and their system calls (src/userlib/syscall.h, libc.c), as interaction
    trees whose events are int 0x80; and a logic for what a program does between its calls, whatever the kernel
    answers. *)

From ITree Require Import ITree.
From S2P Require Import Prelude CString.

(** ** System calls *)

(** What a register holds for the kernel: a value, the address of bytes to be read, the address of a buffer for so many. *)
Variant Arg := Val (v : Z) | In (s : bytes) | Out (n : Z).
(** The call; it returns the value in the result register and the bytes stored in the buffer. *)
Variant Sys : Type -> Type := Int80 (num : Z) (a1 a2 a3 : Arg) : Sys (Z * bytes).
Abbreviation prog := (itree Sys).
#[global] Instance prog_ret : MRet prog := fun A (x : A) => Ret x.
#[global] Instance prog_bind : MBind prog := fun A B f t => ITree.bind t f.
#[global] Instance prog_fmap : FMap prog := fun A B f t => ITree.map f t.

(** [userlib/syscall.h] constants *)
Definition SYS_EXIT := 60.
Definition SYS_WAITPID := 61.
Definition SYS_GETPID := 62.
Definition SYS_KILL := 63.
Definition SYS_OPEN := 66.
Definition SYS_READ_FD := 67.
Definition SYS_WRITE_FD := 68.
Definition SYS_CLOSE := 69.
Definition SYS_DUP := 70.
Definition SYS_DUP2 := 71.
Definition SYS_PIPE := 72.
Definition SYS_FORK := 73.
Definition SYS_EXECVE := 74.
Definition SYS_SBRK := 75.
Definition SYS_MMAP := 76.
Definition SYS_MUNMAP := 77.
Definition SYS_SETUID := 79.
Definition SYS_SETGID := 80.
Definition SYS_GETUID := 81.
Definition SYS_GETGID := 82.
Definition SYS_CHDIR := 83.
Definition SYS_GETCWD := 84.
Definition SYS_UMASK := 85.
Definition SYS_YIELD := 86.
Definition SYS_SOCKET := 87.
Definition SYS_CONNECT := 88.
Definition SYS_BIND := 89.
Definition SYS_AUTH := 90.
Definition SYS_MKDIR2 := 91.
Definition SYS_LISTEN := 92.
Definition SYS_ACCEPT := 93.
Definition SOCK_STREAM := 1.
Definition SOCK_DGRAM := 2.

(** The 64-bit one.
    [userlib/syscall.h:45-54] _syscall3 *)
Definition _syscall3 (num : Z) (a1 a2 a3 : Arg) : prog (Z * bytes) := ITree.trigger (Int80 num a1 a2 a3).
(** [(size_t)v] of an int, the result as an int, a string with its terminator. *)
Definition num (v : Z) : Arg := Val (u64 v).
Definition none : Arg := Val 0.
Definition call_int (n : Z) (a1 a2 a3 : Arg) : prog Z := r ← _syscall3 n a1 a2 a3; mret (i32 r.1).
Definition str (s : bytes) : Arg := In (cstr s ++ [0]).

(** It does not return.
    [userlib/syscall.h] _exit *)
Definition _exit {R} (code : Z) : prog R := _syscall3 SYS_EXIT (num code) none none ≫= fun _ => ITree.spin.
(** [userlib/syscall.h] getpid *)
Definition getpid : prog Z := call_int SYS_GETPID none none none.
(** [userlib/syscall.h] fork *)
Definition fork : prog Z := call_int SYS_FORK none none none.
(** The arguments and the environment do not reach the kernel.
    [userlib/syscall.h] execve *)
Definition execve (path : bytes) (argv envp : list bytes) : prog Z := call_int SYS_EXECVE (str path) none none.
(** [userlib/syscall.h] open *)
Definition open (path : bytes) (flags : Z) : prog Z := call_int SYS_OPEN (str path) (num flags) none.
(** The bytes read and the value returned.
    [userlib/syscall.h] read *)
Definition read (fd count : Z) : prog (Z * bytes) := r ← _syscall3 SYS_READ_FD (num fd) (Out count) (Val count); mret (i32 r.1, r.2).
(** The first [count] bytes are written.
    [userlib/syscall.h] write *)
Definition write (fd : Z) (buf : bytes) (count : Z) : prog Z := call_int SYS_WRITE_FD (num fd) (In buf) (Val count).
(** [userlib/syscall.h] close *)
Definition close (fd : Z) : prog Z := call_int SYS_CLOSE (num fd) none none.
(** [userlib/syscall.h] dup *)
Definition dup (oldfd : Z) : prog Z := call_int SYS_DUP (num oldfd) none none.
(** [userlib/syscall.h] dup2 *)
Definition dup2 (oldfd newfd : Z) : prog Z := call_int SYS_DUP2 (num oldfd) (num newfd) none.
(** [userlib/syscall.h] pipe *)
Definition pipe : prog (Z * bytes) := r ← _syscall3 SYS_PIPE (Out 8) none none; mret (i32 r.1, r.2).
(** [userlib/syscall.h] waitpid *)
Definition waitpid (pid : Z) : prog Z := call_int SYS_WAITPID (num pid) none none.
(** [userlib/syscall.h] kill *)
Definition kill (pid sig : Z) : prog Z := call_int SYS_KILL (num pid) (num sig) none.
(** [userlib/syscall.h] setuid *)
Definition setuid (uid : Z) : prog Z := call_int SYS_SETUID (num uid) none none.
(** [userlib/syscall.h] setgid *)
Definition setgid (gid : Z) : prog Z := call_int SYS_SETGID (num gid) none none.
(** [userlib/syscall.h] getuid *)
Definition getuid : prog Z := call_int SYS_GETUID none none none.
(** [userlib/syscall.h] getgid *)
Definition getgid : prog Z := call_int SYS_GETGID none none none.
(** [userlib/syscall.h] chdir *)
Definition chdir (path : bytes) : prog Z := call_int SYS_CHDIR (str path) none none.
(** [userlib/syscall.h] getcwd_sys *)
Definition getcwd_sys (size : Z) : prog (Z * bytes) := r ← _syscall3 SYS_GETCWD (Out size) (Val size) none; mret (i32 r.1, r.2).
(** [userlib/syscall.h] umask_sys *)
Definition umask_sys (mask : Z) : prog Z := call_int SYS_UMASK (num mask) none none.
(** [userlib/syscall.h] yield *)
Definition yield : prog Z := call_int SYS_YIELD none none none.
(** [userlib/syscall.h] socket *)
Definition socket (type : Z) : prog Z := call_int SYS_SOCKET (num type) none none.
(** [userlib/syscall.h] connect *)
Definition connect (fd ip port : Z) : prog Z := call_int SYS_CONNECT (num fd) (Val (u32 ip)) (Val (u16 port)).
(** [userlib/syscall.h] bind_port *)
Definition bind_port (fd port : Z) : prog Z := call_int SYS_BIND (num fd) (Val (u16 port)) none.
(** [userlib/syscall.h] listen *)
Definition listen (fd : Z) : prog Z := call_int SYS_LISTEN (num fd) none none.
(** [userlib/syscall.h] accept *)
Definition accept (fd : Z) : prog Z := call_int SYS_ACCEPT (num fd) none none.
(** [userlib/syscall.h] auth *)
Definition auth (user pass : bytes) : prog Z := call_int SYS_AUTH (str user) (str pass) none.
(** [userlib/syscall.h] mkdir_sys *)
Definition mkdir_sys (path : bytes) : prog Z := call_int SYS_MKDIR2 (str path) none none.
(** The address is the register's value.
    [userlib/syscall.h] sbrk *)
Definition sbrk (increment : Z) : prog Z := r ← _syscall3 SYS_SBRK (num increment) none none; mret r.1.
(** [userlib/syscall.h] mmap *)
Definition mmap (length prot flags : Z) (path : option bytes) : prog Z :=
  r ← _syscall3 SYS_MMAP (Val length) (Val (u64 (Z.lor (Z.shiftl flags 8) (Z.land prot 0xFF)))) (match path with Some p => str p | None => none end);
  mret r.1.
(** [userlib/syscall.h] munmap *)
Definition munmap (addr length : Z) : prog Z := call_int SYS_MUNMAP (Val addr) (Val length) none.

(** ** The C library *)

(** [userlib/libc.c] strlen *)
Definition strlen (s : bytes) : Z := strlen_loop s 0.
(** [userlib/libc.c] strcmp *)
Fixpoint strcmp (a b : bytes) : Z :=
  match a with
  | x :: a' => if negb (x =? 0) && (x =? char_at b 0) then strcmp a' (tail b) else u8 x - u8 (char_at b 0)
  | [] => - u8 (char_at b 0)
  end.
(** [userlib/libc.c] strncmp *)
Fixpoint strncmp (a b : bytes) (n : nat) : Z :=
  match n with
  | O => 0
  | S n =>
      let x := char_at a 0 in let y := char_at b 0 in
      if negb (x =? y) then u8 x - u8 y else if x =? 0 then 0 else strncmp (tail a) (tail b) n
  end.
(** [userlib/libc.c] strcpy *)
Fixpoint strcpy_from (dst src : bytes) (i : Z) : bytes :=
  match src with
  | c :: src => if c =? 0 then puti dst i 0 else strcpy_from (puti dst i c) src (i + 1)
  | [] => puti dst i 0
  end.
Definition strcpy (dst src : bytes) : bytes := strcpy_from dst src 0.
(** [userlib/libc.c] strncpy *)
Fixpoint strncpy_from (dst src : bytes) (i : Z) (n : nat) : bytes :=
  match n with
  | O => dst
  | S n' =>
      let c := char_at src 0 in
      if c =? 0 then blit dst (Z.to_nat i) (zeros n) else strncpy_from (puti dst i c) (tail src) (i + 1) n'
  end.
Definition strncpy (dst src : bytes) (n : nat) : bytes := strncpy_from dst src 0 n.
(** [userlib/libc.c] memcpy *)
Definition memcpy (dst src : bytes) (n : nat) : bytes := blit dst 0 (read_n src n).
(** [userlib/libc.c] memset *)
Definition memset (dst : bytes) (c : Z) (n : nat) : bytes := blit dst 0 (replicate n (u8 c)).
(** [userlib/libc.c] puts *)
Definition puts (s : bytes) : prog Z :=
  let len := strlen s in
  _ ← write 1 s len;
  _ ← write 1 [10] 1;
  mret (len + 1).

(** One write for each character. *)
Fixpoint put_chars (s : bytes) : prog unit :=
  match s with [] => mret () | c :: s => _ ← write 1 [c] 1; put_chars s end.
(** [userlib/libc.c] _put_uint *)
Definition _put_uint (val : Z) : prog unit :=
  if val =? 0 then _ ← write 1 [48] 1; mret () else put_chars (rev (digits_rev 20 val)).
(** [userlib/libc.c] _put_int *)
Definition _put_int (val : Z) : prog unit :=
  if val <? 0 then _ ← write 1 [45] 1; _put_uint (u64 (- val)) else _put_uint (u64 val).
(** [userlib/libc.c:78-82] _put_hex *)
Fixpoint hex_rev (n : nat) (val : Z) : bytes :=
  match n with
  | O => []
  | S n => if 0 <? val then let nib := Z.land val 0xF in (if nib <? 10 then 48 + nib else 97 + nib - 10) :: hex_rev n (Z.shiftr val 4) else []
  end.
(** [userlib/libc.c] _put_hex *)
Definition _put_hex (val : Z) : prog unit :=
  _ ← write 1 (lit "0x") 2;
  if val =? 0 then _ ← write 1 [48] 1; mret () else put_chars (rev (hex_rev 16 val)).

(** An argument as it is passed: a string that may be null, a number (an int in the low half of its register). *)
Inductive Va := VaStr (s : option bytes) | VaNum (v : Z).
Definition va_str (args : list Va) : bytes := match args with VaStr (Some s) :: _ => s | _ => lit "(null)" end.
Definition va_num (args : list Va) : Z := match args with VaNum v :: _ => v | _ => 0 end.
(** [long] of the whole register. *)
Definition to_long (v : Z) : Z := (v + 2 ^ 63) mod 2 ^ 64 - 2 ^ 63.
(** [userlib/libc.c] printf *)
Fixpoint printf_loop (fmt : bytes) (args : list Va) (count : Z) : prog Z :=
  match fmt with
  | [] => mret count
  | c :: fmt' =>
      if c =? 0 then mret count else
      match fmt' with
      | k :: fmt'' =>
          if (c =? 37) && negb (k =? 0) then
            if k =? 115 then
              let s := va_str args in
              _ ← write 1 s (strlen s);
              printf_loop fmt'' (tail args) (i32 (count + strlen s))
            else if k =? 100 then _ ← _put_int (to_long (va_num args)); printf_loop fmt'' (tail args) (i32 (count + 1))
            else if k =? 117 then _ ← _put_uint (u64 (va_num args)); printf_loop fmt'' (tail args) (i32 (count + 1))
            else if k =? 120 then _ ← _put_hex (u64 (va_num args)); printf_loop fmt'' (tail args) (i32 (count + 1))
            else if k =? 99 then _ ← write 1 [u8 (va_num args)] 1; printf_loop fmt'' (tail args) (i32 (count + 1))
            else if k =? 37 then _ ← write 1 [37] 1; printf_loop fmt'' args (i32 (count + 1))
            else printf_loop fmt'' args count
          else _ ← write 1 [c] 1; printf_loop fmt' args (i32 (count + 1))
      | [] => _ ← write 1 [c] 1; printf_loop fmt' args (i32 (count + 1))
      end
  end.
Definition printf (fmt : bytes) (args : list Va) : prog Z := printf_loop fmt args 0.

(** The allocator's variable and the block; 0 is the null pointer.
    [userlib/libc.c] malloc *)
Definition malloc (heap_cur size : Z) : prog (Z * Z) :=
  if size =? 0 then mret (0, heap_cur) else
  let size := Z.land (u64 (size + 15)) 0xFFFFFFFFFFFFFFF0 in
  heap ← (if heap_cur =? 0 then sbrk 0 else mret heap_cur);
  if (heap_cur =? 0) && (to_long heap <? 0) then mret (0, heap) else
  result ← sbrk (i32 size);
  if to_long result <? 0 then mret (0, heap) else mret (heap, u64 (heap + size)).

Lemma observe_bind {A B} (t : prog A) (k : A -> prog B) : observe (t ≫= k) =
  match observe t with RetF r => observe (k r) | TauF t => TauF (t ≫= k) | VisF e h => VisF e (fun x => h x ≫= k) end.
Proof.
  change (observe (t ≫= k)) with
    (observe (match observe t with RetF r => k r | TauF t => Tau (t ≫= k) | VisF e h => Vis e (fun x => h x ≫= k) end)).
  by destruct (observe t).
Qed.

(** ** Runs

    [serves] says how the kernel may answer a call, and what has become of the world - the caller's kernel state, other
    tasks' steps included - when the program goes on. *)
Section runs.
Context {St : Type} (serves : Z -> Arg -> Arg -> Arg -> Z * bytes -> St -> St -> Prop).

Inductive runs {R} : St -> prog R -> St -> prog R -> Prop :=
| runs_here s t : runs s t s t
| runs_on s t t1 s' t' : observe t = TauF t1 -> runs s t1 s' t' -> runs s t s' t'
| runs_call s t n a1 a2 a3 k r s1 s' t' : observe t = VisF (Int80 n a1 a2 a3) k -> serves n a1 a2 a3 r s s1 -> runs s1 (k r) s' t' -> runs s t s' t'.
(** The program is at a call. *)
Definition asks {R} (t : prog R) (n : Z) (a1 a2 a3 : Arg) : Prop := exists k, observe t = VisF (Int80 n a1 a2 a3) k.

(** [safe n Q s t]: for [n] steps from [s], the program [t] makes only calls that are [allowed]; where it returns, [Q]. *)
Context (allowed : Z -> Arg -> Arg -> Arg -> St -> Prop).
Definition safe_node {R} (next : St -> prog R -> Prop) (Q : R -> St -> Prop) (s : St) (t : itreeF Sys R (prog R)) : Prop :=
  match t with
  | RetF r => Q r s
  | TauF t => next s t
  | VisF c k =>
      match c in Sys X return (X -> prog R) -> Prop with
      | Int80 num a1 a2 a3 => fun k => allowed num a1 a2 a3 s /\ forall r s', serves num a1 a2 a3 r s s' -> next s' (k r)
      end k
  end.
Fixpoint safe {R} (n : nat) (Q : R -> St -> Prop) (s : St) (t : prog R) : Prop :=
  match n with O => True | S n => safe_node (safe n Q) Q s (observe t) end.
(** The same for any number of steps, from any state of [P]. *)
Definition triple {R} (P : St -> Prop) (t : prog R) (Q : R -> St -> Prop) : Prop := forall s, P s -> forall n, safe n Q s t.

(** A run of a safe program asks only what is allowed, and returns what it should. *)
Lemma safe_runs {R} (Q : R -> St -> Prop) s t s' t' : runs s t s' t' -> (forall n, safe n Q s t) -> forall n, safe n Q s' t'.
Proof.
  induction 1 as [s t|s t t1 s' t' Ho _ IH|s t c a1 a2 a3 k r s1 s' t' Ho Hs _ IH]; intros Hsafe; [done|apply IH; intros n..].
  - specialize (Hsafe (S n)). cbn [safe] in Hsafe. by rewrite Ho in Hsafe.
  - specialize (Hsafe (S n)). cbn [safe] in Hsafe. rewrite Ho in Hsafe. by apply Hsafe.
Qed.
Lemma triple_asks {R} (P : St -> Prop) (t : prog R) Q s s' t' c a1 a2 a3 :
  triple P t Q -> P s -> runs s t s' t' -> asks t' c a1 a2 a3 -> allowed c a1 a2 a3 s'.
Proof.
  intros Ht Hp Hr [k Ho]. pose proof (safe_runs Q s t s' t' Hr (Ht s Hp) 1%nat) as Hs. cbn [safe] in Hs. rewrite Ho in Hs. apply Hs.
Qed.

(** ** Rules *)

Lemma safe_mono {R} (Q Q' : R -> St -> Prop) n : forall s t, (forall r s, Q r s -> Q' r s) -> safe n Q s t -> safe n Q' s t.
Proof.
  induction n as [|n IH]; intros s t HQ; cbn [safe]; [done|]. destruct (observe t) as [r|t1|X c k]; cbn; [apply HQ|by apply IH|].
  destruct c. intros [Ha Hk]. split; [done|]. intros r s' Hs. by apply IH, Hk.
Qed.
Lemma safe_less {R} (Q : R -> St -> Prop) n : forall s t, safe (S n) Q s t -> safe n Q s t.
Proof.
  induction n as [|n IH]; intros s t; [done|]. cbn [safe]. destruct (observe t) as [r|t1|X c k]; cbn; [done|apply IH|].
  destruct c. intros [Ha Hk]. split; [done|]. intros r s' Hs. by apply IH, Hk.
Qed.
Lemma safe_le {R} (Q : R -> St -> Prop) n m s t : (m <= n)%nat -> safe n Q s t -> safe m Q s t.
Proof. induction 1 as [|n _ IH]; [done|]. intros Hs. by apply IH, safe_less. Qed.
Lemma safe_ret {R} (Q : R -> St -> Prop) n s r : Q r s -> safe n Q s (mret r).
Proof. by destruct n. Qed.
Lemma safe_bind {A B} (Q : A -> St -> Prop) (Q' : B -> St -> Prop) (k : A -> prog B) n : forall s t, safe n Q s t ->
  (forall r s', Q r s' -> safe n Q' s' (k r)) -> safe n Q' s (t ≫= k).
Proof.
  induction n as [|n IH]; intros s t Ht Hk; [done|].
  assert (Hk' : forall r s', Q r s' -> safe n Q' s' (k r)) by (intros; by apply safe_less, Hk).
  cbn [safe] in *. rewrite observe_bind.
  destruct (observe t) as [r|t1|X c h]; cbn in *; [by apply (Hk r)|by apply IH|].
  destruct c. destruct Ht as [Ha Hh]. split; [done|]. intros r s' Hs. apply IH; [by apply Hh|done].
Qed.
Lemma safe_iter {I R} (body : I -> prog (I + R)) (J : I -> St -> Prop) (Q : R -> St -> Prop) :
  (forall i s, J i s -> forall n, safe n (fun r s => match r with inl i => J i s | inr r => Q r s end) s (body i)) ->
  forall n i s, J i s -> safe n Q s (ITree.iter body i).
Proof.
  intros Hbody. set (k := fun lr : I + R => match lr with inl l => Tau (ITree.iter body l) | inr r => Ret r end).
  induction n as [|n IH]; intros i s Hi; [done|].
  assert (Hb : safe (S n) Q s (body i ≫= k)).
  { eapply safe_bind; [by apply Hbody|]. intros [i'|r] s' Hr; cbn; [by apply IH|done]. }
  exact Hb.
Qed.
Lemma safe_spin {R} (Q : R -> St -> Prop) n : forall s, safe n Q s ITree.spin.
Proof. induction n as [|n IH]; intros s; [done|]. apply IH. Qed.
Lemma safe_call (Q : Z * bytes -> St -> Prop) n s c a1 a2 a3 : allowed c a1 a2 a3 s ->
  (forall r s', serves c a1 a2 a3 r s s' -> Q r s') -> safe n Q s (_syscall3 c a1 a2 a3).
Proof. intros Ha Hq. destruct n as [|n]; [done|]. cbn. split; [done|]. intros r s' Hs. by apply safe_ret, Hq. Qed.
Lemma safe_call_int (Q : Z -> St -> Prop) n s c a1 a2 a3 : allowed c a1 a2 a3 s ->
  (forall r s', serves c a1 a2 a3 r s s' -> Q (i32 r.1) s') -> safe n Q s (call_int c a1 a2 a3).
Proof. intros Ha Hq. eapply safe_bind; [by apply (safe_call (fun r => Q (i32 r.1)))|]. intros r s' Hr. by apply safe_ret. Qed.
Lemma safe_exit {R} (Q : R -> St -> Prop) n s code : allowed SYS_EXIT (num code) none none s -> safe n Q s (_exit code).
Proof. intros Ha. eapply (safe_bind (fun _ _ => True)); [by apply safe_call|]. intros. apply safe_spin. Qed.

(** ** What leaves an invariant alone *)

(** Calls of this number may be made in the states of [J] and keep to them. *)
Definition keeps (J : St -> Prop) (c : Z) : Prop :=
  forall s a1 a2 a3, J s -> allowed c a1 a2 a3 s /\ forall r s', serves c a1 a2 a3 r s s' -> J s'.
Lemma keeps_call (J : St -> Prop) n s c a1 a2 a3 : keeps J c -> J s -> safe n (fun _ => J) s (_syscall3 c a1 a2 a3).
Proof. intros Hk Hj. destruct (Hk s a1 a2 a3 Hj). by apply safe_call. Qed.
Lemma keeps_int (J : St -> Prop) n s c a1 a2 a3 : keeps J c -> J s -> safe n (fun _ => J) s (call_int c a1 a2 a3).
Proof. intros Hk Hj. destruct (Hk s a1 a2 a3 Hj). by apply safe_call_int. Qed.
Lemma keeps_then {A B} (J : St -> Prop) (Q : B -> St -> Prop) n s (t : prog A) (k : A -> prog B) : safe n (fun _ => J) s t ->
  (forall r s', J s' -> safe n Q s' (k r)) -> safe n Q s (t ≫= k).
Proof. apply safe_bind. Qed.

Context (J : St -> Prop) (Hw : keeps J SYS_WRITE_FD).
Lemma write_keeps n s fd buf count : J s -> safe n (fun _ => J) s (write fd buf count).
Proof. by apply keeps_int. Qed.
Lemma puts_keeps n s msg : J s -> safe n (fun _ => J) s (puts msg).
Proof.
  intros Hj. eapply keeps_then; [by apply write_keeps|]. intros _ s1 H1. eapply keeps_then; [by apply write_keeps|]. intros. by apply safe_ret.
Qed.
Lemma put_chars_keeps n cs : forall s, J s -> safe n (fun _ => J) s (put_chars cs).
Proof.
  induction cs as [|c cs IH]; intros s Hj; [by apply safe_ret|]. eapply keeps_then; [by apply write_keeps|]. intros _ s1 H1. by apply IH.
Qed.
Lemma put_uint_keeps n s v : J s -> safe n (fun _ => J) s (_put_uint v).
Proof.
  intros Hj. unfold _put_uint. case_match; [|by apply put_chars_keeps]. eapply keeps_then; [by apply write_keeps|]. intros. by apply safe_ret.
Qed.
Lemma put_int_keeps n s v : J s -> safe n (fun _ => J) s (_put_int v).
Proof.
  intros Hj. unfold _put_int. case_match; [|by apply put_uint_keeps]. eapply keeps_then; [by apply write_keeps|]. intros. by apply put_uint_keeps.
Qed.
Lemma put_hex_keeps n s v : J s -> safe n (fun _ => J) s (_put_hex v).
Proof.
  intros Hj. unfold _put_hex. eapply keeps_then; [by apply write_keeps|]. intros _ s1 H1. case_match; [|by apply put_chars_keeps].
  eapply keeps_then; [by apply write_keeps|]. intros. by apply safe_ret.
Qed.
Lemma printf_keeps n s fmt args : J s -> safe n (fun _ => J) s (printf fmt args).
Proof.
  intros Hj. unfold printf. generalize 0 as count. cut (forall m fmt args s count, (length fmt <= m)%nat -> J s -> safe n (fun _ => J) s (printf_loop fmt args count)); [by eauto|].
  clear - Hw. intros m. induction m as [|m IH]; intros fmt args s count Hlen Hj; (destruct fmt as [|c [|k fmt]]; [by apply safe_ret| |]); cbn [printf_loop length] in *; [lia..| |];
    (destruct (c =? 0); [by apply safe_ret|]).
  - eapply keeps_then; [by apply write_keeps|]. intros. by apply safe_ret.
  - destruct (_ && _); [|eapply keeps_then; [by apply write_keeps|]; intros _ s1 H1; apply (IH (k :: fmt)); [cbn; lia|done]].
    repeat case_match; try (apply IH; [lia|done]);
      (eapply keeps_then; [by (apply write_keeps || apply put_int_keeps || apply put_uint_keeps || apply put_hex_keeps)|]; intros ? s1 ?; apply IH; [lia|done]).
Qed.
End runs.
