(* ===== verification/UserPrograms.v ===== *)
(** The programs of user space (src/userlib): init, getty, login and the user shell vsh, as interaction trees over the
    system calls of [Userlib]; and what they ask of the kernel, whatever it answers. *)

From ITree Require Import ITree.
From S2P Require Import Prelude CString Cli Userlib.

(** ** init and getty *)

(** The next program's path, as the Makefile sets it for the 64-bit init.
    [userlib/init.c:9-11] SHELL_PATH *)
Definition INIT_SHELL : bytes := lit "/sbin/getty64".
(** [userlib/getty.c:9-11] LOGIN_PATH *)
Definition LOGIN_PATH : bytes := lit "/bin/login64".
(** [userlib/login.c:8-10] SHELL_PATH *)
Definition SHELL_PATH : bytes := lit "/bin/vsh64".

(** The child's part of the loop.
    [userlib/init.c:19-24] main *)
Definition become_shell : prog (unit + Z) :=
  _ ← execve INIT_SHELL [] [];
  _ ← puts (lit "init: exec " ++ INIT_SHELL ++ lit " failed");
  _exit 127.
(** [userlib/init.c:27-28] main *)
Fixpoint yields (n : nat) : prog unit := match n with O => mret () | S n => _ ← yield; yields n end.
(** The wait for the child.
    [userlib/init.c:32-40] main *)
Definition reap (pid : Z) : prog unit :=
  ITree.iter (fun _ : unit =>
    code ← waitpid pid;
    if 0 <=? code then _ ← puts (lit "init: shell exited - respawning"); mret (inr ()) else _ ← yield; mret (inl ())) ().
(** [userlib/init.c] main *)
Definition init_main : prog Z :=
  _ ← puts (lit "init: VernisOS user-space init (PID 1)");
  ITree.iter (fun _ : unit =>
    pid ← fork;
    if pid =? 0 then become_shell else
    if pid <? 0 then _ ← puts (lit "init: fork failed, retrying"); _ ← yields 2000; mret (inl ())
    else _ ← reap pid; mret (inl ())) ().

(** [userlib/getty.c:13-17] BANNER *)
Definition BANNER : bytes :=
  [13; 10] ++ lit "  VernisOS  --  Secure Microkernel" ++ [13; 10] ++ lit "  --------------------------------" ++ [13; 10; 13; 10].
(** [userlib/getty.c] main *)
Definition getty_main : prog Z :=
  _ ← write 1 BANNER (strlen BANNER);
  _ ← execve LOGIN_PATH [LOGIN_PATH] [];
  _ ← write 2 (lit "getty: exec login failed" ++ [13; 10]) 26;
  _exit 1.

(** ** login *)

(** [userlib/login.c:12-12] LINE_MAX *)
Definition LINE_MAX := 64.
(** The characters so far.  A read may give nothing yet, then the program yields.
    [userlib/login.c:16-24] readline *)
Definition readline_step (fd max : Z) (buf : bytes) : prog (bytes + bytes) :=
  if Z.of_nat (length buf) <? max - 1 then
    r ← read fd 1;
    if r.1 <? 0 then mret (inr buf) else
    if r.1 =? 0 then _ ← yield; mret (inl buf) else
    let c := char_at r.2 0 in
    if (c =? 13) || (c =? 10) then mret (inr buf) else mret (inl (buf ++ [c]))
  else mret (inr buf).
(** The line, as the string that starts the buffer.
    [userlib/login.c] readline *)
Definition readline (fd max : Z) : prog bytes := ITree.iter (readline_step fd max) [].
(** [userlib/login.c] home_path *)
Definition home_path (uid : Z) (user : bytes) : bytes :=
  if uid =? 0 then lit "/root" else take (Z.to_nat (LINE_MAX - 1)) (lit "/home/" ++ cstr user).

(** From the moment the password is accepted.
    [userlib/login.c:61-76] main *)
Definition enter (user : bytes) (uid : Z) : prog (unit + Z) :=
  let home := home_path uid user in
  _ ← mkdir_sys home;
  r ← chdir home;
  _ ← (if r <? 0 then chdir (lit "/") else mret 0);
  _ ← setgid uid;
  _ ← setuid uid;
  me ← getuid;
  _ ← printf ([13; 10] ++ lit "Welcome %s (uid=%d), home=%s" ++ [13; 10]) [VaStr (Some user); VaNum (u32 me); VaStr (Some home)];
  _ ← printf (lit "shell: %s" ++ [13; 10; 13; 10]) [VaStr (Some SHELL_PATH)];
  _ ← execve SHELL_PATH [SHELL_PATH] [];
  _ ← write 2 (lit "login: exec shell failed" ++ [13; 10]) 26;
  _exit 1.
(** A round of the prompt.
    [userlib/login.c:47-59] main *)
Definition login_round : prog (unit + Z) :=
  _ ← write 1 (lit "login: ") 7;
  user ← readline 0 64;
  _ ← write 1 [13; 10] 2;
  _ ← write 1 (lit "password: ") 10;
  pass ← readline 0 64;
  _ ← write 1 [13; 10] 2;
  uid ← auth user pass;
  if uid <? 0 then _ ← write 1 (lit "Login incorrect" ++ [13; 10; 13; 10]) 19; mret (inl ())
  else enter user uid.
(** [userlib/login.c] main *)
Definition login_main : prog Z := ITree.iter (fun _ : unit => login_round) ().

(** ** vsh

    Buffers are the strings they hold. *)

(** [userlib/vsh.c] has_char *)
Fixpoint has_char (s : bytes) (c : Z) : bool :=
  match s with [] => false | x :: s => if x =? 0 then false else if x =? c then true else has_char s c end.
(** [userlib/vsh.c] strip_trailing_newline *)
Definition strip_trailing_newline (s : bytes) : bytes := rev (span (fun c => (c =? 10) || (c =? 13)) (rev (cstr s))).2.
(** [userlib/vsh.c] safe_copy *)
Definition safe_copy (dst_sz : nat) (src : bytes) : bytes := take (dst_sz - 1) (cstr src).
(** [userlib/vsh.c] safe_append *)
Definition safe_append (dst : bytes) (dst_sz : nat) (src : bytes) : bytes :=
  if (dst_sz <=? length dst)%nat then dst else dst ++ take (dst_sz - 1 - length dst) (cstr src).
(** The words, at most [room]; the rest of the line is passed over.
    [userlib/vsh.c] parse_argv *)
Fixpoint parse_argv (fuel : nat) (line : bytes) (room : nat) : list bytes :=
  match fuel with
  | O => []
  | S fuel =>
      let p := (span is_blank line).2 in
      match p, room with
      | [], _ | _, O => []
      | _, S room => let '(word, rest) := span (fun c => negb (is_blank c)) p in word :: parse_argv fuel (cut rest) room
      end
  end.
(** [userlib/vsh.c] resolve_exec_path *)
Definition resolve_exec_path (out_sz : nat) (cwd cmd : bytes) : bytes :=
  if char_at cmd 0 =? 47 then safe_copy out_sz cmd
  else if negb (has_char cmd 47) then safe_append (safe_copy out_sz (lit "/bin/")) out_sz cmd
  else
    let out := safe_copy out_sz cwd in
    let out := if negb (char_at out 0 =? 0) && negb (char_at out (strlen out - 1) =? 47) then safe_append out out_sz (lit "/") else out in
    safe_append out out_sz cmd.
(** The directory above: the slashes at the end, then the last name.
    [userlib/vsh.c:104-105] set_cwd *)
Definition parent_dir (cwd : bytes) : bytes :=
  let r := (span (Z.eqb 47) (rev cwd)).2 in
  rev (span (fun c => negb (c =? 47)) r).2.
(** [userlib/vsh.c] set_cwd *)
Definition set_cwd (cwd_sz : nat) (cwd path : bytes) : bytes :=
  if char_at path 0 =? 0 then cwd else
  if char_at path 0 =? 47 then safe_copy cwd_sz path else
  if strcmp path (lit ".") =? 0 then cwd else
  if strcmp path (lit "..") =? 0 then
    if strlen cwd <=? 1 then safe_copy cwd_sz (lit "/") else
    match parent_dir cwd with [] => safe_copy cwd_sz (lit "/") | cwd => cwd end
  else
    let cwd := if negb (char_at cwd 0 =? 0) && negb (char_at cwd (strlen cwd - 1) =? 47) then safe_append cwd cwd_sz (lit "/") else cwd in
    safe_append cwd cwd_sz path.

(** [userlib/vsh.c:6-7] VSH_LINE_MAX *)
Definition VSH_LINE_MAX := 256.
Definition VSH_ARG_MAX : nat := 16.
(** [userlib/vsh.c:125-130] main *)
Definition next_line : prog bytes :=
  ITree.iter (fun _ : unit =>
    r ← read 0 (VSH_LINE_MAX - 1);
    mret (if r.1 <=? 0 then inl () else inr (take (Z.to_nat r.1) r.2))) ().
(** [userlib/vsh.c:157-171] main *)
Definition run_command (cwd : bytes) (argv : list bytes) : prog (bytes + Z) :=
  let exec_path := resolve_exec_path 64 cwd (default [] (head argv)) in
  pid ← fork;
  if pid <? 0 then _ ← puts (lit "fork failed"); mret (inl cwd) else
  if pid =? 0 then
    _ ← execve exec_path argv [];
    _ ← puts (lit "execve failed");
    _exit 127
  else
  _ ← waitpid pid;
  mret (inl cwd).
(** A line of input.
    [userlib/vsh.c:121-172] main *)
Definition vsh_round (cwd : bytes) : prog (bytes + Z) :=
  _ ← write 1 cwd (strlen cwd);
  _ ← write 1 (lit " $ ") 3;
  line ← next_line;
  let line := strip_trailing_newline line in
  match parse_argv (length line) line (VSH_ARG_MAX - 1) with
  | [] => mret (inl cwd)
  | cmd :: args =>
      if strcmp cmd (lit "exit") =? 0 then mret (inr 0) else
      if strcmp cmd (lit "cd") =? 0 then
        match args with
        | [] => _ ← puts (lit "cd: missing operand"); mret (inl cwd)
        | path :: _ => mret (inl (set_cwd 64 cwd path))
        end
      else if strcmp cmd (lit "help") =? 0 then
        _ ← puts (lit "builtins: help, cd, exit");
        _ ← puts (lit "external: command -> /bin/command");
        mret (inl cwd)
      else run_command cwd (cmd :: args)
  end.
(** [userlib/vsh.c] main *)
Definition vsh_main : prog Z :=
  _ ← puts (lit "VernisOS vsh (user mode)");
  _ ← puts (lit "type 'exit' to quit");
  ITree.iter vsh_round (safe_copy 64 (lit "/")).

(** ** What login promises

    What it needs of the kernel: who the caller is, and what the calls do to that. *)
Class UserKernel (St : Type) := {
  serves : Z -> Arg -> Arg -> Arg -> Z * bytes -> St -> St -> Prop;
  kernel_ok : St -> Prop;
  uid_of : St -> Z;
  gid_of : St -> Z;
  accepts : St -> bytes -> bytes -> Z -> Prop }.
(** Names and passwords with which one is accepted do not change while the program runs. *)
Definition same_accounts {St} `{UserKernel St} (s s' : St) : Prop := forall u p i, accepts s' u p i <-> accepts s u p i.
(** The calls that login makes before it runs the shell. *)
Definition login_calls : list Z :=
  [SYS_READ_FD; SYS_WRITE_FD; SYS_YIELD; SYS_AUTH; SYS_MKDIR2; SYS_CHDIR; SYS_SETGID; SYS_SETUID; SYS_GETUID].
Class UserKernelLaws (St : Type) `{UserKernel St} := {
  uk_accounts c a1 a2 a3 r s s' : c ∈ login_calls -> kernel_ok s -> serves c a1 a2 a3 r s s' -> kernel_ok s' /\ same_accounts s s';
  uk_same c a1 a2 a3 r s s' : c ∈ login_calls -> c <> SYS_SETUID -> c <> SYS_SETGID -> kernel_ok s -> serves c a1 a2 a3 r s s' ->
    uid_of s' = uid_of s /\ gid_of s' = gid_of s;
  uk_auth u p a3 r s s' : kernel_ok s -> serves SYS_AUTH (str u) (str p) a3 r s s' -> 0 <= i32 r.1 -> accepts s u p (i32 r.1);
  uk_setgid g a2 a3 r s s' : kernel_ok s -> uid_of s = 0 -> serves SYS_SETGID (Val g) a2 a3 r s s' -> uid_of s' = 0 /\ gid_of s' = u16 g;
  uk_setuid u a2 a3 r s s' : kernel_ok s -> uid_of s = 0 -> serves SYS_SETUID (Val u) a2 a3 r s s' -> uid_of s' = u16 u /\ gid_of s' = gid_of s;
  uk_uid s u p i : kernel_ok s -> accepts s u p i -> 0 <= i < 2 ^ 16 }.

Section login.
Context {St : Type} `{UserKernelLaws St}.
Implicit Types (s : St).

(** login asks for the shell as the user whose name and password it has had accepted, and for no other program. *)
Definition as_user (s0 : St) (c : Z) (a1 a2 a3 : Arg) s : Prop :=
  c = SYS_EXECVE -> a1 = str SHELL_PATH /\ exists user pass uid, accepts s0 user pass uid /\ uid_of s = uid /\ gid_of s = uid.
(** The states in which login runs as root, and those in which it runs as [uid]. *)
Definition at_root (s0 s : St) : Prop := kernel_ok s /\ same_accounts s0 s /\ uid_of s = 0.
Definition at_user (s0 : St) (uid : Z) (s : St) : Prop := kernel_ok s /\ uid_of s = uid /\ gid_of s = uid.

Lemma root_keeps s0 c : c ∈ login_calls -> c <> SYS_SETUID -> c <> SYS_SETGID -> c <> SYS_EXECVE -> keeps serves (as_user s0) (at_root s0) c.
Proof.
  intros Hc N1 N2 N3 s a1 a2 a3 (Hok & Hacc & Hu). split; [done|]. intros r s' Hs.
  destruct (uk_accounts c a1 a2 a3 r s s' Hc Hok Hs) as [Hok' Ha']. destruct (uk_same c a1 a2 a3 r s s' Hc N1 N2 Hok Hs) as [Eu _].
  split; [done|]. split; [|congruence]. intros u p i. unfold same_accounts in *. rewrite Ha'. apply Hacc.
Qed.
Lemma user_keeps s0 uid c : c ∈ login_calls -> c <> SYS_SETUID -> c <> SYS_SETGID -> c <> SYS_EXECVE -> keeps serves (as_user s0) (at_user s0 uid) c.
Proof.
  intros Hc N1 N2 N3 s a1 a2 a3 (Hok & Hu & Hg). split; [done|]. intros r s' Hs.
  destruct (uk_accounts c a1 a2 a3 r s s' Hc Hok Hs) as [Hok' _]. destruct (uk_same c a1 a2 a3 r s s' Hc N1 N2 Hok Hs) as [Eu Eg].
  split; [done|]. split; congruence.
Qed.
#[local] Ltac by_call := first [apply root_keeps | apply user_keeps]; [refine (bool_decide_unpack _ _); vm_compute; exact I|vm_compute; congruence..].

Lemma readline_root s0 n s fd max : at_root s0 s -> safe serves (as_user s0) n (fun _ => at_root s0) s (readline fd max).
Proof.
  intros Hj. unfold readline. apply (safe_iter _ _ _ (fun _ => at_root s0)); [|done]. clear s n Hj. intros buf s Hj n. unfold readline_step.
  case_match; [|by apply safe_ret]. eapply keeps_then; [eapply keeps_then; [apply (keeps_call _ _ (at_root s0)); [by_call|done]|intros; by apply safe_ret]|].
  intros r s1 K1. case_match; [by apply safe_ret|]. case_match.
  - eapply keeps_then; [apply (keeps_int _ _ (at_root s0)); [by_call|done]|]. intros. by apply safe_ret.
  - cbv zeta. case_match; by apply safe_ret.
Qed.
Lemma write_root s0 n s fd buf k : at_root s0 s -> safe serves (as_user s0) n (fun _ => at_root s0) s (write fd buf k).
Proof. apply write_keeps. by_call. Qed.
Lemma chdir_root s0 n s path : at_root s0 s -> safe serves (as_user s0) n (fun _ => at_root s0) s (chdir path).
Proof. apply keeps_int. by_call. Qed.

(** Root's credentials become the user's. *)
Lemma drop_rights {A} s0 uid (Q : A -> St -> Prop) (k : prog A) n s : 0 <= uid < 2 ^ 16 -> at_root s0 s ->
  (forall s', at_user s0 uid s' -> safe serves (as_user s0) n Q s' k) -> safe serves (as_user s0) n Q s (_ ← setgid uid; _ ← setuid uid; k).
Proof.
  intros Hu (Hok & Hacc & Hz) Hk. assert (E1 : u64 uid = uid) by (apply u64_id; ulia). assert (E2 : u16 uid = uid) by (by apply u16_id).
  assert (Hin : forall c, c = SYS_SETGID \/ c = SYS_SETUID -> c ∈ login_calls) by (intros c [-> | ->]; refine (bool_decide_unpack _ _); vm_compute; exact I).
  set (J1 := fun s => kernel_ok s /\ uid_of s = 0 /\ gid_of s = uid).
  eapply (safe_bind _ _ (fun _ => J1)); [apply safe_call_int; [done|]|].
  { intros r s1 Hs. unfold num in Hs. rewrite E1 in Hs. destruct (uk_setgid _ _ _ _ _ _ Hok Hz Hs) as [U G]. rewrite E2 in G.
    split; [by eapply (uk_accounts SYS_SETGID); [apply Hin; by left|done|exact Hs]|by split]. }
  intros _ s1 (Hok1 & U1 & G1). eapply (safe_bind _ _ (fun _ => at_user s0 uid)); [apply safe_call_int; [done|]|].
  - intros r s2 Hs. unfold num in Hs. rewrite E1 in Hs. destruct (uk_setuid _ _ _ _ _ _ Hok1 U1 Hs) as [U G]. rewrite E2 in U.
    split; [by eapply (uk_accounts SYS_SETUID); [apply Hin; by right|done|exact Hs]|]. split; congruence.
  - intros _ s2 K2. by apply Hk.
Qed.
Lemma enter_safe s0 user pass uid n s : kernel_ok s0 -> accepts s0 user pass uid -> at_root s0 s ->
  safe serves (as_user s0) n (fun r s => match r with inl _ => at_root s0 s | inr _ => True end) s (enter user uid).
Proof.
  intros Hok0 Ha Hj. pose proof (uk_uid _ _ _ _ Hok0 Ha) as Hr. unfold enter. cbv zeta.
  eapply keeps_then; [apply (keeps_int _ _ (at_root s0)); [by_call|done]|]. intros _ s1 K1.
  eapply keeps_then; [by apply chdir_root|]. intros r s2 K2.
  eapply (keeps_then _ _ (at_root s0)); [case_match; [by apply chdir_root|by apply safe_ret]|]. intros _ s3 K3.
  apply drop_rights; [done|done|]. intros s4 K4.
  assert (Hw : keeps serves (as_user s0) (at_user s0 uid) SYS_WRITE_FD) by by_call.
  eapply keeps_then; [apply (keeps_int _ _ (at_user s0 uid)); [by_call|done]|]. intros me s5 K5.
  eapply keeps_then; [by apply (printf_keeps _ _ _ Hw)|]. intros _ s6 K6. eapply keeps_then; [by apply (printf_keeps _ _ _ Hw)|]. intros _ s7 (Kx & U7 & G7).
  eapply (safe_bind _ _ (fun _ _ => True)); [apply safe_call_int; [|done]|].
  - intros _. split; [done|]. by exists user, pass, uid.
  - intros _ s8 _. eapply (safe_bind _ _ (fun _ _ => True)); [by apply safe_call_int|]. intros. by apply safe_exit.
Qed.
Lemma login_safe s0 : kernel_ok s0 -> uid_of s0 = 0 -> triple serves (as_user s0) (fun s => s = s0) login_main (fun _ _ => True).
Proof.
  intros Hok Hu s -> n. unfold login_main. apply (safe_iter _ _ _ (fun _ => at_root s0)); [|done]. clear n Hu. intros _ s Hj n. unfold login_round.
  eapply keeps_then; [by apply write_root|]. intros _ s1 K1. eapply keeps_then; [by apply readline_root|]. intros user s2 K2.
  eapply keeps_then; [by apply write_root|]. intros _ s3 K3. eapply keeps_then; [by apply write_root|]. intros _ s4 K4.
  eapply keeps_then; [by apply readline_root|]. intros pass s5 K5. eapply keeps_then; [by apply write_root|]. intros _ s6 K6.
  assert (Ka : keeps serves (as_user s0) (at_root s0) SYS_AUTH) by by_call.
  eapply (safe_bind _ _ (fun uid s => at_root s0 s /\ (0 <= uid -> accepts s0 user pass uid))).
  - apply safe_call_int; [done|]. intros r s' Hs. destruct (Ka s6 (str user) (str pass) none K6) as [_ Hk]. split; [by eapply Hk|].
    intros Hr. destruct K6 as (Hok6 & Hacc & _). apply Hacc. by eapply uk_auth.
  - intros uid s7 [K7 Ha]. case_match; [|by apply (enter_safe s0 user pass); [|apply Ha; lia|]].
    eapply keeps_then; [by apply write_root|]. intros. by apply safe_ret.
Qed.
End login.

(** ** What vsh asks for

    Whatever the system answers, vsh runs programs by absolute paths that fit its buffers, and never changes the kernel's
    idea of its directory: cd is a note to itself. *)
Definition dir_ok (cwd : bytes) : Prop := char_at cwd 0 = 47 /\ (length cwd <= 63)%nat /\ Forall (fun c => c <> 0) cwd.
Definition vsh_calls (c : Z) (a1 a2 a3 : Arg) (_ : unit) : Prop :=
  c <> SYS_CHDIR /\ (c = SYS_EXECVE -> exists path, a1 = str path /\ dir_ok path /\ a2 = none /\ a3 = none).

Lemma cstr_no_nul s : Forall (fun c => c <> 0) (cstr s).
Proof. induction s as [|c s IH]; cbn [cstr]; [constructor|]. case_match; [constructor|]. constructor; [lia|done]. Qed.
Lemma safe_copy_ok s n : (n <= 64)%nat -> char_at s 0 = 47 -> (2 <= n)%nat -> dir_ok (safe_copy n s).
Proof.
  intros Hn Hs H2. unfold safe_copy. destruct s as [|c s]; [done|]. assert (c = 47) as -> by exact Hs. cbn [cstr]. change (47 =? 0) with false.
  destruct n as [|[|n]]; [lia..|]. cbn [Nat.sub take]. split; [done|]. split; [cbn; rewrite length_take; lia|].
  constructor; [lia|]. apply Forall_take, cstr_no_nul.
Qed.
Lemma safe_append_ok d n s : (n <= 64)%nat -> dir_ok d -> dir_ok (safe_append d n s).
Proof.
  intros Hn (H1 & H2 & H3). unfold safe_append. case_match; [done|]. destruct d as [|c d]; [done|]. split; [done|]. split.
  - rewrite length_app, length_take. pose proof (Nat.leb_gt n (length (c :: d))). cbn in *. lia.
  - apply Forall_app. split; [done|]. apply Forall_take, cstr_no_nul.
Qed.
Lemma slash_ok d : dir_ok d -> dir_ok (if negb (char_at d 0 =? 0) && negb (char_at d (strlen d - 1) =? 47) then safe_append d 64 (lit "/") else d).
Proof. intros Hd. case_match; [by apply safe_append_ok|done]. Qed.
Lemma resolve_ok cwd cmd : dir_ok cwd -> dir_ok (resolve_exec_path 64 cwd cmd).
Proof.
  intros Hc. unfold resolve_exec_path. destruct (Z.eqb_spec (char_at cmd 0) 47); [by apply safe_copy_ok; [lia|done|lia]|].
  destruct (negb _); [apply safe_append_ok; [lia|apply safe_copy_ok; [lia|done|lia]]|].
  cbv zeta. apply safe_append_ok; [lia|]. apply slash_ok, safe_copy_ok; [lia|apply Hc|lia].
Qed.
Lemma span_parts f (l : bytes) : l = (span f l).1 ++ (span f l).2.
Proof. induction l as [|c l IH]; [done|]. cbn [span]. destruct (f c); [|done]. destruct (span f l). cbn in *. by rewrite IH. Qed.
Lemma parent_ok cwd : dir_ok cwd -> parent_dir cwd = [] \/ dir_ok (parent_dir cwd).
Proof.
  intros (H1 & H2 & H3). unfold parent_dir. set (r1 := (span (Z.eqb 47) (rev cwd)).2). set (r2 := (span _ r1).2).
  assert (E : cwd = rev r2 ++ rev (span (fun c => negb (c =? 47)) r1).1 ++ rev (span (Z.eqb 47) (rev cwd)).1).
  { rewrite app_assoc, <- rev_app_distr, <- span_parts, <- rev_app_distr, <- span_parts. by rewrite rev_involutive. }
  destruct (rev r2) as [|c l] eqn:Er; [by left|]. right. rewrite E in H1, H2, H3. apply Forall_app in H3 as [H3 _]. rewrite length_app in H2.
  split; [done|]. split; [lia|done].
Qed.
Lemma set_cwd_ok cwd path : dir_ok cwd -> dir_ok (set_cwd 64 cwd path).
Proof.
  intros Hc. unfold set_cwd. destruct (_ =? 0); [done|]. destruct (Z.eqb_spec (char_at path 0) 47); [by apply safe_copy_ok; [lia|done|lia]|].
  destruct (_ =? 0); [done|]. destruct (_ =? 0).
  - destruct (_ <=? 1); [apply safe_copy_ok; [lia|done|lia]|]. destruct (parent_ok cwd Hc) as [-> | Hp]; [apply safe_copy_ok; [lia|done|lia]|].
    destruct (parent_dir cwd) as [|x l]; [by destruct Hp|done].
  - cbv zeta. apply safe_append_ok; [lia|]. by apply slash_ok.
Qed.

Section vsh.
Context (serves : Z -> Arg -> Arg -> Arg -> Z * bytes -> unit -> unit -> Prop).
Lemma any_keeps c : c <> SYS_CHDIR -> c <> SYS_EXECVE -> keeps serves vsh_calls (fun _ => True) c.
Proof. intros N1 N2 s a1 a2 a3 _. by split. Qed.
#[local] Ltac any_call := apply any_keeps; vm_compute; congruence.
Lemma write_any : keeps serves vsh_calls (fun _ => True) SYS_WRITE_FD.
Proof. any_call. Qed.
(** The next round starts in a proper directory. *)
Definition round_ok (r : bytes + Z) (_ : unit) : Prop := match r with inl cwd => dir_ok cwd | inr _ => True end.
Lemma run_command_safe cwd argv n s : dir_ok cwd -> safe serves vsh_calls n round_ok s (run_command cwd argv).
Proof.
  intros Hc. unfold run_command. cbv zeta.
  eapply (keeps_then _ _ (fun _ => True)); [apply keeps_int; [any_call|done]|]. intros pid s1 _. case_match.
  { eapply (keeps_then _ _ (fun _ => True)); [by apply (puts_keeps _ _ _ write_any)|]. intros. by apply safe_ret. }
  case_match.
  - eapply (safe_bind _ _ (fun _ _ => True)); [apply safe_call_int; [|done]|].
    + split; [vm_compute; congruence|]. intros _. eexists. split; [reflexivity|]. split; [by apply resolve_ok|done].
    + intros _ s2 _. eapply (keeps_then _ _ (fun _ => True)); [by apply (puts_keeps _ _ _ write_any)|]. intros. apply safe_exit. by split.
  - eapply (keeps_then _ _ (fun _ => True)); [apply keeps_int; [any_call|done]|]. intros. by apply safe_ret.
Qed.
Lemma vsh_round_safe cwd n s : dir_ok cwd -> safe serves vsh_calls n round_ok s (vsh_round cwd).
Proof.
  intros Hc. unfold vsh_round. pose proof (puts_keeps _ _ _ write_any) as Hp.
  eapply (keeps_then _ _ (fun _ => True)); [by apply (write_keeps _ _ _ write_any)|]. intros _ s1 _.
  eapply (keeps_then _ _ (fun _ => True)); [by apply (write_keeps _ _ _ write_any)|]. intros _ s2 _.
  eapply (keeps_then _ _ (fun _ => True)).
  { apply (safe_iter _ _ _ (fun _ _ => True)); [|done]. intros _ s' _ m. eapply (keeps_then _ _ (fun _ => True)).
    - eapply (keeps_then _ _ (fun _ => True)); [apply keeps_call; [any_call|done]|]. intros. by apply safe_ret.
    - intros r s'' _. apply safe_ret. by case_match. }
  intros line s3 _. cbv zeta. destruct (parse_argv _ _ _) as [|cmd args]; [by apply safe_ret|].
  case_match; [by apply safe_ret|]. case_match.
  { destruct args as [|path args]; [|by apply safe_ret, set_cwd_ok]. eapply (keeps_then _ _ (fun _ => True)); [by apply Hp|]. intros. by apply safe_ret. }
  case_match; [|by apply run_command_safe].
  eapply (keeps_then _ _ (fun _ => True)); [by apply Hp|]. intros. eapply (keeps_then _ _ (fun _ => True)); [by apply Hp|]. intros. by apply safe_ret.
Qed.
(** In every run, for any answers: programs by absolute paths of at most 63 characters, without their arguments, and no
    change of directory. *)
Lemma vsh_asks s t c a1 a2 a3 : runs serves () vsh_main s t -> asks t c a1 a2 a3 -> vsh_calls c a1 a2 a3 s.
Proof.
  intros Hr Ha. refine (triple_asks serves vsh_calls (fun _ => True) vsh_main (fun _ _ => True) () s t c a1 a2 a3 _ I Hr Ha).
  intros s0 _ n. pose proof (puts_keeps _ _ _ write_any) as Hp. unfold vsh_main.
  eapply (keeps_then _ _ (fun _ => True)); [by apply Hp|]. intros _ s1 _. eapply (keeps_then _ _ (fun _ => True)); [by apply Hp|]. intros _ s2 _.
  apply (safe_iter _ _ _ (fun cwd _ => dir_ok cwd)); [|apply safe_copy_ok; [lia|done|lia]].
  intros cwd s3 Hc m. eapply safe_mono; [|by apply vsh_round_safe]. intros [cwd'|r] s''; done.
Qed.
End vsh.
(** A long name runs another program: the one its first 58 characters name. *)
Lemma long_name_runs_another cwd name : (58 <= length name)%nat -> Forall (fun c => c <> 0 /\ c <> 47) name ->
  resolve_exec_path 64 cwd name = lit "/bin/" ++ take 58 name.
Proof.
  intros Hl Hn. assert (Hc : cstr name = name) by (clear Hl; induction Hn as [|c l [H1 _] _ IH]; [done|]; cbn [cstr]; rewrite (proj2 (Z.eqb_neq c 0)), IH by done; done).
  assert (Hs : has_char name 47 = false).
  { clear Hl Hc. induction Hn as [|c l [H1 H2] _ IH]; [done|]. cbn [has_char]. by rewrite (proj2 (Z.eqb_neq c 0)), (proj2 (Z.eqb_neq c 47)), IH by done. }
  unfold resolve_exec_path. rewrite Hs. destruct name as [|c name]; [cbn in Hl; lia|]. pose proof (Forall_inv Hn) as [_ H47].
  change (char_at (c :: name) 0) with c. rewrite (proj2 (Z.eqb_neq c 47)) by done. cbn [negb].
  change (safe_copy 64 (lit "/bin/")) with (lit "/bin/"). unfold safe_append. by rewrite Hc.
Qed.
