(* ===== verification/UserKernel.v ===== *)
(** User programs on the kernel: the system calls of [Syscalls] are what [UserPrograms] asks of a kernel, so that
    login's promise holds of the whole: the shell runs as the user whose password was typed. *)

From ITree Require Import ITree.
From S2P Require Import Prelude CString BlockDev Bcache VernisFs Kfs Sha256 UserDb Tcp Udp Frames Paging AddressSpace Console Kernel Tasks Isolation Fds Elf Syscalls Processes Userlib UserPrograms.

(** The numbers of the library are the dispatcher's. *)
Lemma numbers_match :
  [Userlib.SYS_EXIT; Userlib.SYS_WAITPID; Userlib.SYS_GETPID; Userlib.SYS_KILL; Userlib.SYS_OPEN; Userlib.SYS_READ_FD; Userlib.SYS_WRITE_FD;
   Userlib.SYS_CLOSE; Userlib.SYS_DUP; Userlib.SYS_DUP2; Userlib.SYS_PIPE; Userlib.SYS_FORK; Userlib.SYS_EXECVE; Userlib.SYS_SBRK;
   Userlib.SYS_MMAP; Userlib.SYS_MUNMAP; Userlib.SYS_SETUID; Userlib.SYS_SETGID; Userlib.SYS_GETUID; Userlib.SYS_GETGID; Userlib.SYS_CHDIR;
   Userlib.SYS_GETCWD; Userlib.SYS_UMASK; Userlib.SYS_YIELD; Userlib.SYS_SOCKET; Userlib.SYS_CONNECT; Userlib.SYS_BIND; Userlib.SYS_AUTH;
   Userlib.SYS_MKDIR2; Userlib.SYS_LISTEN; Userlib.SYS_ACCEPT] =
  [Syscalls.SYS_EXIT; Syscalls.SYS_WAITPID; Syscalls.SYS_GETPID; Syscalls.SYS_KILL; Syscalls.SYS_OPEN; Syscalls.SYS_READ_FD; Syscalls.SYS_WRITE_FD;
   Syscalls.SYS_CLOSE; Syscalls.SYS_DUP; Syscalls.SYS_DUP2; Syscalls.SYS_PIPE; Syscalls.SYS_FORK; Syscalls.SYS_EXECVE; Syscalls.SYS_SBRK;
   Syscalls.SYS_MMAP; Syscalls.SYS_MUNMAP; Syscalls.SYS_SETUID; Syscalls.SYS_SETGID; Syscalls.SYS_GETUID; Syscalls.SYS_GETGID; Syscalls.SYS_CHDIR;
   Syscalls.SYS_GETCWD; Syscalls.SYS_UMASK; Syscalls.SYS_YIELD; Syscalls.SYS_SOCKET; Syscalls.SYS_CONNECT; Syscalls.SYS_BIND; Syscalls.SYS_AUTH;
   Syscalls.SYS_MKDIR2; Syscalls.SYS_LISTEN; Syscalls.SYS_ACCEPT].
Proof. reflexivity. Qed.

Section user_kernel.
Context {D Sc : Type} `{BlockDev D} `{Scheduler Sc}.
Variable fuel : nat.
Context (tcp_output : Z -> bytes -> Z) (udp_output : Z -> Z -> bytes -> Z) (around : Z -> Z).
Context (bcache_sync : D -> Z * D) (kernel_call : Kernel D Sc -> Z -> Z -> Z -> Z -> Z * Kernel D Sc).
Context (interrupts : Kernel D Sc -> Kernel D Sc) (polls : nat) (garbage : Sha256Context) (stack : bytes).
Implicit Types (st : Kernel D Sc) (frame : InterruptFrame).
Abbreviation int80 := (syscall fuel tcp_output udp_output around bcache_sync kernel_call interrupts polls garbage stack).

(** A register carries an argument: the value, or the address of bytes in the caller's memory. *)
Definition carries st (a : Arg) (v : Z) : Prop :=
  0 <= v < 2 ^ 64 /\ match a with Val n => v = n | In s => v <> 0 /\ load_bytes st (length s) v = Some s | Out _ => True end.
(** What a buffer holds after the call. *)
Definition brings st (a : Arg) (v : Z) (out : bytes) : Prop :=
  match a with Out n => load_bytes st (Z.to_nat n) v = Some out | _ => True end.
(** Until the caller goes on, interrupts come and other tasks run; its credentials stay
    (Processes.credentials_protected), and the table of users, which is read at the start only. *)
Definition resumed st st' : Prop :=
  kernel_wf st' /\ users st' = users st /\ t_uid (cur st') = t_uid (cur st) /\ t_gid (cur st') = t_gid (cur st).
Definition kernel_serves (c : Z) (a1 a2 a3 : Arg) (r : Z * bytes) st st' : Prop :=
  exists frame frame' st1, f_rax frame = c /\ carries st a1 (f_rbx frame) /\ carries st a2 (f_rcx frame) /\ carries st a3 (f_rdx frame) /\
    int80 st frame = Some (frame', st1) /\ r.1 = f_rax frame' /\ brings st1 a1 (f_rbx frame) r.2 /\ brings st1 a2 (f_rcx frame) r.2 /\
    brings st1 a3 (f_rdx frame) r.2 /\ resumed st1 st'.
(** The password is the user's, and [uid] the user's number. *)
Definition password_of st (user pass : bytes) (uid : Z) : Prop :=
  0 <= userdb_authenticate garbage (users st) (cstr user) (Some (cstr pass)) /\ userdb_find_uid (users st) (Some (cstr user)) = uid /\ 0 <= uid.
#[export] Instance kernel_user : UserKernel (Kernel D Sc) := {
  serves := kernel_serves;
  kernel_ok st := kernel_wf st /\ (length (g_users (users st)) <= 8)%nat;
  uid_of st := t_uid (cur st);
  gid_of st := t_gid (cur st);
  accepts := password_of }.

(** ** Strings in the caller's memory *)

Lemma load_user st n va s : load_bytes st (S n) va = Some s -> exists c s', s = c :: s' /\ user_load st va = Some c /\ load_bytes st n (va + 1) = Some s'.
Proof. cbn [load_bytes]. destruct (user_load st va) as [c|]; [|done]. destruct (load_bytes _ _ _) as [s'|]; [|done]. intros [= <-]. by exists c, s'. Qed.
Lemma path_loop_string st s : forall n va, load_bytes st (length (cstr s) + 1) va = Some (cstr s ++ [0]) ->
  match path_loop st n va with Some (Some p) => p = cstr s | _ => True end.
Proof.
  induction s as [|c s IH]; intros n va Hl; (destruct n as [|n]; [done|]); cbn [path_loop cstr] in *.
  - destruct (load_user _ _ _ _ Hl) as (c & s' & [= <- <-] & -> & _). done.
  - destruct (Z.eqb_spec c 0) as [->|Hc].
    + destruct (load_user _ _ _ _ Hl) as (c & s' & [= <- <-] & -> & _). done.
    + destruct (load_user _ _ _ _ Hl) as (c' & s' & [= <- <-] & -> & Hl'). rewrite (proj2 (Z.eqb_neq c 0)) by done.
      specialize (IH n (va + 1) Hl'). destruct (path_loop st n (va + 1)) as [[p|]|]; [by rewrite IH|done..].
Qed.
Lemma path_of_string st s v : carries st (str s) v -> match copy_user_path_64 st v with Some (Some p) => p = cstr s | _ => True end.
Proof.
  intros [_ [_ Hl]]. rewrite length_app in Hl. unfold copy_user_path_64. destruct (v =? 0); [exact I|]. destruct (_ || _); [exact I|].
  by apply path_loop_string.
Qed.

(** ** The users' table is not touched *)

Definition users_kept st (r : option (Z * Kernel D Sc)) : Prop := match r with Some (_, st') => users st' = users st | None => True end.
Lemma user_store_users st va v st' : user_store st va v = Some st' -> users st' = users st.
Proof.
  unfold user_store. destruct (try_store _ _ _ _); [by intros [= <-]|]. case_match; [done|]. destruct (paging_handle_cow_fault _ _ _ _) as [rc m].
  case_match; [|done]. destruct (try_store m _ _ _); [|done]. by intros [= <-].
Qed.
Lemma store_bytes_users bs : forall st va st', store_bytes st va bs = Some st' -> users st' = users st.
Proof.
  induction bs as [|b bs IH]; intros st va st'; cbn [store_bytes]; [by intros [= ->]|].
  destruct (user_store st va b) as [st1|] eqn:E1; [|done]. intros E2. rewrite (IH _ _ _ E2). by eapply user_store_users.
Qed.
Lemma stored_users st st1 v va bs : users st1 = users st -> users_kept st (stored v (store_bytes st1 va bs)).
Proof.
  intros Hu. unfold stored, users_kept. destruct (store_bytes st1 va bs) as [st2|] eqn:E1; [|done]. cbn. by rewrite (store_bytes_users _ _ _ _ E1).
Qed.
Lemma give_up_users st : users (give_up_slice st) = users st.
Proof. unfold give_up_slice. by case_match. Qed.
Lemma read_fd_users st n va count : users_kept st (sys_read_fd fuel tcp_output st n va count).
Proof.
  unfold sys_read_fd. destruct (_ || _); [done|]. destruct (count =? 0); [done|]. cbv zeta. destruct (negb _); [done|].
  destruct (_ =? FD_TYPE_TTY).
  { destruct (tty_read _ _) as [out t]. case_match; [by apply stored_users|]. cbn. by rewrite give_up_users. }
  destruct (_ =? FD_TYPE_PIPE_R). { destruct (_ || _); [done|]. destruct (pipe_take _ _) as [out p]. by apply stored_users. }
  assert (Hthen : forall st1 bs v (f : Kernel D Sc -> Kernel D Sc), users st1 = users st -> (forall st2, users (f st2) = users st2) ->
    users_kept st (match store_bytes st1 va bs with None => None | Some st2 => Some (v, f st2) end)).
  { intros st1 bs v f E1 Hf. destruct (store_bytes st1 va bs) as [st2|] eqn:E2; [|done]. cbn. rewrite Hf, (store_bytes_users _ _ _ _ E2). exact E1. }
  destruct (_ =? FD_TYPE_FILE).
  { destruct (kfs_read_file _ _ _ _ _) as [[[total out]| |] fs]; [|done..]. destruct (total <? 0); [done|]. destruct (_ <=? 0); [done|]. by apply Hthen. }
  assert (Hy : forall r st2, users (if r =? 0 then give_up_slice st2 else st2) = users st2) by (intros r st2; case_match; [apply give_up_users|done]).
  destruct ((_ =? FD_TYPE_SOCK_TCP) && _).
  { destruct (tcp_recv _ _ _ _) as [[r out] t]. by apply (Hthen _ _ r (fun st2 => if r =? 0 then give_up_slice st2 else st2)). }
  destruct ((_ =? FD_TYPE_SOCK_UDP) && _); [|done].
  destruct (udp_recvfrom _ _ _) as [[[r out] src] u]. by apply (Hthen _ _ r (fun st2 => if r =? 0 then give_up_slice st2 else st2)).
Qed.
Lemma write_fd_users st n va count : users_kept st (sys_write_fd tcp_output udp_output st n va count).
Proof.
  unfold sys_write_fd. destruct (_ || _); [done|]. destruct (count =? 0); [done|]. cbv zeta. destruct (negb _); [done|].
  destruct (_ =? FD_TYPE_TTY); [by case_match|].
  destruct (_ =? FD_TYPE_PIPE_W). { destruct (_ || _); [done|]. destruct (pipe_put _ _). by case_match. }
  destruct (_ =? FD_TYPE_FILE); [case_match; [done|]; by destruct (kfs_write_file _ _ _ _)|].
  destruct ((_ =? FD_TYPE_SOCK_TCP) && _); [destruct (tcp_send _ _ _ _ _); by case_match|].
  destruct ((_ =? FD_TYPE_SOCK_UDP) && _); [|done]. destruct (udp_sendto _ _ _ _ _ _ _). by case_match.
Qed.
Lemma mkdir2_users st path : users_kept st (sys_mkdir2 st path).
Proof. unfold sys_mkdir2. destruct (copy_user_path_64 st path) as [[p|]|]; [|done..]. by destruct (kfs_mkdir _ _). Qed.
Lemma chdir_users st path : users_kept st (sys_chdir fuel stack st path).
Proof.
  unfold sys_chdir. case_match; [done|]. destruct (copy_user_path_64 st path) as [[p|]|]; [|done..]. case_match; [done|].
  destruct (_ =? 0); [done|]. by destruct (kfs_find_file _ _ _) as [[?| |] fs].
Qed.

(** ** The calls of login *)

(** What a call that is neither exit nor execve does is in [syscall_value]. *)
Abbreviation value := (syscall_value fuel tcp_output udp_output bcache_sync kernel_call interrupts polls garbage stack).
Lemma int80_value st frame frame' st1 : f_rax frame <> Syscalls.SYS_EXIT -> f_rax frame <> Syscalls.SYS_EXECVE -> int80 st frame = Some (frame', st1) ->
  exists v, value st frame = Some (v, st1) /\ f_rax frame' = u64 v.
Proof.
  intros N1 N2. unfold syscall. rewrite (proj2 (Z.eqb_neq _ _) N1), (proj2 (Z.eqb_neq _ _) N2). destruct (value st frame) as [[v st2]|]; [|done].
  intros [= <- <-]. by exists v.
Qed.
(** The dispatcher's choice, when the number is known. *)
Ltac at_call E := unfold syscall_value; cbv zeta; rewrite E;
  repeat match goal with |- context [Z.eqb ?a ?b] => is_const a; is_const b; let r := eval vm_compute in (a =? b) in change (a =? b) with r; cbv iota end.
Definition quiet_calls : list Z :=
  [Userlib.SYS_READ_FD; Userlib.SYS_WRITE_FD; Userlib.SYS_YIELD; Userlib.SYS_AUTH; Userlib.SYS_MKDIR2; Userlib.SYS_CHDIR; Userlib.SYS_GETUID].
Lemma quiet_value st frame : kernel_wf st -> f_rax frame ∈ quiet_calls -> 0 <= f_rcx frame < 2 ^ 64 -> 0 <= f_rdx frame < 2 ^ 64 ->
  owns st (value st frame) /\ users_kept st (value st frame).
Proof.
  intros Hwf Hc H2 H3. pose proof (kw_cur _ Hwf) as [[Hi _] _]. apply Z.leb_le in Hi.
  unfold quiet_calls in Hc. rewrite !elem_of_cons, elem_of_nil in Hc. destruct Hc as [E|[E|[E|[E|[E|[E|[E|[]]]]]]]].
  - change Userlib.SYS_READ_FD with Syscalls.SYS_READ_FD in E. at_call E. rewrite Hi. split; [by apply read_fd_owns|apply read_fd_users].
  - change Userlib.SYS_WRITE_FD with Syscalls.SYS_WRITE_FD in E. at_call E. rewrite Hi. split; [by apply write_fd_owns|apply write_fd_users].
  - change Userlib.SYS_YIELD with Syscalls.SYS_YIELD in E. at_call E. split; [by apply yield_owns|]. unfold sys_yield. by case_match.
  - change Userlib.SYS_AUTH with Syscalls.SYS_AUTH in E. at_call E. destruct (sys_auth garbage st _ _); [|done]. split; [by apply own_refl|done].
  - change Userlib.SYS_MKDIR2 with Syscalls.SYS_MKDIR2 in E. at_call E. split; [by apply mkdir2_owns|apply mkdir2_users].
  - change Userlib.SYS_CHDIR with Syscalls.SYS_CHDIR in E. at_call E. split; [by apply chdir_owns|apply chdir_users].
  - change Userlib.SYS_GETUID with Syscalls.SYS_GETUID in E. at_call E. split; [by apply own_refl|done].
Qed.

Lemma setuid_call st frame : kernel_wf st -> f_rax frame = Userlib.SYS_SETUID -> t_uid (cur st) = 0 ->
  match value st frame with
  | Some (_, st') => t_uid (cur st') = u16 (f_rbx frame) /\ t_gid (cur st') = t_gid (cur st) /\ users st' = users st
  | None => False
  end.
Proof.
  intros Hwf E Hu. pose proof (kw_cur _ Hwf) as [Hi _]. change Userlib.SYS_SETUID with Syscalls.SYS_SETUID in E. at_call E.
  unfold sys_setuid. rewrite (proj2 (Z.ltb_ge _ _)), Hu by lia. change (0 =? 0) with true. cbn [orb].
  set (t := cur st <| t_uid := u16 (f_rbx frame) |>). assert (Et : cur (set_cur st t) = t) by (apply (task_set st); [apply Hwf|done]).
  by rewrite Et.
Qed.
Lemma setgid_call st frame : kernel_wf st -> f_rax frame = Userlib.SYS_SETGID -> t_uid (cur st) = 0 ->
  match value st frame with
  | Some (_, st') => t_uid (cur st') = 0 /\ t_gid (cur st') = u16 (f_rbx frame) /\ users st' = users st
  | None => False
  end.
Proof.
  intros Hwf E Hu. pose proof (kw_cur _ Hwf) as [Hi _]. change Userlib.SYS_SETGID with Syscalls.SYS_SETGID in E. at_call E.
  unfold sys_setgid. rewrite (proj2 (Z.ltb_ge _ _)), Hu by lia. change (0 =? 0) with true. cbn [orb].
  set (t := cur st <| t_gid := u16 (f_rbx frame) |>). assert (Et : cur (set_cur st t) = t) by (apply (task_set st); [apply Hwf|done]).
  by rewrite Et.
Qed.

Lemma login_call_spec c a1 a2 a3 r st st' : c ∈ login_calls -> kernel_wf st -> kernel_serves c a1 a2 a3 r st st' ->
  kernel_wf st' /\ users st' = users st /\
  (c <> Userlib.SYS_SETUID -> c <> Userlib.SYS_SETGID -> t_uid (cur st') = t_uid (cur st) /\ t_gid (cur st') = t_gid (cur st)).
Proof.
  intros Hc Hwf (frame & frame' & st1 & E & _ & [C2 _] & [C3 _] & Hcall & _ & _ & _ & _ & Hw' & Hu' & U' & G').
  assert (Hx : c <> Syscalls.SYS_EXIT /\ c <> Syscalls.SYS_EXECVE) by (split; intros ->; revert Hc; apply (bool_decide_unpack _); vm_compute; exact I).
  destruct (int80_value st frame frame' st1) as (v & Hv & _); [rewrite E; apply Hx..|done|].
  split; [done|]. rewrite Hu', U', G'.
  destruct (Z.eq_dec c Userlib.SYS_SETUID) as [->|N1]; [|destruct (Z.eq_dec c Userlib.SYS_SETGID) as [->|N2]].
  - split; [|done]. revert Hv. change Userlib.SYS_SETUID with Syscalls.SYS_SETUID in E. at_call E. unfold sys_setuid.
    intros Hv. repeat case_match; by injection Hv as <- <-.
  - split; [|done]. revert Hv. change Userlib.SYS_SETGID with Syscalls.SYS_SETGID in E. at_call E. unfold sys_setgid.
    intros Hv. repeat case_match; by injection Hv as <- <-.
  - assert (Hq : f_rax frame ∈ quiet_calls).
    { rewrite E. unfold login_calls in Hc. unfold quiet_calls. rewrite !elem_of_cons, elem_of_nil in *. tauto. }
    destruct (quiet_value st frame Hwf Hq C2 C3) as [Ho Hk]. rewrite Hv in Ho, Hk. split; [exact Hk|]. intros _ _.
    destruct (own_cur _ _ Ho) as (_ & _ & Eu & Eg & _). by split.
Qed.
Lemma i32_u64 v : - 2 ^ 31 <= v < 2 ^ 31 -> i32 (u64 v) = v.
Proof. intros Hv. unfold i32, u64. dlia. Qed.
Lemma find_uid_range db name : (length (g_users db) <= 8)%nat -> -1 <= userdb_find_uid db name < 8.
Proof.
  intros Hl. unfold userdb_find_uid, find_name. destruct name as [n|]; [|lia]. case_match; [lia|].
  destruct (find_idx _ _) as [i|] eqn:E1; [|lia]. apply find_idx_lt in E1. rewrite length_take in E1. lia.
Qed.

(** The kernel keeps login's side of the bargain. *)
#[export] Program Instance kernel_user_laws : UserKernelLaws (Kernel D Sc).
Next Obligation.
  intros c a1 a2 a3 r st st' Hc [Hwf Hl] Hs. destruct (login_call_spec c a1 a2 a3 r st st' Hc Hwf Hs) as (Hwf' & Hu & _).
  split; [split; [done|by rewrite Hu]|]. intros u p i. cbn. unfold password_of. by rewrite Hu.
Qed.
Next Obligation.
  intros c a1 a2 a3 r st st' Hc N1 N2 [Hwf _] Hs. destruct (login_call_spec c a1 a2 a3 r st st' Hc Hwf Hs) as (_ & _ & He). by apply He.
Qed.
Next Obligation.
  intros u p a3 r st st' [Hwf Hl] (frame & frame' & st1 & E & C1 & C2 & _ & Hc & Er & _) Hr.
  destruct (int80_value st frame frame' st1) as (v & Hv & Ev); [by rewrite E..|done|]. rewrite Er, Ev in Hr |- *.
  assert (Hsome : sys_auth garbage st (f_rbx frame) (f_rcx frame) = Some v).
  { revert Hv. change Userlib.SYS_AUTH with Syscalls.SYS_AUTH in E. at_call E. destruct (sys_auth garbage st _ _); [|done]. by intros [= <- _]. }
  clear Hv. unfold sys_auth in Hsome. pose proof (path_of_string st u _ C1) as Pu. pose proof (path_of_string st p _ C2) as Pp.
  destruct C2 as [_ [Np _]]. rewrite (proj2 (Z.eqb_neq _ _) Np) in Hsome.
  destruct (copy_user_path_64 st (f_rbx frame)) as [[user|]|]; [subst user|by injection Hsome as <-|done].
  destruct (copy_user_path_64 st (f_rcx frame)) as [[pass|]|]; [subst pass|by injection Hsome as <-|done].
  destruct (Z.ltb_spec (userdb_authenticate garbage (users st) (cstr u) (Some (cstr p))) 0) as [|Ha]; [by injection Hsome as <-|].
  pose proof (find_uid_range (users st) (Some (cstr u)) Hl) as Hf. set (uid := userdb_find_uid _ _) in *.
  assert (v = uid) as -> by congruence. rewrite i32_u64 in Hr |- * by lia. by split.
Qed.
Next Obligation.
  intros g a2 a3 r st st' [Hwf _] Hu (frame & frame' & st1 & E & [_ Eg] & _ & _ & Hc & _ & _ & _ & _ & _ & _ & U' & G').
  destruct (int80_value st frame frame' st1) as (v & Hv & _); [by rewrite E..|done|]. pose proof (setgid_call st frame Hwf E Hu) as Hs.
  rewrite Hv in Hs. destruct Hs as (Hs1 & Hs2 & _). cbn. rewrite U', G', Hs1, Hs2, Eg. done.
Qed.
Next Obligation.
  intros u a2 a3 r st st' [Hwf _] Hu (frame & frame' & st1 & E & [_ Eg] & _ & _ & Hc & _ & _ & _ & _ & _ & _ & U' & G').
  destruct (int80_value st frame frame' st1) as (v & Hv & _); [by rewrite E..|done|]. pose proof (setuid_call st frame Hwf E Hu) as Hs.
  rewrite Hv in Hs. destruct Hs as (Hs1 & Hs2 & _). cbn. rewrite U', G', Hs1, Hs2, Eg. done.
Qed.
Next Obligation.
  intros st u p i [_ Hl] (_ & Hf & Hi). pose proof (find_uid_range (users st) (Some (cstr u)) Hl). rewrite Hf in *. lia.
Qed.

(** ** Playing a program

    The program runs on the kernel, its calls made with their arguments somewhere in the caller's memory. *)

(** The register for an argument; [place] finds bytes in the memory. *)
Context (place : bytes -> Z).
Definition register (a : Arg) : Z := match a with Val v => v | In s => place s | Out _ => place [] end.
Definition carried st (a : Arg) (v : Z) : bool :=
  (0 <=? v) && (v <? 2 ^ 64) && match a with In s => negb (v =? 0) && bool_decide (load_bytes st (length s) v = Some s) | _ => true end.
(** What the buffer in the second register, if any, holds. *)
Definition is_out (a : Arg) : bool := match a with Out _ => true | _ => false end.
Definition buffer st (a : Arg) : option bytes := match a with Out n => load_bytes st (Z.to_nat n) (register a) | _ => Some [] end.
Definition play_call st (c : Z) (a1 a2 a3 : Arg) : option (Z * bytes * Kernel D Sc) :=
  let frame := call_frame c (register a1) (register a2) (register a3) in
  if bool_decide (c ∈ login_calls) && carried st a1 (register a1) && carried st a2 (register a2) && carried st a3 (register a3) && negb (is_out a1 || is_out a3) then
    match int80 st frame with
    | Some (frame', st1) => (fun out => (f_rax frame', out, st1)) <$> buffer st1 a2
    | None => None
    end
  else None.
(** Up to a call that is not one of login's first ones, or [n] steps. *)
Fixpoint play {R} (n : nat) st (t : prog R) : Kernel D Sc * prog R :=
  match n with
  | O => (st, t)
  | S n =>
      match observe t with
      | RetF _ => (st, t)
      | TauF t1 => play n st t1
      | VisF c k =>
          match c in Sys X return (X -> prog R) -> Kernel D Sc * prog R with
          | Int80 c a1 a2 a3 => fun k =>
              match play_call st c a1 a2 a3 with Some (v, out, st1) => play n st1 (k (v, out)) | None => (st, t) end
          end k
      end
  end.
Lemma carried_ok st a v : v = register a -> carried st a v = true -> carries st a v.
Proof.
  intros -> Hc. unfold carried in Hc. rewrite !andb_true_iff in Hc. destruct Hc as [[H1 H2] H3]. split; [lia|].
  destruct a as [w|s|w]; [done| |done]. apply andb_true_iff in H3 as [H3 H4]. split; [lia|]. by apply bool_decide_eq_true in H4.
Qed.
Lemma setids_wf st frame v st1 : kernel_wf st -> f_rax frame = Userlib.SYS_SETUID \/ f_rax frame = Userlib.SYS_SETGID -> value st frame = Some (v, st1) -> kernel_wf st1.
Proof.
  intros Hwf [E|E]; [change Userlib.SYS_SETUID with Syscalls.SYS_SETUID in E|change Userlib.SYS_SETGID with Syscalls.SYS_SETGID in E]; at_call E; intros [= E1].
  - pose proof (setuid_protects st (f_rbx frame) Hwf) as [[Hw _] _]. by rewrite E1 in Hw.
  - pose proof (setgid_protects st (f_rbx frame) Hwf) as [[Hw _] _]. by rewrite E1 in Hw.
Qed.
Lemma play_call_serves st c a1 a2 a3 v out st1 : kernel_wf st -> play_call st c a1 a2 a3 = Some (v, out, st1) ->
  kernel_wf st1 /\ kernel_serves c a1 a2 a3 (v, out) st st1.
Proof.
  intros Hwf. unfold play_call. destruct (_ && _) eqn:Ec; [|done]. rewrite !andb_true_iff, bool_decide_eq_true in Ec. destruct Ec as [[[[Hc C1] C2] C3] Ho].
  set (frame := call_frame _ _ _ _) in *. destruct (int80 st frame) as [[frame' st2]|] eqn:Ei; [|done].
  assert (Hw : kernel_wf st2).
  { assert (Hx : c <> Syscalls.SYS_EXIT /\ c <> Syscalls.SYS_EXECVE) by (split; intros ->; revert Hc; apply (bool_decide_unpack _); vm_compute; exact I).
    destruct (int80_value st frame frame' st2 (proj1 Hx) (proj2 Hx) Ei) as (w & Hv & _).
    apply (carried_ok _ _ _ eq_refl) in C2, C3. destruct C2 as [C2 _], C3 as [C3 _].
    destruct (decide (c ∈ quiet_calls)) as [Hq|Hq].
    - destruct (quiet_value st frame Hwf Hq C2 C3) as [Hown _]. rewrite Hv in Hown. apply Hown.
    - apply (setids_wf st frame w st2 Hwf); [|done]. change (f_rax frame) with c. revert Hc Hq. unfold login_calls, quiet_calls.
      rewrite !elem_of_cons, elem_of_nil. tauto. }
  destruct (buffer st2 a2) as [out2|] eqn:Eb; [|done]. intros [= <- <- <-]. split; [done|].
  apply negb_true_iff, orb_false_iff in Ho as [O1 O3].
  exists frame, frame', st2. split; [done|]. split; [by apply carried_ok|]. split; [by apply carried_ok|]. split; [by apply carried_ok|].
  split; [done|]. split; [done|]. split; [by destruct a1|]. split; [by destruct a2|]. split; [by destruct a3|]. by split.
Qed.
Lemma play_runs {R} n : forall st (t : prog R), kernel_wf st -> runs kernel_serves st t (play n st t).1 (play n st t).2.
Proof.
  induction n as [|n IH]; intros st t Hwf; cbn [play]; [apply runs_here|]. destruct (observe t) as [r|t1|X c k] eqn:Eo; [apply runs_here|by eapply runs_on, IH|].
  destruct c as [c a1 a2 a3]. destruct (play_call st c a1 a2 a3) as [[[v out] st1]|] eqn:Ep; [|apply runs_here].
  destruct (play_call_serves _ _ _ _ _ _ _ _ Hwf Ep) as [Hw Hs]. by eapply runs_call, IH.
Qed.

(** C5. From the start of login in a task of root, over whatever is typed, whatever the system calls answer and whatever
    other tasks do between them: when login asks the kernel to run a program, it is the shell, and login's task has the
    uid and the gid of a user of the table whose password login has had the kernel check. *)
Theorem shell_runs_as_the_user st0 st t path a2 a3 : kernel_wf st0 -> (length (g_users (users st0)) <= 8)%nat -> t_uid (cur st0) = 0 ->
  runs kernel_serves st0 login_main st t -> asks t Userlib.SYS_EXECVE path a2 a3 ->
  path = str SHELL_PATH /\ exists user pass uid, password_of st0 user pass uid /\ t_uid (cur st) = uid /\ t_gid (cur st) = uid.
Proof.
  intros Hwf Hl Hu Hr Ha.
  exact (triple_asks kernel_serves (as_user st0) _ _ _ st0 st t _ _ _ _ (login_safe st0 (conj Hwf Hl) Hu) eq_refl Hr Ha eq_refl).
Qed.
End user_kernel.

(** ** A login

    Two users, root and, without a password, alice; her name and an empty line are in the terminal.  A page of the caller's memory
    holds the texts that login writes. *)
Definition texts : bytes := [13; 10; 13; 10] ++ lit "login: password: " ++ lit "alice" ++ [0] ++ lit "/root" ++ [0] ++ lit "/home/" ++ lit "alice" ++ [0] ++
  lit "/" ++ [0] ++ lit "Welcome (uid=%d), home= shell: " ++ SHELL_PATH ++ [0] ++ lit "Login incorrect" ++ [13; 10; 13; 10] ++ lit "0123456789".
Definition TEXT_AT := 0x10100000.
Fixpoint find_text (fuel : nat) (at_ : Z) (text s : bytes) : Z :=
  match fuel with
  | O => TEXT_AT
  | S fuel => if bool_decide (take (length s) text = s) then at_ else find_text fuel (at_ + 1) (drop 1 text) s
  end.
Definition placed (s : bytes) : Z := match s with [] => TEXT_AT + 2048 | _ => find_text (length texts) TEXT_AT texts s end.
Definition typed : bytes := lit "alice" ++ [10; 10].
Definition root_user : UserRecord := mkUserRecord (blit (zeros 32) 0 (lit "root")) (zeros 32) 100 1.
Definition alice : UserRecord := mkUserRecord (blit (zeros 32) 0 (lit "alice")) (zeros 32) 50 5.
Definition with_page : Kernel (Bcache.Bcache RamDisk) unit := (sys_sbrk kernel0 4096).2.
Definition with_text : Kernel (Bcache.Bcache RamDisk) unit := default with_page (store_bytes with_page TEXT_AT texts).
Definition with_fds : Kernel (Bcache.Bcache RamDisk) unit := set_cur with_text (cur with_text <| fd_table := fd_table_init [] |>).
Definition login0 : Kernel (Bcache.Bcache RamDisk) unit :=
  with_fds <| users := UserDb.mkUserDb [root_user; alice] 2 true |>
    <| console := console with_fds <| kernel_tty0 := mkTty (blit (zeros 256) 0 typed) 0 7 7 true (zeros 256) 0 true |> |>.

Lemma with_page_wf : kernel_wf with_page.
Proof.
  pose proof (sbrk_isolates kernel0 4096 kernel0_wf) as Hs. unfold with_page. destruct (sys_sbrk kernel0 4096) as [v st].
  apply Hs. intros _. vm_compute. split; congruence.
Qed.
Section set_up.
Implicit Types (st : Kernel (Bcache.Bcache RamDisk) unit).
Lemma stored_wf st va bs : kernel_wf st -> 64 * 2 ^ 21 <= va -> va + Z.of_nat (length bs) <= 2 ^ 30 -> kernel_wf (default st (store_bytes st va bs)).
Proof.
  intros Hwf H1 H2. destruct (store_bytes st va bs) as [st'|] eqn:E1; [|done]. by apply (own_wf st), (own_store_bytes bs st va).
Qed.
Lemma fds_wf st t : kernel_wf st -> kernel_wf (set_cur st (cur st <| fd_table := t |>)).
Proof. intros Hwf. by apply (own_wf st), own_set_cur. Qed.
Lemma inputs_wf st u c : kernel_wf st -> kernel_wf (st <| users := u |> <| console := c |>).
Proof. intros Hwf. by apply (own_wf st), own_devices. Qed.
End set_up.
Lemma login0_wf : kernel_wf login0.
Proof.
  refine (inputs_wf with_fds _ _ (fds_wf with_text _ (stored_wf with_page TEXT_AT texts with_page_wf _ _))); vm_compute; congruence.
Qed.
Abbreviation play0 := (play 100 (fun _ _ => 0) (fun _ _ _ => 0) (fun _ => 0) (fun d => (0, d)) (fun st _ _ _ _ => (-1, st)) (fun st => st) 0
  no_hash [] placed 300 login0 login_main).
Abbreviation serves0 := (kernel_serves 100 (fun _ _ => 0) (fun _ _ _ => 0) (fun _ => 0) (fun d => (0, d)) (fun st _ _ _ _ => (-1, st)) (fun st => st) 0
  no_hash []).
Definition at_execve {R} (t : prog R) : bool :=
  match observe t with VisF c _ => match c with Int80 c _ _ _ => c =? Userlib.SYS_EXECVE end | _ => false end.
Lemma at_execve_asks {R} (t : prog R) : at_execve t = true -> exists path a2 a3, asks t Userlib.SYS_EXECVE path a2 a3.
Proof.
  unfold at_execve, asks. destruct (observe t) as [| |X [c a1 a2 a3] k] eqn:Eo; [done..|]. intros ->%Z.eqb_eq. by exists a1, a2, a3, k.
Qed.
(** alice logs in: login runs up to the call of the shell, as the user 1. *)
Lemma shell_runs_as_the_user_witness : exists st t path a2 a3,
  runs serves0 login0 login_main st t /\ asks t Userlib.SYS_EXECVE path a2 a3 /\ t_uid (cur st) = 1 /\
  path = str SHELL_PATH /\ exists user pass uid, password_of no_hash login0 user pass uid /\ t_uid (cur st) = uid /\ t_gid (cur st) = uid.
Proof.
  assert (Hx : at_execve play0.2 = true) by (vm_compute; reflexivity). destruct (at_execve_asks _ Hx) as (path & a2 & a3 & Ha).
  assert (Hr : runs serves0 login0 login_main play0.1 play0.2) by exact (play_runs _ _ _ _ _ _ _ _ _ _ _ 300 login0 login_main login0_wf).
  exists play0.1, play0.2, path, a2, a3. split; [exact Hr|]. split; [exact Ha|]. split; [vm_compute; reflexivity|].
  refine (shell_runs_as_the_user _ _ _ _ _ _ _ _ _ _ login0 _ _ path a2 a3 login0_wf _ _ Hr Ha); [vm_compute; lia|vm_compute; reflexivity].
Defined.
